(* ===== verification/_CoqProject ===== *)
-Q . S2P
Prelude.v
Mmio.v
TsQueue.v
TsCapture.v
Qbv.v
PtpClock.v
Kernel.v
DsaTypes.v
SdsaTag.v
DsaSwitch.v
Dsa8021q.v
DsaEvent.v
DsaFrames.v
DsaSafe.v
DsaGroups.v
DsaPort.v
DsaMember.v
DsaJoin.v
DsaLife.v
DsaTree.v
DsaRoutes.v
DsaAccount.v
DsaUpDown.v
DsaTreeLife.v
DsaTreeAccount.v
DsaTreeCycle.v
TagDrivers.v
DsaRegister.v
DsaPlatform.v
DsaRegLife.v
DsaTagger.v
DsaLoop.v
DsaLoopDrv.v
XdmaEngine.v
XdmaDev.v
XdmaVectors.v
XdmaBars.v
XdmaEngines.v
XdmaIrqs.v
XdmaLife.v
NicTx.v
NicRx.v
XdmaIsr.v
NicMdio.v
NicCtl.v
NicProbe.v
