(* ===== verification/Prelude.v ===== *)
(** * AXM57104A driver: verification development

    The driver serves a PCIe card that joins a Time Sensitive Networking switch
    and a DMA endpoint.  Its code is in four layers: the endpoint and its network
    device (src/libxdma.c, src/xdma_mod.c), the time functions of the switch
    (src/switch/), and a copy of the kernel's DSA core with a driver for this
    switch (src/DSA/).  This library models them layer by layer and proves what
    makes each correct, then what their composition promises.

    ** Conventions

    C integers are [Z] with their wrap-around written out ([u8] .. [u64]).  There
    are two effect monads.  [Mmio.io] is for code that talks to registers: any
    [Device] answers the loads and absorbs the stores, the accesses are recorded
    in order, a run ends normally, in a fault, or out of fuel.  [Kernel.st] is for
    the DSA core: a state with an allocator and a switch driver, in which a null
    or dangling pointer, a leaked or doubled reference is a fault.  The kernel,
    the hardware and the network stack are parameters: classes that state their
    documented behaviour ([Refcount], [CaptureHw], [NetQueries], [NetEffects],
    ...), each with an instance the theorems are run on.  Locks make the sections
    they guard atomic; interleavings are sequences of such sections.

    ** Files

    Shared: [Prelude] (integers, lists, tactics), [Mmio] (registers), [Kernel]
    (reference counts, counted lists, the monad of the DSA core).

    Time functions of the switch: [TsQueue] the circular queues of captured
    timestamps, [TsCapture] draining the capture hardware and stamping frames,
    [Qbv] the handlers of gate schedules (all of switch/ax_switch.c), [PtpClock]
    the clocks (switch/ax_ptp.c).

    The fabric: [DsaTypes] data and queries (DSA/dsa.h); [DsaSwitch] the events
    a switch handles (switch.c); [Dsa8021q] (tag_8021q.c); [DsaEvent] the notifier
    chains and the conduit's state; [DsaFrames] the way of a frame between a
    conduit and the user interfaces (tag.c, tag.h, user.c); [DsaSafe] the proof that no event faults;
    [DsaGroups] bridges and LAGs of a tree; [DsaPort], [DsaMember], [DsaJoin] the
    operations of a port and their atomicity (port.c); [DsaLife] ports and
    switches up and down (dsa2.c, user.c, conduit.c, devlink.c) with the proofs
    in [DsaAccount], [DsaUpDown], [DsaTreeLife]; [DsaTree] and [DsaRoutes] the
    tree (dsa2.c), with [DsaTreeAccount] and [DsaTreeCycle]; [SdsaTag] the tag on
    the wire (tag_asix.c, and the lookups of libxdma.c); [TagDrivers] (tag.c);
    [DsaRegister], [DsaPlatform], [DsaRegLife] the registration of switches;
    [DsaTagger] the change of the tagging protocol of a tree (conduit.c, dsa2.c,
    switch.c, user.c); [DsaLoop] the driver of this switch and [DsaLoopDrv] its probe and removal
    (dsa_loop.c).

    The endpoint: [XdmaEngine] descriptors and engines, [XdmaDev] set-up, close
    and resets, with the proofs in [XdmaVectors], [XdmaBars], [XdmaEngines],
    [XdmaIrqs], [XdmaLife]; [XdmaIsr] the interrupt handlers that join the layers
    (libxdma.c).

    The network device (xdma_mod.c, and the interrupts of channels in libxdma.c):
    [NicTx], [NicRx], [NicMdio], [NicCtl]; [NicProbe] the probe and the removal of
    the PCI driver, which compose the set-up of all the others.

    ** How the parts meet

    A frame for port [p] leaves its interface ([DsaFrames.dsa_user_xmit]) with a
    tag ([SdsaTag.sdsa_xmit]), goes into the ring ([NicTx]), and if a timestamp was asked for waits in a queue until the
    tasklet ([XdmaIsr.tasklet_ptp]) drains the capture hardware ([TsCapture])
    into a [TsQueue] and finds its stamp.  A frame received is taken from the
    ring by [NicRx], stamped the same way and handed up, where
    [DsaFrames.dsa_switch_rcv] has the tagger ([SdsaTag.sdsa_rcv]) find its port.  A request of the switch arrives at [XdmaIsr] and is served by
    [Qbv].  A change in the network stack arrives at a port ([DsaPort],
    [DsaMember]), becomes an event ([DsaEvent]) and reaches the hardware through
    the operations of the switch driver, of which [DsaLoop] is an instance.
    [XdmaLife] and [DsaRegLife] follow the life of the device and of the fabric.

    ** What the theorems show

    Data structures: the timestamp queue refines a bounded history
    ([tsq_refines_history]); counted addresses and VLANs on shared ports are in
    hardware exactly while someone uses them ([port_addresses_counted]); bridges
    and LAGs have one object each while they have members ([bridge_groups]); the
    driver's VLAN table refines its specification ([loop_vlans_refine]).

    Time: draining and stamping end and deliver the right capture
    ([retrieve_hw_timestamps_spec], [tx_hwtstamp_spec], [rx_frame_stamped],
    [tasklet_serves]); schedules start on their grid without overflow
    ([get_cycle_start_time_spec], [irq_config_change_spec],
    [irq_timer_value_change_spec]); clocks are stepped and steered exactly
    ([adjtime_spec], [adjfine_spec]).

    Frames: a frame and its tag round trip ([frame_round_trip], on the lemmas of
    [SdsaTag]; [vid_roundtrip]); the rings are
    queues under every interleaving with the interrupts ([tx_fifo], [rx_fifo]),
    the network queue never stays stopped ([tx_queue_reopens]), a poll ends and
    keeps its budget ([ax_net_poll_spec]), the receive filter is exact
    ([multicast_filter_exact]).

    Safety and atomicity of the fabric: no event faults in a well-formed tree
    ([events_never_fault]); joining is atomic and leaving complete
    ([bridge_join_atomic], [bridge_leave_ok]); conduits are told of exactly their
    transitions ([conduit_told_transitions]).

    Life cycles, where whatever can fail may fail: ports, switches, interfaces
    ([port_up_down], [user_create_atomic]), trees ([tree_life],
    with [routing_table] and [cpu_ports_assigned]), registration
    ([registered_life], [loop_board_life]), the tagger of a tree
    ([tagging_store_spec]), the endpoint ([device_life],
    [msix_vectors_programmed]), its engines ([transfer_desc_init_spec]) and its
    interrupts ([user_interrupt_served]).

    Control: PHY modes ([phy_timer_tracks]), the MAC address ([i2c_mac_valid]),
    private requests ([privioctl_safe]).

    ** Fuel and bounds

    Loops over device state take fuel and their theorems say how much is enough:
    one more than the captures the FIFOs hold for the drains, as many turns as
    frames are queued for the tasklet, the retry counts of the source where it
    has them (21 attempts to stamp, the MDIO wait, three EEPROM tries).  A tree's
    recursions take the number of its ports or switches.  No theorem assumes that
    a run ends.

    ** Hypotheses

    Set-up of a tree is proved for one CPU port, with the registration of MDIO
    buses and devlinks succeeding, without data center bridging, and with switch
    drivers that only answer.  Registration is proved for platform data, with
    trees at fresh addresses and their allocation succeeding.  The life of the
    endpoint assumes the tasklet allocated, and made before an interrupt is
    refused.  A change of the tagging protocol is
    proved for user interfaces outside bridges whose CPU port's switch is notified
    no later than their own, and drivers that accept again the protocol they had.
    The life of a binding assumes that the calls succeed whose failure
    the error paths of the probe do not survive ([NicProbe.needed]).  Each is a
    named hypothesis, discharged in the witness.

    ** Not modelled

    The tracepoints, which have no effect; the registration of the PCI driver with
    the kernel; code for kernels before 6.0 and configurations that are not
    compiled in (AX_MQ, AX_CONFIG_PM, IRQ affinity, AX_DSA_LOOP_PHY_READ, PORT_MTU_ENABLE);
    debug output.  Of DSA/user.c and DSA/port.c the operations that only forward
    a call to the switch driver or to phylink (ethtool, traffic control,
    statistics), of devlink.c the same, netlink.c, and of conduit.c the replaced
    ethtool operations.  In these the code has no state of its own. *)

From Stdlib Require Import ZArith Lia Bool.
From stdpp Require Export base list option numbers gmap.

#[global] Open Scope Z_scope.

(** ** Machine integers

    The C integer types of the driver at their width: a value of type [uN]
    is the representative in [0, 2^N). *)

Definition u8 (x : Z) : Z := x mod 2 ^ 8.
Definition u16 (x : Z) : Z := x mod 2 ^ 16.
Definition u32 (x : Z) : Z := x mod 2 ^ 32.
Definition u64 (x : Z) : Z := x mod 2 ^ 64.

Definition is_u8 (x : Z) : Prop := 0 <= x < 2 ^ 8.
Definition is_u16 (x : Z) : Prop := 0 <= x < 2 ^ 16.
Definition is_u32 (x : Z) : Prop := 0 <= x < 2 ^ 32.
Definition is_u64 (x : Z) : Prop := 0 <= x < 2 ^ 64.

Create HintDb machine.
Create Rewrite HintDb machine.

Lemma u8_range x : is_u8 (u8 x).
Proof. apply Z.mod_pos_bound; lia. Qed.
Lemma u16_range x : is_u16 (u16 x).
Proof. apply Z.mod_pos_bound; lia. Qed.
Lemma u32_range x : is_u32 (u32 x).
Proof. apply Z.mod_pos_bound; lia. Qed.
Lemma u64_range x : is_u64 (u64 x).
Proof. apply Z.mod_pos_bound; lia. Qed.

Lemma u8_small x : is_u8 x -> u8 x = x.
Proof. apply Z.mod_small. Qed.
Lemma u16_small x : is_u16 x -> u16 x = x.
Proof. apply Z.mod_small. Qed.
Lemma u32_small x : is_u32 x -> u32 x = x.
Proof. apply Z.mod_small. Qed.
Lemma u64_small x : is_u64 x -> u64 x = x.
Proof. apply Z.mod_small. Qed.

Lemma u32_idem x : u32 (u32 x) = u32 x.
Proof. apply u32_small, u32_range. Qed.
Lemma u64_idem x : u64 (u64 x) = u64 x.
Proof. apply u64_small, u64_range. Qed.

#[export] Hint Resolve u8_range u16_range u32_range u64_range : machine.
#[export] Hint Rewrite u32_idem u64_idem : machine.

(** The arithmetic tactic of the development: wrap-around is turned into
    quotients and remainders, then decided. *)
Ltac zwrap :=
  unfold is_u8, is_u16, is_u32, is_u64, u8, u16, u32, u64 in *;
  Z.div_mod_to_equations; lia.

(** The C division [div_u64] (and [div_u64_rem]): a zero divisor faults. *)
Definition div_u64 (dividend divisor : Z) : option Z :=
  if divisor =? 0 then None else Some (dividend / divisor).

(** ** Bit operations *)

Lemma land_ones_mod x n : 0 <= n -> Z.land x (2 ^ n - 1) = x mod 2 ^ n.
Proof.
  intros Hn. rewrite <- Z.land_ones by lia. rewrite Z.ones_equiv.
  by rewrite <- Z.sub_1_r.
Qed.

(** An [or] of values that share no bit is their sum. *)
Lemma lor_add_low a b n :
  0 <= n -> 0 <= b < 2 ^ n -> a mod 2 ^ n = 0 -> Z.lor a b = a + b.
Proof.
  intros Hn Hb Ha.
  assert (Hd : Z.land a b = 0).
  { apply Z.bits_inj'. intros i Hi. rewrite Z.land_spec, Z.bits_0.
    destruct (decide (i < n)) as [Hlt | Hge].
    - rewrite <- (Z.mod_pow2_bits_low a n i) by lia. rewrite Ha, Z.bits_0. done.
    - rewrite <- (Z.mod_small b (2 ^ n)) by lia.
      rewrite (Z.mod_pow2_bits_high b n i) by lia. apply andb_false_r. }
  pose proof (Z.add_lor_land a b) as H. rewrite Hd in H. lia.
Qed.

(** [x & (1 << i)] tests bit [i]. *)
Lemma land_bit_testbit x i :
  0 <= i -> (negb (Z.land x (Z.shiftl 1 i) =? 0)) = Z.testbit x i.
Proof.
  intros Hi. rewrite Z.shiftl_1_l.
  destruct (Z.testbit x i) eqn:E.
  - apply negb_true_iff, Z.eqb_neq. intros H.
    assert (Ht : Z.testbit (Z.land x (2 ^ i)) i = true).
    { by rewrite Z.land_spec, E, Z.pow2_bits_true. }
    by rewrite H, Z.bits_0 in Ht.
  - apply negb_false_iff, Z.eqb_eq. apply Z.bits_inj'. intros j Hj.
    rewrite Z.land_spec, Z.bits_0. destruct (decide (i = j)) as [-> | Hne].
    + by rewrite E.
    + rewrite Z.pow2_bits_false by lia. apply andb_false_r.
Qed.

(** ** Arrays indexed by C integers

    [getz]/[setz] are a load and a store of a C array: an index outside the
    array is [None], the undefined behaviour the driver must not reach. *)

Definition getz {A} (l : list A) (i : Z) : option A :=
  if decide (0 <= i) then l !! Z.to_nat i else None.

Definition setz {A} (l : list A) (i : Z) (x : A) : option (list A) :=
  if decide (0 <= i < Z.of_nat (length l)) then Some (<[Z.to_nat i := x]> l)
  else None.

Lemma getz_nonneg {A} (l : list A) i : 0 <= i -> getz l i = l !! Z.to_nat i.
Proof. intros H. unfold getz. by rewrite decide_True. Qed.

Lemma getz_0 {A} (a : A) l : getz (a :: l) 0 = Some a.
Proof. done. Qed.
Lemma getz_1 {A} (a b : A) l : getz (a :: b :: l) 1 = Some b.
Proof. done. Qed.

Lemma getz_in {A} (l : list A) i :
  0 <= i < Z.of_nat (length l) -> exists x, getz l i = Some x.
Proof.
  intros H. unfold getz. rewrite decide_True by lia.
  destruct (lookup_lt_is_Some_2 l (Z.to_nat i)) as [x Hx]; [lia | by exists x].
Qed.

Lemma getz_Some_range {A} (l : list A) i x :
  getz l i = Some x -> 0 <= i < Z.of_nat (length l).
Proof.
  unfold getz. case_decide; [| done]. intros H2%lookup_lt_Some. lia.
Qed.

Lemma setz_in {A} (l : list A) i x :
  0 <= i < Z.of_nat (length l) -> setz l i x = Some (<[Z.to_nat i := x]> l).
Proof. intros H. unfold setz. by rewrite decide_True. Qed.

Lemma setz_length {A} (l l' : list A) i x :
  setz l i x = Some l' -> length l' = length l.
Proof. unfold setz. case_decide; [| done]. intros [= <-]. apply length_insert. Qed.

Lemma getz_setz_eq {A} (l l' : list A) i x :
  setz l i x = Some l' -> getz l' i = Some x.
Proof.
  unfold setz, getz. case_decide; [| done]. intros [= <-].
  rewrite decide_True by lia. apply list_lookup_insert_eq. lia.
Qed.

Lemma getz_setz_ne {A} (l l' : list A) i j x :
  setz l i x = Some l' -> i <> j -> getz l' j = getz l j.
Proof.
  unfold setz, getz. case_decide; [| done]. intros [= <-] Hne.
  case_decide; [| done]. apply list_lookup_insert_ne. lia.
Qed.

(** Consecutive byte stores from offset [i]. *)
Fixpoint store_bytes (b : list Z) (i : Z) (l : list Z) : option (list Z) :=
  match l with
  | [] => Some b
  | v :: l' => b ← setz b i (u8 v); store_bytes b (i + 1) l'
  end.

Lemma setz_app {A} (a : list A) v old c : setz (a ++ old :: c) (Z.of_nat (length a)) v = Some (a ++ v :: c).
Proof.
  rewrite setz_in by (rewrite length_app; simpl; lia). rewrite Nat2Z.id.
  by rewrite insert_app_r_alt, Nat.sub_diag by lia.
Qed.

Lemma store_bytes_app a old c l : length old = length l ->
  store_bytes (a ++ old ++ c) (Z.of_nat (length a)) l = Some (a ++ (u8 <$> l) ++ c).
Proof.
  revert a old. induction l as [| v l IH]; intros a [| o old] Hl; try discriminate Hl; [done |].
  rewrite <- app_comm_cons. cbn [store_bytes]. rewrite setz_app. cbn [mbind option_bind].
  rewrite fmap_cons, <- app_comm_cons.
  replace (a ++ u8 v :: old ++ c) with ((a ++ [u8 v]) ++ old ++ c) by (by rewrite <- app_assoc).
  replace (Z.of_nat (length a) + 1) with (Z.of_nat (length (a ++ [u8 v])))
    by (rewrite length_app; simpl; lia).
  rewrite IH by (simpl in Hl; lia). by rewrite <- app_assoc.
Qed.

Lemma getz_app {A} (a : list A) v c i : i = Z.of_nat (length a) -> getz (a ++ v :: c) i = Some v.
Proof.
  intros ->. rewrite getz_nonneg by lia. rewrite Nat2Z.id.
  by rewrite lookup_app_r, Nat.sub_diag by lia.
Qed.

(** ** Lists *)

(** A boolean property of the integers below [n], checked one by one. *)
Lemma forall_below (n : Z) (f : Z -> bool) :
  forallb f (seqZ 0 n) = true -> forall i, 0 <= i < n -> f i = true.
Proof.
  intros H i Hi. rewrite forallb_forall in H. apply H.
  apply list_elem_of_In, elem_of_seqZ. lia.
Qed.

Lemma omap_cons {A B} (f : A -> option B) a l :
  omap f (a :: l) = match f a with Some b => b :: omap f l | None => omap f l end.
Proof. done. Qed.

Lemma omap_length_all {A B} (f : A -> option B) (l : list A) :
  (forall x, x ∈ l -> is_Some (f x)) -> length (omap f l) = length l.
Proof.
  induction l as [| a l IH]; intros H; [done |]. rewrite omap_cons.
  destruct (H a) as [b Hb]; [by left |]. rewrite Hb. simpl.
  f_equal. apply IH. intros x Hx. apply H. by right.
Qed.

Lemma omap_ext_in {A B} (f g : A -> option B) (l : list A) :
  (forall x, x ∈ l -> f x = g x) -> omap f l = omap g l.
Proof.
  induction l as [| a l IH]; intros H; [done |]. rewrite !omap_cons.
  rewrite (H a) by (by left). rewrite IH; [done |]. intros x Hx. apply H. by right.
Qed.

Lemma omap_take {A B} (f : A -> option B) (l : list A) n :
  (forall x, x ∈ l -> is_Some (f x)) -> omap f (take n l) = take n (omap f l).
Proof.
  revert n. induction l as [| a l IH]; intros n H; destruct n as [| n]; try done.
  rewrite firstn_cons, !omap_cons.
  destruct (H a) as [b Hb]; [by left |]. rewrite Hb. rewrite firstn_cons.
  f_equal. apply IH. intros x Hx. apply H. by right.
Qed.

Lemma take_app_take {A} n (a b : list A) : take n (a ++ take n b) = take n (a ++ b).
Proof. rewrite !take_app, take_take. f_equal. f_equal. lia. Qed.

Lemma omap_fmap {A B C} (f : A -> B) (g : B -> option C) (l : list A) :
  omap g (f <$> l) = omap (fun x => g (f x)) l.
Proof. induction l as [| a l IH]; [done |]. rewrite fmap_cons, !omap_cons, IH. done. Qed.

(** ** Kernel error numbers *)

Definition ENOENT : Z := 2.
Definition EBUSY : Z := 16.
Definition EEXIST : Z := 17.
Definition ENODEV : Z := 19.
Definition EFAULT : Z := 14.
Definition ENOMEM : Z := 12.
Definition EINVAL : Z := 22.
Definition ERANGE : Z := 34.
Definition EOPNOTSUPP : Z := 95.
Definition EADDRNOTAVAIL : Z := 99.
