(* ===== verification/Mmio.v ===== *)
(** * Memory-mapped registers

    The hardware is a parameter: a [Device] answers reads and absorbs writes.
    A driver routine is a value of the monad [io], which threads the device
    state, records every access in order, and ends normally ([Ok]), in a fault
    ([Trap]: division by zero, access outside an array) or, for the loops that
    poll a register, with its fuel exhausted ([NoFuel]). *)

From Stdlib Require Import ZArith Lia.
From S2P Require Import Prelude.

Class Device (D : Type) := {
  dev_read : Z -> D -> Z * D;
  dev_write : Z -> Z -> D -> D;
}.

Inductive access :=
| RD (addr value : Z)
| WR (addr value : Z).

#[export] Instance access_eq_dec : EqDecision access.
Proof. solve_decision. Defined.

Inductive outcome (A : Type) :=
| Ok (a : A)
| Trap
| NoFuel.
Arguments Ok {A} a.
Arguments Trap {A}.
Arguments NoFuel {A}.

Definition io (D A : Type) : Type := D -> outcome A * D * list access.

Definition ret {D A} (a : A) : io D A := fun d => (Ok a, d, []).

Definition trap {D A} : io D A := fun d => (Trap, d, []).

Definition bind {D A B} (m : io D A) (k : A -> io D B) : io D B := fun d =>
  match m d with
  | (Ok a, d1, l1) => let '(r, d2, l2) := k a d1 in (r, d2, l1 ++ l2)
  | (Trap, d1, l1) => (Trap, d1, l1)
  | (NoFuel, d1, l1) => (NoFuel, d1, l1)
  end.

Declare Scope io_scope.
Delimit Scope io_scope with io.
Notation "'let!' x := m 'in' k" := (bind m (fun x => k))
  (at level 10, x name, m at level 100, k at level 200) : io_scope.
Notation "'do!' m 'in' k" := (bind m (fun _ => k))
  (at level 10, m at level 100, k at level 200) : io_scope.

(** A partial pure computation of the C code, as a step that may fault. *)
Definition lift_opt {D A} (o : option A) : io D A :=
  match o with Some a => ret a | None => trap end.

Section Accesses.
Context {D : Type} `{Device D}.

(** [ioread32] and a load through a [volatile uint32_t *]: 32 bits. *)
Definition readl (addr : Z) : io D Z := fun d =>
  let '(v, d') := dev_read addr d in (Ok (u32 v), d', [RD addr (u32 v)]).

(** [iowrite32] and a store through a [volatile uint32_t *]: 32 bits. *)
Definition writel (addr v : Z) : io D unit := fun d =>
  (Ok tt, dev_write addr (u32 v) d, [WR addr (u32 v)]).

(** [while (cond) body], on the given fuel. *)
Fixpoint while_io {A} (fuel : nat) (cond : A -> io D bool) (body : A -> io D A)
    (a : A) : io D A :=
  match fuel with
  | O => fun d => (NoFuel, d, [])
  | S n => bind (cond a) (fun b =>
      if b then bind (body a) (fun a' => while_io n cond body a') else ret a)
  end.

(** [for (i = start; i < start + n; i++) body i]. *)
Fixpoint for_io {A} (n : nat) (start : Z) (body : Z -> A -> io D A) (a : A) : io D A :=
  match n with
  | O => ret a
  | S n' => bind (body start a) (fun a' => for_io n' (start + 1) body a')
  end.

(** Two routines are equal when every device observes the same behaviour. *)
Definition io_eq {A} (m1 m2 : io D A) : Prop := forall d, m1 d = m2 d.

#[export] Instance io_equiv {A} : Equivalence (@io_eq A).
Proof.
  split.
  - by intros m d.
  - intros m1 m2 E d. by rewrite (E d).
  - intros m1 m2 m3 E1 E2 d. by rewrite (E1 d).
Qed.

#[export] Instance bind_proper {A B} :
  Proper (@io_eq A ==> pointwise_relation A (@io_eq B) ==> @io_eq B) bind.
Proof.
  intros m1 m2 Em k1 k2 Ek d. unfold bind. rewrite (Em d).
  destruct (m2 d) as [[[a | |] d1] l1]; try done. by rewrite (Ek a d1).
Qed.

Lemma bind_ret_l {A B} (a : A) (k : A -> io D B) : io_eq (bind (ret a) k) (k a).
Proof. intros d. unfold bind, ret. by destruct (k a d) as [[r d'] l]. Qed.

Lemma bind_ret_r {A} (m : io D A) : io_eq (bind m ret) m.
Proof.
  intros d. unfold bind, ret. destruct (m d) as [[[a | |] d1] l1]; try done.
  by rewrite app_nil_r.
Qed.

Lemma bind_assoc {A B C} (m : io D A) (k : A -> io D B) (h : B -> io D C) :
  io_eq (bind (bind m k) h) (bind m (fun a => bind (k a) h)).
Proof.
  intros d. unfold bind. destruct (m d) as [[[a | |] d1] l1]; try done.
  destruct (k a d1) as [[[b | |] d2] l2]; try done.
  destruct (h b d2) as [[r d3] l3]. by rewrite app_assoc.
Qed.

(** One-step evaluation lemmas: they let a proof follow a routine access by
    access without unfolding the monad. *)
Lemma run_readl {A} addr (k : Z -> io D A) d :
  exists v d', is_u32 v /\ dev_read addr d = (fst (dev_read addr d), d') /\
    v = u32 (fst (dev_read addr d)) /\
    bind (readl addr) k d =
      (let '(r, d2, l) := k v d' in (r, d2, RD addr v :: l)).
Proof.
  unfold bind, readl. destruct (dev_read addr d) as [v d'] eqn:E.
  exists (u32 v), d'. split_and!; [apply u32_range | by simpl | done |].
  by destruct (k (u32 v) d') as [[r d2] l].
Qed.

Lemma run_writel {A} addr v (k : unit -> io D A) d :
  bind (writel addr v) k d =
    (let '(r, d2, l) := k tt (dev_write addr (u32 v) d) in
     (r, d2, WR addr (u32 v) :: l)).
Proof.
  unfold bind, writel. by destruct (k tt (dev_write addr (u32 v) d)) as [[r d2] l].
Qed.

End Accesses.

Create Rewrite HintDb io.
#[export] Hint Rewrite @run_writel : io.

(** The stores of a trace, in order. *)
Fixpoint stores (l : list access) : list (Z * Z) :=
  match l with
  | [] => []
  | RD _ _ :: l' => stores l'
  | WR a v :: l' => (a, v) :: stores l'
  end.

(** The values loaded from one register, in order. *)
Fixpoint loads_of (addr : Z) (l : list access) : list Z :=
  match l with
  | [] => []
  | RD a v :: l' => if a =? addr then v :: loads_of addr l' else loads_of addr l'
  | WR _ _ :: l' => loads_of addr l'
  end.

Lemma stores_app l1 l2 : stores (l1 ++ l2) = stores l1 ++ stores l2.
Proof. induction l1 as [| [] l1 IH]; simpl; congruence. Qed.

Lemma loads_of_app addr l1 l2 :
  loads_of addr (l1 ++ l2) = loads_of addr l1 ++ loads_of addr l2.
Proof.
  induction l1 as [| [] l1 IH]; simpl; try congruence.
  destruct (_ =? _); simpl; congruence.
Qed.

(** Execute one access of a goal about a run. *)
Ltac io_read v d Hv :=
  match goal with
  | |- context [bind (readl ?a) ?k ?d0] =>
      let E := fresh in
      destruct (run_readl a k d0) as (v & d & Hv & _ & _ & E); rewrite E; clear E
  end.

(** ** Terminating runs

    [runs m d a d'] : from device state [d] the routine ends normally with
    result [a] in state [d'] (some trace of accesses). *)

Definition runs {D A} (m : io D A) (d : D) (a : A) (d' : D) : Prop :=
  exists l, m d = (Ok a, d', l).

Section Runs.
Context {D : Type} `{Device D}.

Lemma runs_ret {A} (a : A) (d : D) : runs (ret a) d a d.
Proof. by exists []. Qed.

Lemma runs_bind {A B} (m : io D A) (k : A -> io D B) d a d1 b d2 :
  runs m d a d1 -> runs (k a) d1 b d2 -> runs (bind m k) d b d2.
Proof.
  intros [l1 E1] [l2 E2]. exists (l1 ++ l2). unfold bind. by rewrite E1, E2.
Qed.

Lemma runs_readl addr d v d' :
  dev_read addr d = (v, d') -> runs (readl addr) d (u32 v) d'.
Proof. intros E. exists [RD addr (u32 v)]. unfold readl. by rewrite E. Qed.

Lemma runs_writel addr v d : runs (writel addr v) d tt (dev_write addr (u32 v) d).
Proof. by exists [WR addr (u32 v)]. Qed.

Lemma runs_lift {A} (o : option A) (a : A) (d : D) : o = Some a -> runs (lift_opt o) d a d.
Proof. intros ->. apply runs_ret. Qed.

Lemma runs_det {A} (m : io D A) d a1 d1 a2 d2 :
  runs m d a1 d1 -> runs m d a2 d2 -> a1 = a2 /\ d1 = d2.
Proof. intros [l1 E1] [l2 E2]. rewrite E1 in E2. by injection E2. Qed.

(** A loop whose condition tells whether a list held by the device is empty,
    and whose body consumes its head: it ends once the fuel exceeds the list,
    having folded the list into its state. *)
Lemma runs_while_drain {A E} (fifo : D -> list E) (P : A -> D -> Prop)
    (f : A -> E -> A) (cond : A -> io D bool) (body : A -> io D A) :
  (forall a d, P a d -> exists d', runs (cond a) d (negb (bool_decide (fifo d = []))) d' /\
     fifo d' = fifo d /\ P a d') ->
  (forall a d e l, P a d -> fifo d = e :: l ->
     exists d', runs (body a) d (f a e) d' /\ fifo d' = l /\ P (f a e) d') ->
  forall fuel a d, P a d -> (length (fifo d) < fuel)%nat ->
  exists d', runs (while_io fuel cond body a) d (foldl f a (fifo d)) d' /\
    fifo d' = [] /\ P (foldl f a (fifo d)) d'.
Proof.
  intros Hc Hb. induction fuel as [| fuel IH]; intros a d HP Hf; [lia |].
  cbn [while_io]. destruct (Hc a d HP) as (d1 & R1 & F1 & P1).
  destruct (fifo d) as [| e l] eqn:Ef.
  - exists d1. split_and!; [| congruence | done].
    eapply runs_bind; [exact R1 |]. apply runs_ret.
  - destruct (Hb a d1 e l P1) as (d2 & R2 & F2 & P2); [congruence |].
    destruct (IH (f a e) d2 P2) as (d3 & R3 & F3 & P3); [rewrite F2; simpl in Hf; lia |].
    rewrite F2 in R3, P3. exists d3. split_and!; try done.
    eapply runs_bind; [exact R1 |]. eapply runs_bind; [exact R2 | exact R3].
Qed.

End Runs.

(** ** Observations

    [obs m Q] : on every device, the outcome and the trace of [m] satisfy [Q].
    The rules below walk a routine access by access. *)

Definition obs {D A} (m : io D A) (Q : outcome A -> list access -> Prop) : Prop :=
  forall d, Q (fst (fst (m d))) (snd (m d)).

Section Obs.
Context {D : Type} `{Device D}.

Lemma obs_ret {A} (a : A) (Q : outcome A -> list access -> Prop) :
  Q (Ok a) [] -> obs (ret (D := D) a) Q.
Proof. by intros HQ d. Qed.

Lemma obs_bind {A B} (m : io D A) (k : A -> io D B) (Q : outcome B -> list access -> Prop) :
  obs m (fun r l => match r with
                    | Ok a => obs (k a) (fun r2 l2 => Q r2 (l ++ l2))
                    | Trap => Q Trap l
                    | NoFuel => Q NoFuel l
                    end) -> obs (bind m k) Q.
Proof.
  intros Hm d. specialize (Hm d). unfold bind.
  destruct (m d) as [[[a | |] d1] l1]; cbn [fst snd] in *; try done.
  specialize (Hm d1). by destruct (k a d1) as [[r d2] l2].
Qed.

Lemma obs_weaken {A} (m : io D A) (Q Q' : outcome A -> list access -> Prop) :
  (forall r l, Q r l -> Q' r l) -> obs m Q -> obs m Q'.
Proof. intros HQ Hm d. apply HQ, Hm. Qed.

Lemma obs_readl addr (Q : outcome Z -> list access -> Prop) :
  (forall v, is_u32 v -> Q (Ok v) [RD addr v]) -> obs (readl addr) Q.
Proof.
  intros HQ d. unfold readl. destruct (dev_read addr d) as [v d'].
  apply HQ, u32_range.
Qed.

Lemma obs_writel addr v (Q : outcome unit -> list access -> Prop) :
  Q (Ok tt) [WR addr (u32 v)] -> obs (writel addr v) Q.
Proof. by intros HQ d. Qed.

Lemma obs_lift {A} (o : option A) (Q : outcome A -> list access -> Prop) :
  match o with Some a => Q (Ok a) [] | None => Q Trap [] end ->
  obs (lift_opt (D := D) o) Q.
Proof. by intros HQ d; destruct o. Qed.

(** A counted loop: an invariant on the index, the state and the trace so far. *)
Lemma obs_for {A} (body : Z -> A -> io D A) (I : Z -> A -> list access -> Prop)
    (Q : outcome A -> list access -> Prop) n start a l0 :
  I start a l0 ->
  (forall i b l, start <= i < start + Z.of_nat n -> I i b l ->
     obs (body i b) (fun r l' => match r with
                                 | Ok b' => I (i + 1) b' (l ++ l')
                                 | Trap => Q Trap (l ++ l')
                                 | NoFuel => Q NoFuel (l ++ l')
                                 end)) ->
  (forall b l, I (start + Z.of_nat n) b l -> Q (Ok b) l) ->
  obs (for_io n start body a) (fun r l => Q r (l0 ++ l)).
Proof.
  revert start a l0. induction n as [| n IH]; intros start a l0 H0 Hb HQ; cbn [for_io].
  - apply obs_ret. rewrite app_nil_r. apply HQ. by rewrite Z.add_0_r.
  - apply obs_bind. eapply obs_weaken; [| apply (Hb start a l0); [lia | done]].
    intros [b | |] l; cbn beta iota; [| done ..].
    intros H1. eapply obs_weaken; [| apply (IH _ _ _ H1)].
    + intros r l2. by rewrite app_assoc.
    + intros i b' l' Hi. apply Hb. lia.
    + intros b' l'. replace (start + 1 + Z.of_nat n) with (start + Z.of_nat (S n)) by lia.
      apply HQ.
Qed.

End Obs.

(** One step of a routine, from its head. *)
Ltac io_step :=
  first
    [ lazymatch goal with |- obs (bind _ _) _ => apply obs_bind; cbn beta iota end
    | lazymatch goal with |- obs (readl _) _ =>
        let v := fresh "v" in let H := fresh "Hv" in
        apply obs_readl; intros v H; cbn beta iota end
    | lazymatch goal with |- obs (writel _ _) _ => apply obs_writel; cbn beta iota end
    | lazymatch goal with |- obs (ret _) _ => apply obs_ret; cbn beta iota end
    | lazymatch goal with |- obs (lift_opt _) _ => apply obs_lift; cbn beta iota end ].

(** ** A register file

    The simplest device: a load answers the last store, zero before any. *)

Definition regfile : Type := list (Z * Z).

Fixpoint reg_get (a : Z) (d : regfile) : Z :=
  match d with
  | [] => 0
  | (b, v) :: d' => if a =? b then v else reg_get a d'
  end.

#[export] Instance regfile_device : Device regfile := {
  dev_read a d := (reg_get a d, d);
  dev_write a v d := (a, v) :: d;
}.
