(* ===== verification/TsQueue.v ===== *)
(** * Timestamp queues (switch/ax_switch.c)

    [TS_QUEUE] is a circular buffer of captured PTP timestamps: [write_ptr] is
    the next slot to write and [num_items] how many slots are live.  The
    abstract specification is a bounded history: the queue holds the
    [max_num_items] most recent insertions, newest first, and a lookup finds
    the most recent matching one.  The spin locks make each operation atomic
    and are not modelled. *)

From Stdlib Require Import ZArith Lia Bool.
From S2P Require Import Prelude.

Definition AX_STATUS_SUCCESS : Z := 0.
Definition AX_STATUS_QITEM_NOT_FOUND : Z := -3.
Definition AX_STATUS_Q_NO_ITEM : Z := -4.
Definition NUM_SWITCH_PORTS : Z := 5.
Definition NUM_OF_DOMAIN : Z := 2.
Definition MAX_NUM_DOMAINS : Z := 2.

Record CAPTURE_DATA := mkCapture {
  port_id : Z;              (* uint8_t *)
  timestamp_l : list Z;     (* uint32_t[MAX_NUM_DOMAINS + 1] *)
  timestamp_h : list Z;
  msg_type : Z;             (* uint8_t *)
  sequence_id : Z;          (* uint16_t *)
  domain_number : Z;        (* uint8_t *)
}.

#[export] Instance CAPTURE_DATA_eq_dec : EqDecision CAPTURE_DATA.
Proof. solve_decision. Defined.

(** The array a queue points to: not allocated, released, or live. *)
Inductive ts_array :=
| TsNull
| TsFreed
| TsLive (items : list CAPTURE_DATA).

Record TS_QUEUE := mkQueue {
  ts_items : ts_array;
  write_ptr : Z;
  num_items : Z;
  max_num_items : Z;
}.

Definition _tsn_tsq_flush (queue : TS_QUEUE) : TS_QUEUE :=
  mkQueue (ts_items queue) 0 0 (max_num_items queue).

(** The store and the pointer updates of an insertion; [None] when the store
    falls outside the live array. *)
Definition _tsn_tsq_insert_item (queue : TS_QUEUE) (tstamp_d : CAPTURE_DATA)
    : option TS_QUEUE :=
  match ts_items queue with
  | TsLive items =>
      items' ← setz items (write_ptr queue) tstamp_d;
      let w := write_ptr queue + 1 in
      let w := if w =? max_num_items queue then 0 else w in
      let n := if num_items queue <? max_num_items queue
               then num_items queue + 1 else num_items queue in
      Some (mkQueue (TsLive items') w n (max_num_items queue))
  | _ => None
  end.

(** The second copy of the insertion, used by the interrupt path. *)
Definition _ax_insert_items (queue : TS_QUEUE) (tstamp_d : CAPTURE_DATA)
    : option TS_QUEUE :=
  match ts_items queue with
  | TsLive items =>
      items' ← setz items (write_ptr queue) tstamp_d;
      let w := write_ptr queue + 1 in
      let w := if w =? max_num_items queue then 0 else w in
      let n := if num_items queue <? max_num_items queue
               then num_items queue + 1 else num_items queue in
      Some (mkQueue (TsLive items') w n (max_num_items queue))
  | _ => None
  end.

(** [kmalloc] is the caller's: [mem] is the array it returns for the requested
    number of elements, [None] when it fails. *)
Definition _tsn_tsq_init (kmalloc : Z -> option (list CAPTURE_DATA))
    (queue : TS_QUEUE) (number_of_ports number_of_domains : Z) : Z * TS_QUEUE :=
  let max := number_of_ports * number_of_domains + 8 in
  match kmalloc max with
  | None => (-1, mkQueue TsNull (write_ptr queue) (num_items queue) max)
  | Some mem =>
      (0, _tsn_tsq_flush (mkQueue (TsLive mem) (write_ptr queue) (num_items queue) max))
  end.

Definition _tsn_tsq_remove (queue : TS_QUEUE) : TS_QUEUE :=
  let items := match ts_items queue with TsNull => TsNull | _ => TsFreed end in
  mkQueue items (write_ptr queue) (num_items queue) 0.

Definition _ax_tsq_check_item_1 (queue_d tstamp_d : CAPTURE_DATA) : bool :=
  (port_id queue_d =? port_id tstamp_d) &&
  (msg_type queue_d =? msg_type tstamp_d) &&
  (sequence_id queue_d =? sequence_id tstamp_d) &&
  (domain_number queue_d =? domain_number tstamp_d).

(** The search loop: [n] items left to look at, from [read_ptr] backwards.
    The outer [option] is a load outside the array. *)
Fixpoint tsq_search (items : list CAPTURE_DATA) (max : Z) (tstamp_d : CAPTURE_DATA)
    (n : nat) (read_ptr : Z) : option (option CAPTURE_DATA) :=
  match n with
  | O => Some None
  | S n' =>
      d ← getz items read_ptr;
      if _ax_tsq_check_item_1 d tstamp_d then Some (Some d)
      else
        let r := read_ptr - 1 in
        let r := if r <? 0 then max - 1 else r in
        tsq_search items max tstamp_d n' r
  end.

(** Status and the capture record after the call ([*tstamp_d]). *)
Definition ax_tsq_find_item_1 (queue : TS_QUEUE) (tstamp_d : CAPTURE_DATA)
    : option (Z * CAPTURE_DATA) :=
  if num_items queue =? 0 then Some (AX_STATUS_Q_NO_ITEM, tstamp_d)
  else
    match ts_items queue with
    | TsLive items =>
        let r := write_ptr queue - 1 in
        let r := if r <? 0 then max_num_items queue - 1 else r in
        res ← tsq_search items (max_num_items queue) tstamp_d
                (Z.to_nat (num_items queue)) r;
        match res with
        | None => Some (AX_STATUS_QITEM_NOT_FOUND, tstamp_d)
        | Some d => Some (AX_STATUS_SUCCESS, d)
        end
    | _ => None
    end.

(** ** The abstract queue *)

(** The slot written [i] insertions before the last one. *)
Definition tsq_slot (q : TS_QUEUE) (i : nat) : Z :=
  (write_ptr q - 1 - Z.of_nat i) mod max_num_items q.

Definition tsq_array (q : TS_QUEUE) : list CAPTURE_DATA :=
  match ts_items q with TsLive items => items | _ => [] end.

(** What the queue holds, newest first. *)
Definition tsq_contents (q : TS_QUEUE) : list CAPTURE_DATA :=
  omap (fun i => getz (tsq_array q) (tsq_slot q i)) (seq 0 (Z.to_nat (num_items q))).

Definition tsq_wf (q : TS_QUEUE) : Prop :=
  (exists items, ts_items q = TsLive items /\
                 Z.of_nat (length items) = max_num_items q) /\
  0 < max_num_items q /\
  0 <= write_ptr q < max_num_items q /\
  0 <= num_items q <= max_num_items q.

(** The specification of the queue: the [max] most recent insertions. *)
Definition spec_insert (max : nat) (d : CAPTURE_DATA) (h : list CAPTURE_DATA)
    : list CAPTURE_DATA := take max (d :: h).

Definition spec_find (h : list CAPTURE_DATA) (key : CAPTURE_DATA) : Z * CAPTURE_DATA :=
  match h with
  | [] => (AX_STATUS_Q_NO_ITEM, key)
  | _ =>
      match List.find (fun d => _ax_tsq_check_item_1 d key) h with
      | Some d => (AX_STATUS_SUCCESS, d)
      | None => (AX_STATUS_QITEM_NOT_FOUND, key)
      end
  end.

(** ** Lemmas *)

Lemma wrap_incr w max : 0 <= w < max ->
  (if w + 1 =? max then 0 else w + 1) = (w + 1) mod max.
Proof.
  intros H. destruct (Z.eqb_spec (w + 1) max) as [-> | Hne].
  - by rewrite Z_mod_same_full.
  - rewrite Z.mod_small; lia.
Qed.

Lemma wrap_decr r max : 0 <= r < max ->
  (if r - 1 <? 0 then max - 1 else r - 1) = (r - 1) mod max.
Proof.
  intros H. destruct (Z.ltb_spec (r - 1) 0) as [Hlt | Hge].
  - apply (Z.mod_unique_pos _ _ (-1)); lia.
  - rewrite Z.mod_small; lia.
Qed.

Lemma tsq_slot_range q i : tsq_wf q -> 0 <= tsq_slot q i < max_num_items q.
Proof. intros (_ & Hm & _). apply Z.mod_pos_bound. lia. Qed.

Lemma tsq_slot_S q i :
  0 < max_num_items q -> tsq_slot q (S i) = (tsq_slot q i - 1) mod max_num_items q.
Proof.
  intros Hm. unfold tsq_slot. rewrite Zminus_mod_idemp_l. f_equal. lia.
Qed.

(** Distinct ages below the capacity are distinct slots. *)
Lemma tsq_slot_inj q i j :
  0 < max_num_items q ->
  Z.of_nat i < max_num_items q -> Z.of_nat j < max_num_items q ->
  tsq_slot q i = tsq_slot q j -> i = j.
Proof.
  unfold tsq_slot. intros Hm Hi Hj E.
  assert (Hd : (Z.of_nat j - Z.of_nat i) mod max_num_items q = 0).
  { replace (Z.of_nat j - Z.of_nat i)
      with ((write_ptr q - 1 - Z.of_nat i) - (write_ptr q - 1 - Z.of_nat j)) by lia.
    by rewrite Zminus_mod, E, Z.sub_diag, Z.mod_0_l by lia. }
  apply Z.mod_divide in Hd as [k Hk]; [| lia].
  assert (k = 0) by nia. lia.
Qed.

Lemma tsq_load q i : tsq_wf q ->
  exists d, getz (tsq_array q) (tsq_slot q i) = Some d.
Proof.
  intros Hwf. pose proof (tsq_slot_range q i Hwf) as Hr.
  destruct Hwf as ((items & Ei & Hlen) & _). unfold tsq_array. rewrite Ei.
  apply getz_in. lia.
Qed.

Lemma tsq_contents_length q : tsq_wf q ->
  Z.of_nat (length (tsq_contents q)) = num_items q.
Proof.
  intros Hwf. unfold tsq_contents. rewrite omap_length_all.
  - rewrite length_seq. destruct Hwf as (_ & _ & _ & ?). lia.
  - intros i _. destruct (tsq_load q i Hwf) as [d Hd]. by exists d.
Qed.

(** The insertion, on a well-formed queue, with its new state. *)
Lemma tsq_insert_run q d : tsq_wf q ->
  exists items,
    _tsn_tsq_insert_item q d =
      Some (mkQueue (TsLive items) ((write_ptr q + 1) mod max_num_items q)
              (Z.min (num_items q + 1) (max_num_items q)) (max_num_items q)) /\
    setz (tsq_array q) (write_ptr q) d = Some items.
Proof.
  intros ((items & Ei & Hlen) & Hm & Hw & Hn).
  unfold _tsn_tsq_insert_item, tsq_array. rewrite Ei.
  rewrite setz_in by lia. eexists. split; [| done]. simpl.
  rewrite wrap_incr by lia. repeat f_equal.
  destruct (Z.ltb_spec (num_items q) (max_num_items q)); lia.
Qed.

Lemma tsq_insert_wf q q' d : tsq_wf q -> _tsn_tsq_insert_item q d = Some q' -> tsq_wf q'.
Proof.
  intros Hwf E. destruct (tsq_insert_run q d Hwf) as (items & E' & Hs).
  rewrite E' in E. injection E as <-.
  destruct Hwf as ((items0 & Ei & Hlen) & Hm & Hw & Hn).
  unfold tsq_array in Hs. rewrite Ei in Hs.
  split_and!; simpl; try (by apply Z.mod_pos_bound); try lia.
  exists items. split; [done |]. rewrite (setz_length _ _ _ _ Hs). done.
Qed.

(** Advancing the write pointer makes every live item one older. *)
Lemma tsq_slot_advance q items n i : 0 < max_num_items q ->
  tsq_slot (mkQueue items ((write_ptr q + 1) mod max_num_items q) n (max_num_items q)) (S i)
  = tsq_slot q i.
Proof.
  intros Hm. unfold tsq_slot. simpl write_ptr. simpl max_num_items.
  rewrite <- Z.sub_add_distr, Zminus_mod_idemp_l. f_equal. lia.
Qed.

Lemma tsq_slot_newest q items n :
  0 < max_num_items q -> 0 <= write_ptr q < max_num_items q ->
  tsq_slot (mkQueue items ((write_ptr q + 1) mod max_num_items q) n (max_num_items q)) 0
  = write_ptr q.
Proof.
  intros Hm Hw. unfold tsq_slot. simpl write_ptr. simpl max_num_items.
  rewrite <- Z.sub_add_distr, Zminus_mod_idemp_l, Z.mod_small; lia.
Qed.

(** Slots of live items other than the oldest possible one are not overwritten. *)
Lemma tsq_slot_not_write q i : tsq_wf q -> Z.of_nat i < max_num_items q - 1 ->
  tsq_slot q i <> write_ptr q.
Proof.
  intros (_ & Hm & Hw & _) Hi Heq.
  assert (Hlast : write_ptr q = tsq_slot q (Z.to_nat (max_num_items q - 1))).
  { unfold tsq_slot. rewrite Z2Nat.id by lia.
    apply (Z.mod_unique_pos _ _ (-1)); lia. }
  rewrite Hlast in Heq. apply tsq_slot_inj in Heq; lia.
Qed.

Lemma tsq_insert_contents q q' d : tsq_wf q -> _tsn_tsq_insert_item q d = Some q' ->
  tsq_contents q' = spec_insert (Z.to_nat (max_num_items q)) d (tsq_contents q).
Proof.
  intros Hwf E. destruct (tsq_insert_run q d Hwf) as (items & E' & Hs).
  rewrite E' in E. injection E as <-.
  pose proof Hwf as (_ & Hm & Hw & Hn).
  unfold spec_insert, tsq_contents at 1. unfold tsq_array at 1. simpl ts_items.
  simpl num_items.
  replace (Z.to_nat (Z.min (num_items q + 1) (max_num_items q)))
    with (S (Z.to_nat (Z.min (num_items q) (max_num_items q - 1)))) by lia.
  replace (Z.to_nat (max_num_items q)) with (S (Z.to_nat (max_num_items q - 1))) by lia.
  rewrite <- cons_seq, omap_cons, firstn_cons, tsq_slot_newest by lia.
  rewrite (getz_setz_eq _ _ _ _ Hs). f_equal.
  unfold tsq_contents. rewrite <- omap_take.
  2: { intros i _. destruct (tsq_load q i Hwf) as [x Hx]. by exists x. }
  rewrite take_seq. rewrite <- fmap_S_seq, omap_fmap.
  replace (Z.to_nat (max_num_items q - 1) `min` Z.to_nat (num_items q))%nat
    with (Z.to_nat (Z.min (num_items q) (max_num_items q - 1))) by lia.
  apply omap_ext_in. intros i Hi%elem_of_seq. rewrite tsq_slot_advance by lia.
  apply (getz_setz_ne _ _ _ _ _ Hs). apply not_eq_sym, tsq_slot_not_write; [done | lia].
Qed.

(** The backward scan reads the contents in order. *)
Lemma tsq_search_slots q key n i : tsq_wf q ->
  tsq_search (tsq_array q) (max_num_items q) key n (tsq_slot q i) =
  Some (List.find (fun d => _ax_tsq_check_item_1 d key)
          (omap (fun i => getz (tsq_array q) (tsq_slot q i)) (seq i n))).
Proof.
  intros Hwf. revert i. induction n as [| n IH]; intros i; [done |].
  rewrite <- cons_seq, omap_cons. cbn [tsq_search].
  destruct (tsq_load q i Hwf) as [d Hd]. rewrite Hd. cbn [mbind option_bind List.find].
  destruct (_ax_tsq_check_item_1 d key); [done |].
  rewrite wrap_decr by (by apply tsq_slot_range).
  rewrite <- tsq_slot_S by (destruct Hwf as (_ & ? & _); lia). apply IH.
Qed.

Lemma tsq_find_contents q key : tsq_wf q ->
  ax_tsq_find_item_1 q key = Some (spec_find (tsq_contents q) key).
Proof.
  intros Hwf. pose proof (tsq_contents_length q Hwf) as Hlen.
  pose proof Hwf as ((items & Ei & Hl) & Hm & Hw & Hn).
  unfold ax_tsq_find_item_1, spec_find.
  destruct (Z.eqb_spec (num_items q) 0) as [E0 | Hne].
  { destruct (tsq_contents q); [done | simpl in Hlen; lia]. }
  destruct (tsq_contents q) as [| c cs] eqn:Ec; [simpl in Hlen; lia |].
  rewrite Ei, wrap_decr by lia.
  replace ((write_ptr q - 1) mod max_num_items q) with (tsq_slot q 0)
    by (unfold tsq_slot; f_equal; lia).
  pose proof (tsq_search_slots q key (Z.to_nat (num_items q)) 0 Hwf) as Hs.
  unfold tsq_contents in Ec. rewrite Ec in Hs. unfold tsq_array in Hs. rewrite Ei in Hs.
  rewrite Hs. cbn [mbind option_bind].
  by destruct (List.find _ (c :: cs)).
Qed.

Lemma _ax_insert_items_same q d : _ax_insert_items q d = _tsn_tsq_insert_item q d.
Proof. done. Qed.

(** ** Histories of operations *)

Inductive tsq_op :=
| OpInsert (d : CAPTURE_DATA)     (* _tsn_tsq_insert_item *)
| OpIrqInsert (d : CAPTURE_DATA)  (* _ax_insert_items *)
| OpFlush.                        (* _tsn_tsq_flush *)

Definition tsq_step (q : TS_QUEUE) (o : tsq_op) : option TS_QUEUE :=
  match o with
  | OpInsert d => _tsn_tsq_insert_item q d
  | OpIrqInsert d => _ax_insert_items q d
  | OpFlush => Some (_tsn_tsq_flush q)
  end.

Fixpoint tsq_steps (q : TS_QUEUE) (ops : list tsq_op) : option TS_QUEUE :=
  match ops with
  | [] => Some q
  | o :: ops' => q' ← tsq_step q o; tsq_steps q' ops'
  end.

(** The insertions since the last flush, newest first: the unbounded history. *)
Definition history_step (h : list CAPTURE_DATA) (o : tsq_op) : list CAPTURE_DATA :=
  match o with OpInsert d | OpIrqInsert d => d :: h | OpFlush => [] end.

Lemma tsq_flush_wf q : tsq_wf q -> tsq_wf (_tsn_tsq_flush q).
Proof. intros (Hi & Hm & Hw & Hn). split_and!; simpl; [done | lia ..]. Qed.

#[export] Hint Resolve tsq_flush_wf tsq_insert_wf : machine.

Lemma tsq_step_ok q o : tsq_wf q ->
  exists q', tsq_step q o = Some q' /\ tsq_wf q' /\ max_num_items q' = max_num_items q /\
    tsq_contents q' =
      match o with
      | OpInsert d | OpIrqInsert d =>
          spec_insert (Z.to_nat (max_num_items q)) d (tsq_contents q)
      | OpFlush => []
      end.
Proof.
  intros Hwf. destruct o as [d | d |]; cbn [tsq_step]; rewrite ?_ax_insert_items_same.
  1, 2: destruct (tsq_insert_run q d Hwf) as (items & E & _); eexists;
    split; [exact E | split_and!; eauto using tsq_insert_wf, tsq_insert_contents].
  eexists. split_and!; eauto using tsq_flush_wf.
Qed.

(** C1. A timestamp queue refines its bounded history: started on any
    well-formed queue, every sequence of insertions (by the poll or by the
    interrupt path) and flushes runs without a store outside the array, keeps
    the queue well formed, and leaves exactly the [max_num_items] most recent
    insertions since the last flush, newest first. *)
Theorem tsq_refines_history (q : TS_QUEUE) (h : list CAPTURE_DATA) (ops : list tsq_op) :
  tsq_wf q -> tsq_contents q = take (Z.to_nat (max_num_items q)) h ->
  exists q', tsq_steps q ops = Some q' /\ tsq_wf q' /\
    max_num_items q' = max_num_items q /\
    tsq_contents q' =
      take (Z.to_nat (max_num_items q)) (foldl history_step h ops).
Proof.
  revert q h. induction ops as [| o ops IH]; intros q h Hwf Hc.
  { exists q. by rewrite Hc. }
  destruct (tsq_step_ok q o Hwf) as (q1 & E1 & Hwf1 & Hm1 & Hc1). simpl. rewrite E1.
  destruct (IH q1 (history_step h o) Hwf1) as (q' & E' & Hwf' & Hm' & Hc').
  - rewrite Hc1, Hm1, Hc. pose proof Hwf as (_ & Hmax & _).
    destruct (Z.to_nat (max_num_items q)) as [| m] eqn:Em; [lia |].
    destruct o; unfold spec_insert; simpl; f_equal; try done;
      rewrite take_take; f_equal; lia.
  - exists q'. rewrite <- Hm1. split_and!; done.
Qed.

(** On a well-formed queue a lookup answers as the history does: it reads
    only inside the array, reports the empty queue and the absent item by
    their own codes (leaving the caller's record unchanged), and otherwise
    returns the most recent item with the same port, message type, sequence
    number and domain. *)
Theorem tsq_find_spec (q : TS_QUEUE) (key : CAPTURE_DATA) :
  tsq_wf q -> ax_tsq_find_item_1 q key = Some (spec_find (tsq_contents q) key).
Proof. apply tsq_find_contents. Qed.

(** ** Witnesses *)

Definition demo_capture (port seq : Z) : CAPTURE_DATA :=
  mkCapture port [1; 2; 3] [4; 5; 6] 0 seq 0.
Definition demo_queue : TS_QUEUE :=
  mkQueue (TsLive (repeat (demo_capture 0 0) 3)) 0 0 3.

Lemma demo_queue_wf : tsq_wf demo_queue.
Proof. unfold tsq_wf. simpl. split_and!; try lia. by eexists. Qed.

(** Four insertions into a queue of three: the first is overwritten. *)
Lemma tsq_refines_history_witness : exists q',
  tsq_steps demo_queue [OpInsert (demo_capture 1 1); OpIrqInsert (demo_capture 2 2);
    OpInsert (demo_capture 3 3); OpInsert (demo_capture 4 4)] = Some q' /\
  tsq_contents q' = [demo_capture 4 4; demo_capture 3 3; demo_capture 2 2].
Proof.
  destruct (tsq_refines_history demo_queue [] [OpInsert (demo_capture 1 1);
    OpIrqInsert (demo_capture 2 2); OpInsert (demo_capture 3 3); OpInsert (demo_capture 4 4)])
    as (q' & E & _ & _ & C); [apply demo_queue_wf | reflexivity |].
  exists q'. split; [exact E | exact C].
Defined.

Lemma tsq_find_witness :
  ax_tsq_find_item_1 (mkQueue (TsLive [demo_capture 1 1; demo_capture 1 2; demo_capture 1 1]) 2 2 3)
    (demo_capture 1 1) = Some (AX_STATUS_SUCCESS, demo_capture 1 1).
Proof.
  rewrite tsq_find_spec; [vm_compute; reflexivity |].
  unfold tsq_wf. simpl. split_and!; try lia. by eexists.
Defined.
