(* ===== verification/TsCapture.v ===== *)
(** * Capture of PTP timestamps (switch/ax_switch.c)

    The switch set-up, the two routines that drain the hardware capture FIFOs
    into the timestamp queues, and the two that stamp a PTP frame from them.
    The FIFOs are hardware: their documented behaviour is the class
    [CaptureHw], against which the theorems are proved. *)

From Stdlib Require Import ZArith Lia Bool.
From S2P Require Import Prelude.
From S2P Require Import Mmio.
From S2P Require Import TsQueue.

Local Open Scope io_scope.

Definition NS_PER_SEC : Z := 1000000000.
Definition TX_TIMESTAMP_RETRIES : nat := 21.
Definition PTP_HDR_SIZE : nat := 34.
Definition PTP_SEQ_ID_OFFSET : nat := 30.
Definition PTP_MSG_TYPE_OFFSET : nat := 0.
Definition PTP_SUBDOMAIN_OFFSET : nat := 4.

Definition PTP_TIMESTAMP_CTRL : Z := 0x3110.
Definition PTP_RX_PORT : Z := 0x3114.
Definition PTP_FR_RX_TIMESTAMP_LO : Z := 0x3118.
Definition PTP_FR_RX_TIMESTAMP_HI : Z := 0x311C.
Definition PTP_RX_MESSAGE_INFO : Z := 0x3140.
Definition PTP_TX_PORT : Z := 0x3144.
Definition PTP_FR_TX_TIMESTAMP_LO : Z := 0x3148.
Definition PTP_FR_TX_TIMESTAMP_HI : Z := 0x314C.
Definition PTP_TX_MESSAGE_INFO : Z := 0x3170.

(** The fields of [struct ax_switch] these routines use. *)
Record ax_switch := mkSwitch {
  rx_queue : TS_QUEUE;
  tx_queue : TS_QUEUE;
  number_of_ports : Z;
  number_of_domains : Z;
  ptp_mode : Z;
}.

Definition set_rx (s : ax_switch) q :=
  mkSwitch q (tx_queue s) (number_of_ports s) (number_of_domains s) (ptp_mode s).
Definition set_tx (s : ax_switch) q :=
  mkSwitch (rx_queue s) q (number_of_ports s) (number_of_domains s) (ptp_mode s).

(** [pSwitch] is [None] for a null pointer; [kmalloc_rx] and [kmalloc_tx]
    answer the two allocations. *)
Definition ax_tsn_init_switch (kmalloc_rx kmalloc_tx : Z -> option (list CAPTURE_DATA))
    (pSwitch : option ax_switch) : Z * option ax_switch :=
  match pSwitch with
  | None => (-1, None)
  | Some s =>
      let s := mkSwitch (rx_queue s) (tx_queue s) NUM_SWITCH_PORTS NUM_OF_DOMAIN (ptp_mode s) in
      let '(r, q) := _tsn_tsq_init kmalloc_rx (rx_queue s)
                       (number_of_ports s) (number_of_domains s) in
      let s := set_rx s q in
      if r <? 0 then (-1, Some (set_rx s (_tsn_tsq_remove (rx_queue s))))
      else
        let '(r, q) := _tsn_tsq_init kmalloc_tx (tx_queue s)
                         (number_of_ports s) (number_of_domains s) in
        let s := set_tx s q in
        if r <? 0 then (-1, Some (set_tx s (_tsn_tsq_remove (tx_queue s))))
        else (0, Some s)
  end.

Definition _ax_time_to_ull (time64 seconds nanoseconds : Z) : Z :=
  let time64 := seconds in
  let time64 := NS_PER_SEC in
  u64 (time64 + nanoseconds).

(** ** Draining the FIFOs *)

Definition set_port (ts : CAPTURE_DATA) (p : Z) : CAPTURE_DATA :=
  mkCapture p (timestamp_l ts) (timestamp_h ts) (msg_type ts) (sequence_id ts)
    (domain_number ts).

(** [ts.timestamp_l[i] = lo; ts.timestamp_h[i] = hi;] *)
Definition set_stamp (ts : CAPTURE_DATA) (i lo hi : Z) : option CAPTURE_DATA :=
  l ← setz (timestamp_l ts) i lo;
  h ← setz (timestamp_h ts) i hi;
  Some (mkCapture (port_id ts) l h (msg_type ts) (sequence_id ts) (domain_number ts)).

(** The fields unpacked from the message-information register. *)
Definition set_info (ts : CAPTURE_DATA) (msg_info : Z) : CAPTURE_DATA :=
  mkCapture (port_id ts) (timestamp_l ts) (timestamp_h ts)
    (u8 (Z.land msg_info 0xF))
    (u16 (Z.land (Z.shiftr msg_info 12) 0xFFFF))
    (u8 (Z.land (Z.shiftr msg_info 4) 0xFF)).

Section Retrieve.
Context {D : Type} `{Device D}.

(** One capture read out of a FIFO: port, one timestamp per timer, then the
    message information, whose read removes the capture. *)
Definition read_capture (port_reg lo_reg hi_reg info_reg : Z) (domains : Z)
    (ts : CAPTURE_DATA) : io D CAPTURE_DATA :=
  let! p := readl port_reg in
  let! ts := for_io (Z.to_nat (domains + 1)) 0 (fun i ts =>
      let! lo := readl (lo_reg + 8 * i) in
      let! hi := readl (hi_reg + 8 * i) in
      lift_opt (set_stamp ts i lo hi)) (set_port ts (u8 p)) in
  let! msg_info := readl info_reg in
  ret (set_info ts msg_info).

Definition fifo_nonempty (mask : Z) : io D bool :=
  let! c := readl PTP_TIMESTAMP_CTRL in
  ret (negb (Z.land c mask =? 0)).

(** [ts] is the uninitialised local the loop reuses. *)
Definition ax_retrieve_rx_hw_timestamps (fuel : nat) (ts : CAPTURE_DATA)
    (pSwitch : ax_switch) : io D ax_switch :=
  let! r := while_io fuel (fun _ => fifo_nonempty 0x1)
    (fun '(ts, s) =>
       let! ts := read_capture PTP_RX_PORT PTP_FR_RX_TIMESTAMP_LO
                    PTP_FR_RX_TIMESTAMP_HI PTP_RX_MESSAGE_INFO
                    (number_of_domains s) ts in
       let! q := lift_opt (_tsn_tsq_insert_item (rx_queue s) ts) in
       ret (ts, set_rx s q))
    (ts, pSwitch) in
  ret (snd r).

Definition ax_retrieve_hw_timestamps (fuel : nat) (ts : CAPTURE_DATA)
    (pSwitch : ax_switch) : io D (Z * ax_switch) :=
  let! r := while_io fuel (fun _ => fifo_nonempty 0x01)
    (fun '(ts, s) =>
       let! ts := read_capture PTP_RX_PORT PTP_FR_RX_TIMESTAMP_LO
                    PTP_FR_RX_TIMESTAMP_HI PTP_RX_MESSAGE_INFO
                    (number_of_domains s) ts in
       let! q := lift_opt (_ax_insert_items (rx_queue s) ts) in
       ret (ts, set_rx s q))
    (ts, pSwitch) in
  let! r := while_io fuel (fun _ => fifo_nonempty 0x02)
    (fun '(n, (ts, s)) =>
       let! ts := read_capture PTP_TX_PORT PTP_FR_TX_TIMESTAMP_LO
                    PTP_FR_TX_TIMESTAMP_HI PTP_TX_MESSAGE_INFO
                    (number_of_domains s) ts in
       let! q := lift_opt (_ax_insert_items (tx_queue s) ts) in
       ret (n + 1, (ts, set_tx s q)))
    (0, r) in
  ret (fst r, snd (snd r)).

End Retrieve.

(** ** Stamping a frame *)

(** A PTP message in the linear data of a socket buffer. *)
Record SKB_TSTAMP_MSG := mkSkbMsg {
  skb_data : list Z;        (* bytes *)
  ptp_msg_offset : nat;
  port_tag : Z;             (* unsigned short *)
}.

(** [skb_copy_from_linear_data_offset]: [None] past the linear data. *)
Definition skb_copy (data : list Z) (off len : nat) : option (list Z) :=
  if decide (off + len <= length data)%nat then Some (take len (drop off data))
  else None.

(** [ntohs] of the two bytes at an offset of the header. *)
Definition be16 (hdr : list Z) (off : nat) : option Z :=
  h ← hdr !! off; l ← hdr !! S off; Some (256 * h + l).

(** The search key built from the PTP header; the timestamp arrays of the
    local record are uninitialised ([junk]). *)
Definition ptp_key (junk : CAPTURE_DATA) (m : SKB_TSTAMP_MSG) : option CAPTURE_DATA :=
  hdr ← skb_copy (skb_data m) (ptp_msg_offset m) PTP_HDR_SIZE;
  b0 ← hdr !! PTP_MSG_TYPE_OFFSET;
  seq ← be16 hdr PTP_SEQ_ID_OFFSET;
  dom ← hdr !! PTP_SUBDOMAIN_OFFSET;
  Some (mkCapture (u8 (port_tag m)) (timestamp_l junk) (timestamp_h junk)
          (Z.land b0 0x0F) seq (Z.land dom 0xFF)).

(** The stamp selected by the working mode: 802.1AS takes the free-running
    timer (index 0), 1588 the first domain timer (index 1).  The outer [option]
    is a load outside the arrays, the inner one an invalid mode. *)
Definition mode_stamp (mode : Z) (d : CAPTURE_DATA) : option (option Z) :=
  if mode =? 0 then
    sec ← getz (timestamp_h d) 0; nsec ← getz (timestamp_l d) 0;
    Some (Some (u64 (u64 (sec * NS_PER_SEC) + nsec)))
  else if mode =? 1 then
    sec ← getz (timestamp_h d) 1; nsec ← getz (timestamp_l d) 1;
    Some (Some (u64 (u64 (sec * NS_PER_SEC) + nsec)))
  else Some None.

(** The value stored in [shhwtstamps->hwtstamp]; [Some None] leaves it as is. *)
Definition ax_tsn_rx_hwtstamp (junk : CAPTURE_DATA) (pSwitch : ax_switch)
    (pSkbptp : SKB_TSTAMP_MSG) : option (option Z) :=
  key ← ptp_key junk pSkbptp;
  r ← ax_tsq_find_item_1 (rx_queue pSwitch) key;
  if fst r <? 0 then Some None else mode_stamp (ptp_mode pSwitch) (snd r).

Section TxStamp.
Context {D : Type} `{Device D}.
(** The hardware while the driver busy-waits. *)
Context (udelay : Z -> D -> D).

Definition delay (us : Z) : io D unit := fun d => (Ok tt, udelay us d, []).

Fixpoint tx_retry (fuel : nat) (junk key : CAPTURE_DATA) (n : nat) (s : ax_switch)
    : io D (option Z * ax_switch) :=
  match n with
  | O => ret (None, s)
  | S n' =>
      let! r := ax_retrieve_hw_timestamps fuel junk s in
      let s := snd r in
      let! f := lift_opt (ax_tsq_find_item_1 (tx_queue s) key) in
      if fst f =? 0 then
        let! st := lift_opt (mode_stamp (ptp_mode s) (snd f)) in
        ret (st, s)
      else
        do! delay 500 in tx_retry fuel junk key n' s
  end.

(** The timestamp handed to [skb_tstamp_tx], if one is. *)
Definition ax_tsn_tx_hwtstamp (fuel : nat) (junk : CAPTURE_DATA) (pSwitch : ax_switch)
    (pSkbptp : SKB_TSTAMP_MSG) : io D (option Z * ax_switch) :=
  let! key := lift_opt (ptp_key junk pSkbptp) in
  tx_retry fuel junk key TX_TIMESTAMP_RETRIES pSwitch.

End TxStamp.

(** ** The capture hardware *)

Inductive capture_dir := Rx | Tx.

Definition port_reg (s : capture_dir) := match s with Rx => PTP_RX_PORT | Tx => PTP_TX_PORT end.
Definition lo_reg (s : capture_dir) :=
  match s with Rx => PTP_FR_RX_TIMESTAMP_LO | Tx => PTP_FR_TX_TIMESTAMP_LO end.
Definition hi_reg (s : capture_dir) :=
  match s with Rx => PTP_FR_RX_TIMESTAMP_HI | Tx => PTP_FR_TX_TIMESTAMP_HI end.
Definition info_reg (s : capture_dir) :=
  match s with Rx => PTP_RX_MESSAGE_INFO | Tx => PTP_TX_MESSAGE_INFO end.
Definition ctrl_bit (s : capture_dir) : Z := match s with Rx => 0 | Tx => 1 end.

(** A capture in a hardware FIFO: its registers as the driver reads them. *)
Record hw_capture := mkHw {
  hc_port : Z; hc_lo : Z -> Z; hc_hi : Z -> Z; hc_info : Z
}.

(** The contract of the capture block: two FIFOs; the control register tells
    which are not empty; the head is visible in the registers; reading the
    message information removes it. *)
Class CaptureHw (D : Type) `{Device D} := {
  fifo : capture_dir -> D -> list hw_capture;
  hw_ctrl : forall d, exists v d', dev_read PTP_TIMESTAMP_CTRL d = (v, d') /\
    (forall s, fifo s d' = fifo s d) /\
    (forall s, Z.testbit (u32 v) (ctrl_bit s) = negb (bool_decide (fifo s d = [])));
  hw_port : forall s d e l, fifo s d = e :: l -> exists d',
    dev_read (port_reg s) d = (hc_port e, d') /\ (forall s', fifo s' d' = fifo s' d);
  hw_lo : forall s d e l i, 0 <= i <= MAX_NUM_DOMAINS -> fifo s d = e :: l -> exists d',
    dev_read (lo_reg s + 8 * i) d = (hc_lo e i, d') /\ (forall s', fifo s' d' = fifo s' d);
  hw_hi : forall s d e l i, 0 <= i <= MAX_NUM_DOMAINS -> fifo s d = e :: l -> exists d',
    dev_read (hi_reg s + 8 * i) d = (hc_hi e i, d') /\ (forall s', fifo s' d' = fifo s' d);
  hw_info : forall s d e l, fifo s d = e :: l -> exists d',
    dev_read (info_reg s) d = (hc_info e, d') /\
    fifo s d' = l /\ (forall s', s' <> s -> fifo s' d' = fifo s' d);
}.

(** What a capture becomes in a queue. *)
Definition decode (e : hw_capture) : CAPTURE_DATA :=
  set_info (mkCapture (u8 (u32 (hc_port e)))
              ((fun i => u32 (hc_lo e i)) <$> [0; 1; 2])
              ((fun i => u32 (hc_hi e i)) <$> [0; 1; 2]) 0 0 0)
           (u32 (hc_info e)).

Definition ts_sized (ts : CAPTURE_DATA) : Prop :=
  length (timestamp_l ts) = 3%nat /\ length (timestamp_h ts) = 3%nat.

Section Drain.
Context {D : Type} `{CaptureHw D}.

Lemma runs_stamp s d e l i ts ts' :
  0 <= i <= MAX_NUM_DOMAINS -> fifo s d = e :: l ->
  set_stamp ts i (u32 (hc_lo e i)) (u32 (hc_hi e i)) = Some ts' ->
  exists d',
    runs (let! lo := readl (lo_reg s + 8 * i) in
          let! hi := readl (hi_reg s + 8 * i) in
          lift_opt (set_stamp ts i lo hi)) d ts' d' /\
    (forall s', fifo s' d' = fifo s' d).
Proof.
  intros Hi Hf Hs. destruct (hw_lo s d e l i Hi Hf) as (d1 & E1 & F1).
  destruct (hw_hi s d1 e l i Hi) as (d2 & E2 & F2); [by rewrite F1 |].
  exists d2. split; [| intros s'; by rewrite F2, F1].
  eapply runs_bind; [by apply runs_readl |]. eapply runs_bind; [by apply runs_readl |].
  by apply runs_lift.
Qed.

Lemma read_capture_runs s d e l ts :
  ts_sized ts -> fifo s d = e :: l ->
  exists d',
    runs (read_capture (port_reg s) (lo_reg s) (hi_reg s) (info_reg s) NUM_OF_DOMAIN ts)
      d (decode e) d' /\
    fifo s d' = l /\ (forall s', s' <> s -> fifo s' d' = fifo s' d).
Proof.
  intros [Hl Hh] Hf.
  destruct ts as [p tl th mt sq dn]; simpl in Hl, Hh.
  destruct tl as [| l0 [| l1 [| l2 []]]]; try discriminate Hl.
  destruct th as [| h0 [| h1 [| h2 []]]]; try discriminate Hh.
  destruct (hw_port s d e l Hf) as (d1 & E1 & F1).
  set (ld i := u32 (hc_lo e i)). set (hd i := u32 (hc_hi e i)).
  destruct (runs_stamp s d1 e l 0 (mkCapture (u8 (u32 (hc_port e))) [l0; l1; l2] [h0; h1; h2] mt sq dn)
    (mkCapture (u8 (u32 (hc_port e))) [ld 0; l1; l2] [hd 0; h1; h2] mt sq dn))
    as (d2 & R2 & F2); [done | by rewrite F1 | done |].
  destruct (runs_stamp s d2 e l 1 (mkCapture (u8 (u32 (hc_port e))) [ld 0; l1; l2] [hd 0; h1; h2] mt sq dn)
    (mkCapture (u8 (u32 (hc_port e))) [ld 0; ld 1; l2] [hd 0; hd 1; h2] mt sq dn))
    as (d3 & R3 & F3); [done | by rewrite F2, F1 | done |].
  destruct (runs_stamp s d3 e l 2 (mkCapture (u8 (u32 (hc_port e))) [ld 0; ld 1; l2] [hd 0; hd 1; h2] mt sq dn)
    (mkCapture (u8 (u32 (hc_port e))) [ld 0; ld 1; ld 2] [hd 0; hd 1; hd 2] mt sq dn))
    as (d4 & R4 & F4); [done | by rewrite F3, F2, F1 | done |].
  destruct (hw_info s d4 e l ltac:(by rewrite F4, F3, F2, F1)) as (d5 & E5 & F5 & F5').
  exists d5. split_and!; [| done | intros s' Hne; by rewrite F5', F4, F3, F2, F1].
  assert (Hd : decode e = set_info (mkCapture (u8 (u32 (hc_port e))) [ld 0; ld 1; ld 2]
    [hd 0; hd 1; hd 2] mt sq dn) (u32 (hc_info e))) by done. rewrite Hd.
  unfold read_capture. eapply runs_bind; [by apply runs_readl |].
  eapply runs_bind; [| eapply runs_bind; [by apply runs_readl | apply runs_ret]].
  cbn [for_io]. change (Z.to_nat (NUM_OF_DOMAIN + 1)) with 3%nat. cbn [for_io].
  eapply runs_bind; [exact R2 |]. eapply runs_bind; [exact R3 |].
  eapply runs_bind; [exact R4 |]. apply runs_ret.
Qed.

Definition dir_queue (x : capture_dir) (s : ax_switch) : TS_QUEUE :=
  match x with Rx => rx_queue s | Tx => tx_queue s end.
Definition dir_set (x : capture_dir) (s : ax_switch) (q : TS_QUEUE) : ax_switch :=
  match x with Rx => set_rx s q | Tx => set_tx s q end.

(** One turn of a drain loop, as a function. *)
Definition drain_step (x : capture_dir) (a : CAPTURE_DATA * ax_switch) (e : hw_capture)
    : CAPTURE_DATA * ax_switch :=
  (decode e, dir_set x (snd a)
     (default (dir_queue x (snd a)) (_tsn_tsq_insert_item (dir_queue x (snd a)) (decode e)))).

Definition switch_ok (s : ax_switch) : Prop :=
  tsq_wf (rx_queue s) /\ tsq_wf (tx_queue s) /\ number_of_domains s = NUM_OF_DOMAIN.

Definition drain_inv (a : CAPTURE_DATA * ax_switch) : Prop :=
  ts_sized (fst a) /\ switch_ok (snd a).

Lemma dir_queue_wf x s : switch_ok s -> tsq_wf (dir_queue x s).
Proof. intros (? & ? & ?). by destruct x. Qed.

Lemma dir_insert x s e : switch_ok s -> exists q',
  _tsn_tsq_insert_item (dir_queue x s) (decode e) = Some q' /\ tsq_wf q' /\
  max_num_items q' = max_num_items (dir_queue x s) /\
  tsq_contents q' =
    take (Z.to_nat (max_num_items (dir_queue x s))) (decode e :: tsq_contents (dir_queue x s)).
Proof.
  intros Hs. destruct (tsq_step_ok (dir_queue x s) (OpInsert (decode e)))
    as (q' & E & Hw & Hm & Hc); [by apply dir_queue_wf |]. by exists q'.
Qed.

Lemma drain_step_inv x a e : drain_inv a -> drain_inv (drain_step x a e).
Proof.
  intros [_ Hs]. split; [done |]. unfold drain_step. cbn [snd].
  destruct (dir_insert x (snd a) e Hs) as (q' & E & Hw & _). rewrite E. simpl.
  destruct Hs as (Hr & Ht & Hd). by destruct x.
Qed.

(** What the loop has done to the queue of its direction; the other is intact. *)
Lemma drain_fold x (l : list hw_capture) a : drain_inv a ->
  let q := dir_queue x (snd a) in
  let a' := foldl (drain_step x) a l in
  drain_inv a' /\ max_num_items (dir_queue x (snd a')) = max_num_items q /\
  tsq_contents (dir_queue x (snd a')) =
    take (Z.to_nat (max_num_items q)) (rev (decode <$> l) ++ tsq_contents q) /\
  (forall y, y <> x -> dir_queue y (snd a') = dir_queue y (snd a)) /\
  ptp_mode (snd a') = ptp_mode (snd a).
Proof.
  revert a. induction l as [| e l IH]; intros a Ha; cbv zeta.
  - simpl. split_and!; try done. rewrite take_ge; [done |].
    pose proof (dir_queue_wf x _ (proj2 Ha)) as Hw.
    pose proof (tsq_contents_length _ Hw). destruct Hw as (_ & _ & _ & ?). lia.
  - simpl foldl. destruct (dir_insert x (snd a) e (proj2 Ha)) as (q' & E & Hw & Hm & Hc).
    destruct (IH (drain_step x a e) (drain_step_inv x a e Ha)) as (Hi & Hm' & Hc' & Ho & Hp).
    assert (Eq : dir_queue x (snd (drain_step x a e)) = q').
    { unfold drain_step. rewrite E. by destruct x. }
    rewrite Eq in Hm', Hc'. split_and!; try done.
    + by rewrite Hm', Hm.
    + rewrite Hc', Hm, Hc, fmap_cons. simpl rev. rewrite <- (app_assoc _ [decode e]). simpl.
      rewrite !take_app, take_take. f_equal. f_equal. lia.
    + intros y Hy. rewrite Ho by done. unfold drain_step. by destruct x, y.
    + rewrite Hp. unfold drain_step. by destruct x.
Qed.

Lemma fifo_nonempty_runs x d : exists d',
  runs (fifo_nonempty (Z.shiftl 1 (ctrl_bit x))) d (negb (bool_decide (fifo x d = []))) d' /\
  (forall s, fifo s d' = fifo s d).
Proof.
  destruct (hw_ctrl d) as (v & d' & E & Hf & Hb). exists d'. split; [| done].
  eapply runs_bind; [by apply runs_readl |].
  rewrite land_bit_testbit by (by destruct x). rewrite Hb. apply runs_ret.
Qed.

(** The state after a drain: this FIFO empty, the other untouched. *)
Definition drained (x : capture_dir) (d d' : D) : Prop :=
  fifo x d' = [] /\ forall y, y <> x -> fifo y d' = fifo y d.

Lemma rx_drain_runs (ins : TS_QUEUE -> CAPTURE_DATA -> option TS_QUEUE) fuel a d :
  (forall q c, ins q c = _tsn_tsq_insert_item q c) ->
  drain_inv a -> (length (fifo Rx d) < fuel)%nat ->
  exists d', runs (while_io fuel (fun _ => fifo_nonempty 0x1)
    (fun '(ts, s) =>
       let! ts := read_capture PTP_RX_PORT PTP_FR_RX_TIMESTAMP_LO
                    PTP_FR_RX_TIMESTAMP_HI PTP_RX_MESSAGE_INFO
                    (number_of_domains s) ts in
       let! q := lift_opt (ins (rx_queue s) ts) in
       ret (ts, set_rx s q)) a) d (foldl (drain_step Rx) a (fifo Rx d)) d' /\
  drained Rx d d'.
Proof.
  intros Hins Ha Hf.
  destruct (runs_while_drain (fifo Rx)
    (fun a d' => drain_inv a /\ forall y, y <> Rx -> fifo y d' = fifo y d) (drain_step Rx)
    (fun _ => fifo_nonempty 0x1)
    (fun '(ts, s) =>
       let! ts := read_capture PTP_RX_PORT PTP_FR_RX_TIMESTAMP_LO
                    PTP_FR_RX_TIMESTAMP_HI PTP_RX_MESSAGE_INFO
                    (number_of_domains s) ts in
       let! q := lift_opt (ins (rx_queue s) ts) in
       ret (ts, set_rx s q))) with (fuel := fuel) (a := a) (d := d)
    as (d' & R & E & _ & Ho); try done; [| | by exists d'].
  - intros b d1 [Hb Hy]. destruct (fifo_nonempty_runs Rx d1) as (d2 & R & F).
    exists d2. split_and!; try done. intros y Hn. rewrite F. by apply Hy.
  - intros [ts s] d1 e l [Hb Hy] El.
    destruct (read_capture_runs Rx d1 e l ts (proj1 Hb) El) as (d2 & R & F & Fo).
    exists d2. split_and!; [| done | by apply drain_step_inv | intros y Hn; rewrite Fo; auto].
    destruct (proj2 Hb) as (_ & _ & Hd). cbn [snd] in Hd. rewrite Hd.
    destruct (dir_insert Rx s e (proj2 Hb)) as (q' & Ei & _).
    eapply runs_bind; [exact R |].
    eapply runs_bind; [apply runs_lift; rewrite Hins; exact Ei |].
    unfold drain_step. cbn [snd]. rewrite Ei. apply runs_ret.
Qed.

Lemma tx_drain_runs fuel n a d :
  drain_inv a -> (length (fifo Tx d) < fuel)%nat ->
  exists d', runs (while_io fuel (fun _ => fifo_nonempty 0x02)
    (fun '(n, (ts, s)) =>
       let! ts := read_capture PTP_TX_PORT PTP_FR_TX_TIMESTAMP_LO
                    PTP_FR_TX_TIMESTAMP_HI PTP_TX_MESSAGE_INFO
                    (number_of_domains s) ts in
       let! q := lift_opt (_ax_insert_items (tx_queue s) ts) in
       ret (n + 1, (ts, set_tx s q))) (n, a)) d
    (n + Z.of_nat (length (fifo Tx d)), foldl (drain_step Tx) a (fifo Tx d)) d' /\
  drained Tx d d'.
Proof.
  intros Ha Hf.
  destruct (runs_while_drain (fifo Tx)
    (fun a d' => drain_inv (snd a) /\ forall y, y <> Tx -> fifo y d' = fifo y d)
    (fun '(n, a) e => (n + 1, drain_step Tx a e))
    (fun _ => fifo_nonempty 0x02)
    (fun '(n, (ts, s)) =>
       let! ts := read_capture PTP_TX_PORT PTP_FR_TX_TIMESTAMP_LO
                    PTP_FR_TX_TIMESTAMP_HI PTP_TX_MESSAGE_INFO
                    (number_of_domains s) ts in
       let! q := lift_opt (_ax_insert_items (tx_queue s) ts) in
       ret (n + 1, (ts, set_tx s q)))) with (fuel := fuel) (a := (n, a)) (d := d)
    as (d' & R & E & _ & Ho); try done.
  - intros [m b] d1 [Hb Hy]. destruct (fifo_nonempty_runs Tx d1) as (d2 & R & F).
    exists d2. split_and!; try done. intros y Hn. rewrite F. by apply Hy.
  - intros [m [ts s]] d1 e l [Hb Hy] El. cbn [snd] in Hb.
    destruct (read_capture_runs Tx d1 e l ts (proj1 Hb) El) as (d2 & R & F & Fo).
    exists d2. split_and!; [| done | by apply drain_step_inv | intros y Hn; rewrite Fo; auto].
    destruct (proj2 Hb) as (_ & _ & Hd). cbn [snd] in Hd. rewrite Hd.
    destruct (dir_insert Tx s e (proj2 Hb)) as (q' & Ei & _).
    eapply runs_bind; [exact R |].
    eapply runs_bind; [apply runs_lift; exact Ei |].
    unfold drain_step. cbn [snd]. rewrite Ei. apply runs_ret.
  - exists d'. split; [| done].
    assert (Ef : forall l m b, foldl (fun '(n, a) e => (n + 1, drain_step Tx a e)) (m, b) l
      = (m + Z.of_nat (length l), foldl (drain_step Tx) b l)).
    { induction l as [| e l IH]; intros m b; simpl; [f_equal; lia |].
      rewrite IH. f_equal. lia. }
    by rewrite Ef in R.
Qed.

Lemma retrieve_hw_runs fuel ts s d :
  ts_sized ts -> switch_ok s ->
  (length (fifo Rx d) < fuel)%nat -> (length (fifo Tx d) < fuel)%nat ->
  exists d', runs (ax_retrieve_hw_timestamps fuel ts s) d
    (Z.of_nat (length (fifo Tx d)),
     snd (foldl (drain_step Tx) (foldl (drain_step Rx) (ts, s) (fifo Rx d)) (fifo Tx d))) d' /\
  fifo Rx d' = [] /\ fifo Tx d' = [].
Proof.
  intros Hts Hs Hr Ht.
  destruct (rx_drain_runs _ax_insert_items fuel (ts, s) d) as (d1 & R1 & E1 & O1);
    [done | by split | done |].
  destruct (drain_fold Rx (fifo Rx d) (ts, s)) as (Hi & _); [by split |].
  destruct (tx_drain_runs fuel 0 (foldl (drain_step Rx) (ts, s) (fifo Rx d)) d1)
    as (d2 & R2 & E2 & O2); [done | by rewrite O1 |].
  rewrite O1 in R2 by done. exists d2. rewrite O2, E1 by done. split_and!; [| done ..].
  unfold ax_retrieve_hw_timestamps. eapply runs_bind; [exact R1 |].
  eapply runs_bind; [exact R2 |]. apply runs_ret.
Qed.

Lemma retrieve_rx_runs fuel ts s d :
  ts_sized ts -> switch_ok s -> (length (fifo Rx d) < fuel)%nat ->
  exists d', runs (ax_retrieve_rx_hw_timestamps fuel ts s) d
    (snd (foldl (drain_step Rx) (ts, s) (fifo Rx d))) d' /\ drained Rx d d'.
Proof.
  intros Hts Hs Hr.
  destruct (rx_drain_runs _tsn_tsq_insert_item fuel (ts, s) d) as (d1 & R1 & Hd);
    [done | by split | done |].
  exists d1. split; [| done]. eapply runs_bind; [exact R1 |]. apply runs_ret.
Qed.

(** [s'] is [s] after its queue of direction [x] received the captures [l]. *)
Definition received (x : capture_dir) (l : list hw_capture) (s s' : ax_switch) : Prop :=
  max_num_items (dir_queue x s') = max_num_items (dir_queue x s) /\
  tsq_contents (dir_queue x s') =
    take (Z.to_nat (max_num_items (dir_queue x s)))
      (rev (decode <$> l) ++ tsq_contents (dir_queue x s)).

Lemma retrieve_hw_received fuel ts s d :
  ts_sized ts -> switch_ok s ->
  (length (fifo Rx d) < fuel)%nat -> (length (fifo Tx d) < fuel)%nat ->
  exists s' d', runs (ax_retrieve_hw_timestamps fuel ts s) d
    (Z.of_nat (length (fifo Tx d)), s') d' /\
  fifo Rx d' = [] /\ fifo Tx d' = [] /\ switch_ok s' /\ ptp_mode s' = ptp_mode s /\
  received Rx (fifo Rx d) s s' /\ received Tx (fifo Tx d) s s'.
Proof.
  intros Hts Hs Hr Ht. destruct (retrieve_hw_runs fuel ts s d) as (d' & R & E1 & E2); try done.
  eexists _, d'. split_and!; [exact R | done | done | ..];
    destruct (drain_fold Rx (fifo Rx d) (ts, s)) as (Hi & Hm & Hc & Ho & Hp); try done;
    destruct (drain_fold Tx (fifo Tx d) _ Hi) as (Hi' & Hm' & Hc' & Ho' & Hp').
  - apply Hi'.
  - by rewrite Hp', Hp.
  - unfold received. rewrite Ho' by done. done.
  - unfold received. rewrite Hm', Hc', !Ho by done. done.
Qed.
End Drain.

(** ** Captures and frames *)

(** The layout of the message-information register. *)
Definition info_word (mt seq dom : Z) : Z := seq * 2 ^ 12 + dom * 2 ^ 4 + mt.

(** The stamp of a capture: nanoseconds of the timer the mode selects. *)
Definition stamp_ns (mode : Z) (c : CAPTURE_DATA) : option Z :=
  if mode =? 0 then
    s ← timestamp_h c !! 0%nat; n ← timestamp_l c !! 0%nat; Some (s * 10 ^ 9 + n)
  else if mode =? 1 then
    s ← timestamp_h c !! 1%nat; n ← timestamp_l c !! 1%nat; Some (s * 10 ^ 9 + n)
  else None.

(** A capture record with the C types: three 32-bit stamps. *)
Definition ts_ok (c : CAPTURE_DATA) : Prop :=
  ts_sized c /\ Forall is_u32 (timestamp_l c) /\ Forall is_u32 (timestamp_h c).

Lemma decode_ok e : ts_ok (decode e).
Proof. repeat constructor; apply u32_range. Qed.

Lemma info_word_fields mt seq dom :
  0 <= mt < 16 -> is_u16 seq -> is_u8 dom ->
  u8 (Z.land (info_word mt seq dom) 0xF) = mt /\
  u16 (Z.land (Z.shiftr (info_word mt seq dom) 12) 0xFFFF) = seq /\
  u8 (Z.land (Z.shiftr (info_word mt seq dom) 4) 0xFF) = dom /\
  is_u32 (info_word mt seq dom).
Proof.
  intros Hm Hs Hd. unfold info_word.
  change 0xF with (2 ^ 4 - 1). change 0xFFFF with (2 ^ 16 - 1). change 0xFF with (2 ^ 8 - 1).
  rewrite !land_ones_mod, !Z.shiftr_div_pow2 by lia. split_and!; zwrap.
Qed.

Lemma stamp_u64 sec nsec : is_u32 sec -> is_u32 nsec ->
  u64 (u64 (sec * NS_PER_SEC) + nsec) = sec * 10 ^ 9 + nsec.
Proof.
  unfold NS_PER_SEC. intros Hs Hn. rewrite (u64_small (sec * _)) by zwrap.
  apply u64_small. zwrap.
Qed.

Lemma mode_stamp_ns mode c : ts_ok c -> mode_stamp mode c = Some (stamp_ns mode c).
Proof.
  intros ([Hl Hh] & Fl & Fh). unfold mode_stamp, stamp_ns.
  destruct c as [p tl th mt sq dn]; simpl in *.
  destruct tl as [| l0 [| l1 [| l2 []]]]; try discriminate Hl.
  destruct th as [| h0 [| h1 [| h2 []]]]; try discriminate Hh.
  rewrite !Forall_cons_iff in Fl, Fh.
  destruct (mode =? 0); [| destruct (mode =? 1); [| done]];
    rewrite ?getz_0, ?getz_1; unfold mbind, option_bind; by rewrite stamp_u64 by tauto.
Qed.

Lemma find_app_miss {A} (f : A -> bool) l1 l2 :
  Forall (fun x => f x = false) l1 -> List.find f (l1 ++ l2) = List.find f l2.
Proof. induction 1 as [| a l Ha _ IH]; [done |]. simpl. by rewrite Ha. Qed.

Lemma find_take {A} (f : A -> bool) l1 c l2 n :
  Forall (fun x => f x = false) l1 -> f c = true -> (length l1 < n)%nat ->
  List.find f (take n (l1 ++ c :: l2)) = Some c.
Proof.
  intros H1 Hc Hn. rewrite take_app_ge by lia. rewrite find_app_miss by done.
  replace (n - length l1)%nat with (S (n - length l1 - 1)) by lia. simpl. by rewrite Hc.
Qed.

(** The key a frame is searched by, from its PTP header. *)
Lemma ptp_key_fields junk m key :
  Forall is_u8 (skb_data m) -> ptp_key junk m = Some key ->
  0 <= msg_type key < 16 /\ is_u16 (sequence_id key) /\ is_u8 (domain_number key) /\
  is_u8 (port_id key).
Proof.
  unfold ptp_key, skb_copy. intros Hb E. case_decide; [| done]. simpl in E.
  assert (Hh : Forall is_u8 (take PTP_HDR_SIZE (drop (ptp_msg_offset m) (skb_data m))))
    by (by apply Forall_take, Forall_drop).
  set (hdr := take _ _) in *. unfold be16 in E.
  destruct (hdr !! PTP_MSG_TYPE_OFFSET) as [b0 |] eqn:E0; [| done].
  destruct (hdr !! PTP_SEQ_ID_OFFSET) as [s0 |] eqn:E1; [| done].
  destruct (hdr !! S PTP_SEQ_ID_OFFSET) as [s1 |] eqn:E2; [| done].
  destruct (hdr !! PTP_SUBDOMAIN_OFFSET) as [dm |] eqn:E3; [| done].
  apply (Forall_lookup_1 _ _ _ _ Hh) in E0, E1, E2, E3. injection E as <-. cbn.
  change 0x0F with (2 ^ 4 - 1). change 0xFF with (2 ^ 8 - 1).
  rewrite !land_ones_mod by lia. split_and!; zwrap.
Qed.

Lemma decode_matches junk m key e :
  Forall is_u8 (skb_data m) -> ptp_key junk m = Some key ->
  u8 (u32 (hc_port e)) = port_id key ->
  hc_info e = info_word (msg_type key) (sequence_id key) (domain_number key) ->
  _ax_tsq_check_item_1 (decode e) key = true.
Proof.
  intros Hb Hk Hp Hi. destruct (ptp_key_fields _ _ _ Hb Hk) as (Hm & Hs & Hd & _).
  destruct (info_word_fields _ _ _ Hm Hs Hd) as (E1 & E2 & E3 & E4).
  unfold _ax_tsq_check_item_1, decode, set_info. cbn [port_id msg_type sequence_id domain_number].
  rewrite Hi, (u32_small _ E4), E1, E2, E3, Hp, !Z.eqb_refl. done.
Qed.

Lemma spec_find_status h key :
  (fst (spec_find h key) <? 0) = negb (bool_decide (is_Some (List.find (fun d => _ax_tsq_check_item_1 d key) h))) /\
  (fst (spec_find h key) =? 0) = bool_decide (is_Some (List.find (fun d => _ax_tsq_check_item_1 d key) h)) /\
  forall c, List.find (fun d => _ax_tsq_check_item_1 d key) h = Some c -> snd (spec_find h key) = c.
Proof.
  unfold spec_find. destruct h as [| a h]; [done |].
  destruct (List.find _ (a :: h)) as [c |]; split_and!; try done; by intros ? [= ->].
Qed.


Lemma received_app x l1 l2 s s1 s2 :
  received x l1 s s1 -> received x l2 s1 s2 -> received x (l1 ++ l2) s s2.
Proof.
  intros [M1 C1] [M2 C2]. split; [by rewrite M2 |].
  rewrite C2, C1, M1, fmap_app, rev_app_distr, <- app_assoc. apply take_app_take.
Qed.

Lemma received_ok x l s s' :
  received x l s s' -> Forall ts_ok (tsq_contents (dir_queue x s)) ->
  Forall ts_ok (tsq_contents (dir_queue x s')).
Proof.
  intros [_ ->] Hold. apply Forall_take, Forall_app. split; [| done].
  apply Forall_rev, Forall_fmap, Forall_true. intros e. apply decode_ok.
Qed.

Definition tx_found (key : CAPTURE_DATA) (s : ax_switch) : option CAPTURE_DATA :=
  List.find (fun c => _ax_tsq_check_item_1 c key) (tsq_contents (tx_queue s)).

Section TxRetry.
Context {D : Type} `{CaptureHw D}.
Context (udelay : Z -> D -> D) (fuel : nat).
(** The FIFOs never hold [fuel] captures when the driver comes to drain them. *)
Context (Hdepth : forall us d x, (length (fifo x (udelay us d)) < fuel)%nat).

(** One attempt: the stamp of the key when the drained queue holds it. *)
Lemma tx_retry_attempt n junk key s d :
  ts_sized junk -> switch_ok s -> Forall ts_ok (tsq_contents (tx_queue s)) ->
  (forall x, (length (fifo x d) < fuel)%nat) ->
  exists s1 d1, switch_ok s1 /\ ptp_mode s1 = ptp_mode s /\ (forall x, fifo x d1 = []) /\
    received Tx (fifo Tx d) s s1 /\
    match tx_found key s1 with
    | Some c => runs (tx_retry udelay fuel junk key (S n) s) d (stamp_ns (ptp_mode s) c, s1) d1
    | None => forall r d', runs (tx_retry udelay fuel junk key n s1) (udelay 500 d1) r d' ->
        runs (tx_retry udelay fuel junk key (S n) s) d r d'
    end.
Proof.
  intros Hj Hs Hok Hd.
  destruct (retrieve_hw_received fuel junk s d)
    as (s1 & d1 & R & E1 & E2 & Hs1 & Hp & _ & Rt); try done.
  exists s1, d1. split_and!; try done; [by intros [] |].
  pose proof (received_ok Tx _ _ _ Rt Hok) as Hok1.
  pose proof (tsq_find_contents (tx_queue s1) key (dir_queue_wf Tx s1 Hs1)) as Ef.
  destruct (spec_find_status (tsq_contents (tx_queue s1)) key) as (_ & Est & Ec).
  fold (tx_found key s1) in Est, Ec.
  destruct (tx_found key s1) as [c |] eqn:Efound; [| intros r d' R'];
    cbn [tx_retry]; (eapply runs_bind; [exact R |]); cbn [snd];
    (eapply runs_bind; [apply runs_lift; exact Ef |]); rewrite Est; cbn [bool_decide].
  - rewrite bool_decide_true by done.
    eapply runs_bind; [apply runs_lift | apply runs_ret].
    rewrite (Ec c eq_refl), Hp. apply mode_stamp_ns.
    apply List.find_some in Efound as [Hin _].
    exact (proj1 (List.Forall_forall _ _) Hok1 c Hin).
  - rewrite bool_decide_false by (by intros []).
    eapply runs_bind; [by exists [] | exact R'].
Qed.

Lemma tx_retry_runs n junk key s d :
  ts_sized junk -> switch_ok s -> Forall ts_ok (tsq_contents (tx_queue s)) ->
  (forall x, (length (fifo x d) < fuel)%nat) ->
  exists st s' d' late, runs (tx_retry udelay fuel junk key (S n) s) d (st, s') d' /\
    switch_ok s' /\ received Tx (fifo Tx d ++ late) s s' /\
    st = (c ← tx_found key s'; stamp_ns (ptp_mode s) c) /\
    ptp_mode s' = ptp_mode s /\ (forall x, (length (fifo x d') < fuel)%nat).
Proof.
  intros Hj. revert s d. induction n as [| n IH]; intros s d Hs Hok Hd.
  all: lazymatch goal with |- context [tx_retry _ _ _ _ (S ?m) _] =>
    destruct (tx_retry_attempt m junk key s d) as (s1 & d1 & Hs1 & Hp & He & Rt & R); try done end.
  all: destruct (tx_found key s1) as [c |] eqn:Ef.
  1, 3: exists (stamp_ns (ptp_mode s) c), s1, d1, []; rewrite app_nil_r, Ef; split_and!; try done;
    intros x; rewrite He; apply (Nat.le_lt_trans _ (length (fifo x d))); [cbn; lia | apply Hd].
  - exists None, s1, (udelay 500 d1), []. rewrite app_nil_r, Ef. split_and!; try done. apply R, runs_ret.
  - destruct (IH s1 (udelay 500 d1)) as (st & s' & d' & late & R' & Hs' & Rt' & Est' & Hp' & Hd');
      [done | exact (received_ok Tx _ _ _ Rt Hok) | by intros x; apply Hdepth |].
    exists st, s', d', (fifo Tx (udelay 500 d1) ++ late).
    split_and!; [by apply R | done | by eapply received_app | by rewrite <- Hp | congruence | done].
Qed.
End TxRetry.

(** ** Theorems *)

(** C2. [ax_retrieve_hw_timestamps] terminates once its fuel exceeds the two
    FIFOs, empties both, stores outside no array, returns the number of
    transmit captures, and leaves in each queue the most recent captures,
    the FIFO's after what the queue already held. *)
Theorem retrieve_hw_timestamps_spec {D} `{CaptureHw D} fuel ts s d :
  ts_sized ts -> switch_ok s ->
  (length (fifo Rx d) < fuel)%nat -> (length (fifo Tx d) < fuel)%nat ->
  exists s' d', runs (ax_retrieve_hw_timestamps fuel ts s) d
    (Z.of_nat (length (fifo Tx d)), s') d' /\
  fifo Rx d' = [] /\ fifo Tx d' = [] /\ switch_ok s' /\ ptp_mode s' = ptp_mode s /\
  received Rx (fifo Rx d) s s' /\ received Tx (fifo Tx d) s s'.
Proof. apply retrieve_hw_received. Qed.

(** C3. A received PTP frame is stamped with the time of its own capture: when
    the receive FIFO holds a capture of the frame's port, message type, domain
    and sequence number, followed by fewer captures than the queue holds, none
    of them with the same key, then draining the FIFO and stamping the frame
    stores [seconds * 10^9 + nanoseconds] of the timer the mode selects,
    without overflow, and nothing in an invalid mode. *)
Theorem rx_frame_stamped {D} `{CaptureHw D} fuel ts junk s d m key older e newer :
  ts_sized ts -> switch_ok s -> (length (fifo Rx d) < fuel)%nat ->
  Forall is_u8 (skb_data m) -> ptp_key junk m = Some key ->
  fifo Rx d = older ++ e :: newer ->
  u8 (u32 (hc_port e)) = port_id key ->
  hc_info e = info_word (msg_type key) (sequence_id key) (domain_number key) ->
  Forall (fun c => _ax_tsq_check_item_1 (decode c) key = false) newer ->
  Z.of_nat (length newer) < max_num_items (rx_queue s) ->
  exists s' d', runs (ax_retrieve_rx_hw_timestamps fuel ts s) d s' d' /\
    fifo Rx d' = [] /\ fifo Tx d' = fifo Tx d /\ tx_queue s' = tx_queue s /\
    ax_tsn_rx_hwtstamp junk s' m =
      Some (if ptp_mode s =? 0 then Some (u32 (hc_hi e 0) * 10 ^ 9 + u32 (hc_lo e 0))
            else if ptp_mode s =? 1 then Some (u32 (hc_hi e 1) * 10 ^ 9 + u32 (hc_lo e 1))
            else None).
Proof.
  intros Hts Hs Hf Hb Hk El Hp Hi Hnew Hmax.
  destruct (retrieve_rx_runs fuel ts s d) as (d' & R & E1 & Eo); try done.
  destruct (drain_fold Rx (fifo Rx d) (ts, s)) as (Hinv & Hm & Hc & Ho & Hpm); [done |].
  set (s' := snd (foldl (drain_step Rx) (ts, s) (fifo Rx d))) in *.
  exists s', d'. split_and!; [exact R | done | by apply Eo | by apply (Ho Tx) |].
  assert (Ef : List.find (fun c => _ax_tsq_check_item_1 c key)
    (tsq_contents (rx_queue s')) = Some (decode e)).
  { change (rx_queue s') with (dir_queue Rx s').
    rewrite Hc, El, fmap_app, rev_app_distr, fmap_cons. simpl rev. rewrite <- !app_assoc.
    apply find_take; [by apply Forall_rev, Forall_fmap | by eapply decode_matches |].
    rewrite length_rev, length_fmap. cbn [dir_queue snd]. lia. }
  destruct (spec_find_status (tsq_contents (rx_queue s')) key) as (Est & _ & Ec).
  unfold ax_tsn_rx_hwtstamp. rewrite Hk. cbn [mbind option_bind].
  rewrite (tsq_find_contents _ key (proj1 (proj2 Hinv) : tsq_wf (rx_queue s'))).
  cbn [mbind option_bind]. rewrite Est, Ef, (Ec _ Ef), Hpm.
  rewrite bool_decide_true by done. cbn [negb]. rewrite mode_stamp_ns by apply decode_ok.
  unfold stamp_ns. cbn [snd]. by destruct (ptp_mode s =? 0), (ptp_mode s =? 1).
Qed.

(** C4. [ax_tsn_tx_hwtstamp] always returns: with FIFOs that never hold [fuel]
    captures, its polling ends, every capture drained on the way is in the
    transmit queue (up to its capacity), and the stamp it delivers is that of
    the most recent capture with the frame's key, or none when the queue it
    leaves holds no such capture. *)
Theorem tx_hwtstamp_spec {D} `{CaptureHw D} udelay fuel junk key m s d :
  (forall us d x, (length (fifo x (udelay us d)) < fuel)%nat) ->
  (forall x, (length (fifo x d) < fuel)%nat) ->
  ts_sized junk -> switch_ok s -> Forall ts_ok (tsq_contents (tx_queue s)) ->
  ptp_key junk m = Some key ->
  exists st s' d' late, runs (ax_tsn_tx_hwtstamp udelay fuel junk s m) d (st, s') d' /\
    switch_ok s' /\ received Tx (fifo Tx d ++ late) s s' /\
    st = (c ← tx_found key s'; stamp_ns (ptp_mode s) c).
Proof.
  intros Hu Hd Hj Hs Hok Hk.
  destruct (tx_retry_runs udelay fuel Hu 20 junk key s d)
    as (st & s' & d' & late & R & H1 & H2 & H3 & _); try done.
  exists st, s', d', late. split_and!; [| done ..].
  eapply runs_bind; [by apply runs_lift | exact R].
Qed.

(** [ax_tsn_init_switch] with arrays of the requested size: both queues are
    empty and well formed, with room for eighteen captures; when the first
    allocation fails nothing is held; when only the second fails the call
    fails too, but the receive queue keeps its live array. *)
Theorem init_switch_spec krx ktx s :
  (forall n mem, krx n = Some mem -> Z.of_nat (length mem) = n) ->
  (forall n mem, ktx n = Some mem -> Z.of_nat (length mem) = n) ->
  match krx 18, ktx 18 with
  | Some _, Some _ => exists s', ax_tsn_init_switch krx ktx (Some s) = (0, Some s') /\
      switch_ok s' /\ tsq_contents (rx_queue s') = [] /\ tsq_contents (tx_queue s') = [] /\
      max_num_items (rx_queue s') = 18 /\ max_num_items (tx_queue s') = 18
  | None, _ => exists s', ax_tsn_init_switch krx ktx (Some s) = (-1, Some s') /\
      ts_items (rx_queue s') = TsNull /\ tx_queue s' = tx_queue s
  | Some mem, None => exists s', ax_tsn_init_switch krx ktx (Some s) = (-1, Some s') /\
      ts_items (rx_queue s') = TsLive mem /\ ts_items (tx_queue s') = TsNull
  end.
Proof.
  intros Hr Ht. unfold ax_tsn_init_switch, _tsn_tsq_init. simpl number_of_ports.
  simpl number_of_domains. change (NUM_SWITCH_PORTS * NUM_OF_DOMAIN + 8) with 18.
  destruct (krx 18) as [mr |] eqn:Er; [| by eexists].
  apply Hr in Er. simpl. destruct (ktx 18) as [mt |] eqn:Et; [| by eexists].
  apply Ht in Et. eexists. split; [done |]. unfold switch_ok, tsq_wf. simpl.
  split_and!; try done; by eexists.
Qed.

(** The unused helper [_ax_time_to_ull] forgets the seconds it is given. *)
Lemma time_to_ull_drops_seconds t s1 s2 ns :
  _ax_time_to_ull t s1 ns = _ax_time_to_ull t s2 ns.
Proof. done. Qed.

(** ** A capture block to run the theorems on *)

Module CaptureSim.

Record sim := mkSim { sim_rx : list hw_capture; sim_tx : list hw_capture }.

Definition sim_fifo (x : capture_dir) (d : sim) : list hw_capture :=
  match x with Rx => sim_rx d | Tx => sim_tx d end.
Definition sim_pop (x : capture_dir) (d : sim) : sim :=
  match x with Rx => mkSim (tail (sim_rx d)) (sim_tx d) | Tx => mkSim (sim_rx d) (tail (sim_tx d)) end.
Definition pending (l : list hw_capture) (bit : Z) : Z := match l with [] => 0 | _ => bit end.

Definition head_reg (x : capture_dir) (a : Z) (d : sim) : option (Z * sim) :=
  match sim_fifo x d with
  | [] => None
  | e :: _ =>
      if a =? port_reg x then Some (hc_port e, d)
      else if a =? info_reg x then Some (hc_info e, sim_pop x d)
      else if (lo_reg x <=? a) && (a <=? hi_reg x + 16) then
        Some (if (a - lo_reg x) mod 8 =? 0 then hc_lo e ((a - lo_reg x) / 8)
              else hc_hi e ((a - hi_reg x) / 8), d)
      else None
  end.

#[export] Instance sim_device : Device sim := {
  dev_read a d :=
    if a =? PTP_TIMESTAMP_CTRL then (pending (sim_rx d) 1 + pending (sim_tx d) 2, d)
    else match head_reg Rx a d with
         | Some r => r
         | None => match head_reg Tx a d with Some r => r | None => (0, d) end
         end;
  dev_write _ _ d := d;
}.

Lemma dom_index i : 0 <= i <= MAX_NUM_DOMAINS -> i = 0 \/ i = 1 \/ i = 2.
Proof. unfold MAX_NUM_DOMAINS. lia. Qed.

Ltac sim_head x d E :=
  destruct x, d as [[| er r] [| et t]]; simpl in E; try discriminate E;
  injection E as -> ->; reflexivity.

Lemma sim_head_port x d e l : sim_fifo x d = e :: l ->
  dev_read (port_reg x) d = (hc_port e, d).
Proof. intros E. sim_head x d E. Qed.
Lemma sim_head_info x d e l : sim_fifo x d = e :: l ->
  dev_read (info_reg x) d = (hc_info e, sim_pop x d).
Proof. intros E. sim_head x d E. Qed.
Lemma sim_head_lo x d e l i : 0 <= i <= MAX_NUM_DOMAINS -> sim_fifo x d = e :: l ->
  dev_read (lo_reg x + 8 * i) d = (hc_lo e i, d).
Proof. intros Hi E. apply dom_index in Hi as [-> | [-> | ->]]; sim_head x d E. Qed.
Lemma sim_head_hi x d e l i : 0 <= i <= MAX_NUM_DOMAINS -> sim_fifo x d = e :: l ->
  dev_read (hi_reg x + 8 * i) d = (hc_hi e i, d).
Proof. intros Hi E. apply dom_index in Hi as [-> | [-> | ->]]; sim_head x d E. Qed.

#[export, refine] Instance sim_hw : CaptureHw sim := { fifo := sim_fifo }.
Proof.
  - intros [r t]. eexists _, _. split; [reflexivity |]. split; [done |].
    by intros []; destruct r, t.
  - intros x d e l E. exists d. split; [| done]. by eapply sim_head_port.
  - intros x d e l i Hi E. exists d. split; [| done]. by eapply sim_head_lo.
  - intros x d e l i Hi E. exists d. split; [| done]. by eapply sim_head_hi.
  - intros x d e l E. exists (sim_pop x d). split; [by eapply sim_head_info |].
    destruct x; simpl in *; rewrite E; split; try done; by intros [].
Defined.

Definition cap (port seq ns : Z) : hw_capture :=
  mkHw port (fun i => ns + i) (fun _ => 7) (info_word 0 seq 0).

(** A Sync message: type 0, domain 0, sequence number 5. *)
Definition frame (port : Z) : SKB_TSTAMP_MSG :=
  mkSkbMsg (repeat 0 31 ++ [5; 0; 0]) 0 port.

Definition junk : CAPTURE_DATA := mkCapture 0 [0; 0; 0] [0; 0; 0] 0 0 0.

Definition queue (n : nat) : TS_QUEUE :=
  mkQueue (TsLive (repeat junk n)) 0 0 (Z.of_nat n).
Definition switch (mode : Z) : ax_switch := mkSwitch (queue 18) (queue 18) 5 2 mode.

Lemma switch_is_ok mode : switch_ok (switch mode).
Proof.
  unfold switch_ok, tsq_wf. simpl. split_and!; try done; by eexists.
Qed.

(** Two captures reach the transmit FIFO during the first delay. *)
Definition wait (us : Z) (d : sim) : sim := mkSim [] [cap 1 4 10; cap 1 5 20].

End CaptureSim.

Import CaptureSim.

Lemma retrieve_hw_timestamps_witness :
  exists s' d', runs (ax_retrieve_hw_timestamps 3 junk (switch 0))
    (mkSim [cap 1 4 10; cap 1 5 20] [cap 2 9 30]) (1, s') d' /\
    sim_rx d' = [] /\ tsq_contents (rx_queue s') = decode <$> [cap 1 5 20; cap 1 4 10].
Proof.
  destruct (retrieve_hw_timestamps_spec 3 junk (switch 0)
    (mkSim [cap 1 4 10; cap 1 5 20] [cap 2 9 30]))
    as (s' & d' & R & E1 & _ & _ & _ & [_ C1] & _);
    [by split | apply switch_is_ok | simpl; lia | simpl; lia |].
  exists s', d'. split_and!; [exact R | exact E1 | etransitivity; [exact C1 | vm_compute; reflexivity]].
Defined.

Lemma rx_frame_stamped_witness :
  exists s' d', runs (ax_retrieve_rx_hw_timestamps 4 junk (switch 1))
    (mkSim [cap 3 4 10; cap 3 5 20; cap 3 6 30] []) s' d' /\
    ax_tsn_rx_hwtstamp junk s' (frame 3) = Some (Some 7000000021).
Proof.
  destruct (rx_frame_stamped 4 junk junk (switch 1)
    (mkSim [cap 3 4 10; cap 3 5 20; cap 3 6 30] []) (frame 3)
    (mkCapture 3 [0; 0; 0] [0; 0; 0] 0 5 0) [cap 3 4 10] (cap 3 5 20) [cap 3 6 30])
    as (s' & d' & R & _ & _ & _ & E);
    [by split | apply switch_is_ok | simpl; lia | repeat constructor; lia
    | reflexivity | reflexivity | reflexivity | reflexivity
    | repeat constructor | simpl; lia |].
  exists s', d'. split; [exact R | rewrite E; vm_compute; reflexivity].
Defined.

Lemma tx_hwtstamp_witness :
  exists st s' d', runs (ax_tsn_tx_hwtstamp wait 3 junk (switch 0) (frame 1))
    (mkSim [] []) (st, s') d' /\ switch_ok s'.
Proof.
  destruct (tx_hwtstamp_spec wait 3 junk (mkCapture 1 [0; 0; 0] [0; 0; 0] 0 5 0)
    (frame 1) (switch 0) (mkSim [] [])) as (st & s' & d' & late & R & Hs & _);
    [by intros us d []; simpl; lia | by intros []; simpl; lia | by split
    | apply switch_is_ok | constructor | reflexivity |].
  exists st, s', d'. by split.
Defined.

(** The capture that arrives during the first delay is the one delivered. *)
Example tx_hwtstamp_run :
  fst (fst (ax_tsn_tx_hwtstamp wait 3 junk (switch 0) (frame 1) (mkSim [] [])))
  = Ok (Some 7000000020, set_tx (switch 0)
      (mkQueue (TsLive (decode (cap 1 4 10) :: decode (cap 1 5 20) :: repeat junk 16)) 2 2 18)).
Proof. vm_compute. reflexivity. Qed.

Lemma init_switch_witness : exists s',
  ax_tsn_init_switch (fun n => if 0 <=? n then Some (repeat junk (Z.to_nat n)) else None)
    (fun n => None)
    (Some (switch 0)) = (-1, Some s') /\
  ts_items (rx_queue s') = TsLive (repeat junk 18).
Proof.
  destruct (init_switch_spec (fun n => if 0 <=? n then Some (repeat junk (Z.to_nat n)) else None)
    (fun n => None) (switch 0)) as (s' & E & Er & _);
    [intros n mem; destruct (Z.leb_spec 0 n); [intros [= <-]; rewrite repeat_length; lia | done]
    | done |].
  exists s'. split; [exact E | exact Er].
Defined.
