(* ===== verification/Qbv.v ===== *)
(** * Time-aware scheduling: the interrupt handlers (switch/ax_switch.c)

    When a timer steps, a port changes timer or a new gate schedule is
    requested, the switch interrupts and the driver computes when the next
    gate cycle or the new schedule starts.  The three handlers are [io]
    routines; their arithmetic is at its C width. *)

From Stdlib Require Import ZArith Lia Bool.
From S2P Require Import Prelude.
From S2P Require Import Mmio.
From S2P Require Import TsCapture.

Local Open Scope io_scope.

Definition AS_T_INT_MASK : Z := 0x0100.
Definition AS_T_SELECTOR : Z := 0x0104.
Definition AS_T_VAL_O_LO : Z := 0x011C.
Definition AS_T_VAL_O_HI : Z := 0x0120.
Definition FDB_CTRL : Z := 0x060C.
Definition QBV_PORT_SELECTOR : Z := 0x2000.
Definition QBV_GATE_ENABLED : Z := 0x2008.
Definition QBV_ADMIN_CYCLE_TIME : Z := 0x2024.
Definition QBV_ADMIN_BASE_TIME_NS_HI : Z := 0x2030.
Definition QBV_ADMIN_BASE_TIME_NS_LO : Z := 0x2034.
Definition QBV_OPER_CYCLE_TIME : Z := 0x204C.
Definition QBV_OPER_BASE_TIME_NS_HI : Z := 0x2058.
Definition QBV_OPER_BASE_TIME_NS_LO : Z := 0x205C.
Definition QBV_CONFIG_CHANGE_REQ : Z := 0x2060.
Definition QBV_CONFIG_CHANGE_CTRL : Z := 0x2064.
Definition QBV_CONFIG_CHANGE_STATE : Z := 0x2068.
Definition QBV_CONFIG_CHANGE_TIME_NS_HI : Z := 0x2070.
Definition QBV_CONFIG_CHANGE_TIME_NS_LO : Z := 0x2074.
Definition QBV_CYCLE_START_TIME_CTRL : Z := 0x2078.
Definition QBV_CYCLE_START_TIME_NS_HI : Z := 0x2080.
Definition QBV_CYCLE_START_TIME_NS_LO : Z := 0x2084.
Definition QBV_TIMER_DOMAIN_INDEX : Z := 0x2098.
Definition QBV_TIMER_CHANGE_REQUEST : Z := 0x209C.

(** [for (i = 0; i < max_index; i++) if (mask & (1 << i)) return i;] *)
Fixpoint index_loop (mask : Z) (n : nat) (i : Z) : Z :=
  match n with
  | O => -1
  | S n' => if negb (Z.land mask (Z.shiftl 1 i) =? 0) then i else index_loop mask n' (i + 1)
  end.

Definition get_index_by_mask (mask max_index : Z) : Z :=
  index_loop mask (Z.to_nat max_index) 0.

Definition get_cycle_start_time (current_time oper_base_time oper_cycle_time : Z) : option Z :=
  if current_time <=? oper_base_time then Some oper_base_time
  else
    actualstep ← div_u64 (u64 (current_time - oper_base_time)) oper_cycle_time;
    let nextstep := u64 (actualstep + 2) in
    Some (u64 (oper_base_time + u64 (nextstep * oper_cycle_time))).

(** The instant a new schedule takes effect, in [ax_irq_config_change]; the
    product [10*admin_cycle_time] is a 32-bit one. *)
Definition config_change_at (current_time admin_base_time admin_cycle_time : Z) : option Z :=
  if u64 (current_time + u32 (10 * admin_cycle_time)) <=? admin_base_time
  then Some admin_base_time
  else
    actualstep ← div_u64 (u64 (current_time - admin_base_time)) admin_cycle_time;
    let nextstep := u64 (actualstep + 10) in
    Some (u64 (admin_base_time + u64 (nextstep * admin_cycle_time))).

Section Handlers.
Context {D : Type} `{Device D}.

(** [((uint64_t)*hi << 32) + *lo] *)
Definition read_ns (hi_reg lo_reg : Z) : io D Z :=
  let! hi := readl hi_reg in
  let! lo := readl lo_reg in
  ret (u64 (u64 (Z.shiftl hi 32) + lo)).

(** The current time of the timer the selected port uses. *)
Definition read_current_time : io D Z :=
  let! index := readl QBV_TIMER_DOMAIN_INDEX in
  do! writel AS_T_SELECTOR (index + 1) in
  let! h := readl AS_T_VAL_O_HI in
  let! l := readl AS_T_VAL_O_LO in
  ret (u64 (u64 (h * 1000000000) + l)).

(** Store a 64-bit time as its two halves. *)
Definition write_ns (hi_reg lo_reg t : Z) : io D unit :=
  do! writel hi_reg (u32 (Z.shiftr (Z.land t 0xFFFFFFFF00000000) 32)) in
  writel lo_reg (u32 (Z.land t 0x00000000FFFFFFFF)).

Definition apply_cycle_start (current_time base cycle : Z) : io D unit :=
  let! t := lift_opt (get_cycle_start_time current_time base cycle) in
  do! write_ns QBV_CYCLE_START_TIME_NS_HI QBV_CYCLE_START_TIME_NS_LO t in
  writel QBV_CYCLE_START_TIME_CTRL 1.

(** Restart the gate cycle of the selected port: the block the two timer
    handlers share, with the registers each takes the base time from. *)
Definition restart_cycle (base_hi base_lo : Z) : io D unit :=
  do! writel QBV_CYCLE_START_TIME_CTRL 2 in
  let! cycle := readl QBV_OPER_CYCLE_TIME in
  let! base := read_ns base_hi base_lo in
  let! current_time := read_current_time in
  let! pending := readl QBV_CONFIG_CHANGE_STATE in
  if pending =? 1 then
    let! cct := read_ns QBV_CONFIG_CHANGE_TIME_NS_HI QBV_CONFIG_CHANGE_TIME_NS_LO in
    if cct <=? u64 (current_time + u32 (10 * cycle)) then writel QBV_CONFIG_CHANGE_CTRL 1
    else
      do! apply_cycle_start current_time base cycle in
      writel QBV_CONFIG_CHANGE_CTRL 1
  else apply_cycle_start current_time base cycle.

Definition ax_irq_timer_value_change (pSwitch : ax_switch) : io D unit :=
  let! mask := readl AS_T_INT_MASK in
  let timer_changed_index := u32 (get_index_by_mask mask (number_of_domains pSwitch + 1)) in
  do! for_io (Z.to_nat (number_of_ports pSwitch)) 0 (fun i _ =>
    do! writel QBV_PORT_SELECTOR (u32 i) in
    let! enabled := readl QBV_GATE_ENABLED in
    if enabled =? 1 then
      let! index := readl QBV_TIMER_DOMAIN_INDEX in
      if timer_changed_index =? u32 (index + 1) then
        restart_cycle QBV_OPER_BASE_TIME_NS_HI QBV_OPER_BASE_TIME_NS_LO
      else ret tt
    else ret tt) tt in
  writel AS_T_INT_MASK 0.

Definition ax_irq_config_change (pSwitch : ax_switch) : io D unit :=
  let! req := readl QBV_CONFIG_CHANGE_REQ in
  let port_id := get_index_by_mask req (number_of_ports pSwitch) in
  do! (if negb (port_id =? -1) then
         do! writel QBV_PORT_SELECTOR (u32 port_id) in
         let! admin_cycle_time := readl QBV_ADMIN_CYCLE_TIME in
         let! admin_base_time := read_ns QBV_ADMIN_BASE_TIME_NS_HI QBV_ADMIN_BASE_TIME_NS_LO in
         let! current_time := read_current_time in
         let! t := lift_opt (config_change_at current_time admin_base_time admin_cycle_time) in
         do! write_ns QBV_CONFIG_CHANGE_TIME_NS_HI QBV_CONFIG_CHANGE_TIME_NS_LO t in
         writel QBV_CONFIG_CHANGE_CTRL 1
       else ret tt) in
  writel QBV_CONFIG_CHANGE_REQ 0.

(** [port_id] is unsigned here: it is compared with -1 converted to 32 bits. *)
Definition ax_irq_timer_change (pSwitch : ax_switch) : io D unit :=
  let! req := readl QBV_TIMER_CHANGE_REQUEST in
  let port_id := u32 (get_index_by_mask req (number_of_ports pSwitch)) in
  do! (if negb (port_id =? u32 (-1)) then
         do! writel QBV_PORT_SELECTOR port_id in
         let! enabled := readl QBV_GATE_ENABLED in
         if enabled =? 1 then
           restart_cycle QBV_ADMIN_BASE_TIME_NS_HI QBV_ADMIN_BASE_TIME_NS_LO
         else ret tt
       else ret tt) in
  writel QBV_TIMER_CHANGE_REQUEST 0.

(** Wait for the previous clear of the forwarding database, then start one. *)
Definition ax_fast_age (fuel : nat) : io D unit :=
  do! while_io fuel (fun _ => let! c := readl FDB_CTRL in ret (Z.land c 0x80 =? 0x80))
        (fun _ => ret tt) tt in
  writel FDB_CTRL 0x10.

End Handlers.

(** ** Arithmetic *)

Lemma hi_half t : is_u64 t -> u32 (u32 (Z.shiftr (Z.land t 0xFFFFFFFF00000000) 32)) = t / 2 ^ 32.
Proof.
  intros Ht. assert (E : Z.shiftr (Z.land t 0xFFFFFFFF00000000) 32 = t / 2 ^ 32).
  { rewrite Z.shiftr_land. change (Z.shiftr 0xFFFFFFFF00000000 32) with (2 ^ 32 - 1).
    rewrite land_ones_mod, Z.shiftr_div_pow2 by lia. zwrap. }
  rewrite E, u32_idem. zwrap.
Qed.

Lemma lo_half t : u32 (u32 (Z.land t 0x00000000FFFFFFFF)) = t mod 2 ^ 32.
Proof.
  change 0x00000000FFFFFFFF with (2 ^ 32 - 1).
  rewrite land_ones_mod, u32_idem by lia. apply u32_idem.
Qed.

Lemma read_ns_value hi lo : is_u32 hi -> is_u32 lo ->
  u64 (u64 (Z.shiftl hi 32) + lo) = hi * 2 ^ 32 + lo.
Proof.
  intros Hh Hl. rewrite Z.shiftl_mul_pow2 by lia.
  rewrite (u64_small (hi * _)) by zwrap. apply u64_small. zwrap.
Qed.

Lemma now_value h l : is_u32 h -> is_u32 l ->
  u64 (u64 (h * 1000000000) + l) = h * 10 ^ 9 + l.
Proof. apply stamp_u64. Qed.

Lemma get_cycle_start_u64 now base cycle t :
  is_u64 base -> get_cycle_start_time now base cycle = Some t -> is_u64 t.
Proof.
  unfold get_cycle_start_time. intros Hb. destruct (now <=? base); [by intros [= <-] |].
  destruct (div_u64 _ _); [| done]. intros [= <-]. apply u64_range.
Qed.

Lemma config_change_u64 now base cycle t :
  is_u64 base -> config_change_at now base cycle = Some t -> is_u64 t.
Proof.
  unfold config_change_at. intros Hb. destruct (_ <=? base); [by intros [= <-] |].
  destruct (div_u64 _ _); [| done]. intros [= <-]. apply u64_range.
Qed.

#[export] Hint Resolve get_cycle_start_u64 config_change_u64 : machine.

(** The least set bit below [n]. *)
Definition least_bit (mask n p : Z) : Prop :=
  0 <= p < n /\ Z.testbit mask p = true /\ forall j, 0 <= j < p -> Z.testbit mask j = false.

Definition no_bit (mask n : Z) : Prop := forall j, 0 <= j < n -> Z.testbit mask j = false.

Lemma index_loop_spec mask n i : 0 <= i ->
  (index_loop mask n i = -1 /\ forall j, i <= j < i + Z.of_nat n -> Z.testbit mask j = false) \/
  (i <= index_loop mask n i < i + Z.of_nat n /\ Z.testbit mask (index_loop mask n i) = true /\
   forall j, i <= j < index_loop mask n i -> Z.testbit mask j = false).
Proof.
  revert i. induction n as [| n IH]; intros i Hi; [left; split; [done | lia] |].
  cbn [index_loop]. rewrite land_bit_testbit by done.
  destruct (Z.testbit mask i) eqn:E; [right; split_and!; try done; lia |].
  assert (Hstep : forall j, j <> i -> i <= j -> i + 1 <= j) by lia.
  destruct (IH (i + 1)) as [[E1 Hn] | (Hr & Ht & Hn)]; [lia | left | right].
  - split; [done |]. intros j Hj. destruct (decide (j = i)) as [-> | ?]; [done |].
    apply Hn. lia.
  - split_and!; try done; try lia. intros j Hj.
    destruct (decide (j = i)) as [-> | ?]; [done |]. apply Hn. lia.
Qed.

Lemma get_index_by_mask_spec mask n : 0 <= n ->
  (get_index_by_mask mask n = -1 /\ no_bit mask n) \/
  least_bit mask n (get_index_by_mask mask n).
Proof.
  intros Hn. unfold get_index_by_mask, no_bit, least_bit.
  destruct (index_loop_spec mask (Z.to_nat n) 0) as [[E H] | (Hr & Ht & H)]; [lia | left | right].
  - split; [done |]. intros j Hj. apply H. lia.
  - split_and!; try done; lia.
Qed.

(** ** Traces *)

(** What a restart of the gate cycle reads, decides and stores. *)
Definition restart_spec (base_hi base_lo : Z) (r : outcome unit) (l : list access) : Prop :=
  exists cycle bh bl index h lo pending cct,
    is_u32 cycle /\ is_u32 bh /\ is_u32 bl /\ is_u32 h /\ is_u32 lo /\
    loads_of QBV_OPER_CYCLE_TIME l = [cycle] /\
    loads_of base_hi l = [bh] /\ loads_of base_lo l = [bl] /\
    loads_of QBV_TIMER_DOMAIN_INDEX l = [index] /\
    loads_of AS_T_VAL_O_HI l = [h] /\ loads_of AS_T_VAL_O_LO l = [lo] /\
    loads_of QBV_CONFIG_CHANGE_STATE l = [pending] /\
    (pending = 1 -> exists ch cl, cct = ch * 2 ^ 32 + cl /\
       loads_of QBV_CONFIG_CHANGE_TIME_NS_HI l = [ch] /\
       loads_of QBV_CONFIG_CHANGE_TIME_NS_LO l = [cl]) /\
    let now := h * 10 ^ 9 + lo in
    let enter := [(QBV_CYCLE_START_TIME_CTRL, 2); (AS_T_SELECTOR, u32 (index + 1))] in
    if (pending =? 1) && (cct <=? u64 (now + u32 (10 * cycle))) then
      r = Ok tt /\ stores l = enter ++ [(QBV_CONFIG_CHANGE_CTRL, 1)]
    else
      match get_cycle_start_time now (bh * 2 ^ 32 + bl) cycle with
      | None => r = Trap /\ stores l = enter
      | Some t => r = Ok tt /\ stores l = enter ++
          [(QBV_CYCLE_START_TIME_NS_HI, t / 2 ^ 32);
           (QBV_CYCLE_START_TIME_NS_LO, t mod 2 ^ 32); (QBV_CYCLE_START_TIME_CTRL, 1)] ++
          (if pending =? 1 then [(QBV_CONFIG_CHANGE_CTRL, 1)] else [])
      end.

Section Traces.
Context {D : Type} `{Device D}.

Lemma apply_cycle_start_obs now base cycle : is_u64 base ->
  obs (apply_cycle_start now base cycle) (fun r l =>
    match get_cycle_start_time now base cycle with
    | None => r = Trap /\ l = []
    | Some t => r = Ok tt /\ l =
        [WR QBV_CYCLE_START_TIME_NS_HI (t / 2 ^ 32);
         WR QBV_CYCLE_START_TIME_NS_LO (t mod 2 ^ 32); WR QBV_CYCLE_START_TIME_CTRL 1]
    end).
Proof.
  intros Hb. unfold apply_cycle_start. do 2 io_step.
  destruct (get_cycle_start_time now base cycle) as [t |] eqn:E; [| done].
  unfold write_ns. repeat io_step. by rewrite hi_half, lo_half by eauto with machine.
Qed.

Lemma base_u64 bh bl : is_u32 bh -> is_u32 bl -> is_u64 (bh * 2 ^ 32 + bl).
Proof. intros. zwrap. Qed.
#[local] Hint Resolve base_u64 : machine.

#[local] Ltac restart_loads Hreg :=
  destruct Hreg as [[= -> ->] | [= -> ->]]; split_and!; try done.

Lemma restart_obs base_hi base_lo :
  (base_hi, base_lo) = (QBV_OPER_BASE_TIME_NS_HI, QBV_OPER_BASE_TIME_NS_LO) \/
  (base_hi, base_lo) = (QBV_ADMIN_BASE_TIME_NS_HI, QBV_ADMIN_BASE_TIME_NS_LO) ->
  obs (restart_cycle base_hi base_lo) (restart_spec base_hi base_lo).
Proof.
  intros Hreg. unfold restart_cycle, read_ns, read_current_time.
  repeat io_step. rewrite !now_value, read_ns_value by done.
  destruct (Z.eqb_spec v5 1) as [-> | Hp]; repeat io_step.
  - rewrite read_ns_value by done.
    destruct (Z.leb_spec (v5 * 2 ^ 32 + v6) (u64 (v3 * 10 ^ 9 + v4 + u32 (10 * v)))) as [Hle | Hgt].
    + repeat io_step. exists v, v0, v1, v2, v3, v4, 1, (v5 * 2 ^ 32 + v6).
      cbv zeta. rewrite (proj2 (Z.leb_le _ _) Hle). restart_loads Hreg; by exists v5, v6.
    + io_step. eapply obs_weaken; [| apply apply_cycle_start_obs; auto with machine].
      intros r l. destruct (get_cycle_start_time _ _ _) as [t |] eqn:Et; intros [-> ->];
        [repeat io_step |]; exists v, v0, v1, v2, v3, v4, 1, (v5 * 2 ^ 32 + v6);
        cbv zeta; rewrite (proj2 (Z.leb_gt _ _) Hgt); cbn [andb Z.eqb Pos.eqb]; rewrite Et;
        restart_loads Hreg; by exists v5, v6.
  - eapply obs_weaken; [| apply apply_cycle_start_obs; auto with machine].
    intros r l E. exists v, v0, v1, v2, v3, v4, v5, 0.
    cbv zeta. apply Z.eqb_neq in Hp as Hb. rewrite Hb. cbn [andb].
    destruct (get_cycle_start_time _ _ _) as [t |] eqn:Et; destruct E as [-> ->];
      restart_loads Hreg; done.
Qed.

End Traces.

(** ** Theorems *)

Lemma div_u64_Some x c : c <> 0 -> div_u64 x c = Some (x / c).
Proof. intros H. unfold div_u64. by rewrite (proj2 (Z.eqb_neq c 0)). Qed.

(** The multiples of the cycle after [base]: [k] whole cycles past the last
    boundary before [now]. *)
Lemma next_boundary base now c k : 0 < c -> base <= now ->
  let t := base + ((now - base) / c + k) * c in
  now + (k - 1) * c < t <= now + k * c /\ (c | t - base).
Proof.
  intros Hc Hb. cbv zeta. pose proof (Z.div_mod (now - base) c ltac:(lia)) as Hd.
  pose proof (Z.mod_pos_bound (now - base) c Hc) as Hr. split; [nia |].
  exists ((now - base) / c + k). lia.
Qed.

(** C5. The start of the next gate cycle: the base time while it lies ahead,
    otherwise a whole number of cycles after the base, more than one and at most
    two cycles from now, with no overflow; a zero cycle time divides by zero
    once the base has passed. *)
Theorem get_cycle_start_time_spec now base c :
  is_u64 base -> 0 <= c < 2 ^ 32 -> 0 <= now < 2 ^ 64 - 2 * c ->
  match get_cycle_start_time now base c with
  | Some t => is_u64 t /\ now <= t /\ (c | t - base) /\
      (now <= base -> t = base) /\ (base < now -> now + c < t <= now + 2 * c)
  | None => c = 0 /\ base < now
  end.
Proof.
  intros Hb Hc Hn. unfold get_cycle_start_time.
  destruct (Z.leb_spec now base) as [Hle | Hlt].
  { split_and!; try done; try lia. rewrite Z.sub_diag. apply Z.divide_0_r. }
  rewrite (u64_small (now - base)) by zwrap.
  destruct (decide (c = 0)) as [-> | Hne]; [done |].
  rewrite div_u64_Some by done. cbn [mbind option_bind].
  destruct (next_boundary base now c 2) as [Hr Hd]; [lia | lia |]. cbv zeta in Hr, Hd.
  assert (Hq : 0 <= (now - base) / c <= now - base)
    by (split; [apply Z.div_pos; lia | apply Z.div_le_upper_bound; nia]).
  assert (0 <= base) by apply Hb.
  rewrite (u64_small (_ / c + 2)) by (unfold is_u64; nia).
  rewrite (u64_small (_ * c)) by (unfold is_u64; nia).
  rewrite u64_small by (unfold is_u64; lia). split_and!; try done; unfold is_u64; lia.
Qed.

(** The decision of [ax_irq_config_change]. *)
Lemma config_change_at_spec now base c :
  is_u64 base -> 0 < c -> 10 * c < 2 ^ 32 -> 0 <= now < 2 ^ 64 - 10 * c ->
  exists t, config_change_at now base c = Some t /\ is_u64 t /\ now + 9 * c < t /\
    (now + 10 * c <= base -> t = base) /\
    (base < now + 10 * c -> t <= now + 10 * c) /\
    (base <= now -> (c | t - base)) /\
    (now < base < now + 10 * c -> (c | t - base + 2 ^ 64)).
Proof.
  intros Hb Hc H10 Hn. assert (Hb0 : 0 <= base < 2 ^ 64) by apply Hb.
  unfold config_change_at.
  rewrite (u32_small (10 * c)) by zwrap. rewrite (u64_small (now + 10 * c)) by zwrap.
  destruct (Z.leb_spec (now + 10 * c) base) as [Hle | Hlt].
  { exists base. split_and!; try done; try lia. }
  rewrite div_u64_Some by lia. cbn [mbind option_bind]. eexists. split; [done |].
  destruct (Z.leb_spec base now) as [Hpast | Hfut].
  - rewrite (u64_small (now - base)) by zwrap.
    destruct (next_boundary base now c 10) as [Hr Hd]; [lia | lia |]. cbv zeta in Hr, Hd.
    assert (0 <= (now - base) / c <= now - base)
      by (split; [apply Z.div_pos; lia | apply Z.div_le_upper_bound; nia]).
    rewrite (u64_small (_ / c + 10)) by (unfold is_u64; nia).
    rewrite (u64_small (_ * c)) by (unfold is_u64; nia).
    rewrite u64_small by (unfold is_u64; lia). split_and!; try done; unfold is_u64; lia.
  - assert (Hw : u64 (now - base) = now - base + 2 ^ 64)
      by (unfold u64; symmetry; apply (Z.mod_unique_pos _ _ (-1)); lia).
    rewrite Hw. set (x := now - base + 2 ^ 64). set (q := x / c).
    pose proof (Z.div_mod x c ltac:(lia)) as Hdm. fold q in Hdm.
    pose proof (Z.mod_pos_bound x c Hc) as Hmod.
    assert (Hq : 0 <= q < 2 ^ 64).
    { split; [apply Z.div_pos; unfold x; lia | apply Z.div_lt_upper_bound; unfold x; nia]. }
    assert (Ht : u64 (base + u64 (u64 (q + 10) * c)) = base + (q + 10) * c - 2 ^ 64).
    { unfold u64. rewrite Zplus_mod_idemp_r, <- Zplus_mod_idemp_r, Zmult_mod_idemp_l.
      rewrite Zplus_mod_idemp_r. symmetry. apply (Z.mod_unique_pos _ _ 1); unfold x in *; lia. }
    rewrite Ht. unfold is_u64. unfold x in *. split_and!; try lia.
    intros _. exists (q + 10). lia.
Qed.

(** When the requested base lies within the next ten cycles the subtraction
    [current_time - admin_base_time] wraps, and the schedule starts off the
    grid of the requested base. *)
Example config_change_off_grid :
  exists t, config_change_at 1000 2000 300 = Some t /\ (t - 2000) mod 300 <> 0.
Proof. eexists. split; [vm_compute; reflexivity | done]. Qed.

(** With a cycle of half a second, [10 * cycle] wraps in 32 bits and a base one
    cycle ahead is taken as is: the lead of ten cycles is lost. *)
Example config_change_wrap :
  config_change_at 0 1000000000 500000000 = Some 1000000000.
Proof. vm_compute. reflexivity. Qed.

Section Handlers_Spec.
Context {D : Type} `{Device D}.


(** What serving port [i] observes and does in [ax_irq_timer_value_change],
    when [changed] is the index of the timer that stepped. *)
Definition port_spec (changed i : Z) (r : outcome unit) (seg : list access) : Prop :=
  exists enabled rest,
    seg = WR QBV_PORT_SELECTOR (u32 i) :: RD QBV_GATE_ENABLED enabled :: rest /\
    if enabled =? 1 then
      exists index rest', rest = RD QBV_TIMER_DOMAIN_INDEX index :: rest' /\
        if changed =? u32 (index + 1) then
          restart_spec QBV_OPER_BASE_TIME_NS_HI QBV_OPER_BASE_TIME_NS_LO r rest'
        else r = Ok tt /\ rest' = []
    else r = Ok tt /\ rest = [].

Lemma serve_port_obs changed i :
  obs (D := D)
    (do! writel QBV_PORT_SELECTOR (u32 i) in
     let! enabled := readl QBV_GATE_ENABLED in
     if enabled =? 1 then
       let! index := readl QBV_TIMER_DOMAIN_INDEX in
       if changed =? u32 (index + 1) then
         restart_cycle QBV_OPER_BASE_TIME_NS_HI QBV_OPER_BASE_TIME_NS_LO
       else ret tt
     else ret tt) (port_spec changed i).
Proof.
  unfold port_spec. repeat io_step. destruct (v =? 1) eqn:E; repeat io_step.
  2: { exists v, []. rewrite u32_idem, E. done. }
  destruct (changed =? u32 (v0 + 1)) eqn:Ec; repeat io_step.
  2: { exists v, [RD QBV_TIMER_DOMAIN_INDEX v0]. rewrite u32_idem, E. split; [done |].
       exists v0, []. by rewrite Ec. }
  eapply obs_weaken; [| apply restart_obs; by left]. intros r l Hl.
  exists v, (RD QBV_TIMER_DOMAIN_INDEX v0 :: l). rewrite u32_idem, E. split; [done |].
  exists v0, l. by rewrite Ec.
Qed.

(** The ports served so far, each by its own segment of the trace. *)
Definition served (changed mask n : Z) (segs : list (list access)) (l : list access) : Prop :=
  l = RD AS_T_INT_MASK mask :: concat segs /\ Z.of_nat (length segs) = n /\
  forall i seg, segs !! i = Some seg -> port_spec changed (Z.of_nat i) (Ok tt) seg.

Definition loop_post (changed mask n : Z) (r : outcome unit) (l : list access) : Prop :=
  match r with
  | Ok _ => exists segs, served changed mask n segs l
  | Trap => exists segs i last l0, i < n /\ served changed mask i segs l0 /\
      l = l0 ++ last /\ port_spec changed i Trap last
  | NoFuel => False
  end.

Lemma served_snoc changed mask i segs l seg :
  served changed mask i segs l -> port_spec changed i (Ok tt) seg ->
  served changed mask (i + 1) (segs ++ [seg]) (l ++ seg).
Proof.
  intros (-> & Hlen & Hseg) Hs. split_and!.
  - rewrite concat_app. simpl. by rewrite app_nil_r.
  - rewrite length_app. simpl. lia.
  - intros j seg' [Hj | [Hge Hj]]%lookup_app_Some; [by apply Hseg |].
    apply list_lookup_singleton_Some in Hj as [Hj <-].
    by replace (Z.of_nat j) with i by lia.
Qed.

Lemma port_spec_fuel changed i seg : ~ port_spec changed i NoFuel seg.
Proof.
  intros (en & rest & _ & Hs). destruct (en =? 1); [| naive_solver].
  destruct Hs as (ix & rest' & _ & Hs). destruct (changed =? _); [| naive_solver].
  destruct Hs as (cycle & bh & bl & index & h & lo & pending & cct & Hs). cbv zeta in Hs.
  destruct Hs as (_ & _ & _ & _ & _ & _ & _ & _ & _ & _ & _ & _ & _ & Hs).
  destruct (_ && _); [by destruct Hs |].
  destruct (get_cycle_start_time _ _ _); by destruct Hs.
Qed.

Lemma serve_ports_obs changed mask n :
  obs (D := D)
    (for_io n 0 (fun i _ =>
      do! writel QBV_PORT_SELECTOR (u32 i) in
      let! enabled := readl QBV_GATE_ENABLED in
      if enabled =? 1 then
        let! index := readl QBV_TIMER_DOMAIN_INDEX in
        if changed =? u32 (index + 1) then
          restart_cycle QBV_OPER_BASE_TIME_NS_HI QBV_OPER_BASE_TIME_NS_LO
        else ret tt
      else ret tt) tt)
    (fun r l => loop_post changed mask (Z.of_nat n) r ([RD AS_T_INT_MASK mask] ++ l)).
Proof.
  apply (obs_for _ (fun i _ l => exists segs, served changed mask i segs l)).
  - by exists [].
  - intros i [] l Hi (segs & Hs). eapply obs_weaken; [| apply (serve_port_obs changed)].
    intros [[] | |] seg Hp; cbn [loop_post].
    + exists (segs ++ [seg]). by apply served_snoc.
    + exists segs, i, seg, l. split_and!; try done. lia.
    + by apply port_spec_fuel in Hp.
  - intros [] l Hs. by rewrite Z.add_0_l in Hs.
Qed.

(** C7. The timer-step handler visits every port in order, restarts the gate
    cycle of exactly those with scheduling enabled on the timer that stepped
    (the least bit of the interrupt mask), through the safe state and with the
    operational base and cycle times, touches nothing of the others, and clears
    the mask at the end; it faults only inside a restart whose cycle time makes
    the division fault, in which case the mask is not cleared. *)
Theorem irq_timer_value_change_spec (s : ax_switch) : 0 <= number_of_ports s ->
  obs (D := D) (ax_irq_timer_value_change s) (fun r l => exists mask segs l0,
    let changed := u32 (get_index_by_mask mask (number_of_domains s + 1)) in
    (r = Ok tt /\ served changed mask (number_of_ports s) segs l0 /\
       l = l0 ++ [WR AS_T_INT_MASK 0]) \/
    (r = Trap /\ exists n last, n < number_of_ports s /\ served changed mask n segs l0 /\
       l = l0 ++ last /\ port_spec changed n Trap last)).
Proof.
  intros Hp. unfold ax_irq_timer_value_change. do 3 io_step.
  eapply obs_weaken; [| apply serve_ports_obs]. rewrite Z2Nat.id by done.
  intros [[] | |] l; [| | done]; cbn [loop_post].
  - intros [segs Hs]. io_step. exists v, segs, (RD AS_T_INT_MASK v :: l). left. by split_and!.
  - intros (segs & i & last & l0 & Hi & Hs & E & Hl). exists v, segs, l0. right.
    split; [done |]. by exists i, last.
Qed.

(** The timer-change handler clears the request in every non-faulting case;
    it serves the least requested port, when scheduling is enabled there, by
    restarting its gate cycle; the base time of that restart is loaded from the
    administrative registers. *)
Theorem irq_timer_change_spec (s : ax_switch) : 0 <= number_of_ports s < 2 ^ 31 ->
  obs (D := D) (ax_irq_timer_change s) (fun r l => exists req,
    (no_bit req (number_of_ports s) /\ r = Ok tt /\
      l = [RD QBV_TIMER_CHANGE_REQUEST req; WR QBV_TIMER_CHANGE_REQUEST 0]) \/
    exists p enabled body, least_bit req (number_of_ports s) p /\
      l = [RD QBV_TIMER_CHANGE_REQUEST req; WR QBV_PORT_SELECTOR p; RD QBV_GATE_ENABLED enabled]
          ++ body ++ match r with Ok _ => [WR QBV_TIMER_CHANGE_REQUEST 0] | _ => [] end /\
      if enabled =? 1
      then restart_spec QBV_ADMIN_BASE_TIME_NS_HI QBV_ADMIN_BASE_TIME_NS_LO r body
      else r = Ok tt /\ body = []).
Proof.
  intros Hp. unfold ax_irq_timer_change. do 3 io_step.
  destruct (get_index_by_mask_spec v (number_of_ports s)) as [[-> Hno] | Hl]; [lia | |].
  { repeat io_step. exists v. by left. }
  set (p := get_index_by_mask v (number_of_ports s)) in *.
  assert (Hu : u32 p = p) by (apply u32_small; destruct Hl; unfold is_u32; lia).
  rewrite Hu, (proj2 (Z.eqb_neq p (u32 (-1)))).
  2: { intros E. pose proof (u32_range (-1)). destruct Hl as [Hl _]. rewrite E in Hl.
       change (u32 (-1)) with (2 ^ 32 - 1) in Hl. lia. }
  cbn [negb]. repeat io_step. destruct (v0 =? 1) eqn:E.
  - eapply obs_weaken; [| apply restart_obs; by right].
    intros [[] | |] body Hb; repeat io_step; exists v; right; exists p, v0, body;
      rewrite Hu, E, ?app_nil_r; split_and!; done.
  - repeat io_step. exists v. right. exists p, v0, []. rewrite Hu, E. done.
Qed.

End Handlers_Spec.

(** ** Witnesses *)

Lemma get_cycle_start_time_witness :
  exists t, get_cycle_start_time 1050 1000 20 = Some t /\ 1070 < t <= 1090 /\ (20 | t - 1000).
Proof.
  pose proof (get_cycle_start_time_spec 1050 1000 20 ltac:(done) ltac:(done) ltac:(done)) as H.
  eexists. split; [reflexivity |]. destruct H as (_ & _ & Hd & _ & Hr). split; [by apply Hr | done].
Defined.

(** A register file in which every store is visible to later loads. *)
Definition demo_switch : ax_switch := CaptureSim.switch 0.
Definition demo_regs : regfile :=
  [(QBV_CONFIG_CHANGE_REQ, 4); (QBV_ADMIN_CYCLE_TIME, 100);
   (QBV_ADMIN_BASE_TIME_NS_LO, 50); (AS_T_VAL_O_LO, 1075); (AS_T_INT_MASK, 2);
   (QBV_GATE_ENABLED, 1); (QBV_OPER_CYCLE_TIME, 100); (QBV_OPER_BASE_TIME_NS_LO, 50);
   (QBV_TIMER_CHANGE_REQUEST, 8)].


Lemma irq_timer_value_change_witness :
  fst (fst (ax_irq_timer_value_change demo_switch demo_regs)) = Ok tt.
Proof.
  destruct (irq_timer_value_change_spec demo_switch ltac:(done) demo_regs) as (mask & _).
  vm_compute. reflexivity.
Defined.

Lemma irq_timer_change_witness :
  fst (fst (ax_irq_timer_change demo_switch demo_regs)) = Ok tt.
Proof.
  destruct (irq_timer_change_spec demo_switch ltac:(done) demo_regs) as (req & _).
  vm_compute. reflexivity.
Defined.
