(* ===== verification/PtpClock.v ===== *)
(** * PTP hardware clocks (switch/ax_ptp.c)

    Each timing domain of the switch is exported as a PTP clock: reading,
    setting and stepping its time, and steering its frequency through the
    addend register.  The kernel's PTP core (registration, the index of a
    clock, the conversion of scaled ppm to ppb) is a parameter. *)

From Stdlib Require Import ZArith Lia Bool.
From S2P Require Import Prelude.
From S2P Require Import Mmio.
From S2P Require Import TsCapture.
From S2P Require Import Qbv.

Local Open Scope io_scope.

Definition AS_T_ADDEND : Z := 0x0108.
Definition AS_T_VAL_I_LO : Z := 0x0114.
Definition AS_T_VAL_I_HI : Z := 0x0118.
Definition PTP_DOMAIN_NUM : Z := 2.

(** [struct ptp_clock] is the kernel's. *)
Record ax_ptp_clock_data (clock : Type) := mkClock {
  ptp_clock : option clock;
  ptp_clock_index : Z;      (* unsigned int *)
  domain_index : Z;
  base_addend_val : Z;      (* uint32_t *)
  max_adj : Z;
}.
Arguments mkClock {clock}.
Arguments ptp_clock {clock}.
Arguments ptp_clock_index {clock}.
Arguments domain_index {clock}.
Arguments base_addend_val {clock}.
Arguments max_adj {clock}.

Record timespec64 := mkTs { tv_sec : Z; tv_nsec : Z }.

Section PtpClock.
Context {D : Type} `{Device D} {clock : Type}.

Definition ax_ptp_adjtime (c : ax_ptp_clock_data clock) (delta : Z) : io D Z :=
  do! writel AS_T_SELECTOR (domain_index c + 1) in
  let! sec := readl AS_T_VAL_O_HI in
  let ns := u64 (sec * NS_PER_SEC) in
  let! nsec := readl AS_T_VAL_O_LO in
  let ns := u64 (ns + nsec) in
  let ns := u64 (ns + delta) in
  do! writel AS_T_VAL_I_HI (ns / NS_PER_SEC) in
  do! writel AS_T_VAL_I_LO (ns mod NS_PER_SEC) in
  ret 0.

(** [scaled_ppm_to_ppb] is the kernel's. *)
Definition ax_ptp_adjfine (scaled_ppm_to_ppb : Z -> Z) (c : ax_ptp_clock_data clock)
    (scaled_ppm : Z) : io D Z :=
  let ppb := scaled_ppm_to_ppb scaled_ppm in
  let neg_adj := ppb <? 0 in
  let ppb := if neg_adj then - ppb else ppb in
  let adjust_val := base_addend_val c in
  let adjust_val := u64 (adjust_val * u64 ppb) in
  let adjust_val := adjust_val / NS_PER_SEC in
  let new_addend_val :=
    if neg_adj then u32 (u64 (base_addend_val c - adjust_val))
    else u32 (u64 (base_addend_val c + adjust_val)) in
  do! writel AS_T_SELECTOR (domain_index c + 1) in
  do! writel AS_T_ADDEND new_addend_val in
  ret 0.

Definition ax_ptp_gettime64 (c : ax_ptp_clock_data clock) : io D timespec64 :=
  do! writel AS_T_SELECTOR (domain_index c + 1) in
  let! sec := readl AS_T_VAL_O_HI in
  let! nsec := readl AS_T_VAL_O_LO in
  ret (mkTs sec nsec).

Definition ax_ptp_settime64 (c : ax_ptp_clock_data clock) (ts : timespec64) : io D Z :=
  do! writel AS_T_SELECTOR (domain_index c + 1) in
  do! writel AS_T_VAL_I_HI (u32 (tv_sec ts)) in
  do! writel AS_T_VAL_I_LO (u32 (tv_nsec ts)) in
  ret 0.

Definition ax_ptp_enable : Z := - EOPNOTSUPP.

(** [ptp_clock_register i] is the answer for clock [i], [None] for an error
    pointer; [ptp_index p] is the kernel's [ptp_clock_index], [None] when it
    faults on its argument. *)
Definition ax_ptp_init (ptp_clock_register : Z -> option clock)
    (ptp_index : option clock -> option Z) : io D (list (ax_ptp_clock_data clock)) :=
  for_io (Z.to_nat PTP_DOMAIN_NUM) 0 (fun i clocks =>
    do! writel AS_T_SELECTOR (i + 1) in
    let! addend := readl AS_T_ADDEND in
    let c := ptp_clock_register i in
    let! index := lift_opt (ptp_index c) in
    ret (clocks ++ [mkClock c (u32 index) i addend 100000000])) [].

(** The clocks handed to [ptp_clock_unregister], in order. *)
Definition ax_ptp_remove (clocks : list (ax_ptp_clock_data clock)) : list clock :=
  omap ptp_clock clocks.

(** ** Theorems *)

(** C8. Stepping a clock by [delta] selects the timer of its domain, stores the
    normalised seconds and nanoseconds of exactly the time read plus [delta]
    whenever that instant is representable, and stores nothing else. *)
Theorem adjtime_spec (c : ax_ptp_clock_data clock) (delta : Z) :
  obs (D := D) (ax_ptp_adjtime c delta) (fun r l => r = Ok 0 /\
    exists sec nsec, loads_of AS_T_VAL_O_HI l = [sec] /\ loads_of AS_T_VAL_O_LO l = [nsec] /\
      let now := sec * 10 ^ 9 + nsec in
      (0 <= now + delta < 2 ^ 32 * 10 ^ 9 ->
       exists s n, s * 10 ^ 9 + n = now + delta /\ 0 <= n < 10 ^ 9 /\
         stores l = [(AS_T_SELECTOR, u32 (domain_index c + 1));
                     (AS_T_VAL_I_HI, s); (AS_T_VAL_I_LO, n)])).
Proof.
  unfold ax_ptp_adjtime. repeat io_step. split; [done |].
  exists v, v0. do 2 (split; [done |]). cbv zeta. intros Hr.
  rewrite stamp_u64 by done. set (now := v * 10 ^ 9 + v0) in *.
  rewrite (u64_small (now + delta)) by (unfold is_u64; lia).
  set (t := now + delta) in *. unfold NS_PER_SEC.
  exists (t / 10 ^ 9), (t mod 10 ^ 9).
  pose proof (Z.div_mod t (10 ^ 9) ltac:(lia)). pose proof (Z.mod_pos_bound t (10 ^ 9) ltac:(lia)).
  split_and!; try lia. cbn [stores app]. change 1000000000 with (10 ^ 9).
  rewrite (u32_small (t / _)), (u32_small (t mod _)); try done; unfold is_u32; lia.
Qed.

(** C9. Steering stores, for the clock's own timer, the addend closest below in
    magnitude to [base * (1 + ppb / 10^9)]: within the clock's advertised range
    the 64-bit product does not overflow, and the rate error is less than one
    unit of the addend. *)
Theorem adjfine_spec (ppb_of : Z -> Z) (c : ax_ptp_clock_data clock) (scaled_ppm : Z) :
  is_u32 (base_addend_val c) ->
  - 100000000 <= ppb_of scaled_ppm <= 100000000 ->
  base_addend_val c * (10 ^ 9 + ppb_of scaled_ppm) < 2 ^ 32 * 10 ^ 9 ->
  obs (D := D) (ax_ptp_adjfine ppb_of c scaled_ppm) (fun r l => r = Ok 0 /\
    exists addend,
      l = [WR AS_T_SELECTOR (u32 (domain_index c + 1)); WR AS_T_ADDEND addend] /\
      let exact := base_addend_val c * (10 ^ 9 + ppb_of scaled_ppm) in
      Z.abs (addend * 10 ^ 9 - exact) < 10 ^ 9 /\
      (0 <= ppb_of scaled_ppm -> base_addend_val c <= addend /\ addend * 10 ^ 9 <= exact) /\
      (ppb_of scaled_ppm <= 0 -> addend <= base_addend_val c /\ exact <= addend * 10 ^ 9)).
Proof.
  intros Hb Hp Hx. unfold ax_ptp_adjfine. repeat io_step. split; [done |].
  set (p := ppb_of scaled_ppm) in *. set (b := base_addend_val c) in *.
  unfold is_u32 in Hb.
  eexists. split; [reflexivity |]. cbv zeta. rewrite u32_idem || idtac.
  set (a := if p <? 0 then - p else p).
  assert (Ha : 0 <= a <= 100000000) by (unfold a; destruct (Z.ltb_spec p 0); lia).
  rewrite (u64_small a) by (unfold is_u64; lia).
  rewrite (u64_small (b * a)) by (unfold is_u64; nia). unfold NS_PER_SEC.
  pose proof (Z.div_mod (b * a) 1000000000 ltac:(lia)) as Hd.
  pose proof (Z.mod_pos_bound (b * a) 1000000000 ltac:(lia)) as Hm.
  set (q := b * a / 1000000000) in *.
  assert (Hq : 0 <= q) by (apply Z.div_pos; nia).
  unfold a in *. destruct (Z.ltb_spec p 0) as [Hn | Hn].
  - assert (q <= b) by nia.
    rewrite (u64_small (b - q)), !(u32_small (b - q)) by (unfold is_u64, is_u32; lia). nia.
  - assert (b + q < 2 ^ 32) by nia.
    rewrite (u64_small (b + q)), !(u32_small (b + q)) by (unfold is_u64, is_u32; lia). nia.
Qed.

(** Initialisation selects each domain's timer before reading its base
    addend and records what it read; a clock whose registration fails is passed
    as a null pointer to [ptp_clock_index], so when that function faults on a
    null pointer a failed registration crashes the driver. *)
Theorem ptp_init_spec (reg : Z -> option clock) (idx : option clock -> option Z) :
  idx None = None -> (forall p, is_Some (idx (Some p))) ->
  obs (D := D) (ax_ptp_init reg idx) (fun r l =>
    match reg 0, reg 1 with
    | Some p0, Some p1 => exists a0 a1 i0 i1,
        r = Ok [mkClock (Some p0) i0 0 a0 100000000; mkClock (Some p1) i1 1 a1 100000000] /\
        l = [WR AS_T_SELECTOR 1; RD AS_T_ADDEND a0; WR AS_T_SELECTOR 2; RD AS_T_ADDEND a1] /\
        ax_ptp_remove [mkClock (Some p0) i0 0 a0 100000000;
                       mkClock (Some p1) i1 1 a1 100000000] = [p0; p1]
    | _, _ => r = Trap
    end).
Proof.
  intros Hnull Hsome. unfold ax_ptp_init. change (Z.to_nat PTP_DOMAIN_NUM) with 2%nat.
  cbn [for_io]. repeat io_step.
  destruct (reg 0) as [p0 |]; [| by rewrite Hnull].
  destruct (Hsome p0) as [i0 E0]. rewrite E0. repeat io_step.
  destruct (reg 1) as [p1 |] eqn:E1; change (0 + 1) with 1; rewrite E1; [| by rewrite Hnull].
  destruct (Hsome p1) as [i1 E2]. rewrite E2. repeat io_step.
  by exists v, v0, (u32 i0), (u32 i1).
Qed.

End PtpClock.

(** ** Witnesses *)

Definition demo_clock : ax_ptp_clock_data unit := mkClock (Some tt) 0 1 (2 ^ 31) 100000000.

(** Half a part per million slower: the addend drops by 1073. *)
Lemma adjfine_witness :
  stores (snd (ax_ptp_adjfine (fun p => p) demo_clock (-500) ([] : regfile))) =
    [(AS_T_SELECTOR, 2); (AS_T_ADDEND, 2 ^ 31 - 1073)].
Proof.
  destruct (adjfine_spec (D := regfile) (fun p => p) demo_clock (-500) ltac:(done) ltac:(done)
    ltac:(done) []) as (_ & a & E & _).
  etransitivity; [exact (f_equal stores E) |]. vm_compute in E. injection E as <-.
  reflexivity.
Defined.

Lemma ptp_init_witness :
  fst (fst (ax_ptp_init (D := regfile) (fun i => if i =? 0 then Some tt else None)
    (fun p => match p with Some _ => Some 0 | None => None end) [])) = Trap.
Proof.
  exact (ptp_init_spec (D := regfile) (fun i => if i =? 0 then Some tt else None)
    (fun p => match p with Some _ => Some 0 | None => None end) eq_refl
    (fun p => ex_intro _ 0 eq_refl) []).
Defined.

(** Ten nanoseconds back from 1.000000005 s. *)
Lemma adjtime_witness : exists s n,
  stores (snd (ax_ptp_adjtime demo_clock (-10) [(AS_T_VAL_O_HI, 1); (AS_T_VAL_O_LO, 5)])) =
    [(AS_T_SELECTOR, 2); (AS_T_VAL_I_HI, s); (AS_T_VAL_I_LO, n)] /\
  s * 10 ^ 9 + n = 999999995.
Proof.
  destruct (adjtime_spec demo_clock (-10) [(AS_T_VAL_O_HI, 1); (AS_T_VAL_O_LO, 5)])
    as (_ & sec & nsec & E1 & E2 & H).
  vm_compute in E1, E2. injection E1 as <-. injection E2 as <-.
  destruct (H ltac:(done)) as (s & n & E & _ & Es). exists s, n. split; [exact Es | exact E].
Defined.
