(* ===== verification/Kernel.v ===== *)
(** * Kernel services the DSA core relies on

    The state-and-fault monad [st] of the DSA code (a null or dangling pointer
    faults), the reference counters and the lists of counted entries.  The
    kernel's [refcount_t] operations are a class stating their documented
    behaviour; allocations are answered by a list in the state. *)

From Stdlib Require Import ZArith Lia Bool.
From S2P Require Import Prelude.

(** ** State and fault *)

Definition st (W A : Type) : Type := W -> option (A * W).

#[export] Instance st_ret W : MRet (st W) := fun A a w => Some (a, w).
#[export] Instance st_bind W : MBind (st W) := fun A B k m w =>
  match m w with Some (a, w') => k a w' | None => None end.

Definition fault {W A} : st W A := fun _ => None.
Definition get_st {W} : st W W := fun w => Some (w, w).
Definition modify {W} (f : W -> W) : st W unit := fun w => Some (tt, f w).
Definition deref {W A} (o : option A) : st W A := fun w => a ← o; Some (a, w).

(** [for] over the elements of a list, leaving with the first non-zero result. *)
Fixpoint for_err {W A} (l : list A) (body : A -> st W Z) : st W Z :=
  match l with
  | [] => mret 0
  | a :: l' => err ← body a; if err =? 0 then for_err l' body else mret err
  end.

(** A statement about every normal result of a computation. *)
Definition post {W A} (m : st W A) (w : W) (Q : A -> W -> Prop) : Prop :=
  match m w with Some (a, w') => Q a w' | None => True end.

(** The computation does not fault, and its result satisfies [Q]. *)
Definition total {W A} (m : st W A) (w : W) (Q : A -> W -> Prop) : Prop :=
  match m w with Some (a, w') => Q a w' | None => False end.

Section Rules.
Context {W : Type}.

Lemma bind_eq {A B} (m : st W A) (k : A -> st W B) w :
  (m ≫= k) w = match m w with Some (a, w') => k a w' | None => None end.
Proof. done. Qed.

Lemma st_bind_assoc {A B C} (m : st W A) (f : A -> st W B) (g : B -> st W C) w :
  ((m ≫= f) ≫= g) w = (m ≫= (fun a => f a ≫= g)) w.
Proof. unfold mbind, st_bind. by destruct (m w) as [[a w'] |]. Qed.

Lemma bind_ext {A B} (m : st W A) (f g : A -> st W B) w :
  (forall a w', f a w' = g a w') -> (m ≫= f) w = (m ≫= g) w.
Proof. intros E. unfold mbind, st_bind. by destruct (m w) as [[a w'] |]. Qed.

Lemma total_run {A} (m : st W A) w (Q : A -> W -> Prop) a w' :
  m w = Some (a, w') -> Q a w' -> total m w Q.
Proof. intros E. unfold total. by rewrite E. Qed.

Lemma total_some {A} (m : st W A) w Q : total m w Q -> exists a w', m w = Some (a, w') /\ Q a w'.
Proof. unfold total. destruct (m w) as [[a w'] |]; [| done]. intros HQ. by exists a, w'. Qed.

Lemma total_same {A} (m m' : st W A) w (Q : A -> W -> Prop) : m w = m' w -> total m' w Q -> total m w Q.
Proof. unfold total. by intros ->. Qed.

Lemma total_ret {A} (a : A) (w : W) (Q : A -> W -> Prop) : Q a w -> total (mret a) w Q.
Proof. done. Qed.

Lemma total_bind {A B} (m : st W A) (k : A -> st W B) w (Q : B -> W -> Prop) :
  total m w (fun a w' => total (k a) w' Q) -> total (m ≫= k) w Q.
Proof. unfold total, mbind, st_bind. by destruct (m w) as [[a w'] |]. Qed.

Lemma total_weaken {A} (m : st W A) w (Q Q' : A -> W -> Prop) :
  (forall a w', Q a w' -> Q' a w') -> total m w Q -> total m w Q'.
Proof. intros H. unfold total. destruct (m w) as [[a w'] |]; [apply H | done]. Qed.

(** One step of a sequence, by a lemma on its first operation. *)
Tactic Notation "mstep" tactic3(t) := apply total_bind; eapply total_weaken; [| t].

Lemma total_eq {A} (m : st W A) w (Q : A -> W -> Prop) :
  total m w Q -> total m w (fun a w' => Q a w' /\ m w = Some (a, w')).
Proof. unfold total. by destruct (m w) as [[a w'] |]. Qed.

Lemma total_modify (f : W -> W) w (Q : unit -> W -> Prop) :
  Q tt (f w) -> total (modify f) w Q.
Proof. done. Qed.

Lemma total_get w (Q : W -> W -> Prop) : Q w w -> total get_st w Q.
Proof. done. Qed.

Lemma total_deref {A} (o : option A) a w (Q : A -> W -> Prop) :
  o = Some a -> Q a w -> total (deref o) w Q.
Proof. intros ->. done. Qed.

(** The loop keeps an invariant of the elements done so far; [Q] gets the first
    error, or zero after the last element. *)
Lemma total_for_err {A} (l : list A) (body : A -> st W Z) w (I : list A -> W -> Prop)
    (Q : Z -> W -> Prop) :
  I [] w ->
  (forall done_ a rest w', l = done_ ++ a :: rest -> I done_ w' ->
     total (body a) w' (fun err w'' => if err =? 0 then I (done_ ++ [a]) w'' else Q err w'')) ->
  (forall w', I l w' -> Q 0 w') ->
  total (for_err l body) w Q.
Proof.
  intros H0 Hb HQ.
  assert (G : forall rest done_ w', l = done_ ++ rest -> I done_ w' ->
            total (for_err rest body) w' Q).
  { induction rest as [| a rest IH]; intros done_ w' El Hi; cbn [for_err].
    - rewrite app_nil_r in El. subst. by apply total_ret, HQ.
    - mstep (by apply (Hb done_ a rest)).
      intros err w''. cbn beta. destruct (err =? 0); [| done].
      intros Hi'. apply (IH (done_ ++ [a])); [| done]. by rewrite <- app_assoc. }
  by apply (G l []).
Qed.

End Rules.

(** One step of a sequence, by a lemma on its first operation. *)
Tactic Notation "mstep" tactic3(t) := apply total_bind; eapply total_weaken; [| t].

(** ** Reference counters *)

(** [refcount_t]: counts from one upwards work as expected; an increment of zero
    saturates the counter, and a saturated counter never drops to zero. *)
Class RefcountApi := {
  refcount_inc : Z -> Z;
  refcount_dec_and_test : Z -> bool * Z;
  REFCOUNT_MAX : Z;
  REFCOUNT_SATURATED : Z;
  refcount_max_pos : 2 ^ 15 < REFCOUNT_MAX;
  refcount_inc_live n : 0 < n < REFCOUNT_MAX -> refcount_inc n = n + 1;
  refcount_dec_last : refcount_dec_and_test 1 = (true, 0);
  refcount_dec_live n : 1 < n <= REFCOUNT_MAX -> refcount_dec_and_test n = (false, n - 1);
  refcount_inc_zero : refcount_inc 0 = REFCOUNT_SATURATED;
  refcount_dec_saturated :
    refcount_dec_and_test REFCOUNT_SATURATED = (false, REFCOUNT_SATURATED);
}.

(** An instance that behaves so, with the kernel's 32-bit limits. *)
Definition refcount_int : RefcountApi.
Proof.
  refine {|
    refcount_inc n := if (0 <? n) && (n <? 2 ^ 31 - 1) then n + 1 else - 2 ^ 30;
    refcount_dec_and_test n :=
      if n =? 1 then (true, 0)
      else if (1 <? n) && (n <=? 2 ^ 31 - 1) then (false, n - 1) else (false, - 2 ^ 30);
    REFCOUNT_MAX := 2 ^ 31 - 1;
    REFCOUNT_SATURATED := - 2 ^ 30 |}; try done.
  - intros n H. rewrite (proj2 (Z.ltb_lt 0 n)), (proj2 (Z.ltb_lt n _)) by lia. done.
  - intros n H. rewrite (proj2 (Z.eqb_neq n 1)), (proj2 (Z.ltb_lt 1 n)), (proj2 (Z.leb_le n _)) by lia.
    done.
Defined.

(** ** Lists of counted entries

    The DSA core keeps, per port, lists of addresses and VLANs with a reference
    count each; the first entry that matches is the one used. *)

Section Counted.
Context {E : Type}.

Fixpoint update_first (p : E -> bool) (f : E -> E) (l : list E) : list E :=
  match l with
  | [] => []
  | e :: l' => if p e then f e :: l' else e :: update_first p f l'
  end.

Fixpoint delete_first (p : E -> bool) (l : list E) : list E :=
  match l with
  | [] => []
  | e :: l' => if p e then l' else e :: delete_first p l'
  end.

End Counted.

Record counted (K : Type) := mkCounted { c_key : K; c_ref : Z }.
Arguments mkCounted {K}.
Arguments c_key {K}.
Arguments c_ref {K}.

Definition set_ref {K} (n : Z) (e : counted K) : counted K := mkCounted (c_key e) n.

Section CountedOps.
Context {W K : Type} `{RefcountApi}.
(** Key equality as the code decides it, the list in the state, and the
    allocator. *)
Context (eqb : K -> K -> bool).
Context (get : W -> option (list (counted K))) (put : list (counted K) -> W -> W).
Context (kzalloc : st W bool).

Definition key_is (k : K) (e : counted K) : bool := eqb (c_key e) k.

Definition find_counted (k : K) (l : list (counted K)) : option (counted K) :=
  List.find (key_is k) l.

(** Add: bump the entry if there is one, otherwise allocate, program the
    hardware, and append an entry counting one. *)
Definition counted_add (k : K) (hw_add : st W Z) : st W Z :=
  w ← get_st;
  l ← deref (get w);
  match find_counted k l with
  | Some e =>
      _ ← modify (put (update_first (key_is k) (fun e => set_ref (refcount_inc (c_ref e)) e) l));
      mret 0
  | None =>
      ok ← kzalloc;
      if negb ok then mret (- ENOMEM)
      else
        err ← hw_add;
        if negb (err =? 0) then mret err
        else
          w ← get_st;
          l ← deref (get w);
          _ ← modify (put (l ++ [mkCounted k 1]));
          mret 0
  end.

(** Delete: drop a reference; with the last one, clear the hardware and unlink,
    unless the hardware refuses, in which case [restore] gives the count kept. *)
Definition counted_del (restore : Z -> Z) (k : K) (hw_del : st W Z) : st W Z :=
  w ← get_st;
  l ← deref (get w);
  match find_counted k l with
  | None => mret (- ENOENT)
  | Some e =>
      let '(zero, n) := refcount_dec_and_test (c_ref e) in
      let l := update_first (key_is k) (set_ref n) l in
      _ ← modify (put l);
      if negb zero then mret 0
      else
        err ← hw_del;
        if negb (err =? 0) then
          _ ← modify (put (update_first (key_is k) (fun e => set_ref (restore (c_ref e)) e) l));
          mret err
        else
          _ ← modify (put (delete_first (key_is k) l));
          mret 0
  end.

(** ** What the lists mean *)

Definition count_of (k : K) (l : list (counted K)) : Z :=
  match find_counted k l with Some e => c_ref e | None => 0 end.

(** No two entries with equal keys, every count from one to the maximum. *)
Fixpoint counted_wf (l : list (counted K)) : Prop :=
  match l with
  | [] => True
  | e :: l' => 1 <= c_ref e <= REFCOUNT_MAX /\ find_counted (c_key e) l' = None /\ counted_wf l'
  end.

Context (eqb_refl : forall k, eqb k k = true).
Context (eqb_sym : forall k1 k2, eqb k1 k2 = eqb k2 k1).
Context (eqb_trans : forall k1 k2 k3, eqb k1 k2 = true -> eqb k2 k3 = true -> eqb k1 k3 = true).

Lemma eqb_cong k1 k2 k : eqb k1 k2 = true -> eqb k1 k = eqb k2 k.
Proof using eqb_sym eqb_trans.
  intros E. destruct (eqb k2 k) eqn:E2; [by apply (eqb_trans k1 k2) |].
  destruct (eqb k1 k) eqn:E1; [| done].
  rewrite <- E2. symmetry. apply (eqb_trans k2 k1); [by rewrite eqb_sym | done].
Qed.

Lemma find_cons k e l :
  find_counted k (e :: l) = if eqb (c_key e) k then Some e else find_counted k l.
Proof using. done. Qed.
Lemma update_cons k f e l : update_first (key_is k) f (e :: l) =
  if eqb (c_key e) k then f e :: l else e :: update_first (key_is k) f l.
Proof using. done. Qed.
Lemma delete_cons k e l : delete_first (key_is k) (e :: l) =
  if eqb (c_key e) k then l else e :: delete_first (key_is k) l.
Proof using. done. Qed.

Lemma find_cong k1 k2 l : eqb k1 k2 = true -> find_counted k1 l = find_counted k2 l.
Proof using eqb_sym eqb_trans.
  intros E. induction l as [| e l IH]; [done |]. rewrite !find_cons.
  by rewrite (eqb_sym _ k1), (eqb_sym _ k2), (eqb_cong _ _ _ E), IH.
Qed.

(** An entry that is not the one of [k] does not match what [k] matches. *)
Lemma eqb_apart e k k' : eqb e k = false -> eqb e k' = true -> eqb k k' = false.
Proof using eqb_sym eqb_trans.
  intros Ek Ek'. destruct (eqb k k') eqn:E; [| done]. rewrite eqb_sym in E.
  by rewrite (eqb_trans _ _ _ Ek' E) in Ek.
Qed.

Lemma find_update k f l k' : (forall e, c_key (f e) = c_key e) ->
  find_counted k' (update_first (key_is k) f l) =
  if eqb k k' then f <$> find_counted k' l else find_counted k' l.
Proof using eqb_sym eqb_trans.
  intros Hf. induction l as [| e l IH]; [by destruct (eqb k k') |].
  rewrite update_cons, find_cons. destruct (eqb (c_key e) k) eqn:Ek; rewrite find_cons.
  - rewrite Hf, (eqb_cong _ _ k' Ek). by destruct (eqb k k').
  - rewrite IH. destruct (eqb (c_key e) k') eqn:Ek'; [| done].
    by rewrite (eqb_apart _ _ _ Ek Ek').
Qed.

Lemma find_delete k l k' : counted_wf l ->
  find_counted k' (delete_first (key_is k) l) =
  if eqb k k' then None else find_counted k' l.
Proof using eqb_sym eqb_trans.
  induction l as [| e l IH]; intros Hwf; [by destruct (eqb k k') |].
  destruct Hwf as (_ & Hnew & Hwf). rewrite delete_cons, find_cons.
  destruct (eqb (c_key e) k) eqn:Ek.
  - rewrite (eqb_cong _ _ k' Ek). destruct (eqb k k') eqn:E; [| done].
    by rewrite <- (find_cong _ _ l (eqb_trans _ _ _ Ek E)).
  - rewrite find_cons, (IH Hwf). destruct (eqb (c_key e) k') eqn:Ek'; [| done].
    by rewrite (eqb_apart _ _ _ Ek Ek').
Qed.

Lemma find_app k l k' : find_counted k' (l ++ [mkCounted k 1]) =
  match find_counted k' l with
  | Some e => Some e
  | None => if eqb k k' then Some (mkCounted k 1) else None
  end.
Proof using.
  induction l as [| e l IH]; [done |]. rewrite <- app_comm_cons, !find_cons, IH.
  by destruct (eqb (c_key e) k').
Qed.

Lemma delete_update k f l : (forall e, c_key (f e) = c_key e) ->
  delete_first (key_is k) (update_first (key_is k) f l) = delete_first (key_is k) l.
Proof using.
  intros Hf. induction l as [| e l IH]; [done |]. rewrite update_cons, delete_cons.
  destruct (eqb (c_key e) k) eqn:Ek; rewrite delete_cons, ?Hf, Ek; [done | by rewrite IH].
Qed.

Lemma update_update k f g l : (forall e, c_key (f e) = c_key e) ->
  update_first (key_is k) g (update_first (key_is k) f l) =
  update_first (key_is k) (fun e => g (f e)) l.
Proof using.
  intros Hf. induction l as [| e l IH]; [done |]. rewrite !update_cons.
  destruct (eqb (c_key e) k) eqn:Ek; rewrite update_cons, ?Hf, Ek; [done | by rewrite IH].
Qed.

Lemma update_wf k f l : counted_wf l -> (forall e, c_key (f e) = c_key e) ->
  (forall e, find_counted k l = Some e -> 1 <= c_ref (f e) <= REFCOUNT_MAX) ->
  counted_wf (update_first (key_is k) f l).
Proof using eqb_sym eqb_trans.
  intros Hwf Hf. induction l as [| e l IH]; intros Hr; [done |].
  destruct Hwf as (He & Hnew & Hwf). rewrite update_cons. rewrite find_cons in Hr.
  destruct (eqb (c_key e) k) eqn:Ek; simpl.
  - rewrite Hf. split_and!; try done; by apply Hr.
  - split_and!; try lia; [| by apply IH].
    rewrite find_update by done. rewrite Hnew. by destruct (eqb k (c_key e)).
Qed.

Lemma delete_wf k l : counted_wf l -> counted_wf (delete_first (key_is k) l).
Proof using eqb_sym eqb_trans.
  induction l as [| e l IH]; intros Hwf; [done |]. destruct Hwf as (He & Hnew & Hwf).
  rewrite delete_cons. destruct (eqb (c_key e) k) eqn:Ek; [done |].
  simpl. split_and!; try lia; [| by apply IH].
  rewrite find_delete by done. rewrite Hnew. by destruct (eqb k (c_key e)).
Qed.

Lemma app_wf k l : counted_wf l -> find_counted k l = None ->
  counted_wf (l ++ [mkCounted k 1]).
Proof using eqb_sym.
  pose proof refcount_max_pos as Hmax.
  induction l as [| e l IH]; intros Hwf Hn; simpl; [split_and!; try done; simpl; lia |].
  destruct Hwf as (He & Hnew & Hwf). rewrite find_cons in Hn.
  destruct (eqb (c_key e) k) eqn:Ek; [done |]. split_and!; try lia; [| by apply IH].
  by rewrite find_app, Hnew, eqb_sym, Ek.
Qed.

Lemma find_wf k l e : counted_wf l -> find_counted k l = Some e ->
  1 <= c_ref e <= REFCOUNT_MAX.
Proof using.
  induction l as [| e' l IH]; intros Hwf; [done |]. destruct Hwf as (He & _ & Hwf).
  rewrite find_cons. destruct (eqb (c_key e') k); [by intros [= <-] | by apply IH].
Qed.

(** ** The counting specification *)

(** [l'] is [l] with [d] added to the count of [k]. *)
Definition counts_add (k : K) (d : Z) (l l' : list (counted K)) : Prop :=
  forall k', count_of k' l' = count_of k' l + (if eqb k k' then d else 0).

(** The keys the hardware is programmed with. *)
Context (prog : W -> K -> bool).
Context (put_get : forall l w, is_Some (get w) -> get (put l w) = Some l).
Context (put_prog : forall l w, prog (put l w) = prog w).
(** What else the caller knows of the state and the steps preserve. *)
Context (Inv : W -> Prop) (put_inv : forall l w, Inv w -> Inv (put l w)).

(** Program and list agree: exactly the counted keys are in the hardware. *)
Definition in_sync (w : W) (l : list (counted K)) : Prop :=
  forall k, prog w k = (0 <? count_of k l).

(** A request to the hardware: it may refuse (changing nothing), never touches
    the list, and on success sets ([b] true) or clears the key. *)
Definition hw_request (k : K) (b : bool) (m : st W Z) : Prop :=
  forall w, Inv w -> total m w (fun err w' => Inv w' /\ get w' = get w /\
    forall k', prog w' k' =
      if (err =? 0) && eqb k k' then b else prog w k').

Definition alloc_request (m : st W bool) : Prop :=
  forall w, Inv w -> total m w (fun _ w' => Inv w' /\ get w' = get w /\ prog w' = prog w).

Lemma counted_add_spec k hw w l :
  alloc_request kzalloc -> hw_request k true hw -> Inv w ->
  get w = Some l -> counted_wf l -> count_of k l < REFCOUNT_MAX -> in_sync w l ->
  total (counted_add k hw) w (fun err w' => Inv w' /\ exists l', get w' = Some l' /\
    counted_wf l' /\ in_sync w' l' /\ counts_add k (if err =? 0 then 1 else 0) l l').
Proof using eqb_refl eqb_sym eqb_trans put_get put_prog put_inv.
  intros Ha Hw Hi Hg Hwf Hmax Hs. unfold counted_add.
  apply total_bind, total_get, total_bind. eapply total_deref; [exact Hg |].
  destruct (find_counted k l) as [e |] eqn:Ef.
  - pose proof (find_wf _ _ _ Hwf Ef) as Hr.
    assert (Hc : count_of k l = c_ref e) by (unfold count_of; by rewrite Ef).
    apply total_bind, total_modify, total_ret. split; [by apply put_inv |].
    eexists. split; [by apply put_get |].
    assert (Hadd : counts_add k 1 l (update_first (key_is k)
              (fun e => set_ref (refcount_inc (c_ref e)) e) l)).
    { intros k'. unfold count_of. rewrite find_update by done.
      destruct (eqb k k') eqn:E; [| lia]. rewrite <- (find_cong _ _ l E), Ef. simpl.
      rewrite refcount_inc_live by lia. lia. }
    split_and!; [| | done].
    + apply update_wf; [done | done |]. intros e' E'. rewrite Ef in E'. injection E' as <-.
      simpl. rewrite refcount_inc_live by lia. lia.
    + intros k'. rewrite put_prog, (Hs k'), (Hadd k').
      destruct (eqb k k') eqn:E; [| by rewrite Z.add_0_r].
      assert (count_of k' l = c_ref e) by (unfold count_of; by rewrite <- (find_cong _ _ l E), Ef).
      rewrite !(proj2 (Z.ltb_lt _ _)) by lia. done.
  - assert (Hzero : forall k', eqb k k' = true -> count_of k' l = 0).
    { intros k' E. unfold count_of. by rewrite <- (find_cong _ _ l E), Ef. }
    mstep (by apply Ha). intros ok w1 (Hi1 & Hg1 & Hp1).
    assert (Hs1 : in_sync w1 l) by (intros k'; by rewrite Hp1).
    destruct ok; cbn [negb].
    2: { apply total_ret. split; [done |]. exists l. rewrite Hg1. split_and!; try done.
         intros k'. change (- ENOMEM =? 0) with false. destruct (eqb k k'); lia. } 
    mstep (by apply Hw). intros err w2 (Hi2 & Hg2 & Hp2).
    destruct (err =? 0) eqn:Ee; cbn [negb].
    2: { apply total_ret. rewrite Ee. split; [done |]. exists l. split_and!; try congruence.
         - intros k'. rewrite Hp2. cbn. apply Hs1.
         - intros k'. destruct (eqb k k'); lia. }
    apply total_bind, total_get, total_bind.
    eapply total_deref; [by rewrite Hg2, Hg1 |].
    apply total_bind, total_modify, total_ret. split; [by apply put_inv |]. eexists.
    split; [apply put_get; rewrite Hg2, Hg1; by eexists |].
    assert (Hadd : counts_add k 1 l (l ++ [mkCounted k 1])).
    { intros k'. unfold count_of. rewrite find_app.
      destruct (eqb k k') eqn:E; [by rewrite <- (find_cong _ _ l E), Ef |].
      destruct (find_counted k' l); lia. }
    split_and!; [by apply app_wf | | done].
    intros k'. rewrite put_prog, Hp2, (Hadd k'). cbn [andb].
    destruct (eqb k k') eqn:E; [by rewrite (Hzero k' E) | by rewrite Z.add_0_r].
Qed.

Lemma counted_del_spec restore k hw w l :
  restore 0 = 1 -> hw_request k false hw -> Inv w ->
  get w = Some l -> counted_wf l -> in_sync w l ->
  total (counted_del restore k hw) w (fun err w' => Inv w' /\ exists l', get w' = Some l' /\
    counted_wf l' /\ in_sync w' l' /\ counts_add k (if err =? 0 then -1 else 0) l l' /\
    (count_of k l = 0 -> err = - ENOENT)).
Proof using eqb_refl eqb_sym eqb_trans put_get put_prog put_inv.
  intros Hrest Hw Hi Hg Hwf Hs. unfold counted_del.
  apply total_bind, total_get, total_bind. eapply total_deref; [exact Hg |].
  destruct (find_counted k l) as [e |] eqn:Ef.
  2: { apply total_ret. split; [done |]. exists l. split_and!; try done.
       intros k'. change (- ENOENT =? 0) with false. destruct (eqb k k'); lia. }
  pose proof (find_wf _ _ _ Hwf Ef) as Hr.
  assert (Hc : forall k', eqb k k' = true -> find_counted k' l = Some e).
  { intros k' E. by rewrite <- (find_cong _ _ l E). }
  assert (Hck : count_of k l = c_ref e) by (unfold count_of; by rewrite Ef).
  destruct (decide (c_ref e = 1)) as [E1 | Hne].
  - rewrite E1, refcount_dec_last. apply total_bind, total_modify. cbn [negb].
    mstep (by apply Hw, put_inv).
    intros err w2 (Hi2 & Hg2 & Hp2).
    rewrite put_get in Hg2 by (by eexists). rewrite put_prog in Hp2.
    destruct (err =? 0) eqn:Ee; cbn [negb]; apply total_bind, total_modify, total_ret;
      (split; [by apply put_inv |]); eexists; (split; [apply put_get; by eexists |]);
      rewrite ?Ee.
    + rewrite delete_update by done.
      assert (Hsub : counts_add k (-1) l (delete_first (key_is k) l)).
      { intros k'. unfold count_of. rewrite find_delete by done.
        destruct (eqb k k') eqn:E; [by rewrite (Hc k' E), E1 | lia]. }
      split_and!; [by apply delete_wf | | done | lia].
      intros k'. rewrite put_prog, Hp2, (Hsub k'). cbn [andb].
      destruct (eqb k k') eqn:E; [| by rewrite Z.add_0_r, Hs].
      unfold count_of. by rewrite (Hc k' E), E1.
    + rewrite update_update by done. simpl. rewrite Hrest.
      assert (Hsame : counts_add k 0 l (update_first (key_is k) (fun e => set_ref 1 (set_ref 0 e)) l)).
      { intros k'. unfold count_of. rewrite find_update by done.
        destruct (eqb k k') eqn:E; [rewrite (Hc k' E); simpl; lia | lia]. }
      split_and!; [| | done | lia].
      * apply update_wf; [done | done |]. intros e' _. simpl. lia.
      * intros k'. rewrite put_prog, Hp2, (Hsame k'). cbn [andb].
        by destruct (eqb k k'); rewrite Z.add_0_r, Hs.
  - rewrite refcount_dec_live by lia. apply total_bind, total_modify. cbn [negb].
    apply total_ret. split; [by apply put_inv |].
    eexists. split; [apply put_get; by eexists |].
    assert (Hsub : counts_add k (-1) l (update_first (key_is k) (set_ref (c_ref e - 1)) l)).
    { intros k'. unfold count_of. rewrite find_update by done.
      destruct (eqb k k') eqn:E; [rewrite (Hc k' E); simpl; lia | lia]. }
    split_and!; [| | done | lia].
    + apply update_wf; [done | done |]. intros e' E'. rewrite Ef in E'. injection E' as <-.
      simpl. lia.
    + intros k'. rewrite put_prog, (Hs k'), (Hsub k').
      destruct (eqb k k') eqn:E; [| by rewrite Z.add_0_r].
      assert (count_of k' l = c_ref e) by (unfold count_of; by rewrite (Hc k' E)).
      rewrite !(proj2 (Z.ltb_lt _ _)) by lia. done.
Qed.

(** With a [restore] that increments, as in the VLAN list of [tag_8021q.c], a
    refused removal of the last user leaves a saturated counter: no number of
    deletions ever removes the entry again. *)
Lemma counted_del_saturates k (hw : st W Z) w l e :
  get w = Some l -> find_counted k l = Some e -> c_ref e = 1 ->
  (forall w, Inv w -> total hw w (fun err w' => Inv w' /\ get w' = get w /\ err <> 0)) -> Inv w ->
  total (counted_del refcount_inc k hw) w (fun err w' => err <> 0 /\ Inv w' /\ exists l' e',
    get w' = Some l' /\ find_counted k l' = Some e' /\ c_ref e' = REFCOUNT_SATURATED).
Proof using eqb_refl eqb_sym eqb_trans put_get put_inv.
  intros Hg Ef E1 Hw Hi. unfold counted_del.
  apply total_bind, total_get, total_bind. eapply total_deref; [exact Hg |].
  rewrite Ef, E1, refcount_dec_last. apply total_bind, total_modify. cbn [negb].
  mstep (by apply Hw, put_inv). intros err w2 (Hi2 & Hg2 & He).
  rewrite put_get in Hg2 by (by eexists). rewrite (proj2 (Z.eqb_neq err 0)) by done. cbn [negb].
  apply total_bind, total_modify, total_ret. split; [done |]. split; [by apply put_inv |].
  eexists _, _. split; [apply put_get; by eexists |]. rewrite update_update by done.
  rewrite find_update, eqb_refl, Ef by done. split; [done |]. apply refcount_inc_zero.
Qed.

(** Deleting a saturated entry reports success and keeps it. *)
Lemma counted_del_stuck restore k (hw : st W Z) w l e :
  get w = Some l -> find_counted k l = Some e -> c_ref e = REFCOUNT_SATURATED ->
  total (counted_del restore k hw) w (fun err w' => err = 0 /\ exists l' e',
    w' = put l' w /\ find_counted k l' = Some e' /\ c_ref e' = REFCOUNT_SATURATED).
Proof using eqb_refl eqb_sym eqb_trans.
  intros Hg Ef E1. unfold counted_del.
  apply total_bind, total_get, total_bind. eapply total_deref; [exact Hg |].
  rewrite Ef, E1, refcount_dec_saturated. apply total_bind, total_modify. cbn [negb].
  apply total_ret. split; [done |]. eexists _, _. split; [done |].
  rewrite find_update, eqb_refl, Ef by done. done.
Qed.

(** ** Histories *)

Inductive counted_op :=
| CAdd (k : K)
| CDel (k : K).

Definition op_key (o : counted_op) : K := match o with CAdd k | CDel k => k end.

(** Every operation in turn, with its results. *)
Fixpoint counted_run (step : counted_op -> st W Z) (ops : list counted_op) : st W (list Z) :=
  match ops with
  | [] => mret []
  | o :: ops' => err ← step o; errs ← counted_run step ops'; mret (err :: errs)
  end.

(** The references [k] gained: successful additions minus successful deletions. *)
Fixpoint net_count (k : K) (ops : list counted_op) (errs : list Z) : Z :=
  match ops, errs with
  | o :: ops', err :: errs' =>
      (if (err =? 0) && eqb (op_key o) k
       then match o with CAdd _ => 1 | CDel _ => -1 end else 0) + net_count k ops' errs'
  | _, _ => 0
  end.

(** A step that behaves as a counted addition or deletion does. *)
Definition counted_step_ok (step : counted_op -> st W Z) : Prop :=
  forall o w l, Inv w -> get w = Some l -> counted_wf l -> in_sync w l ->
    count_of (op_key o) l < REFCOUNT_MAX ->
    total (step o) w (fun err w' => Inv w' /\ exists l', get w' = Some l' /\
      counted_wf l' /\ in_sync w' l' /\
      counts_add (op_key o) (if err =? 0 then match o with CAdd _ => 1 | CDel _ => -1 end else 0)
        l l').

Lemma counted_history step ops w l :
  counted_step_ok step -> Inv w -> get w = Some l -> counted_wf l -> in_sync w l ->
  (forall k, count_of k l + Z.of_nat (length ops) <= REFCOUNT_MAX) ->
  total (counted_run step ops) w (fun errs w' => Inv w' /\ exists l',
    get w' = Some l' /\ counted_wf l' /\ in_sync w' l' /\ length errs = length ops /\
    forall k, count_of k l' = count_of k l + net_count k ops errs).
Proof using.
  intros Hstep. revert w l.
  induction ops as [| o ops IH]; intros w l Hi Hg Hwf Hs Hmax.
  { apply total_ret. split; [done |]. exists l. split_and!; try done. intros k. simpl. lia. }
  cbn [counted_run]. mstep (apply (Hstep o w l); try done).
  2: { specialize (Hmax (op_key o)). simpl in Hmax. lia. }
  intros err w1 (Hi1 & l1 & Hg1 & Hwf1 & Hs1 & Hc1).
  mstep (apply (IH w1 l1 Hi1 Hg1 Hwf1 Hs1)).
  - intros errs w2 (Hi2 & l2 & Hg2 & Hwf2 & Hs2 & Hlen & Hc2). apply total_ret.
    split; [done |]. exists l2. split_and!; try done; [simpl; lia |].
    intros k. rewrite Hc2, (Hc1 k). simpl.
    destruct (eqb (op_key o) k), (err =? 0); simpl; lia.
  - intros k. specialize (Hmax k). rewrite (Hc1 k). simpl in Hmax.
    destruct (eqb (op_key o) k), (err =? 0), o; lia.
Qed.

End CountedOps.
Arguments CAdd {K}.
Arguments CDel {K}.
