(* ===== verification/DsaTypes.v ===== *)
(** * Data of the DSA core (DSA/dsa.h)

    A switch tree: its ports in list order, its switches, its routing table
    and its link aggregations, with the queries of [dsa.h] as functions.  A
    port is designated by its switch and its index, a switch, a LAG or a
    bridge by the number that stands for its address.  The switch driver is a
    parameter: a record of optional operations on a driver state [H], in the
    shape of [struct dsa_switch_ops]. *)

From Stdlib Require Import ZArith Lia Bool.
From S2P Require Import Prelude.
From S2P Require Import Kernel.

Definition pid : Type := Z * Z.        (* switch, port index *)
Definition netdev : Type := Z.

Inductive dsa_port_type :=
| DSA_PORT_TYPE_UNUSED
| DSA_PORT_TYPE_CPU
| DSA_PORT_TYPE_DSA
| DSA_PORT_TYPE_USER.

#[export] Instance dsa_port_type_eq_dec : EqDecision dsa_port_type.
Proof. solve_decision. Defined.

(** Copies of [struct dsa_lag] and [struct dsa_bridge] as they travel by value. *)
Record lag_info := mkLagInfo { li_dev : netdev; li_id : Z }.
Record bridge_info := mkBridgeInfo { bi_dev : netdev; bi_num : Z; bi_tx_fwd : bool }.

Record switchdev_obj_port_vlan := mkVlan { vlan_vid : Z; vlan_flags : Z; vlan_changed : bool }.

Inductive dsa_db :=
| DSA_DB_PORT (dp : pid)
| DSA_DB_LAG (lag : lag_info)
| DSA_DB_BRIDGE (bridge : bridge_info).

Definition dsa_db_equal (a b : dsa_db) : bool :=
  match a, b with
  | DSA_DB_PORT p, DSA_DB_PORT q => bool_decide (p = q)
  | DSA_DB_LAG x, DSA_DB_LAG y => li_dev x =? li_dev y
  | DSA_DB_BRIDGE x, DSA_DB_BRIDGE y => bi_num x =? bi_num y
  | _, _ => false
  end.

(** The key of a [struct dsa_mac_addr]: address, VLAN and database. *)
Record mac_key := mkMac { mac_addr : Z; mac_vid : Z; mac_db : dsa_db }.
Definition dsa_mac_addr : Type := counted mac_key.
Definition dsa_vlan : Type := counted Z.

Record dsa_port := mkPort {
  dp_ds : Z;
  dp_index : Z;
  dp_type : dsa_port_type;
  dp_netdev : option netdev;       (* conduit of a CPU port, user otherwise *)
  dp_cpu_dp : option pid;
  dp_stp_state : Z;
  dp_vlan_filtering : bool;
  dp_lag_tx_enabled : bool;
  dp_conduit_admin_up : bool;
  dp_conduit_oper_up : bool;
  dp_cpu_port_in_lag : bool;
  dp_ageing_time : Z;
  dp_bridge : option Z;
  dp_lag : option Z;
  dp_hsr_dev : option netdev;
  dp_fdbs : list dsa_mac_addr;
  dp_mdbs : list dsa_mac_addr;
  dp_vlans : list dsa_vlan;        (* shared ports: members; user ports: user_vlans *)
  dp_learning : bool;
  dp_setup : bool;
  dp_dn : option Z;                (* device-tree node *)
  dp_pl : bool;                    (* a phylink instance is attached *)
}.

Definition dp_id (dp : dsa_port) : pid := (dp_ds dp, dp_index dp).

(** Assignments to one field. *)
Definition set_type (x : dsa_port_type) (p : dsa_port) : dsa_port :=
  mkPort (dp_ds p) (dp_index p) x (dp_netdev p) (dp_cpu_dp p) (dp_stp_state p)
    (dp_vlan_filtering p) (dp_lag_tx_enabled p) (dp_conduit_admin_up p) (dp_conduit_oper_up p)
    (dp_cpu_port_in_lag p) (dp_ageing_time p) (dp_bridge p) (dp_lag p) (dp_hsr_dev p)
    (dp_fdbs p) (dp_mdbs p) (dp_vlans p) (dp_learning p) (dp_setup p) (dp_dn p) (dp_pl p).
Definition set_netdev (x : option netdev) (p : dsa_port) : dsa_port :=
  mkPort (dp_ds p) (dp_index p) (dp_type p) x (dp_cpu_dp p) (dp_stp_state p)
    (dp_vlan_filtering p) (dp_lag_tx_enabled p) (dp_conduit_admin_up p) (dp_conduit_oper_up p)
    (dp_cpu_port_in_lag p) (dp_ageing_time p) (dp_bridge p) (dp_lag p) (dp_hsr_dev p)
    (dp_fdbs p) (dp_mdbs p) (dp_vlans p) (dp_learning p) (dp_setup p) (dp_dn p) (dp_pl p).
Definition set_cpu_dp (x : option pid) (p : dsa_port) : dsa_port :=
  mkPort (dp_ds p) (dp_index p) (dp_type p) (dp_netdev p) x (dp_stp_state p)
    (dp_vlan_filtering p) (dp_lag_tx_enabled p) (dp_conduit_admin_up p) (dp_conduit_oper_up p)
    (dp_cpu_port_in_lag p) (dp_ageing_time p) (dp_bridge p) (dp_lag p) (dp_hsr_dev p)
    (dp_fdbs p) (dp_mdbs p) (dp_vlans p) (dp_learning p) (dp_setup p) (dp_dn p) (dp_pl p).
Definition set_stp_state (x : Z) (p : dsa_port) : dsa_port :=
  mkPort (dp_ds p) (dp_index p) (dp_type p) (dp_netdev p) (dp_cpu_dp p) x (dp_vlan_filtering p)
    (dp_lag_tx_enabled p) (dp_conduit_admin_up p) (dp_conduit_oper_up p) (dp_cpu_port_in_lag p)
    (dp_ageing_time p) (dp_bridge p) (dp_lag p) (dp_hsr_dev p) (dp_fdbs p) (dp_mdbs p)
    (dp_vlans p) (dp_learning p) (dp_setup p) (dp_dn p) (dp_pl p).
Definition set_vlan_filtering (x : bool) (p : dsa_port) : dsa_port :=
  mkPort (dp_ds p) (dp_index p) (dp_type p) (dp_netdev p) (dp_cpu_dp p) (dp_stp_state p) x
    (dp_lag_tx_enabled p) (dp_conduit_admin_up p) (dp_conduit_oper_up p) (dp_cpu_port_in_lag p)
    (dp_ageing_time p) (dp_bridge p) (dp_lag p) (dp_hsr_dev p) (dp_fdbs p) (dp_mdbs p)
    (dp_vlans p) (dp_learning p) (dp_setup p) (dp_dn p) (dp_pl p).
Definition set_lag_tx_enabled (x : bool) (p : dsa_port) : dsa_port :=
  mkPort (dp_ds p) (dp_index p) (dp_type p) (dp_netdev p) (dp_cpu_dp p) (dp_stp_state p)
    (dp_vlan_filtering p) x (dp_conduit_admin_up p) (dp_conduit_oper_up p)
    (dp_cpu_port_in_lag p) (dp_ageing_time p) (dp_bridge p) (dp_lag p) (dp_hsr_dev p)
    (dp_fdbs p) (dp_mdbs p) (dp_vlans p) (dp_learning p) (dp_setup p) (dp_dn p) (dp_pl p).
Definition set_conduit_admin_up (x : bool) (p : dsa_port) : dsa_port :=
  mkPort (dp_ds p) (dp_index p) (dp_type p) (dp_netdev p) (dp_cpu_dp p) (dp_stp_state p)
    (dp_vlan_filtering p) (dp_lag_tx_enabled p) x (dp_conduit_oper_up p) (dp_cpu_port_in_lag p)
    (dp_ageing_time p) (dp_bridge p) (dp_lag p) (dp_hsr_dev p) (dp_fdbs p) (dp_mdbs p)
    (dp_vlans p) (dp_learning p) (dp_setup p) (dp_dn p) (dp_pl p).
Definition set_conduit_oper_up (x : bool) (p : dsa_port) : dsa_port :=
  mkPort (dp_ds p) (dp_index p) (dp_type p) (dp_netdev p) (dp_cpu_dp p) (dp_stp_state p)
    (dp_vlan_filtering p) (dp_lag_tx_enabled p) (dp_conduit_admin_up p) x (dp_cpu_port_in_lag p)
    (dp_ageing_time p) (dp_bridge p) (dp_lag p) (dp_hsr_dev p) (dp_fdbs p) (dp_mdbs p)
    (dp_vlans p) (dp_learning p) (dp_setup p) (dp_dn p) (dp_pl p).
Definition set_cpu_port_in_lag (x : bool) (p : dsa_port) : dsa_port :=
  mkPort (dp_ds p) (dp_index p) (dp_type p) (dp_netdev p) (dp_cpu_dp p) (dp_stp_state p)
    (dp_vlan_filtering p) (dp_lag_tx_enabled p) (dp_conduit_admin_up p) (dp_conduit_oper_up p) x
    (dp_ageing_time p) (dp_bridge p) (dp_lag p) (dp_hsr_dev p) (dp_fdbs p) (dp_mdbs p)
    (dp_vlans p) (dp_learning p) (dp_setup p) (dp_dn p) (dp_pl p).
Definition set_ageing_time (x : Z) (p : dsa_port) : dsa_port :=
  mkPort (dp_ds p) (dp_index p) (dp_type p) (dp_netdev p) (dp_cpu_dp p) (dp_stp_state p)
    (dp_vlan_filtering p) (dp_lag_tx_enabled p) (dp_conduit_admin_up p) (dp_conduit_oper_up p)
    (dp_cpu_port_in_lag p) x (dp_bridge p) (dp_lag p) (dp_hsr_dev p) (dp_fdbs p) (dp_mdbs p)
    (dp_vlans p) (dp_learning p) (dp_setup p) (dp_dn p) (dp_pl p).
Definition set_bridge (x : option Z) (p : dsa_port) : dsa_port :=
  mkPort (dp_ds p) (dp_index p) (dp_type p) (dp_netdev p) (dp_cpu_dp p) (dp_stp_state p)
    (dp_vlan_filtering p) (dp_lag_tx_enabled p) (dp_conduit_admin_up p) (dp_conduit_oper_up p)
    (dp_cpu_port_in_lag p) (dp_ageing_time p) x (dp_lag p) (dp_hsr_dev p) (dp_fdbs p)
    (dp_mdbs p) (dp_vlans p) (dp_learning p) (dp_setup p) (dp_dn p) (dp_pl p).
Definition set_lag (x : option Z) (p : dsa_port) : dsa_port :=
  mkPort (dp_ds p) (dp_index p) (dp_type p) (dp_netdev p) (dp_cpu_dp p) (dp_stp_state p)
    (dp_vlan_filtering p) (dp_lag_tx_enabled p) (dp_conduit_admin_up p) (dp_conduit_oper_up p)
    (dp_cpu_port_in_lag p) (dp_ageing_time p) (dp_bridge p) x (dp_hsr_dev p) (dp_fdbs p)
    (dp_mdbs p) (dp_vlans p) (dp_learning p) (dp_setup p) (dp_dn p) (dp_pl p).
Definition set_hsr_dev (x : option netdev) (p : dsa_port) : dsa_port :=
  mkPort (dp_ds p) (dp_index p) (dp_type p) (dp_netdev p) (dp_cpu_dp p) (dp_stp_state p)
    (dp_vlan_filtering p) (dp_lag_tx_enabled p) (dp_conduit_admin_up p) (dp_conduit_oper_up p)
    (dp_cpu_port_in_lag p) (dp_ageing_time p) (dp_bridge p) (dp_lag p) x (dp_fdbs p) (dp_mdbs p)
    (dp_vlans p) (dp_learning p) (dp_setup p) (dp_dn p) (dp_pl p).
Definition set_fdbs (x : list dsa_mac_addr) (p : dsa_port) : dsa_port :=
  mkPort (dp_ds p) (dp_index p) (dp_type p) (dp_netdev p) (dp_cpu_dp p) (dp_stp_state p)
    (dp_vlan_filtering p) (dp_lag_tx_enabled p) (dp_conduit_admin_up p) (dp_conduit_oper_up p)
    (dp_cpu_port_in_lag p) (dp_ageing_time p) (dp_bridge p) (dp_lag p) (dp_hsr_dev p) x
    (dp_mdbs p) (dp_vlans p) (dp_learning p) (dp_setup p) (dp_dn p) (dp_pl p).
Definition set_mdbs (x : list dsa_mac_addr) (p : dsa_port) : dsa_port :=
  mkPort (dp_ds p) (dp_index p) (dp_type p) (dp_netdev p) (dp_cpu_dp p) (dp_stp_state p)
    (dp_vlan_filtering p) (dp_lag_tx_enabled p) (dp_conduit_admin_up p) (dp_conduit_oper_up p)
    (dp_cpu_port_in_lag p) (dp_ageing_time p) (dp_bridge p) (dp_lag p) (dp_hsr_dev p)
    (dp_fdbs p) x (dp_vlans p) (dp_learning p) (dp_setup p) (dp_dn p) (dp_pl p).
Definition set_vlans (x : list dsa_vlan) (p : dsa_port) : dsa_port :=
  mkPort (dp_ds p) (dp_index p) (dp_type p) (dp_netdev p) (dp_cpu_dp p) (dp_stp_state p)
    (dp_vlan_filtering p) (dp_lag_tx_enabled p) (dp_conduit_admin_up p) (dp_conduit_oper_up p)
    (dp_cpu_port_in_lag p) (dp_ageing_time p) (dp_bridge p) (dp_lag p) (dp_hsr_dev p)
    (dp_fdbs p) (dp_mdbs p) x (dp_learning p) (dp_setup p) (dp_dn p) (dp_pl p).
Definition set_learning (x : bool) (p : dsa_port) : dsa_port :=
  mkPort (dp_ds p) (dp_index p) (dp_type p) (dp_netdev p) (dp_cpu_dp p) (dp_stp_state p)
    (dp_vlan_filtering p) (dp_lag_tx_enabled p) (dp_conduit_admin_up p) (dp_conduit_oper_up p)
    (dp_cpu_port_in_lag p) (dp_ageing_time p) (dp_bridge p) (dp_lag p) (dp_hsr_dev p)
    (dp_fdbs p) (dp_mdbs p) (dp_vlans p) x (dp_setup p) (dp_dn p) (dp_pl p).
Definition set_setup (x : bool) (p : dsa_port) : dsa_port :=
  mkPort (dp_ds p) (dp_index p) (dp_type p) (dp_netdev p) (dp_cpu_dp p) (dp_stp_state p)
    (dp_vlan_filtering p) (dp_lag_tx_enabled p) (dp_conduit_admin_up p) (dp_conduit_oper_up p)
    (dp_cpu_port_in_lag p) (dp_ageing_time p) (dp_bridge p) (dp_lag p) (dp_hsr_dev p)
    (dp_fdbs p) (dp_mdbs p) (dp_vlans p) (dp_learning p) x (dp_dn p) (dp_pl p).
Definition set_pl (x : bool) (p : dsa_port) : dsa_port :=
  mkPort (dp_ds p) (dp_index p) (dp_type p) (dp_netdev p) (dp_cpu_dp p) (dp_stp_state p)
    (dp_vlan_filtering p) (dp_lag_tx_enabled p) (dp_conduit_admin_up p) (dp_conduit_oper_up p)
    (dp_cpu_port_in_lag p) (dp_ageing_time p) (dp_bridge p) (dp_lag p) (dp_hsr_dev p)
    (dp_fdbs p) (dp_mdbs p) (dp_vlans p) (dp_learning p) (dp_setup p) (dp_dn p) x.

Definition set_dn (x : option Z) (p : dsa_port) : dsa_port :=
  mkPort (dp_ds p) (dp_index p) (dp_type p) (dp_netdev p) (dp_cpu_dp p) (dp_stp_state p)
    (dp_vlan_filtering p) (dp_lag_tx_enabled p) (dp_conduit_admin_up p) (dp_conduit_oper_up p)
    (dp_cpu_port_in_lag p) (dp_ageing_time p) (dp_bridge p) (dp_lag p) (dp_hsr_dev p)
    (dp_fdbs p) (dp_mdbs p) (dp_vlans p) (dp_learning p) (dp_setup p) x (dp_pl p).

Record dsa_lag := mkLag {
  lag_dev : netdev;
  lag_id : Z;
  lag_fdbs : list dsa_mac_addr;
  lag_refcount : Z;
}.

Record dsa_bridge := mkBridge {
  br_dev : netdev;
  br_num : Z;
  br_tx_fwd_offload : bool;
  br_refcount : Z;
}.

(** [struct switchdev_brport_flags] *)
Record brport_flags := mkFlags { bf_val : Z; bf_mask : Z }.

(** Control of one port. *)
Record dsa_port_ops (H : Type) := mkPortOps {
  op_port_stp_state_set : option (Z -> Z -> Z -> H -> H);
  op_port_fast_age : option (Z -> Z -> H -> H);
  op_port_vlan_fast_age : option (Z -> Z -> Z -> H -> Z * H);
  op_port_pre_bridge_flags : option (Z -> Z -> brport_flags -> H -> Z * H);
  op_port_bridge_flags : option (Z -> Z -> brport_flags -> H -> Z * H);
  op_port_vlan_filtering : option (Z -> Z -> bool -> H -> Z * H);
  op_port_enable : option (Z -> Z -> H -> Z * H);
  op_port_disable : option (Z -> Z -> H -> H);
  op_port_change_conduit : option (Z -> Z -> netdev -> H -> Z * H);
  op_port_hsr_join : option (Z -> Z -> netdev -> H -> Z * H);
  op_port_hsr_leave : option (Z -> Z -> netdev -> H -> Z * H);
  op_port_set_host_flood : option (Z -> Z -> bool -> bool -> H -> H);
  op_port_mst_state_set : option (Z -> Z -> Z -> Z -> H -> Z * H);   (* msti, state *)
  op_vlan_msti_set : option (Z -> bridge_info -> Z -> Z -> H -> Z * H);   (* vid, msti *)
}.
#[global] Arguments mkPortOps {H}.
#[global] Arguments op_port_stp_state_set {H}.
#[global] Arguments op_port_fast_age {H}.
#[global] Arguments op_port_vlan_fast_age {H}.
#[global] Arguments op_port_pre_bridge_flags {H}.
#[global] Arguments op_port_bridge_flags {H}.
#[global] Arguments op_port_vlan_filtering {H}.
#[global] Arguments op_port_enable {H}.
#[global] Arguments op_port_disable {H}.
#[global] Arguments op_port_change_conduit {H}.
#[global] Arguments op_port_hsr_join {H}.
#[global] Arguments op_port_hsr_leave {H}.
#[global] Arguments op_port_set_host_flood {H}.
#[global] Arguments op_port_mst_state_set {H}.
#[global] Arguments op_vlan_msti_set {H}.

(** Set-up of a switch. *)
Record dsa_setup_ops (H : Type) := mkSetupOps {
  op_setup : Z -> H -> Z * H;                (* not optional: called unguarded *)
  op_teardown : option (Z -> H -> H);
  op_preferred_default_local_cpu_port : option (Z -> H -> option pid);
  op_get_tag_protocol : Z -> Z -> Z -> H -> Z;
  op_change_tag_protocol : option (Z -> Z -> H -> Z * H);
  op_connect_tag_protocol : option (Z -> Z -> H -> Z * H);
  op_phy_read : bool;                        (* is there one *)
  op_port_setup : option (Z -> Z -> H -> Z * H);
  op_port_teardown : option (Z -> Z -> H -> H);
  op_adjust_link : option (Z -> Z -> H -> H);
  op_phylink_mac_link_down : option (Z -> Z -> H -> H);
}.
#[global] Arguments mkSetupOps {H}.
#[global] Arguments op_setup {H}.
#[global] Arguments op_teardown {H}.
#[global] Arguments op_preferred_default_local_cpu_port {H}.
#[global] Arguments op_get_tag_protocol {H}.
#[global] Arguments op_change_tag_protocol {H}.
#[global] Arguments op_connect_tag_protocol {H}.
#[global] Arguments op_phy_read {H}.
#[global] Arguments op_port_setup {H}.
#[global] Arguments op_port_teardown {H}.
#[global] Arguments op_adjust_link {H}.
#[global] Arguments op_phylink_mac_link_down {H}.

(** A driver without port control, and one that sets up without doing anything. *)
Definition no_port_ops {H} : dsa_port_ops H :=
  mkPortOps None None None None None None None None None None None None None None.
Definition no_setup_ops {H} : dsa_setup_ops H :=
  mkSetupOps (fun _ h => (0, h)) None None (fun _ _ _ _ => 0) None None false None None None None.

(** The driver's operations; [None] is a null function pointer.  Arguments are
    the switch, the port and those of the C prototype. *)
Record dsa_switch_ops (H : Type) := mkOps {
  op_set_ageing_time : option (Z -> Z -> H -> Z * H);
  op_port_change_mtu : option (Z -> Z -> Z -> H -> Z * H);
  op_port_bridge_join : option (Z -> Z -> bridge_info -> bool -> H -> Z * bool * H);
  op_port_bridge_leave : option (Z -> Z -> bridge_info -> H -> H);
  op_crosschip_bridge_join : option (Z -> Z -> Z -> Z -> bridge_info -> H -> Z * H);
  op_crosschip_bridge_leave : option (Z -> Z -> Z -> Z -> bridge_info -> H -> H);
  op_port_fdb_add : option (Z -> Z -> mac_key -> H -> Z * H);
  op_port_fdb_del : option (Z -> Z -> mac_key -> H -> Z * H);
  op_lag_fdb_add : option (Z -> lag_info -> mac_key -> H -> Z * H);
  op_lag_fdb_del : option (Z -> lag_info -> mac_key -> H -> Z * H);
  op_port_mdb_add : option (Z -> Z -> mac_key -> H -> Z * H);
  op_port_mdb_del : option (Z -> Z -> mac_key -> H -> Z * H);
  op_port_vlan_add : option (Z -> Z -> switchdev_obj_port_vlan -> H -> Z * H);
  op_port_vlan_del : option (Z -> Z -> switchdev_obj_port_vlan -> H -> Z * H);
  op_port_lag_change : option (Z -> Z -> H -> Z * H);
  op_crosschip_lag_change : option (Z -> Z -> Z -> H -> Z * H);
  op_port_lag_join : option (Z -> Z -> lag_info -> H -> Z * H);
  op_crosschip_lag_join : option (Z -> Z -> Z -> lag_info -> H -> Z * H);
  op_port_lag_leave : option (Z -> Z -> lag_info -> H -> Z * H);
  op_crosschip_lag_leave : option (Z -> Z -> Z -> lag_info -> H -> Z * H);
  op_conduit_state_change : option (Z -> netdev -> bool -> H -> H);
  op_tag_8021q_vlan_add : option (Z -> Z -> Z -> Z -> H -> Z * H);
  op_tag_8021q_vlan_del : option (Z -> Z -> Z -> H -> Z * H);
  op_port : dsa_port_ops H;
  op_switch : dsa_setup_ops H;
}.
#[global] Arguments mkOps {H}.
#[global] Arguments op_set_ageing_time {H}.
#[global] Arguments op_port_change_mtu {H}.
#[global] Arguments op_port_bridge_join {H}.
#[global] Arguments op_port_bridge_leave {H}.
#[global] Arguments op_crosschip_bridge_join {H}.
#[global] Arguments op_crosschip_bridge_leave {H}.
#[global] Arguments op_port_fdb_add {H}.
#[global] Arguments op_port_fdb_del {H}.
#[global] Arguments op_lag_fdb_add {H}.
#[global] Arguments op_lag_fdb_del {H}.
#[global] Arguments op_port_mdb_add {H}.
#[global] Arguments op_port_mdb_del {H}.
#[global] Arguments op_port_vlan_add {H}.
#[global] Arguments op_port_vlan_del {H}.
#[global] Arguments op_port_lag_change {H}.
#[global] Arguments op_crosschip_lag_change {H}.
#[global] Arguments op_port_lag_join {H}.
#[global] Arguments op_crosschip_lag_join {H}.
#[global] Arguments op_port_lag_leave {H}.
#[global] Arguments op_crosschip_lag_leave {H}.
#[global] Arguments op_conduit_state_change {H}.
#[global] Arguments op_tag_8021q_vlan_add {H}.
#[global] Arguments op_tag_8021q_vlan_del {H}.
#[global] Arguments op_port {H}.
#[global] Arguments op_switch {H}.

(** [struct dsa_8021q_context]: its VLAN list, keyed by port and VLAN. *)
Record dsa_8021q_context := mkCtx {
  ctx_vlans : list (counted (Z * Z));
  ctx_proto : Z;
  ctx_freed : bool;                  (* released while still pointed to *)
}.

Record dsa_switch (H : Type) := mkDs {
  ds_index : Z;
  ds_num_ports : Z;
  ds_vlan_filtering_is_global : bool;
  ds_vlan_filtering : bool;
  ds_ageing_time_min : Z;
  ds_ageing_time_max : Z;
  ds_ops : dsa_switch_ops H;
  ds_tag_8021q_ctx : option dsa_8021q_context;
  ds_setup : bool;
  ds_needs_standalone_vlan_filtering : bool;
  ds_configure_vlan_while_not_filtering : bool;
  ds_fdb_isolation : bool;
  ds_num_lag_ids : Z;
  ds_max_num_bridges : Z;
  ds_user_mii_bus : bool;
}.
#[global] Arguments mkDs {H}.
#[global] Arguments ds_index {H}.
#[global] Arguments ds_num_ports {H}.
#[global] Arguments ds_vlan_filtering_is_global {H}.
#[global] Arguments ds_vlan_filtering {H}.
#[global] Arguments ds_ageing_time_min {H}.
#[global] Arguments ds_ageing_time_max {H}.
#[global] Arguments ds_ops {H}.
#[global] Arguments ds_tag_8021q_ctx {H}.
#[global] Arguments ds_setup {H}.
#[global] Arguments ds_needs_standalone_vlan_filtering {H}.
#[global] Arguments ds_configure_vlan_while_not_filtering {H}.
#[global] Arguments ds_fdb_isolation {H}.
#[global] Arguments ds_num_lag_ids {H}.
#[global] Arguments ds_max_num_bridges {H}.
#[global] Arguments ds_user_mii_bus {H}.

Definition set_ds_vlan_filtering {H} (x : bool) (d : dsa_switch H) : dsa_switch H :=
  mkDs (ds_index d) (ds_num_ports d) (ds_vlan_filtering_is_global d) x (ds_ageing_time_min d)
    (ds_ageing_time_max d) (ds_ops d) (ds_tag_8021q_ctx d) (ds_setup d)
    (ds_needs_standalone_vlan_filtering d) (ds_configure_vlan_while_not_filtering d)
    (ds_fdb_isolation d) (ds_num_lag_ids d) (ds_max_num_bridges d) (ds_user_mii_bus d).
Definition set_ctx {H} (x : option dsa_8021q_context) (d : dsa_switch H) : dsa_switch H :=
  mkDs (ds_index d) (ds_num_ports d) (ds_vlan_filtering_is_global d) (ds_vlan_filtering d)
    (ds_ageing_time_min d) (ds_ageing_time_max d) (ds_ops d) x (ds_setup d)
    (ds_needs_standalone_vlan_filtering d) (ds_configure_vlan_while_not_filtering d)
    (ds_fdb_isolation d) (ds_num_lag_ids d) (ds_max_num_bridges d) (ds_user_mii_bus d).
Definition set_ds_setup {H} (x : bool) (d : dsa_switch H) : dsa_switch H :=
  mkDs (ds_index d) (ds_num_ports d) (ds_vlan_filtering_is_global d) (ds_vlan_filtering d)
    (ds_ageing_time_min d) (ds_ageing_time_max d) (ds_ops d) (ds_tag_8021q_ctx d) x
    (ds_needs_standalone_vlan_filtering d) (ds_configure_vlan_while_not_filtering d)
    (ds_fdb_isolation d) (ds_num_lag_ids d) (ds_max_num_bridges d) (ds_user_mii_bus d).
Definition set_ds_configure_vlan {H} (x : bool) (d : dsa_switch H) : dsa_switch H :=
  mkDs (ds_index d) (ds_num_ports d) (ds_vlan_filtering_is_global d) (ds_vlan_filtering d)
    (ds_ageing_time_min d) (ds_ageing_time_max d) (ds_ops d) (ds_tag_8021q_ctx d) (ds_setup d)
    (ds_needs_standalone_vlan_filtering d) x (ds_fdb_isolation d) (ds_num_lag_ids d)
    (ds_max_num_bridges d) (ds_user_mii_bus d).
Definition set_ds_user_mii_bus {H} (x : bool) (d : dsa_switch H) : dsa_switch H :=
  mkDs (ds_index d) (ds_num_ports d) (ds_vlan_filtering_is_global d) (ds_vlan_filtering d)
    (ds_ageing_time_min d) (ds_ageing_time_max d) (ds_ops d) (ds_tag_8021q_ctx d) (ds_setup d)
    (ds_needs_standalone_vlan_filtering d) (ds_configure_vlan_while_not_filtering d)
    (ds_fdb_isolation d) (ds_num_lag_ids d) (ds_max_num_bridges d) x.

(** Tagging protocols, [struct dsa_device_ops]: an identity for the pointer,
    the protocol number, and what the tagger does on each switch. *)
Record dsa_device_ops (H : Type) := mkTagger {
  to_id : Z;
  to_proto : Z;
  to_connect : option (Z -> H -> Z * H);
  to_disconnect : option (Z -> H -> H);
  to_needed_headroom : Z;
  to_needed_tailroom : Z;
  to_promisc_on_conduit : bool;
}.
#[global] Arguments mkTagger {H}.
#[global] Arguments to_id {H}.
#[global] Arguments to_proto {H}.
#[global] Arguments to_connect {H}.
#[global] Arguments to_disconnect {H}.
#[global] Arguments to_needed_headroom {H}.
#[global] Arguments to_needed_tailroom {H}.
#[global] Arguments to_promisc_on_conduit {H}.
Definition dsa_tag_protocol_overhead {H} (ops : dsa_device_ops H) : Z := to_needed_headroom ops + to_needed_tailroom ops.

(** The pointer [dst->lags]: null, an array of LAG pointers, or dangling. *)
Inductive lags_ptr :=
| LagsNull
| LagsArray (l : list (option Z))
| LagsFreed.

(** [struct dsa_switch_tree] without its lists, which are in the state below. *)
Record dsa_switch_tree (H : Type) := mkTree {
  dst_index : Z;
  dst_refcount : Z;
  dst_lags : lags_ptr;
  dst_tag_ops : option (dsa_device_ops H);
  dst_default_proto : Z;
  dst_setup : bool;
  dst_lags_len : Z;
  dst_last_switch : Z;
}.
#[global] Arguments mkTree {H}.
#[global] Arguments dst_index {H}.
#[global] Arguments dst_refcount {H}.
#[global] Arguments dst_lags {H}.
#[global] Arguments dst_tag_ops {H}.
#[global] Arguments dst_default_proto {H}.
#[global] Arguments dst_setup {H}.
#[global] Arguments dst_lags_len {H}.
#[global] Arguments dst_last_switch {H}.
Definition set_dst_refcount {H} (x : Z) (t : dsa_switch_tree H) : dsa_switch_tree H :=
  mkTree (dst_index t) x (dst_lags t) (dst_tag_ops t) (dst_default_proto t) (dst_setup t)
    (dst_lags_len t) (dst_last_switch t).
Definition set_dst_lags {H} (x : lags_ptr) (t : dsa_switch_tree H) : dsa_switch_tree H :=
  mkTree (dst_index t) (dst_refcount t) x (dst_tag_ops t) (dst_default_proto t) (dst_setup t)
    (dst_lags_len t) (dst_last_switch t).
Definition set_dst_tag_ops {H} (x : option (dsa_device_ops H)) (t : dsa_switch_tree H) : dsa_switch_tree H :=
  mkTree (dst_index t) (dst_refcount t) (dst_lags t) x (dst_default_proto t) (dst_setup t)
    (dst_lags_len t) (dst_last_switch t).
Definition set_dst_default_proto {H} (x : Z) (t : dsa_switch_tree H) : dsa_switch_tree H :=
  mkTree (dst_index t) (dst_refcount t) (dst_lags t) (dst_tag_ops t) x (dst_setup t)
    (dst_lags_len t) (dst_last_switch t).
Definition set_dst_setup {H} (x : bool) (t : dsa_switch_tree H) : dsa_switch_tree H :=
  mkTree (dst_index t) (dst_refcount t) (dst_lags t) (dst_tag_ops t) (dst_default_proto t) x
    (dst_lags_len t) (dst_last_switch t).
Definition set_dst_lags_len {H} (x : Z) (t : dsa_switch_tree H) : dsa_switch_tree H :=
  mkTree (dst_index t) (dst_refcount t) (dst_lags t) (dst_tag_ops t) (dst_default_proto t)
    (dst_setup t) x (dst_last_switch t).
Definition set_dst_last_switch {H} (x : Z) (t : dsa_switch_tree H) : dsa_switch_tree H :=
  mkTree (dst_index t) (dst_refcount t) (dst_lags t) (dst_tag_ops t) (dst_default_proto t)
    (dst_setup t) (dst_lags_len t) x.

(** Deferred work on a standalone address of a user port
    ([struct dsa_standalone_event_work]). *)
Inductive dsa_standalone_event :=
| DSA_UC_ADD
| DSA_UC_DEL
| DSA_MC_ADD
| DSA_MC_DEL.
Record standalone_work := mkWork {
  sw_event : dsa_standalone_event;
  sw_port : pid;
  sw_addr : Z;
  sw_vid : Z;
}.

(** The state of a tree with its hardware and its allocator: [w_alloc] answers
    the coming allocations, which succeed when it is exhausted. *)
Record world (H : Type) := mkWorld {
  w_tree : dsa_switch_tree H;
  w_ports : list dsa_port;
  w_rtable : list (pid * pid);
  w_switches : gmap Z (dsa_switch H);
  w_lags : gmap Z dsa_lag;
  w_bridges : gmap Z dsa_bridge;
  w_nh : list Z;                     (* the notifier chain of the tree *)
  w_hw : H;
  w_alloc : list bool;
  w_works : list standalone_work;    (* queued on dsa_owq *)
}.
#[global] Arguments mkWorld {H}.
#[global] Arguments w_tree {H}.
#[global] Arguments w_ports {H}.
#[global] Arguments w_rtable {H}.
#[global] Arguments w_switches {H}.
#[global] Arguments w_lags {H}.
#[global] Arguments w_bridges {H}.
#[global] Arguments w_nh {H}.
#[global] Arguments w_hw {H}.
#[global] Arguments w_alloc {H}.
#[global] Arguments w_works {H}.

Section Queries.
Context {H : Type}.
Implicit Types (w : world H) (dp : dsa_port).

Definition set_tree w x : world H :=
  mkWorld x (w_ports w) (w_rtable w) (w_switches w) (w_lags w) (w_bridges w) (w_nh w) (w_hw w)
    (w_alloc w) (w_works w).
Definition set_ports w x : world H :=
  mkWorld (w_tree w) x (w_rtable w) (w_switches w) (w_lags w) (w_bridges w) (w_nh w) (w_hw w)
    (w_alloc w) (w_works w).
Definition set_rtable w x : world H :=
  mkWorld (w_tree w) (w_ports w) x (w_switches w) (w_lags w) (w_bridges w) (w_nh w) (w_hw w)
    (w_alloc w) (w_works w).
Definition set_switches w x : world H :=
  mkWorld (w_tree w) (w_ports w) (w_rtable w) x (w_lags w) (w_bridges w) (w_nh w) (w_hw w)
    (w_alloc w) (w_works w).
Definition set_lags w x : world H :=
  mkWorld (w_tree w) (w_ports w) (w_rtable w) (w_switches w) x (w_bridges w) (w_nh w) (w_hw w)
    (w_alloc w) (w_works w).
Definition set_bridges w x : world H :=
  mkWorld (w_tree w) (w_ports w) (w_rtable w) (w_switches w) (w_lags w) x (w_nh w) (w_hw w)
    (w_alloc w) (w_works w).
Definition set_nh w x : world H :=
  mkWorld (w_tree w) (w_ports w) (w_rtable w) (w_switches w) (w_lags w) (w_bridges w) x (w_hw w)
    (w_alloc w) (w_works w).
Definition set_hw w x : world H :=
  mkWorld (w_tree w) (w_ports w) (w_rtable w) (w_switches w) (w_lags w) (w_bridges w) (w_nh w) x
    (w_alloc w) (w_works w).
Definition set_alloc w x : world H :=
  mkWorld (w_tree w) (w_ports w) (w_rtable w) (w_switches w) (w_lags w) (w_bridges w) (w_nh w)
    (w_hw w) x (w_works w).
Definition set_works w x : world H :=
  mkWorld (w_tree w) (w_ports w) (w_rtable w) (w_switches w) (w_lags w) (w_bridges w) (w_nh w)
    (w_hw w) (w_alloc w) x.

Definition upd_tree (f : dsa_switch_tree H -> dsa_switch_tree H) w : world H := set_tree w (f (w_tree w)).
Definition upd_ds (ds : Z) (f : dsa_switch H -> dsa_switch H) w : world H :=
  set_switches w (alter f ds (w_switches w)).

(** The port a pointer designates. *)
Definition find_port (p : pid) (l : list dsa_port) : option dsa_port :=
  List.find (fun dp => bool_decide (dp_id dp = p)) l.

Definition get_port w (p : pid) : option dsa_port := find_port p (w_ports w).

Definition upd_port (p : pid) (f : dsa_port -> dsa_port) w : world H :=
  set_ports w ((fun dp => if bool_decide (dp_id dp = p) then f dp else dp) <$> w_ports w).

(** [dsa_to_port]: the port of switch [ds] with index [p]. *)
Definition dsa_to_port w (ds p : Z) : option dsa_port :=
  List.find (fun dp => (dp_ds dp =? ds) && (dp_index dp =? p)) (w_ports w).

Definition dsa_port_is_dsa dp : bool := bool_decide (dp_type dp = DSA_PORT_TYPE_DSA).
Definition dsa_port_is_cpu dp : bool := bool_decide (dp_type dp = DSA_PORT_TYPE_CPU).
Definition dsa_port_is_user dp : bool := bool_decide (dp_type dp = DSA_PORT_TYPE_USER).
Definition dsa_port_is_unused dp : bool := bool_decide (dp_type dp = DSA_PORT_TYPE_UNUSED).

Definition dsa_port_conduit_is_operational dp : bool :=
  dsa_port_is_cpu dp && dp_conduit_admin_up dp && dp_conduit_oper_up dp.

(** The ports of a switch, in list order. *)
Definition switch_ports w (ds : Z) : list dsa_port :=
  List.filter (fun dp => dp_ds dp =? ds) (w_ports w).

(** [mask |= BIT(dp->index)] over the ports of a kind. *)
Definition port_mask (l : list dsa_port) : Z :=
  foldl (fun mask dp => Z.lor mask (Z.shiftl 1 (dp_index dp))) 0 l.
Definition dsa_user_ports w ds : Z :=
  u32 (port_mask (List.filter dsa_port_is_user (switch_ports w ds))).
Definition dsa_cpu_ports w ds : Z :=
  u32 (port_mask (List.filter dsa_port_is_cpu (switch_ports w ds))).

Definition index_of w (ds : Z) : option Z := ds_index <$> w_switches w !! ds.

(** [dsa_routing_port]: the local port towards switch [device]. *)
Definition dsa_routing_port w (ds device : Z) : option Z :=
  match List.find (fun dl => (fst (fst dl) =? ds) &&
                     bool_decide (index_of w (fst (snd dl)) = Some device)) (w_rtable w) with
  | Some dl => Some (snd (fst dl))
  | None => ds_num_ports <$> w_switches w !! ds
  end.

Definition dsa_towards_port w (ds device port : Z) : option Z :=
  i ← index_of w ds;
  if device =? i then Some port else dsa_routing_port w ds device.

Definition dsa_upstream_port w (ds port : Z) : option Z :=
  dp ← dsa_to_port w ds port;
  match dp_cpu_dp dp with
  | None => Some port
  | Some cpu_dp => i ← index_of w (fst cpu_dp); dsa_towards_port w ds i (snd cpu_dp)
  end.

Definition dsa_is_unused_port w (ds p : Z) : option bool :=
  dsa_port_is_unused <$> dsa_to_port w ds p.

Definition dsa_is_upstream_port w (ds port : Z) : option bool :=
  unused ← dsa_is_unused_port w ds port;
  if unused : bool then Some false
  else up ← dsa_upstream_port w ds port; Some (port =? up).

Definition dsa_switch_is_upstream_of w (upstream_ds downstream_ds : Z) : option bool :=
  if upstream_ds =? downstream_ds then Some true
  else
    i ← index_of w upstream_ds;
    routing_port ← dsa_routing_port w downstream_ds i;
    dsa_is_upstream_port w downstream_ds routing_port.

Definition dsa_port_is_vlan_filtering w dp : option bool :=
  ds ← w_switches w !! dp_ds dp;
  Some (if ds_vlan_filtering_is_global ds then ds_vlan_filtering ds else dp_vlan_filtering dp).

Definition dsa_port_lag_dev_get w dp : option netdev :=
  l ← dp_lag dp; lag_dev <$> w_lags w !! l.
Definition dsa_port_lag_id_get w dp : Z :=
  match (l ← dp_lag dp; lag_id <$> w_lags w !! l) with Some i => i | None => 0 end.
Definition dsa_port_offloads_lag w dp (dev : netdev) : bool :=
  bool_decide (dsa_port_lag_dev_get w dp = Some dev).

Definition dsa_port_bridge_dev_get w dp : option netdev :=
  b ← dp_bridge dp; br_dev <$> w_bridges w !! b.
Definition dsa_port_bridge_num_get w dp : Z :=
  match (b ← dp_bridge dp; br_num <$> w_bridges w !! b) with Some n => n | None => 0 end.

Definition dsa_port_bridge_same w (a b : dsa_port) : bool :=
  match dsa_port_bridge_dev_get w a, dsa_port_bridge_dev_get w b with
  | Some x, Some y => x =? y
  | _, _ => false
  end.

Definition dsa_port_to_bridge_port w dp : option netdev :=
  match dp_bridge dp with
  | None => None
  | Some _ =>
      match dp_lag dp with
      | Some _ => dsa_port_lag_dev_get w dp
      | None => match dp_hsr_dev dp with Some d => Some d | None => dp_netdev dp end
      end
  end.

Definition dsa_port_offloads_bridge_port w dp (dev : option netdev) : bool :=
  bool_decide (dsa_port_to_bridge_port w dp = dev).
Definition dsa_port_offloads_bridge_dev w dp (dev : option netdev) : bool :=
  bool_decide (dsa_port_bridge_dev_get w dp = dev).
Definition dsa_tree_offloads_bridge_port w (dev : option netdev) : bool :=
  existsb (fun dp => dsa_port_offloads_bridge_port w dp dev) (w_ports w).
Definition dsa_tree_offloads_bridge_dev w (dev : option netdev) : bool :=
  existsb (fun dp => dsa_port_offloads_bridge_dev w dp dev) (w_ports w).

(** [dsa_port_to_conduit] *)
Definition dsa_port_to_conduit w dp : option netdev :=
  cpu ← dp_cpu_dp dp; cpu_dp ← get_port w cpu;
  if dp_cpu_port_in_lag dp then dsa_port_lag_dev_get w cpu_dp else dp_netdev cpu_dp.

(** [dsa_conduit_find_user] (DSA/tag.h): the user interface of a port. *)
Definition dsa_conduit_find_user w (device port : Z) : option netdev :=
  dp ← List.find (fun dp => bool_decide (index_of w (dp_ds dp) = Some device) &&
                     (dp_index dp =? port) && dsa_port_is_user dp) (w_ports w);
  dp_netdev dp.

(** The next allocation. *)
Definition kzalloc : st (world H) bool := fun w =>
  match w_alloc w with
  | [] => Some (true, w)
  | b :: l => Some (b, set_alloc w l)
  end.

(** A call through an operation pointer: null faults. *)
Definition call_op (o : option (H -> Z * H)) : st (world H) Z := fun w =>
  f ← o; let '(err, h) := f (w_hw w) in Some (err, set_hw w h).

(** A call through a pointer known not to be null. *)
Definition call_fun {A} (f : H -> A * H) : st (world H) A := fun w =>
  let '(a, h) := f (w_hw w) in Some (a, set_hw w h).

(** The same for an operation that returns nothing. *)
Definition call_void (o : option (H -> H)) : st (world H) unit := fun w =>
  f ← o; Some (tt, set_hw w (f (w_hw w))).

(** ** Lemmas *)

Lemma dsa_to_port_get w ds p : dsa_to_port w ds p = get_port w (ds, p).
Proof.
  unfold dsa_to_port, get_port, find_port, dp_id. induction (w_ports w) as [| dp l IH]; [done |].
  simpl. rewrite IH. f_equal. case_bool_decide as E.
  - injection E as -> ->. by rewrite !Z.eqb_refl.
  - destruct (Z.eqb_spec (dp_ds dp) ds), (Z.eqb_spec (dp_index dp) p); simpl; try done.
    by subst.
Qed.

Lemma find_port_id p l dp : find_port p l = Some dp -> dp_id dp = p.
Proof. intros E. apply List.find_some in E as [_ E]. by apply bool_decide_eq_true in E. Qed.

Lemma get_upd_eq w p f dp :
  get_port w p = Some dp -> (forall dp, dp_id (f dp) = dp_id dp) ->
  get_port (upd_port p f w) p = Some (f dp).
Proof.
  intros E Hf. unfold get_port, upd_port, find_port in *. cbn [w_ports set_ports].
  induction (w_ports w) as [| dq l IH]; [done |]. rewrite fmap_cons. cbn [List.find] in *.
  case_bool_decide as Ep; cbn [List.find].
  - injection E as ->. by rewrite Hf, bool_decide_true.
  - rewrite bool_decide_false by done. by apply IH.
Qed.

Lemma get_upd_ne w p q f :
  p <> q -> (forall dp, dp_id (f dp) = dp_id dp) ->
  get_port (upd_port p f w) q = get_port w q.
Proof.
  intros Hne Hf. unfold get_port, upd_port, find_port. cbn [w_ports set_ports].
  induction (w_ports w) as [| dp l IH]; [done |]. rewrite fmap_cons. cbn [List.find].
  rewrite IH. destruct (bool_decide (dp_id dp = p)) eqn:Ep; [| done].
  apply bool_decide_eq_true in Ep. rewrite Hf, Ep. by rewrite bool_decide_false.
Qed.

Lemma upd_port_ids w p f : (forall dp, dp_id (f dp) = dp_id dp) ->
  dp_id <$> w_ports (upd_port p f w) = dp_id <$> w_ports w.
Proof.
  intros Hf. simpl. rewrite <- list_fmap_compose. apply list_fmap_ext.
  intros i dp _. simpl. by case_bool_decide.
Qed.

End Queries.

(** Keys of the address lists. *)
Definition mac_eqb (a b : mac_key) : bool :=
  (mac_addr a =? mac_addr b) && (mac_vid a =? mac_vid b) && dsa_db_equal (mac_db a) (mac_db b).

Lemma dsa_db_equal_refl a : dsa_db_equal a a = true.
Proof. destruct a; simpl; [by rewrite bool_decide_true | apply Z.eqb_refl ..]. Qed.
Lemma dsa_db_equal_sym a b : dsa_db_equal a b = dsa_db_equal b a.
Proof. destruct a, b; simpl; try done; [by apply bool_decide_ext | apply Z.eqb_sym ..]. Qed.
Lemma dsa_db_equal_trans a b c :
  dsa_db_equal a b = true -> dsa_db_equal b c = true -> dsa_db_equal a c = true.
Proof.
  destruct a, b, c; simpl; rewrite ?bool_decide_eq_true, ?Z.eqb_eq; try done; congruence.
Qed.

Lemma mac_eqb_refl a : mac_eqb a a = true.
Proof. unfold mac_eqb. by rewrite !Z.eqb_refl, dsa_db_equal_refl. Qed.
Lemma mac_eqb_sym a b : mac_eqb a b = mac_eqb b a.
Proof. unfold mac_eqb. by rewrite (Z.eqb_sym (mac_addr a)), (Z.eqb_sym (mac_vid a)), dsa_db_equal_sym. Qed.
Lemma mac_eqb_trans a b c : mac_eqb a b = true -> mac_eqb b c = true -> mac_eqb a c = true.
Proof.
  unfold mac_eqb. rewrite !andb_true_iff, !Z.eqb_eq. intros [[-> ->] E1] [[-> ->] E2].
  split; [done |]. by eapply dsa_db_equal_trans.
Qed.
