(* ===== verification/SdsaTag.v ===== *)
(** * The SDSA frame tag (DSA/tag_asix.c, libxdma.c)

    Frames between the host and the switch carry a tag that names the port.
    The tagger inserts it on transmission ([sdsa_xmit]) and strips it on
    reception ([sdsa_rcv]); the network driver reads the port out of the same
    tag when it looks up PTP timestamps ([ax_rx_check_timestamp],
    [ax_tx_check_timestamp]).  A socket buffer is its bytes and the offset of
    [skb->data]; the kernel's buffer primitives are a class. *)

From Stdlib Require Import ZArith Lia Bool.
From S2P Require Import Prelude.
From S2P Require Import Mmio.
From S2P Require Import TsQueue.
From S2P Require Import TsCapture.
From S2P Require Import Kernel.
From S2P Require Import DsaTypes.

Definition ETH_P_SDSA : Z := 0xDCDC.
Definition AX_SDSA : Z := 0xDCDC.
Definition ETH_P_8021Q : Z := 0x8100.
Definition ETH_P_XDSA : Z := 0x00F8.
Definition ETH_P_1588 : Z := 0x88F7.
Definition ETH_P_IP : Z := 0x0800.
Definition IPPROTO_UDP : Z := 17.
Definition DSA_HLEN : Z := 4.
Definition SDSA_HLEN : Z := 8.
Definition ETH_ALEN : Z := 6.
Definition ETH_HLEN : Z := 14.
Definition AX_TX_PTPHDR_OFFSET_L3 : Z := 42.
Definition AX_RX_PTPHDR_OFFSET_L3 : Z := 28.
Definition AX_TX_PTPHDR_OFFSET_L2 : Z := 14.
Definition AX_RX_PTPHDR_OFFSET_L2 : Z := 0.
Definition AX_ETHTYPE_OFFSET : Z := 12.
Definition AX_IP_PROTO_OFFSET : Z := 9.
Definition AX_UDP_PORT_OFFSET : Z := 22.
Definition AX_PTP_EVENT_PORT_NUM : Z := 0x13F.
Definition AX_SDSA_TAG_LENGTH_TX : Z := 8.
Definition AX_SDSA_TAG_LENGTH_RX : Z := 6.

(** The buffer from [skb->head], the offset of [skb->data] in it, the protocol
    in host order and the two fields the tagger sets on reception. *)
Record sk_buff := mkSkb {
  skb_buf : list Z;
  skb_off : Z;
  skb_protocol : Z;
  skb_dev : option netdev;
  skb_fwd_mark : bool;
}.

Definition set_buf (b : list Z) (s : sk_buff) : sk_buff :=
  mkSkb b (skb_off s) (skb_protocol s) (skb_dev s) (skb_fwd_mark s).
Definition set_off (o : Z) (s : sk_buff) : sk_buff :=
  mkSkb (skb_buf s) o (skb_protocol s) (skb_dev s) (skb_fwd_mark s).

Definition skb_len (s : sk_buff) : Z := Z.of_nat (length (skb_buf s)) - skb_off s.

(** The bytes from offset [i] relative to [skb->data] on. *)
Definition skb_from (s : sk_buff) (i : Z) : list Z := drop (Z.to_nat (skb_off s + i)) (skb_buf s).

(** The kernel's primitives: [skb_cow_head] may fail, and otherwise provides
    the headroom and keeps the data; [skb_push] and [skb_pull] move the data
    pointer within the buffer. *)
Class SkbApi := {
  skb_cow_head : sk_buff -> Z -> option sk_buff;
  skb_push : sk_buff -> Z -> option sk_buff;
  skb_pull_rcsum : sk_buff -> Z -> sk_buff;
  pskb_may_pull : sk_buff -> Z -> bool;
  skb_cow_ok s (n : Z) s' : 0 <= n -> skb_cow_head s n = Some s' ->
    n <= skb_off s' <= Z.of_nat (length (skb_buf s')) /\ skb_from s' 0 = skb_from s 0 /\
    skb_protocol s' = skb_protocol s;
  skb_push_ok s (n : Z) : 0 <= n <= skb_off s -> skb_push s n = Some (set_off (skb_off s - n) s);
  skb_pull_ok s (n : Z) : 0 <= n <= skb_len s -> skb_pull_rcsum s n = set_off (skb_off s + n) s;
  pskb_may_pull_ok s (n : Z) : pskb_may_pull s n = true <-> n <= skb_len s;
}.

(** [memmove] inside a buffer; [None] outside it. *)
Definition memmove (b : list Z) (dst src n : Z) : option (list Z) :=
  if decide (0 <= dst /\ 0 <= src /\ 0 <= n /\
             dst + n <= Z.of_nat (length b) /\ src + n <= Z.of_nat (length b)) then
    Some (take (Z.to_nat dst) b ++ take (Z.to_nat n) (drop (Z.to_nat src) b) ++
          drop (Z.to_nat (dst + n)) b)
  else None.

Section Tag.
Context `{SkbApi}.

(** The result is [None] when an access leaves the buffer, [Some None] when the
    frame is dropped. *)
Definition sdsa_xmit (ds_index dp_index : Z) (skb : sk_buff) : option (option sk_buff) :=
  if skb_protocol skb =? ETH_P_8021Q then
    match skb_cow_head skb DSA_HLEN with
    | None => Some None
    | Some skb =>
        skb ← skb_push skb DSA_HLEN;
        let data := skb_off skb in
        b ← memmove (skb_buf skb) data (data + DSA_HLEN) (2 * ETH_ALEN);
        b ← store_bytes b (data + 2 * ETH_ALEN)
              [Z.land (Z.shiftr ETH_P_SDSA 8) 0xff; Z.land ETH_P_SDSA 0xff; 0x00; 0x00;
               Z.lor 0x60 (Z.shiftr (Z.land ds_index 0x3e0) 5); Z.shiftl dp_index 3];
        Some (Some (set_buf b skb))
    end
  else
    match skb_cow_head skb SDSA_HLEN with
    | None => Some None
    | Some skb =>
        skb ← skb_push skb SDSA_HLEN;
        let data := skb_off skb in
        b ← memmove (skb_buf skb) data (data + SDSA_HLEN) (2 * ETH_ALEN);
        b ← store_bytes b (data + 2 * ETH_ALEN)
              [Z.land (Z.shiftr ETH_P_SDSA 8) 0xff; Z.land ETH_P_SDSA 0xff; 0x00; 0x00;
               Z.lor 0x40 (Z.shiftr (Z.land ds_index 0x3e0) 5); Z.shiftl dp_index 3;
               0x00; 0x00];
        Some (Some (set_buf b skb))
    end.

(** The port a received tag names. *)
Definition sdsa_source_port (h0 h1 : Z) : Z :=
  Z.shiftl (Z.land h0 0x1f) 5 + Z.shiftr (Z.land h1 0xF8) 3.

(** [find_user] is [dsa_conduit_find_user] on the conduit's tree. *)
Definition sdsa_rcv (find_user : Z -> Z -> option netdev) (skb : sk_buff)
    : option (option sk_buff) :=
  if negb (pskb_may_pull skb SDSA_HLEN) then Some None
  else
    let hdr := skb_off skb + 2 in
    h0 ← getz (skb_buf skb) hdr;
    if negb (Z.land h0 0xc0 =? 0) then Some None
    else
      h1 ← getz (skb_buf skb) (hdr + 1);
      let source_device := 0 in
      let source_port := sdsa_source_port h0 h1 in
      match find_user source_device source_port with
      | None => Some None
      | Some dev =>
          let finish s b := Some (Some (mkSkb b (skb_off s) (skb_protocol s) (Some dev) true)) in
          if negb (Z.land h0 0x20 =? 0) then
            h2 ← getz (skb_buf skb) (hdr + 2);
            h3 ← getz (skb_buf skb) (hdr + 3);
            let new_header := [Z.land (Z.shiftr ETH_P_8021Q 8) 0xff; Z.land ETH_P_8021Q 0xff; h2; h3] in
            let skb := skb_pull_rcsum skb DSA_HLEN in
            b ← store_bytes (skb_buf skb) hdr new_header;
            b ← memmove b (skb_off skb - ETH_HLEN) (skb_off skb - ETH_HLEN - DSA_HLEN) (2 * ETH_ALEN);
            finish skb b
          else
            let skb := skb_pull_rcsum skb SDSA_HLEN in
            b ← memmove (skb_buf skb) (skb_off skb - ETH_HLEN)
                  (skb_off skb - ETH_HLEN - SDSA_HLEN) (2 * ETH_ALEN);
            finish skb b
      end.

End Tag.

(** ** Moving bytes *)

Lemma memmove_back pre gap mac rest n :
  Z.of_nat (length gap) = n -> length mac = 12%nat ->
  memmove (pre ++ gap ++ mac ++ rest) (Z.of_nat (length pre)) (Z.of_nat (length pre) + n) 12
  = Some (pre ++ mac ++ drop 12 (gap ++ mac) ++ rest).
Proof.
  intros Hg Hm. unfold memmove. rewrite decide_True by (rewrite !length_app; lia).
  rewrite Nat2Z.id. f_equal. rewrite take_app_length. f_equal.
  replace (Z.to_nat (Z.of_nat (length pre) + n)) with (length pre + length gap)%nat by lia.
  replace (Z.to_nat (Z.of_nat (length pre) + 12)) with (length pre + 12)%nat by lia.
  change (Z.to_nat 12) with 12%nat.
  rewrite <- !drop_drop, !drop_app_length.
  rewrite (take_app_length' mac _ 12) by lia. f_equal.
  rewrite app_assoc, drop_app_le by (rewrite length_app; lia). done.
Qed.

Lemma memmove_fwd pre mac tag rest n :
  Z.of_nat (length tag) = n -> length mac = 12%nat ->
  memmove (pre ++ mac ++ tag ++ rest) (Z.of_nat (length pre) + n) (Z.of_nat (length pre)) 12
  = Some (pre ++ take (length tag) (mac ++ tag) ++ mac ++ rest).
Proof.
  intros Hg Hm. unfold memmove. rewrite decide_True by (rewrite !length_app; lia).
  f_equal. change (Z.to_nat 12) with 12%nat. rewrite Nat2Z.id.
  replace (Z.to_nat (Z.of_nat (length pre) + n)) with (length pre + length tag)%nat by lia.
  replace (Z.to_nat (Z.of_nat (length pre) + n + 12)) with (length pre + (length mac + length tag))%nat by lia.
  rewrite take_app_add, <- !app_assoc. f_equal.
  rewrite <- !drop_drop, !drop_app_length, (take_app_length' mac _ 12) by lia.
  f_equal. rewrite app_assoc, take_app_le by (rewrite length_app; lia). done.
Qed.

(** ** Timestamp lookups in tagged frames *)

Definition ETH_P_NET_LATENCY : Z := 0x808.

(** The port field of the tag word. *)
Definition tag_port (w : Z) : Z := Z.shiftr (Z.land w 0x1FF8) 3.

(** What [ax_rx_check_timestamp] and [ax_tx_check_timestamp] decide to do. *)
Inductive ts_action :=
| TsNone
| TsStamp (msg : SKB_TSTAMP_MSG)
| TsLatency.

(** [data] are the bytes from [skb->data], [h_proto] the type field of the
    Ethernet header; [None] is a load past the data. *)
Definition rx_action (protocol h_proto : Z) (data : list Z) : option ts_action :=
  if protocol =? ETH_P_XDSA then
    if h_proto =? AX_SDSA then
      tmp ← be16 data (Z.to_nat (AX_RX_PTPHDR_OFFSET_L2 + 2));
      let source_port := u16 (tag_port tmp) in
      rx_ethertype ← be16 data (Z.to_nat (AX_RX_PTPHDR_OFFSET_L2 + AX_SDSA_TAG_LENGTH_RX));
      if rx_ethertype =? ETH_P_1588 then
        msg_type ← data !! Z.to_nat (AX_RX_PTPHDR_OFFSET_L2 + AX_SDSA_TAG_LENGTH_RX + 2);
        if Z.land msg_type 0xf <=? 7 then
          Some (TsStamp (mkSkbMsg data
            (Z.to_nat (AX_RX_PTPHDR_OFFSET_L2 + AX_SDSA_TAG_LENGTH_RX + 2)) source_port))
        else Some TsNone
      else if rx_ethertype =? ETH_P_NET_LATENCY then Some TsLatency
      else if rx_ethertype =? ETH_P_IP then
        transport_poto ← data !! Z.to_nat (AX_IP_PROTO_OFFSET + AX_SDSA_TAG_LENGTH_RX + 2);
        if transport_poto =? IPPROTO_UDP then
          dst_port ← be16 data (Z.to_nat (AX_UDP_PORT_OFFSET + AX_SDSA_TAG_LENGTH_RX + 2));
          if dst_port =? AX_PTP_EVENT_PORT_NUM then
            Some (TsStamp (mkSkbMsg data
              (Z.to_nat (AX_RX_PTPHDR_OFFSET_L3 + AX_SDSA_TAG_LENGTH_RX + 2)) source_port))
          else Some TsNone
        else Some TsNone
      else Some TsNone
    else Some TsNone
  else Some TsNone.

(** [hw_tstamp] is the flag [SKBTX_HW_TSTAMP] of the buffer. *)
Definition tx_action (hw_tstamp : bool) (data : list Z) : option ts_action :=
  if hw_tstamp then
    tx_ethertype ← be16 data (Z.to_nat AX_ETHTYPE_OFFSET);
    if tx_ethertype =? AX_SDSA then
      tmp ← be16 data (Z.to_nat (AX_ETHTYPE_OFFSET + 4));
      let port_id := u16 (tag_port tmp) in
      tx_ethertype ← be16 data (Z.to_nat (AX_ETHTYPE_OFFSET + AX_SDSA_TAG_LENGTH_TX));
      if tx_ethertype =? ETH_P_1588 then
        msg_type ← data !! Z.to_nat (AX_ETHTYPE_OFFSET + AX_SDSA_TAG_LENGTH_TX + 2);
        if Z.land msg_type 0xF <=? 7 then
          Some (TsStamp (mkSkbMsg data
            (Z.to_nat (AX_TX_PTPHDR_OFFSET_L2 + AX_SDSA_TAG_LENGTH_TX)) port_id))
        else Some TsNone
      else if tx_ethertype =? ETH_P_IP then
        Some (TsStamp (mkSkbMsg data
          (Z.to_nat (AX_TX_PTPHDR_OFFSET_L3 + AX_SDSA_TAG_LENGTH_TX)) port_id))
      else Some TsNone
    else Some TsNone
  else Some TsNone.

Section Check.
Context {D : Type} `{Device D}.
Local Open Scope io_scope.

(** The value stored in the buffer's hardware timestamp, if one is. *)
Definition ax_rx_check_timestamp (fuel : nat) (ts junk : CAPTURE_DATA) (pSwitch : ax_switch)
    (protocol h_proto : Z) (data : list Z) : io D (ax_switch * option Z) :=
  let! a := lift_opt (rx_action protocol h_proto data) in
  match a with
  | TsNone => ret (pSwitch, None)
  | TsStamp msg =>
      let! s := ax_retrieve_rx_hw_timestamps fuel ts pSwitch in
      let! st := lift_opt (ax_tsn_rx_hwtstamp junk s msg) in
      ret (s, st)
  | TsLatency =>
      let! sec := readl 0x114 in
      let! nsec := readl 0x110 in
      ret (pSwitch, Some (u64 (u64 (sec * 1000000000) + nsec)))
  end.

Definition ax_tx_check_timestamp (udelay : Z -> D -> D) (fuel : nat) (junk : CAPTURE_DATA)
    (pSwitch : ax_switch) (hw_tstamp : bool) (data : list Z) : io D (ax_switch * option Z) :=
  let! a := lift_opt (tx_action hw_tstamp data) in
  match a with
  | TsStamp msg =>
      let! r := ax_tsn_tx_hwtstamp udelay fuel junk pSwitch msg in
      ret (snd r, fst r)
  | _ => ret (pSwitch, None)
  end.

End Check.

(** ** The frames on the wire *)

(** The six bytes that replace the type field. *)
Definition sdsa_tag (mode ds p : Z) : list Z :=
  u8 <$> [0xDC; 0xDC; 0x00; 0x00;
          Z.lor mode (Z.shiftr (Z.land ds 0x3e0) 5); Z.shiftl p 3].

(** What [sdsa_xmit] makes of a frame with these addresses and the bytes after. *)
Definition tx_wire (vlan : bool) (ds p : Z) (mac rest : list Z) : list Z :=
  if vlan then mac ++ sdsa_tag 0x60 ds p ++ drop 2 rest
  else mac ++ sdsa_tag 0x40 ds p ++ [0; 0] ++ rest.

(** The switch forwards towards the host: the command bits of the tag become
    TO_CPU, the rest of the frame is unchanged. *)
Definition to_cpu (f : list Z) : list Z := alter (fun b => Z.land b 0x3f) 16%nat f.

Section Frames.
Context `{SkbApi}.

Lemma headroom_split s n : 0 <= n <= skb_off s -> skb_off s <= Z.of_nat (length (skb_buf s)) ->
  exists pre gap, skb_buf s = pre ++ gap ++ skb_from s 0 /\
    Z.of_nat (length pre) = skb_off s - n /\ Z.of_nat (length gap) = n.
Proof.
  intros Hn Hl.
  exists (take (Z.to_nat (skb_off s - n)) (skb_buf s)),
    (take (Z.to_nat n) (drop (Z.to_nat (skb_off s - n)) (skb_buf s))).
  split_and!.
  - unfold skb_from. rewrite Z.add_0_r.
    replace (Z.to_nat (skb_off s)) with (Z.to_nat (skb_off s - n) + Z.to_nat n)%nat by lia.
    by rewrite <- drop_drop, !take_drop.
  - rewrite length_take. lia.
  - rewrite length_take, length_drop. lia.
Qed.

Lemma skb_from_app b o p d f n pre x y :
  b = pre ++ x ++ y -> Z.of_nat (length pre) + Z.of_nat (length x) = o + n ->
  skb_from (mkSkb b o p d f) n = y.
Proof.
  intros -> E. unfold skb_from. cbn [skb_buf skb_off]. rewrite app_assoc.
  replace (Z.to_nat (o + n)) with (length (pre ++ x)) by (rewrite length_app; lia).
  apply drop_app_length.
Qed.

Lemma sdsa_xmit_wire ds p s s1 mac rest :
  let vlan := skb_protocol s =? ETH_P_8021Q in
  skb_from s 0 = mac ++ rest -> length mac = 12%nat -> (2 <= length rest)%nat ->
  skb_cow_head s (if vlan then DSA_HLEN else SDSA_HLEN) = Some s1 ->
  exists s', sdsa_xmit ds p s = Some (Some s') /\
    skb_from s' 0 = tx_wire vlan ds p mac rest.
Proof.
  intros vlan Hf Hm Hrest Hc. unfold sdsa_xmit. fold vlan. unfold DSA_HLEN, SDSA_HLEN in *.
  assert (Hn : 0 <= if vlan then 4 else 8) by (by destruct vlan).
  destruct (skb_cow_ok _ _ _ Hn Hc) as (Hoff & Hf1 & Hp).
  destruct (headroom_split s1 (if vlan then 4 else 8)) as (pre & gap & Hb & Hpre & Hgap);
    [by destruct vlan; lia | lia |].
  rewrite Hf1, Hf in Hb.
  assert (Hx : length (drop 12 (gap ++ mac)) = length gap)
    by (rewrite length_drop, length_app; lia).
  assert (Ho : skb_off s1 - (if vlan then 4 else 8) = Z.of_nat (length pre)) by lia.
  destruct vlan; rewrite Hc, skb_push_ok by lia; cbn [mbind option_bind set_off skb_off skb_buf];
    rewrite Ho, Hb; change (2 * ETH_ALEN) with 12; rewrite memmove_back by done;
    cbn [mbind option_bind];
    replace (Z.of_nat (length pre) + 12) with (Z.of_nat (length (pre ++ mac)))
      by (rewrite length_app; lia); rewrite app_assoc.
  - destruct rest as [| r0 [| r1 rest]]; try (simpl in Hrest; lia).
    change (r0 :: r1 :: rest) with ([r0; r1] ++ rest) at 1.
    rewrite (app_assoc (drop 12 _)), store_bytes_app
      by (rewrite length_app, Hx; simpl; lia).
    eexists. split; [reflexivity |]. unfold set_buf. cbn [skb_off set_off].
    apply (skb_from_app _ _ _ _ _ _ pre []); [by rewrite <- app_assoc | simpl; lia].
  - rewrite store_bytes_app by (rewrite Hx; simpl; lia).
    eexists. split; [reflexivity |]. unfold set_buf. cbn [skb_off set_off].
    apply (skb_from_app _ _ _ _ _ _ pre []); [by rewrite <- app_assoc | simpl; lia].
Qed.

(** A received frame, [skb->data] just after the 14 bytes of its header. *)
Definition received_frame (r : sk_buff) (f : list Z) : Prop :=
  ETH_HLEN <= skb_off r <= Z.of_nat (length (skb_buf r)) /\ skb_from r (- ETH_HLEN) = f.

Lemma received_split r f : received_frame r f -> exists pre,
  skb_buf r = pre ++ f /\ skb_off r = Z.of_nat (length pre) + 14.
Proof.
  unfold received_frame, skb_from, ETH_HLEN. intros [Ho Hf].
  exists (take (Z.to_nat (skb_off r + -14)) (skb_buf r)).
  rewrite <- Hf, take_drop. split; [done |]. rewrite length_take. lia.
Qed.

Lemma sdsa_rcv_wire (find : Z -> Z -> option netdev) r mac t0 t1 h0 h1 x y rest :
  received_frame r (mac ++ [0xDC; 0xDC; t0; t1; h0; h1; x; y] ++ rest) ->
  length mac = 12%nat -> (2 <= length rest)%nat -> is_u8 x -> is_u8 y ->
  if (Z.land h0 0xc0 =? 0) then
    match find 0 (sdsa_source_port h0 h1) with
    | None => sdsa_rcv find r = Some None
    | Some dev => exists r', sdsa_rcv find r = Some (Some r') /\
        skb_dev r' = Some dev /\ skb_fwd_mark r' = true /\
        received_frame r' (mac ++ (if Z.land h0 0x20 =? 0 then rest
                                   else [0x81; 0x00; x; y] ++ rest))
    end
  else sdsa_rcv find r = Some None.
Proof.
  intros Hr Hm Hrest Hx Hy. destruct (received_split _ _ Hr) as (pre & Hb & Ho).
  assert (Hlen : skb_len r = 6 + Z.of_nat (length rest)).
  { unfold skb_len. rewrite Hb, Ho, !length_app. simpl. lia. }
  unfold sdsa_rcv. rewrite (proj2 (pskb_may_pull_ok r SDSA_HLEN)) by (unfold SDSA_HLEN; lia).
  cbn [negb].
  assert (G : forall l c v i, mac ++ [0xDC; 0xDC; t0; t1; h0; h1; x; y] ++ rest = l ++ v :: c ->
            i = Z.of_nat (length l) -> getz (skb_buf r) (skb_off r - 14 + i) = Some v).
  { intros l c v i E ->. rewrite Hb, E, app_assoc. apply getz_app. rewrite length_app. lia. }
  replace (skb_off r + 2) with (skb_off r - 14 + 16) by lia.
  rewrite (G (mac ++ [0xDC; 0xDC; t0; t1]) (h1 :: x :: y :: rest) h0 16)
    by (rewrite <- ?app_assoc, ?length_app; simpl; lia || done).
  cbn [mbind option_bind]. destruct (Z.land h0 0xc0 =? 0); cbn [negb]; [| done].
  replace (skb_off r - 14 + 16 + 1) with (skb_off r - 14 + 17) by lia.
  rewrite (G (mac ++ [0xDC; 0xDC; t0; t1; h0]) (x :: y :: rest) h1 17)
    by (rewrite <- ?app_assoc, ?length_app; simpl; lia || done).
  cbn [mbind option_bind]. destruct (find 0 (sdsa_source_port h0 h1)) as [dev |]; [| done].
  destruct (Z.land h0 0x20 =? 0); cbn [negb].
  - rewrite skb_pull_ok by (unfold SDSA_HLEN; lia). cbn [set_off skb_off skb_buf].
    rewrite Hb. unfold ETH_HLEN, SDSA_HLEN. change (2 * ETH_ALEN) with 12.
    replace (skb_off r + 8 - 14) with (Z.of_nat (length pre) + 8) by lia.
    replace (Z.of_nat (length pre) + 8 - 8) with (Z.of_nat (length pre)) by lia.
    rewrite memmove_fwd by done. cbn [mbind option_bind]. eexists. split; [reflexivity |].
    cbn [skb_dev skb_fwd_mark]. split_and!; try done. unfold received_frame, ETH_HLEN.
    cbn [skb_off skb_buf]. split; [rewrite !length_app, length_take, length_app, Hm; simpl; lia |].
    apply (skb_from_app _ _ _ _ _ _ pre
             (take (length [0xDC; 0xDC; t0; t1; h0; h1; x; y])
                (mac ++ [0xDC; 0xDC; t0; t1; h0; h1; x; y]))); [done |].
    rewrite length_take, length_app, Hm. simpl. lia.
  - replace (skb_off r - 14 + 16 + 2) with (skb_off r - 14 + 18) by lia.
    rewrite (G (mac ++ [0xDC; 0xDC; t0; t1; h0; h1]) (y :: rest) x 18)
      by (rewrite <- ?app_assoc, ?length_app; simpl; lia || done).
    replace (skb_off r - 14 + 16 + 3) with (skb_off r - 14 + 19) by lia.
    rewrite (G (mac ++ [0xDC; 0xDC; t0; t1; h0; h1; x]) rest y 19)
      by (rewrite <- ?app_assoc, ?length_app; simpl; lia || done).
    cbn [mbind option_bind].
    rewrite skb_pull_ok by (unfold DSA_HLEN; lia). cbn [set_off skb_off skb_buf].
    rewrite Hb. change ([0xDC; 0xDC; t0; t1; h0; h1; x; y] ++ rest)
      with ([0xDC; 0xDC; t0; t1] ++ [h0; h1; x; y] ++ rest).
    replace (pre ++ mac ++ [0xDC; 0xDC; t0; t1] ++ [h0; h1; x; y] ++ rest)
      with ((pre ++ mac ++ [0xDC; 0xDC; t0; t1]) ++ [h0; h1; x; y] ++ rest)
      by (by rewrite <- !app_assoc).
    replace (skb_off r - 14 + 16) with (Z.of_nat (length (pre ++ mac ++ [0xDC; 0xDC; t0; t1])))
      by (rewrite !length_app; simpl; lia).
    rewrite store_bytes_app by done. cbn [mbind option_bind].
    rewrite <- !app_assoc. unfold ETH_HLEN, DSA_HLEN. change (2 * ETH_ALEN) with 12.
    replace (skb_off r + 4 - 14) with (Z.of_nat (length pre) + 4) by lia.
    replace (Z.of_nat (length pre) + 4 - 4) with (Z.of_nat (length pre)) by lia.
    rewrite memmove_fwd by done. cbn [mbind option_bind]. eexists. split; [reflexivity |].
    cbn [skb_dev skb_fwd_mark]. split_and!; try done. unfold received_frame, ETH_HLEN.
    cbn [skb_off skb_buf]. split; [rewrite !length_app, length_take, length_app, length_fmap, Hm; simpl; lia |].
    apply (skb_from_app _ _ _ _ _ _ pre
             (take (length [0xDC; 0xDC; t0; t1]) (mac ++ [0xDC; 0xDC; t0; t1]))).
    + rewrite !fmap_cons, (u8_small x), (u8_small y) by done. done.
    + rewrite length_take, length_app, Hm. simpl. lia.
Qed.

End Frames.

(** ** Ports in tags *)

(** Both drivers read the same ten-bit port out of a tag. *)
Lemma tag_port_agree h0 h1 : is_u8 h0 -> is_u8 h1 ->
  tag_port (256 * h0 + h1) = sdsa_source_port h0 h1.
Proof.
  intros H0 H1.
  assert (G : forall h, 0 <= h < 256 -> forallb (fun k => tag_port (256 * h + k) =? sdsa_source_port h k)
                (seqZ 0 256) = true).
  { apply (forall_below 256 (fun h => forallb (fun k => tag_port (256 * h + k) =? sdsa_source_port h k)
             (seqZ 0 256))). vm_compute. reflexivity. }
  apply Z.eqb_eq. apply (forall_below 256 (fun k => tag_port (256 * h0 + k) =? sdsa_source_port h0 k));
    [by apply G | done].
Qed.

Lemma tag_port_tx p : 0 <= p < 32 ->
  sdsa_source_port 0x20 (u8 (Z.shiftl p 3)) = p /\ sdsa_source_port 0 (u8 (Z.shiftl p 3)) = p /\
  u16 (tag_port (256 * 0x40 + u8 (Z.shiftl p 3))) = p /\
  u16 (tag_port (256 * 0 + u8 (Z.shiftl p 3))) = p.
Proof.
  intros Hp. pose proof (forall_below 32 (fun p =>
    (sdsa_source_port 0x20 (u8 (Z.shiftl p 3)) =? p) && (sdsa_source_port 0 (u8 (Z.shiftl p 3)) =? p) &&
    (u16 (tag_port (256 * 0x40 + u8 (Z.shiftl p 3))) =? p) &&
    (u16 (tag_port (256 * 0 + u8 (Z.shiftl p 3))) =? p)) ltac:(vm_compute; reflexivity) p Hp) as H.
  rewrite !andb_true_iff, !Z.eqb_eq in H. tauto.
Qed.

Lemma sdsa_tag_bytes mode ds p : mode = 0x40 \/ mode = 0x60 -> Z.land ds 0x3e0 = 0 ->
  sdsa_tag mode ds p = [0xDC; 0xDC; 0; 0; mode; u8 (Z.shiftl p 3)].
Proof. intros Hm Hd. unfold sdsa_tag. rewrite Hd. by destruct Hm as [-> | ->]. Qed.

Lemma to_cpu_tag mac l : length mac = 12%nat ->
  to_cpu (mac ++ l) = mac ++ alter (fun b => Z.land b 0x3f) 4%nat l.
Proof.
  intros Hm. unfold to_cpu. change 16%nat with (12 + 4)%nat. rewrite <- Hm at 1.
  by rewrite alter_app_r.
Qed.

(** A frame ready for transmission: two addresses and, when the stack says it
    is VLAN-tagged, an 802.1Q header; then at least a type field. *)
Definition good_frame (s : sk_buff) (mac rest : list Z) : Prop :=
  skb_from s 0 = mac ++ rest /\ length mac = 12%nat /\ Forall is_u8 rest /\
  if skb_protocol s =? ETH_P_8021Q then
    exists t0 t1 rest', rest = [0x81; 0x00; t0; t1] ++ rest' /\ (2 <= length rest')%nat
  else (2 <= length rest)%nat.

Section Theorems.
Context `{SkbApi}.

(** The tag round trip: a frame transmitted through port [p] of a switch
    with index below 32, turned around by the switch, is received from that
    same port with every byte of the original frame, VLAN header included,
    and marked as already forwarded. *)
Theorem sdsa_roundtrip (find : Z -> Z -> option netdev) ds p dev s s1 mac rest :
  good_frame s mac rest ->
  skb_cow_head s (if skb_protocol s =? ETH_P_8021Q then DSA_HLEN else SDSA_HLEN) = Some s1 ->
  0 <= p < 32 -> Z.land ds 0x3e0 = 0 -> find 0 p = Some dev ->
  exists s', sdsa_xmit ds p s = Some (Some s') /\
    forall r, received_frame r (to_cpu (skb_from s' 0)) ->
      exists r', sdsa_rcv find r = Some (Some r') /\ skb_dev r' = Some dev /\
        skb_fwd_mark r' = true /\ received_frame r' (mac ++ rest).
Proof.
  intros (Hf & Hm & Hbytes & Hlen) Hc Hp Hd Hfind.
  destruct (sdsa_xmit_wire ds p s s1 mac rest) as (s' & Ex & Ew); try done.
  { destruct (_ =? _); [| done]. destruct Hlen as (t0 & t1 & r & -> & _). simpl. lia. }
  exists s'. split; [done |]. intros r Hr. rewrite Ew in Hr. clear Ex Ew Hc.
  destruct (tag_port_tx p Hp) as (E1 & E2 & _). unfold tx_wire in Hr.
  destruct (_ =? _).
  - destruct Hlen as (t0 & t1 & rest' & -> & Hlen). simpl drop in Hr.
    rewrite !Forall_app, !Forall_cons_iff in Hbytes.
    rewrite sdsa_tag_bytes in Hr by auto.
    rewrite (to_cpu_tag mac _ Hm) in Hr.
    pose proof (sdsa_rcv_wire find r mac 0 0 (Z.land 0x60 0x3f) (u8 (Z.shiftl p 3)) t0 t1 rest' Hr Hm Hlen)
      as G. change (Z.land 0x60 0x3f) with 0x20 in G. rewrite E1, Hfind in G. apply G; tauto.
  - rewrite sdsa_tag_bytes in Hr by auto.
    rewrite (to_cpu_tag mac _ Hm) in Hr.
    pose proof (sdsa_rcv_wire find r mac 0 0 (Z.land 0x40 0x3f) (u8 (Z.shiftl p 3)) 0 0 rest Hr Hm Hlen)
      as G. change (Z.land 0x40 0x3f) with 0 in G. rewrite E2, Hfind in G. by apply G.
Qed.

(** What the receive path loads of a frame with an untagged SDSA header. *)
Lemma rx_action_1588 r mac h0 h1 mt ptp :
  received_frame r (mac ++ [0xDC; 0xDC; 0; 0; h0; h1; 0; 0; 0x88; 0xF7; mt] ++ ptp) ->
  length mac = 12%nat -> Z.land mt 0xf <= 7 ->
  rx_action ETH_P_XDSA AX_SDSA (skb_from r 0) =
    Some (TsStamp (mkSkbMsg (skb_from r 0) 8 (u16 (tag_port (256 * h0 + h1))))) /\
  drop 8 (skb_from r 0) = mt :: ptp.
Proof.
  intros Hr Hm Hmt. destruct (received_split _ _ Hr) as (pre & Hb & Ho).
  assert (E : skb_from r 0 = [0; 0; h0; h1; 0; 0; 0x88; 0xF7; mt] ++ ptp).
  { destruct r as [b o pr d f]. cbn [skb_buf skb_off] in *.
    apply (skb_from_app _ _ _ _ _ _ (pre ++ mac) [0xDC; 0xDC]).
    - rewrite Hb, <- app_assoc. done.
    - rewrite length_app. simpl. lia. }
  rewrite E. split; [| done]. unfold rx_action. set (l := _ ++ ptp).
  change (be16 l (Z.to_nat (AX_RX_PTPHDR_OFFSET_L2 + 2))) with (Some (256 * h0 + h1)).
  change (be16 l (Z.to_nat (AX_RX_PTPHDR_OFFSET_L2 + AX_SDSA_TAG_LENGTH_RX))) with (Some ETH_P_1588).
  change (l !! Z.to_nat (AX_RX_PTPHDR_OFFSET_L2 + AX_SDSA_TAG_LENGTH_RX + 2)) with (Some mt).
  rewrite !Z.eqb_refl. cbn [mbind option_bind]. by rewrite (proj2 (Z.leb_le _ _) Hmt).
Qed.

(** The timestamp lookups agree with the tagger: for an untagged 802.1AS
    event message sent through port [p], the transmit path looks up the stamp of
    port [p] for exactly the PTP message of the original frame, and the receive
    path does the same on the frame the switch turns around. *)
Theorem ts_lookup_follows_tag ds p s s1 mac mt ptp :
  good_frame s mac ([0x88; 0xF7; mt] ++ ptp) -> skb_protocol s <> ETH_P_8021Q ->
  skb_cow_head s SDSA_HLEN = Some s1 ->
  0 <= p < 32 -> Z.land ds 0x3e0 = 0 -> Z.land mt 0xf <= 7 ->
  exists s' mtx, sdsa_xmit ds p s = Some (Some s') /\
    tx_action true (skb_from s' 0) = Some (TsStamp mtx) /\ port_tag mtx = p /\
    drop (ptp_msg_offset mtx) (skb_data mtx) = mt :: ptp /\
    forall r, received_frame r (to_cpu (skb_from s' 0)) -> exists mrx,
      rx_action ETH_P_XDSA AX_SDSA (skb_from r 0) = Some (TsStamp mrx) /\ port_tag mrx = p /\
      drop (ptp_msg_offset mrx) (skb_data mrx) = mt :: ptp.
Proof.
  intros (Hf & Hm & _) Hproto Hc Hp Hd Hmt.
  apply Z.eqb_neq in Hproto.
  destruct (sdsa_xmit_wire ds p s s1 mac ([0x88; 0xF7; mt] ++ ptp)) as (s' & Ex & Ew);
    [done | done | simpl; lia | by rewrite Hproto |].
  rewrite Hproto in Ew. unfold tx_wire in Ew. rewrite sdsa_tag_bytes in Ew by auto.
  destruct (tag_port_tx p Hp) as (_ & _ & E3 & E4).
  destruct mac as [| m0 [| m1 [| m2 [| m3 [| m4 [| m5 [| m6 [| m7 [| m8 [| m9 [| m10 [| m11 []]]]]]]]]]]]];
    try discriminate Hm.
  exists s', (mkSkbMsg (skb_from s' 0) 22 p). split; [done |]. split_and!; try done.
  - rewrite Ew. unfold tx_action. set (l := _ ++ _).
    change (be16 l (Z.to_nat AX_ETHTYPE_OFFSET)) with (Some AX_SDSA).
    change (be16 l (Z.to_nat (AX_ETHTYPE_OFFSET + 4)))
      with (Some (256 * 0x40 + u8 (Z.shiftl p 3))).
    change (be16 l (Z.to_nat (AX_ETHTYPE_OFFSET + AX_SDSA_TAG_LENGTH_TX))) with (Some ETH_P_1588).
    change (l !! Z.to_nat (AX_ETHTYPE_OFFSET + AX_SDSA_TAG_LENGTH_TX + 2)) with (Some mt).
    cbn [mbind option_bind]. rewrite !Z.eqb_refl.
    by rewrite (proj2 (Z.leb_le _ _) Hmt), E3.
  - rewrite Ew. done.
  - intros r Hr. rewrite Ew in Hr.
    rewrite (to_cpu_tag _ _ Hm) in Hr.
    destruct (rx_action_1588 r _ 0 (u8 (Z.shiftl p 3)) mt ptp Hr Hm Hmt) as [Ea Ed].
    exists (mkSkbMsg (skb_from r 0) 8 p). split_and!; [| done | done]. by rewrite Ea, E4.
Qed.

End Theorems.

(** ** A buffer API to run the theorems on *)

Definition skb_list : SkbApi.
Proof.
  refine {|
    skb_cow_head s n :=
      if (n <=? skb_off s) && (skb_off s <=? Z.of_nat (length (skb_buf s))) then Some s else None;
    skb_push s n := if n <=? skb_off s then Some (set_off (skb_off s - n) s) else None;
    skb_pull_rcsum s n := set_off (skb_off s + n) s;
    pskb_may_pull s n := n <=? skb_len s |}.
  - intros s n s' Hn. destruct (Z.leb_spec n (skb_off s)); [| done].
    destruct (Z.leb_spec (skb_off s) (Z.of_nat (length (skb_buf s)))); [| done].
    intros [= <-]. split_and!; done.
  - intros s n [Hn1 Hn2]. by rewrite (proj2 (Z.leb_le n _) Hn2).
  - done.
  - intros s n. apply Z.leb_le.
Defined.

#[local] Existing Instance skb_list.

Definition demo_mac : list Z := [2; 0; 0; 0; 0; 1; 2; 0; 0; 0; 0; 2].
Definition demo_vlan_skb : sk_buff :=
  mkSkb (repeat 0 16 ++ demo_mac ++ [0x81; 0x00; 0x20; 0x64; 0x08; 0x00; 0x45]) 16 ETH_P_8021Q None false.
Definition demo_ptp_skb : sk_buff :=
  mkSkb (repeat 0 16 ++ demo_mac ++ [0x88; 0xF7; 0x00; 0x02; 0x00]) 16 ETH_P_1588 None false.

Lemma sdsa_roundtrip_witness : exists s',
  sdsa_xmit 0 3 demo_vlan_skb = Some (Some s') /\
  exists r', sdsa_rcv (fun d p => if (d =? 0) && (p =? 3) then Some 77 else None)
    (mkSkb (to_cpu (skb_from s' 0)) 14 ETH_P_XDSA None false) = Some (Some r') /\
    skb_dev r' = Some 77.
Proof.
  destruct (sdsa_roundtrip (fun d p => if (d =? 0) && (p =? 3) then Some 77 else None)
    0 3 77 demo_vlan_skb demo_vlan_skb demo_mac
    [0x81; 0x00; 0x20; 0x64; 0x08; 0x00; 0x45]) as (s' & E & G).
  - split_and!; [done | done | repeat constructor; lia |].
    exists 0x20, 0x64, [0x08; 0x00; 0x45]. split; [done | simpl; lia].
  - reflexivity.
  - lia.
  - reflexivity.
  - reflexivity.
  - exists s'. split; [exact E |].
    destruct (G (mkSkb (to_cpu (skb_from s' 0)) 14 ETH_P_XDSA None false)) as (r' & Er & Ed & _);
      [vm_compute in E; injection E as <-; split; vm_compute; [split; done | reflexivity] |].
    exists r'. split; [exact Er | exact Ed].
Defined.

Lemma ts_lookup_follows_tag_witness : exists s' m,
  sdsa_xmit 0 2 demo_ptp_skb = Some (Some s') /\
  tx_action true (skb_from s' 0) = Some (TsStamp m) /\ port_tag m = 2.
Proof.
  destruct (ts_lookup_follows_tag 0 2 demo_ptp_skb demo_ptp_skb demo_mac 0 [0x02; 0x00])
    as (s' & m & E & Ea & Ep & _); [| done | reflexivity | lia | reflexivity | done |].
  - split_and!; [done | done | repeat constructor; lia | simpl; lia].
  - exists s', m. split_and!; [exact E | exact Ea | exact Ep].
Defined.
