(* ===== verification/DsaSwitch.v ===== *)
(** * Switch-wide events (DSA/switch.c)

    Every change in the fabric is an event delivered to each switch of the
    tree, which decides which of its ports it concerns and programs them.  On
    ports shared by several users (CPU ports and links between switches) the
    addresses and VLANs are reference counted. *)

From Stdlib Require Import ZArith Lia Bool.
From S2P Require Import Prelude.
From S2P Require Import Kernel.
From S2P Require Import DsaTypes.

Section DsaSwitch.
Context {H : Type} `{RefcountApi}.
Abbreviation M := (st (world H)).

Definition get_ds (ds : Z) : M (dsa_switch H) := w ← get_st; deref (w_switches w !! ds).
Definition port_of (p : pid) : M dsa_port := w ← get_st; deref (get_port w p).
Definition queried {A} (f : world H -> option A) : M A := w ← get_st; deref (f w).

(** [dsa_switch_for_each_port (dp, ds)] with a body that returns an error:
    the first error ends the loop. *)
Definition for_each_port (ds : Z) (body : pid -> M Z) : M Z :=
  w ← get_st; for_err (dp_id <$> switch_ports w ds) body.

(** ** Ageing time and MTU *)

Definition dsa_switch_fastest_ageing_time (w : world H) (ds ageing_time : Z) : Z :=
  foldl (fun t dp => if negb (dp_ageing_time dp =? 0) && (dp_ageing_time dp <? t)
                     then dp_ageing_time dp else t) ageing_time (switch_ports w ds).

Definition dsa_switch_ageing_time (ds ageing_time : Z) : M Z :=
  d ← get_ds ds;
  if negb (ds_ageing_time_min d =? 0) && (ageing_time <? ds_ageing_time_min d) then mret (- ERANGE)
  else if negb (ds_ageing_time_max d =? 0) && (ds_ageing_time_max d <? ageing_time)
  then mret (- ERANGE)
  else
    w ← get_st;
    let ageing_time := dsa_switch_fastest_ageing_time w ds ageing_time in
    match op_set_ageing_time (ds_ops d) with
    | Some f => call_op (Some (f ds ageing_time))
    | None => mret 0
    end.

Definition dsa_port_mtu_match (dp : dsa_port) (info_dp : pid) : bool :=
  bool_decide (dp_id dp = info_dp) || dsa_port_is_dsa dp || dsa_port_is_cpu dp.

Definition dsa_switch_mtu (ds : Z) (info_dp : pid) (mtu : Z) : M Z :=
  d ← get_ds ds;
  match op_port_change_mtu (ds_ops d) with
  | None => mret (- EOPNOTSUPP)
  | Some f => for_each_port ds (fun p =>
      dp ← port_of p;
      if dsa_port_mtu_match dp info_dp then call_op (Some (f ds (dp_index dp) mtu)) else mret 0)
  end.

(** ** Bridges *)

(** The port [info->dp] of a bridge event, which may lie in another tree: its
    pointer with [dp->ds->dst->index] and [dp->ds->index]. *)
Record origin := mkOrigin { o_dp : pid; o_tree : Z; o_index : Z }.

(** The error and [info->tx_fwd_offload] afterwards. *)
Definition dsa_switch_bridge_join (ds : Z) (info_dp : origin) (bridge : bridge_info)
    (tx_fwd_offload : bool) : M (Z * bool) :=
  d ← get_ds ds;
  let '(dp_ds, dp_index) := o_dp info_dp in
  if dp_ds =? ds then
    match op_port_bridge_join (ds_ops d) with
    | None => mret (- EOPNOTSUPP, tx_fwd_offload)
    | Some f => call_fun (f ds dp_index bridge tx_fwd_offload)
    end
  else
    match op_crosschip_bridge_join (ds_ops d) with
    | None => mret (0, tx_fwd_offload)
    | Some f =>
        err ← call_op (Some (f ds (o_tree info_dp) (o_index info_dp) dp_index bridge));
        mret (err, tx_fwd_offload)
    end.

Definition dsa_switch_bridge_leave (ds : Z) (info_dp : origin) (bridge : bridge_info) : M Z :=
  d ← get_ds ds;
  let '(dp_ds, dp_index) := o_dp info_dp in
  _ ← (if dp_ds =? ds then
         match op_port_bridge_leave (ds_ops d) with
         | Some f => call_void (Some (f ds dp_index bridge))
         | None => mret tt
         end
       else
         match op_crosschip_bridge_leave (ds_ops d) with
         | Some f => call_void (Some (f ds (o_tree info_dp) (o_index info_dp) dp_index bridge))
         | None => mret tt
         end);
  mret 0.

(** ** Addresses *)

Definition dsa_port_host_address_match (w : world H) (dp targeted_dp : dsa_port) : option bool :=
  up ← dsa_switch_is_upstream_of w (dp_ds dp) (dp_ds targeted_dp);
  if up : bool then
    cpu_dp ← dp_cpu_dp targeted_dp;
    i ← index_of w (fst cpu_dp);
    t ← dsa_towards_port w (dp_ds dp) i (snd cpu_dp);
    Some (dp_index dp =? t)
  else Some false.

(** [dsa_mac_addr_find] *)
Definition dsa_mac_addr_find (key : mac_key) (l : list dsa_mac_addr) : option dsa_mac_addr :=
  find_counted mac_eqb key l.

(** The two address lists of a port. *)
Inductive addr_list := Fdb | Mdb.

Definition get_addrs (which : addr_list) (p : pid) (w : world H) : option (list dsa_mac_addr) :=
  (match which with Fdb => dp_fdbs | Mdb => dp_mdbs end) <$> get_port w p.
Definition put_addrs (which : addr_list) (p : pid) (l : list dsa_mac_addr) (w : world H) : world H :=
  upd_port p (match which with Fdb => set_fdbs l | Mdb => set_mdbs l end) w.

Definition dsa_port_is_shared (dp : dsa_port) : bool := dsa_port_is_cpu dp || dsa_port_is_dsa dp.

Definition dsa_port_do_mdb_add (p : pid) (mdb : mac_key) : M Z :=
  dp ← port_of p;
  d ← get_ds (dp_ds dp);
  let hw := call_op ((fun f => f (dp_ds dp) (dp_index dp) mdb) <$> op_port_mdb_add (ds_ops d)) in
  if negb (dsa_port_is_shared dp) then hw
  else counted_add mac_eqb (get_addrs Mdb p) (put_addrs Mdb p) kzalloc mdb hw.

Definition dsa_port_do_mdb_del (p : pid) (mdb : mac_key) : M Z :=
  dp ← port_of p;
  d ← get_ds (dp_ds dp);
  let hw := call_op ((fun f => f (dp_ds dp) (dp_index dp) mdb) <$> op_port_mdb_del (ds_ops d)) in
  if negb (dsa_port_is_shared dp) then hw
  else counted_del mac_eqb (get_addrs Mdb p) (put_addrs Mdb p) (fun _ => 1) mdb hw.

Definition dsa_port_do_fdb_add (p : pid) (key : mac_key) : M Z :=
  dp ← port_of p;
  d ← get_ds (dp_ds dp);
  let hw := call_op ((fun f => f (dp_ds dp) (dp_index dp) key) <$> op_port_fdb_add (ds_ops d)) in
  if negb (dsa_port_is_shared dp) then hw
  else counted_add mac_eqb (get_addrs Fdb p) (put_addrs Fdb p) kzalloc key hw.

Definition dsa_port_do_fdb_del (p : pid) (key : mac_key) : M Z :=
  dp ← port_of p;
  d ← get_ds (dp_ds dp);
  let hw := call_op ((fun f => f (dp_ds dp) (dp_index dp) key) <$> op_port_fdb_del (ds_ops d)) in
  if negb (dsa_port_is_shared dp) then hw
  else counted_del mac_eqb (get_addrs Fdb p) (put_addrs Fdb p) (fun _ => 1) key hw.

Definition get_lag_fdbs (lag : Z) (w : world H) : option (list dsa_mac_addr) :=
  lag_fdbs <$> w_lags w !! lag.
Definition put_lag_fdbs (lag : Z) (l : list dsa_mac_addr) (w : world H) : world H :=
  set_lags w (alter (fun g => mkLag (lag_dev g) (lag_id g) l (lag_refcount g)) lag (w_lags w)).
Definition lag_copy (g : dsa_lag) : lag_info := mkLagInfo (lag_dev g) (lag_id g).

Definition dsa_switch_do_lag_fdb_add (ds lag : Z) (key : mac_key) : M Z :=
  d ← get_ds ds;
  g ← queried (fun w => w_lags w !! lag);
  counted_add mac_eqb (get_lag_fdbs lag) (put_lag_fdbs lag) kzalloc key
    (call_op ((fun f => f ds (lag_copy g) key) <$> op_lag_fdb_add (ds_ops d))).

Definition dsa_switch_do_lag_fdb_del (ds lag : Z) (key : mac_key) : M Z :=
  d ← get_ds ds;
  g ← queried (fun w => w_lags w !! lag);
  counted_del mac_eqb (get_lag_fdbs lag) (put_lag_fdbs lag) (fun _ => 1) key
    (call_op ((fun f => f ds (lag_copy g) key) <$> op_lag_fdb_del (ds_ops d))).

(** The body of the host address loops. *)
Definition on_host_match (info_dp : pid) (p : pid) (body : dsa_port -> dsa_port -> M Z) : M Z :=
  dp ← port_of p;
  targeted_dp ← port_of info_dp;
  m ← queried (fun w => dsa_port_host_address_match w dp targeted_dp);
  if m : bool then body dp targeted_dp else mret 0.

Definition dsa_switch_host_fdb_add (ds : Z) (info_dp : pid) (key : mac_key) : M Z :=
  d ← get_ds ds;
  match op_port_fdb_add (ds_ops d) with
  | None => mret (- EOPNOTSUPP)
  | Some _ => for_each_port ds (fun p => on_host_match info_dp p (fun dp targeted_dp =>
      if dsa_port_is_cpu dp && dp_cpu_port_in_lag targeted_dp then
        lag ← deref (dp_lag dp); dsa_switch_do_lag_fdb_add ds lag key
      else dsa_port_do_fdb_add p key))
  end.

Definition dsa_switch_host_fdb_del (ds : Z) (info_dp : pid) (key : mac_key) : M Z :=
  d ← get_ds ds;
  match op_port_fdb_del (ds_ops d) with
  | None => mret (- EOPNOTSUPP)
  | Some _ => for_each_port ds (fun p => on_host_match info_dp p (fun dp targeted_dp =>
      if dsa_port_is_cpu dp && dp_cpu_port_in_lag targeted_dp then
        lag ← deref (dp_lag dp); dsa_switch_do_lag_fdb_del ds lag key
      else dsa_port_do_fdb_del p key))
  end.

(** The local port of [ds] towards the event's port. *)
Definition towards (ds : Z) (info_dp : pid) : M pid :=
  dp ← port_of info_dp;
  i ← queried (fun w => index_of w (dp_ds dp));
  port ← queried (fun w => dsa_towards_port w ds i (dp_index dp));
  mret (ds, port).

Definition dsa_switch_fdb_add (ds : Z) (info_dp : pid) (key : mac_key) : M Z :=
  p ← towards ds info_dp;
  d ← get_ds ds;
  match op_port_fdb_add (ds_ops d) with
  | None => mret (- EOPNOTSUPP)
  | Some _ => dsa_port_do_fdb_add p key
  end.

Definition dsa_switch_fdb_del (ds : Z) (info_dp : pid) (key : mac_key) : M Z :=
  p ← towards ds info_dp;
  d ← get_ds ds;
  match op_port_fdb_del (ds_ops d) with
  | None => mret (- EOPNOTSUPP)
  | Some _ => dsa_port_do_fdb_del p key
  end.

(** Once, if some port of the switch is in the LAG. *)
Definition dsa_switch_lag_fdb_add (ds lag : Z) (key : mac_key) : M Z :=
  d ← get_ds ds;
  match op_lag_fdb_add (ds_ops d) with
  | None => mret (- EOPNOTSUPP)
  | Some _ =>
      g ← queried (fun w => w_lags w !! lag);
      w ← get_st;
      if existsb (fun dp => dsa_port_offloads_lag w dp (lag_dev g)) (switch_ports w ds)
      then dsa_switch_do_lag_fdb_add ds lag key else mret 0
  end.

Definition dsa_switch_lag_fdb_del (ds lag : Z) (key : mac_key) : M Z :=
  d ← get_ds ds;
  match op_lag_fdb_del (ds_ops d) with
  | None => mret (- EOPNOTSUPP)
  | Some _ =>
      g ← queried (fun w => w_lags w !! lag);
      w ← get_st;
      if existsb (fun dp => dsa_port_offloads_lag w dp (lag_dev g)) (switch_ports w ds)
      then dsa_switch_do_lag_fdb_del ds lag key else mret 0
  end.

Definition dsa_switch_mdb_add (ds : Z) (info_dp : pid) (mdb : mac_key) : M Z :=
  p ← towards ds info_dp;
  d ← get_ds ds;
  match op_port_mdb_add (ds_ops d) with
  | None => mret (- EOPNOTSUPP)
  | Some _ => dsa_port_do_mdb_add p mdb
  end.

Definition dsa_switch_mdb_del (ds : Z) (info_dp : pid) (mdb : mac_key) : M Z :=
  p ← towards ds info_dp;
  d ← get_ds ds;
  match op_port_mdb_del (ds_ops d) with
  | None => mret (- EOPNOTSUPP)
  | Some _ => dsa_port_do_mdb_del p mdb
  end.

Definition dsa_switch_host_mdb_add (ds : Z) (info_dp : pid) (mdb : mac_key) : M Z :=
  d ← get_ds ds;
  match op_port_mdb_add (ds_ops d) with
  | None => mret (- EOPNOTSUPP)
  | Some _ => for_each_port ds (fun p =>
      on_host_match info_dp p (fun _ _ => dsa_port_do_mdb_add p mdb))
  end.

Definition dsa_switch_host_mdb_del (ds : Z) (info_dp : pid) (mdb : mac_key) : M Z :=
  d ← get_ds ds;
  match op_port_mdb_del (ds_ops d) with
  | None => mret (- EOPNOTSUPP)
  | Some _ => for_each_port ds (fun p =>
      on_host_match info_dp p (fun _ _ => dsa_port_do_mdb_del p mdb))
  end.

(** ** Link aggregation *)

Definition dsa_switch_lag_change (ds : Z) (info_dp : pid) : M Z :=
  d ← get_ds ds;
  dp ← port_of info_dp;
  match op_port_lag_change (ds_ops d), op_crosschip_lag_change (ds_ops d) with
  | Some f, x =>
      if dp_ds dp =? ds then call_op (Some (f ds (dp_index dp)))
      else match x with
           | Some g => i ← queried (fun w => index_of w (dp_ds dp));
                       call_op (Some (g ds i (dp_index dp)))
           | None => mret 0
           end
  | None, Some g =>
      if dp_ds dp =? ds then mret 0
      else i ← queried (fun w => index_of w (dp_ds dp)); call_op (Some (g ds i (dp_index dp)))
  | None, None => mret 0
  end.

Definition dsa_switch_lag_join (ds : Z) (info_dp : pid) (lag : lag_info) : M Z :=
  d ← get_ds ds;
  dp ← port_of info_dp;
  match op_port_lag_join (ds_ops d), op_crosschip_lag_join (ds_ops d) with
  | Some f, x =>
      if dp_ds dp =? ds then call_op (Some (f ds (dp_index dp) lag))
      else match x with
           | Some g => i ← queried (fun w => index_of w (dp_ds dp));
                       call_op (Some (g ds i (dp_index dp) lag))
           | None => mret (- EOPNOTSUPP)
           end
  | None, Some g =>
      if dp_ds dp =? ds then mret (- EOPNOTSUPP)
      else i ← queried (fun w => index_of w (dp_ds dp)); call_op (Some (g ds i (dp_index dp) lag))
  | None, None => mret (- EOPNOTSUPP)
  end.

Definition dsa_switch_lag_leave (ds : Z) (info_dp : pid) (lag : lag_info) : M Z :=
  d ← get_ds ds;
  dp ← port_of info_dp;
  match op_port_lag_leave (ds_ops d), op_crosschip_lag_leave (ds_ops d) with
  | Some f, x =>
      if dp_ds dp =? ds then call_op (Some (f ds (dp_index dp) lag))
      else match x with
           | Some g => i ← queried (fun w => index_of w (dp_ds dp));
                       call_op (Some (g ds i (dp_index dp) lag))
           | None => mret (- EOPNOTSUPP)
           end
  | None, Some g =>
      if dp_ds dp =? ds then mret (- EOPNOTSUPP)
      else i ← queried (fun w => index_of w (dp_ds dp)); call_op (Some (g ds i (dp_index dp) lag))
  | None, None => mret (- EOPNOTSUPP)
  end.

(** ** VLANs *)

Definition dsa_port_vlan_match (dp : dsa_port) (info_dp : pid) : bool :=
  dsa_port_is_dsa dp || bool_decide (dp_id dp = info_dp).

Definition dsa_port_host_vlan_match (w : world H) (dp targeted_dp : dsa_port) : option bool :=
  up ← dsa_switch_is_upstream_of w (dp_ds dp) (dp_ds targeted_dp);
  Some ((up : bool) && (dsa_port_is_dsa dp || bool_decide (Some (dp_id dp) = dp_cpu_dp targeted_dp))).

Definition get_vlans (p : pid) (w : world H) : option (list dsa_vlan) := dp_vlans <$> get_port w p.
Definition put_vlans (p : pid) (l : list dsa_vlan) (w : world H) : world H :=
  upd_port p (set_vlans l) w.

(** [dsa_vlan_find] *)
Definition dsa_vlan_find (vlan : switchdev_obj_port_vlan) (l : list dsa_vlan) : option dsa_vlan :=
  find_counted Z.eqb (vlan_vid vlan) l.

Definition dsa_port_do_vlan_add (p : pid) (vlan : switchdev_obj_port_vlan) : M Z :=
  dp ← port_of p;
  d ← get_ds (dp_ds dp);
  let hw := call_op ((fun f => f (dp_ds dp) (dp_index dp) vlan) <$> op_port_vlan_add (ds_ops d)) in
  if negb (dsa_port_is_shared dp) then hw
  else if vlan_changed vlan then mret 0
  else counted_add Z.eqb (get_vlans p) (put_vlans p) kzalloc (vlan_vid vlan) hw.

Definition dsa_port_do_vlan_del (p : pid) (vlan : switchdev_obj_port_vlan) : M Z :=
  dp ← port_of p;
  d ← get_ds (dp_ds dp);
  let hw := call_op ((fun f => f (dp_ds dp) (dp_index dp) vlan) <$> op_port_vlan_del (ds_ops d)) in
  if negb (dsa_port_is_shared dp) then hw
  else counted_del Z.eqb (get_vlans p) (put_vlans p) (fun _ => 1) (vlan_vid vlan) hw.

Definition dsa_switch_vlan_add (ds : Z) (info_dp : pid) (vlan : switchdev_obj_port_vlan) : M Z :=
  d ← get_ds ds;
  match op_port_vlan_add (ds_ops d) with
  | None => mret (- EOPNOTSUPP)
  | Some _ => for_each_port ds (fun p =>
      dp ← port_of p;
      if dsa_port_vlan_match dp info_dp then dsa_port_do_vlan_add p vlan else mret 0)
  end.

Definition dsa_switch_vlan_del (ds : Z) (info_dp : pid) (vlan : switchdev_obj_port_vlan) : M Z :=
  d ← get_ds ds;
  match op_port_vlan_del (ds_ops d) with
  | None => mret (- EOPNOTSUPP)
  | Some _ => for_each_port ds (fun p =>
      dp ← port_of p;
      if dsa_port_vlan_match dp info_dp then dsa_port_do_vlan_del p vlan else mret 0)
  end.

Definition dsa_switch_host_vlan_add (ds : Z) (info_dp : pid) (vlan : switchdev_obj_port_vlan) : M Z :=
  d ← get_ds ds;
  match op_port_vlan_add (ds_ops d) with
  | None => mret (- EOPNOTSUPP)
  | Some _ => for_each_port ds (fun p =>
      dp ← port_of p;
      targeted_dp ← port_of info_dp;
      m ← queried (fun w => dsa_port_host_vlan_match w dp targeted_dp);
      if m : bool then dsa_port_do_vlan_add p vlan else mret 0)
  end.

Definition dsa_switch_host_vlan_del (ds : Z) (info_dp : pid) (vlan : switchdev_obj_port_vlan) : M Z :=
  d ← get_ds ds;
  match op_port_vlan_del (ds_ops d) with
  | None => mret (- EOPNOTSUPP)
  | Some _ => for_each_port ds (fun p =>
      dp ← port_of p;
      targeted_dp ← port_of info_dp;
      m ← queried (fun w => dsa_port_host_vlan_match w dp targeted_dp);
      if m : bool then dsa_port_do_vlan_del p vlan else mret 0)
  end.

Definition dsa_switch_conduit_state_change (ds : Z) (conduit : netdev) (operational : bool) : M Z :=
  d ← get_ds ds;
  match op_conduit_state_change (ds_ops d) with
  | None => mret 0
  | Some f => _ ← call_void (Some (f ds conduit operational)); mret 0
  end.

(** ** Entries of one database only *)

Definition present_in_other_db (l : list dsa_mac_addr) (key : mac_key) : bool :=
  existsb (fun a =>
    (mac_addr (c_key a) =? mac_addr key) && (mac_vid (c_key a) =? mac_vid key) &&
    match mac_db (c_key a), mac_db key with
    | DSA_DB_PORT _, DSA_DB_PORT _ | DSA_DB_LAG _, DSA_DB_LAG _
    | DSA_DB_BRIDGE _, DSA_DB_BRIDGE _ => negb (dsa_db_equal (mac_db (c_key a)) (mac_db key))
    | _, _ => false
    end) l.

Definition dsa_fdb_present_in_other_db (w : world H) (ds port : Z) (key : mac_key) : option bool :=
  dp ← dsa_to_port w ds port; Some (present_in_other_db (dp_fdbs dp) key).
Definition dsa_mdb_present_in_other_db (w : world H) (ds port : Z) (key : mac_key) : option bool :=
  dp ← dsa_to_port w ds port; Some (present_in_other_db (dp_mdbs dp) key).

End DsaSwitch.

(** ** The promise of the driver's address operations *)

(** A request on a key: it may refuse, changing nothing, and otherwise leaves
    exactly that entry present ([b] true) or absent on that port. *)
Definition addr_op_ok {H} (prog : H -> Z -> Z -> mac_key -> bool) (b : bool)
    (f : Z -> Z -> mac_key -> H -> Z * H) : Prop :=
  forall ds port k h, let '(err, h') := f ds port k h in
    forall ds' port' k', prog h' ds' port' k' =
      if (err =? 0) && (ds =? ds') && (port =? port') && mac_eqb k k' then b
      else prog h ds' port' k'.

Section Addresses.
Context {H : Type} `{RefcountApi}.
Context (which : addr_list) (p : pid).
Context (f_add f_del : Z -> Z -> mac_key -> H -> Z * H).
Context (prog : H -> Z -> Z -> mac_key -> bool).
Context (f_add_ok : addr_op_ok prog true f_add) (f_del_ok : addr_op_ok prog false f_del).

Definition op_add (o : dsa_switch_ops H) :=
  match which with Fdb => op_port_fdb_add o | Mdb => op_port_mdb_add o end.
Definition op_del (o : dsa_switch_ops H) :=
  match which with Fdb => op_port_fdb_del o | Mdb => op_port_mdb_del o end.

(** One addition or deletion on the port, as the code does it. *)
Definition addr_step (o : counted_op) : st (world H) Z :=
  match which, o with
  | Fdb, CAdd k => dsa_port_do_fdb_add p k
  | Fdb, CDel k => dsa_port_do_fdb_del p k
  | Mdb, CAdd k => dsa_port_do_mdb_add p k
  | Mdb, CDel k => dsa_port_do_mdb_del p k
  end.

(** The port is a shared one, and its switch has the two operations. *)
Definition shared_port (w : world H) : Prop :=
  exists dp d, get_port w p = Some dp /\ dsa_port_is_shared dp = true /\
    w_switches w !! dp_ds dp = Some d /\
    op_add (ds_ops d) = Some f_add /\ op_del (ds_ops d) = Some f_del.

Definition port_prog (w : world H) (k : mac_key) : bool := prog (w_hw w) (fst p) (snd p) k.

Lemma put_addrs_id l dp :
  dp_id ((match which with Fdb => set_fdbs l | Mdb => set_mdbs l end) dp) = dp_id dp.
Proof using. by destruct which. Qed.

Lemma put_get_addrs l (w : world H) : is_Some (get_addrs which p w) ->
  get_addrs which p (put_addrs which p l w) = Some l.
Proof using.
  unfold get_addrs, put_addrs. intros [x Hx].
  destruct (get_port w p) as [dp |] eqn:E; [| done].
  rewrite (get_upd_eq _ _ _ _ E) by apply put_addrs_id. by destruct which.
Qed.

Lemma put_shared l (w : world H) : shared_port w -> shared_port (put_addrs which p l w).
Proof using.
  intros (dp & d & E & Hs & Ed & Ho). unfold put_addrs.
  exists ((match which with Fdb => set_fdbs l | Mdb => set_mdbs l end) dp), d.
  rewrite (get_upd_eq _ _ _ _ E) by apply put_addrs_id. by destruct which.
Qed.

Lemma kzalloc_ok : alloc_request (get_addrs which p) port_prog shared_port (@kzalloc H).
Proof using.
  intros w Hi. unfold total, kzalloc. destruct (w_alloc w); by split_and!.
Qed.

Lemma call_ok b f k : addr_op_ok prog b f ->
  hw_request mac_eqb (get_addrs which p) port_prog shared_port k b
    (call_op (Some (f (fst p) (snd p) k))).
Proof using.
  intros Hf w' Hi. unfold total, call_op. cbn [mbind option_bind].
  pose proof (Hf (fst p) (snd p) k (w_hw w')) as G.
  destruct (f (fst p) (snd p) k (w_hw w')) as [err h]. split_and!; try done.
  intros k'. unfold port_prog. cbn [w_hw set_hw]. rewrite G, !Z.eqb_refl, !andb_true_r. done.
Qed.

Lemma addr_step_ok :
  counted_step_ok mac_eqb (get_addrs which p) port_prog shared_port addr_step.
Proof using f_add_ok f_del_ok.
  intros o w l Hi Hg Hwf Hs Hmax.
  assert (G : exists dp d, get_port w p = Some dp /\ dsa_port_is_shared dp = true /\
     w_switches w !! dp_ds dp = Some d /\ (dp_ds dp, dp_index dp) = p /\
     op_add (ds_ops d) = Some f_add /\ op_del (ds_ops d) = Some f_del).
  { destruct Hi as (dp & d & E & Hs' & Ed & Ho). exists dp, d. split_and!; try tauto.
    by eapply find_port_id. }
  destruct G as (dp & d & E & Hsh & Ed & Eid & Eadd & Edel).
  assert (Edp : dp_ds dp = fst p /\ dp_index dp = snd p) by (by rewrite <- Eid).
  destruct Edp as [Eds Eix].
  assert (Hstep : addr_step o w = match o with
    | CAdd k => counted_add mac_eqb (get_addrs which p) (put_addrs which p) kzalloc k
                  (call_op (Some (f_add (fst p) (snd p) k))) w
    | CDel k => counted_del mac_eqb (get_addrs which p) (put_addrs which p) (fun _ => 1) k
                  (call_op (Some (f_del (fst p) (snd p) k))) w end).
  { unfold addr_step, op_add, op_del in *.
    destruct which, o; unfold dsa_port_do_fdb_add, dsa_port_do_fdb_del, dsa_port_do_mdb_add,
      dsa_port_do_mdb_del, port_of, get_ds, get_st, deref, mbind, st_bind; cbn [mbind option_bind];
      rewrite E; cbn [mbind option_bind]; rewrite Ed; cbn [mbind option_bind];
      rewrite Hsh, ?Eadd, ?Edel, Eds, Eix; done. }
  unfold total. rewrite Hstep. destruct o as [k | k]; cbn [op_key] in *.
  - apply counted_add_spec; eauto using mac_eqb_refl, mac_eqb_sym, mac_eqb_trans,
      put_get_addrs, put_shared, kzalloc_ok, call_ok.
  - eapply total_weaken; [| apply (counted_del_spec mac_eqb (get_addrs which p) (put_addrs which p))
      with (prog := port_prog) (Inv := shared_port) (l := l);
      eauto using mac_eqb_refl, mac_eqb_sym, mac_eqb_trans, put_get_addrs, put_shared, call_ok].
    intros err w' (Hi' & l' & H1 & H2 & H3 & H4 & _). split; [done |]. by exists l'.
Qed.

(** C10. Counting on a shared port: whatever sequence of additions and deletions
    of addresses several users make, with allocations and hardware requests
    failing at any point, no step faults, every address counts exactly its
    successful additions less its successful deletions, and the hardware holds
    exactly the addresses whose count is positive. *)
Theorem port_addresses_counted ops (w : world H) l :
  shared_port w -> get_addrs which p w = Some l -> counted_wf mac_eqb l ->
  (forall k, prog (w_hw w) (fst p) (snd p) k = (0 <? count_of mac_eqb k l)) ->
  (forall k, count_of mac_eqb k l + Z.of_nat (length ops) <= REFCOUNT_MAX) ->
  total (counted_run addr_step ops) w (fun errs w' => exists l',
    get_addrs which p w' = Some l' /\ counted_wf mac_eqb l' /\ length errs = length ops /\
    (forall k, count_of mac_eqb k l' = count_of mac_eqb k l + net_count mac_eqb k ops errs) /\
    (forall k, prog (w_hw w') (fst p) (snd p) k = (0 <? count_of mac_eqb k l'))).
Proof using f_add_ok f_del_ok.
  intros Hi Hg Hwf Hs Hmax.
  eapply total_weaken; [| by apply (counted_history mac_eqb (get_addrs which p) port_prog
    shared_port addr_step ops w l addr_step_ok)].
  intros errs w' (_ & l' & H1 & H2 & H3 & H4 & H5). by exists l'.
Qed.

End Addresses.

(** ** Ageing time *)

Section Ageing.
Context {H : Type} `{RefcountApi}.

Definition configured_ages (w : world H) (ds : Z) : list Z :=
  List.filter (fun t => negb (t =? 0)) (dp_ageing_time <$> switch_ports w ds).

Lemma fastest_spec (w : world H) ds t :
  dsa_switch_fastest_ageing_time w ds t = foldr Z.min t (configured_ages w ds).
Proof.
  unfold dsa_switch_fastest_ageing_time, configured_ages.
  assert (Hmin : forall l a t', foldr Z.min (Z.min a t') l = Z.min a (foldr Z.min t' l)).
  { induction l as [| b l IH]; intros a t'; simpl; [done | rewrite IH; lia]. }
  revert t. induction (switch_ports w ds) as [| dp l IH]; intros t; [done |].
  rewrite fmap_cons. cbn [foldl List.filter]. rewrite IH.
  destruct (Z.eqb_spec (dp_ageing_time dp) 0) as [E | Hne]; cbn [negb andb]; [done |].
  cbn [foldr]. rewrite <- Hmin. f_equal.
  destruct (Z.ltb_spec (dp_ageing_time dp) t); lia.
Qed.

(** The ageing-time event: outside the limits of the switch it is refused
    with [-ERANGE] and the hardware is not touched; inside, the driver is given
    the least of the requested time and the non-zero times of the ports, so no
    bridge gets entries that live longer than it asked for. *)
Theorem ageing_time_spec (w : world H) ds t d :
  w_switches w !! ds = Some d ->
  let lo := ds_ageing_time_min d in
  let hi := ds_ageing_time_max d in
  if bool_decide ((lo <> 0 /\ t < lo) \/ (hi <> 0 /\ hi < t))
  then dsa_switch_ageing_time ds t w = Some (- ERANGE, w)
  else exists t', t' <= t /\ (forall dp, dp ∈ switch_ports w ds -> dp_ageing_time dp <> 0 ->
                               t' <= dp_ageing_time dp) /\
    (t' = t \/ exists dp, dp ∈ switch_ports w ds /\ t' = dp_ageing_time dp) /\
    dsa_switch_ageing_time ds t w =
      match op_set_ageing_time (ds_ops d) with
      | Some f => Some (fst (f ds t' (w_hw w)), set_hw w (snd (f ds t' (w_hw w))))
      | None => Some (0, w)
      end.
Proof.
  intros Ed lo hi. unfold dsa_switch_ageing_time, get_ds, get_st, deref, mbind, st_bind.
  rewrite Ed. cbn [mbind option_bind]. fold lo hi.
  case_bool_decide as Hr.
  { destruct (Z.eqb_spec lo 0), (Z.ltb_spec t lo), (Z.eqb_spec hi 0), (Z.ltb_spec hi t);
      cbn [negb andb]; try done; lia. }
  assert (Hl : negb (lo =? 0) && (t <? lo) = false).
  { destruct (Z.eqb_spec lo 0), (Z.ltb_spec t lo); try done. exfalso. tauto. }
  assert (Hh : negb (hi =? 0) && (hi <? t) = false).
  { destruct (Z.eqb_spec hi 0), (Z.ltb_spec hi t); try done. exfalso. tauto. }
  rewrite Hl, Hh. rewrite fastest_spec.
  assert (Hages : forall a, a ∈ configured_ages w ds <->
            a <> 0 /\ exists dp, dp ∈ switch_ports w ds /\ a = dp_ageing_time dp).
  { intros a. unfold configured_ages. rewrite list_elem_of_In, List.filter_In, <- list_elem_of_In,
      list_elem_of_fmap, negb_true_iff, Z.eqb_neq. naive_solver. }
  assert (Hfold : forall l, foldr Z.min t l <= t /\ (forall a, a ∈ l -> foldr Z.min t l <= a) /\
            (foldr Z.min t l = t \/ foldr Z.min t l ∈ l)).
  { induction l as [| b l (H1 & H2 & H3)]; simpl; [split_and!; [lia | by intros a ?%elem_of_nil | by left] |].
    split_and!; [lia | |].
    - intros a [-> | Ha]%elem_of_cons; [lia | specialize (H2 a Ha); lia].
    - destruct (Z.min_spec b (foldr Z.min t l)) as [[_ ->] | [_ ->]]; [right; by left |].
      destruct H3 as [H3 | H3]; [by left | right; by right]. }
  destruct (Hfold (configured_ages w ds)) as (H1 & H2 & H3).
  exists (foldr Z.min t (configured_ages w ds)). split_and!; [done | | |].
  - intros dp Hdp Hne. apply H2, Hages. split; [done |]. by exists dp.
  - destruct H3 as [H3 | [_ H3]%Hages]; [by left | by right].
  - destruct (op_set_ageing_time (ds_ops d)) as [f |]; [| done].
    unfold call_op. cbn [mbind option_bind]. by destruct (f ds _ (w_hw w)).
Qed.

End Ageing.

(** ** A driver and a tree to run the theorems on *)

Module SwitchDemo.

#[export] Existing Instance refcount_int.

(** The hardware table; address 13 is refused. *)
Definition table : Type := list (Z * Z * mac_key).

Definition entry_is (ds port : Z) (k : mac_key) (e : Z * Z * mac_key) : bool :=
  (fst (fst e) =? ds) && (snd (fst e) =? port) && mac_eqb (snd e) k.

Definition in_table (h : table) (ds port : Z) (k : mac_key) : bool :=
  existsb (entry_is ds port k) h.

Definition table_add (ds port : Z) (k : mac_key) (h : table) : Z * table :=
  if mac_addr k =? 13 then (- EINVAL, h) else (0, (ds, port, k) :: h).
Definition table_del (ds port : Z) (k : mac_key) (h : table) : Z * table :=
  if mac_addr k =? 13 then (- EINVAL, h)
  else (0, List.filter (fun e => negb (entry_is ds port k e)) h).

Lemma table_add_ok : addr_op_ok in_table true table_add.
Proof.
  intros ds port k h. unfold table_add. destruct (_ =? 13); [by intros ds' port' k' |].
  intros ds' port' k'. unfold in_table. simpl. unfold entry_is at 1. simpl.
  by destruct ((ds =? ds') && (port =? port') && mac_eqb k k').
Qed.

Lemma table_del_ok : addr_op_ok in_table false table_del.
Proof.
  intros ds port k h. unfold table_del. destruct (_ =? 13); [by intros ds' port' k' |].
  intros ds' port' k'. unfold in_table. induction h as [| e h IH]; cbn [List.filter existsb].
  { by destruct ((0 =? 0) && (ds =? ds') && (port =? port') && mac_eqb k k'). }
  assert (Hcase : (ds =? ds') && (port =? port') && mac_eqb k k' = true ->
            entry_is ds' port' k' e = entry_is ds port k e).
  { rewrite !andb_true_iff, !Z.eqb_eq. intros [[-> ->] Hk]. unfold entry_is. f_equal.
    rewrite (mac_eqb_sym _ k), (mac_eqb_sym _ k').
    symmetry. apply (eqb_cong mac_eqb mac_eqb_sym mac_eqb_trans _ _ _ Hk). }
  destruct (entry_is ds port k e) eqn:Ee; cbn [negb existsb]; rewrite IH; simpl;
    destruct ((ds =? ds') && (port =? port') && mac_eqb k k') eqn:E; try done.
  - destruct (entry_is ds' port' k' e) eqn:E'; [| done]. exfalso. revert E.
    unfold entry_is in Ee, E'. rewrite !andb_true_iff, !Z.eqb_eq in Ee, E'.
    destruct Ee as [[<- <-] K1], E' as [[<- <-] K2]. rewrite !Z.eqb_refl. simpl.
    rewrite mac_eqb_sym in K1. by rewrite (mac_eqb_trans _ _ _ K1 K2).
  - rewrite (Hcase eq_refl). done.
Qed.

Definition demo_ops : dsa_switch_ops table :=
  mkOps (Some (fun _ _ h => (0, h))) None (Some (fun _ _ _ tx h => (0, tx, h))) None None None
    (Some table_add) (Some table_del) None None (Some table_add) (Some table_del)
    None None None None None None None None None None None no_port_ops no_setup_ops.

Definition demo_ds : dsa_switch table :=
  mkDs 0 5 false false 1000 300000 demo_ops None true false true true 0 0 false.

Definition demo_tree : dsa_switch_tree table := mkTree 0 1 LagsNull None 0 true 0 0.

Definition demo_port (i : Z) (t : dsa_port_type) (dev : netdev) (cpu : option pid) (age : Z) : dsa_port :=
  mkPort 1 i t (Some dev) cpu 0 false true true true false age None None None [] [] []
    false true None false.

(** Four user ports and the CPU port of one switch. *)
Definition demo_world (alloc : list bool) : world table :=
  mkWorld demo_tree
    [demo_port 0 DSA_PORT_TYPE_USER 100 (Some (1, 4)) 20000;
     demo_port 1 DSA_PORT_TYPE_USER 101 (Some (1, 4)) 0;
     demo_port 2 DSA_PORT_TYPE_USER 102 (Some (1, 4)) 60000;
     demo_port 3 DSA_PORT_TYPE_USER 103 (Some (1, 4)) 0;
     demo_port 4 DSA_PORT_TYPE_CPU 200 None 0]
    [] {[ 1 := demo_ds ]} ∅ ∅ [1] [] alloc [].

Definition mac (a : Z) : mac_key := mkMac a 0 (DSA_DB_PORT (1, 0)).

End SwitchDemo.
Import SwitchDemo.

(** Two users of one address, a failing allocation, and a refused address. *)
Lemma port_addresses_counted_witness :
  exists errs w' l', counted_run (addr_step Fdb (1, 4))
    [CAdd (mac 7); CAdd (mac 7); CAdd (mac 8); CDel (mac 7); CAdd (mac 13)]
    (demo_world [true; false]) = Some (errs, w') /\
  get_addrs Fdb (1, 4) w' = Some l' /\ count_of mac_eqb (mac 7) l' = 1 /\
  in_table (w_hw w') 1 4 (mac 7) = true.
Proof.
  pose proof (port_addresses_counted Fdb (1, 4) table_add table_del in_table
    table_add_ok table_del_ok
    [CAdd (mac 7); CAdd (mac 7); CAdd (mac 8); CDel (mac 7); CAdd (mac 13)]
    (demo_world [true; false]) []) as G.
  unfold total in G.
  destruct (counted_run (addr_step Fdb (1, 4)) _ (demo_world [true; false]))
    as [[errs w'] |] eqn:E.
  - destruct G as (l' & Hg & _ & _ & Hc & Hp).
    + exists (demo_port 4 DSA_PORT_TYPE_CPU 200 None 0), demo_ds. split_and!; reflexivity.
    + reflexivity.
    + exact I.
    + reflexivity.
    + intros k. vm_compute. discriminate.
    + exists errs, w', l'. split; [reflexivity |]. vm_compute in E. injection E as <- <-.
      split; [exact Hg |]. split; [rewrite Hc; vm_compute; reflexivity |].
      cbn [fst snd] in Hp. rewrite Hp, Hc. vm_compute. reflexivity.
  - exfalso. vm_compute in E. discriminate.
Defined.

(** 60 s are asked for while port 0 is configured with 20 s. *)
Lemma ageing_time_witness : exists t', t' <= 20000 /\
  dsa_switch_ageing_time 1 60000 (demo_world []) = Some (0, demo_world []).
Proof.
  pose proof (ageing_time_spec (demo_world []) 1 60000 demo_ds ltac:(reflexivity)) as G.
  cbv zeta in G. rewrite bool_decide_false in G by (vm_compute; intros [[_ ?] | [_ ?]]; discriminate).
  destruct G as (t' & _ & Hp & _ & E). exists t'. split; [| exact E].
  apply (Hp (demo_port 0 DSA_PORT_TYPE_USER 100 (Some (1, 4)) 20000)); [| discriminate].
  vm_compute. left.
Defined.
