(* ===== verification/Dsa8021q.v ===== *)
(** * VLAN-based tagging (DSA/tag_8021q.c)

    Switches without a tag of their own identify the source port of a frame by
    a VLAN: the layout of those VLAN identifiers, and the counted VLAN list a
    switch keeps for its shared ports. *)

From Stdlib Require Import ZArith Lia Bool.
From S2P Require Import Prelude.
From S2P Require Import Kernel.
From S2P Require Import DsaTypes.
From S2P Require Import DsaSwitch.

(** ** VLAN identifiers *)

(** [GENMASK(h, l)] *)
Definition GENMASK (h l : Z) : Z := Z.shiftl (Z.ones (h - l + 1)) l.

Definition DSA_8021Q_RSV_VAL : Z := 3.
Definition DSA_8021Q_RSV_SHIFT : Z := 10.
Definition DSA_8021Q_RSV_MASK : Z := GENMASK 11 10.
Definition DSA_8021Q_RSV : Z := Z.land (Z.shiftl DSA_8021Q_RSV_VAL DSA_8021Q_RSV_SHIFT) DSA_8021Q_RSV_MASK.
Definition DSA_8021Q_SWITCH_ID_SHIFT : Z := 6.
Definition DSA_8021Q_SWITCH_ID_MASK : Z := GENMASK 8 6.
Definition DSA_8021Q_SWITCH_ID (x : Z) : Z :=
  Z.land (Z.shiftl x DSA_8021Q_SWITCH_ID_SHIFT) DSA_8021Q_SWITCH_ID_MASK.
Definition DSA_8021Q_VBID_HI_SHIFT : Z := 9.
Definition DSA_8021Q_VBID_HI_MASK : Z := GENMASK 9 9.
Definition DSA_8021Q_VBID_LO_SHIFT : Z := 4.
Definition DSA_8021Q_VBID_LO_MASK : Z := GENMASK 5 4.
Definition DSA_8021Q_VBID_HI (x : Z) : Z := Z.shiftr (Z.land x (GENMASK 2 2)) 2.
Definition DSA_8021Q_VBID_LO (x : Z) : Z := Z.land x (GENMASK 1 0).
Definition DSA_8021Q_VBID (x : Z) : Z :=
  Z.lor (Z.land (Z.shiftl (DSA_8021Q_VBID_LO x) DSA_8021Q_VBID_LO_SHIFT) DSA_8021Q_VBID_LO_MASK)
        (Z.land (Z.shiftl (DSA_8021Q_VBID_HI x) DSA_8021Q_VBID_HI_SHIFT) DSA_8021Q_VBID_HI_MASK).
Definition DSA_8021Q_PORT_SHIFT : Z := 0.
Definition DSA_8021Q_PORT_MASK : Z := GENMASK 3 0.
Definition DSA_8021Q_PORT (x : Z) : Z :=
  Z.land (Z.shiftl x DSA_8021Q_PORT_SHIFT) DSA_8021Q_PORT_MASK.

Definition dsa_tag_8021q_bridge_vid (bridge_num : Z) : Z :=
  u16 (Z.lor DSA_8021Q_RSV (DSA_8021Q_VBID bridge_num)).

(** [dsa_tag_8021q_standalone_vid], of the switch and port indices. *)
Definition dsa_tag_8021q_standalone_vid (ds_index dp_index : Z) : Z :=
  u16 (Z.lor (Z.lor DSA_8021Q_RSV (DSA_8021Q_SWITCH_ID ds_index)) (DSA_8021Q_PORT dp_index)).

Definition dsa_8021q_rx_switch_id (vid : Z) : Z :=
  Z.shiftr (Z.land vid DSA_8021Q_SWITCH_ID_MASK) DSA_8021Q_SWITCH_ID_SHIFT.
Definition dsa_8021q_rx_source_port (vid : Z) : Z :=
  Z.shiftr (Z.land vid DSA_8021Q_PORT_MASK) DSA_8021Q_PORT_SHIFT.
Definition dsa_tag_8021q_rx_vbid (vid : Z) : Z :=
  let vbid_hi := u16 (Z.shiftr (Z.land vid DSA_8021Q_VBID_HI_MASK) DSA_8021Q_VBID_HI_SHIFT) in
  let vbid_lo := u16 (Z.shiftr (Z.land vid DSA_8021Q_VBID_LO_MASK) DSA_8021Q_VBID_LO_SHIFT) in
  Z.lor (Z.shiftl vbid_hi 2) vbid_lo.
Definition vid_is_dsa_8021q (vid : Z) : bool :=
  u16 (Z.shiftr (Z.land vid DSA_8021Q_RSV_MASK) DSA_8021Q_RSV_SHIFT) =? DSA_8021Q_RSV_VAL.

Definition VLAN_VID_MASK : Z := 0x0fff.
Definition VLAN_PRIO_MASK : Z := 0xe000.
Definition VLAN_PRIO_SHIFT : Z := 13.

(** [dsa_8021q_rcv] after the tag has been popped: source port, switch, virtual
    bridge and priority of a frame with this tag. *)
Definition dsa_8021q_rcv (tci : Z) : Z * Z * Z * Z :=
  let vid := Z.land tci VLAN_VID_MASK in
  (dsa_8021q_rx_source_port vid, dsa_8021q_rx_switch_id vid, dsa_tag_8021q_rx_vbid vid,
   Z.shiftr (Z.land tci VLAN_PRIO_MASK) VLAN_PRIO_SHIFT).

(** ** The VLAN list of a switch *)

Section Vlans.
Context {H : Type} `{RefcountApi}.
Abbreviation M := (st (world H)).

Definition vlan_eqb (a b : Z * Z) : bool := (snd a =? snd b) && (fst a =? fst b).

(** The list of the context, unless there is none or it has been freed. *)
Definition get_ctx_vlans (ds : Z) (w : world H) : option (list (counted (Z * Z))) :=
  d ← w_switches w !! ds;
  c ← ds_tag_8021q_ctx d;
  if ctx_freed c then None else Some (ctx_vlans c).

Definition put_ctx_vlans (ds : Z) (l : list (counted (Z * Z))) (w : world H) : world H :=
  set_switches w (alter (fun d =>
    set_ctx ((fun c => mkCtx l (ctx_proto c) (ctx_freed c)) <$> ds_tag_8021q_ctx d) d)
    ds (w_switches w)).

Definition dsa_tag_8021q_vlan_find (port vid : Z) (l : list (counted (Z * Z)))
    : option (counted (Z * Z)) := find_counted vlan_eqb (port, vid) l.

Definition dsa_port_do_tag_8021q_vlan_add (p : pid) (vid flags : Z) : M Z :=
  dp ← port_of p;
  d ← get_ds (dp_ds dp);
  let hw := call_op ((fun f => f (dp_ds dp) (dp_index dp) vid flags) <$> op_tag_8021q_vlan_add (ds_ops d)) in
  if negb (dsa_port_is_shared dp) then hw
  else counted_add vlan_eqb (get_ctx_vlans (dp_ds dp)) (put_ctx_vlans (dp_ds dp)) kzalloc
         (dp_index dp, vid) hw.

(** After a refused request the count is restored by an increment. *)
Definition dsa_port_do_tag_8021q_vlan_del (p : pid) (vid : Z) : M Z :=
  dp ← port_of p;
  d ← get_ds (dp_ds dp);
  let hw := call_op ((fun f => f (dp_ds dp) (dp_index dp) vid) <$> op_tag_8021q_vlan_del (ds_ops d)) in
  if negb (dsa_port_is_shared dp) then hw
  else counted_del vlan_eqb (get_ctx_vlans (dp_ds dp)) (put_ctx_vlans (dp_ds dp)) refcount_inc
         (dp_index dp, vid) hw.

Definition dsa_port_tag_8021q_vlan_match (dp : dsa_port) (info_dp : pid) : bool :=
  dsa_port_is_dsa dp || dsa_port_is_cpu dp || bool_decide (dp_id dp = info_dp).

Definition BRIDGE_VLAN_INFO_PVID : Z := 2.
Definition BRIDGE_VLAN_INFO_UNTAGGED : Z := 4.

Definition dsa_switch_tag_8021q_vlan_add (ds : Z) (info_dp : pid) (vid : Z) : M Z :=
  d ← get_ds ds;
  match op_tag_8021q_vlan_add (ds_ops d), ds_tag_8021q_ctx d with
  | Some _, Some _ => for_each_port ds (fun p =>
      dp ← port_of p;
      if dsa_port_tag_8021q_vlan_match dp info_dp then
        let flags := if dsa_port_is_user dp
                     then Z.lor BRIDGE_VLAN_INFO_UNTAGGED BRIDGE_VLAN_INFO_PVID else 0 in
        dsa_port_do_tag_8021q_vlan_add p vid flags
      else mret 0)
  | _, _ => mret 0
  end.

Definition dsa_switch_tag_8021q_vlan_del (ds : Z) (info_dp : pid) (vid : Z) : M Z :=
  d ← get_ds ds;
  match op_tag_8021q_vlan_del (ds_ops d), ds_tag_8021q_ctx d with
  | Some _, Some _ => for_each_port ds (fun p =>
      dp ← port_of p;
      if dsa_port_tag_8021q_vlan_match dp info_dp then dsa_port_do_tag_8021q_vlan_del p vid
      else mret 0)
  | _, _ => mret 0
  end.

(** [BR_STATE_LEARNING] and [BR_STATE_FORWARDING] *)
Definition BR_STATE_LEARNING : Z := 2.
Definition BR_STATE_FORWARDING : Z := 3.

(** The user interface to deliver a frame of virtual bridge [vbid] to, from the
    conduit of [cpu_dp]; nothing for the reserved identifier 0. *)
Definition dsa_tag_8021q_find_port_by_vbid (w : world H) (cpu_dp : pid) (vbid : Z) : option netdev :=
  if vbid =? 0 then None
  else
    dp ← List.find (fun dp =>
      dsa_port_is_user dp && bool_decide (is_Some (dp_bridge dp)) &&
      ((dp_stp_state dp =? BR_STATE_LEARNING) || (dp_stp_state dp =? BR_STATE_FORWARDING)) &&
      bool_decide (dp_cpu_dp dp = Some cpu_dp) &&
      (dsa_port_bridge_num_get w dp =? vbid)) (w_ports w);
    dp_netdev dp.

End Vlans.

(** ** Identifiers round-trip *)

(** C11. VLAN identifiers are decoded to what they encode: a port of a switch
    with index below 8 and port number below 16 yields a 12-bit identifier of
    the reserved range that decodes to that switch and port and to no virtual
    bridge; a bridge numbered 1 to 7 yields one that decodes to that bridge; so
    no two ports, no two bridges, and no port and bridge share an identifier. *)
Theorem vid_roundtrip (s p n : Z) (prio : Z) :
  0 <= s < 8 -> 0 <= p < 16 -> 1 <= n < 8 -> 0 <= prio < 8 ->
  let port_vid := dsa_tag_8021q_standalone_vid s p in
  let bridge_vid := dsa_tag_8021q_bridge_vid n in
  0 <= port_vid < 2 ^ 12 /\ 0 <= bridge_vid < 2 ^ 12 /\
  vid_is_dsa_8021q port_vid = true /\ vid_is_dsa_8021q bridge_vid = true /\
  dsa_8021q_rcv (prio * 2 ^ 13 + port_vid) = (p, s, 0, prio) /\
  dsa_8021q_rcv (prio * 2 ^ 13 + bridge_vid) = (0, 0, n, prio) /\
  port_vid <> bridge_vid.
Proof.
  intros Hs Hp Hn Hq port_vid bridge_vid.
  assert (G : forall s, 0 <= s < 8 -> forall p, 0 <= p < 16 -> forall n, 0 <= n < 8 ->
    forall q, 0 <= q < 8 ->
    let a := dsa_tag_8021q_standalone_vid s p in let b := dsa_tag_8021q_bridge_vid n in
    (0 <=? a) && (a <? 2 ^ 12) && (0 <=? b) && (b <? 2 ^ 12) && vid_is_dsa_8021q a &&
    vid_is_dsa_8021q b && bool_decide (dsa_8021q_rcv (q * 2 ^ 13 + a) = (p, s, 0, q)) &&
    bool_decide (dsa_8021q_rcv (q * 2 ^ 13 + b) = (0, 0, n, q)) = true).
  { intros s' Hs' p' Hp' n' Hn' q' Hq'. cbv zeta. revert q' Hq'. apply forall_below.
    revert n' Hn'. apply forall_below. revert p' Hp'. apply forall_below.
    revert s' Hs'. apply forall_below. vm_compute. reflexivity. }
  specialize (G s Hs p Hp n ltac:(lia) prio Hq). cbv zeta in G.
  fold port_vid bridge_vid in G.
  rewrite !andb_true_iff, !Z.leb_le, !Z.ltb_lt, !bool_decide_eq_true in G.
  destruct G as (((((((? & ?) & ?) & ?) & ?) & ?) & E1) & E2). split_and!; try done.
  intros E. rewrite E, E2 in E1. injection E1 as <- <- ?. lia.
Qed.

(** ** The counted VLAN list *)

Section VlanCount.
Context {H : Type} `{RefcountApi}.
Context (p : pid) (vid : Z) (f : Z -> Z -> Z -> H -> Z * H).

Lemma vlan_eqb_refl k : vlan_eqb k k = true.
Proof. unfold vlan_eqb. by rewrite !Z.eqb_refl. Qed.
Lemma vlan_eqb_sym a b : vlan_eqb a b = vlan_eqb b a.
Proof. unfold vlan_eqb. by rewrite (Z.eqb_sym (snd a)), (Z.eqb_sym (fst a)). Qed.
Lemma vlan_eqb_trans a b c : vlan_eqb a b = true -> vlan_eqb b c = true -> vlan_eqb a c = true.
Proof. unfold vlan_eqb. rewrite !andb_true_iff, !Z.eqb_eq. intros [-> ->] [-> ->]. done. Qed.

(** A shared port whose switch has the operation. *)
Definition vlan_port (w : world H) : Prop :=
  exists dp d, get_port w p = Some dp /\ dsa_port_is_shared dp = true /\
    w_switches w !! fst p = Some d /\ op_tag_8021q_vlan_del (ds_ops d) = Some f.

(** The counter of the VLAN is saturated. *)
Definition vlan_stuck (w : world H) : Prop :=
  vlan_port w /\ exists l e, get_ctx_vlans (fst p) w = Some l /\
    dsa_tag_8021q_vlan_find (snd p) vid l = Some e /\ c_ref e = REFCOUNT_SATURATED.

Lemma put_get_ctx l (w : world H) : is_Some (get_ctx_vlans (fst p) w) ->
  get_ctx_vlans (fst p) (put_ctx_vlans (fst p) l w) = Some l.
Proof.
  unfold get_ctx_vlans, put_ctx_vlans. intros [x Hx]. cbn [w_switches set_switches].
  rewrite lookup_alter_eq. destruct (w_switches w !! fst p) as [d |]; [| done].
  cbn [fmap option_fmap option_map mbind option_bind set_ctx ds_tag_8021q_ctx] in *.
  destruct (ds_tag_8021q_ctx d) as [c |]; [| done].
  cbn [fmap option_fmap option_map mbind option_bind ctx_freed ctx_vlans] in *.
  by destruct (ctx_freed c).
Qed.

Lemma put_vlan_port l w : vlan_port w -> vlan_port (put_ctx_vlans (fst p) l w).
Proof.
  intros (dp & d & E & Hs & Ed & Ho). eexists dp, _. split_and!; [done | done | |].
  - unfold put_ctx_vlans. cbn [w_switches set_switches]. by rewrite lookup_alter_eq, Ed.
  - done.
Qed.

Lemma vlan_del_run w : vlan_port w ->
  dsa_port_do_tag_8021q_vlan_del p vid w =
  counted_del vlan_eqb (get_ctx_vlans (fst p)) (put_ctx_vlans (fst p)) refcount_inc
    (snd p, vid) (call_op (Some (f (fst p) (snd p) vid))) w.
Proof.
  intros (dp & d & E & Hs & Ed & Ho). pose proof (find_port_id _ _ _ E) as Eid.
  unfold dsa_port_do_tag_8021q_vlan_del, port_of, get_ds, get_st, deref, mbind, st_bind.
  cbn [mbind option_bind]. rewrite E. cbn [mbind option_bind].
  replace (dp_ds dp) with (fst p) by (by rewrite <- Eid).
  replace (dp_index dp) with (snd p) by (by rewrite <- Eid).
  rewrite Ed. cbn [mbind option_bind]. by rewrite Hs, Ho.
Qed.

(** A VLAN of a shared port whose last user leaves while the hardware refuses
    the removal is stuck for ever: the deletion reports the error but leaves the
    counter saturated (it was incremented from zero), and every later deletion
    claims success while removing nothing. *)
Theorem tag_8021q_vlan_del_stuck w l e :
  vlan_port w -> (forall ds port v h, fst (f ds port v h) <> 0) ->
  get_ctx_vlans (fst p) w = Some l ->
  dsa_tag_8021q_vlan_find (snd p) vid l = Some e -> c_ref e = 1 ->
  total (dsa_port_do_tag_8021q_vlan_del p vid) w (fun err w1 => err <> 0 /\ vlan_stuck w1) /\
  forall w1, vlan_stuck w1 ->
    total (dsa_port_do_tag_8021q_vlan_del p vid) w1 (fun err w2 => err = 0 /\ vlan_stuck w2).
Proof.
  intros Hi Hf Hg He E1. split.
  - unfold total. rewrite vlan_del_run by done.
    eapply total_weaken; [| eapply (counted_del_saturates vlan_eqb _ _ vlan_eqb_refl vlan_eqb_sym
      vlan_eqb_trans put_get_ctx vlan_port put_vlan_port); try done].
    + intros err w' (H1 & H2 & H3). by split.
    + intros w' Hi'. unfold total, call_op. cbn [mbind option_bind].
      pose proof (Hf (fst p) (snd p) vid (w_hw w')) as G.
      destruct (f (fst p) (snd p) vid (w_hw w')) as [err h]. by split_and!.
  - intros w1 (Hi1 & l1 & e1 & Hg1 & He1 & Hr1). unfold total. rewrite vlan_del_run by done.
    eapply total_weaken; [| eapply (counted_del_stuck vlan_eqb _ _ vlan_eqb_refl vlan_eqb_sym
      vlan_eqb_trans); done].
    intros err w2 (-> & l2 & e2 & -> & He2 & Hr2). split; [done |]. split; [by apply put_vlan_port |].
    exists l2, e2. split_and!; try done. apply put_get_ctx. by eexists.
Qed.

End VlanCount.

(** ** Witnesses *)

Import SwitchDemo.

Lemma vid_roundtrip_witness :
  dsa_8021q_rcv (5 * 2 ^ 13 + dsa_tag_8021q_standalone_vid 2 9) = (9, 2, 0, 5).
Proof.
  exact (proj1 (proj2 (proj2 (proj2 (proj2
    (vid_roundtrip 2 9 3 5 ltac:(lia) ltac:(lia) ltac:(lia) ltac:(lia))))))).
Defined.

Definition refusing_ops : dsa_switch_ops table :=
  mkOps None None None None None None None None None None None None
    None None None None None None None None None
    (Some (fun _ _ _ _ h => (0, h))) (Some (fun _ _ _ h => (- EBUSY, h)))
    no_port_ops no_setup_ops.

Definition refusing_world : world table :=
  set_switches (demo_world []) {[ 1 := mkDs 0 5 false false 0 0 refusing_ops
    (Some (mkCtx [mkCounted (4, 3072) 1] 0x8100 false))
    true false true true 0 0 false ]}.

Lemma tag_8021q_vlan_del_stuck_witness :
  total (dsa_port_do_tag_8021q_vlan_del (1, 4) 3072) refusing_world
    (fun err w1 => err <> 0 /\ vlan_stuck (1, 4) 3072 (fun _ _ _ h => (- EBUSY, h)) w1).
Proof.
  refine (proj1 (tag_8021q_vlan_del_stuck (1, 4) 3072 (fun _ _ _ h => (- EBUSY, h))
    refusing_world [mkCounted (4, 3072) 1] (mkCounted (4, 3072) 1) _ _ _ _ _)).
  - eexists _, _. split_and!; [reflexivity | reflexivity | reflexivity | reflexivity].
  - intros ds port v h. discriminate.
  - reflexivity.
  - reflexivity.
  - reflexivity.
Defined.
