(* ===== verification/DsaEvent.v ===== *)
(** * Notifying the fabric (DSA/switch.c, DSA/dsa2.c)

    A change is turned into an event, which the notifier chain of a tree hands
    to its switches until one of them fails; [dsa_broadcast] does so for every
    tree of the system.  The dispatch to the handlers of [DsaSwitch] and
    [Dsa8021q], the chain as the kernel documents it, the exchange of the
    tagger, and the state of the conduit as the switches are told of it.

    The state of the whole fabric is the list of its trees, each with its own
    hardware and allocator, and the bit map of bridge numbers they share. *)

From Stdlib Require Import ZArith Lia Bool.
From S2P Require Import Prelude.
From S2P Require Import Kernel.
From S2P Require Import DsaTypes.
From S2P Require Import DsaSwitch.
From S2P Require Import Dsa8021q.

(** ** Kernel services *)

(** Raw notifier chains.  A block is designated by the switch it is embedded
    in, and all have the same priority: calls follow the order of registration
    and end at the first answer with the stop bit. *)
Class NotifierApi := {
  notifier_from_errno : Z -> Z;
  notifier_to_errno : Z -> Z;
  notify_stops : Z -> bool;
  raw_notifier_call_chain : forall {W I : Type},
    (Z -> I -> st W (Z * I)) -> list Z -> I -> st W (Z * I);
  raw_notifier_chain_register : Z -> list Z -> Z * list Z;
  raw_notifier_chain_unregister : Z -> list Z -> Z * list Z;
  NOTIFY_DONE : Z;                             (* the answer of an empty chain *)
  errno_done : notifier_to_errno NOTIFY_DONE = 0;
  errno_zero : notify_stops (notifier_from_errno 0) = false /\
               notifier_to_errno (notifier_from_errno 0) = 0;
  errno_stops err : err <> 0 -> notify_stops (notifier_from_errno err) = true;
  errno_roundtrip err : err < 0 -> notifier_to_errno (notifier_from_errno err) = err;
  chain_nil {W I : Type} (call : Z -> I -> st W (Z * I)) info w :
    raw_notifier_call_chain call [] info w = Some (NOTIFY_DONE, info, w);
  chain_cons {W I : Type} (call : Z -> I -> st W (Z * I)) nb l info w :
    raw_notifier_call_chain call (nb :: l) info w =
    ('(ret, info') ← call nb info;
     if notify_stops ret || match l with [] => true | _ => false end then mret (ret, info')
     else raw_notifier_call_chain call l info') w;
  register_new nb l : nb ∉ l -> raw_notifier_chain_register nb l = (0, l ++ [nb]);
  register_twice nb l : nb ∈ l -> raw_notifier_chain_register nb l = (- EEXIST, l);
  unregister_known nb l : nb ∈ l ->
    raw_notifier_chain_unregister nb l = (0, List.remove Z.eq_dec nb l);
  unregister_unknown nb l : nb ∉ l -> raw_notifier_chain_unregister nb l = (- ENOENT, l);
}.

(** What an operation asks the network stack about devices and bridges while it
    holds the network lock: the answers do not change under it. *)
Class NetQueries := {
  netif_is_lag_master : netdev -> bool;
  dsa_ptr : netdev -> option pid;              (* dev->dsa_ptr *)
  netif_is_bridge_master : netdev -> bool;
  netdev_master_upper_dev_get : netdev -> option netdev;
  br_mst_enabled : netdev -> bool;
  br_vlan_enabled : netdev -> bool;
  br_get_ageing_time : netdev -> Z;
  br_port_get_stp_state : option netdev -> Z;
  br_port_flag_is_set : option netdev -> Z -> bool;
  br_vlan_get_info : option netdev -> Z -> Z;
  vlan_uppers : netdev -> list Z;              (* the identifiers of the VLAN uppers *)
  vlan_vids : netdev -> list Z;                (* what vlan_for_each goes through *)
  synced_uc : netdev -> list Z;                (* unicast and multicast addresses synced *)
  synced_mc : netdev -> list Z;
  iff_unicast_flt : netdev -> bool;            (* priv_flags & IFF_UNICAST_FLT *)
  iff_up : netdev -> bool;                     (* flags & IFF_UP *)
  is_valid_ether_addr : Z -> bool;
  br_mst_get_state : option netdev -> Z -> Z * Z;          (* error, state *)
  br_mst_get_info : option netdev -> Z -> Z * list Z;      (* error, VLANs ascending *)
  clock_t_to_jiffies : Z -> Z;
  jiffies_to_msecs : Z -> Z;
}.

(** What it changes in the network stack, whose state is part of the tree's
    [H]: filters of the conduit, the bridge's database, the link machinery. *)
Class NetEffects (H : Type) := {
  vlan_vid_add : netdev -> Z -> Z -> H -> Z * H;       (* device, protocol, VLAN *)
  vlan_vid_del : netdev -> Z -> Z -> H -> H;
  dev_uc_add : netdev -> Z -> H -> Z * H;
  dev_uc_del : netdev -> Z -> H -> Z * H;
  dev_mc_add : netdev -> Z -> H -> Z * H;
  dev_mc_del : netdev -> Z -> H -> Z * H;
  fdb_flush_to_bridge : netdev -> Z -> H -> H;         (* SWITCHDEV_FDB_FLUSH_TO_BRIDGE *)
  set_ctag_filter : netdev -> bool -> H -> H;          (* NETIF_F_HW_VLAN_CTAG_FILTER *)
  dev_open : netdev -> H -> Z * H;
  dev_addr : netdev -> H -> Z;
  eth_hw_addr_set : netdev -> Z -> H -> H;
  phylink_start : pid -> H -> H;
  phylink_stop : pid -> H -> H;
}.

(** ** Events *)

Inductive dsa_event (H : Type) :=
| DSA_NOTIFIER_AGEING_TIME (ageing_time : Z)
| DSA_NOTIFIER_BRIDGE_JOIN (dp : origin) (bridge : bridge_info) (tx_fwd_offload : bool)
| DSA_NOTIFIER_BRIDGE_LEAVE (dp : origin) (bridge : bridge_info)
| DSA_NOTIFIER_FDB_ADD (dp : pid) (key : mac_key)
| DSA_NOTIFIER_FDB_DEL (dp : pid) (key : mac_key)
| DSA_NOTIFIER_HOST_FDB_ADD (dp : pid) (key : mac_key)
| DSA_NOTIFIER_HOST_FDB_DEL (dp : pid) (key : mac_key)
| DSA_NOTIFIER_LAG_FDB_ADD (lag : Z) (key : mac_key)
| DSA_NOTIFIER_LAG_FDB_DEL (lag : Z) (key : mac_key)
| DSA_NOTIFIER_LAG_CHANGE (dp : pid)
| DSA_NOTIFIER_LAG_JOIN (dp : pid) (lag : lag_info)
| DSA_NOTIFIER_LAG_LEAVE (dp : pid) (lag : lag_info)
| DSA_NOTIFIER_MDB_ADD (dp : pid) (mdb : mac_key)
| DSA_NOTIFIER_MDB_DEL (dp : pid) (mdb : mac_key)
| DSA_NOTIFIER_HOST_MDB_ADD (dp : pid) (mdb : mac_key)
| DSA_NOTIFIER_HOST_MDB_DEL (dp : pid) (mdb : mac_key)
| DSA_NOTIFIER_VLAN_ADD (dp : pid) (vlan : switchdev_obj_port_vlan)
| DSA_NOTIFIER_VLAN_DEL (dp : pid) (vlan : switchdev_obj_port_vlan)
| DSA_NOTIFIER_HOST_VLAN_ADD (dp : pid) (vlan : switchdev_obj_port_vlan)
| DSA_NOTIFIER_HOST_VLAN_DEL (dp : pid) (vlan : switchdev_obj_port_vlan)
| DSA_NOTIFIER_MTU (dp : pid) (mtu : Z)
| DSA_NOTIFIER_TAG_PROTO_CONNECT (tag_ops : dsa_device_ops H)
| DSA_NOTIFIER_TAG_PROTO_DISCONNECT (tag_ops : dsa_device_ops H)
| DSA_NOTIFIER_TAG_8021Q_VLAN_ADD (dp : pid) (vid : Z)
| DSA_NOTIFIER_TAG_8021Q_VLAN_DEL (dp : pid) (vid : Z)
| DSA_NOTIFIER_CONDUIT_STATE_CHANGE (conduit : netdev) (operational : bool).
#[global] Arguments DSA_NOTIFIER_AGEING_TIME {H}.
#[global] Arguments DSA_NOTIFIER_BRIDGE_JOIN {H}.
#[global] Arguments DSA_NOTIFIER_BRIDGE_LEAVE {H}.
#[global] Arguments DSA_NOTIFIER_FDB_ADD {H}.
#[global] Arguments DSA_NOTIFIER_FDB_DEL {H}.
#[global] Arguments DSA_NOTIFIER_HOST_FDB_ADD {H}.
#[global] Arguments DSA_NOTIFIER_HOST_FDB_DEL {H}.
#[global] Arguments DSA_NOTIFIER_LAG_FDB_ADD {H}.
#[global] Arguments DSA_NOTIFIER_LAG_FDB_DEL {H}.
#[global] Arguments DSA_NOTIFIER_LAG_CHANGE {H}.
#[global] Arguments DSA_NOTIFIER_LAG_JOIN {H}.
#[global] Arguments DSA_NOTIFIER_LAG_LEAVE {H}.
#[global] Arguments DSA_NOTIFIER_MDB_ADD {H}.
#[global] Arguments DSA_NOTIFIER_MDB_DEL {H}.
#[global] Arguments DSA_NOTIFIER_HOST_MDB_ADD {H}.
#[global] Arguments DSA_NOTIFIER_HOST_MDB_DEL {H}.
#[global] Arguments DSA_NOTIFIER_VLAN_ADD {H}.
#[global] Arguments DSA_NOTIFIER_VLAN_DEL {H}.
#[global] Arguments DSA_NOTIFIER_HOST_VLAN_ADD {H}.
#[global] Arguments DSA_NOTIFIER_HOST_VLAN_DEL {H}.
#[global] Arguments DSA_NOTIFIER_MTU {H}.
#[global] Arguments DSA_NOTIFIER_TAG_PROTO_CONNECT {H}.
#[global] Arguments DSA_NOTIFIER_TAG_PROTO_DISCONNECT {H}.
#[global] Arguments DSA_NOTIFIER_TAG_8021Q_VLAN_ADD {H}.
#[global] Arguments DSA_NOTIFIER_TAG_8021Q_VLAN_DEL {H}.
#[global] Arguments DSA_NOTIFIER_CONDUIT_STATE_CHANGE {H}.

(** The trees of the system in list order, and [dsa_fwd_offloading_bridges]. *)
Record fabric (H : Type) := mkFabric {
  f_trees : list (world H);
  f_bridges : Z;
}.
#[global] Arguments mkFabric {H}.
#[global] Arguments f_trees {H}.
#[global] Arguments f_bridges {H}.

Section DsaEvent.
Context {H : Type} `{RefcountApi, NotifierApi}.
(** Has the tagger private data on the switch ([ds->tagger_data])? *)
Context (tagger_data : H -> Z -> bool).
Abbreviation M := (st (world H)).
Abbreviation FM := (st (fabric H)).

(** A call through the optional pointers of the tagger. *)
Definition call_tagger (f : option (Z -> H -> Z * H)) (ds : Z) : M Z :=
  match f with Some g => call_op (Some (g ds)) | None => mret 0 end.
Definition call_disconnect (tag_ops : dsa_device_ops H) (ds : Z) : M unit :=
  match to_disconnect tag_ops with Some g => call_void (Some (g ds)) | None => mret tt end.

Definition dsa_switch_connect_tag_proto (ds : Z) (tag_ops : dsa_device_ops H) : M Z :=
  d ← get_ds ds;
  err ← call_tagger (to_connect tag_ops) ds;
  if negb (err =? 0) then mret err
  else match op_connect_tag_protocol (op_switch (ds_ops d)) with
  | None => mret (- EOPNOTSUPP)
  | Some f =>
      err ← call_op (Some (f ds (to_proto tag_ops)));
      if negb (err =? 0) then _ ← call_disconnect tag_ops ds; mret err
      else mret 0
  end.

Definition dsa_switch_disconnect_tag_proto (ds : Z) (tag_ops : dsa_device_ops H) : M Z :=
  w ← get_st;
  _ ← (if tagger_data (w_hw w) ds then call_disconnect tag_ops ds else mret tt);
  mret 0.

(** A handler that leaves the event as it is. *)
Definition keep_info (ev : dsa_event H) (m : M Z) : M (Z * dsa_event H) := err ← m; mret (err, ev).

(** [dsa_switch_event] before the encoding of its result; the event is passed by
    pointer, and a join may set its [tx_fwd_offload]. *)
Definition dsa_switch_event (ds : Z) (ev : dsa_event H) : M (Z * dsa_event H) :=
  match ev with
  | DSA_NOTIFIER_AGEING_TIME t => keep_info ev (dsa_switch_ageing_time ds t)
  | DSA_NOTIFIER_BRIDGE_JOIN dp b tx =>
      '(err, tx) ← dsa_switch_bridge_join ds dp b tx; mret (err, DSA_NOTIFIER_BRIDGE_JOIN dp b tx)
  | DSA_NOTIFIER_BRIDGE_LEAVE dp b => keep_info ev (dsa_switch_bridge_leave ds dp b)
  | DSA_NOTIFIER_FDB_ADD dp k => keep_info ev (dsa_switch_fdb_add ds dp k)
  | DSA_NOTIFIER_FDB_DEL dp k => keep_info ev (dsa_switch_fdb_del ds dp k)
  | DSA_NOTIFIER_HOST_FDB_ADD dp k => keep_info ev (dsa_switch_host_fdb_add ds dp k)
  | DSA_NOTIFIER_HOST_FDB_DEL dp k => keep_info ev (dsa_switch_host_fdb_del ds dp k)
  | DSA_NOTIFIER_LAG_FDB_ADD lag k => keep_info ev (dsa_switch_lag_fdb_add ds lag k)
  | DSA_NOTIFIER_LAG_FDB_DEL lag k => keep_info ev (dsa_switch_lag_fdb_del ds lag k)
  | DSA_NOTIFIER_LAG_CHANGE dp => keep_info ev (dsa_switch_lag_change ds dp)
  | DSA_NOTIFIER_LAG_JOIN dp lag => keep_info ev (dsa_switch_lag_join ds dp lag)
  | DSA_NOTIFIER_LAG_LEAVE dp lag => keep_info ev (dsa_switch_lag_leave ds dp lag)
  | DSA_NOTIFIER_MDB_ADD dp k => keep_info ev (dsa_switch_mdb_add ds dp k)
  | DSA_NOTIFIER_MDB_DEL dp k => keep_info ev (dsa_switch_mdb_del ds dp k)
  | DSA_NOTIFIER_HOST_MDB_ADD dp k => keep_info ev (dsa_switch_host_mdb_add ds dp k)
  | DSA_NOTIFIER_HOST_MDB_DEL dp k => keep_info ev (dsa_switch_host_mdb_del ds dp k)
  | DSA_NOTIFIER_VLAN_ADD dp v => keep_info ev (dsa_switch_vlan_add ds dp v)
  | DSA_NOTIFIER_VLAN_DEL dp v => keep_info ev (dsa_switch_vlan_del ds dp v)
  | DSA_NOTIFIER_HOST_VLAN_ADD dp v => keep_info ev (dsa_switch_host_vlan_add ds dp v)
  | DSA_NOTIFIER_HOST_VLAN_DEL dp v => keep_info ev (dsa_switch_host_vlan_del ds dp v)
  | DSA_NOTIFIER_MTU dp mtu => keep_info ev (dsa_switch_mtu ds dp mtu)
  | DSA_NOTIFIER_TAG_PROTO_CONNECT o => keep_info ev (dsa_switch_connect_tag_proto ds o)
  | DSA_NOTIFIER_TAG_PROTO_DISCONNECT o => keep_info ev (dsa_switch_disconnect_tag_proto ds o)
  | DSA_NOTIFIER_TAG_8021Q_VLAN_ADD dp v => keep_info ev (dsa_switch_tag_8021q_vlan_add ds dp v)
  | DSA_NOTIFIER_TAG_8021Q_VLAN_DEL dp v => keep_info ev (dsa_switch_tag_8021q_vlan_del ds dp v)
  | DSA_NOTIFIER_CONDUIT_STATE_CHANGE c up => keep_info ev (dsa_switch_conduit_state_change ds c up)
  end.

(** The notifier call of a switch: its block's [notifier_call]. *)
Definition switch_notifier (ds : Z) (ev : dsa_event H) : M (Z * dsa_event H) :=
  '(err, ev) ← dsa_switch_event ds ev; mret (notifier_from_errno err, ev).

Definition dsa_tree_notify (ev : dsa_event H) : M (Z * dsa_event H) :=
  w ← get_st;
  '(ret, ev) ← raw_notifier_call_chain switch_notifier (w_nh w) ev;
  mret (notifier_to_errno ret, ev).

(** Notifications whose event is not read afterwards. *)
Definition dsa_port_notify (ev : dsa_event H) : M Z := '(err, _) ← dsa_tree_notify ev; mret err.

(** [m] on the tree at place [i] of the list. *)
Definition on_tree {A} (i : nat) (m : M A) : FM A := fun f =>
  w ← f_trees f !! i;
  '(a, w') ← m w;
  Some (a, mkFabric (<[i := w']> (f_trees f)) (f_bridges f)).

Fixpoint broadcast_loop (n i : nat) (ev : dsa_event H) : FM (Z * dsa_event H) :=
  match n with
  | O => mret (0, ev)
  | S n =>
      '(err, ev) ← on_tree i (dsa_tree_notify ev);
      if negb (err =? 0) then mret (err, ev) else broadcast_loop n (S i) ev
  end.

Definition dsa_broadcast (ev : dsa_event H) : FM (Z * dsa_event H) :=
  f ← get_st; broadcast_loop (length (f_trees f)) 0 ev.

Definition dsa_switch_register_notifier (ds : Z) : M Z :=
  w ← get_st;
  let '(err, l) := raw_notifier_chain_register ds (w_nh w) in
  _ ← modify (fun w => set_nh w l); mret err.

(** Its error is only logged. *)
Definition dsa_switch_unregister_notifier (ds : Z) : M unit :=
  w ← get_st;
  let '(_, l) := raw_notifier_chain_unregister ds (w_nh w) in
  modify (fun w => set_nh w l).

(** ** Binding the tree to a tagger *)

Definition tree_tag_ops : M (dsa_device_ops H) := w ← get_st; deref (dst_tag_ops (w_tree w)).

(** A null [old_tag_ops] faults in the handler that reads it. *)
Definition dsa_tree_bind_tag_proto (tag_ops : dsa_device_ops H) : M Z :=
  w ← get_st;
  let old_tag_ops := dst_tag_ops (w_tree w) in
  _ ← modify (upd_tree (set_dst_tag_ops (Some tag_ops)));
  '(err, _) ← dsa_tree_notify (DSA_NOTIFIER_TAG_PROTO_CONNECT tag_ops);
  if negb (err =? 0) && negb (err =? - EOPNOTSUPP) then
    _ ← dsa_tree_notify (DSA_NOTIFIER_TAG_PROTO_DISCONNECT tag_ops);
    _ ← modify (upd_tree (set_dst_tag_ops old_tag_ops));
    mret err
  else
    old ← deref old_tag_ops;
    _ ← dsa_tree_notify (DSA_NOTIFIER_TAG_PROTO_DISCONNECT old);
    mret 0.

(** ** The state of the conduit *)

Context `{NetQueries}.

Definition dsa_tree_conduit_state_change (conduit : netdev) : M unit :=
  p ← deref (dsa_ptr conduit);
  cpu_dp ← port_of p;
  _ ← dsa_port_notify (DSA_NOTIFIER_CONDUIT_STATE_CHANGE conduit
                         (dsa_port_conduit_is_operational cpu_dp));
  mret tt.

Definition dsa_tree_conduit_admin_state_change (conduit : netdev) (up : bool) : M unit :=
  if netif_is_lag_master conduit then mret tt
  else
    p ← deref (dsa_ptr conduit);
    cpu_dp ← port_of p;
    let notify := negb (Bool.eqb (dsa_port_conduit_is_operational cpu_dp)
                          (up && dp_conduit_oper_up cpu_dp)) in
    _ ← modify (upd_port p (set_conduit_admin_up up));
    if notify then dsa_tree_conduit_state_change conduit else mret tt.

Definition dsa_tree_conduit_oper_state_change (conduit : netdev) (up : bool) : M unit :=
  if netif_is_lag_master conduit then mret tt
  else
    p ← deref (dsa_ptr conduit);
    cpu_dp ← port_of p;
    let notify := negb (Bool.eqb (dsa_port_conduit_is_operational cpu_dp)
                          (dp_conduit_admin_up cpu_dp && up)) in
    _ ← modify (upd_port p (set_conduit_oper_up up));
    if notify then dsa_tree_conduit_state_change conduit else mret tt.

End DsaEvent.

(** ** What the notifications amount to *)

Section Chains.
Context {H : Type} `{RefcountApi, NotifierApi} (tagger_data : H -> Z -> bool).

Lemma switch_notifier_runs nb (ev ev' : dsa_event H) err w w' :
  dsa_switch_event tagger_data nb ev w = Some ((err, ev'), w') ->
  switch_notifier tagger_data nb ev w = Some ((notifier_from_errno err, ev'), w').
Proof. intros E. unfold switch_notifier. by rewrite bind_eq, E. Qed.

(** An event every switch handles without error goes through the whole tree. *)
Lemma notify_all (ev : dsa_event H) (step : Z -> world H -> world H) (P : world H -> Prop) w :
  (forall w nb, nb ∈ w_nh w -> P w ->
     dsa_switch_event tagger_data nb ev w = Some ((0, ev), step nb w) /\
     P (step nb w) /\ w_nh (step nb w) = w_nh w) ->
  P w ->
  let w' := foldl (fun w nb => step nb w) w (w_nh w) in
  dsa_tree_notify tagger_data ev w = Some ((0, ev), w') /\ P w' /\ w_nh w' = w_nh w.
Proof.
  intros Hs Hp w'. unfold dsa_tree_notify. rewrite bind_eq. unfold get_st.
  assert (G : forall l w0, (forall nb, nb ∈ l -> nb ∈ w_nh w0) -> P w0 ->
    let w1 := foldl (fun w nb => step nb w) w0 l in
    P w1 /\ w_nh w1 = w_nh w0 /\ exists ret, notifier_to_errno ret = 0 /\
    raw_notifier_call_chain (switch_notifier tagger_data) l ev w0 = Some ((ret, ev), w1)).
  { induction l as [| nb l IH]; intros w0 Hl Hp0; cbn [foldl].
    { split_and!; try done. exists NOTIFY_DONE. split; [apply errno_done | apply chain_nil]. }
    destruct (Hs w0 nb) as (E & Hp1 & En); [apply Hl; by left | done |].
    destruct (IH (step nb w0)) as (Hp2 & En2 & ret & Er & Ec); [| done |].
    { intros nb' Hn. rewrite En. apply Hl. by right. }
    split_and!; [done | by rewrite En2 |].
    destruct errno_zero as [Ez0 Ez1]. rewrite chain_cons, bind_eq.
    rewrite (switch_notifier_runs _ _ _ _ _ _ E), Ez0.
    destruct l as [| nb2 l]; cbn [orb].
    - by exists (notifier_from_errno 0).
    - by exists ret. }
  destruct (G (w_nh w) w (fun nb Hn => Hn) Hp) as (Hp1 & En & ret & Er & Ec).
  rewrite bind_eq, Ec. by rewrite Er.
Qed.

End Chains.

(** A chain of calls that leave the information alone keeps an invariant of those
    called so far, and ends at the first error. *)
Lemma notify_chain `{NotifierApi} {W X : Type} (call : Z -> X -> st W (Z * X)) (m : Z -> st W Z) (x : X) l
    (I : list Z -> W -> Prop) (Q : Z -> W -> Prop) w :
  (forall ds w, call ds x w = (err ← m ds; mret (notifier_from_errno err, x)) w) ->
  I [] w ->
  (forall done_ ds rest w, l = done_ ++ ds :: rest -> I done_ w ->
     total (m ds) w (fun err w' => if err =? 0 then I (done_ ++ [ds]) w' else err < 0 /\ Q err w')) ->
  (forall w, I l w -> Q 0 w) ->
  total (raw_notifier_call_chain call l x) w (fun r w' => Q (notifier_to_errno (fst r)) w').
Proof.
  intros Hcall H0 Hs HQ.
  assert (G : forall rest done_ w, l = done_ ++ rest -> I done_ w ->
    total (raw_notifier_call_chain call rest x) w (fun r w' => Q (notifier_to_errno (fst r)) w')).
  { induction rest as [| ds rest IH]; intros done_ w0 El Hi.
    { unfold total. rewrite chain_nil. cbn [fst]. rewrite errno_done. apply HQ. by rewrite El, app_nil_r. }
    eapply total_same; [apply chain_cons |]. apply total_bind. eapply total_same; [apply Hcall |]. apply (total_bind (m ds)).
    eapply total_weaken; [| by eapply Hs]. intros err w1. cbv beta. destruct (Z.eqb_spec err 0) as [-> | Hne]; intros H1; apply total_ret.
    - destruct errno_zero as [-> E1]. cbn [orb]. destruct rest as [| ds2 rest].
      + apply total_ret. cbn [fst]. rewrite E1. apply HQ. by rewrite El.
      + apply (IH (done_ ++ [ds])); [by rewrite <- app_assoc | done].
    - rewrite errno_stops by done. cbn [orb]. apply total_ret. cbn [fst]. destruct H1 as [Hlt H1]. by rewrite errno_roundtrip. }
  by apply (G l []).
Qed.

Section Conduit.
Context {H : Type} `{RefcountApi, NotifierApi, NetQueries} (tagger_data : H -> Z -> bool).
Context (conduit : netdev) (p : pid).
(** The announcements each switch has received about the conduit. *)
Context (told : H -> Z -> list bool).

(** The conduit of the CPU port [p], of a tree whose registered switches are
    live, each at most once in the chain, with a driver that listens. *)
Definition conduit_ready (w : world H) : Prop :=
  NoDup (w_nh w) /\ is_Some (get_port w p) /\
  (forall dp, get_port w p = Some dp -> dsa_port_is_cpu dp = true) /\
  forall ds, ds ∈ w_nh w -> exists d f,
    w_switches w !! ds = Some d /\ op_conduit_state_change (ds_ops d) = Some f /\
    forall up h ds', told (f ds conduit up h) ds' = told h ds' ++ (if ds =? ds' then [up] else []).

Inductive conduit_change := Admin (up : bool) | Oper (up : bool).

Definition conduit_step (c : conduit_change) : st (world H) unit :=
  match c with
  | Admin up => dsa_tree_conduit_admin_state_change tagger_data conduit up
  | Oper up => dsa_tree_conduit_oper_state_change tagger_data conduit up
  end.

Fixpoint conduit_run (cs : list conduit_change) : st (world H) unit :=
  match cs with [] => mret tt | c :: cs => _ ← conduit_step c; conduit_run cs end.

(** The two flags after a change, and the values "admin and oper" goes through
    where they differ from the value before. *)
Definition flags_after (a o : bool) (c : conduit_change) : bool * bool :=
  match c with Admin up => (up, o) | Oper up => (a, up) end.

Fixpoint transitions (a o : bool) (cs : list conduit_change) : list bool :=
  match cs with
  | [] => []
  | c :: cs =>
      let '(a', o') := flags_after a o c in
      (if Bool.eqb (a && o) (a' && o') then [] else [a' && o']) ++ transitions a' o' cs
  end.

Fixpoint final_flags (a o : bool) (cs : list conduit_change) : bool * bool :=
  match cs with [] => (a, o) | c :: cs => let '(a, o) := flags_after a o c in final_flags a o cs end.

Definition tell (up : bool) (ds : Z) (w : world H) : world H :=
  match w_switches w !! ds with
  | Some d => match op_conduit_state_change (ds_ops d) with
              | Some f => set_hw w (f ds conduit up (w_hw w)) | None => w end
  | None => w
  end.

Lemma tell_fold up l w : conduit_ready w -> NoDup l -> (forall ds, ds ∈ l -> ds ∈ w_nh w) ->
  let w' := foldl (fun w ds => tell up ds w) w l in
  conduit_ready w' /\ w_nh w' = w_nh w /\ w_ports w' = w_ports w /\
  forall ds, told (w_hw w') ds = told (w_hw w) ds ++ (if bool_decide (ds ∈ l) then [up] else []).
Proof.
  revert w. induction l as [| d l IH]; intros w Hr Hnd Hl; cbn [foldl].
  { split_and!; try done. intros ds. rewrite bool_decide_false by (apply not_elem_of_nil).
    by rewrite app_nil_r. }
  apply NoDup_cons in Hnd as [Hd Hnd]. destruct Hr as (Hq1 & Hq2 & Hq3 & Hq).
  destruct (Hq d) as (r & f & Er & Ef & Hf); [apply Hl; by left |].
  assert (Et : tell up d w = set_hw w (f d conduit up (w_hw w))).
  { unfold tell. by rewrite Er, Ef. }
  destruct (IH (tell up d w)) as (Hr' & En & Ep & Ht).
  { rewrite Et. by split_and!. }
  { done. }
  { rewrite Et. intros ds Hds. apply Hl. by right. }
  split_and!; [done | by rewrite En, Et | by rewrite Ep, Et |].
  intros ds. rewrite Ht, Et. cbn [w_hw set_hw]. rewrite Hf.
  destruct (Z.eqb_spec d ds) as [<- | Hne].
  - rewrite (bool_decide_false _ Hd), bool_decide_true by by left. by rewrite app_nil_r.
  - rewrite app_nil_r. f_equal. rewrite (bool_decide_ext (ds ∈ l) (ds ∈ d :: l)); [done |].
    rewrite elem_of_cons. split; [by right | by intros [<- |]].
Qed.

(** The announcement of a value reaches every registered switch, once. *)
Lemma notify_conduit up w : conduit_ready w ->
  total (dsa_port_notify tagger_data (DSA_NOTIFIER_CONDUIT_STATE_CHANGE conduit up)) w
    (fun err w' => err = 0 /\ conduit_ready w' /\ w_nh w' = w_nh w /\ w_ports w' = w_ports w /\
       forall ds, ds ∈ w_nh w -> told (w_hw w') ds = told (w_hw w) ds ++ [up]).
Proof.
  intros Hr. unfold dsa_port_notify. apply total_bind.
  edestruct (notify_all tagger_data (DSA_NOTIFIER_CONDUIT_STATE_CHANGE conduit up)
    (tell up) conduit_ready w) as (E & _ & _); [| done |].
  { intros w1 nb Hn Hr1. destruct Hr1 as (Hq1 & Hq2 & Hq3 & Hq).
    destruct (Hq nb Hn) as (r & f & Er & Ef & Hf).
    unfold dsa_switch_event, keep_info, dsa_switch_conduit_state_change, get_ds, tell.
    rewrite !bind_eq. unfold get_st, deref. rewrite Er. cbn. rewrite Ef. cbn.
    by split_and!. }
  unfold total at 1. rewrite E. apply total_ret. pose proof Hr as (Hq & _).
  destruct (tell_fold up (w_nh w) w) as (Hr' & En & Ep & Ht); [done | done | done |].
  split_and!; try done. intros ds Hds. by rewrite Ht, bool_decide_true.
Qed.

Lemma cpu_flag_ready f w : conduit_ready w ->
  (forall dp, dp_id (f dp) = dp_id dp) -> (forall dp, dp_type (f dp) = dp_type dp) ->
  conduit_ready (upd_port p f w).
Proof.
  intros (Hnd & [dp Hp] & Hc & Hs) Hf Ht. pose proof (get_upd_eq w p f dp Hp Hf) as Hu.
  split_and!; [done | by eexists | | done].
  intros dp'. rewrite Hu. intros [= <-]. unfold dsa_port_is_cpu. rewrite Ht. by apply Hc.
Qed.

(** One change of a flag: the port follows, and the switches hear of the new
    value of "admin and oper" exactly if it differs. *)
Lemma conduit_step_ok c w dp : dsa_ptr conduit = Some p -> netif_is_lag_master conduit = false ->
  conduit_ready w -> get_port w p = Some dp ->
  let '(a, o) := flags_after (dp_conduit_admin_up dp) (dp_conduit_oper_up dp) c in
  total (conduit_step c) w (fun _ w' => conduit_ready w' /\ w_nh w' = w_nh w /\
    (exists dp', get_port w' p = Some dp' /\ dp_conduit_admin_up dp' = a /\
                 dp_conduit_oper_up dp' = o) /\
    forall ds, ds ∈ w_nh w -> told (w_hw w') ds = told (w_hw w) ds ++
      (if Bool.eqb (dp_conduit_admin_up dp && dp_conduit_oper_up dp) (a && o)
       then [] else [a && o])).
Proof.
  intros Hptr Hlag Hr Hp. destruct (flags_after _ _ c) as [a o] eqn:Efl.
  assert (Hcpu : dsa_port_is_cpu dp = true) by (by apply Hr).
  set (f := match c with Admin up => set_conduit_admin_up up | Oper up => set_conduit_oper_up up end).
  assert (Hf : forall dp, dp_id (f dp) = dp_id dp) by (by destruct c).
  assert (Hfl : dp_conduit_admin_up (f dp) = a /\ dp_conduit_oper_up (f dp) = o /\
                dsa_port_is_cpu (f dp) = true).
  { by destruct c; injection Efl as <- <-. }
  destruct Hfl as (Ha & Ho & Hcf).
  assert (Hr' : conduit_ready (upd_port p f w)) by (apply cpu_flag_ready; [done | done | by destruct c]).
  pose proof (get_upd_eq w p f dp Hp Hf) as Hu.
  assert (Estep : conduit_step c w =
    (if negb (Bool.eqb (dp_conduit_admin_up dp && dp_conduit_oper_up dp) (a && o))
     then dsa_tree_conduit_state_change tagger_data conduit else mret tt) (upd_port p f w)).
  { destruct c; injection Efl as <- <-; cbn [conduit_step];
      unfold dsa_tree_conduit_admin_state_change, dsa_tree_conduit_oper_state_change;
      rewrite Hlag, Hptr; rewrite !bind_eq; cbn [deref mret option_bind mbind];
      unfold port_of, deref; rewrite !bind_eq; unfold get_st; rewrite Hp; cbn;
      unfold dsa_port_conduit_is_operational; by rewrite Hcpu. }
  unfold total. rewrite Estep.
  destruct (Bool.eqb (_ && _) (a && o)) eqn:Eeq; cbn [negb].
  - cbn. split_and!; [done | done | by exists (f dp) |]. intros ds _. by rewrite app_nil_r.
  - fold (total (dsa_tree_conduit_state_change tagger_data conduit) (upd_port p f w)
      (fun _ w' => conduit_ready w' /\ w_nh w' = w_nh w /\
        (exists dp', get_port w' p = Some dp' /\ dp_conduit_admin_up dp' = a /\
                 dp_conduit_oper_up dp' = o) /\
        forall ds, ds ∈ w_nh w -> told (w_hw w') ds = told (w_hw w) ds ++ [a && o])).
    unfold dsa_tree_conduit_state_change. rewrite Hptr.
    apply total_bind. eapply total_deref; [done |].
    apply total_bind. unfold port_of. apply total_bind, total_get. eapply total_deref; [exact Hu |].
    unfold dsa_port_conduit_is_operational. rewrite Hcf, Ha, Ho. cbn [andb].
    mstep (by apply notify_conduit).
    intros err w' (_ & Hr2 & En & Ep & Ht). apply total_ret.
    split_and!; [done | by rewrite En | | by intros ds Hds; rewrite Ht].
    exists (f dp). unfold get_port. rewrite Ep. by split_and!.
Qed.

(** C16. Over any history of administrative and operational changes of the
    conduit no step faults, the flags of its CPU port end as last set, and every
    switch of the tree has been told exactly the sequence of values "admin and
    oper" went through, each change once and nothing else. *)
Theorem conduit_told_transitions cs w dp :
  dsa_ptr conduit = Some p -> netif_is_lag_master conduit = false ->
  conduit_ready w -> get_port w p = Some dp ->
  let a := dp_conduit_admin_up dp in let o := dp_conduit_oper_up dp in
  total (conduit_run cs) w (fun _ w' => conduit_ready w' /\
    (exists dp', get_port w' p = Some dp' /\
       (dp_conduit_admin_up dp', dp_conduit_oper_up dp') = final_flags a o cs) /\
    forall ds, ds ∈ w_nh w -> told (w_hw w') ds = told (w_hw w) ds ++ transitions a o cs).
Proof.
  intros Hptr Hlag. revert w dp. induction cs as [| c cs IH]; intros w dp Hr Hp a o.
  { apply total_ret. split_and!; [done | by exists dp |]. intros ds _. by rewrite app_nil_r. }
  pose proof (conduit_step_ok c w dp Hptr Hlag Hr Hp) as Hs. fold a o in Hs.
  cbn [conduit_run transitions final_flags]. destruct (flags_after a o c) as [a' o'].
  mstep (exact Hs).
  intros [] w1 (Hr1 & En1 & (dp1 & Hp1 & Ha1 & Ho1) & Ht1).
  eapply total_weaken; [| exact (IH w1 dp1 Hr1 Hp1)]. cbv zeta. rewrite Ha1, Ho1.
  intros [] w2 (Hr2 & Hf2 & Ht2). split_and!; [done | done |].
  intros ds Hds. rewrite Ht2 by (by rewrite En1). rewrite (Ht1 ds Hds). by rewrite <- app_assoc.
Qed.

End Conduit.

(** ** Two switches that listen *)

Module EventDemo.

#[export] Existing Instance refcount_int.

(** The chain as the kernel runs it. *)
Fixpoint call_chain {W I : Type} (call : Z -> I -> st W (Z * I)) (ret : Z) (l : list Z) (info : I) :
    st W (Z * I) :=
  match l with
  | [] => mret (ret, info)
  | nb :: l =>
      '(ret, info) ← call nb info;
      if Z.testbit ret 15 then mret (ret, info) else call_chain call ret l info
  end.

(** [NOTIFY_STOP_MASK | (NOTIFY_OK - err)], for errors that fit in 15 bits. *)
Definition from_errno (err : Z) : Z := if err =? 0 then 1 else 2 ^ 15 + (1 - err) * 2 ^ 16.
Definition to_errno (ret : Z) : Z := if ret <? 2 ^ 15 then 0 else 1 - ret / 2 ^ 16.

#[export] Instance notifier_demo : NotifierApi.
Proof.
  refine {| notifier_from_errno := from_errno; notifier_to_errno := to_errno;
    notify_stops r := Z.testbit r 15; NOTIFY_DONE := 0;
    raw_notifier_call_chain W I call l := call_chain call 0 l;
    raw_notifier_chain_register nb l :=
      if bool_decide (nb ∈ l) then (- EEXIST, l) else (0, l ++ [nb]);
    raw_notifier_chain_unregister nb l :=
      if bool_decide (nb ∈ l) then (0, List.remove Z.eq_dec nb l) else (- ENOENT, l) |}; try done.
  - intros err He. unfold from_errno. rewrite (proj2 (Z.eqb_neq _ _) He).
    rewrite Z.testbit_true by lia.
    replace (2 ^ 15 + (1 - err) * 2 ^ 16) with ((1 + (1 - err) * 2) * 2 ^ 15) by lia.
    rewrite Z.div_mul by lia. rewrite Z.add_comm, Z.mul_comm, Z.add_mod by lia.
    rewrite Z.mul_comm, Z.mod_mul by lia. done.
  - intros err He. unfold from_errno, to_errno. rewrite (proj2 (Z.eqb_neq err 0)) by lia.
    rewrite (proj2 (Z.ltb_ge _ _)) by lia. rewrite Z.div_add, Z.div_small by lia. lia.
  - intros W I call nb l info w. cbn [call_chain]. unfold mbind, st_bind.
    destruct (call nb info w) as [[[ret info'] w'] |]; [| done].
    destruct (Z.testbit ret 15), l; done.
  - intros nb l Hn. by rewrite bool_decide_false.
  - intros nb l Hn. by rewrite bool_decide_true.
  - intros nb l Hn. by rewrite bool_decide_true.
  - intros nb l Hn. by rewrite bool_decide_false.
Defined.

(** One conduit (200), of port 4 of switch 1; nothing is bridged. *)
#[export] Instance queries_demo : NetQueries := {|
  netif_is_lag_master _ := false;
  dsa_ptr c := if c =? 200 then Some (1, 4) else None;
  netif_is_bridge_master _ := false;
  netdev_master_upper_dev_get _ := None;
  br_mst_enabled _ := false;
  br_vlan_enabled _ := false;
  br_get_ageing_time _ := 30000;
  br_port_get_stp_state _ := 3;
  br_port_flag_is_set _ _ := false;
  br_vlan_get_info _ _ := - EINVAL;
  vlan_uppers _ := [];
  vlan_vids _ := [];
  synced_uc _ := [];
  synced_mc _ := [];
  iff_unicast_flt _ := true;
  iff_up _ := true;
  is_valid_ether_addr _ := true;
  br_mst_get_state _ _ := (- EINVAL, 0);
  br_mst_get_info _ _ := (- EINVAL, []);
  clock_t_to_jiffies t := t;
  jiffies_to_msecs t := 10 * t |}.

(** The announcements in the order they arrive. *)
Definition listener : dsa_switch_ops (list (Z * bool)) :=
  mkOps None None None None None None None None None None None None None None None None None None
    None None (Some (fun ds _ up h => h ++ [(ds, up)])) None None no_port_ops no_setup_ops.

Definition listening (i : Z) : dsa_switch (list (Z * bool)) :=
  mkDs i 5 false false 0 0 listener None true false true true 0 0 false.

Definition two_switches : world (list (Z * bool)) :=
  mkWorld (mkTree 0 2 LagsNull None 0 true 0 1)
    [set_conduit_admin_up false (SwitchDemo.demo_port 4 DSA_PORT_TYPE_CPU 200 None 0)]
    [] {[ 1 := listening 0; 2 := listening 1 ]} ∅ ∅ [1; 2] [] [] [].

Definition heard (h : list (Z * bool)) (ds : Z) : list bool :=
  snd <$> List.filter (fun e => fst e =? ds) h.

Lemma heard_snoc h ds up ds' : heard (h ++ [(ds, up)]) ds' = heard h ds' ++ (if ds =? ds' then [up] else []).
Proof.
  unfold heard. rewrite List.filter_app, fmap_app. f_equal. simpl. by destruct (ds =? ds').
Qed.

Lemma two_switches_ready : conduit_ready 200 (1, 4) heard two_switches.
Proof.
  split_and!.
  - apply (bool_decide_unpack _). reflexivity.
  - by eexists.
  - intros dp [= <-]. reflexivity.
  - intros ds Hds. cbn [w_nh two_switches] in Hds.
    apply elem_of_cons in Hds as [-> | Hds]; [| apply elem_of_cons in Hds as [-> | Hds]].
    + eexists _, _. split_and!; [reflexivity | reflexivity |]. intros. apply heard_snoc.
    + eexists _, _. split_and!; [reflexivity | reflexivity |]. intros. apply heard_snoc.
    + by apply not_elem_of_nil in Hds.
Qed.

(** The conduit comes up, loses its carrier, is set down and up again. *)
Lemma conduit_told_witness : exists w',
  conduit_run (fun _ _ => false) 200 [Admin true; Admin true; Oper false; Admin false; Admin true; Oper true]
    two_switches = Some (tt, w') /\
  heard (w_hw w') 1 = [true; false; true] /\ heard (w_hw w') 2 = [true; false; true].
Proof.
  pose proof (conduit_told_transitions (fun _ _ => false) 200 (1, 4) heard
    [Admin true; Admin true; Oper false; Admin false; Admin true; Oper true] two_switches
    _ eq_refl eq_refl two_switches_ready eq_refl) as G.
  cbv zeta in G. unfold total in G.
  destruct (conduit_run _ _ _ two_switches) as [[[] w'] |]; [| done].
  exists w'. destruct G as (_ & _ & Ht). split; [done |]. split.
  - rewrite Ht; [reflexivity | by left].
  - rewrite Ht; [reflexivity | right; by left].
Defined.

End EventDemo.
