(* ===== verification/DsaFrames.v ===== *)
(** * The way of a frame (DSA/tag.c, tag.h, user.c)

    What the DSA core does with a frame between the conduit and the user
    interfaces: [dsa_user_xmit] hands a frame to the tagger and to the conduit,
    [dsa_switch_rcv] takes one from the conduit, has the tagger strip it and hands
    it to the interface of its port.  The taggers are functions; [frame_round_trip]
    uses those of [SdsaTag].  What becomes of frames is a log: each entry is a
    frame given up. *)

From Stdlib Require Import ZArith Lia Bool.
From S2P Require Import Prelude.
From S2P Require Import Kernel.
From S2P Require Import DsaTypes.
From S2P Require Import DsaSwitch.
From S2P Require Import SdsaTag.
From S2P Require Import DsaEvent.

Definition PTP_CLASS_NONE : Z := 0.

(** A buffer with its VLAN tag beside the data and its metadata: is it of type
    METADATA_HW_PORT_MUX, and the port. *)
Record frame := mkFrame {
  fr_skb : sk_buff;
  fr_vlan : option Z;
  fr_dst : option (bool * Z);
}.
Definition set_skb (s : sk_buff) (f : frame) : frame := mkFrame s (fr_vlan f) (fr_dst f).
Definition set_vlan (v : option Z) (f : frame) : frame := mkFrame (fr_skb f) v (fr_dst f).
Definition drop_dst (f : frame) : frame := mkFrame (fr_skb f) (fr_vlan f) None.
Definition set_dev (d : option netdev) (s : sk_buff) : sk_buff := mkSkb (skb_buf s) (skb_off s) (skb_protocol s) d (skb_fwd_mark s).
Definition set_mark (m : bool) (s : sk_buff) : sk_buff := mkSkb (skb_buf s) (skb_off s) (skb_protocol s) (skb_dev s) m.
Definition set_protocol (q : Z) (s : sk_buff) : sk_buff := mkSkb (skb_buf s) (skb_off s) q (skb_dev s) (skb_fwd_mark s).

(** What becomes of a frame. *)
Inductive outcome :=
| Freed                                      (* kfree_skb, dev_kfree_skb_any *)
| ToUpper (f : frame)                        (* netif_rx: an upper device, not a port *)
| ToDriver (p : pid) (type : Z) (f : frame)  (* kept by port_rxtstamp *)
| ToStack (p : pid) (f : frame)              (* gro_cells_receive *)
| ToConduit (conduit : netdev) (f : frame)   (* dev_queue_xmit *)
| ToNetpoll (p : pid) (f : frame).           (* netpoll_send_skb *)

(** More of the kernel's primitives, and the drivers' operations on time stamps. *)
Class FrameApi (H : Type) := {
  skb_unshare : frame -> option frame;
  eth_type_trans : sk_buff -> netdev -> Z * sk_buff;
  user_port : netdev -> option pid;          (* dsa_user_dev_check, netdev_priv *)
  skb_ensure_writable_head_tail : frame -> netdev -> option frame;
  needed_tailroom : netdev -> Z;
  eth_skb_pad : frame -> frame;
  netpoll_tx_running : netdev -> bool;
  skb_hw_tstamp : frame -> bool;             (* SKBTX_HW_TSTAMP *)
  untag_bridge_pvid : Z -> bool;             (* flag of the switch *)
  port_rxtstamp : Z -> option (Z -> sk_buff -> Z -> H -> bool * H);
  port_txtstamp : Z -> option (Z -> sk_buff -> H -> H);
  ptp_classify_raw : sk_buff -> Z;
  br_vlan_get_proto : netdev -> Z * Z;       (* error, protocol *)
  br_vlan_get_pvid_rcu : netdev -> Z * Z;
  skb_vlan_untag : frame -> option frame;
  vlan_find_dev_deep : netdev -> Z -> Z -> bool;
  unshare_ok f f' : skb_unshare f = Some f' -> fr_dst f' = fr_dst f /\ fr_vlan f' = fr_vlan f /\
    skb_protocol (fr_skb f') = skb_protocol (fr_skb f) /\ forall l, received_frame (fr_skb f) l -> received_frame (fr_skb f') l;
  eth_type_trans_ok s dev : ETH_HLEN <= skb_len s -> snd (eth_type_trans s dev) = set_off (skb_off s + ETH_HLEN) s;
  writable_ok f dev f' : skb_ensure_writable_head_tail f dev = Some f' ->
    skb_from (fr_skb f') 0 = skb_from (fr_skb f) 0 /\ skb_protocol (fr_skb f') = skb_protocol (fr_skb f);
  pad_ok f : exists k, skb_from (fr_skb (eth_skb_pad f)) 0 = skb_from (fr_skb f) 0 ++ repeat 0 k /\
    skb_protocol (fr_skb (eth_skb_pad f)) = skb_protocol (fr_skb f);
}.

Record traffic (H : Type) := mkTraffic { tf_world : world H; tf_log : list outcome }.
#[global] Arguments mkTraffic {H}.
#[global] Arguments tf_world {H}.
#[global] Arguments tf_log {H}.

Section Frames.
Context {H : Type} `{RefcountApi, NotifierApi, NetQueries, SkbApi, !FrameApi H}.
Abbreviation TM := (st (traffic H)).
(** The tagger of the CPU port: on transmission with the numbers of switch and
    port, on reception with the search for a user interface. *)
Context (xmit : Z -> Z -> sk_buff -> option (option sk_buff)).
Context (rcv : (Z -> Z -> option netdev) -> sk_buff -> option (option sk_buff)).

Definition in_world {A} (m : st (world H) A) : TM A := fun s =>
  '(a, w) ← m (tf_world s); Some (a, mkTraffic w (tf_log s)).
Definition give (o : outcome) : TM unit := modify (fun s => mkTraffic (tf_world s) (tf_log s ++ [o])).

(** ** Reception *)

(** Under a bridge that does not filter VLANs, frames of the port's own VLAN lose
    their tag. *)
Definition dsa_untag_bridge_pvid (p : pid) (dev : netdev) (f : frame) : TM (option frame) :=
  dp ← in_world (port_of p);
  w ← (s ← get_st; mret (tf_world s));
  match dsa_port_bridge_dev_get w dp with
  | None => mret (Some f)
  | Some br =>
      if br_vlan_enabled br then mret (Some f)
      else
        let '(err, proto) := br_vlan_get_proto br in
        if negb (err =? 0) then mret (Some f)
        else
          let o := match fr_vlan f with
                   | None => if skb_protocol (fr_skb f) =? proto then skb_vlan_untag f else Some f
                   | Some _ => Some f
                   end in
          match o with
          | None => mret None
          | Some f =>
              match fr_vlan f with
              | None => mret (Some f)
              | Some tci =>
                  let vid := Z.land tci 0xfff in
                  let '(err, pvid) := br_vlan_get_pvid_rcu dev in
                  if negb (err =? 0) then mret (Some f)
                  else if negb (vid =? pvid) then mret (Some f)
                  else if vlan_find_dev_deep br proto vid then mret (Some f)
                  else mret (Some (set_vlan None f))
              end
          end
  end.

Definition dsa_default_offload_fwd_mark (p : pid) (s : sk_buff) : TM sk_buff :=
  dp ← in_world (port_of p); mret (set_mark (bool_decide (is_Some (dp_bridge dp))) s).

(** Does the driver keep the frame until it knows its time stamp. *)
Definition dsa_skb_defer_rx_timestamp (p : pid) (f : frame) : TM bool :=
  match port_rxtstamp (fst p) with
  | None => mret false
  | Some port_rxtstamp =>
      if skb_off (fr_skb f) <? ETH_HLEN then mret false
      else
        let type := ptp_classify_raw (set_off (skb_off (fr_skb f) - ETH_HLEN) (fr_skb f)) in
        if type =? PTP_CLASS_NONE then mret false
        else
          kept ← in_world (call_fun (port_rxtstamp (snd p) (fr_skb f) type));
          if (kept : bool) then _ ← give (ToDriver p type f); mret true else mret false
  end.

(** The tagger, or the port that came with the frame. *)
Definition strip_tag (f : frame) : TM (option frame) :=
  w ← (s ← get_st; mret (tf_world s));
  match fr_dst f with
  | Some (true, port) =>
      let f := drop_dst f in
      match dsa_conduit_find_user w 0 port with
      | None => mret None
      | Some user =>
          p ← deref (user_port user);
          s ← dsa_default_offload_fwd_mark p (set_dev (Some user) (fr_skb f));
          mret (Some (set_skb s f))
      end
  | _ => o ← deref (rcv (dsa_conduit_find_user w) (fr_skb f)); mret ((fun s => set_skb s f) <$> o)
  end.

Definition deliver (cpu_dp : pid) (f : frame) : TM unit :=
  s ← deref (skb_push (fr_skb f) ETH_HLEN);
  dev ← deref (skb_dev s);
  let '(protocol, s) := eth_type_trans s dev in
  let f := set_skb (set_protocol protocol s) f in
  match user_port dev with
  | None => give (ToUpper f)
  | Some p =>
      o ← (if untag_bridge_pvid (fst cpu_dp) then dsa_untag_bridge_pvid p dev f else mret (Some f));
      match o with
      | None => give Freed
      | Some f =>
          kept ← dsa_skb_defer_rx_timestamp p f;
          if (kept : bool) then mret tt else give (ToStack p f)
      end
  end.

Definition dsa_switch_rcv (f : frame) (dev : netdev) : TM unit :=
  match dsa_ptr dev with
  | None => give Freed
  | Some cpu_dp =>
      match skb_unshare f with
      | None => mret tt
      | Some f =>
          nskb ← strip_tag f;
          match nskb with
          | None => give Freed
          | Some f => deliver cpu_dp f
          end
      end
  end.

(** ** Transmission *)

Definition dsa_skb_tx_timestamp (p : pid) (f : frame) : TM unit :=
  if negb (skb_hw_tstamp f) then mret tt
  else match port_txtstamp (fst p) with
       | None => mret tt
       | Some port_txtstamp => in_world (call_void (Some (port_txtstamp (snd p) (fr_skb f))))
       end.

Definition dsa_enqueue_skb (p : pid) (dev : netdev) (f : frame) : TM unit :=
  if netpoll_tx_running dev then give (ToNetpoll p f)
  else
    dp ← in_world (port_of p);
    conduit ← in_world (queried (fun w => dsa_port_to_conduit w dp));
    give (ToConduit conduit (set_skb (set_dev (Some conduit) (fr_skb f)) f)).

Definition dsa_user_xmit (f : frame) (dev : netdev) : TM unit :=
  p ← deref (user_port dev);
  _ ← dsa_skb_tx_timestamp p f;
  match skb_ensure_writable_head_tail f dev with
  | None => give Freed
  | Some f =>
      let f := if negb (needed_tailroom dev =? 0) then eth_skb_pad f else f in
      d ← in_world (get_ds (fst p));
      o ← deref (xmit (ds_index d) (snd p) (fr_skb f));
      match o with
      | None => give Freed
      | Some s => dsa_enqueue_skb p dev (set_skb s f)
      end
  end.

End Frames.

(** ** One frame in, one out *)

Section Once.
Context {H : Type} `{RefcountApi, NotifierApi, NetQueries, SkbApi, !FrameApi H}.
Context (xmit : Z -> Z -> sk_buff -> option (option sk_buff)).
Context (rcv : (Z -> Z -> option netdev) -> sk_buff -> option (option sk_buff)).
Implicit Types (s : traffic H) (f : frame).

(** The log grows by [n] entries. *)
Definition logs {A} (n : A -> nat) (m : st (traffic H) A) : Prop := forall s a s', m s = Some (a, s') ->
  exists l, tf_log s' = tf_log s ++ l /\ length l = n a.
Abbreviation silent := (logs (fun _ => O)).

Lemma logs_ret {A} (a : A) n : n a = O -> logs n (mret a).
Proof using. intros En s b s' [= <- <-]. exists []. by rewrite app_nil_r. Qed.
Lemma logs_give o : logs (fun _ => 1%nat) (give o).
Proof using. intros s a s' [= <- <-]. by exists [o]. Qed.
Lemma silent_bind {A B} (m : st (traffic H) A) (k : A -> st (traffic H) B) n : silent m -> (forall a, logs n (k a)) -> logs n (m ≫= k).
Proof using.
  intros Hm Hk s b s' E. unfold mbind, st_bind in E. destruct (m s) as [[a s1] |] eqn:Em; [| done].
  destruct (Hm _ _ _ Em) as (l1 & E1 & N1), (Hk _ _ _ _ E) as (l2 & E2 & N2). apply nil_length_inv in N1. subst l1.
  rewrite app_nil_r in E1. exists l2. by rewrite E2, E1.
Qed.
Lemma silent_world {A} (m : st (world H) A) : silent (in_world m).
Proof using.
  intros s a s' E. unfold in_world in E. cbn in E. destruct (m (tf_world s)) as [[b w] |]; [| done]. injection E as <- <-.
  exists []. by rewrite app_nil_r.
Qed.
Lemma silent_deref {A} (o : option A) : silent (deref o).
Proof using. intros s a s' E. unfold deref in E. destruct o; [| done]. injection E as <- <-. exists []. by rewrite app_nil_r. Qed.
Lemma silent_get : silent (get_st (W := traffic H)).
Proof using. intros s a s' [= <- <-]. exists []. by rewrite app_nil_r. Qed.

Ltac silent := repeat first
  [ apply silent_bind; [| intros ?] | apply silent_world | apply silent_deref | apply silent_get | apply logs_give
  | by apply logs_ret | case_match ].

Lemma defer_logs p f : logs (fun kept : bool => if kept then 1%nat else O) (dsa_skb_defer_rx_timestamp p f).
Proof using.
  unfold dsa_skb_defer_rx_timestamp. repeat first [by apply logs_ret | case_match].
  apply silent_bind; [apply silent_world |]. intros [|]; [| by apply logs_ret].
  intros s a s' E. unfold mbind, st_bind in E. cbn in E. injection E as <- <-. by eexists [_].
Qed.

Lemma deliver_logs cpu_dp f : logs (fun _ => 1%nat) (deliver cpu_dp f).
Proof using.
  unfold deliver. apply silent_bind; [apply silent_deref |]. intros s. apply silent_bind; [apply silent_deref |]. intros dev.
  destruct (eth_type_trans s dev) as [q s1]. case_match; [| apply logs_give].
  apply silent_bind; [unfold dsa_untag_bridge_pvid; silent |]. intros [f' |]; [| apply logs_give].
  intros t a t' E. unfold mbind, st_bind in E. destruct (dsa_skb_defer_rx_timestamp _ f' t) as [[kept t1] |] eqn:Ed; [| done].
  destruct (defer_logs _ _ _ _ _ Ed) as (l & El & Nl). destruct kept.
  - injection E as <- <-. by exists l.
  - apply nil_length_inv in Nl. subst l. rewrite app_nil_r in El. destruct (logs_give _ _ _ _ E) as (l & El' & Nl).
    exists l. by rewrite El', El.
Qed.

(** Every frame that is received, or sent, is given up exactly once, but for one
    that [skb_unshare] has already freed; whatever the tagger does. *)
Theorem frames_once f dev s s' :
  (dsa_switch_rcv rcv f dev s = Some (tt, s') -> (dsa_ptr dev <> None /\ skb_unshare f = None /\ tf_log s' = tf_log s) \/
     exists o, tf_log s' = tf_log s ++ [o]) /\
  (dsa_user_xmit xmit f dev s = Some (tt, s') -> exists o, tf_log s' = tf_log s ++ [o]).
Proof using.
  assert (Hone : forall m : st (traffic H) unit, logs (fun _ => 1%nat) m -> m s = Some (tt, s') -> exists o, tf_log s' = tf_log s ++ [o]).
  { intros m Hm E. destruct (Hm _ _ _ E) as (l & El & Nl). destruct l as [| o [|]]; try done. by exists o. }
  split.
  - unfold dsa_switch_rcv. destruct (dsa_ptr dev) as [cpu |]; [| by intros [= <-]; right; eexists].
    destruct (skb_unshare f) as [f' |]; [| by intros [= <-]; left]. intros E. right. revert E. apply Hone.
    apply silent_bind; [unfold strip_tag, dsa_default_offload_fwd_mark; silent |].
    intros [f'' |]; [apply deliver_logs | apply logs_give].
  - apply Hone. unfold dsa_user_xmit, dsa_skb_tx_timestamp, dsa_enqueue_skb. silent.
Qed.

End Once.

(** ** Through the switch and back *)

Section Trip.
Context {H : Type} `{RefcountApi, NotifierApi, NetQueries, SkbApi, !FrameApi H}.
Implicit Types (s : traffic H) (w : world H).

(** A user port of switch 0 of a tree, its interface and its conduit. *)
Record linked w (p cpu : pid) (dev conduit : netdev) : Prop := {
  lk_port : exists dp, get_port w p = Some dp /\ dsa_port_to_conduit w dp = Some conduit;
  lk_switch : exists d, w_switches w !! fst p = Some d /\ ds_index d = 0;
  lk_range : 0 <= snd p < 32;
  lk_find : dsa_conduit_find_user w 0 (snd p) = Some dev;
  lk_user : user_port dev = Some p;
  lk_ptr : dsa_ptr conduit = Some cpu;
  lk_untag : untag_bridge_pvid (fst cpu) = false;
  lk_poll : netpoll_tx_running dev = false;
}.

(** [x] is the frame as the stack gets it: the header behind the data. *)
Definition delivered (dev : netdev) (l : list Z) (x : frame) : Prop :=
  skb_dev (fr_skb x) = Some dev /\ skb_fwd_mark (fr_skb x) = true /\ received_frame (fr_skb x) l.

Lemma run_bind {W A B} (m : st W A) (k : A -> st W B) (t : W) a t' : m t = Some (a, t') -> (m ≫= k) t = k a t'.
Proof. intros E. unfold mbind, st_bind. by rewrite E. Qed.

(** What is below the driver may change on the way, the tree does not. *)
Definition same_tree w w' : Prop := exists h, w' = set_hw w h.

Lemma defer_runs p x s : exists (kept : bool) h, 
  dsa_skb_defer_rx_timestamp p x s = Some (kept, mkTraffic (set_hw (tf_world s) h)
    (tf_log s ++ if kept then [ToDriver p (ptp_classify_raw (set_off (skb_off (fr_skb x) - ETH_HLEN) (fr_skb x))) x] else [])).
Proof.
  assert (Hno : (mret false : st (traffic H) bool) s = Some (false, mkTraffic (set_hw (tf_world s) (w_hw (tf_world s))) (tf_log s ++ []))).
  { rewrite app_nil_r. by destruct s as [[] ?]. }
  unfold dsa_skb_defer_rx_timestamp. destruct (port_rxtstamp (fst p)) as [g |]; [| by eexists false, _].
  destruct (_ <? _); [by eexists false, _ |]. destruct (_ =? _); [by eexists false, _ |].
  unfold in_world, call_fun, mbind, st_bind. cbn. destruct (g _ _ _ _) as [kept h]. exists kept, h.
  destruct kept; [done |]. by rewrite app_nil_r.
Qed.

(** From the buffer that the tagger has stripped to the stack. *)
Lemma deliver_runs w p cpu dev conduit l x s : linked w p cpu dev conduit -> delivered dev l x ->
  ETH_HLEN <= Z.of_nat (length l) ->
  exists h o y, deliver cpu x s = Some (tt, mkTraffic (set_hw (tf_world s) h) (tf_log s ++ [o])) /\ delivered dev l y /\
    (o = ToStack p y \/ exists type, o = ToDriver p type y).
Proof.
  intros Hl (Hd & Hm & [[Ho1 Ho2] Hf]) Hlen. unfold deliver. rewrite skb_push_ok by (unfold ETH_HLEN in *; lia).
  erewrite run_bind by done. erewrite run_bind; [| unfold deref; cbn; by rewrite Hd].
  pose proof (eth_type_trans_ok (set_off (skb_off (fr_skb x) - ETH_HLEN) (fr_skb x)) dev) as E.
  unfold skb_len in E. cbn [skb_buf skb_off set_off] in E. specialize (E ltac:(lia)).
  destruct (eth_type_trans _ dev) as [q s1]. cbn [snd] in E.
  replace (skb_off (fr_skb x) - ETH_HLEN + ETH_HLEN) with (skb_off (fr_skb x)) in E by lia.
  set (y := set_skb (set_protocol q s1) x). rewrite (lk_user _ _ _ _ _ Hl), (lk_untag _ _ _ _ _ Hl).
  assert (Hy : delivered dev l y) by (unfold y; rewrite E; split_and!; [exact Hd | exact Hm | split; [exact (conj Ho1 Ho2) | exact Hf]]).
  clearbody y. erewrite run_bind by done. destruct (defer_runs p y s) as (kept & h & Ek).
  rewrite (run_bind _ _ _ _ _ Ek). destruct kept.
  - eexists h, _, y. split; [done |]. split; [done |]. right. by eexists.
  - exists h, (ToStack p y), y. split; [| by split; [| left]]. cbn. by rewrite app_nil_r.
Qed.

Lemma good_padded (s s' : sk_buff) mac rest k : good_frame s mac rest -> skb_from s' 0 = skb_from s 0 ++ repeat 0 k ->
  skb_protocol s' = skb_protocol s -> good_frame s' mac (rest ++ repeat 0 k).
Proof.
  intros (Hf & Hm & Hb & Hr) E Ep. split_and!; [by rewrite E, Hf, app_assoc | done | |].
  - apply Forall_app. split; [done |]. apply Forall_forall. intros x Hx%list_elem_of_In%List.repeat_spec. subst. done.
  - rewrite Ep. destruct (_ =? _).
    + destruct Hr as (t0 & t1 & rest' & -> & Hl). exists t0, t1, (rest' ++ repeat 0 k). split; [done |]. rewrite length_app. lia.
    + rewrite length_app. lia.
Qed.

Lemma world_runs {A} (m : st (world H) A) w (log : list outcome) a w' : m w = Some (a, w') -> in_world m (mkTraffic w log) = Some (a, mkTraffic w' log).
Proof. intros E. unfold in_world. cbn. by rewrite E. Qed.
Lemma queried_runs {A} (g : world H -> option A) w a : g w = Some a -> queried g w = Some (a, w).
Proof. intros E. unfold queried, mbind, st_bind, get_st, deref. by rewrite E. Qed.
Lemma tx_timestamp_runs p f s : exists h, dsa_skb_tx_timestamp p f s = Some (tt, mkTraffic (set_hw (tf_world s) h) (tf_log s)).
Proof.
  unfold dsa_skb_tx_timestamp. destruct (skb_hw_tstamp f); cbn [negb]; [destruct (port_txtstamp (fst p)) as [g |] |].
  - by eexists.
  - exists (w_hw (tf_world s)). by destruct s as [[] ?].
  - exists (w_hw (tf_world s)). by destruct s as [[] ?].
Qed.

(** C25. A frame through the switch and back: what a user interface sends, the
    conduit gets with a tag, once; when the switch turns it around, the conduit
    hands it to that same interface with every byte of the original, padded with
    zeros at most, and marked as already forwarded, unless the driver keeps it for
    its time stamp. *)
Theorem frame_round_trip w (log : list outcome) p cpu dev conduit f f1 (s1 : sk_buff) mac rest :
  linked w p cpu dev conduit -> good_frame (fr_skb f) mac rest ->
  skb_ensure_writable_head_tail f dev = Some f1 ->
  skb_cow_head (fr_skb (if negb (needed_tailroom dev =? 0) then eth_skb_pad f1 else f1))
    (if skb_protocol (fr_skb f) =? ETH_P_8021Q then DSA_HLEN else SDSA_HLEN) = Some s1 ->
  exists h k sent,
    dsa_user_xmit sdsa_xmit f dev (mkTraffic w log) = Some (tt, mkTraffic (set_hw w h) (log ++ [ToConduit conduit sent])) /\
    forall w' log' r r', linked w' p cpu dev conduit -> fr_dst r = None -> skb_unshare r = Some r' ->
      received_frame (fr_skb r) (to_cpu (skb_from (fr_skb sent) 0)) ->
      exists h' o x, dsa_switch_rcv sdsa_rcv r conduit (mkTraffic w' log') = Some (tt, mkTraffic (set_hw w' h') (log' ++ [o])) /\
        delivered dev (mac ++ rest ++ repeat 0 k) x /\ (o = ToStack p x \/ exists type, o = ToDriver p type x).
Proof.
  intros Hl Hg Hw. set (f2 := if negb (needed_tailroom dev =? 0) then eth_skb_pad f1 else f1). intros Hc.
  destruct (writable_ok _ _ _ Hw) as [E1 P1].
  assert (Hpad : exists k, skb_from (fr_skb f2) 0 = skb_from (fr_skb f) 0 ++ repeat 0 k /\ skb_protocol (fr_skb f2) = skb_protocol (fr_skb f)).
  { unfold f2. destruct (negb _); [destruct (pad_ok f1) as (k & E & P); exists k; by rewrite E, E1, P |].
    exists O. by rewrite app_nil_r. }
  destruct Hpad as (k & E2 & P2). pose proof (good_padded _ _ _ _ _ Hg E2 P2) as Hg2.
  destruct (lk_port _ _ _ _ _ Hl) as (dp & Hdp & Hcd), (lk_switch _ _ _ _ _ Hl) as (d & Hd & Hi).
  rewrite <- P2 in Hc.
  assert (Htrip : forall w', linked w' p cpu dev conduit -> exists sent, sdsa_xmit (ds_index d) (snd p) (fr_skb f2) = Some (Some sent) /\
    forall r, received_frame r (to_cpu (skb_from sent 0)) -> exists r', sdsa_rcv (dsa_conduit_find_user w') r = Some (Some r') /\
      skb_dev r' = Some dev /\ skb_fwd_mark r' = true /\ received_frame r' (mac ++ rest ++ repeat 0 k)).
  { intros w' Hl'. apply (sdsa_roundtrip (dsa_conduit_find_user w') _ _ _ _ _ _ _ Hg2 Hc); [apply Hl | by rewrite Hi | apply Hl']. }
  destruct (Htrip w Hl) as (sent & Ex & _), (tx_timestamp_runs p f (mkTraffic w log)) as (h & Eh).
  exists h, k, (set_skb (set_dev (Some conduit) sent) f2). split.
  - unfold dsa_user_xmit. erewrite run_bind; [| unfold deref; by rewrite (lk_user _ _ _ _ _ Hl)].
    rewrite (run_bind _ _ _ _ _ Eh), Hw. fold f2. cbn [tf_world tf_log].
    erewrite run_bind; [| by apply world_runs, (queried_runs (fun w => w_switches w !! fst p))].
    erewrite run_bind; [| unfold deref; by rewrite Ex]. unfold dsa_enqueue_skb. rewrite (lk_poll _ _ _ _ _ Hl).
    erewrite run_bind; [| by apply world_runs, (queried_runs (fun w => get_port w p))].
    erewrite run_bind; [| by apply world_runs, queried_runs]. done.
  - intros w' log' r r' Hl' Hdst Hun Hr. unfold dsa_switch_rcv. rewrite (lk_ptr _ _ _ _ _ Hl'), Hun.
    destruct (unshare_ok _ _ Hun) as (Ed & _ & _ & Hkeep). destruct (Htrip w' Hl') as (sent' & Ex' & Hback).
    assert (sent' = sent) as -> by congruence. destruct (Hback (fr_skb r') (Hkeep _ Hr)) as (x & Er & Hx).
    erewrite run_bind; [| unfold strip_tag, deref, mbind, st_bind; cbn; by rewrite Ed, Hdst, Er].
    destruct (deliver_runs w' p cpu dev conduit (mac ++ rest ++ repeat 0 k) (set_skb x r') (mkTraffic w' log')) as (h' & o & y & E & Hy & Ho); [done | exact Hx | |].
    { destruct Hg as (_ & Hm & _ & Hrest). unfold ETH_HLEN. rewrite !length_app, Hm. destruct (_ =? _).
      + destruct Hrest as (t0 & t1 & rest' & -> & Hrl). rewrite length_app. simpl. lia.
      + lia. }
    exists h', o, y. done.
Qed.

End Trip.

Module FramesDemo.
Import EventDemo.
#[local] Existing Instance skb_list.

#[export] Instance frames_demo : FrameApi Z.
Proof.
  refine {| skb_unshare f := Some f; eth_type_trans s _ := (0x800, set_off (skb_off s + ETH_HLEN) s);
    user_port d := if d =? 77 then Some (1, 3) else None; skb_ensure_writable_head_tail f _ := Some f;
    needed_tailroom _ := 0; eth_skb_pad f := f; netpoll_tx_running _ := false; skb_hw_tstamp _ := true;
    untag_bridge_pvid _ := false; port_rxtstamp _ := None; port_txtstamp _ := Some (fun _ _ h => h + 1);
    ptp_classify_raw _ := 0; br_vlan_get_proto _ := (0, 0x8100); br_vlan_get_pvid_rcu _ := (0, 1);
    skb_vlan_untag f := Some f; vlan_find_dev_deep _ _ _ := false |}.
  - intros f f' [= <-]. by split_and!.
  - done.
  - intros f dev f' [= <-]. done.
  - intros f. exists O. by rewrite app_nil_r.
Defined.

Definition tagged_port (i : Z) (t : dsa_port_type) (dev : netdev) (c : option pid) : dsa_port :=
  mkPort 1 i t (Some dev) c 3 false false true true false 0 None None None [] [] [] false true None false.
Definition frames_world : world Z :=
  mkWorld (mkTree 0 1 LagsNull None 0 true 0 0)
    [tagged_port 3 DSA_PORT_TYPE_USER 77 (Some (1, 4)); tagged_port 4 DSA_PORT_TYPE_CPU 200 None]
    [] {[ 1 := mkDs 0 5 false false 0 0 (mkOps None None None None None None None None None None None None None None None None
      None None None None None None None no_port_ops no_setup_ops) None true false true false 0 0 false ]} ∅ ∅ [1] 0 [] [].

Lemma frames_linked : linked frames_world (1, 3) (1, 4) 77 200.
Proof. split; try done; by eexists. Qed.

(** A VLAN-tagged frame. *)
Lemma frame_round_trip_witness : exists h k sent h' o x,
  dsa_user_xmit sdsa_xmit (mkFrame demo_vlan_skb None None) 77 (mkTraffic frames_world []) =
    Some (tt, mkTraffic (set_hw frames_world h) [ToConduit 200 sent]) /\
  dsa_switch_rcv sdsa_rcv (mkFrame (mkSkb (to_cpu (skb_from (fr_skb sent) 0)) 14 ETH_P_XDSA None false) None None) 200
    (mkTraffic frames_world []) = Some (tt, mkTraffic (set_hw frames_world h') [o]) /\
  delivered 77 (demo_mac ++ [0x81; 0x00; 0x20; 0x64; 0x08; 0x00; 0x45] ++ repeat 0 k) x /\
  (o = ToStack (1, 3) x \/ exists type, o = ToDriver (1, 3) type x).
Proof.
  destruct (frame_round_trip frames_world [] (1, 3) (1, 4) 77 200 (mkFrame demo_vlan_skb None None) (mkFrame demo_vlan_skb None None)
    demo_vlan_skb demo_mac [0x81; 0x00; 0x20; 0x64; 0x08; 0x00; 0x45] frames_linked) as (h & k & sent & Ex & Hback).
  - split_and!; [done | done | repeat constructor; lia |]. exists 0x20, 0x64, [0x08; 0x00; 0x45]. split; [done | simpl; lia].
  - reflexivity.
  - reflexivity.
  - set (r := mkFrame (mkSkb (to_cpu (skb_from (fr_skb sent) 0)) 14 ETH_P_XDSA None false) None None).
    destruct (Hback frames_world [] r r frames_linked eq_refl eq_refl) as (h' & o & x & Er & Hx & Ho).
    + vm_compute in Ex. injection Ex as _ <-. split; vm_compute; [by split | reflexivity].
    + exists h, k, sent, h', o, x. exact (conj Ex (conj Er (conj Hx Ho))).
Defined.

End FramesDemo.
