(* ===== verification/DsaSafe.v ===== *)
(** * No event faults in a well-formed tree

    A typing discipline for the handlers of [DsaSwitch], [Dsa8021q] and
    [DsaEvent].  The shape of a tree is all of it but the hardware, the
    allocator and the counted lists.  In a tree whose shape is well formed
    (switches known and routed to one another, CPU ports assigned, contexts
    live) every event about its ports is handled by every switch without a null
    or dangling pointer, and leaves the shape as it was. *)

From Stdlib Require Import ZArith Lia Bool.
From S2P Require Import Prelude.
From S2P Require Import Kernel.
From S2P Require Import DsaTypes.
From S2P Require Import DsaSwitch.
From S2P Require Import Dsa8021q.
From S2P Require Import DsaEvent.

Section Shape.
Context {H : Type}.
Implicit Types (w : world H).

(** ** Shapes *)

Definition strip_port (dp : dsa_port) : dsa_port :=
  mkPort (dp_ds dp) (dp_index dp) (dp_type dp) (dp_netdev dp) (dp_cpu_dp dp) 0 false false false
    false (dp_cpu_port_in_lag dp) 0 None (dp_lag dp) (dp_hsr_dev dp) [] [] [] false (dp_setup dp)
    (dp_dn dp) (dp_pl dp).
Definition strip_ds (d : dsa_switch H) : dsa_switch H :=
  set_ds_vlan_filtering false
    (set_ctx ((fun c => mkCtx [] (ctx_proto c) (ctx_freed c)) <$> ds_tag_8021q_ctx d) d).
Definition strip_lag (g : dsa_lag) : dsa_lag := mkLag (lag_dev g) (lag_id g) [] (lag_refcount g).

(** The projections a stripped record keeps. *)
Lemma strip_port_fields dp dq : strip_port dp = strip_port dq ->
  dp_ds dp = dp_ds dq /\ dp_index dp = dp_index dq /\ dp_type dp = dp_type dq /\
  dp_cpu_dp dp = dp_cpu_dp dq /\ dp_lag dp = dp_lag dq /\
  dp_cpu_port_in_lag dp = dp_cpu_port_in_lag dq /\ dp_netdev dp = dp_netdev dq.
Proof. destruct dp, dq. cbn. intros E. injection E. by intros; subst. Qed.

Lemma strip_port_id dp dq : strip_port dp = strip_port dq -> dp_id dp = dp_id dq.
Proof. intros (E1 & E2 & _)%strip_port_fields. unfold dp_id. congruence. Qed.

Lemma strip_ds_fields d d' : strip_ds d = strip_ds d' ->
  ds_index d = ds_index d' /\ ds_num_ports d = ds_num_ports d' /\ ds_ops d = ds_ops d' /\
  (forall c, ds_tag_8021q_ctx d = Some c -> exists c', ds_tag_8021q_ctx d' = Some c' /\
     ctx_freed c = ctx_freed c').
Proof.
  intros E. split_and!.
  - exact (f_equal ds_index E).
  - exact (f_equal ds_num_ports E).
  - exact (f_equal ds_ops E).
  - intros c Ec. pose proof (f_equal ds_tag_8021q_ctx E) as E2. cbn in E2. rewrite Ec in E2.
    destruct (ds_tag_8021q_ctx d') as [c' |]; [| done]. exists c'. split; [done |]. cbn in E2. congruence.
Qed.

Lemma strip_port_proj dp : dp_ds (strip_port dp) = dp_ds dp /\ dp_index (strip_port dp) = dp_index dp /\
  dp_id (strip_port dp) = dp_id dp.
Proof. done. Qed.

#[local] Opaque strip_port strip_ds strip_lag.

Definition shape w :=
  (w_tree w, strip_port <$> w_ports w, w_rtable w, strip_ds <$> w_switches w,
   strip_lag <$> w_lags w, w_nh w).

(** Which port belongs to which bridge object. *)
Definition strip_bridge (o : dsa_bridge) : dsa_bridge := mkBridge (br_dev o) (br_num o) false (br_refcount o).
Definition groups w :=
  ((fun dp => (dp_id dp, dp_bridge dp)) <$> w_ports w, strip_bridge <$> w_bridges w).

Definition same_shape w w' : Prop := shape w = shape w'.
#[export] Instance same_shape_equiv : Equivalence same_shape.
Proof. split; red; unfold same_shape; congruence. Qed.

Lemma shape_inv w w' : same_shape w w' ->
  w_tree w = w_tree w' /\ strip_port <$> w_ports w = strip_port <$> w_ports w' /\
  w_rtable w = w_rtable w' /\ strip_ds <$> w_switches w = strip_ds <$> w_switches w' /\
  strip_lag <$> w_lags w = strip_lag <$> w_lags w' /\ w_nh w = w_nh w'.
Proof. unfold same_shape, shape. intros E. by injection E. Qed.

Lemma find_strip (g : dsa_port -> bool) l l' : (forall dp, g (strip_port dp) = g dp) ->
  strip_port <$> l = strip_port <$> l' ->
  strip_port <$> List.find g l = strip_port <$> List.find g l'.
Proof.
  intros Hg. revert l'. induction l as [| x l IH]; intros [| y l'] E; try done.
  rewrite !fmap_cons in E. apply cons_eq_inj in E as [E1 E2]. cbn [List.find].
  rewrite <- (Hg x), E1, (Hg y). destruct (g y); [cbn; by rewrite E1 | by apply IH].
Qed.

Lemma filter_strip (g : dsa_port -> bool) l l' : (forall dp, g (strip_port dp) = g dp) ->
  strip_port <$> l = strip_port <$> l' ->
  strip_port <$> List.filter g l = strip_port <$> List.filter g l'.
Proof.
  intros Hg. revert l'. induction l as [| x l IH]; intros [| y l'] E; try done.
  rewrite !fmap_cons in E. apply cons_eq_inj in E as [E1 E2]. cbn [List.filter].
  rewrite <- (Hg x), E1, (Hg y). destruct (g y); [| by apply IH].
  rewrite !fmap_cons. f_equal; [done | by apply IH].
Qed.

Lemma get_port_shape w w' p : same_shape w w' ->
  strip_port <$> get_port w p = strip_port <$> get_port w' p.
Proof. intros (_ & E & _)%shape_inv. by apply find_strip. Qed.

Lemma dsa_to_port_shape w w' ds p : same_shape w w' ->
  strip_port <$> dsa_to_port w ds p = strip_port <$> dsa_to_port w' ds p.
Proof. rewrite !dsa_to_port_get. apply get_port_shape. Qed.

Lemma switch_ports_shape w w' ds : same_shape w w' ->
  strip_port <$> switch_ports w ds = strip_port <$> switch_ports w' ds.
Proof. intros (_ & E & _)%shape_inv. by apply filter_strip. Qed.

Lemma get_ds_shape w w' ds : same_shape w w' ->
  strip_ds <$> w_switches w !! ds = strip_ds <$> w_switches w' !! ds.
Proof. intros (_ & _ & _ & E & _)%shape_inv. rewrite <- !lookup_fmap. by rewrite E. Qed.

Lemma lag_shape w w' l : same_shape w w' -> strip_lag <$> w_lags w !! l = strip_lag <$> w_lags w' !! l.
Proof. intros (_ & _ & _ & _ & E & _)%shape_inv. rewrite <- !lookup_fmap. by rewrite E. Qed.

(** A result up to stripping, either way. *)
Lemma strip_some {A} (g : A -> A) (o o' : option A) a : g <$> o = g <$> o' -> o = Some a ->
  exists a', o' = Some a' /\ g a = g a'.
Proof. intros E ->. destruct o' as [a' |]; [| done]. exists a'. split; [done |]. by apply (inj Some) in E. Qed.

(** ** Queries depend on the shape only *)

Lemma index_of_shape w w' ds : same_shape w w' -> index_of w ds = index_of w' ds.
Proof.
  intros E%(get_ds_shape w w' ds). unfold index_of.
  destruct (w_switches w !! ds), (w_switches w' !! ds); cbn in *; try done.
  apply (inj Some) in E. f_equal. by apply strip_ds_fields in E as [? _].
Qed.

Lemma routing_shape w w' ds dev : same_shape w w' -> dsa_routing_port w ds dev = dsa_routing_port w' ds dev.
Proof.
  intros Hs. unfold dsa_routing_port. pose proof (shape_inv _ _ Hs) as (_ & _ & -> & _).
  assert (Ef : forall l, List.find (fun dl : pid * pid => (fst (fst dl) =? ds) &&
              bool_decide (index_of w (fst (snd dl)) = Some dev)) l =
            List.find (fun dl : pid * pid => (fst (fst dl) =? ds) &&
              bool_decide (index_of w' (fst (snd dl)) = Some dev)) l).
  { induction l as [| dl l IH]; [done |]. cbn [List.find].
    by rewrite IH, (index_of_shape w w' _ Hs). }
  rewrite Ef. destruct (List.find _ _); [done |].
  pose proof (get_ds_shape w w' ds Hs) as E.
  destruct (w_switches w !! ds), (w_switches w' !! ds); cbn in *; try done.
  apply (inj Some) in E. f_equal. by apply strip_ds_fields in E as (_ & ? & _).
Qed.

Lemma towards_shape w w' ds dev port : same_shape w w' ->
  dsa_towards_port w ds dev port = dsa_towards_port w' ds dev port.
Proof.
  intros Hs. unfold dsa_towards_port. by rewrite (index_of_shape w w' ds Hs), (routing_shape w w' ds dev Hs).
Qed.

Lemma upstream_shape w w' ds port : same_shape w w' ->
  dsa_is_upstream_port w ds port = dsa_is_upstream_port w' ds port.
Proof.
  intros Hs. unfold dsa_is_upstream_port, dsa_is_unused_port, dsa_upstream_port.
  pose proof (dsa_to_port_shape w w' ds port Hs) as E.
  destruct (dsa_to_port w ds port) as [dp |], (dsa_to_port w' ds port) as [dq |]; try done.
  cbn in *. apply (inj Some) in E. apply strip_port_fields in E as (_ & _ & Et & Ec & _).
  unfold dsa_port_is_unused. rewrite Et, Ec. destruct (bool_decide _); [done |].
  destruct (dp_cpu_dp dq) as [cpu |]; [| done]. cbn.
  rewrite (index_of_shape w w' _ Hs). destruct (index_of w' (fst cpu)); [| done]. cbn.
  by rewrite (towards_shape w w' _ _ _ Hs).
Qed.

Lemma to_conduit_shape w w' dp dq : same_shape w w' -> strip_port dp = strip_port dq ->
  dsa_port_to_conduit w dp = dsa_port_to_conduit w' dq.
Proof.
  intros Hs (_ & _ & _ & Ec & _ & El & _)%strip_port_fields. unfold dsa_port_to_conduit.
  rewrite Ec, El. destruct (dp_cpu_dp dq) as [cpu |]; [| done]. cbn.
  pose proof (get_port_shape w w' cpu Hs) as E.
  destruct (get_port w cpu) as [c |], (get_port w' cpu) as [c' |]; try done. cbn in *.
  apply (inj Some) in E. apply strip_port_fields in E as (_ & _ & _ & _ & Elag & _ & En).
  destruct (dp_cpu_port_in_lag dq); [| done]. unfold dsa_port_lag_dev_get. rewrite Elag.
  destruct (dp_lag c') as [l |]; [| done]. cbn. pose proof (lag_shape w w' l Hs) as E.
  destruct (w_lags w !! l) as [g |], (w_lags w' !! l) as [g' |]; try done. cbn in *.
  apply (inj Some) in E. f_equal. exact (f_equal lag_dev E).
Qed.

Lemma upstream_of_shape w w' a b : same_shape w w' ->
  dsa_switch_is_upstream_of w a b = dsa_switch_is_upstream_of w' a b.
Proof.
  intros Hs. unfold dsa_switch_is_upstream_of. destruct (a =? b); [done |].
  rewrite (index_of_shape w w' a Hs). destruct (index_of w' a); [| done]. cbn.
  rewrite (routing_shape w w' _ _ Hs). destruct (dsa_routing_port w' b z); [| done]. cbn.
  apply upstream_shape, Hs.
Qed.

(** The bridge of a port, read through the groups. *)
Lemma find_fmap {A B} (f : A -> B) (g : A -> bool) l l' : (forall x y, f x = f y -> g x = g y) ->
  f <$> l = f <$> l' -> f <$> List.find g l = f <$> List.find g l'.
Proof.
  intros Hg. revert l'. induction l as [| x l IH]; intros [| y l'] E; try done.
  rewrite !fmap_cons in E. apply cons_eq_inj in E as [E1 E2]. cbn [List.find].
  rewrite (Hg x y E1). destruct (g y); [cbn; by rewrite E1 | by apply IH].
Qed.

Lemma groups_port w w' p dp : groups w = groups w' -> get_port w p = Some dp ->
  exists dq, get_port w' p = Some dq /\ dp_bridge dp = dp_bridge dq.
Proof.
  unfold groups. intros [Eg _]%pair_eq Hp.
  assert (E : (fun dp => (dp_id dp, dp_bridge dp)) <$> get_port w p =
              (fun dp => (dp_id dp, dp_bridge dp)) <$> get_port w' p).
  { apply find_fmap; [| done]. intros x y Exy. by apply pair_eq in Exy as [-> _]. }
  rewrite Hp in E. destruct (get_port w' p) as [dq |]; [| done]. exists dq. split; [done |].
  apply (inj Some) in E. by apply pair_eq in E as [_ E].
Qed.

Lemma groups_bridge w w' b : groups w = groups w' ->
  strip_bridge <$> w_bridges w !! b = strip_bridge <$> w_bridges w' !! b.
Proof. unfold groups. intros [_ E]%pair_eq. rewrite <- !lookup_fmap. by rewrite E. Qed.

(** ** Well-formed trees *)

Definition known w (ds : Z) : Prop := is_Some (w_switches w !! ds).
Definition has_port w (p : pid) : Prop := is_Some (get_port w p).

Record tree_wf w : Prop := {
  wf_names : NoDup (dp_id <$> w_ports w);
  wf_switch dp : dp ∈ w_ports w -> known w (dp_ds dp);
  wf_nh ds : ds ∈ w_nh w -> known w ds;
  wf_index a b : known w a -> index_of w a = index_of w b -> a = b;
  wf_route a b : known w a -> known w b -> a <> b -> exists i port,
    index_of w b = Some i /\ dsa_routing_port w a i = Some port /\ has_port w (a, port);
  wf_cpu dp : dp ∈ w_ports w -> match dp_cpu_dp dp with
    | Some cpu => has_port w cpu
    | None => dsa_port_is_user dp = false /\ dsa_port_is_dsa dp = false end;
  wf_ctx ds d c : w_switches w !! ds = Some d -> ds_tag_8021q_ctx d = Some c -> ctx_freed c = false;
  wf_user dp : dp ∈ w_ports w -> dsa_port_is_user dp = true ->
    is_Some (dp_netdev dp) /\ is_Some (dsa_port_to_conduit w dp);
  (* CPU ports in a LAG, where some port uses them so *)
  wf_cpu_lag dp dq d : dp ∈ w_ports w -> dp_cpu_port_in_lag dp = true ->
    dq ∈ w_ports w -> dsa_port_is_cpu dq = true -> w_switches w !! dp_ds dq = Some d ->
    (exists l, dp_lag dq = Some l /\ is_Some (w_lags w !! l)) /\
    is_Some (op_lag_fdb_add (ds_ops d)) /\ is_Some (op_lag_fdb_del (ds_ops d));
}.

Lemma get_port_in w p dp : get_port w p = Some dp -> dp ∈ w_ports w /\ dp_id dp = p.
Proof.
  intros E. split; [| by eapply find_port_id].
  apply List.find_some in E as [E _]. by apply list_elem_of_In.
Qed.

Lemma get_port_of w q : NoDup (dp_id <$> w_ports w) -> q ∈ w_ports w -> get_port w (dp_id q) = Some q.
Proof.
  unfold get_port, find_port. induction (w_ports w) as [| x l IH]; [by intros _ ?%not_elem_of_nil |].
  rewrite fmap_cons. intros [Hx Hnd]%NoDup_cons [<- | Hq]%elem_of_cons; cbn [List.find].
  - by rewrite bool_decide_true.
  - rewrite bool_decide_false; [by apply IH |]. intros E. apply Hx. rewrite E. by apply list_elem_of_fmap_2.
Qed.

Lemma has_port_known w p : tree_wf w -> has_port w p -> known w (fst p).
Proof.
  intros Hwf [dp Hp]. apply get_port_in in Hp as [Hin <-]. by apply (wf_switch _ Hwf).
Qed.

Lemma known_index w ds : known w ds -> is_Some (index_of w ds).
Proof. intros [d Hd]. unfold index_of. rewrite Hd. by eexists. Qed.

(** A port towards any port of the tree exists on every switch. *)
Lemma wf_towards w ds p i : tree_wf w -> known w ds -> has_port w p -> index_of w (fst p) = Some i ->
  exists port, dsa_towards_port w ds i (snd p) = Some port /\ has_port w (ds, port).
Proof.
  intros Hwf Hk Hp Hi. unfold dsa_towards_port. destruct (known_index w ds Hk) as [j Hj].
  rewrite Hj. cbn. destruct (Z.eqb_spec i j) as [-> | Hne].
  - assert (ds = fst p) as -> by (apply (wf_index _ Hwf); [done | congruence]).
    exists (snd p). split; [done |]. by destruct p.
  - destruct (wf_route _ Hwf ds (fst p)) as (i' & port & Hi' & Hr & Hq); [done | | |].
    + by apply has_port_known.
    + intros ->. congruence.
    + rewrite Hi in Hi'. injection Hi' as <-. by exists port.
Qed.

Lemma wf_upstream_of w a b : tree_wf w -> known w a -> known w b ->
  is_Some (dsa_switch_is_upstream_of w a b).
Proof.
  intros Hwf Ha Hb. unfold dsa_switch_is_upstream_of. destruct (Z.eqb_spec a b); [by eexists |].
  destruct (wf_route _ Hwf b a) as (i & port & Hi & Hr & Hp); [done | done | congruence |].
  rewrite Hi. cbn. rewrite Hr. cbn. unfold dsa_is_upstream_port, dsa_is_unused_port, dsa_upstream_port.
  rewrite dsa_to_port_get. destruct Hp as [dp Hp]. rewrite Hp. cbn.
  destruct (dsa_port_is_unused dp); [by eexists |].
  destruct (get_port_in _ _ _ Hp) as [Hin _]. pose proof (wf_cpu _ Hwf dp Hin) as Hc.
  destruct (dp_cpu_dp dp) as [cpu |]; [| by eexists]. cbn.
  destruct (known_index w (fst cpu)) as [j Hj]; [by apply has_port_known |]. rewrite Hj. cbn.
  destruct (wf_towards w b cpu j Hwf Hb Hc Hj) as (q & Hq & _). rewrite Hq. by eexists.
Qed.

Lemma wf_host_match w dp targeted : tree_wf w -> dp ∈ w_ports w -> targeted ∈ w_ports w ->
  dsa_port_is_user targeted = true ->
  is_Some (dsa_port_host_address_match w dp targeted) /\
  is_Some (dsa_port_host_vlan_match w dp targeted).
Proof.
  intros Hwf Hd Ht Hu. unfold dsa_port_host_address_match, dsa_port_host_vlan_match.
  destruct (wf_upstream_of w (dp_ds dp) (dp_ds targeted)) as [b Hb];
    [done | by apply (wf_switch _ Hwf) | by apply (wf_switch _ Hwf) |].
  rewrite Hb. cbn. split; [| by eexists]. destruct b; [| by eexists].
  pose proof (wf_cpu _ Hwf targeted Ht) as Hc. destruct (dp_cpu_dp targeted) as [cpu |].
  2: { destruct Hc. congruence. }
  cbn. destruct (known_index w (fst cpu)) as [j Hj]; [by apply has_port_known |]. rewrite Hj. cbn.
  destruct (wf_towards w (dp_ds dp) cpu j Hwf) as (q & Hq & _); [by apply (wf_switch _ Hwf) | done | done |].
  rewrite Hq. by eexists.
Qed.

(** Well-formedness is a property of the shape. *)
Lemma known_shape w w' ds : same_shape w w' -> known w ds -> known w' ds.
Proof. intros E [d Hd]. destruct (strip_some _ _ _ _ (get_ds_shape w w' ds E) Hd) as (d' & Hd' & _). by exists d'. Qed.

Lemma has_port_shape w w' p : same_shape w w' -> has_port w p -> has_port w' p.
Proof. intros E [d Hd]. destruct (strip_some _ _ _ _ (get_port_shape w w' p E) Hd) as (d' & Hd' & _). by exists d'. Qed.

Lemma port_shape w w' dp : same_shape w w' -> dp ∈ w_ports w ->
  exists dq, dq ∈ w_ports w' /\ strip_port dp = strip_port dq.
Proof.
  intros (_ & E & _)%shape_inv Hdp.
  assert (Hs : strip_port dp ∈ strip_port <$> w_ports w') by (rewrite <- E; by apply list_elem_of_fmap_2).
  apply list_elem_of_fmap in Hs as (dq & Eq & Hq). by exists dq.
Qed.

Lemma tree_wf_shape w w' : same_shape w w' -> tree_wf w -> tree_wf w'.
Proof.
  intros Hs Hwf. assert (Hs' : same_shape w' w) by (by symmetry). split.
  - pose proof (shape_inv _ _ Hs) as (_ & E & _).
    assert (Ei : forall l : list dsa_port, dp_id <$> l = dp_id <$> (strip_port <$> l)).
    { intros l. rewrite <- list_fmap_compose. by apply list_fmap_ext. }
    rewrite (Ei (w_ports w')), <- E, <- Ei. apply (wf_names _ Hwf).
  - intros dp Hdp. destruct (port_shape w' w dp Hs' Hdp) as (dq & Hq & E).
    apply strip_port_fields in E as (-> & _). by apply (known_shape w), (wf_switch _ Hwf).
  - intros ds Hds. apply (known_shape w); [done |]. apply (wf_nh _ Hwf).
    pose proof (shape_inv _ _ Hs) as (_ & _ & _ & _ & _ & En). by rewrite En.
  - intros a b Ha Ei. apply (wf_index _ Hwf); [by apply (known_shape w') |].
    by rewrite !(index_of_shape w w' _ Hs).
  - intros a b Ha Hb Hne. destruct (wf_route _ Hwf a b) as (i & port & Hi & Hr & Hp);
      [by apply (known_shape w') | by apply (known_shape w') | done |].
    exists i, port. rewrite <- (index_of_shape w w' _ Hs), <- (routing_shape w w' _ _ Hs).
    split_and!; [done | done |]. by apply (has_port_shape w).
  - intros dp Hdp. destruct (port_shape w' w dp Hs' Hdp) as (dq & Hq & E).
    apply strip_port_fields in E as (_ & _ & Et & -> & _).
    unfold dsa_port_is_user, dsa_port_is_dsa. rewrite Et.
    pose proof (wf_cpu _ Hwf dq Hq) as Hc. destruct (dp_cpu_dp dq); [| done].
    by apply (has_port_shape w).
  - intros ds d c Hd Hc. destruct (strip_some _ _ _ _ (get_ds_shape w' w ds Hs') Hd) as (d' & Hd' & E).
    apply strip_ds_fields in E as (_ & _ & _ & E). destruct (E c Hc) as (c' & Hc' & ->).
    by apply (wf_ctx _ Hwf ds d').
  - intros dp Hdp Hu. destruct (port_shape w' w dp Hs' Hdp) as (dq & Hq & E).
    rewrite (to_conduit_shape w' w dp dq Hs' E).
    apply strip_port_fields in E as (_ & _ & Et & _ & _ & _ & ->).
    unfold dsa_port_is_user in Hu. rewrite Et in Hu. by apply (wf_user _ Hwf).
  - intros dp dq d Hdp Hl Hdq Hcpu Hd.
    destruct (port_shape w' w dp Hs' Hdp) as (dp0 & Hp0 & Ep).
    destruct (port_shape w' w dq Hs' Hdq) as (dq0 & Hq0 & Eq).
    destruct (strip_some _ _ _ _ (get_ds_shape w' w _ Hs') Hd) as (d0 & Hd0 & Ed).
    apply strip_port_fields in Ep as (_ & _ & _ & _ & _ & Ep & _), Eq as (Ei & _ & Et & _ & El & _).
    apply strip_ds_fields in Ed as (_ & _ & -> & _). rewrite Ei in Hd0. rewrite Ep in Hl.
    unfold dsa_port_is_cpu in Hcpu. rewrite Et in Hcpu.
    destruct (wf_cpu_lag _ Hwf dp0 dq0 d0 Hp0 Hl Hq0 Hcpu Hd0) as ((l & E1 & [g Hg]) & E2 & E3).
    split_and!; try done. exists l. rewrite El. split; [done |].
    destruct (strip_some _ _ _ _ (lag_shape w w' l Hs) Hg) as (g' & Hg' & _). by exists g'.
Qed.

End Shape.

(** ** Safe computations *)

Section Safe.
Context {H : Type} `{RefcountApi, NotifierApi}.
Context (w0 : world H) (w0_wf : tree_wf w0).
Implicit Types (w : world H).

(** No fault from any state of the shape of [w0], which stays; [R] holds of the
    result. *)
Definition user_event (p : pid) : Prop :=
  exists dp, get_port w0 p = Some dp /\ dsa_port_is_user dp = true.

(** The shape and the groups are those of [w0], and what is queued concerns its
    user ports. *)
Record inv w : Prop := {
  inv_shape : same_shape w0 w;
  inv_groups : groups w = groups w0;
  inv_works x : x ∈ w_works w -> user_event (sw_port x);
}.

Definition safe {A} (m : st (world H) A) (R : A -> Prop) : Prop :=
  forall w, inv w -> total m w (fun a w' => inv w' /\ R a).

Lemma safe_wf w : inv w -> tree_wf w.
Proof using w0_wf. intros E. apply (tree_wf_shape w0); [by apply inv_shape | done]. Qed.

Lemma inv_hw w h : inv w -> inv (set_hw w h).
Proof using. by intros [Hs Hg Hw]. Qed.
Lemma inv_alloc w l : inv w -> inv (set_alloc w l).
Proof using. by intros [Hs Hg Hw]. Qed.

Lemma safe_ret {A} (a : A) (R : A -> Prop) : R a -> safe (mret a) R.
Proof using. intros HR w Hs. by apply total_ret. Qed.

Lemma safe_bind {A B} (m : st (world H) A) (k : A -> st (world H) B) (R : A -> Prop) (R' : B -> Prop) :
  safe m R -> (forall a, R a -> safe (k a) R') -> safe (m ≫= k) R'.
Proof using.
  intros Hm Hk w Hs. mstep (by apply Hm).
  intros a w' [Hs' Ha]. by apply Hk.
Qed.

Lemma safe_weaken {A} (m : st (world H) A) (R R' : A -> Prop) :
  (forall a, R a -> R' a) -> safe m R -> safe m R'.
Proof using.
  intros HR Hm w Hs. eapply total_weaken; [| by apply Hm]. intros a w' [Hs' Ha]. split; [done | by apply HR].
Qed.

Lemma safe_get : safe get_st inv.
Proof using. intros w Hs. by apply total_get. Qed.

Lemma safe_deref {A} (o : option A) (R : A -> Prop) : (exists a, o = Some a /\ R a) -> safe (deref o) R.
Proof using. intros (a & -> & Ha) w Hs. by eapply total_deref. Qed.

Lemma safe_queried {A} (f : world H -> option A) (R : A -> Prop) :
  (forall w, inv w -> exists a, f w = Some a /\ R a) -> safe (queried f) R.
Proof using. intros Hf w Hs. apply total_bind, total_get. destruct (Hf w Hs) as (a & E & Ha). by eapply total_deref. Qed.

Lemma safe_modify (f : world H -> world H) :
  (forall w, inv w -> inv (f w)) -> safe (modify f) (fun _ => True).
Proof using. intros Hf w Hs. apply total_modify. split; [by apply Hf | done]. Qed.

Lemma safe_call_fun {A} (g : H -> A * H) : safe (call_fun g) (fun _ => True).
Proof using. intros w Hs. unfold total, call_fun. destruct (g (w_hw w)). split; [by apply inv_hw | done]. Qed.

Lemma safe_call_op (o : option (H -> Z * H)) : is_Some o -> safe (call_op o) (fun _ => True).
Proof using. intros [g ->] w Hs. unfold total, call_op. cbn. destruct (g (w_hw w)). split; [by apply inv_hw | done]. Qed.

Lemma safe_call_void (g : H -> H) : safe (call_void (Some g)) (fun _ => True).
Proof using. intros w Hs. split; [by apply inv_hw | done]. Qed.

Lemma safe_kzalloc : safe kzalloc (fun _ => True).
Proof using. intros w Hs. unfold total, kzalloc. destruct (w_alloc w); split; try done. by apply inv_alloc. Qed.

Lemma safe_for_err {A} (l : list A) (body : A -> st (world H) Z) :
  (forall a, a ∈ l -> safe (body a) (fun _ => True)) -> safe (for_err l body) (fun _ => True).
Proof using.
  induction l as [| a l IH]; intros Hb; [by apply safe_ret |]. cbn [for_err].
  eapply safe_bind; [apply Hb; by left |]. intros err _. destruct (err =? 0).
  - apply IH. intros x Hx. apply Hb. by right.
  - by apply safe_ret.
Qed.

(** A switch of the tree, as the code reads it. *)
Definition is_ds (ds : Z) (d : dsa_switch H) : Prop :=
  exists d0, w_switches w0 !! ds = Some d0 /\ strip_ds d0 = strip_ds d.
Definition is_port (p : pid) (dp : dsa_port) : Prop :=
  exists dp0, get_port w0 p = Some dp0 /\ strip_port dp0 = strip_port dp.

Lemma safe_get_ds ds : known w0 ds -> safe (get_ds ds) (is_ds ds).
Proof using.
  intros [d0 Hd0]. apply safe_queried. intros w Hs.
  destruct (strip_some _ _ _ _ (get_ds_shape w0 w ds (inv_shape _ Hs)) Hd0) as (d & Hd & E).
  exists d. split; [done |]. by exists d0.
Qed.

Lemma safe_port_of p : has_port w0 p -> safe (port_of p) (is_port p).
Proof using.
  intros [d0 Hd0]. apply safe_queried. intros w Hs.
  destruct (strip_some _ _ _ _ (get_port_shape w0 w p (inv_shape _ Hs)) Hd0) as (d & Hd & E).
  exists d. split; [done |]. by exists d0.
Qed.

Lemma is_port_id p dp : is_port p dp -> dp_ds dp = fst p /\ dp_index dp = snd p.
Proof using.
  intros (dp0 & Hp & E). apply get_port_in in Hp as [_ <-].
  apply strip_port_fields in E as (E1 & E2 & _). by rewrite <- E1, <- E2.
Qed.

Lemma is_port_known p dp : is_port p dp -> known w0 (dp_ds dp).
Proof using w0_wf.
  intros Hp. destruct (is_port_id _ _ Hp) as [-> _]. destruct Hp as (dp0 & Hp & _).
  apply has_port_known; [done | by eexists].
Qed.

Lemma is_port_has p dp : is_port p dp -> has_port w0 p.
Proof using. intros (dp0 & Hp & _). by eexists. Qed.

(** Two reads of a switch find the same operations. *)
Lemma is_ds_ops ds d d' : is_ds ds d -> is_ds ds d' -> ds_ops d = ds_ops d'.
Proof using.
  intros (d0 & E0 & S0) (d1 & E1 & S1). rewrite E0 in E1. injection E1 as <-.
  apply strip_ds_fields in S0 as (_ & _ & <- & _), S1 as (_ & _ & <- & _). done.
Qed.

Lemma safe_for_each_port ds (body : pid -> st (world H) Z) :
  (forall p, has_port w0 p -> fst p = ds -> safe (body p) (fun _ => True)) ->
  safe (for_each_port ds body) (fun _ => True).
Proof using.
  intros Hb w Hs. unfold for_each_port. apply total_bind, total_get.
  apply safe_for_err; [| done]. intros p (dp & -> & Hdp)%list_elem_of_fmap.
  apply list_elem_of_In, List.filter_In in Hdp as [Hin Hds]. apply Z.eqb_eq in Hds.
  apply Hb; [| done]. apply (has_port_shape w); [by symmetry; apply inv_shape |].
  apply list_elem_of_In in Hin. unfold has_port, get_port, find_port.
  destruct (List.find _ (w_ports w)) as [dq |] eqn:E; [by eexists |].
  apply list_elem_of_In in Hin. apply (List.find_none _ _ E) in Hin.
  by rewrite bool_decide_true in Hin.
Qed.

(** The counted lists: a hardware request that is safe keeps them safe. *)
Lemma safe_counted_add {K} (eqb : K -> K -> bool) get put k (hw : st (world H) Z) :
  (forall w, inv w -> is_Some (get w)) -> (forall l w, inv w -> inv (put l w)) ->
  safe hw (fun _ => True) -> safe (counted_add eqb get put kzalloc k hw) (fun _ => True).
Proof using.
  intros Hg Hp Hh w Hs. unfold counted_add. apply total_bind, total_get, total_bind.
  destruct (Hg w Hs) as [l El]. eapply total_deref; [exact El |].
  destruct (find_counted eqb k l) as [e |].
  { apply total_bind, total_modify, total_ret. split; [by apply Hp | done]. }
  mstep (by apply safe_kzalloc). intros ok w1 [Hs1 _].
  destruct ok; cbn [negb]; [| by apply total_ret].
  mstep (by apply Hh). intros err w2 [Hs2 _].
  destruct (err =? 0); cbn [negb]; [| by apply total_ret].
  apply total_bind, total_get, total_bind. destruct (Hg w2 Hs2) as [l2 E2].
  eapply total_deref; [exact E2 |]. apply total_bind, total_modify, total_ret. split; [by apply Hp | done].
Qed.

Lemma safe_counted_del {K} (eqb : K -> K -> bool) get put restore k (hw : st (world H) Z) :
  (forall w, inv w -> is_Some (get w)) -> (forall l w, inv w -> inv (put l w)) ->
  safe hw (fun _ => True) -> safe (counted_del eqb get put restore k hw) (fun _ => True).
Proof using.
  intros Hg Hp Hh w Hs. unfold counted_del. apply total_bind, total_get, total_bind.
  destruct (Hg w Hs) as [l El]. eapply total_deref; [exact El |].
  destruct (find_counted eqb k l) as [e |]; [| by apply total_ret].
  destruct (refcount_dec_and_test (c_ref e)) as [zero n].
  apply total_bind, total_modify. destruct zero; cbn [negb].
  2: { apply total_ret. split; [by apply Hp | done]. }
  mstep (apply Hh; by apply Hp). intros err w2 [Hs2 _].
  destruct (err =? 0); cbn [negb]; apply total_bind, total_modify, total_ret;
    (split; [by apply Hp | done]).
Qed.

(** ** The lists of the handlers *)

#[local] Transparent strip_port strip_ds strip_lag.

Lemma upd_shape p (g : dsa_port -> dsa_port) w :
  (forall dp, strip_port (g dp) = strip_port dp) -> same_shape w (upd_port p g w).
Proof using.
  intros Hg. assert (E : strip_port <$> w_ports (upd_port p g w) = strip_port <$> w_ports w).
  { cbn. rewrite <- list_fmap_compose. apply list_fmap_ext. intros i dp _. cbn.
    case_bool_decide; [apply Hg | done]. }
  unfold same_shape, shape. by rewrite E.
Qed.

Lemma upd_groups p (g : dsa_port -> dsa_port) w :
  (forall dp, dp_id (g dp) = dp_id dp) -> (forall dp, dp_bridge (g dp) = dp_bridge dp) ->
  groups (upd_port p g w) = groups w.
Proof using.
  intros Hi Hb. unfold groups. cbn. f_equal. rewrite <- list_fmap_compose. apply list_fmap_ext.
  intros i dp _. cbn. case_bool_decide; [by rewrite Hi, Hb | done].
Qed.

(** A change of the attributes or lists of a port. *)
Lemma inv_upd p (g : dsa_port -> dsa_port) w :
  (forall dp, strip_port (g dp) = strip_port dp) -> (forall dp, dp_bridge (g dp) = dp_bridge dp) ->
  inv w -> inv (upd_port p g w).
Proof using.
  intros Hg Hb [Hs Hgr Hw]. split; [| | done].
  - etrans; [exact Hs | by apply upd_shape].
  - rewrite upd_groups; [done | | done]. intros dp. exact (strip_port_id _ _ (Hg dp)).
Qed.

Lemma inv_put_addrs which p l w : inv w -> inv (put_addrs which p l w).
Proof using. apply inv_upd; by destruct which. Qed.
Lemma inv_put_vlans p l w : inv w -> inv (put_vlans p l w).
Proof using. by apply inv_upd. Qed.

Lemma fmap_alter_same {A B} (f : A -> B) (g : A -> A) (m : gmap Z A) k :
  (forall a, f (g a) = f a) -> f <$> alter g k m = f <$> m.
Proof using.
  intros Hg. apply map_eq. intros i. rewrite !lookup_fmap.
  destruct (decide (k = i)) as [<- | Hne].
  - rewrite lookup_alter_eq. destruct (m !! k); cbn; by rewrite ?Hg.
  - by rewrite lookup_alter_ne.
Qed.

Lemma inv_put_lag_fdbs lag l w : inv w -> inv (put_lag_fdbs lag l w).
Proof using.
  intros [Hs Hg Hw]. split; [| done | done]. etrans; [exact Hs |].
  unfold same_shape, shape, put_lag_fdbs. cbn. by rewrite fmap_alter_same.
Qed.

Lemma inv_upd_ds ds (g : dsa_switch H -> dsa_switch H) w :
  (forall d, strip_ds (g d) = strip_ds d) -> inv w -> inv (upd_ds ds g w).
Proof using.
  intros Hg [Hs Hgr Hw]. split; [| done | done]. etrans; [exact Hs |].
  unfold same_shape, shape, upd_ds. cbn. by rewrite fmap_alter_same.
Qed.

Lemma inv_put_ctx_vlans ds l w : inv w -> inv (put_ctx_vlans ds l w).
Proof using.
  apply inv_upd_ds. intros d. unfold strip_ds. cbn. by destruct (ds_tag_8021q_ctx d).
Qed.

#[local] Opaque strip_port strip_ds strip_lag.

Lemma has_addrs which p w : has_port w0 p -> inv w -> is_Some (get_addrs which p w).
Proof using. intros Hp Hs. apply (has_port_shape w0 w) in Hp as [dp Hp]; [| by apply inv_shape]. exists (match which with Fdb => dp_fdbs | Mdb => dp_mdbs end dp). unfold get_addrs. by rewrite Hp. Qed.
Lemma has_vlans p w : has_port w0 p -> inv w -> is_Some (get_vlans p w).
Proof using. intros Hp Hs. apply (has_port_shape w0 w) in Hp as [dp Hp]; [| by apply inv_shape]. exists (dp_vlans dp). unfold get_vlans. by rewrite Hp. Qed.
Lemma has_lag_fdbs lag w : is_Some (w_lags w0 !! lag) -> inv w -> is_Some (get_lag_fdbs lag w).
Proof using.
  intros [g Hg] Hs. destruct (strip_some _ _ _ _ (lag_shape w0 w lag (inv_shape _ Hs)) Hg) as (g' & Hg' & _).
  exists (lag_fdbs g'). unfold get_lag_fdbs. by rewrite Hg'.
Qed.

(** What a driver must offer to a port of the switch. *)
Definition offers {A} (op : dsa_switch_ops H -> option A) (ds : Z) : Prop :=
  exists d, w_switches w0 !! ds = Some d /\ is_Some (op (ds_ops d)).

Lemma offers_ds {A} (op : dsa_switch_ops H -> option A) ds d :
  offers op ds -> is_ds ds d -> is_Some (op (ds_ops d)).
Proof using.
  intros (d0 & E0 & Ho) (d1 & E1 & S1). rewrite E0 in E1. injection E1 as <-.
  apply strip_ds_fields in S1 as (_ & _ & <- & _). done.
Qed.
Lemma ds_offers {A} (op : dsa_switch_ops H -> option A) ds d a :
  is_ds ds d -> op (ds_ops d) = Some a -> offers op ds.
Proof using.
  intros (d1 & E1 & S1) E. exists d1. split; [done |].
  apply strip_ds_fields in S1 as (_ & _ & -> & _). by exists a.
Qed.

(** The common form of the eight "do" functions. *)
Lemma safe_do {A} (p : pid) (op : dsa_switch_ops H -> option A) (g : dsa_port -> A -> H -> Z * H)
    (shared : dsa_port -> st (world H) Z -> st (world H) Z) :
  has_port w0 p -> offers op (fst p) ->
  (forall dp hw, is_port p dp -> safe hw (fun _ => True) -> safe (shared dp hw) (fun _ => True)) ->
  safe (dp ← port_of p; d ← get_ds (dp_ds dp); shared dp (call_op (g dp <$> op (ds_ops d))))
    (fun _ => True).
Proof using w0_wf.
  intros Hp Ho Hsh. eapply safe_bind; [by apply safe_port_of |]. intros dp Hdp.
  eapply safe_bind; [apply safe_get_ds; by eapply is_port_known |]. intros d Hd.
  apply Hsh, safe_call_op; [done |]. rewrite (proj1 (is_port_id _ _ Hdp)) in Hd.
  destruct (offers_ds op (fst p) d Ho Hd) as [a ->]. by eexists.
Qed.

(** An optional operation of the driver, called with the port's coordinates. *)
Abbreviation hw_call op k :=
  (fun dp d => call_op ((fun f => f (dp_ds dp) (dp_index dp) k) <$> op (ds_ops d))).

Lemma safe_do_add which (op : dsa_switch_ops H -> option (Z -> Z -> mac_key -> H -> Z * H)) p k :
  has_port w0 p -> offers op (fst p) ->
  safe (dp ← port_of p; d ← get_ds (dp_ds dp);
        let hw := hw_call op k dp d in
        if negb (dsa_port_is_shared dp) then hw
        else counted_add mac_eqb (get_addrs which p) (put_addrs which p) kzalloc k hw) (fun _ => True).
Proof using w0_wf.
  intros Hp Ho. apply (safe_do p op (fun dp f => f (dp_ds dp) (dp_index dp) k)
    (fun dp hw => if negb (dsa_port_is_shared dp) then hw
       else counted_add mac_eqb (get_addrs which p) (put_addrs which p) kzalloc k hw) Hp Ho).
  intros dp hw _ Hh. destruct (negb _); [done |].
  apply safe_counted_add; [intros w; by apply has_addrs | intros l w; apply inv_put_addrs | done].
Qed.

Lemma safe_do_del which (op : dsa_switch_ops H -> option (Z -> Z -> mac_key -> H -> Z * H)) p k :
  has_port w0 p -> offers op (fst p) ->
  safe (dp ← port_of p; d ← get_ds (dp_ds dp);
        let hw := hw_call op k dp d in
        if negb (dsa_port_is_shared dp) then hw
        else counted_del mac_eqb (get_addrs which p) (put_addrs which p) (fun _ => 1) k hw) (fun _ => True).
Proof using w0_wf.
  intros Hp Ho. apply (safe_do p op (fun dp f => f (dp_ds dp) (dp_index dp) k)
    (fun dp hw => if negb (dsa_port_is_shared dp) then hw
       else counted_del mac_eqb (get_addrs which p) (put_addrs which p) (fun _ => 1) k hw) Hp Ho).
  intros dp hw _ Hh. destruct (negb _); [done |].
  apply safe_counted_del; [intros w; by apply has_addrs | intros l w; apply inv_put_addrs | done].
Qed.

Lemma safe_do_vlan_add p v : has_port w0 p -> offers op_port_vlan_add (fst p) ->
  safe (dsa_port_do_vlan_add p v) (fun _ => True).
Proof using w0_wf.
  intros Hp Ho. apply (safe_do p op_port_vlan_add (fun dp f => f (dp_ds dp) (dp_index dp) v)
    (fun dp hw => if negb (dsa_port_is_shared dp) then hw
       else if vlan_changed v then mret 0
       else counted_add Z.eqb (get_vlans p) (put_vlans p) kzalloc (vlan_vid v) hw) Hp Ho).
  intros dp hw _ Hh. destruct (negb _); [done |]. destruct (vlan_changed v); [by apply safe_ret |].
  apply safe_counted_add; [intros w; by apply has_vlans | intros l w; apply inv_put_vlans | done].
Qed.

Lemma safe_do_vlan_del p v : has_port w0 p -> offers op_port_vlan_del (fst p) ->
  safe (dsa_port_do_vlan_del p v) (fun _ => True).
Proof using w0_wf.
  intros Hp Ho. apply (safe_do p op_port_vlan_del (fun dp f => f (dp_ds dp) (dp_index dp) v)
    (fun dp hw => if negb (dsa_port_is_shared dp) then hw
       else counted_del Z.eqb (get_vlans p) (put_vlans p) (fun _ => 1) (vlan_vid v) hw) Hp Ho).
  intros dp hw _ Hh. destruct (negb _); [done |].
  apply safe_counted_del; [intros w; by apply has_vlans | intros l w; apply inv_put_vlans | done].
Qed.

Lemma safe_do_lag_add ds lag k : known w0 ds -> is_Some (w_lags w0 !! lag) -> offers op_lag_fdb_add ds ->
  safe (dsa_switch_do_lag_fdb_add ds lag k) (fun _ => True).
Proof using.
  intros Hk Hl Ho. eapply safe_bind; [by apply safe_get_ds |]. intros d Hd.
  apply (safe_bind _ _ (fun _ => True)).
  { apply safe_queried. intros w Hs. destruct Hl as [g Hg].
    destruct (strip_some _ _ _ _ (lag_shape w0 w lag (inv_shape _ Hs)) Hg) as (g' & Hg' & _). by exists g'. }
  intros g _. apply safe_counted_add;
    [intros w; by apply has_lag_fdbs | intros l w; apply inv_put_lag_fdbs |].
  apply safe_call_op. destruct (offers_ds _ _ _ Ho Hd) as [f ->]. by eexists.
Qed.

Lemma safe_do_lag_del ds lag k : known w0 ds -> is_Some (w_lags w0 !! lag) -> offers op_lag_fdb_del ds ->
  safe (dsa_switch_do_lag_fdb_del ds lag k) (fun _ => True).
Proof using.
  intros Hk Hl Ho. eapply safe_bind; [by apply safe_get_ds |]. intros d Hd.
  apply (safe_bind _ _ (fun _ => True)).
  { apply safe_queried. intros w Hs. destruct Hl as [g Hg].
    destruct (strip_some _ _ _ _ (lag_shape w0 w lag (inv_shape _ Hs)) Hg) as (g' & Hg' & _). by exists g'. }
  intros g _. apply safe_counted_del;
    [intros w; by apply has_lag_fdbs | intros l w; apply inv_put_lag_fdbs |].
  apply safe_call_op. destruct (offers_ds _ _ _ Ho Hd) as [f ->]. by eexists.
Qed.

(** The context of a switch is live, so its list can be read. *)
Lemma has_ctx_vlans ds w d0 c : w_switches w0 !! ds = Some d0 -> ds_tag_8021q_ctx d0 = Some c ->
  inv w -> is_Some (get_ctx_vlans ds w).
Proof using w0_wf.
  intros Hd Hc Hs. destruct (strip_some _ _ _ _ (get_ds_shape w0 w ds (inv_shape _ Hs)) Hd) as (d & Hd' & E).
  apply strip_ds_fields in E as (_ & _ & _ & E). destruct (E c Hc) as (c' & Hc' & Ef).
  exists (ctx_vlans c'). unfold get_ctx_vlans. rewrite Hd'. cbn. rewrite Hc'. cbn.
  by rewrite <- Ef, (wf_ctx _ w0_wf ds d0 c Hd Hc).
Qed.

(** ** The handlers *)

Lemma safe_any {A} (m : st (world H) A) R : safe m R -> safe m (fun _ => True).
Proof using. by apply safe_weaken. Qed.

Lemma safe_host_match (sel : bool) p q dp t : is_port p dp -> is_port q t -> dsa_port_is_user t = true ->
  safe (queried (fun w => if sel then dsa_port_host_address_match w dp t
                          else dsa_port_host_vlan_match w dp t)) (fun _ => True).
Proof using w0_wf.
  intros (dp0 & Hp & Ep) (t0 & Hq & Et) Hu. apply safe_queried. intros w Hs.
  apply strip_port_fields in Ep as (P1 & P2 & P3 & _), Et as (T1 & _ & T3 & T4 & _).
  assert (E : (if sel then dsa_port_host_address_match w dp t else dsa_port_host_vlan_match w dp t) =
              (if sel then dsa_port_host_address_match w0 dp0 t0 else dsa_port_host_vlan_match w0 dp0 t0)).
  { unfold dsa_port_host_address_match, dsa_port_host_vlan_match, dsa_port_is_dsa, dp_id.
    rewrite P1, P2, P3, T1, T4, (upstream_of_shape w0 w _ _ (inv_shape _ Hs)).
    destruct (dp_cpu_dp t) as [cpu |]; destruct sel; try done.
    destruct (dsa_switch_is_upstream_of w _ _) as [[] |]; try done. cbn.
    rewrite (index_of_shape w0 w _ (inv_shape _ Hs)). destruct (index_of w (fst cpu)); [| done]. cbn.
    by rewrite (towards_shape w0 w _ _ _ (inv_shape _ Hs)). }
  assert (Hu0 : dsa_port_is_user t0 = true) by (unfold dsa_port_is_user; by rewrite T3).
  destruct (wf_host_match w0 dp0 t0 w0_wf) as [[a Ha] [b Hb]];
    [by eapply get_port_in | by eapply get_port_in | done |].
  rewrite E. destruct sel; eexists; by (split; [eassumption |]).
Qed.

Lemma user_has p : user_event p -> has_port w0 p.
Proof using. intros (dp & E & _). by eexists. Qed.

Lemma user_is_user p t : user_event p -> is_port p t -> dsa_port_is_user t = true.
Proof using.
  intros (dp & E & Hu) (t0 & E0 & Et). rewrite E in E0. injection E0 as <-.
  apply strip_port_fields in Et as (_ & _ & Et & _). unfold dsa_port_is_user in *. by rewrite <- Et.
Qed.

Lemma safe_on_host_match info_dp p body : has_port w0 p -> user_event info_dp ->
  (forall dp t, is_port p dp -> is_port info_dp t -> safe (body dp t) (fun _ => True)) ->
  safe (on_host_match info_dp p body) (fun _ => True).
Proof using w0_wf.
  intros Hp Hu Hb. eapply safe_bind; [by apply safe_port_of |]. intros dp Hdp.
  eapply safe_bind; [by apply safe_port_of, user_has |]. intros t Ht.
  eapply safe_bind; [by apply (safe_host_match true p info_dp dp t Hdp Ht), user_is_user with info_dp |].
  intros m _. destruct m; [by apply Hb | by apply safe_ret].
Qed.

Lemma safe_towards ds p : known w0 ds -> has_port w0 p ->
  safe (towards ds p) (fun q => has_port w0 q /\ fst q = ds).
Proof using w0_wf.
  intros Hk Hp. eapply safe_bind; [by apply safe_port_of |]. intros dp Hdp.
  destruct (is_port_id _ _ Hdp) as [E1 E2].
  destruct (known_index w0 (fst p)) as [i Hi]; [by apply has_port_known |].
  destruct (wf_towards w0 ds p i w0_wf Hk Hp Hi) as (q & Hq & Hhas).
  apply (safe_bind _ _ (fun j => j = i)).
  { apply safe_queried. intros w Hs. exists i. by rewrite E1, <- (index_of_shape w0 w _ (inv_shape _ Hs)). }
  intros j ->. apply (safe_bind _ _ (fun port => port = q)).
  { apply safe_queried. intros w Hs. exists q. by rewrite E2, <- (towards_shape w0 w _ _ _ (inv_shape _ Hs)). }
  intros port ->. by apply safe_ret.
Qed.

(** A handler that acts on the local port towards the event's port. *)
Lemma safe_towards_do ds info_dp (op : dsa_switch_ops H -> option (Z -> Z -> mac_key -> H -> Z * H))
    (act : pid -> st (world H) Z) : known w0 ds -> has_port w0 info_dp ->
  (forall q, has_port w0 q -> offers op (fst q) -> safe (act q) (fun _ => True)) ->
  safe (p ← towards ds info_dp; d ← get_ds ds;
        match op (ds_ops d) with None => mret (- EOPNOTSUPP) | Some _ => act p end) (fun _ => True).
Proof using w0_wf.
  intros Hk Hp Ha. eapply safe_bind; [by apply safe_towards |]. intros q [Hq Eq].
  eapply safe_bind; [by apply safe_get_ds |]. intros d Hd.
  destruct (op (ds_ops d)) as [f |] eqn:E; [| by apply safe_ret].
  apply Ha; [done |]. rewrite Eq. by apply (ds_offers op ds d f).
Qed.

(** A handler that acts on the ports of the switch one by one. *)
Lemma safe_each_do {A} ds (op : dsa_switch_ops H -> option A) (act : pid -> st (world H) Z) :
  known w0 ds ->
  (forall q, has_port w0 q -> fst q = ds -> offers op (fst q) -> safe (act q) (fun _ => True)) ->
  safe (d ← get_ds ds;
        match op (ds_ops d) with None => mret (- EOPNOTSUPP) | Some _ => for_each_port ds act end)
    (fun _ => True).
Proof using.
  intros Hk Ha. eapply safe_bind; [by apply safe_get_ds |]. intros d Hd.
  destruct (op (ds_ops d)) as [f |] eqn:E; [| by apply safe_ret].
  apply safe_for_each_port. intros q Hq Eq. apply Ha; [done | done |]. rewrite Eq. by apply (ds_offers op ds d f).
Qed.

(** The CPU port of a host event whose target uses a LAG. *)
Lemma safe_cpu_lag p info_dp dp t : is_port p dp -> is_port info_dp t ->
  dsa_port_is_cpu dp = true -> dp_cpu_port_in_lag t = true ->
  exists lag, dp_lag dp = Some lag /\ is_Some (w_lags w0 !! lag) /\
    offers op_lag_fdb_add (fst p) /\ offers op_lag_fdb_del (fst p).
Proof using w0_wf.
  intros Hdp (t0 & Hq & Et) Hc Hl. pose proof (is_port_id _ _ Hdp) as [Ei _].
  destruct Hdp as (dp0 & Hp & Ep). destruct (get_port_in _ _ _ Hp) as [Hin Eid].
  destruct (wf_switch _ w0_wf dp0 Hin) as [d Hd].
  apply strip_port_fields in Ep as (P1 & _ & P3 & _ & P5 & _), Et as (_ & _ & _ & _ & _ & T6 & _).
  unfold dsa_port_is_cpu in Hc. rewrite <- P3 in Hc. rewrite <- T6 in Hl.
  destruct (wf_cpu_lag _ w0_wf t0 dp0 d) as ((l & El & Hlag) & Ha & Hr); try done.
  { by eapply get_port_in. }
  exists l. rewrite <- P5, <- Ei, <- P1. split_and!; [done | done | by exists d | by exists d].
Qed.

Lemma safe_host_fdb_add ds info_dp k : known w0 ds -> user_event info_dp ->
  safe (dsa_switch_host_fdb_add ds info_dp k) (fun _ => True).
Proof using w0_wf.
  intros Hk Hu. apply (safe_each_do ds op_port_fdb_add); [done |]. intros q Hq Eq Ho.
  apply safe_on_host_match; [done | done |]. intros dp t Hdp Ht.
  destruct (dsa_port_is_cpu dp) eqn:Ec, (dp_cpu_port_in_lag t) eqn:El; cbn [andb];
    try (by apply (safe_do_add Fdb)).
  destruct (safe_cpu_lag q info_dp dp t Hdp Ht Ec El) as (lag & E & Hlag & Ha & _). rewrite E.
  apply (safe_bind _ _ (fun l => l = lag)); [apply safe_deref; by exists lag |]. intros l ->.
  apply safe_do_lag_add; [done | done | by rewrite <- Eq].
Qed.

Lemma safe_host_fdb_del ds info_dp k : known w0 ds -> user_event info_dp ->
  safe (dsa_switch_host_fdb_del ds info_dp k) (fun _ => True).
Proof using w0_wf.
  intros Hk Hu. apply (safe_each_do ds op_port_fdb_del); [done |]. intros q Hq Eq Ho.
  apply safe_on_host_match; [done | done |]. intros dp t Hdp Ht.
  destruct (dsa_port_is_cpu dp) eqn:Ec, (dp_cpu_port_in_lag t) eqn:El; cbn [andb];
    try (by apply (safe_do_del Fdb)).
  destruct (safe_cpu_lag q info_dp dp t Hdp Ht Ec El) as (lag & E & Hlag & _ & Ha). rewrite E.
  apply (safe_bind _ _ (fun l => l = lag)); [apply safe_deref; by exists lag |]. intros l ->.
  apply safe_do_lag_del; [done | done | by rewrite <- Eq].
Qed.

(** A LAG address, if the LAG has a member on the switch. *)
Lemma safe_lag_member ds lag (act : st (world H) Z) : is_Some (w_lags w0 !! lag) ->
  safe act (fun _ => True) ->
  safe (g ← queried (fun w => w_lags w !! lag); w ← get_st;
        if existsb (fun dp => dsa_port_offloads_lag w dp (lag_dev g)) (switch_ports w ds)
        then act else mret 0) (fun _ => True).
Proof using.
  intros [g0 Hg] Ha. apply (safe_bind _ _ (fun _ => True)).
  { apply safe_queried. intros w Hs.
    destruct (strip_some _ _ _ _ (lag_shape w0 w lag (inv_shape _ Hs)) Hg) as (g' & Hg' & _). by exists g'. }
  intros g _. eapply safe_bind; [apply safe_get |]. intros w _.
  destruct (existsb _ _); [done | by apply safe_ret].
Qed.

Lemma safe_lag_fdb ds lag k : known w0 ds -> is_Some (w_lags w0 !! lag) ->
  safe (dsa_switch_lag_fdb_add ds lag k) (fun _ => True) /\
  safe (dsa_switch_lag_fdb_del ds lag k) (fun _ => True).
Proof using.
  intros Hk Hl. split; (eapply safe_bind; [by apply safe_get_ds |]); intros d Hd.
  - destruct (op_lag_fdb_add (ds_ops d)) eqn:E; [| by apply safe_ret].
    apply safe_lag_member; [done |]. apply safe_do_lag_add; [done | done |]. by eapply ds_offers.
  - destruct (op_lag_fdb_del (ds_ops d)) eqn:E; [| by apply safe_ret].
    apply safe_lag_member; [done |]. apply safe_do_lag_del; [done | done |]. by eapply ds_offers.
Qed.

(** The index of the switch of a port. *)
Lemma safe_index p dp : is_port p dp ->
  safe (queried (fun w => index_of w (dp_ds dp))) (fun _ => True).
Proof using w0_wf.
  intros Hp. destruct (known_index w0 (dp_ds dp)) as [i Hi]; [by eapply is_port_known |].
  apply safe_queried. intros w Hs. exists i. by rewrite <- (index_of_shape w0 w _ (inv_shape _ Hs)).
Qed.

(** The events of LAG membership: driver calls under tests of pointers. *)
Lemma safe_lag_events ds info_dp lag : known w0 ds -> has_port w0 info_dp ->
  safe (dsa_switch_lag_change ds info_dp) (fun _ => True) /\
  safe (dsa_switch_lag_join ds info_dp lag) (fun _ => True) /\
  safe (dsa_switch_lag_leave ds info_dp lag) (fun _ => True).
Proof using w0_wf.
  intros Hk Hp. split_and!; (eapply safe_bind; [by apply safe_get_ds |]); intros d Hd;
    (eapply safe_bind; [by apply safe_port_of |]); intros dp Hdp;
    repeat (case_match; try (by apply safe_ret); try (apply safe_call_op; by eexists));
    (eapply safe_bind; [by eapply safe_index |]); intros i _; apply safe_call_op; by eexists.
Qed.

Lemma safe_host_vlan ds info_dp (op : dsa_switch_ops H -> option (Z -> Z -> switchdev_obj_port_vlan -> H -> Z * H))
    (act : pid -> st (world H) Z) : known w0 ds -> user_event info_dp ->
  (forall q, has_port w0 q -> offers op (fst q) -> safe (act q) (fun _ => True)) ->
  safe (d ← get_ds ds;
        match op (ds_ops d) with
        | None => mret (- EOPNOTSUPP)
        | Some _ => for_each_port ds (fun p =>
            dp ← port_of p;
            targeted_dp ← port_of info_dp;
            m ← queried (fun w => dsa_port_host_vlan_match w dp targeted_dp);
            if m : bool then act p else mret 0)
        end) (fun _ => True).
Proof using w0_wf.
  intros Hk Hu Ha. apply (safe_each_do ds op); [done |]. intros q Hq _ Ho.
  eapply safe_bind; [by apply safe_port_of |]. intros dp Hdp.
  eapply safe_bind; [by apply safe_port_of, user_has |]. intros t Ht.
  eapply safe_bind; [by apply (safe_host_match false q info_dp dp t Hdp Ht), user_is_user with info_dp |].
  intros m _. destruct m; [by apply Ha | by apply safe_ret].
Qed.

Lemma safe_vlan ds info_dp (op : dsa_switch_ops H -> option (Z -> Z -> switchdev_obj_port_vlan -> H -> Z * H))
    (act : pid -> st (world H) Z) : known w0 ds ->
  (forall q, has_port w0 q -> offers op (fst q) -> safe (act q) (fun _ => True)) ->
  safe (d ← get_ds ds;
        match op (ds_ops d) with
        | None => mret (- EOPNOTSUPP)
        | Some _ => for_each_port ds (fun p =>
            dp ← port_of p; if dsa_port_vlan_match dp info_dp then act p else mret 0)
        end) (fun _ => True).
Proof using w0_wf.
  intros Hk Ha. apply (safe_each_do ds op); [done |]. intros q Hq _ Ho.
  eapply safe_bind; [by apply safe_port_of |]. intros dp Hdp.
  destruct (dsa_port_vlan_match dp info_dp); [by apply Ha | by apply safe_ret].
Qed.

(** VLANs of [tag_8021q.c], on a switch with a context. *)
Lemma safe_do_8021q q c r vid flags : has_port w0 q -> w_switches w0 !! fst q = Some r ->
  ds_tag_8021q_ctx r = Some c ->
  (offers op_tag_8021q_vlan_add (fst q) ->
   safe (dsa_port_do_tag_8021q_vlan_add q vid flags) (fun _ => True)) /\
  (offers op_tag_8021q_vlan_del (fst q) ->
   safe (dsa_port_do_tag_8021q_vlan_del q vid) (fun _ => True)).
Proof using w0_wf.
  intros Hq Hr Hc. split; intros Ho.
  - apply (safe_do q op_tag_8021q_vlan_add (fun dp f => f (dp_ds dp) (dp_index dp) vid flags)
      (fun dp hw => if negb (dsa_port_is_shared dp) then hw
         else counted_add vlan_eqb (get_ctx_vlans (dp_ds dp)) (put_ctx_vlans (dp_ds dp)) kzalloc
                (dp_index dp, vid) hw) Hq Ho).
    intros dp hw Hdp Hh. destruct (negb _); [done |]. rewrite (proj1 (is_port_id _ _ Hdp)).
    apply safe_counted_add; [intros w; by eapply has_ctx_vlans | intros l w; apply inv_put_ctx_vlans | done].
  - apply (safe_do q op_tag_8021q_vlan_del (fun dp f => f (dp_ds dp) (dp_index dp) vid)
      (fun dp hw => if negb (dsa_port_is_shared dp) then hw
         else counted_del vlan_eqb (get_ctx_vlans (dp_ds dp)) (put_ctx_vlans (dp_ds dp)) refcount_inc
                (dp_index dp, vid) hw) Hq Ho).
    intros dp hw Hdp Hh. destruct (negb _); [done |]. rewrite (proj1 (is_port_id _ _ Hdp)).
    apply safe_counted_del; [intros w; by eapply has_ctx_vlans | intros l w; apply inv_put_ctx_vlans | done].
Qed.

Lemma ds_ctx ds d c : is_ds ds d -> ds_tag_8021q_ctx d = Some c ->
  exists r c', w_switches w0 !! ds = Some r /\ ds_tag_8021q_ctx r = Some c'.
Proof using.
  intros (r & Hr & E) Hc. symmetry in E. apply strip_ds_fields in E as (_ & _ & _ & E).
  destruct (E c Hc) as (c' & Hc' & _). by exists r, c'.
Qed.

Lemma safe_8021q ds info_dp vid : known w0 ds ->
  safe (dsa_switch_tag_8021q_vlan_add ds info_dp vid) (fun _ => True) /\
  safe (dsa_switch_tag_8021q_vlan_del ds info_dp vid) (fun _ => True).
Proof using w0_wf.
  intros Hk. split; (eapply safe_bind; [by apply safe_get_ds |]); intros d Hd.
  - destruct (op_tag_8021q_vlan_add (ds_ops d)) as [f |] eqn:Eo; [| by apply safe_ret].
    destruct (ds_tag_8021q_ctx d) as [c |] eqn:Ec; [| by apply safe_ret].
    destruct (ds_ctx _ _ _ Hd Ec) as (r & c' & Hr & Hc').
    apply safe_for_each_port. intros q Hq <-.
    eapply safe_bind; [by apply safe_port_of |]. intros dp Hdp. case_match; [| by apply safe_ret].
    eapply safe_do_8021q; [done | done | done |]. by eapply ds_offers.
  - destruct (op_tag_8021q_vlan_del (ds_ops d)) as [f |] eqn:Eo; [| by apply safe_ret].
    destruct (ds_tag_8021q_ctx d) as [c |] eqn:Ec; [| by apply safe_ret].
    destruct (ds_ctx _ _ _ Hd Ec) as (r & c' & Hr & Hc').
    apply safe_for_each_port. intros q Hq <-.
    eapply safe_bind; [by apply safe_port_of |]. intros dp Hdp. case_match; [| by apply safe_ret].
    eapply (safe_do_8021q q c' r vid 0); [done | done | done |]. by eapply ds_offers.
Qed.

(** Bridges, ageing time, MTU, taggers and conduits: driver calls. *)
Lemma safe_bridge ds o b tx : known w0 ds ->
  safe (dsa_switch_bridge_join ds o b tx) (fun _ => True) /\
  safe (dsa_switch_bridge_leave ds o b) (fun _ => True).
Proof using.
  intros Hk. split; (eapply safe_bind; [by apply safe_get_ds |]); intros d Hd; destruct (o_dp o) as [x y].
  - case_match; case_match; try (by apply safe_ret); [by apply safe_call_fun |].
    eapply safe_bind; [apply safe_call_op; by eexists |]. intros err _. by apply safe_ret.
  - apply (safe_bind _ _ (fun _ => True)); [| intros _ _; by apply safe_ret].
    case_match; case_match; try (by apply safe_ret); by apply safe_call_void.
Qed.

Lemma safe_ageing ds t : known w0 ds -> safe (dsa_switch_ageing_time ds t) (fun _ => True).
Proof using.
  intros Hk. eapply safe_bind; [by apply safe_get_ds |]. intros d Hd.
  case_match; [by apply safe_ret |]. case_match; [by apply safe_ret |].
  eapply safe_bind; [apply safe_get |]. intros w _.
  case_match; [apply safe_call_op; by eexists | by apply safe_ret].
Qed.

Lemma safe_mtu ds info_dp mtu : known w0 ds -> safe (dsa_switch_mtu ds info_dp mtu) (fun _ => True).
Proof using.
  intros Hk. eapply safe_bind; [by apply safe_get_ds |]. intros d Hd.
  case_match; [| by apply safe_ret]. apply safe_for_each_port. intros q Hq _.
  eapply safe_bind; [by apply safe_port_of |]. intros dp _.
  case_match; [apply safe_call_op; by eexists | by apply safe_ret].
Qed.

Lemma safe_tagger (tagger_data : H -> Z -> bool) ds o : known w0 ds ->
  safe (dsa_switch_connect_tag_proto ds o) (fun _ => True) /\
  safe (dsa_switch_disconnect_tag_proto tagger_data ds o) (fun _ => True).
Proof using.
  intros Hk.
  assert (Hd : safe (call_disconnect o ds) (fun _ => True)).
  { unfold call_disconnect. case_match; [apply safe_call_void | by apply safe_ret]. }
  split.
  - eapply safe_bind; [by apply safe_get_ds |]. intros d _.
    apply (safe_bind _ _ (fun _ => True)).
    { unfold call_tagger. case_match; [apply safe_call_op; by eexists | by apply safe_ret]. }
    intros err _. case_match; [by apply safe_ret |]. case_match; [| by apply safe_ret].
    eapply safe_bind; [apply safe_call_op; by eexists |]. intros err2 _. case_match; [| by apply safe_ret].
    eapply safe_bind; [exact Hd |]. intros _ _. by apply safe_ret.
  - eapply safe_bind; [apply safe_get |]. intros w _. eapply safe_bind; [| intros _ _; by apply safe_ret].
    instantiate (1 := fun _ => True). case_match; [exact Hd | by apply safe_ret].
Qed.

Lemma safe_conduit ds c up : known w0 ds -> safe (dsa_switch_conduit_state_change ds c up) (fun _ => True).
Proof using.
  intros Hk. eapply safe_bind; [by apply safe_get_ds |]. intros d _. case_match; [| by apply safe_ret].
  eapply safe_bind; [apply safe_call_void |]. intros _ _. by apply safe_ret.
Qed.

(** An event that has what its handlers read. *)
Definition event_ok (ev : dsa_event H) : Prop :=
  match ev with
  | DSA_NOTIFIER_FDB_ADD dp _ | DSA_NOTIFIER_FDB_DEL dp _
  | DSA_NOTIFIER_MDB_ADD dp _ | DSA_NOTIFIER_MDB_DEL dp _
  | DSA_NOTIFIER_LAG_CHANGE dp | DSA_NOTIFIER_LAG_JOIN dp _ | DSA_NOTIFIER_LAG_LEAVE dp _ =>
      has_port w0 dp
  | DSA_NOTIFIER_HOST_FDB_ADD dp _ | DSA_NOTIFIER_HOST_FDB_DEL dp _
  | DSA_NOTIFIER_HOST_MDB_ADD dp _ | DSA_NOTIFIER_HOST_MDB_DEL dp _
  | DSA_NOTIFIER_HOST_VLAN_ADD dp _ | DSA_NOTIFIER_HOST_VLAN_DEL dp _ => user_event dp
  | DSA_NOTIFIER_LAG_FDB_ADD lag _ | DSA_NOTIFIER_LAG_FDB_DEL lag _ => is_Some (w_lags w0 !! lag)
  | _ => True
  end.

Lemma safe_keep (ev : dsa_event H) m : event_ok ev -> safe m (fun _ => True) ->
  safe (keep_info ev m) (fun r => event_ok (snd r)).
Proof using. intros Hev Hm. eapply safe_bind; [exact Hm |]. intros err _. by apply safe_ret. Qed.

Lemma safe_event (tagger_data : H -> Z -> bool) ds ev : known w0 ds -> event_ok ev ->
  safe (dsa_switch_event tagger_data ds ev) (fun r => event_ok (snd r)).
Proof using w0_wf.
  intros Hk Hev. destruct ev; cbn [dsa_switch_event]; try (apply safe_keep; [exact Hev |]).
  - by apply safe_ageing.
  - eapply safe_bind; [by apply safe_bridge |]. intros [err tx] _. by apply safe_ret.
  - by apply (safe_bridge ds dp bridge false).
  - apply (safe_towards_do ds dp op_port_fdb_add); [done | done |]. intros q. apply (safe_do_add Fdb).
  - apply (safe_towards_do ds dp op_port_fdb_del); [done | done |]. intros q. apply (safe_do_del Fdb).
  - by apply safe_host_fdb_add.
  - by apply safe_host_fdb_del.
  - by apply safe_lag_fdb.
  - by apply safe_lag_fdb.
  - by apply (safe_lag_events ds dp (mkLagInfo 0 0)).
  - by apply (safe_lag_events ds dp lag).
  - by apply (safe_lag_events ds dp lag).
  - apply (safe_towards_do ds dp op_port_mdb_add); [done | done |]. intros q. apply (safe_do_add Mdb).
  - apply (safe_towards_do ds dp op_port_mdb_del); [done | done |]. intros q. apply (safe_do_del Mdb).
  - apply (safe_each_do ds op_port_mdb_add); [done |]. intros q Hq _ Ho.
    apply safe_on_host_match; [done | done |]. intros _ _ _ _. by apply (safe_do_add Mdb).
  - apply (safe_each_do ds op_port_mdb_del); [done |]. intros q Hq _ Ho.
    apply safe_on_host_match; [done | done |]. intros _ _ _ _. by apply (safe_do_del Mdb).
  - apply (safe_vlan ds dp op_port_vlan_add); [done |]. intros q Hq Ho. by apply safe_do_vlan_add.
  - apply (safe_vlan ds dp op_port_vlan_del); [done |]. intros q Hq Ho. by apply safe_do_vlan_del.
  - apply (safe_host_vlan ds dp op_port_vlan_add); [done | done |]. intros q Hq Ho. by apply safe_do_vlan_add.
  - apply (safe_host_vlan ds dp op_port_vlan_del); [done | done |]. intros q Hq Ho. by apply safe_do_vlan_del.
  - by apply safe_mtu.
  - by apply safe_tagger.
  - by apply (safe_tagger tagger_data).
  - by apply safe_8021q.
  - by apply safe_8021q.
  - by apply safe_conduit.
Qed.

Lemma safe_notifier (tagger_data : H -> Z -> bool) ds ev : known w0 ds -> event_ok ev ->
  safe (switch_notifier tagger_data ds ev) (fun r => event_ok (snd r)).
Proof using w0_wf.
  intros Hk Hev. unfold switch_notifier. eapply safe_bind; [by apply safe_event |].
  intros [err ev'] Hev'. by apply safe_ret.
Qed.

Lemma safe_chain (tagger_data : H -> Z -> bool) l ev :
  (forall ds, ds ∈ l -> known w0 ds) -> event_ok ev ->
  safe (raw_notifier_call_chain (switch_notifier tagger_data) l ev) (fun r => event_ok (snd r)).
Proof using w0_wf.
  revert ev. induction l as [| ds l IH]; intros ev Hl Hev w Hs.
  { unfold total. by rewrite chain_nil. }
  unfold total. rewrite chain_cons.
  fold (total (('(ret, info') ← switch_notifier tagger_data ds ev;
    if notify_stops ret || match l with [] => true | _ => false end then mret (ret, info')
    else raw_notifier_call_chain (switch_notifier tagger_data) l info')) w
    (fun r w' => same_shape w0 w' /\ event_ok (snd r))).
  mstep (apply safe_notifier; [apply Hl; by left | done | exact Hs]).
  intros [ret ev'] w1 [Hs1 Hev1]. destruct (notify_stops ret || _); [by apply total_ret |].
  apply IH; [| done | done]. intros ds' Hds. apply Hl. by right.
Qed.

Lemma safe_notify (tagger_data : H -> Z -> bool) ev : event_ok ev ->
  safe (dsa_tree_notify tagger_data ev) (fun r => event_ok (snd r)).
Proof using w0_wf.
  intros Hev. unfold dsa_tree_notify. eapply safe_bind; [apply safe_get |]. intros w1 Hs1.
  eapply safe_bind; [apply safe_chain; [| exact Hev] |].
  - intros ds Hds. apply (wf_nh _ w0_wf).
    pose proof (shape_inv _ _ (inv_shape _ Hs1)) as (_ & _ & _ & _ & _ & En). by rewrite En.
  - intros [ret ev'] Hev'. by apply safe_ret.
Qed.

Lemma safe_port_notify (tagger_data : H -> Z -> bool) ev : event_ok ev ->
  safe (dsa_port_notify tagger_data ev) (fun _ => True).
Proof using w0_wf.
  intros Hev. eapply safe_bind; [by apply safe_notify |]. intros [err ev'] _. by apply safe_ret.
Qed.

End Safe.


(** ** Two switches in a row *)

Module SafeDemo.
Import SwitchDemo EventDemo.

Definition fabric_port (ds i : Z) (t : dsa_port_type) (cpu : option pid) : dsa_port :=
  mkPort ds i t (Some (100 * ds + i)) cpu 0 false true true true false 0 None None None [] [] []
    false true None false.

Definition fabric_ds (i : Z) : dsa_switch table :=
  mkDs i 5 false false 1000 300000 demo_ops None true false true true 0 0 false.

(** User port, link and CPU port on the first; user port and link on the second. *)
Definition row : world table :=
  mkWorld (mkTree 0 2 LagsNull None 0 true 0 1)
    [fabric_port 1 0 DSA_PORT_TYPE_USER (Some (1, 4)); fabric_port 1 1 DSA_PORT_TYPE_DSA (Some (1, 4));
     fabric_port 1 4 DSA_PORT_TYPE_CPU None;
     fabric_port 2 0 DSA_PORT_TYPE_USER (Some (1, 4)); fabric_port 2 1 DSA_PORT_TYPE_DSA (Some (1, 4))]
    [((1, 1), (2, 1)); ((2, 1), (1, 1))]
    {[ 1 := fabric_ds 0; 2 := fabric_ds 1 ]} ∅ ∅ [1; 2] [] [] [].

Lemma row_switches ds d : w_switches row !! ds = Some d -> (ds = 1 /\ d = fabric_ds 0) \/ (ds = 2 /\ d = fabric_ds 1).
Proof.
  cbn. intros [[<- <-] | [Hne E]]%lookup_insert_Some; [by left |].
  apply lookup_singleton_Some in E as [<- <-]. by right.
Qed.

Lemma row_wf : tree_wf row.
Proof.
  assert (Hp : forall dp, dp ∈ w_ports row -> known row (dp_ds dp) /\
    match dp_cpu_dp dp with Some cpu => has_port row cpu
    | None => dsa_port_is_user dp = false /\ dsa_port_is_dsa dp = false end /\
    (dsa_port_is_user dp = true -> is_Some (dp_netdev dp) /\ is_Some (dsa_port_to_conduit row dp)) /\
    dp_cpu_port_in_lag dp = false).
  { cbn. intros dp. rewrite !elem_of_cons, elem_of_nil.
    intros [-> | [-> | [-> | [-> | [-> | []]]]]]; (split; [by eexists |]);
      (split; [try by eexists |]); (split; [| done]); try done; intros _; split; by eexists. }
  split.
  - apply (bool_decide_unpack _). reflexivity.
  - intros dp Hdp. by apply Hp.
  - cbn. intros ds. rewrite !elem_of_cons, elem_of_nil. intros [-> | [-> | []]]; by eexists.
  - intros a b [d Hd]. unfold index_of. rewrite Hd.
    destruct (w_switches row !! b) as [d' |] eqn:E; [| done].
    destruct (row_switches _ _ Hd) as [[-> ->] | [-> ->]], (row_switches _ _ E) as [[-> ->] | [-> ->]];
      [done | discriminate | discriminate | done].
  - intros a b [d Hd] [d' E] Hne.
    destruct (row_switches _ _ Hd) as [[-> ->] | [-> ->]], (row_switches _ _ E) as [[-> ->] | [-> ->]];
      try done; [exists 1, 1 | exists 0, 1]; (split_and!; [reflexivity | reflexivity | by eexists]).
  - intros dp Hdp. by apply Hp.
  - intros ds d c Hd. by destruct (row_switches _ _ Hd) as [[-> ->] | [-> ->]].
  - intros dp Hdp. by apply Hp.
  - intros dp dq d Hdp Hl. destruct (Hp dp Hdp) as (_ & _ & _ & E). congruence.
Qed.


End SafeDemo.
