(* ===== verification/DsaGroups.v ===== *)
(** * Bridges and link aggregations of a tree (DSA/dsa2.c, DSA/port.c)

    Ports of a tree that offload the same bridge, or the same LAG, share one
    reference-counted object.  Bridges get a number from a bit map common to all
    trees, LAGs an identifier from an array of the tree.  The creation and
    destruction of the objects, and the invariant they keep: one object per
    device, alive exactly as long as it has members, counting them, under a
    number of its own. *)

From Stdlib Require Import ZArith Lia Bool.
From S2P Require Import Prelude.
From S2P Require Import Kernel.
From S2P Require Import DsaTypes.
From S2P Require Import DsaSwitch.
From S2P Require Import DsaEvent.

(** [find_next_zero_bit (map, size, offset)]: the first clear bit from [offset]
    on, or [size]. *)
Class BitmapApi := {
  find_next_zero_bit : Z -> Z -> Z -> Z;
  next_zero_range m size off : 0 <= off <= size -> off <= find_next_zero_bit m size off <= size;
  next_zero_clear m size off : 0 <= off <= size -> find_next_zero_bit m size off < size ->
    Z.testbit m (find_next_zero_bit m size off) = false;
  next_zero_first m size off i : off <= i < find_next_zero_bit m size off -> Z.testbit m i = true;
}.

Definition BITS_PER_LONG : Z := 64.
Definition DSA_MAX_NUM_OFFLOADING_BRIDGES : Z := BITS_PER_LONG.

(** [set_bit] and [clear_bit] on one word: another bit is outside of it. *)
Definition set_bit (n m : Z) : option Z := if (0 <=? n) && (n <? BITS_PER_LONG) then Some (Z.setbit m n) else None.
Definition clear_bit (n m : Z) : option Z := if (0 <=? n) && (n <? BITS_PER_LONG) then Some (Z.clearbit m n) else None.

Section DsaGroups.
Context {H : Type} `{RefcountApi, BitmapApi}.
Abbreviation M := (st (world H)).
Abbreviation FM := (st (fabric H)).

(** ** LAG identifiers *)

(** [dst->lags[id - 1]] *)
Definition dsa_lag_by_id (id : Z) : M (option Z) :=
  w ← get_st;
  match dst_lags (w_tree w) with
  | LagsArray l => deref (getz l (id - 1))
  | LagsNull | LagsFreed => fault
  end.

Definition store_lag (id : Z) (lag : option Z) : M unit := fun w =>
  match dst_lags (w_tree w) with
  | LagsArray l => l ← setz l (id - 1) lag; Some (tt, upd_tree (set_dst_lags (LagsArray l)) w)
  | LagsNull | LagsFreed => None
  end.

Definition set_lag_id (id : Z) (g : dsa_lag) : dsa_lag :=
  mkLag (lag_dev g) id (lag_fdbs g) (lag_refcount g).
Definition set_lag_refcount (n : Z) (g : dsa_lag) : dsa_lag :=
  mkLag (lag_dev g) (lag_id g) (lag_fdbs g) n.
Definition upd_lag (lag : Z) (f : dsa_lag -> dsa_lag) (w : world H) : world H :=
  set_lags w (alter f lag (w_lags w)).

(** [for (id = 1; id <= dst->lags_len; id++)] *)
Definition lag_ids (w : world H) : list Z := seqZ 1 (dst_lags_len (w_tree w)).

Fixpoint lag_map_loop (ids : list Z) (lag : Z) : M unit :=
  match ids with
  | [] => mret tt
  | id :: ids =>
      o ← dsa_lag_by_id id;
      match o with
      | None => _ ← store_lag id (Some lag); modify (upd_lag lag (set_lag_id id))
      | Some _ => lag_map_loop ids lag
      end
  end.

Definition dsa_lag_map (lag : Z) : M unit := w ← get_st; lag_map_loop (lag_ids w) lag.

Fixpoint lag_unmap_loop (ids : list Z) (lag : Z) : M unit :=
  match ids with
  | [] => mret tt
  | id :: ids =>
      o ← dsa_lag_by_id id;
      if bool_decide (o = Some lag)
      then _ ← store_lag id None; modify (upd_lag lag (set_lag_id 0))
      else lag_unmap_loop ids lag
  end.

Definition dsa_lag_unmap (lag : Z) : M unit := w ← get_st; lag_unmap_loop (lag_ids w) lag.

(** [dsa_lag_id]: the identifier of a LAG device, or [-ENODEV]. *)
Fixpoint lag_id_loop (ids : list Z) (dev : netdev) : M Z :=
  match ids with
  | [] => mret (- ENODEV)
  | id :: ids =>
      o ← dsa_lag_by_id id;
      match o with
      | None => lag_id_loop ids dev
      | Some lag =>
          w ← get_st; g ← deref (w_lags w !! lag);
          if lag_dev g =? dev then mret id else lag_id_loop ids dev
      end
  end.
Definition dsa_lag_id (dev : netdev) : M Z := w ← get_st; lag_id_loop (lag_ids w) dev.

Definition dsa_tree_lag_find (w : world H) (dev : netdev) : option Z :=
  dp ← List.find (fun dp => bool_decide (dsa_port_lag_dev_get w dp = Some dev)) (w_ports w);
  dp_lag dp.

Definition dsa_tree_setup_lags : M Z :=
  w ← get_st;
  lens ← deref (mapM (fun dp => ds_num_lag_ids <$> w_switches w !! dp_ds dp) (w_ports w));
  let len := foldl (fun len n => if len <? n then n else len) 0 lens in
  if len =? 0 then mret 0
  else
    ok ← kzalloc;
    if negb ok then
      _ ← modify (upd_tree (set_dst_lags LagsNull)); mret (- ENOMEM)
    else
      _ ← modify (upd_tree (fun t => set_dst_lags_len len
            (set_dst_lags (LagsArray (replicate (Z.to_nat len) None)) t)));
      mret 0.

(** [kfree (dst->lags)] leaves the pointer and the length. *)
Definition dsa_tree_teardown_lags : M unit :=
  modify (upd_tree (fun t => set_dst_lags
    (match dst_lags t with LagsNull => LagsNull | _ => LagsFreed end) t)).

Definition dsa_port_lag_create (p : pid) (lag_dev : netdev) : M Z :=
  w ← get_st;
  match dsa_tree_lag_find w lag_dev with
  | Some lag =>
      _ ← modify (upd_lag lag (fun g => set_lag_refcount (refcount_inc (lag_refcount g)) g));
      _ ← modify (upd_port p (set_lag (Some lag)));
      mret 0
  | None =>
      ok ← kzalloc;
      if negb ok then mret (- ENOMEM)
      else
        let lag := fresh (dom (w_lags w)) in
        _ ← modify (fun w => set_lags w (<[lag := mkLag lag_dev 0 [] 1]> (w_lags w)));
        _ ← dsa_lag_map lag;
        _ ← modify (upd_port p (set_lag (Some lag)));
        mret 0
  end.

Definition dsa_port_lag_destroy (p : pid) : M unit :=
  dp ← port_of p;
  lag ← deref (dp_lag dp);
  _ ← modify (upd_port p (fun dp => set_lag_tx_enabled false (set_lag None dp)));
  w ← get_st;
  g ← deref (w_lags w !! lag);
  let '(zero, n) := refcount_dec_and_test (lag_refcount g) in
  _ ← modify (upd_lag lag (set_lag_refcount n));
  if negb zero then mret tt
  else
    _ ← dsa_lag_unmap lag;
    modify (fun w => set_lags w (delete lag (w_lags w))).

(** ** Bridges *)

Definition set_br_refcount (n : Z) (b : dsa_bridge) : dsa_bridge :=
  mkBridge (br_dev b) (br_num b) (br_tx_fwd_offload b) n.
Definition set_br_tx_fwd_offload (x : bool) (b : dsa_bridge) : dsa_bridge :=
  mkBridge (br_dev b) (br_num b) x (br_refcount b).
Definition upd_bridge (b : Z) (f : dsa_bridge -> dsa_bridge) (w : world H) : world H :=
  set_bridges w (alter f b (w_bridges w)).

Definition dsa_tree_bridge_find (w : world H) (br : netdev) : option Z :=
  dp ← List.find (fun dp => bool_decide (dsa_port_bridge_dev_get w dp = Some br)) (w_ports w);
  dp_bridge dp.

(** Zero when no tree has the bridge, or the first that has it left it without
    a number. *)
Fixpoint dsa_bridge_num_find (trees : list (world H)) (br : netdev) : option Z :=
  match trees with
  | [] => Some 0
  | w :: trees =>
      match dsa_tree_bridge_find w br with
      | Some b => br_num <$> w_bridges w !! b
      | None => dsa_bridge_num_find trees br
      end
  end.

Definition dsa_bridge_num_get (br : netdev) (max : Z) : FM Z :=
  f ← get_st;
  bridge_num ← deref (dsa_bridge_num_find (f_trees f) br);
  if max =? 0 then mret 0
  else if bridge_num =? 0 then
    let bridge_num := find_next_zero_bit (f_bridges f) DSA_MAX_NUM_OFFLOADING_BRIDGES 1 in
    if max <=? bridge_num then mret 0
    else
      m ← deref (set_bit bridge_num (f_bridges f));
      _ ← modify (fun f => mkFabric (f_trees f) m);
      mret bridge_num
  else mret bridge_num.

Definition dsa_bridge_num_put (bridge_num : Z) : FM unit := fun f =>
  m ← clear_bit bridge_num (f_bridges f); Some (tt, mkFabric (f_trees f) m).

Definition dsa_port_bridge_create (t : nat) (p : pid) (br : netdev) : FM Z :=
  w ← on_tree t get_st;
  match dsa_tree_bridge_find w br with
  | Some b => on_tree t (
      _ ← modify (upd_bridge b (fun o => set_br_refcount (refcount_inc (br_refcount o)) o));
      _ ← modify (upd_port p (set_bridge (Some b)));
      mret 0)
  | None =>
      ok ← on_tree t kzalloc;
      if negb ok then mret (- ENOMEM)
      else
        dp ← on_tree t (port_of p);
        d ← on_tree t (get_ds (dp_ds dp));
        num ← dsa_bridge_num_get br (ds_max_num_bridges d);
        if negb (ds_max_num_bridges d =? 0) && (num =? 0) then mret (- EOPNOTSUPP)
        else
          let b := fresh (dom (w_bridges w)) in
          on_tree t (
            _ ← modify (fun w => set_bridges w (<[b := mkBridge br num false 1]> (w_bridges w)));
            _ ← modify (upd_port p (set_bridge (Some b)));
            mret 0)
  end.

Definition dsa_port_bridge_destroy (t : nat) (p : pid) : FM unit :=
  dp ← on_tree t (port_of p);
  b ← deref (dp_bridge dp);
  _ ← on_tree t (modify (upd_port p (set_bridge None)));
  w ← on_tree t get_st;
  o ← deref (w_bridges w !! b);
  let '(zero, n) := refcount_dec_and_test (br_refcount o) in
  _ ← on_tree t (modify (upd_bridge b (set_br_refcount n)));
  if negb zero then mret tt
  else
    _ ← (if br_num o =? 0 then mret tt else dsa_bridge_num_put (br_num o));
    on_tree t (modify (fun w => set_bridges w (delete b (w_bridges w)))).

End DsaGroups.

(** ** Shared objects

    A list of holders, each pointing to at most one object of a heap; the
    objects count their holders, and no two stand for the same device. *)

Section Shared.
Context {P O : Type} (name : P -> pid) (ptr : P -> option Z) (count dev : O -> Z).

Definition members (l : list P) (b : Z) : Z :=
  Z.of_nat (length (List.filter (fun x => bool_decide (ptr x = Some b)) l)).

Record shared_ok (l : list P) (m : gmap Z O) : Prop := {
  shared_names : NoDup (name <$> l);
  shared_live x b : x ∈ l -> ptr x = Some b -> is_Some (m !! b);
  shared_count b o : m !! b = Some o -> count o = members l b /\ 1 <= members l b;
  shared_dev b1 b2 o1 o2 : m !! b1 = Some o1 -> m !! b2 = Some o2 -> dev o1 = dev o2 -> b1 = b2;
}.

(** One holder changed by [f]. *)
Definition upd_holder (k : pid) (f : P -> P) (l : list P) : list P :=
  (fun x => if bool_decide (name x = k) then f x else x) <$> l.

Context (k : pid) (f : P -> P) (f_name : forall x, name (f x) = name x).

Lemma upd_holder_names l : name <$> upd_holder k f l = name <$> l.
Proof using f_name.
  unfold upd_holder. rewrite <- list_fmap_compose. apply list_fmap_ext. intros i x _. simpl.
  by case_bool_decide.
Qed.

Lemma members_cons x l b :
  members (x :: l) b = (if bool_decide (ptr x = Some b) then 1 else 0) + members l b.
Proof using. unfold members. cbn [List.filter]. case_bool_decide; cbn [length]; lia. Qed.

Lemma members_elem l b : 1 <= members l b <-> exists x, x ∈ l /\ ptr x = Some b.
Proof using.
  induction l as [| x l IH].
  { split; [unfold members; simpl; lia | intros (x & Hx & _); by apply not_elem_of_nil in Hx]. }
  rewrite members_cons. case_bool_decide as E.
  - split; [intros _; exists x; split; [by left | done] | unfold members; lia].
  - rewrite Z.add_0_l, IH. split; intros (y & Hy & Ey); exists y; split; try done.
    + by right.
    + apply elem_of_cons in Hy as [-> | Hy]; [by rewrite E in Ey || done | done].
Qed.

Lemma upd_holder_other l : k ∉ name <$> l -> upd_holder k f l = l.
Proof using.
  induction l as [| x l IH]; [done |]. rewrite fmap_cons. intros Hn. unfold upd_holder in *.
  rewrite fmap_cons. rewrite bool_decide_false, IH; [done | |].
  - intros Hk. apply Hn. by right.
  - intros <-. apply Hn. by left.
Qed.

Lemma members_upd l x b : NoDup (name <$> l) -> x ∈ l -> name x = k ->
  members (upd_holder k f l) b = members l b
    - (if bool_decide (ptr x = Some b) then 1 else 0)
    + (if bool_decide (ptr (f x) = Some b) then 1 else 0).
Proof using f_name.
  intros Hnd Hx Hk. induction l as [| y l IH]; [by apply not_elem_of_nil in Hx |].
  rewrite fmap_cons in Hnd. apply NoDup_cons in Hnd as [Hy Hnd].
  unfold upd_holder in *. rewrite fmap_cons, !members_cons.
  apply elem_of_cons in Hx as [<- | Hx].
  - rewrite (bool_decide_true (name x = k)) by done.
    pose proof (upd_holder_other l) as Ho. unfold upd_holder in Ho.
    rewrite Ho by (by rewrite <- Hk). lia.
  - rewrite (bool_decide_false (name y = k)), IH; [lia | done | done |].
    intros E. apply Hy. rewrite E, <- Hk. by apply list_elem_of_fmap_2.
Qed.

Lemma upd_holder_elem l y : y ∈ upd_holder k f l ->
  exists x, x ∈ l /\ y = (if bool_decide (name x = k) then f x else x).
Proof using. intros (x & -> & Hx)%list_elem_of_fmap. by exists x. Qed.

Lemma elem_unique l x y : NoDup (name <$> l) -> x ∈ l -> y ∈ l -> name x = name y -> x = y.
Proof using.
  induction l as [| z l IH]; [by intros _ ?%not_elem_of_nil |].
  rewrite fmap_cons. intros [Hz Hnd]%NoDup_cons [-> | Hx]%elem_of_cons [-> | Hy]%elem_of_cons E;
    [done | | | by apply IH]; exfalso; apply Hz.
  - rewrite E. by apply list_elem_of_fmap_2.
  - rewrite <- E. by apply list_elem_of_fmap_2.
Qed.

(** The holder that had nothing points to the object stored at [b]. *)
Lemma shared_join l m x b o : shared_ok l m -> x ∈ l -> name x = k -> ptr x = None ->
  ptr (f x) = Some b -> count o = members l b + 1 ->
  (forall b' o', m !! b' = Some o' -> dev o' = dev o -> b' = b) ->
  shared_ok (upd_holder k f l) (<[b := o]> m).
Proof using f_name.
  intros [Hn Hl Hc Hd] Hx Hk Hp Hpf Ho Hdev. split.
  - by rewrite upd_holder_names.
  - intros y b' (z & Hz & ->)%upd_holder_elem Hy. destruct (decide (b = b')) as [<- | Hne].
    { rewrite lookup_insert_eq. by eexists. }
    rewrite lookup_insert_ne by done. case_bool_decide as E; [| by apply (Hl z)].
    rewrite (elem_unique l z x Hn Hz Hx) in Hy by congruence. congruence.
  - intros b' o'. rewrite (members_upd l x b' Hn Hx Hk), Hp, Hpf.
    rewrite (bool_decide_false (None = Some b')) by done. destruct (decide (b = b')) as [<- | Hne].
    + rewrite lookup_insert_eq, bool_decide_true by done. intros [= <-].
      unfold members in *. lia.
    + rewrite lookup_insert_ne, bool_decide_false by congruence. intros [E1 E2]%Hc. lia.
  - intros b1 b2 o1 o2. destruct (decide (b = b1)) as [<- | N1], (decide (b = b2)) as [<- | N2];
      rewrite ?lookup_insert_eq, ?lookup_insert_ne by done; try done.
    + intros [= <-] E2 Ed. by rewrite (Hdev b2 o2).
    + intros E1 [= <-] Ed. by rewrite (Hdev b1 o1).
    + apply Hd.
Qed.

(** A holder lets go of an object that others still hold. *)
Lemma shared_leave l m x b o o' : shared_ok l m -> x ∈ l -> name x = k -> ptr x = Some b ->
  ptr (f x) = None -> m !! b = Some o -> 1 < count o -> count o' = count o - 1 -> dev o' = dev o ->
  shared_ok (upd_holder k f l) (<[b := o']> m).
Proof using f_name.
  intros [Hn Hl Hc Hd] Hx Hk Hp Hpf Hb H1 Ho' Hdev. destruct (Hc b o Hb) as [Eb Eb1]. split.
  - by rewrite upd_holder_names.
  - intros y b' (z & Hz & ->)%upd_holder_elem Hy. destruct (decide (b = b')) as [<- | Hne].
    { rewrite lookup_insert_eq. by eexists. }
    rewrite lookup_insert_ne by done. case_bool_decide as E; [| by apply (Hl z)].
    rewrite (elem_unique l z x Hn Hz Hx) in Hy by congruence. congruence.
  - intros b' o2. rewrite (members_upd l x b' Hn Hx Hk), Hp, Hpf.
    rewrite (bool_decide_false (None = Some b')) by done. destruct (decide (b = b')) as [<- | Hne].
    + rewrite lookup_insert_eq, bool_decide_true by done. intros [= <-]. lia.
    + rewrite lookup_insert_ne, bool_decide_false by congruence. intros [E1 E2]%Hc. lia.
  - intros b1 b2 o1 o2. destruct (decide (b = b1)) as [<- | N1], (decide (b = b2)) as [<- | N2];
      rewrite ?lookup_insert_eq, ?lookup_insert_ne by done; try done.
    + intros [= <-] E2 Ed. apply (Hd b b2 o o2); congruence.
    + intros E1 [= <-] Ed. apply (Hd b1 b o1 o); congruence.
    + apply Hd.
Qed.

(** The last holder lets go. *)
Lemma shared_drop l m x b o : shared_ok l m -> x ∈ l -> name x = k -> ptr x = Some b ->
  ptr (f x) = None -> m !! b = Some o -> count o = 1 ->
  shared_ok (upd_holder k f l) (delete b m).
Proof using f_name.
  intros [Hn Hl Hc Hd] Hx Hk Hp Hpf Hb H1. destruct (Hc b o Hb) as [Eb Eb1].
  assert (Hm : forall b', members (upd_holder k f l) b' =
            members l b' - (if bool_decide (b = b') then 1 else 0)).
  { intros b'. rewrite (members_upd l x b' Hn Hx Hk), Hp, Hpf.
    rewrite (bool_decide_false (None = Some b')) by done.
    rewrite (bool_decide_ext (Some b = Some b') (b = b')) by (split; congruence). lia. }
  split.
  - by rewrite upd_holder_names.
  - intros y b' Hy Ey. assert (Hm1 : 1 <= members (upd_holder k f l) b')
      by (apply members_elem; by exists y).
    rewrite Hm in Hm1. case_bool_decide as E; [subst; lia |].
    rewrite lookup_delete_ne by done.
    apply upd_holder_elem in Hy as (z & Hz & ->). case_bool_decide as Ez; [| by apply (Hl z)].
    rewrite (elem_unique l z x Hn Hz Hx) in Ey by congruence. congruence.
  - intros b' o' E. apply lookup_delete_Some in E as [Hne E]. rewrite Hm, bool_decide_false by done.
    destruct (Hc _ _ E). lia.
  - intros b1 b2 o1 o2 [N1 E1]%lookup_delete_Some [N2 E2]%lookup_delete_Some. by apply Hd.
Qed.

(** The search for the object of a device through the holders. *)
Definition find_shared (l : list P) (m : gmap Z O) (d : Z) : option Z :=
  x ← List.find (fun x => bool_decide ((b ← ptr x; dev <$> m !! b) = Some d)) l; ptr x.

Lemma find_shared_spec l m d : shared_ok l m ->
  match find_shared l m d with
  | Some b => exists o, m !! b = Some o /\ dev o = d
  | None => forall b o, m !! b = Some o -> dev o <> d
  end.
Proof using.
  intros [Hn Hl Hc Hd]. unfold find_shared.
  destruct (List.find _ l) as [x |] eqn:E.
  - apply List.find_some in E as [_ E]. apply bool_decide_eq_true in E. cbn.
    destruct (ptr x) as [b |]; [| done]. cbn in E. destruct (m !! b) as [o |] eqn:Eb; [| done].
    exists o. split; [done |]. by injection E.
  - cbn. intros b o Hb <-. destruct (Hc b o Hb) as [_ Hm%members_elem].
    destruct Hm as (x & Hx & Ex). apply list_elem_of_In in Hx.
    apply (List.find_none _ _ E) in Hx. apply bool_decide_eq_false in Hx. apply Hx.
    rewrite Ex. cbn. by rewrite Hb.
Qed.

Lemma members_le l b : members l b <= Z.of_nat (length l).
Proof using. unfold members. pose proof (List.filter_length_le (fun x => bool_decide (ptr x = Some b)) l). lia. Qed.

Lemma members_lt l x b : x ∈ l -> ptr x = None -> members l b < Z.of_nat (length l).
Proof using.
  intros Hx Hp. apply list_elem_of_split in Hx as (l1 & l2 & ->).
  unfold members. rewrite List.filter_app. cbn [List.filter]. rewrite Hp, bool_decide_false by done.
  rewrite !length_app. cbn [length].
  pose proof (List.filter_length_le (fun x => bool_decide (ptr x = Some b)) l1).
  pose proof (List.filter_length_le (fun x => bool_decide (ptr x = Some b)) l2). lia.
Qed.

End Shared.

(** ** Bridges of a system with one tree *)

Section Bridges.
Context {H : Type} `{RefcountApi, BitmapApi}.
Implicit Types (w : world H) (f : fabric H).

Abbreviation bridges_shared w :=
  (shared_ok dp_id dp_bridge br_refcount br_dev (w_ports w) (w_bridges w)).

(** The numbers in use are the bits of the map; no two bridges share one. *)
Record nums_ok (mask : Z) (m : gmap Z dsa_bridge) : Prop := {
  nums_used n : 0 < n -> Z.testbit mask n = true <-> exists b o, m !! b = Some o /\ br_num o = n;
  nums_apart b1 b2 o1 o2 : m !! b1 = Some o1 -> m !! b2 = Some o2 ->
    br_num o1 <> 0 -> br_num o1 = br_num o2 -> b1 = b2;
  nums_range b o : m !! b = Some o -> 0 <= br_num o < BITS_PER_LONG;
}.

Definition limits_ok w : Prop :=
  forall dp, dp ∈ w_ports w -> exists d, w_switches w !! dp_ds dp = Some d /\
    0 <= ds_max_num_bridges d <= DSA_MAX_NUM_OFFLOADING_BRIDGES.

Definition tree_ok w (mask : Z) : Prop :=
  bridges_shared w /\ nums_ok mask (w_bridges w) /\ limits_ok w /\
  Z.of_nat (length (w_ports w)) < REFCOUNT_MAX.

Definition fabric_ok f : Prop := exists w, f_trees f = [w] /\ tree_ok w (f_bridges f).

(** The bridge device a port belongs to; [None] also for an unknown port. *)
Definition bridge_of f (p : pid) : option netdev :=
  w ← f_trees f !! 0%nat; dp ← get_port w p; dsa_port_bridge_dev_get w dp.

Definition port_free f (p : pid) : Prop :=
  exists w dp, f_trees f !! 0%nat = Some w /\ get_port w p = Some dp /\ dp_bridge dp = None.
Definition port_bridged f (p : pid) : Prop :=
  exists w dp b, f_trees f !! 0%nat = Some w /\ get_port w p = Some dp /\ dp_bridge dp = Some b.

(** Joining as an unbridged port, and leaving as a bridged one. *)
Inductive group_reach (f0 : fabric H) : fabric H -> Prop :=
| group_start : group_reach f0 f0
| group_create f p br err f' : group_reach f0 f -> port_free f p ->
    dsa_port_bridge_create 0 p br f = Some (err, f') -> group_reach f0 f'
| group_destroy f p u f' : group_reach f0 f -> port_bridged f p ->
    dsa_port_bridge_destroy 0 p f = Some (u, f') -> group_reach f0 f'.

Lemma on_only_tree {A} (m : st (world H) A) w mask :
  on_tree 0 m (mkFabric [w] mask) =
  match m w with Some (a, w') => Some (a, mkFabric [w'] mask) | None => None end.
Proof. unfold on_tree. cbn. by destruct (m w) as [[a w'] |]. Qed.

Lemma get_port_elem w p dp : get_port w p = Some dp -> dp ∈ w_ports w /\ dp_id dp = p.
Proof.
  intros E. split; [| by eapply find_port_id].
  apply List.find_some in E as [E _]. by apply list_elem_of_In.
Qed.

Lemma find_bridge_shared w br :
  dsa_tree_bridge_find w br = find_shared dp_bridge br_dev (w_ports w) (w_bridges w) br.
Proof. done. Qed.

(** The allocation answers the request and changes nothing else. *)
Lemma kzalloc_run w : exists ok l, kzalloc w = Some (ok, set_alloc w l).
Proof.
  unfold kzalloc. destruct (w_alloc w) as [| b l] eqn:E; [| by exists b, l].
  exists true, []. f_equal. f_equal. destruct w. cbn in E. by rewrite E.
Qed.

Lemma set_bit_ok n m : 0 <= n < BITS_PER_LONG -> set_bit n m = Some (Z.setbit m n).
Proof. intros Hn. unfold set_bit. by rewrite (proj2 (Z.leb_le 0 n)), (proj2 (Z.ltb_lt n _)) by lia. Qed.
Lemma clear_bit_ok n m : 0 <= n < BITS_PER_LONG -> clear_bit n m = Some (Z.clearbit m n).
Proof. intros Hn. unfold clear_bit. by rewrite (proj2 (Z.leb_le 0 n)), (proj2 (Z.ltb_lt n _)) by lia. Qed.

(** ** What a join does *)

(** A number is taken for a new bridge, unless the switch wants none or they
    are exhausted below its limit. *)
Lemma num_get_new w mask br max :
  nums_ok mask (w_bridges w) -> dsa_tree_bridge_find w br = None ->
  0 <= max <= DSA_MAX_NUM_OFFLOADING_BRIDGES ->
  total (dsa_bridge_num_get br max) (mkFabric [w] mask) (fun num f' => exists mask',
    f' = mkFabric [w] mask' /\
    ((num = 0 /\ mask' = mask /\ (max = 0 \/ forall n, 1 <= n < max -> Z.testbit mask n = true)) \/
     (0 < num < max /\ Z.testbit mask num = false /\ mask' = Z.setbit mask num))).
Proof.
  intros Hn Hf Hmax. unfold dsa_bridge_num_get. apply total_bind, total_get, total_bind.
  eapply total_deref. { cbn [f_trees dsa_bridge_num_find]. by rewrite Hf. }
  destruct (Z.eqb_spec max 0) as [-> | Hm0].
  { apply total_ret. exists mask. split; [done |]. left. split_and!; try done. by left. }
  cbn [f_bridges Z.eqb].
  set (n := find_next_zero_bit mask DSA_MAX_NUM_OFFLOADING_BRIDGES 1).
  pose proof (next_zero_range mask DSA_MAX_NUM_OFFLOADING_BRIDGES 1 ltac:(done)) as Hr. fold n in Hr.
  destruct (Z.leb_spec max n) as [Hle | Hlt].
  - apply total_ret. exists mask. split; [done |]. left. split_and!; try done. right.
    intros i Hi. apply (next_zero_first mask DSA_MAX_NUM_OFFLOADING_BRIDGES 1). fold n. lia.
  - apply total_bind. eapply total_deref; [apply set_bit_ok; unfold DSA_MAX_NUM_OFFLOADING_BRIDGES in *; lia |].
    apply total_bind, total_modify, total_ret. eexists. split; [done |]. right. split; [lia |]. split; [| done].
    apply next_zero_clear; [done | fold n; lia].
Qed.

Lemma nums_insert mask m b br num : nums_ok mask m -> m !! b = None -> 0 <= num < BITS_PER_LONG ->
  (num = 0 \/ Z.testbit mask num = false) ->
  nums_ok (if num =? 0 then mask else Z.setbit mask num) (<[b := mkBridge br num false 1]> m).
Proof.
  intros [Hu Ha Hr] Hb Hn Hfree. split.
  - intros n Hn0. transitivity (Z.testbit mask n = true \/ num = n).
    { destruct (Z.eqb_spec num 0); [intuition lia |]. rewrite Z.setbit_eqb by lia.
      rewrite orb_true_iff, Z.eqb_eq. tauto. }
    rewrite (Hu n Hn0). split.
    + intros [(b' & o & Eb & En) | <-]; [| exists b; eexists; by rewrite lookup_insert_eq].
      exists b', o. rewrite lookup_insert_ne by congruence. done.
    + intros (b' & o & Eb & En). destruct (decide (b = b')) as [<- | Hne].
      * rewrite lookup_insert_eq in Eb. injection Eb as <-. by right.
      * rewrite lookup_insert_ne in Eb by done. left. by exists b', o.
  - assert (Hnew : forall b' o, m !! b' = Some o -> br_num o <> 0 -> br_num o <> num).
    { intros b' o Eb Hne E. pose proof (Hr _ _ Eb).
      assert (Ht : Z.testbit mask num = true) by (apply Hu; [lia | by exists b', o]).
      destruct Hfree; [lia | congruence]. }
    intros b1 b2 o1 o2. destruct (decide (b = b1)) as [<- | N1], (decide (b = b2)) as [<- | N2];
      rewrite ?lookup_insert_eq, ?lookup_insert_ne by done; try done.
    + intros [= <-] E2 Hne E. cbn in *. exfalso. apply (Hnew _ _ E2); lia.
    + intros E1 [= <-] Hne E. cbn in *. exfalso. by apply (Hnew _ _ E1).
    + apply Ha.
  - intros b' o. destruct (decide (b = b')) as [<- | Hne].
    + rewrite lookup_insert_eq. by intros [= <-].
    + rewrite lookup_insert_ne by done. apply Hr.
Qed.

(** The numbers do not depend on the counts. *)
Lemma nums_refcount mask m b o n : nums_ok mask m -> m !! b = Some o ->
  nums_ok mask (<[b := set_br_refcount n o]> m).
Proof.
  intros [Hu Ha Hr] Hb.
  assert (G : forall b' o', <[b := set_br_refcount n o]> m !! b' = Some o' ->
            exists o2, m !! b' = Some o2 /\ br_num o2 = br_num o').
  { intros b' o'. destruct (decide (b = b')) as [<- | Hne].
    - rewrite lookup_insert_eq. intros [= <-]. by exists o.
    - rewrite lookup_insert_ne by done. intros E. by exists o'. }
  split.
  - intros i Hi. rewrite (Hu i Hi). split; intros (b' & o' & E & En).
    + destruct (decide (b = b')) as [<- | Hne].
      * exists b. eexists. rewrite lookup_insert_eq. split; [done |]. cbn. congruence.
      * exists b', o'. by rewrite lookup_insert_ne.
    + destruct (G _ _ E) as (o2 & E2 & En2). exists b', o2. split; [done | congruence].
  - intros b1 b2 o1 o2 E1 E2 Hne E. destruct (G _ _ E1) as (p1 & F1 & M1), (G _ _ E2) as (p2 & F2 & M2).
    apply (Ha b1 b2 p1 p2); congruence.
  - intros b' o' E. destruct (G _ _ E) as (p1 & F1 & <-). by apply (Hr b').
Qed.

Lemma nums_delete mask m b o : nums_ok mask m -> m !! b = Some o ->
  nums_ok (if br_num o =? 0 then mask else Z.clearbit mask (br_num o)) (delete b m).
Proof.
  intros [Hu Ha Hr] Hb. split.
  - intros n Hn0.
    transitivity (Z.testbit mask n = true /\ br_num o <> n).
    { destruct (Z.eqb_spec (br_num o) 0); [intuition lia |].
      pose proof (Hr _ _ Hb). rewrite Z.clearbit_eqb by lia.
      rewrite andb_true_iff, negb_true_iff, Z.eqb_neq. done. }
    rewrite (Hu n Hn0). split.
    + intros [(b' & o' & Eb & En) Hne]. exists b', o'. split; [| done].
      rewrite lookup_delete_ne; [done |]. intros ->. congruence.
    + intros (b' & o' & [Hne Eb]%lookup_delete_Some & En). split; [by exists b', o' |].
      intros E. apply Hne. apply (Ha b b' o o'); [done | done | lia | congruence].
  - intros b1 b2 o1 o2 [N1 E1]%lookup_delete_Some [N2 E2]%lookup_delete_Some. by apply Ha.
  - intros b' o' [Hne E]%lookup_delete_Some. by apply (Hr b').
Qed.

Lemma alter_insert {A} (g : A -> A) (m : gmap Z A) b o : m !! b = Some o -> alter g b m = <[b := g o]> m.
Proof.
  intros E. apply map_eq. intros i. destruct (decide (b = i)) as [<- | Hne].
  - by rewrite lookup_alter_eq, lookup_insert_eq, E.
  - by rewrite lookup_alter_ne, lookup_insert_ne.
Qed.

Lemma limits_upd w w' p g : limits_ok w -> w_switches w' = w_switches w ->
  w_ports w' = upd_holder dp_id p g (w_ports w) -> (forall dp, dp_id (g dp) = dp_id dp) -> limits_ok w'.
Proof.
  intros Hl Hs Hp Hg dp. rewrite Hp, Hs. intros (x & Hx & ->)%upd_holder_elem.
  destruct (Hl x Hx) as (d & Hd & Hm). exists d. split; [| done].
  case_bool_decide; [| done]. pose proof (Hg x) as E. unfold dp_id in E. injection E as E _.
  by rewrite E.
Qed.

(** The membership of the ports other than the one that changes. *)
Lemma bridge_of_other w w' mask mask' p q g :
  w_ports w' = upd_holder dp_id p g (w_ports w) -> (forall dp, dp_id (g dp) = dp_id dp) -> q <> p ->
  (forall dq b, dq ∈ w_ports w -> dp_id dq <> p -> dp_bridge dq = Some b ->
     br_dev <$> w_bridges w' !! b = br_dev <$> w_bridges w !! b) ->
  bridge_of (mkFabric [w'] mask') q = bridge_of (mkFabric [w] mask) q.
Proof.
  intros Hp Hg Hq Hm. unfold bridge_of. cbn.
  assert (Eg : get_port w' q = get_port w q).
  { unfold get_port. rewrite Hp. by apply (get_upd_ne w p q g). }
  rewrite Eg. destruct (get_port w q) as [dq |] eqn:E; [| done]. cbn.
  unfold dsa_port_bridge_dev_get. destruct (dp_bridge dq) as [b |] eqn:Eb; [| done]. cbn.
  apply get_port_elem in E as [Hin <-]. by apply (Hm dq).
Qed.

Lemma bridge_of_self w w' mask' p g dp b o : get_port w p = Some dp ->
  w_ports w' = upd_holder dp_id p g (w_ports w) -> (forall dp, dp_id (g dp) = dp_id dp) ->
  dp_bridge (g dp) = Some b -> w_bridges w' !! b = Some o ->
  bridge_of (mkFabric [w'] mask') p = Some (br_dev o).
Proof.
  intros Hg Hp Hid Hb Ho. unfold bridge_of. cbn.
  assert (Eg : get_port w' p = Some (g dp)).
  { unfold get_port. rewrite Hp. by apply (get_upd_eq w p g dp). }
  rewrite Eg. cbn. unfold dsa_port_bridge_dev_get. rewrite Hb. cbn. by rewrite Ho.
Qed.

(** The outcome of a join. *)
Definition joined f p br (err : Z) (f' : fabric H) : Prop :=
  (err = 0 /\ bridge_of f' p = Some br /\ forall q, q <> p -> bridge_of f' q = bridge_of f q) \/
  ((err = - ENOMEM \/
    (err = - EOPNOTSUPP /\ (forall q, bridge_of f q <> Some br) /\
     exists w d, f_trees f !! 0%nat = Some w /\ w_switches w !! fst p = Some d /\
       ds_max_num_bridges d <> 0 /\
       forall n, 1 <= n < ds_max_num_bridges d -> exists b o, w_bridges w !! b = Some o /\ br_num o = n)) /\
   forall q, bridge_of f' q = bridge_of f q).

Lemma no_member w br : bridges_shared w -> dsa_tree_bridge_find w br = None ->
  forall mask q, bridge_of (mkFabric [w] mask) q <> Some br.
Proof.
  intros Hs Hf mask q. pose proof (find_shared_spec _ _ _ br_dev _ _ br Hs) as G.
  rewrite <- find_bridge_shared, Hf in G. unfold bridge_of. cbn.
  destruct (get_port w q) as [dq |]; [| done]. cbn. unfold dsa_port_bridge_dev_get.
  destruct (dp_bridge dq) as [b |]; [| done]. cbn.
  destruct (w_bridges w !! b) as [o |] eqn:E; [| done]. cbn. intros [= Ed]. by apply (G b o).
Qed.

Lemma set_bridge_id b dp : dp_id (set_bridge b dp) = dp_id dp.
Proof. done. Qed.

(** A join of a bridge the tree knows. *)
Lemma create_old w mask p br dp b : tree_ok w mask -> get_port w p = Some dp -> dp_bridge dp = None ->
  dsa_tree_bridge_find w br = Some b ->
  total (dsa_port_bridge_create 0 p br) (mkFabric [w] mask) (fun err f' =>
    fabric_ok f' /\ joined (mkFabric [w] mask) p br err f').
Proof.
  intros (Hs & Hn & Hl & Hr) Hp Hb Hf. pose proof (find_shared_spec _ _ _ br_dev _ _ br Hs) as G.
  rewrite <- find_bridge_shared, Hf in G. destruct G as (o & Ho & <-).
  destruct (get_port_elem _ _ _ Hp) as [Hin Hid].
  destruct (shared_count _ _ _ _ _ _ Hs _ _ Ho) as [Hc Hc1].
  pose proof (members_lt dp_bridge _ _ b Hin Hb) as Hlt.
  set (o' := set_br_refcount (br_refcount o + 1) o).
  set (w' := set_ports (set_bridges w (<[b := o']> (w_bridges w)))
               (upd_holder dp_id p (set_bridge (Some b)) (w_ports w))).
  assert (E : dsa_port_bridge_create 0 p (br_dev o) (mkFabric [w] mask) = Some (0, mkFabric [w'] mask)).
  { unfold dsa_port_bridge_create. rewrite bind_eq, on_only_tree. cbn [get_st]. unfold get_st.
    rewrite Hf, on_only_tree. unfold mbind at 1, st_bind at 1, modify at 1, upd_bridge.
    rewrite (alter_insert _ _ _ _ Ho), refcount_inc_live by lia. done. }
  eapply total_run; [exact E |]. split.
  - exists w'. split; [done |]. split_and!.
    + apply (shared_join dp_id _ _ _ p (set_bridge (Some b)) (set_bridge_id _) _ _ dp); try done.
      * cbn. by rewrite Hc.
      * intros b' o2 E2 Ed. apply (shared_dev _ _ _ _ _ _ Hs _ _ _ _ E2 Ho Ed).
    + by apply nums_refcount.
    + by apply (limits_upd w w' p (set_bridge (Some b))).
    + cbn. unfold upd_holder. by rewrite length_fmap.
  - left. split; [done |]. split.
    + apply (bridge_of_self w w' mask p (set_bridge (Some b)) dp b o'); try done.
      cbn. by rewrite lookup_insert_eq.
    + intros q Hq. apply (bridge_of_other w w' mask mask p q (set_bridge (Some b))); try done.
      intros dq b' _ _ _. cbn. destruct (decide (b = b')) as [<- | Hne].
      * by rewrite lookup_insert_eq, Ho.
      * by rewrite lookup_insert_ne.
Qed.

Lemma fresh_new {A} (m : gmap Z A) : m !! fresh (dom m) = None.
Proof. apply not_elem_of_dom, is_fresh. Qed.

(** A port attached to a new object that carries the number found for it. *)
Lemma attach_new w w1 mask mask' p br dp num :
  tree_ok w mask -> get_port w p = Some dp -> dp_bridge dp = None ->
  (forall b o, w_bridges w !! b = Some o -> br_dev o <> br) ->
  w_ports w1 = w_ports w -> w_bridges w1 = w_bridges w -> w_switches w1 = w_switches w ->
  (num = 0 \/ Z.testbit mask num = false) ->
  0 <= num < BITS_PER_LONG /\ mask' = (if num =? 0 then mask else Z.setbit mask num) ->
  let b := fresh (dom (w_bridges w)) in
  let f' := mkFabric [upd_port p (set_bridge (Some b))
              (set_bridges w1 (<[b := mkBridge br num false 1]> (w_bridges w1)))] mask' in
  fabric_ok f' /\ joined (mkFabric [w] mask) p br 0 f'.
Proof.
  intros (Hs & Hn & Hl & Hr) Hp Hb G Ep Eb Es Hfree (Hrange & ->) b f'.
  destruct (get_port_elem _ _ _ Hp) as [Hin Hid].
  assert (Hbn : w_bridges w !! b = None) by apply fresh_new.
  set (w' := upd_port p (set_bridge (Some b))
              (set_bridges w1 (<[b := mkBridge br num false 1]> (w_bridges w1)))) in f'.
  assert (Epw : w_ports w' = upd_holder dp_id p (set_bridge (Some b)) (w_ports w)).
  { unfold w'. cbn. by rewrite Ep. }
  assert (Ebw : w_bridges w' = <[b := mkBridge br num false 1]> (w_bridges w)).
  { unfold w'. cbn. by rewrite Eb. }
  split.
  - exists w'. split; [done |]. unfold tree_ok. rewrite Epw, Ebw. split_and!.
    + apply (shared_join dp_id _ _ _ p (set_bridge (Some b)) (set_bridge_id _) _ _ dp); try done.
      * cbn. assert (Hm : ~ 1 <= members dp_bridge (w_ports w) b).
        { intros (x & Hx & Ex)%members_elem. destruct (shared_live _ _ _ _ _ _ Hs _ _ Hx Ex). congruence. }
        unfold members in *. lia.
      * intros b' o2 E2 Ed. exfalso. by apply (G b' o2).
    + by apply nums_insert.
    + by apply (limits_upd w w' p (set_bridge (Some b))).
    + unfold upd_holder. by rewrite length_fmap.
  - left. split; [done |]. split.
    + apply (bridge_of_self w w' _ p (set_bridge (Some b)) dp b (mkBridge br num false 1)); try done.
      rewrite Ebw. by rewrite lookup_insert_eq.
    + intros q Hq. apply (bridge_of_other w w' mask _ p q (set_bridge (Some b))); try done.
      intros dq b' Hdq _ Eb'. rewrite Ebw. rewrite lookup_insert_ne; [done |]. intros <-.
      destruct (shared_live _ _ _ _ _ _ Hs _ _ Hdq Eb'). congruence.
Qed.

(** A join of a new bridge. *)
Lemma create_new w mask p br dp : tree_ok w mask -> get_port w p = Some dp -> dp_bridge dp = None ->
  dsa_tree_bridge_find w br = None ->
  total (dsa_port_bridge_create 0 p br) (mkFabric [w] mask) (fun err f' =>
    fabric_ok f' /\ joined (mkFabric [w] mask) p br err f').
Proof.
  intros Hok Hp Hb Hf. pose proof Hok as (Hs & Hn & Hl & Hr).
  pose proof (find_shared_spec _ _ _ br_dev _ _ br Hs) as G.
  rewrite <- find_bridge_shared, Hf in G. destruct (get_port_elem _ _ _ Hp) as [Hin Hid].
  destruct (Hl dp Hin) as (d & Hd & Hmax). destruct (kzalloc_run w) as (ok & l & Ek).
  set (w1 := set_alloc w l).
  unfold dsa_port_bridge_create. apply total_bind. eapply total_run; [by rewrite on_only_tree |].
  rewrite Hf. apply total_bind. eapply total_run; [by rewrite on_only_tree, Ek |].
  destruct ok; cbn [negb].
  2: { apply total_ret. split; [by exists w1 |]. right. split; [by left | done]. }
  apply total_bind. eapply total_run.
  { rewrite on_only_tree. unfold port_of. rewrite bind_eq. unfold get_st, deref.
    change (get_port (set_alloc w l) p) with (get_port w p). by rewrite Hp. }
  apply total_bind. eapply total_run.
  { rewrite on_only_tree. unfold get_ds. rewrite bind_eq. unfold get_st, deref.
    change (w_switches (set_alloc w l)) with (w_switches w). by rewrite Hd. }
  fold w1. mstep (apply (num_get_new w1 mask br _ Hn Hf Hmax)).
  intros num f' (mask' & -> & Hnum).
  destruct (negb (ds_max_num_bridges d =? 0) && (num =? 0)) eqn:Eno.
  - apply total_ret. apply andb_true_iff in Eno as [Em E0].
    apply negb_true_iff, Z.eqb_neq in Em. apply Z.eqb_eq in E0.
    destruct Hnum as [(_ & -> & Hex) | (Hnum & _)]; [| lia].
    split; [by exists w1 |]. right. split; [| done]. right. split; [done |].
    split; [intros q; by apply (no_member w) |].
    exists w, d. split_and!; [done | by rewrite <- Hid | done |].
    intros n Hni. destruct Hex as [| Hex]; [done |]. apply (nums_used _ _ Hn); [lia | by apply Hex].
  - eapply total_run. { rewrite on_only_tree. done. }
    apply (attach_new w w1 mask mask' p br dp num); try done.
    + destruct Hnum as [(-> & _) | (Hnum & Ht & _)]; [by left | by right].
    + unfold DSA_MAX_NUM_OFFLOADING_BRIDGES, BITS_PER_LONG in *.
      destruct Hnum as [(-> & -> & _) | (Hnum & Ht & ->)]; [by split |].
      rewrite (proj2 (Z.eqb_neq num 0)) by lia. split; [lia | done].
Qed.

(** A departure, step by step: the last member frees object and number. *)
Lemma destroy_run w mask p dp b o : tree_ok w mask -> get_port w p = Some dp ->
  dp_bridge dp = Some b -> w_bridges w !! b = Some o ->
  let last := br_refcount o =? 1 in
  dsa_port_bridge_destroy 0 p (mkFabric [w] mask) = Some (tt, mkFabric
    [set_bridges (upd_port p (set_bridge None) w)
       (if last then delete b (w_bridges w)
        else <[b := set_br_refcount (br_refcount o - 1) o]> (w_bridges w))]
    (if last && negb (br_num o =? 0) then Z.clearbit mask (br_num o) else mask)).
Proof.
  intros (Hs & Hn & Hl & Hr) Hp Hb Ho last.
  destruct (shared_count _ _ _ _ _ _ Hs _ _ Ho) as [Hc Hc1].
  pose proof (members_le dp_bridge (w_ports w) b) as Hle.
  set (w1 := upd_port p (set_bridge None) w).
  assert (Hgo : forall n, upd_bridge b (set_br_refcount n) w1 =
            set_bridges w1 (<[b := set_br_refcount n o]> (w_bridges w))).
  { intros n. unfold upd_bridge. cbn. by rewrite (alter_insert _ _ _ _ Ho). }
  unfold dsa_port_bridge_destroy. rewrite bind_eq, on_only_tree. unfold port_of at 1.
  rewrite bind_eq. unfold get_st at 1, deref at 1. rewrite Hp. cbn [mbind option_bind].
  rewrite bind_eq. unfold deref at 1. rewrite Hb. cbn [mbind option_bind].
  rewrite bind_eq, on_only_tree. unfold modify at 1. fold w1.
  rewrite bind_eq, on_only_tree. unfold get_st at 1. rewrite bind_eq. unfold deref at 1.
  change (w_bridges w1) with (w_bridges w). rewrite Ho. cbn [mbind option_bind].
  unfold last. destruct (Z.eqb_spec (br_refcount o) 1) as [E1 | Hne].
  - rewrite E1, refcount_dec_last. rewrite bind_eq, on_only_tree. unfold modify at 1.
    rewrite Hgo. cbn [negb andb]. rewrite bind_eq.
    assert (Edel : delete b (<[b := set_br_refcount 0 o]> (w_bridges w)) = delete b (w_bridges w))
      by apply delete_insert_eq.
    destruct (Z.eqb_spec (br_num o) 0); cbn [negb].
    + cbn [mret st_ret]. rewrite on_only_tree. unfold modify. cbn. by rewrite Edel.
    + unfold dsa_bridge_num_put at 1. cbn [f_bridges].
      rewrite clear_bit_ok by apply (nums_range _ _ Hn _ _ Ho). cbn [mbind option_bind f_trees].
      rewrite on_only_tree. unfold modify. cbn. by rewrite Edel.
  - rewrite refcount_dec_live by lia. rewrite bind_eq, on_only_tree. unfold modify at 1.
    by rewrite Hgo.
Qed.

Lemma bridge_of_left w w' mask' p dp : get_port w p = Some dp ->
  w_ports w' = upd_holder dp_id p (set_bridge None) (w_ports w) ->
  bridge_of (mkFabric [w'] mask') p = None.
Proof.
  intros Hp Ew. unfold bridge_of. cbn.
  assert (E : get_port w' p = Some (set_bridge None dp)).
  { unfold get_port. rewrite Ew. exact (get_upd_eq w p (set_bridge None) dp Hp (set_bridge_id _)). }
  by rewrite E.
Qed.

(** No other port holds the object of a last member. *)
Lemma last_member w p dp b o q dq : bridges_shared w -> get_port w p = Some dp ->
  dp_bridge dp = Some b -> w_bridges w !! b = Some o -> br_refcount o = 1 ->
  dq ∈ w_ports w -> dp_id dq = q -> q <> p -> dp_bridge dq <> Some b.
Proof.
  intros Hs Hp Hb Ho E1 Hdq Hq Hne Eb. destruct (get_port_elem _ _ _ Hp) as [Hin Hid].
  destruct (shared_count _ _ _ _ _ _ Hs _ _ Ho) as [Hc _].
  pose proof (members_upd dp_id dp_bridge p (set_bridge None) (set_bridge_id _) (w_ports w) dp b
    (shared_names _ _ _ _ _ _ Hs) Hin Hid) as Hm.
  rewrite Hb in Hm. rewrite !bool_decide_true, bool_decide_false in Hm by done.
  assert (1 <= members dp_bridge (upd_holder dp_id p (set_bridge None) (w_ports w)) b); [| lia].
  apply members_elem. exists dq. split; [| done]. unfold upd_holder. apply list_elem_of_fmap.
  exists dq. by rewrite bool_decide_false by congruence.
Qed.

(** The outcome of a departure. *)
Lemma destroy_ok w mask p dp b : tree_ok w mask -> get_port w p = Some dp -> dp_bridge dp = Some b ->
  total (dsa_port_bridge_destroy 0 p) (mkFabric [w] mask) (fun _ f' =>
    fabric_ok f' /\ bridge_of f' p = None /\
    forall q, q <> p -> bridge_of f' q = bridge_of (mkFabric [w] mask) q).
Proof.
  intros Hok Hp Hb. pose proof Hok as (Hs & Hn & Hl & Hr).
  destruct (get_port_elem _ _ _ Hp) as [Hin Hid].
  destruct (shared_live _ _ _ _ _ _ Hs _ _ Hin Hb) as [o Ho].
  destruct (shared_count _ _ _ _ _ _ Hs _ _ Ho) as [Hc Hc1].
  eapply total_run; [by apply (destroy_run w mask p dp b o) |]. cbv zeta.
  set (w' := set_bridges _ _). split; [| split; [by apply (bridge_of_left w w' _ p dp) |]].
  - exists w'. split; [done |]. unfold tree_ok, w'. cbn [w_ports w_bridges set_bridges f_bridges].
    destruct (Z.eqb_spec (br_refcount o) 1) as [E1 | Hne]; cbn [andb]; split_and!;
      try (by apply (limits_upd w w' p (set_bridge None))); try (cbn; by rewrite length_fmap).
    + by apply (shared_drop dp_id _ _ _ p (set_bridge None) (set_bridge_id _) _ _ dp b o).
    + pose proof (nums_delete mask _ b o Hn Ho) as Hd. by destruct (br_num o =? 0).
    + apply (shared_leave dp_id _ _ _ p (set_bridge None) (set_bridge_id _) _ _ dp b o); try done. lia.
    + by apply nums_refcount.
  - intros q Hq. apply (bridge_of_other w w' mask _ p q (set_bridge None)); try done.
    intros dq b' Hdq Hne Eb'. unfold w'. cbn [w_bridges set_bridges].
    destruct (Z.eqb_spec (br_refcount o) 1) as [E1 | Hn1].
    + rewrite lookup_delete_ne; [done |]. intros <-. by apply (last_member w p dp b o (dp_id dq) dq).
    + destruct (decide (b = b')) as [<- | Hn2]; [by rewrite lookup_insert_eq, Ho | by rewrite lookup_insert_ne].
Qed.


End Bridges.

(** ** The LAG array after its release *)

Section LagArray.
Context {H : Type} `{RefcountApi}.

(** Once the tree has released the array, with a length left behind, a LAG can
    neither be given an identifier nor lose one: both read freed memory. *)
Lemma lags_dangling (w : world H) lag l : dst_lags (w_tree w) = LagsArray l ->
  0 < dst_lags_len (w_tree w) ->
  total dsa_tree_teardown_lags w (fun _ w' =>
    dsa_lag_map lag w' = None /\ dsa_lag_unmap lag w' = None).
Proof.
  intros El Hlen. unfold dsa_tree_teardown_lags. apply total_modify. set (w' := upd_tree _ w).
  assert (Ea : dst_lags (w_tree w') = LagsFreed) by (unfold w', upd_tree; cbn; by rewrite El).
  assert (E : seqZ 1 (dst_lags_len (w_tree w)) = 1 :: seqZ 2 (dst_lags_len (w_tree w) - 1)).
  { rewrite seqZ_cons by done. by f_equal. }
  change (dst_lags_len (w_tree w)) with (dst_lags_len (w_tree w')) in E.
  split; unfold dsa_lag_map, dsa_lag_unmap, lag_ids; rewrite bind_eq; unfold get_st; rewrite E;
    cbn [lag_map_loop lag_unmap_loop]; rewrite bind_eq; unfold dsa_lag_by_id; rewrite bind_eq;
    unfold get_st; by rewrite Ea.
Qed.

End LagArray.

(** ** Bridges of one and of two trees *)

Module GroupDemo.
Import EventDemo.

Fixpoint first_zero (fuel : nat) (m i : Z) : Z :=
  match fuel with
  | O => i
  | S fuel => if Z.testbit m i then first_zero fuel m (i + 1) else i
  end.

Lemma first_zero_spec fuel m i :
  i <= first_zero fuel m i <= i + Z.of_nat fuel /\
  (first_zero fuel m i < i + Z.of_nat fuel -> Z.testbit m (first_zero fuel m i) = false) /\
  (forall j, i <= j < first_zero fuel m i -> Z.testbit m j = true).
Proof.
  revert i. induction fuel as [| fuel IH]; intros i; cbn [first_zero].
  { split_and!; [lia | lia | lia | intros j Hj; lia]. }
  destruct (Z.testbit m i) eqn:E.
  - destruct (IH (i + 1)) as (H1 & H2 & H3). split_and!; [lia | lia | intros; apply H2; lia |].
    intros j Hj. destruct (decide (j = i)) as [-> | Hne]; [done | apply H3; lia].
  - split_and!; [lia | lia | done | intros j Hj; lia].
Qed.

#[export] Instance bitmap_demo : BitmapApi.
Proof.
  refine {| find_next_zero_bit m size off := first_zero (Z.to_nat (size - off)) m off |}.
  - intros m size off Ho. pose proof (first_zero_spec (Z.to_nat (size - off)) m off). lia.
  - intros m size off Ho Hlt. apply (first_zero_spec (Z.to_nat (size - off)) m off). lia.
  - intros m size off j Hj. by apply (first_zero_spec (Z.to_nat (size - off)) m off).
Defined.

(** A switch that numbers at most [max - 1] bridges. *)
Definition bridging (max : Z) : dsa_switch (list (Z * bool)) :=
  mkDs 0 2 false false 0 0 listener None true false true true 0 max false.

Definition user_port (ds i : Z) : dsa_port :=
  mkPort ds i DSA_PORT_TYPE_USER (Some (100 * ds + i)) (Some (1, 4)) 0 false false false false false 0
    None None None [] [] [] false true None false.

Definition tree_of (index max : Z) : world (list (Z * bool)) :=
  mkWorld (mkTree index 1 LagsNull None 0 true 0 0)
    [user_port (index + 1) 0; user_port (index + 1) 1; user_port (index + 1) 2]
    [] {[ index + 1 := bridging max ]} ∅ ∅ [] [] [] [].

Lemma tree_of_ok index max : 0 <= max <= 64 -> fabric_ok (mkFabric [tree_of index max] 0).
Proof.
  intros Hmax. exists (tree_of index max). split; [done |]. split_and!.
  - split; cbn.
    + rewrite !NoDup_cons, !elem_of_cons, !elem_of_nil.
      split_and!; try apply NoDup_nil_2; intuition discriminate.
    + intros x b Hx. rewrite !elem_of_cons, elem_of_nil in Hx. by destruct Hx as [-> | [-> | [-> |]]].
    + done.
    + done.
  - split; cbn; [| done ..]. intros n Hn. rewrite Z.bits_0. split; [done | by intros (b & o & ? & _)].
  - intros dp Hdp. cbn in Hdp. exists (bridging max). rewrite !elem_of_cons, elem_of_nil in Hdp.
    destruct Hdp as [-> | [-> | [-> | []]]]; by (split; [apply lookup_singleton_eq |]).
  - done.
Qed.


(** Bridge 50 spans two trees.  When the first tree drops it, its number is
    given away although the second still uses it: bridge 60 gets the same. *)
Definition shared_number : option (Z * Z * Z) :=
  '(_, f) ← dsa_port_bridge_create 0 (1, 0) 50 (mkFabric [tree_of 0 4; tree_of 1 4] 0);
  '(_, f) ← dsa_port_bridge_create 1 (2, 0) 50 f;
  '(_, f) ← dsa_port_bridge_destroy 0 (1, 0) f;
  '(_, f) ← dsa_port_bridge_create 0 (1, 1) 60 f;
  w0 ← f_trees f !! 0%nat; w1 ← f_trees f !! 1%nat;
  d0 ← get_port w0 (1, 1); d1 ← get_port w1 (2, 0);
  Some (dsa_port_bridge_num_get w0 d0, dsa_port_bridge_num_get w1 d1, f_bridges f).

Lemma bridge_number_given_twice : shared_number = Some (1, 1, 2).
Proof. vm_compute. reflexivity. Qed.

End GroupDemo.
