(* ===== verification/DsaPort.v ===== *)
(** * Operations on one port (DSA/port.c, DSA/user.c)

    Addresses and VLANs of a port and of the CPU behind it as events of the
    fabric; the deferred work that programs the addresses of a standalone user
    port; VLAN awareness with its restoration on failure; spanning-tree state
    and learning, with the flushes they entail; the membership of a LAG and of a
    bridge with their rollbacks; the change of a port's conduit.  What the port
    asks the network stack is [NetQueries], what it changes there
    [NetEffects]. *)

From Stdlib Require Import ZArith Lia Bool.
From S2P Require Import Prelude.
From S2P Require Import Kernel.
From S2P Require Import DsaTypes.
From S2P Require Import DsaSwitch.
From S2P Require Import Dsa8021q.
From S2P Require Import DsaEvent.
From S2P Require Import DsaGroups.

(** Spanning-tree states and bridge port flags of the kernel; the states 2 and
    3 are in [Dsa8021q]. *)
Definition BR_STATE_DISABLED : Z := 0.
Definition BR_STATE_LISTENING : Z := 1.
Definition BR_STATE_BLOCKING : Z := 4.
Definition BR_LEARNING : Z := 2 ^ 5.
Definition ETH_P_8021Q : Z := 0x8100.

(** The flags a port inherits from its bridge port, as bit numbers: learning,
    flooding of unknown, multicast and broadcast frames, locked. *)
Definition brport_flag_bits : list Z := [5; 6; 11; 14; 21].
Definition flood_bits : Z := 2 ^ 6 + 2 ^ 11 + 2 ^ 14.

Definition forwards (state : Z) : bool := (state =? BR_STATE_LEARNING) || (state =? BR_STATE_FORWARDING).
Definition stops (state : Z) : bool :=
  (state =? BR_STATE_DISABLED) || (state =? BR_STATE_BLOCKING) || (state =? BR_STATE_LISTENING).

Section Port.
Context {H : Type} `{RefcountApi, NotifierApi, NetQueries, !NetEffects H, BitmapApi}.
Context (tagger_data : H -> Z -> bool).
Abbreviation M := (st (world H)).
Abbreviation FM := (st (fabric H)).
Abbreviation notify := (dsa_port_notify tagger_data).

(** ** Helpers *)

Definition port_ops (p : pid) : M (dsa_port_ops H) :=
  dp ← port_of p; d ← get_ds (dp_ds dp); mret (op_port (ds_ops d)).
Definition switch_of (p : pid) : M (dsa_switch H) := dp ← port_of p; get_ds (dp_ds dp).

(** [*dp->bridge]: a port outside of any bridge faults. *)
Definition port_bridge (p : pid) : M bridge_info :=
  dp ← port_of p; b ← deref (dp_bridge dp); w ← get_st; o ← deref (w_bridges w !! b);
  mret (mkBridgeInfo (br_dev o) (br_num o) (br_tx_fwd_offload o)).

(** The database of the port's bridge; one number for all without isolation. *)
Definition bridge_db (p : pid) : M dsa_db :=
  b ← port_bridge p; d ← switch_of p;
  mret (DSA_DB_BRIDGE (if ds_fdb_isolation d then b
                       else mkBridgeInfo (bi_dev b) 0 (bi_tx_fwd b))).

Definition conduit_of (p : pid) : M netdev := dp ← port_of p; queried (fun w => dsa_port_to_conduit w dp).
Definition user_of (p : pid) : M netdev := dp ← port_of p; deref (dp_netdev dp).
Definition effect (g : H -> H) : M unit := call_void (Some g).

(** ** Addresses *)

Definition dsa_port_fdb_add (p : pid) (addr vid : Z) : M Z :=
  db ← bridge_db p; notify (DSA_NOTIFIER_FDB_ADD p (mkMac addr vid db)).
Definition dsa_port_fdb_del (p : pid) (addr vid : Z) : M Z :=
  db ← bridge_db p; notify (DSA_NOTIFIER_FDB_DEL p (mkMac addr vid db)).
Definition dsa_port_host_fdb_add (p : pid) (addr vid : Z) (db : dsa_db) : M Z :=
  notify (DSA_NOTIFIER_HOST_FDB_ADD p (mkMac addr vid db)).
Definition dsa_port_host_fdb_del (p : pid) (addr vid : Z) (db : dsa_db) : M Z :=
  notify (DSA_NOTIFIER_HOST_FDB_DEL p (mkMac addr vid db)).
Definition dsa_port_standalone_host_fdb_add (p : pid) (addr vid : Z) : M Z :=
  dsa_port_host_fdb_add p addr vid (DSA_DB_PORT p).
Definition dsa_port_standalone_host_fdb_del (p : pid) (addr vid : Z) : M Z :=
  dsa_port_host_fdb_del p addr vid (DSA_DB_PORT p).

Definition dsa_port_bridge_host_fdb_add (p : pid) (addr vid : Z) : M Z :=
  conduit ← conduit_of p;
  db ← bridge_db p;
  err ← (if iff_unicast_flt conduit then call_fun (dev_uc_add conduit addr) else mret 0);
  if negb (err =? 0) then mret err else dsa_port_host_fdb_add p addr vid db.
Definition dsa_port_bridge_host_fdb_del (p : pid) (addr vid : Z) : M Z :=
  conduit ← conduit_of p;
  db ← bridge_db p;
  err ← (if iff_unicast_flt conduit then call_fun (dev_uc_del conduit addr) else mret 0);
  if negb (err =? 0) then mret err else dsa_port_host_fdb_del p addr vid db.

Definition dsa_port_lag_fdb_add (p : pid) (addr vid : Z) : M Z :=
  dp ← port_of p; lag ← deref (dp_lag dp);
  db ← bridge_db p; notify (DSA_NOTIFIER_LAG_FDB_ADD lag (mkMac addr vid db)).
Definition dsa_port_lag_fdb_del (p : pid) (addr vid : Z) : M Z :=
  dp ← port_of p; lag ← deref (dp_lag dp);
  db ← bridge_db p; notify (DSA_NOTIFIER_LAG_FDB_DEL lag (mkMac addr vid db)).

Definition dsa_port_mdb_add (p : pid) (addr vid : Z) : M Z :=
  db ← bridge_db p; notify (DSA_NOTIFIER_MDB_ADD p (mkMac addr vid db)).
Definition dsa_port_mdb_del (p : pid) (addr vid : Z) : M Z :=
  db ← bridge_db p; notify (DSA_NOTIFIER_MDB_DEL p (mkMac addr vid db)).
Definition dsa_port_host_mdb_add (p : pid) (addr vid : Z) (db : dsa_db) : M Z :=
  notify (DSA_NOTIFIER_HOST_MDB_ADD p (mkMac addr vid db)).
Definition dsa_port_host_mdb_del (p : pid) (addr vid : Z) (db : dsa_db) : M Z :=
  notify (DSA_NOTIFIER_HOST_MDB_DEL p (mkMac addr vid db)).
Definition dsa_port_standalone_host_mdb_add (p : pid) (addr vid : Z) : M Z :=
  dsa_port_host_mdb_add p addr vid (DSA_DB_PORT p).
Definition dsa_port_standalone_host_mdb_del (p : pid) (addr vid : Z) : M Z :=
  dsa_port_host_mdb_del p addr vid (DSA_DB_PORT p).

Definition dsa_port_bridge_host_mdb_add (p : pid) (addr vid : Z) : M Z :=
  conduit ← conduit_of p;
  db ← bridge_db p;
  err ← call_fun (dev_mc_add conduit addr);
  if negb (err =? 0) then mret err else dsa_port_host_mdb_add p addr vid db.
Definition dsa_port_bridge_host_mdb_del (p : pid) (addr vid : Z) : M Z :=
  conduit ← conduit_of p;
  db ← bridge_db p;
  err ← call_fun (dev_mc_del conduit addr);
  if negb (err =? 0) then mret err else dsa_port_host_mdb_del p addr vid db.

(** ** VLANs *)

Definition dsa_port_vlan_add (p : pid) (vlan : switchdev_obj_port_vlan) : M Z :=
  notify (DSA_NOTIFIER_VLAN_ADD p vlan).
Definition dsa_port_vlan_del (p : pid) (vlan : switchdev_obj_port_vlan) : M Z :=
  notify (DSA_NOTIFIER_VLAN_DEL p vlan).

(** The filter of the conduit is opened even if the switches do not support it. *)
Definition dsa_port_host_vlan_add (p : pid) (vlan : switchdev_obj_port_vlan) : M Z :=
  conduit ← conduit_of p;
  err ← notify (DSA_NOTIFIER_HOST_VLAN_ADD p vlan);
  if negb (err =? 0) && negb (err =? - EOPNOTSUPP) then mret err
  else _ ← call_fun (vlan_vid_add conduit ETH_P_8021Q (vlan_vid vlan)); mret err.
Definition dsa_port_host_vlan_del (p : pid) (vlan : switchdev_obj_port_vlan) : M Z :=
  conduit ← conduit_of p;
  err ← notify (DSA_NOTIFIER_HOST_VLAN_DEL p vlan);
  if negb (err =? 0) && negb (err =? - EOPNOTSUPP) then mret err
  else _ ← effect (vlan_vid_del conduit ETH_P_8021Q (vlan_vid vlan)); mret err.

Definition dsa_port_mtu_change (p : pid) (new_mtu : Z) : M Z := notify (DSA_NOTIFIER_MTU p new_mtu).

(** [unsigned int ageing_time] of the conversion to milliseconds. *)
Definition dsa_port_ageing_time (p : pid) (ageing_clock : Z) : M Z :=
  let ageing_time := u32 (jiffies_to_msecs (clock_t_to_jiffies ageing_clock)) in
  err ← notify (DSA_NOTIFIER_AGEING_TIME ageing_time);
  if negb (err =? 0) then mret err
  else _ ← modify (upd_port p (set_ageing_time ageing_time)); mret 0.

(** ** Deferred work on standalone addresses (user.c) *)

Definition has_op {A} (o : option A) : bool := match o with Some _ => true | None => false end.

Definition dsa_switch_supports_uc_filtering (d : dsa_switch H) : bool :=
  has_op (op_port_fdb_add (ds_ops d)) && has_op (op_port_fdb_del (ds_ops d)) &&
  ds_fdb_isolation d && negb (ds_vlan_filtering_is_global d) &&
  negb (ds_needs_standalone_vlan_filtering d).
Definition dsa_switch_supports_mc_filtering (d : dsa_switch H) : bool :=
  has_op (op_port_mdb_add (ds_ops d)) && has_op (op_port_mdb_del (ds_ops d)) &&
  ds_fdb_isolation d && negb (ds_vlan_filtering_is_global d) &&
  negb (ds_needs_standalone_vlan_filtering d).

(** One item; its errors are only logged. *)
Definition dsa_user_standalone_event_work (x : standalone_work) : M unit :=
  let p := sw_port x in
  _ ← match sw_event x with
      | DSA_UC_ADD => dsa_port_standalone_host_fdb_add p (sw_addr x) (sw_vid x)
      | DSA_UC_DEL => dsa_port_standalone_host_fdb_del p (sw_addr x) (sw_vid x)
      | DSA_MC_ADD => dsa_port_standalone_host_mdb_add p (sw_addr x) (sw_vid x)
      | DSA_MC_DEL => dsa_port_standalone_host_mdb_del p (sw_addr x) (sw_vid x)
      end;
  mret tt.

Definition dsa_user_schedule_standalone_work (p : pid) (event : dsa_standalone_event) (addr vid : Z) : M Z :=
  ok ← kzalloc;
  if negb ok then mret (- ENOMEM)
  else
    _ ← modify (fun w => set_works w (w_works w ++ [mkWork event p addr vid]));
    mret 0.

(** The ordered queue run until it is empty; an item queues nothing itself. *)
Fixpoint flush_loop (n : nat) : M unit :=
  match n with
  | O => mret tt
  | S n =>
      w ← get_st;
      match w_works w with
      | [] => mret tt
      | x :: l =>
          _ ← modify (fun w => set_works w l);
          _ ← dsa_user_standalone_event_work x;
          flush_loop n
      end
  end.
Definition dsa_flush_workqueue : M unit := w ← get_st; flush_loop (length (w_works w)).

(** The VLANs of a user port, the untagged one first. *)
Definition dsa_user_vlan_for_each (p : pid) (cb : Z -> M Z) : M Z :=
  dp ← port_of p; for_err (0 :: (c_key <$> dp_vlans dp)) cb.

Definition user_sync (supports : dsa_switch H -> bool) (event : dsa_standalone_event)
    (filter : netdev -> Z -> H -> Z * H) (p : pid) (addr : Z) : M Z :=
  conduit ← conduit_of p;
  d ← switch_of p;
  _ ← call_fun (filter conduit addr);
  if negb (supports d) then mret 0
  else dsa_user_vlan_for_each p (dsa_user_schedule_standalone_work p event addr).

Definition dsa_user_sync_uc := user_sync dsa_switch_supports_uc_filtering DSA_UC_ADD dev_uc_add.
Definition dsa_user_unsync_uc := user_sync dsa_switch_supports_uc_filtering DSA_UC_DEL dev_uc_del.
Definition dsa_user_sync_mc := user_sync dsa_switch_supports_mc_filtering DSA_MC_ADD dev_mc_add.
Definition dsa_user_unsync_mc := user_sync dsa_switch_supports_mc_filtering DSA_MC_DEL dev_mc_del.

(** Every element in turn, whatever the results. *)
Fixpoint for_all {A} (l : list A) (body : A -> M Z) : M unit :=
  match l with [] => mret tt | a :: l => _ ← body a; for_all l body end.

Definition flush_if_filtering (p : pid) : M unit :=
  d ← switch_of p;
  if dsa_switch_supports_uc_filtering d || dsa_switch_supports_mc_filtering d
  then dsa_flush_workqueue else mret tt.

Definition dsa_user_sync_ha (p : pid) : M unit :=
  dev ← user_of p;
  _ ← for_all (synced_mc dev) (dsa_user_sync_mc p);
  _ ← for_all (synced_uc dev) (dsa_user_sync_uc p);
  flush_if_filtering p.
Definition dsa_user_unsync_ha (p : pid) : M unit :=
  dev ← user_of p;
  _ ← for_all (synced_uc dev) (dsa_user_unsync_uc p);
  _ ← for_all (synced_mc dev) (dsa_user_unsync_mc p);
  flush_if_filtering p.

(** ** VLAN filters of a user port (user.c) *)

(** The addresses already synced get an item for the new VLAN. *)
Definition schedule_synced (p : pid) (dev : netdev) (d : dsa_switch H)
    (mc uc : dsa_standalone_event) (vid : Z) : M unit :=
  _ ← (if dsa_switch_supports_mc_filtering d
       then for_all (synced_mc dev) (fun ha => dsa_user_schedule_standalone_work p mc ha vid)
       else mret tt);
  if dsa_switch_supports_uc_filtering d
  then for_all (synced_uc dev) (fun ha => dsa_user_schedule_standalone_work p uc ha vid)
  else mret tt.

Definition dsa_user_vlan_rx_add_vid (p : pid) (vid : Z) : M Z :=
  let vlan := mkVlan vid 0 false in
  d ← switch_of p;
  dev ← user_of p;
  ret ← dsa_port_vlan_add p vlan;
  if negb (ret =? 0) then mret ret
  else
    ret ← dsa_port_host_vlan_add p vlan;
    if negb (ret =? 0) then mret ret
    else if negb (dsa_switch_supports_uc_filtering d) && negb (dsa_switch_supports_mc_filtering d)
    then mret 0
    else
      ok ← kzalloc;
      if negb ok then
        _ ← dsa_port_host_vlan_del p vlan;
        _ ← dsa_port_vlan_del p vlan;
        mret (- ENOMEM)
      else
        _ ← modify (upd_port p (fun dp => set_vlans (dp_vlans dp ++ [mkCounted vid 0]) dp));
        _ ← schedule_synced p dev d DSA_MC_ADD DSA_UC_ADD vid;
        _ ← dsa_flush_workqueue;
        mret 0.

Definition dsa_user_vlan_rx_kill_vid (p : pid) (vid : Z) : M Z :=
  let vlan := mkVlan vid 0 false in
  d ← switch_of p;
  dev ← user_of p;
  err ← dsa_port_vlan_del p vlan;
  if negb (err =? 0) then mret err
  else
    err ← dsa_port_host_vlan_del p vlan;
    if negb (err =? 0) then mret err
    else if negb (dsa_switch_supports_uc_filtering d) && negb (dsa_switch_supports_mc_filtering d)
    then mret 0
    else
      dp ← port_of p;
      match dsa_vlan_find vlan (dp_vlans dp) with
      | None => mret (- ENOENT)
      | Some _ =>
          _ ← modify (upd_port p (fun dp =>
                set_vlans (delete_first (key_is Z.eqb vid) (dp_vlans dp)) dp));
          _ ← schedule_synced p dev d DSA_MC_DEL DSA_UC_DEL vid;
          _ ← dsa_flush_workqueue;
          mret 0
      end.

(** [vlan_for_each (user, dsa_user_restore_vlan | dsa_user_clear_vlan)] *)
Definition dsa_user_restore_vlan (p : pid) (vid : Z) : M Z := dsa_user_vlan_rx_add_vid p vid.
Definition dsa_user_clear_vlan (p : pid) (vid : Z) : M Z := dsa_user_vlan_rx_kill_vid p vid.

Definition dsa_user_manage_vlan_filtering (p : pid) (vlan_filtering : bool) : M Z :=
  user ← user_of p;
  if vlan_filtering then
    _ ← effect (set_ctag_filter user true);
    err ← for_err (vlan_vids user) (dsa_user_restore_vlan p);
    if negb (err =? 0) then
      _ ← for_err (vlan_vids user) (dsa_user_clear_vlan p);
      _ ← effect (set_ctag_filter user false);
      mret err
    else mret 0
  else
    err ← for_err (vlan_vids user) (dsa_user_clear_vlan p);
    if negb (err =? 0) then mret err
    else _ ← effect (set_ctag_filter user false); mret 0.

End Port.
