(* ===== verification/DsaMember.v ===== *)
(** * State and membership of a port (DSA/port.c)

    Spanning-tree state and learning with the flushes they entail, VLAN
    awareness with its restoration on failure, and on top of them the
    membership of a bridge and of a LAG, each with its rollback, and the change
    of the conduit of a port.  Operations that reach other trees work on the
    whole fabric, the port being [p] of the tree at place [t]. *)

From Stdlib Require Import ZArith Lia Bool.
From S2P Require Import Prelude.
From S2P Require Import Kernel.
From S2P Require Import DsaTypes.
From S2P Require Import DsaSwitch.
From S2P Require Import Dsa8021q.
From S2P Require Import DsaEvent.
From S2P Require Import DsaSafe.
From S2P Require Import DsaGroups.
From S2P Require Import DsaPort.

(** The switchdev layer.  Marking a bridge port as offloaded replays the
    bridge's objects to the driver, so it may change the state of the trees; in
    well-formed ones it returns, and changes neither their shape nor who belongs
    to which bridge. *)
Definition trees_wf {H} (f : fabric H) : Prop :=
  Forall (fun w => tree_wf w /\ forall x, x ∈ w_works w -> user_event w (sw_port x)) (f_trees f).
Definition trees_kept {H} (f f' : fabric H) : Prop :=
  f_bridges f' = f_bridges f /\ Forall2 inv (f_trees f) (f_trees f').

Class SwitchdevApi (H : Type) := {
  switchdev_bridge_port_offload : nat -> pid -> option netdev -> bool -> st (fabric H) Z;
  switchdev_bridge_port_unoffload : nat -> pid -> option netdev -> st (fabric H) unit;
  offload_returns t p d tx f : trees_wf f ->
    total (switchdev_bridge_port_offload t p d tx) f (fun _ f' => trees_kept f f');
  unoffload_returns t p d f : trees_wf f ->
    total (switchdev_bridge_port_unoffload t p d) f (fun _ f' => trees_kept f f');
}.

Section Member.
Context {H : Type} `{RefcountApi, NotifierApi, NetQueries, !NetEffects H, BitmapApi, !SwitchdevApi H}.
Context (tagger_data : H -> Z -> bool).
Abbreviation M := (st (world H)).
Abbreviation FM := (st (fabric H)).
Abbreviation notify := (dsa_port_notify tagger_data).
Abbreviation broadcast := (dsa_broadcast tagger_data).

(** ** Flushing learned addresses *)

Definition dsa_port_notify_bridge_fdb_flush (p : pid) (vid : Z) : M unit :=
  dp ← port_of p; w ← get_st;
  match dsa_port_to_bridge_port w dp with
  | None => mret tt
  | Some brport_dev => effect (fdb_flush_to_bridge brport_dev vid)
  end.

Definition dsa_port_fast_age (p : pid) : M unit :=
  ops ← port_ops p;
  match op_port_fast_age ops with
  | None => mret tt
  | Some g => _ ← effect (g (fst p) (snd p)); dsa_port_notify_bridge_fdb_flush p 0
  end.

Definition dsa_port_vlan_fast_age (p : pid) (vid : Z) : M Z :=
  ops ← port_ops p;
  match op_port_vlan_fast_age ops with
  | None => mret (- EOPNOTSUPP)
  | Some g =>
      err ← call_fun (g (fst p) (snd p) vid);
      _ ← (if err =? 0 then dsa_port_notify_bridge_fdb_flush p vid else mret tt);
      mret err
  end.

Definition bridge_port_of (p : pid) : M (option netdev) :=
  dp ← port_of p; w ← get_st; mret (dsa_port_to_bridge_port w dp).
Definition bridge_dev_of (p : pid) : M (option netdev) :=
  dp ← port_of p; w ← get_st; mret (dsa_port_bridge_dev_get w dp).

Definition dsa_port_msti_fast_age (p : pid) (msti : Z) : M Z :=
  br ← bridge_dev_of p;
  let '(err, vids) := br_mst_get_info br msti in
  if negb (err =? 0) then mret err else for_err vids (dsa_port_vlan_fast_age p).

(** ** Spanning-tree state and learning *)

(** Asks the driver whether it would accept to change the learning flag. *)
Definition dsa_port_can_configure_learning (p : pid) : M bool :=
  ops ← port_ops p;
  match op_port_bridge_flags ops, op_port_pre_bridge_flags ops with
  | Some _, Some g =>
      err ← call_fun (g (fst p) (snd p) (mkFlags 0 BR_LEARNING)); mret (err =? 0)
  | _, _ => mret false
  end.

Definition dsa_port_set_state (p : pid) (state : Z) (do_fast_age : bool) : M Z :=
  ops ← port_ops p;
  match op_port_stp_state_set ops with
  | None => mret (- EOPNOTSUPP)
  | Some g =>
      _ ← effect (g (fst p) (snd p) state);
      can ← dsa_port_can_configure_learning p;
      dp ← port_of p;
      _ ← (if (negb can || (do_fast_age && dp_learning dp)) &&
              (forwards (dp_stp_state dp) && stops state)
           then dsa_port_fast_age p else mret tt);
      _ ← modify (upd_port p (set_stp_state state));
      mret 0
  end.

(** The error is only logged. *)
Definition dsa_port_set_state_now (p : pid) (state : Z) (do_fast_age : bool) : M unit :=
  _ ← dsa_port_set_state p state do_fast_age; mret tt.

Definition dsa_port_set_mst_state (p : pid) (msti state : Z) : M Z :=
  ops ← port_ops p;
  match op_port_mst_state_set ops with
  | None => mret (- EOPNOTSUPP)
  | Some g =>
      brport ← bridge_port_of p;
      let '(err, prev_state) := br_mst_get_state brport msti in
      if negb (err =? 0) then mret err
      else
        err ← call_fun (g (fst p) (snd p) msti state);
        if negb (err =? 0) then mret err
        else
          dp ← port_of p;
          if negb (dp_learning dp && forwards prev_state && stops state) then mret 0
          else _ ← dsa_port_msti_fast_age p msti; mret 0
  end.

Definition dsa_port_pre_bridge_flags (p : pid) (flags : brport_flags) : M Z :=
  ops ← port_ops p;
  match op_port_pre_bridge_flags ops with
  | None => mret (- EINVAL)
  | Some g => call_fun (g (fst p) (snd p) flags)
  end.

Definition dsa_port_bridge_flags (p : pid) (flags : brport_flags) : M Z :=
  ops ← port_ops p;
  match op_port_bridge_flags ops with
  | None => mret (- EOPNOTSUPP)
  | Some g =>
      err ← call_fun (g (fst p) (snd p) flags);
      if negb (err =? 0) then mret err
      else if negb (Z.land (bf_mask flags) BR_LEARNING =? 0) then
        let learning := negb (Z.land (bf_val flags) BR_LEARNING =? 0) in
        dp ← port_of p;
        if Bool.eqb learning (dp_learning dp) then mret 0
        else
          _ ← (if (dp_learning dp && negb learning) && forwards (dp_stp_state dp)
               then dsa_port_fast_age p else mret tt);
          _ ← modify (upd_port p (set_learning learning));
          mret 0
      else mret 0
  end.

Definition dsa_port_set_host_flood (p : pid) (uc mc : bool) : M unit :=
  ops ← port_ops p;
  match op_port_set_host_flood ops with
  | Some g => effect (g (fst p) (snd p) uc mc)
  | None => mret tt
  end.

Definition dsa_port_vlan_msti (p : pid) (vid msti : Z) : M Z :=
  ops ← port_ops p;
  match op_vlan_msti_set ops with
  | None => mret (- EOPNOTSUPP)
  | Some g => b ← port_bridge p; call_fun (g (fst p) b vid msti)
  end.

Definition dsa_port_supports_mst (p : pid) : M bool :=
  ops ← port_ops p;
  if has_op (op_vlan_msti_set ops) && has_op (op_port_mst_state_set ops) &&
     has_op (op_port_vlan_fast_age ops)
  then dsa_port_can_configure_learning p else mret false.

Definition dsa_port_mst_enable (p : pid) (on : bool) : M Z :=
  if on then ok ← dsa_port_supports_mst p; mret (if ok : bool then 0 else - EINVAL) else mret 0.

Definition dsa_port_enable_rt (p : pid) : M Z :=
  ops ← port_ops p;
  err ← match op_port_enable ops with
        | Some g => call_fun (g (fst p) (snd p)) | None => mret 0 end;
  if negb (err =? 0) then mret err
  else
    dp ← port_of p;
    _ ← (if bool_decide (dp_bridge dp = None) then dsa_port_set_state_now p BR_STATE_FORWARDING false
         else mret tt);
    _ ← (if dp_pl dp then effect (phylink_start p) else mret tt);
    mret 0.
Definition dsa_port_enable (p : pid) : M Z := dsa_port_enable_rt p.

Definition dsa_port_disable_rt (p : pid) : M unit :=
  ops ← port_ops p;
  dp ← port_of p;
  _ ← (if dp_pl dp then effect (phylink_stop p) else mret tt);
  _ ← (if bool_decide (dp_bridge dp = None) then dsa_port_set_state_now p BR_STATE_DISABLED false
       else mret tt);
  match op_port_disable ops with Some g => effect (g (fst p) (snd p)) | None => mret tt end.
Definition dsa_port_disable (p : pid) : M unit := dsa_port_disable_rt p.

(** ** VLAN awareness *)

Definition dsa_port_can_apply_vlan_filtering (p : pid) (vlan_filtering : bool) : M bool :=
  dp ← port_of p;
  d ← get_ds (dp_ds dp);
  w ← get_st;
  clash ← (if vlan_filtering && dsa_port_is_user dp then
             user ← user_of p;
             mret (existsb (fun vid => br_vlan_get_info (dsa_port_bridge_dev_get w dp) vid =? 0)
                     (vlan_uppers user))
           else mret false);
  if clash : bool then mret false
  else if negb (ds_vlan_filtering_is_global d) then mret true
  else mret (forallb (fun other =>
    match dsa_port_bridge_dev_get w other with
    | None => true
    | Some other_br =>
        bool_decide (dsa_port_bridge_dev_get w dp = Some other_br) ||
        Bool.eqb (br_vlan_enabled other_br) vlan_filtering
    end) (switch_ports w (dp_ds dp))).

Definition filtering_of (p : pid) : M bool := dp ← port_of p; queried (fun w => dsa_port_is_vlan_filtering w dp).

(** The user ports of the switch that have an interface, in turn. *)
Definition manage_switch_filtering (ds : Z) (vlan_filtering : bool) : M Z :=
  w ← get_st;
  for_err (dp_id <$> List.filter dsa_port_is_user (switch_ports w ds)) (fun q =>
    dq ← port_of q;
    match dp_netdev dq with
    | None => mret 0
    | Some _ => dsa_user_manage_vlan_filtering tagger_data q vlan_filtering
    end).

Definition dsa_port_vlan_filtering (p : pid) (vlan_filtering : bool) : M Z :=
  old_vlan_filtering ← filtering_of p;
  d ← switch_of p;
  match op_port_vlan_filtering (op_port (ds_ops d)) with
  | None => mret (- EOPNOTSUPP)
  | Some g =>
      apply ← dsa_port_can_apply_vlan_filtering p vlan_filtering;
      if negb apply then mret (- EINVAL)
      else
        now ← filtering_of p;
        if Bool.eqb now vlan_filtering then mret 0
        else
          err ← call_fun (g (fst p) (snd p) vlan_filtering);
          if negb (err =? 0) then mret err
          else
            let assign (x : bool) : M unit :=
              if ds_vlan_filtering_is_global d
              then modify (upd_ds (fst p) (set_ds_vlan_filtering x))
              else modify (upd_port p (set_vlan_filtering x)) in
            _ ← assign vlan_filtering;
            err ← (if ds_vlan_filtering_is_global d
                   then manage_switch_filtering (fst p) vlan_filtering
                   else dsa_user_manage_vlan_filtering tagger_data p vlan_filtering);
            if negb (err =? 0) then
              _ ← call_fun (g (fst p) (snd p) old_vlan_filtering);
              _ ← assign old_vlan_filtering;
              mret err
            else mret 0
  end.

Definition dsa_port_skip_vlan_configuration (p : pid) : M bool :=
  br ← bridge_dev_of p;
  d ← switch_of p;
  match br with
  | None => mret false
  | Some br => mret (negb (ds_configure_vlan_while_not_filtering d) && negb (br_vlan_enabled br))
  end.

(** After the departure from [bridge]. *)
Definition dsa_port_reset_vlan_filtering (p : pid) (bridge : bridge_info) : M unit :=
  d ← switch_of p;
  let aware := br_vlan_enabled (bi_dev bridge) in
  let change := if ds_needs_standalone_vlan_filtering d then negb aware else aware in
  let vlan_filtering := ds_needs_standalone_vlan_filtering d in
  w ← get_st;
  let keep := ds_vlan_filtering_is_global d &&
    existsb (fun other => match dsa_port_bridge_dev_get w other with
                          | Some br => br_vlan_enabled br | None => false end)
      (switch_ports w (fst p)) in
  if negb (change && negb keep) then mret tt
  else _ ← dsa_port_vlan_filtering p vlan_filtering; mret tt.

(** ** Attributes taken over from the bridge, and given back *)

Definition dsa_port_inherit_brport_flags (p : pid) : M Z :=
  brport_dev ← bridge_port_of p;
  for_err brport_flag_bits (fun flag =>
    let bit := 2 ^ flag in
    err ← dsa_port_bridge_flags p
            (mkFlags (if br_port_flag_is_set brport_dev bit then bit else 0) bit);
    mret (if negb (err =? 0) && negb (err =? - EOPNOTSUPP) then err else 0)).

Definition dsa_port_clear_brport_flags (p : pid) : M unit :=
  for_all brport_flag_bits (fun flag =>
    dsa_port_bridge_flags p (mkFlags (Z.land flood_bits (2 ^ flag)) (2 ^ flag))).

(** An error other than "not supported". *)
Definition hard (err : Z) : bool := negb (err =? 0) && negb (err =? - EOPNOTSUPP).

Definition dsa_port_switchdev_sync_attrs (p : pid) : M Z :=
  brport_dev ← bridge_port_of p;
  o ← bridge_dev_of p;
  br ← deref o;
  err ← dsa_port_inherit_brport_flags p;
  if negb (err =? 0) then mret err
  else
    err ← dsa_port_set_state p (br_port_get_stp_state brport_dev) false;
    if hard err then mret err
    else
      err ← dsa_port_vlan_filtering p (br_vlan_enabled br);
      if hard err then mret err
      else
        err ← dsa_port_ageing_time tagger_data p (br_get_ageing_time br);
        if hard err then mret err else mret 0.

Definition dsa_port_switchdev_unsync_attrs (p : pid) (bridge : bridge_info) : M unit :=
  _ ← dsa_port_clear_brport_flags p;
  _ ← dsa_port_set_state_now p BR_STATE_FORWARDING true;
  dsa_port_reset_vlan_filtering p bridge.

(** ** Bridges *)

Definition origin_of (p : pid) : M origin :=
  w ← get_st; i ← deref (index_of w (fst p)); mret (mkOrigin p (dst_index (w_tree w)) i).

Definition join_tx_fwd_offload (ev : dsa_event H) : bool :=
  match ev with DSA_NOTIFIER_BRIDGE_JOIN _ _ tx => tx | _ => false end.

Definition set_tx_fwd_offload (p : pid) (tx : bool) : M unit :=
  dp ← port_of p; b ← deref (dp_bridge dp); modify (upd_bridge b (set_br_tx_fwd_offload tx)).

Definition dsa_port_bridge_join (t : nat) (p : pid) (br : netdev) : FM Z :=
  unsupported ← (if br_mst_enabled br
                 then ok ← on_tree t (dsa_port_supports_mst p); mret (negb ok) else mret false);
  if unsupported : bool then mret (- EOPNOTSUPP)
  else
    err ← dsa_port_bridge_create t p br;
    if negb (err =? 0) then mret err
    else
      brport_dev ← on_tree t (bridge_port_of p);
      info ← on_tree t (port_bridge p);
      dp ← on_tree t (origin_of p);
      '(err, ev) ← broadcast (DSA_NOTIFIER_BRIDGE_JOIN dp info false);
      if negb (err =? 0) then _ ← dsa_port_bridge_destroy t p; mret err
      else
        let tx := join_tx_fwd_offload ev in
        _ ← on_tree t (set_tx_fwd_offload p tx);
        err ← switchdev_bridge_port_offload t p brport_dev tx;
        if negb (err =? 0) then
          _ ← broadcast (DSA_NOTIFIER_BRIDGE_LEAVE dp info);
          _ ← dsa_port_bridge_destroy t p; mret err
        else
          err ← on_tree t (dsa_port_switchdev_sync_attrs p);
          if negb (err =? 0) then
            _ ← switchdev_bridge_port_unoffload t p brport_dev;
            _ ← on_tree t (dsa_flush_workqueue tagger_data);
            _ ← broadcast (DSA_NOTIFIER_BRIDGE_LEAVE dp info);
            _ ← dsa_port_bridge_destroy t p; mret err
          else mret 0.

Definition dsa_port_pre_bridge_leave (t : nat) (p : pid) : FM unit :=
  brport_dev ← on_tree t (bridge_port_of p);
  match brport_dev with
  | None => mret tt
  | Some _ =>
      _ ← switchdev_bridge_port_unoffload t p brport_dev;
      on_tree t (dsa_flush_workqueue tagger_data)
  end.

Definition dsa_port_bridge_leave (t : nat) (p : pid) : FM unit :=
  dp ← on_tree t (port_of p);
  match dp_bridge dp with
  | None => mret tt
  | Some _ =>
      info ← on_tree t (port_bridge p);
      o ← on_tree t (origin_of p);
      _ ← dsa_port_bridge_destroy t p;
      _ ← broadcast (DSA_NOTIFIER_BRIDGE_LEAVE o info);
      on_tree t (dsa_port_switchdev_unsync_attrs p info)
  end.

(** ** Link aggregations *)

Definition dsa_port_lag_change (p : pid) (link_up tx_enabled : bool) : M Z :=
  dp ← port_of p;
  match dp_lag dp with
  | None => mret 0
  | Some _ =>
      let tx_enabled := link_up && tx_enabled in
      if Bool.eqb tx_enabled (dp_lag_tx_enabled dp) then mret 0
      else
        _ ← modify (upd_port p (set_lag_tx_enabled tx_enabled));
        notify (DSA_NOTIFIER_LAG_CHANGE p)
  end.

Definition port_lag (p : pid) : M lag_info :=
  dp ← port_of p; l ← deref (dp_lag dp); w ← get_st; g ← deref (w_lags w !! l); mret (lag_copy g).

Definition dsa_port_lag_join (t : nat) (p : pid) (lag_dev : netdev) : FM Z :=
  err ← on_tree t (dsa_port_lag_create p lag_dev);
  if negb (err =? 0) then mret err
  else
    info ← on_tree t (port_lag p);
    err ← on_tree t (notify (DSA_NOTIFIER_LAG_JOIN p info));
    if negb (err =? 0) then _ ← on_tree t (dsa_port_lag_destroy p); mret err
    else
      match netdev_master_upper_dev_get lag_dev with
      | Some bridge_dev =>
          if negb (netif_is_bridge_master bridge_dev) then mret 0
          else
            err ← dsa_port_bridge_join t p bridge_dev;
            if negb (err =? 0) then
              _ ← on_tree t (notify (DSA_NOTIFIER_LAG_LEAVE p info));
              _ ← on_tree t (dsa_port_lag_destroy p);
              mret err
            else mret 0
      | None => mret 0
      end.

Definition dsa_port_pre_lag_leave (t : nat) (p : pid) : FM unit :=
  br ← on_tree t (bridge_dev_of p);
  match br with Some _ => dsa_port_pre_bridge_leave t p | None => mret tt end.

Definition dsa_port_lag_leave (t : nat) (p : pid) : FM unit :=
  br ← on_tree t (bridge_dev_of p);
  dp ← on_tree t (port_of p);
  match dp_lag dp with
  | None => mret tt
  | Some _ =>
      _ ← match br with Some _ => dsa_port_bridge_leave t p | None => mret tt end;
      info ← on_tree t (port_lag p);
      _ ← on_tree t (dsa_port_lag_destroy p);
      _ ← on_tree t (notify (DSA_NOTIFIER_LAG_LEAVE p info));
      mret tt
  end.

(** ** HSR *)

Definition dsa_port_hsr_join (p : pid) (hsr : netdev) : M Z :=
  ops ← port_ops p;
  match op_port_hsr_join ops with
  | None => mret (- EOPNOTSUPP)
  | Some g =>
      _ ← modify (upd_port p (set_hsr_dev (Some hsr)));
      err ← call_fun (g (fst p) (snd p) hsr);
      _ ← (if negb (err =? 0) then modify (upd_port p (set_hsr_dev None)) else mret tt);
      mret err
  end.

Definition dsa_port_hsr_leave (p : pid) (hsr : netdev) : M unit :=
  ops ← port_ops p;
  _ ← modify (upd_port p (set_hsr_dev None));
  match op_port_hsr_leave ops with
  | Some g => _ ← call_fun (g (fst p) (snd p) hsr); mret tt
  | None => mret tt
  end.

(** ** The conduit of a port *)

Definition dsa_port_assign_conduit (p : pid) (conduit : netdev) (fail_on_err : bool) : M Z :=
  ops ← port_ops p;
  err ← call_op ((fun g => g (fst p) (snd p) conduit) <$> op_port_change_conduit ops);
  if negb (err =? 0) && fail_on_err then mret err
  else
    _ ← modify (upd_port p (fun dp => set_cpu_port_in_lag (netif_is_lag_master conduit)
                                        (set_cpu_dp (dsa_ptr conduit) dp)));
    mret 0.

Definition rejoin (t : nat) (p : pid) (bridge_dev : option netdev) : FM unit :=
  match bridge_dev with
  | Some br => _ ← dsa_port_bridge_join t p br; mret tt
  | None => mret tt
  end.

Definition manage_if (vlan_filtering : bool) (p : pid) (on : bool) : M Z :=
  if vlan_filtering then dsa_user_manage_vlan_filtering tagger_data p on else mret 0.

(** [rewind_old_addrs] and what follows it: restore the old CPU port. *)
Definition rewind_old_addrs (t : nat) (p : pid) (vlan_filtering : bool) (bridge_dev : option netdev) : FM unit :=
  _ ← on_tree t (dsa_user_sync_ha tagger_data p);
  _ ← on_tree t (manage_if vlan_filtering p true);
  rejoin t p bridge_dev.

Definition rewind_new_addrs (t : nat) (p : pid) (old_conduit : netdev) (vlan_filtering : bool)
    (bridge_dev : option netdev) : FM unit :=
  _ ← on_tree t (dsa_user_unsync_ha tagger_data p);
  _ ← on_tree t (dsa_port_assign_conduit p old_conduit false);
  rewind_old_addrs t p vlan_filtering bridge_dev.

Definition dsa_port_change_conduit (t : nat) (p : pid) (conduit : netdev) : FM Z :=
  bridge_dev ← on_tree t (bridge_dev_of p);
  old_conduit ← on_tree t (conduit_of p);
  _ ← match bridge_dev with
      | Some _ => _ ← dsa_port_pre_bridge_leave t p; dsa_port_bridge_leave t p
      | None => mret tt
      end;
  vlan_filtering ← on_tree t (filtering_of p);
  err ← on_tree t (manage_if vlan_filtering p false);
  if negb (err =? 0) then _ ← rejoin t p bridge_dev; mret err
  else
    _ ← on_tree t (dsa_user_unsync_ha tagger_data p);
    err ← on_tree t (dsa_port_assign_conduit p conduit true);
    if negb (err =? 0) then _ ← rewind_old_addrs t p vlan_filtering bridge_dev; mret err
    else
      _ ← on_tree t (dsa_user_sync_ha tagger_data p);
      err ← on_tree t (manage_if vlan_filtering p true);
      if negb (err =? 0) then
        _ ← rewind_new_addrs t p old_conduit vlan_filtering bridge_dev; mret err
      else
        err ← match bridge_dev with Some br => dsa_port_bridge_join t p br | None => mret 0 end;
        if negb (err =? 0) && (err =? - EOPNOTSUPP) then
          _ ← on_tree t (manage_if vlan_filtering p false);
          _ ← rewind_new_addrs t p old_conduit vlan_filtering bridge_dev;
          mret err
        else mret 0.

End Member.
