(* ===== verification/DsaJoin.v ===== *)
(** * Joining a bridge, as a whole

    The operations of [DsaPort] and [DsaMember] on a user port are safe in the
    sense of [DsaSafe]; with the groups of [DsaGroups] this gives the contract of
    [dsa_port_bridge_join]: it returns, and the port is in the bridge or, after
    whatever step failed, exactly where it was. *)

From Stdlib Require Import ZArith Lia Bool.
From S2P Require Import Prelude.
From S2P Require Import Kernel.
From S2P Require Import DsaTypes.
From S2P Require Import DsaSwitch.
From S2P Require Import Dsa8021q.
From S2P Require Import DsaEvent.
From S2P Require Import DsaSafe.
From S2P Require Import DsaGroups.
From S2P Require Import DsaPort.
From S2P Require Import DsaMember.

Section PortSafe.
Context {H : Type} `{RefcountApi, NotifierApi, NetQueries, !NetEffects H}.
Context (tagger_data : H -> Z -> bool).
Context (w0 : world H) (w0_wf : tree_wf w0).
Abbreviation safe := (safe w0).
Abbreviation inv := (inv w0).
Abbreviation T := (fun _ => True).

(** ** Reads *)

Lemma safe_effect (g : H -> H) : safe (effect g) T.
Proof using. apply safe_call_void. Qed.

Lemma safe_switch_of p : has_port w0 p -> safe (switch_of p) (is_ds w0 (fst p)).
Proof using w0_wf.
  intros Hp. eapply safe_bind; [by apply safe_port_of |]. intros dp Hdp.
  destruct (is_port_id _ _ _ Hdp) as [-> _]. apply safe_get_ds. by apply has_port_known.
Qed.

Lemma safe_port_ops p : has_port w0 p -> safe (port_ops p) T.
Proof using w0_wf.
  intros Hp. eapply safe_bind; [by apply safe_port_of |]. intros dp Hdp.
  eapply safe_bind; [apply safe_get_ds; by eapply is_port_known |]. intros d _. by apply safe_ret.
Qed.

Lemma safe_conduit_of p : user_event w0 p -> safe (conduit_of p) T.
Proof using w0_wf.
  intros Hu. pose proof Hu as (dp0 & Hp & Hut). eapply safe_bind; [by apply safe_port_of, user_has |].
  intros dp (dp1 & Hp1 & E). rewrite Hp in Hp1. injection Hp1 as <-.
  destruct (wf_user _ w0_wf dp0) as [_ [c Hc]]; [by eapply get_port_in | done |].
  apply safe_queried. intros w Hs. exists c. split; [| done].
  by rewrite <- (to_conduit_shape w0 w dp0 dp (inv_shape _ _ Hs) E).
Qed.

Lemma safe_user_of p : user_event w0 p -> safe (user_of p) T.
Proof using w0_wf.
  intros Hu. pose proof Hu as (dp0 & Hp & Hut). eapply safe_bind; [by apply safe_port_of, user_has |].
  intros dp (dp1 & Hp1 & E). rewrite Hp in Hp1. injection Hp1 as <-.
  destruct (wf_user _ w0_wf dp0) as [[c Hc] _]; [by eapply get_port_in | done |].
  apply strip_port_fields in E as (_ & _ & _ & _ & _ & _ & E).
  apply safe_deref. exists c. by rewrite <- E.
Qed.

Lemma safe_bridge_port_of p : has_port w0 p -> safe (bridge_port_of p) T.
Proof using.
  intros Hp. eapply safe_bind; [by apply safe_port_of |]. intros dp _.
  eapply safe_bind; [apply safe_get |]. intros w _. by apply safe_ret.
Qed.

Lemma safe_filtering_of p : has_port w0 p -> safe (filtering_of p) T.
Proof using w0_wf.
  intros Hp. eapply safe_bind; [by apply safe_port_of |]. intros dp Hdp.
  pose proof (is_port_known _ w0_wf _ _ Hdp) as [d0 Hd0]. apply safe_queried. intros w Hs.
  destruct (strip_some _ _ _ _ (get_ds_shape w0 w _ (inv_shape _ _ Hs)) Hd0) as (d & Hd & _).
  unfold dsa_port_is_vlan_filtering. rewrite Hd. by eexists.
Qed.

Lemma safe_for_all {A} (l : list A) (body : A -> st (world H) Z) :
  (forall a, a ∈ l -> safe (body a) T) -> safe (for_all l body) T.
Proof using.
  induction l as [| a l IH]; intros Hb; [by apply safe_ret |]. cbn [for_all].
  eapply safe_bind; [apply Hb; by left |]. intros _ _. apply IH. intros x Hx. apply Hb. by right.
Qed.

(** ** Addresses and VLANs *)

Lemma safe_vlans p v : user_event w0 p ->
  safe (dsa_port_vlan_add tagger_data p v) T /\ safe (dsa_port_vlan_del tagger_data p v) T /\
  safe (dsa_port_host_vlan_add tagger_data p v) T /\ safe (dsa_port_host_vlan_del tagger_data p v) T.
Proof using w0_wf.
  intros Hu. split_and!; try (by apply safe_port_notify);
    (eapply safe_bind; [by apply safe_conduit_of |]); intros c _;
    (eapply safe_bind; [by apply safe_port_notify |]); intros err _;
    (case_match; [by apply safe_ret |]);
    (eapply safe_bind; [first [apply safe_call_fun | apply safe_effect] |]); intros _ _; by apply safe_ret.
Qed.

Lemma safe_standalone p a v : user_event w0 p ->
  safe (dsa_port_standalone_host_fdb_add tagger_data p a v) T /\
  safe (dsa_port_standalone_host_fdb_del tagger_data p a v) T /\
  safe (dsa_port_standalone_host_mdb_add tagger_data p a v) T /\
  safe (dsa_port_standalone_host_mdb_del tagger_data p a v) T.
Proof using w0_wf. intros Hu. split_and!; by apply safe_port_notify. Qed.

Lemma inv_works_app w l : inv w -> (forall x, x ∈ l -> user_event w0 (sw_port x)) ->
  inv (set_works w l).
Proof using. by intros [Hs Hg _] Hl. Qed.

Lemma safe_schedule p e a v : user_event w0 p ->
  safe (dsa_user_schedule_standalone_work p e a v) T.
Proof using.
  intros Hu. eapply safe_bind; [apply safe_kzalloc |]. intros ok _. case_match; [by apply safe_ret |].
  eapply safe_bind; [| intros _ _; by apply safe_ret]. apply safe_modify. intros w Hs.
  apply inv_works_app; [done |]. intros x [Hx | Hx]%elem_of_app; [by apply (inv_works _ _ Hs) |].
  apply list_elem_of_singleton in Hx as ->. done.
Qed.

Lemma safe_flush : safe (dsa_flush_workqueue tagger_data) T.
Proof using w0_wf.
  eapply safe_bind; [apply safe_get |]. intros w1 _. generalize (length (w_works w1)).
  intros n. induction n as [| n IH]; [by apply safe_ret |]. cbn [flush_loop].
  eapply safe_bind; [apply safe_get |]. intros w Hw. destruct (w_works w) as [| x l] eqn:E; [by apply safe_ret |].
  assert (Hl : forall y, y ∈ x :: l -> user_event w0 (sw_port y)) by (rewrite <- E; apply (inv_works _ _ Hw)).
  eapply safe_bind.
  { apply safe_modify. intros w2 Hw2. apply inv_works_app; [done |]. intros y Hy. apply Hl. by right. }
  intros _ _. apply (safe_bind _ _ _ T T); [| intros _ _; exact IH].
  apply (safe_bind _ _ _ T T); [| intros _ _; by apply safe_ret].
  destruct (safe_standalone (sw_port x) (sw_addr x) (sw_vid x)) as (S1 & S2 & S3 & S4); [apply Hl; by left |].
  by destruct (sw_event x).
Qed.

Lemma safe_schedule_synced p dev d mc uc vid : user_event w0 p ->
  safe (schedule_synced p dev d mc uc vid) T.
Proof using.
  intros Hu.
  assert (Hall : forall l e, safe (for_all l (fun ha => dsa_user_schedule_standalone_work p e ha vid)) T).
  { intros l e. apply safe_for_all. intros a _. by apply safe_schedule. }
  eapply safe_bind; [case_match; [apply Hall | by apply safe_ret] |].
  intros _ _. case_match; [apply Hall | by apply safe_ret].
Qed.

Lemma safe_rx_add p vid : user_event w0 p -> safe (dsa_user_vlan_rx_add_vid tagger_data p vid) T.
Proof using w0_wf.
  intros Hu. destruct (safe_vlans p (mkVlan vid 0 false) Hu) as (S1 & S2 & S3 & S4).
  eapply safe_bind; [by apply safe_switch_of, user_has |]. intros d _.
  eapply safe_bind; [by apply safe_user_of |]. intros dev _.
  eapply safe_bind; [exact S1 |]. intros ret _. case_match; [by apply safe_ret |].
  eapply safe_bind; [exact S3 |]. intros ret2 _. case_match; [by apply safe_ret |].
  case_match; [by apply safe_ret |].
  eapply safe_bind; [apply safe_kzalloc |]. intros ok _. case_match.
  - eapply safe_bind; [exact S4 |]. intros _ _. eapply safe_bind; [exact S2 |]. intros _ _. by apply safe_ret.
  - eapply safe_bind; [apply safe_modify; intros w; by apply inv_upd |]. intros _ _.
    eapply safe_bind; [by apply safe_schedule_synced |]. intros _ _.
    eapply safe_bind; [apply safe_flush |]. intros _ _. by apply safe_ret.
Qed.

Lemma safe_rx_kill p vid : user_event w0 p -> safe (dsa_user_vlan_rx_kill_vid tagger_data p vid) T.
Proof using w0_wf.
  intros Hu. destruct (safe_vlans p (mkVlan vid 0 false) Hu) as (S1 & S2 & S3 & S4).
  eapply safe_bind; [by apply safe_switch_of, user_has |]. intros d _.
  eapply safe_bind; [by apply safe_user_of |]. intros dev _.
  eapply safe_bind; [exact S2 |]. intros ret _. case_match; [by apply safe_ret |].
  eapply safe_bind; [exact S4 |]. intros ret2 _. case_match; [by apply safe_ret |].
  case_match; [by apply safe_ret |].
  eapply safe_bind; [by apply safe_port_of, user_has |]. intros dp _. case_match; [| by apply safe_ret].
  eapply safe_bind; [apply safe_modify; intros w; by apply inv_upd |]. intros _ _.
  eapply safe_bind; [by apply safe_schedule_synced |]. intros _ _.
  eapply safe_bind; [apply safe_flush |]. intros _ _. by apply safe_ret.
Qed.

Lemma safe_manage p on : user_event w0 p -> safe (dsa_user_manage_vlan_filtering tagger_data p on) T.
Proof using w0_wf.
  intros Hu.
  assert (Hadd : forall l, safe (for_err l (dsa_user_restore_vlan tagger_data p)) T).
  { intros l. apply safe_for_err. intros v _. by apply safe_rx_add. }
  assert (Hdel : forall l, safe (for_err l (dsa_user_clear_vlan tagger_data p)) T).
  { intros l. apply safe_for_err. intros v _. by apply safe_rx_kill. }
  eapply safe_bind; [by apply safe_user_of |]. intros dev _. destruct on.
  - eapply safe_bind; [apply safe_effect |]. intros _ _.
    eapply safe_bind; [apply Hadd |]. intros err _. case_match; [| by apply safe_ret].
    eapply safe_bind; [apply Hdel |]. intros _ _.
    eapply safe_bind; [apply safe_effect |]. intros _ _. by apply safe_ret.
  - eapply safe_bind; [apply Hdel |]. intros err _. case_match; [by apply safe_ret |].
    eapply safe_bind; [apply safe_effect |]. intros _ _. by apply safe_ret.
Qed.

(** ** State, flags and VLAN awareness *)

Lemma safe_fast_age p : has_port w0 p -> safe (dsa_port_fast_age p) T.
Proof using w0_wf.
  intros Hp. eapply safe_bind; [by apply safe_port_ops |]. intros ops _. case_match; [| by apply safe_ret].
  eapply safe_bind; [apply safe_effect |]. intros _ _.
  eapply safe_bind; [by apply safe_port_of |]. intros dp _.
  eapply safe_bind; [apply safe_get |]. intros w _. case_match; [apply safe_effect | by apply safe_ret].
Qed.

Lemma safe_can_learn p : has_port w0 p -> safe (dsa_port_can_configure_learning p) T.
Proof using w0_wf.
  intros Hp. eapply safe_bind; [by apply safe_port_ops |]. intros ops _.
  case_match; [| by apply safe_ret]. case_match; [| by apply safe_ret].
  eapply safe_bind; [apply safe_call_fun |]. intros err _. by apply safe_ret.
Qed.

Lemma safe_set_state p st0 fa : has_port w0 p -> safe (dsa_port_set_state p st0 fa) T.
Proof using w0_wf.
  intros Hp. eapply safe_bind; [by apply safe_port_ops |]. intros ops _. case_match; [| by apply safe_ret].
  eapply safe_bind; [apply safe_effect |]. intros _ _.
  eapply safe_bind; [by apply safe_can_learn |]. intros can _.
  eapply safe_bind; [by apply safe_port_of |]. intros dp _.
  eapply safe_bind; [case_match; [by apply safe_fast_age | by apply safe_ret] |]. intros _ _.
  eapply safe_bind; [apply safe_modify; intros w; by apply inv_upd |]. intros _ _. by apply safe_ret.
Qed.

Lemma safe_flags p fl : has_port w0 p -> safe (dsa_port_bridge_flags p fl) T.
Proof using w0_wf.
  intros Hp. eapply safe_bind; [by apply safe_port_ops |]. intros ops _. case_match; [| by apply safe_ret].
  eapply safe_bind; [apply safe_call_fun |]. intros err _. case_match; [by apply safe_ret |].
  case_match; [| by apply safe_ret].
  eapply safe_bind; [by apply safe_port_of |]. intros dp _. case_match; [by apply safe_ret |].
  eapply safe_bind; [case_match; [by apply safe_fast_age | by apply safe_ret] |]. intros _ _.
  eapply safe_bind; [apply safe_modify; intros w; by apply inv_upd |]. intros _ _. by apply safe_ret.
Qed.

Lemma safe_can_apply p on : user_event w0 p -> safe (dsa_port_can_apply_vlan_filtering p on) T.
Proof using w0_wf.
  intros Hu. eapply safe_bind; [by apply safe_port_of, user_has |]. intros dp Hdp.
  eapply safe_bind; [apply safe_get_ds; by eapply is_port_known |]. intros d _.
  eapply safe_bind; [apply safe_get |]. intros w _.
  eapply (safe_bind _ _ _ T).
  { case_match; [| by apply safe_ret]. eapply safe_bind; [by apply safe_user_of |].
    intros user _. by apply safe_ret. }
  intros clash _. case_match; [by apply safe_ret |]. case_match; by apply safe_ret.
Qed.

(** A user port found in the list of a state of this shape. *)
Lemma user_in w q : inv w -> q ∈ w_ports w -> dsa_port_is_user q = true ->
  NoDup (dp_id <$> w_ports w0) -> user_event w0 (dp_id q).
Proof using.
  intros Hw Hq Hu Hnd. destruct (port_shape w w0 q ltac:(symmetry; apply Hw) Hq) as (q0 & Hq0 & E).
  rewrite (strip_port_id _ _ E). exists q0. split.
  - by apply get_port_of.
  - apply strip_port_fields in E as (_ & _ & Et & _). unfold dsa_port_is_user in *. by rewrite <- Et.
Qed.

Lemma safe_manage_switch ds on : safe (manage_switch_filtering tagger_data ds on) T.
Proof using w0_wf.
  intros w Hw. unfold manage_switch_filtering. apply total_bind, total_get.
  apply (safe_for_err w0); [| done]. intros q (dq & -> & Hq)%list_elem_of_fmap.
  apply list_elem_of_In, List.filter_In in Hq as [Hq Hu]. apply List.filter_In in Hq as [Hq _].
  assert (Huq : user_event w0 (dp_id dq)).
  { apply (user_in w); [done | by apply list_elem_of_In | done | apply (wf_names _ w0_wf)]. }
  eapply safe_bind; [by apply safe_port_of, user_has |]. intros dp _.
  case_match; [by apply safe_manage | by apply safe_ret].
Qed.

Lemma safe_assign (g : bool) p x :
  safe (if g then modify (upd_ds (fst p) (set_ds_vlan_filtering x))
        else modify (upd_port p (set_vlan_filtering x))) T.
Proof using.
  destruct g; apply safe_modify; intros w; [by apply inv_upd_ds | by apply inv_upd].
Qed.

Lemma safe_vlan_filtering p on : user_event w0 p -> safe (dsa_port_vlan_filtering tagger_data p on) T.
Proof using w0_wf.
  intros Hu. pose proof (user_has _ _ Hu) as Hp.
  eapply safe_bind; [by apply safe_filtering_of |]. intros old _.
  eapply safe_bind; [by apply safe_switch_of |]. intros d _. case_match; [| by apply safe_ret].
  eapply safe_bind; [by apply safe_can_apply |]. intros app _. case_match; [by apply safe_ret |].
  eapply safe_bind; [by apply safe_filtering_of |]. intros now _. case_match; [by apply safe_ret |].
  eapply safe_bind; [apply safe_call_fun |]. intros err _. case_match; [by apply safe_ret |].
  eapply safe_bind; [apply safe_assign |]. intros _ _.
  eapply (safe_bind _ _ _ T).
  { case_match; [apply safe_manage_switch | by apply safe_manage]. }
  intros err2 _. case_match; [| by apply safe_ret].
  eapply safe_bind; [apply safe_call_fun |]. intros _ _.
  eapply safe_bind; [apply safe_assign |]. intros _ _. by apply safe_ret.
Qed.

Lemma safe_ageing_time p t : safe (dsa_port_ageing_time tagger_data p t) T.
Proof using w0_wf.
  eapply safe_bind; [by apply safe_port_notify |]. intros err _. case_match; [by apply safe_ret |].
  eapply safe_bind; [apply safe_modify; intros w; by apply inv_upd |]. intros _ _. by apply safe_ret.
Qed.

(** A port that is in a bridge, in the state the invariant starts from. *)
Definition bridged (p : pid) : Prop :=
  exists dp b o, get_port w0 p = Some dp /\ dp_bridge dp = Some b /\ w_bridges w0 !! b = Some o.

Lemma bridged_now p w : bridged p -> inv w ->
  exists dp b o, get_port w p = Some dp /\ dp_bridge dp = Some b /\ w_bridges w !! b = Some o.
Proof using.
  intros (dp & b & o & Hp & Hb & Ho) Hw. pose proof (inv_groups _ _ Hw) as Hg. symmetry in Hg.
  destruct (groups_port _ _ _ _ Hg Hp) as (dq & Hq & E).
  destruct (strip_some _ _ _ _ (groups_bridge _ _ b Hg) Ho) as (o' & Ho' & _).
  exists dq, b, o'. by rewrite <- E.
Qed.

Lemma safe_sync_attrs p : user_event w0 p -> bridged p ->
  safe (dsa_port_switchdev_sync_attrs tagger_data p) T.
Proof using w0_wf.
  intros Hu Hbr. pose proof (user_has _ _ Hu) as Hp.
  eapply safe_bind; [by apply safe_bridge_port_of |]. intros brport _.
  eapply (safe_bind _ _ _ (fun o => is_Some o)).
  { intros w Hw. destruct (bridged_now p w Hbr Hw) as (dp & b & o & E1 & E2 & E3).
    unfold bridge_dev_of. apply total_bind. unfold port_of. apply total_bind, total_get.
    eapply total_deref; [exact E1 |]. apply total_bind, total_get, total_ret. split; [done |].
    unfold dsa_port_bridge_dev_get. rewrite E2. cbn. rewrite E3. by eexists. }
  intros o [br ->]. eapply (safe_bind _ _ _ T); [apply safe_deref; by eexists |]. intros br' _.
  eapply (safe_bind _ _ _ T).
  { eapply safe_bind; [by apply safe_bridge_port_of |]. intros bp _. apply safe_for_err. intros fl _.
    eapply safe_bind; [by apply safe_flags |]. intros err _. by apply safe_ret. }
  intros err _. case_match; [by apply safe_ret |].
  eapply safe_bind; [by apply safe_set_state |]. intros err2 _. case_match; [by apply safe_ret |].
  eapply safe_bind; [by apply safe_vlan_filtering |]. intros err3 _. case_match; [by apply safe_ret |].
  eapply safe_bind; [apply safe_ageing_time |]. intros err4 _. case_match; by apply safe_ret.
Qed.

Lemma safe_set_state_now p st0 fa : has_port w0 p -> safe (dsa_port_set_state_now p st0 fa) T.
Proof using w0_wf.
  intros Hp. eapply safe_bind; [by apply safe_set_state |]. intros _ _. by apply safe_ret.
Qed.

Lemma safe_reset_filtering p b : user_event w0 p -> safe (dsa_port_reset_vlan_filtering tagger_data p b) T.
Proof using w0_wf.
  intros Hu. eapply safe_bind; [by apply safe_switch_of, user_has |]. intros d _.
  eapply safe_bind; [apply safe_get |]. intros w _. cbv zeta.
  match goal with |- safe (if ?b then _ else _) _ => destruct b end; [by apply safe_ret |].
  eapply safe_bind; [by apply safe_vlan_filtering |]. intros _ _. by apply safe_ret.
Qed.

Lemma safe_unsync_attrs p b : user_event w0 p ->
  safe (dsa_port_switchdev_unsync_attrs tagger_data p b) T.
Proof using w0_wf.
  intros Hu. pose proof (user_has _ _ Hu) as Hp. eapply safe_bind.
  { apply safe_for_all. intros fl _. by apply safe_flags. }
  intros _ _. eapply safe_bind; [by apply safe_set_state_now |]. intros _ _. by apply safe_reset_filtering.
Qed.

Lemma safe_supports_mst p : has_port w0 p -> safe (dsa_port_supports_mst p) T.
Proof using w0_wf.
  intros Hp. eapply safe_bind; [by apply safe_port_ops |]. intros ops _.
  case_match; [by apply safe_can_learn | by apply safe_ret].
Qed.

Lemma safe_port_bridge p : bridged p -> safe (port_bridge p) T.
Proof using.
  intros Hbr w Hw. destruct (bridged_now p w Hbr Hw) as (dp & b & o & E1 & E2 & E3).
  unfold port_bridge. apply total_bind. unfold port_of. apply total_bind, total_get.
  eapply total_deref; [exact E1 |]. apply total_bind. eapply total_deref; [exact E2 |].
  apply total_bind, total_get, total_bind. eapply total_deref; [exact E3 |]. by apply total_ret.
Qed.

Lemma safe_origin_of p : has_port w0 p -> safe (origin_of p) T.
Proof using w0_wf.
  intros Hp w Hw. unfold origin_of. apply total_bind, total_get, total_bind.
  destruct (known_index w0 (fst p)) as [i Hi]; [by apply has_port_known |].
  eapply total_deref; [by rewrite <- (index_of_shape w0 w _ (inv_shape _ _ Hw)) |]. by apply total_ret.
Qed.

Lemma safe_set_tx p tx : bridged p -> safe (set_tx_fwd_offload p tx) T.
Proof using.
  intros Hbr w Hw. destruct (bridged_now p w Hbr Hw) as (dp & b & o & E1 & E2 & E3).
  unfold set_tx_fwd_offload. apply total_bind. unfold port_of. apply total_bind, total_get.
  eapply total_deref; [exact E1 |]. apply total_bind. eapply total_deref; [exact E2 |].
  apply total_modify. split; [| done]. destruct Hw as [Hs Hg Hwk]. split; [done | | done].
  rewrite <- Hg. unfold groups, upd_bridge. cbn. f_equal. by apply fmap_alter_same.
Qed.

End PortSafe.

(** ** The groups of states of one shape *)

Section Kept.
Context {H : Type} `{RefcountApi}.
Implicit Types (w : world H).

Lemma user_event_kept w0 w p : same_shape w0 w -> user_event w0 p -> user_event w p.
Proof.
  intros Hs (dp & Hp & Hu). destruct (strip_some _ _ _ _ (get_port_shape w0 w p Hs) Hp) as (dq & Hq & E).
  exists dq. split; [done |]. apply strip_port_fields in E as (_ & _ & Et & _).
  unfold dsa_port_is_user in *. by rewrite <- Et.
Qed.

Lemma inv_trans w0 w w' : inv w0 w -> inv w w' -> inv w0 w'.
Proof.
  intros [Hs Hg Hw] [Hs' Hg' Hw']. split.
  - by etrans.
  - congruence.
  - intros x Hx. apply (user_event_kept w); [by symmetry | by apply Hw'].
Qed.

Lemma groups_find {A} w w' (f : pid * option Z -> A) :
  groups w = groups w' -> (fun dp => f (dp_id dp, dp_bridge dp)) <$> w_ports w =
    (fun dp => f (dp_id dp, dp_bridge dp)) <$> w_ports w'.
Proof.
  unfold groups. intros [E _]%pair_eq. apply (f_equal (fmap f)) in E.
  by rewrite <- !list_fmap_compose in E.
Qed.

Lemma members_kept w w' b : groups w = groups w' ->
  members dp_bridge (w_ports w) b = members dp_bridge (w_ports w') b.
Proof.
  intros E%(groups_find w w' snd). revert E. generalize (w_ports w'). induction (w_ports w) as [| x l IH];
    intros [| y l'] E; try done. rewrite !fmap_cons in E. apply cons_eq_inj in E as [E1 E2].
  rewrite !members_cons, (IH l' E2). cbn in E1. by rewrite E1.
Qed.

Lemma strip_bridge_fields o o' : strip_bridge o = strip_bridge o' ->
  br_dev o = br_dev o' /\ br_num o = br_num o' /\ br_refcount o = br_refcount o'.
Proof. intros E. split_and!; [exact (f_equal br_dev E) | exact (f_equal br_num E) | exact (f_equal br_refcount E)]. Qed.

Lemma bridge_kept w w' b o : groups w = groups w' -> w_bridges w !! b = Some o ->
  exists o', w_bridges w' !! b = Some o' /\ br_dev o = br_dev o' /\ br_num o = br_num o' /\
    br_refcount o = br_refcount o'.
Proof.
  intros Hg Ho. destruct (strip_some _ _ _ _ (groups_bridge _ _ b Hg) Ho) as (o' & Ho' & E).
  exists o'. split; [done |]. by apply strip_bridge_fields.
Qed.

Lemma shared_kept w w' : groups w = groups w' ->
  shared_ok dp_id dp_bridge br_refcount br_dev (w_ports w) (w_bridges w) ->
  shared_ok dp_id dp_bridge br_refcount br_dev (w_ports w') (w_bridges w').
Proof.
  intros Hg [Hn Hl Hc Hd]. assert (Hg' : groups w' = groups w) by done. split.
  - pose proof (groups_find w w' fst Hg) as E. cbn in E. change (NoDup (dp_id <$> w_ports w')).
    by rewrite <- (E : dp_id <$> w_ports w = dp_id <$> w_ports w').
  - intros x b Hx Hb. pose proof (groups_find w w' (fun y => y) Hg) as E.
    assert (Hin : (dp_id x, dp_bridge x) ∈ (fun dp => (dp_id dp, dp_bridge dp)) <$> w_ports w).
    { rewrite E. by apply (list_elem_of_fmap_2 (fun dp => (dp_id dp, dp_bridge dp))). }
    apply list_elem_of_fmap in Hin as (y & Ey & Hy). apply pair_eq in Ey as [_ Ey].
    destruct (Hl y b Hy) as [o Ho]; [congruence |].
    destruct (bridge_kept w w' b o Hg Ho) as (o' & Ho' & _). by exists o'.
  - intros b o' Ho'. destruct (bridge_kept w' w b o' Hg' Ho') as (o & Ho & _ & _ & ->).
    rewrite <- (members_kept w w' b Hg). by apply Hc.
  - intros b1 b2 o1 o2 H1 H2 E. destruct (bridge_kept w' w b1 o1 Hg' H1) as (p1 & P1 & D1 & _).
    destruct (bridge_kept w' w b2 o2 Hg' H2) as (p2 & P2 & D2 & _). apply (Hd b1 b2 p1 p2); congruence.
Qed.

Lemma nums_kept w w' mask : groups w = groups w' -> nums_ok mask (w_bridges w) -> nums_ok mask (w_bridges w').
Proof.
  intros Hg [Hu Ha Hr]. assert (Hg' : groups w' = groups w) by done. split.
  - intros n Hn. rewrite (Hu n Hn). split; intros (b & o & Ho & En).
    + destruct (bridge_kept w w' b o Hg Ho) as (o' & Ho' & _ & E & _). exists b, o'. by rewrite <- E.
    + destruct (bridge_kept w' w b o Hg' Ho) as (o' & Ho' & _ & E & _). exists b, o'. by rewrite <- E.
  - intros b1 b2 o1 o2 H1 H2 Hne E. destruct (bridge_kept w' w b1 o1 Hg' H1) as (p1 & P1 & _ & D1 & _).
    destruct (bridge_kept w' w b2 o2 Hg' H2) as (p2 & P2 & _ & D2 & _). apply (Ha b1 b2 p1 p2); congruence.
  - intros b o Ho. destruct (bridge_kept w' w b o Hg' Ho) as (o' & Ho' & _ & -> & _). by apply (Hr b).
Qed.

Lemma tree_ok_kept w w' mask : same_shape w w' -> groups w = groups w' -> tree_ok w mask -> tree_ok w' mask.
Proof.
  intros Hs Hg (Hsh & Hn & Hl & Hr). split_and!.
  - by apply (shared_kept w).
  - by apply (nums_kept w).
  - intros dp Hdp. destruct (port_shape w' w dp ltac:(by symmetry) Hdp) as (dq & Hq & E).
    apply strip_port_fields in E as (E & _). destruct (Hl dq Hq) as (d & Hd & Hm). rewrite E.
    destruct (strip_some _ _ _ _ (get_ds_shape w w' _ Hs) Hd) as (d' & Hd' & Ed).
    exists d'. split; [done |].
    assert (Em : ds_max_num_bridges d = ds_max_num_bridges d') by exact (f_equal ds_max_num_bridges Ed).
    by rewrite <- Em.
  - pose proof (groups_find w w' fst Hg) as E. apply (f_equal length) in E.
    rewrite !length_fmap in E. by rewrite <- E.
Qed.

Lemma bridge_of_kept w w' mask mask' q : groups w = groups w' ->
  bridge_of (mkFabric [w'] mask') q = bridge_of (mkFabric [w] mask) q.
Proof.
  intros Hg. unfold bridge_of. cbn. destruct (get_port w q) as [dp |] eqn:E.
  - destruct (groups_port w w' q dp Hg E) as (dq & -> & Eb). cbn. unfold dsa_port_bridge_dev_get.
    rewrite Eb. destruct (dp_bridge dq) as [b |]; [| done]. cbn.
    pose proof (groups_bridge w w' b Hg) as Ebr.
    destruct (w_bridges w !! b) as [o |], (w_bridges w' !! b) as [o' |]; try done. cbn in *.
    apply (inj Some) in Ebr. f_equal. symmetry. by apply strip_bridge_fields.
  - destruct (get_port w' q) as [dq |] eqn:E'; [| done]. exfalso.
    destruct (groups_port w' w q dq ltac:(done) E') as (? & ? & _). congruence.
Qed.

End Kept.

(** ** The creation and destruction of a group keep the shape *)

Section Keeps.
Context {H : Type} `{RefcountApi, BitmapApi}.
Implicit Types (w : world H).

Definition keeps {A} (m : st (fabric H) A) : Prop := forall w mask a f',
  m (mkFabric [w] mask) = Some (a, f') -> exists w' mask',
  f' = mkFabric [w'] mask' /\ same_shape w w' /\ w_works w' = w_works w.

Lemma keeps_bind {A B} (m : st (fabric H) A) (k : A -> st (fabric H) B) :
  keeps m -> (forall a, keeps (k a)) -> keeps (m ≫= k).
Proof.
  intros Hm Hk w mask b f' E. rewrite bind_eq in E.
  destruct (m (mkFabric [w] mask)) as [[a f1] |] eqn:Em; [| done].
  destruct (Hm _ _ _ _ Em) as (w1 & mask1 & -> & Hs1 & Hw1).
  destruct (Hk a _ _ _ _ E) as (w2 & mask2 & -> & Hs2 & Hw2).
  exists w2, mask2. split_and!; [done | by etrans | congruence].
Qed.

Lemma keeps_ret {A} (a : A) : keeps (mret a).
Proof. intros w mask b f' [= <- <-]. by exists w, mask. Qed.
Lemma keeps_deref {A} (o : option A) : keeps (deref o).
Proof. intros w mask b f' E. destruct o; [| done]. injection E as <- <-. by exists w, mask. Qed.
Lemma keeps_get : keeps get_st.
Proof. intros w mask b f' [= <- <-]. by exists w, mask. Qed.
Lemma keeps_mask (g : Z -> Z) : keeps (modify (fun f => mkFabric (f_trees f) (g (f_bridges f)))).
Proof. intros w mask b f' [= <- <-]. by exists w, (g mask). Qed.

Lemma keeps_tree {A} (m : st (world H) A) :
  (forall w a w', m w = Some (a, w') -> same_shape w w' /\ w_works w' = w_works w) -> keeps (on_tree 0 m).
Proof.
  intros Hm w mask a f' E. rewrite on_only_tree in E. destruct (m w) as [[b w'] |] eqn:Em; [| done].
  injection E as <- <-. destruct (Hm _ _ _ Em). by exists w', mask.
Qed.

Lemma keeps_read {A} (g : world H -> option A) : keeps (on_tree 0 (queried g)).
Proof.
  apply keeps_tree. intros w a w' E. unfold queried in E. rewrite bind_eq in E. unfold get_st, deref in E.
  destruct (g w); [| done]. by injection E as <- <-.
Qed.

Lemma keeps_modify (g : world H -> world H) :
  (forall w, same_shape w (g w) /\ w_works (g w) = w_works w) -> keeps (on_tree 0 (modify g)).
Proof. intros Hg. apply keeps_tree. intros w a w' [= <- <-]. apply Hg. Qed.

Lemma keeps_attach g p b : (forall w, same_shape w (g w) /\ w_works (g w) = w_works w) ->
  keeps (on_tree 0 (_ ← modify g; _ ← modify (upd_port p (set_bridge b)); mret 0)).
Proof.
  intros Hg. apply keeps_tree. intros w a w' E. injection E as <- <-. destruct (Hg w) as [Hs Hw].
  split; [| done]. etrans; [exact Hs |]. by apply upd_shape.
Qed.

Lemma keeps_num_get br max : keeps (dsa_bridge_num_get br max).
Proof.
  apply keeps_bind; [apply keeps_get |]. intros f. apply keeps_bind; [apply keeps_deref |]. intros n.
  destruct (max =? 0); [apply keeps_ret |]. destruct (n =? 0); [| apply keeps_ret].
  cbv zeta. destruct (max <=? _); [apply keeps_ret |]. apply keeps_bind; [apply keeps_deref |]. intros m.
  apply keeps_bind; [apply (keeps_mask (fun _ => m)) | intros _; apply keeps_ret].
Qed.

Lemma keeps_create p br : keeps (dsa_port_bridge_create 0 p br).
Proof.
  apply keeps_bind; [by apply keeps_tree; intros w a w' [= <- <-] |]. intros w1.
  destruct (dsa_tree_bridge_find w1 br) as [b |]; [by apply keeps_attach |].
  apply keeps_bind.
  { apply keeps_tree. intros w a w' E. destruct (kzalloc_run w) as (ok & l & Ek). rewrite Ek in E.
    by injection E as <- <-. }
  intros ok. destruct (negb ok); [apply keeps_ret |].
  apply keeps_bind; [apply keeps_read |]. intros dp. apply keeps_bind; [apply keeps_read |]. intros d.
  apply keeps_bind; [apply keeps_num_get |]. intros num. destruct (_ && _); [apply keeps_ret |].
  by apply keeps_attach.
Qed.

Lemma keeps_destroy p : keeps (dsa_port_bridge_destroy 0 p).
Proof.
  apply keeps_bind; [apply keeps_read |]. intros dp. apply keeps_bind; [apply keeps_deref |]. intros b.
  apply keeps_bind; [apply keeps_modify; intros w; split; [by apply upd_shape | done] |]. intros _.
  apply keeps_bind; [by apply keeps_tree; intros w a w' [= <- <-] |]. intros w1.
  apply keeps_bind; [apply keeps_deref |]. intros o.
  destruct (refcount_dec_and_test (br_refcount o)) as [zero n].
  apply keeps_bind; [by apply keeps_modify |]. intros _. destruct (negb zero); [apply keeps_ret |].
  apply keeps_bind; [| intros _; by apply keeps_modify]. destruct (_ =? 0); [apply keeps_ret |].
  intros w mask a f' E. unfold dsa_bridge_num_put in E. destruct (clear_bit _ _) as [m |]; [| done].
  injection E as <- <-. by exists w, m.
Qed.

End Keeps.

(** ** Joining *)

Section Join.
Context {H : Type} `{RefcountApi, NotifierApi, NetQueries, !NetEffects H, BitmapApi, !SwitchdevApi H}.
Context (tagger_data : H -> Z -> bool).
Context (w1 : world H) (w1_wf : tree_wf w1) (mask : Z).
Abbreviation T := (fun _ => True).

(** The fabric whose only tree has kept the shape and groups of [w1]. *)
Definition finv (f : fabric H) : Prop := exists w, f = mkFabric [w] mask /\ inv w1 w.
Definition fsafe {A} (m : st (fabric H) A) (R : A -> Prop) : Prop :=
  forall f, finv f -> total m f (fun a f' => finv f' /\ R a).

Lemma fsafe_tree {A} (m : st (world H) A) R : safe w1 m R -> fsafe (on_tree 0 m) R.
Proof using.
  intros Hm f (w & -> & Hw). pose proof (Hm w Hw) as G. unfold total in *. rewrite on_only_tree.
  destruct (m w) as [[a w'] |]; [| done]. destruct G as [Hw' Ha]. split; [by exists w' | done].
Qed.

Lemma fsafe_broadcast ev : event_ok w1 ev -> fsafe (dsa_broadcast tagger_data ev) T.
Proof using w1_wf.
  intros Hev f (w & -> & Hw). unfold dsa_broadcast. apply total_bind, total_get.
  cbn [f_trees length broadcast_loop]. mstep (apply (fsafe_tree _ _ (safe_notify w1 w1_wf tagger_data ev Hev)); by exists w).
  intros [err ev'] f' [Hf _]. destruct (negb (err =? 0)); by apply total_ret.
Qed.

Lemma kept_inv f f' : finv f -> trees_kept f f' -> finv f'.
Proof using.
  intros (w & -> & Hw) [Eb Hk]. cbn in *. destruct f' as [l m]. cbn in *. subst.
  inversion Hk as [| ? w' ? l' Hww Hnil]; subst. inversion Hnil; subst.
  exists w'. split; [done | by apply (inv_trans w1 w w')].
Qed.

Lemma finv_trees f : finv f -> trees_wf f.
Proof using w1_wf.
  intros (w & -> & Hw). unfold trees_wf. cbn. constructor; [| constructor]. split.
  - by apply (safe_wf w1).
  - intros x Hx. apply (user_event_kept w1); [apply Hw | by apply (inv_works w1 w)].
Qed.

Lemma fsafe_offload p d tx : fsafe (switchdev_bridge_port_offload 0 p d tx) T.
Proof using w1_wf.
  intros f Hf. eapply total_weaken; [| apply offload_returns; by apply finv_trees].
  intros a f' Hk. split; [by apply (kept_inv f f') | done].
Qed.

Lemma fsafe_unoffload p d : fsafe (switchdev_bridge_port_unoffload 0 p d) T.
Proof using w1_wf.
  intros f Hf. eapply total_weaken; [| apply unoffload_returns; by apply finv_trees].
  intros a f' Hk. split; [by apply (kept_inv f f') | done].
Qed.

Lemma fsafe_any {A} (m : st (fabric H) A) R : fsafe m R -> fsafe m T.
Proof using. intros Hm f Hf. eapply total_weaken; [| by apply Hm]. by intros a f' [? _]. Qed.

(** A further step from a state where the invariant holds. *)
Lemma fsafe_step {A B} (m : st (fabric H) A) (k : A -> st (fabric H) B) R Q f : finv f -> fsafe m R ->
  (forall a f', finv f' -> R a -> total (k a) f' Q) -> total (m ≫= k) f Q.
Proof using.
  intros Hf Hm Hk. mstep (by apply Hm).
  intros a f' [Hf' Ha]. by apply Hk.
Qed.

End Join.

(** ** The contract *)

Section Contract.
Context {H : Type} `{RefcountApi, NotifierApi, NetQueries, !NetEffects H, BitmapApi, !SwitchdevApi H}.
Context (tagger_data : H -> Z -> bool).
Implicit Types (w : world H) (f : fabric H).

(** A single well-formed tree with sound bridges, whose deferred works are of
    user ports. *)
Record sound_tree w mask : Prop := {
  sound_wf : tree_wf w;
  sound_ok : tree_ok w mask;
  sound_works x : x ∈ w_works w -> user_event w (sw_port x);
}.
Definition sound f : Prop := exists w, f_trees f = [w] /\ sound_tree w (f_bridges f).

Definition shaped w f : Prop := exists w', f_trees f = [w'] /\ same_shape w w'.
Definition user_port f p : Prop := exists w, f_trees f !! 0%nat = Some w /\ user_event w p.

Lemma sound_kept w w' mask : sound_tree w mask -> inv w w' -> sound_tree w' mask.
Proof.
  intros [Hwf Hok Hwk] [Hs Hg Hw]. split.
  - by apply (tree_wf_shape w).
  - by apply (tree_ok_kept w); [| symmetry |].
  - intros x Hx. by apply (user_event_kept w), Hw.
Qed.

Lemma sound_shape w w' mask mask' : sound_tree w mask -> same_shape w w' -> w_works w' = w_works w ->
  tree_ok w' mask' -> sound_tree w' mask'.
Proof.
  intros [Hwf Hok Hwk] Hs Hw Hok'. split; [by apply (tree_wf_shape w) | done |].
  rewrite Hw. intros x Hx. by apply (user_event_kept w), Hwk.
Qed.

Lemma sound_only w mask : sound_tree w mask -> sound (mkFabric [w] mask).
Proof. intros Hs. by exists w. Qed.

Lemma inv_self w mask : sound_tree w mask -> inv w w.
Proof. intros [Hwf Hok Hwk]. by split. Qed.

(** Where a port stands, between states of the same groups. *)
Lemma free_kept w w' p dp : inv w w' -> get_port w p = Some dp -> dp_bridge dp = None ->
  exists dq, get_port w' p = Some dq /\ dp_bridge dq = None.
Proof.
  intros Hi Hp Hb. destruct (groups_port w w' p dp ltac:(symmetry; apply Hi) Hp) as (dq & Hq & E).
  exists dq. split; [done | congruence].
Qed.

Lemma bridged_of w mask p br : bridge_of (mkFabric [w] mask) p = Some br -> bridged w p.
Proof.
  unfold bridge_of. cbn. destruct (get_port w p) as [dp |] eqn:Ep; [| done]. cbn.
  unfold dsa_port_bridge_dev_get. destruct (dp_bridge dp) as [b |] eqn:Eb; [| done]. cbn.
  destruct (w_bridges w !! b) as [o |] eqn:Eo; [| done]. intros _. by exists dp, b, o.
Qed.

(** A departure from a state that has kept the groups of [w1]. *)
Lemma leave_kept w1 mask p f br : sound_tree w1 mask -> bridge_of (mkFabric [w1] mask) p = Some br ->
  finv w1 mask f -> total (dsa_port_bridge_destroy 0 p) f (fun _ f' => sound f' /\
    bridge_of f' p = None /\ shaped w1 f' /\ forall q, q <> p -> bridge_of f' q = bridge_of (mkFabric [w1] mask) q).
Proof.
  intros Hs Hbr (w & -> & Hi). pose proof (sound_kept w1 w mask Hs Hi) as Hsw.
  destruct (bridged_now w1 p w (bridged_of _ _ _ _ Hbr) Hi) as (dp & b & o & Ep & Eb & _).
  pose proof (destroy_ok w mask p dp b (sound_ok _ _ Hsw) Ep Eb) as G. unfold total in *.
  destruct (dsa_port_bridge_destroy 0 p (mkFabric [w] mask)) as [[u f'] |] eqn:E; [| done].
  destruct (keeps_destroy p w mask u f' E) as (w' & mask' & -> & Hsh & Hwk).
  destruct G as ((w2 & E2 & Hok') & Hn & Ho). injection E2 as <-. split_and!; [| done | |].
  - apply sound_only. by apply (sound_shape w w' mask).
  - exists w'. split; [done |]. etrans; [apply Hi | done].
  - intros q Hq. rewrite Ho by done. apply bridge_of_kept. symmetry. apply Hi.
Qed.

(** What a join leaves behind, on success and on failure. *)
Definition settled f p br (err : Z) (f' : fabric H) : Prop :=
  sound f' /\ bridge_of f' p = (if err =? 0 then Some br else None) /\
  forall q, q <> p -> bridge_of f' q = bridge_of f q.

(** The steps after the creation of the group, from any state [w1] in which the
    port is in the bridge. *)
Definition after_create (p : pid) (br : netdev) : st (fabric H) Z :=
  brport_dev ← on_tree 0 (bridge_port_of p);
  info ← on_tree 0 (port_bridge p);
  dp ← on_tree 0 (origin_of p);
  '(err, ev) ← dsa_broadcast tagger_data (DSA_NOTIFIER_BRIDGE_JOIN dp info false);
  if negb (err =? 0) then _ ← dsa_port_bridge_destroy 0 p; mret err
  else
    let tx := join_tx_fwd_offload ev in
    _ ← on_tree 0 (set_tx_fwd_offload p tx);
    err ← switchdev_bridge_port_offload 0 p brport_dev tx;
    if negb (err =? 0) then
      _ ← dsa_broadcast tagger_data (DSA_NOTIFIER_BRIDGE_LEAVE dp info);
      _ ← dsa_port_bridge_destroy 0 p; mret err
    else
      err ← on_tree 0 (dsa_port_switchdev_sync_attrs tagger_data p);
      if negb (err =? 0) then
        _ ← switchdev_bridge_port_unoffload 0 p brport_dev;
        _ ← on_tree 0 (dsa_flush_workqueue tagger_data);
        _ ← dsa_broadcast tagger_data (DSA_NOTIFIER_BRIDGE_LEAVE dp info);
        _ ← dsa_port_bridge_destroy 0 p; mret err
      else mret 0.

Lemma after_create_ok w1 mask p br : sound_tree w1 mask -> user_event w1 p ->
  bridge_of (mkFabric [w1] mask) p = Some br ->
  total (after_create p br) (mkFabric [w1] mask) (settled (mkFabric [w1] mask) p br).
Proof.
  intros Hs Hu Hbr. pose proof (sound_wf _ _ Hs) as Hwf. pose proof (user_has _ _ Hu) as Hp.
  pose proof (bridged_of _ _ _ _ Hbr) as Hb.
  assert (Hf : finv w1 mask (mkFabric [w1] mask)) by (exists w1; split; [done | by apply (inv_self w1 mask)]).
  assert (Hend : forall f err, finv w1 mask f -> err <> 0 ->
    total (_ ← dsa_port_bridge_destroy 0 p; mret err) f (settled (mkFabric [w1] mask) p br)).
  { intros f err Hf' Herr. mstep (by apply (leave_kept w1 mask p f br)).
    intros _ f' (S1 & S2 & _ & S3). apply total_ret. unfold settled.
    by rewrite (proj2 (Z.eqb_neq err 0)) by done. }
  assert (Hev : forall ev, event_ok w1 ev -> fsafe w1 mask (dsa_broadcast tagger_data ev) (fun _ => True))
    by (intros ev; by apply fsafe_broadcast).
  unfold after_create.
  eapply fsafe_step; [exact Hf | apply fsafe_tree, safe_bridge_port_of; exact Hp |]. clear Hf.
  intros bp f Hf _. eapply fsafe_step; [exact Hf | apply fsafe_tree, safe_port_bridge; exact Hb |]. clear f Hf.
  intros info f Hf _. eapply fsafe_step; [exact Hf | apply fsafe_tree, safe_origin_of; [exact Hwf | exact Hp] |].
  clear f Hf. intros o f Hf _. eapply fsafe_step; [exact Hf | by apply Hev |].
  clear f Hf. intros [err ev] f Hf _. destruct (Z.eqb_spec err 0) as [_ | Hne]; cbn [negb]; [| by apply Hend].
  cbv zeta. eapply fsafe_step; [exact Hf | apply fsafe_tree, safe_set_tx; exact Hb |]. clear f Hf.
  intros _ f Hf _. eapply fsafe_step; [exact Hf | by apply fsafe_offload |]. clear f Hf.
  intros err2 f Hf _. destruct (Z.eqb_spec err2 0) as [_ | Hne]; cbn [negb].
  2: { eapply fsafe_step; [exact Hf | by apply Hev |]. intros _ f2 Hf2 _. by apply Hend. }
  eapply fsafe_step; [exact Hf | apply fsafe_tree, safe_sync_attrs; [exact Hwf | exact Hu | exact Hb] |].
  clear f Hf. intros err3 f Hf _. destruct (Z.eqb_spec err3 0) as [_ | Hne]; cbn [negb].
  - apply total_ret. destruct Hf as (w & -> & Hi). split_and!.
    + apply sound_only. by apply (sound_kept w1).
    + rewrite Z.eqb_refl, <- Hbr. apply bridge_of_kept. symmetry. apply Hi.
    + intros q _. apply bridge_of_kept. symmetry. apply Hi.
  - eapply fsafe_step; [exact Hf | by apply fsafe_unoffload |]. clear f Hf. intros _ f Hf _.
    eapply fsafe_step; [exact Hf | apply fsafe_tree, safe_flush; exact Hwf |]. clear f Hf. intros _ f Hf _.
    eapply fsafe_step; [exact Hf | by apply Hev |]. intros _ f2 Hf2 _. by apply Hend.
Qed.

(** The creation of the group, from a sound state. *)
Lemma create_ok w mask p br dp : sound_tree w mask -> get_port w p = Some dp -> dp_bridge dp = None ->
  total (dsa_port_bridge_create 0 p br) (mkFabric [w] mask) (fun err f' => exists w' mask',
    f' = mkFabric [w'] mask' /\ same_shape w w' /\ sound_tree w' mask' /\
    joined (mkFabric [w] mask) p br err f').
Proof.
  intros Hs Hp Hb.
  assert (G : total (dsa_port_bridge_create 0 p br) (mkFabric [w] mask) (fun err f' =>
    fabric_ok f' /\ joined (mkFabric [w] mask) p br err f')).
  { destruct (dsa_tree_bridge_find w br) as [b |] eqn:Ef.
    - apply (create_old w mask p br dp b); [apply Hs | done ..].
    - apply (create_new w mask p br dp); [apply Hs | done ..]. }
  unfold total in *. destruct (dsa_port_bridge_create 0 p br (mkFabric [w] mask)) as [[err f'] |] eqn:E; [| done].
  destruct (keeps_create p br w mask err f' E) as (w' & mask' & -> & Hsh & Hwk).
  destruct G as ((w2 & E2 & Hok') & Hj). injection E2 as <-.
  exists w', mask'. split_and!; [done | done | | done]. by apply (sound_shape w w' mask).
Qed.

(** C12. Whatever fails in the course of a join -- memory, a bridge number, a
    driver, the switchdev layer, the bridge's attributes -- it returns, every
    other port stays in the bridge it was in, and the port itself is in the new
    bridge exactly when zero is returned; the tree is well formed, and its
    reference counts and bridge numbers are right, so that the next operation
    can rely on them. *)
Theorem bridge_join_atomic f p br : sound f -> user_port f p -> port_free f p ->
  total (dsa_port_bridge_join tagger_data 0 p br) f (settled f p br).
Proof.
  destruct f as [l mask]. intros (w & E & Hs) (w' & Ew & Hu) (w2 & dp & Ew2 & Hp & Hb).
  cbn in E, Ew, Ew2. subst l. injection Ew as <-. injection Ew2 as <-. cbn [f_bridges] in Hs.
  pose proof (sound_wf _ _ Hs) as Hwf.
  assert (Hbr : bridge_of (mkFabric [w] mask) p = None).
  { unfold bridge_of. cbn. rewrite Hp. cbn. unfold dsa_port_bridge_dev_get. by rewrite Hb. }
  unfold dsa_port_bridge_join. eapply (fsafe_step w mask _ _ (fun _ => True)).
  { exists w. split; [done | by apply (inv_self w mask)]. }
  { destruct (br_mst_enabled br); [| intros f Hf; by apply total_ret].
    intros f Hf. apply total_bind. eapply total_weaken.
    2: { apply fsafe_tree; [apply safe_supports_mst; [exact Hwf | by apply user_has] | exact Hf]. }
    intros ok f' [Hf' _]. by apply total_ret. }
  intros unsup f (w1 & -> & Hi) _.
  assert (Hs1 : sound_tree w1 mask) by by apply (sound_kept w).
  assert (Hq : forall q, bridge_of (mkFabric [w1] mask) q = bridge_of (mkFabric [w] mask) q).
  { intros q. apply bridge_of_kept. symmetry. apply Hi. }
  destruct unsup.
  { apply total_ret. split; [by apply sound_only |]. split; [by rewrite Hq | intros q _; apply Hq]. }
  destruct (free_kept w w1 p dp Hi Hp Hb) as (dq & Hdq & Hbq).
  mstep (by apply (create_ok w1 mask p br dq)).
  intros err f (w2 & mask2 & -> & Hsh & Hs2 & Hj). destruct (Z.eqb_spec err 0) as [-> | Hne]; cbn [negb].
  - destruct Hj as [(_ & Hin & Hoth) | ([? | (? & _)] & _)]; [| done | done].
    eapply total_weaken; [| apply (after_create_ok w2 mask2 p br); [done | | done]].
    2: { apply (user_event_kept w1); [done |]. apply (user_event_kept w); [apply Hi | done]. }
    intros err f (S1 & S2 & S3). split_and!; [done | done |].
    intros q Hqp. by rewrite S3, Hoth, Hq.
  - destruct Hj as [(-> & _) | (_ & Hoth)]; [done |]. apply total_ret. split; [by apply sound_only |].
    rewrite (proj2 (Z.eqb_neq err 0)) by done. split; [by rewrite Hoth, Hq | intros q _; by rewrite Hoth, Hq].
Qed.

(** C13. Leaving a bridge undoes a join: it returns, the port is in no bridge,
    every other port stays in the bridge it was in, and the tree is again well
    formed with its reference counts and bridge numbers right; a port that is in
    no bridge is left alone. *)
Theorem bridge_leave_ok f p : sound f -> user_port f p ->
  total (dsa_port_bridge_leave tagger_data 0 p) f (fun _ f' =>
    sound f' /\ bridge_of f' p = None /\ (forall q, q <> p -> bridge_of f' q = bridge_of f q) /\
    (port_free f p -> f' = f)).
Proof.
  destruct f as [l mask]. intros (w & E & Hs) (w' & Ew & Hu). cbn in E, Ew. subst l.
  injection Ew as <-. cbn [f_bridges] in Hs. pose proof (user_has _ _ Hu) as [dp Hp].
  assert (Hfree : port_free (mkFabric [w] mask) p -> dp_bridge dp = None).
  { intros (w2 & dq & E2 & Hq & Hb). cbn in E2. injection E2 as <-. congruence. }
  unfold dsa_port_bridge_leave. apply total_bind. eapply total_run.
  { rewrite on_only_tree. unfold port_of. rewrite bind_eq. unfold get_st, deref. by rewrite Hp. }
  destruct (dp_bridge dp) as [b |] eqn:Eb.
  2: { apply total_ret. split_and!; try done; [by apply sound_only |].
       unfold bridge_of. cbn. rewrite Hp. cbn. unfold dsa_port_bridge_dev_get. by rewrite Eb. }
  assert (Hb : exists o, w_bridges w !! b = Some o).
  { destruct (get_port_elem _ _ _ Hp) as [Hin _]. pose proof (proj1 (sound_ok _ _ Hs)) as Hsh.
    destruct (shared_live _ _ _ _ _ _ Hsh _ _ Hin Eb) as [o Ho]. by exists o. }
  destruct Hb as [o Ho].
  assert (Hbr : bridge_of (mkFabric [w] mask) p = Some (br_dev o)).
  { unfold bridge_of. cbn. rewrite Hp. cbn. unfold dsa_port_bridge_dev_get. rewrite Eb. cbn. by rewrite Ho. }
  pose proof (sound_wf _ _ Hs) as Hwf. pose proof (bridged_of _ _ _ _ Hbr) as Hbd.
  assert (Hf : finv w mask (mkFabric [w] mask)) by (exists w; split; [done | by apply (inv_self w mask)]).
  eapply fsafe_step; [exact Hf | apply fsafe_tree, safe_port_bridge; exact Hbd |]. clear Hf.
  intros info f Hf _.
  eapply fsafe_step; [exact Hf | apply fsafe_tree, safe_origin_of; [exact Hwf | by apply user_has] |].
  clear f Hf. intros org f Hf _. mstep (by apply (leave_kept w mask p f (br_dev o))).
  intros _ f1 ((w1 & E1 & Hs1) & Hp1 & (w1' & E1' & Hsh) & Ho1). destruct f1 as [l1 mask1]. cbn in E1, E1'. subst l1. injection E1' as <-.
  cbn [f_bridges] in Hs1. pose proof (sound_wf _ _ Hs1) as Hwf1.
  assert (Hu1 : user_event w1 p) by by apply (user_event_kept w).
  assert (Hf1 : finv w1 mask1 (mkFabric [w1] mask1)) by (exists w1; split; [done | by apply (inv_self w1 mask1)]).
  eapply fsafe_step; [exact Hf1 | by apply fsafe_broadcast |]. clear Hf1.
  intros _ f2 Hf2 _.
  eapply total_weaken; [| eapply fsafe_tree; [by apply safe_unsync_attrs | exact Hf2]].
  intros _ f3 ((w3 & -> & Hi) & _).
  assert (Hq : forall q, bridge_of (mkFabric [w3] mask1) q = bridge_of (mkFabric [w1] mask1) q).
  { intros q. apply bridge_of_kept. symmetry. apply Hi. }
  split_and!.
  - apply sound_only. by apply (sound_kept w1).
  - by rewrite Hq.
  - intros q Hne. by rewrite Hq, Ho1.
  - intros Hfr. by apply Hfree in Hfr.
Qed.

End Contract.

(** ** A bridge over the user ports of two switches *)

Module JoinDemo.
Import SwitchDemo EventDemo SafeDemo.
#[export] Existing Instance GroupDemo.bitmap_demo.

#[export] Instance effects_demo : NetEffects table := {|
  vlan_vid_add _ _ _ h := (0, h);
  vlan_vid_del _ _ _ h := h;
  dev_uc_add _ _ h := (0, h);
  dev_uc_del _ _ h := (0, h);
  dev_mc_add _ _ h := (0, h);
  dev_mc_del _ _ h := (0, h);
  fdb_flush_to_bridge _ _ h := h;
  set_ctag_filter _ _ h := h;
  dev_open _ h := (0, h);
  dev_addr _ _ := 5;
  eth_hw_addr_set _ _ h := h;
  phylink_start _ h := h;
  phylink_stop _ h := h |}.

Lemma trees_kept_self {H} (f : fabric H) : trees_wf f -> trees_kept f f.
Proof.
  intros Hf. split; [done |]. unfold trees_wf in Hf. induction Hf as [| w l [Hw Hx] Hf IH]; by constructor.
Qed.

(** The ports of the second switch cannot be offloaded. *)
#[export] Instance switchdev_demo : SwitchdevApi table.
Proof.
  refine {| switchdev_bridge_port_offload t p d tx := mret (if fst p =? 1 then 0 else - EBUSY);
            switchdev_bridge_port_unoffload t p d := mret tt |}.
  - intros t p d tx f Hf. apply total_ret. by apply trees_kept_self.
  - intros t p d f Hf. apply total_ret. by apply trees_kept_self.
Defined.

Lemma no_bridges b o : w_bridges row !! b <> Some o.
Proof. apply (lookup_empty_Some (M := gmap Z)). Qed.

Lemma row_sound : sound (mkFabric [row] 0).
Proof.
  apply sound_only. split; [apply row_wf | | by intros x ?%not_elem_of_nil]. split_and!.
  - split; [| | by intros b o ?%no_bridges | by intros ???? ?%no_bridges].
    + apply (bool_decide_unpack _). reflexivity.
    + cbn. intros x b. rewrite !elem_of_cons, elem_of_nil. by intros [-> | [-> | [-> | [-> | [-> | []]]]]].
  - split; [| by intros ???? ?%no_bridges | by intros b o ?%no_bridges].
    intros n _. rewrite Z.bits_0. split; [done | by intros (b & o & ?%no_bridges & _)].
  - intros dp Hdp. destruct (wf_switch _ row_wf dp Hdp) as [d Hd]. exists d. split; [exact Hd |].
    by destruct (row_switches _ _ Hd) as [[_ ->] | [_ ->]].
  - done.
Qed.

Definition join := dsa_port_bridge_join (fun _ _ => false) 0.
Definition leave := dsa_port_bridge_leave (fun _ _ => false) 0.

(** The port of the first switch joins; that of the second is refused. *)
Lemma bridge_join_atomic_witness : exists f1 f2,
  join (1, 0) 50 (mkFabric [row] 0) = Some (0, f1) /\ bridge_of f1 (1, 0) = Some 50 /\
  join (2, 0) 50 f1 = Some (- EBUSY, f2) /\
  bridge_of f2 (2, 0) = None /\ bridge_of f2 (1, 0) = Some 50.
Proof.
  pose proof (bridge_join_atomic (fun _ _ => false) (mkFabric [row] 0) (1, 0) 50 row_sound
    ltac:(by exists row; split; [| eexists]) ltac:(by eexists _, _)) as G.
  unfold total in G. unfold join.
  destruct (dsa_port_bridge_join _ 0 (1, 0) 50 (mkFabric [row] 0)) as [[e1 f1] |] eqn:E1; [| done].
  destruct G as (S1 & B1 & O1). assert (e1 = 0) as -> by (vm_compute in E1; by injection E1).
  assert (Hu : user_port f1 (2, 0)) by (vm_compute in E1; injection E1 as <-; by eexists; split; [| eexists]).
  assert (Hfr : port_free f1 (2, 0)) by (vm_compute in E1; injection E1 as <-; by eexists _, _).
  pose proof (bridge_join_atomic (fun _ _ => false) f1 (2, 0) 50 S1 Hu Hfr) as G. unfold total in G.
  exists f1. destruct (dsa_port_bridge_join _ 0 (2, 0) 50 f1) as [[e2 f2] |] eqn:E2; [| done].
  destruct G as (S2 & B2 & O2). vm_compute in E1. injection E1 as <-.
  assert (e2 = - EBUSY) as -> by (vm_compute in E2; by injection E2).
  exists f2. split_and!; [done | done | done | done | by rewrite O2].
Defined.

Lemma bridge_leave_ok_witness : exists f1 f2,
  join (1, 0) 50 (mkFabric [row] 0) = Some (0, f1) /\
  leave (1, 0) f1 = Some (tt, f2) /\ bridge_of f2 (1, 0) = None /\ sound f2.
Proof.
  pose proof (bridge_join_atomic (fun _ _ => false) (mkFabric [row] 0) (1, 0) 50 row_sound
    ltac:(by exists row; split; [| eexists]) ltac:(by eexists _, _)) as G.
  unfold total in G. unfold join, leave.
  destruct (dsa_port_bridge_join _ 0 (1, 0) 50 (mkFabric [row] 0)) as [[e1 f1] |] eqn:E1; [| destruct G].
  destruct G as (S1 & _). assert (e1 = 0) as -> by (vm_compute in E1; by injection E1).
  assert (Hu : user_port f1 (1, 0)) by (vm_compute in E1; injection E1 as <-; by eexists; split; [| eexists]).
  pose proof (bridge_leave_ok (fun _ _ => false) f1 (1, 0) S1 Hu) as G. unfold total in G.
  exists f1. destruct (dsa_port_bridge_leave _ 0 (1, 0) f1) as [[[] f2] |]; [| destruct G].
  destruct G as (S2 & B2 & _). by exists f2.
Defined.

End JoinDemo.
