(* ===== verification/DsaLife.v ===== *)
(** * Bringing ports and switches up and down (DSA/dsa2.c, port.c, user.c, conduit.c, devlink.c)

    Set-up and teardown of one port, of one switch and of one conduit, with
    their rollbacks.  What these routines take from the kernel and give back
    (a devlink, a registered interface, a phylink instance, ...) is a
    [resource]; the kernel counts what is held.  The routines are those of a
    kernel without data center bridging, and the replacement of a conduit's
    ethtool operations counts as a resource too. *)

From Stdlib Require Import ZArith Lia Bool.
From S2P Require Import Prelude.
From S2P Require Import Kernel.
From S2P Require Import DsaTypes.
From S2P Require Import DsaSwitch.
From S2P Require Import DsaEvent.
From S2P Require Import DsaPort.
From S2P Require Import DsaMember.

Definition EPROBE_DEFER : Z := 517.
Definition ETH_DATA_LEN : Z := 1500.
Definition ETH_MAX_MTU : Z := 0xFFFF.

(** What is taken and given back, with the kernel calls that do so. *)
Inductive resource :=
| Devlink (ds : Z)               (* devlink_alloc, devlink_free *)
| DevlinkRegistered (ds : Z)     (* devlink_register, devlink_unregister *)
| Driver (ds : Z)                (* ops->setup, ops->teardown *)
| MiiBus (ds : Z)                (* mdiobus_alloc, mdiobus_free *)
| MdioRegistered (ds : Z)        (* of_mdiobus_register, mdiobus_unregister *)
| DevlinkPort (p : pid)          (* devlink_port_register, devlink_port_unregister *)
| PortDriver (p : pid)           (* ops->port_setup, ops->port_teardown *)
| Phylink (p : pid)              (* phylink_create, phylink_destroy *)
| FixedLink (p : pid)            (* of_phy_register_fixed_link, of_phy_deregister_fixed_link *)
| Netdev (p : pid)               (* alloc_netdev_mqs, free_netdev *)
| Stats (p : pid)                (* netdev_alloc_pcpu_stats, free_percpu *)
| GroCells (p : pid)             (* gro_cells_init, gro_cells_destroy *)
| Registered (p : pid)           (* register_netdevice, unregister_netdevice *)
| UpperLink (p : pid)            (* netdev_upper_dev_link, netdev_upper_dev_unlink *)
| EthtoolOps (dev : netdev)      (* dev->ethtool_ops replaced, put back *)
| SysfsGroup (dev : netdev).     (* sysfs_create_group, sysfs_remove_group *)

#[export] Instance resource_eq_dec : EqDecision resource.
Proof. solve_decision. Defined.

Definition one (r x : resource) : Z := if decide (r = x) then 1 else 0.

(** A call that leaves what is held as it is. *)
Definition quiet {H R} (held : H -> R -> Z) (f : H -> H) : Prop := forall h x, held (f h) x = held h x.

(** The kernel behind the life cycle.  An acquisition that fails answers an error
    and takes nothing; a release gives back what is held. *)
Class LifeApi (H : Type) := {
  acquire : resource -> H -> Z * H;
  release : resource -> H -> H;
  held : H -> resource -> Z;
  acquire_ok r h x : fst (acquire r h) = 0 -> held (snd (acquire r h)) x = held h x + one r x;
  acquire_neg r h : fst (acquire r h) <= 0;
  acquire_err r h x : fst (acquire r h) <> 0 -> held (snd (acquire r h)) x = held h x;
  release_ok r h x : 1 <= held h r -> held (release r h) x = held h x - one r x;

  user_dev : pid -> netdev;                  (* the interface allocated for a port *)
  init_user_dev : pid -> netdev -> H -> H;   (* its fields, and what it takes from the conduit *)
  netif_carrier_off : netdev -> H -> H;
  phylink_of_phy_connect : pid -> H -> Z * H;
  mdiobus_get_phy : Z -> Z -> H -> bool;     (* switch, address *)
  phylink_connect_phy : pid -> Z -> H -> Z * H;
  phylink_disconnect_phy : pid -> H -> H;
  or_phys_mii_mask : Z -> Z -> H -> H;
  device_link_add : Z -> netdev -> H -> H;
  dev_set_promiscuity : netdev -> Z -> H -> H;
  set_dsa_ptr : netdev -> option pid -> H -> H;

  (* the device tree; nodes are those of the ports *)
  of_get_phy_mode : Z -> bool;               (* is there one *)
  of_phy_is_fixed_link : Z -> bool;
  of_phy_handle : Z -> bool;                 (* is there a PHY handle *)
  of_phy_find_device : Z -> bool;            (* and the PHY it names *)
  of_device_compatible_match : Z -> bool;    (* switch in dsa_switches_apply_workarounds *)
  genphy_resume : Z -> H -> Z * H;
  genphy_read_status : Z -> H -> Z * H;
  genphy_suspend : Z -> H -> Z * H;

  dev_mtu : netdev -> H -> Z;
  dev_max_mtu : netdev -> H -> Z;
  dev_set_mtu : netdev -> Z -> H -> Z * H;   (* of a conduit *)
  assign_mtu : netdev -> Z -> H -> H;        (* dev->mtu = *)
  mtu_enforcement_ingress : Z -> bool;       (* flag of the switch *)
  qdisc_tx_is_noop : netdev -> bool;
  netif_oper_up : netdev -> bool;

  quiet_init p d : quiet held (init_user_dev p d);
  quiet_carrier d : quiet held (netif_carrier_off d);
  quiet_of_connect p : quiet held (fun h => snd (phylink_of_phy_connect p h));
  quiet_connect p a : quiet held (fun h => snd (phylink_connect_phy p a h));
  quiet_disconnect p : quiet held (phylink_disconnect_phy p);
  quiet_mask ds m : quiet held (or_phys_mii_mask ds m);
  quiet_device_link ds d : quiet held (device_link_add ds d);
  quiet_promiscuity d i : quiet held (dev_set_promiscuity d i);
  quiet_dsa_ptr d p : quiet held (set_dsa_ptr d p);
  quiet_resume n : quiet held (fun h => snd (genphy_resume n h));
  quiet_status n : quiet held (fun h => snd (genphy_read_status n h));
  quiet_suspend n : quiet held (fun h => snd (genphy_suspend n h));
  quiet_set_mtu d m : quiet held (fun h => snd (dev_set_mtu d m h));
  quiet_assign_mtu d m : quiet held (assign_mtu d m);
}.

Section Life.
Context {H : Type} `{RefcountApi, NotifierApi, NetQueries, !NetEffects H, !LifeApi H}.
Context (tagger_data : H -> Z -> bool).
Abbreviation M := (st (world H)).

Definition get (r : resource) : M Z := call_fun (acquire r).
Definition put (r : resource) : M unit := effect (release r).
Definition on_hw {A} (g : H -> A) : M A := w ← get_st; mret (g (w_hw w)).

(** ** Devlink *)

Definition dsa_port_devlink_setup (p : pid) : M Z :=
  d ← switch_of p;
  let ops := op_switch (ds_ops d) in
  err ← match op_port_setup ops with
        | Some g => call_fun (g (fst p) (snd p)) | None => mret 0 end;
  if negb (err =? 0) then mret err
  else
    err ← get (DevlinkPort p);
    if negb (err =? 0) then
      _ ← match op_port_teardown ops with
          | Some g => effect (g (fst p) (snd p)) | None => mret tt end;
      mret err
    else mret 0.

Definition dsa_port_devlink_teardown (p : pid) : M unit :=
  d ← switch_of p;
  _ ← put (DevlinkPort p);
  match op_port_teardown (op_switch (ds_ops d)) with
  | Some g => effect (g (fst p) (snd p)) | None => mret tt end.

Definition dsa_switch_devlink_alloc (ds : Z) : M Z :=
  err ← get (Devlink ds); mret (if err =? 0 then 0 else - ENOMEM).
Definition dsa_switch_devlink_free (ds : Z) : M unit := put (Devlink ds).
(** [devlink_register] cannot fail. *)
Definition dsa_switch_devlink_register (ds : Z) : M unit := _ ← get (DevlinkRegistered ds); mret tt.
Definition dsa_switch_devlink_unregister (ds : Z) : M unit := put (DevlinkRegistered ds).

(** ** The link of a port *)

Definition dsa_port_phylink_create (p : pid) : M Z :=
  err ← get (Phylink p);
  if negb (err =? 0) then mret err
  else _ ← modify (upd_port p (set_pl true)); mret 0.

Definition dsa_port_phylink_destroy (p : pid) : M unit :=
  _ ← put (Phylink p); modify (upd_port p (set_pl false)).

(** No PHY, a PHY still to come, or the PHY of the node. *)
Definition dsa_port_get_phy_device (dn : Z) : option (Z + Z) :=
  if negb (of_phy_handle dn) then None
  else if negb (of_phy_find_device dn) then Some (inl (- EPROBE_DEFER)) else Some (inr dn).

Definition call_adjust_link (d : dsa_switch H) (p : pid) : M unit :=
  match op_adjust_link (op_switch (ds_ops d)) with
  | Some g => effect (g (fst p) (snd p)) | None => mret tt end.

Definition node_of (p : pid) : M Z := dp ← port_of p; deref (dp_dn dp).

Definition dsa_shared_port_setup_phy_of (p : pid) (enable : bool) : M Z :=
  d ← switch_of p;
  dn ← node_of p;
  match dsa_port_get_phy_device dn with
  | None => mret 0
  | Some (inl err) => mret err
  | Some (inr phydev) =>
      err ← (if enable then
               err ← call_fun (genphy_resume phydev);
               if err <? 0 then mret err else call_fun (genphy_read_status phydev)
             else call_fun (genphy_suspend phydev));
      if err <? 0 then mret err else _ ← call_adjust_link d p; mret err
  end.

Definition dsa_shared_port_fixed_link_register_of (p : pid) : M Z :=
  d ← switch_of p;
  dn ← node_of p;
  err ← get (FixedLink p);
  if negb (err =? 0) then mret err
  else
    _ ← call_fun (genphy_read_status dn);
    _ ← call_adjust_link d p;
    mret 0.

(** Having no PHY is no error on a shared port. *)
Definition dsa_shared_port_phylink_register (p : pid) : M Z :=
  err ← dsa_port_phylink_create p;
  if negb (err =? 0) then mret err
  else
    err ← call_fun (phylink_of_phy_connect p);
    if negb (err =? 0) && negb (err =? - ENODEV) then
      _ ← dsa_port_phylink_destroy p; mret err
    else mret 0.

(** Is the phy-mode missing, and the description of the link. *)
Definition dsa_shared_port_validate_of (dn : Z) : bool * bool :=
  (negb (of_get_phy_mode dn), negb (of_phy_is_fixed_link dn) && negb (of_phy_handle dn)).

Definition dsa_shared_port_link_register_of (p : pid) : M Z :=
  d ← switch_of p;
  dn ← node_of p;
  let '(missing_phy_mode, missing_link_description) := dsa_shared_port_validate_of dn in
  if (missing_phy_mode || missing_link_description) && negb (of_device_compatible_match (fst p))
  then mret (- EINVAL)
  else match op_adjust_link (op_switch (ds_ops d)) with
  | None =>
      if missing_link_description then mret 0
      else
        _ ← match op_phylink_mac_link_down (op_switch (ds_ops d)) with
            | Some g => effect (g (fst p) (snd p)) | None => mret tt end;
        dsa_shared_port_phylink_register p
  | Some _ =>
      if of_phy_is_fixed_link dn then dsa_shared_port_fixed_link_register_of p
      else dsa_shared_port_setup_phy_of p true
  end.

Definition dsa_shared_port_link_unregister_of (p : pid) : M unit :=
  d ← switch_of p;
  dp ← port_of p;
  if bool_decide (is_Some (op_adjust_link (op_switch (ds_ops d)))) || negb (dp_pl dp) then
    dn ← node_of p;
    if of_phy_is_fixed_link dn then put (FixedLink p)
    else _ ← dsa_shared_port_setup_phy_of p false; mret tt
  else
    _ ← effect (phylink_disconnect_phy p);
    dsa_port_phylink_destroy p.

(** ** The MTU of a user port *)

(** [list_for_each_entry_continue_reverse] over the ports done so far, last first. *)
Fixpoint mtu_rollback (set_mtu : pid -> Z -> M Z) (done_ : list (pid * netdev * Z)) : M unit :=
  match done_ with
  | [] => mret tt
  | (q, dev, old_mtu) :: l =>
      mtu ← on_hw (dev_mtu dev);
      _ ← (if mtu =? old_mtu then mret 0 else set_mtu q old_mtu);
      mtu_rollback set_mtu l
  end.

Fixpoint dsa_hw_port_list_set_mtu (set_mtu : pid -> Z -> M Z) (done_ l : list (pid * netdev * Z))
    (mtu : Z) : M Z :=
  match l with
  | [] => mret 0
  | (q, dev, old_mtu) :: l =>
      now ← on_hw (dev_mtu dev);
      err ← (if now =? mtu then mret 0 else set_mtu q mtu);
      if negb (err =? 0) then _ ← mtu_rollback set_mtu done_; mret err
      else dsa_hw_port_list_set_mtu set_mtu ((q, dev, old_mtu) :: done_) l mtu
  end.

(** The user ports of the bridge whose switches limit what they receive, the last
    first, and the least of their MTUs; [None] when memory runs out. *)
Fixpoint collect_hw_ports (p : pid) (l : list pid) (acc : list (pid * netdev * Z)) (min_mtu : Z)
    : M (option (list (pid * netdev * Z) * Z)) :=
  match l with
  | [] => mret (Some (acc, min_mtu))
  | q :: l =>
      dp ← port_of p; dq ← port_of q; w ← get_st;
      if negb (dsa_port_is_user dq && dsa_port_bridge_same w dp dq && mtu_enforcement_ingress (dp_ds dq))
      then collect_hw_ports p l acc min_mtu
      else
        user ← user_of q;
        mtu ← on_hw (dev_mtu user);
        ok ← kzalloc;
        if negb ok then mret None
        else collect_hw_ports p l ((q, user, mtu) :: acc) (if mtu <? min_mtu then mtu else min_mtu)
  end.

(** On the ports of the bridge in this tree. *)
Definition dsa_bridge_mtu_normalization (set_mtu : pid -> Z -> M Z) (p : pid) : M unit :=
  dp ← port_of p;
  if negb (mtu_enforcement_ingress (dp_ds dp)) then mret tt
  else if bool_decide (dp_bridge dp = None) then mret tt
  else
    w ← get_st;
    o ← collect_hw_ports p (dp_id <$> w_ports w) [] ETH_MAX_MTU;
    match o with
    | None => mret tt
    | Some (l, min_mtu) =>
        user ← user_of p;
        mtu ← on_hw (dev_mtu user);
        err ← dsa_hw_port_list_set_mtu set_mtu [] l mtu;
        if err =? 0 then mret tt
        else _ ← dsa_hw_port_list_set_mtu set_mtu [] l min_mtu; mret tt
    end.

(** The largest MTU of the user ports, were that of [p] the new one. *)
Definition largest_mtu (p : pid) (new_mtu : Z) (w : world H) : Z :=
  foldl (fun largest other =>
    match dsa_port_is_user other, dp_netdev other with
    | true, Some user =>
        let user_mtu := if bool_decide (dp_id other = p) then new_mtu else dev_mtu user (w_hw w) in
        if largest <? user_mtu then user_mtu else largest
    | _, _ => largest
    end) 0 (w_ports w).

(** Setting the MTU of another port of the bridge comes back here, through the
    kernel; the fuel bounds how deep.  [cpu_tagger] reads the tagger of a CPU port:
    that of the tree, unless the tagging protocol is being changed. *)
Fixpoint dsa_user_change_mtu (cpu_tagger : pid -> M (dsa_device_ops H)) (fuel : nat) (p : pid) (new_mtu : Z) : M Z :=
  match fuel with
  | O => fault
  | S n =>
      conduit ← conduit_of p;
      dev ← user_of p;
      dp ← port_of p;
      d ← get_ds (dp_ds dp);
      match op_port_change_mtu (ds_ops d) with
      | None => mret (- EOPNOTSUPP)
      | Some port_change_mtu =>
          w ← get_st;
          let cpu_mtu := largest_mtu p new_mtu w in
          cpu_dp ← deref (dp_cpu_dp dp);
          tag_ops ← cpu_tagger cpu_dp;
          let overhead := dsa_tag_protocol_overhead tag_ops in
          let mtu_limit := Z.min (dev_max_mtu conduit (w_hw w)) (dev_max_mtu dev (w_hw w) + overhead) in
          let old_conduit_mtu := dev_mtu conduit (w_hw w) in
          let new_conduit_mtu := cpu_mtu + overhead in
          if mtu_limit <? new_conduit_mtu then mret (- ERANGE)
          else
            let differs := negb (new_conduit_mtu =? old_conduit_mtu) in
            let restore : M unit :=
              if differs then _ ← call_fun (dev_set_mtu conduit old_conduit_mtu); mret tt else mret tt in
            err ← (if differs then call_fun (dev_set_mtu conduit new_conduit_mtu) else mret 0);
            if err <? 0 then mret err
            else
              err ← (if differs then dsa_port_mtu_change tagger_data cpu_dp cpu_mtu else mret 0);
              if negb (err =? 0) then _ ← restore; mret err
              else
                err ← call_fun (port_change_mtu (dp_ds dp) (dp_index dp) new_mtu);
                if negb (err =? 0) then
                  _ ← (if differs then
                         _ ← dsa_port_mtu_change tagger_data cpu_dp (old_conduit_mtu - overhead); mret tt
                       else mret tt);
                  _ ← restore;
                  mret err
                else
                  _ ← effect (assign_mtu dev new_mtu);
                  _ ← dsa_bridge_mtu_normalization (fun q mtu => dsa_user_change_mtu cpu_tagger n q mtu) p;
                  mret 0
      end
  end.

(** ** The interface of a user port *)

Definition dsa_user_phy_connect (p : pid) (addr : Z) : M Z :=
  found ← on_hw (mdiobus_get_phy (fst p) addr);
  if negb found then mret (- ENODEV) else call_fun (phylink_connect_phy p addr).

Definition dsa_user_phy_setup (p : pid) : M Z :=
  ret ← dsa_port_phylink_create p;
  if negb (ret =? 0) then mret ret
  else
    d ← switch_of p;
    ret ← call_fun (phylink_of_phy_connect p);
    ret ← (if (ret =? - ENODEV) && ds_user_mii_bus d then dsa_user_phy_connect p (snd p) else mret ret);
    if negb (ret =? 0) then _ ← dsa_port_phylink_destroy p; mret ret else mret 0.

(** The headroom and the features come from the tagger of the CPU port and from
    the conduit; both are looked at. *)
Definition dsa_user_setup_tagger (p : pid) : M unit :=
  conduit ← conduit_of p;
  dp ← port_of p; cpu ← deref (dp_cpu_dp dp); _ ← port_of cpu;
  _ ← tree_tag_ops;
  mret tt.

Definition user_out_free (p : pid) : M unit :=
  _ ← put (Stats p); _ ← put (Netdev p); modify (upd_port p (set_netdev None)).
Definition user_out_gcells (p : pid) : M unit := _ ← put (GroCells p); user_out_free p.
Definition user_out_phy (p : pid) : M unit :=
  _ ← effect (phylink_disconnect_phy p); _ ← dsa_port_phylink_destroy p; user_out_gcells p.
Definition user_out_unregister (p : pid) : M unit := _ ← put (Registered p); user_out_phy p.

Definition dsa_user_create (p : pid) : M Z :=
  conduit ← conduit_of p;
  err ← get (Netdev p);
  if negb (err =? 0) then mret (- ENOMEM)
  else
    let user := user_dev p in
    _ ← effect (init_user_dev p conduit);
    err ← get (Stats p);
    if negb (err =? 0) then _ ← put (Netdev p); mret (- ENOMEM)
    else
      ret ← get (GroCells p);
      if negb (ret =? 0) then _ ← user_out_free p; mret ret
      else
        _ ← modify (upd_port p (set_netdev (Some user)));
        _ ← dsa_user_setup_tagger p;
        _ ← effect (netif_carrier_off user);
        ret ← dsa_user_phy_setup p;
        if negb (ret =? 0) then _ ← user_out_gcells p; mret ret
        else
          w ← get_st;
          _ ← dsa_user_change_mtu (fun _ => tree_tag_ops) (S (length (w_ports w))) p ETH_DATA_LEN;
          ret ← get (Registered p);
          if negb (ret =? 0) then _ ← user_out_phy p; mret ret
          else
            ret ← get (UpperLink p);
            if negb (ret =? 0) then _ ← user_out_unregister p; mret ret else mret 0.

Definition dsa_user_destroy (p : pid) : M unit :=
  conduit ← conduit_of p;
  user ← user_of p;
  _ ← effect (netif_carrier_off user);
  _ ← put (UpperLink p);
  _ ← put (Registered p);
  _ ← effect (phylink_disconnect_phy p);
  _ ← dsa_port_phylink_destroy p;
  _ ← put (GroCells p);
  _ ← put (Stats p);
  put (Netdev p).

(** ** A port *)

Definition port_link_register (p : pid) : M (Z * bool) :=
  dp ← port_of p;
  match dp_dn dp with
  | Some _ => err ← dsa_shared_port_link_register_of p; mret (err, err =? 0)
  | None => mret (0, false)
  end.

(** A shared port: its link, then the port. *)
Definition shared_port_up (p : pid) : M Z :=
  '(err, dsa_port_link_registered) ← port_link_register p;
  err ← (if negb (err =? 0) then mret err else dsa_port_enable p);
  if negb (err =? 0) && dsa_port_link_registered then
    _ ← dsa_shared_port_link_unregister_of p; mret err
  else mret err.

Definition dsa_port_setup (p : pid) : M Z :=
  dp ← port_of p;
  if dp_setup dp then mret 0
  else
    err ← dsa_port_devlink_setup p;
    if negb (err =? 0) then mret err
    else
      err ← match dp_type dp with
            | DSA_PORT_TYPE_UNUSED => _ ← dsa_port_disable p; mret 0
            | DSA_PORT_TYPE_CPU | DSA_PORT_TYPE_DSA => shared_port_up p
            | DSA_PORT_TYPE_USER => dsa_user_create p
            end;
      if negb (err =? 0) then _ ← dsa_port_devlink_teardown p; mret err
      else _ ← modify (upd_port p (set_setup true)); mret 0.

Definition shared_port_down (p : pid) : M unit :=
  dp ← port_of p;
  _ ← dsa_port_disable p;
  match dp_dn dp with
  | Some _ => dsa_shared_port_link_unregister_of p
  | None => mret tt
  end.

Definition dsa_port_teardown (p : pid) : M unit :=
  dp ← port_of p;
  if negb (dp_setup dp) then mret tt
  else
    _ ← match dp_type dp with
        | DSA_PORT_TYPE_UNUSED => mret tt
        | DSA_PORT_TYPE_CPU | DSA_PORT_TYPE_DSA => shared_port_down p
        | DSA_PORT_TYPE_USER =>
            match dp_netdev dp with
            | Some _ => _ ← dsa_user_destroy p; modify (upd_port p (set_netdev None))
            | None => mret tt
            end
        end;
    _ ← dsa_port_devlink_teardown p;
    modify (upd_port p (set_setup false)).

Definition dsa_port_setup_as_unused (p : pid) : M Z :=
  _ ← modify (upd_port p (set_type DSA_PORT_TYPE_UNUSED)); dsa_port_setup p.

(** ** A conduit *)

Definition dsa_conduit_set_promiscuity (dev : netdev) (inc : Z) : M unit :=
  tag_ops ← tree_tag_ops;
  if iff_unicast_flt dev && negb (to_promisc_on_conduit tag_ops) then mret tt
  else effect (dev_set_promiscuity dev inc).

Definition dsa_conduit_ethtool_setup (dev : netdev) : M Z :=
  if netif_is_lag_master dev then mret 0
  else err ← get (EthtoolOps dev); mret (if err =? 0 then 0 else - ENOMEM).
Definition dsa_conduit_ethtool_teardown (dev : netdev) : M unit :=
  if netif_is_lag_master dev then mret tt else put (EthtoolOps dev).

Definition dsa_conduit_reset_mtu (dev : netdev) : M unit :=
  _ ← call_fun (dev_set_mtu dev ETH_DATA_LEN); mret tt.

(** On failure [dev->dsa_ptr] stays. *)
Definition dsa_conduit_setup (dev : netdev) (cpu_dp : pid) : M Z :=
  tag_ops ← tree_tag_ops;
  _ ← (if netif_is_lag_master dev then mret tt else effect (device_link_add (fst cpu_dp) dev));
  _ ← call_fun (dev_set_mtu dev (ETH_DATA_LEN + dsa_tag_protocol_overhead tag_ops));
  _ ← effect (set_dsa_ptr dev (Some cpu_dp));
  _ ← dsa_conduit_set_promiscuity dev 1;
  ret ← dsa_conduit_ethtool_setup dev;
  if negb (ret =? 0) then _ ← dsa_conduit_set_promiscuity dev (-1); mret ret
  else
    ret ← get (SysfsGroup dev);
    if negb (ret =? 0) then
      _ ← dsa_conduit_ethtool_teardown dev;
      _ ← dsa_conduit_set_promiscuity dev (-1);
      mret ret
    else mret 0.

Definition dsa_conduit_teardown (dev : netdev) : M unit :=
  _ ← put (SysfsGroup dev);
  _ ← dsa_conduit_ethtool_teardown dev;
  _ ← dsa_conduit_reset_mtu dev;
  _ ← dsa_conduit_set_promiscuity dev (-1);
  effect (set_dsa_ptr dev None).

(** ** A switch *)

Definition dsa_switch_setup_tag_protocol (ds : Z) : M Z :=
  d ← get_ds ds;
  tag_ops ← tree_tag_ops;
  w ← get_st;
  err ← (if to_proto tag_ops =? dst_default_proto (w_tree w) then mret 0
         else
           change ← deref (op_change_tag_protocol (op_switch (ds_ops d)));
           call_fun (change ds (to_proto tag_ops)));
  if negb (err =? 0) then mret err
  else
    err ← call_tagger (to_connect tag_ops) ds;
    if negb (err =? 0) then mret err
    else match op_connect_tag_protocol (op_switch (ds_ops d)) with
    | None => mret 0
    | Some f =>
        err ← call_fun (f ds (to_proto tag_ops));
        if negb (err =? 0) then _ ← call_disconnect tag_ops ds; mret err else mret 0
    end.

Definition dsa_switch_teardown_tag_protocol (ds : Z) : M unit :=
  tag_ops ← tree_tag_ops; call_disconnect tag_ops ds.

Definition driver_teardown (d : dsa_switch H) (ds : Z) : M unit :=
  match op_teardown (op_switch (ds_ops d)) with Some g => effect (g ds) | None => mret tt end.

(** The labels of [dsa_switch_setup], each falling into the next. *)
Definition switch_devlink_free (ds : Z) : M unit := dsa_switch_devlink_free ds.
Definition switch_unregister_notifier (ds : Z) : M unit :=
  _ ← dsa_switch_unregister_notifier ds; switch_devlink_free ds.
Definition switch_out_teardown (d : dsa_switch H) (ds : Z) : M unit :=
  _ ← driver_teardown d ds; switch_unregister_notifier ds.
Definition switch_free_user_mii_bus (d : dsa_switch H) (ds : Z) : M unit :=
  _ ← put (MiiBus ds); switch_out_teardown d ds.

(** The internal MDIO bus, where the driver has none of its own but can read:
    which label to leave by, if any. *)
Definition switch_user_mii_bus (ds : Z) : M Z :=
  d ← get_ds ds;
  if negb (ds_user_mii_bus d) && op_phy_read (op_switch (ds_ops d)) then
    err ← get (MiiBus ds);
    if negb (err =? 0) then _ ← switch_out_teardown d ds; mret (- ENOMEM)
    else
      _ ← modify (upd_ds ds (set_ds_user_mii_bus true));
      err ← get (MdioRegistered ds);
      if err <? 0 then _ ← switch_free_user_mii_bus d ds; mret err
      else mret 0
  else mret 0.

Definition dsa_switch_setup (ds : Z) : M Z :=
  d ← get_ds ds;
  if ds_setup d then mret 0
  else
    w ← get_st;
    _ ← effect (or_phys_mii_mask ds (dsa_user_ports w ds));
    err ← dsa_switch_devlink_alloc ds;
    if negb (err =? 0) then mret err
    else
      err ← dsa_switch_register_notifier ds;
      if negb (err =? 0) then _ ← switch_devlink_free ds; mret err
      else
        _ ← modify (upd_ds ds (set_ds_configure_vlan true));
        err ← call_fun (op_setup (op_switch (ds_ops d)) ds);
        if err <? 0 then _ ← switch_unregister_notifier ds; mret err
        else
          err ← dsa_switch_setup_tag_protocol ds;
          if negb (err =? 0) then _ ← switch_out_teardown d ds; mret err
          else
            err ← switch_user_mii_bus ds;
            if negb (err =? 0) then mret err
            else
              _ ← dsa_switch_devlink_register ds;
              _ ← modify (upd_ds ds (set_ds_setup true));
              mret 0.

Definition dsa_switch_teardown (ds : Z) : M unit :=
  d ← get_ds ds;
  if negb (ds_setup d) then mret tt
  else
    _ ← dsa_switch_devlink_unregister ds;
    _ ← (if ds_user_mii_bus d && op_phy_read (op_switch (ds_ops d)) then
           _ ← put (MdioRegistered ds);
           _ ← put (MiiBus ds);
           modify (upd_ds ds (set_ds_user_mii_bus false))
         else mret tt);
    _ ← dsa_switch_teardown_tag_protocol ds;
    _ ← driver_teardown d ds;
    _ ← dsa_switch_unregister_notifier ds;
    _ ← dsa_switch_devlink_free ds;
    modify (upd_ds ds (set_ds_setup false)).

End Life.
