(* ===== verification/DsaTree.v ===== *)
(** * The life of a switch tree (DSA/dsa2.c)

    A tree comes up with its last switch: the routing table from the links of
    the device tree, a CPU port for every port, then the switches, the ports,
    the conduits and the array of LAGs, each stage undone if a later one fails;
    and it goes down with the first switch that leaves.  The trees of the
    system are independent here, and one of them is modelled: the switches
    registered are those of this tree. *)

From Stdlib Require Import ZArith Lia Bool.
From S2P Require Import Prelude.
From S2P Require Import Kernel.
From S2P Require Import DsaTypes.
From S2P Require Import DsaSwitch.
From S2P Require Import DsaEvent.
From S2P Require Import DsaGroups.
From S2P Require Import DsaPort.
From S2P Require Import DsaMember.
From S2P Require Import DsaLife.

Definition DSA_MAX_PORTS : Z := 12.

(** What the platform says of a switch: [dsa_chip_data] or the device tree. *)
Class PlatformApi := {
  of_links : Z -> list Z;                    (* node of a port: its "link" phandles *)
}.

Section Tree.
Context {H : Type} `{RefcountApi, NotifierApi, NetQueries, !NetEffects H, !LifeApi H, PlatformApi}.
Context (tagger_data : H -> Z -> bool).
Abbreviation M := (st (world H)).

Definition ports_now : M (list pid) := w ← get_st; mret (dp_id <$> w_ports w).

(** [list_for_each_entry] over the ports of the tree, for effect. *)
Definition for_ports (body : pid -> M unit) : M unit :=
  l ← ports_now; _ ← for_err l (fun p => _ ← body p; mret 0); mret tt.

(** ** The routing table *)

Definition dsa_tree_find_port_by_node (w : world H) (dn : Z) : option pid :=
  dp_id <$> List.find (fun dp => bool_decide (dp_dn dp = Some dn)) (w_ports w).

(** Whether the link is in the table now. *)
Definition dsa_link_touch (p link : pid) : M bool :=
  w ← get_st;
  if existsb (fun dl => bool_decide (dl = (p, link))) (w_rtable w) then mret true
  else
    ok ← kzalloc;
    if negb ok then mret false
    else _ ← modify (fun w => set_rtable w (w_rtable w ++ [(p, link)])); mret true.

Fixpoint link_loop (p : pid) (nodes : list Z) : M bool :=
  match nodes with
  | [] => mret true
  | node :: nodes =>
      w ← get_st;
      match dsa_tree_find_port_by_node w node with
      | None => mret false
      | Some link => ok ← dsa_link_touch p link; if negb ok then mret false else link_loop p nodes
      end
  end.

(** A port without a node has no links. *)
Definition dsa_port_setup_routing_table (p : pid) : M bool :=
  dp ← port_of p;
  link_loop p (match dp_dn dp with Some dn => of_links dn | None => [] end).

Fixpoint routing_loop (l : list pid) : M bool :=
  match l with
  | [] => mret true
  | p :: l =>
      dp ← port_of p;
      if dsa_port_is_dsa dp then
        complete ← dsa_port_setup_routing_table p;
        if negb complete then mret false else routing_loop l
      else routing_loop l
  end.
Definition dsa_tree_setup_routing_table : M bool := l ← ports_now; routing_loop l.

(** ** The CPU port of each port *)

Definition dsa_tree_find_first_cpu (w : world H) : option pid :=
  dp_id <$> List.find dsa_port_is_cpu (w_ports w).

Definition takes_cpu_dp (dp : dsa_port) : bool := dsa_port_is_user dp || dsa_port_is_dsa dp.

(** [if (!dp->cpu_dp && ...) dp->cpu_dp = cpu_dp] over the ports a test selects. *)
Definition give_cpu_dp (which : dsa_port -> bool) (cpu_dp : pid) (w : world H) : world H :=
  set_ports w ((fun dp => if which dp && bool_decide (dp_cpu_dp dp = None) && takes_cpu_dp dp
                          then set_cpu_dp (Some cpu_dp) dp else dp) <$> w_ports w).

Definition dsa_tree_setup_default_cpu : M Z :=
  w ← get_st;
  match dsa_tree_find_first_cpu w with
  | None => mret (- EINVAL)
  | Some cpu_dp => _ ← modify (give_cpu_dp (fun _ => true) cpu_dp); mret 0
  end.

Definition dsa_switch_preferred_default_local_cpu_port (ds : Z) : M (option pid) :=
  d ← get_ds ds;
  match op_preferred_default_local_cpu_port (op_switch (ds_ops d)) with
  | None => mret None
  | Some f =>
      w ← get_st;
      match f ds (w_hw w) with
      | None => mret None
      | Some cpu => dp ← port_of cpu;
          if negb (dsa_port_is_cpu dp) || negb (dp_ds dp =? ds) then mret None else mret (Some cpu)
      end
  end.

Fixpoint cpu_ports_loop (l : list pid) : M unit :=
  match l with
  | [] => mret tt
  | cpu :: l =>
      dp ← port_of cpu;
      if negb (dsa_port_is_cpu dp) then cpu_ports_loop l
      else
        preferred ← dsa_switch_preferred_default_local_cpu_port (dp_ds dp);
        if bool_decide (preferred = None \/ preferred = Some cpu) then
          _ ← modify (give_cpu_dp (fun dq => dp_ds dq =? dp_ds dp) cpu);
          cpu_ports_loop l
        else cpu_ports_loop l
  end.

Definition dsa_tree_setup_cpu_ports : M Z :=
  l ← ports_now; _ ← cpu_ports_loop l; dsa_tree_setup_default_cpu.

Definition dsa_tree_teardown_cpu_ports : M unit :=
  modify (fun w => set_ports w
    ((fun dp => if takes_cpu_dp dp then set_cpu_dp None dp else dp) <$> w_ports w)).

(** ** The stages *)

Definition teardown_if (which : dsa_port -> bool) (p : pid) : M unit :=
  dp ← port_of p; if which dp then dsa_port_teardown p else mret tt.

Definition dsa_port_is_shared_kind (dp : dsa_port) : bool := dsa_port_is_dsa dp || dsa_port_is_cpu dp.
Definition dsa_port_is_own_kind (dp : dsa_port) : bool := dsa_port_is_user dp || dsa_port_is_unused dp.

Definition dsa_tree_teardown_ports : M unit :=
  _ ← for_ports (teardown_if dsa_port_is_own_kind);
  _ ← dsa_flush_workqueue tagger_data;
  for_ports (teardown_if dsa_port_is_shared_kind).

Definition dsa_tree_teardown_switches : M unit :=
  for_ports (fun p => dp ← port_of p; dsa_switch_teardown (dp_ds dp)).

Definition dsa_tree_setup_ports : M Z :=
  l ← ports_now;
  err ← for_err l (fun p => dp ← port_of p;
          if dsa_port_is_shared_kind dp then dsa_port_setup tagger_data p else mret 0);
  err ← (if negb (err =? 0) then mret err
         else for_err l (fun p => dp ← port_of p;
           if dsa_port_is_own_kind dp then
             err ← dsa_port_setup tagger_data p;
             if negb (err =? 0) then dsa_port_setup_as_unused tagger_data p else mret 0
           else mret 0));
  if negb (err =? 0) then _ ← dsa_tree_teardown_ports; mret err else mret 0.

Definition dsa_tree_setup_switches : M Z :=
  l ← ports_now;
  err ← for_err l (fun p => dp ← port_of p; dsa_switch_setup (dp_ds dp));
  if negb (err =? 0) then _ ← dsa_tree_teardown_switches; mret err else mret 0.

(** The conduits of the CPU ports, up to the first that fails. *)
Definition dsa_tree_setup_conduit : M Z :=
  l ← ports_now;
  for_err l (fun p =>
    cpu_dp ← port_of p;
    if negb (dsa_port_is_cpu cpu_dp) then mret 0
    else
      conduit ← deref (dp_netdev cpu_dp);
      let admin_up := iff_up conduit && negb (qdisc_tx_is_noop conduit) in
      err ← dsa_conduit_setup conduit p;
      if negb (err =? 0) then mret err
      else
        _ ← dsa_tree_conduit_admin_state_change tagger_data conduit admin_up;
        _ ← dsa_tree_conduit_oper_state_change tagger_data conduit (netif_oper_up conduit);
        mret 0).

Definition dsa_tree_teardown_conduit : M unit :=
  for_ports (fun p =>
    cpu_dp ← port_of p;
    if negb (dsa_port_is_cpu cpu_dp) then mret tt
    else
      conduit ← deref (dp_netdev cpu_dp);
      _ ← dsa_tree_conduit_admin_state_change tagger_data conduit false;
      dsa_conduit_teardown conduit).

(** ** The tree *)

Definition tree_out_cpu_ports (err : Z) : M Z := _ ← dsa_tree_teardown_cpu_ports; mret err.
Definition tree_out_switches (err : Z) : M Z := _ ← dsa_tree_teardown_switches; tree_out_cpu_ports err.
Definition tree_out_ports (err : Z) : M Z := _ ← dsa_tree_teardown_ports; tree_out_switches err.
Definition tree_out_conduit (err : Z) : M Z := _ ← dsa_tree_teardown_conduit; tree_out_ports err.

Definition dsa_tree_setup : M Z :=
  w ← get_st;
  if dst_setup (w_tree w) then mret (- EEXIST)
  else
    complete ← dsa_tree_setup_routing_table;
    if negb complete then mret 0
    else
      err ← dsa_tree_setup_cpu_ports;
      if negb (err =? 0) then mret err
      else
        err ← dsa_tree_setup_default_cpu;
        if negb (err =? 0) then mret err
        else
          err ← dsa_tree_setup_switches;
          if negb (err =? 0) then tree_out_cpu_ports err
          else
            err ← dsa_tree_setup_ports;
            if negb (err =? 0) then tree_out_switches err
            else
              err ← dsa_tree_setup_conduit;
              if negb (err =? 0) then tree_out_ports err
              else
                err ← dsa_tree_setup_lags;
                if negb (err =? 0) then tree_out_conduit err
                else _ ← modify (upd_tree (set_dst_setup true)); mret 0.

Definition dsa_tree_teardown : M unit :=
  w ← get_st;
  if negb (dst_setup (w_tree w)) then mret tt
  else
    _ ← dsa_tree_teardown_lags;
    _ ← dsa_tree_teardown_conduit;
    _ ← dsa_tree_teardown_ports;
    _ ← dsa_tree_teardown_switches;
    _ ← dsa_tree_teardown_cpu_ports;
    _ ← modify (fun w => set_rtable w []);
    modify (upd_tree (set_dst_setup false)).

End Tree.
