(* ===== verification/DsaRoutes.v ===== *)
(** * Routes and CPU ports of a tree

    What [DsaTree] finds out before anything is set up: the routing table, which
    holds each link of the device tree once, and the CPU port of each port. *)

From Stdlib Require Import ZArith Lia Bool.
From S2P Require Import Prelude.
From S2P Require Import Kernel.
From S2P Require Import DsaTypes.
From S2P Require Import DsaSwitch.
From S2P Require Import DsaEvent.
From S2P Require Import DsaSafe.
From S2P Require Import DsaPort.
From S2P Require Import DsaLife.
From S2P Require Import DsaTree.

Section Routes.
Context {H : Type} `{RefcountApi, NotifierApi, NetQueries, !NetEffects H, !LifeApi H, PlatformApi}.
Implicit Types (w : world H) (dp : dsa_port).

Lemma port_in w p : p ∈ dp_id <$> w_ports w <-> has_port w p.
Proof using.
  split.
  - intros (dp & -> & Hin)%list_elem_of_fmap. unfold has_port, get_port, find_port.
    destruct (List.find _ (w_ports w)) as [dq |] eqn:E; [by exists dq |].
    apply list_elem_of_In, (List.find_none _ _ E), bool_decide_eq_false in Hin. done.
  - intros [dp Hp]. apply get_port_in in Hp as [Hin <-]. by apply list_elem_of_fmap_2.
Qed.

(** ** The routing table *)

(** What the device tree links a port to, [None] for a node that is no port's. *)
Definition links_of w dp : list (option (pid * pid)) :=
  match dp_dn dp with
  | Some dn => (fun node => pair (dp_id dp) <$> dsa_tree_find_port_by_node w node) <$> of_links dn
  | None => []
  end.
Definition tree_links w : list (option (pid * pid)) :=
  List.filter dsa_port_is_dsa (w_ports w) ≫= links_of w.

Definition add_link (t : list (pid * pid)) (dl : pid * pid) : list (pid * pid) :=
  if decide (dl ∈ t) then t else t ++ [dl].

(** The table with these links added, up to the first that leads nowhere. *)
Fixpoint add_links (t : list (pid * pid)) (l : list (option (pid * pid))) : list (pid * pid) :=
  match l with Some dl :: l => add_links (add_link t dl) l | _ => t end.

Lemma add_links_app t l l' : Forall is_Some l -> add_links t (l ++ l') = add_links (add_links t l) l'.
Proof using. intros Hl. revert t. induction Hl as [| o l [dl ->] Hl IH]; intros t; [done |]. apply IH. Qed.

Lemma add_links_stuck t l l' : ~ Forall is_Some l -> add_links t (l ++ l') = add_links t l.
Proof using.
  revert t. induction l as [| [dl |] l IH]; intros t Hl; [by destruct Hl | | done]. cbn. apply IH.
  intros G. apply Hl. by constructor.
Qed.

(** Over a list of nodes, with allocation: complete or not, the table grows by
    the links found, and by all of them when memory does not run out. *)
Definition routed w (l : list (option (pid * pid))) (ok : bool) w' : Prop :=
  (ok = true -> Forall is_Some l) /\
  exists al t, w' = set_alloc (set_rtable w t) al /\ (ok = true -> t = add_links (w_rtable w) l) /\
    (w_alloc w = [] -> al = [] /\ t = add_links (w_rtable w) l /\ (Forall is_Some l -> ok = true)).

Lemma touch_ok w p link : total (dsa_link_touch p link) w (fun ok w' =>
  exists al t, w' = set_alloc (set_rtable w t) al /\ (ok = true -> t = add_link (w_rtable w) (p, link)) /\
    (w_alloc w = [] -> al = [] /\ ok = true)).
Proof using.
  unfold dsa_link_touch. apply total_bind, total_get.
  assert (E : existsb (fun dl => bool_decide (dl = (p, link))) (w_rtable w) = bool_decide ((p, link) ∈ w_rtable w)).
  { apply Bool.eq_iff_eq_true. rewrite existsb_exists, bool_decide_eq_true. split.
    - intros (dl & Hin & ->%bool_decide_eq_true). by apply list_elem_of_In.
    - intros Hin. exists (p, link). split; [by apply list_elem_of_In | by apply bool_decide_eq_true]. }
  rewrite E. unfold add_link. case_bool_decide as Hin.
  - apply total_ret. exists (w_alloc w), (w_rtable w). split_and!; [by destruct w | | done].
    intros _. by rewrite decide_True.
  - apply total_bind. unfold total, kzalloc. destruct (w_alloc w) as [| [] al] eqn:Ea; cbn.
    + exists [], (w_rtable w ++ [(p, link)]). split_and!; [by destruct w; cbn in *; subst | | done].
      intros _. by rewrite decide_False.
    + exists al, (w_rtable w ++ [(p, link)]). split_and!; [by destruct w | | done]. intros _. by rewrite decide_False.
    + exists al, (w_rtable w). split_and!; [by destruct w | done | done].
Qed.

Lemma link_loop_ok p nodes w :
  total (link_loop p nodes) w (routed w ((fun node => pair p <$> dsa_tree_find_port_by_node w node) <$> nodes)).
Proof using.
  revert w. induction nodes as [| node nodes IH]; intros w; cbn [link_loop].
  { apply total_ret. split; [done |]. exists (w_alloc w), (w_rtable w). by split_and!; [destruct w | |]. }
  apply total_bind, total_get. rewrite fmap_cons. destruct (dsa_tree_find_port_by_node w node) as [link |] eqn:E.
  2: { apply total_ret. split; [done |]. exists (w_alloc w), (w_rtable w).
       split_and!; [by destruct w | done |]. intros ->. split_and!; [done | done |]. by intros [[? ?] _]%Forall_cons. }
  mstep (apply touch_ok). cbv beta. intros ok w1 (al & t & -> & Ht & Hal).
  destruct ok; cbn [negb].
  2: { apply total_ret. split; [done |]. exists al, t. split_and!; [done | done |].
       intros Ea. by destruct (Hal Ea). }
  eapply total_weaken; [| apply IH]. intros ok w2 [Hok (al2 & t2 & -> & Ht2 & Hal2)]. cbn in Hok, Ht2, Hal2 |- *.
  split; [intros Eok; constructor; [by eexists | by apply Hok] |].
  exists al2, t2. split_and!; [done | |].
  - intros Eok. by rewrite (Ht2 Eok), (Ht eq_refl).
  - intros Ea. destruct (Hal Ea) as [-> _]. destruct (Hal2 eq_refl) as (-> & -> & Hf).
    split_and!; [done | by rewrite (Ht eq_refl) |]. intros [_ Hl]%Forall_cons. by apply Hf.
Qed.

Lemma routed_more w l1 l2 w1 ok w2 : routed w l1 true w1 -> routed w1 l2 ok w2 -> routed w (l1 ++ l2) ok w2.
Proof using.
  intros [Hl1 (al & t & -> & Ht & Hal)] [Hl2 (al2 & t2 & -> & Ht2 & Hal2)]. cbn in Hl2, Ht2, Hal2 |- *.
  pose proof (Hl1 eq_refl) as Hf. split; [intros Eok; apply Forall_app; by split; [| apply Hl2] |].
  exists al2, t2. split_and!; [done | |].
  - intros Eok. by rewrite (Ht2 Eok), (Ht eq_refl), add_links_app.
  - intros Ea. destruct (Hal Ea) as (-> & -> & _). destruct (Hal2 eq_refl) as (-> & -> & Hok).
    split_and!; [done | by rewrite add_links_app |]. intros [_ Hf2]%Forall_app. by apply Hok.
Qed.

Lemma routed_stop w l1 l2 w1 : routed w l1 false w1 -> routed w (l1 ++ l2) false w1.
Proof using.
  intros [_ (al & t & -> & Ht & Hal)]. split; [done |]. exists al, t. split_and!; [done | done |].
  intros Ea. destruct (Hal Ea) as (-> & -> & Hok).
  assert (Hn : ~ Forall is_Some l1) by (intros Hf; by specialize (Hok Hf)).
  split_and!; [done | by rewrite add_links_stuck |]. by intros [Hf _]%Forall_app.
Qed.

Lemma routed_nil w : routed w [] true w.
Proof using.
  split; [done |]. exists (w_alloc w), (w_rtable w). split_and!; [by destruct w | done |]. by intros ->.
Qed.

Lemma routing_loop_ok w ps : NoDup (dp_id <$> w_ports w) -> (forall dp, dp ∈ ps -> dp ∈ w_ports w) ->
  total (routing_loop (dp_id <$> ps)) w (routed w (List.filter dsa_port_is_dsa ps ≫= links_of w)).
Proof using.
  intros Hnd. revert w Hnd. induction ps as [| dp ps IH]; intros w Hnd Hps; rewrite ?fmap_cons; cbn [routing_loop List.filter].
  { apply total_ret, routed_nil. }
  assert (Hp : get_port w (dp_id dp) = Some dp) by (apply get_port_of; [done | apply Hps; by left]).
  assert (Hps' : forall dq, dq ∈ ps -> dq ∈ w_ports w) by (intros dq Hq; apply Hps; by right).
  unfold port_of. apply total_bind, total_bind, total_get. eapply total_deref; [exact Hp |].
  destruct (dsa_port_is_dsa dp); [| by apply IH]. rewrite bind_cons.
  unfold dsa_port_setup_routing_table, port_of. apply total_bind, total_bind, total_bind, total_get.
  eapply total_deref; [exact Hp |].
  assert (El : links_of w dp = (fun node => pair (dp_id dp) <$> dsa_tree_find_port_by_node w node) <$>
            match dp_dn dp with Some dn => of_links dn | None => [] end) by (unfold links_of; by destruct (dp_dn dp)).
  rewrite El. eapply total_weaken; [| apply link_loop_ok]. intros [] w1 Hw1; cbn [negb].
  2: by apply total_ret, routed_stop.
  pose proof Hw1 as [_ (al & t & E1 & _)].
  eapply total_weaken; [| apply (IH w1); rewrite E1; done].
  intros ok w2 Hw2. eapply routed_more; [exact Hw1 |].
  assert (E : forall l, l ≫= links_of w1 = l ≫= links_of w).
  { intros l. rewrite E1. by induction l. }
  by rewrite <- E.
Qed.

Lemma routing_run w : NoDup (dp_id <$> w_ports w) -> total dsa_tree_setup_routing_table w (routed w (tree_links w)).
Proof using.
  intros Hnd. unfold dsa_tree_setup_routing_table, ports_now. apply total_bind, total_bind, total_get, total_ret.
  by apply routing_loop_ok.
Qed.

(** Without nodes there is nothing to link. *)
Lemma routing_without_nodes w : NoDup (dp_id <$> w_ports w) -> (forall dp, dp ∈ w_ports w -> dp_dn dp = None) ->
  dsa_tree_setup_routing_table w = Some (true, w).
Proof using.
  intros Hnd Hdn. unfold dsa_tree_setup_routing_table, ports_now. rewrite bind_eq. cbn.
  assert (G : forall l, (forall dp, dp ∈ l -> dp ∈ w_ports w) -> routing_loop (dp_id <$> l) w = Some (true, w)).
  { induction l as [| dp l IH]; intros Hl; [done |]. cbn [routing_loop fmap list_fmap].
    pose proof (get_port_of w dp Hnd (Hl dp ltac:(by left))) as Hp.
    assert (Eo : port_of (dp_id dp) w = Some (dp, w)) by (unfold port_of; rewrite bind_eq; cbn; unfold deref; by rewrite Hp).
    rewrite bind_eq, Eo. destruct (dsa_port_is_dsa dp); [| apply IH; intros dq Hq; apply Hl; by right].
    rewrite bind_eq. unfold dsa_port_setup_routing_table. rewrite bind_eq, Eo, Hdn by (apply Hl; by left). cbn.
    apply IH. intros dq Hq. apply Hl. by right. }
  by apply G.
Qed.

Lemma add_link_spec t dl x : x ∈ add_link t dl <-> x ∈ t \/ x = dl.
Proof using.
  unfold add_link. case_decide.
  - split; [by left |]. by intros [? | ->].
  - by rewrite elem_of_app, list_elem_of_singleton.
Qed.

Lemma add_links_spec l t : Forall is_Some l -> NoDup t ->
  NoDup (add_links t l) /\ forall x, x ∈ add_links t l <-> x ∈ t \/ Some x ∈ l.
Proof using.
  intros Hl. revert t. induction Hl as [| o l [dl ->] Hl IH]; intros t Hnd; cbn.
  { split; [done |]. intros x. split; [by left |]. by intros [? | ?%not_elem_of_nil]. }
  destruct (IH (add_link t dl)) as [Hnd' Hin].
  { unfold add_link. case_decide as E; [done |]. apply NoDup_app. split_and!; [done | | apply NoDup_singleton].
    intros x Hx ->%list_elem_of_singleton. done. }
  split; [done |]. intros x. rewrite Hin, add_link_spec. rewrite elem_of_cons.
  split; intros [G | G]; try tauto.
  - destruct G as [G | ->]; [by left | right; by left].
  - destruct G as [[= ->] | G]; tauto.
Qed.

(** Port [p] is linked to port [q]. *)
Definition linked w (p q : pid) : Prop := exists dp dn node, dp ∈ w_ports w /\ dsa_port_is_dsa dp = true /\
  dp_id dp = p /\ dp_dn dp = Some dn /\ node ∈ of_links dn /\ dsa_tree_find_port_by_node w node = Some q.

Lemma tree_links_in w o : o ∈ tree_links w <-> exists dp dn node, dp ∈ w_ports w /\ dsa_port_is_dsa dp = true /\
  dp_dn dp = Some dn /\ node ∈ of_links dn /\ o = pair (dp_id dp) <$> dsa_tree_find_port_by_node w node.
Proof using.
  unfold tree_links. rewrite list_elem_of_bind. split.
  - intros (dp & Ho & Hin). apply list_elem_of_In, List.filter_In in Hin as [Hin%list_elem_of_In Hd].
    unfold links_of in Ho. destruct (dp_dn dp) as [dn |] eqn:E; [| by apply not_elem_of_nil in Ho].
    apply list_elem_of_fmap in Ho as (node & -> & Hn). by exists dp, dn, node.
  - intros (dp & dn & node & Hin & Hd & E & Hn & ->). exists dp. split.
    + unfold links_of. rewrite E. apply list_elem_of_fmap. by exists node.
    + apply list_elem_of_In, List.filter_In. split; [by apply list_elem_of_In | done].
Qed.

Lemma tree_links_some w p q : Some (p, q) ∈ tree_links w <-> linked w p q.
Proof using.
  rewrite tree_links_in. unfold linked. split.
  - intros (dp & dn & node & Hin & Hd & E & Hn & Ho). destruct (dsa_tree_find_port_by_node w node) as [q' |] eqn:Ef; [| done].
    injection Ho as -> ->. by exists dp, dn, node.
  - intros (dp & dn & node & Hin & Hd & <- & E & Hn & Ef). exists dp, dn, node. by rewrite Ef.
Qed.

(** C21. Setting up the routing table of a tree adds each link of the device tree
    once.  It is complete only if every link of a switch-to-switch port leads to
    a port of the tree, and then exactly those links are in the table, and what
    was there before; and when memory does not run out, it is complete whenever
    they all do.  Nothing else of the tree changes. *)
Theorem routing_table w : NoDup (dp_id <$> w_ports w) -> NoDup (w_rtable w) ->
  let reachable := forall dp dn node, dp ∈ w_ports w -> dsa_port_is_dsa dp = true -> dp_dn dp = Some dn ->
    node ∈ of_links dn -> is_Some (dsa_tree_find_port_by_node w node) in
  total dsa_tree_setup_routing_table w (fun complete w' =>
    (exists al, w' = set_alloc (set_rtable w (w_rtable w')) al) /\
    (complete = true -> reachable) /\
    (w_alloc w = [] -> reachable -> complete = true) /\
    (complete = true -> NoDup (w_rtable w') /\
       forall p q, (p, q) ∈ w_rtable w' <-> (p, q) ∈ w_rtable w \/ linked w p q)).
Proof.
  intros Hnd Hrt reachable. eapply total_weaken; [| by apply routing_run]. cbv beta.
  assert (Hr : Forall is_Some (tree_links w) <-> reachable).
  { rewrite Forall_forall. split.
    - intros G dp dn node Hin Hd E Hn. apply (fmap_is_Some (pair (dp_id dp))), G, tree_links_in. by exists dp, dn, node.
    - intros G o (dp & dn & node & Hin & Hd & E & Hn & ->)%tree_links_in. apply fmap_is_Some. by eapply G. }
  intros ok w' [Hok (al & t & -> & Ht & Hal)]. cbn. split_and!.
  - by exists al.
  - intros E. by apply Hr, Hok.
  - intros Ea G%Hr. by apply Hal.
  - intros E. rewrite (Ht E). destruct (add_links_spec (tree_links w) (w_rtable w) (Hok E) Hrt) as [G1 G2].
    split; [done |]. intros p q. by rewrite G2, tree_links_some.
Qed.

(** ** The CPU port of each port *)

(** The CPU port a driver prefers for its switch, when it names one of them. *)
Definition preferred w (ds : Z) : option pid :=
  d ← w_switches w !! ds;
  f ← op_preferred_default_local_cpu_port (op_switch (ds_ops d));
  q ← f ds (w_hw w);
  dp ← get_port w q;
  if dsa_port_is_cpu dp && (dp_ds dp =? ds) then Some q else None.

(** The driver of a switch with ports names ports that exist. *)
Definition has_ports w (ds : Z) : Prop := exists dp, dp ∈ w_ports w /\ dp_ds dp = ds.
Definition preferred_exists w : Prop := forall ds d f q, has_ports w ds -> w_switches w !! ds = Some d ->
  op_preferred_default_local_cpu_port (op_switch (ds_ops d)) = Some f -> f ds (w_hw w) = Some q -> has_port w q.

(** The first CPU port of the switch of [dp] in [l], or the one preferred. *)
Definition local_cpu w (l : list dsa_port) dp : option pid :=
  dp_id <$> List.find (fun cpu => dsa_port_is_cpu cpu && (dp_ds cpu =? dp_ds dp) &&
    bool_decide (preferred w (dp_ds cpu) = None \/ preferred w (dp_ds cpu) = Some (dp_id cpu))) l.

Definition unassigned dp : bool := bool_decide (dp_cpu_dp dp = None) && takes_cpu_dp dp.
Definition give_local w (l : list dsa_port) dp : dsa_port :=
  match (if unassigned dp then local_cpu w l dp else None) with Some cpu => set_cpu_dp (Some cpu) dp | None => dp end.
(** What each port gets. *)
Definition assign w dp : dsa_port :=
  if unassigned dp then
    set_cpu_dp (match local_cpu w (w_ports w) dp with Some cpu => Some cpu | None => dsa_tree_find_first_cpu w end) dp
  else dp.

(** A map over the ports that leaves what the loop looks at. *)
Definition relabels (g : dsa_port -> dsa_port) : Prop :=
  forall dp, dp_id (g dp) = dp_id dp /\ dp_ds (g dp) = dp_ds dp /\ dp_type (g dp) = dp_type dp.

Lemma ports_find_fmap (g : dsa_port -> dsa_port) (t : dsa_port -> bool) l : (forall dp, t (g dp) = t dp) ->
  List.find t (g <$> l) = g <$> List.find t l.
Proof using.
  intros Ht. induction l as [| dp l IH]; [done |]. rewrite fmap_cons. cbn [List.find]. rewrite Ht.
  by destruct (t dp).
Qed.

Lemma ports_find_app (t : dsa_port -> bool) l l' : List.find t (l ++ l') =
  match List.find t l with Some dp => Some dp | None => List.find t l' end.
Proof using. induction l as [| dp l IH]; [done |]. cbn. by destruct (t dp). Qed.

Lemma get_port_map w g p : relabels g -> get_port (set_ports w (g <$> w_ports w)) p = g <$> get_port w p.
Proof using.
  intros Hg. unfold get_port, find_port. cbn [w_ports set_ports]. apply ports_find_fmap. intros dp. by destruct (Hg dp) as (-> & _).
Qed.

Lemma preferred_map w g ds : relabels g -> preferred (set_ports w (g <$> w_ports w)) ds = preferred w ds.
Proof using.
  intros Hg. unfold preferred. cbn [w_switches set_ports w_hw]. destruct (w_switches w !! ds) as [d |]; [| done].
  cbn [mbind option_bind]. destruct (op_preferred_default_local_cpu_port _) as [f |]; [| done]. cbn [mbind option_bind].
  destruct (f ds (w_hw w)) as [q |]; [| done]. cbn [mbind option_bind]. rewrite get_port_map by done.
  destruct (get_port w q) as [dp |]; [| done]. cbn [mbind option_bind fmap option_fmap option_map]. destruct (Hg dp) as (_ & E1 & E2).
  unfold dsa_port_is_cpu. by rewrite E1, E2.
Qed.

Lemma preferred_ok w ds : known w ds -> has_ports w ds -> preferred_exists w ->
  total (dsa_switch_preferred_default_local_cpu_port ds) w (fun q w' => w' = w /\ q = preferred w ds).
Proof using.
  intros [d Hd] Hps He. unfold dsa_switch_preferred_default_local_cpu_port, get_ds, preferred.
  apply total_bind, total_bind, total_get. eapply total_deref; [exact Hd |]. rewrite Hd. cbn [mbind option_bind].
  destruct (op_preferred_default_local_cpu_port _) as [f |] eqn:Ef; [| by apply total_ret].
  cbn [mbind option_bind]. apply total_bind, total_get. destruct (f ds (w_hw w)) as [q |] eqn:Eq; [| by apply total_ret].
  destruct (He _ _ _ _ Hps Hd Ef Eq) as [dp Hdp]. unfold port_of. apply total_bind, total_bind, total_get.
  eapply total_deref; [exact Hdp |]. cbn [mbind option_bind]. rewrite Hdp. cbn [mbind option_bind].
  destruct (dsa_port_is_cpu dp), (dp_ds dp =? ds); by apply total_ret.
Qed.

Lemma give_local_relabels w l : relabels (give_local w l).
Proof using. intros dp. unfold give_local. by repeat case_match. Qed.

Lemma cpu_loop_ok w (Hnd : NoDup (dp_id <$> w_ports w)) (Hsw : forall dp, dp ∈ w_ports w -> known w (dp_ds dp))
    (He : preferred_exists w) rest : forall done_,
  w_ports w = done_ ++ rest ->
  total (cpu_ports_loop (dp_id <$> rest)) (set_ports w (give_local w done_ <$> w_ports w))
    (fun _ w' => w' = set_ports w (give_local w (w_ports w) <$> w_ports w)).
Proof using.
  induction rest as [| cpu rest IH]; intros done_ El; rewrite ?fmap_cons; cbn [cpu_ports_loop].
  { rewrite app_nil_r in El. apply total_ret. by rewrite El. }
  set (w1 := set_ports w (give_local w done_ <$> w_ports w)).
  assert (Hin : cpu ∈ w_ports w) by (rewrite El; apply elem_of_app; right; by left).
  pose proof (give_local_relabels w done_) as Hg.
  assert (Hp : get_port w1 (dp_id cpu) = Some (give_local w done_ cpu)).
  { unfold w1. rewrite get_port_map by done. by rewrite (get_port_of w cpu Hnd Hin). }
  unfold port_of. apply total_bind, total_bind, total_get. eapply total_deref; [exact Hp |].
  destruct (Hg cpu) as (Eid & Eds & Ety).
  assert (Ecpu : dsa_port_is_cpu (give_local w done_ cpu) = dsa_port_is_cpu cpu) by (unfold dsa_port_is_cpu; by rewrite Ety).
  rewrite Ecpu, Eds.
  assert (El' : w_ports w = (done_ ++ [cpu]) ++ rest) by (by rewrite <- app_assoc).
  set (acc := dsa_port_is_cpu cpu && bool_decide (preferred w (dp_ds cpu) = None \/ preferred w (dp_ds cpu) = Some (dp_id cpu))).
  (* what taking this port into account adds *)
  assert (Hnext : (if acc then give_cpu_dp (fun dq => dp_ds dq =? dp_ds cpu) (dp_id cpu) w1 else w1) =
    set_ports w (give_local w (done_ ++ [cpu]) <$> w_ports w)).
  { assert (E : forall dq, give_local w (done_ ++ [cpu]) dq =
      if acc && (dp_ds (give_local w done_ dq) =? dp_ds cpu) && bool_decide (dp_cpu_dp (give_local w done_ dq) = None) &&
         takes_cpu_dp (give_local w done_ dq)
      then set_cpu_dp (Some (dp_id cpu)) (give_local w done_ dq) else give_local w done_ dq).
    { intros dq. unfold give_local, local_cpu. rewrite ports_find_app. destruct (unassigned dq) eqn:Eu.
      2: { unfold unassigned in Eu. destruct acc; [| done]. cbn [andb]. destruct (_ =? _); [| done]. cbn [andb]. by rewrite Eu. }
      destruct (List.find _ done_) as [c |]; cbn [fmap option_fmap option_map].
      { cbn [dp_cpu_dp set_cpu_dp]. rewrite (bool_decide_false (Some _ = None)) by done. by rewrite andb_false_r. }
      cbn [List.find]. unfold unassigned in Eu. rewrite (Z.eqb_sym (dp_ds dq)). unfold acc.
      rewrite <- !andb_assoc, Eu, andb_true_r.
      destruct (dsa_port_is_cpu cpu), (dp_ds cpu =? dp_ds dq), (bool_decide (preferred w (dp_ds cpu) = None \/ _)); done. }
    unfold w1, give_cpu_dp. destruct acc; [| f_equal; apply list_fmap_ext; intros i dq _; by rewrite E].
    unfold set_ports. cbn. f_equal. rewrite <- list_fmap_compose. apply list_fmap_ext. intros i dq _.
    rewrite E. cbn. done. }
  unfold acc in Hnext. destruct (dsa_port_is_cpu cpu); cbn [negb andb] in Hnext |- *.
  2: { rewrite Hnext. by apply IH. }
  mstep (apply preferred_ok).
  - cbv beta. intros q w' [-> ->]. rewrite (preferred_map w _ _ Hg). case_bool_decide.
    + apply total_bind, total_modify. rewrite Hnext. by apply IH.
    + rewrite Hnext. by apply IH.
  - by apply Hsw.
  - exists (give_local w done_ cpu). split; [| done]. by apply list_elem_of_fmap_2.
  - intros ds d f q (dq & Hdq & Eds') Hd Ef Eq. apply list_elem_of_fmap in Hdq as (dr & -> & Hdr).
    destruct (Hg dr) as (_ & Eds'' & _). destruct (He ds d f q) as [dp Hdp]; [exists dr; split; [done | congruence] | done | done | done |]. exists (give_local w done_ dp).
    unfold w1. rewrite get_port_map by done. by rewrite Hdp.
Qed.

Lemma first_cpu_map w g : relabels g -> dsa_tree_find_first_cpu (set_ports w (g <$> w_ports w)) = dsa_tree_find_first_cpu w.
Proof using.
  intros Hg. unfold dsa_tree_find_first_cpu. cbn [w_ports set_ports]. rewrite ports_find_fmap.
  - destruct (List.find _ (w_ports w)) as [dp |]; [| done]. cbn. by destruct (Hg dp) as (-> & _).
  - intros dp. unfold dsa_port_is_cpu. by destruct (Hg dp) as (_ & _ & ->).
Qed.

Lemma local_first w l dp : dsa_tree_find_first_cpu w = None -> (forall dq, dq ∈ l -> dq ∈ w_ports w) -> local_cpu w l dp = None.
Proof using.
  unfold dsa_tree_find_first_cpu, local_cpu. intros E Hl. destruct (List.find dsa_port_is_cpu _) eqn:Ef; [done |].
  destruct (List.find _ l) as [dq |] eqn:Eq; [| done]. apply List.find_some in Eq as [Hin Hq].
  apply andb_true_iff in Hq as [[Hq _]%andb_true_iff _]. apply list_elem_of_In, Hl, list_elem_of_In in Hin.
  by rewrite (List.find_none _ _ Ef _ Hin) in Hq.
Qed.

Lemma cpu_ports_run w : NoDup (dp_id <$> w_ports w) -> (forall dp, dp ∈ w_ports w -> known w (dp_ds dp)) -> preferred_exists w ->
  total dsa_tree_setup_cpu_ports w (fun err w' =>
    w' = set_ports w (assign w <$> w_ports w) /\
    err = match dsa_tree_find_first_cpu w with Some _ => 0 | None => - EINVAL end).
Proof using.
  intros Hnd Hsw He. unfold dsa_tree_setup_cpu_ports, ports_now. apply total_bind, total_bind, total_get, total_ret.
  apply total_bind.
  assert (E0 : set_ports w (give_local w [] <$> w_ports w) = w).
  { assert (E : give_local w [] <$> w_ports w = id <$> w_ports w).
    { apply list_fmap_ext. intros i dp _. unfold give_local. by destruct (unassigned dp). }
    rewrite E, list_fmap_id. by destruct w. }
  rewrite <- E0 at 2. eapply total_weaken; [| by apply (cpu_loop_ok w Hnd Hsw He (w_ports w) [])]. cbv beta. intros _ w' ->.
  unfold dsa_tree_setup_default_cpu. apply total_bind, total_get.
  rewrite first_cpu_map by apply give_local_relabels. destruct (dsa_tree_find_first_cpu w) as [c |] eqn:Ec.
  - apply total_bind, total_modify, total_ret. split; [| done]. unfold give_cpu_dp, set_ports. cbn. f_equal.
    rewrite <- list_fmap_compose. apply list_fmap_ext. intros i dp _. cbn. unfold assign, give_local. rewrite Ec.
    destruct (unassigned dp) eqn:Eu.
    + destruct (local_cpu w (w_ports w) dp).
      * cbn [dp_cpu_dp set_cpu_dp]. by rewrite bool_decide_false.
      * unfold unassigned in Eu. by rewrite Eu.
    + unfold unassigned in Eu. by rewrite Eu.
  - apply total_ret. split; [| done]. f_equal. apply list_fmap_ext. intros i dp _. unfold assign, give_local. rewrite Ec.
    destruct (unassigned dp) eqn:Eu; [| done]. rewrite local_first by done.
    unfold unassigned in Eu. apply andb_true_iff in Eu as [Eu%bool_decide_eq_true _]. destruct dp. cbn in *. by rewrite Eu.
Qed.

Lemma find_ext_in {A} (t u : A -> bool) l : (forall a, a ∈ l -> t a = u a) -> List.find t l = List.find u l.
Proof using.
  induction l as [| a l IH]; intros E; [done |]. cbn. rewrite (E a) by left.
  destruct (u a); [done |]. apply IH. intros x Hx. apply E. by right.
Qed.

Lemma local_preferred w dp q : preferred w (dp_ds dp) = Some q -> local_cpu w (w_ports w) dp = Some q.
Proof using.
  intros Eq. assert (Hq : exists dq, get_port w q = Some dq /\ dsa_port_is_cpu dq = true /\ dp_ds dq = dp_ds dp).
  { unfold preferred in Eq. apply bind_Some in Eq as (d & _ & Eq). apply bind_Some in Eq as (f & _ & Eq).
    apply bind_Some in Eq as (q' & _ & Eq). apply bind_Some in Eq as (dq & Hdq & Eq).
    destruct (dsa_port_is_cpu dq) eqn:Ec, (Z.eqb_spec (dp_ds dq) (dp_ds dp)); try done. injection Eq as ->. by exists dq. }
  destruct Hq as (dq & Hdq & Ec & Ed). unfold local_cpu. destruct (List.find _ _) as [c |] eqn:Ef.
  - apply List.find_some in Ef as [_ Ef]. apply andb_true_iff in Ef as [[_ Ef]%andb_true_iff Hp].
    apply Z.eqb_eq in Ef. rewrite Ef, Eq in Hp. apply bool_decide_eq_true in Hp as [| [= ->]]; done.
  - apply get_port_in in Hdq as [Hin Hid]. apply list_elem_of_In, (List.find_none _ _ Ef) in Hin.
    by rewrite Ec, Ed, Z.eqb_refl, Eq, bool_decide_true in Hin by (right; by rewrite Hid).
Qed.

Lemma local_first_of_switch w dp : preferred w (dp_ds dp) = None ->
  local_cpu w (w_ports w) dp = dp_id <$> List.find (fun c => dsa_port_is_cpu c && (dp_ds c =? dp_ds dp)) (w_ports w).
Proof using.
  intros Ep. unfold local_cpu. f_equal. apply find_ext_in. intros c _. destruct (dsa_port_is_cpu c); [| done]. cbn [andb].
  destruct (Z.eqb_spec (dp_ds c) (dp_ds dp)) as [-> |]; [| done]. cbn [andb]. rewrite Ep. by rewrite bool_decide_true by (by left).
Qed.

(** C20. Assigning CPU ports fails exactly in a tree without one.  Otherwise every
    user or switch-to-switch port that has none gets the port that its switch's
    driver prefers, or else the first CPU port of its switch, or else the first
    of the tree; and nothing else changes. *)
Theorem cpu_ports_assigned w : NoDup (dp_id <$> w_ports w) -> (forall dp, dp ∈ w_ports w -> known w (dp_ds dp)) ->
  preferred_exists w ->
  total dsa_tree_setup_cpu_ports w (fun err w' =>
    err = (if existsb dsa_port_is_cpu (w_ports w) then 0 else - EINVAL) /\
    w' = set_ports w (w_ports w') /\ length (w_ports w') = length (w_ports w) /\
    forall i dp, w_ports w !! i = Some dp -> exists dp', w_ports w' !! i = Some dp' /\
      if bool_decide (dp_cpu_dp dp = None) && takes_cpu_dp dp then
        dp' = set_cpu_dp (dp_cpu_dp dp') dp /\
        dp_cpu_dp dp' =
          match preferred w (dp_ds dp) with
          | Some q => Some q
          | None =>
              match List.find (fun c => dsa_port_is_cpu c && (dp_ds c =? dp_ds dp)) (w_ports w) with
              | Some c => Some (dp_id c)
              | None => dp_id <$> List.find dsa_port_is_cpu (w_ports w)
              end
          end
      else dp' = dp).
Proof.
  intros Hnd Hsw He. eapply total_weaken; [| by apply cpu_ports_run]. cbv beta. intros err w' [-> ->]. split_and!.
  - unfold dsa_tree_find_first_cpu. clear. induction (w_ports w) as [| dp l IH]; [done |]. cbn [existsb List.find].
    by destruct (dsa_port_is_cpu dp).
  - done.
  - cbn. apply length_fmap.
  - intros i dp Hi. exists (assign w dp). cbn. rewrite list_lookup_fmap, Hi. split; [done |].
    unfold assign, unassigned. destruct (_ && takes_cpu_dp dp); [| done]. split; [done |]. cbn [dp_cpu_dp set_cpu_dp].
    destruct (preferred w (dp_ds dp)) as [q |] eqn:Ep.
    + by rewrite (local_preferred w dp q Ep).
    + rewrite (local_first_of_switch w dp Ep). by destruct (List.find _ (w_ports w)).
Qed.

End Routes.

(** ** Two switches and three CPU ports *)

Module RouteDemo.

(** Node 10 is linked to node 20 and back. *)
#[export] Instance platform_demo : PlatformApi := {| of_links dn := if dn =? 10 then [20] else if dn =? 20 then [10; 10] else [] |}.

Definition setup_ops (cpu : option pid) : dsa_setup_ops unit :=
  mkSetupOps (fun _ h => (0, h)) None (Some (fun _ _ => cpu)) (fun _ _ _ _ => 0) None None false None None None None.
Definition ops (cpu : option pid) : dsa_switch_ops unit :=
  mkOps None None None None None None None None None None None None None None None None None None None None
    None None None no_port_ops (setup_ops cpu).
Definition ds (i : Z) (cpu : option pid) : dsa_switch unit := mkDs i 6 false false 0 0 (ops cpu) None false false true false 0 0 false.
Definition port (s i : Z) (t : dsa_port_type) (dn : option Z) : dsa_port :=
  mkPort s i t None None 0 false false true true false 0 None None None [] [] [] false false dn false.

(** The driver of the first switch prefers its second CPU port. *)
Definition chain : world unit :=
  mkWorld (mkTree 0 2 LagsNull None 0 false 0 1)
    [port 1 0 DSA_PORT_TYPE_USER None; port 1 1 DSA_PORT_TYPE_DSA (Some 10); port 1 4 DSA_PORT_TYPE_CPU None;
     port 1 5 DSA_PORT_TYPE_CPU None; port 2 0 DSA_PORT_TYPE_USER None; port 2 1 DSA_PORT_TYPE_DSA (Some 20);
     port 2 3 DSA_PORT_TYPE_UNUSED None]
    [] {[ 1 := ds 0 (Some (1, 5)); 2 := ds 1 None ]} ∅ ∅ [] tt [] [].

Lemma chain_switches i d : w_switches chain !! i = Some d -> (i = 1 /\ d = ds 0 (Some (1, 5))) \/ (i = 2 /\ d = ds 1 None).
Proof.
  cbn. intros [[<- <-] | [Hne E]]%lookup_insert_Some; [by left |].
  apply lookup_singleton_Some in E as [<- <-]. by right.
Qed.

Lemma chain_names : NoDup (dp_id <$> w_ports chain).
Proof. apply (bool_decide_unpack _). reflexivity. Qed.

Lemma routing_table_witness : exists w', dsa_tree_setup_routing_table chain = Some (true, w') /\
  NoDup (w_rtable w') /\ ((1, 1), (2, 1)) ∈ w_rtable w'.
Proof.
  pose proof (routing_table chain chain_names (NoDup_nil_2)) as G. cbv zeta in G. unfold total in G.
  destruct (dsa_tree_setup_routing_table chain) as [[ok w'] |] eqn:E; [| done].
  assert (ok = true) as -> by (vm_compute in E; by injection E).
  destruct G as (_ & _ & _ & G). destruct (G eq_refl) as [G1 G2]. exists w'. split_and!; [done | done |].
  apply G2. right. exists (port 1 1 DSA_PORT_TYPE_DSA (Some 10)), 10, 20. split_and!; try done.
  - apply list_elem_of_In. right. by left.
  - apply list_elem_of_In. by left.
Defined.

Lemma cpu_ports_witness : exists w', dsa_tree_setup_cpu_ports chain = Some (0, w') /\
  (dp_cpu_dp <$> w_ports w') = [Some (1, 5); Some (1, 5); None; None; Some (1, 4); Some (1, 4); None].
Proof.
  assert (Hk : forall dp, dp ∈ w_ports chain -> known chain (dp_ds dp)).
  { cbn. intros dp. rewrite !elem_of_cons, elem_of_nil. intros [-> | [-> | [-> | [-> | [-> | [-> | [-> | []]]]]]]]; by eexists. }
  assert (Hp : preferred_exists chain).
  { intros i d f q _ Hd Hf Hq. destruct (chain_switches _ _ Hd) as [[-> ->] | [-> ->]]; injection Hf as <-; [| done].
    injection Hq as <-. by eexists. }
  pose proof (cpu_ports_assigned chain chain_names Hk Hp) as G. unfold total in G.
  destruct (dsa_tree_setup_cpu_ports chain) as [[err w'] |] eqn:E; [| done].
  destruct G as (-> & _). exists w'. split; [done |]. vm_compute in E. by injection E as <-.
Defined.

End RouteDemo.

