(* ===== verification/DsaAccount.v ===== *)
(** * What set-up takes, teardown gives back

    The accounting of the resources of [DsaLife]: a routine is followed from a
    state [w0] that records the fields the life cycle sets, to the actual state,
    which differs in what the drivers and the lists hold. *)

From Stdlib Require Import ZArith Lia Bool.
From S2P Require Import Prelude.
From S2P Require Import Kernel.
From S2P Require Import DsaTypes.
From S2P Require Import DsaSwitch.
From S2P Require Import DsaEvent.
From S2P Require Import DsaSafe.
From S2P Require Import DsaPort.
From S2P Require Import DsaMember.
From S2P Require Import DsaLife.

Abbreviation T := (fun _ => True).

(** How often a resource is in a list. *)
Fixpoint occ (x : resource) (l : list resource) : Z :=
  match l with [] => 0 | r :: l => one r x + occ x l end.

Lemma one_range r x : 0 <= one r x <= 1.
Proof. unfold one. destruct (decide (r = x)); lia. Qed.
Lemma one_refl r : one r r = 1.
Proof. unfold one. by destruct (decide (r = r)). Qed.
Lemma occ_pos x l : 0 <= occ x l.
Proof. induction l as [| r l IH]; cbn; [lia |]. pose proof (one_range r x). lia. Qed.
Lemma occ_app x l1 l2 : occ x (l1 ++ l2) = occ x l1 + occ x l2.
Proof. induction l1 as [| r l1 IH]; cbn; lia. Qed.

(** What the accounting asks of the rest of the kernel and of a driver: its calls
    leave what is held as it is, but for setting up the switch or a port, which
    take something exactly if they can give it back. *)
Class QuietNet (H : Type) `{!NetEffects H, !LifeApi H} := {
  quiet_start p : quiet held (phylink_start (H := H) p);
  quiet_stop p : quiet held (phylink_stop (H := H) p);
  quiet_flush d v : quiet held (fdb_flush_to_bridge (H := H) d v);
}.

(** [f] takes [r] on success if there is a way back, nothing otherwise. *)
Definition takes_paired {H} `{!LifeApi H} (r : resource) (bad : Z -> bool) (f : H -> Z * H) (back : option (H -> H)) : Prop :=
  (forall h x, held (snd (f h)) x =
     held h x + (if bad (fst (f h)) then 0 else match back with Some _ => one r x | None => 0 end)) /\
  (forall g h x, back = Some g -> 1 <= held h r -> held (g h) x = held h x - one r x).

Record driver_fine {H} `{!LifeApi H} (ds : Z) (o : dsa_switch_ops H) : Prop := {
  df_mtu f p m : op_port_change_mtu o = Some f -> quiet held (fun h => snd (f ds p m h));
  df_conduit f c up : op_conduit_state_change o = Some f -> quiet held (f ds c up);
  df_stp f p s : op_port_stp_state_set (op_port o) = Some f -> quiet held (f ds p s);
  df_flags f p fl : op_port_pre_bridge_flags (op_port o) = Some f -> quiet held (fun h => snd (f ds p fl h));
  df_age f p : op_port_fast_age (op_port o) = Some f -> quiet held (f ds p);
  df_enable f p : op_port_enable (op_port o) = Some f -> quiet held (fun h => snd (f ds p h));
  df_disable f p : op_port_disable (op_port o) = Some f -> quiet held (f ds p);
  df_adjust f p : op_adjust_link (op_switch o) = Some f -> quiet held (f ds p);
  df_down f p : op_phylink_mac_link_down (op_switch o) = Some f -> quiet held (f ds p);
  df_change f t : op_change_tag_protocol (op_switch o) = Some f -> quiet held (fun h => snd (f ds t h));
  df_tag f t : op_connect_tag_protocol (op_switch o) = Some f -> quiet held (fun h => snd (f ds t h));
  df_setup : takes_paired (Driver ds) (fun err => err <? 0) (op_setup (op_switch o) ds)
               ((fun g => g ds) <$> op_teardown (op_switch o));
  df_port_setup f p : op_port_setup (op_switch o) = Some f ->
    takes_paired (PortDriver (ds, p)) (fun err => negb (err =? 0)) (f ds p)
      ((fun g => g ds p) <$> op_port_teardown (op_switch o));
  df_port_paired : op_port_setup (op_switch o) = None -> op_port_teardown (op_switch o) = None;
}.

(** A tagger whose calls on a switch leave what is held as it is. *)
Definition quiet_tagger {H} `{!LifeApi H} (o : dsa_device_ops H) : Prop :=
  (forall c ds, to_connect o = Some c -> quiet held (fun h => snd (c ds h))) /\
  (forall c ds, to_disconnect o = Some c -> quiet held (c ds)).

Section Calm.
Context {H : Type} `{RefcountApi, NotifierApi, NetQueries, !NetEffects H, !LifeApi H, !QuietNet H}.
Context (tagger_data : H -> Z -> bool).
Implicit Types (w : world H) (b : resource -> Z) (l : list resource).

(** A state whose ports are those of known switches with such drivers. *)
Record sane w : Prop := {
  sn_names : NoDup (dp_id <$> w_ports w);
  sn_switch dp : dp ∈ w_ports w -> known w (dp_ds dp);
  sn_nh ds : ds ∈ w_nh w -> known w ds;
  sn_driver ds d : w_switches w !! ds = Some d -> driver_fine ds (ds_ops d);
}.

(** [w] is at [w0], with the resources [l] held on top of [b]. *)
Record at_ b (w0 : world H) l w : Prop := {
  at_shape : same_shape w0 w;
  at_groups : groups w = groups w0;
  at_works : w_works w = w_works w0;
  at_held x : held (w_hw w) x = b x + occ x l;
}.

Section From.
Context (w0 : world H) (w0_sane : sane w0).

Definition calm {A} (m : st (world H) A) (R : A -> Prop) : Prop :=
  forall b l w, at_ b w0 l w -> total m w (fun a w' => at_ b w0 l w' /\ R a).

Lemma calm_ret {A} (a : A) (R : A -> Prop) : R a -> calm (mret a) R.
Proof using. intros HR b l w Hw. by apply total_ret. Qed.

Lemma calm_bind {A B} (m : st (world H) A) (k : A -> st (world H) B) (R : A -> Prop) (R' : B -> Prop) :
  calm m R -> (forall a, R a -> calm (k a) R') -> calm (m ≫= k) R'.
Proof using.
  intros Hm Hk b l w Hs. mstep (by apply Hm).
  intros a w' [Hs' Ha]. by apply Hk.
Qed.

Lemma calm_any {A} (m : st (world H) A) R : calm m R -> calm m T.
Proof using. intros Hm b l w Hw. eapply total_weaken; [| by apply Hm]. intros a w' []. done. Qed.

Lemma calm_queried {A} (f : world H -> option A) (R : A -> Prop) :
  (forall w, same_shape w0 w -> groups w = groups w0 -> exists a, f w = Some a /\ R a) -> calm (queried f) R.
Proof using.
  intros Hf b l w Hs. apply total_bind, total_get.
  destruct (Hf w (at_shape _ _ _ _ Hs) (at_groups _ _ _ _ Hs)) as (a & E & Ha). by eapply total_deref.
Qed.

Lemma calm_deref {A} (o : option A) a (R : A -> Prop) : o = Some a -> R a -> calm (deref o) R.
Proof using. intros -> Ha b l w Hs. by eapply total_deref. Qed.

Lemma calm_get {A} (k : world H -> st (world H) A) R :
  (forall w, same_shape w0 w -> groups w = groups w0 -> w_works w = w_works w0 -> calm (k w) R) ->
  calm (get_st ≫= k) R.
Proof using. intros Hk b l w Hs. apply total_bind, total_get. apply Hk; try done; apply Hs. Qed.

Lemma at_hw b l w h : at_ b w0 l w -> (forall x, held h x = held (w_hw w) x) -> at_ b w0 l (set_hw w h).
Proof using. intros [Hs Hg Hw Hh] E. split; [done | done | done |]. intros x. cbn. by rewrite E. Qed.

Lemma calm_effect (g : H -> H) : quiet held g -> calm (effect g) T.
Proof using. intros Hg b l w Hs. split; [| done]. by apply at_hw. Qed.

Lemma calm_call_is (g : H -> Z * H) (R : Z -> Prop) : quiet held (fun h => snd (g h)) -> (forall h, R (fst (g h))) ->
  calm (call_fun g) R.
Proof using.
  intros Hg HR b l w Hs. unfold total, call_fun. pose proof (Hg (w_hw w)) as E. pose proof (HR (w_hw w)) as Ha. cbv beta in E.
  destruct (g (w_hw w)) as [a h]. split; [| done]. apply at_hw; [done |]. exact E.
Qed.
Lemma calm_call (g : H -> Z * H) : quiet held (fun h => snd (g h)) -> calm (call_fun g) T.
Proof using. intros Hg. by apply calm_call_is. Qed.

Lemma calm_call_op (g : H -> Z * H) : quiet held (fun h => snd (g h)) -> calm (call_op (Some g)) T.
Proof using. exact (calm_call g). Qed.

Lemma calm_alloc : calm kzalloc T.
Proof using.
  intros b l w [Hs Hg Hw Hh]. unfold total, kzalloc. destruct (w_alloc w); by split.
Qed.

Lemma calm_upd p (g : dsa_port -> dsa_port) :
  (forall dp, strip_port (g dp) = strip_port dp /\ dp_bridge (g dp) = dp_bridge dp) ->
  calm (modify (upd_port p g)) T.
Proof using.
  intros Hg b l w [Hs Hgr Hw Hh]. apply total_modify. split; [| done]. split; try done.
  - etransitivity; [exact Hs |]. apply upd_shape. intros dp. apply Hg.
  - etransitivity; [| exact Hgr]. apply upd_groups; intros dp; destruct (Hg dp) as [E1 E2];
      [by apply strip_port_id | done].
Qed.

Lemma calm_for_err {A} (xs : list A) (body : A -> st (world H) Z) :
  (forall a, a ∈ xs -> calm (body a) T) -> calm (for_err xs body) T.
Proof using.
  induction xs as [| a xs IH]; intros Hb; [by apply calm_ret |]. cbn [for_err].
  eapply calm_bind; [apply Hb; by left |]. intros err _. destruct (err =? 0).
  - apply IH. intros x Hx. apply Hb. by right.
  - by apply calm_ret.
Qed.

Lemma calm_get_ds ds : known w0 ds -> calm (get_ds ds) (is_ds w0 ds).
Proof using.
  intros [d0 Hd0]. apply calm_queried. intros w Hs _.
  destruct (strip_some _ _ _ _ (get_ds_shape w0 w ds Hs) Hd0) as (d & Hd & E).
  exists d. split; [done |]. by exists d0.
Qed.

Lemma calm_port_of p : has_port w0 p -> calm (port_of p) (is_port w0 p).
Proof using.
  intros [d0 Hd0]. apply calm_queried. intros w Hs _.
  destruct (strip_some _ _ _ _ (get_port_shape w0 w p Hs) Hd0) as (d & Hd & E).
  exists d. split; [done |]. by exists d0.
Qed.

Lemma port_known p : has_port w0 p -> known w0 (fst p).
Proof using w0_sane.
  intros [dp Hp]. apply get_port_in in Hp as [Hin <-]. by apply (sn_switch _ w0_sane).
Qed.

Lemma ds_fine ds d : is_ds w0 ds d -> driver_fine ds (ds_ops d).
Proof using w0_sane.
  intros (d0 & Hd0 & E). apply strip_ds_fields in E as (_ & _ & <- & _). by apply (sn_driver _ w0_sane).
Qed.

Lemma calm_switch_of p : has_port w0 p -> calm (switch_of p) (is_ds w0 (fst p)).
Proof using w0_sane.
  intros Hp. eapply calm_bind; [by apply calm_port_of |]. intros dp Hdp.
  destruct (is_port_id _ _ _ Hdp) as [-> _]. apply calm_get_ds. by apply port_known.
Qed.

Lemma calm_port_ops p : has_port w0 p ->
  calm (port_ops p) (fun ops => exists d, is_ds w0 (fst p) d /\ ops = op_port (ds_ops d)).
Proof using w0_sane.
  intros Hp. eapply calm_bind; [by apply calm_port_of |]. intros dp Hdp.
  destruct (is_port_id _ _ _ Hdp) as [-> _].
  eapply calm_bind; [apply calm_get_ds; by apply port_known |]. intros d Hd. apply calm_ret. by exists d.
Qed.

Lemma calm_each_port ds (body : pid -> st (world H) Z) :
  (forall p, has_port w0 p -> fst p = ds -> calm (body p) T) -> calm (for_each_port ds body) T.
Proof using.
  intros Hb. apply calm_get. intros w Hs _ _. apply calm_for_err. intros p (dp & -> & Hdp)%list_elem_of_fmap.
  apply list_elem_of_In, List.filter_In in Hdp as [Hin Hds]. apply Z.eqb_eq in Hds. apply list_elem_of_In in Hin.
  apply Hb; [| done]. destruct (port_shape w w0 dp ltac:(by symmetry) Hin) as (dp0 & Hin0 & E).
  rewrite (strip_port_id _ _ E). unfold has_port, get_port, find_port.
  destruct (List.find _ (w_ports w0)) as [dq |] eqn:Ef; [by eexists |].
  apply list_elem_of_In in Hin0. apply (List.find_none _ _ Ef) in Hin0. by rewrite bool_decide_true in Hin0.
Qed.

(** ** State of a port, notifications, MTU *)

Lemma calm_fast_age p : has_port w0 p -> calm (dsa_port_fast_age p) T.
Proof using w0_sane QuietNet0.
  intros Hp. eapply calm_bind; [by apply calm_port_ops |]. intros ops (d & Hd & ->).
  destruct (op_port_fast_age _) as [g |] eqn:Eg; [| by apply calm_ret].
  eapply calm_bind; [apply calm_effect, (df_age _ _ (ds_fine _ _ Hd) _ _ Eg) |]. intros _ _.
  eapply calm_bind; [by apply calm_port_of |]. intros dp _.
  apply calm_get. intros w _ _ _. case_match; [apply calm_effect, quiet_flush | by apply calm_ret].
Qed.

Lemma calm_can_learn p : has_port w0 p -> calm (dsa_port_can_configure_learning p) T.
Proof using w0_sane.
  intros Hp. eapply calm_bind; [by apply calm_port_ops |]. intros ops (d & Hd & ->).
  case_match; [| by apply calm_ret]. destruct (op_port_pre_bridge_flags _) as [g |] eqn:Eg; [| by apply calm_ret].
  eapply calm_bind; [apply calm_call, (df_flags _ _ (ds_fine _ _ Hd) _ _ _ Eg) |]. intros err _. by apply calm_ret.
Qed.

Lemma calm_set_state p s fa : has_port w0 p -> calm (dsa_port_set_state p s fa) T.
Proof using w0_sane QuietNet0.
  intros Hp. eapply calm_bind; [by apply calm_port_ops |]. intros ops (d & Hd & ->).
  destruct (op_port_stp_state_set _) as [g |] eqn:Eg; [| by apply calm_ret].
  eapply calm_bind; [apply calm_effect, (df_stp _ _ (ds_fine _ _ Hd) _ _ _ Eg) |]. intros _ _.
  eapply calm_bind; [by apply calm_can_learn |]. intros can _.
  eapply calm_bind; [by apply calm_port_of |]. intros dp _.
  eapply calm_bind; [case_match; [by apply calm_fast_age | by apply calm_ret] |]. intros _ _.
  eapply calm_bind; [by apply calm_upd |]. intros _ _. by apply calm_ret.
Qed.

Lemma calm_set_state_now p s fa : has_port w0 p -> calm (dsa_port_set_state_now p s fa) T.
Proof using w0_sane QuietNet0.
  intros Hp. eapply calm_bind; [by apply calm_set_state |]. intros e _. by apply calm_ret.
Qed.

Lemma calm_enable p : has_port w0 p -> calm (dsa_port_enable p) T.
Proof using w0_sane QuietNet0.
  intros Hp. eapply calm_bind; [by apply calm_port_ops |]. intros ops (d & Hd & ->).
  eapply (calm_bind _ _ T).
  { destruct (op_port_enable _) as [g |] eqn:Eg; [| by apply calm_ret].
    apply calm_call, (df_enable _ _ (ds_fine _ _ Hd) _ _ Eg). }
  intros err _. case_match; [by apply calm_ret |].
  eapply calm_bind; [by apply calm_port_of |]. intros dp _.
  eapply (calm_bind _ _ T); [case_match; [by apply calm_set_state_now | by apply calm_ret] |]. intros _ _.
  eapply (calm_bind _ _ T); [case_match; [apply calm_effect, quiet_start | by apply calm_ret] |].
  intros _ _. by apply calm_ret.
Qed.

Lemma calm_disable p : has_port w0 p -> calm (dsa_port_disable p) T.
Proof using w0_sane QuietNet0.
  intros Hp. eapply calm_bind; [by apply calm_port_ops |]. intros ops (d & Hd & ->).
  eapply calm_bind; [by apply calm_port_of |]. intros dp _.
  eapply (calm_bind _ _ T); [case_match; [apply calm_effect, quiet_stop | by apply calm_ret] |]. intros _ _.
  eapply (calm_bind _ _ T); [case_match; [by apply calm_set_state_now | by apply calm_ret] |]. intros _ _.
  destruct (op_port_disable _) as [g |] eqn:Eg; [| by apply calm_ret].
  apply calm_effect, (df_disable _ _ (ds_fine _ _ Hd) _ _ Eg).
Qed.

(** The events the life cycle sends. *)
Definition life_event (ev : dsa_event H) : Prop :=
  match ev with
  | DSA_NOTIFIER_MTU _ _ | DSA_NOTIFIER_CONDUIT_STATE_CHANGE _ _ => True
  | DSA_NOTIFIER_TAG_PROTO_CONNECT o | DSA_NOTIFIER_TAG_PROTO_DISCONNECT o => quiet_tagger o
  | _ => False
  end.

Lemma calm_disconnect o ds : quiet_tagger o -> calm (call_disconnect o ds) T.
Proof using.
  intros [_ Hq]. unfold call_disconnect. destruct (to_disconnect o) as [g |] eqn:Eg; [| by apply calm_ret].
  by apply (calm_effect (g ds)), Hq.
Qed.

(** Connecting fails with [R], which holds of zero and of the lack of an operation. *)
Lemma calm_connect_is ds o (R : Z -> Prop) : known w0 ds -> quiet_tagger o -> R 0 -> R (- EOPNOTSUPP) ->
  (forall g h, to_connect o = Some g -> R (fst (g ds h))) ->
  (forall d f h, is_ds w0 ds d -> op_connect_tag_protocol (op_switch (ds_ops d)) = Some f -> R (fst (f ds (to_proto o) h))) ->
  calm (dsa_switch_connect_tag_proto ds o) R.
Proof using w0_sane.
  intros Hk Hq H0' Hno Hcon Hf. eapply calm_bind; [by apply calm_get_ds |]. intros d Hd. eapply (calm_bind _ _ R).
  { unfold call_tagger. destruct (to_connect o) as [g |] eqn:Eg; [| by apply calm_ret].
    apply (calm_call_is (g ds)); [by apply Hq | intros h; by apply Hcon]. }
  intros err Herr. case_match; [by apply calm_ret |].
  destruct (op_connect_tag_protocol _) as [g |] eqn:Eg; [| by apply calm_ret].
  eapply calm_bind; [apply (calm_call_is (g ds (to_proto o)) R); [apply (df_tag _ _ (ds_fine _ _ Hd) _ _ Eg) | intros h; by apply (Hf d)] |].
  intros err2 Herr2. case_match; [| by apply calm_ret]. eapply calm_bind; [by apply calm_disconnect |]. intros _ _. by apply calm_ret.
Qed.
Lemma calm_connect_tag ds o : known w0 ds -> quiet_tagger o -> calm (dsa_switch_connect_tag_proto ds o) T.
Proof using w0_sane. intros Hk Hq. by apply calm_connect_is. Qed.

Lemma calm_event ds ev : known w0 ds -> life_event ev ->
  calm (dsa_switch_event tagger_data ds ev) (fun r => life_event (snd r)).
Proof using w0_sane.
  intros Hk Hev. destruct ev; try done; cbn [dsa_switch_event];
    (eapply calm_bind; [| intros err _; by apply calm_ret]); instantiate (1 := T).
  - eapply calm_bind; [by apply calm_get_ds |]. intros d Hd.
    destruct (op_port_change_mtu _) as [g |] eqn:Eg; [| by apply calm_ret].
    apply calm_each_port. intros q Hq _. eapply calm_bind; [by apply calm_port_of |]. intros dq _.
    case_match; [| by apply calm_ret]. apply calm_call_op, (df_mtu _ _ (ds_fine _ _ Hd) _ _ _ Eg).
  - by apply calm_connect_tag.
  - apply calm_get. intros w _ _ _. eapply (calm_bind _ _ T); [| intros _ _; by apply calm_ret].
    case_match; [by apply calm_disconnect | by apply calm_ret].
  - eapply calm_bind; [by apply calm_get_ds |]. intros d Hd.
    destruct (op_conduit_state_change _) as [g |] eqn:Eg; [| by apply calm_ret].
    eapply calm_bind; [apply calm_effect, (df_conduit _ _ (ds_fine _ _ Hd) _ _ _ Eg) |].
    intros _ _. by apply calm_ret.
Qed.

Lemma calm_chain ds_list ev : (forall ds, ds ∈ ds_list -> known w0 ds) -> life_event ev ->
  calm (raw_notifier_call_chain (switch_notifier tagger_data) ds_list ev) T.
Proof using w0_sane.
  revert ev. induction ds_list as [| ds xs IH]; intros ev Hl Hev b l w Hs.
  { unfold total. by rewrite chain_nil. }
  unfold total. rewrite chain_cons.
  apply (calm_bind (switch_notifier tagger_data ds ev) _ (fun r => life_event (snd r)) T); [| | exact Hs].
  - eapply calm_bind; [apply calm_event; [apply Hl; by left | done] |].
    intros [err ev'] Hev'. by apply calm_ret.
  - intros [ret ev'] Hev'. destruct (notify_stops ret || _); [by apply calm_ret |].
    apply IH; [| done]. intros ds' Hds. apply Hl. by right.
Qed.

Lemma calm_tree_notify ev : life_event ev -> calm (dsa_tree_notify tagger_data ev) T.
Proof using w0_sane.
  intros Hev.
  apply calm_get. intros w Hs _ _. eapply calm_bind; [apply calm_chain; [| done] |].
  - intros ds Hds. apply (sn_nh _ w0_sane).
    pose proof (shape_inv _ _ Hs) as (_ & _ & _ & _ & _ & En). by rewrite En.
  - intros [ret ev'] _. by apply calm_ret.
Qed.

Lemma calm_notify ev : life_event ev -> calm (dsa_port_notify tagger_data ev) T.
Proof using w0_sane.
  intros Hev. eapply (calm_bind _ _ T); [by apply calm_tree_notify | intros [err ev'] _; by apply calm_ret].
Qed.

(** What the operations on a user port look at. *)
Record user_ready (p : pid) : Prop := {
  ur_port : has_port w0 p;
  ur_dev dp : get_port w0 p = Some dp -> is_Some (dp_netdev dp);
  ur_conduit dp : get_port w0 p = Some dp -> is_Some (dsa_port_to_conduit w0 dp);
  ur_cpu dp : get_port w0 p = Some dp -> exists cpu, dp_cpu_dp dp = Some cpu /\ has_port w0 cpu;
  ur_tagger : is_Some (dst_tag_ops (w_tree w0));
  ur_free dp : get_port w0 p = Some dp -> dp_bridge dp = None;
}.

Lemma calm_conduit_of p : has_port w0 p -> (forall dp, get_port w0 p = Some dp -> is_Some (dsa_port_to_conduit w0 dp)) ->
  calm (conduit_of p) T.
Proof using.
  intros Hp Hc. eapply calm_bind; [by apply calm_port_of |]. intros dp (dp0 & Hdp0 & E).
  apply calm_queried. intros w Hs _. destruct (Hc _ Hdp0) as [c Ec]. exists c. split; [| done].
  rewrite <- Ec. symmetry. by apply to_conduit_shape.
Qed.

Lemma calm_tag_ops : is_Some (dst_tag_ops (w_tree w0)) ->
  calm tree_tag_ops (fun o => dst_tag_ops (w_tree w0) = Some o).
Proof using.
  intros [o Ho]. apply calm_queried. intros w Hs _. exists o.
  pose proof (shape_inv _ _ Hs) as (Et & _). by rewrite <- Et.
Qed.

Lemma calm_user_of p : has_port w0 p -> (forall dp, get_port w0 p = Some dp -> is_Some (dp_netdev dp)) ->
  calm (user_of p) T.
Proof using.
  intros Hp Hd. eapply calm_bind; [by apply calm_port_of |]. intros dp (dp0 & Hdp0 & E).
  destruct (Hd _ Hdp0) as [d Ed]. apply strip_port_fields in E as (_ & _ & _ & _ & _ & _ & E).
  rewrite E in Ed. by eapply calm_deref.
Qed.

Lemma calm_call_any {A} (g : H -> A) (k : A -> st (world H) Z) : (forall a, calm (k a) T) ->
  calm (on_hw g ≫= k) T.
Proof using.
  intros Hk b l w Hs. apply total_bind. unfold on_hw. apply total_bind, total_get, total_ret. by apply Hk.
Qed.

Lemma calm_mtu_change p m : calm (dsa_port_mtu_change tagger_data p m) T.
Proof using w0_sane. by apply calm_notify. Qed.

(** A port outside of a bridge is not normalised with others. *)
Lemma calm_normalization f p : has_port w0 p -> (forall dp, get_port w0 p = Some dp -> dp_bridge dp = None) ->
  calm (dsa_bridge_mtu_normalization f p) T.
Proof using.
  intros Hp Hb b l w Hs. unfold dsa_bridge_mtu_normalization, port_of.
  apply total_bind, total_bind, total_get. destruct Hp as [dp0 Hdp0].
  destruct (strip_some _ _ _ _ (get_port_shape w0 w p (at_shape _ _ _ _ Hs)) Hdp0) as (dp & Hdp & E).
  eapply total_deref; [exact Hdp |]. case_match; [by apply total_ret |].
  destruct (groups_port w w0 p dp (at_groups _ _ _ _ Hs) Hdp) as (dp1 & Hdp1 & E1).
  rewrite E1, (Hb _ Hdp1), bool_decide_true by done. by apply total_ret.
Qed.

Lemma calm_change_mtu n f p m : user_ready p ->
  (forall dp cpu, get_port w0 p = Some dp -> dp_cpu_dp dp = Some cpu -> calm (f cpu) T) ->
  calm (dsa_user_change_mtu tagger_data f (S n) p m) T.
Proof using w0_sane.
  intros [Hp Hdev Hc Hcpu Ht Hfree] Hf. cbn [dsa_user_change_mtu].
  eapply calm_bind; [by apply calm_conduit_of |]. intros conduit _.
  eapply calm_bind; [by apply calm_user_of |]. intros dev _.
  eapply calm_bind; [by apply calm_port_of |]. intros dp (dp0 & Hdp0 & E).
  assert (Hds : dp_ds dp = fst p) by exact (proj1 (is_port_id w0 p dp (ex_intro _ dp0 (conj Hdp0 E)))).
  rewrite Hds. eapply calm_bind; [apply calm_get_ds; by apply port_known |]. intros d Hd.
  destruct (op_port_change_mtu _) as [g |] eqn:Eg; [| by apply calm_ret].
  apply calm_get. intros w _ _ _.
  destruct (Hcpu _ Hdp0) as (cpu & Ecpu & _).
  pose proof (strip_port_fields _ _ E) as (_ & _ & _ & Ec & _). rewrite Ec in Ecpu.
  eapply calm_bind; [by apply (calm_deref _ cpu (eq cpu) Ecpu) |]. intros cpu_dp <-.
  eapply calm_bind; [apply (Hf _ _ Hdp0); congruence |]. intros o _. cbv zeta.
  assert (Hrestore : forall (df : bool) m', calm (if df then _ ← call_fun (dev_set_mtu conduit m'); mret tt else mret tt) T).
  { intros [] m'; [| by apply calm_ret]. eapply calm_bind; [apply calm_call, quiet_set_mtu |].
    intros _ _. by apply calm_ret. }
  case_match; [by apply calm_ret |].
  eapply (calm_bind _ _ T); [case_match; [apply calm_call, quiet_set_mtu | by apply calm_ret] |]. intros err _.
  case_match; [by apply calm_ret |].
  eapply (calm_bind _ _ T); [case_match; [apply calm_mtu_change | by apply calm_ret] |]. intros err2 _.
  case_match; [eapply calm_bind; [apply Hrestore |]; intros _ _; by apply calm_ret |].
  eapply (calm_bind _ _ T); [apply calm_call, (df_mtu _ _ (ds_fine _ _ Hd) _ _ _ Eg) |]. intros err3 _.
  case_match.
  - eapply (calm_bind _ _ T).
    { case_match; [| by apply calm_ret]. eapply calm_bind; [apply calm_mtu_change |]. intros _ _. by apply calm_ret. }
    intros _ _. eapply calm_bind; [apply Hrestore |]. intros _ _. by apply calm_ret.
  - eapply calm_bind; [apply calm_effect, quiet_assign_mtu |]. intros _ _.
    eapply calm_bind; [by apply calm_normalization |]. intros _ _. by apply calm_ret.
Qed.

End From.
(** ** Moving the recorded state *)

(** An assignment to fields of a port that the accounting records. *)
Record assigns (g : dsa_port -> dsa_port) : Prop := {
  as_id dp : dp_id (g dp) = dp_id dp;
  as_strip dp dq : strip_port dp = strip_port dq -> strip_port (g dp) = strip_port (g dq);
  as_bridge dp : dp_bridge (g dp) = dp_bridge dp;
}.

Lemma strip_port_all dp dq : strip_port dp = strip_port dq -> dp_ds dp = dp_ds dq /\ dp_index dp = dp_index dq /\
  dp_type dp = dp_type dq /\ dp_netdev dp = dp_netdev dq /\ dp_cpu_dp dp = dp_cpu_dp dq /\
  dp_cpu_port_in_lag dp = dp_cpu_port_in_lag dq /\ dp_lag dp = dp_lag dq /\ dp_hsr_dev dp = dp_hsr_dev dq /\
  dp_setup dp = dp_setup dq /\ dp_dn dp = dp_dn dq /\ dp_pl dp = dp_pl dq.
Proof using. destruct dp, dq. cbn. intros E. injection E. intros; subst. by split_and!. Qed.

Ltac strip_fields := intros dp dq (E1 & E2 & E3 & E4 & E5 & E6 & E7 & E8 & E9 & E10 & E11)%strip_port_all;
  destruct dp, dq; cbn in *; by subst.

Lemma assigns_netdev x : assigns (set_netdev x).
Proof using. split; [done | strip_fields | done]. Qed.
Lemma assigns_pl x : assigns (set_pl x).
Proof using. split; [done | strip_fields | done]. Qed.
Lemma assigns_setup x : assigns (set_setup x).
Proof using. split; [done | strip_fields | done]. Qed.
Lemma assigns_type x : assigns (set_type x).
Proof using. split; [done | strip_fields | done]. Qed.
Lemma assigns_cpu x : assigns (set_cpu_dp x).
Proof using. split; [done | strip_fields | done]. Qed.
Lemma assigns_comp f g : assigns f -> assigns g -> assigns (fun dp => f (g dp)).
Proof using.
  intros [Fi Fs Fb] [Gi Gs Gb]. split; intros dp; [by rewrite Fi | by intros dq E; apply Fs, Gs | by rewrite Fb].
Qed.

Lemma upd_upd p f g w : (forall dp, dp_id (g dp) = dp_id dp) ->
  upd_port p f (upd_port p g w) = upd_port p (fun dp => f (g dp)) w.
Proof using.
  intros Hg. unfold upd_port. cbn. unfold set_ports. cbn. f_equal. rewrite <- list_fmap_compose.
  apply list_fmap_ext. intros i dp _. cbn. destruct (bool_decide (dp_id dp = p)) eqn:E; [by rewrite Hg, E | by rewrite E].
Qed.

Lemma port_unique w p dp dq : NoDup (dp_id <$> w_ports w) -> get_port w p = Some dp -> dq ∈ w_ports w ->
  dp_id dq = p -> dq = dp.
Proof using.
  intros Hnd Hp Hin Hid. pose proof (get_port_of w dq Hnd Hin) as E. rewrite Hid, Hp in E. by injection E.
Qed.

Lemma upd_ext p f g w dp : NoDup (dp_id <$> w_ports w) -> get_port w p = Some dp -> f dp = g dp ->
  upd_port p f w = upd_port p g w.
Proof using.
  intros Hnd Hp Hf. unfold upd_port. f_equal. apply list_fmap_ext. intros i dq Hi. case_bool_decide as Eq; [| done].
  rewrite (port_unique w p dp dq Hnd Hp); [done | by eapply list_elem_of_lookup_2 | done].
Qed.

Lemma upd_same p f w dp : NoDup (dp_id <$> w_ports w) -> get_port w p = Some dp -> f dp = dp -> upd_port p f w = w.
Proof using.
  intros Hnd Hp Hf. rewrite (upd_ext p f id w dp) by done. unfold upd_port.
  assert (E : (fun dp => if bool_decide (dp_id dp = p) then id dp else dp) <$> w_ports w = w_ports w).
  { transitivity (id <$> w_ports w); [| by rewrite list_fmap_id].
    apply list_fmap_ext. intros i dq Hi. by case_bool_decide. }
  rewrite E. by destruct w.
Qed.

Lemma sane_upd p g w : sane w -> assigns g -> sane (upd_port p g w).
Proof using.
  intros [Hn Hs Hh Hd] [Gi _ _]. split; try done.
  - by rewrite upd_port_ids.
  - intros dp Hdp. cbn in Hdp. apply list_elem_of_fmap in Hdp as (dq & -> & Hdq).
    assert (E : dp_ds (if bool_decide (dp_id dq = p) then g dq else dq) = dp_ds dq).
    { case_bool_decide; [| done]. exact (f_equal fst (Gi dq)). }
    rewrite E. apply (Hs dq Hdq).
Qed.

Section Steps.
Context (b : resource -> Z) (b_pos : forall x, 0 <= b x).

Lemma at_upd p g w0 l w : assigns g -> at_ b w0 l w -> at_ b (upd_port p g w0) l (upd_port p g w).
Proof using.
  intros [Gi Gs Gb] [Hs Hg Hw Hh]. split; [| | done | done].
  - pose proof (shape_inv _ _ Hs) as (Et & Ep & Er & Esw & El & En). unfold same_shape, shape. cbn [w_tree w_ports w_rtable w_switches w_lags w_nh upd_port set_ports].
    rewrite Et, Er, Esw, El, En.
    assert (E : strip_port <$> ((fun dp => if bool_decide (dp_id dp = p) then g dp else dp) <$> w_ports w0) =
      strip_port <$> ((fun dp => if bool_decide (dp_id dp = p) then g dp else dp) <$> w_ports w)).
    { apply list_eq. intros i. rewrite !list_lookup_fmap.
      assert (E : strip_port <$> w_ports w0 !! i = strip_port <$> w_ports w !! i) by (by rewrite <- !list_lookup_fmap, Ep).
      destruct (w_ports w0 !! i) as [dp |], (w_ports w !! i) as [dq |]; try done. cbn [option_fmap option_map fmap] in E |- *. f_equal.
      apply Some_inj in E. rewrite (strip_port_id _ _ E). case_bool_decide; [by apply Gs | done]. }
    by rewrite E.
  - etransitivity; [by apply upd_groups |]. rewrite Hg. symmetry. by apply upd_groups.
Qed.

Lemma at_perm w0 l l' w : (forall x, occ x l = occ x l') -> at_ b w0 l w -> at_ b w0 l' w.
Proof using. intros Hl [Hs Hg Hw Hh]. split; try done. intros x. by rewrite Hh, Hl. Qed.

Lemma total_calm {A} w0 l w (m : st (world H) A) R Q : at_ b w0 l w -> calm w0 m R ->
  (forall a w', R a -> at_ b w0 l w' -> Q a w') -> total m w Q.
Proof using. intros Hw Hm HQ. eapply total_weaken; [| by apply Hm]. intros a w' [Hw' Ha]. by apply HQ. Qed.

Lemma total_upd p g w0 l w Q : at_ b w0 l w -> assigns g ->
  (forall w', at_ b (upd_port p g w0) l w' -> Q tt w') -> total (modify (upd_port p g)) w Q.
Proof using. intros Hw Hg HQ. apply total_modify, HQ. by apply at_upd. Qed.

Lemma total_get_res r w0 l w (Q : Z -> world H -> Prop) : at_ b w0 l w ->
  (forall w', at_ b w0 (r :: l) w' -> Q 0 w') -> (forall err w', err < 0 -> at_ b w0 l w' -> Q err w') ->
  total (DsaLife.get r) w Q.
Proof using.
  intros [Hs Hg Hw Hh] Hok Herr. unfold total, DsaLife.get, call_fun.
  pose proof (acquire_ok r (w_hw w)) as Eok. pose proof (acquire_err r (w_hw w)) as Eerr.
  pose proof (acquire_neg r (w_hw w)) as Eneg.
  destruct (acquire r (w_hw w)) as [err h]. cbn [fst snd] in *. destruct (Z.eq_dec err 0) as [-> | Hne].
  - apply Hok. split; try done. intros x. cbn. rewrite Eok, Hh by done. lia.
  - apply Herr; [lia |]. split; try done. intros x. cbn. by rewrite Eerr, Hh.
Qed.

Lemma total_put r w0 l w (Q : unit -> world H -> Prop) : at_ b w0 (r :: l) w ->
  (forall w', at_ b w0 l w' -> Q tt w') -> total (DsaLife.put r) w Q.
Proof using b_pos.
  intros [Hs Hg Hw Hh] HQ. apply HQ. split; try done. intros x. cbn.
  rewrite release_ok, Hh; [cbn; lia |]. rewrite Hh. cbn. rewrite one_refl.
  pose proof (occ_pos r l). pose proof (b_pos r). lia.
Qed.

End Steps.
End Calm.

(** One more step of a routine that is followed from a recorded state. *)
Tactic Notation "calmly" hyp(Hw) "by" tactic3(t) :=
  apply total_bind; eapply (total_calm _ _ _ _ _ _ _ Hw); [t |].
Tactic Notation "updating" hyp(Hw) "by" tactic3(t) :=
  apply total_bind; eapply (total_upd _ _ _ _ _ _ _ Hw); [t |].
Tactic Notation "giving" hyp(Hw) :=
  match goal with Hb : forall x : resource, 0 <= ?b x |- _ =>
    apply total_bind; eapply (total_put b Hb _ _ _ _ _ Hw) end.
