(* ===== verification/DsaUpDown.v ===== *)
(** * A port up and down

    With the accounting of [DsaAccount]: the interface of a user port, the link
    of a shared port and the port itself take what they hold as a whole or not
    at all, and their teardown gives all of it back. *)

From Stdlib Require Import ZArith Lia Bool.
From S2P Require Import Prelude.
From S2P Require Import Kernel.
From S2P Require Import DsaTypes.
From S2P Require Import DsaSwitch.
From S2P Require Import DsaEvent.
From S2P Require Import DsaSafe.
From S2P Require Import DsaPort.
From S2P Require Import DsaMember.
From S2P Require Import DsaLife.
From S2P Require Import DsaAccount.

(** What a port that is up holds. *)
Definition user_holds (p : pid) : list resource :=
  [UpperLink p; Registered p; Phylink p; GroCells p; Stats p; Netdev p].
Definition link_holds {H} (ops : dsa_switch_ops H) `{!LifeApi H} (p : pid) (dp : dsa_port) : list resource :=
  match dp_dn dp with
  | None => []
  | Some dn =>
      if bool_decide (is_Some (op_adjust_link (op_switch ops))) || negb (dp_pl dp) then
        if of_phy_is_fixed_link dn then [FixedLink p] else []
      else [Phylink p]
  end.
Definition kind_holds {H} (ops : dsa_switch_ops H) `{!LifeApi H} (p : pid) (dp : dsa_port) : list resource :=
  match dp_type dp with
  | DSA_PORT_TYPE_UNUSED => []
  | DSA_PORT_TYPE_CPU | DSA_PORT_TYPE_DSA => link_holds ops p dp
  | DSA_PORT_TYPE_USER => match dp_netdev dp with Some _ => user_holds p | None => [] end
  end.
Definition devlink_holds {H} (ops : dsa_switch_ops H) (p : pid) : list resource :=
  DevlinkPort p :: match op_port_setup (op_switch ops), op_port_teardown (op_switch ops) with
                   | Some _, Some _ => [PortDriver p] | _, _ => [] end.

Section UpDown.
Context {H : Type} `{RefcountApi, NotifierApi, NetQueries, !NetEffects H, !LifeApi H, !QuietNet H}.
Context (tagger_data : H -> Z -> bool).
Context (b : resource -> Z) (b_pos : forall x, 0 <= b x).
Implicit Types (w : world H) (l : list resource).

(** A user port that can be brought up. *)
Record user_slot w (p : pid) : Prop := {
  us_free dp : get_port w p = Some dp -> dp_bridge dp = None;
  us_cpu dp : get_port w p = Some dp -> exists cpu, dp_cpu_dp dp = Some cpu /\ cpu <> p /\ has_port w cpu;
  us_conduit dp : get_port w p = Some dp -> is_Some (dsa_port_to_conduit w dp);
  us_tagger : is_Some (dst_tag_ops (w_tree w));
}.

(** An assignment to a port keeps it such. *)
Record keeps_slot (g : dsa_port -> dsa_port) : Prop := {
  ks_assigns : assigns g;
  ks_cpu dp : dp_cpu_dp (g dp) = dp_cpu_dp dp;
  ks_in_lag dp : dp_cpu_port_in_lag (g dp) = dp_cpu_port_in_lag dp;
}.

Lemma keeps_netdev x : keeps_slot (set_netdev x).
Proof using. split; [apply assigns_netdev | done | done]. Qed.
Lemma keeps_pl x : keeps_slot (set_pl x).
Proof using. split; [apply assigns_pl | done | done]. Qed.
Lemma slot_upd g w p : keeps_slot g -> user_slot w p -> has_port w p -> user_slot (upd_port p g w) p.
Proof using.
  intros [Ga Gc Gl] [Sf Sc Sd St] [dp Hp].
  assert (E : get_port (upd_port p g w) p = Some (g dp)) by (apply get_upd_eq; [done | apply Ga]).
  destruct (Sc _ Hp) as (cpu & Ec & Hne & [cdp Hcpu]).
  assert (Ecpu : get_port (upd_port p g w) cpu = Some cdp).
  { rewrite get_upd_ne; [done | by apply not_eq_sym | apply Ga]. }
  split; [| | | done]; intros dq Hq; rewrite E in Hq; injection Hq as <-.
  - rewrite (as_bridge _ Ga). by apply Sf.
  - exists cpu. rewrite Gc. split_and!; [done | done | by exists cdp].
  - destruct (Sd _ Hp) as [c E2]. exists c. rewrite <- E2. unfold dsa_port_to_conduit.
    rewrite Gc, Gl, Ec. cbn [mbind option_bind]. by rewrite Ecpu, Hcpu.
Qed.

Lemma slot_ready w p : user_slot w p -> has_port w p ->
  (forall dp, get_port w p = Some dp -> is_Some (dp_netdev dp)) -> user_ready w p.
Proof using.
  intros [Sf Sc Sd St] Hp Hd. split; try done.
  intros dp Hdp. destruct (Sc _ Hdp) as (cpu & Ec & _ & Hcpu). by exists cpu.
Qed.

(** ** The interface of a user port *)

Lemma total_phylink_create w0 p l w (Q : Z -> world H -> Prop) : at_ b w0 l w ->
  (forall w', at_ b (upd_port p (set_pl true) w0) (Phylink p :: l) w' -> Q 0 w') ->
  (forall err w', err < 0 -> at_ b w0 l w' -> Q err w') ->
  total (dsa_port_phylink_create p) w Q.
Proof using.
  intros Hw Hok Herr. unfold dsa_port_phylink_create. apply total_bind.
  eapply (total_get_res b _ _ _ _ _ Hw).
  - intros w1 Hw1. cbn [negb Z.eqb]. updating Hw1 by (apply assigns_pl).
    intros w2 Hw2. by apply total_ret, Hok.
  - intros err w1 Herr1 Hw1. destruct (Z.eqb_spec err 0); [lia |]. by apply total_ret, Herr.
Qed.

Lemma total_phylink_destroy w0 p l w (Q : unit -> world H -> Prop) : at_ b w0 (Phylink p :: l) w ->
  (forall w', at_ b (upd_port p (set_pl false) w0) l w' -> Q tt w') ->
  total (dsa_port_phylink_destroy p) w Q.
Proof using b_pos.
  intros Hw HQ. unfold dsa_port_phylink_destroy. apply total_bind. eapply (total_put b b_pos _ _ _ _ _ Hw).
  intros w1 Hw1. eapply (total_upd b _ _ _ _ _ _ Hw1); [apply assigns_pl |]. exact HQ.
Qed.

Lemma total_phy_setup w0 p l w (Q : Z -> world H -> Prop) : sane w0 -> has_port w0 p -> at_ b w0 l w ->
  (forall w', at_ b (upd_port p (set_pl true) w0) (Phylink p :: l) w' -> Q 0 w') ->
  (forall err w', err <> 0 -> (at_ b w0 l w' \/ at_ b (upd_port p (set_pl false) (upd_port p (set_pl true) w0)) l w') -> Q err w') ->
  total (dsa_user_phy_setup p) w Q.
Proof using b_pos.
  intros Hs Hp Hw Hok Herr. unfold dsa_user_phy_setup. apply total_bind.
  eapply (total_phylink_create _ _ _ _ _ Hw).
  2: { intros err w1 Herr1 Hw1. destruct (Z.eqb_spec err 0); [lia |]. apply total_ret, Herr; [lia | by left]. }
  intros w1 Hw1. cbn [negb Z.eqb].
  assert (Hs1 : sane (upd_port p (set_pl true) w0)) by (by apply sane_upd, assigns_pl).
  assert (Hp1 : has_port (upd_port p (set_pl true) w0) p).
  { destruct Hp as [dp Hp]. eexists. by apply get_upd_eq. }
  calmly Hw1 by (by apply calm_switch_of). intros d w2 _ Hw2.
  calmly Hw2 by (apply calm_call, quiet_of_connect).
  intros ret w3 _ Hw3. apply total_bind.
  eapply (total_calm b _ _ _ _ T _ Hw3).
  { case_match; [| by apply calm_ret]. unfold dsa_user_phy_connect. apply calm_call_any. intros found.
    case_match; [by apply calm_ret | apply calm_call, quiet_connect]. }
  intros ret2 w4 _ Hw4. destruct (Z.eqb_spec ret2 0) as [-> | Hne]; cbn [negb].
  - by apply total_ret, Hok.
  - apply total_bind. eapply (total_phylink_destroy _ _ _ _ _ Hw4). intros w5 Hw5.
    apply total_ret, Herr; [done | by right].
Qed.

Lemma total_out_free w0 p l w (Q : unit -> world H -> Prop) : at_ b w0 (Stats p :: Netdev p :: l) w ->
  (forall w', at_ b (upd_port p (set_netdev None) w0) l w' -> Q tt w') -> total (user_out_free p) w Q.
Proof using b_pos.
  intros Hw HQ. giving Hw. intros w1 Hw1.
  giving Hw1. intros w2 Hw2.
  eapply (total_upd b _ _ _ _ _ _ Hw2); [apply assigns_netdev | exact HQ].
Qed.

Lemma total_out_gcells w0 p l w (Q : unit -> world H -> Prop) :
  at_ b w0 (GroCells p :: Stats p :: Netdev p :: l) w ->
  (forall w', at_ b (upd_port p (set_netdev None) w0) l w' -> Q tt w') -> total (user_out_gcells p) w Q.
Proof using b_pos.
  intros Hw HQ. giving Hw. intros w1 Hw1.
  by eapply total_out_free.
Qed.

Lemma total_out_phy w0 p l w (Q : unit -> world H -> Prop) :
  at_ b w0 (Phylink p :: GroCells p :: Stats p :: Netdev p :: l) w ->
  (forall w', at_ b (upd_port p (set_netdev None) (upd_port p (set_pl false) w0)) l w' -> Q tt w') ->
  total (user_out_phy p) w Q.
Proof using b_pos QuietNet0.
  intros Hw HQ. calmly Hw by (apply calm_effect, quiet_disconnect).
  intros _ w1 _ Hw1. apply total_bind. eapply (total_phylink_destroy _ _ _ _ _ Hw1). intros w2 Hw2.
  by eapply total_out_gcells.
Qed.

Lemma calm_setup_tagger w0 p : has_port w0 p -> user_slot w0 p -> calm w0 (dsa_user_setup_tagger p) T.
Proof using.
  intros Hp Hslot. unfold dsa_user_setup_tagger.
  eapply calm_bind; [by apply calm_conduit_of, Hslot |]. intros _ _.
  eapply calm_bind; [by apply calm_port_of |]. intros dp (dp0 & Hdp0 & E).
  destruct (us_cpu _ _ Hslot _ Hdp0) as (cpu & Ec & _ & Hcpu).
  apply strip_port_fields in E as (_ & _ & _ & E & _). rewrite E in Ec.
  eapply calm_bind; [by apply (calm_deref _ _ cpu (eq cpu) Ec) |]. intros cpu' <-.
  eapply calm_bind; [by apply calm_port_of |]. intros _ _.
  eapply calm_bind; [apply calm_tag_ops, Hslot |]. intros _ _. by apply calm_ret.
Qed.

(** A user port that is down: no interface, no phylink. *)
Definition port_off w (p : pid) : Prop :=
  exists dp, get_port w p = Some dp /\ dp_netdev dp = None /\ dp_pl dp = false.

Lemma off_has w p : port_off w p -> has_port w p.
Proof using. intros (dp & Hp & _). by exists dp. Qed.

Lemma off_same w p g : sane w -> port_off w p ->
  (forall dp, dp_netdev dp = None -> dp_pl dp = false -> g dp = dp) -> upd_port p g w = w.
Proof using. intros Hs (dp & Hp & En & Epl) Hg. apply (upd_same p g w dp); [apply Hs | done | by apply Hg]. Qed.

Ltac upd_off := rewrite ?upd_upd by done; apply off_same; [done | done |];
  intros dp En Epl; destruct dp; cbn in *; by subst.

Lemma user_on_ready w p : user_slot w p -> has_port w p ->
  (forall dp, get_port w p = Some dp -> is_Some (dp_netdev dp)) -> user_ready (upd_port p (set_pl true) w) p.
Proof using.
  intros Hs Hp Hd. destruct Hp as [dp Hp].
  assert (E : get_port (upd_port p (set_pl true) w) p = Some (set_pl true dp)) by (by apply get_upd_eq).
  apply slot_ready; [apply slot_upd; [apply keeps_pl | done | by exists dp] | by exists (set_pl true dp) |].
  intros dq Hq. rewrite E in Hq. injection Hq as <-. exact (Hd _ Hp).
Qed.

Definition user_on (p : pid) (dp : dsa_port) : dsa_port := set_pl true (set_netdev (Some (user_dev p)) dp).

Lemma total_user_create w0 p l w (Q : Z -> world H -> Prop) : sane w0 -> port_off w0 p -> user_slot w0 p ->
  at_ b w0 l w ->
  (forall w', at_ b (upd_port p (user_on p) w0) (user_holds p ++ l) w' -> Q 0 w') ->
  (forall err w', err <> 0 -> at_ b w0 l w' -> Q err w') ->
  total (dsa_user_create tagger_data p) w Q.
Proof using b_pos QuietNet0.
  intros Hs Hoff Hslot Hw Hok Herr. pose proof (off_has _ _ Hoff) as Hp. unfold dsa_user_create.
  calmly Hw by (apply calm_conduit_of; [done | apply Hslot]). intros conduit w1 _ Hw1.
  apply total_bind. eapply (total_get_res b _ _ _ _ _ Hw1).
  2: { intros err w2 He Hw2. destruct (Z.eqb_spec err 0); [lia |]. by apply total_ret, Herr. }
  intros w2 Hw2. cbn [negb Z.eqb]. cbv zeta. calmly Hw2 by (apply calm_effect, quiet_init). intros _ w3 _ Hw3.
  apply total_bind. eapply (total_get_res b _ _ _ _ _ Hw3).
  2: { intros err w4 He Hw4. destruct (Z.eqb_spec err 0); [lia |]. cbn [negb]. giving Hw4.
       intros w5 Hw5. by apply total_ret, Herr. }
  intros w4 Hw4. cbn [negb Z.eqb]. apply total_bind. eapply (total_get_res b _ _ _ _ _ Hw4).
  2: { intros err w5 He Hw5. destruct (Z.eqb_spec err 0); [lia |]. cbn [negb]. apply total_bind.
       eapply (total_out_free _ _ _ _ _ Hw5). intros w6 Hw6. apply total_ret, Herr; [lia |].
       by rewrite (off_same _ _ _ Hs Hoff) in Hw6 by (intros []; cbn; intros; by subst). }
  intros w5 Hw5. cbn [negb Z.eqb]. updating Hw5 by (apply assigns_netdev). intros w6 Hw6.
  set (w1' := upd_port p (set_netdev (Some (user_dev p))) w0) in *.
  assert (Hs1 : sane w1') by (by apply sane_upd, assigns_netdev).
  assert (Hp1 : has_port w1' p) by (destruct Hp as [dp Hp]; eexists; by apply get_upd_eq).
  assert (Hslot1 : user_slot w1' p) by (by apply slot_upd, Hp; [apply keeps_netdev |]).
  calmly Hw6 by (by apply calm_setup_tagger). intros _ w7 _ Hw7.
  calmly Hw7 by (apply calm_effect, quiet_carrier). intros _ w8 _ Hw8.
  apply total_bind. eapply (total_phy_setup _ _ _ _ _ Hs1 Hp1 Hw8).
  2: { intros err w9 Hne Hw9. destruct (Z.eqb_spec err 0); [lia |]. cbn [negb]. apply total_bind.
       destruct Hw9 as [Hw9 | Hw9]; eapply (total_out_gcells _ _ _ _ _ Hw9); intros w10 Hw10;
         apply total_ret, Herr; try done.
       - replace w0 with (upd_port p (set_netdev None) w1'); [done |]. unfold w1'. upd_off.
       - replace w0 with (upd_port p (set_netdev None) (upd_port p (set_pl false) (upd_port p (set_pl true) w1'))); [done |].
         unfold w1'. upd_off. }
  intros w9 Hw9. cbn [negb Z.eqb]. apply total_bind, total_get.
  set (w2' := upd_port p (set_pl true) w1') in *.
  assert (E2 : upd_port p (user_on p) w0 = w2') by (unfold w2', w1'; by rewrite upd_upd).
  assert (E0 : upd_port p (set_netdev None) (upd_port p (set_pl false) w2') = w0) by (unfold w2', w1'; upd_off).
  rewrite E2 in Hok.
  assert (Hd1 : forall dp, get_port w1' p = Some dp -> is_Some (dp_netdev dp)).
  { intros dp Hdp. destruct Hp as [dp0 Hp]. unfold w1' in Hdp.
    rewrite (get_upd_eq _ _ _ _ Hp) in Hdp by done. injection Hdp as <-. by eexists. }
  clearbody w1'.
  calmly Hw9 by (apply calm_change_mtu; [by apply sane_upd, assigns_pl | by apply user_on_ready |];
    intros ? ? _ _; eapply calm_any, calm_tag_ops; by apply Hslot1).
  intros _ w10 _ Hw10. apply total_bind. eapply (total_get_res b _ _ _ _ _ Hw10).
  2: { intros err w11 He Hw11. destruct (Z.eqb_spec err 0); [lia |]. cbn [negb]. apply total_bind.
       eapply (total_out_phy _ _ _ _ _ Hw11). intros w12 Hw12. rewrite E0 in Hw12. apply total_ret, Herr; [lia | done]. }
  intros w11 Hw11. cbn [negb Z.eqb]. apply total_bind. eapply (total_get_res b _ _ _ _ _ Hw11).
  2: { intros err w12 He Hw12. destruct (Z.eqb_spec err 0); [lia |]. cbn [negb]. apply total_bind.
       unfold user_out_unregister. giving Hw12. intros w13 Hw13. eapply (total_out_phy _ _ _ _ _ Hw13).
       intros w14 Hw14. rewrite E0 in Hw14. apply total_ret, Herr; [lia | done]. }
  intros w12 Hw12. cbn [negb Z.eqb]. by apply total_ret, Hok.
Qed.

Lemma total_user_destroy w0 p l w (Q : unit -> world H -> Prop) : sane w0 -> has_port w0 p -> user_slot w0 p ->
  (forall dp, get_port w0 p = Some dp -> is_Some (dp_netdev dp)) ->
  at_ b w0 (user_holds p ++ l) w ->
  (forall w', at_ b (upd_port p (set_pl false) w0) l w' -> Q tt w') ->
  total (dsa_user_destroy p) w Q.
Proof using b_pos QuietNet0.
  intros Hs Hp Hslot Hd Hw HQ. unfold dsa_user_destroy.
  calmly Hw by (apply calm_conduit_of; [done | apply Hslot]). intros conduit w1 _ Hw1.
  calmly Hw1 by (by apply calm_user_of). intros user w2 _ Hw2.
  calmly Hw2 by (apply calm_effect, quiet_carrier). intros _ w3 _ Hw3. cbn [app user_holds] in Hw3.
  giving Hw3. intros w4 Hw4. giving Hw4. intros w5 Hw5.
  calmly Hw5 by (apply calm_effect, quiet_disconnect). intros _ w6 _ Hw6.
  apply total_bind. eapply (total_phylink_destroy _ _ _ _ _ Hw6). intros w7 Hw7.
  giving Hw7. intros w8 Hw8. giving Hw8. intros w9 Hw9.
  eapply (total_put _ b_pos _ _ _ _ _ Hw9). exact HQ.
Qed.

(** ** The link of a shared port *)

Lemma calm_node_of w0 p dp dn : get_port w0 p = Some dp -> dp_dn dp = Some dn -> calm w0 (node_of p) (eq dn).
Proof using.
  intros Hp Hdn. eapply calm_bind; [apply calm_port_of; by exists dp |]. intros dq (dq0 & Hdq & E).
  rewrite Hp in Hdq. injection Hdq as <-. apply strip_port_all in E as (_ & _ & _ & _ & _ & _ & _ & _ & _ & E & _).
  by eapply calm_deref; [rewrite <- E |].
Qed.

Lemma calm_driver w0 p d0 : sane w0 -> has_port w0 p -> w_switches w0 !! fst p = Some d0 ->
  calm w0 (switch_of p) (fun d => ds_ops d = ds_ops d0).
Proof using.
  intros Hs Hp Hd b' l w Hw. eapply total_weaken; [| by apply calm_switch_of]. cbv beta.
  intros d w' (Hw' & d1 & Hd1 & E). split; [done |]. rewrite Hd in Hd1. injection Hd1 as <-.
  by apply strip_ds_fields in E as (_ & _ & -> & _).
Qed.

Lemma calm_adjust w0 d d0 p : sane w0 -> w_switches w0 !! fst p = Some d0 -> ds_ops d = ds_ops d0 ->
  calm w0 (call_adjust_link d p) T.
Proof using.
  intros Hs Hd E. unfold call_adjust_link. rewrite E. destruct (op_adjust_link _) as [g |] eqn:Eg; [| by apply calm_ret].
  apply calm_effect, (df_adjust _ _ (sn_driver _ Hs _ _ Hd) _ _ Eg).
Qed.

Lemma calm_setup_phy w0 p dp dn en : sane w0 -> get_port w0 p = Some dp -> dp_dn dp = Some dn ->
  calm w0 (dsa_shared_port_setup_phy_of p en) T.
Proof using QuietNet0.
  intros Hs Hp Hdn. assert (Hp' : has_port w0 p) by (by exists dp).
  destruct (port_known w0 Hs p Hp') as [d0 Hd0]. unfold dsa_shared_port_setup_phy_of.
  eapply calm_bind; [by apply calm_driver |]. intros d Ed.
  eapply calm_bind; [by eapply calm_node_of |]. intros dn' <-.
  destruct (dsa_port_get_phy_device dn) as [[err | phydev] |]; [by apply calm_ret | | by apply calm_ret].
  eapply (calm_bind _ _ _ T).
  { destruct en; [| apply calm_call, quiet_suspend].
    eapply calm_bind; [apply calm_call, quiet_resume |]. intros err _.
    case_match; [by apply calm_ret | apply calm_call, quiet_status]. }
  intros err _. case_match; [by apply calm_ret |].
  eapply calm_bind; [by eapply calm_adjust |]. intros _ _. by apply calm_ret.
Qed.

Lemma set_pl_id dp : dp_pl dp = false -> set_pl false dp = dp.
Proof using. destruct dp; cbn. by intros ->. Qed.

Lemma total_shared_phylink w0 p dp l w (Q : Z -> world H -> Prop) : sane w0 -> get_port w0 p = Some dp ->
  dp_pl dp = false -> at_ b w0 l w ->
  (forall w', at_ b (upd_port p (set_pl true) w0) (Phylink p :: l) w' -> Q 0 w') ->
  (forall err w', err <> 0 -> at_ b w0 l w' -> Q err w') ->
  total (dsa_shared_port_phylink_register p) w Q.
Proof using b_pos QuietNet0.
  intros Hs Hp Epl Hw Hok Herr. unfold dsa_shared_port_phylink_register. apply total_bind.
  eapply (total_phylink_create _ _ _ _ _ Hw).
  2: { intros err w1 Herr1 Hw1. destruct (Z.eqb_spec err 0); [lia |]. by apply total_ret, Herr. }
  intros w1 Hw1. cbn [negb Z.eqb]. calmly Hw1 by (apply calm_call, quiet_of_connect). intros err w2 _ Hw2.
  destruct (Z.eqb_spec err 0); [by apply total_ret, Hok |]. destruct (Z.eqb_spec err (- ENODEV)); [by apply total_ret, Hok |].
  cbn [negb andb]. apply total_bind. eapply (total_phylink_destroy _ _ _ _ _ Hw2). intros w3 Hw3.
  apply total_ret, Herr; [done |].
  rewrite upd_upd, (upd_same _ _ _ dp) in Hw3; [done | apply Hs | done | exact (set_pl_id _ Epl) | done].
Qed.

(** What registering the link leaves: with or without a phylink instance. *)
Definition link_pl (ops : dsa_switch_ops H) (dp : dsa_port) (pl : bool) : Prop :=
  is_Some (op_adjust_link (op_switch ops)) \/ dp_dn dp = None -> pl = false.

Lemma total_link_register w0 p d0 dp dn l w (Q : Z -> world H -> Prop) : sane w0 ->
  w_switches w0 !! fst p = Some d0 -> get_port w0 p = Some dp -> dp_dn dp = Some dn -> dp_pl dp = false ->
  at_ b w0 l w ->
  (forall pl w', link_pl (ds_ops d0) dp pl ->
     at_ b (upd_port p (set_pl pl) w0) (link_holds (ds_ops d0) p (set_pl pl dp) ++ l) w' -> Q 0 w') ->
  (forall err w', err <> 0 -> at_ b w0 l w' -> Q err w') ->
  total (dsa_shared_port_link_register_of p) w Q.
Proof using b_pos QuietNet0.
  intros Hs Hd0 Hp Hdn Epl Hw Hok Herr. assert (Hp' : has_port w0 p) by (by exists dp).
  assert (E0 : upd_port p (set_pl false) w0 = w0).
  { apply (upd_same _ _ _ dp); [apply Hs | done | by apply set_pl_id]. }
  assert (Hno : forall w', link_holds (ds_ops d0) p (set_pl false dp) = [] -> at_ b w0 l w' -> Q 0 w').
  { intros w' E Hw'. apply (Hok false); [done |]. by rewrite E0, E. }
  assert (Hh : link_holds (ds_ops d0) p (set_pl false dp) = if of_phy_is_fixed_link dn then [FixedLink p] else []).
  { unfold link_holds. destruct dp; cbn in *. by rewrite Hdn, orb_true_r. }
  unfold dsa_shared_port_link_register_of.
  calmly Hw by (by apply calm_driver). intros d w1 Ed Hw1.
  calmly Hw1 by (by eapply calm_node_of). intros dn' w2 <- Hw2.
  unfold dsa_shared_port_validate_of. cbv beta iota zeta.
  destruct (_ && negb (of_device_compatible_match _)); [by apply total_ret, Herr |].
  rewrite Ed. destruct (op_adjust_link _) as [adj |] eqn:Ea.
  - destruct (of_phy_is_fixed_link dn) eqn:Ef.
    + unfold dsa_shared_port_fixed_link_register_of.
      calmly Hw2 by (by apply calm_driver). intros d' w3 Ed' Hw3.
      calmly Hw3 by (by eapply calm_node_of). intros dn' w4 <- Hw4.
      apply total_bind. eapply (total_get_res b _ _ _ _ _ Hw4).
      2: { intros err w5 He Hw5. destruct (Z.eqb_spec err 0); [lia |]. by apply total_ret, Herr. }
      intros w5 Hw5. cbn [negb Z.eqb]. calmly Hw5 by (apply calm_call, quiet_status). intros _ w6 _ Hw6.
      calmly Hw6 by (by eapply calm_adjust). intros _ w7 _ Hw7. apply total_ret, (Hok false); [done |].
      by rewrite E0, Hh.
    + eapply (total_calm _ _ _ _ _ _ _ Hw2); [by eapply calm_setup_phy |]. intros err w3 _ Hw3.
      destruct (Z.eqb_spec err 0) as [-> | Hne]; [by apply Hno | by apply Herr].
  - destruct (negb (of_phy_is_fixed_link dn) && _) eqn:El.
    + apply total_ret, Hno; [| done]. rewrite Hh. by destruct (of_phy_is_fixed_link dn).
    + apply total_bind. eapply (total_calm _ _ _ _ _ T _ Hw2).
      { destruct (op_phylink_mac_link_down _) as [g |] eqn:Eg; [| by apply calm_ret].
        apply calm_effect, (df_down _ _ (sn_driver _ Hs _ _ Hd0) _ _ Eg). }
      intros _ w3 _ Hw3. eapply (total_shared_phylink _ _ _ _ _ _ Hs Hp Epl Hw3); [| done].
      intros w4 Hw4. apply (Hok true).
      { intros [[] | E]; [congruence |]. congruence. }
      unfold link_holds. destruct dp; cbn in *. by rewrite Hdn, Ea.
Qed.

Lemma total_link_unregister w0 p d0 dp dn l w (Q : unit -> world H -> Prop) : sane w0 ->
  w_switches w0 !! fst p = Some d0 -> get_port w0 p = Some dp -> dp_dn dp = Some dn ->
  link_pl (ds_ops d0) dp (dp_pl dp) ->
  at_ b w0 (link_holds (ds_ops d0) p dp ++ l) w ->
  (forall w', at_ b (upd_port p (set_pl false) w0) l w' -> Q tt w') ->
  total (dsa_shared_port_link_unregister_of p) w Q.
Proof using b_pos QuietNet0.
  intros Hs Hd0 Hp Hdn Hpl Hw HQ. assert (Hp' : has_port w0 p) by (by exists dp).
  unfold dsa_shared_port_link_unregister_of.
  calmly Hw by (by apply calm_driver). intros d w1 Ed Hw1.
  calmly Hw1 by (by apply calm_port_of). intros dq w2 (dq0 & Hdq & E) Hw2.
  rewrite Hp in Hdq. injection Hdq as <-. apply strip_port_all in E as (_ & _ & _ & _ & _ & _ & _ & _ & _ & _ & E).
  rewrite Ed, <- E. unfold link_holds in Hw2. rewrite Hdn in Hw2. destruct (_ || _) eqn:Eo.
  - assert (E0 : upd_port p (set_pl false) w0 = w0).
    { apply (upd_same _ _ _ dp); [apply Hs | done |].
      apply set_pl_id.
      apply orb_true_iff in Eo as [Eo%bool_decide_eq_true | Eo]; [apply Hpl; by left | by destruct (dp_pl dp)]. }
    rewrite E0 in HQ. calmly Hw2 by (by eapply calm_node_of). intros dn' w3 <- Hw3.
    destruct (of_phy_is_fixed_link dn).
    + by eapply (total_put _ b_pos _ _ _ _ _ Hw3).
    + calmly Hw3 by (by eapply calm_setup_phy). intros _ w4 _ Hw4. by apply total_ret, HQ.
  - calmly Hw2 by (apply calm_effect, quiet_disconnect). intros _ w3 _ Hw3.
    by eapply (total_phylink_destroy _ _ _ _ _ Hw3).
Qed.

Lemma total_shared_up w0 p d0 dp l w (Q : Z -> world H -> Prop) : sane w0 ->
  w_switches w0 !! fst p = Some d0 -> get_port w0 p = Some dp -> dp_pl dp = false -> at_ b w0 l w ->
  (forall pl w', link_pl (ds_ops d0) dp pl ->
     at_ b (upd_port p (set_pl pl) w0) (link_holds (ds_ops d0) p (set_pl pl dp) ++ l) w' -> Q 0 w') ->
  (forall err w', err <> 0 -> at_ b w0 l w' -> Q err w') ->
  total (shared_port_up p) w Q.
Proof using b_pos QuietNet0.
  intros Hs Hd0 Hp Epl Hw Hok Herr. assert (Hp' : has_port w0 p) by (by exists dp).
  assert (E0 : upd_port p (set_pl false) w0 = w0).
  { apply (upd_same _ _ _ dp); [apply Hs | done | by apply set_pl_id]. }
  unfold shared_port_up, port_link_register. apply total_bind.
  calmly Hw by (by apply calm_port_of). intros dq w1 (dq0 & Hdq & E) Hw1.
  rewrite Hp in Hdq. injection Hdq as <-. apply strip_port_all in E as (_ & _ & _ & _ & _ & _ & _ & _ & _ & E & _).
  rewrite <- E. destruct (dp_dn dp) as [dn |] eqn:Edn.
  - apply total_bind. eapply (total_link_register _ _ _ _ _ _ _ _ Hs Hd0 Hp Edn Epl Hw1).
    2: { intros err w2 Hne Hw2. apply total_ret. destruct (Z.eqb_spec err 0); [done |]. cbn [negb].
         apply total_bind, total_ret. destruct (Z.eqb_spec err 0); [done |]. by apply total_ret, Herr. }
    intros pl w2 Hpl Hw2. apply total_ret. cbn [negb Z.eqb].
    assert (Hs2 : sane (upd_port p (set_pl pl) w0)) by (by apply sane_upd, assigns_pl).
    assert (Hp2 : get_port (upd_port p (set_pl pl) w0) p = Some (set_pl pl dp)) by (by apply get_upd_eq).
    calmly Hw2 by (apply calm_enable; [done | by exists (set_pl pl dp)]). intros err w3 _ Hw3.
    destruct (Z.eqb_spec err 0) as [-> | Hne]; cbn [negb andb]; [by eapply total_ret, Hok |].
    apply total_bind. eapply (total_link_unregister _ _ _ _ _ _ _ _ Hs2 Hd0 Hp2 Edn); [exact Hpl | exact Hw3 |].
    intros w4 Hw4. apply total_ret, Herr; [done |].
    rewrite upd_upd in Hw4 by done. change (at_ b (upd_port p (set_pl false) w0) l w4) in Hw4. by rewrite E0 in Hw4.
  - apply total_ret. cbn [negb Z.eqb].
    calmly Hw1 by (by apply calm_enable). intros err w2 _ Hw2.
    destruct (Z.eqb_spec err 0) as [-> | Hne]; cbn [negb andb]; apply total_ret; [| by apply Herr].
    apply (Hok false); [done |]. rewrite E0. unfold link_holds. cbn [dp_dn set_pl]. by rewrite Edn.
Qed.

Lemma total_shared_down w0 p d0 dp l w (Q : unit -> world H -> Prop) : sane w0 ->
  w_switches w0 !! fst p = Some d0 -> get_port w0 p = Some dp -> link_pl (ds_ops d0) dp (dp_pl dp) ->
  at_ b w0 (link_holds (ds_ops d0) p dp ++ l) w ->
  (forall w', at_ b (upd_port p (set_pl false) w0) l w' -> Q tt w') ->
  total (shared_port_down p) w Q.
Proof using b_pos QuietNet0.
  intros Hs Hd0 Hp Hpl Hw HQ. assert (Hp' : has_port w0 p) by (by exists dp). unfold shared_port_down.
  calmly Hw by (by apply calm_port_of). intros dq w1 (dq0 & Hdq & E) Hw1.
  rewrite Hp in Hdq. injection Hdq as <-. apply strip_port_all in E as (_ & _ & _ & _ & _ & _ & _ & _ & _ & E & _).
  calmly Hw1 by (by apply calm_disable). intros _ w2 _ Hw2. rewrite <- E. destruct (dp_dn dp) as [dn |] eqn:Edn.
  - by eapply (total_link_unregister _ _ _ _ _ _ _ _ Hs Hd0 Hp Edn Hpl Hw2).
  - apply total_ret, HQ.
    rewrite (upd_same _ _ _ dp); [| apply Hs | done | apply set_pl_id, Hpl; by right].
    unfold link_holds in Hw2. by rewrite Edn in Hw2.
Qed.

(** ** The port *)

Lemma at_take w0 l r w h : at_ b w0 l w ->
  (forall x, held h x = held (w_hw w) x + one r x) -> at_ b w0 (r :: l) (set_hw w h).
Proof using. intros [Hs Hg Hw Hh] E. split; try done. intros x. cbn. rewrite E, Hh. lia. Qed.

Lemma at_give w0 l r w h : at_ b w0 (r :: l) w ->
  (1 <= held (w_hw w) r -> forall x, held h x = held (w_hw w) x - one r x) -> at_ b w0 l (set_hw w h).
Proof using b_pos.
  intros [Hs Hg Hw Hh] E. split; try done. intros x. cbn. rewrite E, Hh; cbn; [lia |].
  rewrite Hh. cbn. rewrite one_refl. pose proof (occ_pos r l). pose proof (b_pos r). lia.
Qed.

Lemma total_devlink_setup w0 p d0 l w (Q : Z -> world H -> Prop) : sane w0 -> has_port w0 p ->
  w_switches w0 !! fst p = Some d0 -> at_ b w0 l w ->
  (forall w', at_ b w0 (devlink_holds (ds_ops d0) p ++ l) w' -> Q 0 w') ->
  (forall err w', err <> 0 -> at_ b w0 l w' -> Q err w') ->
  total (dsa_port_devlink_setup p) w Q.
Proof using b_pos.
  intros Hs Hp Hd0 Hw Hok Herr. unfold dsa_port_devlink_setup, devlink_holds in *.
  pose proof (sn_driver _ Hs _ _ Hd0) as Hf.
  calmly Hw by (by apply calm_driver). intros d w1 Ed Hw1. rewrite Ed.
  destruct (op_port_setup _) as [g |] eqn:Eg.
  - pose proof (df_port_setup _ _ Hf g (snd p) Eg) as [Htake Hback]. apply total_bind. unfold total, call_fun.
    pose proof (Htake (w_hw w1)) as Ht. destruct (g (fst p) (snd p) (w_hw w1)) as [err h] eqn:E.
    cbn [fst snd] in Ht. destruct (Z.eqb_spec err 0) as [-> | Hne]; cbn [negb] in Ht |- *.
    2: { apply total_ret, Herr; [done |]. apply at_hw; [done |]. intros x. rewrite Ht. lia. }
    apply total_bind. destruct (op_port_teardown _) as [u |] eqn:Eu; cbn [fmap option_fmap option_map] in Ht.
    + rewrite <- surjective_pairing in Ht, Hback.
      eapply (total_get_res b _ _ _ _ _ (at_take _ _ _ _ _ Hw1 Ht)).
      * intros w2 Hw2. cbn [negb Z.eqb]. by apply total_ret, Hok.
      * intros err w2 He Hw2. destruct (Z.eqb_spec err 0); [lia |]. cbn [negb]. apply total_bind.
        apply total_ret, Herr; [lia |]. eapply at_give; [exact Hw2 |]. intros Hh x. by apply (Hback (u (fst p) (snd p))).
    + assert (Hw2 : at_ b w0 l (set_hw w1 h)) by (apply at_hw; [done |]; intros x; rewrite Ht; lia).
      eapply (total_get_res b _ _ _ _ _ Hw2).
      * intros w2 Hw3. cbn [negb Z.eqb]. by apply total_ret, Hok.
      * intros err w2 He Hw3. destruct (Z.eqb_spec err 0); [lia |]. cbn [negb]. apply total_bind, total_ret.
        apply total_ret, Herr; [lia | done].
  - rewrite (df_port_paired _ _ Hf Eg). apply total_bind, total_ret. cbn [negb Z.eqb]. apply total_bind.
    eapply (total_get_res b _ _ _ _ _ Hw1).
    + intros w2 Hw2. cbn [negb Z.eqb]. by apply total_ret, Hok.
    + intros err w2 He Hw3. destruct (Z.eqb_spec err 0); [lia |]. cbn [negb]. apply total_bind, total_ret.
      apply total_ret, Herr; [lia | done].
Qed.

Lemma total_devlink_teardown w0 p d0 l w (Q : unit -> world H -> Prop) : sane w0 -> has_port w0 p ->
  w_switches w0 !! fst p = Some d0 -> at_ b w0 (devlink_holds (ds_ops d0) p ++ l) w ->
  (forall w', at_ b w0 l w' -> Q tt w') ->
  total (dsa_port_devlink_teardown p) w Q.
Proof using b_pos.
  intros Hs Hp Hd0 Hw HQ. unfold dsa_port_devlink_teardown, devlink_holds in *.
  pose proof (sn_driver _ Hs _ _ Hd0) as Hf.
  calmly Hw by (by apply calm_driver). intros d w1 Ed Hw1. rewrite Ed. cbn [app] in Hw1. giving Hw1. intros w2 Hw2.
  destruct (op_port_setup _) as [g |] eqn:Eg.
  - destruct (op_port_teardown _) as [u |] eqn:Eu; [| by apply total_ret, HQ].
    pose proof (df_port_setup _ _ Hf g (snd p) Eg) as [_ Hback]. rewrite Eu in Hback. rewrite <- surjective_pairing in Hback.
    apply HQ. eapply at_give; [exact Hw2 |]. intros Hh x. by apply (Hback (u (fst p) (snd p))).
  - rewrite (df_port_paired _ _ Hf Eg). by apply total_ret, HQ.
Qed.

(** A port that is down, and what bringing it up makes of it. *)
Record port_down w (p : pid) (dp : dsa_port) : Prop := {
  pd_port : get_port w p = Some dp;
  pd_setup : dp_setup dp = false;
  pd_pl : dp_pl dp = false;
  pd_user : dp_type dp = DSA_PORT_TYPE_USER -> dp_netdev dp = None /\ user_slot w p;
}.

Definition up_step (ops : dsa_switch_ops H) (p : pid) (dp : dsa_port) (g : dsa_port -> dsa_port) : Prop :=
  match dp_type dp with
  | DSA_PORT_TYPE_UNUSED => g = fun dp => dp
  | DSA_PORT_TYPE_CPU | DSA_PORT_TYPE_DSA => exists pl, link_pl ops dp pl /\ g = set_pl pl
  | DSA_PORT_TYPE_USER => g = user_on p
  end.

Lemma up_step_assigns ops p dp g : up_step ops p dp g -> assigns g.
Proof using.
  unfold up_step. destruct (dp_type dp).
  - intros ->. by split.
  - intros (pl & _ & ->). apply assigns_pl.
  - intros (pl & _ & ->). apply assigns_pl.
  - intros ->. apply (assigns_comp (set_pl true) (set_netdev _)); [apply assigns_pl | apply assigns_netdev].
Qed.

Lemma total_port_up w0 p d0 dp l w (Q : Z -> world H -> Prop) : sane w0 ->
  w_switches w0 !! fst p = Some d0 -> port_down w0 p dp -> at_ b w0 l w ->
  (forall g w', up_step (ds_ops d0) p dp g ->
     at_ b (upd_port p (fun dp => set_setup true (g dp)) w0)
       (kind_holds (ds_ops d0) p (g dp) ++ devlink_holds (ds_ops d0) p ++ l) w' -> Q 0 w') ->
  (forall err w', err <> 0 -> at_ b w0 l w' -> Q err w') ->
  total (dsa_port_setup tagger_data p) w Q.
Proof using b_pos QuietNet0.
  intros Hs Hd0 [Hp Eset Epl Huser] Hw Hok Herr. assert (Hp' : has_port w0 p) by (by exists dp). unfold dsa_port_setup.
  calmly Hw by (by apply calm_port_of). intros dq w1 (dq0 & Hdq & E) Hw1.
  rewrite Hp in Hdq. injection Hdq as <-. apply strip_port_all in E as (_ & _ & Et & _ & _ & _ & _ & _ & Es & _).
  rewrite <- Es, Eset. apply total_bind. eapply (total_devlink_setup _ _ _ _ _ _ Hs Hp' Hd0 Hw1).
  2: { intros err w2 Hne Hw2. destruct (Z.eqb_spec err 0); [done |]. by apply total_ret, Herr. }
  intros w2 Hw2. cbn [negb Z.eqb]. rewrite <- Et.
  assert (Hdone : forall g w', up_step (ds_ops d0) p dp g ->
    at_ b (upd_port p g w0) (kind_holds (ds_ops d0) p (g dp) ++ devlink_holds (ds_ops d0) p ++ l) w' ->
    total (_ ← modify (upd_port p (set_setup true)); mret 0) w' Q).
  { intros g w' Hg Hw'. updating Hw' by (apply assigns_setup). intros w'' Hw''.
    eapply total_ret, Hok; [exact Hg |]. rewrite upd_upd in Hw''; [done |].
    intros d. by apply (up_step_assigns _ _ _ _ Hg). }
  assert (Hfail : forall err w', err <> 0 -> at_ b w0 (devlink_holds (ds_ops d0) p ++ l) w' ->
    total (_ ← dsa_port_devlink_teardown p; mret err) w' Q).
  { intros err w' Hne Hw'. apply total_bind. eapply (total_devlink_teardown _ _ _ _ _ _ Hs Hp' Hd0 Hw').
    intros w'' Hw''. by apply total_ret, Herr. }
  assert (Hkind : forall g, up_step (ds_ops d0) p dp g -> dp_type (g dp) = dp_type dp).
  { intros g. unfold up_step. destruct (dp_type dp) eqn:Ey; [intros -> | intros (? & _ & ->) | intros (? & _ & ->) | intros ->]; exact Ey. }
  assert (Hshared : (dp_type dp = DSA_PORT_TYPE_CPU \/ dp_type dp = DSA_PORT_TYPE_DSA) ->
    total (err ← shared_port_up p; if negb (err =? 0) then _ ← dsa_port_devlink_teardown p; mret err
           else _ ← modify (upd_port p (set_setup true)); mret 0) w2 Q).
  { intros Hk. apply total_bind. eapply (total_shared_up _ _ _ _ _ _ _ Hs Hd0 Hp Epl Hw2).
    2: { intros err w3 Hne Hw3. destruct (Z.eqb_spec err 0); [done |]. by apply Hfail. }
    intros pl w3 Hpl Hw3. cbn [negb Z.eqb]. apply (Hdone (set_pl pl)).
    - unfold up_step. by destruct Hk as [-> | ->]; exists pl.
    - unfold kind_holds. cbn [dp_type set_pl]. by destruct Hk as [-> | ->]. }
  destruct (dp_type dp) eqn:Ety.
  - apply total_bind. calmly Hw2 by (by apply calm_disable). intros _ w3 _ Hw3. apply total_ret. cbn [negb Z.eqb].
    apply (Hdone (fun dp => dp)); [unfold up_step; by rewrite Ety |].
    rewrite (upd_same _ _ _ dp); [| apply Hs | done | done]. unfold kind_holds. by rewrite Ety.
  - apply Hshared. by left.
  - apply Hshared. by right.
  - destruct (Huser eq_refl) as [En Hslot]. apply total_bind.
    eapply (total_user_create _ _ _ _ _ Hs); [by exists dp | exact Hslot | exact Hw2 | |].
    2: { intros err w3 Hne Hw3. destruct (Z.eqb_spec err 0); [done |]. by apply Hfail. }
    intros w3 Hw3. cbn [negb Z.eqb]. apply (Hdone (user_on p)); [unfold up_step; by rewrite Ety |].
    unfold kind_holds. cbn [dp_type user_on set_pl set_netdev dp_netdev]. by rewrite Ety.
Qed.

(** A port that is up. *)
Record port_up w (ops : dsa_switch_ops H) (p : pid) (dp : dsa_port) : Prop := {
  pu_port : get_port w p = Some dp;
  pu_setup : dp_setup dp = true;
  pu_pl : match dp_type dp with
          | DSA_PORT_TYPE_UNUSED => dp_pl dp = false
          | DSA_PORT_TYPE_CPU | DSA_PORT_TYPE_DSA => link_pl ops dp (dp_pl dp)
          | DSA_PORT_TYPE_USER => is_Some (dp_netdev dp) /\ user_slot w p
          end;
}.

Definition down_step (dp : dsa_port) : dsa_port :=
  set_setup false (match dp_type dp with
                   | DSA_PORT_TYPE_USER => set_netdev None (set_pl false dp)
                   | _ => set_pl false dp
                   end).
Lemma down_step_assigns : assigns down_step.
Proof using.
  split; [by intros []; cbn; destruct dp_type | | by intros []; cbn; destruct dp_type].
  intros dp dq (E1 & E2 & E3 & E4 & E5 & E6 & E7 & E8 & E9 & E10 & E11)%strip_port_all.
  destruct dp, dq. cbn in *. subst. by destruct dp_type0.
Qed.

Lemma total_port_down w0 p d0 dp l w (Q : unit -> world H -> Prop) : sane w0 ->
  w_switches w0 !! fst p = Some d0 -> port_up w0 (ds_ops d0) p dp ->
  at_ b w0 (kind_holds (ds_ops d0) p dp ++ devlink_holds (ds_ops d0) p ++ l) w ->
  (forall w', at_ b (upd_port p down_step w0) l w' -> Q tt w') ->
  total (dsa_port_teardown p) w Q.
Proof using b_pos QuietNet0.
  intros Hs Hd0 [Hp Eset Hpl] Hw HQ. assert (Hp' : has_port w0 p) by (by exists dp). unfold dsa_port_teardown.
  calmly Hw by (by apply calm_port_of). intros dq w1 (dq0 & Hdq & E) Hw1.
  rewrite Hp in Hdq. injection Hdq as <-. apply strip_port_all in E as (_ & _ & Et & En & _ & _ & _ & _ & Es & _).
  rewrite <- Es, Eset, <- Et, <- En. cbn [negb]. clear dq Et En Es.
  assert (Hend : forall g w', assigns g -> set_setup false (g dp) = down_step dp ->
    at_ b (upd_port p g w0) (devlink_holds (ds_ops d0) p ++ l) w' ->
    total (_ ← dsa_port_devlink_teardown p; modify (upd_port p (set_setup false))) w' Q).
  { intros g w' Hg E Hw'. apply total_bind. eapply (total_devlink_teardown _ _ _ _ _ _ (sane_upd _ _ _ Hs Hg)); [| done | exact Hw' |].
    { exists (g dp). apply get_upd_eq; [done | apply Hg]. }
    intros w'' Hw''. eapply (total_upd _ _ _ _ _ _ _ Hw''); [apply assigns_setup |]. intros w3 Hw3. apply HQ.
    rewrite upd_upd in Hw3 by apply Hg. by rewrite (upd_ext _ _ down_step _ dp) in Hw3 by (done || apply Hs). }
  assert (Hshared : (dp_type dp = DSA_PORT_TYPE_CPU \/ dp_type dp = DSA_PORT_TYPE_DSA) ->
    total (_ ← shared_port_down p; _ ← dsa_port_devlink_teardown p; modify (upd_port p (set_setup false))) w1 Q).
  { intros Hk. apply total_bind. eapply (total_shared_down _ _ _ _ _ _ _ Hs Hd0 Hp); [by destruct Hk as [E | E]; rewrite E in Hpl | |].
    { unfold kind_holds in Hw1. by destruct Hk as [E | E]; rewrite E in Hw1. }
    intros w2 Hw2. apply (Hend (set_pl false)); [apply assigns_pl | | done].
    unfold down_step. by destruct Hk as [-> | ->]. }
  unfold kind_holds in Hw1. destruct (dp_type dp) eqn:Ety.
  - apply total_bind, total_ret. apply (Hend (fun dp => dp)); [by split | | ].
    + unfold down_step. by rewrite Ety, set_pl_id.
    + by rewrite (upd_same _ _ _ dp) by (done || apply Hs).
  - apply Hshared. by left.
  - apply Hshared. by right.
  - destruct Hpl as [[nd En] Hslot]. rewrite En in Hw1 |- *. apply total_bind, total_bind.
    assert (Hd : forall dq, get_port w0 p = Some dq -> is_Some (dp_netdev dq)).
    { intros dq Hq. rewrite Hp in Hq. injection Hq as <-. by exists nd. }
    eapply (total_user_destroy _ _ _ _ _ Hs Hp' Hslot Hd Hw1). intros w2 Hw2.
    eapply (total_upd _ _ _ _ _ _ _ Hw2); [apply assigns_netdev |]. intros w3 Hw3. rewrite upd_upd in Hw3 by done.
    apply (Hend (fun d => set_netdev None (set_pl false d))); [| | exact Hw3].
    + apply (assigns_comp (set_netdev None) (set_pl false)); [apply assigns_netdev | apply assigns_pl].
    + unfold down_step. by rewrite Ety.
Qed.

End UpDown.

(** ** As a whole or not at all *)

Section Atomic.
Context {H : Type} `{RefcountApi, NotifierApi, NetQueries, !NetEffects H, !LifeApi H, !QuietNet H}.
Implicit Types (w : world H).

(** What is held grew by [l], respectively did not change. *)
Definition holds_more w (l : list resource) w' : Prop := forall x, held (w_hw w') x = held (w_hw w) x + occ x l.
Definition holds_same w w' : Prop := forall x, held (w_hw w') x = held (w_hw w) x.

Lemma at_self w : at_ (fun x => held (w_hw w) x) w [] w.
Proof using. split; try done. intros x. cbn. lia. Qed.

(** C19. Creating the interface of a user port fails as a whole: on every error path
    nothing is held that was not before, and the port is as before; otherwise
    exactly the interface, its statistics, its GRO cells, the phylink instance,
    the registration and the link to the conduit are held, and the port points
    to them. *)
Theorem user_create_atomic (tagger_data : H -> Z -> bool) w p :
  sane w -> port_off w p -> user_slot w p -> (forall x, 0 <= held (w_hw w) x) ->
  total (dsa_user_create tagger_data p) w (fun err w' =>
    if err =? 0 then holds_more w (user_holds p) w' /\
      same_shape (upd_port p (fun dp => set_pl true (set_netdev (Some (user_dev p)) dp)) w) w'
    else holds_same w w' /\ same_shape w w').
Proof.
  intros Hs Hoff Hslot Hpos.
  apply (total_user_create tagger_data (fun x => held (w_hw w) x) Hpos w p [] w); try done; [apply at_self | |].
  - intros w' [Hsh _ _ Hh]. split; [| exact Hsh]. intros x. by rewrite Hh, app_nil_r.
  - intros err w' Hne [Hsh _ _ Hh]. destruct (Z.eqb_spec err 0); [done |]. split; [| exact Hsh].
    intros x. rewrite Hh. cbn. lia.
Qed.

Lemma up_user_kept ops p dp g : up_step ops p dp g -> keeps_slot (fun dq => set_setup true (g dq)).
Proof using.
  intros Hg. split.
  - apply (assigns_comp (set_setup true) g); [apply assigns_setup | by eapply up_step_assigns].
  - unfold up_step in Hg. by destruct (dp_type dp); [subst g | destruct Hg as (? & _ & ->) .. | subst g].
  - unfold up_step in Hg. by destruct (dp_type dp); [subst g | destruct Hg as (? & _ & ->) .. | subst g].
Qed.

Lemma up_step_type ops p dp g : up_step ops p dp g -> dp_type (g dp) = dp_type dp.
Proof using.
  unfold up_step. destruct (dp_type dp) eqn:E; [intros -> | intros (? & _ & ->) | intros (? & _ & ->) | intros ->]; exact E.
Qed.

(** A port that came up can be taken down. *)
Lemma came_up w ops p dp g : port_down w p dp -> up_step ops p dp g ->
  port_up (upd_port p (fun dq => set_setup true (g dq)) w) ops p (set_setup true (g dp)).
Proof using.
  intros [Hp Es Epl Hu] Hg. pose proof (up_user_kept _ _ _ _ Hg) as Hk. split; [| done |].
  - apply (get_upd_eq w p (fun dq => set_setup true (g dq))); [done | apply Hk].
  - cbn [dp_type set_setup dp_pl dp_netdev]. rewrite (up_step_type _ _ _ _ Hg). unfold up_step in Hg.
    destruct (dp_type dp) eqn:Ety.
    + by subst g.
    + by destruct Hg as (pl & Hpl & ->).
    + by destruct Hg as (pl & Hpl & ->).
    + subst g. split; [by eexists |]. apply slot_upd; [done | by apply Hu | by exists dp].
Qed.

(** C18. A port of any kind comes up as a whole or not at all, whatever fails, and
    taking it down again gives back all that bringing it up took. *)
Theorem port_up_down (tagger_data : H -> Z -> bool) w p dp d :
  sane w -> w_switches w !! fst p = Some d -> port_down w p dp -> (forall x, 0 <= held (w_hw w) x) ->
  total (dsa_port_setup tagger_data p) w (fun err w' =>
    if err =? 0 then
      (exists dq, get_port w' p = Some dq /\ dp_setup dq = true /\
         holds_more w (kind_holds (ds_ops d) p dq ++ devlink_holds (ds_ops d) p) w') /\
      total (dsa_port_teardown p) w' (fun _ w'' => holds_same w w'' /\
        exists dq, get_port w'' p = Some dq /\ dp_setup dq = false)
    else holds_same w w' /\ same_shape w w').
Proof.
  intros Hs Hd Hdown Hpos. pose proof Hdown as [Hp _ _ _].
  apply (total_port_up tagger_data (fun x => held (w_hw w) x) Hpos w p d dp [] w); try done; [apply at_self | |].
  - intros g w' Hg Hw'. rewrite app_nil_r in Hw'. pose proof (up_user_kept _ _ _ _ Hg) as Hk.
    pose proof (came_up _ _ _ _ _ Hdown Hg) as Hup. set (w0 := upd_port p _ w) in *.
    assert (Hs0 : sane w0) by (apply sane_upd; [done | apply Hk]).
    change (kind_holds (ds_ops d) p (g dp)) with (kind_holds (ds_ops d) p (set_setup true (g dp))) in Hw'.
    destruct (strip_some _ _ _ _ (get_port_shape w0 w' p (at_shape _ _ _ _ Hw')) (pu_port _ _ _ _ Hup)) as (dq & Hq & E).
    pose proof (strip_port_all _ _ E) as (_ & _ & Et & En & _ & _ & _ & _ & Es & Ed & Epl). split.
    + exists dq. split_and!; [done | by rewrite <- Es |]. intros x. rewrite (at_held _ _ _ _ Hw').
      unfold kind_holds, link_holds. by rewrite <- Et, <- En, <- Ed, <- Epl.
    + rewrite <- (app_nil_r (devlink_holds _ _)) in Hw'.
      apply (total_port_down (fun x => held (w_hw w) x) Hpos w0 p d _ [] w' _ Hs0 Hd Hup Hw'). intros w'' Hw''. split.
      * intros x. rewrite (at_held _ _ _ _ Hw''). cbn. lia.
      * destruct (strip_some _ _ _ _ (get_port_shape _ w'' p (at_shape _ _ _ _ Hw''))
          (get_upd_eq w0 p down_step _ (pu_port _ _ _ _ Hup) (as_id _ down_step_assigns))) as (dq' & Hq' & E').
        exists dq'. apply strip_port_all in E' as (_ & _ & _ & _ & _ & _ & _ & _ & E' & _). by rewrite <- E'.
  - intros err w' Hne [Hsh _ _ Hh]. destruct (Z.eqb_spec err 0); [done |]. split; [| exact Hsh].
    intros x. rewrite Hh. cbn. lia.
Qed.

End Atomic.

(** ** A kernel that counts *)

Module LifeDemo.
Import EventDemo.

(** What is held, and how the coming acquisitions end. *)
Definition kernel : Type := list resource * list Z.

Fixpoint drop (r : resource) (l : list resource) : list resource :=
  match l with [] => [] | x :: l => if decide (x = r) then l else x :: drop r l end.

Lemma occ_drop r l x : 1 <= occ r l -> occ x (drop r l) = occ x l - one r x.
Proof.
  induction l as [| y l IH]; cbn; [lia |]. destruct (decide (y = r)) as [-> | Hne]; [lia |].
  intros Hr. cbn. rewrite IH; [lia |]. unfold one in Hr at 1. rewrite decide_False in Hr by done. lia.
Qed.

Definition sure (r : resource) : bool :=
  match r with MdioRegistered _ | DevlinkRegistered _ => true | _ => false end.
Definition kernel_get (r : resource) (h : kernel) : Z * kernel :=
  if sure r then (0, (r :: fst h, snd h))
  else match snd h with
  | [] => (0, (r :: fst h, []))
  | e :: es => if e <? 0 then (e, (fst h, es)) else (0, (r :: fst h, es))
  end.
Definition kernel_put (r : resource) (h : kernel) : kernel := (drop r (fst h), snd h).

#[export] Instance effects_demo : NetEffects kernel := {|
  vlan_vid_add _ _ _ h := (0, h);
  vlan_vid_del _ _ _ h := h;
  dev_uc_add _ _ h := (0, h);
  dev_uc_del _ _ h := (0, h);
  dev_mc_add _ _ h := (0, h);
  dev_mc_del _ _ h := (0, h);
  fdb_flush_to_bridge _ _ h := h;
  set_ctag_filter _ _ h := h;
  dev_open _ h := (0, h);
  dev_addr _ _ := 5;
  eth_hw_addr_set _ _ h := h;
  phylink_start _ h := h;
  phylink_stop _ h := h |}.

#[export] Instance life_demo : LifeApi kernel.
Proof.
  refine {| acquire := kernel_get; release := kernel_put; held h x := occ x (fst h);
    user_dev p := 1000 * fst p + snd p; init_user_dev _ _ h := h; netif_carrier_off _ h := h;
    phylink_of_phy_connect _ h := (0, h); mdiobus_get_phy _ _ _ := true; phylink_connect_phy _ _ h := (0, h);
    phylink_disconnect_phy _ h := h; or_phys_mii_mask _ _ h := h; device_link_add _ _ h := h;
    dev_set_promiscuity _ _ h := h; set_dsa_ptr _ _ h := h;
    of_get_phy_mode _ := true; of_phy_is_fixed_link n := 10 <=? n; of_phy_handle _ := false; of_phy_find_device _ := false;
    of_device_compatible_match _ := false; genphy_resume _ h := (0, h); genphy_read_status _ h := (0, h);
    genphy_suspend _ h := (0, h); dev_mtu _ _ := 1500; dev_max_mtu _ _ := 9000; dev_set_mtu _ _ h := (0, h);
    assign_mtu _ _ h := h;
    mtu_enforcement_ingress _ := false; qdisc_tx_is_noop _ := false; netif_oper_up _ := true |}; try done.
  - intros r [rs es] x. unfold kernel_get. destruct (sure r); cbn; [lia |]. destruct es as [| e es]; cbn; [lia |].
    destruct (Z.ltb_spec e 0); cbn; lia.
  - intros r [rs es]. unfold kernel_get. destruct (sure r); cbn; [lia |]. destruct es as [| e es]; cbn; [lia |].
    destruct (Z.ltb_spec e 0); cbn; lia.
  - intros r [rs es] x. unfold kernel_get. destruct (sure r); cbn; [lia |]. destruct es as [| e es]; cbn; [lia |].
    destruct (Z.ltb_spec e 0); cbn; lia.
  - intros r [rs es] x Hr. cbn in *. by apply occ_drop.
Defined.

#[export] Instance quiet_demo : QuietNet kernel.
Proof. by split. Defined.

(** A driver that holds something of its own for the switch and for each port. *)
Definition life_setup : dsa_setup_ops kernel :=
  mkSetupOps (fun ds h => (0, (Driver ds :: fst h, snd h))) (Some (fun ds => kernel_put (Driver ds))) None
    (fun _ _ _ _ => 1) None None true
    (Some (fun ds p h => (0, (PortDriver (ds, p) :: fst h, snd h)))) (Some (fun ds p => kernel_put (PortDriver (ds, p))))
    None None.
Definition life_ops : dsa_switch_ops kernel :=
  mkOps None (Some (fun _ _ _ h => (0, h))) None None None None None None None None None None None None None None
    None None None None None None None no_port_ops life_setup.
Definition life_ds (i : Z) (up : bool) : dsa_switch kernel := mkDs i 5 false false 0 0 life_ops None up false true false 4 0 false.
Definition life_tagger : dsa_device_ops kernel := mkTagger 7 1 None None 8 0 false.

Definition life_port (ds i : Z) (t : dsa_port_type) (dev : option netdev) (c : option pid) (dn : option Z) : dsa_port :=
  mkPort ds i t dev c 0 false false true true false 0 None None None [] [] [] false false dn false.

(** A user port, a link and the CPU port of one switch, a user port and a link of
    another. *)
Definition life_world (c : option pid) (errs : list Z) : world kernel :=
  mkWorld (mkTree 0 2 LagsNull (Some life_tagger) 1 false 0 1)
    [life_port 1 0 DSA_PORT_TYPE_USER None c None; life_port 1 1 DSA_PORT_TYPE_DSA None c (Some 10);
     life_port 1 4 DSA_PORT_TYPE_CPU (Some 200) None (Some 11);
     life_port 2 0 DSA_PORT_TYPE_USER None c None; life_port 2 1 DSA_PORT_TYPE_DSA None c (Some 12)]
    [] {[ 1 := life_ds 0 false; 2 := life_ds 1 false ]} ∅ ∅ [] ([], errs) [] [].

Lemma life_switches c errs ds d : w_switches (life_world c errs) !! ds = Some d ->
  (ds = 1 /\ d = life_ds 0 false) \/ (ds = 2 /\ d = life_ds 1 false).
Proof.
  cbn. intros [[<- <-] | [Hne E]]%lookup_insert_Some; [by left |].
  apply lookup_singleton_Some in E as [<- <-]. by right.
Qed.

Lemma life_fine ds : driver_fine ds life_ops.
Proof.
  split; try done.
  - intros f p m [= <-]. done.
  - split.
    + intros h x. cbn. lia.
    + intros g h x [= <-] Hh. by apply occ_drop.
  - intros f p [= <-]. split.
    + intros h x. cbn. lia.
    + intros g h x [= <-] Hh. by apply occ_drop.
Qed.

Lemma life_ports c errs dp : dp ∈ w_ports (life_world c errs) ->
  dp = life_port 1 0 DSA_PORT_TYPE_USER None c None \/ dp = life_port 1 1 DSA_PORT_TYPE_DSA None c (Some 10) \/
  dp = life_port 1 4 DSA_PORT_TYPE_CPU (Some 200) None (Some 11) \/ dp = life_port 2 0 DSA_PORT_TYPE_USER None c None \/
  dp = life_port 2 1 DSA_PORT_TYPE_DSA None c (Some 12).
Proof. cbn. rewrite !elem_of_cons, elem_of_nil. tauto. Qed.

Lemma life_sane c errs : sane (life_world c errs).
Proof.
  split.
  - apply (bool_decide_unpack _). reflexivity.
  - intros dp Hdp. by destruct (life_ports _ _ _ Hdp) as [-> | [-> | [-> | [-> | ->]]]]; eexists.
  - by intros ds ?%not_elem_of_nil.
  - intros ds d Hd. by destruct (life_switches _ _ _ _ Hd) as [[-> ->] | [-> ->]]; apply life_fine.
Qed.

Lemma life_free c errs x : 0 <= held (w_hw (life_world c errs)) x.
Proof. done. Qed.

Definition cabled_world := life_world (Some (1, 4)).

Lemma life_slot errs : user_slot (cabled_world errs) (1, 0).
Proof.
  split.
  - by intros dp [= <-].
  - intros dp [= <-]. exists (1, 4). by split_and!; [| | eexists].
  - intros dp [= <-]. by eexists.
  - by eexists.
Qed.

Lemma life_off errs : port_off (cabled_world errs) (1, 0).
Proof. by eexists. Qed.

Definition ends_with {A} (test : A -> kernel -> bool) (r : option (A * world kernel)) : bool :=
  match r with Some (a, w) => test a (w_hw w) | None => false end.

Lemma ends_with_inv {A} (test : A -> kernel -> bool) (r : option (A * world kernel)) :
  ends_with test r = true -> exists a w, r = Some (a, w) /\ test a (w_hw w) = true.
Proof. destruct r as [[a w] |]; [| done]. intros E. by exists a, w. Qed.
Lemma total_result {A} (m : st (world kernel) A) w Q a w' : total m w Q -> m w = Some (a, w') -> Q a w'.
Proof. unfold total. by intros HQ E; rewrite E in HQ. Qed.

(** Registration fails; then everything works. *)
Lemma user_create_witness : exists w1 w2,
  dsa_user_create (fun _ _ => false) (1, 0) (cabled_world [0; 0; 0; 0; -23]) = Some (-23, w1) /\
  holds_same (cabled_world [0; 0; 0; 0; -23]) w1 /\
  dsa_user_create (fun _ _ => false) (1, 0) (cabled_world []) = Some (0, w2) /\
  holds_more (cabled_world []) (user_holds (1, 0)) w2.
Proof.
  assert (T1 : ends_with (fun e _ => e =? -23) (dsa_user_create (fun _ _ => false) (1, 0) (cabled_world [0; 0; 0; 0; -23])) = true).
  { vm_compute. reflexivity. }
  assert (T2 : ends_with (fun e _ => e =? 0) (dsa_user_create (fun _ _ => false) (1, 0) (cabled_world [])) = true).
  { vm_compute. reflexivity. }
  apply ends_with_inv in T1 as (e1 & w1 & E1 & T1), T2 as (e2 & w2 & E2 & T2). apply Z.eqb_eq in T1, T2. subst e1 e2.
  pose proof (user_create_atomic (fun _ _ => false) (cabled_world [0; 0; 0; 0; -23]) (1, 0)
    (life_sane _ _) (life_off _) (life_slot _) (life_free _ _)) as G1.
  pose proof (user_create_atomic (fun _ _ => false) (cabled_world []) (1, 0)
    (life_sane _ _) (life_off _) (life_slot _) (life_free _ _)) as G2.
  eapply total_result in G1; [| exact E1]. eapply total_result in G2; [| exact E2].
  destruct G1 as [G1 _], G2 as [G2 _]. exists w1, w2. exact (conj E1 (conj G1 (conj E2 G2))).
Defined.

(** The CPU port, behind a fixed link. *)
Lemma port_up_down_witness : exists w1 w2,
  dsa_port_setup (fun _ _ => false) (1, 4) (cabled_world []) = Some (0, w1) /\
  held (w_hw w1) (Phylink (1, 4)) = 1 /\ held (w_hw w1) (PortDriver (1, 4)) = 1 /\
  dsa_port_teardown (1, 4) w1 = Some (tt, w2) /\ holds_same (cabled_world []) w2.
Proof.
  assert (Hd : port_down (cabled_world []) (1, 4) (life_port 1 4 DSA_PORT_TYPE_CPU (Some 200) None (Some 11))) by (by split).
  assert (T : ends_with (fun e h => (e =? 0) && ((held h (Phylink (1, 4)) =? 1) && (held h (PortDriver (1, 4)) =? 1)))
    (dsa_port_setup (fun _ _ => false) (1, 4) (cabled_world [])) = true).
  { vm_compute. reflexivity. }
  apply ends_with_inv in T as (e1 & w1 & E1 & T). apply andb_true_iff in T as [T0 T]. apply andb_true_iff in T as [T1 T2].
  apply Z.eqb_eq in T0, T1, T2. subst e1.
  pose proof (port_up_down (fun _ _ => false) (cabled_world []) (1, 4) _ (life_ds 0 false)
    (life_sane _ _) eq_refl Hd (life_free _ _)) as G.
  eapply total_result in G; [| exact E1]. destruct G as [_ G].
  destruct (total_some _ _ _ G) as (u & w2 & E2 & G2). destruct u, G2 as [G2 _].
  exists w1, w2. exact (conj E1 (conj T1 (conj T2 (conj E2 G2)))).
Defined.

End LifeDemo.
