(* ===== verification/DsaTreeLife.v ===== *)
(** * A tree up and down

    The accounting of [DsaAccount] for switches, conduits and whole trees: an
    account of what is held, read off the state of the tree, that setting up and
    tearing down keep, whatever fails in between. *)

From Stdlib Require Import ZArith Lia Bool.
From S2P Require Import Prelude.
From S2P Require Import Kernel.
From S2P Require Import DsaTypes.
From S2P Require Import DsaSwitch.
From S2P Require Import DsaEvent.
From S2P Require Import DsaSafe.
From S2P Require Import DsaGroups.
From S2P Require Import DsaPort.
From S2P Require Import DsaMember.
From S2P Require Import DsaLife.
From S2P Require Import DsaTree.
From S2P Require Import DsaAccount.
From S2P Require Import DsaUpDown.

(** What a switch that is up holds. *)
Definition mii_holds {H} (ds : Z) (d : dsa_switch H) : list resource :=
  if ds_user_mii_bus d && op_phy_read (op_switch (ds_ops d)) then [MdioRegistered ds; MiiBus ds] else [].
Definition driver_holds {H} (ds : Z) (d : dsa_switch H) : list resource :=
  match op_teardown (op_switch (ds_ops d)) with Some _ => [Driver ds] | None => [] end.
Definition switch_holds {H} (ds : Z) (d : dsa_switch H) : list resource :=
  DevlinkRegistered ds :: mii_holds ds d ++ driver_holds ds d ++ [Devlink ds].

Definition conduit_holds `{NetQueries} (dev : netdev) : list resource :=
  SysfsGroup dev :: (if netif_is_lag_master dev then [] else [EthtoolOps dev]).

Section TreeLife.
Context {H : Type} `{RefcountApi, NotifierApi, NetQueries, !NetEffects H, !LifeApi H, !QuietNet H}.
Context (tagger_data : H -> Z -> bool).
Context (mdio_registers : forall ds h, fst (acquire (H := H) (MdioRegistered ds) h) = 0).
Context (devlink_registers : forall ds h, fst (acquire (H := H) (DevlinkRegistered ds) h) = 0).
Implicit Types (w : world H) (l : list resource) (d : dsa_switch H).

(** ** Changes of the recorded state *)

Record moves (F : world H -> world H) : Prop := {
  mv_shape u v : same_shape u v -> same_shape (F u) (F v);
  mv_groups u v : groups u = groups v -> groups (F u) = groups (F v);
  mv_works u : w_works (F u) = w_works u;
  mv_hw u : w_hw (F u) = w_hw u;
}.

Definition keeps_ds (f : dsa_switch H -> dsa_switch H) : Prop :=
  forall d d', strip_ds d = strip_ds d' -> strip_ds (f d) = strip_ds (f d').

Lemma moves_nh (F : world H -> list Z) : (forall u v, same_shape u v -> F u = F v) ->
  moves (fun w => set_nh w (F w)).
Proof using.
  intros HF. split; try done. intros u v Hs. unfold same_shape, shape. cbn. rewrite (HF _ _ Hs).
  pose proof (shape_inv _ _ Hs) as (-> & -> & -> & -> & -> & _). done.
Qed.

Lemma moves_rtable (F : world H -> list (pid * pid)) : (forall u v, same_shape u v -> F u = F v) ->
  moves (fun w => set_rtable w (F w)).
Proof using.
  intros HF. split; try done. intros u v Hs. unfold same_shape, shape. cbn. rewrite (HF _ _ Hs).
  pose proof (shape_inv _ _ Hs) as (-> & -> & _ & -> & -> & ->). done.
Qed.

Lemma moves_tree f : moves (upd_tree f).
Proof using.
  split; try done. intros u v Hs. unfold same_shape, shape. cbn.
  pose proof (shape_inv _ _ Hs) as (-> & -> & -> & -> & -> & ->). done.
Qed.

Lemma moves_ds ds f : keeps_ds f -> moves (upd_ds ds f).
Proof using.
  intros Hf. split; try done. intros u v Hs.
  pose proof (shape_inv _ _ Hs) as (Et & Ep & Er & Es & El & En). unfold same_shape, shape. cbn.
  rewrite Et, Ep, Er, El, En.
  assert (E : strip_ds <$> alter f ds (w_switches u) = strip_ds <$> alter f ds (w_switches v)).
  { apply map_eq. intros i. rewrite !lookup_fmap.
    assert (Ei : strip_ds <$> w_switches u !! i = strip_ds <$> w_switches v !! i) by (by rewrite <- !lookup_fmap, Es).
    destruct (decide (i = ds)) as [-> | Hne]; [| by rewrite !lookup_alter_ne].
    rewrite !lookup_alter_eq. destruct (w_switches u !! ds) as [d |], (w_switches v !! ds) as [d' |]; try done.
    cbn [fmap option_fmap option_map] in Ei |- *. f_equal. apply Hf. by apply Some_inj in Ei. }
  by rewrite E.
Qed.

Lemma moves_ports g : (forall dp dq, strip_port dp = strip_port dq -> strip_port (g dp) = strip_port (g dq)) ->
  (forall dp, dp_id (g dp) = dp_id dp /\ dp_bridge (g dp) = dp_bridge dp) ->
  moves (fun w => set_ports w (g <$> w_ports w)).
Proof using.
  intros Hg Hi. split; try done.
  - intros u v Hs. pose proof (shape_inv _ _ Hs) as (Et & Ep & Er & Es & El & En). unfold same_shape, shape. cbn.
    rewrite Et, Er, Es, El, En.
    assert (E : strip_port <$> (g <$> w_ports u) = strip_port <$> (g <$> w_ports v)); [| by rewrite E].
    apply list_eq. intros i. rewrite !list_lookup_fmap.
    assert (Ei : strip_port <$> w_ports u !! i = strip_port <$> w_ports v !! i) by (by rewrite <- !list_lookup_fmap, Ep).
    destruct (w_ports u !! i) as [dp |], (w_ports v !! i) as [dq |]; try done.
    cbn [fmap option_fmap option_map] in Ei |- *. f_equal. apply Hg. by apply Some_inj in Ei.
  - intros u v [Ep Eb]%pair_eq. unfold groups. cbn. rewrite Eb. f_equal.
    transitivity ((fun dp => (dp_id dp, dp_bridge dp)) <$> w_ports u).
    + rewrite <- list_fmap_compose. apply list_fmap_ext. intros i dp _. cbn. by destruct (Hi dp) as [-> ->].
    + rewrite Ep. rewrite <- list_fmap_compose. apply list_fmap_ext. intros i dp _. cbn. by destruct (Hi dp) as [-> ->].
Qed.

Lemma keeps_setup x : keeps_ds (set_ds_setup x).
Proof using. intros d d' E. change (set_ds_setup x (strip_ds d) = set_ds_setup x (strip_ds d')). by rewrite E. Qed.
Lemma keeps_configure x : keeps_ds (set_ds_configure_vlan x).
Proof using. intros d d' E. change (set_ds_configure_vlan x (strip_ds d) = set_ds_configure_vlan x (strip_ds d')). by rewrite E. Qed.
Lemma keeps_mii x : keeps_ds (set_ds_user_mii_bus x).
Proof using. intros d d' E. change (set_ds_user_mii_bus x (strip_ds d) = set_ds_user_mii_bus x (strip_ds d')). by rewrite E. Qed.

Section Switch.
Context (b : resource -> Z) (b_pos : forall x, 0 <= b x).

Lemma at_moves F w0 l w : moves F -> at_ b w0 l w -> at_ b (F w0) l (F w).
Proof using.
  intros [Ms Mg Mw Mh] [Hs Hg Hw Hh]. split; [by apply Ms | by apply Mg | by rewrite !Mw |].
  intros x. by rewrite Mh.
Qed.

Lemma total_move F w0 l w Q : at_ b w0 l w -> moves F ->
  (forall w', at_ b (F w0) l w' -> Q tt w') -> total (modify F) w Q.
Proof using. intros Hw HF HQ. apply total_modify, HQ. by apply at_moves. Qed.

(** The tagger, and the drivers' part in connecting to it. *)
Record tagging_fine w : Prop := {
  tf_ops : is_Some (dst_tag_ops (w_tree w));
  tf_connect o g ds : dst_tag_ops (w_tree w) = Some o -> to_connect o = Some g -> quiet held (fun h => snd (g ds h));
  tf_disconnect o g ds : dst_tag_ops (w_tree w) = Some o -> to_disconnect o = Some g -> quiet held (g ds);
  tf_change o ds d : dst_tag_ops (w_tree w) = Some o -> w_switches w !! ds = Some d ->
    to_proto o = dst_default_proto (w_tree w) \/ is_Some (op_change_tag_protocol (op_switch (ds_ops d)));
}.

Lemma calm_call_disconnect w0 o ds : tagging_fine w0 -> dst_tag_ops (w_tree w0) = Some o ->
  calm w0 (call_disconnect o ds) T.
Proof using.
  intros Hf Ho. unfold call_disconnect. destruct (to_disconnect o) as [g |] eqn:Eg; [| by apply calm_ret].
  by apply (calm_effect w0 (g ds)), (tf_disconnect _ Hf o).
Qed.

Lemma calm_driver_of w0 ds d0 : w_switches w0 !! ds = Some d0 ->
  calm w0 (get_ds ds) (fun d => strip_ds d0 = strip_ds d).
Proof using.
  intros Hd b' l w Hw. eapply total_weaken; [| apply calm_get_ds; [by eexists | done]]. cbv beta.
  intros d w' (Hw' & d1 & Hd1 & E). rewrite Hd in Hd1. by injection Hd1 as <-.
Qed.

Lemma strip_ds_all d d' : strip_ds d = strip_ds d' ->
  ds_ops d = ds_ops d' /\ ds_setup d = ds_setup d' /\ ds_user_mii_bus d = ds_user_mii_bus d'.
Proof using.
  intros E. split_and!; [exact (f_equal ds_ops E) | exact (f_equal ds_setup E) | exact (f_equal ds_user_mii_bus E)].
Qed.

Lemma calm_setup_tag w0 ds d0 : sane w0 -> tagging_fine w0 -> w_switches w0 !! ds = Some d0 ->
  calm w0 (dsa_switch_setup_tag_protocol ds) T.
Proof using.
  intros Hs Hf Hd. pose proof (sn_driver _ Hs _ _ Hd) as Hfine. unfold dsa_switch_setup_tag_protocol.
  eapply calm_bind; [by apply calm_driver_of |]. intros d (<- & _)%strip_ds_all.
  eapply calm_bind; [apply calm_tag_ops, Hf |]. intros o Ho. cbv beta in Ho.
  apply calm_get. intros w Hsw _ _. pose proof (shape_inv _ _ Hsw) as (Et & _). rewrite <- Et.
  eapply (calm_bind _ _ _ T).
  { destruct (Z.eqb_spec (to_proto o) (dst_default_proto (w_tree w0))) as [| Hne]; [by apply calm_ret |].
    destruct (tf_change _ Hf o ds d0 Ho Hd) as [| [g Eg]]; [done |]. rewrite Eg.
    eapply calm_bind; [by eapply (calm_deref _ _ g (eq g)) |]. intros g' <-.
    apply calm_call, (df_change _ _ Hfine _ _ Eg). }
  intros err _. case_match; [by apply calm_ret |].
  eapply (calm_bind _ _ _ T).
  { unfold call_tagger. destruct (to_connect o) as [g |] eqn:Eg; [| by apply calm_ret].
    apply calm_call_op, (tf_connect _ Hf o g ds Ho Eg). }
  intros err2 _. case_match; [by apply calm_ret |].
  destruct (op_connect_tag_protocol _) as [g |] eqn:Eg; [| by apply calm_ret].
  eapply calm_bind; [apply calm_call, (df_tag _ _ Hfine _ _ Eg) |]. intros err3 _.
  case_match; [| by apply calm_ret]. eapply calm_bind; [by apply calm_call_disconnect |].
  intros _ _. by apply calm_ret.
Qed.

(** ** A switch *)

(** The state while switch [ds] comes up or goes down. *)
Definition stage w (ds : Z) (f : dsa_switch H -> dsa_switch H) (nh : list Z) : world H := upd_ds ds f (set_nh w nh).
Record ds_step (f : dsa_switch H -> dsa_switch H) : Prop := {
  st_keeps : keeps_ds f;
  st_ops d : ds_ops (f d) = ds_ops d;
  st_ports d : ds_num_ports (f d) = ds_num_ports d;
}.
Definition nh_known w (nh : list Z) : Prop := forall x, x ∈ nh -> known w x.

Lemma stage_known w ds f nh x : known (stage w ds f nh) x <-> known w x.
Proof using. unfold known, stage. cbn. apply lookup_alter_is_Some. Qed.

Lemma stage_lookup w ds f nh i : w_switches (stage w ds f nh) !! i =
  (if decide (i = ds) then f <$> w_switches w !! i else w_switches w !! i).
Proof using.
  unfold stage. cbn. destruct (decide (i = ds)) as [-> |]; [apply lookup_alter_eq | by apply lookup_alter_ne].
Qed.

Lemma stage_ops w ds f nh i d : ds_step f -> w_switches (stage w ds f nh) !! i = Some d ->
  exists d0, w_switches w !! i = Some d0 /\ ds_ops d = ds_ops d0.
Proof using.
  intros Hf. rewrite stage_lookup. case_decide; [| by exists d].
  intros (d0 & Hd0 & ->)%fmap_Some. exists d0. by rewrite (st_ops _ Hf).
Qed.

Lemma sane_stage w ds f nh : sane w -> ds_step f -> nh_known w nh -> sane (stage w ds f nh).
Proof using.
  intros [Hn Hs Hh Hd] Hf Hnh. split; [done | | |].
  - intros dp Hdp. by apply stage_known, Hs.
  - intros x Hx. by apply stage_known, Hnh.
  - intros i d Hi. destruct (stage_ops _ _ _ _ _ _ Hf Hi) as (d0 & Hd0 & ->). by apply Hd.
Qed.

Lemma tagging_stage w ds f nh : tagging_fine w -> ds_step f -> tagging_fine (stage w ds f nh).
Proof using.
  intros [Ho Hc Hd Hch] Hf. split; [done | done | done |].
  intros o i d Hto Hi. destruct (stage_ops _ _ _ _ _ _ Hf Hi) as (d0 & Hd0 & ->). by apply (Hch o i).
Qed.

Lemma register_in ds nh x : x ∈ snd (raw_notifier_chain_register ds nh) -> x ∈ nh \/ x = ds.
Proof using.
  destruct (decide (ds ∈ nh)) as [Hin | Hin].
  - rewrite register_twice by done. by left.
  - rewrite register_new by done. cbn. intros [Hx | Hx]%elem_of_app; [by left | right; by apply list_elem_of_singleton].
Qed.

Lemma unregister_in ds nh x : x ∈ snd (raw_notifier_chain_unregister ds nh) -> x ∈ nh.
Proof using.
  destruct (decide (ds ∈ nh)) as [Hin | Hin].
  - rewrite unregister_known by done. cbn. rewrite !list_elem_of_In. by intros [? _]%List.in_remove.
  - by rewrite unregister_unknown.
Qed.

Lemma total_unregister w0 ds l w (Q : unit -> world H -> Prop) : at_ b w0 l w ->
  (forall w', at_ b (set_nh w0 (snd (raw_notifier_chain_unregister ds (w_nh w0)))) l w' -> Q tt w') ->
  total (dsa_switch_unregister_notifier ds) w Q.
Proof using.
  intros Hw HQ. unfold dsa_switch_unregister_notifier. apply total_bind, total_get.
  pose proof (shape_inv _ _ (at_shape _ _ _ _ Hw)) as (_ & _ & _ & _ & _ & En). rewrite <- En.
  destruct (raw_notifier_chain_unregister ds (w_nh w0)) as [err nh] eqn:E. cbn [snd] in HQ.
  eapply (total_move (fun w => set_nh w nh)); [exact Hw | by apply moves_nh | exact HQ].
Qed.

Lemma total_out_devlink w0 ds f nh l w (Q : unit -> world H -> Prop) : nh_known w0 nh ->
  at_ b (stage w0 ds f nh) (Devlink ds :: l) w ->
  (forall nh' w', nh_known w0 nh' -> at_ b (stage w0 ds f nh') l w' -> Q tt w') ->
  total (switch_unregister_notifier ds) w Q.
Proof using b_pos.
  intros Hnh Hw HQ. apply total_bind. eapply (total_unregister _ _ _ _ _ Hw). intros w1 Hw1.
  eapply (total_put _ b_pos _ _ _ _ _ Hw1). intros w2 Hw2.
  refine (HQ (snd (raw_notifier_chain_unregister ds nh)) _ _ Hw2). intros x Hx%unregister_in. by apply Hnh.
Qed.

Lemma total_driver_teardown w0 ds d0 d l w (Q : unit -> world H -> Prop) :
  driver_fine ds (ds_ops d0) -> ds_ops d = ds_ops d0 -> at_ b w0 (driver_holds ds d0 ++ l) w ->
  (forall w', at_ b w0 l w' -> Q tt w') -> total (driver_teardown d ds) w Q.
Proof using b_pos.
  intros Hf E Hw HQ. unfold driver_teardown, driver_holds in *. rewrite E.
  destruct (op_teardown _) as [g |] eqn:Eg; [| by apply total_ret, HQ].
  pose proof (df_setup _ _ Hf) as [_ Hback]. rewrite Eg in Hback. cbn in Hback.
  apply HQ. eapply (at_give _ b_pos); [exact Hw |]. intros Hh x. by apply (Hback (g ds)).
Qed.

Lemma total_out_teardown w0 ds d0 d f nh l w (Q : unit -> world H -> Prop) : nh_known w0 nh ->
  driver_fine ds (ds_ops d0) -> ds_ops d = ds_ops d0 ->
  at_ b (stage w0 ds f nh) (driver_holds ds d0 ++ Devlink ds :: l) w ->
  (forall nh' w', nh_known w0 nh' -> at_ b (stage w0 ds f nh') l w' -> Q tt w') ->
  total (switch_out_teardown d ds) w Q.
Proof using b_pos.
  intros Hnh Hf E Hw HQ. apply total_bind. eapply (total_driver_teardown _ _ _ _ _ _ _ Hf E Hw).
  intros w1 Hw1. by eapply (total_out_devlink _ _ _ _ _ _ _ Hnh Hw1).
Qed.

(** A switch that is down: an MDIO bus would be the driver's own. *)
Record switch_down d : Prop := {
  sd_setup : ds_setup d = false;
  sd_mii : op_phy_read (op_switch (ds_ops d)) = true -> ds_user_mii_bus d = false;
}.

Lemma total_get_sure r w0 l w (Q : Z -> world H -> Prop) : (forall h, fst (acquire (H := H) r h) = 0) ->
  at_ b w0 l w -> (forall w', at_ b w0 (r :: l) w' -> Q 0 w') -> total (DsaLife.get r) w Q.
Proof using.
  intros Hr [Hs Hg Hw Hh] Hok. unfold total, DsaLife.get, call_fun.
  pose proof (acquire_ok r (w_hw w)) as Eok. pose proof (Hr (w_hw w)) as E0.
  destruct (acquire r (w_hw w)) as [err h]. cbn [fst snd] in *. subst err.
  apply Hok. split; try done. intros x. cbn. rewrite Eok, Hh by done. lia.
Qed.

Lemma stage_stage w ds f g nh : upd_ds ds g (stage w ds f nh) = stage w ds (fun d => g (f d)) nh.
Proof using.
  unfold stage, upd_ds, set_switches, set_nh. cbn. f_equal. apply map_eq. intros i.
  destruct (decide (i = ds)) as [-> |]; [| by rewrite !lookup_alter_ne].
  rewrite !lookup_alter_eq. by destruct (w_switches w !! ds).
Qed.

Lemma stage_id w ds : stage w ds (fun d => d) (w_nh w) = w.
Proof using.
  unfold stage, upd_ds, set_switches, set_nh. cbn. destruct w. cbn. f_equal. apply map_eq. intros i.
  destruct (decide (i = ds)) as [-> |]; [| by rewrite !lookup_alter_ne].
  rewrite !lookup_alter_eq. by destruct (w_switches !! ds).
Qed.

Lemma step_comp f g : ds_step f -> ds_step g -> ds_step (fun d => g (f d)).
Proof using.
  intros [Fk Fo Fp] [Gk Go Gp].
  split; [intros d d' E; by apply Gk, Fk | intros d; by rewrite Go, Fo | intros d; by rewrite Gp, Fp].
Qed.
Lemma step_setup x : ds_step (set_ds_setup x).
Proof using. split; [apply keeps_setup | done | done]. Qed.
Lemma step_configure x : ds_step (set_ds_configure_vlan x).
Proof using. split; [apply keeps_configure | done | done]. Qed.
Lemma step_mii x : ds_step (set_ds_user_mii_bus x).
Proof using. split; [apply keeps_mii | done | done]. Qed.
Lemma step_id : ds_step (fun d => d).
Proof using. split; [intros d d' E; exact E | done | done]. Qed.

Lemma total_user_mii w0 ds d0 f nh l w (Q : Z -> world H -> Prop) : sane w0 -> nh_known w0 nh ->
  w_switches w0 !! ds = Some d0 -> ds_step f -> switch_down (f d0) ->
  at_ b (stage w0 ds f nh) (driver_holds ds d0 ++ Devlink ds :: l) w ->
  (forall g w', (g = f \/ g = fun d => set_ds_user_mii_bus true (f d)) ->
     at_ b (stage w0 ds g nh) (mii_holds ds (g d0) ++ driver_holds ds d0 ++ Devlink ds :: l) w' -> Q 0 w') ->
  (forall err nh' w', err <> 0 -> nh_known w0 nh' -> at_ b (stage w0 ds f nh') l w' -> Q err w') ->
  total (switch_user_mii_bus ds) w Q.
Proof using b_pos mdio_registers.
  intros Hs Hnh Hd0 Hf [Eset Emii] Hw Hok Herr. unfold switch_user_mii_bus.
  pose proof (sn_driver _ Hs _ _ Hd0) as Hfine.
  assert (Hl : w_switches (stage w0 ds f nh) !! ds = Some (f d0)).
  { rewrite stage_lookup, decide_True by done. by rewrite Hd0. }
  apply total_bind. eapply (total_calm _ _ _ _ _ _ _ Hw); [by apply calm_driver_of |].
  intros d w1 (Eo & _ & Em)%strip_ds_all Hw1. rewrite <- Em, <- Eo. rewrite (st_ops _ Hf) in Eo, Emii |- *.
  destruct (op_phy_read _) eqn:Er.
  2: { rewrite andb_false_r. apply total_ret, (Hok f); [by left |].
       unfold mii_holds. by rewrite (st_ops _ Hf), Er, andb_false_r. }
  rewrite Emii by done. cbn [negb andb].
  apply total_bind. eapply (total_get_res b _ _ _ _ _ Hw1).
  2: { intros err w2 He Hw2. destruct (Z.eqb_spec err 0); [lia |]. cbn [negb]. apply total_bind.
       eapply (total_out_teardown _ _ _ d _ _ _ _ _ Hnh Hfine); [by rewrite Eo | exact Hw2 |].
       intros nh' w3 Hnh' Hw3. by apply total_ret, (Herr _ nh'). }
  intros w2 Hw2. cbn [negb Z.eqb]. apply total_bind.
  eapply (total_move _ _ _ _ _ Hw2); [apply moves_ds, keeps_mii |]. intros w3 Hw3. rewrite stage_stage in Hw3.
  apply total_bind. eapply (total_get_sure _ _ _ _ _ (mdio_registers ds) Hw3). intros w4 Hw4. cbn.
  apply total_ret, (Hok (fun d => set_ds_user_mii_bus true (f d))); [by right |].
  unfold mii_holds. cbn [ds_user_mii_bus set_ds_user_mii_bus ds_ops]. by rewrite (st_ops _ Hf), Er.
Qed.

Lemma total_driver_setup w0 ds d0 d l w (Q : Z -> world H -> Prop) :
  driver_fine ds (ds_ops d0) -> ds_ops d = ds_ops d0 -> at_ b w0 l w ->
  (forall err w', (err <? 0) = false -> at_ b w0 (driver_holds ds d0 ++ l) w' -> Q err w') ->
  (forall err w', err < 0 -> at_ b w0 l w' -> Q err w') ->
  total (call_fun (op_setup (op_switch (ds_ops d)) ds)) w Q.
Proof using.
  intros Hf E Hw Hok Herr. rewrite E. unfold total, call_fun.
  pose proof (df_setup _ _ Hf) as [Htake _]. pose proof (Htake (w_hw w)) as Ht. unfold driver_holds in Hok.
  destruct (op_setup _ ds (w_hw w)) as [err h]. cbn [fst snd] in Ht.
  destruct (err <? 0) eqn:Eneg.
  - apply Herr; [by apply Z.ltb_lt |]. apply at_hw; [done |]. intros x. rewrite Ht. lia.
  - apply Hok; [done |]. destruct (op_teardown _) as [g |]; cbn in Ht |- *.
    + eapply at_take; [exact Hw |]. exact Ht.
    + apply at_hw; [done |]. intros x. rewrite Ht. lia.
Qed.

Lemma total_register w0 ds l w (Q : Z -> world H -> Prop) : at_ b w0 l w ->
  (forall err w', at_ b (set_nh w0 (snd (raw_notifier_chain_register ds (w_nh w0)))) l w' -> Q err w') ->
  total (dsa_switch_register_notifier ds) w Q.
Proof using.
  intros Hw HQ. unfold dsa_switch_register_notifier. apply total_bind, total_get.
  pose proof (shape_inv _ _ (at_shape _ _ _ _ Hw)) as (_ & _ & _ & _ & _ & En). rewrite <- En.
  destruct (raw_notifier_chain_register ds (w_nh w0)) as [err nh] eqn:E. cbn [snd] in HQ.
  apply total_bind. eapply (total_move (fun w => set_nh w nh)); [exact Hw | by apply moves_nh |].
  intros w' Hw'. by apply total_ret, HQ.
Qed.

(** A switch comes up as a whole, or what it took is given back. *)
Lemma total_switch_up w0 ds d0 l w (Q : Z -> world H -> Prop) : sane w0 -> tagging_fine w0 ->
  w_switches w0 !! ds = Some d0 -> switch_down d0 -> at_ b w0 l w ->
  (forall f nh w', ds_step f -> ds_setup (f d0) = true -> nh_known w0 nh ->
     at_ b (stage w0 ds f nh) (switch_holds ds (f d0) ++ l) w' -> Q 0 w') ->
  (forall err f nh w', err <> 0 -> ds_step f -> switch_down (f d0) -> nh_known w0 nh ->
     at_ b (stage w0 ds f nh) l w' -> Q err w') ->
  total (dsa_switch_setup ds) w Q.
Proof using b_pos mdio_registers devlink_registers QuietNet0.
  intros Hs Htag Hd0 Hdown Hw Hok Herr. pose proof (sn_driver _ Hs _ _ Hd0) as Hfine.
  assert (Hin : nh_known w0 (w_nh w0)) by (intros x Hx; by apply (sn_nh _ Hs)).
  assert (Herr0 : forall err nh w', err <> 0 -> nh_known w0 nh -> at_ b (stage w0 ds (fun d => d) nh) l w' -> Q err w').
  { intros err nh w' Hne Hnh Hw'. by apply (Herr err (fun d => d) nh w' Hne step_id Hdown Hnh). }
  unfold dsa_switch_setup.
  calmly Hw by (by apply calm_driver_of). intros d w1 (Eo & Es & Em)%strip_ds_all Hw1.
  rewrite <- Es, (sd_setup _ Hdown). apply total_bind, total_get.
  calmly Hw1 by (apply calm_effect, quiet_mask). intros _ w2 _ Hw2.
  apply total_bind. unfold dsa_switch_devlink_alloc. apply total_bind. eapply (total_get_res b _ _ _ _ _ Hw2).
  2: { intros err w3 He Hw3. destruct (Z.eqb_spec err 0); [lia |]. apply total_ret. cbn.
       apply total_ret, (Herr0 _ (w_nh w0)); [done | done |]. by rewrite stage_id. }
  intros w3 Hw3. apply total_ret. cbn [negb Z.eqb]. apply total_bind.
  eapply (total_register _ _ _ _ _ Hw3). intros err w4 Hw4.
  set (nh := snd (raw_notifier_chain_register ds (w_nh w0))) in *.
  assert (Hnh : nh_known w0 nh).
  { intros x [Hx | ->]%register_in; [by apply Hin | by exists d0]. }
  assert (Hw4' : at_ b (stage w0 ds (fun d => d) nh) (Devlink ds :: l) w4).
  { replace (stage w0 ds (fun d => d) nh) with (set_nh w0 nh); [done |]. by rewrite <- (stage_id w0 ds) at 1. }
  destruct (Z.eqb_spec err 0) as [-> | Hne]; cbn [negb].
  2: { giving Hw4'. intros w5 Hw5. by apply total_ret, (Herr0 _ nh). }
  apply total_bind. eapply (total_move _ _ _ _ _ Hw4'); [apply moves_ds, keeps_configure |].
  intros w5 Hw5. rewrite stage_stage in Hw5. set (f1 := fun d => set_ds_configure_vlan true d) in *.
  assert (Hf1 : ds_step f1) by (apply step_configure).
  assert (Hd1 : switch_down (f1 d0)) by (destruct Hdown; by split).
  apply total_bind. eapply (total_driver_setup _ _ _ _ _ _ _ Hfine (eq_sym Eo) Hw5).
  2: { intros err w6 He Hw6. destruct (Z.ltb_spec err 0); [| lia]. apply total_bind.
       eapply (total_out_devlink _ _ _ _ _ _ _ Hnh Hw6). intros nh' w7 Hnh' Hw7.
       apply total_ret, (Herr _ f1 nh'); [lia | done ..]. }
  intros err w6 -> Hw6.
  assert (Hs1 : sane (stage w0 ds f1 nh)) by (by apply sane_stage).
  assert (Hl : w_switches (stage w0 ds f1 nh) !! ds = Some (f1 d0)).
  { rewrite stage_lookup, decide_True by done. by rewrite Hd0. }
  calmly Hw6 by (by eapply calm_setup_tag; [| apply tagging_stage |]). intros err2 w7 _ Hw7.
  destruct (Z.eqb_spec err2 0) as [-> | Hne]; cbn [negb].
  2: { apply total_bind. eapply (total_out_teardown _ _ _ d _ _ _ _ _ Hnh Hfine (eq_sym Eo) Hw7).
       intros nh' w8 Hnh' Hw8. by apply total_ret, (Herr _ f1 nh'). }
  apply total_bind. eapply (total_user_mii _ _ _ _ _ _ _ _ Hs Hnh Hd0 Hf1 Hd1 Hw7).
  2: { intros err3 nh' w8 Hne Hnh' Hw8. destruct (Z.eqb_spec err3 0); [done |]. by apply total_ret, (Herr _ f1 nh'). }
  intros g w8 Hg Hw8. cbn [negb Z.eqb]. unfold dsa_switch_devlink_register. apply total_bind, total_bind.
  eapply (total_get_sure _ _ _ _ _ (devlink_registers ds) Hw8). intros w9 Hw9. apply total_ret.
  apply total_bind. eapply (total_move _ _ _ _ _ Hw9); [apply moves_ds, keeps_setup |].
  intros w10 Hw10. rewrite stage_stage in Hw10.
  assert (Hgs : ds_step g) by (destruct Hg as [-> | ->]; [done | apply (step_comp f1 (set_ds_user_mii_bus true)); [done | apply step_mii]]).
  apply total_ret, (Hok (fun d => set_ds_setup true (g d)) nh); [apply step_comp; [done | apply step_setup] | done | done |].
  unfold switch_holds, mii_holds, driver_holds in *. cbn [ds_user_mii_bus ds_ops set_ds_setup]. rewrite (st_ops _ Hgs) in *.
  cbn [app]. by rewrite <- !app_assoc.
Qed.

Lemma total_switch_down w0 ds d0 l w (Q : unit -> world H -> Prop) : sane w0 -> tagging_fine w0 ->
  w_switches w0 !! ds = Some d0 -> ds_setup d0 = true -> at_ b w0 (switch_holds ds d0 ++ l) w ->
  (forall f nh w', ds_step f -> switch_down (f d0) -> nh_known w0 nh ->
     at_ b (stage w0 ds f nh) l w' -> Q tt w') ->
  total (dsa_switch_teardown ds) w Q.
Proof using b_pos.
  intros Hs Htag Hd0 Eset Hw HQ. pose proof (sn_driver _ Hs _ _ Hd0) as Hfine.
  assert (Hin : nh_known w0 (w_nh w0)) by (intros x Hx; by apply (sn_nh _ Hs)).
  unfold dsa_switch_teardown.
  calmly Hw by (by apply calm_driver_of). intros d w1 (Eo & Es & Em)%strip_ds_all Hw1.
  rewrite <- Es, Eset, <- Em, <- Eo. cbn [negb]. unfold switch_holds in Hw1. cbn [app] in Hw1. rewrite <- !app_assoc in Hw1.
  giving Hw1. intros w2 Hw2. unfold mii_holds in Hw2.
  set (mii := ds_user_mii_bus d0 && op_phy_read (op_switch (ds_ops d0))) in *.
  apply total_bind. set (f := fun d => if mii then set_ds_user_mii_bus false d else d).
  assert (Hf : ds_step f) by (unfold f; destruct mii; [apply step_mii | apply step_id]).
  assert (Hw3 : total (if mii then _ ← put (MdioRegistered ds); _ ← put (MiiBus ds);
                  modify (upd_ds ds (set_ds_user_mii_bus false)) else mret tt) w2
    (fun _ w' => at_ b (stage w0 ds f (w_nh w0)) (driver_holds ds d0 ++ Devlink ds :: l) w')).
  { unfold f. destruct mii; cbn [app] in Hw2.
    - giving Hw2. intros w3 Hw3. giving Hw3. intros w4 Hw4.
      eapply (total_move _ _ _ _ _ Hw4); [apply moves_ds, keeps_mii |]. intros w5 Hw5.
      unfold stage. by replace (set_nh w0 (w_nh w0)) with w0 by (by destruct w0).
    - apply total_ret. by rewrite stage_id. }
  eapply total_weaken; [| exact Hw3]. cbv beta. intros _ w3 Hw4. clear Hw3.
  assert (Hs1 : sane (stage w0 ds f (w_nh w0))) by (by apply sane_stage).
  assert (Htag1 : tagging_fine (stage w0 ds f (w_nh w0))) by (by apply tagging_stage).
  apply total_bind. unfold dsa_switch_teardown_tag_protocol.
  calmly Hw4 by (apply calm_tag_ops, Htag1). intros o w4 Ho Hw5.
  eapply (total_calm _ _ _ _ _ _ _ Hw5); [by apply calm_call_disconnect |]. intros _ w5 _ Hw6.
  apply total_bind. eapply (total_driver_teardown _ _ _ _ _ _ _ Hfine (eq_sym Eo) Hw6). intros w6 Hw7.
  apply total_bind. eapply (total_unregister _ _ _ _ _ Hw7). intros w7 Hw8.
  giving Hw8. intros w8 Hw9.
  eapply (total_move _ _ _ _ _ Hw9); [apply moves_ds, keeps_setup |]. intros w9 Hw10.
  set (nh := snd (raw_notifier_chain_unregister ds (w_nh w0))).
  change (at_ b (upd_ds ds (set_ds_setup false) (stage w0 ds f nh)) l w9) in Hw10. rewrite stage_stage in Hw10.
  apply (HQ (fun d => set_ds_setup false (f d)) nh).
  - apply step_comp; [done | apply step_setup].
  - split; [done |]. cbn [ds_ops set_ds_setup ds_user_mii_bus]. rewrite (st_ops _ Hf). unfold f, mii. intros Er.
    rewrite Er, andb_true_r. by destruct (ds_user_mii_bus d0) eqn:E.
  - intros x Hx%unregister_in. by apply Hin.
  - done.
Qed.

(** ** A conduit *)

Lemma calm_promiscuity w0 dev i : tagging_fine w0 -> calm w0 (dsa_conduit_set_promiscuity dev i) T.
Proof using QuietNet0.
  intros Htag. eapply calm_bind; [apply calm_tag_ops, Htag |]. intros o _.
  case_match; [by apply calm_ret | apply calm_effect, quiet_promiscuity].
Qed.

Lemma total_conduit_up w0 dev cpu l w (Q : Z -> world H -> Prop) : tagging_fine w0 -> at_ b w0 l w ->
  (forall w', at_ b w0 (conduit_holds dev ++ l) w' -> Q 0 w') ->
  (forall err w', err <> 0 -> at_ b w0 l w' -> Q err w') ->
  total (dsa_conduit_setup dev cpu) w Q.
Proof using b_pos QuietNet0.
  intros Htag Hw Hok Herr. unfold dsa_conduit_setup, conduit_holds in *.
  calmly Hw by (apply calm_tag_ops, Htag). intros o w1 _ Hw1.
  apply total_bind. eapply (total_calm _ _ _ _ _ T _ Hw1).
  { case_match; [by apply calm_ret | apply calm_effect, quiet_device_link]. }
  intros _ w2 _ Hw2. calmly Hw2 by (apply calm_call, quiet_set_mtu). intros _ w3 _ Hw3.
  calmly Hw3 by (apply calm_effect, quiet_dsa_ptr). intros _ w4 _ Hw4.
  calmly Hw4 by (by apply calm_promiscuity). intros _ w5 _ Hw5.
  assert (Hback : forall err w', err <> 0 -> at_ b w0 l w' ->
    total (_ ← dsa_conduit_set_promiscuity dev (-1); mret err) w' Q).
  { intros err w' Hne Hw'. calmly Hw' by (by apply calm_promiscuity). intros _ w'' _ Hw''. by apply total_ret, Herr. }
  apply total_bind. unfold dsa_conduit_ethtool_setup, dsa_conduit_ethtool_teardown.
  destruct (netif_is_lag_master dev).
  - apply total_ret. cbn [negb Z.eqb]. apply total_bind. eapply (total_get_res b _ _ _ _ _ Hw5).
    + intros w6 Hw6. by apply total_ret, Hok.
    + intros err w6 He Hw6. destruct (Z.eqb_spec err 0); [lia |]. cbn [negb].
      apply total_bind, total_ret, Hback; [lia | done].
  - apply total_bind. eapply (total_get_res b _ _ _ _ _ Hw5).
    2: { intros err w6 He Hw6. destruct (Z.eqb_spec err 0); [lia |]. apply total_ret. cbn. by apply Hback. }
    intros w6 Hw6. apply total_ret. cbn [negb Z.eqb]. apply total_bind. eapply (total_get_res b _ _ _ _ _ Hw6).
    + intros w7 Hw7. by apply total_ret, Hok.
    + intros err w7 He Hw7. destruct (Z.eqb_spec err 0); [lia |]. cbn [negb]. giving Hw7. intros w8 Hw8.
      apply Hback; [lia | done].
Qed.

Lemma total_conduit_down w0 dev l w (Q : unit -> world H -> Prop) : tagging_fine w0 ->
  at_ b w0 (conduit_holds dev ++ l) w -> (forall w', at_ b w0 l w' -> Q tt w') ->
  total (dsa_conduit_teardown dev) w Q.
Proof using b_pos QuietNet0.
  intros Htag Hw HQ. unfold dsa_conduit_teardown, conduit_holds, dsa_conduit_ethtool_teardown in *.
  cbn [app] in Hw. giving Hw. intros w1 Hw1.
  assert (Hend : forall w', at_ b w0 l w' -> total (_ ← dsa_conduit_reset_mtu dev; _ ← dsa_conduit_set_promiscuity dev (-1);
    effect (set_dsa_ptr dev None)) w' Q).
  { intros w' Hw'. apply total_bind. unfold dsa_conduit_reset_mtu. calmly Hw' by (apply calm_call, quiet_set_mtu).
    intros _ w2 _ Hw2. apply total_ret. calmly Hw2 by (by apply calm_promiscuity). intros _ w3 _ Hw3.
    eapply (total_calm _ _ _ _ _ _ _ Hw3); [apply calm_effect, quiet_dsa_ptr |]. intros [] w4 _ Hw4. by apply HQ. }
  destruct (netif_is_lag_master dev).
  - apply total_bind, total_ret. by apply Hend.
  - giving Hw1. intros w2 Hw2. by apply Hend.
Qed.

Lemma calm_state_change w0 dev p : sane w0 -> dsa_ptr dev = Some p -> has_port w0 p ->
  calm w0 (dsa_tree_conduit_state_change tagger_data dev) T.
Proof using.
  intros Hs Hptr Hp. unfold dsa_tree_conduit_state_change. rewrite Hptr.
  eapply calm_bind; [by eapply (calm_deref _ _ p (eq p)) |]. intros q <-.
  eapply calm_bind; [by apply calm_port_of |]. intros dp _.
  eapply calm_bind; [by apply calm_notify |]. intros _ _. by apply calm_ret.
Qed.

Lemma calm_admin w0 dev p up : sane w0 -> dsa_ptr dev = Some p -> has_port w0 p ->
  calm w0 (dsa_tree_conduit_admin_state_change tagger_data dev up) T.
Proof using.
  intros Hs Hptr Hp. unfold dsa_tree_conduit_admin_state_change. case_match; [by apply calm_ret |]. rewrite Hptr.
  eapply calm_bind; [by eapply (calm_deref _ _ p (eq p)) |]. intros q <-.
  eapply calm_bind; [by apply calm_port_of |]. intros dp _.
  eapply calm_bind; [by apply calm_upd |]. intros _ _.
  case_match; [by eapply calm_state_change | by apply calm_ret].
Qed.

Lemma calm_oper w0 dev p up : sane w0 -> dsa_ptr dev = Some p -> has_port w0 p ->
  calm w0 (dsa_tree_conduit_oper_state_change tagger_data dev up) T.
Proof using.
  intros Hs Hptr Hp. unfold dsa_tree_conduit_oper_state_change. case_match; [by apply calm_ret |]. rewrite Hptr.
  eapply calm_bind; [by eapply (calm_deref _ _ p (eq p)) |]. intros q <-.
  eapply calm_bind; [by apply calm_port_of |]. intros dp _.
  eapply calm_bind; [by apply calm_upd |]. intros _ _.
  case_match; [by eapply calm_state_change | by apply calm_ret].
Qed.

End Switch.
End TreeLife.

(** ** A switch as a whole or not at all *)

Section SwitchAtomic.
Context {H : Type} `{RefcountApi, NotifierApi, NetQueries, !NetEffects H, !LifeApi H, !QuietNet H}.
Implicit Types (w : world H) (d : dsa_switch H).

(** A switch whose MDIO registration succeeds (that of a devlink cannot fail) comes up as a whole
    or not at all, whatever else fails: its devlink, its driver, the tagger and
    the MDIO bus; and taking it down again gives back all it took. *)
Theorem switch_up_down w ds d :
  (forall i h, fst (acquire (H := H) (MdioRegistered i) h) = 0) ->
  (forall i h, fst (acquire (H := H) (DevlinkRegistered i) h) = 0) ->
  sane w -> tagging_fine w -> w_switches w !! ds = Some d -> switch_down d -> (forall x, 0 <= held (w_hw w) x) ->
  total (dsa_switch_setup ds) w (fun err w' => exists d', w_switches w' !! ds = Some d' /\
    if err =? 0 then
      ds_setup d' = true /\ holds_more w (switch_holds ds d') w' /\
      total (dsa_switch_teardown ds) w' (fun _ w'' => holds_same w w'' /\
        exists d'', w_switches w'' !! ds = Some d'' /\ ds_setup d'' = false)
    else ds_setup d' = false /\ holds_same w w').
Proof.
  intros Hmdio Hreg Hs Htag Hd Hdown Hpos.
  assert (Hl : forall f nh w' l, at_ (fun x => held (w_hw w) x) (stage w ds f nh) l w' ->
    exists d', w_switches w' !! ds = Some d' /\ strip_ds (f d) = strip_ds d').
  { intros f nh w' l Hw'. apply (strip_some strip_ds (w_switches (stage w ds f nh) !! ds) (w_switches w' !! ds)); [apply get_ds_shape, Hw' |].
    rewrite stage_lookup, decide_True by done. by rewrite Hd. }
  apply (total_switch_up Hmdio Hreg (fun x => held (w_hw w) x) Hpos w ds d [] w); try done; [apply at_self | |].
  - intros f nh w' Hf Ef Hnh Hw'. destruct (Hl _ _ _ _ Hw') as (d' & Hd' & E). pose proof (strip_ds_all _ _ E) as (Eo & Es & Em).
    exists d'. split; [done |]. cbn [Z.eqb]. split_and!; [by rewrite <- Es | |].
    + intros x. rewrite (at_held _ _ _ _ Hw'), app_nil_r.
      unfold switch_holds, mii_holds, driver_holds. by rewrite <- Eo, <- Em.
    + assert (Hd0 : w_switches (stage w ds f nh) !! ds = Some (f d)) by (rewrite stage_lookup, decide_True by done; by rewrite Hd).
      apply (total_switch_down (fun x => held (w_hw w) x) Hpos (stage w ds f nh) ds (f d) [] w');
        [by apply sane_stage | by apply tagging_stage | done | done | done |].
      intros g nh' w'' Hg Hdown' _ Hw''. split; [intros x; rewrite (at_held _ _ _ _ Hw''); cbn; lia |].
      destruct (strip_some strip_ds _ _ _ (get_ds_shape _ w'' ds (at_shape _ _ _ _ Hw''))
        (eq_trans (stage_lookup _ _ _ _ _) (eq_trans (decide_True _ _ eq_refl) (f_equal (fmap g) Hd0)))) as (d'' & Hd'' & E'').
      exists d''. split; [done |]. apply strip_ds_all in E'' as (_ & <- & _). apply Hdown'.
  - intros err f nh w' Hne Hf Hdown' Hnh Hw'. destruct (Hl _ _ _ _ Hw') as (d' & Hd' & E).
    apply strip_ds_all in E as (_ & E & _). exists d'. split; [done |]. destruct (Z.eqb_spec err 0); [done |].
    split; [rewrite <- E; apply Hdown' |]. intros x. rewrite (at_held _ _ _ _ Hw'). cbn. lia.
Qed.

End SwitchAtomic.

Module SwitchLifeDemo.
Import EventDemo LifeDemo.

Lemma life_tagging c errs : tagging_fine (life_world c errs).
Proof.
  split.
  - by eexists.
  - by intros o g ds [= <-].
  - by intros o g ds [= <-].
  - intros o ds d [= <-] _. by left.
Qed.

Lemma sure_mdio (i : Z) (h : kernel) : fst (acquire (MdioRegistered i) h) = 0.
Proof. done. Qed.
Lemma sure_devlink (i : Z) (h : kernel) : fst (acquire (DevlinkRegistered i) h) = 0.
Proof. done. Qed.

(** Switch 1 comes up, with an MDIO bus of its own, and goes down. *)
Lemma switch_up_down_witness : exists w1 w2,
  dsa_switch_setup 1 (cabled_world []) = Some (0, w1) /\ held (w_hw w1) (Driver 1) = 1 /\ held (w_hw w1) (MiiBus 1) = 1 /\
  dsa_switch_teardown 1 w1 = Some (tt, w2) /\ holds_same (cabled_world []) w2.
Proof.
  assert (T : ends_with (fun e h => (e =? 0) && ((held h (Driver 1) =? 1) && (held h (MiiBus 1) =? 1)))
    (dsa_switch_setup 1 (cabled_world [])) = true).
  { vm_compute. reflexivity. }
  apply ends_with_inv in T as (e1 & w1 & E1 & T). apply andb_true_iff in T as [T0 T]. apply andb_true_iff in T as [T1 T2].
  apply Z.eqb_eq in T0, T1, T2. subst e1.
  assert (Hd : switch_down (life_ds 0 false)) by by split.
  pose proof (switch_up_down (cabled_world []) 1 (life_ds 0 false) sure_mdio sure_devlink (life_sane _ _)
    (life_tagging _ _) eq_refl Hd (life_free _ _)) as G.
  eapply total_result in G; [| exact E1]. destruct G as (d' & _ & _ & _ & G).
  destruct (total_some _ _ _ G) as (u & w2 & E2 & G2). destruct u, G2 as [G2 _].
  exists w1, w2. exact (conj E1 (conj T1 (conj T2 (conj E2 G2)))).
Defined.

End SwitchLifeDemo.
