(* ===== verification/DsaTreeAccount.v ===== *)
(** * The account of a tree

    What a tree holds, read off its state: [expected] says how often each
    resource is held by the ports and the switches that are set up and by the
    conduit, and every stage of setting up and tearing down the tree keeps it. *)

From Stdlib Require Import ZArith Lia Bool.
From S2P Require Import Prelude.
From S2P Require Import Kernel.
From S2P Require Import DsaTypes.
From S2P Require Import DsaSwitch.
From S2P Require Import DsaEvent.
From S2P Require Import DsaSafe.
From S2P Require Import DsaGroups.
From S2P Require Import DsaPort.
From S2P Require Import DsaMember.
From S2P Require Import DsaLife.
From S2P Require Import DsaTree.
From S2P Require Import DsaAccount.
From S2P Require Import DsaUpDown.
From S2P Require Import DsaTreeLife.

(** Who holds a resource. *)
Inductive holder := OfPort (p : pid) | OfSwitch (ds : Z) | OfConduit.
#[export] Instance holder_eq_dec : EqDecision holder.
Proof. solve_decision. Defined.
Definition owner (r : resource) : holder :=
  match r with
  | Devlink ds | DevlinkRegistered ds | Driver ds | MiiBus ds | MdioRegistered ds => OfSwitch ds
  | DevlinkPort p | PortDriver p | Phylink p | FixedLink p | Netdev p | Stats p | GroCells p
  | Registered p | UpperLink p => OfPort p
  | EthtoolOps _ | SysfsGroup _ => OfConduit
  end.

Lemma occ_owner x o l : Forall (fun r => owner r = o) l -> owner x <> o -> occ x l = 0.
Proof.
  induction 1 as [| r l Hr Hl IH]; intros Hx; [done |]. cbn. rewrite IH by done.
  unfold one. rewrite decide_False; [done |]. intros ->. done.
Qed.

Section Account.
Context {H : Type} `{RefcountApi, NotifierApi, NetQueries, !NetEffects H, !LifeApi H, !QuietNet H}.
Implicit Types (w : world H) (l : list resource) (d : dsa_switch H) (c : option netdev).

Definition port_holds (ops : dsa_switch_ops H) (p : pid) (dp : dsa_port) : list resource :=
  if dp_setup dp then kind_holds ops p dp ++ devlink_holds ops p else [].
Definition ds_holds (ds : Z) d : list resource := if ds_setup d then switch_holds ds d else [].

(** [c]: the conduit that is set up. *)
Definition holds c w (o : holder) : list resource :=
  match o with
  | OfPort p => match get_port w p, w_switches w !! fst p with
                | Some dp, Some d => port_holds (ds_ops d) p dp | _, _ => [] end
  | OfSwitch ds => match w_switches w !! ds with Some d => ds_holds ds d | None => [] end
  | OfConduit => match c with Some dev => conduit_holds dev | None => [] end
  end.
Definition expected c w (x : resource) : Z := occ x (holds c w (owner x)).

Lemma port_holds_owner ops p dp : Forall (fun r => owner r = OfPort p) (port_holds ops p dp).
Proof using.
  unfold port_holds, kind_holds, link_holds, devlink_holds, user_holds.
  repeat first [case_match | apply Forall_app; split | apply Forall_cons; split | apply Forall_nil; done | done].
Qed.

Lemma ds_holds_owner ds d : Forall (fun r => owner r = OfSwitch ds) (ds_holds ds d).
Proof using.
  unfold ds_holds, switch_holds, mii_holds, driver_holds.
  repeat first [case_match | apply Forall_app; split | apply Forall_cons; split | apply Forall_nil; done | done].
Qed.

Lemma conduit_holds_owner dev : Forall (fun r => owner r = OfConduit) (conduit_holds dev).
Proof using.
  unfold conduit_holds. repeat first [case_match | apply Forall_cons; split | apply Forall_nil; done | done].
Qed.

Lemma expected_pos c w x : 0 <= expected c w x.
Proof using. apply occ_pos. Qed.

(** One holder's part changes, the rest stays. *)
Lemma expected_change c c' w w' o (old new : list resource) x :
  holds c w o = old -> holds c' w' o = new ->
  Forall (fun r => owner r = o) old -> Forall (fun r => owner r = o) new ->
  (forall o', o' <> o -> holds c' w' o' = holds c w o') ->
  expected c' w' x = expected c w x - occ x old + occ x new.
Proof using.
  intros Eo En Ho Hn Hother. unfold expected. destruct (decide (owner x = o)) as [<- | Hne].
  - rewrite Eo, En. lia.
  - rewrite Hother by done. rewrite (occ_owner x o old), (occ_owner x o new) by done. lia.
Qed.

Lemma holds_part c w o x : Forall (fun r => owner r = o) (holds c w o) ->
  0 <= expected c w x - occ x (holds c w o).
Proof using.
  intros Ho. unfold expected. destruct (decide (owner x = o)) as [<- | Hne]; [lia |].
  rewrite (occ_owner x o (holds c w o)) by done. pose proof (occ_pos x (holds c w (owner x))). lia.
Qed.

Lemma port_holds_strip ops p dp dq : strip_port dp = strip_port dq -> port_holds ops p dp = port_holds ops p dq.
Proof using.
  intros (_ & _ & Et & En & _ & _ & _ & _ & Es & Ed & Epl)%strip_port_all.
  unfold port_holds, kind_holds, link_holds. by rewrite Et, En, Es, Ed, Epl.
Qed.

Lemma ds_holds_strip ds d d' : strip_ds d = strip_ds d' -> ds_holds ds d = ds_holds ds d'.
Proof using.
  intros (Eo & Es & Em)%strip_ds_all. unfold ds_holds, switch_holds, mii_holds, driver_holds. by rewrite Eo, Es, Em.
Qed.

Lemma holds_shape c w w' o : same_shape w w' -> holds c w o = holds c w' o.
Proof using.
  intros Hs. destruct o as [p | ds |]; [| | done]; cbn [holds].
  - pose proof (get_port_shape w w' p Hs) as Ep. pose proof (get_ds_shape w w' (fst p) Hs) as Ed.
    destruct (get_port w p) as [dp |], (get_port w' p) as [dq |]; try done.
    destruct (w_switches w !! fst p) as [d |], (w_switches w' !! fst p) as [d' |]; try done.
    apply Some_inj in Ep. apply Some_inj, strip_ds_all in Ed as [-> _]. by apply port_holds_strip.
  - pose proof (get_ds_shape w w' ds Hs) as Ed.
    destruct (w_switches w !! ds) as [d |], (w_switches w' !! ds) as [d' |]; try done.
    apply Some_inj in Ed. by apply ds_holds_strip.
Qed.

Lemma holds_port_upd c w p g o : assigns g -> o <> OfPort p -> holds c (upd_port p g w) o = holds c w o.
Proof using.
  intros Hg Ho. destruct o as [q | ds |]; [| done | done]. cbn [holds].
  rewrite get_upd_ne; [done | congruence | apply Hg].
Qed.

Lemma holds_stage c w ds f nh o : ds_step f -> o <> OfSwitch ds -> holds c (stage w ds f nh) o = holds c w o.
Proof using.
  intros Hf Ho. destruct o as [p | i |]; [| | done]; cbn [holds].
  - change (get_port (stage w ds f nh) p) with (get_port w p). rewrite stage_lookup. case_decide; [| done].
    destruct (get_port w p), (w_switches w !! fst p); try done. cbn. by rewrite (st_ops _ Hf).
  - rewrite stage_lookup, decide_False; [done | congruence].
Qed.

(** ** Trees with one CPU port *)

Context (cpu : pid) (conduit : netdev).

Record port_ok (ops : dsa_switch_ops H) (dp : dsa_port) : Prop := {
  po_bridge : dp_bridge dp = None;
  po_lag : dp_cpu_port_in_lag dp = false;
  po_cpu : dp_cpu_dp dp = None \/ dp_cpu_dp dp = Some cpu;
  po_state : if dp_setup dp then
      match dp_type dp with
      | DSA_PORT_TYPE_UNUSED => dp_pl dp = false
      | DSA_PORT_TYPE_CPU | DSA_PORT_TYPE_DSA => link_pl ops dp (dp_pl dp)
      | DSA_PORT_TYPE_USER => is_Some (dp_netdev dp) /\ dp_cpu_dp dp = Some cpu
      end
    else dp_pl dp = false /\ (dp_type dp = DSA_PORT_TYPE_USER -> dp_netdev dp = None);
}.

Record tree_ok w : Prop := {
  ok_sane : sane w;
  ok_tag : tagging_fine w;
  ok_works : w_works w = [];
  ok_port p dp d : get_port w p = Some dp -> w_switches w !! fst p = Some d -> port_ok (ds_ops d) dp;
  ok_switch ds d : w_switches w !! ds = Some d ->
    if ds_setup d then exists p, has_port w p /\ fst p = ds else switch_down d;
  ok_cpu : exists dp, get_port w cpu = Some dp /\ dp_type dp = DSA_PORT_TYPE_CPU /\ dp_netdev dp = Some conduit;
  ok_only p dp : get_port w p = Some dp -> dp_type dp = DSA_PORT_TYPE_CPU -> p = cpu;
  ok_preferred ds d f h q : (exists p, has_port w p /\ fst p = ds) -> w_switches w !! ds = Some d ->
    op_preferred_default_local_cpu_port (op_switch (ds_ops d)) = Some f -> f ds h = Some q -> has_port w q;
}.

Lemma port_ok_strip ops dp dq : strip_port dp = strip_port dq -> dp_bridge dp = dp_bridge dq ->
  port_ok ops dp -> port_ok ops dq.
Proof using.
  intros (_ & _ & Et & En & Ec & El & _ & _ & Es & Ed & Epl)%strip_port_all Eb [Pb Pl Pc Ps].
  split; [by rewrite <- Eb | by rewrite <- El | by rewrite <- Ec |].
  unfold link_pl in *. by rewrite <- Et, <- En, <- Ec, <- Es, <- Ed, <- Epl.
Qed.

Lemma get_port_back u w p dq : same_shape u w -> groups w = groups u -> get_port w p = Some dq ->
  exists dp, get_port u p = Some dp /\ strip_port dp = strip_port dq /\ dp_bridge dp = dp_bridge dq.
Proof using.
  intros Hs Hg Hq. destruct (strip_some _ _ _ _ (get_port_shape w u p ltac:(by symmetry)) Hq) as (dp & Hp & E).
  destruct (groups_port w u p dq Hg Hq) as (dp' & Hp' & Eb). rewrite Hp in Hp'. injection Hp' as <-.
  by exists dp.
Qed.

Lemma get_ds_back u w ds d' : same_shape u w -> w_switches w !! ds = Some d' ->
  exists d, w_switches u !! ds = Some d /\ strip_ds d = strip_ds d'.
Proof using.
  intros Hs Hd. destruct (strip_some _ _ _ _ (get_ds_shape w u ds ltac:(by symmetry)) Hd) as (d & Hd' & E).
  by exists d.
Qed.

Lemma has_shape u w p : same_shape u w -> has_port u p -> has_port w p.
Proof using.
  intros Hs [dp Hp]. destruct (strip_some _ _ _ _ (get_port_shape u w p Hs) Hp) as (dq & Hq & _). by exists dq.
Qed.

Lemma sane_shape u w : same_shape u w -> sane u -> sane w.
Proof using.
  intros Hs [Hn Hsw Hnh Hd]. pose proof (shape_inv _ _ Hs) as (_ & Ep & _ & _ & _ & En). split.
  - assert (E : dp_id <$> w_ports w = dp_id <$> w_ports u); [| by rewrite E].
    transitivity (dp_id <$> (strip_port <$> w_ports w)).
    + rewrite <- list_fmap_compose. by apply list_fmap_ext.
    + rewrite <- Ep, <- list_fmap_compose. by apply list_fmap_ext.
  - intros dq Hq. destruct (port_shape w u dq ltac:(by symmetry) Hq) as (dp & Hp & E).
    apply strip_port_fields in E as (-> & _). eapply known_shape; [exact Hs | by apply Hsw].
  - intros ds Hds. rewrite <- En in Hds. eapply known_shape; [exact Hs | by apply Hnh].
  - intros ds d' Hd'. destruct (get_ds_back _ _ _ _ Hs Hd') as (d & Hd0 & (<- & _)%strip_ds_all). by apply Hd.
Qed.

Lemma tagging_shape u w : same_shape u w -> tagging_fine u -> tagging_fine w.
Proof using.
  intros Hs [Ho Hc Hd Hch]. pose proof (shape_inv _ _ Hs) as (Et & _). split; rewrite <- Et; try done.
  intros o ds d' Hto Hd'. destruct (get_ds_back _ _ _ _ Hs Hd') as (d & Hd0 & (<- & _)%strip_ds_all). by apply (Hch o ds d).
Qed.

Lemma tree_ok_shape u w : same_shape u w -> groups w = groups u -> w_works w = w_works u -> tree_ok u -> tree_ok w.
Proof using.
  intros Hs Hg Hw [Os Ot Ow Op Osw Oc Oo Opr]. split.
  - by eapply sane_shape.
  - by eapply tagging_shape.
  - by rewrite Hw.
  - intros p dq d' Hq Hd'. destruct (get_port_back _ _ _ _ Hs Hg Hq) as (dp & Hp & E & Eb).
    destruct (get_ds_back _ _ _ _ Hs Hd') as (d & Hd & (Eo & _)%strip_ds_all). rewrite <- Eo.
    eapply port_ok_strip; [exact E | exact Eb | by eapply Op].
  - intros ds d' Hd'. destruct (get_ds_back _ _ _ _ Hs Hd') as (d & Hd & (Eo & Es & Em)%strip_ds_all).
    pose proof (Osw _ _ Hd) as G. rewrite <- Es. destruct (ds_setup d).
    + destruct G as (p & Hp & <-). exists p. split; [by eapply has_shape | done].
    + destruct G as [_ G]. split; [done |]. by rewrite <- Eo, <- Em.
  - destruct Oc as (dp & Hp & Et & En). destruct (strip_some _ _ _ _ (get_port_shape u w cpu Hs) Hp) as (dq & Hq & E).
    apply strip_port_all in E as (_ & _ & E & E' & _). exists dq. by rewrite <- E, <- E'.
  - intros p dq Hq Ety. destruct (get_port_back _ _ _ _ Hs Hg Hq) as (dp & Hp & E & _).
    apply (Oo p dp Hp). by apply strip_port_all in E as (_ & _ & -> & _).
  - intros ds d' f h q (p & Hp & Eds) Hd' Hf Hq. destruct (get_ds_back _ _ _ _ Hs Hd') as (d & Hd & (Eo & _)%strip_ds_all).
    rewrite <- Eo in Hf. eapply has_shape; [exact Hs |]. eapply Opr; [| exact Hd | exact Hf | exact Hq].
    exists p. split; [| done]. eapply has_shape; [by symmetry | exact Hp].
Qed.

Lemma tree_ok_upd w p g dp : tree_ok w -> assigns g -> get_port w p = Some dp ->
  (forall d, w_switches w !! fst p = Some d -> port_ok (ds_ops d) (g dp)) ->
  (dp_type (g dp) = DSA_PORT_TYPE_CPU <-> dp_type dp = DSA_PORT_TYPE_CPU) ->
  (dp_type dp = DSA_PORT_TYPE_CPU -> dp_netdev (g dp) = dp_netdev dp) -> tree_ok (upd_port p g w).
Proof using.
  intros [Os Ot Ow Op Osw Oc Oo Opr] Hg Hp Hok Hty Hnd.
  assert (Hget : forall q dq, get_port (upd_port p g w) q = Some dq ->
    (q = p /\ dq = g dp) \/ (q <> p /\ get_port w q = Some dq)).
  { intros q dq. destruct (decide (q = p)) as [-> | Hne].
    - rewrite (get_upd_eq w p g dp) by (done || apply Hg). intros [= <-]. by left.
    - rewrite get_upd_ne by (done || apply Hg). by right. }
  assert (Hhas : forall q, has_port w q -> has_port (upd_port p g w) q).
  { intros q [dq Hq]. destruct (decide (q = p)) as [-> | Hne].
    - exists (g dp). apply get_upd_eq; [done | apply Hg].
    - exists dq. rewrite get_upd_ne; [done | done | apply Hg]. }
  split; [by apply sane_upd | by destruct Ot | done | | | | |].
  - intros q dq d Hq Hd. apply Hget in Hq as [[-> ->] | [_ Hq]]; [by apply Hok | by eapply Op].
  - intros ds d Hd. pose proof (Osw ds d Hd) as G. destruct (ds_setup d); [| done].
    destruct G as (q & Hq & <-). exists q. split; [by apply Hhas | done].
  - destruct Oc as (dc & Hc & Et & En). destruct (decide (cpu = p)) as [Ec | Hne].
    + subst p. rewrite Hp in Hc. injection Hc as ->. exists (g dc). split; [apply get_upd_eq; [done | apply Hg] |].
      split; [by apply Hty | by rewrite Hnd].
    + exists dc. by rewrite get_upd_ne by (done || apply Hg).
  - intros q dq Hq Ety. apply Hget in Hq as [[-> ->] | [_ Hq]]; [by apply (Oo p dp), Hty | by eapply Oo].
  - intros ds d f h q (r & Hr & Eds) Hd Hf Hq. eapply Hhas, Opr; [| exact Hd | exact Hf | exact Hq].
    exists r. split; [| done]. destruct Hr as [dr Hr]. apply Hget in Hr as [[-> _] | [_ Hr]]; [by exists dp | by exists dr].
Qed.

Lemma tree_ok_stage w ds f nh d0 : tree_ok w -> ds_step f -> nh_known w nh -> w_switches w !! ds = Some d0 ->
  (if ds_setup (f d0) then exists p, has_port w p /\ fst p = ds else switch_down (f d0)) -> tree_ok (stage w ds f nh).
Proof using.
  intros [Os Ot Ow Op Osw Oc Oo Opr] Hf Hnh Hd0 Hst.
  split; [by apply sane_stage | by apply tagging_stage | done | | | done | done |].
  - intros p dp d Hp Hd. destruct (stage_ops _ _ _ _ _ _ Hf Hd) as (d1 & Hd1 & ->). by eapply Op.
  - intros i d Hi. rewrite stage_lookup in Hi. case_decide as E; [| by apply Osw].
    subst i. rewrite Hd0 in Hi. injection Hi as <-. exact Hst.
  - intros i d g h q Hps Hi Hg Hq. destruct (stage_ops _ _ _ _ _ _ Hf Hi) as (d1 & Hd1 & E). rewrite E in Hg. by eapply Opr.
Qed.

(** ** The steps *)

Context (tagger_data : H -> Z -> bool).
Context (mdio_registers : forall ds h, fst (acquire (H := H) (MdioRegistered ds) h) = 0).
Context (devlink_registers : forall ds h, fst (acquire (H := H) (DevlinkRegistered ds) h) = 0).
Context (base : resource -> Z) (base_pos : forall x, 0 <= base x).

(** The kernel holds what it held before and what the tree says. *)
Definition account c w : Prop := tree_ok w /\ forall x, held (w_hw w) x = base x + expected c w x.

Lemma at_start c w l : account c w -> at_ (fun x => base x + expected c w x - occ x l) w l w.
Proof using. intros [_ Hh]. split; try done. intros x. rewrite Hh. lia. Qed.

Lemma account_end b w0 l w c : at_ b w0 l w -> tree_ok w0 ->
  (forall x, b x + occ x l = base x + expected c w0 x) -> account c w.
Proof using.
  intros [Hs Hg Hw Hh] Hok E. split; [by eapply tree_ok_shape |].
  intros x. rewrite Hh, E. unfold expected. by rewrite (holds_shape _ _ _ _ Hs).
Qed.

(** What setting up and tearing down leave of a switch. *)
Definition ds_fixed d : Z * dsa_switch_ops H := (ds_num_ports d, ds_ops d).

Lemma ds_fixed_shape u w i : same_shape u w -> ds_fixed <$> w_switches w !! i = ds_fixed <$> w_switches u !! i.
Proof using.
  intros Hs. pose proof (get_ds_shape u w i Hs) as E.
  destruct (w_switches u !! i) as [d |], (w_switches w !! i) as [d' |]; try done. apply Some_inj in E. cbn.
  unfold ds_fixed. by rewrite (f_equal ds_num_ports E : ds_num_ports d = ds_num_ports d'),
    (f_equal ds_ops E : ds_ops d = ds_ops d').
Qed.

(** What else a step may change: the ports [P] and the switches [S] are set up or not. *)
Record evolves (P : pid -> Prop) (S : Z -> Prop) w w' : Prop := {
  ev_ids : dp_id <$> w_ports w' = dp_id <$> w_ports w;
  ev_tree : w_tree w' = w_tree w;
  ev_port q dq' : get_port w' q = Some dq' -> exists dq, get_port w q = Some dq /\
    dp_type dq' = dp_type dq /\ dp_cpu_dp dq' = dp_cpu_dp dq /\ (dp_setup dq' = dp_setup dq \/ P q);
  ev_switch i d' : w_switches w' !! i = Some d' -> exists d, w_switches w !! i = Some d /\
    (ds_setup d' = ds_setup d \/ S i);
  ev_fixed i : ds_fixed <$> w_switches w' !! i = ds_fixed <$> w_switches w !! i;
}.

Lemma evolves_shape P S u w w' : same_shape w w' -> evolves P S u w -> evolves P S u w'.
Proof using.
  intros Hs [Ei Et Ep Es Ef]. pose proof (shape_inv _ _ Hs) as (Et' & Ep' & _). split.
  - rewrite <- Ei. transitivity (dp_id <$> (strip_port <$> w_ports w')).
    + rewrite <- list_fmap_compose. by apply list_fmap_ext.
    + rewrite <- Ep', <- list_fmap_compose. by apply list_fmap_ext.
  - by rewrite <- Et, Et'.
  - intros q dq' Hq. destruct (strip_some _ _ _ _ (get_port_shape w' w q ltac:(by symmetry)) Hq) as (dp & Hp & E).
    apply strip_port_all in E as (_ & _ & -> & _ & -> & _ & _ & _ & -> & _). by apply Ep.
  - intros i d' Hd'. destruct (get_ds_back _ _ _ _ Hs Hd') as (d & Hd & (_ & <- & _)%strip_ds_all). by apply Es.
  - intros i. rewrite <- Ef. by apply ds_fixed_shape.
Qed.

Lemma evolves_refl P S w : evolves P S w w.
Proof using. split; [done | done | | | done]; intros i d Hd; exists d; by split_and!; try left. Qed.

Lemma evolves_trans P S u v w : evolves P S u v -> evolves P S v w -> evolves P S u w.
Proof using.
  intros [Ei Et Ep Es Ef] [Ei' Et' Ep' Es' Ef']. split; [by rewrite Ei' | by rewrite Et' | | | intros i; by rewrite Ef'].
  - intros q dq' Hq. destruct (Ep' _ _ Hq) as (dq & Hq1 & -> & -> & E).
    destruct (Ep _ _ Hq1) as (dq0 & Hq0 & -> & -> & E0). exists dq0. split_and!; try done.
    destruct E as [-> | ?]; [done | by right].
  - intros i d' Hi. destruct (Es' _ _ Hi) as (d & Hd & E). destruct (Es _ _ Hd) as (d0 & Hd0 & E0).
    exists d0. split; [done |]. destruct E as [-> | ?]; [done | by right].
Qed.

Lemma evolves_weaken (P P' : pid -> Prop) (S S' : Z -> Prop) w w' : (forall q, P q -> P' q) -> (forall i, S i -> S' i) ->
  evolves P S w w' -> evolves P' S' w w'.
Proof using.
  intros HP HS [Ei Et Ep Es Ef]. split; try done.
  - intros q dq' Hq. destruct (Ep _ _ Hq) as (dq & Hq1 & ? & ? & E). exists dq. split_and!; try done.
    destruct E as [-> | ?]; [by left | right; by apply HP].
  - intros i d' Hi. destruct (Es _ _ Hi) as (d & Hd & E). exists d. split; [done |].
    destruct E as [-> | ?]; [by left | right; by apply HS].
Qed.

Lemma evolves_upd w p g : assigns g ->
  (forall dp, dp_type (g dp) = dp_type dp /\ dp_cpu_dp (g dp) = dp_cpu_dp dp) ->
  evolves (fun q => q = p) (fun _ => False) w (upd_port p g w).
Proof using.
  intros Hg Hk. split.
  - apply upd_port_ids, Hg.
  - done.
  - intros q dq' Hq. destruct (decide (q = p)) as [-> | Hne].
    + destruct (get_port w p) as [dq |] eqn:E.
      * rewrite (get_upd_eq w p g dq) in Hq by (done || apply Hg). injection Hq as <-. exists dq.
        destruct (Hk dq) as [-> ->]. split_and!; try done. by right.
      * exfalso. unfold get_port, upd_port, find_port in *. cbn in Hq. clear Hk.
        apply List.find_some in Hq as [Hin Hid]. apply list_elem_of_In, list_elem_of_fmap in Hin as (dp & -> & Hin).
        apply bool_decide_eq_true in Hid. apply list_elem_of_In, (List.find_none _ _ E) in Hin.
        apply bool_decide_eq_false in Hin. case_bool_decide; congruence.
    + rewrite get_upd_ne in Hq by (done || apply Hg). exists dq'. split_and!; try done. by left.
  - intros i d Hi. exists d. split; [done | by left].
  - done.
Qed.

Lemma evolves_stage w ds f nh : ds_step f ->
  evolves (fun _ => False) (fun i => i = ds) w (stage w ds f nh).
Proof using.
  intros Hf. split; [done | done | | |].
  - intros q dq' Hq. exists dq'. split_and!; try done. by left.
  - intros i d' Hi. rewrite stage_lookup in Hi. case_decide as E; [| exists d'; split; [done | by left]].
    subst i. apply fmap_Some in Hi as (d & Hd & ->). exists d. split; [done | by right].
  - intros i. rewrite stage_lookup. case_decide as E; [| done]. subst i.
    destruct (w_switches w !! ds) as [d |]; [| done]. cbn. unfold ds_fixed. by rewrite (st_ops _ Hf), (st_ports _ Hf).
Qed.

Abbreviation nop := (fun _ : pid => False).
Abbreviation nos := (fun _ : Z => False).

Lemma slot_of w p dp : tree_ok w -> get_port w p = Some dp -> dp_type dp = DSA_PORT_TYPE_USER ->
  dp_cpu_dp dp = Some cpu -> user_slot w p.
Proof using.
  intros Hok Hp Ety Ec. destruct (ok_cpu _ Hok) as (dc & Hc & Etc & Enc).
  destruct (port_known w (ok_sane _ Hok) p ltac:(by exists dp)) as [d Hd].
  destruct (ok_port _ Hok _ _ _ Hp Hd) as [Hb Hl _ _].
  split; try (intros dq Hq; rewrite Hp in Hq; injection Hq as <-).
  - done.
  - exists cpu. split_and!; [done | | by exists dc]. intros ->. rewrite Hp in Hc. injection Hc as ->. congruence.
  - exists conduit. unfold dsa_port_to_conduit. rewrite Ec. cbn [mbind option_bind]. by rewrite Hc, Hl.
  - apply (tf_ops _ (ok_tag _ Hok)).
Qed.

Lemma up_step_kept ops p dp g : up_step ops p dp g ->
  forall dq, dp_type (g dq) = dp_type dq /\ dp_cpu_dp (g dq) = dp_cpu_dp dq /\
    dp_bridge (g dq) = dp_bridge dq /\ dp_cpu_port_in_lag (g dq) = dp_cpu_port_in_lag dq /\
    (dp_type dp <> DSA_PORT_TYPE_USER -> dp_netdev (g dq) = dp_netdev dq).
Proof using.
  unfold up_step. destruct (dp_type dp); [intros -> | intros (? & _ & ->) | intros (? & _ & ->) | intros ->]; done.
Qed.

Lemma up_port_ok ops p dp g : port_ok ops dp -> dp_setup dp = false -> up_step ops p dp g ->
  (dp_type dp = DSA_PORT_TYPE_USER -> dp_cpu_dp dp = Some cpu) -> port_ok ops (set_setup true (g dp)).
Proof using.
  intros [Pb Pl Pc Ps] Es Hg Hc. destruct (up_step_kept _ _ _ _ Hg dp) as (Et & Ec & Eb & El & _).
  rewrite Es in Ps. destruct Ps as [Epl Hn]. split; cbn [dp_bridge dp_cpu_port_in_lag dp_cpu_dp set_setup dp_setup dp_type dp_pl dp_netdev].
  - by rewrite Eb.
  - by rewrite El.
  - by rewrite Ec.
  - rewrite Et, Ec. unfold up_step in Hg. destruct (dp_type dp) eqn:Ety.
    + by subst g.
    + by destruct Hg as (pl & Hpl & ->).
    + by destruct Hg as (pl & Hpl & ->).
    + subst g. split; [by eexists | by apply Hc].
Qed.

Lemma total_drop {A} (m : st (world H) A) w (Q Q' : A -> world H -> Prop) :
  total m w Q' -> (forall a w', Q' a w' -> Q a w') -> total m w Q.
Proof using. intros Hm HQ. by eapply total_weaken. Qed.

Lemma total_setup_done p c w dp : account c w -> get_port w p = Some dp -> dp_setup dp = true ->
  total (dsa_port_setup tagger_data p) w (fun err w' => err = 0 /\ w' = w).
Proof using.
  intros _ Hp Es. unfold dsa_port_setup, port_of. apply total_bind, total_bind, total_get.
  eapply total_deref; [exact Hp |]. rewrite Es. by apply total_ret.
Qed.

(** Bringing a port up keeps the account; if it fails, nothing has changed. *)
Lemma account_port_setup c w p dp : account c w -> get_port w p = Some dp ->
  (dp_type dp = DSA_PORT_TYPE_USER -> dp_cpu_dp dp = Some cpu) ->
  total (dsa_port_setup tagger_data p) w (fun err w' => account c w' /\
    evolves (fun q => q = p) nos w w' /\ (err <> 0 -> evolves nop nos w w' /\ dp_setup dp = false)).
Proof using base_pos QuietNet0.
  intros Hacc Hp Hc. destruct (dp_setup dp) eqn:Es.
  { eapply total_drop; [by eapply total_setup_done |]. intros err w' [-> ->]. split_and!; [done | apply evolves_refl | done]. }
  pose proof Hacc as [Hok _]. destruct (port_known w (ok_sane _ Hok) p ltac:(by exists dp)) as [d Hd].
  pose proof (ok_port _ Hok _ _ _ Hp Hd) as Hpok. pose proof (po_state _ _ Hpok) as Hst. rewrite Es in Hst.
  destruct Hst as [Epl Hn].
  assert (Hhold : holds c w (OfPort p) = []) by (cbn [holds]; rewrite Hp, Hd; unfold port_holds; by rewrite Es).
  set (b := fun x => base x + expected c w x - occ x []).
  assert (b_pos : forall x, 0 <= b x).
  { intros x. unfold b. cbn. pose proof (base_pos x). pose proof (expected_pos c w x). lia. }
  eapply (total_port_up tagger_data b b_pos w p d dp [] w _ (ok_sane _ Hok) Hd); [| by apply at_start | |].
  - split; [done .. |]. intros Ety. split; [by apply Hn | by eapply slot_of; [| | | apply Hc]].
  - intros g w' Hg Hw'. set (g' := fun dq => set_setup true (g dq)) in *.
    assert (Ha : assigns g').
    { apply (assigns_comp (set_setup true) g); [apply assigns_setup | by eapply up_step_assigns]. }
    assert (Hev : evolves (fun q => q = p) nos w (upd_port p g' w)).
    { apply evolves_upd; [done |]. intros dq. unfold g'. cbn. by destruct (up_step_kept _ _ _ _ Hg dq) as (-> & -> & _). }
    split_and!; [| by eapply evolves_shape, Hev; apply Hw' | done].
    destruct (up_step_kept _ _ _ _ Hg dp) as (Et & Ec & _ & _ & Enet).
    eapply account_end; [exact Hw' | eapply (tree_ok_upd w p g' dp); try done |].
    + intros d' Hd'. rewrite Hd in Hd'. injection Hd' as <-. by eapply up_port_ok.
    + unfold g'. cbn. by rewrite Et.
    + intros Ety. unfold g'. cbn. apply Enet. by rewrite Ety.
    + intros x. rewrite (expected_change c c w _ (OfPort p) [] (port_holds (ds_ops d) p (g' dp)) x Hhold).
      * unfold b, port_holds, g'. cbn [dp_setup set_setup occ].
        change (kind_holds (ds_ops d) p (set_setup true (g dp))) with (kind_holds (ds_ops d) p (g dp)).
        rewrite app_nil_r. lia.
      * cbn [holds]. rewrite (get_upd_eq w p g' dp) by (done || apply Ha). cbn. by rewrite Hd.
      * done.
      * apply port_holds_owner.
      * intros o Ho. by apply holds_port_upd.
  - intros err w' Hne Hw'. split_and!; [| eapply evolves_shape, evolves_refl; apply Hw' |].
    + eapply account_end; [exact Hw' | done |]. intros x. unfold b. cbn. lia.
    + intros _. split; [eapply evolves_shape, evolves_refl; apply Hw' | done].
Qed.

Lemma down_port_ok ops dp : port_ok ops dp -> dp_setup dp = true -> port_ok ops (down_step dp).
Proof using.
  intros [Pb Pl Pc Ps] Es. rewrite Es in Ps. unfold down_step.
  split; destruct (dp_type dp) eqn:Ety; cbn [dp_bridge dp_cpu_port_in_lag dp_cpu_dp set_setup set_netdev set_pl dp_setup dp_type dp_pl dp_netdev];
    try done; split; done || congruence.
Qed.

(** Taking a port down keeps the account too. *)
Lemma account_port_teardown c w p dp : account c w -> get_port w p = Some dp ->
  total (dsa_port_teardown p) w (fun _ w' => account c w' /\ evolves (fun q => q = p) nos w w' /\
    forall dq, get_port w' p = Some dq -> dp_setup dq = false).
Proof using base_pos QuietNet0.
  intros Hacc Hp. destruct (dp_setup dp) eqn:Es.
  2: { unfold dsa_port_teardown, port_of. apply total_bind, total_bind, total_get. eapply total_deref; [exact Hp |].
       rewrite Es. apply total_ret. split_and!; [done | apply evolves_refl |]. intros dq Hq. congruence. }
  pose proof Hacc as [Hok _]. destruct (port_known w (ok_sane _ Hok) p ltac:(by exists dp)) as [d Hd].
  pose proof (ok_port _ Hok _ _ _ Hp Hd) as Hpok. pose proof (po_state _ _ Hpok) as Hst. rewrite Es in Hst.
  set (l := kind_holds (ds_ops d) p dp ++ devlink_holds (ds_ops d) p).
  assert (Hhold : holds c w (OfPort p) = l) by (cbn [holds]; rewrite Hp, Hd; unfold port_holds; by rewrite Es).
  assert (Hl : Forall (fun r => owner r = OfPort p) l).
  { pose proof (port_holds_owner (ds_ops d) p dp) as G. unfold port_holds in G. by rewrite Es in G. }
  set (b := fun x => base x + expected c w x - occ x l).
  assert (b_pos : forall x, 0 <= b x).
  { intros x. unfold b. pose proof (base_pos x). pose proof (holds_part c w (OfPort p) x) as G. rewrite Hhold in G.
    specialize (G Hl). lia. }
  eapply (total_port_down b b_pos w p d dp [] w _ (ok_sane _ Hok) Hd).
  - split; [done | done |]. destruct (dp_type dp) eqn:Ety; [done | done | done |].
    destruct Hst as [Hn Ec]. split; [done | by eapply slot_of].
  - rewrite app_nil_r. by apply at_start.
  - intros w' Hw'. pose proof down_step_assigns as Ha.
    assert (Hkept : forall dq, dp_type (down_step dq) = dp_type dq /\ dp_cpu_dp (down_step dq) = dp_cpu_dp dq).
    { intros dq. unfold down_step. by destruct (dp_type dq) eqn:E. }
    assert (Hev : evolves (fun q => q = p) nos w (upd_port p down_step w)) by (by apply evolves_upd).
    assert (Hs0 : dp_setup (down_step dp) = false) by done.
    split_and!; [| by eapply evolves_shape, Hev; apply Hw' |].
    + eapply account_end; [exact Hw' | eapply (tree_ok_upd w p down_step dp); try done |].
      * intros d' Hd'. rewrite Hd in Hd'. injection Hd' as <-. by apply down_port_ok.
      * by destruct (Hkept dp) as [-> _].
      * intros Ety. unfold down_step. by rewrite Ety.
      * intros x. rewrite (expected_change c c w _ (OfPort p) l [] x Hhold); [unfold b; cbn; lia | | done | done |].
        -- cbn [holds]. rewrite (get_upd_eq w p down_step dp) by (done || apply Ha).
           change (w_switches (upd_port p down_step w)) with (w_switches w). rewrite Hd.
           unfold port_holds. by rewrite Hs0.
        -- intros o Ho. by apply holds_port_upd.
    + intros dq Hq. destruct (strip_some _ _ _ _ (get_port_shape w' _ p ltac:(symmetry; apply Hw')) Hq) as (dq0 & Hq0 & E).
      rewrite (get_upd_eq w p down_step dp) in Hq0 by (done || apply Ha). injection Hq0 as <-.
      apply strip_port_all in E as (_ & _ & _ & _ & _ & _ & _ & _ & E & _). by rewrite E.
Qed.

(** ** Switches *)

Lemma account_switch_setup c w ds p : account c w -> has_port w p -> fst p = ds ->
  total (dsa_switch_setup ds) w (fun err w' => account c w' /\ evolves nop (fun i => i = ds) w w').
Proof using base_pos QuietNet0 mdio_registers devlink_registers.
  intros Hacc Hp Eds. pose proof Hacc as [Hok _].
  destruct (port_known w (ok_sane _ Hok) p Hp) as [d Hd]. rewrite Eds in Hd.
  destruct (ds_setup d) eqn:Es.
  { unfold dsa_switch_setup, get_ds. apply total_bind, total_bind, total_get. eapply total_deref; [exact Hd |].
    rewrite Es. apply total_ret. split; [done | apply evolves_refl]. }
  pose proof (ok_switch _ Hok _ _ Hd) as Hdown. rewrite Es in Hdown.
  assert (Hhold : holds c w (OfSwitch ds) = []) by (cbn [holds]; rewrite Hd; unfold ds_holds; by rewrite Es).
  set (b := fun x => base x + expected c w x - occ x []).
  assert (b_pos : forall x, 0 <= b x).
  { intros x. unfold b. cbn. pose proof (base_pos x). pose proof (expected_pos c w x). lia. }
  assert (Hend : forall f nh w', ds_step f -> nh_known w nh ->
    (if ds_setup (f d) then True else switch_down (f d)) -> at_ b (stage w ds f nh) (ds_holds ds (f d)) w' ->
    account c w' /\ evolves nop (fun i => i = ds) w w').
  { intros f nh w' Hf Hnh Hst Hw'. split; [| eapply evolves_shape, evolves_stage; [apply Hw' | done]].
    eapply account_end; [exact Hw' | |].
    - eapply tree_ok_stage; [done | done | done | exact Hd |]. destruct (ds_setup (f d)); [by exists p | done].
    - intros x. rewrite (expected_change c c w _ (OfSwitch ds) [] (ds_holds ds (f d)) x Hhold).
      + unfold b. cbn [occ]. lia.
      + cbn [holds]. rewrite stage_lookup, decide_True by done. by rewrite Hd.
      + done.
      + apply ds_holds_owner.
      + intros o Ho. by apply holds_stage. }
  eapply (total_switch_up mdio_registers devlink_registers b b_pos w ds d [] w _ (ok_sane _ Hok) (ok_tag _ Hok) Hd Hdown); [by apply at_start | |].
  - intros f nh w' Hf Ef Hnh Hw'. apply (Hend f nh); [done | done | by rewrite Ef |].
    unfold ds_holds. by rewrite Ef, <- (app_nil_r (switch_holds _ _)).
  - intros err f nh w' Hne Hf Hd' Hnh Hw'. apply (Hend f nh); [done | done | by rewrite (sd_setup _ Hd') |].
    unfold ds_holds. by rewrite (sd_setup _ Hd').
Qed.

Lemma account_switch_teardown c w ds d : account c w -> w_switches w !! ds = Some d ->
  total (dsa_switch_teardown ds) w (fun _ w' => account c w' /\ evolves nop (fun i => i = ds) w w' /\
    forall d', w_switches w' !! ds = Some d' -> ds_setup d' = false).
Proof using base_pos.
  intros Hacc Hd. pose proof Hacc as [Hok _]. destruct (ds_setup d) eqn:Es.
  2: { unfold dsa_switch_teardown, get_ds. apply total_bind, total_bind, total_get. eapply total_deref; [exact Hd |].
       rewrite Es. apply total_ret. split_and!; [done | apply evolves_refl |]. intros d' Hd'. congruence. }
  assert (Hhold : holds c w (OfSwitch ds) = switch_holds ds d) by (cbn [holds]; rewrite Hd; unfold ds_holds; by rewrite Es).
  assert (Hl : Forall (fun r => owner r = OfSwitch ds) (switch_holds ds d)).
  { pose proof (ds_holds_owner ds d) as G. unfold ds_holds in G. by rewrite Es in G. }
  set (b := fun x => base x + expected c w x - occ x (switch_holds ds d)).
  assert (b_pos : forall x, 0 <= b x).
  { intros x. unfold b. pose proof (base_pos x). pose proof (holds_part c w (OfSwitch ds) x) as G. rewrite Hhold in G.
    specialize (G Hl). lia. }
  eapply (total_switch_down b b_pos w ds d [] w _ (ok_sane _ Hok) (ok_tag _ Hok) Hd Es).
  { rewrite app_nil_r. by apply at_start. }
  intros f nh w' Hf Hdown Hnh Hw'. split_and!; [| by eapply evolves_shape, evolves_stage; [apply Hw' |] |].
  - eapply account_end; [exact Hw' | |].
    + eapply tree_ok_stage; [done | done | done | exact Hd |]. by rewrite (sd_setup _ Hdown).
    + intros x. rewrite (expected_change c c w _ (OfSwitch ds) (switch_holds ds d) [] x Hhold); [unfold b; cbn; lia | | done | done |].
      * cbn [holds]. rewrite stage_lookup, decide_True by done. rewrite Hd. cbn. unfold ds_holds. by rewrite (sd_setup _ Hdown).
      * intros o Ho. by apply holds_stage.
  - intros d' Hd'. destruct (get_ds_back _ _ _ _ (at_shape _ _ _ _ Hw') Hd') as (d0 & Hd0 & (_ & <- & _)%strip_ds_all).
    rewrite stage_lookup, decide_True in Hd0 by done. rewrite Hd in Hd0. injection Hd0 as <-. apply Hdown.
Qed.

End Account.
