(* ===== verification/DsaTreeCycle.v ===== *)
(** * The life of a tree keeps the account

    The stages of [dsa_tree_setup] and [dsa_tree_teardown], and any sequence of
    the two: whatever fails in between, what is held is what was held before and
    what the tree says is set up. *)

From Stdlib Require Import ZArith Lia Bool.
From S2P Require Import Prelude.
From S2P Require Import Kernel.
From S2P Require Import DsaTypes.
From S2P Require Import DsaSwitch.
From S2P Require Import DsaEvent.
From S2P Require Import DsaSafe.
From S2P Require Import DsaGroups.
From S2P Require Import DsaPort.
From S2P Require Import DsaMember.
From S2P Require Import DsaLife.
From S2P Require Import DsaTree.
From S2P Require Import DsaRoutes.
From S2P Require Import DsaAccount.
From S2P Require Import DsaUpDown.
From S2P Require Import DsaTreeLife.
From S2P Require Import DsaTreeAccount.

Section Cycle.
Context {H : Type} `{RefcountApi, NotifierApi, NetQueries, !NetEffects H, !LifeApi H, !QuietNet H, PlatformApi}.
Context (tagger_data : H -> Z -> bool).
Context (mdio_registers : forall ds h, fst (acquire (H := H) (MdioRegistered ds) h) = 0).
Context (devlink_registers : forall ds h, fst (acquire (H := H) (DevlinkRegistered ds) h) = 0).
Context (cpu : pid) (conduit : netdev) (conduit_ptr : dsa_ptr conduit = Some cpu).
Context (base : resource -> Z) (base_pos : forall x, 0 <= base x).
Implicit Types (w : world H).
Abbreviation acct := (account cpu conduit base).
Abbreviation nop := (fun _ : pid => False).
Abbreviation nos := (fun _ : Z => False).
Abbreviation anyp := (fun _ : pid => True).
Abbreviation anys := (fun _ : Z => True).
Abbreviation ids w := (dp_id <$> w_ports w).

Lemma total_for_ports (I : list pid -> world H -> Prop) body w (Q : unit -> world H -> Prop) : I [] w ->
  (forall done_ p rest w', ids w = done_ ++ p :: rest -> I done_ w' ->
     total (body p) w' (fun _ w'' => I (done_ ++ [p]) w'')) ->
  (forall w', I (ids w) w' -> Q tt w') -> total (for_ports body) w Q.
Proof using.
  intros H0' Hb HQ. unfold for_ports, ports_now. apply total_bind, total_bind, total_get, total_ret.
  apply total_bind. eapply total_for_err with (I := I); [done | |].
  - intros done_ p rest w' El HI. mstep (by eapply Hb). cbv beta.
    intros _ w'' HI'. by apply total_ret.
  - intros w' HI. apply total_ret. by apply HQ.
Qed.

Lemma ids_has P S w w' p : evolves P S w w' -> p ∈ ids w -> has_port w' p.
Proof using. intros Hev Hin. apply port_in. by rewrite (ev_ids _ _ _ _ Hev). Qed.

Lemma ids_mid {A} (l : list A) d p r : l = d ++ p :: r -> p ∈ l.
Proof using. intros ->. apply elem_of_app. right. by left. Qed.

Definition ports_down w : Prop := forall p dp, get_port w p = Some dp -> dp_setup dp = false.
Definition switches_down w : Prop := forall ds d, w_switches w !! ds = Some d -> ds_setup d = false.
Definition cabled w : Prop := forall p dp, get_port w p = Some dp -> dp_type dp = DSA_PORT_TYPE_USER -> dp_cpu_dp dp = Some cpu.

Lemma evolves_down S w w' : evolves nop S w w' -> ports_down w -> ports_down w'.
Proof using.
  intros Hev Hd p dq Hq. destruct (ev_port _ _ _ _ Hev _ _ Hq) as (dp & Hp & _ & _ & [E | []]). rewrite E. by eapply Hd.
Qed.

Lemma evolves_cabled P S w w' : evolves P S w w' -> cabled w -> cabled w'.
Proof using.
  intros Hev Hc p dq Hq Ety. destruct (ev_port _ _ _ _ Hev _ _ Hq) as (dp & Hp & Et & -> & _).
  apply (Hc p dp Hp). by rewrite <- Et.
Qed.

(** ** Switches *)

Lemma teardown_switches c w : acct c w ->
  total dsa_tree_teardown_switches w (fun _ w' => acct c w' /\ evolves nop anys w w' /\ switches_down w').
Proof using base_pos.
  intros Hacc. unfold dsa_tree_teardown_switches.
  apply (total_for_ports (fun done_ w' => acct c w' /\ evolves nop anys w w' /\
    forall ds d, w_switches w' !! ds = Some d -> ds ∈ fst <$> done_ -> ds_setup d = false)).
  - split_and!; [done | apply evolves_refl |]. by intros ds d _ ?%not_elem_of_nil.
  - intros done_ p rest w1 El (Hacc1 & Hev & Hdone). destruct (ids_has _ _ _ _ p Hev) as [dp Hp]; [by eapply ids_mid |].
    unfold port_of. apply total_bind, total_bind, total_get. eapply total_deref; [exact Hp |].
    assert (Eds : dp_ds dp = fst p) by (apply get_port_in in Hp as [_ <-]; done). rewrite Eds.
    pose proof Hacc1 as [Hok _]. destruct (port_known w1 (ok_sane _ _ _ Hok) p ltac:(by exists dp)) as [d Hd].
    eapply total_weaken; [| by eapply account_switch_teardown]. cbv beta. intros _ w2 (Hacc2 & Hev2 & Hds).
    split_and!; [done | |].
    + eapply evolves_trans; [exact Hev |]. eapply evolves_weaken; [| | exact Hev2]; done.
    + intros ds d' Hd' Hin. rewrite fmap_app in Hin. destruct (decide (ds = fst p)) as [-> | Hne]; [by apply Hds |].
      apply elem_of_app in Hin as [Hin | Hin]; [| by apply list_elem_of_singleton in Hin].
      destruct (ev_switch _ _ _ _ Hev2 _ _ Hd') as (d1 & Hd1 & [-> | ?]); [by eapply Hdone | done].
  - intros w' (Hacc1 & Hev & Hdone). split_and!; [done | done |]. intros ds d Hd. pose proof Hacc1 as [Hok _].
    pose proof (ok_switch _ _ _ Hok _ _ Hd) as G. destruct (ds_setup d) eqn:E; [| done].
    destruct G as (p & Hp & <-). rewrite <- E. eapply Hdone; [done |]. apply list_elem_of_fmap_2.
    rewrite <- (ev_ids _ _ _ _ Hev). by apply port_in.
Qed.

Lemma setup_switches c w : acct c w ->
  total dsa_tree_setup_switches w (fun err w' => acct c w' /\ evolves nop anys w w' /\ (err <> 0 -> switches_down w')).
Proof using base_pos QuietNet0 mdio_registers devlink_registers.
  intros Hacc. unfold dsa_tree_setup_switches, ports_now. apply total_bind, total_bind, total_get, total_ret.
  apply total_bind. eapply (total_for_err _ _ _ (fun _ w' => acct c w' /\ evolves nop anys w w')).
  - split; [done | apply evolves_refl].
  - intros done_ p rest w1 El (Hacc1 & Hev). destruct (ids_has _ _ _ _ p Hev) as [dp Hp]; [by eapply ids_mid |].
    unfold port_of. apply total_bind, total_bind, total_get. eapply total_deref; [exact Hp |].
    assert (Eds : dp_ds dp = fst p) by (apply get_port_in in Hp as [_ <-]; done). rewrite Eds.
    eapply total_weaken; [| eapply (account_switch_setup cpu conduit mdio_registers devlink_registers base base_pos c w1 (fst p) p Hacc1); [by exists dp | done]].
    cbv beta. intros err w2 [Hacc2 Hev2].
    assert (Hev3 : evolves nop anys w w2).
    { eapply evolves_trans; [exact Hev |]. eapply evolves_weaken; [| | exact Hev2]; done. }
    destruct (Z.eqb_spec err 0) as [-> | Hne]; [done |]. destruct (Z.eqb_spec err 0); [done |]. cbn [negb].
    mstep (by apply teardown_switches). cbv beta. intros _ w3 (Hacc3 & Hev4 & Hdown).
    apply total_ret. split_and!; [done | by eapply evolves_trans | done].
  - intros w' [Hacc' Hev']. cbn. by apply total_ret.
Qed.

(** ** Ports *)

Lemma total_flush w (Q : unit -> world H -> Prop) : w_works w = [] -> Q tt w ->
  total (dsa_flush_workqueue tagger_data) w Q.
Proof using.
  intros Hw HQ. unfold dsa_flush_workqueue. apply total_bind, total_get. rewrite Hw. by apply total_ret.
Qed.

(** One pass over the ports of a kind, those of another being down already. *)
Lemma teardown_pass c (which extra : dsa_port -> bool) w :
  (forall dp dq, dp_type dp = dp_type dq -> which dp = which dq /\ extra dp = extra dq) ->
  acct c w -> (forall p dp, get_port w p = Some dp -> extra dp = true -> dp_setup dp = false) ->
  total (for_ports (teardown_if which)) w (fun _ w' => acct c w' /\ evolves anyp nos w w' /\
    forall p dp, get_port w' p = Some dp -> which dp || extra dp = true -> dp_setup dp = false).
Proof using base_pos QuietNet0.
  intros Hty Hacc Hextra.
  apply (total_for_ports (fun done_ w' => acct c w' /\ evolves anyp nos w w' /\
    forall p dp, get_port w' p = Some dp -> (which dp = true /\ p ∈ done_) \/ extra dp = true -> dp_setup dp = false)).
  - split_and!; [done | apply evolves_refl |]. intros p dp Hp [[_ ?%not_elem_of_nil] | E]; [done | by eapply Hextra].
  - intros done_ p rest w1 El (Hacc1 & Hev & Hdone). destruct (ids_has _ _ _ _ p Hev) as [dp Hp]; [by eapply ids_mid |].
    unfold teardown_if, port_of. apply total_bind, total_bind, total_get. eapply total_deref; [exact Hp |].
    destruct (which dp) eqn:Ew.
    + eapply total_weaken; [| by eapply account_port_teardown]. cbv beta. intros _ w2 (Hacc2 & Hev2 & Hds).
      split_and!; [done | |].
      * eapply evolves_trans; [exact Hev |]. eapply evolves_weaken; [| | exact Hev2]; done.
      * intros q dq Hq Hor. destruct (decide (q = p)) as [-> | Hne]; [by apply Hds |].
        destruct (ev_port _ _ _ _ Hev2 _ _ Hq) as (dq1 & Hq1 & Et & _ & [-> | ?]); [| done].
        destruct (Hty _ _ Et) as [E1 E2]. rewrite E1, E2 in Hor. eapply Hdone; [exact Hq1 |].
        destruct Hor as [[Ew' Hin] | ?]; [left; split; [done |] | by right].
        apply elem_of_app in Hin as [? | Hin%list_elem_of_singleton]; done.
    + apply total_ret. split_and!; [done | done |]. intros q dq Hq Hor. eapply Hdone; [exact Hq |].
      destruct Hor as [[Ew' Hin] | ?]; [| by right].
      apply elem_of_app in Hin as [? | ->%list_elem_of_singleton]; [by left |]. congruence.
  - intros w' (Hacc1 & Hev & Hdone). split_and!; [done | done |]. intros p dp Hp Hor. eapply Hdone; [exact Hp |].
    apply orb_true_iff in Hor as [Ew | ?]; [left | by right]. split; [done |].
    rewrite <- (ev_ids _ _ _ _ Hev). apply port_in. by exists dp.
Qed.

Lemma own_or_shared dp : dsa_port_is_shared_kind dp || dsa_port_is_own_kind dp = true.
Proof using.
  unfold dsa_port_is_shared_kind, dsa_port_is_own_kind, dsa_port_is_dsa, dsa_port_is_cpu, dsa_port_is_user, dsa_port_is_unused.
  by destruct (dp_type dp).
Qed.

Lemma kinds_type dp dq : dp_type dp = dp_type dq ->
  dsa_port_is_own_kind dp = dsa_port_is_own_kind dq /\ dsa_port_is_shared_kind dp = dsa_port_is_shared_kind dq.
Proof using.
  intros E. unfold dsa_port_is_shared_kind, dsa_port_is_own_kind, dsa_port_is_dsa, dsa_port_is_cpu, dsa_port_is_user, dsa_port_is_unused.
  by rewrite E.
Qed.

Lemma teardown_ports c w : acct c w ->
  total (dsa_tree_teardown_ports tagger_data) w (fun _ w' => acct c w' /\ evolves anyp nos w w' /\ ports_down w').
Proof using base_pos QuietNet0.
  intros Hacc. unfold dsa_tree_teardown_ports. mstep (eapply (teardown_pass c _ (fun _ => false))).
  - cbv beta. intros _ w1 (Hacc1 & Hev1 & Hown). apply total_bind, total_flush.
    { pose proof Hacc1 as [Hok _]. apply (ok_works _ _ _ Hok). }
    eapply total_weaken; [| eapply (teardown_pass c _ dsa_port_is_own_kind)].
    + cbv beta. intros _ w2 (Hacc2 & Hev2 & Hall). split_and!; [done | by eapply evolves_trans |].
      intros p dp Hp. eapply Hall; [exact Hp | apply own_or_shared].
    + intros dp dq E. by destruct (kinds_type dp dq E).
    + done.
    + intros p dp Hp E. eapply Hown; [exact Hp | by rewrite E].
  - intros dp dq E. by destruct (kinds_type dp dq E).
  - done.
  - done.
Qed.

(** A port whose interface cannot be created stays without one. *)
Lemma acct_unused c w p dp : acct c w -> get_port w p = Some dp -> dp_setup dp = false -> dsa_port_is_own_kind dp = true ->
  acct c (upd_port p (set_type DSA_PORT_TYPE_UNUSED) w).
Proof using.
  intros [Hok Hh] Hp Es Eo. assert (Ecpu : dp_type dp <> DSA_PORT_TYPE_CPU) by (intros E; unfold dsa_port_is_own_kind, dsa_port_is_user, dsa_port_is_unused in Eo; by rewrite E in Eo).
  destruct (port_known w (ok_sane _ _ _ Hok) p ltac:(by exists dp)) as [d Hd].
  pose proof (assigns_type DSA_PORT_TYPE_UNUSED) as Ha. split.
  - eapply (tree_ok_upd cpu conduit w p _ dp Hok Ha Hp).
    + intros d' Hd'. destruct (ok_port _ _ _ Hok _ _ _ Hp Hd') as [Pb Pl Pc Ps]. rewrite Es in Ps.
      split; cbn [dp_bridge dp_cpu_port_in_lag dp_cpu_dp set_type dp_setup dp_type dp_pl dp_netdev]; try done.
      rewrite Es. split; [by apply Ps | done].
    + cbn. by split.
    + done.
  - intros x. cbn [w_hw upd_port set_ports]. rewrite Hh. f_equal. symmetry.
    rewrite (expected_change c c w _ (OfPort p) [] [] x); [cbn; lia | | | done | done |].
    + cbn [holds]. rewrite Hp, Hd. unfold port_holds. by rewrite Es.
    + cbn [holds]. rewrite (get_upd_eq w p _ dp) by done. change (w_switches (upd_port p _ w)) with (w_switches w).
      rewrite Hd. unfold port_holds. cbn [dp_setup set_type]. by rewrite Es.
    + intros o Ho. by apply holds_port_upd.
Qed.

Lemma cabled_unused w p dp : cabled w -> get_port w p = Some dp -> cabled (upd_port p (set_type DSA_PORT_TYPE_UNUSED) w).
Proof using.
  intros Hc Hp q dq Hq Ety. destruct (decide (q = p)) as [-> | Hne].
  - rewrite (get_upd_eq w p _ dp) in Hq by done. by injection Hq as <-.
  - rewrite get_upd_ne in Hq by done. by eapply Hc.
Qed.

Definition kept w w' : Prop := ids w' = ids w /\ w_tree w' = w_tree w /\
  forall i, ds_fixed <$> w_switches w' !! i = ds_fixed <$> w_switches w !! i.
Lemma evolves_kept P S w w' : evolves P S w w' -> kept w w'.
Proof using. intros [Ei Et _ _ Ef]. by split_and!. Qed.
Lemma kept_trans u v w : kept u v -> kept v w -> kept u w.
Proof using. intros (E1 & E2 & E3) (F1 & F2 & F3). split_and!; [congruence | congruence | intros i; by rewrite F3]. Qed.

Lemma setup_own c w p dp : acct c w -> cabled w -> get_port w p = Some dp -> dsa_port_is_own_kind dp = true ->
  total (err ← dsa_port_setup tagger_data p; if negb (err =? 0) then dsa_port_setup_as_unused tagger_data p else mret 0) w
    (fun _ w' => acct c w' /\ kept w w' /\ cabled w').
Proof using base_pos QuietNet0.
  intros Hacc Hc Hp Eo. mstep (eapply (account_port_setup cpu conduit tagger_data base base_pos c w p dp Hacc Hp)).
  2: { exact (Hc p dp Hp). }
  cbv beta. intros err w1 (Hacc1 & Hev & Hfail). pose proof (evolves_cabled _ _ _ _ Hev Hc) as Hc1.
  destruct (Z.eqb_spec err 0) as [-> | Hne]; cbn [negb].
  { apply total_ret. split_and!; [done | by eapply evolves_kept | done]. }
  destruct (Hfail Hne) as [Hev' Es]. unfold dsa_port_setup_as_unused. apply total_bind, total_modify.
  assert (Hp1 : has_port w1 p) by (eapply ids_has; [exact Hev |]; apply port_in; by exists dp). destruct Hp1 as [dp1 Hp1].
  destruct (ev_port _ _ _ _ Hev' _ _ Hp1) as (dp0 & Hp0 & Et & _ & [Es1 | []]). rewrite Hp in Hp0. injection Hp0 as <-.
  set (w2 := upd_port p (set_type DSA_PORT_TYPE_UNUSED) w1).
  assert (Hacc2 : acct c w2).
  { eapply acct_unused; [done | exact Hp1 | by rewrite Es1 |]. by destruct (kinds_type dp1 dp Et) as [-> _]. }
  assert (Hp2 : get_port w2 p = Some (set_type DSA_PORT_TYPE_UNUSED dp1)) by (by apply get_upd_eq).
  eapply total_weaken; [| eapply (account_port_setup cpu conduit tagger_data base base_pos c w2 p _ Hacc2 Hp2); done].
  cbv beta. intros err2 w3 (Hacc3 & Hev3 & _). split_and!; [done | |].
  - eapply kept_trans; [by eapply evolves_kept |]. eapply kept_trans; [| by eapply evolves_kept].
    split_and!; [| done | done]. unfold w2. by apply upd_port_ids.
  - eapply evolves_cabled; [exact Hev3 |]. by eapply cabled_unused.
Qed.

Lemma setup_ports c w : acct c w -> cabled w ->
  total (dsa_tree_setup_ports tagger_data) w (fun err w' => acct c w' /\ kept w w' /\ (err <> 0 -> ports_down w')).
Proof using base_pos QuietNet0.
  intros Hacc Hc. unfold dsa_tree_setup_ports, ports_now. apply total_bind, total_bind, total_get, total_ret.
  set (J := fun (w' : world H) => acct c w' /\ kept w w' /\ cabled w').
  assert (Hkh : forall w' p done_ rest, kept w w' -> ids w = done_ ++ p :: rest -> has_port w' p).
  { intros w' p done_ rest (E & _ & _) El. apply port_in. rewrite E. by eapply ids_mid. }
  assert (Hloop : forall w1 (body : pid -> st (world H) Z), J w1 ->
    (forall p dp w', J w' -> get_port w' p = Some dp -> total (body p) w' (fun _ w'' => J w'')) ->
    total (for_err (ids w) body) w1 (fun _ w' => J w')).
  { intros w1 body HJ Hb. eapply (total_for_err _ _ _ (fun _ w' => J w')); [done | | done].
    intros done_ p rest w' El HJ'. destruct (Hkh w' p done_ rest) as [dp Hp]; [apply HJ' | done |].
    eapply total_weaken; [| by eapply Hb]. cbv beta. intros err w'' HJ''. by destruct (err =? 0). }
  assert (Hend : forall err w1, J w1 -> total (if negb (err =? 0) then _ ← dsa_tree_teardown_ports tagger_data; mret err else mret 0)
    w1 (fun err w' => acct c w' /\ kept w w' /\ (err <> 0 -> ports_down w'))).
  { intros err w1 (Hacc1 & Hk1 & Hc1). destruct (Z.eqb_spec err 0) as [-> | Hne]; cbn [negb]; [by apply total_ret |].
    mstep (by apply teardown_ports). cbv beta. intros _ w2 (Hacc2 & Hev2 & Hdown).
    apply total_ret. split_and!; [done | | done]. eapply kept_trans; [exact Hk1 | by eapply evolves_kept]. }
  mstep (apply Hloop).
  - cbv beta. intros err w1 HJ1. apply total_bind. destruct (negb (err =? 0)).
    + apply total_ret. by apply Hend.
    + eapply total_weaken; [| apply Hloop; [exact HJ1 |]]; [intros err2 w2 HJ2; by apply Hend |].
      intros p dp w' HJ' Hp. unfold port_of. apply total_bind, total_bind, total_get. eapply total_deref; [exact Hp |].
      destruct (dsa_port_is_own_kind dp) eqn:Eo; [| by apply total_ret].
      destruct HJ' as (Hacc' & Hk' & Hc'). eapply total_weaken; [| by eapply (setup_own c w' p dp)].
      cbv beta. intros err2 w'' (Hacc'' & Hk'' & Hc''). split_and!; [done | by eapply kept_trans | done].
  - split_and!; done || by split_and!.
  - intros p dp w' (Hacc' & Hk' & Hc') Hp. unfold port_of. apply total_bind, total_bind, total_get. eapply total_deref; [exact Hp |].
    destruct (dsa_port_is_shared_kind dp) eqn:Eo; [| by apply total_ret].
    eapply total_weaken; [| eapply (account_port_setup cpu conduit tagger_data base base_pos c w' p dp Hacc' Hp); exact (Hc' p dp Hp)].
    cbv beta. intros err w'' (Hacc'' & Hev & _). split_and!; [done | | by eapply evolves_cabled].
    eapply kept_trans; [exact Hk' | by eapply evolves_kept].
Qed.

(** ** The conduit *)

Lemma cpu_is_cpu w : tree_ok cpu conduit w -> forall p dp, get_port w p = Some dp ->
  dsa_port_is_cpu dp = bool_decide (p = cpu) /\ (p = cpu -> dp_netdev dp = Some conduit).
Proof using.
  intros Hok p dp Hp. destruct (ok_cpu _ _ _ Hok) as (dc & Hc & Et & En). unfold dsa_port_is_cpu. split.
  - apply bool_decide_ext. split.
    + by apply (ok_only _ _ _ Hok).
    + intros ->. rewrite Hp in Hc. by injection Hc as ->.
  - intros ->. rewrite Hp in Hc. by injection Hc as ->.
Qed.

(** What is held when no conduit is up, and then the conduit on top. *)
Lemma expected_conduit w x : expected (Some conduit) w x = expected None w x + occ x (conduit_holds conduit).
Proof using.
  rewrite (expected_change None (Some conduit) w w OfConduit [] (conduit_holds conduit) x); [cbn; lia | done | done | done | apply conduit_holds_owner |].
  by intros [] ?.
Qed.

Lemma acct_end b w0 l w c : tree_ok cpu conduit w0 -> at_ b w0 l w ->
  (forall x, b x + occ x l = base x + expected c w0 x) -> evolves nop nos w0 w /\ acct c w.
Proof using.
  intros Hok Hw E. split; [eapply evolves_shape, evolves_refl; apply Hw | by eapply account_end].
Qed.

Definition up_when (b : bool) : option netdev := if b then Some conduit else None.

Lemma conduit_step w : acct None w ->
  total (err ← dsa_conduit_setup conduit cpu;
         if negb (err =? 0) then mret err
         else
           _ ← dsa_tree_conduit_admin_state_change tagger_data conduit (iff_up conduit && negb (qdisc_tx_is_noop conduit));
           _ ← dsa_tree_conduit_oper_state_change tagger_data conduit (netif_oper_up conduit);
           mret 0) w (fun err w' => evolves nop nos w w' /\ acct (up_when (err =? 0)) w').
Proof using base_pos QuietNet0 conduit_ptr.
  intros Hacc. pose proof Hacc as [Hok _]. destruct (ok_cpu _ _ _ Hok) as (dc & Hc & _).
  assert (Hp : has_port w cpu) by (by exists dc). pose proof (ok_sane _ _ _ Hok) as Hs.
  set (b := fun x => base x + expected None w x - occ x []).
  assert (b_pos : forall x, 0 <= b x).
  { intros x. unfold b. cbn. pose proof (base_pos x). pose proof (expected_pos None w x). lia. }
  apply total_bind. eapply (total_conduit_up b b_pos w); [apply (ok_tag _ _ _ Hok) | by apply (at_start cpu conduit) | |].
  - intros w1 Hw1. cbn [negb Z.eqb]. calmly Hw1 by (by eapply calm_admin). intros _ w2 _ Hw2.
    calmly Hw2 by (by eapply calm_oper). intros _ w3 _ Hw3. apply total_ret. cbn [Z.eqb up_when].
    eapply acct_end; [done | exact Hw3 |]. intros x. rewrite expected_conduit, app_nil_r. unfold b. cbn [occ]. lia.
  - intros err w1 Hne Hw1. destruct (Z.eqb_spec err 0) as [| _]; [done |]. cbn [negb]. apply total_ret.
    destruct (Z.eqb_spec err 0) as [| _]; [done |]. cbn [up_when].
    eapply acct_end; [done | exact Hw1 |]. intros x. unfold b. cbn [occ]. lia.
Qed.

Lemma not_yet w d r : tree_ok cpu conduit w -> ids w = d ++ cpu :: r -> cpu ∉ d.
Proof using.
  intros Hok E Hin. pose proof (sn_names _ (ok_sane _ _ _ Hok)) as Hnd. rewrite E in Hnd.
  apply NoDup_app in Hnd as (_ & Hnd & _). apply (Hnd cpu Hin). by left.
Qed.

Lemma cpu_in_ids w : tree_ok cpu conduit w -> cpu ∈ ids w.
Proof using. intros Hok. destruct (ok_cpu _ _ _ Hok) as (dc & Hc & _). apply port_in. by exists dc. Qed.

Lemma in_snoc (p : pid) d : bool_decide (cpu ∈ d ++ [p]) = bool_decide (cpu ∈ d) || bool_decide (p = cpu).
Proof using.
  apply Bool.eq_iff_eq_true. rewrite orb_true_iff, !bool_decide_eq_true, elem_of_app, list_elem_of_singleton.
  split; (intros [? | ?]; [by left | by right]).
Qed.

Lemma setup_conduit w : acct None w ->
  total (dsa_tree_setup_conduit tagger_data) w (fun err w' => evolves nop nos w w' /\ acct (up_when (err =? 0)) w').
Proof using base_pos QuietNet0 conduit_ptr.
  intros Hacc. pose proof Hacc as [Hok _]. unfold dsa_tree_setup_conduit, ports_now. apply total_bind, total_bind, total_get, total_ret.
  eapply (total_for_err _ _ _ (fun d w' => evolves nop nos w w' /\ acct (up_when (bool_decide (cpu ∈ d))) w')).
  - split; [apply evolves_refl |]. by rewrite bool_decide_false by (apply not_elem_of_nil).
  - intros d p r w1 El (Hev & Hacc1). destruct (ids_has _ _ _ _ p Hev) as [dp Hp]; [by eapply ids_mid |].
    unfold port_of. apply total_bind, total_bind, total_get. eapply total_deref; [exact Hp |].
    pose proof Hacc1 as [Hok1 _]. destruct (cpu_is_cpu w1 Hok1 p dp Hp) as [-> Hnd]. rewrite in_snoc.
    destruct (decide (p = cpu)) as [-> | Hne].
    + rewrite (bool_decide_true (cpu = cpu)), orb_true_r by done. cbn [negb]. apply total_bind. eapply total_deref; [by apply Hnd |].
      rewrite bool_decide_false in Hacc1 by (by eapply (not_yet w)). cbn [up_when] in Hacc1.
      eapply total_weaken; [| by apply conduit_step]. cbv beta. intros err w2 [Hev2 Hacc2].
      assert (Hev3 : evolves nop nos w w2) by (by eapply evolves_trans).
      destruct (Z.eqb_spec err 0) as [-> | Hne]; [done |]. split; [done |].
      destruct (Z.eqb_spec err 0) as [| _]; done.
    + rewrite (bool_decide_false (p = cpu)), orb_false_r by done. cbn [negb]. by apply total_ret.
  - intros w' [Hev Hacc']. split; [done |]. by rewrite bool_decide_true in Hacc' by (by apply cpu_in_ids).
Qed.

Lemma teardown_conduit w : acct (Some conduit) w ->
  total (dsa_tree_teardown_conduit tagger_data) w (fun _ w' => evolves nop nos w w' /\ acct None w').
Proof using base_pos QuietNet0 conduit_ptr.
  intros Hacc. pose proof Hacc as [Hok _]. unfold dsa_tree_teardown_conduit.
  apply (total_for_ports (fun d w' => evolves nop nos w w' /\ acct (up_when (negb (bool_decide (cpu ∈ d)))) w')).
  - split; [apply evolves_refl |]. by rewrite bool_decide_false by (apply not_elem_of_nil).
  - intros d p r w1 El (Hev & Hacc1). destruct (ids_has _ _ _ _ p Hev) as [dp Hp]; [by eapply ids_mid |].
    unfold port_of. apply total_bind, total_bind, total_get. eapply total_deref; [exact Hp |].
    pose proof Hacc1 as [Hok1 _]. destruct (cpu_is_cpu w1 Hok1 p dp Hp) as [-> Hnd]. rewrite in_snoc.
    destruct (decide (p = cpu)) as [-> | Hne].
    + rewrite (bool_decide_true (cpu = cpu)), orb_true_r by done. cbn [negb up_when]. apply total_bind. eapply total_deref; [by apply Hnd |].
      rewrite bool_decide_false in Hacc1 by (by eapply (not_yet w)). cbn [negb up_when] in Hacc1.
      set (b := fun x => base x + expected (Some conduit) w1 x - occ x (conduit_holds conduit)).
      assert (b_pos : forall x, 0 <= b x).
      { intros x. unfold b. rewrite expected_conduit. pose proof (base_pos x). pose proof (expected_pos None w1 x). lia. }
      assert (Hw1 : at_ b w1 (conduit_holds conduit ++ []) w1) by (rewrite app_nil_r; by apply (at_start cpu conduit)).
      calmly Hw1 by (eapply calm_admin; [apply (ok_sane _ _ _ Hok1) | done | by exists dp]). intros _ w2 _ Hw2.
      eapply (total_conduit_down b b_pos w1); [apply (ok_tag _ _ _ Hok1) | exact Hw2 |]. intros w3 Hw3.
      destruct (acct_end b w1 [] w3 None Hok1 Hw3) as [Hev3 Hacc3].
      { intros x. unfold b. rewrite expected_conduit. cbn [occ]. lia. }
      split; [by eapply evolves_trans | done].
    + rewrite (bool_decide_false (p = cpu)), orb_false_r by done. cbn [negb]. by apply total_ret.
  - intros w' [Hev Hacc']. split; [done |]. by rewrite bool_decide_true in Hacc' by (by apply cpu_in_ids).
Qed.

(** ** CPU ports, routes and LAGs *)

Lemma port_ok_cable (ops : dsa_switch_ops H) dp y : port_ok cpu ops dp -> (y = None \/ y = Some cpu) ->
  (dp_setup dp = true -> dp_type dp = DSA_PORT_TYPE_USER -> y = Some cpu) -> port_ok cpu ops (set_cpu_dp y dp).
Proof using.
  intros [Pb Pl Pc Ps] Hy Hup. split; [done | done | done |].
  cbn [dp_setup set_cpu_dp dp_type dp_pl dp_netdev dp_cpu_dp]. destruct (dp_setup dp); [| done].
  destruct (dp_type dp); try done. split; [by destruct Ps | by apply Hup].
Qed.

(** Cables laid or taken away: only [cpu_dp] changes. *)
Lemma acct_cables c w (x : dsa_port -> option pid) : acct c w ->
  (forall p dp, get_port w p = Some dp -> (x dp = None \/ x dp = Some cpu) /\
     (dp_setup dp = true -> dp_type dp = DSA_PORT_TYPE_USER -> x dp = Some cpu)) ->
  let w' := set_ports w ((fun dp => set_cpu_dp (x dp) dp) <$> w_ports w) in
  acct c w' /\ (forall p, get_port w' p = (fun dp => set_cpu_dp (x dp) dp) <$> get_port w p).
Proof using.
  intros [[Os Ot Ow Op Osw Oc Oo Opr] Hh] Hx w'.
  assert (Hget : forall p, get_port w' p = (fun dp => set_cpu_dp (x dp) dp) <$> get_port w p).
  { intros p. unfold w'. apply get_port_map. by intros dp. }
  assert (Hhas : forall p, has_port w p -> has_port w' p).
  { intros p [dp Hp]. unfold has_port. rewrite Hget, Hp. by eexists. }
  assert (Hinv : forall p dq, get_port w' p = Some dq -> exists dp, get_port w p = Some dp /\ dq = set_cpu_dp (x dp) dp).
  { intros p dq Hq. rewrite Hget in Hq. apply fmap_Some in Hq as (dp & Hp & ->). by exists dp. }
  split; [split; [split |] | done].
  - destruct Os as [Sn Ss Sh Sd]. split; [| | done | done].
    + unfold w'. cbn [w_ports set_ports]. by rewrite <- list_fmap_compose.
    + intros dq Hq. apply list_elem_of_fmap in Hq as (dp & -> & Hp). exact (Ss dp Hp).
  - by destruct Ot.
  - done.
  - intros p dq d (dp & Hp & ->)%Hinv Hd. destruct (Hx p dp Hp). apply port_ok_cable; [by eapply Op | done | done].
  - intros ds d Hd. pose proof (Osw ds d Hd) as G. destruct (ds_setup d); [| done].
    destruct G as (p & Hp & <-). exists p. split; [by apply Hhas | done].
  - destruct Oc as (dc & Hc & Et & En). exists (set_cpu_dp (x dc) dc). by rewrite Hget, Hc.
  - intros p dq (dp & Hp & ->)%Hinv Ety. by apply (Oo p dp).
  - intros ds d f h q (r & [dr Hr] & Eds) Hd Hf Hq. eapply Hhas, Opr; [| exact Hd | exact Hf | exact Hq].
    exists r. split; [| done]. apply Hinv in Hr as (dp & Hp & _). by exists dp.
  - intros r. cbn [w_hw w' set_ports]. rewrite Hh. f_equal. unfold expected. f_equal.
    destruct (owner r) as [p | ds |]; [| done | done]. cbn [holds]. rewrite Hget.
    change (w_switches w') with (w_switches w). by destruct (get_port w p), (w_switches w !! fst p).
Qed.

Lemma find_cpu_port w : tree_ok cpu conduit w -> forall (t : dsa_port -> bool), (forall dp, t dp = true -> dsa_port_is_cpu dp = true) ->
  List.find t (w_ports w) = None \/ dp_id <$> List.find t (w_ports w) = Some cpu.
Proof using.
  intros Hok t Ht. destruct (List.find t (w_ports w)) as [dp |] eqn:E; [right | by left]. cbn.
  apply List.find_some in E as [Hin Hdp]. apply list_elem_of_In in Hin. f_equal.
  pose proof (get_port_of w dp (sn_names _ (ok_sane _ _ _ Hok)) Hin) as Hp.
  apply (ok_only _ _ _ Hok _ _ Hp). by apply Ht, bool_decide_eq_true in Hdp.
Qed.

Lemma first_cpu w : tree_ok cpu conduit w -> dsa_tree_find_first_cpu w = Some cpu.
Proof using.
  intros Hok. unfold dsa_tree_find_first_cpu.
  destruct (find_cpu_port w Hok dsa_port_is_cpu) as [E | E]; [done | | done].
  destruct (ok_cpu _ _ _ Hok) as (dc & Hc & Et & _). apply get_port_in in Hc as [Hin _].
  apply list_elem_of_In, (List.find_none _ _ E) in Hin. unfold dsa_port_is_cpu in Hin. by rewrite Et in Hin.
Qed.

Lemma assign_cpu w dp : tree_ok cpu conduit w -> assign w dp = set_cpu_dp (if unassigned dp then Some cpu else dp_cpu_dp dp) dp.
Proof using.
  intros Hok. unfold assign. destruct (unassigned dp); [| by destruct dp]. f_equal. rewrite first_cpu by done.
  unfold local_cpu. destruct (find_cpu_port w Hok (fun c => dsa_port_is_cpu c && (dp_ds c =? dp_ds dp) &&
    bool_decide (preferred w (dp_ds c) = None \/ preferred w (dp_ds c) = Some (dp_id c)))) as [E | E].
  - intros dq Hq. by apply andb_true_iff in Hq as [[Hq _]%andb_true_iff _].
  - by rewrite E.
  - by rewrite E.
Qed.

Lemma cabled_if c w (x : dsa_port -> option pid) : acct c w ->
  (forall p dp, get_port w p = Some dp -> (x dp = None \/ x dp = Some cpu)) ->
  (forall dp, dp_type dp = DSA_PORT_TYPE_USER -> x dp = None -> False) ->
  (forall p, get_port (set_ports w ((fun dp => set_cpu_dp (x dp) dp) <$> w_ports w)) p = (fun dp => set_cpu_dp (x dp) dp) <$> get_port w p) ->
  cabled (set_ports w ((fun dp => set_cpu_dp (x dp) dp) <$> w_ports w)).
Proof using.
  intros _ Hx Hn Hget p dq Hq Ety. rewrite Hget in Hq. apply fmap_Some in Hq as (dp & Hp & ->).
  cbn [dp_cpu_dp set_cpu_dp dp_type] in *. destruct (Hx p dp Hp) as [E | E]; [| done]. by destruct (Hn dp Ety).
Qed.

(** What the life of a tree leaves as it is: its ports, its place in the system
    and its tagger, and what drives its switches. *)
Definition tree_fixed w := let t := w_tree w in (dst_index t, dst_refcount t, dst_tag_ops t, dst_default_proto t).
Definition remains w w' : Prop :=
  ids w' = ids w /\ tree_fixed w' = tree_fixed w /\
  forall i, ds_fixed <$> w_switches w' !! i = ds_fixed <$> w_switches w !! i.
Lemma remains_refl w : remains w w.
Proof using. done. Qed.
Lemma remains_trans u v w : remains u v -> remains v w -> remains u w.
Proof using. intros (E1 & E2 & E3) (F1 & F2 & F3). split_and!; [congruence | congruence | intros i; by rewrite F3]. Qed.
Lemma evolves_remains P S w w' : evolves P S w w' -> remains w w'.
Proof using. intros [Ei Et _ _ Ef]. split_and!; [done | by unfold tree_fixed; rewrite Et | done]. Qed.

Definition same_flags w w' : Prop :=
  w_tree w' = w_tree w /\ w_switches w' = w_switches w /\ (ports_down w -> ports_down w') /\ remains w w'.

Lemma user_takes dp : dp_type dp = DSA_PORT_TYPE_USER -> takes_cpu_dp dp = true.
Proof using. intros E. unfold takes_cpu_dp, dsa_port_is_user. by rewrite E. Qed.

(** With one CPU port, it is everyone's. *)
Lemma setup_cpu_ports c w : acct c w ->
  total dsa_tree_setup_cpu_ports w (fun err w' => err = 0 /\ acct c w' /\ cabled w' /\ same_flags w w').
Proof using.
  intros Hacc. pose proof Hacc as [Hok _]. eapply total_weaken; [| apply cpu_ports_run].
  - cbv beta. intros err w' [-> ->]. rewrite first_cpu by done.
    set (x := fun dp => if unassigned dp then Some cpu else dp_cpu_dp dp).
    assert (E : assign w <$> w_ports w = (fun dp => set_cpu_dp (x dp) dp) <$> w_ports w).
    { apply list_fmap_ext. intros i dp _. by apply assign_cpu. }
    rewrite E.
    assert (Hx : forall p dp, get_port w p = Some dp -> x dp = None \/ x dp = Some cpu).
    { intros p dp Hp. destruct (port_known w (ok_sane _ _ _ Hok) p ltac:(by exists dp)) as [d Hd].
      pose proof (po_cpu _ _ _ (ok_port _ _ _ Hok _ _ _ Hp Hd)) as G. unfold x. case_match; [by right | done]. }
    assert (Hn : forall dp, dp_type dp = DSA_PORT_TYPE_USER -> x dp = None -> False).
    { intros dp Ety. unfold x, unassigned. rewrite (user_takes _ Ety), andb_true_r. by case_bool_decide. }
    destruct (acct_cables c w x Hacc) as [Hacc' Hget].
    { intros p dp Hp. split; [by eapply Hx |]. intros _ Ety. destruct (Hx p dp Hp) as [G | G]; [| done]. by destruct (Hn dp Ety). }
    split_and!; [done | done | by apply (cabled_if c w x) | split_and!; [done | done | |]].
    2: { split_and!; [| done | done]. cbn [w_ports set_ports]. by rewrite <- list_fmap_compose. }
    intros Hd p dq Hq. rewrite Hget in Hq. apply fmap_Some in Hq as (dp & Hp & ->). exact (Hd p dp Hp).
  - apply (sn_names _ (ok_sane _ _ _ Hok)).
  - apply (sn_switch _ (ok_sane _ _ _ Hok)).
  - intros ds d f q (dp & Hin & Eds) Hd Hf Hq. eapply (ok_preferred _ _ _ Hok); [| exact Hd | exact Hf | exact Hq].
    exists (dp_id dp). split; [| done]. exists dp. by apply get_port_of; [apply (sn_names _ (ok_sane _ _ _ Hok)) |].
Qed.

Lemma default_cpu_again c w : acct c w -> cabled w ->
  total dsa_tree_setup_default_cpu w (fun err w' => err = 0 /\ acct c w' /\ cabled w' /\ same_flags w w').
Proof using.
  intros Hacc Hc. pose proof Hacc as [Hok _]. unfold dsa_tree_setup_default_cpu. apply total_bind, total_get.
  rewrite first_cpu by done. apply total_bind, total_modify, total_ret.
  set (x := fun dp => if bool_decide (dp_cpu_dp dp = None) && takes_cpu_dp dp then Some cpu else dp_cpu_dp dp).
  assert (E : give_cpu_dp (fun _ => true) cpu w = set_ports w ((fun dp => set_cpu_dp (x dp) dp) <$> w_ports w)).
  { unfold give_cpu_dp. f_equal. apply list_fmap_ext. intros i dp _. unfold x. cbn [andb].
    destruct (_ && _); [done | by destruct dp]. }
  rewrite E.
  assert (Hx : forall p dp, get_port w p = Some dp -> x dp = None \/ x dp = Some cpu).
  { intros p dp Hp. destruct (port_known w (ok_sane _ _ _ Hok) p ltac:(by exists dp)) as [d Hd].
    pose proof (po_cpu _ _ _ (ok_port _ _ _ Hok _ _ _ Hp Hd)) as G. unfold x. case_match; [by right | done]. }
  assert (Hn : forall dp, dp_type dp = DSA_PORT_TYPE_USER -> x dp = None -> False).
  { intros dp Ety. unfold x. rewrite (user_takes _ Ety), andb_true_r. by case_bool_decide. }
  destruct (acct_cables c w x Hacc) as [Hacc' Hget].
  { intros p dp Hp. split; [by eapply Hx |]. intros _ Ety. destruct (Hx p dp Hp) as [G | G]; [| done]. by destruct (Hn dp Ety). }
  split_and!; [done | done | by apply (cabled_if c w x) | split_and!; [done | done | |]].
  2: { split_and!; [| done | done]. cbn [w_ports set_ports]. by rewrite <- list_fmap_compose. }
  intros Hd p dq Hq. rewrite Hget in Hq. apply fmap_Some in Hq as (dp & Hp & ->). exact (Hd p dp Hp).
Qed.

Lemma teardown_cpu_ports c w : acct c w -> ports_down w ->
  total dsa_tree_teardown_cpu_ports w (fun _ w' => acct c w' /\ same_flags w w').
Proof using.
  intros Hacc Hdown. pose proof Hacc as [Hok _]. unfold dsa_tree_teardown_cpu_ports. apply total_modify.
  set (x := fun dp => if takes_cpu_dp dp then None else dp_cpu_dp dp).
  assert (E : (fun dp => if takes_cpu_dp dp then set_cpu_dp None dp else dp) <$> w_ports w =
              (fun dp => set_cpu_dp (x dp) dp) <$> w_ports w).
  { apply list_fmap_ext. intros i dp _. unfold x. destruct (takes_cpu_dp dp); [done | by destruct dp]. }
  rewrite E. destruct (acct_cables c w x Hacc) as [Hacc' Hget].
  { intros p dp Hp. destruct (port_known w (ok_sane _ _ _ Hok) p ltac:(by exists dp)) as [d Hd].
    pose proof (po_cpu _ _ _ (ok_port _ _ _ Hok _ _ _ Hp Hd)) as G.
    split; [unfold x; case_match; [by left | done] |]. intros Es. by rewrite (Hdown p dp Hp) in Es. }
  split; [done | split_and!; [done | done | |]].
  2: { split_and!; [| done | done]. cbn [w_ports set_ports]. by rewrite <- list_fmap_compose. }
  intros Hd p dq Hq. rewrite Hget in Hq. apply fmap_Some in Hq as (dp & Hp & ->). exact (Hd p dp Hp).
Qed.

(** What the account does not look at. *)
Lemma acct_aside c w t rt al : acct c w -> dst_tag_ops t = dst_tag_ops (w_tree w) ->
  dst_default_proto t = dst_default_proto (w_tree w) -> acct c (set_alloc (set_rtable (set_tree w t) rt) al).
Proof using.
  intros [[Os Ot Ow Op Osw Oc Oo Opr] Hh] Eo Ep. split; [split |]; try done.
  - by destruct Os.
  - destruct Ot as [Tops Tc Td Tch]. split; cbn [w_tree set_alloc set_rtable set_tree w_switches]; rewrite ?Eo, ?Ep; done.
Qed.

Lemma acct_rtable c w rt al : acct c w -> acct c (set_alloc (set_rtable w rt) al).
Proof using. intros Hacc. apply (acct_aside c w (w_tree w) rt al) in Hacc; [| done | done]. by destruct w. Qed.

Lemma acct_tree c w f : acct c w -> dst_tag_ops (f (w_tree w)) = dst_tag_ops (w_tree w) ->
  dst_default_proto (f (w_tree w)) = dst_default_proto (w_tree w) -> acct c (upd_tree f w).
Proof using.
  intros Hacc Eo Ep. apply (acct_aside c w (f (w_tree w)) (w_rtable w) (w_alloc w)) in Hacc; [| done | done]. by destruct w.
Qed.

(** Same ports and switches, and a tree as much set up. *)
Definition same_base w w' : Prop :=
  w_ports w' = w_ports w /\ w_switches w' = w_switches w /\ dst_setup (w_tree w') = dst_setup (w_tree w) /\
  tree_fixed w' = tree_fixed w.
Lemma base_remains w w' : same_base w w' -> remains w w'.
Proof using. intros (Ep & Es & _ & Et). split_and!; [by rewrite Ep | done | intros i; by rewrite Es]. Qed.

Lemma setup_routes c w : acct c w ->
  total dsa_tree_setup_routing_table w (fun _ w' => acct c w' /\ same_base w w').
Proof using.
  intros Hacc. pose proof Hacc as [Hok _].
  eapply total_weaken; [| apply routing_run, (sn_names _ (ok_sane _ _ _ Hok))].
  intros ok w' [_ (al & t & -> & _)]. split; [by apply acct_rtable | done].
Qed.

Lemma setup_lags c w : acct c w -> total dsa_tree_setup_lags w (fun _ w' => acct c w' /\ same_base w w').
Proof using.
  intros Hacc. pose proof Hacc as [Hok _]. unfold dsa_tree_setup_lags. apply total_bind, total_get.
  assert (Hlens : is_Some (mapM (fun dp => ds_num_lag_ids <$> w_switches w !! dp_ds dp) (w_ports w))).
  { apply mapM_is_Some, Forall_forall. intros dp Hin. apply fmap_is_Some.
    destruct (sn_switch _ (ok_sane _ _ _ Hok) dp Hin) as [d Hd]. rewrite Hd. by eexists. }
  destruct Hlens as [lens Hlens]. apply total_bind. eapply total_deref; [exact Hlens |]. cbv zeta.
  case_match; [by apply total_ret |]. apply total_bind. unfold total, kzalloc.
  assert (Hal : forall al, acct c (set_alloc w al)).
  { intros al. apply (acct_rtable c w (w_rtable w) al) in Hacc. by destruct w. }
  destruct (w_alloc w) as [| [] al]; cbn; (split; [by apply acct_tree | done]).
Qed.

(** ** The tree *)

Record tree_down w : Prop := {
  td_acct : acct None w;
  td_flag : dst_setup (w_tree w) = false;
  td_ports : ports_down w;
  td_switches : switches_down w;
}.
Record tree_up w : Prop := {
  tu_acct : acct (Some conduit) w;
  tu_flag : dst_setup (w_tree w) = true;
}.

(** Nothing is held by a tree that is down. *)
Lemma down_holds w x : tree_down w -> held (w_hw w) x = base x.
Proof using.
  intros [[Hok Hh] _ Hp Hs]. rewrite Hh. unfold expected. destruct (owner x) as [p | ds |]; cbn [holds].
  - destruct (get_port w p) as [dp |] eqn:E; [| cbn; lia]. destruct (w_switches w !! fst p); [| cbn; lia].
    unfold port_holds. rewrite (Hp p dp E). cbn. lia.
  - destruct (w_switches w !! ds) as [d |] eqn:E; [| cbn; lia]. unfold ds_holds. rewrite (Hs ds d E). cbn. lia.
  - cbn. lia.
Qed.

Lemma out_cpu_ports err w : acct None w -> dst_setup (w_tree w) = false -> ports_down w -> switches_down w ->
  total (tree_out_cpu_ports err) w (fun err' w' => err' = err /\ tree_down w' /\ remains w w').
Proof using.
  intros Hacc Hf Hp Hs. mstep (by apply (teardown_cpu_ports None)). cbv beta.
  intros _ w' (Hacc' & Et & Es & Hd & Hr). apply total_ret. split_and!; [done | | done].
  split; [done | by rewrite Et | by apply Hd |]. intros ds d. rewrite Es. apply Hs.
Qed.

Lemma total_out (m : st (world H) Z) err w w1 : remains w w1 ->
  total m w1 (fun err' w' => err' = err /\ tree_down w' /\ remains w1 w') ->
  total m w1 (fun err' w' => err' = err /\ tree_down w' /\ remains w w').
Proof using.
  intros Hr Hm. eapply total_weaken; [| exact Hm]. cbv beta. intros err' w' (-> & Hd & Hr').
  split_and!; [done | done | by eapply remains_trans].
Qed.

Lemma out_switches err w : acct None w -> dst_setup (w_tree w) = false -> ports_down w ->
  total (tree_out_switches err) w (fun err' w' => err' = err /\ tree_down w' /\ remains w w').
Proof using base_pos.
  intros Hacc Hf Hp. mstep (by apply (teardown_switches None)). cbv beta.
  intros _ w' (Hacc' & Hev & Hs). eapply total_out; [by eapply evolves_remains |].
  apply out_cpu_ports; [done | by rewrite (ev_tree _ _ _ _ Hev) | by eapply evolves_down | done].
Qed.

Lemma out_ports err w : acct None w -> dst_setup (w_tree w) = false ->
  total (tree_out_ports tagger_data err) w (fun err' w' => err' = err /\ tree_down w' /\ remains w w').
Proof using base_pos QuietNet0.
  intros Hacc Hf. mstep (by apply (teardown_ports None)). cbv beta.
  intros _ w' (Hacc' & Hev & Hp). eapply total_out; [by eapply evolves_remains |].
  apply out_switches; [done | by rewrite (ev_tree _ _ _ _ Hev) | done].
Qed.

Lemma out_conduit err w : acct (Some conduit) w -> dst_setup (w_tree w) = false ->
  total (tree_out_conduit tagger_data err) w (fun err' w' => err' = err /\ tree_down w' /\ remains w w').
Proof using base_pos QuietNet0 conduit_ptr.
  intros Hacc Hf. mstep (by apply teardown_conduit). cbv beta.
  intros _ w' (Hev & Hacc'). eapply total_out; [by eapply evolves_remains |].
  apply out_ports; [done | by rewrite (ev_tree _ _ _ _ Hev)].
Qed.

Definition settled w : Prop := tree_up w \/ tree_down w.

Lemma flag_kept w w' : kept w w' -> dst_setup (w_tree w') = dst_setup (w_tree w).
Proof using. by intros (_ & -> & _). Qed.
Lemma kept_remains w w' : kept w w' -> remains w w'.
Proof using. intros (Ei & Et & Ef). split_and!; [done | by unfold tree_fixed; rewrite Et | done]. Qed.

(** A stage is over: the tree is up, or down with an error. *)
Definition over w (err : Z) w' : Prop := remains w w' /\ ((err = 0 /\ tree_up w') \/ (err <> 0 /\ tree_down w')).

Lemma total_over_out (m : st (world H) Z) err w w1 : err <> 0 -> remains w w1 ->
  total m w1 (fun err' w' => err' = err /\ tree_down w' /\ remains w1 w') -> total m w1 (over w).
Proof using.
  intros Hne Hr Hm. eapply total_weaken; [| by apply (total_out m err w)]. cbv beta.
  intros err' w' (-> & Hd & Hr'). split; [done | by right].
Qed.

(** The last stages, once the switches are up. *)
Lemma setup_upper w : acct None w -> cabled w -> dst_setup (w_tree w) = false ->
  total (err ← dsa_tree_setup_ports tagger_data;
         if negb (err =? 0) then tree_out_switches err
         else
           err ← dsa_tree_setup_conduit tagger_data;
           if negb (err =? 0) then tree_out_ports tagger_data err
           else
             err ← dsa_tree_setup_lags;
             if negb (err =? 0) then tree_out_conduit tagger_data err
             else _ ← modify (upd_tree (set_dst_setup true)); mret 0) w (over w).
Proof using base_pos QuietNet0 conduit_ptr.
  intros Hacc Hc Hf.
  mstep (by apply (setup_ports None)). cbv beta.
  intros err w1 (Hacc1 & Hk1 & Hd1). pose proof (kept_remains _ _ Hk1) as Hr1.
  destruct (Z.eqb_spec err 0) as [-> | Hne]; cbn [negb].
  2: { eapply total_over_out; [exact Hne | exact Hr1 |]. apply out_switches; [done | by rewrite (flag_kept _ _ Hk1) | by apply Hd1]. }
  mstep (by apply setup_conduit). cbv beta.
  intros err w2 (Hev2 & Hacc2). assert (Hf2 : dst_setup (w_tree w2) = false) by (by rewrite (ev_tree _ _ _ _ Hev2), (flag_kept _ _ Hk1)).
  assert (Hr2 : remains w w2) by (eapply remains_trans; [exact Hr1 | by eapply evolves_remains]).
  destruct (Z.eqb_spec err 0) as [-> | Hne]; cbn [negb up_when] in *.
  2: { eapply total_over_out; [exact Hne | exact Hr2 |]. by apply out_ports. }
  mstep (by apply (setup_lags (Some conduit))). cbv beta.
  intros err w3 (Hacc3 & Hb3). pose proof Hb3 as (_ & _ & Hf3 & _).
  assert (Hr3 : remains w w3) by (eapply remains_trans; [exact Hr2 | by apply base_remains]).
  destruct (Z.eqb_spec err 0) as [-> | Hne]; cbn [negb].
  2: { eapply total_over_out; [exact Hne | exact Hr3 |]. apply out_conduit; [done | by rewrite Hf3]. }
  apply total_bind, total_modify, total_ret. split; [by eapply remains_trans |]. left. split; [done |].
  split; [by apply acct_tree | done].
Qed.

(** From a tree that is down: up, or down again; down without an error only where
    the routing table is not complete yet. *)
Lemma tree_setup_from_down w : tree_down w ->
  total (dsa_tree_setup tagger_data) w (fun err w' => remains w w' /\
    ((err = 0 /\ tree_up w') \/ (tree_down w' /\ (err = 0 -> exists w1, dsa_tree_setup_routing_table w = Some (false, w1))))).
Proof using base_pos QuietNet0 conduit_ptr mdio_registers devlink_registers.
  intros [Hacc Hf Hp Hs]. unfold dsa_tree_setup. apply total_bind, total_get. rewrite Hf.
  mstep (by apply total_eq, (setup_routes None)). cbv beta.
  intros complete w1 [(Hacc1 & Hb1) Hrun]. pose proof Hb1 as (Ep1 & Es1 & Ef1 & _).
  assert (Hp1 : ports_down w1) by (intros p dp; unfold get_port; rewrite Ep1; apply Hp).
  assert (Hs1 : switches_down w1) by (intros ds d; rewrite Es1; apply Hs).
  pose proof (base_remains _ _ Hb1) as Hr1.
  rewrite Hf in Ef1. destruct complete; cbn [negb]; [| apply total_ret; split; [done | right; split; [done | by exists w1]]].
  mstep (by apply (setup_cpu_ports None)). cbv beta.
  intros err w2 (-> & Hacc2 & Hc2 & Et2 & Es2 & Hp2 & Hr2). cbn [negb Z.eqb].
  mstep (by apply (default_cpu_again None)). cbv beta.
  intros err w3 (-> & Hacc3 & Hc3 & Et3 & Es3 & Hp3 & Hr3). cbn [negb Z.eqb].
  assert (Hr : remains w w3) by (eapply remains_trans; [exact Hr1 |]; by eapply remains_trans).
  assert (Hf3 : dst_setup (w_tree w3) = false) by (by rewrite Et3, Et2).
  assert (Hd3 : ports_down w3) by (by apply Hp3, Hp2).
  mstep (by apply (setup_switches None)). cbv beta.
  intros err w4 (Hacc4 & Hev4 & Hs4).
  assert (Hf4 : dst_setup (w_tree w4) = false) by (by rewrite (ev_tree _ _ _ _ Hev4)).
  assert (Hr4 : remains w w4) by (eapply remains_trans; [exact Hr | by eapply evolves_remains]).
  destruct (Z.eqb_spec err 0) as [-> | Hne]; cbn [negb].
  2: { eapply total_weaken; [| apply out_cpu_ports; [done | done | by eapply evolves_down | by apply Hs4]]. cbv beta.
       intros err' w' (-> & Hd & Hr5). split; [by eapply remains_trans | by right]. }
  eapply total_weaken; [| apply setup_upper; [done | by eapply evolves_cabled | done]]. cbv beta.
  intros err w' [Hr5 [[-> Hu] | [Hne Hd]]]; (split; [by eapply remains_trans |]); [by left | by right].
Qed.

Lemma tree_teardown_from_up w : tree_up w ->
  total (dsa_tree_teardown tagger_data) w (fun _ w' => remains w w' /\ tree_down w').
Proof using base_pos QuietNet0 conduit_ptr.
  intros [Hacc Hf]. unfold dsa_tree_teardown. apply total_bind, total_get. rewrite Hf. cbn [negb].
  unfold dsa_tree_teardown_lags. apply total_bind, total_modify.
  assert (Hacc1 : acct (Some conduit) (upd_tree (fun t => set_dst_lags (match dst_lags t with LagsNull => LagsNull | _ => LagsFreed end) t) w))
    by (by apply acct_tree).
  mstep (by apply teardown_conduit). cbv beta. intros _ w2 (Hev2 & Hacc2).
  mstep (by apply (teardown_ports None)). cbv beta. intros _ w3 (Hacc3 & Hev3 & Hp3).
  mstep (by apply (teardown_switches None)). cbv beta. intros _ w4 (Hacc4 & Hev4 & Hs4).
  assert (Hp4 : ports_down w4) by (by eapply evolves_down).
  mstep (by apply (teardown_cpu_ports None)). cbv beta. intros _ w5 (Hacc5 & _ & Es5 & Hp5 & Hr5).
  apply total_bind, total_modify, total_modify.
  assert (Hr : acct None (set_rtable w5 [])).
  { apply (acct_rtable None w5 [] (w_alloc w5)) in Hacc5. by destruct w5. }
  split.
  { apply evolves_remains in Hev2, Hev3, Hev4. eapply remains_trans; [exact Hev2 |]. eapply remains_trans; [exact Hev3 |].
    eapply remains_trans; [exact Hev4 |]. exact Hr5. }
  split; [by apply acct_tree | done | exact (Hp5 Hp4) |]. intros ds d. cbn [w_switches upd_tree set_tree set_rtable]. rewrite Es5. apply Hs4.
Qed.

End Cycle.

(** ** Any sequence of set-ups and teardowns *)

Section Life.
Context {H : Type} `{RefcountApi, NotifierApi, NetQueries, !NetEffects H, !LifeApi H, !QuietNet H, PlatformApi}.
Context (tagger_data : H -> Z -> bool).
Implicit Types (w : world H).

(** A tree with the CPU port [cpu] on [conduit], nothing of it set up. *)
Record tree_ready cpu conduit w : Prop := {
  tr_ok : tree_ok cpu conduit w;
  tr_flag : dst_setup (w_tree w) = false;
  tr_ports : ports_down w;
  tr_switches : switches_down w;
}.

Inductive tree_call := TreeSetup | TreeTeardown.
Definition tree_call_run (c : tree_call) : st (world H) Z :=
  match c with
  | TreeSetup => dsa_tree_setup tagger_data
  | TreeTeardown => _ ← dsa_tree_teardown tagger_data; mret 0
  end.
Fixpoint tree_calls (l : list tree_call) : st (world H) (list Z) :=
  match l with
  | [] => mret []
  | c :: l => err ← tree_call_run c; errs ← tree_calls l; mret (err :: errs)
  end.

Lemma ready_down cpu conduit w (base : resource -> Z) : tree_ready cpu conduit w ->
  (forall x, held (w_hw w) x = base x) -> tree_down cpu conduit base w.
Proof using.
  intros [Hok Hf Hp Hs] Hb. split; try done. split; [done |]. intros x. rewrite Hb.
  unfold expected. destruct (owner x) as [p | ds |]; cbn [holds].
  - destruct (get_port w p) as [dp |] eqn:E; [| cbn; lia]. destruct (w_switches w !! fst p); [| cbn; lia].
    unfold port_holds. rewrite (Hp p dp E). cbn. lia.
  - destruct (w_switches w !! ds) as [d |] eqn:E; [| cbn; lia]. unfold ds_holds. rewrite (Hs ds d E). cbn. lia.
  - cbn. lia.
Qed.

Lemma down_ready cpu conduit base w : tree_down cpu conduit base w -> tree_ready cpu conduit w.
Proof using. intros [[Hok _] Hf Hp Hs]. by split. Qed.


End Life.

Module TreeLifeDemo.
Import EventDemo LifeDemo SwitchLifeDemo.

#[export] Instance platform_demo : PlatformApi := {| of_links dn := if dn =? 10 then [12] else if dn =? 12 then [10] else [] |}.

Definition bare_world := life_world None.

Lemma bare_ready errs : tree_ready (1, 4) 200 (bare_world errs).
Proof.
  assert (Hport : forall p dp, get_port (bare_world errs) p = Some dp -> dp_id dp = p /\
    port_ok (1, 4) life_ops dp /\ dp_setup dp = false /\ (dp_type dp = DSA_PORT_TYPE_CPU -> p = (1, 4))).
  { intros p dp Hp. apply get_port_in in Hp as [Hin <-]. split; [done |].
    destruct (life_ports _ _ _ Hin) as [-> | [-> | [-> | [-> | ->]]]]; split_and!; try done; (split; [done | done | by left | done]). }
  split.
  - split.
    + apply life_sane.
    + apply life_tagging.
    + done.
    + intros p dp d Hp Hd. destruct (Hport p dp Hp) as (_ & Hok & _).
      by destruct (life_switches _ _ _ _ Hd) as [[_ ->] | [_ ->]].
    + intros ds d Hd. by destruct (life_switches _ _ _ _ Hd) as [[_ ->] | [_ ->]].
    + by eexists.
    + intros p dp Hp. by destruct (Hport p dp Hp) as (_ & _ & _ & E).
    + intros ds d f h q _ Hd. by destruct (life_switches _ _ _ _ Hd) as [[_ ->] | [_ ->]].
  - done.
  - intros p dp Hp. by destruct (Hport p dp Hp) as (_ & _ & E & _).
  - intros ds d Hd. by destruct (life_switches _ _ _ _ Hd) as [[_ ->] | [_ ->]].
Qed.

(** The first set-up fails at the conduit, the second succeeds, and the tree goes
    down again. *)
Definition fails_once : list Z := replicate 25 0 ++ [-12].


End TreeLifeDemo.
