(* ===== verification/TagDrivers.v ===== *)
(** * The registry of tagging protocols (DSA/tag.c)

    Tagging protocols are kernel modules; a tree that uses one holds a
    reference on its module.  The registry is the list of drivers with the
    reference counts of the modules that own them. *)

From Stdlib Require Import ZArith Lia Bool.
From stdpp Require Import strings.
From S2P Require Import Prelude.
From S2P Require Import Kernel.
From S2P Require Import DsaTypes.

Definition ENOPROTOOPT : Z := 92.

(** [struct dsa_tag_driver], with the name of its operations. *)
Record dsa_tag_driver (H : Type) := mkTagDriver {
  td_ops : dsa_device_ops H;
  td_name : string;
  td_owner : Z;
}.
#[global] Arguments mkTagDriver {H}.
#[global] Arguments td_ops {H}.
#[global] Arguments td_name {H}.
#[global] Arguments td_owner {H}.

Record tag_registry (H : Type) := mkRegistry {
  rg_drivers : list (dsa_tag_driver H);     (* dsa_tag_drivers_list *)
  rg_refs : gmap Z Z;                       (* references on modules *)
}.
#[global] Arguments mkRegistry {H}.
#[global] Arguments rg_drivers {H}.
#[global] Arguments rg_refs {H}.

Definition refs {H} (m : Z) (g : tag_registry H) : Z := default 0 (rg_refs g !! m).

(** The module loader.  Asking for a protocol may load its module, whose drivers
    are then registered; a module that is going away gives no reference. *)
Inductive tag_request := TagByName (name : string) | TagById (proto : Z).
(** Operations at the same address are the same. *)
Definition pointers {H} (l : list (dsa_tag_driver H)) : Prop := forall t u, t ∈ l -> u ∈ l ->
  to_id (td_ops t) = to_id (td_ops u) -> td_ops t = td_ops u /\ td_name t = td_name u.

Class ModuleApi (H : Type) := {
  request_module : tag_request -> list (dsa_tag_driver H) -> list (dsa_tag_driver H);
  module_live : Z -> bool;
  request_appends k l : exists new, request_module k l = l ++ new;
  request_pointers k l : pointers l -> pointers (request_module k l);
}.

Section Registry.
Context {H : Type} `{!ModuleApi H}.
Abbreviation M := (st (tag_registry H)).
Implicit Types (g : tag_registry H) (o : dsa_device_ops H) (t : dsa_tag_driver H).

Definition add_refs (m n : Z) g : tag_registry H := mkRegistry (rg_drivers g) (<[m := refs m g + n]> (rg_refs g)).

Definition load_module (k : tag_request) : M unit :=
  modify (fun g => mkRegistry (request_module k (rg_drivers g)) (rg_refs g)).

(** The one driver the list search stops at; an error where there is none or its
    module goes away. *)
Definition driver_get (found : option (dsa_tag_driver H)) : M (Z + dsa_device_ops H) :=
  match found with
  | None => mret (inl (- ENOPROTOOPT))
  | Some t =>
      if negb (module_live (td_owner t)) then mret (inl (- ENOPROTOOPT))
      else _ ← modify (add_refs (td_owner t) 1); mret (inr (td_ops t))
  end.

Definition dsa_tag_driver_get_by_name (name : string) : M (Z + dsa_device_ops H) :=
  _ ← load_module (TagByName name);
  g ← get_st;
  driver_get (List.find (fun t => String.eqb name (td_name t)) (rg_drivers g)).

Definition dsa_tag_driver_get_by_id (tag_protocol : Z) : M (Z + dsa_device_ops H) :=
  _ ← load_module (TagById tag_protocol);
  g ← get_st;
  driver_get (List.find (fun t => to_proto (td_ops t) =? tag_protocol) (rg_drivers g)).

(** The driver whose operations these are; pointers are compared. *)
Definition driver_of g o : option (dsa_tag_driver H) :=
  List.find (fun t => to_id (td_ops t) =? to_id o) (rg_drivers g).

Definition dsa_tag_driver_put o : M unit :=
  g ← get_st;
  match driver_of g o with
  | Some t => modify (add_refs (td_owner t) (-1))
  | None => mret tt
  end.

Definition dsa_tag_driver_register t : M unit := modify (fun g => mkRegistry (rg_drivers g ++ [t]) (rg_refs g)).
Fixpoint dsa_tag_drivers_register (l : list (dsa_tag_driver H)) : M unit :=
  match l with
  | [] => mret tt
  | t :: l => _ ← dsa_tag_driver_register t; dsa_tag_drivers_register l
  end.

(** [list_del] of an entry, recognised by its operations. *)
Definition dsa_tag_driver_unregister t : M unit :=
  modify (fun g => mkRegistry (delete_first (fun u => to_id (td_ops u) =? to_id (td_ops t)) (rg_drivers g)) (rg_refs g)).
Fixpoint dsa_tag_drivers_unregister (l : list (dsa_tag_driver H)) : M unit :=
  match l with
  | [] => mret tt
  | t :: l => _ ← dsa_tag_driver_unregister t; dsa_tag_drivers_unregister l
  end.

(** ** References *)

(** A reference more, or less, on the module that owns [o]. *)
Definition owned (o : dsa_device_ops H) (m : Z) g : Prop := 
  exists t, driver_of g o = Some t /\ td_owner t = m /\ td_ops t = o.

(** Registries with distinct protocols, whatever modules are loaded later. *)
Definition grows g g' : Prop := exists new, rg_drivers g' = rg_drivers g ++ new.
#[export] Instance grows_preorder : PreOrder grows.
Proof.
  split.
  - intros g. exists []. by rewrite app_nil_r.
  - intros g1 g2 g3 [n1 E1] [n2 E2]. exists (n1 ++ n2). by rewrite E2, E1, app_assoc.
Qed.

Lemma find_app_some {A} (p : A -> bool) l l' a : List.find p l = Some a -> List.find p (l ++ l') = Some a.
Proof. induction l as [| b l IH]; [done |]. cbn. by destruct (p b). Qed.

Lemma owned_grows o m g g' : grows g g' -> owned o m g -> owned o m g'.
Proof using.
  intros [new E] (t & Ht & Hm & Ho). exists t. split_and!; [| done | done]. unfold driver_of. rewrite E. by apply find_app_some.
Qed.

Lemma refs_add m n x g : refs x (add_refs m n g) = refs x g + (if decide (m = x) then n else 0).
Proof using.
  unfold refs, add_refs. cbn. case_decide as E.
  - subst. by rewrite lookup_insert_eq.
  - rewrite lookup_insert_ne by done. lia.
Qed.

(** The search by address meets the driver a search by protocol or name met. *)
Lemma found_of g (p : dsa_tag_driver H -> bool) t : pointers (rg_drivers g) ->
  (forall u v, td_ops u = td_ops v -> td_name u = td_name v -> p u = p v) ->
  List.find p (rg_drivers g) = Some t -> driver_of g (td_ops t) = Some t.
Proof using.
  intros Hp Hext. unfold driver_of. generalize (List.find_some p (rg_drivers g)). revert Hp.
  induction (rg_drivers g) as [| u l IH]; intros Hp _; [done |]. cbn [List.find].
  destruct (p u) eqn:Eu; [intros [= ->]; by rewrite Z.eqb_refl |]. intros Hf.
  destruct (Z.eqb_spec (to_id (td_ops u)) (to_id (td_ops t))) as [E | _].
  - apply List.find_some in Hf as [Hin Ht]. destruct (Hp u t) as [Eo En]; [by left | right; by apply list_elem_of_In | done |].
    rewrite (Hext u t Eo En) in Eu. congruence.
  - apply IH; [| by intros; apply List.find_some | done]. intros v1 v2 H1 H2. apply Hp; by right.
Qed.

(** What a search gives, and the references it takes. *)
Definition got k (ok : dsa_device_ops H -> Prop) g (r : Z + dsa_device_ops H) g' : Prop :=
  rg_drivers g' = request_module k (rg_drivers g) /\
  match r with
  | inl err => err = - ENOPROTOOPT /\ forall x, refs x g' = refs x g
  | inr o => ok o /\ exists m, owned o m g' /\ forall x, refs x g' = refs x g + (if decide (m = x) then 1 else 0)
  end.

Lemma driver_get_run k (p : dsa_tag_driver H -> bool) (ok : dsa_device_ops H -> Prop) g : pointers (rg_drivers g) ->
  (forall u v, td_ops u = td_ops v -> td_name u = td_name v -> p u = p v) -> (forall t, t ∈ request_module k (rg_drivers g) -> p t = true -> ok (td_ops t)) ->
  total (_ ← load_module k; g ← get_st; driver_get (List.find p (rg_drivers g))) g (got k ok g).
Proof using.
  intros Hp Hext Hok. unfold load_module. apply total_bind, total_modify, total_bind, total_get. cbn [rg_drivers].
  set (g1 := mkRegistry (request_module k (rg_drivers g)) (rg_refs g)).
  assert (Hp1 : pointers (rg_drivers g1)) by (by apply request_pointers).
  change (request_module k (rg_drivers g)) with (rg_drivers g1).
  unfold driver_get. destruct (List.find p (rg_drivers g1)) as [t |] eqn:Ef; [| apply total_ret; by split_and!].
  destruct (module_live (td_owner t)); cbn [negb]; [| apply total_ret; by split_and!].
  apply total_bind, total_modify, total_ret. split_and!; [done | |].
  { apply List.find_some in Ef as [Hin Ef]. apply Hok; [by apply list_elem_of_In | done]. }
  exists (td_owner t). split; [exists t; split_and!; [by apply (found_of g1 p) | done | done] | intros x; by rewrite refs_add].
Qed.

Lemma request_grows k g g' : rg_drivers g' = request_module k (rg_drivers g) -> grows g g'.
Proof using. intros E. destruct (request_appends k (rg_drivers g)) as [new E']. exists new. by rewrite E. Qed.

Lemma get_by_id_run p g : pointers (rg_drivers g) ->
  total (dsa_tag_driver_get_by_id p) g (got (TagById p) (fun o => to_proto o = p) g).
Proof using.
  intros Hp. apply driver_get_run; [done | by intros u v -> | by intros t _ ?%Z.eqb_eq].
Qed.
Lemma get_by_name_run n g : pointers (rg_drivers g) -> total (dsa_tag_driver_get_by_name n) g
  (got (TagByName n) (fun o => exists t, t ∈ request_module (TagByName n) (rg_drivers g) /\ td_name t = n /\ td_ops t = o) g).
Proof using.
  intros Hp. apply driver_get_run; [done | by intros u v _ -> |]. intros t Hin E%String.eqb_eq. by exists t.
Qed.

Lemma put_run o m g : owned o m g ->
  total (dsa_tag_driver_put o) g (fun _ g' => rg_drivers g' = rg_drivers g /\
    forall x, refs x g' = refs x g - (if decide (m = x) then 1 else 0)).
Proof using.
  intros (t & Ht & <- & _). unfold dsa_tag_driver_put. apply total_bind, total_get. rewrite Ht. apply total_modify.
  split; [done |]. intros x. rewrite refs_add. case_decide; lia.
Qed.

End Registry.
