(* ===== verification/DsaRegister.v ===== *)
(** * Registration of switches (DSA/dsa2.c)

    A switch driver registers its switch: the tree it belongs to is found or
    made, the ports are made and told what they are by the device tree or by
    platform data, and the tree is set up; removing the switch takes the tree
    down and its ports away.  The trees of the system are reference counted.

    The state is that of the whole system: the list of trees, the switches with
    their [ds->dst], the registry of tagging protocols, the hardware and the
    allocator.  An operation on one tree ([in_tree]) runs in the [world] of that
    tree, which has the system's hardware and allocator and the switches that
    point to it.  A tree that was freed is no longer in the list, and a pointer
    to it faults. *)

From Stdlib Require Import ZArith Lia Bool.
From stdpp Require Import strings.
From S2P Require Import Prelude.
From S2P Require Import Kernel.
From S2P Require Import DsaTypes.
From S2P Require Import DsaSwitch.
From S2P Require Import DsaEvent.
From S2P Require Import DsaPort.
From S2P Require Import DsaMember.
From S2P Require Import DsaLife.
From S2P Require Import DsaTree.
From S2P Require Import TagDrivers.

(** [struct dsa_chip_data]: for each port a name and a device. *)
Record dsa_chip_data := mkChip {
  cd_port_names : list (option string);
  cd_netdev : list (option Z);
}.

(** What [ds->dev] says of the switch. *)
Record dsa_dev := mkDev {
  platform_data : option dsa_chip_data;
  of_node : option Z;
}.

(** A switch as its driver allocates it. *)
Record dsa_handle (H : Type) := mkHandle {
  h_ds : dsa_switch H;
  h_dst : option Z;                  (* ds->dst, an address *)
  h_dev : option dsa_dev;
}.
#[global] Arguments mkHandle {H}.
#[global] Arguments h_ds {H}.
#[global] Arguments h_dst {H}.
#[global] Arguments h_dev {H}.
Definition set_h_ds {H} (d : dsa_switch H) (h : dsa_handle H) : dsa_handle H := mkHandle d (h_dst h) (h_dev h).
Definition set_h_dst {H} (x : option Z) (h : dsa_handle H) : dsa_handle H := mkHandle (h_ds h) x (h_dev h).
Definition set_ds_index {H} (x : Z) (d : dsa_switch H) : dsa_switch H :=
  mkDs x (ds_num_ports d) (ds_vlan_filtering_is_global d) (ds_vlan_filtering d) (ds_ageing_time_min d)
    (ds_ageing_time_max d) (ds_ops d) (ds_tag_8021q_ctx d) (ds_setup d)
    (ds_needs_standalone_vlan_filtering d) (ds_configure_vlan_while_not_filtering d)
    (ds_fdb_isolation d) (ds_num_lag_ids d) (ds_max_num_bridges d) (ds_user_mii_bus d).

Record system (H : Type) := mkSystem {
  sy_trees : list (Z * world H);     (* dsa_tree_list, with the addresses *)
  sy_next : Z;                       (* the next address *)
  sy_switches : gmap Z (dsa_handle H);
  sy_registry : tag_registry H;
  sy_hw : H;
  sy_alloc : list bool;
}.
#[global] Arguments mkSystem {H}.
#[global] Arguments sy_trees {H}.
#[global] Arguments sy_next {H}.
#[global] Arguments sy_switches {H}.
#[global] Arguments sy_registry {H}.
#[global] Arguments sy_hw {H}.
#[global] Arguments sy_alloc {H}.

(** The device tree and the device model, as far as a switch is described there.
    Nodes and devices are numbers. *)
Class DescriptionApi := {
  of_member : Z -> Z * (Z * Z);              (* "dsa,member": result, tree, index *)
  of_ports : Z -> option Z;                  (* child "ports" *)
  of_ethernet_ports : Z -> option Z;         (* child "ethernet-ports" *)
  of_children : Z -> list Z;                 (* the available ones *)
  of_reg : Z -> Z * Z;                       (* "reg": result, value *)
  of_ethernet : Z -> option Z;               (* phandle "ethernet" *)
  of_find_net_device : Z -> option netdev;
  of_tag_protocol : Z -> option string;      (* "dsa-tag-protocol" *)
  of_link : Z -> bool;                       (* is there a "link" *)
  dev_is_net : Z -> bool;                    (* the class of the device is "net" *)
  find_net_child : Z -> option Z;            (* device_find_child *)
  to_net_dev : Z -> netdev;
  user_dev_port : netdev -> option pid;      (* of which port is it the user interface *)
}.

Section Register.
Context {H : Type} `{RefcountApi, NotifierApi, NetQueries, !NetEffects H, !LifeApi H, PlatformApi,
  !ModuleApi H, DescriptionApi}.
Context (tagger_data : H -> Z -> bool).
Abbreviation M := (st (world H)).
Abbreviation SM := (st (system H)).
Implicit Types (s : system H) (w : world H).

Definition set_trees s x : system H := mkSystem x (sy_next s) (sy_switches s) (sy_registry s) (sy_hw s) (sy_alloc s).
Definition set_handles s x : system H := mkSystem (sy_trees s) (sy_next s) x (sy_registry s) (sy_hw s) (sy_alloc s).

(** ** One tree of the system *)

Definition tree_at (t : Z) (l : list (Z * world H)) : option (world H) :=
  snd <$> List.find (fun e => fst e =? t) l.
Definition put_tree (t : Z) w (l : list (Z * world H)) : list (Z * world H) :=
  (fun e => if fst e =? t then (t, w) else e) <$> l.

Definition points_to (t : Z) (h : dsa_handle H) : bool := bool_decide (h_dst h = Some t).
Definition switches_of (t : Z) s : gmap Z (dsa_switch H) :=
  omap (fun h => if points_to t h then Some (h_ds h) else None) (sy_switches s).

Definition load (t : Z) w s : world H :=
  set_hw (set_alloc (set_switches w (switches_of t s)) (sy_alloc s)) (sy_hw s).
Definition store (t : Z) w s : system H :=
  mkSystem (put_tree t w (sy_trees s)) (sy_next s)
    (map_imap (fun ds h => Some (if points_to t h then set_h_ds (default (h_ds h) (w_switches w !! ds)) h else h))
       (sy_switches s))
    (sy_registry s) (w_hw w) (w_alloc w).

Definition in_tree {A} (t : Z) (m : M A) : SM A := fun s =>
  w ← tree_at t (sy_trees s);
  '(a, w') ← m (load t w s);
  Some (a, store t w' s).

Definition in_registry {A} (m : st (tag_registry H) A) : SM A := fun s =>
  '(a, g) ← m (sy_registry s);
  Some (a, mkSystem (sy_trees s) (sy_next s) (sy_switches s) g (sy_hw s) (sy_alloc s)).

Definition handle_of (ds : Z) : SM (dsa_handle H) := s ← get_st; deref (sy_switches s !! ds).
Definition upd_handle (ds : Z) (f : dsa_handle H -> dsa_handle H) s : system H :=
  set_handles s (alter f ds (sy_switches s)).
(** [ds->dst], followed. *)
Definition dst_of (ds : Z) : SM Z := h ← handle_of ds; deref (h_dst h).

Definition system_kzalloc : SM bool := fun s =>
  match sy_alloc s with
  | [] => Some (true, s)
  | b :: l => Some (b, mkSystem (sy_trees s) (sy_next s) (sy_switches s) (sy_registry s) (sy_hw s) l)
  end.

(** ** Trees *)

Definition dsa_tree_find (index : Z) s : option Z :=
  fst <$> List.find (fun e => dst_index (w_tree (snd e)) =? index) (sy_trees s).

Definition new_tree (index : Z) s : world H :=
  mkWorld (mkTree index 1 LagsNull None 0 false 0 0) [] [] ∅ ∅ ∅ [] (sy_hw s) [] [].

Definition dsa_tree_alloc (index : Z) : SM (option Z) :=
  ok ← system_kzalloc;
  if negb ok then mret None
  else
    s ← get_st;
    _ ← modify (fun s => mkSystem (sy_trees s ++ [(sy_next s, new_tree index s)]) (sy_next s + 1) (sy_switches s)
                           (sy_registry s) (sy_hw s) (sy_alloc s));
    mret (Some (sy_next s)).

Definition dsa_tree_free (t : Z) : SM unit :=
  tag_ops ← in_tree t (w ← get_st; mret (dst_tag_ops (w_tree w)));
  _ ← match tag_ops with Some o => in_registry (dsa_tag_driver_put o) | None => mret tt end;
  modify (fun s => set_trees s (List.filter (fun e => negb (fst e =? t)) (sy_trees s))).

(** The tree is not null where this is called. *)
Definition dsa_tree_get (t : Z) : SM unit :=
  in_tree t (modify (upd_tree (fun d => set_dst_refcount (refcount_inc (dst_refcount d)) d))).

Definition dsa_tree_touch (index : Z) : SM (option Z) :=
  s ← get_st;
  match dsa_tree_find index s with
  | Some t => _ ← dsa_tree_get t; mret (Some t)
  | None => dsa_tree_alloc index
  end.

Definition dsa_tree_put (o : option Z) : SM unit :=
  match o with
  | None => mret tt
  | Some t =>
      last ← in_tree t (w ← get_st;
        let '(last, n) := refcount_dec_and_test (dst_refcount (w_tree w)) in
        _ ← modify (upd_tree (set_dst_refcount n)); mret last);
      if (last : bool) then dsa_tree_free t else mret tt
  end.

(** [dsa_switch_find]: is there a port of a switch with that index in that tree. *)
Definition dsa_switch_find (tree_index sw_index : Z) s : bool :=
  existsb (fun e => (dst_index (w_tree (snd e)) =? tree_index) &&
    existsb (fun dp => bool_decide (ds_index ∘ h_ds <$> sy_switches s !! dp_ds dp = Some sw_index)) (w_ports (snd e)))
    (sy_trees s).

(** ** Ports *)

Definition zero_port (ds index : Z) : dsa_port :=
  mkPort ds index DSA_PORT_TYPE_UNUSED None None 0 false false false false false 0 None None None [] [] []
    false false None false.

Definition dsa_port_touch (ds index : Z) : SM bool :=
  t ← dst_of ds;
  in_tree t (
    w ← get_st;
    match dsa_to_port w ds index with
    | Some _ => mret true
    | None =>
        ok ← kzalloc;
        if negb ok then mret false
        else _ ← modify (fun w => set_ports w (w_ports w ++ [zero_port ds index])); mret true
    end).

Fixpoint touch_loop (ds : Z) (l : list Z) : SM Z :=
  match l with
  | [] => mret 0
  | port :: l => ok ← dsa_port_touch ds port; if negb ok then mret (- ENOMEM) else touch_loop ds l
  end.
Definition dsa_switch_touch_ports (ds : Z) : SM Z :=
  h ← handle_of ds; touch_loop ds (seqZ 0 (ds_num_ports (h_ds h))).

(** An assignment to a port, which must be there. *)
Definition assign_port (ds index : Z) (f : dsa_port -> dsa_port) : SM unit :=
  t ← dst_of ds; in_tree t (_ ← port_of (ds, index); modify (upd_port (ds, index) f)).

(** The name of the interface is not modelled. *)
Definition dsa_port_parse_user (ds index : Z) : SM Z :=
  _ ← assign_port ds index (set_type DSA_PORT_TYPE_USER); mret 0.
Definition dsa_port_parse_dsa (ds index : Z) : SM Z :=
  _ ← assign_port ds index (set_type DSA_PORT_TYPE_DSA); mret 0.

Definition DSA_TAG_PROTO_NONE : Z := 0.

(** The protocol of the switch, told that of the switch its conduit belongs to. *)
Definition dsa_get_tag_protocol (ds index : Z) (conduit : netdev) : SM Z :=
  tag_protocol ← match user_dev_port conduit with
    | None => mret DSA_TAG_PROTO_NONE
    | Some mdp =>
        mds ← handle_of (fst mdp);
        t ← dst_of (fst mdp);
        mdp_upstream ← in_tree t (w ← get_st; deref (dsa_upstream_port w (fst mdp) (snd mdp)));
        s ← get_st;
        mret (op_get_tag_protocol (op_switch (ds_ops (h_ds mds))) (fst mdp) mdp_upstream DSA_TAG_PROTO_NONE (sy_hw s))
    end;
  h ← handle_of ds;
  s ← get_st;
  mret (op_get_tag_protocol (op_switch (ds_ops (h_ds h))) ds index tag_protocol (sy_hw s)).

Definition upd_dst (t : Z) (f : dsa_switch_tree H -> dsa_switch_tree H) : SM unit := in_tree t (modify (upd_tree f)).
Definition read_dst {A} (t : Z) (f : dsa_switch_tree H -> A) : SM A := in_tree t (w ← get_st; mret (f (w_tree w))).

(** The tagger asked for, if it is there, else that of the protocol. *)
Definition find_tagger (user_protocol : option string) (default_proto : Z) : SM (Z + dsa_device_ops H) :=
  tag_ops ← match user_protocol with
            | None => mret None
            | Some name =>
                r ← in_registry (dsa_tag_driver_get_by_name name);
                mret (match r with inl _ => None | inr o => Some o end)
            end;
  match tag_ops with
  | Some o => mret (inr o)
  | None => in_registry (dsa_tag_driver_get_by_id default_proto)
  end.

(** Agree on the default protocol of the tree. *)
Definition agree_proto (t default_proto : Z) : SM bool :=
  now ← read_dst t dst_default_proto;
  if negb (now =? 0) then mret (now =? default_proto)
  else _ ← upd_dst t (set_dst_default_proto default_proto); mret true.

(** Agree on the tagger of the tree, with one reference on it. *)
Definition agree_tagger (t : Z) (o : dsa_device_ops H) : SM Z :=
  now ← read_dst t dst_tag_ops;
  match now with
  | Some o' =>
      _ ← in_registry (dsa_tag_driver_put o);
      mret (if to_id o' =? to_id o then 0 else - EINVAL)
  | None => _ ← upd_dst t (set_dst_tag_ops (Some o)); mret 0
  end.

(** [dsa_port_set_tag_protocol] copies what the fast path of the tagger reads,
    which is not modelled. *)
Definition dsa_port_parse_cpu (ds index : Z) (conduit : netdev) (user_protocol : option string) : SM Z :=
  t ← dst_of ds;
  _ ← in_tree t (port_of (ds, index));
  default_proto ← dsa_get_tag_protocol ds index conduit;
  ok ← agree_proto t default_proto;
  if negb ok then mret (- EINVAL)
  else
    h ← handle_of ds;
    if bool_decide (is_Some user_protocol) &&
       bool_decide (op_change_tag_protocol (op_switch (ds_ops (h_ds h))) = None) then mret (- EINVAL)
    else
      r ← find_tagger user_protocol default_proto;
      match r with
      | inl err => mret (if err =? - ENOPROTOOPT then - EPROBE_DEFER else err)
      | inr o =>
          err ← agree_tagger t o;
          if negb (err =? 0) then mret err
          else
            _ ← assign_port ds index (fun dp => set_type DSA_PORT_TYPE_CPU (set_netdev (Some conduit) dp));
            mret 0
      end.

(** ** The device tree *)

Definition dsa_port_parse_of (ds index dn : Z) : SM Z :=
  _ ← assign_port ds index (set_dn (Some dn));
  match of_ethernet dn with
  | Some ethernet =>
      match of_find_net_device ethernet with
      | None => mret (- EPROBE_DEFER)
      | Some conduit => dsa_port_parse_cpu ds index conduit (of_tag_protocol dn)
      end
  | None => if of_link dn then dsa_port_parse_dsa ds index else dsa_port_parse_user ds index
  end.

Definition dsa_switch_parse_ports_of (ds dn : Z) : SM Z :=
  match (match of_ports dn with Some p => Some p | None => of_ethernet_ports dn end) with
  | None => mret (- EINVAL)
  | Some ports =>
      h ← handle_of ds;
      for_err (of_children ports) (fun port =>
        let '(err, reg) := of_reg port in
        if negb (err =? 0) then mret err
        else if ds_num_ports (h_ds h) <=? reg then mret (- EINVAL)
        else dsa_port_parse_of ds reg port)
  end.

Definition dsa_switch_parse_member_of (ds dn : Z) : SM Z :=
  let '(sz, (m0, m1)) := of_member dn in
  if (sz <? 0) && negb (sz =? - EINVAL) then mret sz
  else
    let '(m0, m1) := if sz <? 0 then (0, 0) else (m0, m1) in
    _ ← modify (upd_handle ds (fun h => set_h_ds (set_ds_index m1 (h_ds h)) h));
    o ← dsa_tree_touch m0;
    _ ← modify (upd_handle ds (set_h_dst o));
    match o with
    | None => mret (- ENOMEM)
    | Some t =>
        s ← get_st;
        index ← read_dst t dst_index;
        if dsa_switch_find index m1 s then mret (- EEXIST)
        else
          last ← read_dst t dst_last_switch;
          _ ← (if last <? m1 then upd_dst t (set_dst_last_switch m1) else mret tt);
          mret 0
    end.

Definition dsa_switch_parse_of (ds dn : Z) : SM Z :=
  err ← dsa_switch_parse_member_of ds dn;
  if negb (err =? 0) then mret err
  else
    err ← dsa_switch_touch_ports ds;
    if negb (err =? 0) then mret err else dsa_switch_parse_ports_of ds dn.

(** ** Platform data *)

(** The network device of a device, or of its child. *)
Definition dsa_dev_to_net_device (dev : Z) : option netdev :=
  if dev_is_net dev then Some (to_net_dev dev) else to_net_dev <$> find_net_child dev.

Definition dsa_port_parse (ds index : Z) (name : string) (dev : option Z) : SM Z :=
  if String.eqb name "cpu" then
    dev ← deref dev;
    match dsa_dev_to_net_device dev with
    | None => mret (- EPROBE_DEFER)
    | Some conduit => dsa_port_parse_cpu ds index conduit None
    end
  else if String.eqb name "dsa" then dsa_port_parse_dsa ds index
  else dsa_port_parse_user ds index.

(** Over the entries of both arrays; was there a name. *)
Fixpoint parse_loop (ds : Z) (cd : dsa_chip_data) (l : list Z) (valid_name_found : bool) : SM Z :=
  match l with
  | [] => mret (if valid_name_found then 0 else - EINVAL)
  | i :: l =>
      name ← deref (getz (cd_port_names cd) i);
      dev ← deref (getz (cd_netdev cd) i);
      match name with
      | None => parse_loop ds cd l valid_name_found
      | Some name =>
          err ← dsa_port_parse ds i name dev;
          if negb (err =? 0) then mret err else parse_loop ds cd l true
      end
  end.
Definition dsa_switch_parse_ports (ds : Z) (cd : dsa_chip_data) : SM Z :=
  parse_loop ds cd (seqZ 0 DSA_MAX_PORTS) false.

Definition dsa_switch_parse (ds : Z) (cd : dsa_chip_data) : SM Z :=
  _ ← modify (upd_handle ds (fun h => set_h_ds (set_ds_index 0 (h_ds h)) h));
  o ← dsa_tree_touch 0;
  _ ← modify (upd_handle ds (set_h_dst o));
  match o with
  | None => mret (- ENOMEM)
  | Some _ =>
      err ← dsa_switch_touch_ports ds;
      if negb (err =? 0) then mret err else dsa_switch_parse_ports ds cd
  end.

(** ** Registration and removal *)

Definition dsa_switch_release_ports (ds : Z) : SM unit :=
  t ← dst_of ds;
  in_tree t (modify (fun w => set_ports w (List.filter (fun dp => negb (dp_ds dp =? ds)) (w_ports w)))).

Definition release_on_error (ds err : Z) : SM Z :=
  if negb (err =? 0) then _ ← dsa_switch_release_ports ds; mret err else mret 0.

Definition dsa_switch_probe (ds : Z) : SM Z :=
  h ← handle_of ds;
  match h_dev h with
  | None => mret (- ENODEV)
  | Some dev =>
      if ds_num_ports (h_ds h) =? 0 then mret (- EINVAL)
      else
        err ← match of_node dev, platform_data dev with
              | Some np, _ => err ← dsa_switch_parse_of ds np; release_on_error ds err
              | None, Some pdata => err ← dsa_switch_parse ds pdata; release_on_error ds err
              | None, None => mret (- ENODEV)
              end;
        if negb (err =? 0) then mret err
        else
          dst ← dst_of ds;
          _ ← dsa_tree_get dst;
          err ← in_tree dst (dsa_tree_setup tagger_data);
          if negb (err =? 0) then
            _ ← dsa_switch_release_ports ds;
            _ ← dsa_tree_put (Some dst);
            mret err
          else mret 0
  end.

Definition dsa_register_switch (ds : Z) : SM Z :=
  err ← dsa_switch_probe ds;
  h ← handle_of ds;
  _ ← dsa_tree_put (h_dst h);
  mret err.

Definition dsa_switch_remove (ds : Z) : SM unit :=
  dst ← dst_of ds;
  _ ← in_tree dst (dsa_tree_teardown tagger_data);
  _ ← dsa_switch_release_ports ds;
  dsa_tree_put (Some dst).
Definition dsa_unregister_switch (ds : Z) : SM unit := dsa_switch_remove ds.

End Register.
