(* ===== verification/DsaPlatform.v ===== *)
(** * Registration keeps the system

    [DsaRegister] on a system whose switches are described by platform data:
    the tree goes up with a switch and comes down with it, the registration of
    another one is refused, and every failure leaves the system as it was. *)

From Stdlib Require Import ZArith Lia Bool.
From stdpp Require Import strings.
From S2P Require Import Prelude.
From S2P Require Import Kernel.
From S2P Require Import DsaTypes.
From S2P Require Import DsaSwitch.
From S2P Require Import DsaEvent.
From S2P Require Import DsaSafe.
From S2P Require Import DsaPort.
From S2P Require Import DsaMember.
From S2P Require Import DsaLife.
From S2P Require Import DsaTree.
From S2P Require Import DsaRoutes.
From S2P Require Import DsaAccount.
From S2P Require Import DsaUpDown.
From S2P Require Import DsaTreeLife.
From S2P Require Import DsaTreeAccount.
From S2P Require Import DsaTreeCycle.
From S2P Require Import TagDrivers.
From S2P Require Import DsaRegister.

(** ** One tree of the system *)

Section View.
Context {H : Type}.
Implicit Types (s : system H) (w : world H) (t ds : Z).

(** [w] is what an operation on the tree [t] works on. *)
Definition seen t s w : Prop := exists w0, tree_at t (sy_trees s) = Some w0 /\ load t w0 s = w.

(** What an operation on the tree [t] leaves alone. *)
Record aside t s s' : Prop := {
  as_trees : fst <$> sy_trees s' = fst <$> sy_trees s;
  as_next : sy_next s' = sy_next s;
  as_handles ds : (fun h => (h_dst h, h_dev h)) <$> sy_switches s' !! ds = (fun h => (h_dst h, h_dev h)) <$> sy_switches s !! ds;
  as_others ds h : sy_switches s !! ds = Some h -> h_dst h <> Some t -> sy_switches s' !! ds = Some h;
}.

#[export] Instance aside_preorder t : PreOrder (aside t).
Proof.
  split; [by split |]. intros s1 s2 s3 [E1 E2 E3 E4] [F1 F2 F3 F4].
  split; [congruence .. | intros ds; by rewrite F3 |]. intros ds h Hs Hne. apply F4; [by apply E4 | done].
Qed.

Lemma switches_lookup t s ds :
  switches_of t s !! ds = h ← sy_switches s !! ds; if points_to t h then Some (h_ds h) else None.
Proof. unfold switches_of. by rewrite lookup_omap. Qed.

Lemma tree_at_put t w l : is_Some (tree_at t l) -> tree_at t (put_tree t w l) = Some w.
Proof.
  intros [w0 E]. unfold tree_at, put_tree in *. induction l as [| [u v] l IH]; [done |].
  cbn [List.find fst] in E. rewrite fmap_cons. cbn [fst List.find].
  destruct (Z.eqb_spec u t) as [-> | Hne]; cbn [fst]; [by rewrite Z.eqb_refl |].
  rewrite (proj2 (Z.eqb_neq u t)) by done. by apply IH.
Qed.

Definition store_handle t w (ds : Z) (h : dsa_handle H) : dsa_handle H :=
  if points_to t h then set_h_ds (default (h_ds h) (w_switches w !! ds)) h else h.

Lemma store_lookup t w s ds : sy_switches (store t w s) !! ds = store_handle t w ds <$> sy_switches s !! ds.
Proof. cbn. rewrite map_lookup_imap. by destruct (sy_switches s !! ds). Qed.

Lemma store_switches t w s ds :
  switches_of t (store t w s) !! ds = (fun d => default d (w_switches w !! ds)) <$> switches_of t s !! ds.
Proof.
  rewrite !switches_lookup, store_lookup. destruct (sy_switches s !! ds) as [h |]; [| done]. cbn. unfold store_handle.
  destruct (points_to t h) eqn:E; cbn; [| by rewrite E]. change (points_to t (set_h_ds _ h)) with (points_to t h). by rewrite E.
Qed.

(** Same switches, in other states. *)
Definition same_keys w w' : Prop := forall i, is_Some (w_switches w' !! i) <-> is_Some (w_switches w !! i).

Lemma seen_store t s w w' : seen t s w -> same_keys w w' -> seen t (store t w' s) w' /\ aside t s (store t w' s).
Proof.
  intros (w0 & Et & Ew) Hk. split.
  - exists w'. split; [by apply tree_at_put |].
    assert (Es : switches_of t (store t w' s) = w_switches w').
    { apply map_eq. intros i. rewrite store_switches. assert (Ei : w_switches w !! i = switches_of t s !! i) by (by rewrite <- Ew).
      specialize (Hk i). rewrite Ei in Hk. destruct (switches_of t s !! i) as [d |]; cbn.
      - destruct (w_switches w' !! i) as [d' |]; [done |]. destruct Hk as [_ Hk]. by destruct Hk.
      - destruct (w_switches w' !! i) as [d' |]; [| done]. destruct Hk as [Hk _]. by destruct Hk. }
    unfold load. rewrite Es. by destruct w'.
  - split; [| done | |].
    + cbn. unfold put_tree. rewrite <- list_fmap_compose. apply list_fmap_ext. intros i [u v] _. cbn.
      destruct (Z.eqb_spec u t); [by subst | done].
    + intros ds. rewrite store_lookup. destruct (sy_switches s !! ds) as [h |]; [| done]. cbn. unfold store_handle.
      by destruct (points_to t h).
    + intros ds h Hd Hne. rewrite store_lookup, Hd. cbn. unfold store_handle, points_to. by rewrite bool_decide_false.
Qed.

Lemma total_in_tree {A} t (m : st (world H) A) s w (Q : A -> system H -> Prop) : seen t s w ->
  total m w (fun a w' => same_keys w w' /\ forall s', seen t s' w' -> aside t s s' -> sy_registry s' = sy_registry s -> Q a s') ->
  total (in_tree t m) s Q.
Proof.
  intros Hs Hm. pose proof Hs as (w0 & Et & Ew). unfold total, in_tree in *. rewrite Et. cbn. rewrite Ew.
  destruct (m w) as [[a w'] |]; [| done]. destruct Hm as [Hk Hq]. destruct (seen_store t s w w' Hs Hk). cbn. by apply Hq.
Qed.

Lemma keys_refl w : same_keys w w.
Proof. done. Qed.

Lemma total_in_tree_get {A} t (f : world H -> A) s w (Q : A -> system H -> Prop) : seen t s w ->
  (forall s', seen t s' w -> aside t s s' -> sy_registry s' = sy_registry s -> Q (f w) s') -> total (in_tree t (w ← get_st; mret (f w))) s Q.
Proof. intros Hs HQ. eapply total_in_tree; [exact Hs |]. apply total_bind, total_get, total_ret. by split. Qed.

Lemma total_in_tree_modify t (f : world H -> world H) s w (Q : unit -> system H -> Prop) : seen t s w ->
  w_switches (f w) = w_switches w -> (forall s', seen t s' (f w) -> aside t s s' -> sy_registry s' = sy_registry s -> Q tt s') ->
  total (in_tree t (modify f)) s Q.
Proof.
  intros Hs Hf HQ. eapply total_in_tree; [exact Hs |]. apply total_modify. split; [| done]. unfold same_keys. by rewrite Hf.
Qed.

Lemma seen_switches t s w : seen t s w -> w_switches w = switches_of t s.
Proof. by intros (w0 & _ & <-). Qed.
Lemma seen_hw t s w : seen t s w -> w_hw w = sy_hw s.
Proof. by intros (w0 & _ & <-). Qed.

Lemma total_handle ds h s (Q : dsa_handle H -> system H -> Prop) : sy_switches s !! ds = Some h -> Q h s -> total (handle_of ds) s Q.
Proof. intros E HQ. apply total_bind, total_get. by eapply total_deref. Qed.

Lemma total_dst ds t s (Q : Z -> system H -> Prop) : h_dst <$> sy_switches s !! ds = Some (Some t) -> Q t s -> total (dst_of ds) s Q.
Proof.
  intros (h & E & Eh)%fmap_Some HQ. apply total_bind. eapply total_handle; [exact E |]. by eapply total_deref.
Qed.

Lemma aside_dst t s s' ds : aside t s s' -> h_dst <$> sy_switches s' !! ds = h_dst <$> sy_switches s !! ds.
Proof.
  intros Ha. pose proof (as_handles _ _ _ Ha ds) as E.
  destruct (sy_switches s' !! ds), (sy_switches s !! ds); try done. cbn in *. congruence.
Qed.

End View.

(** ** The description of a switch *)

Record platform (H : Type) := mkPlatform {
  pf_ops : dsa_switch_ops H;
  pf_ports : Z;
  pf_cd : dsa_chip_data;
  pf_cpu : Z;                        (* the port named "cpu" *)
  pf_conduit : netdev;
}.
#[global] Arguments mkPlatform {H}.
#[global] Arguments pf_ops {H}.
#[global] Arguments pf_ports {H}.
#[global] Arguments pf_cd {H}.
#[global] Arguments pf_cpu {H}.
#[global] Arguments pf_conduit {H}.

Section Parse.
Context {H : Type} `{RefcountApi, NotifierApi, NetQueries, !NetEffects H, !LifeApi H, PlatformApi,
  !ModuleApi H, DescriptionApi}.
Implicit Types (s : system H) (w : world H) (t ds : Z) (g : tag_registry H) (pf : platform H).

Definition quiet_taggers (l : list (dsa_tag_driver H)) : Prop := Forall (fun u => quiet_tagger (td_ops u)) l.

Record platform_ok ds pf : Prop := {
  pk_ports : 0 < pf_ports pf <= DSA_MAX_PORTS;
  pk_names : Z.of_nat (length (cd_port_names (pf_cd pf))) = DSA_MAX_PORTS;
  pk_devs : Z.of_nat (length (cd_netdev (pf_cd pf))) = DSA_MAX_PORTS;
  pk_beyond i name : getz (cd_port_names (pf_cd pf)) i = Some (Some name) -> i < pf_ports pf;
  pk_cpu i : getz (cd_port_names (pf_cd pf)) i = Some (Some "cpu"%string) <-> i = pf_cpu pf;
  pk_dev : exists dev, getz (cd_netdev (pf_cd pf)) (pf_cpu pf) = Some (Some dev) /\
    (forall c, dsa_dev_to_net_device dev = Some c -> c = pf_conduit pf);
  pk_ptr : dsa_ptr (pf_conduit pf) = Some (ds, pf_cpu pf);
  pk_alien : user_dev_port (pf_conduit pf) = None;
  pk_proto i p h : op_get_tag_protocol (op_switch (pf_ops pf)) ds i p h <> 0;
  pk_driver : driver_fine ds (pf_ops pf);
  pk_preferred f h q : op_preferred_default_local_cpu_port (op_switch (pf_ops pf)) = Some f ->
    f ds h = Some q -> fst q = ds /\ 0 <= snd q < pf_ports pf;
}.

(** A port once the names below [k] have been read. *)
Definition named pf (i : Z) (dp : dsa_port) : dsa_port :=
  match getz (cd_port_names (pf_cd pf)) i with
  | Some (Some name) =>
      if String.eqb name "cpu" then set_type DSA_PORT_TYPE_CPU (set_netdev (Some (pf_conduit pf)) dp)
      else if String.eqb name "dsa" then set_type DSA_PORT_TYPE_DSA dp
      else set_type DSA_PORT_TYPE_USER dp
  | _ => dp
  end.
Definition parsed_port pf ds (k i : Z) : dsa_port := if i <? k then named pf i (zero_port ds i) else zero_port ds i.
Definition parsed_ports pf ds (k : Z) : list dsa_port := parsed_port pf ds k <$> seqZ 0 (pf_ports pf).

Lemma named_id pf i dp : dp_id (named pf i dp) = dp_id dp.
Proof using. unfold named. by repeat case_match. Qed.
Lemma parsed_id pf ds k i : dp_id (parsed_port pf ds k i) = (ds, i).
Proof using. unfold parsed_port. case_match; [by rewrite named_id | done]. Qed.

(** The tagger of a tree and the references on modules. *)
Context (rbase : Z -> Z).
Definition tag_ok (d : dsa_switch_tree H) g : Prop :=
  pointers (rg_drivers g) /\ quiet_taggers (rg_drivers g) /\
  match dst_tag_ops d with
  | None => forall x, refs x g = rbase x
  | Some o => quiet_tagger o /\ to_proto o = dst_default_proto d /\ dst_default_proto d <> 0 /\
      exists m, owned o m g /\ forall x, refs x g = rbase x + (if decide (m = x) then 1 else 0)
  end.

(** What parsing does to a tree: only its tagger may be settled. *)
Record tree_parsed (d d' : dsa_switch_tree H) : Prop := {
  tp_rest : set_dst_tag_ops None (set_dst_default_proto 0 d') = set_dst_tag_ops None (set_dst_default_proto 0 d);
  tp_tagged : is_Some (dst_tag_ops d) -> d' = d;
}.
#[export] Instance tree_parsed_preorder : PreOrder tree_parsed.
Proof.
  split; [done |]. intros d1 d2 d3 [E1 E2] [F1 F2]. split; [congruence |].
  intros Ht. rewrite F2; [by apply E2 |]. by rewrite E2.
Qed.

Context (quiet_loads : forall k l, quiet_taggers l -> quiet_taggers (request_module k l)).

(** From the tree at [w] to the tree with other ports and, it may be, a tagger. *)
Definition parse_to t s w (ps : list dsa_port) s' : Prop := exists d,
  seen t s' (set_ports (set_tree w d) ps) /\ aside t s s' /\ tree_parsed (w_tree w) d /\ tag_ok d (sy_registry s').

Lemma parse_here t s w : seen t s w -> tag_ok (w_tree w) (sy_registry s) -> parse_to t s w (w_ports w) s.
Proof using. intros Hs Ht. exists (w_tree w). split_and!; [by destruct w | done | done | done]. Qed.

(** The switch [ds] as described by [pf], in the tree [t]. *)
Definition handle_in t pf ds s : Prop := exists h, sy_switches s !! ds = Some h /\ h_dst h = Some t /\
  ds_ops (h_ds h) = pf_ops pf /\ ds_num_ports (h_ds h) = pf_ports pf.

(** Operations on the tree keep it so, as they keep what is fixed of the switches. *)
Lemma handle_kept t pf ds s s' w w' : handle_in t pf ds s -> seen t s w -> seen t s' w' -> aside t s s' ->
  (forall i, ds_fixed <$> w_switches w' !! i = ds_fixed <$> w_switches w !! i) -> handle_in t pf ds s'.
Proof using.
  intros (h & Hh & Hd & Ho & Hn) Hw Hw' Ha Hf. pose proof (as_handles _ _ _ Ha ds) as E. rewrite Hh in E.
  apply fmap_Some in E as (h' & Hh' & Eh). exists h'. injection Eh as Ed Ev. split_and!; [done | congruence | |].
  all: specialize (Hf ds); rewrite (seen_switches _ _ _ Hw), (seen_switches _ _ _ Hw'), !switches_lookup, Hh, Hh' in Hf; cbn in Hf;
    unfold points_to in Hf; rewrite <- Ed, Hd, bool_decide_true in Hf by done; cbn in Hf; unfold ds_fixed in Hf; congruence.
Qed.

Lemma total_dst_in t pf ds s (Q : Z -> system H -> Prop) : handle_in t pf ds s -> Q t s -> total (dst_of ds) s Q.
Proof using. intros (h & Hh & Hd & _). apply total_dst. by rewrite Hh, <- Hd. Qed.

Lemma total_assign t pf ds i f s w (Q : unit -> system H -> Prop) : handle_in t pf ds s -> seen t s w -> has_port w (ds, i) ->
  (forall s', seen t s' (upd_port (ds, i) f w) -> aside t s s' -> sy_registry s' = sy_registry s -> Q tt s') ->
  total (assign_port ds i f) s Q.
Proof using.
  intros Hh Hs [dp Hp] HQ. apply total_bind. eapply total_dst_in; [exact Hh |]. eapply total_in_tree; [exact Hs |].
  apply total_bind. unfold port_of. apply total_bind, total_get. eapply total_deref; [exact Hp |].
  apply total_modify. by split.
Qed.

(** A look at the tree changes nothing. *)
Lemma total_read_dst {A} t (f : dsa_switch_tree H -> A) s w (Q : A -> system H -> Prop) : seen t s w ->
  (forall s', seen t s' w -> aside t s s' -> sy_registry s' = sy_registry s -> Q (f (w_tree w)) s') -> total (read_dst t f) s Q.
Proof using. intros Hs HQ. by apply (total_in_tree_get t (fun w => f (w_tree w)) s w Q). Qed.

Lemma total_upd_dst t f s w (Q : unit -> system H -> Prop) : seen t s w ->
  (forall s', seen t s' (upd_tree f w) -> aside t s s' -> sy_registry s' = sy_registry s -> Q tt s') -> total (upd_dst t f) s Q.
Proof using. intros Hs HQ. by eapply total_in_tree_modify. Qed.

Definition with_registry g s : system H := mkSystem (sy_trees s) (sy_next s) (sy_switches s) g (sy_hw s) (sy_alloc s).
Lemma total_registry {A} (m : st (tag_registry H) A) s (Q : A -> system H -> Prop) :
  total m (sy_registry s) (fun a g => Q a (with_registry g s)) -> total (in_registry m) s Q.
Proof using. unfold total, in_registry. by destruct (m (sy_registry s)) as [[a g] |]. Qed.

Lemma seen_registry t g s w : seen t s w -> seen t (with_registry g s) w.
Proof using. by intros (w0 & E & <-); exists w0. Qed.
Lemma aside_registry t g s : aside t s (with_registry g s).
Proof using. by split. Qed.

(** ** The CPU port *)

Lemma agree_proto_run t p s w : p <> 0 -> seen t s w -> tag_ok (w_tree w) (sy_registry s) ->
  total (agree_proto t p) s (fun ok s' => exists d, seen t s' (set_tree w d) /\ aside t s s' /\
    tree_parsed (w_tree w) d /\ tag_ok d (sy_registry s') /\ (ok = true -> dst_default_proto d = p)).
Proof using.
  intros Hp Hs Ht. unfold agree_proto. apply total_bind. eapply total_read_dst; [exact Hs |].
  intros s1 Hs1 Ha1 Eg. destruct (Z.eqb_spec (dst_default_proto (w_tree w)) 0) as [E0 | Hne]; cbn [negb].
  - apply total_bind. eapply total_upd_dst; [exact Hs1 |]. intros s2 Hs2 Ha2 Eg2. apply total_ret.
    exists (set_dst_default_proto p (w_tree w)). split_and!; [exact Hs2 | by etransitivity | | | done].
    + split; [done |]. destruct Ht as (_ & _ & Ht). destruct (dst_tag_ops (w_tree w)) as [o |] eqn:Eo; [| by intros []].
      by destruct Ht as (_ & _ & Ht & _).
    + rewrite Eg2, Eg. destruct Ht as (Hpt & Hq & Ht). split_and!; [done | done |]. cbn [dst_tag_ops set_dst_default_proto].
      destruct (dst_tag_ops (w_tree w)); [| done]. by destruct Ht as (_ & _ & Ht & _).
  - apply total_ret. exists (w_tree w). split_and!; [by destruct w | done | done | by rewrite Eg | by intros ?%Z.eqb_eq].
Qed.

Lemma tag_ok_loads k d g g' : tag_ok d g -> rg_drivers g' = request_module k (rg_drivers g) ->
  (forall x, refs x g' = refs x g) -> tag_ok d g'.
Proof using quiet_loads.
  intros (Hp & Hq & Ht) E Er. split_and!.
  - rewrite E. by apply request_pointers.
  - rewrite E. by apply quiet_loads.
  - destruct (dst_tag_ops d) as [o |]; [| intros x; by rewrite Er].
    destruct Ht as (Ho & Ep & Hne & m & Hm & Hr). split_and!; [done | done | done |]. exists m. split.
    + eapply owned_grows; [by eapply request_grows | done].
    + intros x. by rewrite Er.
Qed.

Lemma agree_tagger_run t o m g0 s w : seen t s w -> tag_ok (w_tree w) g0 ->
  rg_drivers (sy_registry s) = request_module (TagById (to_proto o)) (rg_drivers g0) -> owned o m (sy_registry s) ->
  (forall x, refs x (sy_registry s) = refs x g0 + (if decide (m = x) then 1 else 0)) ->
  to_proto o = dst_default_proto (w_tree w) -> dst_default_proto (w_tree w) <> 0 ->
  total (agree_tagger t o) s (fun err s' => exists d, seen t s' (set_tree w d) /\ aside t s s' /\
    tree_parsed (w_tree w) d /\ tag_ok d (sy_registry s') /\ (err = 0 -> is_Some (dst_tag_ops d))).
Proof using quiet_loads.
  intros Hs Ht Er Hown Hrefs Eproto Hne. unfold agree_tagger. apply total_bind. eapply total_read_dst; [exact Hs |].
  intros s1 Hs1 Ha1 Eg1. destruct (dst_tag_ops (w_tree w)) as [o' |] eqn:Eo.
  - apply total_bind, total_registry. rewrite Eg1. eapply total_weaken; [| by apply put_run]. cbv beta.
    intros _ g [Ed Ex]. apply total_ret. exists (w_tree w). split_and!.
    + apply seen_registry. by destruct w.
    + etransitivity; [exact Ha1 | apply aside_registry].
    + done.
    + cbn [sy_registry with_registry]. eapply (tag_ok_loads (TagById (to_proto o))); [exact Ht | by rewrite Ed |].
      intros x. rewrite Ex, Hrefs. lia.
    + intros _. rewrite Eo. by eexists.
  - apply total_bind. eapply total_upd_dst; [exact Hs1 |]. intros s2 Hs2 Ha2 Eg2. apply total_ret.
    exists (set_dst_tag_ops (Some o) (w_tree w)). split_and!; [exact Hs2 | by etransitivity | | | by eexists].
    + split; [by destruct (w_tree w) |]. rewrite Eo. by intros [].
    + destruct Ht as (Hp & Hq & Hr). rewrite Eo in Hr. rewrite Eg2, Eg1.
      assert (Hq' : quiet_taggers (rg_drivers (sy_registry s))) by (rewrite Er; by apply quiet_loads).
      split_and!; [rewrite Er; by apply request_pointers | done |]. cbn [dst_tag_ops set_dst_tag_ops dst_default_proto].
      split_and!; [| done | done |].
      * destruct Hown as (u & Hu & _ & <-). apply List.find_some in Hu as [Hin _]. by eapply Forall_forall in Hq'; [| by apply list_elem_of_In].
      * exists m. split; [done |]. intros x. by rewrite Hrefs, Hr.
Qed.

Lemma handle_same t pf ds s s' w w' : handle_in t pf ds s -> seen t s w -> seen t s' w' -> aside t s s' ->
  w_switches w' = w_switches w -> handle_in t pf ds s'.
Proof using. intros Hh Hw Hw' Ha E. eapply handle_kept; [exact Hh | exact Hw | exact Hw' | exact Ha |]. by rewrite E. Qed.

Lemma parse_to_trans t s w d1 ps s1 s2 : seen t s1 (set_tree w d1) -> aside t s s1 -> tree_parsed (w_tree w) d1 ->
  parse_to t s1 (set_tree w d1) ps s2 -> parse_to t s w ps s2.
Proof using.
  intros Hs Ha Hd (d2 & Hs2 & Ha2 & Hd2 & Ht2). exists d2. split_and!; [exact Hs2 | by etransitivity | by etransitivity | done].
Qed.

Lemma parse_cpu_run t pf ds i s w : platform_ok ds pf -> handle_in t pf ds s -> seen t s w ->
  tag_ok (w_tree w) (sy_registry s) -> has_port w (ds, i) ->
  total (dsa_port_parse_cpu ds i (pf_conduit pf) None) s (fun err s' =>
    parse_to t s w (w_ports (if err =? 0
      then upd_port (ds, i) (fun dp => set_type DSA_PORT_TYPE_CPU (set_netdev (Some (pf_conduit pf)) dp)) w else w)) s' /\
    (err = 0 -> exists d, seen t s' d /\ is_Some (dst_tag_ops (w_tree d)))).
Proof using quiet_loads.
  intros Hpf Hh Hs Ht Hp. unfold dsa_port_parse_cpu. apply total_bind. eapply total_dst_in; [exact Hh |].
  apply total_bind. eapply total_in_tree; [exact Hs |]. unfold port_of. destruct Hp as [dp Hp].
  apply total_bind, total_get. eapply total_deref; [exact Hp |]. split; [done |]. intros s1 Hs1 Ha1 Eg1.
  pose proof (handle_same t pf ds s s1 w w Hh Hs Hs1 Ha1 eq_refl) as Hh1. pose proof Hh1 as (h & Eh & Ed & Eo & En).
  unfold dsa_get_tag_protocol. rewrite (pk_alien _ _ Hpf). apply total_bind, total_bind, total_ret, total_bind.
  eapply total_handle; [exact Eh |]. apply total_bind, total_get, total_ret. rewrite Eo.
  set (p := op_get_tag_protocol _ _ _ _ _). assert (Hp0 : p <> 0) by (by apply (pk_proto _ _ Hpf)).
  rewrite <- Eg1 in Ht. mstep (by apply (agree_proto_run t p s1 w)). cbv beta.
  intros ok s2 (d2 & Hs2 & Ha2 & Hd2 & Ht2 & Hok). assert (Ha : aside t s s2) by (by etransitivity).
  destruct ok; cbn [negb].
  2: { apply total_ret. split; [| done]. by exists d2. }
  specialize (Hok eq_refl). subst p.
  assert (Hh2 : handle_in t pf ds s2) by (by apply (handle_same t pf ds s1 s2 w (set_tree w d2) Hh1 Hs1 Hs2 Ha2)).
  pose proof Hh2 as (h2 & Eh2 & _). apply total_bind. eapply total_handle; [exact Eh2 |].
  rewrite (bool_decide_false (is_Some None)) by (by intros []). cbn [andb]. unfold find_tagger.
  apply total_bind, total_bind, total_ret, total_registry.
  eapply total_weaken; [| apply get_by_id_run, Ht2]. cbv beta. intros [err | o] g3 (Ed3 & G); cbn [negb].
  { destruct G as [-> Hr]. apply total_ret. split; [| done]. exists d2. split_and!; [by apply seen_registry | | done |].
    - etransitivity; [exact Ha | apply aside_registry].
    - by eapply tag_ok_loads. }
  destruct G as (Ep & m & Hm & Hr). assert (Hne : dst_default_proto d2 <> 0) by (by rewrite Hok). rewrite <- Hok in Ep, Ed3.
  mstep (apply (agree_tagger_run t o m (sy_registry s2) (with_registry g3 s2) (set_tree w d2))).
  2: by apply seen_registry.
  2: exact Ht2.
  2: { cbn [sy_registry with_registry]. by rewrite Ep. }
  2-5: done.
  cbv beta. intros err s4 (d4 & Hs4 & Ha4 & Hd4 & Ht4 & Hsome). change (set_tree (set_tree w d2) d4) with (set_tree w d4) in Hs4.
  assert (Ha24 : aside t s2 s4) by (etransitivity; [apply (aside_registry t g3) | exact Ha4]).
  assert (Hd : tree_parsed (w_tree w) d4) by (by etransitivity).
  assert (Ha' : aside t s s4) by (by etransitivity).
  destruct (Z.eqb_spec err 0) as [-> | Herr]; cbn [negb].
  2: { apply total_ret. rewrite (proj2 (Z.eqb_neq err 0)) by done. split; [by exists d4 | done]. }
  assert (Hh4 : handle_in t pf ds s4) by (by apply (handle_same t pf ds s2 s4 (set_tree w d2) (set_tree w d4) Hh2 Hs2 Hs4 Ha24)).
  apply total_bind. eapply total_assign; [exact Hh4 | exact Hs4 | by exists dp |].
  intros s5 Hs5 Ha5 Eg5. apply total_ret. cbn [Z.eqb]. split.
  - exists d4. split_and!; [exact Hs5 | by etransitivity | done | by rewrite Eg5].
  - intros _. eexists. split; [exact Hs5 |]. by apply Hsome.
Qed.

(** ** The ports *)

Lemma seen_unique t s w1 w2 : seen t s w1 -> seen t s w2 -> w1 = w2.
Proof using. intros (u1 & E1 & <-) (u2 & E2 & <-). congruence. Qed.

Definition no_ports_of ds (l : list dsa_port) : Prop := Forall (fun dp => dp_ds dp <> ds) l.
Definition ports_of ds (l : list dsa_port) : Prop := Forall (fun dp => dp_ds dp = ds) l.
Definition zero_ports ds (n : Z) : list dsa_port := zero_port ds <$> seqZ 0 n.

Lemma zero_ports_of ds n : ports_of ds (zero_ports ds n).
Proof using. apply Forall_fmap, Forall_forall. done. Qed.

Lemma no_port_find (g : dsa_port -> bool) l : (forall dp, dp ∈ l -> g dp = false) -> List.find g l = None.
Proof using.
  induction l as [| dp l IH]; intros Hl; [done |]. cbn. rewrite Hl by by left. apply IH. intros dq Hq. apply Hl. by right.
Qed.

Lemma seqZ_snoc m n : 0 <= n -> seqZ m (n + 1) = seqZ m n ++ [m + n].
Proof using. intros Hn. rewrite seqZ_app by lia. done. Qed.

(** Ports were added, all of them if there is no error. *)
Definition touched t ds w n s (err : Z) s' : Prop := exists l al,
  seen t s' (set_alloc (set_ports w (w_ports w ++ l)) al) /\ aside t s s' /\ sy_registry s' = sy_registry s /\
  ports_of ds l /\ (err = 0 -> l = zero_ports ds n).

Lemma touch_loop_run t pf ds w n : no_ports_of ds (w_ports w) -> 0 <= n -> forall m s k al, m = Z.to_nat (n - k) -> 0 <= k <= n ->
  handle_in t pf ds s -> seen t s (set_alloc (set_ports w (w_ports w ++ zero_ports ds k)) al) ->
  total (touch_loop ds (seqZ k (n - k))) s (touched t ds w n s).
Proof using.
  intros Hno Hn m. induction m as [| m IH]; intros s k al Hm Hk Hh Hs.
  - assert (k = n) by lia. subst k. rewrite Z.sub_diag. cbn. apply total_ret.
    exists (zero_ports ds n), al. split_and!; try done. apply zero_ports_of.
  - rewrite seqZ_cons by lia. cbn [touch_loop]. apply total_bind, total_bind.
    eapply total_dst_in; [exact Hh |]. eapply total_in_tree; [exact Hs |].
    apply total_bind, total_get.
    assert (E : dsa_to_port (set_alloc (set_ports w (w_ports w ++ zero_ports ds k)) al) ds k = None).
    { unfold dsa_to_port. cbn [w_ports set_alloc set_ports]. apply no_port_find. intros dp [Hin | Hin]%elem_of_app.
      - eapply Forall_forall in Hno; [| exact Hin]. by rewrite (proj2 (Z.eqb_neq _ _) Hno).
      - apply list_elem_of_fmap in Hin as (j & -> & Hj%elem_of_seqZ). cbn. rewrite (proj2 (Z.eqb_neq j k)) by lia. apply andb_false_r. }
    rewrite E. apply total_bind. unfold total at 1, kzalloc.
    assert (Hend : forall s' al', seen t s' (set_alloc (set_ports w (w_ports w ++ zero_ports ds k)) al') -> aside t s s' ->
      sy_registry s' = sy_registry s -> total (if negb false then mret (- ENOMEM) else touch_loop ds (seqZ (Z.succ k) (Z.pred (n - k)))) s'
        (touched t ds w n s)).
    { intros s' al' Hs' Ha' Eg. apply total_ret. exists (zero_ports ds k), al'. split_and!; try done. apply zero_ports_of. }
    assert (Hgo : forall s' al', seen t s' (set_alloc (set_ports w (w_ports w ++ zero_ports ds (k + 1))) al') -> aside t s s' ->
      sy_registry s' = sy_registry s -> total (if negb true then mret (- ENOMEM) else touch_loop ds (seqZ (Z.succ k) (Z.pred (n - k)))) s'
        (touched t ds w n s)).
    { intros s' al' Hs' Ha' Eg. cbn [negb]. replace (Z.succ k) with (k + 1) by lia. replace (Z.pred (n - k)) with (n - (k + 1)) by lia.
      eapply total_weaken; [| apply (IH s' (k + 1) al'); [lia | lia | | exact Hs']].
      - cbv beta. intros err s'' (l & al'' & Hs'' & Ha'' & Eg'' & Hl). exists l, al''. split_and!; try done; try apply Hl.
        + by etransitivity. + congruence.
      - eapply handle_same; [exact Hh | exact Hs | exact Hs' | exact Ha' | done]. }
    assert (Ez : forall al0, set_ports (set_alloc w al0) ((w_ports w ++ zero_ports ds k) ++ [zero_port ds k]) =
                   set_alloc (set_ports w (w_ports w ++ zero_ports ds (k + 1))) al0).
    { intros al0. unfold zero_ports. rewrite seqZ_snoc, fmap_app, app_assoc by lia. by rewrite Z.add_0_l. }
    destruct al as [| [] al]; cbn [w_alloc set_alloc].
    + cbn [negb]. apply total_bind, total_modify, total_ret. split; [done |]. intros s' Hs' Ha' Eg'.
      apply (Hgo s' []); [| done | done]. rewrite <- Ez. exact Hs'.
    + cbn [negb]. apply total_bind, total_modify, total_ret. split; [done |]. intros s' Hs' Ha' Eg'.
      apply (Hgo s' al); [| done | done]. rewrite <- Ez. exact Hs'.
    + cbn [negb]. apply total_ret. split; [done |]. intros s' Hs' Ha' Eg'. by apply (Hend s' al).
Qed.

(** ** The names *)

Lemma parse_to_again t s w ps s1 d1 ps2 s2 : seen t s1 (set_ports (set_tree w d1) ps) -> aside t s s1 -> tree_parsed (w_tree w) d1 ->
  parse_to t s1 (set_ports (set_tree w d1) ps) ps2 s2 -> parse_to t s w ps2 s2.
Proof using.
  intros Hs Ha Hd (d2 & Hs2 & Ha2 & Hd2 & Ht2). exists d2. split_and!; [exact Hs2 | by etransitivity | by etransitivity | done].
Qed.

Definition tagged t s : Prop := exists v, seen t s v /\ is_Some (dst_tag_ops (w_tree v)).

Lemma tagged_kept t w ps s1 d1 ps2 s2 : seen t s1 (set_ports (set_tree w d1) ps) -> tagged t s1 ->
  parse_to t s1 (set_ports (set_tree w d1) ps) ps2 s2 -> tagged t s2.
Proof using.
  intros Hs (v & Hv & Hsome) (d2 & Hs2 & _ & Hd2 & _). eexists. split; [exact Hs2 |].
  pose proof (seen_unique _ _ _ _ Hv Hs) as ->. cbn in *. by rewrite (tp_tagged _ _ Hd2).
Qed.

Lemma parsed_step pf ds k P : no_ports_of ds P -> 0 <= k -> (forall name, getz (cd_port_names (pf_cd pf)) k = Some (Some name) -> k < pf_ports pf) ->
  forall f, (forall dp, f dp = named pf k dp) ->
  (fun dp => if bool_decide (dp_id dp = (ds, k)) then f dp else dp) <$> (P ++ parsed_ports pf ds k) = P ++ parsed_ports pf ds (k + 1).
Proof using.
  intros Hno Hk Hb f Hf. rewrite fmap_app. f_equal.
  - rewrite <- (list_fmap_id P) at 2. apply list_fmap_ext. intros i dp Hin. apply list_elem_of_lookup_2 in Hin.
    eapply Forall_forall in Hno; [| exact Hin]. rewrite bool_decide_false; [done |]. unfold dp_id. congruence.
  - unfold parsed_ports. rewrite <- list_fmap_compose. apply list_fmap_ext. intros i j _. cbn. rewrite parsed_id.
    unfold parsed_port. destruct (Z.eq_dec j k) as [-> | Hne].
    + rewrite bool_decide_true by done. rewrite Z.ltb_irrefl, (proj2 (Z.ltb_lt k (k + 1))) by lia. apply Hf.
    + rewrite bool_decide_false by congruence. destruct (Z.ltb_spec j k), (Z.ltb_spec j (k + 1)); done || lia.
Qed.

Lemma parsed_ids pf ds k : dp_id <$> parsed_ports pf ds k = (fun i => (ds, i)) <$> seqZ 0 (pf_ports pf).
Proof using. unfold parsed_ports. rewrite <- list_fmap_compose. apply list_fmap_ext. intros i j _. apply parsed_id. Qed.

Lemma parsed_of pf ds k : ports_of ds (parsed_ports pf ds k).
Proof using.
  apply Forall_fmap, Forall_forall. intros j _. cbn. pose proof (parsed_id pf ds k j) as E. unfold dp_id in E. congruence.
Qed.

Lemma parsed_has w pf ds k i P : w_ports w = P ++ parsed_ports pf ds k -> 0 <= i < pf_ports pf -> has_port w (ds, i).
Proof using.
  intros E Hi. apply port_in. rewrite E, fmap_app, parsed_ids. apply elem_of_app. right.
  apply list_elem_of_fmap. exists i. split; [done |]. apply elem_of_seqZ. lia.
Qed.

(** One name: the port becomes what it says, or the parse ends. *)
Lemma parse_name_run t pf ds k name dev s w P : platform_ok ds pf -> handle_in t pf ds s -> seen t s w ->
  tag_ok (w_tree w) (sy_registry s) -> w_ports w = P ++ parsed_ports pf ds k -> no_ports_of ds P -> 0 <= k ->
  getz (cd_port_names (pf_cd pf)) k = Some (Some name) -> getz (cd_netdev (pf_cd pf)) k = Some dev ->
  total (dsa_port_parse ds k name dev) s (fun err s' =>
    parse_to t s w (if err =? 0 then P ++ parsed_ports pf ds (k + 1) else w_ports w) s' /\
    (err = 0 -> k = pf_cpu pf -> tagged t s')).
Proof using quiet_loads.
  intros Hpf Hh Hs Ht Ew Hno Hk Hname Hdev.
  assert (Hb : forall name, getz (cd_port_names (pf_cd pf)) k = Some (Some name) -> k < pf_ports pf) by (intros; by eapply pk_beyond).
  assert (Hp : has_port w (ds, k)) by (eapply parsed_has; [exact Ew | split; [done | by eapply Hb]]).
  assert (Hset : forall f, (forall dp, f dp = named pf k dp) -> w_ports (upd_port (ds, k) f w) = P ++ parsed_ports pf ds (k + 1)).
  { intros f Hf. unfold upd_port. cbn [w_ports set_ports]. rewrite Ew. by apply parsed_step. }
  assert (Hkind : forall f, (forall dp, f dp = named pf k dp) -> k <> pf_cpu pf ->
    total (_ ← assign_port ds k f; mret 0) s (fun err s' =>
      parse_to t s w (if err =? 0 then P ++ parsed_ports pf ds (k + 1) else w_ports w) s' /\
      (err = 0 -> k = pf_cpu pf -> tagged t s'))).
  { intros f Hf Hne. apply total_bind. eapply total_assign; [exact Hh | exact Hs | exact Hp |]. intros s' Hs' Ha' Eg'.
    apply total_ret. split; [| done]. cbn [Z.eqb]. exists (w_tree w). split_and!; [| done | done | by rewrite Eg'].
    rewrite <- (Hset f Hf). by destruct w. }
  unfold dsa_port_parse. destruct (String.eqb name "cpu") eqn:Ec.
  - apply String.eqb_eq in Ec. subst name. pose proof (proj1 (pk_cpu _ _ Hpf k) Hname) as Ek.
    destruct (pk_dev _ _ Hpf) as (dev0 & Hdev0 & Hc). rewrite <- Ek, Hdev in Hdev0. injection Hdev0 as ->.
    apply total_bind. eapply total_deref; [done |]. destruct (dsa_dev_to_net_device dev0) as [c |] eqn:Edev.
    2: { apply total_ret. split; [| done]. cbn. by apply parse_here. }
    rewrite (Hc c) by done. eapply total_weaken; [| by eapply parse_cpu_run]. cbv beta. intros err s' [G Htag].
    split; [| intros He _; by apply Htag]. destruct (err =? 0); [| done]. rewrite Hset in G; [done |].
    intros dp. unfold named. by rewrite Hname.
  - assert (Hne : k <> pf_cpu pf).
    { intros E. apply (pk_cpu _ _ Hpf) in E. rewrite E in Hname. injection Hname as <-. done. }
    destruct (String.eqb name "dsa") eqn:Ed; apply Hkind; try done; intros dp; unfold named; by rewrite Hname, Ec, Ed.
Qed.

(** The ports of the tree are [P] and those of the switch, and the tagger is known when all names were read. *)
Definition parsed_to t s w ds pf P (err : Z) s' : Prop := exists ps,
  parse_to t s w (P ++ ps) s' /\ ports_of ds ps /\
  (err = 0 -> ps = parsed_ports pf ds DSA_MAX_PORTS /\ tagged t s').

Lemma parse_loop_run t pf ds w P s : platform_ok ds pf -> handle_in t pf ds s -> seen t s w -> no_ports_of ds P ->
  forall m k found s1, m = Z.to_nat (DSA_MAX_PORTS - k) -> 0 <= k <= DSA_MAX_PORTS ->
  parse_to t s w (P ++ parsed_ports pf ds k) s1 -> (pf_cpu pf < k -> tagged t s1 /\ found = true) ->
  total (parse_loop ds (pf_cd pf) (seqZ k (DSA_MAX_PORTS - k)) found) s1 (parsed_to t s w ds pf P).
Proof using quiet_loads.
  intros Hpf Hh Hs Hno m. induction m as [| m IH]; intros k found s1 Hm Hk Hp Hf.
  - assert (Ek : k = DSA_MAX_PORTS) by (unfold DSA_MAX_PORTS in *; lia). subst k. cbn. apply total_ret.
    exists (parsed_ports pf ds DSA_MAX_PORTS). split_and!; [done | apply parsed_of |]. intros _. split; [done |]. apply Hf.
    pose proof (proj2 (pk_cpu _ _ Hpf (pf_cpu pf)) eq_refl) as Ec. apply (pk_beyond _ _ Hpf) in Ec. pose proof (pk_ports _ _ Hpf). lia.
  - rewrite seqZ_cons by (unfold DSA_MAX_PORTS in *; lia). cbn [parse_loop].
    destruct (getz_in (cd_port_names (pf_cd pf)) k) as [name Hname]; [rewrite (pk_names _ _ Hpf); lia |].
    destruct (getz_in (cd_netdev (pf_cd pf)) k) as [dev Hdev]; [rewrite (pk_devs _ _ Hpf); unfold DSA_MAX_PORTS in *; lia |].
    apply total_bind. eapply total_deref; [exact Hname |]. apply total_bind. eapply total_deref; [exact Hdev |].
    replace (Z.succ k) with (k + 1) by lia. replace (Z.pred (DSA_MAX_PORTS - k)) with (DSA_MAX_PORTS - (k + 1)) by lia.
    destruct name as [name |].
    + destruct Hp as (d & Hs1 & Ha1 & Hd1 & Ht1). set (w1 := set_ports (set_tree w d) (P ++ parsed_ports pf ds k)) in *.
      assert (Hh1 : handle_in t pf ds s1) by (by apply (handle_same t pf ds s s1 w w1 Hh Hs Hs1 Ha1)).
      apply total_bind. eapply total_weaken; [| apply (parse_name_run t pf ds k name dev s1 w1 P); done || lia]. cbv beta.
      intros err s2 [G Hcpu]. destruct (Z.eqb_spec err 0) as [-> | Hne]; cbn [negb].
      * apply (IH (k + 1)); [unfold DSA_MAX_PORTS in *; lia | unfold DSA_MAX_PORTS in *; lia | by eapply parse_to_again |].
        intros Hlt. split; [| done]. destruct (Z.eq_dec k (pf_cpu pf)) as [E | E]; [by apply Hcpu |].
        eapply tagged_kept; [exact Hs1 | apply Hf; lia | exact G].
      * apply total_ret. exists (parsed_ports pf ds k). split_and!; [by eapply parse_to_again | apply parsed_of | done].
    + apply (IH (k + 1)); [unfold DSA_MAX_PORTS in *; lia | unfold DSA_MAX_PORTS in *; lia | |].
      * assert (E : parsed_ports pf ds (k + 1) = parsed_ports pf ds k); [| by rewrite E].
        apply list_fmap_ext. intros i j _. unfold parsed_port. destruct (Z.eq_dec j k) as [-> | Hne].
        -- rewrite Z.ltb_irrefl, (proj2 (Z.ltb_lt k (k + 1))) by lia. unfold named. by rewrite Hname.
        -- destruct (Z.ltb_spec j k), (Z.ltb_spec j (k + 1)); done || lia.
      * intros Hlt. apply Hf. destruct (Z.eq_dec k (pf_cpu pf)) as [E | E]; [| lia].
        apply (pk_cpu _ _ Hpf) in E. congruence.
Qed.

(** Ports and names, in the tree found or made. *)
Definition parse_rest ds (cd : dsa_chip_data) : st (system H) Z :=
  err ← dsa_switch_touch_ports ds;
  if negb (err =? 0) then mret err else dsa_switch_parse_ports ds cd.

Lemma parse_rest_run t pf ds s w : platform_ok ds pf -> handle_in t pf ds s -> seen t s w -> no_ports_of ds (w_ports w) ->
  tag_ok (w_tree w) (sy_registry s) ->
  total (parse_rest ds (pf_cd pf)) s (fun err s' => exists al, parsed_to t s (set_alloc w al) ds pf (w_ports w) err s').
Proof using quiet_loads.
  intros Hpf Hh Hs Hno Ht. unfold parse_rest, dsa_switch_touch_ports. apply total_bind, total_bind.
  pose proof Hh as (h & Eh & _ & _ & En). eapply total_handle; [exact Eh |]. rewrite En.
  pose proof (pk_ports _ _ Hpf) as Hn. rewrite <- (Z.sub_0_r (pf_ports pf)) at 1.
  eapply total_weaken; [| eapply (touch_loop_run t pf ds w (pf_ports pf) Hno ltac:(lia) _ s 0 (w_alloc w) eq_refl); [lia | done |]].
  2: { cbn. rewrite app_nil_r. by destruct w. }
  cbv beta. intros err s1 (l & al & Hs1 & Ha1 & Eg1 & Hl & Hz). rewrite <- Eg1 in Ht.
  destruct (Z.eqb_spec err 0) as [-> | Hne]; cbn [negb].
  - specialize (Hz eq_refl). subst l. unfold dsa_switch_parse_ports.
    set (v := set_alloc (set_ports w (w_ports w ++ zero_ports ds (pf_ports pf))) al) in *.
    assert (Hh1 : handle_in t pf ds s1) by (by apply (handle_same t pf ds s s1 w v Hh Hs Hs1 Ha1)).
    eapply total_weaken; [| apply (parse_loop_run t pf ds v (w_ports w) s1 Hpf Hh1 Hs1 Hno _ 0 false s1 eq_refl)].
    + cbv beta. intros err s2 (ps & (d & Hs2 & Ha2 & Hd2 & Ht2) & Hps & Hok). exists al, ps. split_and!; [| done | done].
      exists d. split_and!; [exact Hs2 | by etransitivity | done | done].
    + unfold DSA_MAX_PORTS. lia.
    + replace (w_ports w ++ parsed_ports pf ds 0) with (w_ports v); [by apply parse_here |]. cbn. f_equal.
      apply list_fmap_ext. intros i j Hj. apply list_elem_of_lookup_2, elem_of_seqZ in Hj. unfold parsed_port.
      by rewrite (proj2 (Z.ltb_ge j 0)) by lia.
    + intros Hlt. pose proof (proj2 (pk_cpu _ _ Hpf _) eq_refl) as G%getz_Some_range. lia.
  - apply total_ret. exists al, l. split_and!; [| done | done]. exists (w_tree w). split_and!; [by destruct w | done | done | done].
Qed.

End Parse.
