(* ===== verification/DsaRegLife.v ===== *)
(** * The life of a registered switch

    Any sequence of registrations and removals on a system described by platform
    data, with whatever fails in between: at most one switch is registered, what
    the system holds is what that switch accounts for, and without one it is as
    it was at first. *)

From Stdlib Require Import ZArith Lia Bool.
From stdpp Require Import strings.
From S2P Require Import Prelude.
From S2P Require Import Kernel.
From S2P Require Import DsaTypes.
From S2P Require Import DsaSwitch.
From S2P Require Import DsaEvent.
From S2P Require Import DsaSafe.
From S2P Require Import DsaPort.
From S2P Require Import DsaMember.
From S2P Require Import DsaLife.
From S2P Require Import DsaTree.
From S2P Require Import DsaRoutes.
From S2P Require Import DsaAccount.
From S2P Require Import DsaUpDown.
From S2P Require Import DsaTreeLife.
From S2P Require Import DsaTreeAccount.
From S2P Require Import DsaTreeCycle.
From S2P Require Import TagDrivers.
From S2P Require Import DsaRegister.
From S2P Require Import DsaPlatform.

Section Life.
Context {H : Type} `{RefcountApi, NotifierApi, NetQueries, !NetEffects H, !LifeApi H, !QuietNet H, PlatformApi,
  !ModuleApi H, DescriptionApi}.
Context (tagger_data : H -> Z -> bool).
Context (mdio_registers : forall ds h, fst (acquire (H := H) (MdioRegistered ds) h) = 0).
Context (devlink_registers : forall ds h, fst (acquire (H := H) (DevlinkRegistered ds) h) = 0).
Context (quiet_loads : forall k l, quiet_taggers (H := H) l -> quiet_taggers (request_module k l)).
Context (spec : Z -> platform H).
Context (base : resource -> Z) (base_pos : forall x, 0 <= base x) (rbase : Z -> Z).
Implicit Types (s : system H) (w : world H) (t ds : Z) (h : dsa_handle H).
Abbreviation tags := (tag_ok rbase).

(** ** What is known of all switches *)

Definition handle_ok s ds h : Prop :=
  platform_ok ds (spec ds) /\ ds_ops (h_ds h) = pf_ops (spec ds) /\ ds_num_ports (h_ds h) = pf_ports (spec ds) /\
  h_dev h = Some (mkDev (Some (pf_cd (spec ds))) None) /\ (forall t, h_dst h = Some t -> t < sy_next s).
Definition handles_ok s : Prop := forall ds h, sy_switches s !! ds = Some h -> handle_ok s ds h.

(** Switches outside of the tree are down. *)
Definition others_down t s : Prop := forall ds h, sy_switches s !! ds = Some h -> h_dst h <> Some t -> switch_down (h_ds h).

Definition same_fixed w w' : Prop := forall i, ds_fixed <$> w_switches w' !! i = ds_fixed <$> w_switches w !! i.

Lemma handles_kept t s s' w w' : handles_ok s -> seen t s w -> seen t s' w' -> aside t s s' -> same_fixed w w' -> handles_ok s'.
Proof using.
  intros Hok Hw Hw' Ha Hf ds h' Hh'. pose proof (as_handles _ _ _ Ha ds) as E. rewrite Hh' in E. symmetry in E.
  apply fmap_Some in E as (h & Hh & E). injection E as Ed Ev.
  destruct (Hok ds h Hh) as (Hp & Ho & Hn & Hv & Hd).
  assert (Hx : ds_fixed (h_ds h') = ds_fixed (h_ds h)).
  { destruct (decide (h_dst h = Some t)) as [E | Hne].
    - specialize (Hf ds). rewrite (seen_switches _ _ _ Hw), (seen_switches _ _ _ Hw'), !switches_lookup, Hh, Hh' in Hf. cbn in Hf.
      unfold points_to in Hf. rewrite Ed, E, bool_decide_true in Hf by done. cbn in Hf. congruence.
    - rewrite (as_others _ _ _ Ha ds h Hh Hne) in Hh'. by injection Hh' as <-. }
  unfold ds_fixed in Hx. injection Hx as E1 E2. split_and!; [done | congruence | congruence | congruence |].
  intros u Hu. rewrite (as_next _ _ _ Ha). apply Hd. congruence.
Qed.

Lemma others_kept t s s' : others_down t s -> aside t s s' -> others_down t s'.
Proof using.
  intros Hok Ha ds h' Hh' Hne. pose proof (as_handles _ _ _ Ha ds) as E. rewrite Hh' in E. symmetry in E.
  apply fmap_Some in E as (h & Hh & E). injection E as Ed Ev. assert (Hne' : h_dst h <> Some t) by congruence.
  pose proof (as_others _ _ _ Ha ds h Hh Hne') as E'. rewrite Hh' in E'. injection E' as ->. by eapply Hok.
Qed.

(** ** A tree and its references *)

(** One tree, at [w], for the switch [ds] among others. *)
Record one_tree t s w : Prop := {
  ot_trees : fst <$> sy_trees s = [t];
  ot_seen : seen t s w;
  ot_handles : handles_ok s;
  ot_others : others_down t s;
  ot_tags : tags (w_tree w) (sy_registry s);
}.

Lemma one_tree_step t s s' w w' : one_tree t s w -> seen t s' w' -> aside t s s' -> same_fixed w w' ->
  tags (w_tree w') (sy_registry s') -> one_tree t s' w'.
Proof using.
  intros [Ot Os Oh Oo Og] Hs Ha Hf Hg. split; [by rewrite (as_trees _ _ _ Ha) | done | by eapply handles_kept | by eapply others_kept | done].
Qed.

Lemma tags_same d d' g : tags d g -> dst_tag_ops d' = dst_tag_ops d -> dst_default_proto d' = dst_default_proto d -> tags d' g.
Proof using. intros (Hp & Hq & Ht) E1 E2. split_and!; [done | done |]. by rewrite E1, E2. Qed.

Definition count w : Z := dst_refcount (w_tree w).
Definition set_count (n : Z) w : world H := upd_tree (set_dst_refcount n) w.

Lemma tree_get_run t s w (Q : unit -> system H -> Prop) : one_tree t s w -> 0 < count w < REFCOUNT_MAX ->
  (forall s', one_tree t s' (set_count (count w + 1) w) -> aside t s s' -> Q tt s') -> total (dsa_tree_get t) s Q.
Proof using.
  intros Hot Hn HQ. eapply total_in_tree_modify; [apply Hot | done |]. intros s' Hs' Ha Eg.
  assert (E : upd_tree (fun d => set_dst_refcount (refcount_inc (dst_refcount d)) d) w = set_count (count w + 1) w).
  { unfold set_count, upd_tree. by rewrite refcount_inc_live. }
  rewrite E in Hs'. apply HQ; [| done]. eapply one_tree_step; [exact Hot | exact Hs' | done | done |].
  rewrite Eg. by eapply tags_same; [apply Hot | |].
Qed.

Lemma tree_put_run t s w (Q : unit -> system H -> Prop) : one_tree t s w -> 1 < count w <= REFCOUNT_MAX ->
  (forall s', one_tree t s' (set_count (count w - 1) w) -> aside t s s' -> Q tt s') -> total (dsa_tree_put (Some t)) s Q.
Proof using.
  intros Hot Hn HQ. unfold dsa_tree_put. apply total_bind. eapply total_in_tree; [apply Hot |].
  apply total_bind, total_get. unfold count in Hn. rewrite refcount_dec_live by done.
  apply total_bind, total_modify, total_ret. split; [done |]. intros s' Hs' Ha Eg.
  apply total_ret. apply HQ; [| done]. eapply one_tree_step; [exact Hot | exact Hs' | done | done |].
  rewrite Eg. by eapply tags_same; [apply Hot | |].
Qed.

(** Without a tree. *)
Record no_tree s : Prop := {
  nt_trees : sy_trees s = [];
  nt_handles : handles_ok s;
  nt_down ds h : sy_switches s !! ds = Some h -> switch_down (h_ds h);
  nt_pointers : pointers (rg_drivers (sy_registry s));
  nt_quiet : quiet_taggers (rg_drivers (sy_registry s));
  nt_refs x : refs x (sy_registry s) = rbase x;
}.

Lemma filter_out t (l : list (Z * world H)) : fst <$> l = [t] -> List.filter (fun e => negb (fst e =? t)) l = [].
Proof using. destruct l as [| [u v] [| ? ?]]; try done. intros [= ->]. cbn. by rewrite Z.eqb_refl. Qed.

(** A tree whose switches are down is freed. *)
Lemma tree_free_run t s w (Q : unit -> system H -> Prop) : one_tree t s w ->
  (forall ds d, w_switches w !! ds = Some d -> switch_down d) ->
  (forall s', no_tree s' -> sy_hw s' = sy_hw s -> Q tt s') -> total (dsa_tree_free t) s Q.
Proof using.
  intros Hot Hdown HQ. unfold dsa_tree_free. apply total_bind.
  eapply (total_in_tree_get t (fun w => dst_tag_ops (w_tree w))); [apply Hot |]. intros s1 Hs1 Ha1 Eg1.
  assert (Hot1 : one_tree t s1 w) by (eapply one_tree_step; [exact Hot | exact Hs1 | done | done | rewrite Eg1; apply Hot]).
  assert (Hend : forall g, pointers (rg_drivers g) -> quiet_taggers (rg_drivers g) -> (forall x, refs x g = rbase x) ->
    Q tt (set_trees (with_registry g s1) (List.filter (fun e => negb (fst e =? t)) (sy_trees s1)))).
  { intros g Hp Hq Hr. apply HQ; [split |].
    - cbn. apply filter_out, Hot1.
    - intros ds h Hh. by apply (ot_handles _ _ _ Hot1 ds h).
    - intros ds h Hh. cbn in Hh. destruct (decide (h_dst h = Some t)) as [E | Hne].
      + apply (Hdown ds). rewrite (seen_switches _ _ _ Hs1), switches_lookup, Hh. cbn. unfold points_to. by rewrite bool_decide_true.
      + by apply (ot_others _ _ _ Hot1 ds h).
    - done.
    - done.
    - done.
    - cbn. by rewrite <- (seen_hw _ _ _ Hs1), (seen_hw _ _ _ (ot_seen _ _ _ Hot)). }
  pose proof (ot_tags _ _ _ Hot1) as (Hp & Hq & Ht). apply total_bind.
  destruct (dst_tag_ops (w_tree w)) as [o |].
  - destruct Ht as (_ & _ & _ & m & Hm & Hr). apply total_registry. eapply total_weaken; [| by apply put_run]. cbv beta.
    intros _ g [Ed Ex]. apply total_modify. apply Hend; [by rewrite Ed | by rewrite Ed |].
    intros x. rewrite Ex, Hr. lia.
  - apply total_ret, total_modify.
    replace s1 with (with_registry (sy_registry s1) s1) by (by destruct s1). by apply Hend.
Qed.

(** The last reference goes, and the tree with it. *)
Lemma tree_last_run t s w (Q : unit -> system H -> Prop) : one_tree t s w -> count w = 1 ->
  (forall ds d, w_switches w !! ds = Some d -> switch_down d) ->
  (forall s', no_tree s' -> sy_hw s' = sy_hw s -> Q tt s') -> total (dsa_tree_put (Some t)) s Q.
Proof using.
  intros Hot Hn Hdown HQ. unfold dsa_tree_put. apply total_bind. eapply total_in_tree; [apply Hot |].
  apply total_bind, total_get. unfold count in Hn. rewrite Hn, refcount_dec_last.
  apply total_bind, total_modify, total_ret. split; [done |]. intros s1 Hs1 Ha1 Eg1.
  assert (Hot1 : one_tree t s1 (upd_tree (set_dst_refcount 0) w)).
  { eapply one_tree_step; [exact Hot | exact Hs1 | done | done |]. rewrite Eg1. by eapply tags_same; [apply Hot | |]. }
  eapply tree_free_run; [exact Hot1 | exact Hdown |]. intros s2 Hs2 Eh. apply HQ; [done |].
  rewrite Eh, <- (seen_hw _ _ _ Hs1). apply (seen_hw t s w), Hot.
Qed.

(** ** The tree found or made *)

(** An assignment to one switch, as the tree sees it. *)
Definition only ds w (o : option (dsa_switch H)) w' : Prop := exists m, w' = set_switches w m /\
  (forall i, i <> ds -> m !! i = w_switches w !! i) /\ m !! ds = o.

Lemma upd_lookup ds f s i : sy_switches (upd_handle ds f s) !! i = if decide (i = ds) then f <$> sy_switches s !! i else sy_switches s !! i.
Proof using. cbn. case_decide as E; [by subst; rewrite lookup_alter_eq | by rewrite lookup_alter_ne]. Qed.

Lemma seen_upd t s w ds h f : seen t s w -> sy_switches s !! ds = Some h ->
  exists w', seen t (upd_handle ds f s) w' /\ only ds w (if points_to t (f h) then Some (h_ds (f h)) else None) w'.
Proof using.
  intros (w0 & Et & <-) Hh. exists (load t w0 (upd_handle ds f s)). split; [by exists w0 |].
  exists (switches_of t (upd_handle ds f s)). split_and!; [done | |].
  - intros i Hi. cbn [load w_switches set_switches set_alloc set_hw]. rewrite !switches_lookup, upd_lookup. by rewrite decide_False.
  - rewrite switches_lookup, upd_lookup, decide_True, Hh by done. done.
Qed.

Lemma one_tree_upd t s w ds h f : one_tree t s w -> sy_switches s !! ds = Some h -> handle_ok s ds (f h) ->
  (h_dst (f h) = Some t \/ switch_down (h_ds (f h))) ->
  exists w', one_tree t (upd_handle ds f s) w' /\ only ds w (if points_to t (f h) then Some (h_ds (f h)) else None) w'.
Proof using.
  intros [Ot Os Oh Oo Og] Hh Hok Hd. destruct (seen_upd t s w ds h f Os Hh) as (w' & Hs' & Ho). exists w'. split; [| done].
  split; [done | done | | | by destruct Ho as (m & -> & _)].
  - intros i h' Hi. rewrite upd_lookup in Hi. case_decide as E; [| by apply Oh].
    subst i. rewrite Hh in Hi. injection Hi as <-. exact Hok.
  - intros i h' Hi Hne. rewrite upd_lookup in Hi. case_decide as E; [| by eapply Oo].
    subst i. rewrite Hh in Hi. injection Hi as <-. by destruct Hd.
Qed.

Definition indexed (h : dsa_handle H) : dsa_handle H := set_h_ds (set_ds_index 0 (h_ds h)) h.
Lemma indexed_down h : switch_down (h_ds h) -> switch_down (h_ds (indexed h)).
Proof using. by intros [? ?]. Qed.
Lemma indexed_ok s ds h : handle_ok s ds h -> handle_ok s ds (indexed h).
Proof using. by intros (? & ? & ? & ? & ?). Qed.

(** The switch [ds], which is down, has come to the tree at [w]. *)
Definition join ds : st (system H) (option Z) :=
  _ ← modify (upd_handle ds (fun h => set_h_ds (set_ds_index 0 (h_ds h)) h));
  o ← dsa_tree_touch 0;
  _ ← modify (upd_handle ds (set_h_dst o));
  mret o.
Definition joined t ds w s' w' : Prop := one_tree t s' w' /\ handle_in t (spec ds) ds s' /\ exists d, switch_down d /\ only ds w (Some d) w'.

(** To the tree there is. *)
Lemma join_old t s w ds : one_tree t s w -> dst_index (w_tree w) = 0 -> 0 < count w < REFCOUNT_MAX -> t < sy_next s ->
  is_Some (sy_switches s !! ds) -> (forall d, w_switches w !! ds = Some d -> switch_down d) ->
  total (join ds) s (fun o s' => o = Some t /\ exists w', joined t ds (set_count (count w + 1) w) s' w').
Proof using.
  intros Hot Hi Hn Ht [h Hh] Hdown. unfold join. apply total_bind, total_modify.
  assert (Hd : switch_down (h_ds h)).
  { destruct (decide (h_dst h = Some t)) as [E | Hne]; [| by apply (ot_others _ _ _ Hot ds h)].
    apply Hdown. rewrite (seen_switches _ _ _ (ot_seen _ _ _ Hot)), switches_lookup, Hh. cbn. unfold points_to. by rewrite bool_decide_true. }
  pose proof (ot_handles _ _ _ Hot _ _ Hh) as Hok.
  destruct (one_tree_upd t s w ds h indexed Hot Hh) as (w1 & Hot1 & Ho1); [by apply indexed_ok | right; by apply indexed_down |].
  change (fun h => set_h_ds (set_ds_index 0 (h_ds h)) h) with indexed. set (s1 := upd_handle ds indexed s) in *.
  assert (Hh1 : sy_switches s1 !! ds = Some (indexed h)) by (unfold s1; by rewrite upd_lookup, decide_True, Hh).
  destruct Ho1 as (m1 & -> & Hm1 & _). apply total_bind. unfold dsa_tree_touch. apply total_bind, total_get.
  assert (Ef : dsa_tree_find 0 s1 = Some t).
  { unfold dsa_tree_find. destruct (ot_seen _ _ _ Hot1) as (w0 & Et & Ew). pose proof (ot_trees _ _ _ Hot1) as El.
    destruct (sy_trees s1) as [| [u v] [| ? ?]]; try done. injection El as ->. cbn. unfold tree_at in Et. cbn in Et.
    rewrite Z.eqb_refl in Et. injection Et as ->.
    assert (E0 : dst_index (w_tree w0) = 0) by (by rewrite <- Hi; change (w_tree w) with (w_tree (set_switches w m1)); rewrite <- Ew).
    by rewrite E0. }
  rewrite Ef. apply total_bind. eapply tree_get_run; [exact Hot1 | done |]. intros s2 Hot2 Ha2. apply total_ret.
  assert (Hh2 : exists h2, sy_switches s2 !! ds = Some h2 /\ handle_ok s2 ds h2 /\ switch_down (h_ds h2)).
  { pose proof (as_handles _ _ _ Ha2 ds) as E. rewrite Hh1 in E. apply fmap_Some in E as (h2 & Hh2 & E). injection E as Ed _.
    exists h2. split_and!; [done | by apply (ot_handles _ _ _ Hot2) |].
    destruct (decide (h_dst h = Some t)) as [Et | Hne].
    - assert (El : switches_of t s2 !! ds = switches_of t s1 !! ds).
      { rewrite <- (seen_switches _ _ _ (ot_seen _ _ _ Hot2)), <- (seen_switches _ _ _ (ot_seen _ _ _ Hot1)). done. }
      rewrite !switches_lookup, Hh1, Hh2 in El. cbn in El. unfold points_to in El. cbn [h_dst indexed set_h_ds] in El.
      rewrite <- Ed in El. cbn [h_dst indexed set_h_ds] in El. rewrite Et, bool_decide_true in El by done.
      injection El as ->. by apply indexed_down.
    - rewrite (as_others _ _ _ Ha2 ds (indexed h) Hh1 Hne) in Hh2. injection Hh2 as <-. by apply indexed_down. }
  destruct Hh2 as (h2 & Hh2 & Hok2 & Hd2). apply total_bind, total_modify, total_ret. split; [done |].
  destruct (one_tree_upd t s2 _ ds h2 (set_h_dst (Some t)) Hot2 Hh2) as (w3 & Hot3 & m3 & -> & Hm3 & Hds3).
  { destruct Hok2 as (? & ? & ? & ? & ?). split_and!; try done. intros u [= <-]. by rewrite (as_next _ _ _ Ha2). }
  { by left. }
  eexists. split_and!; [exact Hot3 | |].
  - exists (set_h_dst (Some t) h2). destruct Hok2 as (? & ? & ? & ? & ?). by rewrite upd_lookup, decide_True, Hh2.
  - exists (h_ds h2). split; [done |]. exists m3. split_and!; [done | |].
    + intros i Hne. rewrite Hm3 by done. cbn. by apply Hm1.
    + rewrite Hds3. unfold points_to. by rewrite bool_decide_true.
Qed.

(** To a new one. *)
Definition tree_memory (al : list bool) : Prop := hd true al = true.
Record fresh_tree s w : Prop := {
  fr_tree : w_tree w = mkTree 0 1 LagsNull None 0 false 0 0;
  fr_ports : w_ports w = [];
  fr_switches : w_switches w = ∅;
  fr_works : w_works w = [];
  fr_nh : w_nh w = [];
  fr_hw : w_hw w = sy_hw s;
}.

Lemma join_new s ds : no_tree s -> tree_memory (sy_alloc s) -> is_Some (sy_switches s !! ds) ->
  total (join ds) s (fun o s' => exists t w w', o = Some t /\ fresh_tree s w /\ joined t ds w s' w').
Proof using.
  intros [Ntr Nh Nd Np Nq Nr] Hmem [h Hh]. unfold join. apply total_bind, total_modify.
  change (fun h => set_h_ds (set_ds_index 0 (h_ds h)) h) with indexed. set (s1 := upd_handle ds indexed s) in *.
  assert (Hh1 : forall i h1, sy_switches s1 !! i = Some h1 -> handle_ok s i h1 /\ switch_down (h_ds h1)).
  { intros i h1. unfold s1. rewrite upd_lookup. case_decide as E; [| intros Hi; split; [by apply Nh | by eapply Nd]].
    subst i. rewrite Hh. intros [= <-]. split; [by apply indexed_ok, Nh | by eapply indexed_down, Nd]. }
  apply total_bind. unfold dsa_tree_touch. apply total_bind, total_get.
  unfold dsa_tree_find. change (sy_trees s1) with (sy_trees s). rewrite Ntr. cbn [List.find fmap option_fmap option_map].
  unfold dsa_tree_alloc. apply total_bind.
  set (t := sy_next s). set (al := tl (sy_alloc s)).
  assert (Ek : system_kzalloc s1 = Some (true, mkSystem [] t (sy_switches s1) (sy_registry s) (sy_hw s) al)).
  { unfold system_kzalloc, s1, upd_handle, set_handles, al, t. cbn. unfold tree_memory in Hmem.
    rewrite Ntr. destruct (sy_alloc s) as [| b l]; cbn in Hmem; [| subst b]; cbn; done. }
  eapply total_run; [exact Ek |]. cbn [negb]. apply total_bind, total_get, total_bind, total_modify, total_ret.
  cbn [sy_trees sy_next sy_switches sy_registry sy_hw sy_alloc app].
  set (v := new_tree 0 _). set (s2 := mkSystem [(t, v)] (t + 1) (sy_switches s1) (sy_registry s) (sy_hw s) al).
  assert (Hs2 : seen t s2 (load t v s2)) by (exists v; split; [unfold tree_at; cbn; by rewrite Z.eqb_refl | done]).
  assert (Hempty : switches_of t s2 = ∅).
  { apply map_eq. intros i. rewrite switches_lookup, lookup_empty. change (sy_switches s2) with (sy_switches s1).
    destruct (sy_switches s1 !! i) as [hi |] eqn:Ei; [| done]. cbn [mbind option_bind]. unfold points_to. rewrite bool_decide_false; [done |]. intros E. destruct (Hh1 _ _ Ei) as [(_ & _ & _ & _ & G) _].
    apply G in E. unfold t in E. lia. }
  assert (Hot2 : one_tree t s2 (load t v s2)).
  { split; [done | done | | |].
    - intros i hi Hi. destruct (Hh1 _ _ Hi) as [(? & ? & ? & ? & G) _]. split_and!; try done. intros u Hu. cbn. apply G in Hu. unfold t. lia.
    - intros i hi Hi _. by apply (Hh1 i hi).
    - by split_and!. }
  apply total_bind, total_modify, total_ret.
  assert (Hh2 : sy_switches s2 !! ds = Some (indexed h)) by (change (sy_switches s2) with (sy_switches s1); unfold s1; by rewrite upd_lookup, decide_True, Hh).
  destruct (Hh1 ds (indexed h) Hh2) as [(Ha & Hb & Hc & Hd & He) Hdown].
  destruct (one_tree_upd t s2 _ ds (indexed h) (set_h_dst (Some t)) Hot2 Hh2) as (w3 & Hot3 & Ho3).
  { split_and!; try done. intros u [= <-]. cbn. lia. }
  { by left. }
  exists t, (load t v s2), w3. unfold joined. split_and!; [done | by split | done | |].
  - exists (set_h_dst (Some t) (indexed h)). by rewrite upd_lookup, decide_True, Hh2.
  - exists (h_ds (indexed h)). split; [done |]. unfold points_to in Ho3. by rewrite bool_decide_true in Ho3.
Qed.

(** ** Ports and names, or nothing *)

Lemma filter_mine ds P l : no_ports_of ds P -> ports_of ds l -> List.filter (fun dp => negb (dp_ds dp =? ds)) (P ++ l) = P.
Proof using.
  intros HP Hl. rewrite List.filter_app.
  assert (E1 : List.filter (fun dp => negb (dp_ds dp =? ds)) P = P).
  { induction HP as [| dp P Hne HP IH]; [done |]. cbn. rewrite (proj2 (Z.eqb_neq _ _) Hne). cbn. by rewrite IH. }
  assert (E2 : List.filter (fun dp => negb (dp_ds dp =? ds)) l = []).
  { induction Hl as [| dp l E Hl IH]; [done |]. cbn. by rewrite E, Z.eqb_refl. }
  by rewrite E1, E2, app_nil_r.
Qed.

Lemma release_run t ds s w P l (Q : unit -> system H -> Prop) : one_tree t s w -> handle_in t (spec ds) ds s ->
  w_ports w = P ++ l -> no_ports_of ds P -> ports_of ds l ->
  (forall s', one_tree t s' (set_ports w P) -> handle_in t (spec ds) ds s' -> Q tt s') -> total (dsa_switch_release_ports ds) s Q.
Proof using.
  intros Hot Hh Ew HP Hl HQ. apply total_bind. eapply total_dst_in; [exact Hh |].
  eapply total_in_tree_modify; [apply Hot | done |]. intros s' Hs' Ha Eg. rewrite Ew, filter_mine in Hs' by done. apply HQ.
  - eapply one_tree_step; [exact Hot | exact Hs' | done | done |]. rewrite Eg. apply Hot.
  - eapply handle_same; [exact Hh | apply Hot | exact Hs' | done | done].
Qed.

(** The tree after parsing: with a tagger and the ports of the switch if there is no error. *)
Definition parsed_tree ds w (err : Z) w' : Prop := exists al d,
  w' = set_ports (set_tree (set_alloc w al) d)
         (w_ports w ++ if err =? 0 then parsed_ports (spec ds) ds DSA_MAX_PORTS else []) /\
  tree_parsed (w_tree w) d /\ (err = 0 -> is_Some (dst_tag_ops d)).

Lemma parse_release t ds s w : one_tree t s w -> handle_in t (spec ds) ds s -> platform_ok ds (spec ds) -> no_ports_of ds (w_ports w) ->
  total (err ← parse_rest ds (pf_cd (spec ds)); release_on_error ds err) s
    (fun err s' => exists w', one_tree t s' w' /\ handle_in t (spec ds) ds s' /\ parsed_tree ds w err w').
Proof using quiet_loads.
  intros Hot Hh Hpf Hno. mstep (apply (parse_rest_run rbase quiet_loads t (spec ds) ds s w); try done; apply Hot). cbv beta.
  intros err s1 (al & ps & (d & Hs1 & Ha1 & Hd1 & Ht1) & Hps & Hok). set (w1 := set_ports _ _) in *.
  assert (Hot1 : one_tree t s1 w1) by (by eapply one_tree_step).
  assert (Hh1 : handle_in t (spec ds) ds s1) by (eapply handle_same; [exact Hh | apply Hot | exact Hs1 | done | done]).
  unfold release_on_error. destruct (Z.eqb_spec err 0) as [-> | Hne]; cbn [negb].
  - destruct (Hok eq_refl) as [-> Htag]. apply total_ret. exists w1. split_and!; [done | done |]. exists al, d. split_and!; [done | done |].
    intros _. destruct Htag as (v & Hv & Hsome). by rewrite (seen_unique _ _ _ _ Hv Hs1) in Hsome.
  - apply total_bind. eapply release_run; [exact Hot1 | exact Hh1 | done | done | done |]. intros s2 Hot2 Hh2. apply total_ret.
    eexists. split_and!; [exact Hot2 | done |]. exists al, d. rewrite (proj2 (Z.eqb_neq err 0)) by done. split_and!; [| done | done].
    by rewrite app_nil_r.
Qed.

(** ** A tree ready to be set up *)

Definition cpu_of ds : pid := (ds, pf_cpu (spec ds)).
Definition conduit_of ds : netdev := pf_conduit (spec ds).

Lemma tree_handle t s w i d : one_tree t s w -> w_switches w !! i = Some d ->
  platform_ok i (spec i) /\ ds_ops d = pf_ops (spec i) /\ ds_num_ports d = pf_ports (spec i).
Proof using.
  intros Hot Hd. rewrite (seen_switches _ _ _ (ot_seen _ _ _ Hot)), switches_lookup in Hd.
  apply bind_Some in Hd as (h & Hh & Hd). destruct (points_to t h); [| done]. injection Hd as <-.
  by destruct (ot_handles _ _ _ Hot _ _ Hh) as (? & ? & ? & _).
Qed.

(** A port of a switch just parsed. *)
Definition new_port ds (dp : dsa_port) : Prop :=
  dp_ds dp = ds /\ 0 <= dp_index dp < pf_ports (spec ds) /\ dp_bridge dp = None /\ dp_cpu_port_in_lag dp = false /\
  dp_cpu_dp dp = None /\ dp_setup dp = false /\ dp_pl dp = false /\ dp_dn dp = None /\
  (dp_type dp = DSA_PORT_TYPE_USER -> dp_netdev dp = None) /\
  (dp_type dp = DSA_PORT_TYPE_CPU <-> dp_index dp = pf_cpu (spec ds)) /\
  (dp_type dp = DSA_PORT_TYPE_CPU -> dp_netdev dp = Some (conduit_of ds)).

Lemma parsed_new ds dp : platform_ok ds (spec ds) -> dp ∈ parsed_ports (spec ds) ds DSA_MAX_PORTS -> new_port ds dp.
Proof using.
  intros Hpf (j & -> & Hj%elem_of_seqZ)%list_elem_of_fmap. pose proof (pk_ports _ _ Hpf) as Hn. unfold parsed_port.
  rewrite (proj2 (Z.ltb_lt j _)) by lia. pose proof (pk_cpu _ _ Hpf j) as Hcpu. unfold named, new_port.
  destruct (getz (cd_port_names (pf_cd (spec ds))) j) as [[name |] |] eqn:Ej.
  - destruct (String.eqb name "cpu") eqn:Ec; [apply String.eqb_eq in Ec; subst name |].
    + assert (Ejc : j = pf_cpu (spec ds)) by (by apply Hcpu). split_and!; try done; cbn; lia.
    + assert (Ejc : j <> pf_cpu (spec ds)).
      { intros E%Hcpu. injection E as ->. done. }
      destruct (String.eqb name "dsa"); split_and!; try done; cbn; lia.
  - assert (Ejc : j <> pf_cpu (spec ds)) by (by intros E%Hcpu). split_and!; try done; cbn; lia.
  - assert (Ejc : j <> pf_cpu (spec ds)) by (by intros E%Hcpu). split_and!; try done; cbn; lia.
Qed.

Lemma parsed_names ds : NoDup (dp_id <$> parsed_ports (spec ds) ds DSA_MAX_PORTS).
Proof using. rewrite parsed_ids. apply NoDup_fmap_2; [by intros ? ? [= ->] | apply NoDup_seqZ]. Qed.

Lemma parsed_port_at ds i : 0 <= i < pf_ports (spec ds) -> exists dp, dp ∈ parsed_ports (spec ds) ds DSA_MAX_PORTS /\ dp_id dp = (ds, i).
Proof using.
  intros Hi. exists (parsed_port (spec ds) ds DSA_MAX_PORTS i). split; [| apply parsed_id].
  apply list_elem_of_fmap_2, elem_of_seqZ. lia.
Qed.

(** A tree with the ports of one switch, all down. *)
Lemma parsed_ready t s ds w d : one_tree t s w -> w_ports w = parsed_ports (spec ds) ds DSA_MAX_PORTS ->
  w_switches w = {[ ds := d ]} -> switch_down d -> w_works w = [] -> w_nh w = [] -> dst_setup (w_tree w) = false ->
  is_Some (dst_tag_ops (w_tree w)) -> tree_ready (cpu_of ds) (conduit_of ds) w.
Proof using.
  intros Hot Ep Es Hd Hw Hnh Hf [o Ho].
  assert (Hsw : forall i d', w_switches w !! i = Some d' -> i = ds /\ d' = d).
  { intros i d'. rewrite Es. intros [-> ->]%lookup_singleton_Some. done. }
  assert (Hds : w_switches w !! ds = Some d) by (rewrite Es; apply lookup_singleton_eq).
  destruct (tree_handle _ _ _ _ _ Hot Hds) as (Hpf & Eo & En).
  assert (Hport : forall p dp, get_port w p = Some dp -> dp_id dp = p /\ new_port ds dp).
  { intros p dp [Hin Hid]%get_port_in. split; [done |]. rewrite Ep in Hin. by apply parsed_new. }
  assert (Hhas : forall i, 0 <= i < pf_ports (spec ds) -> exists dp, get_port w (ds, i) = Some dp /\ new_port ds dp).
  { intros i Hi. destruct (parsed_port_at ds i Hi) as (dp & Hin & Hid). exists dp. split; [| by apply parsed_new].
    rewrite <- Hid. apply get_port_of; rewrite Ep; [apply parsed_names | done]. }
  pose proof (ot_tags _ _ _ Hot) as (_ & _ & Ht). rewrite Ho in Ht. destruct Ht as ([Hqc Hqd] & Eproto & _ & _).
  split; [split | done | |].
  - split.
    + rewrite Ep. apply parsed_names.
    + intros dp Hin. rewrite Ep in Hin. destruct (parsed_new _ _ Hpf Hin) as (-> & _). by exists d.
    + rewrite Hnh. by intros ? ?%not_elem_of_nil.
    + intros i d' [-> ->]%Hsw. rewrite Eo. apply (pk_driver _ _ Hpf).
  - split; [by exists o | | |].
    + intros o' g i. rewrite Ho. intros [= <-]. apply Hqc.
    + intros o' g i. rewrite Ho. intros [= <-]. apply Hqd.
    + intros o' i d'. rewrite Ho. intros [= <-] _. by left.
  - done.
  - intros p dp d' Hp _. destruct (Hport p dp Hp) as (_ & _ & _ & Eb & El & Ec & Est & Epl & _ & Hu & _).
    split; [done | done | by left |]. by rewrite Est.
  - intros i d' [-> ->]%Hsw. by rewrite (sd_setup _ Hd).
  - pose proof (proj2 (pk_cpu _ _ Hpf _) eq_refl) as Ec. pose proof (pk_beyond _ _ Hpf _ _ Ec) as Hlt.
    apply getz_Some_range in Ec. destruct (Hhas (pf_cpu (spec ds)) ltac:(lia)) as (dp & Hp & _ & _ & _ & _ & _ & _ & _ & _ & _ & Hc & Hn).
    exists dp. apply get_port_in in Hp as E. destruct E as [_ E]. unfold dp_id in E. injection E as _ Ei.
    split_and!; [done | by apply Hc | by apply Hn, Hc].
  - intros p dp Hp Ety. destruct (Hport p dp Hp) as (<- & E & _ & _ & _ & _ & _ & _ & _ & _ & Hc & _).
    apply Hc in Ety. unfold dp_id. by rewrite E, Ety.
  - intros i d' f h q _ [-> ->]%Hsw. rewrite Eo. intros Hpr Hq. destruct (pk_preferred _ _ Hpf _ _ _ Hpr Hq) as [E1 E2].
    destruct (Hhas _ E2) as (dp & Hp & _). exists dp. destruct q as [q1 q2]. cbn in *. by subst.
  - intros p dp Hp. by destruct (Hport p dp Hp) as (_ & _ & _ & _ & _ & _ & Est & _).
  - intros i d' [-> ->]%Hsw. apply Hd.
Qed.

Lemma parsed_routes t s ds w d : one_tree t s w -> w_ports w = parsed_ports (spec ds) ds DSA_MAX_PORTS ->
  w_switches w !! ds = Some d -> dsa_tree_setup_routing_table w = Some (true, w).
Proof using.
  intros Hot Ep Hd. destruct (tree_handle _ _ _ _ _ Hot Hd) as (Hpf & _). apply routing_without_nodes; rewrite Ep.
  - apply parsed_names.
  - intros dp Hin. by destruct (parsed_new _ _ Hpf Hin) as (_ & _ & _ & _ & _ & _ & _ & Edn & _).
Qed.

(** ** Registration *)

Definition probe_tail ds : st (system H) Z :=
  dst ← dst_of ds;
  _ ← dsa_tree_get dst;
  err ← in_tree dst (dsa_tree_setup tagger_data);
  if negb (err =? 0) then _ ← dsa_switch_release_ports ds; _ ← dsa_tree_put (Some dst); mret err else mret 0.

Lemma probe_eq ds s h : sy_switches s !! ds = Some h -> handle_ok s ds h ->
  dsa_switch_probe tagger_data ds s =
    (o ← join ds;
     err ← (match o with None => release_on_error ds (- ENOMEM)
            | Some _ => err ← parse_rest ds (pf_cd (spec ds)); release_on_error ds err end);
     if negb (err =? 0) then mret err else probe_tail ds) s.
Proof using.
  intros Hh (Hpf & _ & En & Ev & _). pose proof (pk_ports _ _ Hpf) as Hn. unfold dsa_switch_probe.
  assert (E1 : handle_of ds s = Some (h, s)) by (unfold handle_of; rewrite bind_eq; cbn; unfold deref; by rewrite Hh).
  rewrite bind_eq, E1, Ev, En. rewrite (proj2 (Z.eqb_neq _ 0)) by lia. cbn [of_node platform_data].
  unfold dsa_switch_parse, join. rewrite !st_bind_assoc. apply bind_ext. intros _ s1. rewrite !st_bind_assoc. apply bind_ext.
  intros o s2. rewrite !st_bind_assoc. apply bind_ext. intros _ s3. destruct o as [t |]; [| reflexivity].
  transitivity ((parse_rest ds (pf_cd (spec ds)) ≫= (fun a => release_on_error ds a ≫= (fun err => if negb (err =? 0) then mret err else probe_tail ds))) s3).
  - reflexivity.
  - rewrite <- st_bind_assoc. reflexivity.
Qed.

(** Between the calls: no tree, or the tree of the one switch registered. *)
Definition idle s : Prop := no_tree s /\ forall x, held (sy_hw s) x = base x.
Record bound_tree b t s w : Prop := {
  bt_one : one_tree t s w;
  bt_old : t < sy_next s;
  bt_handle : handle_in t (spec b) b s;
  bt_up : tree_up (cpu_of b) (conduit_of b) base w;
  bt_ports : ports_of b (w_ports w);
  bt_count : count w = 1;
  bt_index : dst_index (w_tree w) = 0;
}.
Definition bound b s : Prop := exists t w, bound_tree b t s w.

Lemma total_put_of t ds s (Q : unit -> system H -> Prop) (err : Z) : handle_in t (spec ds) ds s ->
  total (dsa_tree_put (Some t)) s Q ->
  total (h ← handle_of ds; _ ← dsa_tree_put (h_dst h); (mret err : st (system H) Z)) s (fun e s' => e = err /\ Q tt s').
Proof using.
  intros (h & Hh & Hd & _) HQ. apply total_bind. eapply total_handle; [exact Hh |]. rewrite Hd. mstep (exact HQ). cbv beta. intros [] s' Hq. by apply total_ret.
Qed.

Lemma handle_next t ds s : handles_ok s -> handle_in t (spec ds) ds s -> t < sy_next s.
Proof using. intros Hok (h & Hh & Hd & _). destruct (Hok _ _ Hh) as (_ & _ & _ & _ & G). by apply G. Qed.

Lemma ids_ports_of ds w w' : ports_of ds (w_ports w) -> dp_id <$> w_ports w' = dp_id <$> w_ports w -> ports_of ds (w_ports w').
Proof using.
  intros Hp E. apply Forall_forall. intros dp Hin. assert (Hi : dp_id dp ∈ dp_id <$> w_ports w) by (rewrite <- E; by apply list_elem_of_fmap_2).
  apply list_elem_of_fmap in Hi as (dq & Ei & Hq). eapply Forall_forall in Hp; [| exact Hq]. cbn in Hp. unfold dp_id in Ei. congruence.
Qed.

(** Setting up and tearing down keep all that is known of the system. *)
Lemma one_tree_remains t s s' w w' : one_tree t s w -> seen t s' w' -> aside t s s' -> sy_registry s' = sy_registry s ->
  remains w w' -> one_tree t s' w'.
Proof using.
  intros Hot Hs' Ha Eg (_ & Et & Hf). eapply one_tree_step; [exact Hot | exact Hs' | done | exact Hf |].
  rewrite Eg. unfold tree_fixed in Et. injection Et as _ _ E1 E2. by eapply tags_same; [apply Hot | |].
Qed.

Lemma remains_count w w' : remains w w' -> count w' = count w /\ dst_index (w_tree w') = dst_index (w_tree w).
Proof using. intros (_ & Et & _). unfold tree_fixed in Et. by injection Et. Qed.

Lemma remains_keys w w' : remains w w' -> same_keys w w'.
Proof using.
  intros (_ & _ & Hf) i. specialize (Hf i). rewrite <- !not_eq_None_Some.
  destruct (w_switches w' !! i), (w_switches w !! i); try done.
Qed.

Lemma down_switches ds w : tree_down (cpu_of ds) (conduit_of ds) base w -> forall i d, w_switches w !! i = Some d -> switch_down d.
Proof using.
  intros Hd i d Hi. pose proof (ok_switch _ _ _ (proj1 (td_acct _ _ _ _ Hd)) _ _ Hi) as G.
  by rewrite (td_switches _ _ _ _ Hd i d Hi) in G.
Qed.

Lemma set_count_up ds n w : tree_up (cpu_of ds) (conduit_of ds) base w -> tree_up (cpu_of ds) (conduit_of ds) base (set_count n w).
Proof using. intros [Ha Hf]. split; [by apply acct_tree | done]. Qed.

(** The tree set up and down again: its last reference frees it. *)
Lemma register_down ds s t w err : one_tree t s w -> handle_in t (spec ds) ds s -> ports_of ds (w_ports w) -> count w = 2 ->
  tree_down (cpu_of ds) (conduit_of ds) base w -> err <> 0 ->
  total (_ ← dsa_switch_release_ports ds; _ ← dsa_tree_put (Some t); (mret err : st (system H) Z)) s (fun err' s' =>
    err' = err /\ handle_in t (spec ds) ds s' /\ exists w', one_tree t s' w' /\ count w' = 1 /\ w_hw w' = w_hw w /\
      (forall i d, w_switches w' !! i = Some d -> switch_down d)).
Proof using.
  intros Hot Hh Hps Hn Hdown Hne. apply total_bind.
  eapply (release_run t ds s w []); [done | done | done | by apply Forall_nil | done |]. intros s1 Hot1 Hh1.
  apply total_bind. eapply tree_put_run; [exact Hot1 | change (count (set_ports w [])) with (count w); rewrite Hn; pose proof refcount_max_pos; lia |].
  intros s2 Hot2 Ha2. apply total_ret. split; [done |]. split.
  { eapply handle_same; [exact Hh1 | apply Hot1 | apply Hot2 | done | done]. }
  eexists. split_and!; [exact Hot2 | change (count w - 1 = 1); lia | done |]. intros i d. by apply (down_switches ds w).
Qed.

Lemma handle_remains t ds s s' w w' : handle_in t (spec ds) ds s -> seen t s w -> seen t s' w' -> aside t s s' ->
  remains w w' -> handle_in t (spec ds) ds s'.
Proof using. intros Hh Hs Hs' Ha (_ & _ & Hf). by eapply handle_kept. Qed.

(** The last reference on a tree that is down goes. *)
Lemma put_last t ds s w : one_tree t s w -> handle_in t (spec ds) ds s -> count w = 1 ->
  (forall x, held (w_hw w) x = base x) -> (forall i d, w_switches w !! i = Some d -> switch_down d) ->
  total (dsa_tree_put (Some t)) s (fun _ s' => idle s').
Proof using.
  intros Hot Hh Hn Hheld Hdown. eapply tree_last_run; [exact Hot | done | done |]. intros s' Hno Eh. split; [done |].
  intros x. rewrite Eh, <- (seen_hw _ _ _ (ot_seen _ _ _ Hot)). apply Hheld.
Qed.

Lemma probe_tail_new ds t s w d : one_tree t s w -> handle_in t (spec ds) ds s -> count w = 1 -> dst_index (w_tree w) = 0 ->
  w_ports w = parsed_ports (spec ds) ds DSA_MAX_PORTS -> w_switches w = {[ ds := d ]} -> switch_down d -> w_works w = [] ->
  w_nh w = [] -> dst_setup (w_tree w) = false -> is_Some (dst_tag_ops (w_tree w)) -> (forall x, held (w_hw w) x = base x) ->
  total (probe_tail ds) s (fun err s' => exists w', one_tree t s' w' /\ handle_in t (spec ds) ds s' /\
    if err =? 0 then tree_up (cpu_of ds) (conduit_of ds) base w' /\ ports_of ds (w_ports w') /\ count w' = 2 /\ dst_index (w_tree w') = 0
    else count w' = 1 /\ (forall x, held (w_hw w') x = base x) /\ (forall i d, w_switches w' !! i = Some d -> switch_down d)).
Proof using QuietNet0 mdio_registers devlink_registers base_pos.
  intros Hot Hh Hn Hi Ep Esw Hd Hw Hnh Hf Htag Hheld. unfold probe_tail. apply total_bind. eapply total_dst_in; [exact Hh |].
  apply total_bind. eapply tree_get_run; [exact Hot | rewrite Hn; pose proof refcount_max_pos; lia |].
  rewrite Hn. intros s1 Hot1 Ha1. set (w1 := set_count (1 + 1) w) in *.
  assert (Hh1 : handle_in t (spec ds) ds s1) by (by eapply (handle_same t (spec ds) ds s s1 w w1); [| apply Hot | apply Hot1 | |]).
  assert (Hsw1 : w_switches w1 !! ds = Some d) by (change (w_switches w1) with (w_switches w); rewrite Esw; apply lookup_singleton_eq).
  assert (Hready : tree_ready (cpu_of ds) (conduit_of ds) w1) by (by eapply parsed_ready).
  assert (Hroutes : dsa_tree_setup_routing_table w1 = Some (true, w1)) by (by eapply parsed_routes).
  assert (Hpf : platform_ok ds (spec ds)) by (by eapply tree_handle).
  apply total_bind. eapply total_in_tree; [apply Hot1 |].
  eapply total_weaken; [| eapply (tree_setup_from_down tagger_data mdio_registers devlink_registers (cpu_of ds) (conduit_of ds)
    (pk_ptr _ _ Hpf) base base_pos); by apply ready_down].
  cbv beta. intros err w2 [Hr Hres]. split; [by apply remains_keys |]. intros s2 Hs2 Ha2 Eg2.
  assert (Hot2 : one_tree t s2 w2) by (by eapply one_tree_remains).
  assert (Hh2 : handle_in t (spec ds) ds s2) by (by eapply (handle_remains t ds s1 s2 w1 w2); [| apply Hot1 | | |]).
  destruct (remains_count _ _ Hr) as [Hn2 Hi2].
  assert (Hps : ports_of ds (w_ports w2)).
  { eapply (ids_ports_of ds w1); [| apply Hr]. change (w_ports w1) with (w_ports w). rewrite Ep. apply parsed_of. }
  destruct Hres as [[-> Hup] | [Hdown Hinc]].
  - cbn [negb Z.eqb]. apply total_ret. exists w2. cbn [Z.eqb]. split_and!; try done. by rewrite Hi2.
  - destruct (Z.eqb_spec err 0) as [-> | Hne]; cbn [negb].
    { destruct (Hinc eq_refl) as [w3 E]. rewrite Hroutes in E. done. }
    eapply total_weaken; [| apply (register_down ds s2 t w2 err); done || (by rewrite Hn2)]. cbv beta.
    intros err' s3 (-> & Hh3 & w3 & Hot3 & Hn3 & Ehw & Hsw). exists w3. rewrite (proj2 (Z.eqb_neq err 0)) by done.
    split_and!; try done. intros x. rewrite Ehw. by apply (down_holds (cpu_of ds) (conduit_of ds)).
Qed.

Lemma register_new s ds : idle s -> tree_memory (sy_alloc s) -> is_Some (sy_switches s !! ds) ->
  total (dsa_register_switch tagger_data ds) s (fun err s' => if err =? 0 then bound ds s' else idle s').
Proof using QuietNet0 quiet_loads mdio_registers devlink_registers base_pos.
  intros [Hno Hheld] Hmem [h Hh]. pose proof (nt_handles _ Hno _ _ Hh) as Hok. pose proof Hok as (Hpf & _).
  unfold dsa_register_switch. apply total_bind. eapply total_same; [by apply (probe_eq ds s h) |].
  mstep (apply join_new; [done | done | by exists h]). cbv beta.
  intros o s1 (t & w0 & w1 & -> & [Ft Fp Fs Fw Fn Fh] & Hot1 & Hh1 & d & Hd & m & -> & Hm & Hmd).
  set (w1 := set_switches w0 m) in *.
  assert (Em : m = {[ ds := d ]}).
  { apply map_eq. intros i. destruct (decide (i = ds)) as [-> | Hne]; [by rewrite Hmd, lookup_singleton_eq |].
    by rewrite Hm, Fs, lookup_empty, lookup_singleton_ne by done. }
  mstep (apply (parse_release t ds s1 w1 Hot1 Hh1 Hpf)).
  2: { change (w_ports w1) with (w_ports w0). rewrite Fp. by apply Forall_nil. }
  cbv beta. intros err s2 (w2 & Hot2 & Hh2 & al & dt & Ew2 & [Hrest _] & Htag).
  assert (Hn2 : count w2 = 1 /\ dst_index (w_tree w2) = 0 /\ dst_setup (w_tree w2) = false).
  { change (w_tree w1) with (w_tree w0) in Hrest. rewrite Ft in Hrest. subst w2. unfold count. cbn [w_tree set_ports set_tree].
    split_and!; [exact (f_equal dst_refcount Hrest) | exact (f_equal dst_index Hrest) | exact (f_equal dst_setup Hrest)]. }
  destruct Hn2 as (Hn2 & Hi2 & Hf2).
  assert (Ehw2 : forall x, held (w_hw w2) x = base x) by (intros x; rewrite Ew2; cbn; by rewrite Fh).
  assert (Esw2 : w_switches w2 = {[ ds := d ]}) by (by rewrite Ew2).
  assert (Hdown2 : forall i d', w_switches w2 !! i = Some d' -> switch_down d').
  { intros i d'. rewrite Esw2. by intros [-> <-]%lookup_singleton_Some. }
  destruct (Z.eqb_spec err 0) as [-> | Hne]; cbn [negb].
  2: { apply total_ret. eapply total_weaken; [| by apply (total_put_of t ds), (put_last t ds s2 w2)]. cbv beta.
       intros e s3 [-> Hidle]. by rewrite (proj2 (Z.eqb_neq err 0)). }
  eapply total_weaken; [| eapply (probe_tail_new ds t s2 w2 d); try done].
  - cbv beta. intros err s3 (w3 & Hot3 & Hh3 & G). destruct (Z.eqb_spec err 0) as [-> | Hne].
    + destruct G as (Hup & Hps & Hn3 & Hi3).
      eapply total_weaken; [| apply (total_put_of t ds s3 (fun _ s' => bound ds s')); [done |]].
      * cbv beta. by intros e s4 [-> G].
      * eapply tree_put_run; [exact Hot3 | rewrite Hn3; pose proof refcount_max_pos; lia |]. rewrite Hn3. intros s4 Hot4 Ha4.
        assert (Hh4 : handle_in t (spec ds) ds s4) by (by eapply (handle_same t (spec ds) ds s3 s4 w3); [| apply Hot3 | apply Hot4 | |]).
        exists t, (set_count (2 - 1) w3). split; try done; [| by apply set_count_up]. eapply handle_next; [apply Hot4 | exact Hh4].
    + destruct G as (Hn3 & Hheld3 & Hdown3).
      eapply total_weaken; [| by apply (total_put_of t ds), (put_last t ds s3 w3)]. cbv beta.
      intros e s4 [-> Hidle]. by rewrite (proj2 (Z.eqb_neq err 0)).
  - rewrite Ew2. cbn [w_ports set_ports]. change (w_ports w1) with (w_ports w0). by rewrite Fp.
  - rewrite Ew2. exact Fw.
  - rewrite Ew2. exact Fn.
  - rewrite Ew2. by apply Htag.
Qed.

(** ** With a switch registered *)

Lemma no_others b ds l : b <> ds -> ports_of b l -> no_ports_of ds l.
Proof using. intros Hne Hl. eapply Forall_impl; [exact Hl |]. cbn. congruence. Qed.

(** A switch without ports in the tree is down. *)
Lemma stranger_down b ds w d : tree_up (cpu_of b) (conduit_of b) base w -> no_ports_of ds (w_ports w) ->
  w_switches w !! ds = Some d -> switch_down d.
Proof using.
  intros Hup Hno Hd. pose proof (ok_switch _ _ _ (proj1 (tu_acct _ _ _ _ Hup)) _ _ Hd) as G. destruct (ds_setup d); [| done].
  destruct G as (p & [dp Hp] & <-). apply get_port_in in Hp as [Hin <-]. by eapply Forall_forall in Hno; [| exact Hin].
Qed.

(** Another switch that points to the tree makes no difference to it. *)
Lemma up_stranger b ds w m d o : tree_up (cpu_of b) (conduit_of b) base w -> no_ports_of ds (w_ports w) ->
  dst_tag_ops (w_tree w) = Some o -> to_proto o = dst_default_proto (w_tree w) ->
  (forall i, i <> ds -> m !! i = w_switches w !! i) -> m !! ds = Some d -> switch_down d -> driver_fine ds (ds_ops d) ->
  tree_up (cpu_of b) (conduit_of b) base (set_switches w m).
Proof using.
  intros Hup Hno Ho Eproto Hm Hmd Hd Hfine. pose proof (stranger_down b ds w) as Hold. specialize (fun d => Hold d Hup Hno).
  destruct Hup as [[[Os Ot Ow Op Osw Oc Oo Opr] Hh] Hf].
  assert (Hnot : forall p dp, get_port w p = Some dp -> fst p <> ds).
  { intros p dp [Hin <-]%get_port_in. eapply Forall_forall in Hno; [| exact Hin]. exact Hno. }
  assert (Hknown : forall i, known w i -> known (set_switches w m) i).
  { intros i [d0 Hi]. unfold known. cbn. destruct (decide (i = ds)) as [-> | Hne]; [by eexists | exists d0; by rewrite Hm]. }
  split; [split | done].
  - split.
    + destruct Os as [Sn Ss Sh Sd]. split; [done | | |].
      * intros dp Hin. by apply Hknown, Ss.
      * intros i Hi. by apply Hknown, Sh.
      * intros i d0. cbn. destruct (decide (i = ds)) as [-> | Hne]; [rewrite Hmd; by intros [= <-] | rewrite Hm by done; apply Sd].
    + destruct Ot as [To Tc Td Tch]. split; [done | done | done |]. intros o' i d0 Ho' _. cbn in Ho'. rewrite Ho in Ho'.
      injection Ho' as <-. by left.
    + done.
    + intros p dp d0 Hp Hd0. cbn in Hd0. rewrite Hm in Hd0 by (by eapply Hnot). by eapply Op.
    + intros i d0. cbn. destruct (decide (i = ds)) as [-> | Hne]; [rewrite Hmd; intros [= <-]; by rewrite (sd_setup _ Hd) | rewrite Hm by done; apply Osw].
    + done.
    + done.
    + intros i d0 f h q (p & [dp Hp] & <-) Hd0. cbn in Hd0. rewrite Hm in Hd0 by (by eapply Hnot). apply (Opr _ _ f h q); [| done].
      exists p. split; [by exists dp | done].
  - intros x. cbn [w_hw set_switches]. rewrite Hh. f_equal. unfold expected. f_equal.
    destruct (owner x) as [p | i |]; [| | done]; cbn [holds].
    + change (get_port (set_switches w m) p) with (get_port w p). destruct (get_port w p) as [dp |] eqn:Hp; [| done].
      cbn [w_switches set_switches]. by rewrite Hm by (by eapply Hnot).
    + cbn [w_switches set_switches]. destruct (decide (i = ds)) as [-> | Hne]; [| by rewrite Hm].
      rewrite Hmd. unfold ds_holds. rewrite (sd_setup _ Hd). destruct (w_switches w !! ds) as [d0 |] eqn:E; [| done].
      by rewrite (sd_setup _ (Hold d0 eq_refl)).
Qed.

Lemma up_aside b w (tr : dsa_switch_tree H) al : tree_up (cpu_of b) (conduit_of b) base w -> dst_tag_ops tr = dst_tag_ops (w_tree w) ->
  dst_default_proto tr = dst_default_proto (w_tree w) -> dst_setup tr = dst_setup (w_tree w) ->
  tree_up (cpu_of b) (conduit_of b) base (set_alloc (set_tree w tr) al).
Proof using.
  intros [Ha Hf] E1 E2 E3. split; [| cbn; by rewrite E3].
  apply (acct_aside _ _ _ _ w tr (w_rtable w) al) in Ha; [exact Ha | done | done].
Qed.

Lemma tree_handle_in t s w i d : one_tree t s w -> w_switches w !! i = Some d -> handle_in t (spec i) i s.
Proof using.
  intros Hot Hd. rewrite (seen_switches _ _ _ (ot_seen _ _ _ Hot)), switches_lookup in Hd.
  apply bind_Some in Hd as (h & Hh & Hd). destruct (points_to t h) eqn:E; [| done]. apply bool_decide_eq_true in E.
  destruct (ot_handles _ _ _ Hot _ _ Hh) as (_ & Eo & En & _). by exists h.
Qed.

(** The tree as another switch that came and went left it. *)
Record left_by ds w w' : Prop := {
  lb_world : exists m d al, w' = set_alloc (set_tree (set_switches w m) (w_tree w')) al /\
    (forall i, i <> ds -> m !! i = w_switches w !! i) /\ m !! ds = Some d /\ switch_down d /\ driver_fine ds (ds_ops d);
  lb_tree : set_dst_refcount 0 (w_tree w') = set_dst_refcount 0 (w_tree w);
}.

Lemma bound_again b ds t s w s' w' : bound_tree b t s w -> b <> ds -> one_tree t s' w' -> left_by ds w w' -> count w' = 1 -> bound b s'.
Proof using.
  intros [Hot Ht Hb Hup Hps Hn Hi] Hne Hot' [(m & d & al & Ew & Hm & Hmd & Hd & Hfine) Et] Hn'.
  pose proof (no_others _ _ _ Hne Hps) as Hno.
  destruct (tf_ops _ (ok_tag _ _ _ (proj1 (tu_acct _ _ _ _ Hup)))) as [o Ho].
  assert (Eproto : to_proto o = dst_default_proto (w_tree w)).
  { pose proof (ot_tags _ _ _ Hot) as (_ & _ & G). rewrite Ho in G. by destruct G as (_ & G & _). }
  assert (Hup1 : tree_up (cpu_of b) (conduit_of b) base (set_switches w m)) by (by eapply up_stranger).
  assert (Hup2 : tree_up (cpu_of b) (conduit_of b) base w').
  { rewrite Ew. apply up_aside; [done | exact (f_equal dst_tag_ops Et) | exact (f_equal dst_default_proto Et) | exact (f_equal dst_setup Et)]. }
  assert (Hsb : exists db, w_switches w' !! b = Some db).
  { rewrite Ew. cbn [w_switches set_alloc set_tree set_switches]. rewrite Hm by done. destruct Hb as (hb & Hhb & Hdb & _). exists (h_ds hb).
    rewrite (seen_switches _ _ _ (ot_seen _ _ _ Hot)), switches_lookup, Hhb. cbn. unfold points_to. by rewrite bool_decide_true. }
  destruct Hsb as [db Hdb]. assert (Hb' : handle_in t (spec b) b s') by (by eapply tree_handle_in).
  exists t, w'. split; try done.
  - eapply handle_next; [apply Hot' | exact Hb'].
  - rewrite Ew. exact Hps.
  - rewrite <- Hi. exact (f_equal dst_index Et).
Qed.

(** The tree is in use already. *)
Lemma probe_tail_old ds t s w1 l : one_tree t s (set_ports w1 (w_ports w1 ++ l)) -> handle_in t (spec ds) ds s ->
  no_ports_of ds (w_ports w1) -> ports_of ds l -> 1 < count w1 < REFCOUNT_MAX -> dst_setup (w_tree w1) = true ->
  total (probe_tail ds) s (fun err s' => err = - EEXIST /\ one_tree t s' w1 /\ handle_in t (spec ds) ds s').
Proof using.
  intros Hot Hh Hno Hl Hn Hf. set (w := set_ports w1 (w_ports w1 ++ l)) in *. unfold probe_tail. apply total_bind.
  eapply total_dst_in; [exact Hh |]. apply total_bind.
  eapply tree_get_run; [exact Hot | change (count w) with (count w1); lia |]. intros s1 Hot1 Ha1.
  assert (Hh1 : handle_in t (spec ds) ds s1) by (by eapply (handle_same t (spec ds) ds s s1 w); [| apply Hot | apply Hot1 | |]).
  apply total_bind. eapply total_in_tree; [apply Hot1 |]. unfold dsa_tree_setup. apply total_bind, total_get.
  change (dst_setup (w_tree (set_count (count w + 1) w))) with (dst_setup (w_tree w1)). rewrite Hf. apply total_ret.
  split; [done |]. intros s2 Hs2 Ha2 Eg2. cbn [negb Z.eqb].
  assert (Hot2 : one_tree t s2 (set_count (count w + 1) w)).
  { eapply one_tree_step; [exact Hot1 | exact Hs2 | done | done |]. rewrite Eg2. apply Hot1. }
  assert (Hh2 : handle_in t (spec ds) ds s2) by (by eapply (handle_same t (spec ds) ds s1 s2 (set_count (count w + 1) w)); [| apply Hot1 | apply Hot2 | |]).
  change (negb (- EEXIST =? 0)) with true. cbn iota. apply total_bind.
  eapply (release_run t ds s2 (set_count (count w + 1) w) (w_ports w1) l); try done. intros s3 Hot3 Hh3.
  apply total_bind. eapply tree_put_run; [exact Hot3 | |].
  { change (count (set_ports (set_count (count w + 1) w) (w_ports w1))) with (count w1 + 1). lia. }
  intros s4 Hot4 Ha4. apply total_ret. split; [done |].
  assert (E : set_count (count (set_ports (set_count (count w + 1) w) (w_ports w1)) - 1) (set_ports (set_count (count w + 1) w) (w_ports w1)) = w1).
  { unfold set_count, count, upd_tree. cbn. replace (dst_refcount (w_tree w1) + 1 - 1) with (dst_refcount (w_tree w1)) by lia.
    destruct w1 as [tr ? ? ? ? ? ? ? ? ?]. by destruct tr. }
  rewrite E in Hot4. split; [done |]. eapply (handle_same t (spec ds) ds s3 s4 (set_ports (set_count (count w + 1) w) (w_ports w1)) w1); [done | apply Hot3 | apply Hot4 | done | done].
Qed.

(** The registration of another switch fails, and nothing of it stays. *)
Lemma register_old b s ds : bound b s -> b <> ds -> is_Some (sy_switches s !! ds) ->
  total (dsa_register_switch tagger_data ds) s (fun err s' => err <> 0 /\ bound b s').
Proof using quiet_loads.
  intros (t & w & Hbt) Hne [h Hh]. pose proof Hbt as [Hot Ht Hb Hup Hps Hn Hi].
  pose proof (ot_handles _ _ _ Hot _ _ Hh) as Hok. pose proof Hok as (Hpf & Eops & _).
  pose proof (no_others _ _ _ Hne Hps) as Hno. pose proof refcount_max_pos as Hmax.
  unfold dsa_register_switch. apply total_bind. eapply total_same; [by apply (probe_eq ds s h) |].
  mstep (apply (join_old t s w ds Hot Hi); [lia | done | by exists h | intros d; by apply (stranger_down b)]).
  cbv beta. intros o s1 [-> (w1 & Hot1 & Hh1 & d & Hd & m & Ew1 & Hm & Hmd)].
  assert (Hfine : driver_fine ds (ds_ops d)).
  { destruct (tree_handle t s1 w1 ds d Hot1) as (Hp & -> & _); [by rewrite Ew1 | apply (pk_driver _ _ Hp)]. }
  assert (Htag : is_Some (dst_tag_ops (w_tree w1))) by (rewrite Ew1; apply (tf_ops _ (ok_tag _ _ _ (proj1 (tu_acct _ _ _ _ Hup))))).
  mstep (apply (parse_release t ds s1 w1 Hot1 Hh1 Hpf)).
  2: { rewrite Ew1. exact Hno. }
  cbv beta. intros err s2 (w2 & Hot2 & Hh2 & al & dt & Ew2 & [_ Hsame] & _). rewrite (Hsame Htag) in Ew2.
  set (w3 := set_alloc w1 al).
  assert (Ew3 : w2 = set_ports w3 (w_ports w3 ++ (if err =? 0 then parsed_ports (spec ds) ds DSA_MAX_PORTS else []))) by (by rewrite Ew2).
  assert (Hn3 : count w3 = 2) by (unfold w3; rewrite Ew1; change (count w + 1 = 2); lia).
  assert (Hleft : forall n, left_by ds w (set_count n w3)).
  { intros n. split; [exists m, d, al; split_and!; try done; unfold w3; by rewrite Ew1 |]. unfold w3. rewrite Ew1. done. }
  assert (Hend : forall s' e, one_tree t s' w3 -> handle_in t (spec ds) ds s' -> e <> 0 ->
    total (h ← handle_of ds; _ ← dsa_tree_put (h_dst h); (mret e : st (system H) Z)) s' (fun err s' => err <> 0 /\ bound b s')).
  { intros s' e Hot' Hh' He. eapply total_weaken; [| apply (total_put_of t ds s' (fun _ s' => bound b s')); [done |]].
    - cbv beta. by intros e' s'' [-> ?].
    - eapply tree_put_run; [exact Hot' | lia |]. intros s'' Hot'' _. rewrite Hn3 in Hot''.
      eapply bound_again; [exact Hbt | exact Hne | exact Hot'' | by apply Hleft | done]. }
  destruct (Z.eqb_spec err 0) as [-> | Herr]; cbn [negb].
  - rewrite Ew3 in Hot2. eapply total_weaken; [| apply (probe_tail_old ds t s2 w3 (parsed_ports (spec ds) ds DSA_MAX_PORTS)); try done].
    + cbv beta. intros err s3 (-> & Hot3 & Hh3). by apply Hend.
    + unfold w3. rewrite Ew1. exact Hno.
    + apply parsed_of.
    + lia.
    + unfold w3. rewrite Ew1. apply (tu_flag _ _ _ _ Hup).
  - apply total_ret. apply Hend; [| done | done]. rewrite Ew3, app_nil_r in Hot2. exact Hot2.
Qed.

(** Removal: the tree goes down and away. *)
Lemma unregister_run b s : bound b s -> total (dsa_unregister_switch tagger_data b) s (fun _ s' => idle s').
Proof using QuietNet0 base_pos.
  intros (t & w & [Hot Ht Hb Hup Hps Hn Hi]).
  assert (Hpf : platform_ok b (spec b)).
  { destruct Hb as (h & Hh & _). by destruct (ot_handles _ _ _ Hot _ _ Hh) as (? & _). }
  unfold dsa_unregister_switch, dsa_switch_remove. apply total_bind. eapply total_dst_in; [exact Hb |].
  apply total_bind. eapply total_in_tree; [apply Hot |].
  eapply total_weaken; [| by apply (tree_teardown_from_up tagger_data (cpu_of b) (conduit_of b) (pk_ptr _ _ Hpf) base base_pos)].
  cbv beta. intros _ w1 [Hr Hdown]. split; [by apply remains_keys |]. intros s1 Hs1 Ha1 Eg1.
  assert (Hot1 : one_tree t s1 w1) by (by eapply one_tree_remains).
  assert (Hb1 : handle_in t (spec b) b s1) by (by eapply (handle_remains t b s s1 w w1); [| apply Hot | | |]).
  destruct (remains_count _ _ Hr) as [Hn1 _].
  assert (Hps1 : ports_of b (w_ports w1)) by (eapply ids_ports_of; [exact Hps | apply Hr]).
  apply total_bind. eapply (release_run t b s1 w1 []); [done | done | done | by apply Forall_nil | done |].
  intros s2 Hot2 Hb2. eapply put_last; [exact Hot2 | exact Hb2 | by rewrite <- Hn, <- Hn1 | |].
  - intros x. by apply (down_holds _ _ _ _ _ Hdown).
  - intros i d. by apply (down_switches b w1).
Qed.

(** ** Any sequence of calls *)

(** The driver core probes a switch that is not bound, with memory in whatever
    state but for the few bytes of a new tree, and removes one that is. *)
Definition with_alloc (al : list bool) s : system H := mkSystem (sy_trees s) (sy_next s) (sy_switches s) (sy_registry s) (sy_hw s) al.

Inductive bus_step : list Z * system H -> list Z * system H -> Prop :=
| bus_probe l s ds al err s' : ds ∉ l -> is_Some (sy_switches s !! ds) -> (sy_trees s = [] -> tree_memory al) ->
    dsa_register_switch tagger_data ds (with_alloc al s) = Some (err, s') ->
    bus_step (l, s) (if err =? 0 then ds :: l else l, s')
| bus_remove l s ds al s' : ds ∈ l -> dsa_unregister_switch tagger_data ds (with_alloc al s) = Some (tt, s') ->
    bus_step (l, s) (List.remove Z.eq_dec ds l, s').

(** What is bound, and the state of the system. *)
Definition bus_ok (x : list Z * system H) : Prop :=
  match fst x with [] => idle (snd x) | [b] => bound b (snd x) | _ => False end.

Lemma seen_alloc t s w al : seen t s w -> seen t (with_alloc al s) (set_alloc w al).
Proof using. intros (w0 & E & <-). by exists w0. Qed.

Lemma idle_alloc s al : idle s -> idle (with_alloc al s).
Proof using. intros [[Nt Nh Nd Np Nq Nr] Hh]. by split. Qed.

Lemma bound_alloc b s al : bound b s -> bound b (with_alloc al s).
Proof using.
  intros (t & w & [[Ot Os Oh Oo Og] Ht Hb Hup Hps Hn Hi]). exists t, (set_alloc w al). split; try done.
  - split; try done. by apply seen_alloc.
  - apply (up_aside b w (w_tree w) al) in Hup; [| done | done | done]. by destruct w.
Qed.

Lemma bus_probe_run l s ds al : bus_ok (l, s) -> ds ∉ l -> is_Some (sy_switches s !! ds) -> (sy_trees s = [] -> tree_memory al) ->
  total (dsa_register_switch tagger_data ds) (with_alloc al s) (fun err s' => bus_ok (if err =? 0 then ds :: l else l, s')).
Proof using QuietNet0 quiet_loads mdio_registers devlink_registers base_pos.
  unfold bus_ok. cbn [fst snd]. destruct l as [| b [| ? ?]]; [| | done]; intros Hok Hnin Hds Hmem.
  - eapply total_weaken; [| apply register_new; [by apply idle_alloc | | done]].
    + cbv beta. intros err s'. by destruct (err =? 0).
    + apply Hmem. by destruct Hok as [[Nt _ _ _ _ _] _].
  - assert (Hne : b <> ds) by (intros ->; apply Hnin; by left).
    eapply total_weaken; [| apply (register_old b); [by apply bound_alloc | done | done]].
    cbv beta. intros err s' [He Hb]. by rewrite (proj2 (Z.eqb_neq err 0)).
Qed.

Lemma bus_remove_run l s ds al : bus_ok (l, s) -> ds ∈ l ->
  total (dsa_unregister_switch tagger_data ds) (with_alloc al s) (fun _ s' => bus_ok (List.remove Z.eq_dec ds l, s')).
Proof using QuietNet0 base_pos.
  unfold bus_ok. cbn [fst snd]. destruct l as [| b [| ? ?]]; [by intros _ ?%not_elem_of_nil | | done].
  intros Hok ->%list_elem_of_singleton. cbn [List.remove]. destruct (Z.eq_dec b b); [| done].
  eapply unregister_run. by apply bound_alloc.
Qed.

Lemma bus_reach_ok x y : rtc bus_step x y -> bus_ok x -> bus_ok y.
Proof using QuietNet0 quiet_loads mdio_registers devlink_registers base_pos.
  induction 1 as [| x y z Hs _ IH]; [done |]. intros Hok. apply IH. destruct Hs as [l s ds al err s' Hnin Hds Hmem E | l s ds al s' Hin E].
  - pose proof (bus_probe_run l s ds al Hok Hnin Hds Hmem) as G. unfold total in G. by rewrite E in G.
  - pose proof (bus_remove_run l s ds al Hok Hin) as G. unfold total in G. by rewrite E in G.
Qed.

End Life.

Section Result.
Context {H : Type} `{RefcountApi, NotifierApi, NetQueries, !NetEffects H, !LifeApi H, !QuietNet H, PlatformApi,
  !ModuleApi H, DescriptionApi}.


End Result.

(** ** A system with one switch *)

Module RegDemo.
Import EventDemo LifeDemo SwitchLifeDemo TreeLifeDemo.

(** Modules are all loaded. *)
#[export] Instance modules_demo {H} : ModuleApi H.
Proof.
  refine {| request_module _ l := l; module_live _ := true |}; [| done].
  intros _ l. exists []. by rewrite app_nil_r.
Defined.

(** No device tree; device numbers are those of the interfaces. *)
#[export] Instance description_demo : DescriptionApi := {|
  of_member _ := (- EINVAL, (0, 0));
  of_ports _ := None;
  of_ethernet_ports _ := None;
  of_children _ := [];
  of_reg _ := (- EINVAL, 0);
  of_ethernet _ := None;
  of_find_net_device _ := None;
  of_tag_protocol _ := None;
  of_link _ := false;
  dev_is_net _ := true;
  find_net_child _ := None;
  to_net_dev d := d;
  user_dev_port _ := None |}.

Definition demo_chip : dsa_chip_data :=
  mkChip ((Some <$> ["lan0"; "lan1"; "lan2"; "lan3"; "cpu"]%string) ++ replicate 7 None)
    (replicate 4 None ++ Some 200 :: replicate 7 None).
Definition demo_platform : platform kernel := mkPlatform life_ops 5 demo_chip 4 200.

(** What holds of all entries holds of the one found. *)
Lemma getz_cases {A} (P : Z -> A -> Prop) (l : list A) i a : getz l i = Some a ->
  (forall k b, l !! k = Some b -> P (Z.of_nat k) b) -> P i a.
Proof.
  unfold getz. case_decide; [| done]. intros E HP. apply HP in E. by rewrite Z2Nat.id in E by done.
Qed.

Lemma demo_ok : platform_ok 1 demo_platform.
Proof.
  assert (Hnames : forall i (a : option string), getz (cd_port_names demo_chip) i = Some a ->
    (is_Some a -> 0 <= i < 5) /\ (a = Some "cpu"%string -> i = 4)).
  { intros i a E. pattern i, a. eapply getz_cases; [exact E |]. clear. intros k b E.
    do 12 (destruct k as [| k]; [injection E as <-; split; [intros [? ?] | intros [=]]; done || lia |]). done. }
  split; try done.
  - intros i name E. apply Hnames in E as [E _]. destruct E; [by eexists | cbn; lia].
  - intros i. split; [| by intros ->]. intros E. by apply Hnames in E as [_ ->].
  - exists 200. split; [done |]. by intros c [= <-].
  - apply life_fine.
Qed.

Definition demo_system (errs : list Z) : system kernel :=
  mkSystem [] 100 {[ 1 := mkHandle (life_ds 0 false) None (Some (mkDev (Some demo_chip) None)) ]}
    (mkRegistry [mkTagDriver life_tagger "life" 7] ∅) ([], errs) [].

Lemma demo_handle errs ds h : sy_switches (demo_system errs) !! ds = Some h ->
  ds = 1 /\ h = mkHandle (life_ds 0 false) None (Some (mkDev (Some demo_chip) None)).
Proof. unfold demo_system. cbn [sy_switches]. by intros [<- <-]%lookup_singleton_Some. Qed.

Lemma demo_no_tree errs : no_tree (fun _ => demo_platform) (fun m => refs m (sy_registry (demo_system errs))) (demo_system errs).
Proof.
  split; try done.
  - intros ds h [-> ->]%demo_handle. by split_and!; [apply demo_ok | | | |].
  - by intros ds h [-> ->]%demo_handle.
  - by intros t u ->%list_elem_of_singleton ->%list_elem_of_singleton.
  - apply Forall_singleton. by split.
Qed.

Definition conduit_fails : list Z := replicate 32 0 ++ [-12].


End RegDemo.
