(* ===== verification/DsaTagger.v ===== *)
(** * Changing the tagging protocol (DSA/conduit.c, dsa2.c, switch.c, port.c, user.c)

    The tagging protocol of a tree is changed by writing its name to a file of
    the conduit.  The state adds to the tree what follows the tagger: the copies
    of its pointer in the CPU ports, what the user interfaces take from it, and
    the references on the modules of taggers.

    [tagging_store_spec]: a write either leaves the whole tree with the tagger
    named, or with the one it had; one reference is held on its module either
    way.  It asks that no user interface is behind a CPU port whose switch is
    notified later than its own; [ChangeDemo.late_cpu] shows why. *)

From Stdlib Require Import ZArith Lia Bool Ascii String.
From stdpp Require Import strings.
From S2P Require Import Prelude.
From S2P Require Import Kernel.
From S2P Require Import DsaTypes.
From S2P Require Import DsaSwitch.
From S2P Require Import DsaEvent.
From S2P Require Import DsaSafe.
From S2P Require Import DsaPort.
From S2P Require Import DsaMember.
From S2P Require Import DsaLife.
From S2P Require Import DsaTree.
From S2P Require Import DsaAccount.
From S2P Require Import DsaUpDown.
From S2P Require Import TagDrivers.
From S2P Require Import DsaRegister.
From S2P Require Import DsaPlatform.
From S2P Require Import DsaTreeLife.

Definition ERESTARTNOINTR : Z := 513.

(** What a user interface takes from its tagger; the function that transmits goes
    by the tagger's identity. *)
Record user_tagger := mkUserTagger {
  ut_needed_headroom : Z;
  ut_needed_tailroom : Z;
  ut_xmit : Z;                       (* p->xmit *)
  ut_features : Z;
  ut_hw_features : Z;
}.

(** The fields of a conduit read here, and the bits of features. *)
Class ConduitFields := {
  conduit_headroom : netdev -> Z;
  conduit_tailroom : netdev -> Z;
  vlan_features : netdev -> Z;
  NETIF_F_HW_TC : Z;
  NETIF_F_LLTX : Z;
  NETIF_F_SG : Z;
  NETIF_F_FRAGLIST : Z;
  NETIF_F_HW_VLAN_CTAG_FILTER : Z;
}.

Record tagging (H : Type) := mkTagging {
  tg_world : world H;
  tg_cpu : gmap pid (dsa_device_ops H);      (* cpu_dp->tag_ops, cpu_dp->rcv *)
  tg_user : gmap pid user_tagger;            (* of the user interfaces *)
  tg_registry : tag_registry H;
}.
#[global] Arguments mkTagging {H}.
#[global] Arguments tg_world {H}.
#[global] Arguments tg_cpu {H}.
#[global] Arguments tg_user {H}.
#[global] Arguments tg_registry {H}.

Section Change.
Context {H : Type} `{RefcountApi, NotifierApi, NetQueries, !NetEffects H, !LifeApi H, !ModuleApi H, ConduitFields}.
Context (tagger_data : H -> Z -> bool).
Abbreviation M := (st (world H)).
Abbreviation TM := (st (tagging H)).

Definition set_tg_world (w : world H) (s : tagging H) : tagging H := mkTagging w (tg_cpu s) (tg_user s) (tg_registry s).
Definition set_tg_cpu x (s : tagging H) : tagging H := mkTagging (tg_world s) x (tg_user s) (tg_registry s).
Definition set_tg_user x (s : tagging H) : tagging H := mkTagging (tg_world s) (tg_cpu s) x (tg_registry s).
Definition set_tg_registry x (s : tagging H) : tagging H := mkTagging (tg_world s) (tg_cpu s) (tg_user s) x.

Definition on_world {A} (m : M A) : TM A := fun s => '(a, w) ← m (tg_world s); Some (a, set_tg_world w s).
Definition on_registry {A} (m : st (tag_registry H) A) : TM A := fun s =>
  '(a, g) ← m (tg_registry s); Some (a, set_tg_registry g s).

(** ** One switch *)

Definition dsa_port_set_tag_protocol (p : pid) (tag_ops : dsa_device_ops H) : TM unit :=
  modify (fun s => set_tg_cpu (<[p := tag_ops]> (tg_cpu s)) s).

(** Rooms are sixteen bits wide. *)
Definition tagger_fields (tag_ops : dsa_device_ops H) (conduit : netdev) (d : dsa_switch H) (u : user_tagger) : user_tagger :=
  let needed_headroom := u16 (u16 (to_needed_headroom tag_ops) + conduit_headroom conduit) in
  let needed_tailroom := u16 (u16 (to_needed_tailroom tag_ops) + conduit_tailroom conduit) in
  let features := Z.lor (vlan_features conduit) NETIF_F_HW_TC in
  let features := Z.lor features NETIF_F_LLTX in
  let features := if negb (needed_tailroom =? 0) then Z.land features (Z.lnot (Z.lor NETIF_F_SG NETIF_F_FRAGLIST)) else features in
  let features := if ds_needs_standalone_vlan_filtering d then Z.lor features NETIF_F_HW_VLAN_CTAG_FILTER else features in
  mkUserTagger needed_headroom needed_tailroom (to_id tag_ops) features (Z.lor (ut_hw_features u) NETIF_F_HW_TC).

Definition user_setup_tagger (p : pid) : TM unit :=
  _ ← on_world (user_of p);
  conduit ← on_world (conduit_of p);
  dp ← on_world (port_of p);
  cpu_dp ← deref (dp_cpu_dp dp);
  d ← on_world (switch_of p);
  s ← get_st;
  tag_ops ← deref (tg_cpu s !! cpu_dp);
  u ← deref (tg_user s !! p);
  modify (set_tg_user (<[p := tagger_fields tag_ops conduit d u]> (tg_user s))).

Definition cpu_tagger (s : tagging H) (q : pid) : M (dsa_device_ops H) := deref (tg_cpu s !! q).

(** The MTU of the interface is set again, for the MTU of the conduit depends on
    the tagger; the result is ignored. *)
Definition user_changed (p : pid) : TM unit :=
  _ ← user_setup_tagger p;
  user ← on_world (user_of p);
  s ← get_st;
  mtu ← on_world (on_hw (dev_mtu user));
  _ ← on_world (dsa_user_change_mtu tagger_data (cpu_tagger s) (S (length (w_ports (tg_world s)))) p mtu);
  mret tt.

Fixpoint each_pid (l : list pid) (body : pid -> TM unit) : TM unit :=
  match l with [] => mret tt | p :: l => _ ← body p; each_pid l body end.

(** The ports of a switch of one kind. *)
Definition ports_of_kind (kind : dsa_port -> bool) (ds : Z) (w : world H) : list pid :=
  dp_id <$> List.filter (fun dp => (dp_ds dp =? ds) && kind dp) (w_ports w).

Definition dsa_switch_change_tag_proto (ds : Z) (tag_ops : dsa_device_ops H) : TM Z :=
  d ← on_world (get_ds ds);
  match op_change_tag_protocol (op_switch (ds_ops d)) with
  | None => mret (- EOPNOTSUPP)
  | Some change_tag_protocol =>
      err ← on_world (call_op (Some (change_tag_protocol ds (to_proto tag_ops))));
      if negb (err =? 0) then mret err
      else
        s ← get_st;
        _ ← each_pid (ports_of_kind dsa_port_is_cpu ds (tg_world s)) (fun p => dsa_port_set_tag_protocol p tag_ops);
        _ ← each_pid (ports_of_kind dsa_port_is_user ds (tg_world s)) user_changed;
        mret 0
  end.

(** ** The tree *)

(** [dsa_tree_notify] of DSA_NOTIFIER_TAG_PROTO. *)
Definition notify_tag_proto (tag_ops : dsa_device_ops H) : TM Z :=
  s ← get_st;
  '(ret, _) ← raw_notifier_call_chain
    (fun ds o => err ← dsa_switch_change_tag_proto ds tag_ops; mret (notifier_from_errno err, o))
    (w_nh (tg_world s)) tag_ops;
  mret (notifier_to_errno ret).

(** Is an interface of the tree or its conduit up. *)
Fixpoint any_up (l : list pid) : M bool :=
  match l with
  | [] => mret false
  | p :: l =>
      conduit ← conduit_of p;
      if iff_up conduit then mret true
      else user ← user_of p; if iff_up user then mret true else any_up l
  end.

Definition user_ports (w : world H) : list pid := dp_id <$> List.filter dsa_port_is_user (w_ports w).

(** [locked]: was the lock of the network free. *)
Definition dsa_tree_change_tag_proto (locked : bool) (tag_ops old_tag_ops : dsa_device_ops H) : TM Z :=
  if negb locked then mret (- ERESTARTNOINTR)
  else
    s ← get_st;
    up ← on_world (any_up (user_ports (tg_world s)));
    if (up : bool) then mret (- EBUSY)
    else
      err ← notify_tag_proto tag_ops;
      err ← (if negb (err =? 0) then mret err else on_world (dsa_tree_bind_tag_proto tagger_data tag_ops));
      if negb (err =? 0) then _ ← notify_tag_proto old_tag_ops; mret err
      else mret 0.

(** ** The file *)

Fixpoint before_newline (buf : string) : string :=
  match buf with
  | EmptyString => EmptyString
  | String c buf => if Ascii.eqb c "010"%char || Ascii.eqb c "000"%char then EmptyString else String c (before_newline buf)
  end.

Definition tagging_store (locked : bool) (dev : netdev) (buf : string) (count : Z) : TM Z :=
  let name := before_newline buf in
  if String.eqb name "" then mret (- ENOPROTOOPT)
  else
    ok ← on_world kzalloc;
    if negb ok then mret (- ENOMEM)
    else
      cpu_dp ← deref (dsa_ptr dev);
      s ← get_st;
      old_tag_ops ← deref (tg_cpu s !! cpu_dp);
      new ← on_registry (dsa_tag_driver_get_by_name name);
      match new with
      | inl err => mret err
      | inr new_tag_ops =>
          if to_id new_tag_ops =? to_id old_tag_ops then _ ← on_registry (dsa_tag_driver_put old_tag_ops); mret count
          else
            err ← dsa_tree_change_tag_proto locked new_tag_ops old_tag_ops;
            if negb (err =? 0) then _ ← on_registry (dsa_tag_driver_put new_tag_ops); mret err
            else _ ← on_registry (dsa_tag_driver_put old_tag_ops); mret count
      end.

End Change.

(** ** One switch changes *)

Section Step.
Context {H : Type} `{RefcountApi, NotifierApi, NetQueries, !NetEffects H, !LifeApi H, !ModuleApi H, ConduitFields, !QuietNet H}.
Context (tagger_data : H -> Z -> bool).
Context (b : resource -> Z) (l : list resource) (w0 : world H) (w0_sane : sane w0).
Implicit Types (o old : dsa_device_ops H) (s : tagging H) (p q : pid).

Lemma total_world {A} (m : st (world H) A) s Q :
  total m (tg_world s) (fun a w => Q a (set_tg_world w s)) -> total (on_world m) s Q.
Proof using. unfold total, on_world. by destruct (m (tg_world s)) as [[a w] |]. Qed.
Lemma total_on_registry {A} (m : st (tag_registry H) A) s Q :
  total m (tg_registry s) (fun a g => Q a (set_tg_registry g s)) -> total (on_registry m) s Q.
Proof using. unfold total, on_registry. by destruct (m (tg_registry s)) as [[a g] |]. Qed.

(** The tree is as recorded, whatever its hardware. *)
Definition sound s : Prop := at_ b w0 l (tg_world s).

Lemma total_calm_world {A} (m : st (world H) A) R s Q : sound s -> calm w0 m R ->
  (forall a w, R a -> sound (set_tg_world w s) -> Q a (set_tg_world w s)) -> total (on_world m) s Q.
Proof using.
  intros Hs Hm HQ. apply total_world. eapply total_weaken; [| by apply Hm]. intros a w [Hw Ha]. by apply HQ.
Qed.

(** What an interface behind [conduit] has of its tagger. *)
Definition wears o (conduit : netdev) (u : user_tagger) : Prop :=
  ut_xmit u = to_id o /\ ut_needed_headroom u = u16 (u16 (to_needed_headroom o) + conduit_headroom conduit) /\
  ut_needed_tailroom u = u16 (u16 (to_needed_tailroom o) + conduit_tailroom conduit).

Definition port_tagged o p (dp : dsa_port) s : Prop :=
  (dsa_port_is_cpu dp = true -> tg_cpu s !! p = Some o) /\
  (dsa_port_is_user dp = true -> exists c u, dsa_port_to_conduit w0 dp = Some c /\ tg_user s !! p = Some u /\ wears o c u).
Definition chip o (ds : Z) s : Prop := forall p dp, get_port w0 p = Some dp -> fst p = ds -> port_tagged o p dp s.
(** Nothing is null. *)
Definition all_set s : Prop := forall p dp, get_port w0 p = Some dp ->
  (dsa_port_is_cpu dp = true -> is_Some (tg_cpu s !! p)) /\ (dsa_port_is_user dp = true -> is_Some (tg_user s !! p)).

(** The user interfaces stand alone, and none is behind a CPU port whose switch
    is notified later. *)
Record retaggable : Prop := {
  rt_ready p dp : get_port w0 p = Some dp -> dsa_port_is_user dp = true -> user_ready w0 p;
  rt_cpu p dp q : get_port w0 p = Some dp -> dsa_port_is_user dp = true -> dp_cpu_dp dp = Some q ->
    exists dq, get_port w0 q = Some dq /\ dsa_port_is_cpu dq = true;
  rt_order p dp q d rest : get_port w0 p = Some dp -> dsa_port_is_user dp = true -> dp_cpu_dp dp = Some q ->
    w_nh w0 = d ++ fst p :: rest -> fst q = fst p \/ fst q ∈ d;
  rt_nh p : has_port w0 p -> fst p ∈ w_nh w0;
  rt_once : NoDup (w_nh w0);
}.

Definition change_op (ds : Z) (f : Z -> Z -> H -> Z * H) : Prop :=
  exists d, w_switches w0 !! ds = Some d /\ op_change_tag_protocol (op_switch (ds_ops d)) = Some f.
Definition has_op (ds : Z) : Prop := exists f, change_op ds f.
Definition accepts o (ds : Z) : Prop := forall f h, change_op ds f -> fst (f ds (to_proto o) h) = 0.

(** Errors are negative. *)
Record polite_drivers : Prop := {
  po_change ds f t h : change_op ds f -> fst (f ds t h) <= 0;
  po_connect ds d f t h : w_switches w0 !! ds = Some d -> op_connect_tag_protocol (op_switch (ds_ops d)) = Some f -> fst (f ds t h) <= 0;
}.
Definition polite_tagger o : Prop := forall g ds h, to_connect o = Some g -> fst (g ds h) <= 0.

(** *** The ports of a switch *)

Definition steady (kind : dsa_port -> bool) : Prop := forall dp dq, strip_port dp = strip_port dq -> kind dp = kind dq.
Lemma steady_cpu : steady dsa_port_is_cpu.
Proof using. intros dp dq (_ & _ & E & _)%strip_port_all. unfold dsa_port_is_cpu. by rewrite E. Qed.
Lemma steady_user : steady dsa_port_is_user.
Proof using. intros dp dq (_ & _ & E & _)%strip_port_all. unfold dsa_port_is_user. by rewrite E. Qed.

Lemma in_kind kind ds s p : steady kind -> sound s ->
  (p ∈ ports_of_kind kind ds (tg_world s) <-> exists dp, get_port w0 p = Some dp /\ fst p = ds /\ kind dp = true).
Proof using w0_sane.
  intros Hk Hs. unfold ports_of_kind. rewrite list_elem_of_fmap. split.
  - intros (dp & -> & Hin). apply list_elem_of_In, List.filter_In in Hin as [Hin E].
    apply andb_true_iff in E as [E1 E2]. apply Z.eqb_eq in E1. apply list_elem_of_In in Hin.
    destruct (port_shape (tg_world s) w0 dp ltac:(symmetry; apply Hs) Hin) as (dq & Hq & E).
    exists dq. rewrite (strip_port_id _ _ E), <- (Hk _ _ E). split_and!; [by apply get_port_of, Hq; apply w0_sane | | done].
    rewrite <- (strip_port_id _ _ E). exact E1.
  - intros (dp & Hp & Ep & E). destruct (strip_some _ _ _ _ (get_port_shape w0 (tg_world s) p (at_shape _ _ _ _ Hs)) Hp) as (dq & Hq & Es).
    apply get_port_in in Hq as [Hin Hid]. exists dq. split; [done |].
    apply list_elem_of_In, List.filter_In. split; [by apply list_elem_of_In |]. rewrite <- (Hk _ _ Es), E, andb_true_r.
    apply Z.eqb_eq. rewrite <- Ep, <- Hid. done.
Qed.

Lemma calm_conduit_is p dp c : get_port w0 p = Some dp -> dsa_port_to_conduit w0 dp = Some c -> calm w0 (conduit_of p) (eq c).
Proof using.
  intros Hp Hc. eapply calm_bind; [apply calm_port_of; by exists dp |]. intros dq (dq0 & Hq & E).
  rewrite Hp in Hq. injection Hq as <-. apply calm_queried. intros w Hs _. exists c. split; [| done].
  rewrite <- Hc. symmetry. by apply to_conduit_shape.
Qed.

(** *** CPU ports, then user ports *)

Lemma cpus_set o ps : forall s, total (each_pid ps (fun p => dsa_port_set_tag_protocol p o)) s (fun _ s' =>
  tg_world s' = tg_world s /\ tg_user s' = tg_user s /\ tg_registry s' = tg_registry s /\
  forall p, tg_cpu s' !! p = if decide (p ∈ ps) then Some o else tg_cpu s !! p).
Proof using.
  induction ps as [| q ps IH]; intros s; cbn [each_pid].
  { apply total_ret. split_and!; try done. }
  apply total_bind, total_modify. eapply total_weaken; [| apply IH]. intros [] s' (E1 & E2 & E3 & E4).
  split_and!; [done | done | done |]. intros p. rewrite E4. cbn. clear E1 E2 E3 E4 IH.
  destruct (decide (p ∈ ps)) as [Hin | Hout], (decide (p ∈ q :: ps)) as [Hin' | Hout']; rewrite elem_of_cons in *; try done; [tauto | |].
  - assert (p = q) as -> by tauto. apply lookup_insert_eq.
  - apply lookup_insert_ne. intros ->. tauto.
Qed.

(** What a user port needs to follow tagger [o]. *)
Definition follows o p s : Prop := exists dp q c, get_port w0 p = Some dp /\ user_ready w0 p /\
  dp_cpu_dp dp = Some q /\ dsa_port_to_conduit w0 dp = Some c /\ tg_cpu s !! q = Some o /\ is_Some (tg_user s !! p).
Definition dressed o p s : Prop := exists dp c u, get_port w0 p = Some dp /\ dsa_port_to_conduit w0 dp = Some c /\
  tg_user s !! p = Some u /\ wears o c u.

(** Only the interface of [p] may differ. *)
Definition only_user p s s' : Prop := tg_cpu s' = tg_cpu s /\ tg_registry s' = tg_registry s /\
  forall p', p' <> p -> tg_user s' !! p' = tg_user s !! p'.

Lemma setup_tagger_ok o p s : sound s -> follows o p s ->
  total (user_setup_tagger p) s (fun _ s' => sound s' /\ only_user p s s' /\ dressed o p s').
Proof using w0_sane.
  intros Hs (dp & q & c & Hp & Hr & Hq & Hc & Ho & [u Hu]). unfold user_setup_tagger.
  assert (Hhas : has_port w0 p) by (by exists dp).
  apply total_bind. eapply total_calm_world; [exact Hs | apply calm_user_of; apply Hr |]. intros _ w1 _ Hs1. clear Hs.
  apply total_bind. eapply total_calm_world; [exact Hs1 | by eapply calm_conduit_is |]. intros c' w2 <- Hs2.
  apply total_bind. eapply total_calm_world; [exact Hs2 | by apply calm_port_of |]. intros dp' w3 (dp0 & Hdp0 & E) Hs3.
  rewrite Hp in Hdp0. injection Hdp0 as <-. apply strip_port_fields in E as (_ & _ & _ & E & _).
  apply total_bind. eapply total_deref; [by rewrite <- E |].
  apply total_bind. eapply total_calm_world; [exact Hs3 | by apply calm_switch_of |]. intros d w4 _ Hs4.
  apply total_bind, total_get, total_bind. eapply total_deref; [exact Ho |]. apply total_bind.
  eapply total_deref; [exact Hu |]. apply total_modify. split_and!; [exact Hs4 | split_and!; [done | done |] |].
  - intros p' Hne. by apply lookup_insert_ne.
  - exists dp, c. eexists. split_and!; [done | done | apply lookup_insert_eq | by split_and!].
Qed.

Lemma user_changed_ok o p s : sound s -> follows o p s ->
  total (user_changed tagger_data p) s (fun _ s' => sound s' /\ only_user p s s' /\ dressed o p s').
Proof using w0_sane.
  intros Hs Hf. unfold user_changed. mstep (by apply setup_tagger_ok). intros _ s1 (Hs1 & Ho & Hd). clear Hs.
  destruct Hf as (dp & q & c & Hp & Hr & Hq & Hc & Hcpu & _). rewrite <- (proj1 Ho) in Hcpu.
  apply total_bind. eapply total_calm_world; [exact Hs1 | apply calm_user_of; apply Hr |]. intros user w2 _ Hs2.
  apply total_bind, total_get, total_bind, total_world, total_bind, total_get, total_ret.
  apply total_bind. eapply (total_calm_world _ T); [by destruct s1 | |].
  { apply (calm_change_mtu tagger_data w0 w0_sane); [done |]. intros dp' q' Hp' Hq'. rewrite Hp in Hp'. injection Hp' as <-.
    rewrite Hq in Hq'. injection Hq' as <-. by apply (calm_deref _ _ o). }
  intros _ w3 _ Hs3. by apply total_ret.
Qed.

Lemma dressed_same o p s s' : tg_user s' !! p = tg_user s !! p -> dressed o p s -> dressed o p s'.
Proof using. intros E (dp & c & u & Hp & Hc & Hu & Hw). exists dp, c, u. by rewrite E. Qed.

Lemma users_ok o ps : forall s, sound s -> (forall p, p ∈ ps -> follows o p s) ->
  total (each_pid ps (user_changed tagger_data)) s (fun _ s' => sound s' /\ tg_cpu s' = tg_cpu s /\
    tg_registry s' = tg_registry s /\ (forall p, p ∉ ps -> tg_user s' !! p = tg_user s !! p) /\
    forall p, p ∈ ps -> dressed o p s').
Proof using w0_sane.
  induction ps as [| p ps IH]; intros s Hs Hf; cbn [each_pid].
  { apply total_ret. split_and!; try done. by intros p ?%not_elem_of_nil. }
  mstep (by apply user_changed_ok; [| apply Hf, list_elem_of_here]). intros _ s1 (Hs1 & (Ec & Er & Hu) & Hd).
  eapply total_weaken; [| apply (IH s1 Hs1)].
  - intros _ s2 (Hs2 & Ec2 & Er2 & Hu2 & Hd2). split_and!; [done | congruence | congruence | |].
    + intros q Hq. rewrite elem_of_cons in Hq. rewrite Hu2, Hu by tauto. done.
    + intros q Hq. destruct (decide (q ∈ ps)) as [Hin | Hout]; [by apply Hd2 |]. apply elem_of_cons in Hq as [-> | Hq]; [| done].
      eapply dressed_same, Hd. by apply Hu2.
  - intros q Hq. destruct (Hf q) as (dp & c & cpu & Hp & Hr & Hc & Hcd & Ho & Hsome); [by apply list_elem_of_further |].
    exists dp, c, cpu. rewrite Ec. split_and!; try done. destruct (decide (q = p)) as [-> | Hne]; [| by rewrite Hu].
    destruct Hd as (_ & _ & u & _ & _ & Hu' & _). by exists u.
Qed.

(** *** The handler *)

(** Only the ports of [ds] may differ. *)
Definition only_switch (ds : Z) s s' : Prop := tg_registry s' = tg_registry s /\
  forall p, fst p <> ds -> tg_cpu s' !! p = tg_cpu s !! p /\ tg_user s' !! p = tg_user s !! p.

Lemma chip_same o ds s s' : (forall p, fst p = ds -> tg_cpu s' !! p = tg_cpu s !! p /\ tg_user s' !! p = tg_user s !! p) ->
  chip o ds s -> chip o ds s'.
Proof using.
  intros E Hc p dp Hp Hds. destruct (E p Hds) as [E1 E2]. unfold port_tagged. rewrite E1, E2. by apply Hc.
Qed.
Lemma chip_other o ds ds' s s' : only_switch ds s s' -> ds' <> ds -> chip o ds' s -> chip o ds' s'.
Proof using. intros [_ E] Hne. apply chip_same. intros p <-. by apply E. Qed.

Context (retag : retaggable).
Context (polite : polite_drivers).

Lemma change_users o ds s : sound s -> all_set s ->
  (forall p dp q, get_port w0 p = Some dp -> fst p = ds -> dsa_port_is_user dp = true -> dp_cpu_dp dp = Some q ->
     fst q = ds \/ tg_cpu s !! q = Some o) ->
  total (_ ← each_pid (ports_of_kind dsa_port_is_cpu ds (tg_world s)) (fun p => dsa_port_set_tag_protocol p o);
         _ ← each_pid (ports_of_kind dsa_port_is_user ds (tg_world s)) (user_changed tagger_data); mret 0) s
    (fun err s' => err = 0 /\ sound s' /\ all_set s' /\ only_switch ds s s' /\ chip o ds s').
Proof using w0_sane retag.
  intros Hs Hset Hcpu. mstep (apply cpus_set). intros _ s1 (Ew & Eu & Er & Ec).
  assert (Hs1 : sound s1) by (unfold sound; by rewrite Ew).
  assert (Hmine : forall p dp, get_port w0 p = Some dp -> fst p = ds -> dsa_port_is_cpu dp = true -> tg_cpu s1 !! p = Some o).
  { intros p dp Hp Hds Hk. rewrite Ec, decide_True; [done |]. apply (in_kind _ _ _ _ steady_cpu Hs). by exists dp. }
  assert (Hothers : forall p, fst p <> ds -> tg_cpu s1 !! p = tg_cpu s !! p).
  { intros p Hne. rewrite Ec, decide_False; [done |]. intros (dp & _ & E & _)%(in_kind _ _ _ _ steady_cpu Hs). done. }
  mstep (apply (users_ok o _ s1 Hs1)).
  - intros _ s2 (Hs2 & Ec2 & Er2 & Hu2 & Hd2). apply total_ret.
    assert (Hchip : chip o ds s2).
    { intros p dp Hp Hds. split; [intros Hk; rewrite Ec2; by eapply Hmine |]. intros Hk.
      destruct (Hd2 p) as (dp' & c & u & Hp' & Hc & Hu & Hw); [apply (in_kind _ _ _ _ steady_user Hs); by exists dp |].
      rewrite Hp in Hp'. injection Hp' as <-. by exists c, u. }
    assert (Honly : only_switch ds s s2).
    { split; [congruence |]. intros p Hne. rewrite Ec2, Hothers, Hu2, Eu by
        (try done; intros (dp & _ & E & _)%(in_kind _ _ _ _ steady_user Hs); done). done. }
    split_and!; try done. intros p dp Hp. destruct (decide (fst p = ds)) as [Hds | Hne].
    + destruct (Hchip p dp Hp Hds) as [H1' H2']. split; intros Hk; [by eexists; apply H1' |].
      destruct (H2' Hk) as (c & u & _ & Hu & _). by exists u.
    + destruct Honly as [_ E]. destruct (E p Hne) as [-> ->]. by apply Hset.
  - intros p Hin. apply (in_kind _ _ _ _ steady_user Hs) in Hin as (dp & Hp & Hds & Hk).
    pose proof (rt_ready retag _ _ Hp Hk) as Hr. destruct (ur_cpu _ _ Hr _ Hp) as (q & Hq & _).
    destruct (ur_conduit _ _ Hr _ Hp) as [c Hc]. exists dp, q, c. split_and!; try done.
    + destruct (rt_cpu retag _ _ _ Hp Hk Hq) as (dq & Hdq & Hkq).
      destruct (decide (fst q = ds)) as [Hds' | Hne]; [by apply (Hmine q dq) |].
      rewrite Hothers by done. by destruct (Hcpu p dp q Hp Hds Hk Hq).
    + rewrite Eu. by apply (Hset p dp Hp).
Qed.

Lemma change_one o ds s : known w0 ds -> sound s -> all_set s ->
  (forall p dp q, get_port w0 p = Some dp -> fst p = ds -> dsa_port_is_user dp = true -> dp_cpu_dp dp = Some q ->
     fst q = ds \/ tg_cpu s !! q = Some o) ->
  total (dsa_switch_change_tag_proto tagger_data ds o) s (fun err s' => err <= 0 /\ sound s' /\ all_set s' /\
    only_switch ds s s' /\ (if err =? 0 then chip o ds s' /\ has_op ds
                            else tg_cpu s' = tg_cpu s /\ tg_user s' = tg_user s /\ (accepts o ds -> ~ has_op ds))).
Proof using w0_sane retag polite.
  intros [d0 Hd0] Hs Hset Hcpu. unfold dsa_switch_change_tag_proto. apply total_bind.
  eapply total_calm_world; [exact Hs | by apply calm_driver_of |]. intros d w1 Ed Hs1.
  apply strip_ds_fields in Ed as (_ & _ & Ed & _). rewrite <- Ed.
  set (s1 := set_tg_world w1 s) in *. assert (Hset1 : all_set s1) by exact Hset.
  assert (Hcpu1 : forall p dp q, get_port w0 p = Some dp -> fst p = ds -> dsa_port_is_user dp = true -> dp_cpu_dp dp = Some q ->
     fst q = ds \/ tg_cpu s1 !! q = Some o) by exact Hcpu.
  assert (Ho1 : only_switch ds s s1) by done.
  destruct (op_change_tag_protocol (op_switch (ds_ops d0))) as [f |] eqn:Ef.
  2: { apply total_ret. split_and!; try done.
       change (- EOPNOTSUPP =? 0) with false. split_and!; [done | done |]. intros _ (f & d1 & Hd & Hf).
       rewrite Hd0 in Hd. injection Hd as <-. congruence. }
  assert (Hop : change_op ds f) by (by exists d0). apply total_bind, total_world. unfold total, call_op. cbn [mbind option_bind].
  pose proof (po_change polite ds f (to_proto o) (w_hw (tg_world s1)) Hop) as Hle.
  pose proof (df_change _ _ (sn_driver _ w0_sane _ _ Hd0) _ (to_proto o) Ef (w_hw (tg_world s1))) as Hq. cbv beta in Hq.
  assert (Hacc : accepts o ds -> fst (f ds (to_proto o) (w_hw (tg_world s1))) = 0) by (intros Ha; by apply Ha).
  destruct (f ds (to_proto o) (w_hw (tg_world s1))) as [err h]. cbn [fst snd] in *.
  set (s2 := set_tg_world _ s1). assert (Hs2 : sound s2) by (apply at_hw; [exact Hs1 | exact Hq]).
  destruct (Z.eqb_spec err 0) as [-> | Hne]; cbn [negb].
  - change (total (s ← get_st; _ ← each_pid (ports_of_kind dsa_port_is_cpu ds (tg_world s)) (fun p => dsa_port_set_tag_protocol p o);
      _ ← each_pid (ports_of_kind dsa_port_is_user ds (tg_world s)) (user_changed tagger_data); mret 0) s2
      (fun err s' => err <= 0 /\ sound s' /\ all_set s' /\ only_switch ds s s' /\ (if err =? 0 then chip o ds s' /\ has_op ds
                            else tg_cpu s' = tg_cpu s /\ tg_user s' = tg_user s /\ (accepts o ds -> ~ has_op ds)))).
    apply total_bind, total_get. eapply total_weaken; [| by apply (change_users o ds s2)].
    intros err s' (-> & Hs' & Hset' & Ho' & Hc). split_and!; try done. split; [done | by exists f].
  - split_and!; try done. destruct (Z.eqb_spec err 0); [done |]. split_and!; try done. intros Ha. by rewrite Hacc in Hne.
Qed.

(** *** All switches *)

Lemma in_before {A} (d k d' r' : list A) y : d ++ k = d' ++ y :: r' -> y ∉ d -> forall x, x ∈ d -> x ∈ d'.
Proof using.
  revert d'. induction d as [| a d IH]; intros [| a' d'] E Hy x Hx; try by apply not_elem_of_nil in Hx.
  - injection E as -> E. rewrite elem_of_cons in Hy. tauto.
  - injection E as -> E. apply elem_of_cons in Hx as [-> | Hx]; [by left |]. right. apply (IH d' E); [| done].
    rewrite elem_of_cons in Hy. tauto.
Qed.

Definition all_chips o s : Prop := forall ds, ds ∈ w_nh w0 -> chip o ds s.

Lemma notify_run o old (keep : list Z) s : sound s -> all_set s -> (forall ds, ds ∈ keep -> chip old ds s) ->
  total (notify_tag_proto tagger_data o) s (fun err s' => sound s' /\ all_set s' /\ tg_registry s' = tg_registry s /\
    (if err =? 0 then all_chips o s' /\ forall ds, ds ∈ w_nh w0 -> has_op ds
     else err < 0 /\ exists d ds r, w_nh w0 = d ++ ds :: r /\ (forall x, x ∈ d -> chip o x s' /\ has_op x) /\
       (forall x, x ∈ keep -> x ∉ d -> chip old x s') /\ (accepts o ds -> ~ has_op ds))).
Proof using w0_sane retag polite.
  intros Hs Hset Hkeep. unfold notify_tag_proto. apply total_bind, total_get, total_bind.
  pose proof (shape_inv _ _ (at_shape _ _ _ _ Hs)) as (_ & _ & _ & _ & _ & <-).
  eapply total_weaken; [| apply (notify_chain _ (fun ds => dsa_switch_change_tag_proto tagger_data ds o) o (w_nh w0)
    (fun d s' => sound s' /\ all_set s' /\ tg_registry s' = tg_registry s /\ (forall x, x ∈ d -> chip o x s' /\ has_op x) /\
       forall x, x ∈ keep -> x ∉ d -> chip old x s')
    (fun err s' => sound s' /\ all_set s' /\ tg_registry s' = tg_registry s /\
      (if err =? 0 then all_chips o s' /\ forall ds, ds ∈ w_nh w0 -> has_op ds
       else err < 0 /\ exists d ds r, w_nh w0 = d ++ ds :: r /\ (forall x, x ∈ d -> chip o x s' /\ has_op x) /\
         (forall x, x ∈ keep -> x ∉ d -> chip old x s') /\ (accepts o ds -> ~ has_op ds))))].
  - intros [ret o'] s' HQ. exact HQ.
  - done.
  - split_and!; try done; [by intros x ?%not_elem_of_nil | intros x Hx _; by apply Hkeep].
  - intros d ds rest s1 El (Hs1 & Hset1 & Er1 & Hd & Hk).
    eapply total_weaken; [| apply (change_one o ds s1); [| done | done |]].
    + intros err s2 (Hle & Hs2 & Hset2 & [Er2 Ho2] & Hrest). destruct (Z.eqb_spec err 0) as [-> | Hne].
      * destruct Hrest as [Hc Hop]. split_and!; [done | done | congruence | |].
        -- intros x [Hx | ->%list_elem_of_singleton]%elem_of_app; [| done]. split; [| by apply Hd].
           apply (chip_other o ds x s1); [done | | by apply Hd]. intros ->.
           pose proof (rt_once retag) as Hnd. rewrite El in Hnd. apply NoDup_app in Hnd as (_ & Hnd & _). by apply (Hnd ds Hx), list_elem_of_here.
        -- intros x Hx Hout. rewrite elem_of_app, list_elem_of_singleton in Hout.
           apply (chip_other old ds x s1); [done | tauto | apply Hk; tauto].
      * destruct Hrest as (Ec & Eu & Hno). assert (Hsame : forall o' x, chip o' x s1 -> chip o' x s2).
        { intros o' x. apply chip_same. intros p _. by rewrite Ec, Eu. }
        split; [lia |]. split_and!; [done | done | congruence | lia |]. exists d, ds, rest. split_and!; [done | | | done].
        -- intros x Hx. split; [apply Hsame |]; by apply Hd.
        -- intros x Hx Hout. by apply Hsame, Hk.
    + apply (sn_nh _ w0_sane). rewrite El. apply elem_of_app. right. apply list_elem_of_here.
    + intros p dp q Hp Hds Hu Hq. subst ds. destruct (rt_order retag _ _ _ _ _ Hp Hu Hq El) as [| Hin]; [by left |]. right.
      destruct (rt_cpu retag _ _ _ Hp Hu Hq) as (dq & Hdq & Hkq). by apply (proj1 (Hd _ Hin) q dq Hdq).
  - intros s' (Hs' & Hset' & Er & Hd & _). split_and!; try done. split; intros ds Hds; by apply Hd.
Qed.

(** Back to a tagger every driver accepts. *)
Lemma roll_back old (d k : list Z) s : sound s -> all_set s -> w_nh w0 = d ++ k -> (forall x, x ∈ d -> has_op x) ->
  (forall x, x ∈ k -> chip old x s) -> (forall x, x ∈ w_nh w0 -> accepts old x) ->
  total (notify_tag_proto tagger_data old) s (fun _ s' => sound s' /\ all_set s' /\ tg_registry s' = tg_registry s /\ all_chips old s').
Proof using w0_sane retag polite.
  intros Hs Hset El Hop Hk Hacc. eapply total_weaken; [| by apply (notify_run old old k)].
  intros err s' (Hs' & Hset' & Er & Hrest). split_and!; try done. destruct (err =? 0); [apply Hrest |].
  destruct Hrest as (_ & d' & y & r' & El' & Hd' & Hk' & Hno). intros x Hx.
  destruct (decide (x ∈ d')) as [Hin | Hout]; [by apply Hd' |]. apply Hk'; [| done].
  rewrite El in Hx. apply elem_of_app in Hx as [Hx |]; [| done]. destruct Hout.
  apply (in_before d k d' r' y); [congruence | | done]. intros Hy. apply Hno; [| by apply Hop].
  apply Hacc. rewrite El'. apply elem_of_app. right. apply list_elem_of_here.
Qed.

(** *** The tree *)

Definition with_tagger o (w : world H) : world H := upd_tree (set_dst_tag_ops (Some o)) w.

Lemma at_tree f w : at_ b w0 l w -> at_ b (upd_tree f w0) l (upd_tree f w).
Proof using. intros Hw. by apply at_moves, Hw; apply moves_tree. Qed.

Lemma connect_all (W : world H) o w : sane W -> w_switches W = w_switches w0 -> at_ b W l w -> quiet_tagger o -> polite_tagger o ->
  total (dsa_tree_notify tagger_data (DSA_NOTIFIER_TAG_PROTO_CONNECT o)) w (fun r w' => fst r <= 0 /\ at_ b W l w').
Proof using polite.
  intros HW Esw Hw Hq Hp. apply total_bind, total_get, total_bind.
  eapply total_weaken; [| apply (notify_chain _ (fun ds => dsa_switch_connect_tag_proto ds o) _ _
    (fun _ w' => at_ b W l w') (fun err w' => err <= 0 /\ at_ b W l w'))]; [by intros [ret ev] w' HQ | | done | | done].
  - intros ds w'. unfold switch_notifier. cbn [dsa_switch_event]. unfold keep_info, mbind, st_bind.
    by destruct (dsa_switch_connect_tag_proto ds o w') as [[]|].
  - intros d ds rest w1 El Hw1. eapply total_weaken; [| apply (calm_connect_is W HW ds o (fun err => err <= 0)); try done].
    + intros err w2 [Hw2 Hle]. destruct (Z.eqb_spec err 0); [done |]. split_and!; [lia | done | done].
    + apply (sn_nh _ HW). pose proof (shape_inv _ _ (at_shape _ _ _ _ Hw)) as (_ & _ & _ & _ & _ & ->).
      rewrite El. apply elem_of_app. right. apply list_elem_of_here.
    + intros g h Hg. by apply Hp.
    + intros d' f h (d0 & Hd0 & E) Ef. apply strip_ds_fields in E as (_ & _ & E & _). rewrite Esw in Hd0. rewrite <- E in Ef.
      by apply (po_connect polite ds d0).
Qed.

Lemma bind_ok o old w : at_ b w0 l w -> dst_tag_ops (w_tree w0) = Some old -> quiet_tagger o -> polite_tagger o -> quiet_tagger old ->
  total (dsa_tree_bind_tag_proto tagger_data o) w (fun err w' => if err =? 0 then at_ b (with_tagger o w0) l w' else err < 0 /\ at_ b w0 l w').
Proof using w0_sane polite.
  intros Hw Eo Ho Hpo Hold. apply total_bind, total_get, total_bind, total_modify.
  pose proof (shape_inv _ _ (at_shape _ _ _ _ Hw)) as (Et & _). rewrite <- Et, Eo.
  assert (Hs1 : sane (with_tagger o w0)) by (destruct w0_sane; by split).
  pose proof (at_tree (set_dst_tag_ops (Some o)) w Hw) as Hw1. mstep (by apply (connect_all (with_tagger o w0))). intros [err ev] w2 [Hle Hw2]. cbn [fst] in Hle.
  destruct (negb (err =? 0) && negb (err =? - EOPNOTSUPP)) eqn:Ee.
  - apply andb_true_iff in Ee as [Ee _]. apply negb_true_iff in Ee. apply total_bind.
    eapply (total_calm _ _ _ _ _ _ _ Hw2); [by apply (calm_tree_notify tagger_data _ Hs1) |]. intros _ w3 _ Hw3.
    apply total_bind, total_modify, total_ret. rewrite Ee. apply Z.eqb_neq in Ee. split; [lia |].
    replace w0 with (upd_tree (set_dst_tag_ops (Some old)) (with_tagger o w0)).
    + by apply at_moves, Hw3; apply moves_tree.
    + clear - Eo. destruct w0 as [[]]. cbn in *. by subst.
  - apply total_bind, total_deref with old; [done |]. apply total_bind.
    eapply (total_calm _ _ _ _ _ _ _ Hw2); [by apply (calm_tree_notify tagger_data _ Hs1) |]. intros _ w3 _ Hw3.
    by apply total_ret.
Qed.

Lemma any_up_ok ps : (forall p, p ∈ ps -> user_ready w0 p) -> calm w0 (any_up ps) T.
Proof using.
  induction ps as [| p ps IH]; intros Hr; [by apply calm_ret |]. cbn [any_up].
  pose proof (Hr p ltac:(apply list_elem_of_here)) as Hp.
  eapply calm_bind; [apply calm_conduit_of; apply Hp |]. intros c _. case_match; [by apply calm_ret |].
  eapply calm_bind; [apply calm_user_of; apply Hp |]. intros u _. case_match; [by apply calm_ret |].
  apply IH. intros q Hq. apply Hr. by apply list_elem_of_further.
Qed.

Lemma change_tree_ok locked o old s : sound s -> all_set s -> all_chips old s -> dst_tag_ops (w_tree w0) = Some old ->
  quiet_tagger o -> polite_tagger o -> quiet_tagger old -> (forall x, x ∈ w_nh w0 -> accepts old x) ->
  total (dsa_tree_change_tag_proto tagger_data locked o old) s (fun err s' => all_set s' /\ tg_registry s' = tg_registry s /\
    (if err =? 0 then at_ b (with_tagger o w0) l (tg_world s') /\ all_chips o s' else err < 0 /\ sound s' /\ all_chips old s')).
Proof using w0_sane retag polite.
  intros Hs Hset Hold Eo Ho Hpo Hoq Hacc. unfold dsa_tree_change_tag_proto. destruct locked; cbn [negb]; [| by apply total_ret].
  apply total_bind, total_get, total_bind. eapply total_calm_world; [exact Hs | apply any_up_ok |].
  { intros p (dp & -> & Hin)%list_elem_of_fmap. apply list_elem_of_In, List.filter_In in Hin as [Hin Hk]. apply list_elem_of_In in Hin.
    destruct (port_shape (tg_world s) w0 dp ltac:(symmetry; apply Hs) Hin) as (dq & Hq & E). rewrite (strip_port_id _ _ E).
    apply (rt_ready retag _ dq); [apply get_port_of; [apply w0_sane | done] |]. by rewrite <- (steady_user _ _ E). }
  intros up w1 _ Hs1. assert (Hset1 : all_set (set_tg_world w1 s)) by exact Hset. assert (Hold1 : all_chips old (set_tg_world w1 s)) by exact Hold.
  destruct up; [by apply total_ret |]. mstep (by apply (notify_run o old (w_nh w0))). intros err s2 (Hs2 & Hset2 & Er2 & Hrest).
  destruct (Z.eqb_spec err 0) as [-> | Hne]; cbn [negb].
  - destruct Hrest as [Hnew Hop]. apply total_bind, total_world. eapply total_weaken; [| by apply (bind_ok o old)].
    intros err w3. cbv beta. destruct (Z.eqb_spec err 0) as [-> | Hne]; intros Hw3; cbn [negb]; [by apply total_ret |]. destruct Hw3 as [Hlt Hw3].
    mstep (apply (roll_back old (w_nh w0) []); [exact Hw3 | exact Hset2 | by rewrite app_nil_r | exact Hop | by intros x ?%not_elem_of_nil | done]).
    intros e s4 (Hs4 & Hset4 & Er4 & Hc4). apply total_ret. destruct (Z.eqb_spec err 0); [done |]. split_and!; try done. cbn in Er2, Er4. congruence.
  - apply total_bind, total_ret. destruct (Z.eqb_spec err 0); [done |]. cbn [negb].
    destruct Hrest as (Hlt & d & ds & r & El & Hd & Hk & _).
    mstep (apply (roll_back old d (ds :: r)); [done | done | done | intros x Hx; by apply Hd | | done]).
    + intros e s4 (Hs4 & Hset4 & Er4 & Hc4). apply total_ret. destruct (Z.eqb_spec err 0); [done |]. split_and!; try done. cbn in Er2; congruence.
    + intros x Hx. apply Hk; [rewrite El; apply elem_of_app; by right |]. intros Hx'. pose proof (rt_once retag) as Hnd. rewrite El in Hnd.
      apply NoDup_app in Hnd as (_ & Hnd & _). by apply (Hnd x).
Qed.

End Step.

(** ** The file *)

Section Store.
Context {H : Type} `{RefcountApi, NotifierApi, NetQueries, !NetEffects H, !LifeApi H, !ModuleApi H, ConduitFields, !QuietNet H}.
Context (quiet_loads : forall k l, quiet_taggers (H := H) l -> quiet_taggers (request_module k l)).
Implicit Types (w : world H) (o old : dsa_device_ops H) (s : tagging H) (p q : pid).

(** The whole tree has tagger [o] and one reference on its module; modules have
    [r0] besides. *)
Record tagged_by (r0 : Z -> Z) o s : Prop := {
  tb_tree : dst_tag_ops (w_tree (tg_world s)) = Some o;
  tb_ports p dp : get_port (tg_world s) p = Some dp -> port_tagged (tg_world s) o p dp s;
  tb_pointers : pointers (rg_drivers (tg_registry s));
  tb_quiet : quiet_taggers (rg_drivers (tg_registry s));
  tb_refs : exists m, owned o m (tg_registry s) /\ forall x, refs x (tg_registry s) = r0 x + (if decide (m = x) then 1 else 0);
}.

(** The tree but for its tagger, with what it holds. *)
Definition same_but_tagger o w w' : Prop := at_ (held (w_hw w)) (with_tagger o w) [] w'.

Lemma at_itself w : at_ (held (w_hw w)) w [] w.
Proof using. split; try done. intros x. cbn. lia. Qed.
Lemma with_own o w : dst_tag_ops (w_tree w) = Some o -> with_tagger o w = w.
Proof using. intros E. destruct w as [[]]. cbn in *. by subst. Qed.

Lemma owned_quiet o m (g : tag_registry H) : owned o m g -> quiet_taggers (rg_drivers g) -> quiet_tagger o.
Proof using.
  intros (t & Ht & _ & <-) Hq. apply List.find_some in Ht as [Hin _]. apply list_elem_of_In in Hin.
  by apply (proj1 (Forall_forall _ _) Hq).
Qed.

(** Operations at the same address are those of one driver. *)
Lemma same_owner o o' m m' (g : tag_registry H) : to_id o = to_id o' -> owned o m g -> owned o' m' g -> o = o' /\ m = m'.
Proof using.
  intros E (t & Ht & <- & <-) (t' & Ht' & <- & <-). unfold driver_of in Ht, Ht'. rewrite E, Ht' in Ht. by injection Ht as ->.
Qed.

Lemma tagged_moved w0 w o p dp dq s : same_shape w0 w -> strip_port dp = strip_port dq ->
  port_tagged w0 o p dp s -> port_tagged w o p dq s.
Proof using.
  intros Hs E [Hc Hu]. split.
  - rewrite <- (steady_cpu _ _ E). exact Hc.
  - rewrite <- (steady_user _ _ E). intros Hk. destruct (Hu Hk) as (c & u & Hcd & Hut & Hw). exists c, u. split_and!; [| done | done].
    rewrite <- Hcd. symmetry. by apply to_conduit_shape.
Qed.

Lemma tagged_after r0 w0 o s b : at_ b (with_tagger o w0) [] (tg_world s) -> 
  (forall p, has_port w0 p -> fst p ∈ w_nh w0) -> all_chips w0 o s -> 
  pointers (rg_drivers (tg_registry s)) -> quiet_taggers (rg_drivers (tg_registry s)) ->
  (exists m, owned o m (tg_registry s) /\ forall x, refs x (tg_registry s) = r0 x + (if decide (m = x) then 1 else 0)) ->
  tagged_by r0 o s.
Proof using.
  intros Hw Hnh Hc Hp Hq Hr. pose proof (at_shape _ _ _ _ Hw) as Hsh. split; try done.
  - destruct (shape_inv _ _ Hsh) as (<- & _). done.
  - intros p dp Hdp. destruct (strip_some _ _ _ _ (get_port_shape (tg_world s) (with_tagger o w0) p ltac:(by symmetry)) Hdp) as (dq & Hdq & E).
    eapply (tagged_moved (with_tagger o w0)); [done | by symmetry |]. apply (Hc (fst p)); [apply Hnh; by exists dq | exact Hdq | done].
Qed.

Lemma tagged_chips r0 o s : tagged_by r0 o s -> all_chips (tg_world s) o s.
Proof using. intros Ht ds _ p dp Hp _. by apply (tb_ports _ _ _ Ht). Qed.
Lemma tagged_set r0 o s : tagged_by r0 o s -> all_set (tg_world s) s.
Proof using.
  intros Ht p dp Hp. destruct (tb_ports _ _ _ Ht p dp Hp) as [Hc Hu]. split; intros Hk; [by eexists; apply Hc |].
  destruct (Hu Hk) as (c & u & _ & Hu' & _). by exists u.
Qed.

(** The registry after a reference was taken for [name]. *)
Definition taken (r0 : Z -> Z) o name new (g' : tag_registry H) : Prop :=
  pointers (rg_drivers g') /\ quiet_taggers (rg_drivers g') /\ quiet_tagger new /\
  (exists t, t ∈ rg_drivers g' /\ td_name t = name /\ td_ops t = new) /\
  exists m m', owned o m g' /\ owned new m' g' /\
    forall x, refs x g' = r0 x + (if decide (m = x) then 1 else 0) + (if decide (m' = x) then 1 else 0).

Lemma taken_put r0 o name new g' o' : (o' = o \/ o' = new) -> taken r0 o name new g' ->
  total (dsa_tag_driver_put o') g' (fun _ g2 => rg_drivers g2 = rg_drivers g' /\
    exists m, owned (if bool_decide (to_id o' = to_id o) then new else o) m g2 /\
      forall x, refs x g2 = r0 x + (if decide (m = x) then 1 else 0)).
Proof using.
  intros Ho' (Hp & _ & _ & _ & m & m' & Hm & Hm' & Hr).
  assert (Hown : exists n, owned o' n g' /\ n = (if bool_decide (to_id o' = to_id o) then m else m')).
  { case_bool_decide as E; destruct Ho' as [-> | ->]; [by exists m | | done | by exists m'].
    destruct (same_owner _ _ _ _ _ E Hm' Hm) as [_ ->]. by exists m. }
  destruct Hown as (n & Hn & En). eapply total_weaken; [| by apply put_run]. intros _ g2 [Ed Hr2]. split; [done |].
  assert (Hg : grows g' g2) by (exists []; by rewrite Ed, app_nil_r).
  subst n. destruct (bool_decide _); [exists m' | exists m]; (split; [by eapply owned_grows |]); intros x; rewrite Hr2, Hr; lia.
Qed.

Lemma get_named r0 o name s : tagged_by r0 o s -> total (dsa_tag_driver_get_by_name name) (tg_registry s) (fun r g' =>
  match r with
  | inl err => err < 0 /\ pointers (rg_drivers g') /\ quiet_taggers (rg_drivers g') /\
      exists m, owned o m g' /\ forall x, refs x g' = r0 x + (if decide (m = x) then 1 else 0)
  | inr new => taken r0 o name new g' /\ rg_drivers g' = request_module (TagByName name) (rg_drivers (tg_registry s))
  end).
Proof using quiet_loads.
  intros [_ _ Hp Hq (m & Hm & Hr)]. eapply total_weaken; [| by apply get_by_name_run]. intros r g' [Ed Hr'].
  assert (Hm' : owned o m g') by (eapply owned_grows, Hm; by eapply request_grows).
  assert (Hp' : pointers (rg_drivers g')) by (rewrite Ed; by apply request_pointers).
  assert (Hq' : quiet_taggers (rg_drivers g')) by (rewrite Ed; by apply quiet_loads).
  destruct r as [err | new].
  - destruct Hr' as [-> Hr']. split_and!; [done | done | done |]. exists m. split; [done |]. intros x. by rewrite Hr'.
  - destruct Hr' as [(t & Ht & En & Et) (m' & Hnew & Hr')]. split; [| exact Ed]. split_and!; [done | done | by eapply owned_quiet | |].
    + exists t. by rewrite Ed.
    + exists m, m'. split_and!; [done | done |]. intros x. by rewrite Hr', Hr.
Qed.


End Store.

Module ChangeDemo.
Import EventDemo LifeDemo.

#[export] Instance modules_loaded : ModuleApi kernel.
Proof.
  refine {| request_module _ l := l; module_live _ := true |}; [| done].
  intros _ l. exists []. by rewrite app_nil_r.
Defined.

#[export] Instance fields_demo : ConduitFields := {|
  conduit_headroom _ := 2; conduit_tailroom _ := 0; vlan_features _ := 0x13;
  NETIF_F_HW_TC := 0x100; NETIF_F_LLTX := 0x200; NETIF_F_SG := 1; NETIF_F_FRAGLIST := 2;
  NETIF_F_HW_VLAN_CTAG_FILTER := 0x400 |}.

(** The demonstration of [EventDemo], with all interfaces down. *)
#[export] Instance queries_down : NetQueries := {|
  netif_is_lag_master _ := false;
  dsa_ptr c := if c =? 200 then Some (1, 4) else None;
  netif_is_bridge_master _ := false;
  netdev_master_upper_dev_get _ := None;
  br_mst_enabled _ := false;
  br_vlan_enabled _ := false;
  br_get_ageing_time _ := 30000;
  br_port_get_stp_state _ := 3;
  br_port_flag_is_set _ _ := false;
  br_vlan_get_info _ _ := - EINVAL;
  vlan_uppers _ := [];
  vlan_vids _ := [];
  synced_uc _ := [];
  synced_mc _ := [];
  iff_unicast_flt _ := true;
  iff_up _ := false;
  is_valid_ether_addr _ := true;
  br_mst_get_state _ _ := (- EINVAL, 0);
  br_mst_get_info _ _ := (- EINVAL, []);
  clock_t_to_jiffies t := t;
  jiffies_to_msecs t := 10 * t |}.

(** The first switch takes any protocol, the second refuses protocol 3. *)
Definition refuses (ds t : Z) : bool := (ds =? 2) && (t =? 3).
Definition change_setup : dsa_setup_ops kernel :=
  mkSetupOps (fun ds h => (0, (Driver ds :: fst h, snd h))) (Some (fun ds => kernel_put (Driver ds))) None
    (fun _ _ _ _ => 1) (Some (fun ds t h => (if refuses ds t then -22 else 0, h))) None true None None None None.
Definition change_ops : dsa_switch_ops kernel :=
  mkOps None (Some (fun _ _ _ h => (0, h))) None None None None None None None None None None None None None None
    None None None None None None None no_port_ops change_setup.
Definition change_ds (i : Z) : dsa_switch kernel := mkDs i 5 false false 0 0 change_ops None true false true false 4 0 false.

Definition tag_old : dsa_device_ops kernel := mkTagger 7 1 None None 8 0 false.
Definition tag_new : dsa_device_ops kernel := mkTagger 9 2 None None 0 4 false.
Definition tag_bad : dsa_device_ops kernel := mkTagger 11 3 None None 4 0 false.
Definition three_drivers : list (dsa_tag_driver kernel) :=
  [mkTagDriver tag_old "ax" 100; mkTagDriver tag_new "rtl" 200; mkTagDriver tag_bad "bad" 300].

(** A user port of each switch, both behind the CPU port of the first. *)
Definition change_world (nh : list Z) : world kernel :=
  mkWorld (mkTree 0 2 LagsNull (Some tag_old) 1 true 0 1)
    [life_port 1 0 DSA_PORT_TYPE_USER (Some 1000) (Some (1, 4)) None;
     life_port 1 4 DSA_PORT_TYPE_CPU (Some 200) None None;
     life_port 2 0 DSA_PORT_TYPE_USER (Some 2000) (Some (1, 4)) None]
    [] {[ 1 := change_ds 0; 2 := change_ds 1 ]} ∅ ∅ nh ([], []) [] [].
Definition old_user : user_tagger := mkUserTagger 10 0 7 0x313 0x100.
Definition change_state (nh : list Z) : tagging kernel :=
  mkTagging (change_world nh) {[ (1, 4) := tag_old ]} (<[(1, 0) := old_user]> {[ (2, 0) := old_user ]})
    (mkRegistry three_drivers {[ 100 := 1 ]}).

Lemma change_ports nh p dp : get_port (change_world nh) p = Some dp ->
  (p = (1, 0) /\ dp = life_port 1 0 DSA_PORT_TYPE_USER (Some 1000) (Some (1, 4)) None) \/
  (p = (1, 4) /\ dp = life_port 1 4 DSA_PORT_TYPE_CPU (Some 200) None None) \/
  (p = (2, 0) /\ dp = life_port 2 0 DSA_PORT_TYPE_USER (Some 2000) (Some (1, 4)) None).
Proof. intros [Hin <-]%get_port_in. cbn in Hin. rewrite !elem_of_cons, elem_of_nil in Hin. destruct Hin as [-> | [-> | [-> | []]]]; tauto. Qed.

Lemma change_switches nh ds d : w_switches (change_world nh) !! ds = Some d -> ds_ops d = change_ops.
Proof. cbn. intros [[_ <-] | [_ E]]%lookup_insert_Some; [done |]. by apply lookup_singleton_Some in E as [_ <-]. Qed.

Lemma change_sane : sane (change_world [1; 2]).
Proof.
  split.
  - apply (bool_decide_unpack _). reflexivity.
  - intros dp Hdp. cbn in Hdp. rewrite !elem_of_cons, elem_of_nil in Hdp. by destruct Hdp as [-> | [-> | [-> | []]]]; eexists.
  - intros ds Hds. cbn in Hds. rewrite !elem_of_cons, elem_of_nil in Hds. by destruct Hds as [-> | [-> | []]]; eexists.
  - intros ds d ->%change_switches. split; try done.
    + by intros f p m [= <-].
    + by intros f t [= <-].
    + split; [intros h x; cbn; lia |]. intros g h x [= <-] Hh. by apply occ_drop.
Qed.

Lemma change_retaggable : retaggable (change_world [1; 2]).
Proof.
  split.
  - intros p dp [[-> ->] | [[-> ->] | [-> ->]]]%change_ports Hk; try done;
      (split; [by eexists | by intros dp [= <-]; eexists | by intros dp [= <-]; eexists | | by eexists | by intros dp [= <-]]);
      intros dp [= <-]; exists (1, 4); (split; [done | by eexists]).
  - intros p dp q [[-> ->] | [[-> ->] | [-> ->]]]%change_ports Hk Hq; try done; injection Hq as <-; by eexists.
  - intros p dp q d rest [[-> ->] | [[-> ->] | [-> ->]]]%change_ports Hk Hq; try done; injection Hq as <-; intros E; [by left | right].
    cbn in E. destruct d as [| x d]; [done |]. injection E as <- E. by left.
  - intros p [dp [[-> ->] | [[-> ->] | [-> ->]]]%change_ports]; cbn; set_solver.
  - apply (bool_decide_unpack _). reflexivity.
Qed.

Lemma change_tagged : tagged_by (fun _ => 0) tag_old (change_state [1; 2]).
Proof.
  split; try done.
  - intros p dp [[-> ->] | [[-> ->] | [-> ->]]]%change_ports; (split; intros Hk; [done |]); try done; by exists 200, old_user.
  - intros t u Ht Hu. cbn in Ht, Hu. unfold three_drivers in Ht, Hu. rewrite !elem_of_cons, elem_of_nil in Ht, Hu.
    destruct Ht as [-> | [-> | [-> | []]]], Hu as [-> | [-> | [-> | []]]]; done.
  - repeat constructor; by intros.
  - exists 100. split; [by exists (mkTagDriver tag_old "ax" 100) |]. intros x. unfold refs. cbn.
    case_decide as E; [subst; by rewrite lookup_singleton_eq | by rewrite lookup_singleton_ne].
Qed.

Definition store_in (nh : list Z) (name : string) := tagging_store (fun _ _ => false) true 200 name 4 (change_state nh).


Definition gives (rv id : Z) (r : option (Z * tagging kernel)) : bool :=
  match r with Some (e, s) => (e =? rv) && bool_decide (to_id <$> dst_tag_ops (w_tree (tg_world s)) = Some id) | None => false end.
Lemma gives_inv rv id r : gives rv id r = true -> exists s, r = Some (rv, s) /\ to_id <$> dst_tag_ops (w_tree (tg_world s)) = Some id.
Proof.
  destruct r as [[e s] |]; [| done]. intros [E1 E2]%andb_true_iff. apply Z.eqb_eq in E1. subst. exists s. split; [done |].
  by apply bool_decide_eq_true in E2.
Qed.
Lemma total_at {W A} (m : st W A) w Q a w' : m w = Some (a, w') -> total m w Q -> Q a w'.
Proof. unfold total. by intros ->. Qed.


(** The switch with the CPU port is notified last: the interface of the other one
    keeps sending with the old tagger, though the write succeeds. *)
Example late_cpu : match store_in [2; 1] "rtl" with
  | Some (rv, s') => (rv =? 4) && bool_decide (to_id <$> tg_cpu s' !! (1, 4) = Some 9) && bool_decide (ut_xmit <$> tg_user s' !! (2, 0) = Some 7)
  | None => false
  end = true.
Proof. vm_compute. reflexivity. Qed.

End ChangeDemo.
