(* ===== verification/DsaLoop.v ===== *)
(** * The switch driver (DSA/dsa_loop.c)

    The switch needs little of its driver: it keeps a table of five VLANs, the
    port VLAN of each port and four counters of PHY accesses, reaches the PHYs
    over the bus the switch sits on, and answers everything else with success.
    Its operations are an instance of the [dsa_switch_ops] of [DsaTypes] on any
    hardware that has a place for its private data; an access outside of its
    tables is recorded as [lp_wild]. *)

From Stdlib Require Import ZArith Lia Bool Ascii String.
From stdpp Require Import strings.
From S2P Require Import Prelude.
From S2P Require Import Kernel.
From S2P Require Import DsaTypes.
From S2P Require Import DsaSwitch.
From S2P Require Import Dsa8021q.
From S2P Require Import DsaEvent.
From S2P Require Import DsaSafe.
From S2P Require Import DsaPort.
From S2P Require Import DsaMember.
From S2P Require Import DsaLife.
From S2P Require Import DsaTree.
From S2P Require Import DsaAccount.
From S2P Require Import TagDrivers.
From S2P Require Import DsaRegister.

Definition DSA_TAG_PROTO_SDSA : Z := 28.
Definition DSA_LOOP_VLANS : Z := 5.
Definition DSA_LOOP_CPU_PORT : Z := 4.
Definition ETH_GSTRING_LEN : Z := 32.
Definition ETH_SS_STATS : Z := 1.
Definition ETH_SS_PHY_STATS : Z := 7.
Definition MII_BMSR : Z := 1.

Record dsa_loop_vlan := mkLoopVlan { lv_members : Z; lv_untagged : Z }.
Record dsa_loop_mib_entry := mkMib { mib_name : string; mib_val : Z }.

Definition DSA_LOOP_PHY_READ_OK : Z := 0.
Definition DSA_LOOP_PHY_READ_ERR : Z := 1.
Definition DSA_LOOP_PHY_WRITE_OK : Z := 2.
Definition DSA_LOOP_PHY_WRITE_ERR : Z := 3.
Definition __DSA_LOOP_CNT_MAX : Z := 4.

Record dsa_loop_port := mkLoopPort { lpt_mib : list dsa_loop_mib_entry; lpt_pvid : Z }.
Definition set_mib (m : list dsa_loop_mib_entry) (p : dsa_loop_port) : dsa_loop_port := mkLoopPort m (lpt_pvid p).
Definition set_pvid (v : Z) (p : dsa_loop_port) : dsa_loop_port := mkLoopPort (lpt_mib p) v.

(** Without the bus, which is the hardware's, and the network device, which only
    [DsaLoopDrv] looks at. *)
Record dsa_loop_priv := mkLoopPriv {
  lp_port_base : Z;
  lp_vlans : list dsa_loop_vlan;
  lp_ports : list dsa_loop_port;
  lp_wild : bool;                    (* memory outside of the tables was touched *)
}.
Definition set_lp_vlans x p := mkLoopPriv (lp_port_base p) x (lp_ports p) (lp_wild p).
Definition set_lp_ports x p := mkLoopPriv (lp_port_base p) (lp_vlans p) x (lp_wild p).
Definition set_lp_wild p := mkLoopPriv (lp_port_base p) (lp_vlans p) (lp_ports p) true.

(** As [devm_kzalloc] leaves it. *)
Definition zero_priv : dsa_loop_priv :=
  mkLoopPriv 0 (replicate 5 (mkLoopVlan 0 0)) (replicate 12 (mkLoopPort (replicate 4 (mkMib "" 0)) 0)) false.

Definition dsa_loop_mibs : list dsa_loop_mib_entry :=
  [mkMib "phy_read_ok" 0; mkMib "phy_read_err" 0; mkMib "phy_write_ok" 0; mkMib "phy_write_err" 0].

(** A change of an array element, wild where there is none. *)
Definition change {A} (l : list A) (i : Z) (f : A -> A) : option (list A) := a ← getz l i; setz l i (f a).
Definition change_vlan (vid : Z) (f : dsa_loop_vlan -> dsa_loop_vlan) (p : dsa_loop_priv) : dsa_loop_priv :=
  match change (lp_vlans p) vid f with Some l => set_lp_vlans l p | None => set_lp_wild p end.
Definition change_port (port : Z) (f : dsa_loop_port -> dsa_loop_port) (p : dsa_loop_priv) : dsa_loop_priv :=
  match change (lp_ports p) port f with Some l => set_lp_ports l p | None => set_lp_wild p end.

Definition BIT (n : Z) : Z := Z.shiftl 1 n.

(** The hardware: the private data of each switch, and the bus it sits on, whose
    transfers do not touch it. *)
Class LoopHw (H : Type) `{!LifeApi H} := {
  loop_priv : Z -> H -> dsa_loop_priv;
  set_loop_priv : Z -> dsa_loop_priv -> H -> H;
  loop_get_set ds p h : loop_priv ds (set_loop_priv ds p h) = p;
  loop_get_other ds ds' p h : ds <> ds' -> loop_priv ds (set_loop_priv ds' p h) = loop_priv ds h;
  quiet_priv ds p : quiet held (set_loop_priv ds p);
  mdiobus_read : Z -> Z -> Z -> H -> Z * H;          (* switch, address, register *)
  mdiobus_write : Z -> Z -> Z -> Z -> H -> Z * H;
  quiet_mdio_read ds a r : quiet held (fun h => snd (mdiobus_read ds a r h));
  quiet_mdio_write ds a r v : quiet held (fun h => snd (mdiobus_write ds a r v h));
  loop_mdio_read ds i a r h : loop_priv i (snd (mdiobus_read ds a r h)) = loop_priv i h;
  loop_mdio_write ds i a r v h : loop_priv i (snd (mdiobus_write ds a r v h)) = loop_priv i h;
}.

Section Driver.
Context {H : Type} `{!LifeApi H, !LoopHw H}.
Implicit Types (ds port : Z) (h : H).

Definition upd_priv ds (f : dsa_loop_priv -> dsa_loop_priv) h : H := set_loop_priv ds (f (loop_priv ds h)) h.

(** ** Set-up *)

Definition dsa_loop_devlink_vtu_get ds h : Z :=
  Z.of_nat (length (List.filter (fun vl => negb (lv_members vl =? 0)) (lp_vlans (loop_priv ds h)))).

(** Takes back the resources of the devlink of the switch; here, the one of this
    driver, if it is [registered]. *)
Definition dsa_devlink_resources_unregister (registered : bool) ds h : H :=
  if registered then release (Driver ds) h else h.

Definition dsa_loop_setup_devlink_resources ds h : Z * H :=
  let '(err, h) := acquire (Driver ds) h in
  if negb (err =? 0) then (err, dsa_devlink_resources_unregister false ds h) else (0, h).

Definition dsa_loop_get_protocol ds port (mp : Z) h : Z := DSA_TAG_PROTO_SDSA.

(** [ds->num_ports] is five. *)
Definition dsa_loop_setup ds h : Z * H :=
  dsa_loop_setup_devlink_resources ds
    (upd_priv ds (fun p => foldl (fun p i => change_port i (set_mib dsa_loop_mibs) p) p (seqZ 0 5)) h).

Definition dsa_loop_teardown ds h : H := dsa_devlink_resources_unregister true ds h.

(** ** Statistics *)

Definition dsa_loop_get_sset_count (sset : Z) : Z :=
  if negb (sset =? ETH_SS_STATS) && negb (sset =? ETH_SS_PHY_STATS) then 0 else __DSA_LOOP_CNT_MAX.

(** The name field of an entry: thirty-two bytes, zero filled. *)
Definition name_bytes (s : string) : list Z :=
  let l := (fun c => Z.of_N (N_of_ascii c)) <$> String.list_ascii_of_string s in
  l ++ replicate (Z.to_nat ETH_GSTRING_LEN - length l) 0.

(** [memcpy] to offset [o], within the buffer. *)
Definition put_bytes (l : list Z) (o : Z) (b : list Z) : option (list Z) :=
  if (0 <=? o) && (o + Z.of_nat (length b) <=? Z.of_nat (length l))
  then Some (take (Z.to_nat o) l ++ b ++ drop (Z.to_nat o + length b) l) else None.

Definition dsa_loop_get_strings ds port (stringset : Z) (data : list Z) h : option (list Z) :=
  if negb (stringset =? ETH_SS_STATS) && negb (stringset =? ETH_SS_PHY_STATS) then Some data
  else
    foldl (fun o i =>
      data ← o; p ← getz (lp_ports (loop_priv ds h)) port; m ← getz (lpt_mib p) i;
      put_bytes data (i * ETH_GSTRING_LEN) (name_bytes (mib_name m))) (Some data) (seqZ 0 __DSA_LOOP_CNT_MAX).

Definition dsa_loop_get_ethtool_stats ds port (data : list Z) h : option (list Z) :=
  foldl (fun o i =>
    data ← o; p ← getz (lp_ports (loop_priv ds h)) port; m ← getz (lpt_mib p) i;
    setz data i (mib_val m)) (Some data) (seqZ 0 __DSA_LOOP_CNT_MAX).

(** ** PHYs *)

(** [ps->ports[port].mib[i].val++], an unsigned long. *)
Definition count_mib port (i : Z) : dsa_loop_priv -> dsa_loop_priv :=
  change_port port (fun p =>
    match change (lpt_mib p) i (fun m => mkMib (mib_name m) (u64 (mib_val m + 1))) with
    | Some l => set_mib l p | None => p end).

Definition dsa_loop_phy_read ds port (regnum : Z) h : Z * H :=
  let tmp := if regnum =? 0x12 then 0x1a else regnum in
  let '(ret, h) := mdiobus_read ds (lp_port_base (loop_priv ds h) + port) tmp h in
  (ret, upd_priv ds (count_mib port (if ret <? 0 then DSA_LOOP_PHY_READ_ERR else DSA_LOOP_PHY_READ_OK)) h).

Definition dsa_loop_phy_write ds port (regnum value : Z) h : Z * H :=
  let '(ret, h) := mdiobus_write ds (lp_port_base (loop_priv ds h) + port) regnum value h in
  (ret, upd_priv ds (count_mib port (if ret <? 0 then DSA_LOOP_PHY_WRITE_ERR else DSA_LOOP_PHY_WRITE_OK)) h).

(** ** Bridging *)

Definition dsa_loop_port_bridge_join ds port (bridge : bridge_info) (tx_fwd_offload : bool) h : Z * bool * H :=
  (0, tx_fwd_offload, h).
Definition dsa_loop_port_bridge_leave ds port (bridge : bridge_info) h : H := h.
Definition dsa_loop_port_stp_state_set ds port (state : Z) h : H := h.
Definition dsa_loop_port_vlan_filtering ds port (vlan_filtering : bool) h : Z * H := (0, h).

Definition has_flag (vlan : switchdev_obj_port_vlan) (flag : Z) : bool := negb (Z.land (vlan_flags vlan) flag =? 0).

(** [x |= BIT(n)] and [x &= ~BIT(n)] on sixteen bits. *)
Definition or_bit (n x : Z) : Z := u16 (Z.lor x (BIT n)).
Definition clear (n x : Z) : Z := u16 (Z.land x (Z.lnot (BIT n))).

Definition dsa_loop_port_vlan_add ds port (vlan : switchdev_obj_port_vlan) h : Z * H :=
  if DSA_LOOP_VLANS <=? vlan_vid vlan then (- ERANGE, h)
  else
    let '(_, h) := mdiobus_read ds (lp_port_base (loop_priv ds h) + port) MII_BMSR h in
    let h := upd_priv ds (change_vlan (vlan_vid vlan) (fun vl =>
      mkLoopVlan (or_bit port (lv_members vl))
        ((if has_flag vlan BRIDGE_VLAN_INFO_UNTAGGED then or_bit port else clear port) (lv_untagged vl)))) h in
    (0, if has_flag vlan BRIDGE_VLAN_INFO_PVID
        then upd_priv ds (change_port port (set_pvid (u16 (vlan_vid vlan)))) h else h).

Definition dsa_loop_port_vlan_del ds port (vlan : switchdev_obj_port_vlan) h : Z * H :=
  match getz (lp_ports (loop_priv ds h)) port with
  | None => (0, upd_priv ds set_lp_wild h)
  | Some p =>
      let pvid := lpt_pvid p in
      let '(_, h) := mdiobus_read ds (lp_port_base (loop_priv ds h) + port) MII_BMSR h in
      let h := upd_priv ds (change_vlan (vlan_vid vlan) (fun vl =>
        mkLoopVlan (clear port (lv_members vl))
          ((if has_flag vlan BRIDGE_VLAN_INFO_UNTAGGED then clear port else id) (lv_untagged vl)))) h in
      (0, upd_priv ds (change_port port (set_pvid (if pvid =? vlan_vid vlan then 1 else pvid))) h)
  end.

(** ** Links *)

Record fixed_phy_status := mkFixed { fx_link : Z; fx_speed : Z; fx_duplex : Z; fx_pause : Z; fx_asym_pause : Z }.
Definition SPEED_1000 : Z := 1000.
Definition DUPLEX_FULL : Z := 1.
Definition dsa_loop_fixed_link_update (st : fixed_phy_status) : fixed_phy_status := mkFixed 1 SPEED_1000 DUPLEX_FULL 0 0.

Definition dsa_loop_port_enable ds port h : Z * H := (0, h).
Definition dsa_loop_port_disable ds port h : H := h.

(** All interfaces but number zero, [PHY_INTERFACE_MODE_NA], of [n]; and every
    MAC capability. *)
Definition dsa_loop_phylink_get_caps (n : Z) : Z * Z := (Z.clearbit (Z.ones n) 0, u64 (-1)).

(** Port four, if it is there and a CPU port; a null pointer would fault. *)
Definition ax_preferred_default_local_cpu_port (w : world H) ds : option (option pid) :=
  cpu_dp ← dsa_to_port w ds 4; Some (if dsa_port_is_cpu cpu_dp then Some (ds, 4) else None).

(** The operation as [DsaTypes] has it does not see the ports: the type of port
    four is left to the caller, who looks at it again. *)
Definition preferred_port ds h : option pid := Some (ds, 4).

Definition dsa_loop_driver : dsa_switch_ops H :=
  mkOps None None (Some dsa_loop_port_bridge_join) (Some dsa_loop_port_bridge_leave) None None None None None None
    None None (Some dsa_loop_port_vlan_add) (Some dsa_loop_port_vlan_del) None None None None None None None None None
    (mkPortOps (Some dsa_loop_port_stp_state_set) None None None None (Some dsa_loop_port_vlan_filtering)
       (Some dsa_loop_port_enable) (Some dsa_loop_port_disable) None None None None None None)
    (mkSetupOps dsa_loop_setup (Some dsa_loop_teardown) (Some preferred_port)
       (fun ds port mp h => dsa_loop_get_protocol ds port mp h) None None true None None None None).

End Driver.

(** ** Arrays and bits *)

Lemma change_in {A} (l : list A) i f : 0 <= i < Z.of_nat (length l) ->
  exists l', change l i f = Some l' /\ length l' = length l /\
    forall j, getz l' j = if decide (j = i) then f <$> getz l i else getz l j.
Proof.
  intros Hi. destruct (getz_in l i Hi) as [a Ha]. exists (<[Z.to_nat i := f a]> l).
  assert (Es : setz l i (f a) = Some (<[Z.to_nat i := f a]> l)) by (by apply setz_in).
  unfold change. rewrite Ha. split_and!; [exact Es | apply length_insert |]. intros j. case_decide as E.
  - subst j. by rewrite (getz_setz_eq _ _ _ _ Es).
  - by apply (getz_setz_ne _ _ _ _ _ Es).
Qed.

Lemma change_out {A} (l : list A) i f : Z.of_nat (length l) <= i -> change l i f = None.
Proof.
  intros Hi. unfold change. destruct (getz l i) as [a |] eqn:E; [| done]. apply getz_Some_range in E. lia.
Qed.

Lemma or_bit_spec n x k : 0 <= n -> 0 <= k < 16 -> Z.testbit (or_bit n x) k = Z.testbit x k || (k =? n).
Proof.
  intros Hn Hk. unfold or_bit, u16, BIT. rewrite Z.mod_pow2_bits_low, Z.lor_spec, Z.shiftl_1_l by lia.
  f_equal. destruct (Z.eqb_spec k n) as [-> |]; [by apply Z.pow2_bits_true | by apply Z.pow2_bits_false].
Qed.

Lemma clear_spec n x k : 0 <= n -> 0 <= k < 16 -> Z.testbit (clear n x) k = Z.testbit x k && negb (k =? n).
Proof.
  intros Hn Hk. unfold clear, u16, BIT. rewrite Z.mod_pow2_bits_low, Z.land_spec, Z.lnot_spec, Z.shiftl_1_l by lia.
  do 2 f_equal. destruct (Z.eqb_spec k n) as [-> |]; [by apply Z.pow2_bits_true | by apply Z.pow2_bits_false].
Qed.

(** No bit, no member. *)
Lemma no_bit_zero x : is_u16 x -> (forall k, 0 <= k < 16 -> Z.testbit x k = false) -> x = 0.
Proof.
  intros Hx Hb. apply Z.bits_inj_0. intros k. destruct (decide (0 <= k < 16)) as [| Hn]; [by apply Hb |].
  destruct (decide (k < 0)); [by apply Z.testbit_neg_r |]. apply Z.bits_above_log2; [unfold is_u16 in Hx; lia |].
  destruct (decide (x = 0)) as [-> | Hx0]; [cbn; lia |]. apply Z.lt_le_trans with 16; [| lia].
  unfold is_u16 in Hx. apply Z.log2_lt_pow2; lia.
Qed.

(** ** The VLANs of the ports, abstractly *)

(** Which ports are members of which VLANs, which untagged, and their port VLANs. *)
Record vlan_table := mkTable { vt_members : gset (Z * Z); vt_untagged : gset (Z * Z); vt_pvid : Z -> Z }.

Inductive vlan_call := VlanAdd (port : Z) (vlan : switchdev_obj_port_vlan) | VlanDel (port : Z) (vlan : switchdev_obj_port_vlan).

Definition spec_call (c : vlan_call) (t : vlan_table) : Z * vlan_table :=
  match c with
  | VlanAdd port vlan =>
      let e := (vlan_vid vlan, port) in
      if DSA_LOOP_VLANS <=? vlan_vid vlan then (- ERANGE, t)
      else (0, mkTable ({[ e ]} ∪ vt_members t)
        (if has_flag vlan BRIDGE_VLAN_INFO_UNTAGGED then {[ e ]} ∪ vt_untagged t else vt_untagged t ∖ {[ e ]})
        (if has_flag vlan BRIDGE_VLAN_INFO_PVID then fun i => if i =? port then vlan_vid vlan else vt_pvid t i else vt_pvid t))
  | VlanDel port vlan =>
      let e := (vlan_vid vlan, port) in
      (0, mkTable (vt_members t ∖ {[ e ]})
        (if has_flag vlan BRIDGE_VLAN_INFO_UNTAGGED then vt_untagged t ∖ {[ e ]} else vt_untagged t)
        (fun i => if (i =? port) && (vt_pvid t i =? vlan_vid vlan) then 1 else vt_pvid t i))
  end.

(** The calls within bounds: a port of the switch, and a VLAN that is in the
    table, but for an addition, which looks. *)
Definition call_ok (c : vlan_call) : Prop :=
  match c with
  | VlanAdd port vlan => 0 <= port < DSA_MAX_PORTS /\ 0 <= vlan_vid vlan
  | VlanDel port vlan => 0 <= port < DSA_MAX_PORTS /\ 0 <= vlan_vid vlan < DSA_LOOP_VLANS
  end.

(** The private data holds the table. *)
Record holds_table (p : dsa_loop_priv) (t : vlan_table) : Prop := {
  ht_vlans : Z.of_nat (length (lp_vlans p)) = DSA_LOOP_VLANS;
  ht_ports : Z.of_nat (length (lp_ports p)) = DSA_MAX_PORTS;
  ht_wild : lp_wild p = false;
  ht_entry vid vl : getz (lp_vlans p) vid = Some vl -> is_u16 (lv_members vl) /\
    forall k, 0 <= k < 16 -> Z.testbit (lv_members vl) k = bool_decide ((vid, k) ∈ vt_members t) /\
      Z.testbit (lv_untagged vl) k = bool_decide ((vid, k) ∈ vt_untagged t);
  ht_port i q : getz (lp_ports p) i = Some q -> lpt_pvid q = vt_pvid t i;
}.

(** ** The table refines it *)

Lemma change_vlan_ok p t vid f m u : holds_table p t -> 0 <= vid < DSA_LOOP_VLANS ->
  (forall vl, getz (lp_vlans p) vid = Some vl -> is_u16 (lv_members (f vl)) /\
    forall k, 0 <= k < 16 -> Z.testbit (lv_members (f vl)) k = bool_decide ((vid, k) ∈ m) /\
      Z.testbit (lv_untagged (f vl)) k = bool_decide ((vid, k) ∈ u)) ->
  (forall v k, v <> vid -> ((v, k) ∈ m <-> (v, k) ∈ vt_members t) /\ ((v, k) ∈ u <-> (v, k) ∈ vt_untagged t)) ->
  holds_table (change_vlan vid f p) (mkTable m u (vt_pvid t)).
Proof.
  intros [Lv Lp Hw He Hp] Hvid Hf Ho. unfold change_vlan.
  destruct (change_in (lp_vlans p) vid f) as (l & -> & El & Hl); [by rewrite Lv |].
  split; cbn; [by rewrite El | done | done | | done]. intros v vl Hv. rewrite Hl in Hv. case_decide as E.
  - subst v. apply fmap_Some in Hv as (vl0 & Hv & ->). by apply Hf.
  - destruct (He v vl Hv) as [Hu Hb]. split; [done |]. intros k Hk. destruct (Hb k Hk) as [-> ->]. destruct (Ho v k E).
    by split; apply bool_decide_ext.
Qed.

Lemma change_pvid_ok p m u pv0 port v pv : holds_table p (mkTable m u pv0) -> 0 <= port < DSA_MAX_PORTS ->
  pv port = v -> (forall i, i <> port -> pv i = pv0 i) ->
  holds_table (change_port port (set_pvid v) p) (mkTable m u pv).
Proof.
  intros [Lv Lp Hw He Hp] Hport Hv Ho. unfold change_port.
  destruct (change_in (lp_ports p) port (set_pvid v)) as (l & -> & El & Hl); [by rewrite Lp |].
  split; cbn; [done | by rewrite El | done | done |]. intros i q Hq. rewrite Hl in Hq. case_decide as E.
  - subst i. apply fmap_Some in Hq as (q0 & _ & ->). done.
  - rewrite Ho by done. by apply Hp.
Qed.

Lemma u16_vid vid : 0 <= vid < DSA_LOOP_VLANS -> u16 vid = vid.
Proof. intros Hv. apply u16_small. unfold is_u16, DSA_LOOP_VLANS in *. lia. Qed.

(** Membership of a pair, as set by one bit. *)
Lemma bit_union (vid port k : Z) (s : gset (Z * Z)) :
  bool_decide ((vid, k) ∈ s) || (k =? port) = bool_decide ((vid, k) ∈ {[ (vid, port) ]} ∪ s).
Proof.
  destruct (Z.eqb_spec k port) as [-> | Hne]; [rewrite orb_true_r | rewrite orb_false_r]; symmetry; [apply bool_decide_true; set_solver |].
  apply bool_decide_ext. set_solver.
Qed.
Lemma bit_minus (vid port k : Z) (s : gset (Z * Z)) :
  bool_decide ((vid, k) ∈ s) && negb (k =? port) = bool_decide ((vid, k) ∈ s ∖ {[ (vid, port) ]}).
Proof.
  destruct (Z.eqb_spec k port) as [-> | Hne]; cbn; [rewrite andb_false_r | rewrite andb_true_r]; symmetry; [apply bool_decide_false; set_solver |].
  apply bool_decide_ext. set_solver.
Qed.

Section Table.
Context {H : Type} `{!LifeApi H, !LoopHw H}.
Implicit Types (ds port : Z) (h : H) (t : vlan_table).

Definition run_call ds (c : vlan_call) h : Z * H :=
  match c with
  | VlanAdd port vlan => dsa_loop_port_vlan_add ds port vlan h
  | VlanDel port vlan => dsa_loop_port_vlan_del ds port vlan h
  end.

(** The private data of [ds] goes from [h] to [h'] by [f]. *)
Definition priv_step ds (f : dsa_loop_priv -> dsa_loop_priv) h h' : Prop :=
  loop_priv ds h' = f (loop_priv ds h) /\ forall i, i <> ds -> loop_priv i h' = loop_priv i h.

Lemma priv_refl ds h : priv_step ds id h h.
Proof using. done. Qed.
Lemma priv_upd ds f g h h' : priv_step ds f h h' -> priv_step ds (g ∘ f) h (upd_priv ds g h').
Proof using.
  intros [E Ho]. unfold upd_priv. split; [by rewrite loop_get_set, E |]. intros i Hi. rewrite loop_get_other by done. by apply Ho.
Qed.
Lemma priv_read ds d a r h : priv_step ds id h (snd (mdiobus_read d a r h)).
Proof using. split; [by rewrite loop_mdio_read |]. intros i _. by rewrite loop_mdio_read. Qed.

(** What one call makes of the private data. *)
Definition add_step port (vlan : switchdev_obj_port_vlan) (p : dsa_loop_priv) : dsa_loop_priv :=
  let p := change_vlan (vlan_vid vlan) (fun vl =>
    mkLoopVlan (or_bit port (lv_members vl))
      ((if has_flag vlan BRIDGE_VLAN_INFO_UNTAGGED then or_bit port else clear port) (lv_untagged vl))) p in
  if has_flag vlan BRIDGE_VLAN_INFO_PVID then change_port port (set_pvid (u16 (vlan_vid vlan))) p else p.
Definition del_step port (vlan : switchdev_obj_port_vlan) (pvid : Z) (p : dsa_loop_priv) : dsa_loop_priv :=
  change_port port (set_pvid (if pvid =? vlan_vid vlan then 1 else pvid)) (change_vlan (vlan_vid vlan) (fun vl =>
    mkLoopVlan (clear port (lv_members vl))
      ((if has_flag vlan BRIDGE_VLAN_INFO_UNTAGGED then clear port else id) (lv_untagged vl))) p).

Lemma loop_add_run ds port vlan h : vlan_vid vlan < DSA_LOOP_VLANS ->
  fst (dsa_loop_port_vlan_add ds port vlan h) = 0 /\
  priv_step ds (add_step port vlan) h (snd (dsa_loop_port_vlan_add ds port vlan h)).
Proof using.
  intros Hv. unfold dsa_loop_port_vlan_add. rewrite (proj2 (Z.leb_gt _ _) Hv).
  pose proof (priv_read ds ds (lp_port_base (loop_priv ds h) + port) MII_BMSR h) as Hr.
  destruct (mdiobus_read _ _ _ h) as [r h1]. cbn [fst snd] in *. split; [done |]. unfold add_step.
  destruct (has_flag vlan BRIDGE_VLAN_INFO_PVID).
  - exact (priv_upd ds _ _ _ _ (priv_upd ds _ _ _ _ Hr)).
  - exact (priv_upd ds _ _ _ _ Hr).
Qed.

Lemma loop_del_run ds port vlan h q : getz (lp_ports (loop_priv ds h)) port = Some q ->
  fst (dsa_loop_port_vlan_del ds port vlan h) = 0 /\
  priv_step ds (del_step port vlan (lpt_pvid q)) h (snd (dsa_loop_port_vlan_del ds port vlan h)).
Proof using.
  intros Hq. unfold dsa_loop_port_vlan_del. rewrite Hq.
  pose proof (priv_read ds ds (lp_port_base (loop_priv ds h) + port) MII_BMSR h) as Hr.
  destruct (mdiobus_read _ _ _ h) as [r h1]. cbn [fst snd] in *. split; [done |]. exact (priv_upd ds _ _ _ _ (priv_upd ds _ _ _ _ Hr)).
Qed.

Lemma add_step_ok port vlan p t : holds_table p t -> 0 <= port < DSA_MAX_PORTS -> 0 <= vlan_vid vlan < DSA_LOOP_VLANS ->
  holds_table (add_step port vlan p) (snd (spec_call (VlanAdd port vlan) t)).
Proof using.
  intros Hp Hport Hv. cbn [spec_call]. rewrite (proj2 (Z.leb_gt _ _)) by lia. cbn [snd].
  assert (Hc : holds_table (change_vlan (vlan_vid vlan) (fun vl => mkLoopVlan (or_bit port (lv_members vl))
      ((if has_flag vlan BRIDGE_VLAN_INFO_UNTAGGED then or_bit port else clear port) (lv_untagged vl))) p)
    (mkTable ({[ (vlan_vid vlan, port) ]} ∪ vt_members t)
      (if has_flag vlan BRIDGE_VLAN_INFO_UNTAGGED then {[ (vlan_vid vlan, port) ]} ∪ vt_untagged t
       else vt_untagged t ∖ {[ (vlan_vid vlan, port) ]}) (vt_pvid t))).
  { apply change_vlan_ok; [done | done | |].
    - intros vl Hvl. destruct (ht_entry _ _ Hp _ _ Hvl) as [_ Hb]. split; [apply u16_range |]. intros k Hk.
      destruct (Hb k Hk) as [Hm Hu]. cbn [lv_members lv_untagged]. rewrite or_bit_spec, Hm, bit_union by lia. split; [done |].
      destruct (has_flag _ _); [by rewrite or_bit_spec, Hu, bit_union by lia | by rewrite clear_spec, Hu, bit_minus by lia].
    - intros v k Hne. split; [set_solver |]. destruct (has_flag _ _); set_solver. }
  unfold add_step. destruct (has_flag vlan BRIDGE_VLAN_INFO_PVID); [| exact Hc].
  apply (change_pvid_ok _ _ _ _ _ _ _ Hc Hport); [by rewrite Z.eqb_refl, u16_vid |].
  intros i Hi. by rewrite (proj2 (Z.eqb_neq _ _) Hi).
Qed.

Lemma del_step_ok port vlan p t q : holds_table p t -> getz (lp_ports p) port = Some q -> 0 <= vlan_vid vlan < DSA_LOOP_VLANS ->
  holds_table (del_step port vlan (lpt_pvid q) p) (snd (spec_call (VlanDel port vlan) t)).
Proof using.
  intros Hp Hq Hv. pose proof (getz_Some_range _ _ _ Hq) as Hport. rewrite (ht_ports _ _ Hp) in Hport.
  rewrite (ht_port _ _ Hp _ _ Hq). cbn [spec_call snd]. unfold del_step.
  eapply (change_pvid_ok _ _ _ (vt_pvid t)); [| exact Hport | by rewrite Z.eqb_refl |].
  2: { intros i Hi. cbn. by rewrite (proj2 (Z.eqb_neq _ _) Hi). }
  apply change_vlan_ok; [done | done | |].
  - intros vl Hvl. destruct (ht_entry _ _ Hp _ _ Hvl) as [_ Hb]. split; [apply u16_range |]. intros k Hk.
    destruct (Hb k Hk) as [Hm Hu]. cbn [lv_members lv_untagged]. rewrite clear_spec, Hm, bit_minus by lia. split; [done |].
    destruct (has_flag _ _); [by rewrite clear_spec, Hu, bit_minus by lia | exact Hu].
  - intros v k Hne. split; [set_solver |]. destruct (has_flag _ _); set_solver.
Qed.

(** One call. *)
Lemma run_call_ok ds c h t : holds_table (loop_priv ds h) t -> call_ok c ->
  fst (run_call ds c h) = fst (spec_call c t) /\
  holds_table (loop_priv ds (snd (run_call ds c h))) (snd (spec_call c t)) /\
  forall i, i <> ds -> loop_priv i (snd (run_call ds c h)) = loop_priv i h.
Proof using.
  intros Hp. destruct c as [port vlan | port vlan]; intros [Hport Hv]; cbn [run_call].
  - destruct (Z.leb_spec DSA_LOOP_VLANS (vlan_vid vlan)) as [Hge | Hlt].
    { unfold dsa_loop_port_vlan_add. cbn [spec_call]. rewrite (proj2 (Z.leb_le _ _) Hge). by split_and!. }
    destruct (loop_add_run ds port vlan h Hlt) as (-> & E & Ho). rewrite E. split_and!; [| by apply add_step_ok | exact Ho].
    cbn [spec_call]. by rewrite (proj2 (Z.leb_gt _ _) Hlt).
  - destruct (getz_in (lp_ports (loop_priv ds h)) port) as [q Hq]; [by rewrite (ht_ports _ _ Hp) |].
    destruct (loop_del_run ds port vlan h q Hq) as (-> & E & Ho). rewrite E. split_and!; [done | by apply del_step_ok | exact Ho].
Qed.

(** A sequence of them, with their answers. *)
Fixpoint run_calls ds (l : list vlan_call) h : list Z * H :=
  match l with [] => ([], h) | c :: l => let '(e, h) := run_call ds c h in let '(es, h) := run_calls ds l h in (e :: es, h) end.

End Table.

Fixpoint spec_calls (l : list vlan_call) (t : vlan_table) : list Z * vlan_table :=
  match l with [] => ([], t) | c :: l => let '(e, t) := spec_call c t in let '(es, t) := spec_calls l t in (e :: es, t) end.

Definition empty_table : vlan_table := mkTable ∅ ∅ (fun _ => 0).

Lemma getz_replicate {A} n (a x : A) i : getz (replicate n a) i = Some x -> x = a.
Proof. unfold getz. case_decide; [| done]. by intros [-> _]%lookup_replicate. Qed.

Lemma zero_priv_table : holds_table zero_priv empty_table.
Proof.
  split; try done.
  - intros vid vl ->%getz_replicate. cbn. split; [unfold is_u16; lia |]. intros k _. by rewrite Z.bits_0, !bool_decide_false by set_solver.
  - by intros i q ->%getz_replicate.
Qed.

Section Results.
Context {H : Type} `{!LifeApi H, !LoopHw H}.

(** C24. The VLAN table of the driver implements its specification: through any
    sequence of additions and deletions of VLANs within bounds, the answers are
    those specified ([-ERANGE] for a VLAN beyond the table), the bits of the
    table are the memberships specified, the port VLANs too, no memory outside
    of the tables is touched, and other switches keep theirs. *)
Theorem loop_vlans_refine ds (l : list vlan_call) (h : H) (t : vlan_table) :
  holds_table (loop_priv ds h) t -> Forall call_ok l ->
  fst (run_calls ds l h) = fst (spec_calls l t) /\
  holds_table (loop_priv ds (snd (run_calls ds l h))) (snd (spec_calls l t)) /\
  forall i, i <> ds -> loop_priv i (snd (run_calls ds l h)) = loop_priv i h.
Proof.
  revert h t. induction l as [| c l IH]; intros h t Hp Hl; [done |].
  apply Forall_cons in Hl as [Hc Hl]. destruct (run_call_ok ds c h t Hp Hc) as (E1 & Hp1 & Ho1). cbn [run_calls spec_calls].
  destruct (run_call ds c h) as [e h1], (spec_call c t) as [e' t1]. cbn [fst snd] in *. subst e'.
  destruct (IH h1 t1 Hp1 Hl) as (E2 & Hp2 & Ho2).
  destruct (run_calls ds l h1) as [es h2], (spec_calls l t1) as [es' t2]. cbn [fst snd] in *. subst es'.
  split_and!; [done | done |]. intros i Hi. by rewrite Ho2, Ho1.
Qed.

(** The occupancy reported to devlink is the number of VLANs with a member. *)
Theorem vtu_occupancy ds (h : H) (t : vlan_table) : holds_table (loop_priv ds h) t ->
  dsa_loop_devlink_vtu_get ds h =
    Z.of_nat (length (List.filter (fun vid => existsb (fun k => bool_decide ((vid, k) ∈ vt_members t)) (seqZ 0 16)) (seqZ 0 DSA_LOOP_VLANS))).
Proof.
  intros Hp. unfold dsa_loop_devlink_vtu_get. f_equal. pose proof (ht_vlans _ _ Hp) as Lv. unfold DSA_LOOP_VLANS in *.
  assert (Hb : forall (i : nat) vl, lp_vlans (loop_priv ds h) !! i = Some vl -> negb (lv_members vl =? 0) =
    existsb (fun k => bool_decide ((Z.of_nat i, k) ∈ vt_members t)) (seqZ 0 16)).
  { intros i vl Hi. destruct (ht_entry _ _ Hp (Z.of_nat i) vl) as [Hu Hk]; [rewrite getz_nonneg, Nat2Z.id by lia; exact Hi |].
    apply eq_true_iff_eq. rewrite negb_true_iff, Z.eqb_neq, existsb_exists. split.
    - intros Hne. destruct (existsb (fun k => Z.testbit (lv_members vl) k) (seqZ 0 16)) eqn:Ex.
      + apply existsb_exists in Ex as (k & Hin & Ek). exists k. split; [done |].
        apply list_elem_of_In, elem_of_seqZ in Hin. destruct (Hk k) as [E _]; [lia |]. by rewrite <- E.
      + destruct Hne. apply no_bit_zero; [done |]. intros k Hr. apply not_true_is_false. intros Ek.
        rewrite <- not_true_iff_false, existsb_exists in Ex. apply Ex. exists k. split; [| done]. apply list_elem_of_In, elem_of_seqZ. lia.
    - intros (k & Hin & Ek) E. apply list_elem_of_In, elem_of_seqZ in Hin. destruct (Hk k) as [E' _]; [lia |].
      rewrite <- E', E, Z.bits_0 in Ek. done. }
  destruct (lp_vlans (loop_priv ds h)) as [| v0 [| v1 [| v2 [| v3 [| v4 [| ? ?]]]]]]; cbn in Lv; try lia.
  change (seqZ 0 5) with [0; 1; 2; 3; 4]. cbn [List.filter].
  rewrite (Hb 0%nat v0), (Hb 1%nat v1), (Hb 2%nat v2), (Hb 3%nat v3), (Hb 4%nat v4) by done.
  cbn [Z.of_nat Pos.of_succ_nat Pos.succ]. by repeat destruct (existsb _ _).
Qed.

(** A deletion beyond the table writes outside of it. *)
Lemma vlan_del_wild ds port vlan (h : H) t : holds_table (loop_priv ds h) t -> 0 <= port < DSA_MAX_PORTS ->
  DSA_LOOP_VLANS <= vlan_vid vlan -> lp_wild (loop_priv ds (snd (dsa_loop_port_vlan_del ds port vlan h))) = true.
Proof.
  intros Hp Hport Hv. destruct (getz_in (lp_ports (loop_priv ds h)) port) as [q Hq]; [by rewrite (ht_ports _ _ Hp) |].
  destruct (loop_del_run ds port vlan h q Hq) as (_ & -> & _). unfold del_step, change_vlan, change_port.
  rewrite (change_out (lp_vlans _)) by (by rewrite (ht_vlans _ _ Hp)). by destruct (change _ _ _).
Qed.

(** ** For the core *)

Lemma quiet_upd ds f : quiet held (upd_priv (H := H) ds f).
Proof. intros h x. apply quiet_priv. Qed.

(** A driver the accounting of set-up and teardown knows. *)
Lemma loop_fine ds : driver_fine ds (dsa_loop_driver (H := H)).
Proof.
  split; try done.
  - by intros f p s [= <-].
  - by intros f p [= <-].
  - by intros f p [= <-].
  - cbn. split.
    + intros h x. unfold dsa_loop_setup, dsa_loop_setup_devlink_resources.
      set (h1 := upd_priv ds _ h). pose proof (acquire_ok (Driver ds) h1 x) as Ho. pose proof (acquire_err (Driver ds) h1 x) as He.
      pose proof (acquire_neg (Driver ds) h1) as Hn. destruct (acquire (Driver ds) h1) as [e h2]. cbn [fst snd] in *.
      assert (E1 : held h1 x = held h x) by apply quiet_upd.
      destruct (Z.eqb_spec e 0) as [-> | Hne]; cbn [negb fst snd].
      * rewrite Ho, E1 by done. done.
      * unfold dsa_devlink_resources_unregister. cbn [fst snd]. rewrite (proj2 (Z.ltb_lt e 0)) by lia. rewrite He, E1 by done. lia.
    + intros g h x [= <-]. apply release_ok.
Qed.
End Results.

Section Core.
Context {H : Type} `{!LifeApi H, !LoopHw H}.

(** The preference, once the core has checked it, is that of the driver. *)
Lemma preferred_same (w : world H) ds d : w_switches w !! ds = Some d -> ds_ops d = dsa_loop_driver ->
  dsa_switch_preferred_default_local_cpu_port ds w =
  (fun o => (o, w)) <$> ax_preferred_default_local_cpu_port w ds.
Proof.
  intros Hd Ho. unfold dsa_switch_preferred_default_local_cpu_port, get_ds, mbind, st_bind, get_st, deref.
  cbn. rewrite Hd. cbn. rewrite Ho. cbn. unfold preferred_port, port_of, ax_preferred_default_local_cpu_port, mbind, st_bind, get_st, deref.
  cbn. rewrite dsa_to_port_get. destruct (get_port w (ds, 4)) as [dp |] eqn:Ep; [| done]. cbn.
  assert (Ei : dp_ds dp = ds) by (apply find_port_id in Ep; by injection Ep).
  rewrite Ei, Z.eqb_refl, orb_false_r. by destruct (dsa_port_is_cpu dp).
Qed.

End Core.
