(* ===== verification/DsaLoopDrv.v ===== *)
(** * Probing and removing the switch driver (DSA/dsa_loop.c)

    The driver core probes the driver with an MDIO device: a switch is made from
    the platform data of the device and registered on top of the network
    interface the data name.  The state is the system of [DsaRegister] with what
    the driver keeps besides. *)

From Stdlib Require Import ZArith Lia Bool String.
From stdpp Require Import strings.
From S2P Require Import Prelude.
From S2P Require Import Kernel.
From S2P Require Import DsaTypes.
From S2P Require Import DsaSwitch.
From S2P Require Import Dsa8021q.
From S2P Require Import DsaEvent.
From S2P Require Import DsaSafe.
From S2P Require Import DsaPort.
From S2P Require Import DsaMember.
From S2P Require Import DsaJoin.
From S2P Require Import DsaLife.
From S2P Require Import DsaTree.
From S2P Require Import DsaAccount.
From S2P Require Import DsaUpDown.
From S2P Require Import DsaTreeLife.
From S2P Require Import DsaTreeCycle.
From S2P Require Import TagDrivers.
From S2P Require Import DsaRegister.
From S2P Require Import DsaPlatform.
From S2P Require Import DsaRegLife.
From S2P Require Import DsaLoop.

(** The platform data; the name and the mask of ports are only printed. *)
Record dsa_loop_pdata := mkPdata { pd_cd : dsa_chip_data; pd_netdev : string }.

(** An MDIO device and its switch have the same number. *)
Record board (H : Type) := mkBoard {
  bd_sys : system H;
  bd_pdata : gmap Z dsa_loop_pdata;  (* dev.platform_data, followed *)
  bd_refs : gmap Z Z;                (* references on network devices *)
  bd_drvdata : gset Z;               (* devices whose driver data is their switch *)
  bd_netdev : gmap Z netdev;         (* ps->netdev of each switch *)
}.
#[global] Arguments mkBoard {H}.
#[global] Arguments bd_sys {H}.
#[global] Arguments bd_pdata {H}.
#[global] Arguments bd_refs {H}.
#[global] Arguments bd_drvdata {H}.
#[global] Arguments bd_netdev {H}.

(** The network devices of the kernel; [dev_get_by_name] takes a reference. *)
Class NetdevApi (H : Type) `{DescriptionApi} := {
  netdev_by_name : string -> H -> option netdev;
  netdev_dev : netdev -> Z;                  (* its struct device *)
  netdev_dev_net c : dev_is_net (netdev_dev c) = true /\ to_net_dev (netdev_dev c) = c;
}.

Section Driver.
Context {H : Type} `{RefcountApi, NotifierApi, NetQueries, !NetEffects H, !LifeApi H, !QuietNet H, PlatformApi,
  !ModuleApi H, DescriptionApi, !NetdevApi H, !LoopHw H}.
Context (tagger_data : H -> Z -> bool).
Abbreviation BM := (st (board H)).
Implicit Types (b : board H) (m : Z).

Definition netdev_refs (c : netdev) b : Z := default 0 (bd_refs b !! c).
Definition set_sys (s : system H) b : board H := mkBoard s (bd_pdata b) (bd_refs b) (bd_drvdata b) (bd_netdev b).
Definition add_netdev_refs (c : netdev) (n : Z) b : board H :=
  mkBoard (bd_sys b) (bd_pdata b) (<[c := netdev_refs c b + n]> (bd_refs b)) (bd_drvdata b) (bd_netdev b).
Definition set_drvdata (f : gset Z -> gset Z) b : board H :=
  mkBoard (bd_sys b) (bd_pdata b) (bd_refs b) (f (bd_drvdata b)) (bd_netdev b).

Definition in_system {A} (f : st (system H) A) : BM A := fun b =>
  '(a, s) ← f (bd_sys b); Some (a, set_sys s b).

Definition dev_get_by_name (name : string) : BM (option netdev) :=
  b ← get_st;
  match netdev_by_name name (sy_hw (bd_sys b)) with
  | None => mret None
  | Some c => _ ← modify (add_netdev_refs c 1); mret (Some c)
  end.
Definition dev_put (c : netdev) : BM unit := modify (add_netdev_refs c (-1)).

(** [devm_kzalloc] of the switch, with the fields the driver sets; not yet in any
    tree. *)
Definition new_ds (m : Z) : dsa_switch H :=
  mkDs 0 5 false false 0 0 dsa_loop_driver None false false false false 0 0 false.

(** The platform data with the CPU port on the interface; the store into the
    array must be within it. *)
Definition set_cpu_netdev (c : netdev) (pd : dsa_loop_pdata) : option dsa_loop_pdata :=
  l ← setz (cd_netdev (pd_cd pd)) DSA_LOOP_CPU_PORT (Some (netdev_dev c));
  Some (mkPdata (mkChip (cd_port_names (pd_cd pd)) l) (pd_netdev pd)).

(** The switch and its private data, as the driver leaves them for registration. *)
Definition install m (pd : dsa_loop_pdata) (c : netdev) b : board H :=
  let s := bd_sys b in
  mkBoard (mkSystem (sy_trees s) (sy_next s)
             (<[m := mkHandle (new_ds m) None (Some (mkDev (Some (pd_cd pd)) None))]> (sy_switches s))
             (sy_registry s) (set_loop_priv m zero_priv (sy_hw s)) (sy_alloc s))
    (<[m := pd]> (bd_pdata b)) (bd_refs b) ({[ m ]} ∪ bd_drvdata b) (<[m := c]> (bd_netdev b)).

Definition asix_dsa_loop_drv_probe m : BM Z :=
  b ← get_st;
  match bd_pdata b !! m with
  | None => mret (- ENODEV)
  | Some pdata =>
      ok ← in_system system_kzalloc;
      if negb ok then mret (- ENOMEM)
      else
        ok ← in_system system_kzalloc;
        if negb ok then mret (- ENOMEM)
        else
          o ← dev_get_by_name (pd_netdev pdata);
          match o with
          | None => mret (- EPROBE_DEFER)
          | Some c =>
              pdata ← deref (set_cpu_netdev c pdata);
              _ ← modify (install m pdata c);
              in_system (dsa_register_switch tagger_data m)
          end
  end.

Definition asix_dsa_loop_drv_remove m : BM unit :=
  b ← get_st;
  if negb (bool_decide (m ∈ bd_drvdata b)) then mret tt
  else
    _ ← in_system (dsa_unregister_switch tagger_data m);
    b ← get_st;
    c ← deref (bd_netdev b !! m);
    dev_put c.

(** ** A switch as the core wants it *)

Definition loop_platform (pd : dsa_loop_pdata) (c : netdev) : platform H := mkPlatform dsa_loop_driver 5 (pd_cd pd) 4 c.

(** Platform data with names for the user ports, and "cpu" for port four only. *)
Record pdata_ok (pd : dsa_loop_pdata) : Prop := {
  po_names : Z.of_nat (length (cd_port_names (pd_cd pd))) = DSA_MAX_PORTS;
  po_devs : Z.of_nat (length (cd_netdev (pd_cd pd))) = DSA_MAX_PORTS;
  po_beyond i name : getz (cd_port_names (pd_cd pd)) i = Some (Some name) -> i < 5;
  po_cpu i : getz (cd_port_names (pd_cd pd)) i = Some (Some "cpu"%string) <-> i = DSA_LOOP_CPU_PORT;
}.

Lemma set_cpu_ok c pd : pdata_ok pd -> exists pd', set_cpu_netdev c pd = Some pd' /\ pdata_ok pd' /\
  getz (cd_netdev (pd_cd pd')) DSA_LOOP_CPU_PORT = Some (Some (netdev_dev c)).
Proof using.
  intros [Pn Pd Pb Pc]. unfold set_cpu_netdev.
  destruct (setz (cd_netdev (pd_cd pd)) DSA_LOOP_CPU_PORT (Some (netdev_dev c))) as [l |] eqn:E.
  2: { rewrite setz_in in E by (rewrite Pd; unfold DSA_LOOP_CPU_PORT, DSA_MAX_PORTS; lia). done. }
  eexists. split; [done |]. split; [| by apply (getz_setz_eq _ _ _ _ E)].
  split; cbn; [done | by rewrite (setz_length _ _ _ _ E) | done | done].
Qed.

(** What is registered meets the requirements of the core. *)
Lemma loop_platform_ok m c pd : pdata_ok pd -> getz (cd_netdev (pd_cd pd)) DSA_LOOP_CPU_PORT = Some (Some (netdev_dev c)) ->
  dsa_ptr c = Some (m, DSA_LOOP_CPU_PORT) -> user_dev_port c = None -> platform_ok m (loop_platform pd c).
Proof using.
  intros [Pn Pd Pb Pc] Hdev Hptr Hu. split; try done.
  - exists (netdev_dev c). split; [done |]. intros c'. unfold dsa_dev_to_net_device.
    destruct (netdev_dev_net c) as [-> ->]. by intros [= <-].
  - apply loop_fine.
  - intros f h q [= <-] [= <-]. cbn. lia.
Qed.

End Driver.

(** ** The life of a board *)

Section Board.
Context {H : Type} `{RefcountApi, NotifierApi, NetQueries, !NetEffects H, !LifeApi H, !QuietNet H, PlatformApi,
  !ModuleApi H, DescriptionApi, !NetdevApi H, !LoopHw H}.
Context (tagger_data : H -> Z -> bool).
Context (mdio_registers : forall ds h, fst (acquire (H := H) (MdioRegistered ds) h) = 0).
Context (devlink_registers : forall ds h, fst (acquire (H := H) (DevlinkRegistered ds) h) = 0).
Context (quiet_loads : forall k l, quiet_taggers (H := H) l -> quiet_taggers (request_module k l)).
Context (base : resource -> Z) (base_pos : forall x, 0 <= base x) (rbase nbase : Z -> Z).
Context (m : Z) (c : netdev) (pd : dsa_loop_pdata).
Context (ptr : dsa_ptr c = Some (m, DSA_LOOP_CPU_PORT)) (alien : user_dev_port c = None).
Context (pd_ok : pdata_ok pd) (pd_set : set_cpu_netdev c pd = Some pd).
Context (names : forall h d, netdev_by_name (pd_netdev pd) h = Some d -> d = c).
Implicit Types (b : board H) (s : system H).

Definition unbind b : board H := set_drvdata (fun l => l ∖ {[ m ]}) b.
Definition spec_of : Z -> platform H := fun _ => loop_platform pd c.
Definition board_alloc (al : list bool) b : board H := set_sys (with_alloc al (bd_sys b)) b.

(** Does the probe get as far as registering the switch. *)
Definition reaches (al : list bool) b : bool :=
  hd true al && hd true (tl al) && bool_decide (is_Some (netdev_by_name (pd_netdev pd) (sy_hw (bd_sys b)))).

(** The driver core probes when the device is not bound, and clears the driver
    data when it is not any more.  Counted: the registrations that failed. *)
Inductive board_step : bool * Z * board H -> bool * Z * board H -> Prop :=
| board_probe k b al err b' : tree_memory (tl (tl al)) -> asix_dsa_loop_drv_probe tagger_data m (board_alloc al b) = Some (err, b') ->
    board_step (false, k, b)
      (if err =? 0 then (true, k, b')
       else (false, k + (if reaches al b then 1 else 0), unbind b'))
| board_remove k b al b' : asix_dsa_loop_drv_remove tagger_data m (board_alloc al b) = Some (tt, b') ->
    board_step (true, k, b) (false, k, unbind b').

Abbreviation s_idle := (idle spec_of base rbase).
Abbreviation s_bound := (bound spec_of base rbase m).

Record board_ok (x : bool * Z * board H) : Prop := {
  bo_sys : let '(up, _, b) := x in if up then s_bound (bd_sys b) /\ m ∈ bd_drvdata b /\ bd_netdev b !! m = Some c else s_idle (bd_sys b);
  bo_pdata : let '(_, _, b) := x in exists pd0, bd_pdata b !! m = Some pd0 /\ pd_netdev pd0 = pd_netdev pd /\ set_cpu_netdev c pd0 = Some pd;
  bo_refs : let '(up, k, b) := x in forall d, netdev_refs d b = nbase d + (if decide (d = c) then k + (if up : bool then 1 else 0) else 0);
}.

Lemma spec_ok : platform_ok m (spec_of m).
Proof using ptr alien pd_ok pd_set.
  apply loop_platform_ok; [done | | done | done]. destruct (set_cpu_ok c pd pd_ok) as (pd' & E & _ & G). rewrite pd_set in E. by injection E as <-.
Qed.

(** A new switch changes nothing of a system without a tree. *)
Lemma install_idle b : s_idle (bd_sys b) -> s_idle (bd_sys (install m pd c b)) /\ is_Some (sy_switches (bd_sys (install m pd c b)) !! m).
Proof using ptr alien pd_ok pd_set.
  intros [[Nt Nh Nd Np Nq Nr] Hh]. split; [| cbn; rewrite lookup_insert_eq; by eexists].
  split; [split; try done |].
  - intros ds h. cbn. intros [[<- <-] | [_ Hin]]%lookup_insert_Some; [| by apply Nh].
    split_and!; try done. apply spec_ok.
  - intros ds h. cbn. intros [[<- <-] | [_ Hin]]%lookup_insert_Some; [done | by eapply Nd].
  - intros x. cbn. rewrite <- Hh. apply quiet_priv.
Qed.

Lemma total_in_system {A} (f : st (system H) A) b (Q : A -> board H -> Prop) :
  total f (bd_sys b) (fun a s => Q a (set_sys s b)) -> total (in_system f) b Q.
Proof using. unfold total, in_system. cbn. by destruct (f (bd_sys b)) as [[a s] |]. Qed.

Lemma total_kzalloc b al (Q : bool -> board H -> Prop) :
  Q (hd true al) (board_alloc (tl al) b) -> total (in_system system_kzalloc) (board_alloc al b) Q.
Proof using. intros HQ. apply total_in_system. by destruct al. Qed.

Lemma netdev_refs_add d n x b : netdev_refs x (add_netdev_refs d n b) = netdev_refs x b + (if decide (x = d) then n else 0).
Proof using.
  unfold netdev_refs, add_netdev_refs. cbn. case_decide as E; [by rewrite E, lookup_insert_eq |].
  rewrite lookup_insert_ne by done. cbn. lia.
Qed.

(** One probe. *)
Lemma board_probe_run k b al : board_ok (false, k, b) -> tree_memory (tl (tl al)) ->
  total (asix_dsa_loop_drv_probe tagger_data m) (board_alloc al b) (fun err b' =>
    board_ok (if err =? 0 then (true, k, b')
       else (false, k + (if reaches al b then 1 else 0), unbind b'))).
Proof using QuietNet0 mdio_registers devlink_registers quiet_loads base_pos ptr alien pd_ok pd_set names.
  intros [Hs (pd0 & Epd & En & Eset) Hr] Hmem. apply total_bind, total_get.
  change (bd_pdata (board_alloc al b)) with (bd_pdata b). rewrite Epd.
  assert (Hno : forall al' err, err <> 0 -> reaches al b = false ->
    board_ok (if err =? 0 then (true, k, board_alloc al' b)
       else (false, k + (if reaches al b then 1 else 0), unbind (board_alloc al' b)))).
  { intros al' err He ->. rewrite (proj2 (Z.eqb_neq _ _) He), Z.add_0_r. split; [by apply idle_alloc | by exists pd0 | exact Hr]. }
  apply total_bind. apply total_kzalloc.
  destruct (hd true al) eqn:E1; cbn [negb].
  2: { apply total_ret, Hno; [done |]. unfold reaches. by rewrite E1. }
  apply total_bind. apply total_kzalloc.
  destruct (hd true (tl al)) eqn:E2; cbn [negb].
  2: { apply total_ret, Hno; [done |]. unfold reaches. by rewrite E1, E2. }
  unfold dev_get_by_name. apply total_bind, total_bind, total_get. rewrite En.
  change (sy_hw (bd_sys (board_alloc (tl (tl al)) b))) with (sy_hw (bd_sys b)).
  destruct (netdev_by_name (pd_netdev pd) (sy_hw (bd_sys b))) as [d |] eqn:Ed.
  2: { apply total_ret, total_ret, Hno; [done |]. unfold reaches. by rewrite E1, E2, Ed. }
  assert (Hreach : reaches al b = true) by (unfold reaches; by rewrite E1, E2, Ed, bool_decide_true).
  apply names in Ed as ->. apply total_bind, total_modify, total_ret.
  apply total_bind. eapply total_deref; [exact Eset |]. apply total_bind, total_modify, total_in_system.
  set (b1 := install m pd c _).
  destruct (install_idle (add_netdev_refs c 1 (board_alloc (tl (tl al)) b))) as [Hidle Hin]; [by apply idle_alloc |].
  change (install m pd c _) with b1 in Hidle, Hin.
  eapply total_weaken; [| apply (register_new tagger_data mdio_registers devlink_registers quiet_loads spec_of base base_pos rbase); done].
  cbv beta. intros err s' Hs'. rewrite Hreach.
  assert (Hr1 : forall d, netdev_refs d (set_sys s' b1) = nbase d + (if decide (d = c) then k + 1 else 0)).
  { intros d. change (netdev_refs d (set_sys s' b1)) with (netdev_refs d (add_netdev_refs c 1 (board_alloc (tl (tl al)) b))).
    rewrite netdev_refs_add. change (netdev_refs d (board_alloc _ b)) with (netdev_refs d b). rewrite Hr. case_decide; lia. }
  assert (Hp1 : exists pd1, bd_pdata (set_sys s' b1) !! m = Some pd1 /\ pd_netdev pd1 = pd_netdev pd /\ set_cpu_netdev c pd1 = Some pd).
  { exists pd. split; [| done]. cbn. apply lookup_insert_eq. }
  destruct (err =? 0).
  - split; [split_and!; [done | cbn; set_solver | cbn; apply lookup_insert_eq] | exact Hp1 | exact Hr1].
  - split; [exact Hs' | exact Hp1 |]. intros d. rewrite Z.add_0_r. apply Hr1.
Qed.

(** One removal. *)
Lemma board_remove_run k b al : board_ok (true, k, b) ->
  total (asix_dsa_loop_drv_remove tagger_data m) (board_alloc al b) (fun _ b' =>
    board_ok (false, k, unbind b')).
Proof using QuietNet0 base_pos.
  intros [(Hb & Hd & Hn) Hp Hr]. apply total_bind, total_get. rewrite bool_decide_true by done. cbn [negb].
  apply total_bind, total_in_system. eapply total_weaken; [| apply unregister_run; [exact base_pos | by apply bound_alloc]].
  cbv beta. intros _ s' Hs'. apply total_bind, total_get. apply total_bind. eapply total_deref; [exact Hn |].
  apply total_modify. split; [exact Hs' | exact Hp |]. intros d.
  change (netdev_refs d (add_netdev_refs c (-1) b) = nbase d + (if decide (d = c) then k + 0 else 0)).
  rewrite netdev_refs_add, Hr. case_decide; lia.
Qed.

Lemma board_reach_ok x y : rtc board_step x y -> board_ok x -> board_ok y.
Proof using QuietNet0 mdio_registers devlink_registers quiet_loads base_pos ptr alien pd_ok pd_set names.
  induction 1 as [| x y z Hs _ IH]; [done |]. intros Hok. apply IH. destruct Hs as [k b al err b' Hmem E | k b al b' E].
  - pose proof (board_probe_run k b al Hok Hmem) as G. unfold total in G. by rewrite E in G.
  - pose proof (board_remove_run k b al Hok) as G. unfold total in G. by rewrite E in G.
Qed.

End Board.

Section Result.
Context {H : Type} `{RefcountApi, NotifierApi, NetQueries, !NetEffects H, !LifeApi H, !QuietNet H, PlatformApi,
  !ModuleApi H, DescriptionApi, !NetdevApi H, !LoopHw H}.

Lemma set_cpu_twice c (pd pd' : dsa_loop_pdata) : set_cpu_netdev c pd = Some pd' ->
  set_cpu_netdev c pd' = Some pd' /\ pd_netdev pd' = pd_netdev pd /\ (pdata_ok pd -> pdata_ok pd').
Proof.
  intros E. assert (Hok : pdata_ok pd -> pdata_ok pd').
  { intros Hok. destruct (set_cpu_ok c pd Hok) as (pd1 & E1 & Hok1 & _). rewrite E in E1. by injection E1 as <-. }
  split; [| split; [| exact Hok]]; unfold set_cpu_netdev in *.
  - destruct (setz (cd_netdev (pd_cd pd)) DSA_LOOP_CPU_PORT (Some (netdev_dev c))) as [l |] eqn:Es; [| done].
    injection E as <-. cbn. unfold setz in *. case_decide as Hd; [| done]. injection Es as <-.
    rewrite decide_True by (by rewrite length_insert). cbn. by rewrite list_insert_insert_eq.
  - destruct (setz _ _ _) as [l |]; [| done]. by injection E as <-.
Qed.


End Result.

(** ** A board *)

Module LoopDemo.
Import EventDemo LifeDemo SwitchLifeDemo TreeLifeDemo RegDemo.

(** What is held and the private data of the switches. *)
Definition hw : Type := kernel * gmap Z dsa_loop_priv.

#[export] Instance loop_effects : NetEffects hw := {|
  vlan_vid_add _ _ _ h := (0, h);
  vlan_vid_del _ _ _ h := h;
  dev_uc_add _ _ h := (0, h);
  dev_uc_del _ _ h := (0, h);
  dev_mc_add _ _ h := (0, h);
  dev_mc_del _ _ h := (0, h);
  fdb_flush_to_bridge _ _ h := h;
  set_ctag_filter _ _ h := h;
  dev_open _ h := (0, h);
  dev_addr _ _ := 5;
  eth_hw_addr_set _ _ h := h;
  phylink_start _ h := h;
  phylink_stop _ h := h |}.

#[export] Instance loop_life : LifeApi hw.
Proof.
  refine {| acquire r h := let '(e, k) := acquire r (fst h) in (e, (k, snd h)); release r h := (release r (fst h), snd h);
    held h x := held (fst h) x;
    user_dev p := 1000 * fst p + snd p; init_user_dev _ _ h := h; netif_carrier_off _ h := h;
    phylink_of_phy_connect _ h := (0, h); mdiobus_get_phy _ _ _ := true; phylink_connect_phy _ _ h := (0, h);
    phylink_disconnect_phy _ h := h; or_phys_mii_mask _ _ h := h; device_link_add _ _ h := h;
    dev_set_promiscuity _ _ h := h; set_dsa_ptr _ _ h := h;
    of_get_phy_mode _ := true; of_phy_is_fixed_link n := 10 <=? n; of_phy_handle _ := false; of_phy_find_device _ := false;
    of_device_compatible_match _ := false; genphy_resume _ h := (0, h); genphy_read_status _ h := (0, h);
    genphy_suspend _ h := (0, h); dev_mtu _ _ := 1500; dev_max_mtu _ _ := 9000; dev_set_mtu _ _ h := (0, h);
    assign_mtu _ _ h := h;
    mtu_enforcement_ingress _ := false; qdisc_tx_is_noop _ := false; netif_oper_up _ := true |}; try done.
  - intros r [k p] x. cbn [fst snd]. pose proof (acquire_ok r k x). by destruct (acquire r k).
  - intros r [k p]. cbn [fst snd]. pose proof (acquire_neg r k). by destruct (acquire r k).
  - intros r [k p] x. cbn [fst snd]. pose proof (acquire_err r k x). by destruct (acquire r k).
  - intros r [k p] x. apply (release_ok r k x).
Defined.

#[export] Instance loop_quiet : QuietNet hw.
Proof. by split. Defined.

#[export] Instance loop_hw : LoopHw hw.
Proof.
  refine {| loop_priv ds h := default zero_priv (snd h !! ds); set_loop_priv ds p h := (fst h, <[ds := p]> (snd h));
    mdiobus_read _ _ _ h := (0x796d, h); mdiobus_write _ _ _ _ h := (0, h) |}; try done.
  - intros ds p h. cbn. by rewrite lookup_insert_eq.
  - intros ds ds' p h Hne. cbn. by rewrite lookup_insert_ne by done.
Defined.

#[export] Instance loop_netdevs : NetdevApi hw.
Proof.
  refine {| netdev_by_name name _ := if String.eqb name "eth0" then Some 200 else None; netdev_dev c := c |}. done.
Defined.

Definition loop_chip (dev : option Z) : dsa_chip_data :=
  mkChip ((Some <$> ["eth0.0"; "eth0.1"; "eth0.2"; "eth0.3"; "cpu"]%string) ++ replicate 7 None)
    (replicate 4 None ++ dev :: replicate 7 None).
Definition loop_pdata (dev : option Z) : dsa_loop_pdata := mkPdata (loop_chip dev) "eth0".

Lemma loop_pdata_ok dev : pdata_ok (loop_pdata dev).
Proof.
  assert (Hnames : forall i (a : option string), getz (cd_port_names (loop_chip dev)) i = Some a ->
    (is_Some a -> 0 <= i < 5) /\ (a = Some "cpu"%string -> i = 4)).
  { intros i a E. pattern i, a. eapply getz_cases; [exact E |]. clear. intros k b E.
    do 12 (destruct k as [| k]; [injection E as <-; split; [intros [? ?] | intros [=]]; done || lia |]). done. }
  split; try done.
  - intros i name E. apply Hnames in E as [E _]. destruct E; [by eexists | lia].
  - intros i. split; [| by intros ->]. intros E. by apply Hnames in E as [_ ->].
Qed.

Definition sdsa_tagger : dsa_device_ops hw := mkTagger 7 DSA_TAG_PROTO_SDSA None None 8 0 false.
Definition loop_system (errs : list Z) : system hw :=
  mkSystem [] 100 ∅ (mkRegistry [mkTagDriver sdsa_tagger "sdsa" 7] ∅) (([], errs), ∅) [].
Definition loop_board (errs : list Z) : board hw := mkBoard (loop_system errs) {[ 1 := loop_pdata None ]} ∅ ∅ ∅.

Lemma loop_no_tree errs : no_tree (fun _ => loop_platform (loop_pdata (Some 200)) 200)
  (fun x => refs x (sy_registry (loop_system errs))) (loop_system errs).
Proof.
  split; try done.
  - by intros t u ->%list_elem_of_singleton ->%list_elem_of_singleton.
  - apply Forall_singleton. by split.
Qed.


(** VLANs added and deleted, and one refused. *)
Definition vlan_calls : list vlan_call :=
  [VlanAdd 0 (mkVlan 3 (Z.lor BRIDGE_VLAN_INFO_PVID BRIDGE_VLAN_INFO_UNTAGGED) false);
   VlanAdd 1 (mkVlan 3 0 false); VlanAdd 1 (mkVlan 7 0 false); VlanDel 0 (mkVlan 3 0 false)].

Lemma loop_vlans_witness : exists h : hw, run_calls 1 vlan_calls ((([], []), ∅) : hw) = ([0; 0; - ERANGE; 0], h) /\
  holds_table (loop_priv 1 h) (snd (spec_calls vlan_calls empty_table)) /\ dsa_loop_devlink_vtu_get 1 h = 1.
Proof.
  assert (Hok : Forall call_ok vlan_calls) by (by repeat constructor).
  set (h0 := (([], []), ∅) : hw). assert (H0 : holds_table (loop_priv 1 h0) empty_table).
  { replace (loop_priv 1 h0) with zero_priv; [exact zero_priv_table |]. cbn. by rewrite lookup_empty. }
  assert (T : dsa_loop_devlink_vtu_get 1 (snd (run_calls 1 vlan_calls h0)) = 1) by (vm_compute; reflexivity).
  assert (A : fst (spec_calls vlan_calls empty_table) = [0; 0; - ERANGE; 0]) by reflexivity.
  destruct (loop_vlans_refine 1 vlan_calls h0 empty_table H0 Hok) as (E & Ht & _). rewrite A in E.
  destruct (run_calls 1 vlan_calls h0) as [es h]. cbn [fst snd] in *. subst es. exists h. exact (conj eq_refl (conj Ht T)).
Defined.

(** VLAN filtering on a user port with an upper interface for VLAN 100, which the
    table has no room for: the roll back of what could not be restored deletes
    the VLAN from the driver, which writes outside of the table. *)
Definition upper_100 : NetQueries := {|
  netif_is_lag_master _ := false;
  dsa_ptr c := if c =? 200 then Some (1, 4) else None;
  netif_is_bridge_master _ := false;
  netdev_master_upper_dev_get _ := None;
  br_mst_enabled _ := false;
  br_vlan_enabled _ := true;
  br_get_ageing_time _ := 30000;
  br_port_get_stp_state _ := 3;
  br_port_flag_is_set _ _ := false;
  br_vlan_get_info _ _ := - EINVAL;
  vlan_uppers _ := [100];
  vlan_vids _ := [100];
  synced_uc _ := [];
  synced_mc _ := [];
  iff_unicast_flt _ := true;
  iff_up _ := true;
  is_valid_ether_addr _ := true;
  br_mst_get_state _ _ := (- EINVAL, 0);
  br_mst_get_info _ _ := (- EINVAL, []);
  clock_t_to_jiffies t := t;
  jiffies_to_msecs t := 10 * t |}.

Definition filtering_world : world hw :=
  mkWorld (mkTree 0 2 LagsNull (Some sdsa_tagger) DSA_TAG_PROTO_SDSA true 0 1)
    [life_port 1 0 DSA_PORT_TYPE_USER (Some 1000) (Some (1, 4)) None;
     life_port 1 4 DSA_PORT_TYPE_CPU (Some 200) None None]
    [] {[ 1 := new_ds 1 ]} ∅ ∅ [1] (([], []), ∅) [] [].

Lemma vlan_rollback_wild : match @dsa_port_vlan_filtering hw _ _ upper_100 _ (fun _ _ => false) (1, 0) true filtering_world with
  | Some (err, w) => (err =? - ERANGE) && lp_wild (loop_priv 1 (w_hw w)) = true | None => False end.
Proof. vm_compute. reflexivity. Qed.

End LoopDemo.
