(* ===== verification/XdmaEngine.v ===== *)
(** * SG DMA engines (libxdma.c)

    The descriptor lists the device fetches, starting and stopping an engine,
    and preparing a transfer.  A transfer has two lists of descriptors, one
    running while the other is filled.  What the device does with a list is
    [fetch]: it follows the next-descriptor addresses up to a descriptor with
    the stop bit. *)

From Stdlib Require Import ZArith Lia Bool.
From S2P Require Import Prelude.
From S2P Require Import Mmio.

Definition RX_DESC_NUM : Z := 1024.
Definition TX_DESC_NUM : Z := RX_DESC_NUM.
Definition DESC_LIST_NUM : Z := 2.
Definition XDMA_TRANSFER_MAX_DESC : Z := 2048.
Definition PKT_BUF_LEN : Z := 2048.
Definition DMA_PACKET_SIZE : Z := 2048.
Definition SIZEOF_XDMA_DESC : Z := 32.
Definition SIZEOF_XDMA_RESULT : Z := 32.

Definition XDMA_CTRL_RUN_STOP : Z := Z.shiftl 1 0.
Definition XDMA_CTRL_IE_DESC_STOPPED : Z := Z.shiftl 1 1.
Definition XDMA_CTRL_IE_DESC_COMPLETED : Z := Z.shiftl 1 2.
Definition XDMA_CTRL_IE_DESC_ALIGN_MISMATCH : Z := Z.shiftl 1 3.
Definition XDMA_CTRL_IE_MAGIC_STOPPED : Z := Z.shiftl 1 4.
Definition XDMA_CTRL_IE_IDLE_STOPPED : Z := Z.shiftl 1 6.
Definition XDMA_CTRL_IE_READ_ERROR : Z := Z.shiftl 0x1F 9.
Definition XDMA_CTRL_IE_DESC_ERROR : Z := Z.shiftl 0x1F 19.
Definition XDMA_CTRL_NON_INCR_ADDR : Z := Z.shiftl 1 25.
Definition XDMA_STAT_DESC_STOPPED : Z := Z.shiftl 1 1.
Definition XDMA_DESC_STOPPED : Z := Z.shiftl 1 0.
Definition XDMA_DESC_COMPLETED : Z := Z.shiftl 1 1.
Definition XDMA_DESC_EOP : Z := Z.shiftl 1 4.
Definition DESC_MAGIC : Z := 0xAD4B0000.
Definition MAGIC_ENGINE : Z := 0xEEEEEEEE.
Definition ENGINE_SHUTDOWN_NONE : Z := 0.
Definition ENGINE_SHUTDOWN_REQUEST : Z := 1.

(** [struct engine_regs], [struct engine_sgdma_regs]: offsets. *)
Definition ENG_CONTROL : Z := 0x04.
Definition ENG_CONTROL_W1C : Z := 0x0C.
Definition ENG_STATUS : Z := 0x40.
Definition ENG_COMPLETED_DESC_COUNT : Z := 0x48.
Definition ENG_ALIGNMENTS : Z := 0x4C.
Definition ENG_INT_MASK : Z := 0x90.
Definition ENG_INT_MASK_W1S : Z := 0x94.
Definition ENG_INT_MASK_W1C : Z := 0x98.
Definition SG_FIRST_DESC_LO : Z := 0x80.
Definition SG_FIRST_DESC_HI : Z := 0x84.
Definition SG_FIRST_DESC_ADJACENT : Z := 0x88.

Definition PCI_DMA_H (addr : Z) : Z := Z.shiftr (Z.shiftr addr 16) 16.
Definition PCI_DMA_L (addr : Z) : Z := Z.land addr 0xffffffff.

Inductive dma_direction := DMA_TO_DEVICE | DMA_FROM_DEVICE.

Inductive transfer_state :=
| TRANSFER_STATE_NEW
| TRANSFER_STATE_SUBMITTED
| TRANSFER_STATE_COMPLETED
| TRANSFER_STATE_FAILED
| TRANSFER_STATE_ABORTED.

(** A descriptor in memory shared with the device: eight little-endian words. *)
Record xdma_desc := mkDesc {
  control : Z;
  bytes : Z;
  src_addr_lo : Z;
  src_addr_hi : Z;
  dst_addr_lo : Z;
  dst_addr_hi : Z;
  next_lo : Z;
  next_hi : Z;
}.

Definition set_control (x : Z) (r : xdma_desc) : xdma_desc :=
  mkDesc x (bytes r) (src_addr_lo r) (src_addr_hi r) (dst_addr_lo r) (dst_addr_hi r) (next_lo r)
    (next_hi r).
Definition set_bytes (x : Z) (r : xdma_desc) : xdma_desc :=
  mkDesc (control r) x (src_addr_lo r) (src_addr_hi r) (dst_addr_lo r) (dst_addr_hi r)
    (next_lo r) (next_hi r).

(** A received frame's write-back record, less its padding. *)
Record xdma_result := mkResult { r_status : Z; r_length : Z }.

(** A transfer.  Its [desc_virt] is the descriptor array of the engine it is queued
    on ([transfer->desc_virt = engine->desc]), so it is kept there. *)
Record xdma_transfer := mkTransfer {
  desc_num : Z;
  t_dir : dma_direction;
  t_state : transfer_state;
  t_cyclic : Z;
  t_desc_bus : Z;
  list_desc : list Z;                 (* dma_addr_t [DESC_LIST_NUM] *)
  current_list : Z;                   (* u8 *)
}.

Definition set_t_state (x : transfer_state) (r : xdma_transfer) : xdma_transfer :=
  mkTransfer (desc_num r) (t_dir r) x (t_cyclic r) (t_desc_bus r) (list_desc r) (current_list r).
Definition set_list_desc (x : list Z) (r : xdma_transfer) : xdma_transfer :=
  mkTransfer (desc_num r) (t_dir r) (t_state r) (t_cyclic r) (t_desc_bus r) x (current_list r).
Definition set_current_list (x : Z) (r : xdma_transfer) : xdma_transfer :=
  mkTransfer (desc_num r) (t_dir r) (t_state r) (t_cyclic r) (t_desc_bus r) (list_desc r) x.

(** The fields of an engine that [engine_init] settles. *)
Record engine_config := mkConfig {
  e_magic : Z;
  e_channel : Z;
  e_irq_bitmask : Z;
  e_regs : Z;                         (* address of the engine_regs *)
  e_sgdma_regs : Z;                   (* address of the engine_sgdma_regs *)
  e_dir : dma_direction;
  e_streaming : bool;
  e_addr_align : Z;
  e_len_granularity : Z;
  e_addr_bits : Z;
  e_interrupt_enable_mask_value : Z;
  e_desc_bus : Z;
  cyclic_result_bus : Z;
  rx_buff_bus : Z;
  tx_buff_bus : Z;
}.


Definition set_e_desc_bus (bus : Z) (c : engine_config) : engine_config :=
  mkConfig (e_magic c) (e_channel c) (e_irq_bitmask c) (e_regs c) (e_sgdma_regs c)
    (e_dir c) (e_streaming c) (e_addr_align c) (e_len_granularity c) (e_addr_bits c)
    (e_interrupt_enable_mask_value c) bus (cyclic_result_bus c) (rx_buff_bus c) (tx_buff_bus c).

Lemma set_e_desc_bus_same c : set_e_desc_bus (e_desc_bus c) c = c.
Proof. by destruct c. Qed.

(** An SG DMA engine; a buffer is its bytes, [None] a null pointer. *)
Record xdma_engine := mkEngine {
  e_config : engine_config;
  e_shutdown : Z;
  e_running : bool;
  e_desc_dequeued : Z;
  e_status : Z;
  e_transfer : option xdma_transfer;
  e_desc : option (list xdma_desc);
  cyclic_result : option (list xdma_result);
  rx_buff : option (list (list Z));   (* packet_buff [] *)
  tx_buff : option (list (list Z));   (* packet_buff [] *)
}.

Definition set_e_config (x : engine_config) (r : xdma_engine) : xdma_engine :=
  mkEngine x (e_shutdown r) (e_running r) (e_desc_dequeued r) (e_status r) (e_transfer r)
    (e_desc r) (cyclic_result r) (rx_buff r) (tx_buff r).
Definition set_e_shutdown (x : Z) (r : xdma_engine) : xdma_engine :=
  mkEngine (e_config r) x (e_running r) (e_desc_dequeued r) (e_status r) (e_transfer r)
    (e_desc r) (cyclic_result r) (rx_buff r) (tx_buff r).
Definition set_e_running (x : bool) (r : xdma_engine) : xdma_engine :=
  mkEngine (e_config r) (e_shutdown r) x (e_desc_dequeued r) (e_status r) (e_transfer r)
    (e_desc r) (cyclic_result r) (rx_buff r) (tx_buff r).
Definition set_e_desc_dequeued (x : Z) (r : xdma_engine) : xdma_engine :=
  mkEngine (e_config r) (e_shutdown r) (e_running r) x (e_status r) (e_transfer r) (e_desc r)
    (cyclic_result r) (rx_buff r) (tx_buff r).
Definition set_e_status (x : Z) (r : xdma_engine) : xdma_engine :=
  mkEngine (e_config r) (e_shutdown r) (e_running r) (e_desc_dequeued r) x (e_transfer r)
    (e_desc r) (cyclic_result r) (rx_buff r) (tx_buff r).
Definition set_e_transfer (x : option xdma_transfer) (r : xdma_engine) : xdma_engine :=
  mkEngine (e_config r) (e_shutdown r) (e_running r) (e_desc_dequeued r) (e_status r) x
    (e_desc r) (cyclic_result r) (rx_buff r) (tx_buff r).
Definition set_e_desc (x : option (list xdma_desc)) (r : xdma_engine) : xdma_engine :=
  mkEngine (e_config r) (e_shutdown r) (e_running r) (e_desc_dequeued r) (e_status r)
    (e_transfer r) x (cyclic_result r) (rx_buff r) (tx_buff r).
Definition set_cyclic_result (x : option (list xdma_result)) (r : xdma_engine) : xdma_engine :=
  mkEngine (e_config r) (e_shutdown r) (e_running r) (e_desc_dequeued r) (e_status r)
    (e_transfer r) (e_desc r) x (rx_buff r) (tx_buff r).
Definition set_tx_buff (x : option (list (list Z))) (r : xdma_engine) : xdma_engine :=
  mkEngine (e_config r) (e_shutdown r) (e_running r) (e_desc_dequeued r) (e_status r)
    (e_transfer r) (e_desc r) (cyclic_result r) (rx_buff r) x.

(** ** Preparing the descriptors *)

(** Descriptors, list heads, their number, the bus address of the next
    descriptor, and the indices warned about. *)
Record desc_init := mkInit {
  i_desc : list xdma_desc;
  i_list : list Z;
  i_count : Z;
  i_bus : Z;
  i_warned : list Z;
}.

(** One turn of the loop of [transfer_desc_init]. *)
Definition desc_init_step (temp_count magic i : Z) (s : desc_init) : option desc_init :=
  let desc_bus := u64 (i_bus s + SIZEOF_XDMA_DESC) in
  d ← getz (i_desc s) i;
  if Z.rem i temp_count =? temp_count - 1 then
    l ← setz (i_desc s) i (mkDesc (u32 (Z.lor magic XDMA_DESC_STOPPED)) 0
          (src_addr_lo d) (src_addr_hi d) (dst_addr_lo d) (dst_addr_hi d) 0 0);
    if i_count s <? DESC_LIST_NUM then
      heads ← setz (i_list s) (i_count s) desc_bus;
      Some (mkInit l heads (i_count s + 1) desc_bus (i_warned s))
    else Some (mkInit l (i_list s) (i_count s) desc_bus (i_warned s ++ [i]))
  else
    l ← setz (i_desc s) i (mkDesc magic 0
          (src_addr_lo d) (src_addr_hi d) (dst_addr_lo d) (dst_addr_hi d)
          (u32 (PCI_DMA_L desc_bus)) (u32 (PCI_DMA_H desc_bus)));
    Some (mkInit l (i_list s) (i_count s) desc_bus (i_warned s)).

Fixpoint desc_init_loop (n : nat) (temp_count magic i : Z) (s : desc_init) : option desc_init :=
  match n with
  | O => Some s
  | S n => s ← desc_init_step temp_count magic i s; desc_init_loop n temp_count magic (i + 1) s
  end.

(** [BUG_ON] and accesses outside an array are [None].  The result has the
    indices [pr_warn] complains about. *)
Definition transfer_desc_init (transfer : xdma_transfer) (desc_virt : list xdma_desc) (count : Z)
    : option (xdma_transfer * list xdma_desc * list Z) :=
  let temp_count := Z.quot count DESC_LIST_NUM in
  let magic := u32 (Z.lor (Z.lor DESC_MAGIC XDMA_DESC_COMPLETED) XDMA_DESC_EOP) in
  if XDMA_TRANSFER_MAX_DESC <? count then None
  else
    let temp_count := if temp_count =? 0 then 1 else temp_count in
    heads ← setz (list_desc transfer) 0 (t_desc_bus transfer);
    s ← desc_init_loop (Z.to_nat count) temp_count magic 0
          (mkInit desc_virt heads 1 (t_desc_bus transfer) []);
    Some (set_list_desc (i_list s) transfer, i_desc s, i_warned s).

(** [transfer_queue]: [offline] is the device flag; the engine and its result. *)
Definition transfer_queue (offline : bool) (engine : xdma_engine) (transfer : xdma_transfer)
    : option (xdma_engine * Z) :=
  if desc_num transfer =? 0 then None
  else if offline then Some (engine, - EBUSY)
  else if negb (Z.land (e_shutdown engine) ENGINE_SHUTDOWN_REQUEST =? 0) then Some (engine, - EBUSY)
  else Some (set_e_transfer (Some (set_t_state TRANSFER_STATE_SUBMITTED transfer)) engine, 0).

(** [xdma_desc_setup]: a zeroed transfer the first time ([None] when that
    allocation fails, a [BUG]), the one of the engine later.  The descriptor
    array is the one [engine_alloc_resource] made; without it the code
    allocates one here, [dma_alloc] being the memory and its bus address. *)
Definition xdma_desc_setup (offline : bool) (kzalloc : bool)
    (dma_alloc : Z -> option (list xdma_desc * Z)) (engine : xdma_engine) (xdma_desc_flag : Z)
    : option xdma_engine :=
  transfer ← (if xdma_desc_flag =? 0 then
                if kzalloc then Some (mkTransfer 0 DMA_TO_DEVICE TRANSFER_STATE_NEW 0 0 [0; 0] 0)
                else None
              else e_transfer engine);
  let dir := e_dir (e_config engine) in
  let num_desc_in_a_loop := match dir with DMA_TO_DEVICE => TX_DESC_NUM | _ => RX_DESC_NUM end in
  '(desc, bus) ← match e_desc engine with
                 | Some desc => Some (desc, e_desc_bus (e_config engine))
                 | None => dma_alloc (num_desc_in_a_loop * SIZEOF_XDMA_DESC)
                 end;
  let transfer := mkTransfer num_desc_in_a_loop dir (t_state transfer) (t_cyclic transfer)
                    bus (list_desc transfer) 0 in
  '(transfer, desc, _) ← transfer_desc_init transfer desc num_desc_in_a_loop;
  let transfer := mkTransfer (desc_num transfer) (t_dir transfer) (t_state transfer) 1
                    (t_desc_bus transfer) (list_desc transfer) (current_list transfer) in
  let engine := set_e_config (set_e_desc_bus bus (e_config engine)) (set_e_desc (Some desc) engine) in
  let engine := if xdma_desc_flag =? 0 then engine else set_e_transfer (Some transfer) engine in
  '(engine, _) ← transfer_queue offline engine transfer;
  Some engine.

(** ** Starting and stopping *)

Section Engine.
Context {D : Type} `{Device D}.
Local Open Scope io_scope.

Definition reg (engine : xdma_engine) (off : Z) : Z := e_regs (e_config engine) + off.
Definition sgdma_reg (engine : xdma_engine) (off : Z) : Z := e_sgdma_regs (e_config engine) + off.

(** [engine_status_read(engine, 1, 0)]: read the status and write it back. *)
Definition engine_status_read (engine : xdma_engine) : io D (xdma_engine * Z) :=
  let! value := readl (reg engine ENG_STATUS) in
  do! writel (reg engine ENG_STATUS) value in
  ret (set_e_status value engine, value).

Definition xdma_engine_stop (engine : xdma_engine) : io D xdma_engine :=
  let w := Z.lor (Z.lor (Z.lor (Z.lor (Z.lor XDMA_CTRL_IE_DESC_ALIGN_MISMATCH
             XDMA_CTRL_IE_MAGIC_STOPPED) XDMA_CTRL_IE_READ_ERROR) XDMA_CTRL_IE_DESC_ERROR)
             XDMA_CTRL_IE_DESC_STOPPED) XDMA_CTRL_IE_DESC_COMPLETED in
  do! writel (reg engine ENG_CONTROL) w in
  ret (set_e_running false engine).

Definition engine_start_mode_config (engine : xdma_engine) : io D unit :=
  let w := Z.lor (Z.lor (Z.lor (Z.lor XDMA_CTRL_IE_DESC_STOPPED XDMA_CTRL_IE_DESC_COMPLETED)
             XDMA_CTRL_IE_DESC_ALIGN_MISMATCH) XDMA_CTRL_IE_READ_ERROR) XDMA_CTRL_IE_DESC_ERROR in
  do! writel (reg engine ENG_INT_MASK) w in
  let w := Z.lor (Z.lor (Z.lor (Z.lor (Z.lor XDMA_CTRL_RUN_STOP XDMA_CTRL_IE_READ_ERROR)
             XDMA_CTRL_IE_DESC_ERROR) XDMA_CTRL_IE_DESC_ALIGN_MISMATCH)
             XDMA_CTRL_IE_DESC_STOPPED) XDMA_CTRL_IE_DESC_COMPLETED in
  do! writel (reg engine ENG_CONTROL) w in
  do! readl (reg engine ENG_STATUS) in
  ret tt.

(** Starting a running engine is a [BUG]. *)
Definition engine_start (engine : xdma_engine) : io D xdma_engine :=
  match e_transfer engine with
  | None => ret engine
  | Some transfer =>
      if e_running engine then trap
      else
        let engine := set_e_desc_dequeued 0 (set_e_shutdown ENGINE_SHUTDOWN_NONE engine) in
        let! desc_bus := lift_opt (getz (list_desc transfer) (current_list transfer)) in
        do! writel (sgdma_reg engine SG_FIRST_DESC_LO) (PCI_DMA_L desc_bus) in
        do! writel (sgdma_reg engine SG_FIRST_DESC_HI) (PCI_DMA_H desc_bus) in
        do! writel (sgdma_reg engine SG_FIRST_DESC_ADJACENT) 0 in
        do! engine_start_mode_config engine in
        ret (set_e_running true engine)
  end.

End Engine.

(** ** What the device fetches *)

(** From bus address [addr] the device reads descriptors, checking their magic,
    until one with the stop bit: the indices read, in order. *)
Fixpoint fetch (fuel : nat) (bus : Z) (descs : list xdma_desc) (addr : Z) : option (list Z) :=
  match fuel with
  | O => None
  | S fuel =>
      let i := (addr - bus) / SIZEOF_XDMA_DESC in
      if negb ((addr - bus) mod SIZEOF_XDMA_DESC =? 0) then None
      else
        d ← getz descs i;
        if negb (Z.shiftr (control d) 16 =? Z.shiftr DESC_MAGIC 16) then None
        else if Z.testbit (control d) 0 then Some [i]
        else
          rest ← fetch fuel bus descs (next_hi d * 2 ^ 32 + next_lo d);
          Some (i :: rest)
  end.

Definition desc_addr (bus i : Z) : Z := bus + SIZEOF_XDMA_DESC * i.

(** The descriptor leads to the one at index [i + 1]. *)
Definition linked (bus i : Z) (d : xdma_desc) : Prop :=
  next_hi d * 2 ^ 32 + next_lo d = desc_addr bus (i + 1).

Definition goes_on (d : xdma_desc) : Prop :=
  Z.shiftr (control d) 16 = Z.shiftr DESC_MAGIC 16 /\ Z.testbit (control d) 0 = false.
Definition stops (d : xdma_desc) : Prop :=
  Z.shiftr (control d) 16 = Z.shiftr DESC_MAGIC 16 /\ Z.testbit (control d) 0 = true.

Lemma desc_addr_index bus i :
  (desc_addr bus i - bus) mod SIZEOF_XDMA_DESC = 0 /\ (desc_addr bus i - bus) / SIZEOF_XDMA_DESC = i.
Proof.
  unfold desc_addr, SIZEOF_XDMA_DESC. replace (bus + 32 * i - bus) with (i * 32) by lia.
  by rewrite Z_mod_mult, Z_div_mult by lia.
Qed.

Lemma fetch_chain bus descs n : forall a fuel,
  0 <= a -> (n < fuel)%nat ->
  (forall i, a <= i < a + Z.of_nat n ->
     exists d, getz descs i = Some d /\ goes_on d /\ linked bus i d) ->
  (exists d, getz descs (a + Z.of_nat n) = Some d /\ stops d) ->
  fetch fuel bus descs (desc_addr bus a) = Some (seqZ a (Z.of_nat n + 1)).
Proof.
  induction n as [| n IH]; intros a [| fuel] Ha Hf Hgo Hst; try lia; cbn [fetch];
    destruct (desc_addr_index bus a) as [-> ->]; rewrite Z.eqb_refl; cbn [negb].
  - destruct Hst as (d & Hd & Hm & Hb). rewrite Z.add_0_r in Hd.
    rewrite Hd. cbn [mbind option_bind]. rewrite Hm, Z.eqb_refl, Hb. cbn [negb].
    rewrite seqZ_cons by lia. by rewrite seqZ_nil by lia.
  - destruct (Hgo a) as (d & Hd & [Hm Hb] & Hl); [lia |].
    rewrite Hd. cbn [mbind option_bind]. rewrite Hm, Z.eqb_refl, Hb. cbn [negb].
    rewrite Hl, IH; [| lia | lia | |].
    + cbn [mbind option_bind]. rewrite (seqZ_cons a) by lia. do 3 f_equal; lia.
    + intros i Hi. apply Hgo. lia.
    + destruct Hst as (d' & Hd' & Hs). exists d'. split; [| done]. by rewrite <- Hd'; f_equal; lia.
Qed.

(** ** The two lists of a transfer *)

Definition desc_magic : Z := u32 (Z.lor (Z.lor DESC_MAGIC XDMA_DESC_COMPLETED) XDMA_DESC_EOP).

(** Descriptor [i] of an initialised array of lists of [m]. *)
Definition init_desc (bus m i : Z) (d : xdma_desc) : xdma_desc :=
  if Z.rem i m =? m - 1 then
    mkDesc (u32 (Z.lor desc_magic XDMA_DESC_STOPPED)) 0
      (src_addr_lo d) (src_addr_hi d) (dst_addr_lo d) (dst_addr_hi d) 0 0
  else mkDesc desc_magic 0 (src_addr_lo d) (src_addr_hi d) (dst_addr_lo d) (dst_addr_hi d)
    (PCI_DMA_L (desc_addr bus (i + 1))) (PCI_DMA_H (desc_addr bus (i + 1))).

Lemma dma_halves a : is_u64 a ->
  is_u32 (PCI_DMA_L a) /\ is_u32 (PCI_DMA_H a) /\ PCI_DMA_H a * 2 ^ 32 + PCI_DMA_L a = a.
Proof.
  intros Ha. unfold PCI_DMA_L, PCI_DMA_H.
  change 0xffffffff with (2 ^ 32 - 1). rewrite land_ones_mod by lia.
  rewrite Z.shiftr_shiftr by lia. rewrite Z.shiftr_div_pow2 by lia. change (16 + 16) with 32.
  unfold is_u32, is_u64 in *. split_and!; Z.div_mod_to_equations; lia.
Qed.

Lemma imap_step {A} (f : nat -> A -> A) (l : list A) n d : l !! n = Some d ->
  <[n := f n d]> (imap (fun j x => if bool_decide (j < n)%nat then f j x else x) l) =
  imap (fun j x => if bool_decide (j < S n)%nat then f j x else x) l.
Proof.
  intros Hd. apply list_eq. intros j. rewrite list_lookup_imap.
  destruct (decide (j = n)) as [-> | Hne].
  - rewrite list_lookup_insert_eq.
    + rewrite Hd. simpl. by rewrite bool_decide_true by lia.
    + rewrite length_imap. by eapply lookup_lt_Some.
  - rewrite list_lookup_insert_ne by done. rewrite list_lookup_imap.
    destruct (l !! j) as [x |]; [| done]. simpl.
    destruct (decide (j < n)%nat).
    + by rewrite !bool_decide_true by lia.
    + by rewrite !bool_decide_false by lia.
Qed.

Section Init.
Context (bus m x1 : Z) (descs : list xdma_desc).
Context (Hm : 0 < m) (Hlen : 2 * m <= Z.of_nat (length descs)).
Context (Hbus : 0 <= bus) (Hend : bus + SIZEOF_XDMA_DESC * (2 * m) < 2 ^ 64).

(** The state before turn [i]. *)
Definition init_inv (i : Z) (s : desc_init) : Prop :=
  i_desc s = imap (fun j d => if bool_decide (j < Z.to_nat i)%nat
                              then init_desc bus m (Z.of_nat j) d else d) descs /\
  i_bus s = desc_addr bus i /\
  i_list s = (if i <? m then [bus; x1] else [bus; desc_addr bus m]) /\
  i_count s = (if i <? m then 1 else 2) /\
  i_warned s = (if i <? 2 * m then [] else [2 * m - 1]).

Lemma init_last i : 0 <= i < 2 * m ->
  (Z.rem i m =? m - 1) = (i =? m - 1) || (i =? 2 * m - 1).
Proof using Hm.
  clear Hlen Hbus Hend. intros Hi. rewrite Z.rem_mod_nonneg by lia.
  assert (E : i mod m = if i <? m then i else i - m).
  { destruct (Z.ltb_spec i m); [by rewrite Z.mod_small by lia |].
    replace i with (i - m + 1 * m) by lia. rewrite Z_mod_plus_full, Z.mod_small by lia. lia. }
  rewrite E. destruct (Z.ltb_spec i m); lia.
Qed.

Lemma desc_init_step_ok i s : 0 <= i < 2 * m -> init_inv i s ->
  exists s', desc_init_step m desc_magic i s = Some s' /\ init_inv (i + 1) s'.
Proof using Hm Hlen Hbus Hend.
  intros Hi (Ed & Eb & El & Ec & Ew).
  destruct (lookup_lt_is_Some_2 descs (Z.to_nat i)) as [d Hd]; [lia |].
  assert (Hget : getz (i_desc s) i = Some d).
  { rewrite getz_nonneg, Ed, list_lookup_imap, Hd by lia. simpl.
    by rewrite bool_decide_false by lia. }
  assert (Hset : forall v, v = init_desc bus m i d -> setz (i_desc s) i v =
    Some (imap (fun j d => if bool_decide (j < Z.to_nat (i + 1))%nat
                           then init_desc bus m (Z.of_nat j) d else d) descs)).
  { intros v ->. rewrite setz_in by (rewrite Ed, length_imap; lia). f_equal. rewrite Ed.
    replace (Z.to_nat (i + 1)) with (S (Z.to_nat i)) by lia.
    rewrite <- (imap_step (fun j => init_desc bus m (Z.of_nat j)) _ _ _ Hd).
    by rewrite Z2Nat.id by lia. }
  assert (Hnext : u64 (i_bus s + SIZEOF_XDMA_DESC) = desc_addr bus (i + 1)).
  { rewrite Eb. unfold desc_addr, SIZEOF_XDMA_DESC in *. rewrite u64_small; unfold is_u64; lia. }
  unfold desc_init_step. rewrite Hget. cbn [mbind option_bind]. rewrite Hnext.
  rewrite Ec, El. rewrite (init_last i Hi). unfold init_desc in Hset. rewrite (init_last i Hi) in Hset.
  destruct ((i =? m - 1) || (i =? 2 * m - 1)) eqn:E.
  - rewrite Hset by done. cbn [mbind option_bind]. unfold init_inv.
    apply orb_prop in E as [E | E]; apply Z.eqb_eq in E.
    + rewrite (proj2 (Z.ltb_lt i m)) by lia. cbn [Z.ltb].
      eexists. split; [reflexivity |]. cbn [i_desc i_bus i_list i_count i_warned].
      rewrite (proj2 (Z.ltb_ge (i + 1) m)), (proj2 (Z.ltb_lt (i + 1) _)) by lia.
      rewrite Ew, (proj2 (Z.ltb_lt i _)) by lia.
      split_and!; try done. by replace (i + 1) with m by lia.
    + rewrite (proj2 (Z.ltb_ge i m)) by lia.
      eexists. split; [reflexivity |]. cbn [i_desc i_bus i_list i_count i_warned].
      rewrite (proj2 (Z.ltb_ge (i + 1) m)), (proj2 (Z.ltb_ge (i + 1) _)) by lia.
      rewrite Ew, (proj2 (Z.ltb_lt i _)) by lia.
      split_and!; try done. simpl. f_equal. lia.
  - apply orb_false_iff in E as [E1%Z.eqb_neq E2%Z.eqb_neq].
    assert (Hn : is_u64 (desc_addr bus (i + 1))).
    { unfold is_u64, desc_addr, SIZEOF_XDMA_DESC in *. lia. }
    destruct (dma_halves _ Hn) as (Hl & Hh & _).
    rewrite (u32_small _ Hl), (u32_small _ Hh). rewrite Hset by done.
    eexists. split; [reflexivity |]. unfold init_inv. cbn [i_desc i_bus i_list i_count i_warned].
    rewrite Ew. split_and!; try done.
    + destruct (Z.ltb_spec i m), (Z.ltb_spec (i + 1) m); try done; lia.
    + destruct (Z.ltb_spec i m), (Z.ltb_spec (i + 1) m); try done; lia.
    + destruct (Z.ltb_spec i (2 * m)), (Z.ltb_spec (i + 1) (2 * m)); try done; lia.
Qed.

Lemma desc_init_loop_ok n : forall i s, 0 <= i -> i + Z.of_nat n <= 2 * m -> init_inv i s ->
  exists s', desc_init_loop n m desc_magic i s = Some s' /\ init_inv (i + Z.of_nat n) s'.
Proof using Hm Hlen Hbus Hend.
  induction n as [| n IH]; intros i s Hi Hn Hs; cbn [desc_init_loop].
  - exists s. split; [done |]. by rewrite Z.add_0_r.
  - destruct (desc_init_step_ok i s) as (s1 & -> & H1); [lia | done |]. cbn [mbind option_bind].
    destruct (IH (i + 1) s1) as (s2 & E2 & H2); [lia | lia | done |].
    exists s2. split; [done |]. by replace (i + Z.of_nat (S n)) with (i + 1 + Z.of_nat n) by lia.
Qed.

End Init.

Lemma transfer_desc_init_ok t descs m x0 x1 :
  0 < m <= 1024 -> 2 * m <= Z.of_nat (length descs) ->
  0 <= t_desc_bus t -> t_desc_bus t + SIZEOF_XDMA_DESC * (2 * m) < 2 ^ 64 ->
  list_desc t = [x0; x1] ->
  transfer_desc_init t descs (2 * m) =
    Some (set_list_desc [t_desc_bus t; desc_addr (t_desc_bus t) m] t,
          imap (fun j d => if bool_decide (j < Z.to_nat (2 * m))%nat
                           then init_desc (t_desc_bus t) m (Z.of_nat j) d else d) descs,
          [2 * m - 1]).
Proof.
  intros Hm Hlen Hbus Hend Hl. unfold transfer_desc_init.
  unfold XDMA_TRANSFER_MAX_DESC. rewrite (proj2 (Z.ltb_ge 2048 (2 * m))) by lia.
  unfold DESC_LIST_NUM. rewrite Z.quot_div_nonneg by lia.
  replace (2 * m / 2) with m by (rewrite Z.mul_comm, Z_div_mult by lia; done).
  rewrite (proj2 (Z.eqb_neq m 0)) by lia. rewrite Hl.
  change (setz [x0; x1] 0 (t_desc_bus t)) with (Some [t_desc_bus t; x1]). cbn [mbind option_bind].
  destruct (desc_init_loop_ok (t_desc_bus t) m x1 descs ltac:(lia) Hlen Hbus Hend (Z.to_nat (2 * m))
    0 (mkInit descs [t_desc_bus t; x1] 1 (t_desc_bus t) [])) as (s & E & Hs); [lia | lia | |].
  - unfold init_inv. cbn [i_desc i_bus i_list i_count i_warned].
    rewrite !(proj2 (Z.ltb_lt 0 _)) by lia. split_and!; try done.
    + apply list_eq. intros j. rewrite list_lookup_imap. destruct (descs !! j); [| done].
      cbn. by case_bool_decide; [lia |].
    + unfold desc_addr. lia.
  - fold desc_magic. rewrite E. cbn [mbind option_bind].
    destruct Hs as (-> & _ & -> & _ & ->).
    rewrite Z2Nat.id by lia. rewrite Z.add_0_l.
    rewrite (proj2 (Z.ltb_ge (2 * m) m)), (proj2 (Z.ltb_ge (2 * m) (2 * m))) by lia. done.
Qed.

Lemma init_desc_last bus m i d : Z.rem i m = m - 1 -> stops (init_desc bus m i d).
Proof. intros E. unfold init_desc. rewrite (proj2 (Z.eqb_eq _ _) E). by split; vm_compute. Qed.

Lemma init_desc_more bus m i d : 0 <= bus -> 0 <= i -> bus + SIZEOF_XDMA_DESC * (i + 1) < 2 ^ 64 ->
  Z.rem i m <> m - 1 -> goes_on (init_desc bus m i d) /\ linked bus i (init_desc bus m i d).
Proof.
  intros Hb Hi Hn E. unfold init_desc. rewrite (proj2 (Z.eqb_neq _ _) E).
  split; [by split; vm_compute |]. unfold linked. cbn [next_lo next_hi].
  apply dma_halves. unfold is_u64, desc_addr, SIZEOF_XDMA_DESC in *. lia.
Qed.

(** An idle engine with its descriptor memory. *)
Definition desc_allocated (e : xdma_engine) (desc : list xdma_desc) : Prop :=
  e_desc e = Some desc /\ 1024 <= Z.of_nat (length desc) /\ e_running e = false /\
  Z.land (e_shutdown e) ENGINE_SHUTDOWN_REQUEST = 0 /\
  0 <= e_desc_bus (e_config e) /\ e_desc_bus (e_config e) + SIZEOF_XDMA_DESC * 1024 < 2 ^ 64.

(** The first opening allocates a transfer, later ones reuse it. *)
Definition transfer_ready (e : xdma_engine) (flag : Z) (kzalloc : bool) : Prop :=
  (flag = 0 /\ kzalloc = true) \/
  (flag <> 0 /\ exists t x0 x1, e_transfer e = Some t /\ list_desc t = [x0; x1]).

(** Two lists of 512 descriptors, each running to its stop. *)
Definition two_chains (bus : Z) (desc : list xdma_desc) : Prop :=
  forall i, 0 <= i < 1024 -> exists d, getz desc i = Some d /\
    if (i =? 511) || (i =? 1023) then stops d else goes_on d /\ linked bus i d.

Lemma init_two_chains bus desc : 0 <= bus -> bus + SIZEOF_XDMA_DESC * 1024 < 2 ^ 64 ->
  1024 <= Z.of_nat (length desc) ->
  two_chains bus (imap (fun j d => if bool_decide (j < Z.to_nat (2 * 512))%nat
                                   then init_desc bus 512 (Z.of_nat j) d else d) desc).
Proof.
  intros Hb He Hl i Hi. destruct (lookup_lt_is_Some_2 desc (Z.to_nat i)) as [d Hd]; [lia |].
  eexists. split; [rewrite getz_nonneg, list_lookup_imap, Hd by lia; reflexivity |].
  cbn. rewrite bool_decide_true by lia. rewrite Z2Nat.id by lia.
  assert (Hr : Z.rem i 512 = i mod 512) by (apply Z.rem_mod_nonneg; lia).
  destruct ((i =? 511) || (i =? 1023)) eqn:E.
  - apply init_desc_last. rewrite Hr. apply orb_prop in E as [E%Z.eqb_eq | E%Z.eqb_eq]; by rewrite E.
  - apply orb_false_iff in E as [E1%Z.eqb_neq E2%Z.eqb_neq].
    apply init_desc_more; [done | lia | unfold SIZEOF_XDMA_DESC in *; lia |].
    rewrite Hr. Z.div_mod_to_equations. lia.
Qed.

Lemma xdma_desc_setup_ok e flag kzalloc dma_alloc desc :
  desc_allocated e desc -> transfer_ready e flag kzalloc ->
  exists t desc1, xdma_desc_setup false kzalloc dma_alloc e flag =
      Some (set_e_transfer (Some t) (set_e_desc (Some desc1) e)) /\
    length desc1 = length desc /\ t_desc_bus t = e_desc_bus (e_config e) /\ current_list t = 0 /\
    list_desc t = [t_desc_bus t; desc_addr (t_desc_bus t) 512] /\ two_chains (t_desc_bus t) desc1.
Proof.
  intros (Ed & Hd & Hrun & Hshut & Hb0 & Hb1) Ht. unfold xdma_desc_setup. rewrite Ed.
  assert (Hx : exists t0 x0 x1, (if flag =? 0 then if kzalloc
      then Some (mkTransfer 0 DMA_TO_DEVICE TRANSFER_STATE_NEW 0 0 [0; 0] 0) else None
      else e_transfer e) = Some t0 /\ list_desc t0 = [x0; x1]).
  { destruct Ht as [[-> ->] | [Hne (t & x0 & x1 & Et & El)]]; [by eexists _, _, _ |].
    rewrite (proj2 (Z.eqb_neq _ _) Hne). by exists t, x0, x1. }
  destruct Hx as (t0 & x0 & x1 & -> & El). cbn [mbind option_bind].
  assert (Hn : match e_dir (e_config e) with DMA_TO_DEVICE => TX_DESC_NUM | _ => RX_DESC_NUM end = 2 * 512)
    by (by destruct (e_dir _)). rewrite Hn.
  rewrite (transfer_desc_init_ok _ desc 512 x0 x1) by (done || (cbn [t_desc_bus]; lia)).
  cbn [mbind option_bind]. unfold transfer_queue. cbn [desc_num]. change (2 * 512 =? 0) with false.
  cbn beta iota. rewrite set_e_desc_bus_same.
  pose proof (init_two_chains (e_desc_bus (e_config e)) desc Hb0 Hb1 Hd) as Hc.
  assert (Hs : set_e_config (e_config e) (set_e_desc (Some (imap (fun j d =>
      if bool_decide (j < Z.to_nat (2 * 512))%nat then init_desc (e_desc_bus (e_config e)) 512 (Z.of_nat j) d
      else d) desc)) e) = set_e_desc (Some (imap (fun j d =>
      if bool_decide (j < Z.to_nat (2 * 512))%nat then init_desc (e_desc_bus (e_config e)) 512 (Z.of_nat j) d
      else d) desc)) e) by (by destruct e).
  cbn [t_desc_bus]. rewrite Hs.
  destruct (flag =? 0); cbn [e_shutdown set_e_transfer set_e_desc]; rewrite Hshut;
    cbn [Z.eqb negb mbind option_bind]; eexists _, _; (split; [reflexivity |]);
    (split; [by rewrite length_imap |]); by split_and!.
Qed.

(** The next-descriptor words and addresses of the descriptors of an array. *)
Definition same_buffers (d d' : xdma_desc) : Prop :=
  src_addr_lo d' = src_addr_lo d /\ src_addr_hi d' = src_addr_hi d /\
  dst_addr_lo d' = dst_addr_lo d /\ dst_addr_hi d' = dst_addr_hi d.

(** C29. Preparing [2 m] descriptors makes two lists: from each of the two list
    heads the device fetches exactly the [m] descriptors of that half, in order,
    and stops; the buffer addresses in the descriptors are kept, and the
    descriptors beyond are not touched.  (The warning of an overflow of the list
    heads is issued for the last descriptor, although nothing overflows.) *)
Theorem transfer_desc_init_spec t descs m x0 x1 :
  0 < m <= 1024 -> 2 * m <= Z.of_nat (length descs) ->
  0 <= t_desc_bus t -> t_desc_bus t + SIZEOF_XDMA_DESC * (2 * m) < 2 ^ 64 ->
  list_desc t = [x0; x1] ->
  exists t' descs' h0 h1, transfer_desc_init t descs (2 * m) = Some (t', descs', [2 * m - 1]) /\
    list_desc t' = [h0; h1] /\ current_list t' = current_list t /\
    fetch (S (Z.to_nat m)) (t_desc_bus t) descs' h0 = Some (seqZ 0 m) /\
    fetch (S (Z.to_nat m)) (t_desc_bus t) descs' h1 = Some (seqZ m m) /\
    Forall2 same_buffers descs descs' /\
    drop (Z.to_nat (2 * m)) descs' = drop (Z.to_nat (2 * m)) descs.
Proof.
  intros Hm Hlen Hbus Hend Hl. rewrite (transfer_desc_init_ok _ _ _ x0 x1) by done.
  eexists _, _, _, _. split; [reflexivity |]. split; [reflexivity |]. split; [reflexivity |].
  set (descs' := imap _ descs).
  assert (Hget : forall i, 0 <= i < 2 * m -> exists d,
            getz descs' i = Some (init_desc (t_desc_bus t) m i d)).
  { intros i Hi. destruct (lookup_lt_is_Some_2 descs (Z.to_nat i)) as [d Hd]; [lia |].
    exists d. unfold descs'. rewrite getz_nonneg, list_lookup_imap, Hd by lia. cbn.
    rewrite bool_decide_true by lia. by rewrite Z2Nat.id by lia. }
  assert (Hrun : forall a, a = 0 \/ a = m -> fetch (S (Z.to_nat m)) (t_desc_bus t) descs'
            (desc_addr (t_desc_bus t) a) = Some (seqZ a m)).
  { intros a Ha. replace m with (Z.of_nat (Z.to_nat (m - 1)) + 1) at 2 by lia.
    assert (Hrem : forall i, a <= i < a + m -> Z.rem i m = i - a).
    { intros i Hi. rewrite Z.rem_mod_nonneg by lia. destruct Ha as [-> | ->].
      - rewrite Z.mod_small by lia. lia.
      - replace i with (i - m + 1 * m) by lia. rewrite Z_mod_plus_full, Z.mod_small by lia. lia. }
    apply fetch_chain; [lia | lia | |].
    - intros i Hi. destruct (Hget i) as [d Hd]; [lia |]. eexists. split; [exact Hd |].
      apply init_desc_more; [lia | lia | | rewrite Hrem by lia; lia].
      unfold SIZEOF_XDMA_DESC in *. lia.
    - destruct (Hget (a + Z.of_nat (Z.to_nat (m - 1)))) as [d Hd]; [lia |].
      eexists. split; [exact Hd |]. apply init_desc_last. rewrite Hrem by lia. lia. }
  split_and!.
  - rewrite <- Hrun by (by left). f_equal. unfold desc_addr. lia.
  - by rewrite <- Hrun by (by right).
  - apply Forall2_same_length_lookup_2; [by unfold descs'; rewrite length_imap |].
    intros i d d' Hd. unfold descs'. rewrite list_lookup_imap, Hd. cbn. intros [= <-].
    case_bool_decide; [| done]. unfold init_desc. by destruct (_ =? _).
  - apply list_eq. intros j. rewrite !lookup_drop. unfold descs'. rewrite list_lookup_imap.
    destruct (descs !! _); [| done]. cbn. rewrite bool_decide_false by lia. done.
Qed.

(** ** The registers of a start and a stop *)

Section Registers.
Context {D : Type} `{Device D}.

(** What [engine_start] stores, given the address of the first descriptor: the
    run bit is set by the last store. *)
Definition start_stores (engine : xdma_engine) (a : Z) : list (Z * Z) :=
  [(sgdma_reg engine SG_FIRST_DESC_LO, PCI_DMA_L a);
   (sgdma_reg engine SG_FIRST_DESC_HI, PCI_DMA_H a);
   (sgdma_reg engine SG_FIRST_DESC_ADJACENT, 0);
   (reg engine ENG_INT_MASK, 0xF83E0E);
   (reg engine ENG_CONTROL, 0xF83E0F)].

Definition started (engine : xdma_engine) : xdma_engine :=
  set_e_running true (set_e_desc_dequeued 0 (set_e_shutdown ENGINE_SHUTDOWN_NONE engine)).

Lemma engine_start_obs engine t a :
  e_transfer engine = Some t -> getz (list_desc t) (current_list t) = Some a ->
  is_u64 a -> e_running engine = false ->
  obs (engine_start engine) (fun r l => r = Ok (started engine) /\ stores l = start_stores engine a).
Proof.
  intros Et Ea Hu Hr. unfold engine_start. rewrite Et, Hr.
  repeat (io_step; try rewrite Ea). unfold engine_start_mode_config.
  repeat io_step. cbn. split; [done |].
  destruct (dma_halves _ Hu) as (Hl & Hh & _). by rewrite (u32_small _ Hl), (u32_small _ Hh).
Qed.

Lemma engine_stop_obs engine :
  obs (xdma_engine_stop engine) (fun r l => r = Ok (set_e_running false engine) /\
    exists v, l = [WR (reg engine ENG_CONTROL) v] /\ Z.testbit v 0 = false).
Proof.
  unfold xdma_engine_stop. repeat io_step. cbn. split; [done |]. eexists. split; [done |].
  by vm_compute.
Qed.

(** Starting an idle engine hands it the head of the current list, both
    halves of the address, before setting the run bit, and marks it running;
    a running engine is never started again ([BUG]); an engine without a transfer
    is left alone.  Stopping clears the run bit and marks it idle. *)
Theorem engine_start_spec (engine : xdma_engine) :
  (forall t a, e_transfer engine = Some t -> getz (list_desc t) (current_list t) = Some a ->
     is_u64 a -> e_running engine = false ->
     obs (engine_start engine) (fun r l => r = Ok (started engine) /\
       stores l = start_stores engine a)) /\
  (forall t, e_transfer engine = Some t -> e_running engine = true ->
     obs (engine_start engine) (fun r l => r = Trap /\ l = [])) /\
  (e_transfer engine = None -> obs (engine_start engine) (fun r l => r = Ok engine /\ l = [])) /\
  obs (xdma_engine_stop engine) (fun r l => r = Ok (set_e_running false engine) /\
    exists v, l = [WR (reg engine ENG_CONTROL) v] /\ Z.testbit v 0 = false).
Proof.
  split_and!.
  - intros t a. apply engine_start_obs.
  - intros t Et Hr d. unfold engine_start. by rewrite Et, Hr.
  - intros Et d. unfold engine_start. by rewrite Et.
  - apply engine_stop_obs.
Qed.

End Registers.

(** ** Witnesses *)

Definition sample_desc : xdma_desc := mkDesc 0 7 0x1000 0 0x2000 1 5 6.
Definition sample_transfer : xdma_transfer :=
  mkTransfer 4 DMA_TO_DEVICE TRANSFER_STATE_NEW 0 0xFFFFFFF0 [0; 0] 0.

(** Two lists of two descriptors, the fifth descriptor left alone; the second
    list starts above the 4 GB boundary. *)
Lemma transfer_desc_init_witness : exists t' descs' h0 h1,
  transfer_desc_init sample_transfer (replicate 5 sample_desc) 4 = Some (t', descs', [3]) /\
  list_desc t' = [h0; h1] /\ h1 = 0x100000030 /\
  fetch 3 0xFFFFFFF0 descs' h0 = Some [0; 1] /\ fetch 3 0xFFFFFFF0 descs' h1 = Some [2; 3].
Proof.
  destruct (transfer_desc_init_spec sample_transfer (replicate 5 sample_desc) 2 0 0)
    as (t' & descs' & h0 & h1 & E & Hl & _ & H0 & H1 & _); [lia | simpl; lia | simpl; lia | | done |].
  { unfold SIZEOF_XDMA_DESC. simpl. lia. }
  exists t', descs', h0, h1. split; [exact E |]. split; [exact Hl |]. split; [| by split].
  assert (Hh : (match transfer_desc_init sample_transfer (replicate 5 sample_desc) 4 with
                | Some (t, _, _) => list_desc t | None => [] end) = list_desc t')
    by (change 4 with (2 * 2); by rewrite E).
  rewrite Hl in Hh. vm_compute in Hh. congruence.
Defined.

Definition sample_engine : xdma_engine :=
  mkEngine (mkConfig MAGIC_ENGINE 0 1 0x1000 0x5000 DMA_TO_DEVICE true 1 1 64 0 0xFFFFFFF0 0 0 0)
    0 false 3 0 (Some (set_list_desc [0xFFFFFFF0; 0x100000030] (set_current_list 1 sample_transfer)))
    None None None None.

(** The second list is started: its head goes to the first-descriptor registers. *)
Lemma engine_start_witness :
  obs (D := regfile) (engine_start sample_engine) (fun r l => r = Ok (started sample_engine) /\
    stores l = [(0x5080, 0x30); (0x5084, 1); (0x5088, 0); (0x1090, 0xF83E0E); (0x1004, 0xF83E0F)]).
Proof.
  destruct (engine_start_spec (D := regfile) sample_engine) as [Hs _].
  assert (Hu : is_u64 0x100000030) by (unfold is_u64; lia).
  exact (Hs _ 0x100000030 eq_refl eq_refl Hu eq_refl).
Defined.
