(* ===== verification/XdmaDev.v ===== *)
(** * Setting up the endpoint (libxdma.c)

    Opening the device maps its BARs, finds its engines, allocates their buffers
    and requests its interrupts; closing it gives all of that back; a reset takes
    it offline and online again.  The registers are those of a [Device] that is
    also the kernel's PCI layer, which counts what has been taken from it. *)

From Stdlib Require Import ZArith Lia Bool.
From S2P Require Import Prelude.
From S2P Require Import Mmio.
From S2P Require Import Kernel.
From S2P Require Import XdmaEngine.

Definition XDMA_BAR_NUM : Z := 3.
Definition XDMA_BAR_SIZE : Z := 0x8000.
Definition XDMA_CHANNEL_NUM_MAX : Z := 2.
Definition XDMA_ENG_IRQ_NUM : Z := 1.
Definition XDMA_OFS_INT_CTRL : Z := 0x2000.
Definition XDMA_OFS_CONFIG : Z := 0x3000.
Definition MAX_USER_IRQ : Z := 16.
Definition H2C_CHANNEL_OFFSET : Z := 0x1000.
Definition SGDMA_OFFSET_FROM_CHANNEL : Z := 0x4000.
Definition CHANNEL_SPACING : Z := 0x100.
Definition XDMA_ID_H2C : Z := 0x1fc0.
Definition XDMA_ID_C2H : Z := 0x1fc1.
Definition IRQ_BLOCK_ID : Z := 0x1fc20000.
Definition CONFIG_BLOCK_ID : Z := 0x1fc30000.
Definition XDEV_FLAG_OFFLINE : Z := 1.
Definition CYCLIC_RX_PAGES_MAX : Z := RX_DESC_NUM.
Definition INT_MAX : Z := 2 ^ 31 - 1.
Definition ALL_ONES : Z := 0xFFFFFFFF.       (* ~0 *)

(** [struct interrupt_regs]: offsets from [XDMA_OFS_INT_CTRL]. *)
Definition IR_IDENTIFIER : Z := 0x00.
Definition IR_USER_ENABLE : Z := 0x04.
Definition IR_USER_ENABLE_W1S : Z := 0x08.
Definition IR_USER_ENABLE_W1C : Z := 0x0C.
Definition IR_CHANNEL_ENABLE : Z := 0x10.
Definition IR_CHANNEL_ENABLE_W1S : Z := 0x14.
Definition IR_CHANNEL_ENABLE_W1C : Z := 0x18.
Definition IR_USER_REQUEST : Z := 0x40.
Definition IR_CHANNEL_REQUEST : Z := 0x44.
Definition IR_USER_PENDING : Z := 0x48.
Definition IR_CHANNEL_PENDING : Z := 0x4C.
Definition IR_USER_MSI_VECTOR : Z := 0x80.
Definition IR_CHANNEL_MSI_VECTOR : Z := 0xA0.
(** [struct engine_regs]: the identifier is the first register. *)
Definition ENG_IDENTIFIER : Z := 0x00.

Inductive capability := PCI_CAP_ID_MSI | PCI_CAP_ID_MSIX.
#[export] Instance capability_eq_dec : EqDecision capability.
Proof. solve_decision. Defined.

(** An engine of the device, and the buffers it has. *)
Definition engine_id : Type := dma_direction * Z.
#[export] Instance direction_eq_dec : EqDecision dma_direction.
Proof. solve_decision. Defined.
Inductive dma_buffer := DescBuffer | ResultBuffer | RxBuffer | TxBuffer.
#[export] Instance dma_buffer_eq_dec : EqDecision dma_buffer.
Proof. solve_decision. Defined.

(** The last argument of [request_irq]. *)
Inductive irq_cookie := ForDevice | ForEngine (e : engine_id) | ForUser (i : Z).
#[export] Instance irq_cookie_eq_dec : EqDecision irq_cookie.
Proof. solve_decision. Defined.

(** What is taken from the kernel for one device, and given back. *)
Inductive pci_resource :=
| DevMemory                        (* kzalloc, kfree of the xdma_dev *)
| PciDevice                        (* pci_enable_device, pci_disable_device *)
| Regions                          (* pci_request_regions, pci_release_regions *)
| Bar (i : Z)                      (* pci_iomap, pci_iounmap *)
| MsixVectors                      (* pci_alloc_irq_vectors, pci_disable_msix *)
| MsiVector                        (* pci_enable_msi, pci_disable_msi *)
| Irq (line : Z) (c : irq_cookie)  (* request_irq, free_irq *)
| Dma (e : engine_id) (b : dma_buffer)   (* dma_alloc_coherent, dma_free_coherent *)
| Tasklet.                         (* kzalloc of the tasklet *)
#[export] Instance pci_resource_eq_dec : EqDecision pci_resource.
Proof. solve_decision. Defined.

(** Giving these back when they are not held does nothing but warn. *)
Definition forgiving (r : pci_resource) : bool :=
  match r with MsixVectors | MsiVector | Irq _ _ => true | _ => false end.

Class PciApi (K : Type) `{!Device K} := {
  pci_acquire : pci_resource -> K -> Z * K;
  pci_release : pci_resource -> K -> K;
  pci_held : K -> pci_resource -> Z;
  pci_held_nonneg k r : 0 <= pci_held k r;
  pci_acquire_neg r k : fst (pci_acquire r k) <= 0;
  pci_acquire_held r k x : pci_held (snd (pci_acquire r k)) x =
    pci_held k x + (if decide (fst (pci_acquire r k) = 0 /\ r = x) then 1 else 0);
  pci_release_held r k x : 1 <= pci_held k r -> pci_held (pci_release r k) x = pci_held k x - (if decide (r = x) then 1 else 0);
  pci_release_none r k x : forgiving r = true -> pci_held k r = 0 -> pci_held (pci_release r k) x = pci_held k x;

  (* the device *)
  pci_resource_len : Z -> Z;               (* of a BAR *)
  iomap_address : Z -> Z;                  (* where a BAR is mapped *)
  dma_bus : engine_id -> dma_buffer -> Z;
  pci_irq_vector : Z -> Z;
  pci_irq : Z;                             (* pdev->irq *)
  interrupt_pin : Z;                       (* PCI_INTERRUPT_PIN *)
  no_msi : bool;
  bus_no_msi : list bool;                  (* PCI_BUS_FLAGS_NO_MSI from the bus up *)
  pci_find_capability : capability -> bool;
  ext_tag_enabled : K -> bool;             (* PCI_EXP_DEVCTL_EXT_TAG *)

  (* other calls *)
  ack_status_interrupt : K -> K;           (* pci_check_intr_pend *)
  clear_intx_disable : K -> K;             (* pci_keep_intx_enabled *)
  pci_enable_relaxed_ordering : K -> K;
  pcie_set_readrq : Z -> K -> Z * K;
  pci_set_master : K -> K;
  dma_set_mask : Z -> K -> Z * K;          (* in bits *)
  dma_set_mask_and_coherent : Z -> K -> K;

  pci_irq_vector_set j : u32 (pci_irq_vector j) <> 0;   (* zero is no interrupt *)
  pci_irq_nonneg : 0 <= pci_irq;

  quiet_read a k x : pci_held (snd (dev_read a k)) x = pci_held k x;
  quiet_write a v k x : pci_held (dev_write a v k) x = pci_held k x;
  quiet_ack k x : pci_held (ack_status_interrupt k) x = pci_held k x;
  quiet_intx k x : pci_held (clear_intx_disable k) x = pci_held k x;
  quiet_relaxed k x : pci_held (pci_enable_relaxed_ordering k) x = pci_held k x;
  quiet_readrq n k x : pci_held (snd (pcie_set_readrq n k)) x = pci_held k x;
  quiet_master k x : pci_held (pci_set_master k) x = pci_held k x;
  quiet_mask n k x : pci_held (snd (dma_set_mask n k)) x = pci_held k x;
  quiet_coherent n k x : pci_held (dma_set_mask_and_coherent n k) x = pci_held k x;
}.

(** ** The state *)

(** An engine and [msix_irq_line]. *)
Record dev_engine := mkDevEngine { de_engine : xdma_engine; de_line : Z }.

(** Zeroed memory.  The direction of an engine without magic is not looked at. *)
Definition zero_engine : dev_engine :=
  mkDevEngine (mkEngine (mkConfig 0 0 0 0 0 DMA_TO_DEVICE false 0 0 0 0 0 0 0 0) 0 false 0 0 None None None None None) 0.
Definition zero_desc : xdma_desc := mkDesc 0 0 0 0 0 0 0 0.
Definition zero_result : xdma_result := mkResult 0 0.

Record bars := mkBars { b_bar : list (option Z); b_config_idx : Z; b_user_idx : Z; b_bypass_idx : Z }.
Record irqs := mkIrqs { i_line : Z; i_msi : bool; i_msix : bool; i_mask_user : Z; i_user_max : Z }.
Record engines := mkEngines {
  g_h2c_max : Z;
  g_c2h_max : Z;
  g_num : Z;
  g_mask_h2c : Z;
  g_mask_c2h : Z;
  g_h2c : list dev_engine;
  g_c2h : list dev_engine;
}.

Record xdma_dev := mkXdev {
  xd_bars : bars;
  xd_irqs : irqs;
  xd_engines : engines;
  xd_regions_in_use : bool;
  xd_got_regions : bool;
  xd_flags : Z;
  xd_idx : Z;
}.
Definition set_bars x d := mkXdev x (xd_irqs d) (xd_engines d) (xd_regions_in_use d) (xd_got_regions d) (xd_flags d) (xd_idx d).
Definition set_irqs x d := mkXdev (xd_bars d) x (xd_engines d) (xd_regions_in_use d) (xd_got_regions d) (xd_flags d) (xd_idx d).
Definition set_engines x d := mkXdev (xd_bars d) (xd_irqs d) x (xd_regions_in_use d) (xd_got_regions d) (xd_flags d) (xd_idx d).
Definition set_regions in_use got d := mkXdev (xd_bars d) (xd_irqs d) (xd_engines d) in_use got (xd_flags d) (xd_idx d).
Definition set_flags x d := mkXdev (xd_bars d) (xd_irqs d) (xd_engines d) (xd_regions_in_use d) (xd_got_regions d) x (xd_idx d).

Definition upd_bars f d := set_bars (f (xd_bars d)) d.
Definition upd_irqs f d := set_irqs (f (xd_irqs d)) d.
Definition upd_engines f d := set_engines (f (xd_engines d)) d.
Definition set_bar_list x b := mkBars x (b_config_idx b) (b_user_idx b) (b_bypass_idx b).
Definition set_config_idx x b := mkBars (b_bar b) x (b_user_idx b) (b_bypass_idx b).
Definition set_user_idx x b := mkBars (b_bar b) (b_config_idx b) x (b_bypass_idx b).
Definition set_bypass_idx x b := mkBars (b_bar b) (b_config_idx b) (b_user_idx b) x.
Definition set_line x i := mkIrqs x (i_msi i) (i_msix i) (i_mask_user i) (i_user_max i).
Definition set_msi x i := mkIrqs (i_line i) x (i_msix i) (i_mask_user i) (i_user_max i).
Definition set_msix x i := mkIrqs (i_line i) (i_msi i) x (i_mask_user i) (i_user_max i).
Definition set_mask_user x i := mkIrqs (i_line i) (i_msi i) (i_msix i) x (i_user_max i).
Definition set_max (dir : dma_direction) x g :=
  match dir with
  | DMA_TO_DEVICE => mkEngines x (g_c2h_max g) (g_num g) (g_mask_h2c g) (g_mask_c2h g) (g_h2c g) (g_c2h g)
  | DMA_FROM_DEVICE => mkEngines (g_h2c_max g) x (g_num g) (g_mask_h2c g) (g_mask_c2h g) (g_h2c g) (g_c2h g)
  end.
Definition set_num x g := mkEngines (g_h2c_max g) (g_c2h_max g) x (g_mask_h2c g) (g_mask_c2h g) (g_h2c g) (g_c2h g).
Definition add_mask (dir : dma_direction) x g :=
  match dir with
  | DMA_TO_DEVICE => mkEngines (g_h2c_max g) (g_c2h_max g) (g_num g) (Z.lor (g_mask_h2c g) x) (g_mask_c2h g) (g_h2c g) (g_c2h g)
  | DMA_FROM_DEVICE => mkEngines (g_h2c_max g) (g_c2h_max g) (g_num g) (g_mask_h2c g) (Z.lor (g_mask_c2h g) x) (g_h2c g) (g_c2h g)
  end.
Definition g_max (dir : dma_direction) g : Z := match dir with DMA_TO_DEVICE => g_h2c_max g | DMA_FROM_DEVICE => g_c2h_max g end.
Definition g_list (dir : dma_direction) g : list dev_engine := match dir with DMA_TO_DEVICE => g_h2c g | DMA_FROM_DEVICE => g_c2h g end.
Definition set_list (dir : dma_direction) l g :=
  match dir with
  | DMA_TO_DEVICE => mkEngines (g_h2c_max g) (g_c2h_max g) (g_num g) (g_mask_h2c g) (g_mask_c2h g) l (g_c2h g)
  | DMA_FROM_DEVICE => mkEngines (g_h2c_max g) (g_c2h_max g) (g_num g) (g_mask_h2c g) (g_mask_c2h g) (g_h2c g) l
  end.

(** The handlers the code requests interrupts for. *)
Inductive irq_handler :=
| XdmaIsr | ChannelH2c | ChannelH2cPtp | ChannelC2h | UserIrq | UserTimerValueChange | UserConfigChange | UserTimerChange.

(** An action of an interrupt line, and an entry of [xdev_list]. *)
Record irq_action := mkAction { ia_line : Z; ia_cookie : irq_cookie; ia_handler : irq_handler }.
Record xdev_entry := mkXdevEntry { xl_addr : Z; xl_pdev : Z; xl_idx : Z }.

(** The device, the hardware, the global [tsk_ptp] (is it set), the interrupts
    requested, those freed that were not requested, and [xdev_list]. *)
Record xs (K : Type) := mkXs {
  xs_dev : xdma_dev;
  xs_hw : K;
  xs_tsk : bool;
  xs_actions : list irq_action;
  xs_spurious : list pci_resource;
  xs_list : list xdev_entry;
}.
#[global] Arguments mkXs {K}.
#[global] Arguments xs_dev {K}.
#[global] Arguments xs_hw {K}.
#[global] Arguments xs_tsk {K}.
#[global] Arguments xs_actions {K}.
#[global] Arguments xs_spurious {K}.
#[global] Arguments xs_list {K}.
Definition set_dev {K} x (s : xs K) : xs K := mkXs x (xs_hw s) (xs_tsk s) (xs_actions s) (xs_spurious s) (xs_list s).
Definition set_hw {K} x (s : xs K) : xs K := mkXs (xs_dev s) x (xs_tsk s) (xs_actions s) (xs_spurious s) (xs_list s).
Definition set_tsk {K} x (s : xs K) : xs K := mkXs (xs_dev s) (xs_hw s) x (xs_actions s) (xs_spurious s) (xs_list s).
Definition set_actions {K} x (s : xs K) : xs K := mkXs (xs_dev s) (xs_hw s) (xs_tsk s) x (xs_spurious s) (xs_list s).
Definition set_spurious {K} x (s : xs K) : xs K := mkXs (xs_dev s) (xs_hw s) (xs_tsk s) (xs_actions s) x (xs_list s).
Definition set_xdev_list {K} x (s : xs K) : xs K := mkXs (xs_dev s) (xs_hw s) (xs_tsk s) (xs_actions s) (xs_spurious s) x.

(** ** Programs of registers *)

Section Registers.
Context {K : Type} `{!Device K}.
Local Open Scope io_scope.

(** Up to four vector numbers from [i] on, five bits each in a byte of its own,
    and the number to go on with. *)
Fixpoint pack_vectors (k : nat) (shift i max : Z) : Z * Z :=
  match k with
  | O => (0, i)
  | S k =>
      if i <? max then
        let '(val, i') := pack_vectors k (shift + 8) (i + 1) max in
        (Z.lor (Z.shiftl (Z.land i 0x1f) shift) val, i')
      else (0, i)
  end.

(** [for (j = 0; i < max; j++)], in as many turns as there are vectors at most. *)
Fixpoint prog_vectors (fuel : nat) (clear : bool) (base i max : Z) : io K unit :=
  if negb (i <? max) then ret tt
  else match fuel with
  | O => fun d => (NoFuel, d, [])
  | S fuel =>
      let '(val, i') := if clear then (0, i + 4) else pack_vectors 4 0 i max in
      do! writel base val in prog_vectors fuel clear (base + 4) i' max
  end.

(** The registers of the device with the config BAR at [bar]. *)
Definition ir (bar off : Z) : Z := bar + XDMA_OFS_INT_CTRL + off.

Definition prog_irq_msix_user (bar c2h_max h2c_max user_max : Z) (clear : bool) : io K unit :=
  prog_vectors (Z.to_nat user_max) clear (ir bar IR_USER_MSI_VECTOR) (c2h_max + h2c_max) (c2h_max + h2c_max + user_max).
Definition prog_irq_msix_channel (bar c2h_max h2c_max : Z) (clear : bool) : io K unit :=
  prog_vectors (Z.to_nat (c2h_max + h2c_max)) clear (ir bar IR_CHANNEL_MSI_VECTOR) 0 (c2h_max + h2c_max).

Definition channel_interrupts_enable (bar mask : Z) : io K unit := writel (ir bar IR_CHANNEL_ENABLE_W1S) mask.
Definition channel_interrupts_disable (bar mask : Z) : io K unit := writel (ir bar IR_CHANNEL_ENABLE_W1C) mask.
Definition user_interrupts_enable (bar mask : Z) : io K unit := writel (ir bar IR_USER_ENABLE_W1S) mask.
Definition user_interrupts_disable (bar mask : Z) : io K unit := writel (ir bar IR_USER_ENABLE_W1C) mask.

Definition build_u32 (hi lo : Z) : Z := Z.lor (Z.shiftl (Z.land hi 0xFFFF) 16) (Z.land lo 0xFFFF).

Definition read_interrupts (bar : Z) : io K Z :=
  let! hi := readl (ir bar IR_USER_REQUEST) in
  let! lo := readl (ir bar IR_CHANNEL_REQUEST) in
  ret (build_u32 hi lo).

(** The values are only printed. *)
Definition check_nonzero_interrupt_status (bar : Z) : io K unit :=
  do! readl (ir bar IR_USER_ENABLE) in
  do! readl (ir bar IR_CHANNEL_ENABLE) in
  do! readl (ir bar IR_USER_REQUEST) in
  do! readl (ir bar IR_CHANNEL_REQUEST) in
  do! readl (ir bar IR_USER_PENDING) in
  do! readl (ir bar IR_CHANNEL_PENDING) in
  ret tt.

Definition is_config_bar (bar : Z) : io K bool :=
  let! irq_id := readl (bar + XDMA_OFS_INT_CTRL + IR_IDENTIFIER) in
  let! cfg_id := readl (bar + XDMA_OFS_CONFIG) in
  ret ((Z.land irq_id 0xffff0000 =? IRQ_BLOCK_ID) && (Z.land cfg_id 0xffff0000 =? CONFIG_BLOCK_ID)).

Definition get_engine_channel_id (regs : Z) : io K Z :=
  let! value := readl (regs + ENG_IDENTIFIER) in ret (Z.shiftr (Z.land value 0x00000f00) 8).
Definition get_engine_id (regs : Z) : io K Z :=
  let! value := readl (regs + ENG_IDENTIFIER) in ret (Z.shiftr (Z.land value 0xffff0000) 16).

(** The four words are the same interrupt pin in each byte. *)
Definition prog_legacy (bar pin : Z) : io K unit :=
  if 1 <? pin then
    let val := u8 (pin - 1) in
    let w := Z.lor (Z.lor (Z.lor (Z.shiftl val 24) (Z.shiftl val 16)) (Z.shiftl val 8)) val in
    do! writel (bar + 0x2080) w in
    do! writel (bar + 0x2084) w in
    do! writel (bar + 0x2088) w in
    do! writel (bar + 0x208C) w in
    do! writel (bar + 0x20A0) w in
    writel (bar + 0x20A4) w
  else ret tt.

Definition set_alignments (align gran bits : Z) (c : engine_config) : engine_config :=
  mkConfig (e_magic c) (e_channel c) (e_irq_bitmask c) (e_regs c) (e_sgdma_regs c) (e_dir c) (e_streaming c)
    align gran bits (e_interrupt_enable_mask_value c) (e_desc_bus c) (cyclic_result_bus c) (rx_buff_bus c) (tx_buff_bus c).
Definition set_int_mask (v : Z) (c : engine_config) : engine_config :=
  mkConfig (e_magic c) (e_channel c) (e_irq_bitmask c) (e_regs c) (e_sgdma_regs c) (e_dir c) (e_streaming c)
    (e_addr_align c) (e_len_granularity c) (e_addr_bits c) v (e_desc_bus c) (cyclic_result_bus c) (rx_buff_bus c) (tx_buff_bus c).

Definition engine_alignments (engine : xdma_engine) : io K xdma_engine :=
  let! w := readl (reg engine ENG_ALIGNMENTS) in
  ret (set_e_config (if negb (w =? 0)
    then set_alignments (Z.shiftr (Z.land w 0x00ff0000) 16) (Z.shiftr (Z.land w 0x0000ff00) 8) (Z.land w 0x000000ff) (e_config engine)
    else set_alignments 1 1 64 (e_config engine)) engine).

(** Credit mode is off. *)
Definition engine_init_regs (engine : xdma_engine) : io K xdma_engine :=
  do! writel (reg engine ENG_CONTROL_W1C) XDMA_CTRL_NON_INCR_ADDR in
  let! engine := engine_alignments engine in
  let reg_value := Z.lor (Z.lor (Z.lor (Z.lor (Z.lor XDMA_CTRL_IE_DESC_ALIGN_MISMATCH XDMA_CTRL_IE_MAGIC_STOPPED)
    XDMA_CTRL_IE_READ_ERROR) XDMA_CTRL_IE_DESC_ERROR) XDMA_CTRL_IE_DESC_STOPPED) XDMA_CTRL_IE_DESC_COMPLETED in
  let reg_value := match e_streaming (e_config engine), e_dir (e_config engine) with
                   | true, DMA_FROM_DEVICE => Z.lor reg_value XDMA_CTRL_IE_IDLE_STOPPED | _, _ => reg_value end in
  do! writel (reg engine ENG_INT_MASK) reg_value in
  ret (set_e_config (set_int_mask reg_value (e_config engine)) engine).

End Registers.

(** ** Operations *)

Section Setup.
Context {K : Type} `{!Device K} `{!PciApi K}.
Notation M := (st (xs K)).

Definition io_st {A} (m : io K A) : M A := fun s =>
  match m (xs_hw s) with (Ok a, k, _) => Some (a, set_hw k s) | _ => None end.
Definition get_dev : M xdma_dev := fun s => Some (xs_dev s, s).
Definition upd_dev (f : xdma_dev -> xdma_dev) : M unit := modify (fun s => set_dev (f (xs_dev s)) s).
Definition hw (f : K -> K) : M unit := modify (fun s => set_hw (f (xs_hw s)) s).
Definition hw_ret (f : K -> Z * K) : M Z := fun s => let '(r, k) := f (xs_hw s) in Some (r, set_hw k s).
Definition take (r : pci_resource) : M Z := hw_ret (pci_acquire r).
Definition give (r : pci_resource) : M unit := fun s =>
  let s' := set_hw (pci_release r (xs_hw s)) s in
  Some (tt, if forgiving r && (pci_held (xs_hw s) r =? 0) then set_spurious (r :: xs_spurious s) s' else s').

(** [for (i = start; i < start + n; i++) body i]. *)
Fixpoint for_n (n : nat) (start : Z) (body : Z -> M unit) : M unit :=
  match n with O => mret tt | S n => _ ← body start; for_n n (start + 1) body end.

(** Where BAR [idx] is mapped; a null BAR is not read from. *)
Definition bar_at (idx : Z) : M Z :=
  d ← get_dev; o ← deref (getz (b_bar (xd_bars d)) idx); deref o.
Definition config_bar : M Z := d ← get_dev; bar_at (b_config_idx (xd_bars d)).

Definition set_bar (idx : Z) (o : option Z) : M unit :=
  d ← get_dev; l ← deref (setz (b_bar (xd_bars d)) idx o); upd_dev (upd_bars (set_bar_list l)).

Definition unmap_bar (i : Z) : M unit :=
  d ← get_dev;
  o ← deref (getz (b_bar (xd_bars d)) i);
  match o with
  | Some _ => _ ← give (Bar i); set_bar i None
  | None => mret tt
  end.
Definition unmap_bars : M unit := for_n (Z.to_nat XDMA_BAR_NUM) 0 unmap_bar.

(** The length mapped, zero for an empty BAR, negative on failure. *)
Definition map_single_bar (idx : Z) : M Z :=
  let bar_len := u64 (pci_resource_len idx) in
  _ ← set_bar idx None;
  if bar_len =? 0 then mret 0
  else
    let map_len := if INT_MAX <? bar_len then INT_MAX else bar_len in
    rv ← take (Bar idx);
    if negb (rv =? 0) then mret (-1)
    else _ ← set_bar idx (Some (iomap_address idx)); mret map_len.

Definition identify_bars (bar_id_list : list Z) (num_bars config_bar_pos : Z) : M unit :=
  if num_bars =? 2 then
    if config_bar_pos =? 0 then x ← deref (getz bar_id_list 1); upd_dev (upd_bars (set_bypass_idx x))
    else if config_bar_pos =? 1 then x ← deref (getz bar_id_list 0); upd_dev (upd_bars (set_user_idx x))
    else mret tt
  else if (num_bars =? 3) || (num_bars =? 4) then
    if (config_bar_pos =? 1) || (config_bar_pos =? 2) then
      x ← deref (getz bar_id_list 0);
      _ ← upd_dev (upd_bars (set_user_idx x));
      y ← deref (getz bar_id_list (num_bars - 1));
      upd_dev (upd_bars (set_bypass_idx y))
    else mret tt
  else mret tt.

(** [Some (bar_id_list, config_bar_pos)], or [None] for [goto fail]. *)
Fixpoint map_loop (n : nat) (i : Z) (ids : list Z) (pos : Z) : M (option (list Z * Z)) :=
  match n with
  | O => mret (Some (ids, pos))
  | S n =>
      bar_len ← map_single_bar i;
      if bar_len =? 0 then map_loop n (i + 1) ids pos
      else if bar_len <? 0 then mret None
      else
        d ← get_dev;
        pos ← (if (XDMA_BAR_SIZE <=? bar_len) && (b_config_idx (xd_bars d) <? 0) then
                 bar ← bar_at i;
                 yes ← io_st (is_config_bar bar);
                 if (yes : bool) then
                   _ ← upd_dev (upd_bars (set_config_idx i)); mret (Z.of_nat (length ids))
                 else mret pos
               else mret pos);
        map_loop n (i + 1) (ids ++ [i]) pos
  end.

Definition map_bars : M Z :=
  o ← map_loop (Z.to_nat XDMA_BAR_NUM) 0 [] 0;
  match o with
  | None => _ ← unmap_bars; mret (- EINVAL)
  | Some (ids, pos) =>
      d ← get_dev;
      if b_config_idx (xd_bars d) <? 0 then _ ← unmap_bars; mret (- EINVAL)
      else _ ← identify_bars ids (Z.of_nat (length ids)) pos; mret 0
  end.

Definition msi_msix_capable (type : capability) : bool :=
  negb no_msi && forallb negb bus_no_msi && pci_find_capability type.

Definition disable_msi_msix : M unit :=
  d ← get_dev;
  if i_msix (xd_irqs d) then _ ← give MsixVectors; upd_dev (upd_irqs (set_msix false))
  else if i_msi (xd_irqs d) then _ ← give MsiVector; upd_dev (upd_irqs (set_msi false))
  else mret tt.

Definition enable_msi_msix (interrupt_mode : Z) : M Z :=
  if (interrupt_mode =? 0) && msi_msix_capable PCI_CAP_ID_MSIX then
    rv ← take MsixVectors; _ ← upd_dev (upd_irqs (set_msix true)); mret rv
  else if (interrupt_mode =? 1) && msi_msix_capable PCI_CAP_ID_MSI then
    rv ← take MsiVector; _ ← upd_dev (upd_irqs (set_msi true)); mret rv
  else mret 0.

Definition request_irq (line : Z) (h : irq_handler) (c : irq_cookie) : M Z :=
  rv ← take (Irq line c);
  _ ← (if rv =? 0 then modify (fun s => set_actions (mkAction line c h :: xs_actions s) s) else mret tt);
  mret rv.
Definition is_action (line : Z) (c : irq_cookie) (x : irq_action) : bool :=
  (ia_line x =? line) && bool_decide (ia_cookie x = c).
Definition free_irq (line : Z) (c : irq_cookie) : M unit :=
  _ ← modify (fun s => set_actions (List.filter (fun x => negb (is_action line c x)) (xs_actions s)) s);
  give (Irq line c).

(** *** Interrupts *)

Definition get_engine (dir : dma_direction) (i : Z) : M dev_engine :=
  d ← get_dev; deref (getz (g_list dir (xd_engines d)) i).
Definition put_engine (dir : dma_direction) (i : Z) (e : dev_engine) : M unit :=
  d ← get_dev; l ← deref (setz (g_list dir (xd_engines d)) i e); upd_dev (upd_engines (set_list dir l)).
Definition vector (j : Z) : Z := u32 (pci_irq_vector j).

Definition prog_channel (clear : bool) : M unit :=
  bar ← config_bar; d ← get_dev;
  io_st (prog_irq_msix_channel bar (g_c2h_max (xd_engines d)) (g_h2c_max (xd_engines d)) clear).
Definition prog_user (clear : bool) : M unit :=
  bar ← config_bar; d ← get_dev;
  io_st (prog_irq_msix_user bar (g_c2h_max (xd_engines d)) (g_h2c_max (xd_engines d)) (i_user_max (xd_irqs d)) clear).

(** Up to the first engine without a line. *)
Fixpoint release_channels (dir : dma_direction) (n : nat) (i : Z) : M unit :=
  match n with
  | O => mret tt
  | S n =>
      engine ← get_engine dir i;
      if de_line engine =? 0 then mret tt
      else _ ← free_irq (de_line engine) (ForEngine (dir, i)); release_channels dir n (i + 1)
  end.

(** [tasklet_kill] goes through its pointer. *)
Definition kill_tasklet : M unit := s ← get_st; if xs_tsk s then mret tt else fault.

Definition irq_msix_channel_teardown : M unit :=
  d ← get_dev;
  if negb (i_msix (xd_irqs d)) then mret tt
  else
    _ ← prog_channel true;
    _ ← release_channels DMA_TO_DEVICE (Z.to_nat (g_h2c_max (xd_engines d))) 0;
    _ ← release_channels DMA_FROM_DEVICE (Z.to_nat (g_c2h_max (xd_engines d))) 0;
    kill_tasklet.

Definition channel_handler (dir : dma_direction) (i : Z) : option irq_handler :=
  match dir with
  | DMA_TO_DEVICE => if i =? 0 then Some ChannelH2c else if i =? 1 then Some ChannelH2cPtp else None
  | DMA_FROM_DEVICE => Some ChannelC2h
  end.

(** Engine [i] has vector [j]. *)
Fixpoint request_channels (dir : dma_direction) (n : nat) (i j : Z) : M Z :=
  match n with
  | O => mret 0
  | S n =>
      engine ← get_engine dir i;
      rv ← (match channel_handler dir i with
            | Some h => request_irq (vector j) h (ForEngine (dir, i))
            | None => mret 0
            end);
      if negb (rv =? 0) then mret rv
      else
        _ ← put_engine dir i (mkDevEngine (de_engine engine) (vector j));
        request_channels dir n (i + 1) (j + 1)
  end.

(** The pointer [kzalloc] returns is not tested before [tasklet_init]. *)
Definition new_tasklet : M unit :=
  rv ← take Tasklet;
  _ ← modify (set_tsk (rv =? 0));
  if rv =? 0 then mret tt else fault.

Definition irq_msix_channel_setup : M Z :=
  d ← get_dev;
  if negb (i_msix (xd_irqs d)) then mret 0
  else
    let h2c := g_h2c_max (xd_engines d) in
    rv ← request_channels DMA_TO_DEVICE (Z.to_nat h2c) 0 0;
    if negb (rv =? 0) then mret rv
    else
      rv ← request_channels DMA_FROM_DEVICE (Z.to_nat (g_c2h_max (xd_engines d))) 0 h2c;
      if negb (rv =? 0) then mret rv else _ ← new_tasklet; mret 0.

(** The vector of user interrupt [i]. *)
Definition user_vector (i : Z) : M Z :=
  d ← get_dev; mret (vector (g_h2c_max (xd_engines d) + g_c2h_max (xd_engines d) + i)).

Definition irq_msix_user_teardown : M unit :=
  d ← get_dev;
  if negb (i_msix (xd_irqs d)) then mret tt
  else
    _ ← prog_user true;
    for_n (Z.to_nat (i_user_max (xd_irqs d))) 0 (fun i => v ← user_vector i; free_irq v (ForUser i)).

Definition user_handler (i : Z) : option irq_handler :=
  if i =? 10 then Some UserTimerValueChange
  else if i =? 8 then Some UserConfigChange
  else if i =? 9 then Some UserTimerChange
  else if (0 <=? i) && (i <=? 15) then Some UserIrq
  else None.

(** [for (i--, j--; i >= 0; i--, j--)]: the [n] interrupts below [n]. *)
Fixpoint free_users_below (n : nat) : M unit :=
  match n with
  | O => mret tt
  | S n => v ← user_vector (Z.of_nat n); _ ← free_irq v (ForUser (Z.of_nat n)); free_users_below n
  end.

Fixpoint request_users (n : nat) (i : Z) : M Z :=
  match n with
  | O => mret 0
  | S n =>
      v ← user_vector i;
      rv ← (match user_handler i with Some h => request_irq v h (ForUser i) | None => mret 0 end);
      if negb (rv =? 0) then _ ← free_users_below (Z.to_nat i); mret rv
      else request_users n (i + 1)
  end.

Definition irq_msix_user_setup : M Z := d ← get_dev; request_users (Z.to_nat (i_user_max (xd_irqs d))) 0.

Definition irq_msi_setup : M Z :=
  _ ← upd_dev (upd_irqs (set_line pci_irq)); request_irq pci_irq XdmaIsr ForDevice.

Definition irq_legacy_setup : M Z :=
  bar ← (if 1 <? u8 interrupt_pin then config_bar else mret 0);
  _ ← io_st (prog_legacy bar (u8 interrupt_pin));
  _ ← upd_dev (upd_irqs (set_line pci_irq));
  request_irq pci_irq XdmaIsr ForDevice.

Definition irq_teardown : M unit :=
  d ← get_dev;
  if i_msix (xd_irqs d) then _ ← irq_msix_channel_teardown; irq_msix_user_teardown
  else if negb (i_line (xd_irqs d) =? -1) then free_irq (i_line (xd_irqs d)) ForDevice
  else mret tt.

Definition irq_setup : M Z :=
  _ ← hw clear_intx_disable;
  d ← get_dev;
  if i_msix (xd_irqs d) then
    rv ← irq_msix_channel_setup;
    if negb (rv =? 0) then mret rv
    else
      rv ← irq_msix_user_setup;
      if negb (rv =? 0) then mret rv
      else _ ← prog_channel false; _ ← prog_user false; mret 0
  else if i_msi (xd_irqs d) then irq_msi_setup
  else irq_legacy_setup.

(** *** Engines *)

Definition set_rx_buff x (r : xdma_engine) : xdma_engine :=
  mkEngine (e_config r) (e_shutdown r) (e_running r) (e_desc_dequeued r) (e_status r) (e_transfer r)
    (e_desc r) (cyclic_result r) x (tx_buff r).
Definition set_cyclic_result_bus x (c : engine_config) : engine_config :=
  mkConfig (e_magic c) (e_channel c) (e_irq_bitmask c) (e_regs c) (e_sgdma_regs c) (e_dir c) (e_streaming c)
    (e_addr_align c) (e_len_granularity c) (e_addr_bits c) (e_interrupt_enable_mask_value c) (e_desc_bus c)
    x (rx_buff_bus c) (tx_buff_bus c).
Definition set_rx_buff_bus x (c : engine_config) : engine_config :=
  mkConfig (e_magic c) (e_channel c) (e_irq_bitmask c) (e_regs c) (e_sgdma_regs c) (e_dir c) (e_streaming c)
    (e_addr_align c) (e_len_granularity c) (e_addr_bits c) (e_interrupt_enable_mask_value c) (e_desc_bus c)
    (cyclic_result_bus c) x (tx_buff_bus c).
Definition set_tx_buff_bus x (c : engine_config) : engine_config :=
  mkConfig (e_magic c) (e_channel c) (e_irq_bitmask c) (e_regs c) (e_sgdma_regs c) (e_dir c) (e_streaming c)
    (e_addr_align c) (e_len_granularity c) (e_addr_bits c) (e_interrupt_enable_mask_value c) (e_desc_bus c)
    (cyclic_result_bus c) (rx_buff_bus c) x.

(** A buffer of the engine: is it there; give it a zeroed one, or none. *)
Definition has_buffer (b : dma_buffer) (e : xdma_engine) : bool :=
  match b with
  | DescBuffer => bool_decide (is_Some (e_desc e))
  | ResultBuffer => bool_decide (is_Some (cyclic_result e))
  | RxBuffer => bool_decide (is_Some (rx_buff e))
  | TxBuffer => bool_decide (is_Some (tx_buff e))
  end.
Definition packet_buffs : list (list Z) :=
  replicate (Z.to_nat XDMA_TRANSFER_MAX_DESC) (replicate (Z.to_nat DMA_PACKET_SIZE) 0).
Definition new_buffer (b : dma_buffer) (bus : Z) (e : xdma_engine) : xdma_engine :=
  match b with
  | DescBuffer => set_e_desc (Some (replicate (Z.to_nat XDMA_TRANSFER_MAX_DESC) zero_desc))
                    (set_e_config (set_e_desc_bus bus (e_config e)) e)
  | ResultBuffer => set_cyclic_result (Some (replicate (Z.to_nat CYCLIC_RX_PAGES_MAX) zero_result))
                      (set_e_config (set_cyclic_result_bus bus (e_config e)) e)
  | RxBuffer => set_rx_buff (Some packet_buffs) (set_e_config (set_rx_buff_bus bus (e_config e)) e)
  | TxBuffer => set_tx_buff (Some packet_buffs) (set_e_config (set_tx_buff_bus bus (e_config e)) e)
  end.
Definition no_buffer (b : dma_buffer) (e : xdma_engine) : xdma_engine :=
  match b with
  | DescBuffer => set_e_desc None e
  | ResultBuffer => set_cyclic_result None e
  | RxBuffer => set_rx_buff None e
  | TxBuffer => set_tx_buff None e
  end.

Definition upd_engine (dir : dma_direction) (i : Z) (f : xdma_engine -> xdma_engine) : M unit :=
  e ← get_engine dir i; put_engine dir i (mkDevEngine (f (de_engine e)) (de_line e)).
(** A program of the engine's registers, leaving the engine it returns. *)
Definition run_engine (dir : dma_direction) (i : Z) (m : xdma_engine -> io K xdma_engine) : M unit :=
  e ← get_engine dir i; e' ← io_st (m (de_engine e)); put_engine dir i (mkDevEngine e' (de_line e)).

(** [if (engine->b) { dma_free_coherent; engine->b = NULL; }]. *)
Definition free_buffer (dir : dma_direction) (i : Z) (b : dma_buffer) : M unit :=
  e ← get_engine dir i;
  if has_buffer b (de_engine e) then _ ← give (Dma (dir, i) b); upd_engine dir i (no_buffer b) else mret tt.
Definition engine_free_resource (dir : dma_direction) (i : Z) : M unit :=
  _ ← free_buffer dir i DescBuffer;
  _ ← free_buffer dir i ResultBuffer;
  _ ← free_buffer dir i RxBuffer;
  free_buffer dir i TxBuffer.

Definition alloc_buffer (dir : dma_direction) (i : Z) (b : dma_buffer) : M Z :=
  rv ← take (Dma (dir, i) b);
  _ ← upd_engine dir i (if rv =? 0 then new_buffer b (dma_bus (dir, i) b) else no_buffer b);
  mret rv.

(** Streaming engines to memory have a buffer of results. *)
Definition buffers_of (e : xdma_engine) : list dma_buffer :=
  [DescBuffer] ++
  (match e_streaming (e_config e), e_dir (e_config e) with true, DMA_FROM_DEVICE => [ResultBuffer] | _, _ => [] end) ++
  [RxBuffer; TxBuffer].

Definition engine_alloc_resource (dir : dma_direction) (i : Z) : M Z :=
  e ← get_engine dir i;
  rv ← for_err (buffers_of (de_engine e)) (alloc_buffer dir i);
  if negb (rv =? 0) then _ ← engine_free_resource dir i; mret (- ENOMEM) else mret 0.

Definition engine_destroy (dir : dma_direction) (i : Z) : M unit :=
  e ← get_engine dir i;
  _ ← io_st (writel (reg (de_engine e) ENG_INT_MASK) 0);
  _ ← engine_free_resource dir i;
  _ ← put_engine dir i zero_engine;
  upd_dev (upd_engines (fun g => set_num (g_num g - 1) g)).

(** The configuration [engine_init] gives engine [channel], the [num]th. *)
Definition init_config (bar offset : Z) (dir : dma_direction) (channel num : Z) (c : engine_config) : engine_config :=
  mkConfig MAGIC_ENGINE channel (u32 (Z.shiftl (Z.shiftl 1 XDMA_ENG_IRQ_NUM - 1) (num * XDMA_ENG_IRQ_NUM)))
    (bar + offset) (bar + offset + SGDMA_OFFSET_FROM_CHANNEL) dir (e_streaming c)
    (e_addr_align c) (e_len_granularity c) (e_addr_bits c) (e_interrupt_enable_mask_value c)
    (e_desc_bus c) (cyclic_result_bus c) (rx_buff_bus c) (tx_buff_bus c).
Definition set_streaming (x : bool) (c : engine_config) : engine_config :=
  mkConfig (e_magic c) (e_channel c) (e_irq_bitmask c) (e_regs c) (e_sgdma_regs c) (e_dir c) x
    (e_addr_align c) (e_len_granularity c) (e_addr_bits c) (e_interrupt_enable_mask_value c)
    (e_desc_bus c) (cyclic_result_bus c) (rx_buff_bus c) (tx_buff_bus c).

Definition engine_init (offset : Z) (dir : dma_direction) (channel : Z) : M Z :=
  bar ← config_bar;
  d ← get_dev;
  _ ← upd_engine dir channel (fun e => set_e_config (init_config bar offset dir channel (g_num (xd_engines d)) (e_config e)) e);
  val ← io_st (readl (bar + offset + ENG_IDENTIFIER));
  _ ← (if negb (Z.land val 0x8000 =? 0) then
         upd_engine dir channel (fun e => set_e_config (set_streaming true (e_config e)) e)
       else mret tt);
  e ← get_engine dir channel;
  _ ← upd_dev (upd_engines (fun g => set_num (g_num g + 1) (add_mask dir (e_irq_bitmask (e_config (de_engine e))) g)));
  rv ← engine_alloc_resource dir channel;
  if negb (rv =? 0) then mret rv
  else _ ← run_engine dir channel engine_init_regs; mret 0.

Definition engine_offset (dir : dma_direction) (channel : Z) : Z :=
  channel * CHANNEL_SPACING + match dir with DMA_TO_DEVICE => 0 | DMA_FROM_DEVICE => H2C_CHANNEL_OFFSET end.
Definition engine_id_expected (dir : dma_direction) : Z :=
  match dir with DMA_TO_DEVICE => XDMA_ID_H2C | DMA_FROM_DEVICE => XDMA_ID_C2H end.

Definition probe_for_engine (dir : dma_direction) (channel : Z) : M Z :=
  bar ← config_bar;
  id ← io_st (get_engine_id (bar + engine_offset dir channel));
  channel_id ← io_st (get_engine_channel_id (bar + engine_offset dir channel));
  if negb (id =? engine_id_expected dir) || negb (channel_id =? u32 channel) then mret (- EINVAL)
  else engine_init (engine_offset dir channel) dir channel.

(** The engines found before the first that is not there. *)
Fixpoint probe_loop (dir : dma_direction) (n : nat) (i : Z) : M Z :=
  match n with
  | O => mret i
  | S n => rv ← probe_for_engine dir i; if negb (rv =? 0) then mret i else probe_loop dir n (i + 1)
  end.
Definition probe_dir (dir : dma_direction) : M unit :=
  d ← get_dev;
  i ← probe_loop dir (Z.to_nat (g_max dir (xd_engines d))) 0;
  upd_dev (upd_engines (set_max dir i)).
Definition probe_engines : M Z := _ ← probe_dir DMA_TO_DEVICE; _ ← probe_dir DMA_FROM_DEVICE; mret 0.

(** [body] on each engine of a direction that was created. *)
Definition each_engine (dir : dma_direction) (body : Z -> M unit) : M unit :=
  d ← get_dev;
  for_n (Z.to_nat (g_max dir (xd_engines d))) 0 (fun i =>
    e ← get_engine dir i;
    if e_magic (e_config (de_engine e)) =? MAGIC_ENGINE then body i else mret tt).
Definition remove_engines : M unit :=
  _ ← each_engine DMA_TO_DEVICE (engine_destroy DMA_TO_DEVICE);
  each_engine DMA_FROM_DEVICE (engine_destroy DMA_FROM_DEVICE).

(** *** Opening and closing *)

Definition zero_engines (h2c_max c2h_max : Z) : engines :=
  mkEngines h2c_max c2h_max 0 0 0 (replicate (Z.to_nat XDMA_CHANNEL_NUM_MAX) zero_engine)
    (replicate (Z.to_nat XDMA_CHANNEL_NUM_MAX) zero_engine).
Definition new_xdev (user_max h2c_max c2h_max : Z) : xdma_dev :=
  mkXdev (mkBars (replicate (Z.to_nat XDMA_BAR_NUM) None) (-1) (-1) (-1)) (mkIrqs (-1) false false 0 user_max)
    (zero_engines h2c_max c2h_max) false false 0 0.

(** Zeroed memory for the device at address [xdev], if there is any. *)
Definition alloc_dev_instance (user_max h2c_max c2h_max : Z) : M bool :=
  rv ← take DevMemory;
  if rv =? 0 then _ ← upd_dev (fun _ => new_xdev user_max h2c_max c2h_max); mret true else mret false.

Definition set_idx x d := mkXdev (xd_bars d) (xd_irqs d) (xd_engines d) (xd_regions_in_use d) (xd_got_regions d) (xd_flags d) x.
Definition next_idx (l : list xdev_entry) : Z := match last l with Some e => xl_idx e + 1 | None => 0 end.
Definition xdev_list_add (xdev pdev : Z) : M unit :=
  s ← get_st;
  let idx := next_idx (xs_list s) in
  _ ← upd_dev (set_idx idx);
  modify (set_xdev_list (xs_list s ++ [mkXdevEntry xdev pdev idx])).
Definition xdev_list_remove (xdev : Z) : M unit :=
  modify (fun s => set_xdev_list (delete_first (fun e => xl_addr e =? xdev) (xs_list s)) s).
Definition xdev_find_by_pdev (pdev : Z) : M (option Z) :=
  s ← get_st; mret (xl_addr <$> List.find (fun e => xl_pdev e =? pdev) (xs_list s)).
Definition debug_check_dev_hndl (pdev hndl : Z) : M Z :=
  o ← xdev_find_by_pdev pdev;
  mret (match o with Some xdev => if xdev =? hndl then 0 else - EINVAL | None => - EINVAL end).

Definition xdma_device_flag_set (f : Z) : M unit := upd_dev (fun d => set_flags (Z.lor (xd_flags d) f) d).
Definition xdma_device_flag_clear (f : Z) : M unit := upd_dev (fun d => set_flags (Z.ldiff (xd_flags d) f) d).

Definition request_regions : M Z :=
  rv ← take Regions;
  _ ← upd_dev (fun d => if negb (rv =? 0) then set_regions true (xd_got_regions d) d else set_regions (xd_regions_in_use d) true d);
  mret rv.

Definition set_dma_mask : M Z :=
  rv ← hw_ret (dma_set_mask 64);
  if rv =? 0 then _ ← hw (dma_set_mask_and_coherent 64); mret 0
  else
    rv ← hw_ret (dma_set_mask 32);
    if rv =? 0 then _ ← hw (dma_set_mask_and_coherent 32); mret 0 else mret (- EINVAL).

Definition ext_tag_reg (bar : Z) : Z := bar + XDMA_OFS_CONFIG + 0x4C.
Definition pci_check_extended_tag : M unit :=
  s ← get_st;
  if ext_tag_enabled (xs_hw s) then mret tt
  else if b_config_idx (xd_bars (xs_dev s)) <? 0 then mret tt
  else
    bar ← config_bar;
    v ← io_st (readl (ext_tag_reg bar));
    io_st (writel (ext_tag_reg bar) (Z.lor (Z.land v 0xFF) (Z.shiftl 32 8))).

Definition channel_interrupts (enable : bool) (mask : Z) : M unit :=
  bar ← config_bar; io_st ((if enable then channel_interrupts_enable else channel_interrupts_disable) bar mask).
Definition user_interrupts (enable : bool) (mask : Z) : M unit :=
  bar ← config_bar; io_st ((if enable then user_interrupts_enable else user_interrupts_disable) bar mask).
Definition flush_interrupts : M unit := bar ← config_bar; _ ← io_st (read_interrupts bar); mret tt.

(** The requested numbers, brought into range. *)
Definition clamp_max (max x : Z) : Z := if (x =? 0) || (max <? x) then max else x.
Definition clamp_dev (d : xdma_dev) : xdma_dev :=
  let i := xd_irqs d in let g := xd_engines d in
  set_irqs (mkIrqs (i_line i) (i_msi i) (i_msix i) (i_mask_user i) (clamp_max MAX_USER_IRQ (i_user_max i)))
    (set_engines (set_max DMA_FROM_DEVICE (clamp_max XDMA_CHANNEL_NUM_MAX (g_c2h_max g))
       (set_max DMA_TO_DEVICE (clamp_max XDMA_CHANNEL_NUM_MAX (g_h2c_max g)) g)) d).

(** What the error labels do, from the last to the first. *)
Definition err_enable (xdev : Z) : M unit := _ ← xdev_list_remove xdev; give DevMemory.
Definition err_regions (xdev : Z) : M unit :=
  d ← get_dev;
  _ ← (if negb (xd_regions_in_use d) then give PciDevice else mret tt);
  err_enable xdev.
Definition err_map (xdev : Z) : M unit :=
  d ← get_dev;
  _ ← (if xd_got_regions d then give Regions else mret tt);
  err_regions xdev.
Definition err_mask (xdev : Z) : M unit := _ ← unmap_bars; err_map xdev.
Definition err_engines (xdev : Z) : M unit := _ ← remove_engines; err_mask xdev.
Definition err_enable_msix (xdev : Z) : M unit := _ ← disable_msi_msix; err_engines xdev.
Definition err_interrupts (xdev : Z) : M unit := _ ← irq_teardown; err_enable_msix xdev.

(** From [enable_msi_msix] on, and from [map_bars] on. *)
Definition open_irqs (xdev : Z) : M bool :=
  rv ← enable_msi_msix 0;
  if rv <? 0 then _ ← err_enable_msix xdev; mret false
  else
    rv ← irq_setup;
    if rv <? 0 then _ ← err_interrupts xdev; mret false
    else
      _ ← channel_interrupts true ALL_ONES;
      _ ← flush_interrupts;
      _ ← xdma_device_flag_clear XDEV_FLAG_OFFLINE;
      mret true.
Definition open_bars (xdev : Z) : M bool :=
  rv ← map_bars;
  if negb (rv =? 0) then _ ← err_map xdev; mret false
  else
    rv ← set_dma_mask;
    if negb (rv =? 0) then _ ← err_mask xdev; mret false
    else
      bar ← config_bar;
      _ ← io_st (check_nonzero_interrupt_status bar);
      _ ← channel_interrupts false ALL_ONES;
      _ ← user_interrupts false ALL_ONES;
      _ ← flush_interrupts;
      rv ← probe_engines;
      if negb (rv =? 0) then _ ← err_engines xdev; mret false
      else open_irqs xdev.

(** The maxima it settles on ([None]: a null handle).  [xdev] is the address of
    the new device. *)
Definition xdma_device_open (xdev pdev user_max h2c_max c2h_max : Z) : M (option (Z * Z * Z)) :=
  ok ← alloc_dev_instance user_max h2c_max c2h_max;
  if negb ok then mret None
  else
    _ ← xdma_device_flag_set XDEV_FLAG_OFFLINE;
    _ ← xdev_list_add xdev pdev;
    _ ← upd_dev clamp_dev;
    rv ← take PciDevice;
    if negb (rv =? 0) then _ ← err_enable xdev; mret None
    else
      _ ← hw ack_status_interrupt;
      _ ← hw pci_enable_relaxed_ordering;
      _ ← pci_check_extended_tag;
      _ ← hw_ret (pcie_set_readrq 128);
      _ ← hw pci_set_master;
      rv ← request_regions;
      if negb (rv =? 0) then _ ← err_regions xdev; mret None
      else
        ok ← open_bars xdev;
        if negb ok then mret None
        else
          d ← get_dev;
          mret (Some (i_user_max (xd_irqs d), g_h2c_max (xd_engines d), g_c2h_max (xd_engines d))).

Definition quiesce : M unit :=
  _ ← channel_interrupts false ALL_ONES; _ ← user_interrupts false ALL_ONES; flush_interrupts.

Definition xdma_device_close (pdev xdev : Z) : M unit :=
  rv ← debug_check_dev_hndl pdev xdev;
  if rv <? 0 then mret tt
  else _ ← quiesce; err_interrupts xdev.

(** *** Offline and online *)

Definition take_offline (dir : dma_direction) (i : Z) : M unit :=
  _ ← upd_engine dir i (fun e => set_e_shutdown (Z.lor (e_shutdown e) ENGINE_SHUTDOWN_REQUEST) e);
  _ ← run_engine dir i xdma_engine_stop;
  upd_engine dir i (set_e_running false).
Definition xdma_device_offline (pdev xdev : Z) : M unit :=
  rv ← debug_check_dev_hndl pdev xdev;
  if rv <? 0 then mret tt
  else
    _ ← xdma_device_flag_set XDEV_FLAG_OFFLINE;
    _ ← each_engine DMA_TO_DEVICE (take_offline DMA_TO_DEVICE);
    _ ← each_engine DMA_FROM_DEVICE (take_offline DMA_FROM_DEVICE);
    _ ← quiesce;
    irq_teardown.

Definition take_online (dir : dma_direction) (i : Z) : M unit :=
  _ ← run_engine dir i engine_init_regs;
  upd_engine dir i (fun e => set_e_shutdown (Z.ldiff (e_shutdown e) ENGINE_SHUTDOWN_REQUEST) e).
Definition xdma_device_online (pdev xdev : Z) : M unit :=
  rv ← debug_check_dev_hndl pdev xdev;
  if rv <? 0 then mret tt
  else
    _ ← each_engine DMA_TO_DEVICE (take_online DMA_TO_DEVICE);
    _ ← each_engine DMA_FROM_DEVICE (take_online DMA_FROM_DEVICE);
    _ ← irq_setup;
    _ ← channel_interrupts true ALL_ONES;
    d ← get_dev;
    _ ← user_interrupts true (i_mask_user (xd_irqs d));
    _ ← flush_interrupts;
    xdma_device_flag_clear XDEV_FLAG_OFFLINE.

Definition xdma_user_isr_enable (mask : Z) : M unit :=
  _ ← upd_dev (upd_irqs (fun i => set_mask_user (Z.lor (i_mask_user i) mask) i));
  _ ← user_interrupts true mask; flush_interrupts.
Definition xdma_user_isr_disable (mask : Z) : M unit :=
  _ ← upd_dev (upd_irqs (fun i => set_mask_user (Z.ldiff (i_mask_user i) mask) i));
  _ ← user_interrupts false mask; flush_interrupts.

(** A reset of the function (xdma_mod.c). *)
Definition axpci_reset_prepare (pdev xdev : Z) : M unit := xdma_device_offline pdev xdev.
Definition axpci_reset_done (pdev xdev : Z) : M unit := xdma_device_online pdev xdev.

End Setup.
