(* ===== verification/XdmaVectors.v ===== *)
(** * The interrupt vector tables

    Four interrupts share a register of the vector tables; programming them puts
    each interrupt's vector in its own byte. *)

From Stdlib Require Import ZArith Lia Bool.
From S2P Require Import Prelude.
From S2P Require Import Mmio.
From S2P Require Import Kernel.
From S2P Require Import XdmaEngine.
From S2P Require Import XdmaDev.

Lemma pack_vectors_next k : forall shift i max, i <= max -> snd (pack_vectors k shift i max) = Z.min (i + Z.of_nat k) max.
Proof.
  induction k as [| k IH]; intros shift i max Hi; cbn [pack_vectors]; [cbn; lia |].
  destruct (i <? max) eqn:E; [| cbn; lia]. specialize (IH (shift + 8) (i + 1) max ltac:(lia)).
  destruct (pack_vectors k (shift + 8) (i + 1) max) as [v i']. cbn in *. lia.
Qed.

(** The bits of a word that packs vectors from [i] on. *)
Lemma pack_vectors_bits k : forall shift i max t, 0 <= shift -> 0 <= t ->
  Z.testbit (fst (pack_vectors k shift i max)) t =
  (shift <=? t) && ((t - shift) / 8 <? Z.of_nat k) && (i + (t - shift) / 8 <? max) &&
    Z.testbit (Z.land (i + (t - shift) / 8) 0x1f) ((t - shift) mod 8).
Proof.
  induction k as [| k IH]; intros shift i max t Hs Ht; cbn [pack_vectors].
  { rewrite Z.bits_0. destruct (shift <=? t) eqn:E; [| done]. rewrite (proj2 (Z.ltb_ge _ _)); [done |].
    apply Z.div_pos; lia. }
  pose proof (Z.div_mod (t - shift) 8 ltac:(lia)) as Hd. pose proof (Z.mod_pos_bound (t - shift) 8 ltac:(lia)) as Hm.
  destruct (i <? max) eqn:Ei.
  2: { cbn [fst]. rewrite Z.bits_0. destruct (shift <=? t) eqn:E; [| done].
       rewrite (proj2 (Z.ltb_ge (i + _) max)) by lia. by rewrite andb_false_r. }
  specialize (IH (shift + 8) (i + 1) max t ltac:(lia) Ht).
  destruct (pack_vectors k (shift + 8) (i + 1) max) as [val i']. cbn [fst] in *.
  rewrite Z.lor_spec, IH, Z.shiftl_spec by done.
  replace (t - (shift + 8)) with (t - shift + (-1) * 8) by lia. rewrite Z.div_add, Z.mod_add by lia.
  set (q := (t - shift) / 8) in *. set (m := (t - shift) mod 8) in *.
  destruct (shift <=? t) eqn:E.
  - destruct (decide (q = 0)) as [Hq | Hq].
    + rewrite (proj2 (Z.leb_gt (shift + 8) t)), (proj2 (Z.ltb_lt q _)), (proj2 (Z.ltb_lt (i + q) max)) by lia.
      rewrite orb_false_r. replace (i + q) with i by lia. by replace (t - shift) with m by lia.
    + assert (0 <= q) by (apply Z.div_pos; lia).
      assert (Hz : Z.testbit (Z.land i 31) (t - shift) = false).
      { rewrite Z.land_spec. change 31 with (Z.ones 5). rewrite Z.ones_spec_high by lia. by rewrite andb_false_r. }
      rewrite Hz, (proj2 (Z.leb_le (shift + 8) t)) by lia. cbn [orb].
      replace (i + 1 + (q + -1)) with (i + q) by lia. by replace (q + -1 <? Z.of_nat k) with (q <? Z.of_nat (S k)) by (apply eq_true_iff_eq; rewrite !Z.ltb_lt; lia).
  - rewrite (proj2 (Z.leb_gt (shift + 8) t)) by lia. rewrite Z.testbit_neg_r by lia. done.
Qed.

(** The word of the four vectors from [i] on, as it is stored. *)
Definition vector_word (clear : bool) (i max : Z) : Z := u32 (if clear then 0 else fst (pack_vectors 4 0 i max)).
(** Byte [j] of a word. *)
Definition byte_of (j w : Z) : Z := Z.land (Z.shiftr w (8 * j)) 0xff.

Lemma vector_byte clear i max j : 0 <= j < 4 -> i + j < max ->
  byte_of j (vector_word clear i max) = if clear then 0 else Z.land (i + j) 0x1f.
Proof.
  intros Hj Hi. unfold byte_of, vector_word. apply Z.bits_inj'. intros t Ht. change 0xff with (Z.ones 8).
  rewrite Z.land_spec, Z.shiftr_spec by done. destruct (decide (t < 8)) as [H8 | H8].
  - rewrite Z.ones_spec_low, andb_true_r by lia. unfold u32. rewrite Z.mod_pow2_bits_low by lia.
    destruct clear; [by rewrite !Z.bits_0 |]. rewrite pack_vectors_bits by lia. rewrite Z.sub_0_r.
    replace ((t + 8 * j) / 8) with j by (apply (Z.div_unique _ _ _ t); lia).
    replace ((t + 8 * j) mod 8) with t by (apply (Z.mod_unique _ _ j); lia).
    rewrite (proj2 (Z.leb_le 0 (t + 8 * j))), (proj2 (Z.ltb_lt j (Z.of_nat 4))), (proj2 (Z.ltb_lt (i + j) max)) by lia. done.
  - rewrite Z.ones_spec_high, andb_false_r by lia. destruct clear; [by rewrite Z.bits_0 |].
    rewrite Z.land_spec. change 31 with (Z.ones 5). rewrite Z.ones_spec_high by lia. by rewrite andb_false_r.
Qed.

Section Vectors.
Context {D : Type} `{!Device D}.

(** One word for each four vectors, at consecutive registers. *)
Lemma prog_vectors_stores clear max fuel : forall base i, max - i <= Z.of_nat fuel ->
  obs (prog_vectors (K := D) fuel clear base i max) (fun r l => r = Ok tt /\
    forall q, 0 <= q -> i + 4 * q < max -> stores l !! Z.to_nat q = Some (base + 4 * q, vector_word clear (i + 4 * q) max)).
Proof.
  induction fuel as [| fuel IH]; intros base i Hf; cbn [prog_vectors]; destruct (i <? max) eqn:E; cbn [negb]; [lia | | |].
  1, 3: apply obs_ret; split; [done | intros q; lia].
  assert (Hnext : exists i', (if clear then (0, i + 4) else pack_vectors 4 0 i max) =
      ((if clear then 0 else fst (pack_vectors 4 0 i max)), i') /\ (i + 4 <= max -> i' = i + 4) /\ i < i' /\ (max < i + 4 -> max <= i')).
  { destruct clear; [exists (i + 4); split; [done | lia] |]. pose proof (pack_vectors_next 4 0 i max ltac:(lia)) as Hn.
    exists (snd (pack_vectors 4 0 i max)). split; [by destruct (pack_vectors 4 0 i max) | lia]. }
  destruct Hnext as (i' & -> & H4 & Hlt & Hend). apply obs_bind, obs_writel. cbn beta iota.
  eapply obs_weaken; [| apply (IH (base + 4) i'); lia]. intros r l [-> Hl]. split; [done |]. intros q Hq Hlim. cbn [app stores].
  destruct (decide (q = 0)) as [-> | Hne]; [by rewrite Z.mul_0_r, !Z.add_0_r |].
  replace (Z.to_nat q) with (S (Z.to_nat (q - 1))) by lia. cbn. rewrite Hl by lia. rewrite H4 by lia.
  apply (f_equal Some), (f_equal2 pair); [lia | f_equal; lia].
Qed.

(** The table at [base] holds [f i] in the byte of interrupt [i], for all below [n]. *)
Definition table (base n : Z) (f : Z -> Z) (l : list access) : Prop := forall i, 0 <= i < n ->
  exists w, stores l !! Z.to_nat (i / 4) = Some (base + 4 * (i / 4), w) /\ byte_of (i mod 4) w = f i.

Lemma stores_table clear base start n l : 0 <= start -> start + n <= 32 ->
  (forall q, 0 <= q -> start + 4 * q < start + n -> stores l !! Z.to_nat q = Some (base + 4 * q, vector_word clear (start + 4 * q) (start + n))) ->
  table base n (fun i => if clear then 0 else start + i) l.
Proof.
  intros Hs Hn Hl i Hi. pose proof (Z.div_mod i 4 ltac:(lia)) as Hd. pose proof (Z.mod_pos_bound i 4 ltac:(lia)) as Hm.
  assert (0 <= i / 4) by (apply Z.div_pos; lia). eexists. split; [apply Hl; lia |]. rewrite vector_byte by lia.
  destruct clear; [done |]. replace (start + 4 * (i / 4) + i mod 4) with (start + i) by lia.
  change 0x1f with (Z.ones 5). rewrite Z.land_ones by lia. apply Z.mod_small. lia.
Qed.

(** C31. Programming the MSI-X vector tables: the byte of engine [i] holds [i],
    the byte of user interrupt [i] holds the number after those of the engines,
    the vectors they were requested with; clearing the tables leaves zeros. *)
Theorem msix_vectors_programmed (bar c2h h2c users : Z) (clear : bool) :
  0 <= c2h -> 0 <= h2c -> 0 <= users -> c2h + h2c + users <= 32 ->
  obs (prog_irq_msix_channel (K := D) bar c2h h2c clear) (fun r l => r = Ok tt /\
    table (ir bar IR_CHANNEL_MSI_VECTOR) (c2h + h2c) (fun i => if clear then 0 else i) l) /\
  obs (prog_irq_msix_user (K := D) bar c2h h2c users clear) (fun r l => r = Ok tt /\
    table (ir bar IR_USER_MSI_VECTOR) users (fun i => if clear then 0 else c2h + h2c + i) l).
Proof.
  intros H1 H2 H3 H4. split.
  - eapply obs_weaken; [| apply prog_vectors_stores; lia]. intros r l [-> Hl]. split; [done |].
    apply (stores_table clear _ 0); [done | lia | exact Hl].
  - eapply obs_weaken; [| apply prog_vectors_stores; lia]. intros r l [-> Hl]. split; [done |].
    by apply (stores_table clear _ (c2h + h2c)); [lia | |].
Qed.

End Vectors.

Module VectorsDemo.

Lemma msix_vectors_witness : 1 + 2 + 16 <= 32 /\
  obs (prog_irq_msix_channel (K := regfile) 0x1000 1 2 false) (fun r l => r = Ok tt /\
    table (ir 0x1000 IR_CHANNEL_MSI_VECTOR) (1 + 2) (fun i => i) l).
Proof. split; [lia |]. apply (msix_vectors_programmed (D := regfile) 0x1000 1 2 16 false); lia. Defined.

(** Three engines and the first user interrupts, as the registers hold them. *)
Example channel_word : stores (snd (prog_irq_msix_channel (K := regfile) 0 1 2 false [])) = [(0x20A0, 0x020100)].
Proof. vm_compute. reflexivity. Qed.

End VectorsDemo.
