(* ===== verification/XdmaBars.v ===== *)
(** * What the endpoint holds, and its BARs

    The accounts of a device: what is held of the kernel is what was held
    before and what the device's own record says it has.  Mapping and unmapping
    the BARs keeps them. *)

From Stdlib Require Import ZArith Lia Bool.
From S2P Require Import Prelude.
From S2P Require Import Mmio.
From S2P Require Import Kernel.
From S2P Require Import XdmaEngine.
From S2P Require Import XdmaDev.
From S2P Require Import XdmaVectors.

(** ** What the device owns by its own record *)

Definition b2z (b : bool) : Z := if b then 1 else 0.

Definition owned_buffer (o : option dev_engine) (b : dma_buffer) : Z :=
  match o with Some e => b2z (has_buffer b (de_engine e)) | None => 0 end.
Definition owned (d : xdma_dev) (x : pci_resource) : Z :=
  match x with
  | Bar i => match getz (b_bar (xd_bars d)) i with Some (Some _) => 1 | _ => 0 end
  | Dma (dir, i) b => owned_buffer (getz (g_list dir (xd_engines d)) i) b
  | Regions => b2z (xd_got_regions d)
  | _ => 0
  end.

Definition bump (r : pci_resource) (e : pci_resource -> Z) : pci_resource -> Z :=
  fun x => e x + (if decide (r = x) then 1 else 0).
Definition drop (r : pci_resource) (e : pci_resource -> Z) : pci_resource -> Z :=
  fun x => e x - (if decide (r = x) then 1 else 0).

Section Accounts.
Context {K : Type} `{!Device K} `{!PciApi K}.
Implicit Types (s : xs K) (d : xdma_dev) (e : pci_resource -> Z).

(** What is held is [e] and what the device owns by its record. *)
Definition accounts e s : Prop := forall x, 0 <= e x /\ pci_held (xs_hw s) x = e x + owned (xs_dev s) x.

(** Only the device and the hardware, and how the interrupts are logged. *)
Definition near s s' : Prop := xs_tsk s' = xs_tsk s /\ xs_list s' = xs_list s.

Lemma near_refl s : near s s.
Proof. done. Qed.
Lemma near_trans s1 s2 s3 : near s1 s2 -> near s2 s3 -> near s1 s3.
Proof. intros [E1 E2] [E3 E4]. split; congruence. Qed.
Lemma near_hw s k : near s (set_hw k s).
Proof. done. Qed.
Lemma near_dev s d : near s (set_dev d s).
Proof. done. Qed.

Lemma accounts_dev e e' s d : accounts e s -> (forall x, e x + owned (xs_dev s) x = e' x + owned d x) ->
  (forall x, 0 <= e' x) -> accounts e' (set_dev d s).
Proof. intros He E H0 x. destruct (He x) as [_ Hx]. split; [done |]. cbn. by rewrite Hx, E. Qed.

Lemma accounts_same e s d : accounts e s -> (forall x, owned d x = owned (xs_dev s) x) -> accounts e (set_dev d s).
Proof. intros He E. apply (accounts_dev e); [done | intros x; by rewrite E | intros x; apply He]. Qed.

Lemma accounts_hw e s k : accounts e s -> (forall x, pci_held k x = pci_held (xs_hw s) x) -> accounts e (set_hw k s).
Proof. intros He E x. destruct (He x) as [H0 Hx]. split; [done |]. cbn. by rewrite E. Qed.

Lemma total_take r e s (Q : Z -> xs K -> Prop) : accounts e s ->
  (forall rv k, rv <= 0 -> accounts (if rv =? 0 then bump r e else e) (set_hw k s) -> Q rv (set_hw k s)) ->
  total (take r) s Q.
Proof.
  intros He HQ. unfold total, take, hw_ret. destruct (pci_acquire r (xs_hw s)) as [rv k] eqn:E. apply HQ.
  { pose proof (pci_acquire_neg r (xs_hw s)) as H. by rewrite E in H. }
  intros x. pose proof (pci_acquire_held r (xs_hw s) x) as H. rewrite E in H. cbn [fst snd] in H.
  destruct (He x) as [H0 Hx]. destruct (rv =? 0) eqn:Er; unfold bump.
  - apply Z.eqb_eq in Er. cbn. repeat case_decide; try lia; tauto.
  - apply Z.eqb_neq in Er. cbn. case_decide; [tauto | lia].
Qed.

(** A release counts one less, unless there was nothing to release. *)
Definition released r s s' : Prop := forall x,
  pci_held (xs_hw s') x = pci_held (xs_hw s) x - (if decide (r = x /\ 1 <= pci_held (xs_hw s) r) then 1 else 0).

Lemma total_give r s (Q : unit -> xs K -> Prop) : 1 <= pci_held (xs_hw s) r \/ forgiving r = true ->
  (forall s', xs_dev s' = xs_dev s -> near s s' -> released r s s' -> Q tt s') -> total (give r) s Q.
Proof.
  intros Hr HQ. unfold total, give. apply HQ; [by case_match | by case_match |].
  intros x. replace (pci_held (xs_hw _) x) with (pci_held (pci_release r (xs_hw s)) x) by by case_match.
  destruct (decide (1 <= pci_held (xs_hw s) r)) as [H | H].
  - rewrite (pci_release_held r _ x H). repeat case_decide; try lia; tauto.
  - destruct Hr as [Hr | Hr]; [tauto |]. rewrite pci_release_none; [| done |].
    + repeat case_decide; [tauto | lia].
    + pose proof (pci_held_nonneg (xs_hw s) r). lia.
Qed.

(** Releasing what the record owned, the record changing with it. *)
Lemma released_owned r e s s' d : accounts e s -> xs_dev s' = xs_dev s -> released r s s' -> owned (xs_dev s) r = 1 ->
  (forall x, owned d x = owned (xs_dev s) x - (if decide (r = x) then 1 else 0)) -> accounts e (set_dev d s').
Proof.
  intros He Ed Hr H1 Hd x. destruct (He x) as [H0 Hx], (He r) as [H0r Hxr]. split; [done |]. cbn.
  assert (1 <= pci_held (xs_hw s) r) by lia. rewrite (Hr x), Hd, Hx. repeat case_decide; try lia; exfalso; tauto.
Qed.

(** Releasing what is held besides. *)
Definition unbump (r : pci_resource) e : pci_resource -> Z :=
  fun x => if decide (r = x /\ 1 <= e r) then e x - 1 else e x.
Lemma released_extra r e s s' : accounts e s -> xs_dev s' = xs_dev s -> released r s s' -> owned (xs_dev s) r = 0 ->
  accounts (unbump r e) s'.
Proof.
  intros He Ed Hr H0 x. destruct (He x) as [Hx Ex], (He r) as [Hr0 Er]. rewrite Ed, (Hr x), Ex. unfold unbump.
  rewrite Er, H0, Z.add_0_r. destruct (decide (r = x /\ 1 <= e r)) as [[<- H] | H]; lia.
Qed.

(** ** Programs of registers *)

(** The program ends and leaves what is held alone. *)
Definition quiet {A} (m : io K A) (Q : A -> Prop) : Prop :=
  forall k, exists a k' l, m k = (Ok a, k', l) /\ Q a /\ forall x, pci_held k' x = pci_held k x.

Lemma quiet_ret {A} (a : A) (Q : A -> Prop) : Q a -> quiet (ret a) Q.
Proof. intros HQ k. by exists a, k, []. Qed.
Lemma quiet_bind {A B} (m : io K A) (f : A -> io K B) P Q :
  quiet m P -> (forall a, P a -> quiet (f a) Q) -> quiet (bind m f) Q.
Proof.
  intros Hm Hf k. destruct (Hm k) as (a & k1 & l1 & E1 & Ha & H1). destruct (Hf a Ha k1) as (b & k2 & l2 & E2 & Hb & H2).
  exists b, k2, (l1 ++ l2). unfold bind. rewrite E1, E2. split_and!; [done .. |]. intros x. by rewrite H2.
Qed.
Lemma quiet_readl a (Q : Z -> Prop) : (forall v, is_u32 v -> Q v) -> quiet (readl a) Q.
Proof.
  intros HQ k. pose proof (quiet_read a k) as H. unfold readl. destruct (dev_read a k) as [v k'].
  exists (u32 v), k'. eexists. split_and!; [done | apply HQ, u32_range | exact H].
Qed.
Lemma quiet_writel a v (Q : unit -> Prop) : Q tt -> quiet (writel a v) Q.
Proof. intros HQ k. exists tt, (dev_write a (u32 v) k). eexists. split_and!; [done .. | apply quiet_write]. Qed.
Lemma quiet_weaken {A} (m : io K A) (P Q : A -> Prop) : (forall a, P a -> Q a) -> quiet m P -> quiet m Q.
Proof. intros H Hm k. destruct (Hm k) as (a & k' & l & E & Ha & Hk). exists a, k', l. auto. Qed.

Lemma total_io {A} (m : io K A) e s P (Q : A -> xs K -> Prop) : quiet m P -> accounts e s ->
  (forall a k, P a -> accounts e (set_hw k s) -> Q a (set_hw k s)) -> total (io_st m) s Q.
Proof.
  intros Hm He HQ. destruct (Hm (xs_hw s)) as (a & k & l & E & Ha & Hk). unfold total, io_st. rewrite E.
  apply HQ; [done |]. by apply accounts_hw.
Qed.

Lemma total_hw (f : K -> K) e s (Q : unit -> xs K -> Prop) : (forall k x, pci_held (f k) x = pci_held k x) ->
  accounts e s -> (forall k, accounts e (set_hw k s) -> Q tt (set_hw k s)) -> total (hw f) s Q.
Proof. intros Hf He HQ. apply total_modify, HQ, accounts_hw; [done |]. intros x. apply Hf. Qed.

Lemma total_hw_ret (f : K -> Z * K) e s (Q : Z -> xs K -> Prop) : (forall k x, pci_held (snd (f k)) x = pci_held k x) ->
  accounts e s -> (forall r k, accounts e (set_hw k s) -> Q r (set_hw k s)) -> total (hw_ret f) s Q.
Proof.
  intros Hf He HQ. unfold total, hw_ret. pose proof (Hf (xs_hw s)) as H. destruct (f (xs_hw s)) as [r k].
  by apply HQ, accounts_hw.
Qed.

Lemma total_dev s (Q : xdma_dev -> xs K -> Prop) : Q (xs_dev s) s -> total get_dev s Q.
Proof. done. Qed.
Lemma total_upd_dev f s (Q : unit -> xs K -> Prop) : Q tt (set_dev (f (xs_dev s)) s) -> total (upd_dev f) s Q.
Proof. done. Qed.

End Accounts.

(** One access at the head of a program. *)
Ltac quiet_step :=
  first
    [ lazymatch goal with |- quiet (bind (readl _) _) _ =>
        apply (quiet_bind _ _ is_u32); [by apply quiet_readl | let v := fresh "v" in let H := fresh "Hv" in intros v H] end
    | lazymatch goal with |- quiet (bind (writel _ _) _) _ =>
        apply (quiet_bind _ _ (fun _ => True)); [by apply quiet_writel | intros [] _] end
    | lazymatch goal with |- quiet (writel _ _) _ => apply quiet_writel end
    | lazymatch goal with |- quiet (ret _) _ => apply quiet_ret end ].

Section Bars.
Context {K : Type} `{!Device K} `{!PciApi K}.
Implicit Types (s : xs K) (d : xdma_dev) (e : pci_resource -> Z).

Lemma quiet_prog_vectors clear max fuel : forall base i, max - i <= Z.of_nat fuel ->
  quiet (prog_vectors fuel clear base i max) (fun _ => True).
Proof.
  induction fuel as [| fuel IH]; intros base i Hf; cbn [prog_vectors]; destruct (i <? max) eqn:E; cbn [negb];
    [lia | by apply quiet_ret | | by apply quiet_ret].
  pose proof (pack_vectors_next 4 0 i max ltac:(lia)) as Hn.
  assert (Hi : i < snd (if clear then (0, i + 4) else pack_vectors 4 0 i max)) by (destruct clear; cbn in *; lia).
  destruct (if clear then (0, i + 4) else pack_vectors 4 0 i max) as [val i']. cbn in Hi.
  quiet_step. apply IH. lia.
Qed.

Lemma quiet_read_interrupts bar : quiet (read_interrupts bar) (fun _ => True).
Proof. unfold read_interrupts. by repeat quiet_step. Qed.
Lemma quiet_check_nonzero bar : quiet (check_nonzero_interrupt_status bar) (fun _ => True).
Proof. unfold check_nonzero_interrupt_status. by repeat quiet_step. Qed.
Lemma quiet_is_config_bar bar : quiet (is_config_bar bar) (fun _ => True).
Proof. unfold is_config_bar. by repeat quiet_step. Qed.
Lemma quiet_engine_id regs : quiet (get_engine_id regs) (fun _ => True).
Proof. unfold get_engine_id. by repeat quiet_step. Qed.
Lemma quiet_channel_id regs : quiet (get_engine_channel_id regs) (fun _ => True).
Proof. unfold get_engine_channel_id. by repeat quiet_step. Qed.
Lemma quiet_prog_legacy bar pin : quiet (prog_legacy bar pin) (fun _ => True).
Proof. unfold prog_legacy. destruct (1 <? pin); by repeat quiet_step. Qed.

(** A change of an engine that leaves its buffers, magic and kind alone. *)
Definition same_engine (e e' : xdma_engine) : Prop :=
  (forall b, has_buffer b e' = has_buffer b e) /\ e_magic (e_config e') = e_magic (e_config e).

Lemma quiet_engine_init_regs engine : quiet (engine_init_regs engine) (same_engine engine).
Proof.
  unfold engine_init_regs. quiet_step. apply (quiet_bind _ _ (same_engine engine)).
  - unfold engine_alignments. repeat quiet_step. split; [by intros [] | by case_match].
  - intros e1 [H1 H2]. quiet_step. quiet_step. split; [intros b; rewrite <- H1; by destruct b | done].
Qed.
Lemma quiet_engine_stop engine : quiet (xdma_engine_stop engine) (same_engine engine).
Proof. unfold xdma_engine_stop. repeat quiet_step. split; [by intros [] | done]. Qed.

(** ** BARs *)

Lemma total_for_n (I : Z -> xs K -> Prop) (Q : unit -> xs K -> Prop) body n : forall start s,
  I start s ->
  (forall i s', start <= i < start + Z.of_nat n -> I i s' -> total (body i) s' (fun _ => I (i + 1))) ->
  (forall s', I (start + Z.of_nat n) s' -> Q tt s') -> total (for_n n start body) s Q.
Proof.
  induction n as [| n IH]; intros start s H0 Hb HQ; cbn [for_n].
  - apply total_ret, HQ. by rewrite Z.add_0_r.
  - mstep (apply Hb; [lia | done]). intros [] s' H1. apply IH; [done | |].
    + intros i s'' Hi. apply Hb. lia.
    + intros s''. replace (start + 1 + Z.of_nat n) with (start + Z.of_nat (S n)) by lia. apply HQ.
Qed.

Lemma owned_set_bar d idx o l x : setz (b_bar (xd_bars d)) idx o = Some l ->
  owned (upd_bars (set_bar_list l) d) x = if decide (Bar idx = x) then b2z (bool_decide (is_Some o)) else owned d x.
Proof.
  intros E. case_decide as H; [subst x |].
  - cbn. rewrite (getz_setz_eq _ _ _ _ E). by destruct o.
  - destruct x; try done. cbn. rewrite (getz_setz_ne _ _ _ _ _ E); [done | congruence].
Qed.

(** From [s0] on, only BARs are touched. *)
Definition bars_step e s0 s : Prop :=
  accounts e s /\ near s0 s /\ exists b, xs_dev s = set_bars b (xs_dev s0) /\ length (b_bar b) = 3%nat.

Lemma bars_step_refl e s : accounts e s -> length (b_bar (xd_bars (xs_dev s))) = 3%nat -> bars_step e s s.
Proof. intros He Hl. split_and!; [done .. |]. exists (xd_bars (xs_dev s)). split; [by destruct (xs_dev s) | done]. Qed.

Lemma bars_step_dev e s0 s s1 b : bars_step e s0 s -> near s s1 -> xs_dev s1 = set_bars b (xs_dev s) ->
  length (b_bar b) = 3%nat -> accounts e s1 -> bars_step e s0 s1.
Proof.
  intros (He & Hn & b0 & E & Hl) Hn' E' Hb Hacc. split_and!; [done | by eapply near_trans |].
  exists b. split; [by rewrite E', E | done].
Qed.

Lemma bars_len e s0 s : bars_step e s0 s -> length (b_bar (xd_bars (xs_dev s))) = 3%nat.
Proof. intros (_ & _ & b & -> & Hl). done. Qed.

Definition bar_of s (j : Z) : option (option Z) := getz (b_bar (xd_bars (xs_dev s))) j.

Lemma total_set_bar s idx o (Q : unit -> xs K -> Prop) : length (b_bar (xd_bars (xs_dev s))) = 3%nat -> 0 <= idx < 3 ->
  (forall l, setz (b_bar (xd_bars (xs_dev s))) idx o = Some l -> length l = 3%nat ->
     Q tt (set_dev (upd_bars (set_bar_list l) (xs_dev s)) s)) -> total (set_bar idx o) s Q.
Proof.
  intros Hl Hi HQ. unfold set_bar. apply total_bind, total_dev, total_bind.
  eapply total_deref; [apply setz_in; lia |]. apply total_upd_dev, HQ; [apply setz_in; lia | by rewrite length_insert].
Qed.

Lemma bar_in s j : length (b_bar (xd_bars (xs_dev s))) = 3%nat -> 0 <= j < 3 -> exists o, bar_of s j = Some o.
Proof. intros Hl Hj. apply getz_in. rewrite Hl. lia. Qed.

(** Giving a bar back, and taking one. *)
Lemma unmap_bar_ok e s0 s i : bars_step e s0 s -> 0 <= i < 3 ->
  total (unmap_bar i) s (fun _ s' => bars_step e s0 s' /\ bar_of s' i = Some None /\
    forall j, j <> i -> bar_of s' j = bar_of s j).
Proof.
  intros Hs Hi. pose proof (bars_len _ _ _ Hs) as Hl. pose proof Hs as (He & _).
  unfold unmap_bar. apply total_bind, total_dev, total_bind.
  destruct (bar_in s i Hl Hi) as [o Eo]. eapply total_deref; [exact Eo |].
  destruct o as [bar |]; [| by apply total_ret]. apply total_bind, total_give.
  { left. destruct (He (Bar i)) as [H0 ->]. cbn. unfold bar_of in Eo. rewrite Eo. lia. }
  intros s1 Ed Hn Hr. apply total_set_bar; [by rewrite Ed | done |]. intros l El Hl3. rewrite Ed in El |- *.
  split_and!; [| by apply (getz_setz_eq _ _ _ _ El) | intros j Hj; by apply (getz_setz_ne _ _ _ _ _ El)].
  eapply (bars_step_dev _ _ _ _ _ Hs); [exact Hn | done | done |].
  eapply released_owned; [done .. | cbn; unfold bar_of in Eo; by rewrite Eo |].
  intros x. rewrite (owned_set_bar _ _ _ _ _ El). case_decide; [subst x | lia]. cbn. unfold bar_of in Eo. rewrite Eo. lia.
Qed.

Lemma unmap_bars_ok e s0 s : bars_step e s0 s ->
  total unmap_bars s (fun _ s' => bars_step e s0 s' /\ forall j, 0 <= j < 3 -> bar_of s' j = Some None).
Proof.
  intros Hs. apply (total_for_n (fun i s' => bars_step e s0 s' /\ forall j, 0 <= j < i -> bar_of s' j = Some None));
    [split; [done | lia] | | done].
  intros i s' Hi [Hs' Hj]. eapply total_weaken; [| apply (unmap_bar_ok e s0); [done | by vm_compute in Hi |- *]].
  intros _ s'' (H1 & H2 & H3). split; [done |]. intros j Hj'. destruct (decide (j = i)) as [-> | Hne]; [done |].
  rewrite H3 by done. apply Hj. lia.
Qed.

Lemma map_single_bar_ok e s0 s i : bars_step e s0 s -> 0 <= i < 3 -> bar_of s i = Some None ->
  total (map_single_bar i) s (fun len s' => bars_step e s0 s' /\ len <= INT_MAX /\
    b_config_idx (xd_bars (xs_dev s')) = b_config_idx (xd_bars (xs_dev s)) /\
    bar_of s' i = Some (if 0 <? len then Some (iomap_address i) else None) /\
    (len = 0 -> u64 (pci_resource_len i) = 0) /\ forall j, j <> i -> bar_of s' j = bar_of s j).
Proof.
  intros Hs Hi Ei. unfold map_single_bar. apply total_bind, total_set_bar; [by eapply bars_len | done |].
  intros l El Hl. set (s1 := set_dev _ s).
  assert (Hs1 : bars_step e s0 s1).
  { eapply (bars_step_dev _ _ _ _ _ Hs); [done | done | done |]. apply accounts_same; [apply Hs |].
    intros x. rewrite (owned_set_bar _ _ _ _ _ El). case_decide; [subst x | done]. cbn. unfold bar_of in Ei. by rewrite Ei. }
  assert (E1 : bar_of s1 i = Some None) by apply (getz_setz_eq _ _ _ _ El).
  assert (E2 : forall j, j <> i -> bar_of s1 j = bar_of s j) by (intros j Hj; by apply (getz_setz_ne _ _ _ _ _ El)).
  pose proof (u64_range (pci_resource_len i)) as Hu. unfold is_u64 in Hu.
  destruct (u64 (pci_resource_len i) =? 0) eqn:E0; [apply total_ret; split_and!; [done | unfold INT_MAX; lia | done | done | intros _; lia | done] |].
  apply total_bind. eapply total_take; [apply Hs1 |]. intros rv k Hrv Hacc.
  destruct (rv =? 0) eqn:Er; cbn [negb].
  - apply total_bind, total_set_bar; [exact (bars_len _ _ _ Hs1) | done |]. intros l2 El2 Hl2. apply total_ret.
    set (len := if INT_MAX <? _ then _ else _).
    assert (Hlen : 0 < len <= INT_MAX) by (unfold len, INT_MAX in *; destruct (_ <? _) eqn:?; lia).
    rewrite (proj2 (Z.ltb_lt 0 len)) by lia.
    split_and!; [| lia | done | by apply (getz_setz_eq _ _ _ _ El2) | lia |].
    + eapply (bars_step_dev _ _ _ _ _ Hs1); [done | done | done |]. eapply accounts_dev; [exact Hacc | | apply Hs].
      intros x. rewrite (owned_set_bar _ _ _ _ _ El2). unfold bump. case_decide; [subst x | lia].
      cbn. change (getz l i) with (bar_of s1 i). rewrite E1. cbn. lia.
    + intros j Hj. etransitivity; [by apply (getz_setz_ne _ _ _ _ _ El2) | by apply E2].
  - apply total_ret. split_and!; [| by vm_compute | done .. ].
    eapply (bars_step_dev _ _ _ _ _ Hs1); [done | | apply (bars_len _ _ _ Hs1) | done]. by destruct s.
Qed.

(** A BAR that is not empty is mapped; so are all from [i] down. *)
Definition there s (j : Z) : Prop := u64 (pci_resource_len j) <> 0 -> bar_of s j = Some (Some (iomap_address j)).
Definition bars_to (i : Z) s : Prop := forall j, 0 <= j < i -> there s j.

Definition cfg s : Z := b_config_idx (xd_bars (xs_dev s)).
(** The config BAR, once found, is one of the mapped ones. *)
Definition mapped s : Prop := exists bar, bar_of s (cfg s) = Some (Some bar).

Lemma bars_step_upd e s0 s f : bars_step e s0 s -> (forall b, b_bar (f b) = b_bar b) ->
  bars_step e s0 (set_dev (upd_bars f (xs_dev s)) s) /\
  forall j, bar_of (set_dev (upd_bars f (xs_dev s)) s) j = bar_of s j.
Proof.
  intros Hs Hf. assert (Eb : forall j, bar_of (set_dev (upd_bars f (xs_dev s)) s) j = bar_of s j).
  { intros j. unfold bar_of. cbn. by rewrite Hf. }
  split; [| done]. eapply (bars_step_dev _ _ _ _ _ Hs); [done | done | cbn; rewrite Hf; by eapply bars_len |].
  apply accounts_same; [apply Hs |]. intros []; try done. cbn. by rewrite Hf.
Qed.

Lemma total_bar_at s i bar (Q : Z -> xs K -> Prop) : bar_of s i = Some (Some bar) -> Q bar s -> total (bar_at i) s Q.
Proof. intros E HQ. apply total_bind, total_dev, total_bind. eapply total_deref; [exact E |]. by eapply total_deref. Qed.

Lemma bars_step_hw e s0 s k : bars_step e s0 s -> accounts e (set_hw k s) -> bars_step e s0 (set_hw k s).
Proof. intros Hs He. eapply (bars_step_dev _ _ _ _ _ Hs); [done | | exact (bars_len _ _ _ Hs) | done]. cbn. by destruct (xs_dev s). Qed.

Lemma map_loop_ok e s0 n : forall s i ids pos, bars_step e s0 s -> 0 <= i -> i + Z.of_nat n = 3 ->
  (forall j, i <= j < 3 -> bar_of s j = Some None) -> cfg s < i -> cfg s < 0 \/ mapped s -> bars_to i s ->
  total (map_loop n i ids pos) s (fun o s' => bars_step e s0 s' /\ (cfg s' < 0 \/ mapped s') /\ (is_Some o -> bars_to 3 s')).
Proof.
  induction n as [| n IH]; intros s i ids pos Hs H0 Hn Hnone Hc Hm Hto; cbn [map_loop].
  { apply total_ret. split_and!; [done .. |]. intros _ j Hj. apply Hto. lia. }
  mstep (apply (map_single_bar_ok e s0); [done | lia | apply Hnone; lia]).
  intros len s1 (Hs1 & Hmax & Ec & Ei & El & Ej). fold (cfg s1) (cfg s) in Ec.
  assert (Hto1 : 0 <= len -> bars_to (i + 1) s1).
  { intros Hlen j Hj Hne. destruct (decide (j = i)) as [-> | Hji]; [| rewrite Ej by done; apply Hto; [lia | done]].
    rewrite Ei. rewrite (proj2 (Z.ltb_lt 0 len)); [done |]. destruct (decide (len = 0)); [by apply El in e0 | lia]. }
  assert (Hm1 : cfg s1 < 0 \/ mapped s1).
  { rewrite Ec. destruct Hm as [Hm | [bar Hb]]; [by left |]. right. exists bar. rewrite Ec, Ej; [done | lia]. }
  assert (Hnone1 : forall j, i + 1 <= j < 3 -> bar_of s1 j = Some None) by (intros j Hj; rewrite Ej by lia; apply Hnone; lia).
  destruct (len =? 0) eqn:E0; [apply IH; try done; try lia; apply Hto1; lia |].
  destruct (len <? 0) eqn:E1; [apply total_ret; split_and!; [done | done | by intros [? [=]]] |].
  pose proof (Hto1 ltac:(lia)) as Hto2. clear Hto1. rewrite (proj2 (Z.ltb_lt 0 len)) in Ei by lia.
  apply total_bind, total_dev. fold (cfg s1). apply total_bind.
  destruct ((XDMA_BAR_SIZE <=? len) && (cfg s1 <? 0)) eqn:E2; [| apply total_ret, IH; try done; lia].
  apply total_bind. eapply total_bar_at; [exact Ei |]. apply total_bind.
  eapply total_io; [apply quiet_is_config_bar | apply Hs1 |]. intros yes k _ Hk.
  pose proof (bars_step_hw _ _ _ _ Hs1 Hk) as Hs2.
  destruct yes; [| apply total_ret, IH; try done; (lia || (change (cfg s1 < i + 1); lia))].
  apply total_bind, total_upd_dev, total_ret.
  destruct (bars_step_upd e s0 (set_hw k s1) (set_config_idx i) Hs2) as [Hs3 E3]; [done |].
  apply IH; [done | lia | lia | | cbn; lia | right; exists (iomap_address i); rewrite E3; exact Ei |].
  - intros j Hj. rewrite E3. by apply Hnone1.
  - intros j Hj Hne. rewrite E3. by apply Hto2.
Qed.

Definition all_mapped s : Prop := mapped s /\ bars_to 3 s.

Lemma identify_bars_ok e s0 s ids pos : bars_step e s0 s -> all_mapped s ->
  total (identify_bars ids (Z.of_nat (length ids)) pos) s (fun _ s' => bars_step e s0 s' /\ all_mapped s').
Proof.
  intros Hs Hms. unfold identify_bars.
  assert (Hset : forall f s1, bars_step e s0 s1 -> all_mapped s1 -> (forall b, b_bar (f b) = b_bar b) ->
    (forall b, b_config_idx (f b) = b_config_idx b) ->
    total (upd_dev (upd_bars f)) s1 (fun _ s' => bars_step e s0 s' /\ all_mapped s')).
  { intros f s1 H1 [[bar1 Hb1] Ht] Hf Hf'. apply total_upd_dev. destruct (bars_step_upd e s0 s1 f H1 Hf) as [H2 E2].
    split; [done |]. split; [exists bar1; unfold cfg; cbn; by rewrite E2, Hf' |].
    intros j Hj Hne. rewrite E2. by apply Ht. }
  assert (Hids : forall i, 0 <= i < Z.of_nat (length ids) -> exists x, getz ids i = Some x) by (intros; by apply getz_in).
  repeat match goal with |- context [if ?c then _ else _] => destruct c eqn:? end; try by apply total_ret.
  - destruct (Hids 1 ltac:(lia)) as [x Ex]. apply total_bind. eapply total_deref; [done |]. by apply Hset.
  - destruct (Hids 0 ltac:(lia)) as [x Ex]. apply total_bind. eapply total_deref; [done |]. by apply Hset.
  - destruct (Hids 0 ltac:(lia)) as [x Ex], (Hids (Z.of_nat (length ids) - 1) ltac:(lia)) as [y Ey].
    apply total_bind. eapply total_deref; [done |]. mstep (by apply Hset). intros [] s' [H1 H2]. apply total_bind. eapply total_deref; [done |]. by apply Hset.
Qed.

Lemma map_bars_ok e s0 : bars_step e s0 s0 -> (forall j, 0 <= j < 3 -> bar_of s0 j = Some None) -> cfg s0 < 0 ->
  total map_bars s0 (fun rv s' => bars_step e s0 s' /\
    if rv =? 0 then all_mapped s' else forall j, 0 <= j < 3 -> bar_of s' j = Some None).
Proof.
  intros Hs Hnone Hc. unfold map_bars. mstep (apply (map_loop_ok e s0); [done | lia | done | done | lia | by left | intros j Hj; lia]).
  intros o s1 (Hs1 & Hm1 & Hto).
  assert (Hfail : total (_ ← unmap_bars; mret (- EINVAL)) s1 (fun rv s' => bars_step e s0 s' /\
    if rv =? 0 then all_mapped s' else forall j, 0 <= j < 3 -> bar_of s' j = Some None)).
  { mstep (by apply unmap_bars_ok). intros [] s' H'. by apply total_ret. }
  destruct o as [[ids pos] |]; [| done]. apply total_bind, total_dev. fold (cfg s1).
  destruct (cfg s1 <? 0) eqn:E; [done |]. destruct Hm1 as [Hm1 | Hm1]; [lia |].
  mstep (apply (identify_bars_ok e s0); [done | split; [done | by apply Hto; eexists]]). intros [] s' H'. by apply total_ret.
Qed.

End Bars.
