(* ===== verification/XdmaEngines.v ===== *)
(** * Finding and removing the engines

    An engine is created with all its buffers or with none, and removing the
    engines gives the buffers back. *)

From Stdlib Require Import ZArith Lia Bool.
From S2P Require Import Prelude.
From S2P Require Import Mmio.
From S2P Require Import Kernel.
From S2P Require Import XdmaEngine.
From S2P Require Import XdmaDev.
From S2P Require Import XdmaBars.

Section Engines.
Context {K : Type} `{!Device K} `{!PciApi K}.
Implicit Types (s : xs K) (d : dma_direction) (e : pci_resource -> Z) (en : dev_engine).

Definition engine_of s (dir : dma_direction) (i : Z) : option dev_engine := getz (g_list dir (xd_engines (xs_dev s))) i.
Definition max_of s (dir : dma_direction) : Z := g_max dir (xd_engines (xs_dev s)).

(** Only engine [(dir, i)], and what counts the engines, is touched. *)
Definition eng_keep (dir : dma_direction) (i : Z) s s' : Prop :=
  near s s' /\ (exists g, xs_dev s' = set_engines g (xs_dev s)) /\
  (forall dir', max_of s' dir' = max_of s dir') /\
  forall dir' j, (dir', j) <> (dir, i) -> engine_of s' dir' j = engine_of s dir' j.

Definition eng_post e dir i s (P : dev_engine -> Prop) s' : Prop :=
  accounts e s' /\ eng_keep dir i s s' /\ exists en, engine_of s' dir i = Some en /\ P en.

Lemma eng_keep_refl dir i s : eng_keep dir i s s.
Proof. split_and!; [done | | done | done]. exists (xd_engines (xs_dev s)). by destruct (xs_dev s). Qed.

Lemma eng_keep_trans dir i s1 s2 s3 : eng_keep dir i s1 s2 -> eng_keep dir i s2 s3 -> eng_keep dir i s1 s3.
Proof.
  intros (H1 & [g1 E1] & M1 & O1) (H2 & [g2 E2] & M2 & O2). split_and!.
  - by eapply near_trans.
  - exists g2. by rewrite E2, E1.
  - intros dir'. by rewrite M2.
  - intros dir' j Hne. by rewrite O2, O1.
Qed.

Lemma eng_post_keep e dir i s s1 P s' : eng_keep dir i s s1 -> eng_post e dir i s1 P s' -> eng_post e dir i s P s'.
Proof. intros Hk (Ha & Hk' & Hp). split_and!; [done | by eapply eng_keep_trans | done]. Qed.

Lemma eng_keep_hw dir i s k : eng_keep dir i s (set_hw k s).
Proof. split_and!; [done | | done | done]. exists (xd_engines (xs_dev s)). cbn. by destruct (xs_dev s). Qed.

Lemma total_get_engine dir i s en (Q : dev_engine -> xs K -> Prop) :
  engine_of s dir i = Some en -> Q en s -> total (get_engine dir i) s Q.
Proof. intros E HQ. apply total_bind, total_dev. by eapply total_deref. Qed.

Lemma g_list_set dir l g : g_list dir (set_list dir l g) = l.
Proof. by destruct dir. Qed.
Lemma g_list_set_ne dir dir' l g : dir' <> dir -> g_list dir' (set_list dir l g) = g_list dir' g.
Proof. by destruct dir, dir'. Qed.
Lemma g_max_set_list dir dir' l g : g_max dir' (set_list dir l g) = g_max dir' g.
Proof. by destruct dir, dir'. Qed.

(** What is owned after an engine is replaced. *)
Definition owned_put (dir : dma_direction) (i : Z) en (d : xdma_dev) x : Z :=
  match x with
  | Dma e b => if decide (e = (dir, i)) then b2z (has_buffer b (de_engine en)) else owned d x
  | _ => owned d x
  end.

Lemma total_put_engine dir i old en s (Q : unit -> xs K -> Prop) : engine_of s dir i = Some old ->
  (forall s', eng_keep dir i s s' -> engine_of s' dir i = Some en -> xs_hw s' = xs_hw s ->
     (forall x, owned (xs_dev s') x = owned_put dir i en (xs_dev s) x) -> Q tt s') ->
  total (put_engine dir i en) s Q.
Proof.
  intros E HQ. pose proof (getz_Some_range _ _ _ E) as Hi. unfold put_engine.
  apply total_bind, total_dev, total_bind. eapply total_deref; [by apply setz_in |].
  pose proof (setz_in _ _ en Hi) as El. set (l := <[_ := _]> _) in *. apply total_upd_dev.
  assert (Ei : forall dir' j, engine_of (set_dev (upd_engines (set_list dir l) (xs_dev s)) s) dir' j =
    if decide ((dir', j) = (dir, i)) then Some en else engine_of s dir' j).
  { intros dir' j. unfold engine_of. cbn. destruct (decide (dir' = dir)) as [-> | Hd].
    - rewrite g_list_set. destruct (decide (j = i)) as [-> | Hj].
      + rewrite decide_True by done. apply (getz_setz_eq _ _ _ _ El).
      + rewrite decide_False by congruence. apply (getz_setz_ne _ _ _ _ _ El). congruence.
    - rewrite g_list_set_ne by done. by rewrite decide_False by congruence. }
  apply HQ; [| by rewrite Ei, decide_True | done |].
  - split_and!; [done | by eexists | intros dir'; apply g_max_set_list |].
    intros dir' j Hne. by rewrite Ei, decide_False.
  - intros x. destruct x as [| | | | | | | [dir' j] b |]; try done. cbn [owned owned_put].
    change (getz (g_list dir' _) j) with (engine_of (set_dev (upd_engines (set_list dir l) (xs_dev s)) s) dir' j) at 1.
    rewrite Ei. repeat case_decide; (reflexivity || tauto).
Qed.

(** ** Buffers *)

Definition magic_of en : Z := e_magic (e_config (de_engine en)).
Definition has (b : dma_buffer) en : bool := has_buffer b (de_engine en).
(** The engine is still known by its magic and its line. *)
Definition alike en en' : Prop := magic_of en' = magic_of en /\ de_line en' = de_line en.

Lemma has_new b b' bus (x : xdma_engine) : has_buffer b' (new_buffer b bus x) = if decide (b = b') then true else has_buffer b' x.
Proof. by destruct b, b'. Qed.
Lemma has_none b b' (x : xdma_engine) : has_buffer b' (no_buffer b x) = if decide (b = b') then false else has_buffer b' x.
Proof. by destruct b, b'. Qed.
Lemma magic_new b bus (x : xdma_engine) : e_magic (e_config (new_buffer b bus x)) = e_magic (e_config x).
Proof. by destruct b. Qed.
Lemma magic_none b (x : xdma_engine) : e_magic (e_config (no_buffer b x)) = e_magic (e_config x).
Proof. by destruct b. Qed.

(** Replacing an engine, with the accounts before and after. *)
Lemma put_post e e' dir i s en en' : accounts e s -> engine_of s dir i = Some en -> (forall x, 0 <= e' x) ->
  (forall x, e x + owned (xs_dev s) x = e' x + owned_put dir i en' (xs_dev s) x) ->
  total (put_engine dir i en') s (fun _ => eng_post e' dir i s (fun en1 => en1 = en')).
Proof.
  intros He E H0 Hx. eapply total_put_engine; [done |]. intros s' Hk Ei Eh Ho.
  split_and!; [| done | by exists en']. intros x. split; [done |]. rewrite Eh, Ho, <- Hx. apply He.
Qed.

Lemma owned_same dir i s en en' : engine_of s dir i = Some en -> (forall b, has b en' = has b en) ->
  forall x, owned_put dir i en' (xs_dev s) x = owned (xs_dev s) x.
Proof.
  intros E H [| | | | | | | [dir' j] b |]; try done. cbn. case_decide as Hd; [| done]. simplify_eq.
  unfold engine_of in E. rewrite E. cbn. unfold has in H. by rewrite H.
Qed.

Lemma owned_changed dir i s en en' b : engine_of s dir i = Some en ->
  (forall b', b' <> b -> has b' en' = has b' en) -> forall x, owned_put dir i en' (xs_dev s) x =
    owned (xs_dev s) x + (if decide (Dma (dir, i) b = x) then b2z (has b en') - b2z (has b en) else 0).
Proof.
  intros E H x. destruct (decide (Dma (dir, i) b = x)) as [<- | Hne].
  - cbn. rewrite decide_True by done. unfold engine_of in E. rewrite E. cbn. unfold has. lia.
  - destruct x as [| | | | | | | [dir' j] b' |]; try (cbn; lia). cbn. case_decide as Hd; [| lia]. simplify_eq.
    unfold engine_of in E. rewrite E. cbn. unfold has in H. rewrite H; [lia | congruence].
Qed.

Lemma put_same e dir i s en en' : accounts e s -> engine_of s dir i = Some en -> (forall b, has b en' = has b en) ->
  total (put_engine dir i en') s (fun _ => eng_post e dir i s (fun en1 => en1 = en')).
Proof. intros He E H. eapply put_post; [done .. | apply He |]. intros x. by rewrite (owned_same _ _ _ _ _ E H). Qed.

Lemma upd_engine_ok e dir i s en f : accounts e s -> engine_of s dir i = Some en ->
  (forall b x, has_buffer b (f x) = has_buffer b x) ->
  total (upd_engine dir i f) s (fun _ => eng_post e dir i s (fun en' => en' = mkDevEngine (f (de_engine en)) (de_line en))).
Proof.
  intros He E Hf. apply total_bind. eapply total_get_engine; [done |]. eapply put_same; [done .. |].
  intros b. apply Hf.
Qed.

Lemma run_engine_ok e dir i s en m : accounts e s -> engine_of s dir i = Some en ->
  quiet (m (de_engine en)) (same_engine (de_engine en)) ->
  total (run_engine dir i m) s (fun _ => eng_post e dir i s (fun en' =>
    (forall b, has b en' = has b en) /\ alike en en')).
Proof.
  intros He E Hm. apply total_bind. eapply total_get_engine; [done |]. apply total_bind.
  eapply total_io; [exact Hm | done |]. intros x k [H1 H2] Hk.
  eapply total_weaken; [| eapply (put_same e _ _ (set_hw k s) en); [done | done | exact H1]].
  intros [] s' Hp. eapply eng_post_keep; [apply eng_keep_hw |]. destruct Hp as (Ha & Hk' & en' & E' & ->).
  split_and!; [done .. |]. eexists. split; [done |]. split; [exact H1 |]. by split.
Qed.

Lemma free_buffer_ok e dir i s en b : accounts e s -> engine_of s dir i = Some en ->
  total (free_buffer dir i b) s (fun _ => eng_post e dir i s (fun en' =>
    has b en' = false /\ (forall b', has b' en = false -> has b' en' = false) /\ alike en en')).
Proof.
  intros He E. apply total_bind. eapply total_get_engine; [done |]. fold (has b en). destruct (has b en) eqn:Eb.
  2: { apply total_ret. split_and!; [done | apply eng_keep_refl |]. exists en. by split_and!. }
  assert (Eo : owned (xs_dev s) (Dma (dir, i) b) = 1).
  { cbn. unfold engine_of in E. rewrite E. cbn. unfold has in Eb. by rewrite Eb. }
  apply total_bind, total_give.
  { left. destruct (He (Dma (dir, i) b)) as [H0 ->]. lia. }
  intros s1 Ed Hn Hr. assert (E1 : engine_of s1 dir i = Some en) by (unfold engine_of in *; by rewrite Ed).
  apply total_bind. eapply total_get_engine; [done |]. set (en' := mkDevEngine _ _).
  eapply total_put_engine; [exact E1 |]. intros s2 Hk E2 Eh Ho.
  assert (Hen : forall b', has b' en' = if decide (b = b') then false else has b' en) by (intros b'; apply has_none).
  assert (Hx : forall x, owned (xs_dev s2) x = owned (xs_dev s) x - (if decide (Dma (dir, i) b = x) then 1 else 0)).
  { intros x. rewrite Ho, (owned_changed _ _ _ en en' b); [| done | intros b' Hb'; rewrite Hen; by rewrite decide_False by congruence].
    rewrite Ed, Hen, Eb. rewrite (decide_True (P := b = b)) by done. case_decide; cbn; lia. }
  split_and!.
  - pose proof (released_owned _ _ _ _ (xs_dev s2) He Ed Hr Eo Hx) as Hacc. intros x. destruct (Hacc x) as [H0 Hx'].
    split; [done |]. cbn in Hx'. by rewrite Eh.
  - eapply eng_keep_trans; [| exact Hk]. split_and!; [done | | |].
    + exists (xd_engines (xs_dev s)). rewrite Ed. by destruct (xs_dev s).
    + intros dir'. unfold max_of. by rewrite Ed.
    + intros dir' j _. unfold engine_of. by rewrite Ed.
  - exists en'. split; [done |]. split_and!; [by rewrite Hen, decide_True | |].
    + intros b' Hb'. rewrite Hen. by case_decide.
    + split; [apply magic_none | done].
Qed.

Definition bare en : Prop := forall b, has b en = false.

Lemma alike_refl en : alike en en.
Proof. done. Qed.
Lemma alike_trans en1 en2 en3 : alike en1 en2 -> alike en2 en3 -> alike en1 en3.
Proof. intros [H1 H2] [H3 H4]. split; congruence. Qed.

Lemma eng_post_weaken e dir i s (P Q : dev_engine -> Prop) s' : (forall en, P en -> Q en) ->
  eng_post e dir i s P s' -> eng_post e dir i s Q s'.
Proof. intros H (Ha & Hk & en & E & Hp). split_and!; [done .. |]. exists en. auto. Qed.

(** One more operation on the same engine. *)
Lemma eng_post_then {A} e dir i s (m : st (xs K) A) (P : dev_engine -> Prop) (Q : A -> dev_engine -> Prop) s1 :
  eng_post e dir i s P s1 ->
  (forall en, engine_of s1 dir i = Some en -> P en -> accounts e s1 -> total m s1 (fun a => eng_post e dir i s1 (Q a))) ->
  total m s1 (fun a => eng_post e dir i s (Q a)).
Proof.
  intros (Ha & Hk & en & E & Hp) Hm. eapply total_weaken; [| by eapply Hm].
  intros a s2. by apply eng_post_keep.
Qed.

Lemma free_buffers_ok e dir i s en : accounts e s -> engine_of s dir i = Some en ->
  total (engine_free_resource dir i) s (fun _ => eng_post e dir i s (fun en' => bare en' /\ alike en en')).
Proof.
  intros He E. unfold engine_free_resource.
  mstep (by apply (free_buffer_ok e dir i s en)). intros [] s1 H1.
  mstep (eapply (eng_post_then _ _ _ _ _ _ (fun _ en' => has DescBuffer en' = false /\
    has ResultBuffer en' = false /\ alike en en')); [exact H1 |]).
  2: { intros en1 E1 (Hb & _ & Hl) Ha. eapply total_weaken; [| by apply (free_buffer_ok e dir i s1 en1)]. intros [] s'.
       apply eng_post_weaken. intros en2 (H2 & Hs & Hl2). split_and!; [by apply Hs | done | by eapply alike_trans]. }
  clear H1. intros [] s2 H2.
  mstep (eapply (eng_post_then _ _ _ _ _ _ (fun _ en' => has DescBuffer en' = false /\
    has ResultBuffer en' = false /\ has RxBuffer en' = false /\ alike en en')); [exact H2 |]).
  2: { intros en1 E1 (Hb & Hb' & Hl) Ha. eapply total_weaken; [| by apply (free_buffer_ok e dir i s2 en1)]. intros [] s'.
       apply eng_post_weaken. intros en2 (Hn & Hs & Hl2). split_and!; [by apply Hs .. | done | by eapply alike_trans]. }
  clear H2. intros [] s3 H3. eapply (eng_post_then _ _ _ _ _ _ (fun _ => _)); [exact H3 |].
  intros en1 E1 (Hb & Hb' & Hb2 & Hl) Ha. eapply total_weaken; [| by apply (free_buffer_ok e dir i s3 en1)]. intros [] s'.
  apply eng_post_weaken. intros en2 (Hn & Hs & Hl2). split; [| by eapply alike_trans].
  intros []; [by apply Hs | by apply Hs | by apply Hs | done].
Qed.

Lemma alloc_buffer_ok e dir i s en b : accounts e s -> engine_of s dir i = Some en -> has b en = false ->
  total (alloc_buffer dir i b) s (fun rv => eng_post e dir i s (fun en' =>
    (forall b', b' <> b -> has b' en' = has b' en) /\ alike en en')).
Proof.
  intros He E Eb. apply total_bind. eapply total_take; [done |]. intros rv k Hrv Hk.
  assert (E' : engine_of (set_hw k s) dir i = Some en) by done.
  apply total_bind, total_bind. eapply total_get_engine; [exact E' |].
  set (en' := mkDevEngine _ _).
  assert (Hen : forall b', has b' en' = if decide (b = b') then rv =? 0 else has b' en).
  { intros b'. unfold has, en'. cbn. destruct (rv =? 0); [apply has_new | apply has_none]. }
  eapply total_weaken; [| eapply (put_post _ e _ _ _ en en'); [exact Hk | exact E' | apply He |]].
  - intros [] s1 Hp. apply total_ret. eapply eng_post_keep; [apply eng_keep_hw |]. eapply eng_post_weaken; [| exact Hp].
    intros en1 ->. split; [intros b' Hb'; by rewrite Hen, decide_False by congruence |]. split; [| done].
    unfold magic_of, en'. cbn. destruct (rv =? 0); [apply magic_new | apply magic_none].
  - intros x. rewrite (owned_changed _ _ _ en en' b); [| done | intros b' Hb'; by rewrite Hen, decide_False by congruence].
    rewrite Hen, Eb, (decide_True (P := b = b)) by done. destruct (rv =? 0); unfold bump; cbn; case_decide; lia.
Qed.

Lemma buffers_nodup (x : xdma_engine) : NoDup (buffers_of x).
Proof. unfold buffers_of. repeat case_match; cbn; repeat (constructor; [set_solver |]); constructor. Qed.

Lemma engine_alloc_ok e dir i s en : accounts e s -> engine_of s dir i = Some en -> bare en ->
  total (engine_alloc_resource dir i) s (fun rv => eng_post e dir i s (fun en' =>
    alike en en' /\ (rv <> 0 -> bare en'))).
Proof.
  intros He E Hb. apply total_bind. eapply total_get_engine; [done |]. apply total_bind.
  apply (total_for_err _ _ _ (fun done_ s' => eng_post e dir i s (fun en' =>
    (forall b, b ∉ done_ -> has b en' = false) /\ alike en en') s')).
  - split_and!; [done | apply eng_keep_refl |]. exists en. split; [done |]. split; [intros b _; apply Hb | done].
  - intros done_ b rest s1 El H1. eapply total_weaken; [| eapply (eng_post_then _ _ _ _ _ _ (fun rv en' =>
      (forall b', b' ∉ done_ ++ [b] -> has b' en' = false) /\ alike en en')); [exact H1 |]].
    + intros rv s2 H2. cbn beta. destruct (rv =? 0) eqn:Er; [done |]. cbn [negb]. mstep (eapply (eng_post_then _ _ _ _ _ _ (fun _ en' => bare en' /\ alike en en')); [exact H2 |]).
      * intros [] s3 H3. apply total_ret. eapply eng_post_weaken; [| exact H3]. by intros en' [? ?].
      * intros en1 E1 [_ Hl] Ha. eapply total_weaken; [| by apply (free_buffers_ok e dir i s2 en1)]. intros [] s'.
        apply eng_post_weaken. intros en2 [H3 H4]. split; [done | by eapply alike_trans].
    + intros en1 E1 [Hn Hl] Ha.
      assert (Hd : b ∉ done_).
      { pose proof (buffers_nodup (de_engine en)) as Hnd. rewrite El in Hnd. apply NoDup_app in Hnd as (_ & Hnd & _).
        intros Hin. apply (Hnd _ Hin). set_solver. }
      eapply total_weaken; [| apply (alloc_buffer_ok e dir i s1 en1 b); [done | done | by apply Hn]]. intros rv s2.
      apply eng_post_weaken. intros en2 [H2 H3]. split; [| by eapply alike_trans].
      intros b' Hb'. rewrite H2; [apply Hn; set_solver | set_solver].
  - intros s1 H1. cbn [Z.eqb negb]. apply total_ret. eapply eng_post_weaken; [| exact H1]. intros en' [_ Hl]. by split.
Qed.

(** ** Creating an engine *)

Lemma total_config_bar s bar (Q : Z -> xs K -> Prop) : bar_of s (cfg s) = Some (Some bar) -> Q bar s -> total config_bar s Q.
Proof. intros E HQ. apply total_bind, total_dev. by eapply total_bar_at. Qed.

Lemma eng_keep_mapped dir i s s' : eng_keep dir i s s' -> mapped s -> mapped s'.
Proof. intros (_ & [g E] & _) [bar H]. exists bar. unfold bar_of, cfg in *. by rewrite E. Qed.

(** Counting an engine, and adding its bit. *)
Lemma count_post e dir i s P num (f : engines -> engines) :
  (forall dir', g_list dir' (f (xd_engines (xs_dev s))) = g_list dir' (xd_engines (xs_dev s))) ->
  (forall dir', g_max dir' (f (xd_engines (xs_dev s))) = g_max dir' (xd_engines (xs_dev s))) ->
  eng_post e dir i s P s ->
  eng_post e dir i s P (set_dev (upd_engines (fun g => set_num (num g) (f g)) (xs_dev s)) s).
Proof.
  intros Hl Hm (Ha & _ & en & E & Hp). set (s' := set_dev _ s).
  assert (Hs : forall dir' j, engine_of s' dir' j = engine_of s dir' j).
  { intros dir' j. unfold engine_of. rewrite <- Hl. by destruct dir'. }
  split_and!.
  - apply accounts_same; [done |]. intros [| | | | | | | [dir' j] b |]; try done.
    change (owned_buffer (engine_of s' dir' j) b = owned_buffer (engine_of s dir' j) b). by rewrite Hs.
  - split_and!; [done | by eexists | | intros dir' j _; apply Hs]. intros dir'. unfold max_of. rewrite <- Hm. by destruct dir'.
  - exists en. by rewrite Hs.
Qed.

Lemma set_streaming_post e dir i s en val : accounts e s -> engine_of s dir i = Some en ->
  total (if negb (Z.land val 0x8000 =? 0) then
           upd_engine dir i (fun x => set_e_config (set_streaming true (e_config x)) x)
         else mret tt) s (fun _ => eng_post e dir i s (fun en' => (forall b, has b en' = has b en) /\ alike en en')).
Proof.
  intros He E. destruct (negb _).
  - eapply total_weaken; [| apply upd_engine_ok; [done | done | by intros [] ?]]. intros [] s'.
    apply eng_post_weaken. intros en' ->. by repeat split; try intros [].
  - apply total_ret. split_and!; [done | apply eng_keep_refl |]. by exists en.
Qed.

(** After [rv], the engine is there, or is as bare as it was. *)
Definition created (en : dev_engine) (rv : Z) (en' : dev_engine) : Prop :=
  de_line en' = de_line en /\ if decide (rv = 0) then magic_of en' = MAGIC_ENGINE else bare en'.

Lemma engine_init_ok e s offset dir i en : accounts e s -> mapped s -> engine_of s dir i = Some en -> bare en ->
  total (engine_init offset dir i) s (fun rv => eng_post e dir i s (created en rv)).
Proof.
  intros He [bar Hm] E Hb. apply total_bind. eapply total_config_bar; [exact Hm |]. apply total_bind, total_dev, total_bind.
  set (conf := fun x => set_e_config (init_config bar offset dir i (g_num (xd_engines (xs_dev s))) (e_config x)) x).
  set (P := fun en' => bare en' /\ de_line en' = de_line en /\ magic_of en' = MAGIC_ENGINE).
  eapply total_weaken; [| apply (upd_engine_ok e dir i s en conf); [done | done | by intros [] ?]]. intros [] s1 H1.
  assert (H1' : eng_post e dir i s P s1).
  { eapply eng_post_weaken; [| exact H1]. intros en' ->. split_and!; [| done | done]. intros b. rewrite <- (Hb b). by destruct b. }
  clear H1. apply total_bind. eapply total_io; [by apply (quiet_readl _ (fun _ => True)) | apply H1' |].
  intros val k _ Hk. assert (H2 : eng_post e dir i s P (set_hw k s1)).
  { destruct H1' as (_ & Hkp & en1 & E1 & Hp). split_and!; [done | eapply eng_keep_trans; [done | apply eng_keep_hw] |].
    by exists en1. }
  mstep (eapply (eng_post_then _ _ _ _ _ _ (fun _ => P)); [exact H2 |]).
  2: { intros en2 E2 (B2 & L2 & M2) A2. eapply total_weaken; [| by apply set_streaming_post]. intros [] s'.
       apply eng_post_weaken. intros en' (Hh & Hmg & Hl). split_and!; [intros b; by rewrite Hh | congruence | congruence]. }
  intros [] s3 H3. pose proof H3 as (A3 & K3 & en3 & E3 & P3). apply total_bind. eapply total_get_engine; [done |].
  apply total_bind, total_upd_dev.
  assert (H4 : eng_post e dir i s P (set_dev (upd_engines (fun g => set_num (g_num g + 1)
      (add_mask dir (e_irq_bitmask (e_config (de_engine en3))) g)) (xs_dev s3)) s3)).
  { eapply eng_post_keep; [exact K3 |]. apply (count_post e dir i s3 P (fun g => g_num g + 1)).
    - by destruct dir; intros [].
    - by destruct dir; intros [].
    - split_and!; [done | apply eng_keep_refl |]. by exists en3. }
  mstep (eapply (eng_post_then _ _ _ _ _ _ (fun rv en' =>
    de_line en' = de_line en /\ magic_of en' = MAGIC_ENGINE /\ (rv <> 0 -> bare en'))); [exact H4 |]).
  2: { intros en4 E4 (B4 & L4 & M4) A4. eapply total_weaken; [| by apply engine_alloc_ok]. intros rv s'.
       apply eng_post_weaken. intros en' ((Hmg & Hl) & Hbare). split_and!; [congruence | congruence | done]. }
  intros rv s5 H5. destruct (rv =? 0) eqn:Er; cbn [negb].
  - mstep (eapply (eng_post_then _ _ _ _ _ _ (fun _ => created en 0)); [exact H5 |]).
    + intros [] s' H'. by apply total_ret.
    + intros en5 E5 (L5 & M5 & _) A5. eapply total_weaken; [| apply run_engine_ok; [done | done | apply quiet_engine_init_regs]].
      intros [] s'. apply eng_post_weaken. intros en' (_ & Hmg & Hl). split; [congruence |]. by rewrite decide_True, Hmg.
  - apply total_ret. eapply eng_post_weaken; [| exact H5]. intros en' (L & _ & Hbare). split; [done |].
    rewrite decide_False by lia. apply Hbare. lia.
Qed.

Lemma probe_for_engine_ok e s dir i en : accounts e s -> mapped s -> engine_of s dir i = Some en -> bare en ->
  total (probe_for_engine dir i) s (fun rv => eng_post e dir i s (created en rv)).
Proof.
  intros He [bar Hm] E Hb. apply total_bind. eapply total_config_bar; [exact Hm |].
  apply total_bind. eapply total_io; [apply quiet_engine_id | done |]. intros id k1 _ H1.
  apply total_bind. eapply total_io; [apply quiet_channel_id | done |]. intros cid k2 _ H2.
  pose proof (eng_keep_trans _ _ _ _ _ (eng_keep_hw dir i s k1) (eng_keep_hw dir i _ k2)) as Hk.
  destruct (_ || _).
  - apply total_ret. split_and!; [done | done |]. exists en. split; [done |]. by split.
  - eapply total_weaken; [| apply (engine_init_ok e _ _ _ _ en); [done | by exists bar | done | done]].
    intros rv s'. by apply eng_post_keep.
Qed.

(** ** All the engines *)

(** Engines with buffers were created, below the bounds [f]. *)
Definition below (f : dma_direction -> Z) s : Prop := forall dir i en,
  engine_of s dir i = Some en -> bare en \/ (magic_of en = MAGIC_ENGINE /\ i < f dir).
Definition line_of s (dir : dma_direction) (i : Z) : option Z := de_line <$> engine_of s dir i.
(** Only engines are touched, and their lines are not. *)
Definition eng_far s s' : Prop :=
  near s s' /\ (exists g, xs_dev s' = set_engines g (xs_dev s)) /\ forall dir i, line_of s' dir i = line_of s dir i.

Lemma eng_far_refl s : eng_far s s.
Proof. split_and!; [done | | done]. exists (xd_engines (xs_dev s)). by destruct (xs_dev s). Qed.
Lemma eng_far_trans s1 s2 s3 : eng_far s1 s2 -> eng_far s2 s3 -> eng_far s1 s3.
Proof.
  intros (H1 & [g1 E1] & L1) (H2 & [g2 E2] & L2). split_and!; [by eapply near_trans | exists g2; by rewrite E2, E1 |].
  intros dir i. by rewrite L2.
Qed.
Lemma eng_far_mapped s s' : eng_far s s' -> mapped s -> mapped s'.
Proof. intros (_ & [g E] & _) [bar H]. exists bar. unfold bar_of, cfg in *. by rewrite E. Qed.

Lemma eng_keep_far dir i s s' en en' : eng_keep dir i s s' -> engine_of s dir i = Some en -> engine_of s' dir i = Some en' ->
  de_line en' = de_line en -> eng_far s s'.
Proof.
  intros (Hn & Hg & _ & Ho) E E' Hl. split_and!; [done .. |]. intros dir' j. unfold line_of.
  destruct (decide ((dir', j) = (dir, i))) as [[= -> ->] | Hne]; [by rewrite E, E'; cbn; rewrite Hl | by rewrite Ho].
Qed.

Definition raise (dir : dma_direction) (i : Z) (f : dma_direction -> Z) : dma_direction -> Z :=
  fun d => if decide (d = dir) then i else f d.

(** An engine in range. *)
Definition present s (dir : dma_direction) (i : Z) : Prop := is_Some (line_of s dir i).
Lemma present_engine s dir i : present s dir i -> exists en, engine_of s dir i = Some en.
Proof. intros [l H]. unfold line_of in H. destruct (engine_of s dir i); [by eexists | done]. Qed.

Lemma probe_loop_ok e dir f n : forall s i, accounts e s -> mapped s -> below (raise dir i f) s ->
  (forall j, i <= j < i + Z.of_nat n -> present s dir j) ->
  total (probe_loop dir n i) s (fun i' s' => accounts e s' /\ eng_far s s' /\ (forall d, max_of s' d = max_of s d) /\
    i <= i' <= i + Z.of_nat n /\ below (raise dir i' f) s').
Proof.
  induction n as [| n IH]; intros s i He Hm Hb Hp; cbn [probe_loop].
  { apply total_ret. split_and!; [done | apply eng_far_refl | done | lia | lia | done]. }
  destruct (present_engine s dir i) as [en E]; [apply Hp; lia |].
  assert (Hen : bare en).
  { destruct (Hb _ _ _ E) as [? | [_ Hlt]]; [done |]. unfold raise in Hlt. rewrite decide_True in Hlt by done. lia. }
  mstep (by apply (probe_for_engine_ok e s dir i en)).
  intros rv s1 (A1 & K1 & en1 & E1 & L1 & Hc). pose proof (eng_keep_far _ _ _ _ _ _ K1 E E1 L1) as F1.
  pose proof K1 as (_ & _ & M1 & O1).
  assert (Hb1 : below (raise dir (if decide (rv = 0) then i + 1 else i) f) s1).
  { intros d j en2 E2. destruct (decide ((d, j) = (dir, i))) as [[= -> ->] | Hne].
    - rewrite E1 in E2. injection E2 as <-. case_decide; [right; split; [done |] | by left].
      unfold raise. rewrite decide_True by done. lia.
    - rewrite O1 in E2 by done. destruct (Hb _ _ _ E2) as [? | [? Hlt]]; [by left | right]. split; [done |].
      unfold raise in *. repeat case_decide; lia. }
  destruct (rv =? 0) eqn:Er; cbn [negb].
  - rewrite decide_True in Hb1 by lia. eapply total_weaken; [| apply (IH s1 (i + 1)); [done | by eapply eng_far_mapped | done |]].
    + intros i' s2 (A2 & F2 & M2 & Hi & B2). split_and!; [done | by eapply eng_far_trans | intros d; by rewrite M2 | lia | lia | done].
    + intros j Hj. unfold present. rewrite (proj2 (proj2 F1)). apply Hp. lia.
  - rewrite decide_False in Hb1 by lia. apply total_ret. split_and!; [done | done | done | lia | lia | done].
Qed.

(** The engines of the device are those found. *)
Definition engs s : Prop :=
  (forall dir, 0 <= max_of s dir <= 2) /\ (forall dir i, 0 <= i < 2 -> present s dir i) /\ below (max_of s) s.

Lemma set_max_far s dir i : let s' := set_dev (upd_engines (set_max dir i) (xs_dev s)) s in
  (forall d j, engine_of s' d j = engine_of s d j) /\ (forall d, max_of s' d = raise dir i (max_of s) d).
Proof. split; [intros [] j; by destruct dir | by intros []; destruct dir]. Qed.

Lemma probe_dir_ok e s dir f : accounts e s -> mapped s -> (forall d, 0 <= max_of s d <= 2) ->
  (forall d i, 0 <= i < 2 -> present s d i) -> f dir = 0 -> below f s ->
  total (probe_dir dir) s (fun _ s' => accounts e s' /\ eng_far s s' /\ exists m, 0 <= m <= max_of s dir /\
    (forall d, max_of s' d = raise dir m (max_of s) d) /\ below (raise dir m f) s').
Proof.
  intros He Hm Hmax Hp Hf Hb. apply total_bind, total_dev. fold (max_of s dir). pose proof (Hmax dir).
  mstep (apply (probe_loop_ok e dir f); [done | done | |]).
  2: { intros d i en E. destruct (Hb _ _ _ E) as [? | [? Hlt]]; [by left | right; split; [done |]]. unfold raise. case_decide; subst; lia. }
  2: { intros j Hj. apply Hp. lia. }
  intros m s1 (A1 & F1 & M1 & Hi & B1). apply total_upd_dev. destruct (set_max_far s1 dir m) as [Hs Hx].
  set (s2 := set_dev _ s1) in *. split_and!.
  - apply accounts_same; [done |]. intros [| | | | | | | [d j] b |]; try done.
    change (owned_buffer (engine_of s2 d j) b = owned_buffer (engine_of s1 d j) b). by rewrite Hs.
  - eapply eng_far_trans; [exact F1 |]. split_and!; [done | by eexists |]. intros d j. unfold line_of. by rewrite Hs.
  - exists m. split_and!; [lia | lia | |].
    + intros d. rewrite Hx. unfold raise. case_decide; [done | apply M1].
    + intros d j en E. rewrite Hs in E. by apply (B1 d j).
Qed.

Lemma probe_engines_ok e s : accounts e s -> mapped s -> (forall d, 0 <= max_of s d <= 2) ->
  (forall d i, 0 <= i < 2 -> present s d i) -> below (fun _ => 0) s ->
  total probe_engines s (fun rv s' => rv = 0 /\ accounts e s' /\ eng_far s s' /\ engs s').
Proof.
  intros He Hm Hmax Hp Hb. mstep (by apply (probe_dir_ok e s DMA_TO_DEVICE (fun _ => 0))).
  intros [] s1 (A1 & F1 & m1 & Hm1 & M1 & B1). apply total_bind. pose proof (Hmax DMA_TO_DEVICE) as Hx1. pose proof (Hmax DMA_FROM_DEVICE) as Hx2.
  eapply total_weaken; [| apply (probe_dir_ok e s1 DMA_FROM_DEVICE (raise DMA_TO_DEVICE m1 (fun _ => 0)) A1); [by eapply eng_far_mapped | | | | exact B1]].
  - intros [] s2 (A2 & F2 & m2 & Hm2 & M2 & B2). apply total_ret. split_and!; [done | done | by eapply eng_far_trans |].
    rewrite M1 in Hm2. unfold raise in Hm2. rewrite decide_False in Hm2 by done.
    assert (HM : forall d, max_of s2 d = raise DMA_FROM_DEVICE m2 (raise DMA_TO_DEVICE m1 (fun _ => 0)) d).
    { intros d. rewrite M2. unfold raise. rewrite M1. by destruct d. }
    split_and!.
    + intros d. rewrite HM. unfold raise. repeat case_decide; lia.
    + intros d i Hi. unfold present. rewrite (proj2 (proj2 F2)), (proj2 (proj2 F1)). by apply Hp.
    + intros d i en E. destruct (B2 _ _ _ E) as [? | [? ?]]; [by left | right]. by rewrite HM.
  - intros d. rewrite M1. unfold raise. case_decide; [lia | apply Hmax].
  - intros d i Hi. unfold present. rewrite (proj2 (proj2 F1)). by apply Hp.
  - done.
Qed.

(** ** Removing them *)

Lemma engine_destroy_ok e s dir i en : accounts e s -> engine_of s dir i = Some en ->
  total (engine_destroy dir i) s (fun _ => eng_post e dir i s bare).
Proof.
  intros He E. apply total_bind. eapply total_get_engine; [done |]. apply total_bind.
  eapply total_io; [by apply (quiet_writel _ _ (fun _ => True)) | done |]. intros [] k _ Hk.
  mstep (by apply (free_buffers_ok e dir i (set_hw k s) en)).
  intros [] s1 H1. apply (eng_post_keep _ _ _ _ _ _ _ (eng_keep_hw dir i s k)) in H1.
  mstep (eapply (eng_post_then _ _ _ _ _ _ (fun _ => bare)); [exact H1 |]).
  - intros [] s2 H2. apply total_upd_dev. pose proof H2 as (A2 & K2 & en2 & E2 & B2).
    eapply eng_post_keep; [exact K2 |]. apply (count_post e dir i s2 bare (fun g => g_num g - 1) (fun g => g)); [done .. |].
    split_and!; [done | apply eng_keep_refl |]. by exists en2.
  - intros en1 E1 [B1 _] A1. eapply total_weaken; [| eapply (put_same e _ _ s1 en1 zero_engine A1 E1)].
    + intros [] s'. apply eng_post_weaken. intros en' -> b. by destruct b.
    + intros b. rewrite (B1 b). by destruct b.
Qed.

Definition eng_rest s s' : Prop := near s s' /\ exists g, xs_dev s' = set_engines g (xs_dev s).
Lemma eng_rest_trans s1 s2 s3 : eng_rest s1 s2 -> eng_rest s2 s3 -> eng_rest s1 s3.
Proof. intros [H1 [g1 E1]] [H2 [g2 E2]]. split; [by eapply near_trans | exists g2; by rewrite E2, E1]. Qed.
Lemma eng_rest_refl s : eng_rest s s.
Proof. split; [done |]. exists (xd_engines (xs_dev s)). by destruct (xs_dev s). Qed.
Lemma eng_keep_rest dir i s s' : eng_keep dir i s s' -> eng_rest s s'.
Proof. intros (H & Hg & _). by split. Qed.

(** [body] on each engine that was created: [P] holds of the engine after. *)
Lemma each_engine_ok e s dir body (P : dev_engine -> Prop) : accounts e s ->
  (forall i, 0 <= i < max_of s dir -> present s dir i) ->
  (forall s' i en, engine_of s' dir i = Some en -> magic_of en = MAGIC_ENGINE -> accounts e s' ->
     total (body i) s' (fun _ => eng_post e dir i s' P)) ->
  total (each_engine dir body) s (fun _ s' => accounts e s' /\ eng_rest s s' /\ (forall d, max_of s' d = max_of s d) /\
    (forall d j, d <> dir \/ ~ 0 <= j < max_of s dir -> engine_of s' d j = engine_of s d j) /\
    forall j en', 0 <= j < max_of s dir -> engine_of s' dir j = Some en' ->
      engine_of s dir j = Some en' /\ magic_of en' <> MAGIC_ENGINE \/ P en').
Proof.
  intros He Hp Hbody. apply total_bind, total_dev. fold (max_of s dir).
  apply (total_for_n (fun i s' => accounts e s' /\ eng_rest s s' /\ (forall d, max_of s' d = max_of s d) /\
    (forall d j, d <> dir \/ ~ 0 <= j < i -> engine_of s' d j = engine_of s d j) /\
    forall j en', 0 <= j < i -> engine_of s' dir j = Some en' ->
      engine_of s dir j = Some en' /\ magic_of en' <> MAGIC_ENGINE \/ P en')).
  - split_and!; [done | apply eng_rest_refl | done | done | intros; lia].
  - intros i s1 Hi (A1 & R1 & M1 & O1 & P1). destruct (present_engine s dir i) as [en E]; [apply Hp; lia |].
    assert (E1 : engine_of s1 dir i = Some en) by (rewrite O1; [done | right; lia]).
    apply total_bind. eapply total_get_engine; [exact E1 |]. fold (magic_of en).
    destruct (magic_of en =? MAGIC_ENGINE) eqn:Em.
    + eapply total_weaken; [| apply (Hbody s1 i en); [done | lia | done]]. intros [] s2 (A2 & K2 & en2 & E2 & P2).
      pose proof K2 as (_ & _ & M2 & O2). split_and!; [done | eapply eng_rest_trans; [done | by eapply eng_keep_rest] | | |].
      * intros d. by rewrite M2.
      * intros d j Hj. rewrite O2; [apply O1; destruct Hj; [by left | right; lia] |]. intros [= -> ->]. destruct Hj; [done | lia].
      * intros j en' Hj E'. destruct (decide (j = i)) as [-> | Hne]; [right; congruence |].
        rewrite O2 in E' by congruence. apply (P1 j); [lia | done].
    + apply total_ret. split_and!; [done .. | | ].
      * intros d j Hj. apply O1. destruct Hj; [by left | right; lia].
      * intros j en' Hj E'. destruct (decide (j = i)) as [-> | Hne]; [| apply (P1 j); [lia | done]].
        rewrite E1 in E'. injection E' as <-. left. split; [done | lia].
  - intros s1 (A1 & R1 & M1 & O1 & P1). destruct (decide (0 <= max_of s dir)) as [Hm | Hm].
    + rewrite Z.add_0_l, Z2Nat.id in * by done. split_and!; done.
    + split_and!; [done .. | intros d j Hj; apply O1; lia | intros; lia].
Qed.

Lemma remove_engines_ok e s : accounts e s -> engs s ->
  total remove_engines s (fun _ s' => accounts e s' /\ eng_rest s s' /\ forall dir i en, engine_of s' dir i = Some en -> bare en).
Proof.
  intros He (Hmax & Hp & Hb). mstep (apply (each_engine_ok e s DMA_TO_DEVICE _ bare He)).
  2: { intros i Hi. apply Hp. pose proof (Hmax DMA_TO_DEVICE). lia. }
  2: { intros s' i en E _ A. by apply (engine_destroy_ok e s' _ _ en). }
  intros [] s1 (A1 & R1 & M1 & O1 & B1).
  eapply total_weaken; [| apply (each_engine_ok e s1 DMA_FROM_DEVICE _ bare A1)].
  2: { intros i Hi. rewrite M1 in Hi. unfold present, line_of. rewrite O1 by by left. apply Hp. pose proof (Hmax DMA_FROM_DEVICE). lia. }
  2: { intros s' i en E _ A. by apply (engine_destroy_ok e s' _ _ en). }
  intros [] s2 (A2 & R2 & M2 & O2 & B2). split_and!; [done | by eapply eng_rest_trans |].
  assert (Hlow : forall d j en, engine_of s d j = Some en -> magic_of en <> MAGIC_ENGINE \/ ~ 0 <= j < max_of s d -> bare en).
  { intros d j en E H. pose proof (getz_Some_range _ _ _ E). destruct (Hb _ _ _ E) as [? | [? ?]]; [done |]. destruct H; [done | lia]. }
  intros [] j en E.
  - rewrite O2 in E by by left. destruct (decide (0 <= j < max_of s DMA_TO_DEVICE)) as [Hj | Hj].
    + destruct (B1 _ _ Hj E) as [[? ?] | ?]; [| done]. eapply Hlow; [done | by left].
    + rewrite O1 in E by by right. eapply Hlow; [done | by right].
  - destruct (decide (0 <= j < max_of s1 DMA_FROM_DEVICE)) as [Hj | Hj].
    + destruct (B2 _ _ Hj E) as [[E' ?] | ?]; [| done]. rewrite O1 in E' by by left. eapply Hlow; [done | by left].
    + rewrite O2 in E by by right. rewrite M1 in Hj. rewrite O1 in E by by left. eapply Hlow; [done | by right].
Qed.

End Engines.
