(* ===== verification/XdmaIrqs.v ===== *)
(** * Requesting and freeing the interrupts

    Whatever the set-up reached, the teardown frees every interrupt the device
    still holds. *)

From Stdlib Require Import ZArith Lia Bool.
From S2P Require Import Prelude.
From S2P Require Import Mmio.
From S2P Require Import Kernel.
From S2P Require Import XdmaEngine.
From S2P Require Import XdmaDev.
From S2P Require Import XdmaBars.
From S2P Require Import XdmaEngines.

Section Irqs.
Context {K : Type} `{!Device K} `{!PciApi K}.
Implicit Types (s : xs K) (d : dma_direction) (e : pci_resource -> Z) (en : dev_engine) (P : Z -> irq_cookie -> Prop).

Definition is_irq (x : pci_resource) : bool := match x with Irq _ _ => true | _ => false end.
Definition others_same e e' : Prop := forall x, is_irq x = false -> e' x = e x.

(** The interrupts held besides are among [P], once each. *)
Definition within P e : Prop := forall l c, e (Irq l c) = 0 \/ (e (Irq l c) = 1 /\ P l c).

Lemma within_weaken (P Q : Z -> irq_cookie -> Prop) e : (forall l c, P l c -> Q l c) -> within P e -> within Q e.
Proof. intros H Hw l c. destruct (Hw l c) as [? | [? ?]]; [by left | right; auto]. Qed.

Lemma within_unbump P e l c : within P e -> within (fun l' c' => P l' c' /\ ~ (l' = l /\ c' = c)) (unbump (Irq l c) e).
Proof.
  intros Hw l' c'. unfold unbump. destruct (Hw l' c') as [H | [H HP]].
  - left. case_decide as Hd; [| done]. destruct Hd as [[= -> ->] ?]. lia.
  - case_decide as Hd; [destruct Hd as [[= -> ->] ?]; left; lia |]. right. split; [done |]. split; [done |].
    intros [-> ->]. apply Hd. split; [done | lia].
Qed.

Lemma within_bump P e l c : within P e -> (forall l', ~ P l' c) ->
  within (fun l' c' => P l' c' \/ (l' = l /\ c' = c)) (bump (Irq l c) e).
Proof.
  intros Hw Hn l' c'. unfold bump. case_decide as Hd.
  - injection Hd as <- <-. destruct (Hw l c) as [H | [H HP]]; [right; split; [lia | by right] | by destruct (Hn l)].
  - destruct (Hw l' c') as [H | [H HP]]; [left; lia | right; split; [lia | by left]].
Qed.

Lemma others_unbump e l c : others_same e (unbump (Irq l c) e).
Proof. intros x Hx. unfold unbump. case_decide as H; [| done]. destruct H as [<- ?]. done. Qed.
Lemma others_bump e l c : others_same e (bump (Irq l c) e).
Proof. intros x Hx. unfold bump. case_decide; [by subst | lia]. Qed.
Lemma others_trans e1 e2 e3 : others_same e1 e2 -> others_same e2 e3 -> others_same e1 e3.
Proof. intros H1 H2 x Hx. by rewrite H2, H1. Qed.

(** The device record is as it was. *)
Definition still s s' : Prop := near s s' /\ xs_dev s' = xs_dev s.
Lemma still_trans s1 s2 s3 : still s1 s2 -> still s2 s3 -> still s1 s3.
Proof. intros [H1 E1] [H2 E2]. split; [by eapply near_trans | congruence]. Qed.

Lemma free_irq_ok P e s l c : accounts e s -> within P e ->
  total (free_irq l c) s (fun _ s' => still s s' /\ accounts (unbump (Irq l c) e) s' /\
    within (fun l' c' => P l' c' /\ ~ (l' = l /\ c' = c)) (unbump (Irq l c) e)).
Proof.
  intros He Hw. apply total_bind, total_modify, total_give; [by right |]. intros s' Ed Hn Hr.
  split_and!; [done | | by apply within_unbump]. eapply released_extra; [| exact Ed | exact Hr | done]. exact He.
Qed.

Lemma request_irq_ok P e s l h c : accounts e s -> within P e -> (forall l', ~ P l' c) ->
  total (request_irq l h c) s (fun rv s' => still s s' /\ rv <= 0 /\
    (rv <> 0 -> exists k, fst (pci_acquire (Irq l c) k) <> 0) /\
    exists e', others_same e e' /\ accounts e' s' /\
      within (fun l' c' => P l' c' \/ (rv = 0 /\ l' = l /\ c' = c)) e').
Proof.
  intros He Hw Hn. unfold request_irq. mstep (apply total_eq).
  2: { eapply (total_take _ _ _ (fun rv s' => still s s' /\ rv <= 0 /\ accounts (if rv =? 0 then bump (Irq l c) e else e) s')); [done |].
       intros rv k Hrv Hk. by split_and!. }
  intros rv s1 [(Hs1 & Hrv & Hacc) Erun].
  assert (Hfail : rv <> 0 -> exists k, fst (pci_acquire (Irq l c) k) <> 0).
  { intros H. exists (xs_hw s). unfold take, hw_ret in Erun. destruct (pci_acquire _ _). injection Erun as -> _. done. }
  destruct (rv =? 0) eqn:Er.
  - apply total_bind, total_modify, total_ret. split_and!; [done .. |]. exists (bump (Irq l c) e).
    split_and!; [apply others_bump | exact Hacc |]. eapply within_weaken; [| by apply within_bump].
    intros l' c' [? | [-> ->]]; [by left | right; split_and!; [lia | done | done]].
  - apply total_bind, total_ret, total_ret. split_and!; [done .. |]. exists e. split_and!; [done | done |].
    eapply within_weaken; [| exact Hw]. by left.
Qed.

(** ** Teardown *)

(** What an operation that only frees interrupts leaves. *)
Definition freed P e s s' : Prop := still s s' /\ exists e', others_same e e' /\ accounts e' s' /\ within P e'.

Lemma freed_from P e e1 s s1 s2 : still s s1 -> others_same e e1 -> freed P e1 s1 s2 -> freed P e s s2.
Proof.
  intros Hs Ho (Hs2 & e2 & Ho2 & Ha2 & Hw2). split; [by eapply still_trans |]. exists e2.
  split_and!; [by eapply others_trans | done | done].
Qed.

Lemma freed_then {A} P P' e s s1 (m : st (xs K) A) : freed P e s s1 ->
  (forall e1, accounts e1 s1 -> within P e1 -> total m s1 (fun _ => freed P' e1 s1)) ->
  total m s1 (fun _ => freed P' e s).
Proof.
  intros (Hs & e1 & Ho & Ha & Hw) Hm. eapply total_weaken; [| by eapply Hm].
  intros ? s2. by apply freed_from.
Qed.

Lemma freed_weaken (P Q : Z -> irq_cookie -> Prop) e s s' : (forall l c, P l c -> Q l c) -> freed P e s s' -> freed Q e s s'.
Proof. intros H (Hs & e' & Ho & Ha & Hw). split; [done |]. exists e'. split_and!; [done .. | by eapply within_weaken]. Qed.

Lemma free_irq_freed P e s l c : accounts e s -> within P e ->
  total (free_irq l c) s (fun _ => freed (fun l' c' => P l' c' /\ ~ (l' = l /\ c' = c)) e s).
Proof.
  intros He Hw. eapply total_weaken; [| by apply free_irq_ok]. intros [] s' (Hs & Ha & Hw').
  split; [done |]. eexists. split_and!; [apply others_unbump | done | done].
Qed.

Lemma freed_refl P e s : accounts e s -> within P e -> freed P e s s.
Proof. intros He Hw. split; [done |]. by exists e. Qed.

Lemma line_of_still s s' d i : still s s' -> line_of s' d i = line_of s d i.
Proof. intros [_ E]. unfold line_of, engine_of. by rewrite E. Qed.

Lemma release_channels_ok d n : forall P e s i, accounts e s -> within P e ->
  (forall j, i <= j < i + Z.of_nat n -> present s d j) ->
  (forall l j, P l (ForEngine (d, j)) -> line_of s d j = Some l /\ forall j', i <= j' <= j -> line_of s d j' <> Some 0) ->
  total (release_channels d n i) s (fun _ => freed (fun l c =>
    P l c /\ forall j, c = ForEngine (d, j) -> ~ i <= j < i + Z.of_nat n) e s).
Proof.
  induction n as [| n IH]; intros P e s i He Hw Hp HP; cbn [release_channels].
  { apply total_ret, freed_refl; [done |]. eapply within_weaken; [| exact Hw]. intros l c H. split; [done | lia]. }
  destruct (present_engine s d i) as [en E]; [apply Hp; lia |].
  assert (El : line_of s d i = Some (de_line en)) by (unfold line_of; by rewrite E).
  apply total_bind. eapply total_get_engine; [done |]. destruct (de_line en =? 0) eqn:E0.
  - apply total_ret, freed_refl; [done |]. eapply within_weaken; [| exact Hw]. intros l c H. split; [done |].
    intros j -> Hj. destruct (HP _ _ H) as [_ Hz]. apply (Hz i); [lia |]. rewrite El. f_equal. lia.
  - mstep (by apply free_irq_freed). intros [] s1 H1. pose proof H1 as [Hs1 _].
    eapply freed_then; [exact H1 |]. intros e1 He1 Hw1. eapply total_weaken; [| apply (IH _ e1 s1 (i + 1) He1 Hw1)].
    + intros [] s2. apply freed_weaken. intros l c ((HPl & Hne) & Hj). split; [done |]. intros j -> Hj'.
      destruct (decide (j = i)) as [-> | Hji]; [| apply (Hj j); [done | lia]].
      apply Hne. split; [| done]. destruct (HP _ _ HPl) as [HPe _]. congruence.
    + intros j Hj. unfold present. rewrite (line_of_still _ _ _ _ Hs1). apply Hp. lia.
    + intros l j [HPl _]. destruct (HP _ _ HPl) as [HPe Hz]. rewrite (line_of_still _ _ _ _ Hs1). split; [done |].
      intros j' Hj'. rewrite (line_of_still _ _ _ _ Hs1). apply Hz. lia.
Qed.

Definition user_max s : Z := i_user_max (xd_irqs (xs_dev s)).
Definition msix s : bool := i_msix (xd_irqs (xs_dev s)).
Definition user_line s (i : Z) : Z := vector (max_of s DMA_TO_DEVICE + max_of s DMA_FROM_DEVICE + i).

(** The interrupts the device may have, by its record: those of the engines up to
    the first without a line, and all the user ones; or its own. *)
Definition own_irq s (l : Z) (c : irq_cookie) : Prop :=
  match c with
  | ForEngine (d, i) => msix s = true /\ 0 <= i < max_of s d /\ line_of s d i = Some l /\
      forall j, 0 <= j <= i -> line_of s d j <> Some 0
  | ForUser i => msix s = true /\ 0 <= i < user_max s /\ l = user_line s i
  | ForDevice => msix s = false /\ l = i_line (xd_irqs (xs_dev s)) /\ l <> -1
  end.

Lemma user_teardown_ok P e s n : accounts e s -> within P e ->
  (forall l i, P l (ForUser i) -> l = user_line s i) ->
  total (for_n n 0 (fun i => v ← user_vector i; free_irq v (ForUser i))) s
    (fun _ => freed (fun l c => P l c /\ forall i, c = ForUser i -> ~ 0 <= i < Z.of_nat n) e s).
Proof.
  intros He Hw HP. apply (total_for_n (fun k => freed (fun l c => P l c /\ forall i, c = ForUser i -> ~ 0 <= i < k) e s)).
  - apply freed_refl; [done |]. eapply within_weaken; [| exact Hw]. intros l c H. split; [done | lia].
  - intros k s1 Hk H1. pose proof H1 as [[_ Ed] _]. apply total_bind, total_bind, total_dev, total_ret. rewrite Ed.
    fold (max_of s DMA_TO_DEVICE) (max_of s DMA_FROM_DEVICE) (user_line s k).
    eapply freed_then; [exact H1 |]. intros e1 He1 Hw1. eapply total_weaken; [| by apply free_irq_freed].
    intros [] s2. apply freed_weaken. intros l c [[H3 H4] Hne]. split; [done |]. intros i -> Hi.
    destruct (decide (i = k)) as [-> | Hik]; [apply Hne; split; [by apply HP | done] | apply (H4 i); [done | lia]].
  - intros s1. by rewrite Z.add_0_l.
Qed.

Lemma config_io_freed {A} P e s (f : Z -> xdma_dev -> io K A) : accounts e s -> within P e -> mapped s ->
  (forall bar, quiet (f bar (xs_dev s)) (fun _ => True)) ->
  total (bar ← config_bar; dev ← get_dev; io_st (f bar dev)) s (fun _ => freed P e s).
Proof.
  intros He Hw [bar Hm] Hf. apply total_bind. eapply total_config_bar; [exact Hm |]. apply total_bind, total_dev.
  eapply total_io; [apply Hf | done |]. intros a k _ Hk. split; [done |]. by exists e.
Qed.

Lemma prog_channel_freed P e s clear : accounts e s -> within P e -> mapped s -> total (prog_channel clear) s (fun _ => freed P e s).
Proof. intros. apply (config_io_freed P e s (fun bar dev => _)); try done. intros bar. apply quiet_prog_vectors. lia. Qed.
Lemma prog_user_freed P e s clear : accounts e s -> within P e -> mapped s -> total (prog_user clear) s (fun _ => freed P e s).
Proof. intros. apply (config_io_freed P e s (fun bar dev => _)); try done. intros bar. apply quiet_prog_vectors. lia. Qed.

Lemma own_still s s' : still s s' -> forall l c, own_irq s' l c <-> own_irq s l c.
Proof.
  intros [_ E] l c. unfold own_irq, msix, max_of, line_of, engine_of, user_max, user_line, max_of. by rewrite E.
Qed.
Lemma mapped_still s s' : still s s' -> mapped s -> mapped s'.
Proof. intros [_ E] [bar H]. exists bar. unfold bar_of, cfg. by rewrite E. Qed.

Lemma channel_teardown_ok e s : accounts e s -> within (own_irq s) e -> mapped s -> engs s -> xs_tsk s = true -> msix s = true ->
  total irq_msix_channel_teardown s (fun _ => freed (fun l c => own_irq s l c /\ forall d j, c <> ForEngine (d, j)) e s).
Proof.
  intros He Hw Hm (Hmax & Hp & _) Ht Hx. unfold irq_msix_channel_teardown.
  apply total_bind, total_dev. fold (msix s). rewrite Hx. cbn [negb].
  change (g_h2c_max _) with (max_of s DMA_TO_DEVICE). change (g_c2h_max _) with (max_of s DMA_FROM_DEVICE).
  pose proof (Hmax DMA_TO_DEVICE) as Hm1. pose proof (Hmax DMA_FROM_DEVICE) as Hm2.
  mstep (by apply prog_channel_freed). intros [] s1 H1.
  mstep (eapply (freed_then _ (fun l c => own_irq s l c /\ forall j, c <> ForEngine (DMA_TO_DEVICE, j)));
    [exact H1 |]).
  2: { intros e1 A1 W1. destruct H1 as [Hs1 _]. eapply total_weaken; [| apply (release_channels_ok _ _ _ _ _ 0 A1 W1)].
       - intros [] s'. apply freed_weaken. intros l c [Ho Hj]. split; [done |]. intros j ->. apply (Hj j); [done |].
         destruct Ho as (_ & Hr & _). lia.
       - intros j Hj. unfold present. rewrite (line_of_still _ _ _ _ Hs1). apply Hp. lia.
       - intros l j Ho. apply (own_still _ _ Hs1) in Ho as (_ & _ & Hl & Hz). split; [done |]. intros j' Hj'. apply Hz. lia. }
  intros [] s2 H2.
  mstep (eapply (freed_then _ (fun l c => own_irq s l c /\ forall d j, c <> ForEngine (d, j)));
    [exact H2 |]).
  2: { intros e2 A2 W2. destruct H2 as [Hs2 _]. eapply total_weaken; [| apply (release_channels_ok _ _ _ _ _ 0 A2 W2)].
       - intros [] s'. apply freed_weaken. intros l c [[Ho H1'] Hj]. split; [done |]. intros [] j ->; [by eapply H1' |].
         apply (Hj j); [done |]. destruct Ho as (_ & Hr & _). lia.
       - intros j Hj. unfold present. rewrite (line_of_still _ _ _ _ Hs2). apply Hp. lia.
       - intros l j [Ho _]. apply (own_still _ _ Hs2) in Ho as (_ & _ & Hl & Hz). split; [done |]. intros j' Hj'. apply Hz. lia. }
  intros [] s3 H3. apply total_bind, total_get. destruct H3 as [[[Et El] Ed] He3]. rewrite Et, Ht. apply total_ret.
  split; [by split | done].
Qed.

Lemma irq_teardown_ok e s : accounts e s -> within (own_irq s) e -> mapped s -> engs s -> (msix s = true -> xs_tsk s = true) ->
  total irq_teardown s (fun _ => freed (fun _ _ => False) e s).
Proof.
  intros He Hw Hm Hg Ht. apply total_bind, total_dev. fold (msix s). destruct (msix s) eqn:Hx.
  - mstep (apply (channel_teardown_ok e s); auto). intros [] s1 H1.
    pose proof H1 as [Hs1 _]. pose proof Hs1 as [_ Ed]. eapply freed_then; [exact H1 |]. intros e1 A1 W1.
    unfold irq_msix_user_teardown. apply total_bind, total_dev. rewrite Ed. fold (msix s). rewrite Hx. cbn [negb].
    mstep (apply (prog_user_freed _ e1 s1 true A1 W1); by eapply mapped_still).
    intros [] s2 H2. pose proof H2 as [Hs2 _]. eapply freed_then; [exact H2 |]. intros e2 A2 W2.
    eapply total_weaken; [| apply (user_teardown_ok _ e2 s2 _ A2 W2)].
    + intros [] s3. apply freed_weaken. intros l [|[d j]|i] [[Ho Hne] Hu].
      * destruct Ho as [? _]. congruence.
      * by eapply Hne.
      * destruct Ho as (_ & Hi & _). apply (Hu i); [done |]. fold (user_max s). lia.
    + intros l i [(_ & _ & Hl) _]. pose proof (still_trans _ _ _ Hs1 Hs2) as [_ E]. unfold user_line, max_of in *. by rewrite E.
  - destruct (i_line (xd_irqs (xs_dev s)) =? -1) eqn:El; cbn [negb].
    + apply total_ret, freed_refl; [done |]. eapply within_weaken; [| exact Hw].
      intros l [|[d j]|i] Ho; [destruct Ho as (_ & ? & ?); lia | destruct Ho as [? _]; congruence ..].
    + eapply total_weaken; [| by apply free_irq_freed]. intros [] s'. apply freed_weaken.
      intros l [|[d j]|i] [Ho Hne]; [destruct Ho as (_ & ? & ?); tauto | destruct Ho as [? _]; congruence ..].
Qed.

(** ** Set-up *)

Definition some_irq_fails : Prop := exists l c (k : K), fst (pci_acquire (Irq l c) k) <> 0.

(** Only lines change: those of the engines, and the device's own. *)
Definition irq_rest s s' : Prop :=
  xs_list s' = xs_list s /\ (exists g ln, xs_dev s' = set_engines g (upd_irqs (set_line ln) (xs_dev s))) /\
  (forall d, max_of s' d = max_of s d) /\
  forall d i, de_engine <$> engine_of s' d i = de_engine <$> engine_of s d i.

Lemma irq_rest_still s s' : still s s' -> irq_rest s s'.
Proof.
  intros [[_ El] E]. split_and!; [done | | intros d; unfold max_of; by rewrite E | intros d i; unfold engine_of; by rewrite E].
  exists (xd_engines (xs_dev s)), (i_line (xd_irqs (xs_dev s))). rewrite E. by destruct (xs_dev s) as [? []].
Qed.
Lemma irq_rest_trans s1 s2 s3 : irq_rest s1 s2 -> irq_rest s2 s3 -> irq_rest s1 s3.
Proof.
  intros (L1 & (g1 & l1 & E1) & M1 & D1) (L2 & (g2 & l2 & E2) & M2 & D2). split_and!.
  - congruence.
  - exists g2, l2. by rewrite E2, E1.
  - intros d. by rewrite M2.
  - intros d i. by rewrite D2.
Qed.
Lemma irq_rest_mapped s s' : irq_rest s s' -> mapped s -> mapped s'.
Proof. intros (_ & (g & l & E) & _) [bar H]. exists bar. unfold bar_of, cfg in *. by rewrite E. Qed.
Lemma irq_rest_engine s s' d i en : irq_rest s s' -> engine_of s' d i = Some en ->
  exists en0, engine_of s d i = Some en0 /\ de_engine en = de_engine en0.
Proof.
  intros (_ & _ & _ & D) E. specialize (D d i). rewrite E in D. destruct (engine_of s d i) as [en0 |]; [| done].
  exists en0. split; [done |]. by injection D.
Qed.
Lemma irq_rest_present s s' d i : irq_rest s s' -> present s d i -> present s' d i.
Proof.
  intros (_ & _ & _ & D) [l H]. specialize (D d i). unfold present, line_of in *.
  destruct (engine_of s' d i), (engine_of s d i); done.
Qed.
Lemma irq_rest_engs s s' : irq_rest s s' -> engs s -> engs s'.
Proof.
  intros Hr (Hmax & Hp & Hb). pose proof Hr as (_ & _ & M & _). split_and!.
  - intros d. rewrite M. apply Hmax.
  - intros d i Hi. eapply irq_rest_present; [done | by apply Hp].
  - intros d i en E. destruct (irq_rest_engine _ _ _ _ _ Hr E) as (en0 & E0 & Ed).
    unfold bare, has, magic_of. rewrite Ed, M. exact (Hb _ _ _ E0).
Qed.

Lemma set_line_ok e s d i en l : accounts e s -> engine_of s d i = Some en ->
  total (put_engine d i (mkDevEngine (de_engine en) l)) s (fun _ s' => irq_rest s s' /\ xs_tsk s' = xs_tsk s /\
    accounts e s' /\ forall d' i', line_of s' d' i' = if decide ((d', i') = (d, i)) then Some l else line_of s d' i').
Proof.
  intros He E. eapply total_weaken; [| by apply (put_same e _ _ s en)].
  intros [] s' (Ha & (Hn & [g Eg] & M & O) & en' & E' & ->). split_and!; [| apply Hn | done |].
  - split_and!; [apply Hn | | done |].
    + exists g, (i_line (xd_irqs (xs_dev s))). rewrite Eg. by destruct (xs_dev s) as [? []].
    + intros d' i'. destruct (decide ((d', i') = (d, i))) as [[= -> ->] | Hne]; [by rewrite E, E' | by rewrite O].
  - intros d' i'. unfold line_of. case_decide as H; [injection H as -> ->; by rewrite E' | by rewrite O].
Qed.

(** The lines of direction [d] from [i] up to [k] are its vectors from [j] on. *)
Definition got_lines d (i k j : Z) s s' : Prop := forall d' i',
  line_of s' d' i' = if decide (d' = d /\ i <= i' < k) then Some (vector (j + (i' - i))) else line_of s d' i'.
Definition got_irqs d (i k j : Z) (P : Z -> irq_cookie -> Prop) (l : Z) (c : irq_cookie) : Prop :=
  P l c \/ exists i', c = ForEngine (d, i') /\ i <= i' < k /\ l = vector (j + (i' - i)).

Lemma got_lines_cons d i k j s s2 s3 : (forall d' i',
    line_of s2 d' i' = if decide ((d', i') = (d, i)) then Some (vector j) else line_of s d' i') ->
  i + 1 <= k -> got_lines d (i + 1) k (j + 1) s2 s3 -> got_lines d i k j s s3.
Proof.
  intros L2 Hk L3 d' i'. rewrite L3, L2. destruct (decide (d' = d)) as [-> | Hd].
  2: { rewrite !decide_False; [done | by intros [? _] | congruence | by intros [? _]]. }
  destruct (decide (i + 1 <= i' < k)) as [Hi | Hi].
  - rewrite !decide_True by (split; [done | lia]). do 2 f_equal. lia.
  - rewrite decide_False by (intros [_ ?]; lia). destruct (decide (i' = i)) as [-> | Hii].
    + rewrite !decide_True by (done || (split; [done | lia])). do 2 f_equal. lia.
    + rewrite !decide_False; [done | intros [_ ?]; lia | congruence].
Qed.

Lemma handler_some d i : 0 <= i < 2 -> exists h, channel_handler d i = Some h.
Proof. intros Hi. assert (i = 0 \/ i = 1) as [-> | ->] by lia; destruct d; by eexists. Qed.

Lemma request_channels_ok d n : forall P e s i j, accounts e s -> within P e -> 0 <= i -> i + Z.of_nat n <= 2 ->
  (forall j', 0 <= j' < 2 -> present s d j') -> (forall l i', P l (ForEngine (d, i')) -> i' < i) ->
  total (request_channels d n i j) s (fun rv s' => irq_rest s s' /\ xs_tsk s' = xs_tsk s /\ rv <= 0 /\
    (rv <> 0 -> some_irq_fails) /\ exists e' k, others_same e e' /\ accounts e' s' /\ i <= k <= i + Z.of_nat n /\
      got_lines d i k j s s' /\ within (got_irqs d i k j P) e').
Proof.
  induction n as [| n IH]; intros P e s i j He Hw H0 Hn Hp HP; cbn [request_channels].
  { apply total_ret. split_and!; [by apply irq_rest_still | done | done | done |]. exists e, i.
    split_and!; [done | done | lia | lia | |].
    - intros d' i'. rewrite decide_False by lia. done.
    - eapply within_weaken; [| exact Hw]. by left. }
  destruct (present_engine s d i) as [en E]; [apply Hp; lia |].
  apply total_bind. eapply total_get_engine; [done |]. destruct (handler_some d i) as [h ->]; [lia |].
  mstep (apply (request_irq_ok P e s); [done | done |]).
  2: { intros l' Hl'. apply HP in Hl'. lia. }
  intros rv s1 (Hs1 & Hrv & Hf & e1 & Ho1 & Ha1 & Hw1). pose proof Hs1 as [[Ht1 _] Ed1]. destruct (rv =? 0) eqn:Er; cbn [negb].
  - assert (E1 : engine_of s1 d i = Some en) by (unfold engine_of; by rewrite Ed1).
    mstep (by apply (set_line_ok e1 s1 d i en)). intros [] s2 (R2 & Ht2 & A2 & L2).
    pose proof (irq_rest_trans _ _ _ (irq_rest_still _ _ Hs1) R2) as R12.
    eapply total_weaken; [| apply (IH _ e1 s2 (i + 1) (j + 1) A2 Hw1); [lia | lia | |]].
    + intros rv' s3 (R3 & Ht3 & Hrv3 & Hf3 & e3 & k & Ho3 & A3 & Hk & L3 & W3). split_and!; [by eapply irq_rest_trans | congruence | done | done |].
      exists e3, k. split_and!; [by eapply others_trans | done | lia | lia | |].
      * eapply got_lines_cons; [| | exact L3]; [| lia]. intros d' i'. by rewrite L2, (line_of_still _ _ _ _ Hs1).
      * eapply within_weaken; [| exact W3]. intros l c [[HPl | (_ & -> & ->)] | (i' & -> & Hi' & ->)]; [by left | right | right].
        -- exists i. split_and!; [done | lia | lia | f_equal; lia].
        -- exists i'. split_and!; [done | lia | lia | f_equal; lia].
    + intros j' Hj'. eapply irq_rest_present; [exact R12 | by apply Hp].
    + intros l i' [HPl | (_ & _ & [= ->])]; [apply HP in HPl; lia | lia].
  - apply total_ret. split_and!; [by apply irq_rest_still | done | done | |].
    + intros H. destruct (Hf H) as [k Hk]. by exists (vector j), (ForEngine (d, i)), k.
    + exists e1, i. split_and!; [done | done | lia | lia | |].
      * intros d' i'. rewrite decide_False by lia. by apply line_of_still.
      * eapply within_weaken; [| exact Hw1]. intros l c [? | (? & _)]; [by left | lia].
Qed.

(** The user interrupts below [n], besides [P]. *)
Definition with_users s (n : Z) P (l : Z) (c : irq_cookie) : Prop :=
  P l c \/ exists i, c = ForUser i /\ 0 <= i < n /\ l = user_line s i.
Definition no_users P : Prop := forall l i, ~ P l (ForUser i).

Lemma user_line_still s s' i : still s s' -> user_line s' i = user_line s i.
Proof. intros [_ E]. unfold user_line, max_of. by rewrite E. Qed.

Lemma total_user_vector s i (Q : Z -> xs K -> Prop) : Q (user_line s i) s -> total (user_vector i) s Q.
Proof. done. Qed.

Lemma free_users_below_ok P e s n : accounts e s -> within (with_users s (Z.of_nat n) P) e -> no_users P ->
  total (free_users_below n) s (fun _ => freed P e s).
Proof.
  revert e s. induction n as [| n IH]; intros e s He Hw HP; cbn [free_users_below].
  { apply total_ret, freed_refl; [done |]. eapply within_weaken; [| exact Hw]. intros l c [? | (i & _ & ? & _)]; [done | lia]. }
  apply total_bind, total_user_vector, total_bind. eapply total_weaken; [| by apply free_irq_freed].
  intros [] s1 H1. pose proof H1 as [Hs1 _]. eapply freed_then; [exact H1 |]. intros e1 A1 W1.
  apply IH; [done | | done]. eapply within_weaken; [| exact W1].
  intros l c [[HPl | (i & -> & Hi & ->)] Hne]; [by left | right]. exists i.
  split_and!; [done | lia | | symmetry; by apply user_line_still].
  destruct (decide (i = Z.of_nat n)) as [-> | ?]; [exfalso; by apply Hne | lia].
Qed.

Lemma user_handler_some i : 0 <= i < 16 -> exists h, user_handler i = Some h.
Proof.
  intros Hi. unfold user_handler. repeat (case_match; [by eexists |]).
  rewrite (proj2 (Z.leb_le 0 i)), (proj2 (Z.leb_le i 15)) in * by lia. done.
Qed.

Lemma request_users_ok P n : forall e s i, accounts e s -> within (with_users s i P) e -> no_users P ->
  0 <= i -> i + Z.of_nat n <= 16 ->
  total (request_users n i) s (fun rv s' => rv <= 0 /\
    if decide (rv = 0) then freed (with_users s (i + Z.of_nat n) P) e s s' else freed P e s s').
Proof.
  induction n as [| n IH]; intros e s i He Hw HP H0 Hn; cbn [request_users].
  { apply total_ret. split; [done |]. apply freed_refl; [done |]. by rewrite Z.add_0_r. }
  apply total_bind, total_user_vector. destruct (user_handler_some i) as [h ->]; [lia |].
  mstep (apply (request_irq_ok _ e s _ _ _ He Hw)).
  2: { intros l' [HPl | (i' & [= ->] & ? & _)]; [by eapply HP | lia]. }
  intros rv s1 (Hs1 & Hrv & _ & e1 & Ho1 & Ha1 & Hw1). destruct (rv =? 0) eqn:Er; cbn [negb].
  - assert (H1 : freed (with_users s1 (i + 1) P) e s s1).
    { split; [done |]. exists e1. split_and!; [done .. |]. eapply within_weaken; [| exact Hw1].
      intros l c [[? | (i' & -> & ? & ->)] | (_ & -> & ->)]; [by left | right; exists i' | right; exists i];
        (split_and!; [done | lia | lia | symmetry; by apply user_line_still]). }
    destruct H1 as (_ & e1' & Ho1' & Ha1' & Hw1').
    eapply total_weaken; [| apply (IH e1' s1 (i + 1)); [done | done | done | lia | lia]].
    intros rv' s2 [Hrv' H2]. split; [done |]. case_decide.
    + eapply freed_weaken; [| by eapply freed_from]. intros l c [? | (i' & -> & ? & ->)]; [by left | right; exists i'].
      split_and!; [done | lia | lia | by apply user_line_still].
    + by eapply freed_from.
  - mstep (apply (free_users_below_ok P e1 s1); [done | | done]).
    + intros [] s2 H2. apply total_ret. split; [done |]. rewrite decide_False by lia.
      by eapply freed_from.
    + eapply within_weaken; [| exact Hw1]. rewrite Z2Nat.id by lia.
      intros l c [[? | (i' & -> & ? & ->)] | (? & _)]; [by left | right; exists i' | lia].
      split_and!; [done | lia | lia | symmetry; by apply user_line_still].
Qed.

(** A vector is a line. *)
Lemma vector_set j : vector j <> 0.
Proof. apply pci_irq_vector_set. Qed.

Lemma irq_rest_msix s s' : irq_rest s s' -> msix s' = msix s /\ user_max s' = user_max s /\ forall i, user_line s' i = user_line s i.
Proof.
  intros (_ & (g & l & E) & M & _). split_and!; [by unfold msix; rewrite E | by unfold user_max; rewrite E |].
  intros i. unfold user_line. by rewrite !M.
Qed.

(** The lines of one direction that were requested are its own. *)
Lemma lines_own s' d k j : msix s' = true -> k <= max_of s' d ->
  (forall i, 0 <= i < k -> line_of s' d i = Some (vector (j + i))) ->
  forall l c, got_irqs d 0 k j (fun _ _ => False) l c -> own_irq s' l c.
Proof.
  intros Hx Hk Hl l c [[] | (i & -> & Hi & ->)]. rewrite Z.sub_0_r. split_and!; [done | lia | lia | by apply Hl |].
  intros i' Hi'. rewrite Hl by lia. intros [= H]. by apply (vector_set (j + i')).
Qed.

Definition only_irqs e e' : Prop := forall x, is_irq x = false -> x <> Tasklet -> e' x = e x.
Lemma only_others e e' : others_same e e' -> only_irqs e e'.
Proof. intros H x Hx _. by apply H. Qed.
Lemma only_trans e1 e2 e3 : only_irqs e1 e2 -> only_irqs e2 e3 -> only_irqs e1 e3.
Proof. intros H1 H2 x Hx Ht. by rewrite H2, H1. Qed.

Definition no_irqs : Z -> irq_cookie -> Prop := fun _ _ => False.
Definition engine_irq (c : irq_cookie) : Prop := match c with ForEngine _ => True | _ => False end.
(** What the set-up leaves: at most what the record says, of the engines only
    while the user interrupts are not requested. *)
Definition set_up e s (rv : Z) s' : Prop :=
  irq_rest s s' /\ rv <= 0 /\ (rv = 0 -> xs_tsk s' = true) /\ (rv <> 0 -> some_irq_fails /\ xs_tsk s' = xs_tsk s) /\
  exists e', only_irqs e e' /\ accounts e' s' /\ within (fun l c => own_irq s' l c /\ engine_irq c) e'.

Lemma new_tasklet_ok e s : (forall k : K, fst (pci_acquire Tasklet k) = 0) -> accounts e s ->
  total new_tasklet s (fun _ s' => accounts (bump Tasklet e) s' /\ xs_dev s' = xs_dev s /\ xs_list s' = xs_list s /\ xs_tsk s' = true).
Proof.
  intros Hz He. mstep (apply total_eq).
  2: { eapply (total_take _ _ _ (fun rv s' => accounts (if rv =? 0 then bump Tasklet e else e) s' /\ still s s')); [done |].
       intros rv k _ Hk. by split. }
  intros rv s1 [[Ha [[Ht Hl] Ed]] Er]. assert (rv = 0) as ->.
  { unfold take, hw_ret in Er. specialize (Hz (xs_hw s)). destruct (pci_acquire Tasklet (xs_hw s)). cbn in Hz. congruence. }
  apply total_bind, total_modify, total_ret. split_and!; [exact Ha | exact Ed | exact Hl | done].
Qed.

Lemma channel_setup_ok e s : (forall k : K, fst (pci_acquire Tasklet k) = 0) ->
  accounts e s -> within no_irqs e -> engs s -> msix s = true ->
  total irq_msix_channel_setup s (set_up e s).
Proof.
  intros Hz He Hw (Hmax & Hp & _) Hx. apply total_bind, total_dev. fold (msix s). rewrite Hx. cbn [negb].
  change (g_h2c_max _) with (max_of s DMA_TO_DEVICE). change (g_c2h_max _) with (max_of s DMA_FROM_DEVICE).
  pose proof (Hmax DMA_TO_DEVICE) as Hm1. pose proof (Hmax DMA_FROM_DEVICE) as Hm2. set (h2c := max_of s DMA_TO_DEVICE) in *.
  mstep (apply (request_channels_ok _ _ no_irqs e s 0 0 He Hw); [done | lia | | by intros l i' []]).
  2: { intros j' Hj'. by apply Hp. }
  intros rv s1 (R1 & T1 & Hrv & Hf1 & e1 & k1 & O1 & A1 & Hk1 & L1 & W1).
  assert (Hl1 : forall i, 0 <= i < k1 -> line_of s1 DMA_TO_DEVICE i = Some (vector (0 + i))).
  { intros i Hi. rewrite L1, decide_True by (split; [done | lia]). do 2 f_equal. lia. }
  pose proof (irq_rest_msix _ _ R1) as (X1 & _ & _). pose proof R1 as (_ & _ & M1 & _).
  destruct (rv =? 0) eqn:Er; cbn [negb].
  2: { apply total_ret. split_and!; [done | done | lia | intros _; split; [apply Hf1; lia | done] |].
       exists e1. split_and!; [by apply only_others | done |]. eapply within_weaken; [| exact W1].
       intros l c Hg. split; [apply (lines_own s1 DMA_TO_DEVICE k1 0); [congruence | rewrite M1; fold h2c; lia | exact Hl1 | exact Hg] |].
       destruct Hg as [[] | (i & -> & _)]. done. }
  mstep (apply (request_channels_ok _ _ _ e1 s1 0 h2c A1 W1); [done | lia | |]).
  2: { intros j' Hj'. eapply irq_rest_present; [exact R1 | by apply Hp]. }
  2: { intros l i' [[] | (? & [= ] & _)]. }
  intros rv2 s2 (R2 & T2 & Hrv2 & Hf2 & e2 & k2 & O2 & A2 & Hk2 & L2 & W2).
  pose proof (irq_rest_trans _ _ _ R1 R2) as R12. pose proof R12 as (_ & _ & M2 & _).
  pose proof (irq_rest_msix _ _ R12) as (X2 & _ & _).
  assert (W2' : within (fun l c => own_irq s2 l c /\ engine_irq c) e2).
  { eapply within_weaken; [| exact W2]. intros l c [Hg | Hg]; (split; [| by destruct Hg as [[] | (i & -> & _)] || by destruct Hg as (i & -> & _)]).
    - apply (lines_own s2 DMA_TO_DEVICE k1 0); [congruence | rewrite M2; fold h2c; lia | | exact Hg].
      intros i Hi. rewrite L2, decide_False by (by intros [? _]). by apply Hl1.
    - apply (lines_own s2 DMA_FROM_DEVICE k2 h2c); [congruence | rewrite M2; lia | | by right].
      intros i Hi. rewrite L2, decide_True by (split; [done | lia]). do 2 f_equal. lia. }
  destruct (rv2 =? 0) eqn:Er2; cbn [negb].
  2: { apply total_ret. split_and!; [done | done | lia | intros _; split; [apply Hf2; lia | congruence] |].
       exists e2. split_and!; [apply only_others; by eapply others_trans | done | done]. }
  mstep (by apply new_tasklet_ok). intros [] s3 (A3 & Ed3 & El3 & T3).
  apply total_ret. split_and!; [| done | done | done |].
  - eapply irq_rest_trans; [exact R12 |]. split_and!; [congruence | | intros d; unfold max_of; by rewrite Ed3 |
      intros d i; unfold engine_of; by rewrite Ed3].
    exists (xd_engines (xs_dev s2)), (i_line (xd_irqs (xs_dev s2))). rewrite Ed3. by destruct (xs_dev s2) as [? []].
  - exists (bump Tasklet e2). split_and!; [| done |].
    + intros x Hx' Ht. unfold bump. rewrite decide_False by done. rewrite Z.add_0_r. by rewrite (O2 x), (O1 x).
    + intros l c. unfold bump. rewrite decide_False by done. rewrite Z.add_0_r. destruct (W2' l c) as [? | [? [Ho ?]]]; [by left | right].
      split_and!; [done | | done]. revert Ho. unfold own_irq, msix, max_of, line_of, engine_of, user_max, user_line, max_of. by rewrite Ed3.
Qed.

(** The set-up as a whole: ready for the teardown. *)
Definition ready e s' : Prop := accounts e s' /\ within (own_irq s') e /\ (msix s' = true -> xs_tsk s' = true).

Lemma request_ready e s l : accounts e s -> within no_irqs e -> msix s = false -> 0 <= l ->
  total (_ ← upd_dev (upd_irqs (set_line l)); request_irq l XdmaIsr ForDevice) s (fun rv s' => rv <= 0 /\
    irq_rest s s' /\ exists e', only_irqs e e' /\ ready e' s').
Proof.
  intros He Hw Hx Hl. apply total_bind, total_upd_dev. set (s1 := set_dev _ s).
  assert (A1 : accounts e s1) by by apply accounts_same.
  assert (R1 : irq_rest s s1).
  { split_and!; [done | | done | done]. exists (xd_engines (xs_dev s)), l. by destruct (xs_dev s). }
  eapply total_weaken; [| apply (request_irq_ok no_irqs e s1); [done | done | by intros l' []]].
  intros rv s2 (Hs2 & Hrv & _ & e2 & O2 & A2 & W2). split; [done |].
  split; [eapply irq_rest_trans; [done | by apply irq_rest_still] |]. exists e2. split; [by apply only_others |].
  assert (X2 : msix s2 = false) by (unfold msix; by rewrite (proj2 Hs2)). split_and!; [done | | congruence].
  eapply within_weaken; [| exact W2]. intros l' c [[] | (_ & -> & ->)]. split_and!; [done | by rewrite (proj2 Hs2) | lia].
Qed.

Lemma legacy_ready e s : accounts e s -> within no_irqs e -> msix s = false -> mapped s ->
  total irq_legacy_setup s (fun rv s' => rv <= 0 /\ irq_rest s s' /\ exists e', only_irqs e e' /\ ready e' s').
Proof.
  intros He Hw Hx [bar Hm]. unfold irq_legacy_setup. apply total_bind.
  apply (total_weaken _ _ (fun _ s' => s' = s)).
  2: { destruct (1 <? _); [by eapply total_config_bar | by apply total_ret]. }
  intros bar' s1 ->. apply total_bind. eapply total_io; [apply quiet_prog_legacy | done |]. intros [] k _ Hk.
  eapply total_weaken; [| apply (request_ready e (set_hw k s) pci_irq Hk Hw); [done | apply pci_irq_nonneg]].
  intros rv s' (Hrv & R & H). split_and!; [done | | done]. eapply irq_rest_trans; [| exact R]. apply irq_rest_still. by split.
Qed.

(** The user interrupts, and the vectors of all of them. *)
Lemma user_setup_ready e e1 s s1 : only_irqs e e1 -> accounts e1 s1 -> mapped s1 -> irq_rest s s1 -> xs_tsk s1 = true ->
  msix s1 = true -> 0 <= user_max s1 <= 16 -> within (fun l c => own_irq s1 l c /\ engine_irq c) e1 ->
  total (rv ← irq_msix_user_setup;
         if negb (rv =? 0) then mret rv else _ ← prog_channel false; _ ← prog_user false; mret 0) s1
    (fun rv s' => rv <= 0 /\ irq_rest s s' /\ exists e', only_irqs e e' /\ ready e' s').
Proof.
  intros O1 A1 Hm R1 T1 X1 Hu W1. set (P := fun l c => own_irq s1 l c /\ engine_irq c).
  assert (Hdone : forall s2 (Q : Z -> irq_cookie -> Prop), freed Q e1 s1 s2 -> (forall l c, Q l c -> own_irq s1 l c) ->
    irq_rest s s2 /\ exists e', only_irqs e e' /\ ready e' s2).
  { intros s2 Q (Hs2 & e2 & O2 & A2 & W2) HQ. split; [eapply irq_rest_trans; [done | by apply irq_rest_still] |].
    exists e2. split; [by eapply only_trans, only_others |]. split_and!; [done | | by rewrite (proj1 (proj1 Hs2))].
    eapply within_weaken; [| exact W2]. intros l c H. apply (own_still _ _ Hs2). by apply HQ. }
  assert (Hall : forall l c, with_users s1 (user_max s1) P l c -> own_irq s1 l c).
  { intros l c [[? _] | (i & -> & Hi & ->)]; [done | split; [exact X1 | split; [exact Hi | done]]]. }
  mstep (apply (request_users_ok P (Z.to_nat (user_max s1)) e1 s1 0); [done | | | done | lia]).
  2: { eapply within_weaken; [| exact W1]. by left. }
  2: { by intros l i [_ []]. }
  rewrite Z.add_0_l, Z2Nat.id by lia. intros rv s2 [Hrv H2]. destruct (rv =? 0) eqn:Er; cbn [negb].
  2: { rewrite decide_False in H2 by lia. apply total_ret. split; [done |]. apply (Hdone s2 P H2). by intros l c [? _]. }
  rewrite decide_True in H2 by lia. set (Q := with_users s1 (user_max s1) P) in *.
  mstep (eapply (freed_then Q Q); [exact H2 |]).
  2: { intros e2 A2 W2. apply prog_channel_freed; [done | done |]. eapply mapped_still; [apply H2 | done]. }
  intros [] s3 H3. mstep (eapply (freed_then Q Q); [exact H3 |]).
  2: { intros e3 A3 W3. apply prog_user_freed; [done | done |]. eapply mapped_still; [apply H3 | done]. }
  intros [] s4 H4. apply total_ret. split; [done |]. by apply (Hdone s4 Q H4).
Qed.

Lemma irq_setup_ok e s : (forall k : K, fst (pci_acquire Tasklet k) = 0) ->
  (msix s = true -> xs_tsk s = true \/ ~ some_irq_fails) ->
  accounts e s -> within no_irqs e -> mapped s -> engs s -> 0 <= user_max s <= 16 ->
  total irq_setup s (fun rv s' => rv <= 0 /\ irq_rest s s' /\ exists e', only_irqs e e' /\ ready e' s').
Proof.
  intros Hz HT He Hw Hm Hg Hu. apply total_bind. eapply total_hw; [apply quiet_intx | done |]. intros k Ha0.
  set (s0 := set_hw k s) in *. assert (R0 : irq_rest s s0) by (apply irq_rest_still; by split).
  apply total_bind, total_dev. fold (msix s0). destruct (msix s0) eqn:Hx.
  - mstep (apply (channel_setup_ok e s0 Hz Ha0 Hw); [exact Hg | done]).
    intros rv s1 (R1 & Hrv & T1 & F1 & e1 & O1 & A1 & W1). pose proof (irq_rest_trans _ _ _ R0 R1) as R01.
    pose proof (irq_rest_msix _ _ R1) as (X1 & U1 & _).
    destruct (rv =? 0) eqn:Er; cbn [negb].
    2: { apply total_ret. destruct F1 as [Hf Ht]; [lia |]. split_and!; [done | done |].
         exists e1. split; [done |]. split; [done |]. split.
         - eapply within_weaken; [| exact W1]. by intros l c [? _].
         - intros _. rewrite Ht. by destruct (HT Hx) as [? | []]. }
    apply (user_setup_ready e e1 s s1); [done | done | by eapply irq_rest_mapped | done | apply T1; lia | congruence | rewrite U1; exact Hu | done].
  - destruct (i_msi _).
    + eapply total_weaken; [| apply (request_ready e s0 pci_irq); [done | done | done | apply pci_irq_nonneg]].
      intros rv s' (Hrv & R & e' & O & Hr). split; [done |]; split; [exact (irq_rest_trans _ _ _ R0 R) | by exists e'].
    + eapply total_weaken; [| by apply (legacy_ready e s0)].
      intros rv s' (Hrv & R & e' & O & Hr). split; [done |]; split; [exact (irq_rest_trans _ _ _ R0 R) | by exists e'].
Qed.

End Irqs.
