(* ===== verification/XdmaLife.v ===== *)
(** * Opening and closing the endpoint

    Opening is atomic, and closing gives back what opening took, whatever
    happened in between. *)

From Stdlib Require Import ZArith Lia Bool.
From S2P Require Import Prelude.
From S2P Require Import Mmio.
From S2P Require Import Kernel.
From S2P Require Import XdmaEngine.
From S2P Require Import XdmaDev.
From S2P Require Import XdmaBars.
From S2P Require Import XdmaEngines.
From S2P Require Import XdmaIrqs.

Definition one (r x : pci_resource) : Z := if decide (r = x) then 1 else 0.

(** Cases on which resource is counted. *)
Ltac ones := unfold one, b2z in *; repeat case_decide; try congruence; try lia.

Section Life.
Context {K : Type} `{!Device K} `{!PciApi K}.
Implicit Types (s : xs K) (d : dma_direction) (e b : pci_resource -> Z) (en : dev_engine).

(** Held before the device was opened: no interrupt of its own. *)
Definition fresh b : Prop := (forall x, 0 <= b x) /\ (forall l c, b (Irq l c) = 0) /\ b MsixVectors = 0.

(** Besides [b]: the device's memory, the enabled function, and the interrupts. *)
Definition books b e s : Prop :=
  (forall x, is_irq x = false -> x <> Tasklet -> x <> MsixVectors -> e x = b x + one DevMemory x + one PciDevice x) /\
  (e MsixVectors = 0 \/ (e MsixVectors = 1 /\ msix s = true)).
Definition settled b e : Prop := forall x, x <> Tasklet -> e x = b x + one DevMemory x + one PciDevice x.

Lemma books_settled b e s : fresh b -> books b e s -> within no_irqs e -> e MsixVectors = 0 -> settled b e.
Proof.
  intros (_ & Hi & Hm) [Hx _] Hw H0 x Ht. destruct x; try (by apply Hx).
  - rewrite H0, Hm. done.
  - rewrite Hi. destruct (Hw line c) as [-> | [_ []]]. done.
Qed.

Definition in_use s : bool := xd_regions_in_use (xs_dev s).
(** Everything is given back, but for the function when its regions were in use. *)
Definition returned b (xdev : Z) s s' : Prop :=
  xs_list s' = delete_first (fun x => xl_addr x =? xdev) (xs_list s) /\
  forall x, x <> Tasklet -> pci_held (xs_hw s') x = b x + (if in_use s then one PciDevice x else 0).

Lemma total_give_raw r s (Q : unit -> xs K -> Prop) : 1 <= pci_held (xs_hw s) r ->
  (forall s', xs_dev s' = xs_dev s -> near s s' -> (forall x, pci_held (xs_hw s') x = pci_held (xs_hw s) x - one r x) -> Q tt s') ->
  total (give r) s Q.
Proof.
  intros H HQ. apply total_give; [by left |]. intros s' Ed Hn Hr. apply HQ; [done .. |]. intros x. rewrite (Hr x). unfold one.
  repeat case_decide; tauto || lia.
Qed.

(** ** The way out *)

Lemma err_enable_ok s xdev : 1 <= pci_held (xs_hw s) DevMemory ->
  total (err_enable xdev) s (fun _ s' => xs_list s' = delete_first (fun x => xl_addr x =? xdev) (xs_list s) /\
    forall x, pci_held (xs_hw s') x = pci_held (xs_hw s) x - one DevMemory x).
Proof.
  intros H. apply total_bind, total_modify, total_give_raw; [done |]. intros s' _ [_ Hl] Hx. by split.
Qed.

Lemma err_regions_ok s xdev : 1 <= pci_held (xs_hw s) DevMemory -> (in_use s = false -> 1 <= pci_held (xs_hw s) PciDevice) ->
  total (err_regions xdev) s (fun _ s' => xs_list s' = delete_first (fun x => xl_addr x =? xdev) (xs_list s) /\
    forall x, pci_held (xs_hw s') x = pci_held (xs_hw s) x - one DevMemory x - (if in_use s then 0 else one PciDevice x)).
Proof.
  intros Hd Hp. apply total_bind, total_dev, total_bind. fold (in_use s). destruct (in_use s); cbn [negb].
  - apply total_ret. eapply total_weaken; [| by apply err_enable_ok]. intros [] s' [Hl Hx]. split; [done |]. intros x. rewrite Hx. lia.
  - apply total_give_raw; [by apply Hp |]. intros s1 Ed [_ Hl1] Hx1. eapply total_weaken; [| apply err_enable_ok].
    + intros [] s' [Hl Hx]. split; [congruence |]. intros x. rewrite Hx, Hx1. lia.
    + rewrite Hx1. unfold one. by rewrite decide_False, Z.sub_0_r by done.
Qed.

(** Neither bars nor buffers. *)
Definition stripped s : Prop := (forall j, bar_of s j = None \/ bar_of s j = Some None) /\
  forall d i en, engine_of s d i = Some en -> bare en.

Lemma stripped_owned s x : stripped s -> owned (xs_dev s) x = if decide (x = Regions) then b2z (xd_got_regions (xs_dev s)) else 0.
Proof.
  intros [Hb He]. destruct x as [| | | i | | | | [d i] bf |]; try done.
  - cbn. destruct (Hb i) as [E | E]; unfold bar_of in E; by rewrite E.
  - cbn. change (getz _ i) with (engine_of s d i). destruct (engine_of s d i) as [en |] eqn:E; [| done].
    cbn. pose proof (He _ _ _ E bf) as Hx. unfold has in Hx. by rewrite Hx.
Qed.

Lemma err_map_ok b e s xdev : fresh b -> accounts e s -> settled b e -> stripped s ->
  total (err_map xdev) s (fun _ => returned b xdev s).
Proof.
  intros (H0 & _) He Hs Hst. pose proof (fun x => stripped_owned s x Hst) as Ho.
  assert (Hh : forall x, x <> Tasklet -> pci_held (xs_hw s) x = b x + one DevMemory x + one PciDevice x +
    one Regions x * b2z (xd_got_regions (xs_dev s))).
  { intros x Hx. rewrite (proj2 (He x)), Ho, (Hs x Hx). unfold one. repeat case_decide; subst; done || lia. }
  assert (Hd : 1 <= pci_held (xs_hw s) DevMemory) by (rewrite Hh by done; pose proof (H0 DevMemory); ones).
  assert (Hp : 1 <= pci_held (xs_hw s) PciDevice) by (rewrite Hh by done; pose proof (H0 PciDevice); ones).
  assert (Hfin : forall s1, in_use s1 = in_use s -> xs_list s1 = xs_list s ->
    (forall x, pci_held (xs_hw s1) x = pci_held (xs_hw s) x - one Regions x * b2z (xd_got_regions (xs_dev s))) ->
    total (err_regions xdev) s1 (fun _ => returned b xdev s)).
  { intros s1 Hu Hl Hx1. eapply total_weaken; [| apply err_regions_ok].
    - intros [] s' [Hl' Hx]. split; [congruence |]. intros x Ht. rewrite Hx, Hx1, Hh, Hu by done. destruct (in_use s); lia.
    - rewrite Hx1. ones.
    - intros _. rewrite Hx1. ones. }
  apply total_bind, total_dev, total_bind. destruct (xd_got_regions (xs_dev s)) eqn:Eg.
  - apply total_give_raw; [rewrite Hh by done; pose proof (H0 Regions); ones |].
    intros s1 Ed [_ Hl] Hx1. apply (Hfin s1); [unfold in_use; by rewrite Ed | done | intros x; rewrite Hx1; ones].
  - apply total_ret, (Hfin s); [done .. |]. intros x. ones.
Qed.

Lemma returned_from b xdev s s1 s' : xs_list s1 = xs_list s -> in_use s1 = in_use s -> returned b xdev s1 s' -> returned b xdev s s'.
Proof. intros El Eu [Hl Hx]. split; [congruence |]. by rewrite <- Eu. Qed.

Definition all_bare s : Prop := forall d i en, engine_of s d i = Some en -> bare en.
Definition three_bars s : Prop := length (b_bar (xd_bars (xs_dev s))) = 3%nat.

Lemma err_mask_ok b e s xdev : fresh b -> accounts e s -> settled b e -> three_bars s -> all_bare s ->
  total (err_mask xdev) s (fun _ => returned b xdev s).
Proof.
  intros Hf He Hs Hl Hb. mstep (apply (unmap_bars_ok e s), bars_step_refl; done).
  intros [] s1 [(A1 & [_ Hl1] & (bs & Ed & Hlen)) Hn]. eapply total_weaken; [| apply (err_map_ok b e); try done].
  - intros [] s'. apply returned_from; [done | unfold in_use; by rewrite Ed].
  - split; [| intros d i en; unfold engine_of; rewrite Ed; apply Hb]. intros j.
    destruct (decide (0 <= j < 3)) as [Hj | Hj]; [right; by apply Hn | left]. unfold bar_of. rewrite Ed. cbn.
    destruct (getz (b_bar bs) j) eqn:E; [| done]. apply getz_Some_range in E. lia.
Qed.

Lemma err_engines_ok b e s xdev : fresh b -> accounts e s -> settled b e -> three_bars s -> engs s ->
  total (err_engines xdev) s (fun _ => returned b xdev s).
Proof.
  intros Hf He Hs Hl Hg. mstep (by apply (remove_engines_ok e s)).
  intros [] s1 (A1 & [[_ Hl1] (g & Ed)] & Hb). eapply total_weaken; [| apply (err_mask_ok b e); try done].
  - intros [] s'. apply returned_from; [done | unfold in_use; by rewrite Ed].
  - unfold three_bars. by rewrite Ed.
Qed.

Lemma err_enable_msix_ok b e s xdev : fresh b -> accounts e s -> books b e s -> within no_irqs e ->
  i_msi (xd_irqs (xs_dev s)) = false -> three_bars s -> engs s ->
  total (err_enable_msix xdev) s (fun _ => returned b xdev s).
Proof.
  intros Hf He Hs Hw Hmsi Hl Hg. apply total_bind, total_bind, total_dev. fold (msix s). rewrite Hmsi.
  destruct (msix s) eqn:Hx.
  - apply total_bind, total_give; [by right |]. intros s1 Ed Hn1 Hr. apply total_upd_dev. rewrite Ed.
    pose proof (released_extra _ e s s1 He Ed Hr eq_refl) as A1.
    set (s2 := set_dev _ s1).
    assert (A2 : accounts (unbump MsixVectors e) s2) by (apply accounts_same; [done | by rewrite Ed]).
    eapply total_weaken; [| apply (err_engines_ok b (unbump MsixVectors e) s2); try done].
    + intros [] s'. apply returned_from; [apply Hn1 | done].
    + apply (books_settled _ _ s2); [done | | | ].
      * destruct Hs as [Hs Hm]. split.
        -- intros x H1 H2 H3. unfold unbump. rewrite decide_False by naive_solver. by apply Hs.
        -- left. unfold unbump. case_decide; destruct Hm as [Hm | [Hm _]]; try lia. exfalso. naive_solver lia.
      * intros l c. unfold unbump. rewrite decide_False by naive_solver. apply Hw.
      * unfold unbump. destruct Hs as [_ Hm]. case_decide; destruct Hm as [Hm | [Hm _]]; try lia. exfalso. naive_solver lia.
  - apply total_ret, (err_engines_ok b e); try done. apply (books_settled _ _ s); [done .. |].
    destruct Hs as [_ [? | [_ ?]]]; [done | congruence].
Qed.

Lemma err_interrupts_ok b e s xdev : fresh b -> ready e s -> books b e s ->
  i_msi (xd_irqs (xs_dev s)) = false -> mapped s -> three_bars s -> engs s ->
  total (err_interrupts xdev) s (fun _ => returned b xdev s).
Proof.
  intros Hf (He & Hw & Ht) Hs Hmsi Hm Hl Hg. mstep (by apply (irq_teardown_ok e s)).
  intros [] s1 (Hst & e1 & O1 & A1 & W1). pose proof Hst as ([_ Hl1] & Ed).
  assert (Hx : msix s1 = msix s) by (unfold msix; by rewrite Ed).
  eapply total_weaken; [| apply (err_enable_msix_ok b e1); try done].
  - intros [] s'. apply returned_from; [done | unfold in_use; by rewrite Ed].
  - destruct Hs as [Hs Hmx]. split; [intros x H1; rewrite O1 by done; by apply Hs |]. rewrite Hx, O1 by done. done.
  - by rewrite Ed.
  - unfold three_bars. by rewrite Ed.
  - by apply (irq_rest_engs s), Hg; apply irq_rest_still.
Qed.

(** ** The way in *)

(** There is memory for the tasklet, and one is there before the first interrupt
    that is refused. *)
Definition tasklets s : Prop := (forall k : K, fst (pci_acquire Tasklet k) = 0) /\ (xs_tsk s = true \/ ~ some_irq_fails (K := K)).

Definition bars_in s : Prop := three_bars s /\ bars_to 3 s.
Lemma bars_in_same s s' : xd_bars (xs_dev s') = xd_bars (xs_dev s) -> bars_in s -> bars_in s'.
Proof. intros E [H1 H2]. unfold bars_in, three_bars, bars_to, there, bar_of in *. by rewrite E. Qed.

Definition shaped s : Prop := i_msi (xd_irqs (xs_dev s)) = false /\ mapped s /\ bars_in s /\ engs s /\ 0 <= user_max s <= 16.
(** An open device. *)
Definition opened b e s : Prop := ready e s /\ books b e s /\ shaped s /\ in_use s = false.

Lemma total_config_io {A} e s (f : Z -> io K A) (Q : unit -> xs K -> Prop) (k : A -> st (xs K) unit) : accounts e s -> mapped s ->
  (forall bar, quiet (f bar) (fun _ => True)) ->
  (forall a hw', accounts e (set_hw hw' s) -> total (k a) (set_hw hw' s) Q) ->
  total (bar ← config_bar; a ← io_st (f bar); k a) s Q.
Proof.
  intros He [bar Hm] Hf Hk. apply total_bind. eapply total_config_bar; [exact Hm |]. apply total_bind.
  eapply total_io; [apply Hf | done |]. intros a hw' _ H. by apply Hk.
Qed.

(** Interrupt masks and the flush only touch the hardware. *)
Lemma hw_only_mask e s (user enable : bool) mask : accounts e s -> mapped s ->
  total (if user then user_interrupts enable mask else channel_interrupts enable mask) s
    (fun _ s' => exists k, s' = set_hw k s /\ accounts e s').
Proof.
  intros He [bar Hm]. destruct user; (apply total_bind; eapply total_config_bar; [exact Hm |];
    eapply total_io; [destruct enable; by apply (quiet_writel _ _ (fun _ => True)) | done |]; intros [] k _ Hk; by exists k).
Qed.
Lemma hw_only_flush e s : accounts e s -> mapped s ->
  total flush_interrupts s (fun _ s' => exists k, s' = set_hw k s /\ accounts e s').
Proof.
  intros He Hm. apply (total_config_io e s _ _ (fun _ => mret tt) He Hm); [intros; apply quiet_read_interrupts |].
  intros a k Hk. apply total_ret. by exists k.
Qed.

Lemma opened_hw b e s k : opened b e s -> accounts e (set_hw k s) -> opened b e (set_hw k s).
Proof. intros ((_ & Hw & Ht) & H) Hk. by split. Qed.

Lemma opened_flags b e s f : opened b e s -> opened b e (set_dev (set_flags f (xs_dev s)) s).
Proof. intros ((He & Hw & Ht) & H). split; [| done]. split_and!; [by apply accounts_same | done | done]. Qed.

Lemma settled_books b e s : fresh b -> settled b e -> books b e s /\ within no_irqs e.
Proof.
  intros (_ & Hi & Hm) Hs. split; [split |].
  - intros x _ H _. by apply Hs.
  - left. rewrite Hs, Hm by done. done.
  - intros l c. left. rewrite Hs, Hi by done. done.
Qed.

Lemma enable_msix_ok b e s : fresh b -> accounts e s -> settled b e -> shaped s -> msix s = false ->
  total (enable_msi_msix 0) s (fun rv s' => rv <= 0 /\ xs_list s' = xs_list s /\ xs_tsk s' = xs_tsk s /\ in_use s' = in_use s /\
    shaped s' /\ exists e', accounts e' s' /\ books b e' s' /\ within no_irqs e').
Proof.
  intros Hf He Hs Hsh Hx. destruct (settled_books b e s Hf Hs) as [Hb Hw]. unfold enable_msi_msix. cbn [Z.eqb andb].
  destruct (msi_msix_capable PCI_CAP_ID_MSIX).
  2: { apply total_ret. split_and!; [done .. |]. by exists e. }
  apply total_bind. eapply total_take; [done |]. intros rv k Hrv Hk. apply total_bind, total_upd_dev, total_ret.
  split_and!; [done .. |]. exists (if rv =? 0 then bump MsixVectors e else e).
  destruct Hb as [Hb [Hm | [_ ?]]]; [| congruence].
  assert (Hbump : forall x, x <> MsixVectors -> bump MsixVectors e x = e x) by (intros x Hne; unfold bump; case_decide; [congruence | lia]).
  split_and!.
  - apply (accounts_same _ (set_hw k s)); [exact Hk | done].
  - split; [intros x H1 H2 H3; destruct (rv =? 0); rewrite ?Hbump by done; by apply Hb |].
    destruct (rv =? 0); [right | by left]. split; [| done]. unfold bump. rewrite decide_True by done. lia.
  - intros l c. destruct (rv =? 0); rewrite ?Hbump by done; apply Hw.
Qed.

Lemma open_irqs_ok b e s xdev : fresh b -> tasklets s -> accounts e s -> settled b e -> shaped s -> msix s = false -> in_use s = false ->
  total (open_irqs xdev) s (fun ok s' => if ok then xs_list s' = xs_list s /\ exists e', opened b e' s' else returned b xdev s s').
Proof.
  intros Hf [Hz HT] He Hs Hsh Hx Hu. mstep (by apply (enable_msix_ok b e)).
  intros rv s1 (Hrv & Hl1 & Ht1 & Hu1 & (Hmsi1 & Hm1 & [Hb1 Hto1] & Hg1 & Hum1) & e1 & A1 & B1 & W1). destruct (rv <? 0).
  { mstep (by apply (err_enable_msix_ok b e1)). intros [] s' H. apply total_ret. by apply (returned_from _ _ _ s1). }
  mstep (apply (irq_setup_ok e1 s1 Hz); try done; intros _; by rewrite Ht1).
  intros rv2 s2 (Hrv2 & R2 & e2 & O2 & R2').
  assert (B2 : books b e2 s2).
  { destruct B1 as [B1 M1]. destruct (irq_rest_msix _ _ R2) as (Hmx & _ & _). split.
    - intros x H1 H2 H3. rewrite O2 by done. by apply B1.
    - rewrite Hmx, O2 by done. done. }
  assert (Hsh2 : shaped s2 /\ in_use s2 = in_use s1).
  { pose proof R2 as (_ & (g & l & Ed) & _). destruct (irq_rest_msix _ _ R2) as (_ & Hum & _).
    unfold shaped. split_and!.
    - by rewrite Ed.
    - by eapply irq_rest_mapped.
    - by apply (bars_in_same s1); [rewrite Ed | split].
    - by eapply irq_rest_engs.
    - rewrite Hum. lia.
    - rewrite Hum. lia.
    - unfold in_use. by rewrite Ed. }
  destruct Hsh2 as [Hsh2 Hu2]. pose proof Hsh2 as (Hmsi2 & Hm2 & [Hb2 _] & Hg2 & _). pose proof R2 as (Hl2 & _).
  destruct (rv2 <? 0).
  { mstep (by apply (err_interrupts_ok b e2)). intros [] s' H. apply total_ret.
    apply (returned_from _ _ _ s2); [congruence | congruence | done]. }
  assert (Ho2 : opened b e2 s2) by (split_and!; [done | done | done | congruence]).
  mstep (apply (hw_only_mask e2 s2 false true _ (proj1 R2') Hm2)). intros [] ? (k3 & -> & A3).
  mstep (by apply (hw_only_flush e2)). intros [] ? (k4 & -> & A4).
  apply total_bind, total_upd_dev, total_ret. split; [cbn; congruence |]. exists e2.
  by apply opened_flags, (opened_hw _ _ _ k4), A4; apply opened_hw.
Qed.

(** A device that has its maxima and nothing else. *)
Record blank s : Prop := {
  bl_bars : three_bars s;
  bl_none : forall j, 0 <= j < 3 -> bar_of s j = Some None;
  bl_cfg : cfg s < 0;
  bl_bare : all_bare s;
  bl_present : forall d i, 0 <= i < 2 -> present s d i;
  bl_max : forall d, 0 <= max_of s d <= 2;
  bl_msi : i_msi (xd_irqs (xs_dev s)) = false;
  bl_msix : msix s = false;
  bl_user : 0 <= user_max s <= 16;
}.

Lemma dma_mask_ok e s : accounts e s -> total set_dma_mask s (fun _ s' => exists k, s' = set_hw k s /\ accounts e s').
Proof.
  intros He. apply total_bind. eapply total_hw_ret; [intros; apply quiet_mask | done |]. intros r k Hk. destruct (r =? 0).
  - apply total_bind. eapply total_hw; [intros; apply quiet_coherent | done |]. intros k' Hk'. apply total_ret. by exists k'.
  - apply total_bind. eapply total_hw_ret; [intros; apply quiet_mask | done |]. intros r2 k2 Hk2. destruct (r2 =? 0).
    + apply total_bind. eapply total_hw; [intros; apply quiet_coherent | done |]. intros k' Hk'. apply total_ret. by exists k'.
    + apply total_ret. by exists k2.
Qed.

Lemma open_bars_ok b e s xdev : fresh b -> tasklets s -> accounts e s -> settled b e -> blank s -> in_use s = false ->
  total (open_bars xdev) s (fun ok s' => if ok then xs_list s' = xs_list s /\ exists e', opened b e' s' else returned b xdev s s').
Proof.
  intros Hf HT He Hs [Hb Hn Hc Hba Hp Hmax Hmsi Hx Hum] Hu. mstep (apply (map_bars_ok e s); [by apply bars_step_refl | done | done]).
  intros rv s1 [(A1 & [Ht1 Hl1] & (bs & Ed1 & Hlen)) Hm1].
  assert (Hba1 : all_bare s1) by (intros d i en; unfold engine_of; rewrite Ed1; apply Hba).
  assert (Hu1 : in_use s1 = in_use s) by (unfold in_use; by rewrite Ed1).
  assert (Hb1 : three_bars s1) by (unfold three_bars; by rewrite Ed1).
  destruct (rv =? 0); cbn [negb].
  2: { mstep (apply (err_map_ok b e s1); try done).
       - intros [] s' H. apply total_ret. by apply (returned_from _ _ _ s1).
       - split; [| exact Hba1]. intros j. destruct (decide (0 <= j < 3)) as [Hj | Hj]; [right; by apply Hm1 | left].
         unfold bar_of. destruct (getz _ j) eqn:E; [| done]. apply getz_Some_range in E. unfold three_bars in Hb1. lia. }
  mstep (by apply (dma_mask_ok e s1)). intros rv2 ? (k2 & -> & A2).
  destruct (rv2 =? 0); cbn [negb].
  2: { mstep (by apply (err_mask_ok b e (set_hw k2 s1))). intros [] s' H. apply total_ret.
       by apply (returned_from _ _ _ (set_hw k2 s1)). }
  pose proof Hm1 as [[bar Hbar] Hto1]. pose proof (proj1 Hm1) as Hmm1. apply total_bind. eapply total_config_bar; [exact Hbar |].
  apply total_bind. eapply total_io; [apply quiet_check_nonzero | done |]. intros [] k3 _ A3.
  mstep (by apply (hw_only_mask e (set_hw k3 (set_hw k2 s1)) false)). intros [] ? (k4 & -> & A4).
  mstep (by apply (hw_only_mask e (set_hw k4 (set_hw k3 (set_hw k2 s1))) true)).
  intros [] ? (k5 & -> & A5).
  mstep (by apply (hw_only_flush e)). intros [] ? (k6 & -> & A6).
  set (s6 := set_hw k6 _) in *. assert (E6 : xs_dev s6 = xs_dev s1) by done. assert (L6 : near s1 s6) by done. clearbody s6.
  assert (Hl : forall d i, line_of s6 d i = line_of s d i) by (intros; unfold line_of, engine_of; by rewrite E6, Ed1).
  mstep (apply (probe_engines_ok e s6 A6)).
  - intros rv3 s7 (-> & A7 & ([Ht7 Hl7] & (g & Ed7) & _) & Hg7). cbn [Z.eqb negb].
    eapply total_weaken; [| apply (open_irqs_ok b e s7)]; try done.
    + intros [] s8; [intros [H1 H2]; split; [rewrite H1, Hl7, (proj2 L6); exact Hl1 | done] |].
      apply returned_from; [rewrite Hl7, (proj2 L6); exact Hl1 | unfold in_use; by rewrite Ed7, E6, Ed1].
    + destruct HT as [HT1 HT2]. split; [done |]. by rewrite Ht7, (proj1 L6), Ht1.
    + unfold shaped. split_and!; [by rewrite Ed7, E6, Ed1 | | by apply (bars_in_same s1); [rewrite Ed7, E6 | split] | done | | ].
      * exists bar. unfold bar_of, cfg in *. by rewrite Ed7, E6.
      * unfold user_max. rewrite Ed7, E6, Ed1. apply Hum.
      * unfold user_max. rewrite Ed7, E6, Ed1. apply Hum.
    + unfold msix. by rewrite Ed7, E6, Ed1.
    + unfold in_use. by rewrite Ed7, E6, Ed1.
  - exists bar. unfold bar_of, cfg in *. by rewrite E6.
  - intros d. unfold max_of. rewrite E6, Ed1. apply Hmax.
  - intros d i Hi. unfold present. rewrite Hl. by apply Hp.
  - intros d i en E. left. apply (Hba1 d i). unfold engine_of in *. by rewrite <- E6.
Qed.

(** The device as it is between [xdev_list_add] and [open_bars]. *)
Definition clean_dev (u h c idx fl : Z) (in_use got : bool) : xdma_dev :=
  clamp_dev (mkXdev (mkBars (replicate (Z.to_nat XDMA_BAR_NUM) None) (-1) (-1) (-1)) (mkIrqs (-1) false false 0 u)
    (zero_engines h c) in_use got fl idx).

Lemma clamp_range max x : 0 <= x -> 0 <= max -> 0 <= clamp_max max x <= max.
Proof. unfold clamp_max. intros. destruct (_ || _) eqn:E; lia. Qed.

Lemma clean_engine u h c idx fl iu got s d i : xs_dev s = clean_dev u h c idx fl iu got ->
  engine_of s d i = if decide (0 <= i < 2) then Some zero_engine else None.
Proof.
  intros E. unfold engine_of. rewrite E. unfold getz. destruct (decide (0 <= i)) as [Hi | Hi].
  2: { by rewrite decide_False by lia. }
  case_decide as H2.
  - assert (i = 0 \/ i = 1) as [-> | ->] by lia; by destruct d.
  - destruct d; apply lookup_ge_None_2; change (2 <= Z.to_nat i)%nat; lia.
Qed.

Lemma clean_blank u h c idx fl iu got s : 0 <= u -> 0 <= h -> 0 <= c -> xs_dev s = clean_dev u h c idx fl iu got -> blank s.
Proof.
  intros Hu Hh Hc E. split.
  - unfold three_bars. by rewrite E.
  - intros j Hj. unfold bar_of. rewrite E. assert (j = 0 \/ j = 1 \/ j = 2) as [-> | [-> | ->]] by lia; done.
  - unfold cfg. by rewrite E.
  - intros d i en Ei. rewrite (clean_engine _ _ _ _ _ _ _ _ _ _ E) in Ei. case_decide; [| done]. injection Ei as <-. by intros [].
  - intros d i Hi. unfold present, line_of. rewrite (clean_engine _ _ _ _ _ _ _ _ _ _ E), decide_True by done. by eexists.
  - intros d. unfold max_of. rewrite E. destruct d; apply clamp_range; done.
  - by rewrite E.
  - unfold msix. by rewrite E.
  - unfold user_max. rewrite E. apply (clamp_range MAX_USER_IRQ); done.
Qed.

Lemma clean_stripped u h c idx fl iu got s : xs_dev s = clean_dev u h c idx fl iu got -> stripped s.
Proof.
  intros E. split; [| intros d i en Ei; rewrite (clean_engine _ _ _ _ _ _ _ _ _ _ E) in Ei; case_decide; [injection Ei as <-; by intros [] | done]].
  intros j. unfold bar_of. rewrite E. unfold getz. destruct (decide (0 <= j)) as [Hj | Hj]; [| by left].
  destruct (decide (j < 3)); [right; assert (j = 0 \/ j = 1 \/ j = 2) as [-> | [-> | ->]] by lia; done | left].
  apply lookup_ge_None_2. change (3 <= Z.to_nat j)%nat. lia.
Qed.

Definition some_region_fails : Prop := exists k : K, fst (pci_acquire Regions k) <> 0.

(** Nothing is held that was not held before; but a function whose regions are in
    use stays enabled. *)
Definition unchanged b s s' : Prop := xs_list s' = xs_list s /\
  ((forall x, x <> Tasklet -> pci_held (xs_hw s') x = b x) \/
   (some_region_fails /\ forall x, x <> Tasklet -> pci_held (xs_hw s') x = b x + one PciDevice x)).

Lemma find_last {A} (p : A -> bool) (l : list A) x : (forall y, y ∈ l -> p y = false) -> p x = true ->
  List.find p (l ++ [x]) = Some x.
Proof.
  intros Hl Hx. induction l as [| y l IH]; cbn; [by rewrite Hx |]. rewrite Hl by set_solver. apply IH.
  intros z Hz. apply Hl. set_solver.
Qed.
Lemma delete_first_last {A} (p : A -> bool) (l : list A) x : (forall y, y ∈ l -> p y = false) -> p x = true ->
  delete_first p (l ++ [x]) = l.
Proof.
  intros Hl Hx. induction l as [| y l IH]; cbn; [by rewrite Hx |]. rewrite Hl by set_solver. f_equal. apply IH.
  intros z Hz. apply Hl. set_solver.
Qed.

Lemma total_take_raw r s (Q : Z -> xs K -> Prop) :
  (forall rv k, rv <= 0 -> (rv <> 0 -> exists k0 : K, fst (pci_acquire r k0) <> 0) ->
     (forall x, pci_held k x = pci_held (xs_hw s) x + (if rv =? 0 then one r x else 0)) -> Q rv (set_hw k s)) ->
  total (take r) s Q.
Proof.
  intros HQ. unfold total, take, hw_ret. destruct (pci_acquire r (xs_hw s)) as [rv k] eqn:E.
  pose proof (pci_acquire_neg r (xs_hw s)) as Hn. rewrite E in Hn. apply HQ; [done | |].
  - intros H. exists (xs_hw s). by rewrite E.
  - intros x. pose proof (pci_acquire_held r (xs_hw s) x) as H. rewrite E in H. cbn [fst snd] in H. rewrite H. unfold one.
    destruct (rv =? 0) eqn:Er; repeat case_decide; try lia; exfalso; naive_solver lia.
Qed.

Lemma ext_tag_skipped s (Q : unit -> xs K -> Prop) : cfg s < 0 -> Q tt s -> total pci_check_extended_tag s Q.
Proof.
  intros Hc HQ. apply total_bind, total_get. destruct (ext_tag_enabled (xs_hw s)); [by apply total_ret |].
  fold (cfg s). by rewrite (proj2 (Z.ltb_lt (cfg s) 0)) by lia.
Qed.

(** From [request_regions] on. *)
Lemma regions_ok u h c idx xdev b s s0 : fresh b -> 0 <= u -> 0 <= h -> 0 <= c -> tasklets s ->
  xs_dev s = clean_dev u h c idx XDEV_FLAG_OFFLINE false false ->
  (forall x, pci_held (xs_hw s) x = b x + one DevMemory x + one PciDevice x) ->
  xs_list s0 = delete_first (fun x => xl_addr x =? xdev) (xs_list s) ->
  total (rv ← request_regions;
         if negb (rv =? 0) then _ ← err_regions xdev; mret None
         else
           ok ← open_bars xdev;
           if negb ok then mret None
           else d ← get_dev; mret (Some (i_user_max (xd_irqs d), g_h2c_max (xd_engines d), g_c2h_max (xd_engines d)))) s
    (fun r s' => match r with
                 | Some _ => xs_list s' = xs_list s /\ exists e', opened b e' s'
                 | None => unchanged b s0 s'
                 end).
Proof.
  intros Hf Hu Hh Hc HT Ed Hx Hl. apply total_bind, total_bind, total_take_raw. intros rv k Hrv Hfail Hk.
  apply total_bind, total_upd_dev, total_ret. destruct (rv =? 0) eqn:Er; cbn [negb].
  - set (s1 := set_dev _ _). assert (Ed1 : xs_dev s1 = clean_dev u h c idx XDEV_FLAG_OFFLINE false true) by (unfold s1; cbn; by rewrite Ed).
    assert (A1 : accounts (fun x => b x + one DevMemory x + one PciDevice x) s1).
    { intros x. pose proof (proj1 Hf x). split; [ones |]. cbn [xs_hw s1 set_dev set_hw].
      rewrite (stripped_owned s1 x (clean_stripped _ _ _ _ _ _ _ _ Ed1)), Ed1. unfold s1. cbn. rewrite Hk, Hx. cbn. ones. }
    pose proof (clean_blank u h c idx XDEV_FLAG_OFFLINE false true s1 Hu Hh Hc Ed1) as Bl.
    mstep (apply (open_bars_ok b _ s1 xdev Hf HT A1 (fun x _ => eq_refl) Bl); unfold in_use; by rewrite Ed1).
    intros ok s2 H2. destruct ok; cbn [negb]; [apply total_bind, total_dev, total_ret; destruct H2 as [H2 ?]; by split |].
    apply total_ret. destruct H2 as [H2 H3]. split; [by rewrite H2, Hl |]. left. intros x Hxt. rewrite H3 by done.
    unfold in_use. rewrite Ed1. cbn. lia.
  - assert (Hrv0 : rv <> 0) by lia. mstep (apply err_regions_ok).
    + intros [] s2 [H2 H3]. apply total_ret. split; [by rewrite H2, Hl |]. right. split; [by apply Hfail |].
      intros x Hxt. rewrite H3. cbn. rewrite Hk, Hx. unfold in_use. cbn. lia.
    + cbn. rewrite Hk, Hx. pose proof (proj1 Hf DevMemory). ones.
    + intros [=].
Qed.

Lemma open_ok s xdev pdev u h c : 0 <= u -> 0 <= h -> 0 <= c -> fresh (pci_held (xs_hw s)) -> tasklets s ->
  (forall x, x ∈ xs_list s -> xl_addr x <> xdev) ->
  total (xdma_device_open xdev pdev u h c) s (fun r s' => match r with
    | None => unchanged (pci_held (xs_hw s)) s s'
    | Some _ => xs_list s' = xs_list s ++ [mkXdevEntry xdev pdev (next_idx (xs_list s))] /\
        exists e', opened (pci_held (xs_hw s)) e' s'
    end).
Proof.
  intros Hu Hh Hc Hf HT Hnew. set (b := pci_held (xs_hw s)) in *.
  apply total_bind, total_bind, total_take_raw. intros rv k Hrv _ Hk. destruct (rv =? 0) eqn:Er.
  2: { apply total_ret, total_ret. split; [done |]. left. intros x _. cbn. rewrite Hk. unfold b. lia. }
  apply total_bind, total_upd_dev, total_ret. cbn [negb]. apply total_bind, total_upd_dev.
  apply total_bind, total_bind, total_get, total_bind, total_upd_dev, total_modify.
  apply total_bind, total_upd_dev. set (s1 := set_dev _ _).
  assert (Ed1 : xs_dev s1 = clean_dev u h c (next_idx (xs_list s)) XDEV_FLAG_OFFLINE false false) by done.
  assert (Hl1 : xs_list s1 = xs_list s ++ [mkXdevEntry xdev pdev (next_idx (xs_list s))]) by done.
  assert (Hx1 : forall x, pci_held (xs_hw s1) x = b x + one DevMemory x) by exact Hk.
  assert (Ht1 : xs_tsk s1 = xs_tsk s) by done. clearbody s1.
  assert (Hback : delete_first (fun x => xl_addr x =? xdev) (xs_list s1) = xs_list s).
  { rewrite Hl1. apply delete_first_last; [| cbn; lia]. intros y Hy. pose proof (Hnew y Hy). lia. }
  apply total_bind, total_take_raw. intros rv2 k2 Hrv2 _ Hk2. destruct (rv2 =? 0) eqn:Er2; cbn [negb].
  2: { mstep (apply err_enable_ok).
       - intros [] s' [H1 H2]. apply total_ret. split; [by rewrite H1; exact Hback |]. left. intros x _. rewrite H2. cbn. rewrite Hk2, Hx1. lia.
       - cbn. rewrite Hk2, Hx1. pose proof (proj1 Hf DevMemory). ones. }
  assert (Hx2 : forall x, pci_held k2 x = b x + one DevMemory x + one PciDevice x) by (intros x; rewrite Hk2, Hx1; lia).
  apply total_bind, total_modify, total_bind, total_modify, total_bind, ext_tag_skipped; [unfold cfg; cbn; by rewrite Ed1 |].
  apply total_bind. unfold hw_ret at 1, total at 1. destruct (pcie_set_readrq _ _) as [rq k3] eqn:E3.
  apply total_bind, total_modify. set (s2 := set_hw _ _).
  eapply total_weaken; [| apply (regions_ok u h c (next_idx (xs_list s)) xdev b s2 s Hf Hu Hh Hc)].
  - intros [r |] s'; [| done]. intros [H1 H2]. split; [by rewrite H1 | done].
  - destruct HT as [? HT]. split; [done |]. by rewrite <- Ht1 in HT.
  - done.
  - intros x. unfold s2. cbn. rewrite quiet_master. pose proof (quiet_readrq 128 (pci_enable_relaxed_ordering (ack_status_interrupt k2)) x) as Hq.
    cbn in E3. rewrite E3 in Hq. cbn in Hq. by rewrite Hq, quiet_relaxed, quiet_ack.
  - done.
Qed.

(** ** Between opening and closing *)

(** Engines with the same buffers, magic and line. *)
Definition same_en en en' : Prop := (forall bf, has bf en' = has bf en) /\ alike en en'.
Definition eng_same s s' : Prop := eng_rest s s' /\ (forall d, max_of s' d = max_of s d) /\
  forall d j, match engine_of s d j, engine_of s' d j with
              | Some en, Some en' => same_en en en' | None, None => True | _, _ => False end.

Lemma same_en_trans en1 en2 en3 : same_en en1 en2 -> same_en en2 en3 -> same_en en1 en3.
Proof. intros [H1 L1] [H2 L2]. split; [intros bf; by rewrite H2 | by eapply alike_trans]. Qed.
Lemma eng_same_refl s : eng_same s s.
Proof. split_and!; [apply eng_rest_refl | done |]. intros d j. destruct (engine_of s d j); [by repeat split | done]. Qed.
Lemma eng_same_trans s1 s2 s3 : eng_same s1 s2 -> eng_same s2 s3 -> eng_same s1 s3.
Proof.
  intros (R1 & M1 & E1) (R2 & M2 & E2). split_and!; [by eapply eng_rest_trans | intros d; by rewrite M2 |].
  intros d j. specialize (E1 d j). specialize (E2 d j).
  destruct (engine_of s1 d j), (engine_of s2 d j), (engine_of s3 d j); try done. by eapply same_en_trans.
Qed.
Lemma eng_same_lines s s' d j : eng_same s s' -> line_of s' d j = line_of s d j.
Proof.
  intros (_ & _ & E). specialize (E d j). unfold line_of. destruct (engine_of s d j), (engine_of s' d j); try done.
  cbn. f_equal. apply E.
Qed.

Lemma eng_post_same e d i s s' en : engine_of s d i = Some en -> eng_post e d i s (same_en en) s' -> eng_same s s' /\ accounts e s'.
Proof.
  intros E (A & K1 & en' & E' & Hs). split; [| done]. split_and!; [by eapply eng_keep_rest | apply K1 |].
  intros d' j. destruct (decide ((d', j) = (d, i))) as [[= -> ->] | Hne]; [by rewrite E, E' |].
  destruct K1 as (_ & _ & _ & O). rewrite O by done. destruct (engine_of s d' j); [by repeat split | done].
Qed.

Lemma each_engine_same e s d body : accounts e s -> (forall i, 0 <= i < max_of s d -> present s d i) ->
  (forall s' i en, engine_of s' d i = Some en -> accounts e s' -> total (body i) s' (fun _ => eng_post e d i s' (same_en en))) ->
  total (each_engine d body) s (fun _ s' => eng_same s s' /\ accounts e s').
Proof.
  intros He Hp Hbody. apply total_bind, total_dev. fold (max_of s d).
  apply (total_for_n (fun _ s' => eng_same s s' /\ accounts e s')); [by split; [apply eng_same_refl |] | | done].
  intros i s1 Hi [S1 A1]. assert (P1 : present s1 d i) by (unfold present; rewrite (eng_same_lines _ _ _ _ S1); apply Hp; lia).
  destruct (present_engine _ _ _ P1) as [en E]. apply total_bind. eapply total_get_engine; [done |].
  destruct (_ =? MAGIC_ENGINE); [| by apply total_ret]. eapply total_weaken; [| by eapply (Hbody s1 i en)].
  intros [] s2 H2. destruct (eng_post_same _ _ _ _ _ _ E H2) as [S2 A2]. split; [by eapply eng_same_trans | done].
Qed.

(** Several operations on one engine. *)
Lemma same_then {A} e d i s s1 (m : st (xs K) A) en : eng_post e d i s (same_en en) s1 ->
  (forall en1, engine_of s1 d i = Some en1 -> accounts e s1 -> total m s1 (fun _ => eng_post e d i s1 (same_en en1))) ->
  total m s1 (fun _ => eng_post e d i s (same_en en)).
Proof.
  intros H1 Hm. eapply (eng_post_then e d i s m (same_en en) (fun _ => same_en en) s1 H1).
  intros en1 E1 Hs A1. eapply total_weaken; [| by apply (Hm en1)]. intros a s2. apply eng_post_weaken.
  intros en2. by apply same_en_trans.
Qed.

Lemma upd_engine_same e d i s en f : accounts e s -> engine_of s d i = Some en ->
  (forall bf x, has_buffer bf (f x) = has_buffer bf x) -> (forall x, e_magic (e_config (f x)) = e_magic (e_config x)) ->
  total (upd_engine d i f) s (fun _ => eng_post e d i s (same_en en)).
Proof.
  intros He E Hb Hm. eapply total_weaken; [| by apply (upd_engine_ok e d i s en f)]. intros [] s'. apply eng_post_weaken.
  intros en' ->. split; [intros bf; apply Hb | split; [apply Hm | done]].
Qed.

Lemma take_offline_ok e d s i en : engine_of s d i = Some en -> accounts e s ->
  total (take_offline d i) s (fun _ => eng_post e d i s (same_en en)).
Proof.
  intros E He. mstep (by apply (upd_engine_same e d i s en); [| | intros [] | ]).
  intros [] s1 H1. mstep (eapply same_then; [exact H1 |]).
  2: { intros en1 E1 A1. apply run_engine_ok; [done | done | apply quiet_engine_stop]. }
  intros [] s2 H2. eapply same_then; [exact H2 |]. intros en2 E2 A2. by apply upd_engine_same; [| | intros [] | ].
Qed.

Lemma take_online_ok e d s i en : engine_of s d i = Some en -> accounts e s ->
  total (take_online d i) s (fun _ => eng_post e d i s (same_en en)).
Proof.
  intros E He. mstep (apply (run_engine_ok e d i s en); [done | done | apply quiet_engine_init_regs]).
  intros [] s1 H1. eapply same_then; [exact H1 |]. intros en1 E1 A1. by apply upd_engine_same; [| | intros [] | ].
Qed.

(** A device that is offline. *)
Definition offlined b e s : Prop :=
  accounts e s /\ within no_irqs e /\ books b e s /\ shaped s /\ in_use s = false /\ (msix s = true -> xs_tsk s = true).

Lemma eng_same_parts s s' : eng_same s s' -> xs_list s' = xs_list s /\ xs_tsk s' = xs_tsk s /\ in_use s' = in_use s /\
  msix s' = msix s /\ user_max s' = user_max s /\ (shaped s -> shaped s') /\ (forall l c, own_irq s l c -> own_irq s' l c).
Proof.
  intros Hs. pose proof Hs as ([[Ht Hl] (g & Ed)] & M & E).
  assert (Hx : msix s' = msix s) by (unfold msix; by rewrite Ed).
  assert (Hu : user_max s' = user_max s) by (unfold user_max; by rewrite Ed).
  split_and!; [done | done | unfold in_use; by rewrite Ed | done | done | |].
  - intros (Hmsi & [bar Hm] & Hb & (Hmax & Hp & Hbelow) & Hum). unfold shaped, engs. split_and!; try (rewrite Hu; lia).
    + by rewrite Ed.
    + exists bar. unfold bar_of, cfg in *. by rewrite Ed.
    + apply (bars_in_same s); [by rewrite Ed | done].
    + intros d. rewrite M. apply Hmax.
    + intros d i Hi. unfold present. rewrite (eng_same_lines _ _ _ _ Hs). by apply Hp.
    + intros d i en' E'. specialize (E d i). rewrite E' in E. destruct (engine_of s d i) as [en |] eqn:E0; [| done].
      destruct E as [Hh [Hmg _]]. unfold bare. rewrite M, Hmg. destruct (Hbelow _ _ _ E0) as [Hbr | ?]; [left | by right].
      intros bf. by rewrite Hh.
  - intros l [|[d i]|i] Ho; unfold own_irq in *; rewrite Hx, ?M, ?Hu.
    + by rewrite Ed.
    + destruct Ho as (? & ? & Hli & Hz). split; [done |]. split; [done |]. split; [by rewrite (eng_same_lines _ _ _ _ Hs) |].
      intros j Hj. rewrite (eng_same_lines _ _ _ _ Hs). by apply Hz.
    + unfold user_line. by rewrite !M.
Qed.

Lemma books_msix b e s s' : msix s' = msix s -> books b e s -> books b e s'.
Proof. intros E [H1 H2]. split; [done |]. by rewrite E. Qed.

Lemma opened_same b e s s' : eng_same s s' -> accounts e s' -> opened b e s -> opened b e s'.
Proof.
  intros Hs A' ((A & W & T) & Hb & Hsh & Hu). destruct (eng_same_parts _ _ Hs) as (_ & Ht & Hu' & Hx & _ & Hsh' & Ho).
  split_and!; [split_and! | by apply (books_msix _ _ s) | auto | congruence]; [done | | by rewrite Ht, Hx].
  eapply within_weaken; [exact Ho | exact W].
Qed.

Lemma offlined_same b e s s' : eng_same s s' -> accounts e s' -> offlined b e s -> offlined b e s'.
Proof.
  intros Hs A' (A & W & Hb & Hsh & Hu & T). destruct (eng_same_parts _ _ Hs) as (_ & Ht & Hu' & Hx & _ & Hsh' & _).
  split_and!; [done | done | by apply (books_msix _ _ s) | auto | congruence | by rewrite Ht, Hx].
Qed.

Definition found (pdev xdev : Z) (l : list xdev_entry) : Prop :=
  exists x, List.find (fun x => xl_pdev x =? pdev) l = Some x /\ xl_addr x = xdev.
Lemma total_check pdev xdev s (Q : Z -> xs K -> Prop) : found pdev xdev (xs_list s) -> Q 0 s ->
  total (debug_check_dev_hndl pdev xdev) s Q.
Proof.
  intros (x & E & Hx) HQ. apply total_bind, total_bind, total_get, total_ret, total_ret. rewrite E. cbn. by rewrite Hx, Z.eqb_refl.
Qed.

Lemma quiesce_ok e s : accounts e s -> mapped s -> total quiesce s (fun _ s' => exists k, s' = set_hw k s /\ accounts e s').
Proof.
  intros He Hm. mstep (by apply (hw_only_mask e s false)). intros [] ? (k1 & -> & A1).
  mstep (by apply (hw_only_mask e (set_hw k1 s) true)). intros [] ? (k2 & -> & A2).
  eapply total_weaken; [| by apply (hw_only_flush e)]. intros [] ? (k3 & -> & A3). by exists k3.
Qed.

Lemma close_ok b e s pdev xdev : fresh b -> opened b e s -> found pdev xdev (xs_list s) ->
  total (xdma_device_close pdev xdev) s (fun _ => returned b xdev s).
Proof.
  intros Hf ((A & W & T) & Hb & (Hmsi & Hm & [Hbars Hto] & Hg & Hum) & Hu) Hfd. apply total_bind, total_check; [done |]. cbn [Z.ltb Z.compare].
  mstep (by apply (quiesce_ok e s)). intros [] ? (k & -> & Ak).
  eapply total_weaken; [| apply (err_interrupts_ok b e (set_hw k s)); try done]. intros [] s'. by apply returned_from.
Qed.

Lemma all_engines_same e s body : accounts e s -> engs s ->
  (forall d s' i en, engine_of s' d i = Some en -> accounts e s' -> total (body d i) s' (fun _ => eng_post e d i s' (same_en en))) ->
  total (_ ← each_engine DMA_TO_DEVICE (body DMA_TO_DEVICE); each_engine DMA_FROM_DEVICE (body DMA_FROM_DEVICE)) s
    (fun _ s' => eng_same s s' /\ accounts e s').
Proof.
  intros He (Hmax & Hp & _) Hb. pose proof (Hmax DMA_TO_DEVICE). pose proof (Hmax DMA_FROM_DEVICE).
  mstep (apply (each_engine_same e s DMA_TO_DEVICE); [done | | by apply Hb]).
  2: { intros i Hi. apply Hp. lia. }
  intros [] s1 [S1 A1]. eapply total_weaken; [| apply (each_engine_same e s1 DMA_FROM_DEVICE); [done | | by apply Hb]].
  - intros [] s2 [S2 A2]. split; [by eapply eng_same_trans | done].
  - intros i Hi. unfold present. rewrite (eng_same_lines _ _ _ _ S1). apply Hp. rewrite (proj1 (proj2 S1)) in Hi. lia.
Qed.

Lemma opened_offlined b e s s' : opened b e s -> freed no_irqs e s s' -> exists e', offlined b e' s'.
Proof.
  intros ((A & W & T) & [Hb Hmx] & (Hmsi & [bar Hm] & Hbars & Hg & Hum) & Hu) (Hst & e1 & O1 & A1 & W1). pose proof Hst as [[Ht _] Ed].
  assert (Hx : msix s' = msix s) by (unfold msix; by rewrite Ed). exists e1. split_and!; [done | done | | | | by rewrite Ht, Hx].
  - split; [intros x H1 H2 H3; rewrite O1 by done; by apply Hb |]. by rewrite Hx, O1.
  - unfold shaped. split_and!; [by rewrite Ed | by apply (mapped_still s); [| exists bar] | by apply (bars_in_same s); [rewrite Ed |] | | |];
      try (unfold user_max; rewrite Ed; apply Hum). apply (irq_rest_engs s); [by apply irq_rest_still | done].
  - unfold in_use. by rewrite Ed.
Qed.

Lemma irqs_upd_same b e s f : (forall x, i_line (f x) = i_line x /\ i_msi (f x) = i_msi x /\ i_msix (f x) = i_msix x /\
    i_user_max (f x) = i_user_max x) ->
  opened b e s -> opened b e (set_dev (upd_irqs f (xs_dev s)) s).
Proof.
  intros Hf ((A & W & T) & Hb & (Hmsi & [bar Hm] & Hbars & Hg & Hum) & Hu). set (s1 := set_dev _ s).
  destruct (Hf (xd_irqs (xs_dev s))) as (F1 & F2 & F3 & F4).
  assert (Hx : msix s1 = msix s) by exact F3. assert (Hm4 : user_max s1 = user_max s) by exact F4.
  split_and!; [split_and! | by apply (books_msix _ _ s) | | done].
  - by apply accounts_same.
  - eapply within_weaken; [| exact W]. intros l [|[d i]|i] Ho; unfold own_irq in *; rewrite Hx, ?Hm4; [| done | done].
    unfold s1. cbn. by rewrite F1.
  - by rewrite Hx.
  - unfold shaped. split_and!; [unfold s1; cbn; by rewrite F2 | by exists bar | done | done | rewrite Hm4; apply Hum | rewrite Hm4; apply Hum].
Qed.

Definition session (b : pci_resource -> Z) s s' : Prop := xs_list s' = xs_list s /\ exists e', opened b e' s'.

Lemma isr_ok b e s (enable : bool) mask : opened b e s ->
  total (if enable then xdma_user_isr_enable mask else xdma_user_isr_disable mask) s (fun _ => session b s).
Proof.
  intros Ho.
  assert (G : forall (f : irqs -> irqs) s1, s1 = set_dev (upd_irqs f (xs_dev s)) s -> opened b e s1 ->
    total (_ ← user_interrupts enable mask; flush_interrupts) s1 (fun _ => session b s)).
  { intros f s1 -> Ho1. pose proof Ho1 as ((A1 & _) & _ & (_ & Hm1 & _) & _). mstep (by apply (hw_only_mask e _ true)). intros [] ? (k1 & -> & A2).
    eapply total_weaken; [| by apply (hw_only_flush e)]. intros [] ? (k2 & -> & A3). split; [done |].
    exists e. apply opened_hw; [by apply opened_hw | done]. }
  destruct enable; apply total_bind, total_upd_dev; (eapply G; [done |]; by apply irqs_upd_same).
Qed.

Lemma offline_ok b e s pdev xdev : opened b e s -> found pdev xdev (xs_list s) ->
  total (xdma_device_offline pdev xdev) s (fun _ s' => xs_list s' = xs_list s /\ exists e', offlined b e' s').
Proof.
  intros Ho Hfd. apply total_bind, total_check; [done |]. cbn [Z.ltb Z.compare]. apply total_bind, total_upd_dev.
  set (s1 := set_dev _ s). assert (Ho1 : opened b e s1) by by apply opened_flags.
  pose proof Ho1 as ((A1 & _) & _ & (_ & _ & _ & Hg1 & _) & _).
  eapply total_same; [| apply (total_bind (_ ← each_engine DMA_TO_DEVICE (take_offline DMA_TO_DEVICE);
      each_engine DMA_FROM_DEVICE (take_offline DMA_FROM_DEVICE)) (fun _ => _ ← quiesce; irq_teardown) s1)];
    [by rewrite st_bind_assoc |].
  eapply total_weaken; [| apply (all_engines_same e s1 take_offline A1 Hg1); intros; by apply take_offline_ok].
  intros [] s2 [S2 A2]. pose proof (opened_same _ _ _ _ S2 A2 Ho1) as Ho2.
  pose proof Ho2 as (R2 & _ & (_ & Hm2 & _) & _). mstep (by apply (quiesce_ok e s2)). intros [] ? (k3 & -> & A3).
  pose proof (opened_hw _ _ _ k3 Ho2 A3) as Ho3. pose proof Ho3 as ((_ & W3 & T3) & _ & (_ & Hm3 & _ & Hg3 & _) & _).
  eapply total_weaken; [| by apply (irq_teardown_ok e)]. intros [] s4 H4. destruct (opened_offlined _ _ _ _ Ho3 H4) as [e' He'].
  split; [| by exists e']. destruct H4 as [[[_ Hl4] _] _]. rewrite Hl4. exact (proj1 (eng_same_parts _ _ S2)).
Qed.

Lemma online_ok b e s pdev xdev : (forall k : K, fst (pci_acquire Tasklet k) = 0) -> offlined b e s -> found pdev xdev (xs_list s) ->
  total (xdma_device_online pdev xdev) s (fun _ => session b s).
Proof.
  intros Hz Ho Hfd. pose proof Ho as (A & _ & _ & (_ & _ & _ & Hg & _) & _). apply total_bind, total_check; [done |]. cbn [Z.ltb Z.compare].
  eapply total_same; [| apply (total_bind (_ ← each_engine DMA_TO_DEVICE (take_online DMA_TO_DEVICE);
      each_engine DMA_FROM_DEVICE (take_online DMA_FROM_DEVICE)) (fun _ => _ ← irq_setup; _ ← channel_interrupts true ALL_ONES;
      d ← get_dev; _ ← user_interrupts true (i_mask_user (xd_irqs d)); _ ← flush_interrupts; xdma_device_flag_clear XDEV_FLAG_OFFLINE) s)];
    [by rewrite st_bind_assoc |].
  eapply total_weaken; [| apply (all_engines_same e s take_online A Hg); intros; by apply take_online_ok].
  intros [] s1 [S1 A1]. pose proof (offlined_same _ _ _ _ S1 A1 Ho) as (_ & W1 & [B1 M1] & (Hmsi1 & Hm1 & Hb1 & Hg1 & Hum1) & Hu1 & T1).
  mstep (apply (irq_setup_ok e s1 Hz); auto).
  intros rv s2 (_ & R2 & e2 & O2 & R2'). pose proof R2 as (Hl2 & (g & l & Ed) & _). destruct (irq_rest_msix _ _ R2) as (Hx2 & Hum2 & _).
  assert (Ho2 : opened b e2 s2).
  { split_and!; [done | | | unfold in_use; by rewrite Ed].
    - split; [intros x H1 H2 H3; rewrite O2 by done; by apply B1 |]. by rewrite Hx2, O2.
    - unfold shaped. split_and!; [by rewrite Ed | by eapply irq_rest_mapped | by apply (bars_in_same s1); [rewrite Ed |] | by eapply irq_rest_engs | |];
        rewrite Hum2; apply Hum1. }
  pose proof Ho2 as ((A2 & _) & _ & (_ & Hm2 & _) & _).
  mstep (by apply (hw_only_mask e2 s2 false)). intros [] ? (k3 & -> & A3).
  apply total_bind, total_dev, total_bind. eapply total_weaken; [| by apply (hw_only_mask e2 (set_hw k3 s2) true)]. intros [] ? (k4 & -> & A4).
  mstep (by apply (hw_only_flush e2)). intros [] ? (k5 & -> & A5).
  apply total_upd_dev. split; [cbn; rewrite Hl2; exact (proj1 (eng_same_parts _ _ S1)) |].
  exists e2. apply opened_flags, opened_hw, A5. apply opened_hw, A4. by apply opened_hw.
Qed.

(** ** A device's life *)

(** What happens to an open device. *)
Inductive session_op := SIsrEnable (mask : Z) | SIsrDisable (mask : Z) | SReset.
Definition run_op (pdev xdev : Z) (op : session_op) : st (xs K) unit :=
  match op with
  | SIsrEnable mask => xdma_user_isr_enable mask
  | SIsrDisable mask => xdma_user_isr_disable mask
  | SReset => _ ← axpci_reset_prepare pdev xdev; axpci_reset_done pdev xdev
  end.
Fixpoint run_session (pdev xdev : Z) (ops : list session_op) : st (xs K) unit :=
  match ops with [] => mret tt | op :: ops => _ ← run_op pdev xdev op; run_session pdev xdev ops end.

(** Open; then, if that worked, a session, perhaps a failure of the bus that
    leaves the device offline, and the close. *)
Definition device_run (xdev pdev u h c : Z) (ops : list session_op) (dead : bool) : st (xs K) bool :=
  r ← xdma_device_open xdev pdev u h c;
  match r with
  | None => mret false
  | Some _ =>
      _ ← run_session pdev xdev ops;
      _ ← (if dead then xdma_device_offline pdev xdev else mret tt);
      _ ← xdma_device_close pdev xdev;
      mret true
  end.

Lemma run_session_ok b pdev xdev ops : (forall k : K, fst (pci_acquire Tasklet k) = 0) -> forall e s,
  opened b e s -> found pdev xdev (xs_list s) -> total (run_session pdev xdev ops) s (fun _ => session b s).
Proof.
  intros Hz. induction ops as [| op ops IH]; intros e s Ho Hfd; cbn [run_session].
  { apply total_ret. split; [done |]. by exists e. }
  apply total_bind. apply (total_weaken _ _ (fun _ => session b s)).
  - intros [] s1 [Hl (e1 & Ho1)]. eapply total_weaken; [| apply (IH e1 s1 Ho1); by rewrite Hl].
    intros [] s2 [Hl2 H2]. split; [congruence | done].
  - destruct op as [mask | mask |]; [by apply (isr_ok b e s true) | by apply (isr_ok b e s false) |].
    mstep (by apply (offline_ok b e)). intros [] s1 [Hl (e1 & Ho1)].
    eapply total_weaken; [| apply (online_ok b e1); [done | done | by rewrite Hl]]. intros [] s2 [Hl2 H2]. split; [congruence | done].
Qed.

(** A device that is offline can be closed: what it does not hold is not given back. *)
Lemma close_offline_ok b e s pdev xdev : fresh b -> offlined b e s -> found pdev xdev (xs_list s) ->
  total (xdma_device_close pdev xdev) s (fun _ => returned b xdev s).
Proof.
  intros Hf (A & W & Hb & Hsh & Hu & T) Hfd. apply (close_ok b e); [done | | done]. split_and!; [split_and! | done | done | done]; try done.
  eapply within_weaken; [| exact W]. by intros l c [].
Qed.


End Life.

(** ** A device to open *)

Module LifeDemo.

(** Registers, and how often each resource is held; the resources in [refused]
    are not to be had, but for tasklets. *)
Record pci := mkPci { p_regs : regfile; p_counts : pci_resource -> nat; p_refused : list pci_resource }.

#[export] Instance pci_device : Device pci := {
  dev_read a k := let '(v, r) := dev_read a (p_regs k) in (v, mkPci r (p_counts k) (p_refused k));
  dev_write a v k := mkPci (dev_write a v (p_regs k)) (p_counts k) (p_refused k);
}.

Definition acquire (r : pci_resource) (k : pci) : Z * pci :=
  if bool_decide (r <> Tasklet /\ r ∈ p_refused k) then (- ENOMEM, k)
  else (0, mkPci (p_regs k) (fun x => if decide (r = x) then S (p_counts k x) else p_counts k x) (p_refused k)).
Definition release (r : pci_resource) (k : pci) : pci :=
  mkPci (p_regs k) (fun x => if decide (r = x) then pred (p_counts k x) else p_counts k x) (p_refused k).

(** Three BARs of 64 KiB, an endpoint with MSI-X. *)
#[export] Instance pci_api : PciApi pci.
Proof.
  refine {|
    pci_acquire := acquire;
    pci_release := release;
    pci_held k r := Z.of_nat (p_counts k r);
    pci_resource_len i := if i <? 3 then 0x10000 else 0;
    iomap_address i := 0x100000 * (i + 1);
    dma_bus e b := 0x40000000;
    pci_irq_vector j := 40 + Z.land j 0xff;
    pci_irq := 11;
    interrupt_pin := 1;
    no_msi := false;
    bus_no_msi := [false];
    pci_find_capability c := true;
    ext_tag_enabled k := true;
    ack_status_interrupt k := k;
    clear_intx_disable k := k;
    pci_enable_relaxed_ordering k := k;
    pcie_set_readrq n k := (0, k);
    pci_set_master k := k;
    dma_set_mask n k := (0, k);
    dma_set_mask_and_coherent n k := k |}; try done.
  - lia.
  - intros r k. unfold acquire. by case_bool_decide.
  - intros r k x. unfold acquire. case_bool_decide; cbn [fst snd p_counts]; repeat case_decide; destruct_and?; lia || tauto || done.
  - intros r k x H. unfold release. cbn. case_decide; subst; lia.
  - intros r k x _ H. unfold release. cbn. case_decide; subst; lia.
  - intros j. assert (H : 0 <= Z.land j 0xff <= 0xff).
    { change 0xff with (Z.ones 8) at 1 2. rewrite Z.land_ones by lia. pose proof (Z.mod_pos_bound j (2 ^ 8)). cbn in *. lia. }
    unfold u32. rewrite Z.mod_small; lia.
Defined.

(** The second BAR has the config registers, one engine each way. *)
Definition board : regfile :=
  [(0x202000, 0x1fc20006); (0x203000, 0x1fc30006); (0x200000, 0x1fc00006); (0x201000, 0x1fc18006)].
Definition start (refused : list pci_resource) : xs pci :=
  mkXs (new_xdev 0 0 0) (mkPci board (fun _ => O) refused) true [] [] [].

Lemma start_fresh l : fresh (pci_held (xs_hw (start l))).
Proof. split_and!; [intros x; cbn; lia | done | done]. Qed.

(** Sixteen user interrupts and an engine each way; the resources it then holds. *)
Example opens : match xdma_device_open 0x5000 7 0 0 0 (start []) with
  | Some (r, s) => r = Some (16, 1, 1) /\ length (xs_actions s) = 18%nat /\ b_config_idx (xd_bars (xs_dev s)) = 1 /\
      b_user_idx (xd_bars (xs_dev s)) = 0 /\ pci_held (xs_hw s) (Dma (DMA_FROM_DEVICE, 0) ResultBuffer) = 1 /\
      pci_held (xs_hw s) (Dma (DMA_TO_DEVICE, 0) ResultBuffer) = 0
  | None => False
  end.
Proof. vm_compute. repeat split. Qed.

(** Refused the interrupt of its fifth user line, it frees all of them, those it
    never had included. *)
Example refused_late : match xdma_device_open 0x5000 7 0 0 0 (start [Irq 46 (ForUser 4)]) with
  | Some (r, s) => r = None /\ xs_actions s = [] /\ length (xs_spurious s) = 16%nat /\ pci_held (xs_hw s) Tasklet = 1
  | None => False
  end.
Proof. vm_compute. repeat split. Qed.

(** Without a tasklet to kill, a refused engine interrupt is the end. *)
Example refused_first : xdma_device_open 0x5000 7 0 0 0 (set_tsk false (start [Irq 40 (ForEngine (DMA_TO_DEVICE, 0))])) = None.
Proof. vm_compute. reflexivity. Qed.


End LifeDemo.
