(* ===== verification/NicTx.v ===== *)
(** * Transmission (xdma_mod.c, libxdma.c)

    Frames are copied into a ring of 1024 buffers whose descriptors form two
    lists; while the engine runs one list, frames gather in the other, and the
    completion interrupt starts it.  A full list stops the network queue until
    the interrupt.  Two channels work so, ordinary frames on channel 0 and
    frames to be timestamped on channel 1, behind one queue. *)

From Stdlib Require Import ZArith Lia Bool.
From S2P Require Import Prelude.
From S2P Require Import Mmio.
From S2P Require Import XdmaEngine.

Definition SIZEOF_NIC_TX_HEADER : Z := 8.
Definition INT_CHANNEL_REQUEST : Z := 0x44.
Definition INT_CHANNEL_PENDING : Z := 0x4C.
Definition INT_CHANNEL_ENABLE_W1S : Z := 0x14.
Definition ALIGN_8_BYTES (x : Z) : Z := Z.land (x + 7) (Z.lnot 7).

Record ax_tx_list := mkTxList {
  idle : Z;
  cur : Z;                           (* u16 *)
  cur_pkt_count : Z;                 (* u32 *)
}.

(** A socket buffer: its data, the bytes of its tailroom, and whether a
    hardware timestamp is asked for. *)
Record tx_skb := mkTxSkb {
  tx_data : list Z;
  tx_tailroom : list Z;
  tx_hw_tstamp : bool;
}.

(** The fields of [ax_private] and [xdma_dev] that transmission uses. *)
Record nic := mkNic {
  n_h2c : list xdma_engine;           (* engine_h2c [XDMA_CHANNEL_NUM_MAX] *)
  n_tx_list : list ax_tx_list;        (* tx_list [XDMA_CHANNEL_NUM_MAX] *)
  n_stop_queue_channel : Z;           (* u8 *)
  n_queue_stopped : bool;             (* netif_queue_stopped(dev) *)
  n_skbs : gmap Z tx_skb;             (* the live socket buffers *)
  n_tx_timestamp : list Z;            (* the queue tx_timestamp *)
  n_tasklet : bool;                   (* tsk_ptp is scheduled *)
  n_int_ctrl : Z;                     (* address of the interrupt_regs *)
  n_mask_irq_h2c : Z;
}.

Definition set_n_h2c (x : list xdma_engine) (r : nic) : nic :=
  mkNic x (n_tx_list r) (n_stop_queue_channel r) (n_queue_stopped r) (n_skbs r)
    (n_tx_timestamp r) (n_tasklet r) (n_int_ctrl r) (n_mask_irq_h2c r).
Definition set_n_tx_list (x : list ax_tx_list) (r : nic) : nic :=
  mkNic (n_h2c r) x (n_stop_queue_channel r) (n_queue_stopped r) (n_skbs r) (n_tx_timestamp r)
    (n_tasklet r) (n_int_ctrl r) (n_mask_irq_h2c r).
Definition set_n_stop_queue_channel (x : Z) (r : nic) : nic :=
  mkNic (n_h2c r) (n_tx_list r) x (n_queue_stopped r) (n_skbs r) (n_tx_timestamp r)
    (n_tasklet r) (n_int_ctrl r) (n_mask_irq_h2c r).
Definition set_n_queue_stopped (x : bool) (r : nic) : nic :=
  mkNic (n_h2c r) (n_tx_list r) (n_stop_queue_channel r) x (n_skbs r) (n_tx_timestamp r)
    (n_tasklet r) (n_int_ctrl r) (n_mask_irq_h2c r).
Definition set_n_skbs (x : gmap Z tx_skb) (r : nic) : nic :=
  mkNic (n_h2c r) (n_tx_list r) (n_stop_queue_channel r) (n_queue_stopped r) x
    (n_tx_timestamp r) (n_tasklet r) (n_int_ctrl r) (n_mask_irq_h2c r).
Definition set_n_tx_timestamp (x : list Z) (r : nic) : nic :=
  mkNic (n_h2c r) (n_tx_list r) (n_stop_queue_channel r) (n_queue_stopped r) (n_skbs r) x
    (n_tasklet r) (n_int_ctrl r) (n_mask_irq_h2c r).
Definition set_n_tasklet (x : bool) (r : nic) : nic :=
  mkNic (n_h2c r) (n_tx_list r) (n_stop_queue_channel r) (n_queue_stopped r) (n_skbs r)
    (n_tx_timestamp r) x (n_int_ctrl r) (n_mask_irq_h2c r).

(** [skb_put]: grow the data into the tailroom; beyond it, a panic. *)
Definition skb_put (n : Z) (b : tx_skb) : option tx_skb :=
  if n <=? Z.of_nat (length (tx_tailroom b)) then
    Some (mkTxSkb (tx_data b ++ take (Z.to_nat n) (tx_tailroom b))
            (drop (Z.to_nat n) (tx_tailroom b)) (tx_hw_tstamp b))
  else None.

Definition tx_len (b : tx_skb) : Z := Z.of_nat (length (tx_data b)).

(** The padding of short frames. *)
Definition pad_frame (b : tx_skb) : option tx_skb :=
  if (tx_len b <? 60) && negb (Z.of_nat (length (tx_tailroom b)) =? 0)
  then skb_put (60 - tx_len b) b else Some b.

Section Tx.
Context {D : Type} `{Device D}.
Local Open Scope io_scope.

Definition get_h2c (n : nic) (channel : Z) : io D xdma_engine := lift_opt (getz (n_h2c n) channel).
Definition put_h2c (channel : Z) (e : xdma_engine) (n : nic) : io D nic :=
  let! l := lift_opt (setz (n_h2c n) channel e) in ret (set_n_h2c l n).
Definition get_list (n : nic) (channel : Z) : io D ax_tx_list := lift_opt (getz (n_tx_list n) channel).
Definition put_list (channel : Z) (l : ax_tx_list) (n : nic) : io D nic :=
  let! l := lift_opt (setz (n_tx_list n) channel l) in ret (set_n_tx_list l n).

(** [transfer->current_list = (transfer->current_list + 1) % DESC_LIST_NUM] *)
Definition next_list (e : xdma_engine) : io D xdma_engine :=
  let! t := lift_opt (e_transfer e) in
  ret (set_e_transfer (Some (set_current_list
         (u8 (Z.rem (current_list t + 1) DESC_LIST_NUM)) t)) e).

(** [desc_virt[i].control = DESC_MAGIC | EOP | STOPPED] *)
Definition set_stop (i : Z) (e : xdma_engine) : io D xdma_engine :=
  let! desc := lift_opt (e_desc e) in
  let! d := lift_opt (getz desc i) in
  let! desc := lift_opt (setz desc i (set_control
                 (u32 (Z.lor (Z.lor DESC_MAGIC XDMA_DESC_EOP) XDMA_DESC_STOPPED)) d)) in
  ret (set_e_desc (Some desc) e).

(** Start the engine on the list just filled and move to the other one. *)
Definition start_list (e : xdma_engine) : io D (xdma_engine * ax_tx_list) :=
  let! e := engine_start e in
  let! e := next_list e in
  let! t := lift_opt (e_transfer e) in
  ret (e, mkTxList 0 (u16 (current_list t * Z.quot TX_DESC_NUM DESC_LIST_NUM)) 0).

(** Header and frame into the buffer of the entry, length into its descriptor. *)
Definition fill_entry (entry : Z) (b : tx_skb) (e : xdma_engine) : io D xdma_engine :=
  let! bufs := lift_opt (tx_buff e) in
  let! desc := lift_opt (e_desc e) in
  let! data := lift_opt (getz bufs entry) in
  let length_ := u16 (tx_len b) in
  let! data := lift_opt (store_bytes data 0 [length_; Z.shiftr length_ 8]) in
  let! data := lift_opt (store_bytes data SIZEOF_NIC_TX_HEADER (tx_data b)) in
  let! bufs := lift_opt (setz bufs entry data) in
  let trans_length := u32 (ALIGN_8_BYTES (tx_len b + SIZEOF_NIC_TX_HEADER)) in
  let! d := lift_opt (getz desc entry) in
  let! desc := lift_opt (setz desc entry (set_bytes trans_length d)) in
  ret (set_e_desc (Some desc) (set_tx_buff (Some bufs) e)).

(** The part of [ax_net_start_xmit] under the lock. *)
Definition xmit_locked (skb index : Z) (n : nic) : io D nic :=
  let! list := get_list n index in
  let! engine := get_h2c n index in
  let! transfer := lift_opt (e_transfer engine) in
  let! b := lift_opt (n_skbs n !! skb) in
  let! b := lift_opt (pad_frame b) in
  let n := set_n_skbs (<[skb := b]> (n_skbs n)) n in
  let entry := cur list in
  let! engine := fill_entry entry b engine in
  let count := u32 (cur_pkt_count list + 1) in
  if idle list =? 1 then
    let! engine := set_stop entry engine in
    let! r := start_list engine in
    let! n := put_h2c index (fst r) n in
    put_list index (snd r) n
  else
    let! desc := lift_opt (e_desc engine) in
    let! d := lift_opt (getz desc entry) in
    let! desc := lift_opt (setz desc entry (set_control DESC_MAGIC d)) in
    let cur := u16 (Z.rem (entry + 1) TX_DESC_NUM) in
    let! n := put_h2c index (set_e_desc (Some desc) engine) n in
    let! n := put_list index (mkTxList (idle list) cur count) n in
    if (cur =? 0) || (cur =? Z.quot TX_DESC_NUM DESC_LIST_NUM) then
      ret (set_n_stop_queue_channel index (set_n_queue_stopped true n))
    else ret n.

(** [ax_net_start_xmit]: the frame is queued for its timestamp before the lock
    is taken, and freed at the end unless it was.  The use of a buffer that has
    been freed is a trap. *)
Definition ax_net_start_xmit (skb : Z) (n : nic) : io D nic :=
  let! b := lift_opt (n_skbs n !! skb) in
  let n := if tx_hw_tstamp b then set_n_tx_timestamp (n_tx_timestamp n ++ [skb]) n else n in
  let index := if tx_hw_tstamp b then 1 else 0 in
  let! n := xmit_locked skb index n in
  let! b := lift_opt (n_skbs n !! skb) in
  if tx_hw_tstamp b then ret n else ret (set_n_skbs (delete skb (n_skbs n)) n).

(** The engine has stopped: start the list gathered meanwhile, if any.  [between]
    is what a handler does after stopping the engine. *)
Definition h2c_complete (between : nic -> io D nic) (channel : Z) (n : nic) : io D nic :=
  let! engine := get_h2c n channel in
  let! transfer := lift_opt (e_transfer engine) in
  let! list := get_list n channel in
  let! r := engine_status_read engine in
  let! engine := xdma_engine_stop (fst r) in
  let! n := put_h2c channel engine n in
  let! n := between n in
  if negb (cur_pkt_count list =? 0) then
    let stop_desc := if cur list =? 0 then RX_DESC_NUM - 1 else cur list - 1 in
    let! engine := set_stop stop_desc engine in
    let! r := start_list engine in
    let! n := put_h2c channel (fst r) n in
    put_list channel (snd r) n
  else put_list channel (mkTxList 1 (cur list) (cur_pkt_count list)) n.

(** Wake the network queue if this channel stopped it. *)
Definition h2c_wake (channel : Z) (n : nic) : nic :=
  if n_stop_queue_channel n =? channel then
    set_n_stop_queue_channel 0xFF (set_n_queue_stopped false n)
  else n.

(** The body the two MSI-X handlers share. *)
Definition h2c_irq (between : nic -> io D nic) (channel : Z) (n : nic) : io D nic :=
  let! engine := get_h2c n channel in
  let! ch_irq := readl (n_int_ctrl n + INT_CHANNEL_REQUEST) in
  let mask := Z.land ch_irq (n_mask_irq_h2c n) in
  if mask =? 0 then ret n
  else
    do! writel (reg engine ENG_INT_MASK_W1C) (e_interrupt_enable_mask_value (e_config engine)) in
    do! readl (n_int_ctrl n + INT_CHANNEL_PENDING) in
    let! n :=
      (if negb (Z.land (e_irq_bitmask (e_config engine)) mask =? 0) &&
          (e_magic (e_config engine) =? MAGIC_ENGINE)
       then let! n := h2c_complete between channel n in ret (h2c_wake channel n)
       else ret n) in
    do! writel (reg engine ENG_INT_MASK_W1S) (e_interrupt_enable_mask_value (e_config engine)) in
    ret n.

Definition xdma_channel_H2C_irq (n : nic) : io D nic := h2c_irq ret 0 n.

(** The handler of channel 1 schedules the tasklet that serves timestamps. *)
Definition xdma_channel_H2C_PTP_irq (n : nic) : io D nic :=
  h2c_irq (fun n => ret (set_n_tasklet true n)) 1 n.

(** The transmit part of the handler for legacy and MSI interrupts, on the
    channel requests it has read. *)
Definition isr_h2c_channel (channel : Z) (r : Z * nic) : io D (Z * nic) :=
  let '(mask, n) := r in
  if mask =? 0 then ret (mask, n)
  else
    let! engine := get_h2c n channel in
    if negb (Z.land (e_irq_bitmask (e_config engine)) mask =? 0) &&
       (e_magic (e_config engine) =? MAGIC_ENGINE)
    then
      let mask := Z.land mask (Z.lnot (e_irq_bitmask (e_config engine))) in
      let! n := h2c_complete (fun n =>
        do! readl (reg engine ENG_COMPLETED_DESC_COUNT) in ret n) channel n in
      do! writel (n_int_ctrl n + INT_CHANNEL_ENABLE_W1S) (e_irq_bitmask (e_config engine)) in
      ret (mask, h2c_wake channel n)
    else ret (mask, n).

Definition xdma_isr_h2c (h2c_channel_max : nat) (ch_irq : Z) (n : nic) : io D nic :=
  let! r := for_io h2c_channel_max 0 isr_h2c_channel (Z.land ch_irq (n_mask_irq_h2c n), n) in
  ret (snd r).

End Tx.

(** The buffer addresses of a transmit ring, from descriptor [i] on. *)
Fixpoint init_tx_ring (n : nat) (i tx_buff_bus : Z) (desc : list xdma_desc) : option (list xdma_desc) :=
  match n with
  | O => Some desc
  | S n =>
      d ← getz desc i;
      desc ← setz desc i (mkDesc (control d) PKT_BUF_LEN
        (u32 (PCI_DMA_L tx_buff_bus)) (u32 (PCI_DMA_H tx_buff_bus))
        (dst_addr_lo d) (dst_addr_hi d) (next_lo d) (next_hi d));
      init_tx_ring n (i + 1) (u64 (tx_buff_bus + DMA_PACKET_SIZE)) desc
  end.

(** [ax_net_init_ring] on a transmit engine. *)
Definition init_tx_engine (e : xdma_engine) : option xdma_engine :=
  desc ← e_desc e;
  desc ← init_tx_ring (Z.to_nat TX_DESC_NUM) 0 (tx_buff_bus (e_config e)) desc;
  Some (set_e_desc (Some desc) e).

(** ** What the memory of a channel means *)

Abbreviation frame := (list Z).

(** The frame in the bytes the device takes for one descriptor: its length is
    in the header. *)
Definition frame_of (payload : list Z) : option frame :=
  lo ← getz payload 0;
  hi ← getz payload 1;
  let len := lo + 2 ^ 8 * hi in
  if 8 + len <=? Z.of_nat (length payload) then Some (take (Z.to_nat len) (drop 8 payload)) else None.

(** The frame descriptor [i] stands for. *)
Definition slot (e : xdma_engine) (i : Z) : option frame :=
  desc ← e_desc e;
  bufs ← tx_buff e;
  d ← getz desc i;
  let off := src_addr_hi d * 2 ^ 32 + src_addr_lo d - tx_buff_bus (e_config e) in
  if off mod DMA_PACKET_SIZE =? 0 then
    b ← getz bufs (off / DMA_PACKET_SIZE);
    if bytes d <=? Z.of_nat (length b) then frame_of (take (Z.to_nat (bytes d)) b) else None
  else None.

(** The frames the device fetches: those of the list it was started on, which
    is the one the driver has moved away from. *)
Definition running_frames (e : xdma_engine) : option (list frame) :=
  if e_running e then
    t ← e_transfer e;
    desc ← e_desc e;
    head ← getz (list_desc t) (1 - current_list t);
    indices ← fetch 1024 (t_desc_bus t) desc head;
    mapM (slot e) indices
  else Some [].

(** The frames gathered for the next start. *)
Definition waiting_frames (e : xdma_engine) (l : ax_tx_list) : option (list frame) :=
  t ← e_transfer e;
  mapM (slot e) (seqZ (current_list t * 512) (cur_pkt_count l)).

(** Descriptor [i] stands for [f], and does or does not end its list. *)
Definition holds (e : xdma_engine) (i : Z) (last : bool) (f : frame) : Prop :=
  slot e i = Some f /\ exists desc d, e_desc e = Some desc /\ getz desc i = Some d /\
    if last then stops d else goes_on d.

(** The ring: two linked lists of 512 descriptors, each with its own buffer. *)
Definition ring_entry (t : xdma_transfer) (c : engine_config) (i : Z) (d : xdma_desc) (b : list Z) : Prop :=
  Z.of_nat (length b) = DMA_PACKET_SIZE /\
  src_addr_hi d * 2 ^ 32 + src_addr_lo d = tx_buff_bus c + DMA_PACKET_SIZE * i /\
  (i <> 511 -> i <> 1023 -> linked (t_desc_bus t) i d).

Record ring_ok (e : xdma_engine) (t : xdma_transfer) : Prop := {
  ring_transfer : e_transfer e = Some t;
  ring_heads : list_desc t = [t_desc_bus t; desc_addr (t_desc_bus t) 512];
  ring_bus : 0 <= t_desc_bus t /\ t_desc_bus t + SIZEOF_XDMA_DESC * 1024 < 2 ^ 64;
  ring_current : current_list t = 0 \/ current_list t = 1;
  ring_memory : exists desc bufs, e_desc e = Some desc /\ tx_buff e = Some bufs /\
    forall i, 0 <= i < 1024 -> exists d b, getz desc i = Some d /\ getz bufs i = Some b /\
      ring_entry t (e_config e) i d b;
}.

(** The invariant of a channel that is transmitting [run] and has gathered
    [pend]. *)
Record chan_ok (e : xdma_engine) (l : ax_tx_list) (run pend : list frame) : Prop := {
  ok_ring : exists t, ring_ok e t /\
    cur l = (current_list t * 512 + cur_pkt_count l) mod 1024 /\
    (forall j f, pend !! j = Some f -> holds e (current_list t * 512 + Z.of_nat j) false f) /\
    (forall j f, run !! j = Some f ->
       holds e ((1 - current_list t) * 512 + Z.of_nat j) (bool_decide (S j = length run)) f);
  ok_count : cur_pkt_count l = Z.of_nat (length pend);
  ok_pend : Z.of_nat (length pend) <= 512;
  ok_run : Z.of_nat (length run) <= 512;
  ok_idle : match run with
            | [] => idle l = 1 /\ e_running e = false /\ pend = []
            | _ => idle l = 0 /\ e_running e = true
            end;
}.

Lemma mapM_seqZ {B} (f : Z -> option B) a (l : list B) :
  (forall j x, l !! j = Some x -> f (a + Z.of_nat j) = Some x) ->
  mapM f (seqZ a (Z.of_nat (length l))) = Some l.
Proof.
  intros Hf. apply mapM_Some_2. apply Forall2_same_length_lookup_2.
  - rewrite length_seqZ. lia.
  - intros j i x Hi Hx. apply lookup_seqZ in Hi as [-> Hi]. by apply Hf.
Qed.

Lemma ring_list_head e t k : ring_ok e t -> k = 0 \/ k = 1 ->
  getz (list_desc t) k = Some (desc_addr (t_desc_bus t) (k * 512)).
Proof.
  intros R [-> | ->]; rewrite (ring_heads e t R); [| done]. rewrite Z.mul_0_l.
  unfold desc_addr. by rewrite Z.mul_0_r, Z.add_0_r.
Qed.

(** The invariant tells what the device fetches and what waits. *)
Lemma chan_frames e l run pend : chan_ok e l run pend ->
  running_frames e = Some run /\ waiting_frames e l = Some pend.
Proof.
  intros [(t & R & _ & Hp & Hr) Hc Hpl Hrl Hi].
  pose proof (ring_current e t R) as Hcl.
  destruct (ring_memory e t R) as (desc & bufs & Ed & Eb & Hring).
  split.
  - unfold running_frames. destruct (decide (run = [])) as [-> | Hne].
    { destruct Hi as (_ & -> & _). done. }
    assert (Hrunning : e_running e = true) by (destruct run; [done | apply Hi]).
    rewrite Hrunning, (ring_transfer e t R), Ed. cbn [mbind option_bind].
    set (n := (length run - 1)%nat).
    assert (Hn : length run = S n) by (destruct run; [done | unfold n; simpl; lia]).
    set (base := (1 - current_list t) * 512) in *.
    assert (Hbase : base = 0 \/ base = 512) by (unfold base; lia).
    rewrite (ring_list_head e t _ R) by lia. fold base. cbn [mbind option_bind].
    rewrite (fetch_chain _ _ n); [| lia | lia | |].
    + cbn [mbind option_bind]. replace (Z.of_nat n + 1) with (Z.of_nat (length run)) by lia.
      apply mapM_seqZ. intros j x Hx. by destruct (Hr j x Hx) as (Hs & _).
    + intros i Hi2. destruct (lookup_lt_is_Some_2 run (Z.to_nat (i - base))) as [x Hx]; [lia |].
      destruct (Hr _ _ Hx) as (_ & desc' & d & Ed' & Hd & Hgo).
      rewrite Ed in Ed'. injection Ed' as <-.
      replace (base + Z.of_nat (Z.to_nat (i - base))) with i in Hd by lia.
      exists d. split; [done |]. rewrite bool_decide_false in Hgo by lia. split; [done |].
      destruct (Hring i) as (d' & b & Hd' & _ & _ & _ & Hl); [lia |].
      rewrite Hd in Hd'. injection Hd' as <-. apply Hl; lia.
    + destruct (lookup_lt_is_Some_2 run n) as [x Hx]; [lia |].
      destruct (Hr _ _ Hx) as (_ & desc' & d & Ed' & Hd & Hst).
      rewrite Ed in Ed'. injection Ed' as <-. exists d. split; [done |].
      by rewrite bool_decide_true in Hst by lia.
  - unfold waiting_frames. rewrite (ring_transfer e t R). cbn [mbind option_bind]. rewrite Hc.
    apply mapM_seqZ. intros j x Hx. by destruct (Hp j x Hx) as (Hs & _).
Qed.

(** ** Writing one entry of the ring *)

(** [e'] is [e] with entry [i] rewritten, the addresses in it kept. *)
Definition written (i : Z) (e e' : xdma_engine) : Prop :=
  e_config e' = e_config e /\ e_transfer e' = e_transfer e /\ e_running e' = e_running e /\
  exists desc bufs d d' b b', e_desc e = Some desc /\ tx_buff e = Some bufs /\
    getz desc i = Some d /\ getz bufs i = Some b /\
    e_desc e' = Some (<[Z.to_nat i := d']> desc) /\ tx_buff e' = Some (<[Z.to_nat i := b']> bufs) /\
    src_addr_hi d' = src_addr_hi d /\ src_addr_lo d' = src_addr_lo d /\
    next_hi d' = next_hi d /\ next_lo d' = next_lo d /\ length b' = length b.

(** The parts of an engine the ring depends on. *)
Definition same_memory (e e' : xdma_engine) : Prop :=
  e_config e' = e_config e /\ e_desc e' = e_desc e /\ tx_buff e' = tx_buff e.

Lemma getz_insert {A} (l : list A) i j x y : getz l i = Some y -> 0 <= j ->
  getz (<[Z.to_nat i := x]> l) j = if decide (j = i) then Some x else getz l j.
Proof.
  intros Hi Hj. pose proof (getz_Some_range _ _ _ Hi) as Hr. rewrite !getz_nonneg by lia.
  case_decide as E; [subst; apply list_lookup_insert_eq; lia |].
  apply list_lookup_insert_ne. lia.
Qed.

Lemma slot_entry e t desc bufs i d b :
  ring_ok e t -> e_desc e = Some desc -> tx_buff e = Some bufs -> 0 <= i < 1024 ->
  getz desc i = Some d -> getz bufs i = Some b ->
  slot e i = (if bytes d <=? DMA_PACKET_SIZE then frame_of (take (Z.to_nat (bytes d)) b) else None) /\
  ring_entry t (e_config e) i d b.
Proof.
  intros R Ed Eb Hi Hd Hb. destruct (ring_memory e t R) as (desc' & bufs' & Ed' & Eb' & Hring).
  rewrite Ed in Ed'. rewrite Eb in Eb'. injection Ed' as <-. injection Eb' as <-.
  destruct (Hring i Hi) as (d' & b' & Hd' & Hb' & He). rewrite Hd in Hd'. rewrite Hb in Hb'.
  injection Hd' as <-. injection Hb' as <-. split; [| done].
  destruct He as (Hlen & Hsrc & _). unfold slot. rewrite Ed, Eb. cbn [mbind option_bind].
  rewrite Hd. cbn [mbind option_bind]. rewrite Hsrc.
  replace (tx_buff_bus (e_config e) + DMA_PACKET_SIZE * i - tx_buff_bus (e_config e))
    with (i * DMA_PACKET_SIZE) by lia.
  rewrite Z_mod_mult, Z_div_mult by (unfold DMA_PACKET_SIZE; lia). rewrite Z.eqb_refl, Hb.
  cbn [mbind option_bind]. by rewrite Hlen.
Qed.

Lemma written_ring i e e' t : 0 <= i < 1024 -> written i e e' -> ring_ok e t -> ring_ok e' t.
Proof.
  intros Hi (Ec & Et & _ & desc & bufs & d & d' & b & b' & Ed & Eb & Hd & Hb & Ed' & Eb' &
    Hs1 & Hs2 & Hn1 & Hn2 & Hl) R.
  destruct (slot_entry e t desc bufs i d b R Ed Eb Hi Hd Hb) as [_ (L1 & L2 & L3)].
  destruct R as [R1 R2 R3 R4 (desc0 & bufs0 & Ed0 & Eb0 & Hring)].
  rewrite Ed in Ed0. rewrite Eb in Eb0. injection Ed0 as <-. injection Eb0 as <-.
  split; try done; [congruence |]. exists (<[Z.to_nat i := d']> desc), (<[Z.to_nat i := b']> bufs).
  split_and!; try done. intros j Hj.
  rewrite (getz_insert _ i j _ _ Hd), (getz_insert _ i j _ _ Hb) by lia. case_decide as E.
  - subst j. exists d', b'. split; [done |]. split; [done |]. unfold ring_entry, linked.
    rewrite Hs1, Hs2, Hn1, Hn2, Hl, Ec. done.
  - destruct (Hring j Hj) as (dj & bj & H1 & H2 & H3). exists dj, bj. by rewrite Ec.
Qed.

Lemma written_holds i e e' t j last f : 0 <= i < 1024 -> 0 <= j < 1024 -> j <> i ->
  written i e e' -> ring_ok e t -> holds e j last f -> holds e' j last f.
Proof.
  intros Hi Hj Hne W R [Hs (desc1 & dj & Ed1 & Hdj & Hst)].
  pose proof (written_ring i e e' t Hi W R) as R'.
  destruct W as (Ec & Et & _ & desc & bufs & d & d' & b & b' & Ed & Eb & Hd & Hb & Ed' & Eb' & _).
  rewrite Ed in Ed1. injection Ed1 as <-.
  destruct (ring_memory e t R) as (desc0 & bufs0 & Ed0 & Eb0 & Hring).
  rewrite Ed in Ed0. rewrite Eb in Eb0. injection Ed0 as <-. injection Eb0 as <-.
  destruct (Hring j Hj) as (dj' & bj & Hdj' & Hbj & _).
  rewrite Hdj in Hdj'. injection Hdj' as <-.
  assert (Gd : getz (<[Z.to_nat i := d']> desc) j = Some dj).
  { rewrite (getz_insert _ i j _ _ Hd) by lia. by rewrite decide_False. }
  assert (Gb : getz (<[Z.to_nat i := b']> bufs) j = Some bj).
  { rewrite (getz_insert _ i j _ _ Hb) by lia. by rewrite decide_False. }
  split; [| by eexists _, dj].
  destruct (slot_entry e' t _ _ j dj bj R' Ed' Eb' Hj Gd Gb) as [-> _].
  destruct (slot_entry e t _ _ j dj bj R Ed Eb Hj Hdj Hbj) as [E _]. by rewrite <- E.
Qed.

Lemma same_holds e e' i last f : same_memory e e' -> holds e i last f -> holds e' i last f.
Proof.
  intros (E1 & E2 & E3) [Hs (desc & d & Ed & Hd & Hst)]. split.
  - rewrite <- Hs. unfold slot. by rewrite E1, E2, E3.
  - exists desc, d. by rewrite E2.
Qed.

Lemma same_ring e e' t k : same_memory e e' -> ring_ok e t ->
  e_transfer e' = Some (set_current_list k t) -> k = 0 \/ k = 1 -> ring_ok e' (set_current_list k t).
Proof.
  intros (E1 & E2 & E3) [R1 R2 R3 R4 (desc & bufs & Ed & Eb & Hring)] Et Hk. split; try done.
  exists desc, bufs. rewrite E1, E2, E3. split_and!; done.
Qed.

(** ** The frame in a buffer *)

Definition frame_fits (f : frame) : Prop :=
  SIZEOF_NIC_TX_HEADER + Z.of_nat (length f) <= DMA_PACKET_SIZE /\ Forall is_u8 f.

Lemma u8_fmap (f : frame) : Forall is_u8 f -> u8 <$> f = f.
Proof.
  induction 1 as [| x f Hx _ IH]; [done |]. rewrite fmap_cons, IH. by rewrite u8_small.
Qed.

Lemma frame_of_buffer (f : frame) x6 rest m :
  frame_fits f -> length x6 = 6%nat -> (8 + length f <= m)%nat ->
  (m <= length ([u8 (Z.of_nat (length f)); u8 (Z.shiftr (Z.of_nat (length f)) 8)] ++ x6 ++ f ++ rest))%nat ->
  frame_of (take m ([u8 (Z.of_nat (length f)); u8 (Z.shiftr (Z.of_nat (length f)) 8)] ++ x6 ++ f ++ rest))
  = Some f.
Proof.
  intros [Hf _] H6 Hm Hm2. unfold SIZEOF_NIC_TX_HEADER, DMA_PACKET_SIZE in Hf.
  set (n := Z.of_nat (length f)) in *.
  destruct m as [| [| m]]; try lia. rewrite <- !app_comm_cons, app_nil_l, !firstn_cons.
  unfold frame_of. rewrite getz_0. cbn [mbind option_bind]. rewrite getz_1. cbn [mbind option_bind].
  assert (En : u8 n + 2 ^ 8 * u8 (Z.shiftr n 8) = n).
  { rewrite Z.shiftr_div_pow2 by lia. rewrite (u8_small (n / 2 ^ 8)).
    - unfold u8. pose proof (Z_div_mod_eq_full n (2 ^ 8)). lia.
    - unfold is_u8. Z.div_mod_to_equations; lia. }
  rewrite En. cbn [length]. rewrite length_take.
  rewrite !length_app in *. cbn [length] in Hm2.
  rewrite (proj2 (Z.leb_le _ _)) by lia. f_equal.
  change (take (Z.to_nat n) (drop 6 (take m (x6 ++ f ++ rest))) = f).
  replace m with (length x6 + (length f + (m - 6 - length f)))%nat by lia.
  rewrite take_app_add, <- H6, drop_app_length.
  unfold n. rewrite Nat2Z.id, take_app_add. by rewrite take_app_length.
Qed.

Lemma setz_get {A} (l : list A) i x y : getz l i = Some y ->
  setz l i x = Some (<[Z.to_nat i := x]> l).
Proof. intros Hi. apply setz_in. by eapply getz_Some_range. Qed.

(** Header and frame stored into a buffer. *)
Lemma fill_buffer (b : list Z) (f : frame) :
  Z.of_nat (length b) = DMA_PACKET_SIZE -> frame_fits f ->
  let n := Z.of_nat (length f) in
  exists b1 b2, store_bytes b 0 [n; Z.shiftr n 8] = Some b1 /\
    store_bytes b1 SIZEOF_NIC_TX_HEADER f = Some b2 /\ length b2 = length b /\
    forall m, (8 + length f <= m <= length b)%nat -> frame_of (take m b2) = Some f.
Proof.
  intros Hb Hf n. pose proof Hf as [Hfit H8]. unfold DMA_PACKET_SIZE, SIZEOF_NIC_TX_HEADER in *.
  assert (Hsplit : exists h x6 old rest, b = h ++ x6 ++ old ++ rest /\
            length h = 2%nat /\ length x6 = 6%nat /\ length old = length f).
  { exists (take 2 b), (take 6 (drop 2 b)), (take (length f) (drop 8 b)), (drop (8 + length f) b).
    split_and!; [| rewrite length_take; lia | rewrite length_take, length_drop; lia
                 | rewrite length_take, length_drop; lia].
    replace (drop (8 + length f) b) with (drop (length f) (drop 8 b)) by (rewrite drop_drop; done).
    replace (drop 8 b) with (drop 6 (drop 2 b)) by (rewrite drop_drop; done).
    by rewrite !take_drop. }
  destruct Hsplit as (h & x6 & old & rest & -> & H2 & H6 & Ho).
  exists ([u8 n; u8 (Z.shiftr n 8)] ++ x6 ++ old ++ rest),
         ([u8 n; u8 (Z.shiftr n 8)] ++ x6 ++ f ++ rest).
  split_and!.
  - exact (store_bytes_app [] h (x6 ++ old ++ rest) [n; Z.shiftr n 8] H2).
  - pose proof (store_bytes_app ([u8 n; u8 (Z.shiftr n 8)] ++ x6) old rest f Ho) as E.
    rewrite length_app, H6, u8_fmap, <- !app_assoc in E by done. exact E.
  - rewrite !length_app, Ho, H2. done.
  - intros m Hm. rewrite !length_app in Hm. apply frame_of_buffer; [done | done | lia |].
    rewrite !length_app. cbn [length]. lia.
Qed.

Lemma align_8 x : 0 <= x <= 2048 -> x <= ALIGN_8_BYTES x /\ (x <= 2048 -> ALIGN_8_BYTES x <= 2048).
Proof.
  intros Hx. assert (E : ALIGN_8_BYTES x = (x + 7) / 8 * 8).
  { unfold ALIGN_8_BYTES. change 7 with (Z.ones 3) at 2.
    rewrite <- Z.ldiff_land, Z.ldiff_ones_r by lia. by rewrite Z.shiftr_div_pow2, Z.shiftl_mul_pow2 by lia. }
  rewrite E. Z.div_mod_to_equations; lia.
Qed.

Section Steps.
Context {D : Type} `{Device D}.

(** A step of the driver that only touches memory. *)
Definition mem_step {A} (m : io D A) (Q : A -> Prop) : Prop :=
  obs m (fun r l => exists a, r = Ok a /\ l = [] /\ Q a).

Lemma fill_entry_step e t i b : ring_ok e t -> 0 <= i < 1024 -> frame_fits (tx_data b) ->
  mem_step (fill_entry i b e) (fun e' => written i e e' /\ slot e' i = Some (tx_data b)).
Proof.
  intros R Hi Hf. unfold mem_step, fill_entry.
  destruct (ring_memory e t R) as (desc & bufs & Ed & Eb & Hring).
  destruct (Hring i Hi) as (d & buf & Hd & Hb & (Hlen & Hsrc & Hln)).
  pose proof Hf as [Hfit _]. unfold SIZEOF_NIC_TX_HEADER, DMA_PACKET_SIZE in Hfit.
  destruct (fill_buffer buf (tx_data b) Hlen Hf) as (b1 & b2 & E1 & E2 & El & Hframe).
  repeat io_step. rewrite Eb. io_step. io_step. rewrite Ed. io_step. io_step. rewrite Hb.
  io_step. io_step. unfold tx_len. rewrite (u16_small (Z.of_nat _)) by (unfold is_u16; lia).
  rewrite E1. io_step. io_step. rewrite E2. io_step. io_step. rewrite (setz_get _ _ _ _ Hb).
  io_step. io_step. rewrite Hd. io_step. io_step. rewrite (setz_get _ _ _ _ Hd).
  repeat io_step. eexists. split; [reflexivity |]. split; [done |].
  set (e' := set_e_desc _ _).
  assert (W : written i e e').
  { unfold written. split; [done |]. split; [done |]. split; [done |].
    exists desc, bufs, d, (set_bytes (u32 (ALIGN_8_BYTES (Z.of_nat (length (tx_data b)) + SIZEOF_NIC_TX_HEADER))) d), buf, b2.
    by split_and!. }
  split; [done |].
  pose proof (written_ring i e e' t Hi W R) as R'.
  assert (Gd : getz (<[Z.to_nat i := set_bytes (u32 (ALIGN_8_BYTES (Z.of_nat (length (tx_data b)) + SIZEOF_NIC_TX_HEADER))) d]> desc) i
    = Some (set_bytes (u32 (ALIGN_8_BYTES (Z.of_nat (length (tx_data b)) + SIZEOF_NIC_TX_HEADER))) d)).
  { rewrite (getz_insert _ i i _ _ Hd) by lia. by rewrite decide_True. }
  assert (Gb : getz (<[Z.to_nat i := b2]> bufs) i = Some b2).
  { rewrite (getz_insert _ i i _ _ Hb) by lia. by rewrite decide_True. }
  destruct (slot_entry e' t _ _ i _ _ R' eq_refl eq_refl Hi Gd Gb) as [-> _].
  cbn [bytes set_bytes]. unfold SIZEOF_NIC_TX_HEADER, DMA_PACKET_SIZE in *.
  destruct (align_8 (Z.of_nat (length (tx_data b)) + 8)) as [A1 A2]; [lia |].
  rewrite u32_small by (unfold is_u32; lia). rewrite (proj2 (Z.leb_le _ 2048)) by lia.
  apply Hframe. lia.
Qed.

(** Rewriting the control word of an entry. *)
Lemma control_step e t i v :
  ring_ok e t -> 0 <= i < 1024 ->
  exists desc d, e_desc e = Some desc /\ getz desc i = Some d /\
    setz desc i (set_control v d) = Some (<[Z.to_nat i := set_control v d]> desc) /\
    let e' := set_e_desc (Some (<[Z.to_nat i := set_control v d]> desc)) e in
    written i e e' /\ slot e' i = slot e i /\
    exists desc' d', e_desc e' = Some desc' /\ getz desc' i = Some d' /\ control d' = v.
Proof.
  intros R Hi. destruct (ring_memory e t R) as (desc & bufs & Ed & Eb & Hring).
  destruct (Hring i Hi) as (d & buf & Hd & Hb & _). exists desc, d.
  split; [done |]. split; [done |]. split; [by apply (setz_get _ _ _ _ Hd) |].
  intros e'.
  assert (W : written i e e').
  { unfold written. split; [done |]. split; [done |]. split; [done |].
    exists desc, bufs, d, (set_control v d), buf, buf. split_and!; try done.
    cbn. rewrite Eb. f_equal. symmetry. apply list_insert_id.
    rewrite getz_nonneg in Hb by lia. done. }
  assert (Gd : getz (<[Z.to_nat i := set_control v d]> desc) i = Some (set_control v d)).
  { rewrite (getz_insert _ i i _ _ Hd) by lia. by rewrite decide_True. }
  split; [done |]. split; [| by exists (<[Z.to_nat i := set_control v d]> desc), (set_control v d)].
  pose proof (written_ring i e e' t Hi W R) as R'.
  destruct (slot_entry e' t (<[Z.to_nat i := set_control v d]> desc) bufs i _ _ R' eq_refl Eb Hi Gd Hb) as [-> _].
  by destruct (slot_entry e t desc bufs i _ _ R Ed Eb Hi Hd Hb) as [-> _].
Qed.

Lemma set_stop_step e t i f : ring_ok e t -> 0 <= i < 1024 -> slot e i = Some f ->
  mem_step (set_stop i e) (fun e' => written i e e' /\ holds e' i true f).
Proof.
  intros R Hi Hs. unfold mem_step, set_stop.
  destruct (control_step e t i (u32 (Z.lor (Z.lor DESC_MAGIC XDMA_DESC_EOP) XDMA_DESC_STOPPED)) R Hi)
    as (desc & d & Ed & Hd & Hset & W & Hslot & desc' & d' & Ed' & Hd' & Hc).
  repeat io_step. rewrite Ed. io_step. io_step. rewrite Hd. io_step. io_step. rewrite Hset.
  repeat io_step. eexists. split; [reflexivity |]. split; [done |]. split; [done |].
  split; [by rewrite <- Hs |]. exists desc', d'. split_and!; try done.
  unfold stops. rewrite Hc. by split; vm_compute.
Qed.

(** Starting a filled list leaves the memory alone and moves to the other list. *)
Lemma start_list_obs e t : ring_ok e t -> e_running e = false ->
  obs (start_list e) (fun r l => exists e',
    r = Ok (e', mkTxList 0 ((1 - current_list t) * 512) 0) /\
    same_memory e e' /\ e_running e' = true /\
    e_transfer e' = Some (set_current_list (1 - current_list t) t) /\
    stores l = start_stores e (desc_addr (t_desc_bus t) (current_list t * 512))).
Proof.
  intros R Hr. unfold start_list. io_step.
  pose proof (ring_list_head e t _ R (ring_current e t R)) as Hhead.
  assert (Hbus : is_u64 (desc_addr (t_desc_bus t) (current_list t * 512))).
  { destruct (ring_bus e t R). unfold is_u64, desc_addr, SIZEOF_XDMA_DESC in *.
    destruct (ring_current e t R) as [-> | ->]; lia. }
  eapply obs_weaken; [| exact (engine_start_obs e t _ (ring_transfer e t R) Hhead Hbus Hr)].
  intros r l [-> El]. cbn beta iota. unfold next_list. repeat io_step.
  change (e_transfer (started e)) with (e_transfer e). rewrite (ring_transfer e t R).
  repeat io_step. cbn [set_e_transfer e_transfer]. repeat io_step.
  assert (Ek : u8 (Z.rem (current_list t + 1) DESC_LIST_NUM) = 1 - current_list t).
  { destruct (ring_current e t R) as [-> | ->]; done. }
  eexists. split.
  { unfold set_current_list. cbn [current_list]. rewrite Ek.
    replace (u16 ((1 - current_list t) * Z.quot TX_DESC_NUM DESC_LIST_NUM))
      with ((1 - current_list t) * 512); [reflexivity |].
    destruct (ring_current e t R) as [-> | ->]; done. }
  split_and!; try done. cbn [app]. by rewrite !app_nil_r.
Qed.

(** ** The steps of a channel *)

(** A frame on an idle channel: it is transmitted at once. *)
Lemma chan_first e l f e1 e2 e3 : chan_ok e l [] [] ->
  written (cur l) e e1 -> written (cur l) e1 e2 -> holds e2 (cur l) true f ->
  (forall t, ring_ok e2 t -> same_memory e2 e3 /\ e_running e3 = true /\
     e_transfer e3 = Some (set_current_list (1 - current_list t) t)) ->
  forall t, ring_ok e2 t ->
  chan_ok e3 (mkTxList 0 ((1 - current_list t) * 512) 0) [f] [].
Proof.
  intros [(t0 & R & Hcur & _) Hc _ _ _] W1 W2 Hh H3 t R2.
  assert (Hcl : 0 <= cur l < 1024) by (rewrite Hcur; apply Z.mod_pos_bound; lia).
  assert (Et : t = t0).
  { pose proof (written_ring _ _ _ _ Hcl W2 (written_ring _ _ _ _ Hcl W1 R)) as R2'.
    pose proof (ring_transfer _ _ R2) as E1. rewrite (ring_transfer _ _ R2') in E1. congruence. }
  subst t0. destruct (H3 t R2) as (Hm & Hrun & Ht). simpl in Hc.
  pose proof (ring_current _ _ R2) as Hk. rewrite Hc, Z.add_0_r in Hcur.
  rewrite Z.mod_small in Hcur by lia. split; cbn [length idle cur cur_pkt_count]; try done; try lia.
  exists (set_current_list (1 - current_list t) t).
  assert (Hk' : 1 - current_list t = 0 \/ 1 - current_list t = 1) by lia.
  split_and!.
  - by apply (same_ring e2 e3).
  - cbn [current_list set_current_list]. rewrite Z.add_0_r, Z.mod_small by lia. done.
  - intros j g Hj. discriminate Hj.
  - intros [| j] g Hj; [| discriminate Hj]. injection Hj as <-.
    cbn [current_list set_current_list]. apply (same_holds e2 e3); [done |].
    by replace ((1 - (1 - current_list t)) * 512 + Z.of_nat 0) with (cur l) by lia.
Qed.

(** A frame on a busy channel waits behind those gathered. *)
Lemma chan_more e l f e1 e2 run pend : chan_ok e l run pend -> run <> [] ->
  Z.of_nat (length pend) < 512 ->
  written (cur l) e e1 -> written (cur l) e1 e2 -> holds e2 (cur l) false f ->
  chan_ok e2 (mkTxList (idle l) ((cur l + 1) mod 1024) (cur_pkt_count l + 1)) run (pend ++ [f]).
Proof.
  intros [(t & R & Hcur & Hp & Hr) Hc Hpl Hrl Hi] Hne Hlt W1 W2 Hh.
  pose proof (ring_current _ _ R) as Hk.
  rewrite Hc, Z.mod_small in Hcur by lia.
  assert (Hcl : 0 <= cur l < 1024) by lia.
  pose proof (written_ring _ _ _ _ Hcl W1 R) as R1.
  assert (Keep : forall j last g, 0 <= j < 1024 -> j <> cur l -> holds e j last g -> holds e2 j last g).
  { intros j last g Hj Hn Hg. apply (written_holds (cur l) e1 e2 t); try done.
    by apply (written_holds (cur l) e e1 t). }
  split; cbn [idle cur cur_pkt_count]; rewrite ?length_app; cbn [length]; try lia.
  - exists t. split_and!.
    + by apply (written_ring (cur l) e1).
    + rewrite Hcur, Hc. f_equal. lia.
    + intros j g Hj. rewrite lookup_app in Hj. destruct (pend !! j) as [g' |] eqn:Ej.
      * injection Hj as <-. pose proof (lookup_lt_Some _ _ _ Ej).
        apply Keep; [lia | lia |]. by apply Hp.
      * apply lookup_ge_None in Ej.
        destruct (j - length pend)%nat as [| k] eqn:Ek; [| discriminate Hj].
        injection Hj as <-. by replace (current_list t * 512 + Z.of_nat j) with (cur l) by lia.
    + intros j g Hj. pose proof (lookup_lt_Some _ _ _ Hj). apply Keep; [lia | lia |]. by apply Hr.
  - destruct run; [done |]. destruct Hi as [-> Hrun]. split; [done |].
    destruct W1 as (_ & _ & E1 & _). destruct W2 as (_ & _ & E2 & _). congruence.
Qed.

(** The interrupt starts what has been gathered. *)
Lemma chan_swap e0 e l e1 e2 run pend t : chan_ok e0 l run pend -> pend <> [] ->
  same_memory e0 e -> e_transfer e = e_transfer e0 -> ring_ok e t ->
  written (current_list t * 512 + Z.of_nat (length pend) - 1) e e1 ->
  (forall f, pend !! (length pend - 1)%nat = Some f ->
     holds e1 (current_list t * 512 + Z.of_nat (length pend) - 1) true f) ->
  same_memory e1 e2 -> e_running e2 = true ->
  e_transfer e2 = Some (set_current_list (1 - current_list t) t) ->
  chan_ok e2 (mkTxList 0 ((1 - current_list t) * 512) 0) pend [].
Proof.
  intros [(t0 & R & Hcur & Hp & _) Hc Hpl Hrl _] Hne M0 T0 Rt W Hlast Hm Hrun Ht.
  assert (Et : t0 = t).
  { pose proof (ring_transfer _ _ R) as E1. rewrite <- T0, (ring_transfer _ _ Rt) in E1. congruence. }
  subst t0. pose proof (ring_current _ _ R) as Hk.
  assert (Hpos : (0 < length pend)%nat) by (destruct pend; [done | simpl; lia]).
  set (i := current_list t * 512 + Z.of_nat (length pend) - 1) in *.
  assert (Hir : 0 <= i < 1024) by lia.
  pose proof (written_ring _ _ _ _ Hir W Rt) as R1.
  split; cbn [length idle cur cur_pkt_count]; try done; try lia; [| by destruct pend].
  exists (set_current_list (1 - current_list t) t).
  assert (Hk' : 1 - current_list t = 0 \/ 1 - current_list t = 1) by lia. split_and!.
  - by apply (same_ring e1 e2).
  - cbn [current_list set_current_list]. rewrite Z.add_0_r, Z.mod_small by lia. done.
  - intros j g Hj. discriminate Hj.
  - intros j g Hj. cbn [current_list set_current_list]. apply (same_holds e1 e2); [done |].
    replace ((1 - (1 - current_list t)) * 512 + Z.of_nat j)
      with (current_list t * 512 + Z.of_nat j) by lia.
    pose proof (lookup_lt_Some _ _ _ Hj). case_bool_decide as Ej.
    + replace (current_list t * 512 + Z.of_nat j) with i by lia. apply Hlast.
      by replace (length pend - 1)%nat with j by lia.
    + apply (written_holds i e e1 t); [lia | lia | lia | done | done |].
      apply (same_holds e0 e); [done | by apply Hp].
Qed.

(** With nothing gathered the channel becomes idle. *)
Lemma chan_drain e e1 l run : chan_ok e l run [] -> same_memory e e1 ->
  e_transfer e1 = e_transfer e -> e_running e1 = false ->
  chan_ok e1 (mkTxList 1 (cur l) (cur_pkt_count l)) [] [].
Proof.
  intros [(t & R & Hcur & _) Hc _ _ _] Hm Ht Hrun. split; cbn [length idle cur cur_pkt_count]; try done; try lia.
  exists t. split_and!; try done.
  destruct Hm as (E1 & E2 & E3). destruct R as [R1 R2 R3 R4 R5]. split; try done.
  - by rewrite Ht.
  - by rewrite E1, E2, E3.
Qed.

End Steps.

(** ** The two channels behind the queue *)

(** What each channel transmits and has gathered; a full list is what stops the
    queue. *)
Definition nic_ok (n : nic) (chs : list (list frame * list frame)) : Prop :=
  length chs = 2%nat /\ (n_queue_stopped n = true -> 0 <= n_stop_queue_channel n < 2) /\
  forall c, 0 <= c < 2 -> exists e l run pend,
    getz (n_h2c n) c = Some e /\ getz (n_tx_list n) c = Some l /\ getz chs c = Some (run, pend) /\
    chan_ok e l run pend /\
    (Z.of_nat (length pend) = 512 <-> n_queue_stopped n = true /\ n_stop_queue_channel n = c).

(** A buffer of the network stack: octets, short enough for a ring buffer once
    the header is added, and with room to pad it if it has any tailroom. *)
Definition skb_ok (b : tx_skb) : Prop :=
  SIZEOF_NIC_TX_HEADER + tx_len b <= DMA_PACKET_SIZE /\
  Forall is_u8 (tx_data b) /\ Forall is_u8 (tx_tailroom b) /\
  (tx_len b < 60 -> tx_tailroom b = [] \/ 60 <= tx_len b + Z.of_nat (length (tx_tailroom b))).

(** The frame sent for a buffer. *)
Definition wire_frame (b : tx_skb) : frame :=
  if (tx_len b <? 60) && negb (Z.of_nat (length (tx_tailroom b)) =? 0)
  then tx_data b ++ take (Z.to_nat (60 - tx_len b)) (tx_tailroom b) else tx_data b.

Lemma pad_frame_ok b : skb_ok b -> exists b', pad_frame b = Some b' /\
  tx_data b' = wire_frame b /\ frame_fits (tx_data b') /\ tx_hw_tstamp b' = tx_hw_tstamp b.
Proof.
  intros (Hlen & Hd & Ht & Hpad). unfold pad_frame, wire_frame, skb_put.
  unfold SIZEOF_NIC_TX_HEADER, DMA_PACKET_SIZE, tx_len in *.
  destruct (Z.ltb_spec (Z.of_nat (length (tx_data b))) 60) as [Hlt | Hge]; cbn [andb];
    [| by exists b].
  destruct (Z.eqb_spec (Z.of_nat (length (tx_tailroom b))) 0) as [E | Hne]; cbn [negb];
    [by exists b |].
  destruct (Hpad Hlt) as [E | Hroom]; [by rewrite E in Hne |].
  rewrite (proj2 (Z.leb_le _ _)) by lia. eexists. split; [reflexivity |]. cbn [tx_data tx_hw_tstamp].
  split; [done |]. split; [| done]. split.
  - unfold SIZEOF_NIC_TX_HEADER, DMA_PACKET_SIZE.
    rewrite length_app, length_take. lia.
  - apply Forall_app. split; [done | by apply Forall_take].
Qed.

Definition enqueue (f : frame) (ch : list frame * list frame) : list frame * list frame :=
  match fst ch with [] => ([f], []) | run => (run, snd ch ++ [f]) end.

Section Nic.
Context {D : Type} `{Device D}.
Implicit Types (n : nic) (chs : list (list frame * list frame)).

Lemma nic_chan n chs c : nic_ok n chs -> 0 <= c < 2 -> exists e l run pend,
  getz (n_h2c n) c = Some e /\ getz (n_tx_list n) c = Some l /\ getz chs c = Some (run, pend) /\
  chan_ok e l run pend /\
  (Z.of_nat (length pend) = 512 <-> n_queue_stopped n = true /\ n_stop_queue_channel n = c).
Proof. intros (_ & _ & H1) Hc. by apply H1. Qed.

(** Replacing the state of one channel. *)
Lemma nic_update n n' chs c e l run pend :
  nic_ok n chs -> 0 <= c < 2 -> chan_ok e l run pend ->
  n_h2c n' = <[Z.to_nat c := e]> (n_h2c n) -> n_tx_list n' = <[Z.to_nat c := l]> (n_tx_list n) ->
  (n_queue_stopped n' = true -> 0 <= n_stop_queue_channel n' < 2) ->
  (Z.of_nat (length pend) = 512 <-> n_queue_stopped n' = true /\ n_stop_queue_channel n' = c) ->
  (forall c', c' <> c -> (n_queue_stopped n' = true /\ n_stop_queue_channel n' = c') <->
                         (n_queue_stopped n = true /\ n_stop_queue_channel n = c')) ->
  exists chs', setz chs c (run, pend) = Some chs' /\ nic_ok n' chs'.
Proof.
  intros (Hl & _ & Hch) Hc Hok He Hlist Hs Hfull Hother.
  destruct (Hch c Hc) as (e0 & l0 & run0 & pend0 & F1 & F2 & G0 & _).
  eexists. split; [apply (setz_get _ _ _ _ G0) |]. split; [by rewrite length_insert |].
  split; [done |]. intros c' Hc'. rewrite He, Hlist. destruct (decide (c' = c)) as [-> | Hne].
  - exists e, l, run, pend. rewrite (getz_insert _ _ _ _ _ F1), (getz_insert _ _ _ _ _ F2),
      (getz_insert _ _ _ _ _ G0) by lia. by rewrite !decide_True.
  - destruct (Hch c' Hc') as (e1 & l1 & run1 & pend1 & G1 & G2 & G3 & G4 & G5).
    exists e1, l1, run1, pend1. rewrite (getz_insert _ _ _ _ _ F1), (getz_insert _ _ _ _ _ F2),
      (getz_insert _ _ _ _ _ G0), !decide_False by (done || lia).
    do 4 (split; [done |]). by rewrite Hother.
Qed.

Lemma chan_cur e l run pend : chan_ok e l run pend -> Z.of_nat (length pend) < 512 ->
  exists t, ring_ok e t /\ cur l = current_list t * 512 + Z.of_nat (length pend) /\ 0 <= cur l < 1024.
Proof.
  intros [(t & R & Hcur & _) Hc _ _ _] Hlt. exists t. split; [done |].
  pose proof (ring_current _ _ R). rewrite Hc, Z.mod_small in Hcur by lia. lia.
Qed.

(** What handing over a buffer achieves. *)
Definition handed_over n chs skb c (b : tx_skb) (r : outcome nic) : Prop :=
  exists n' ch chs' b', r = Ok n' /\ getz chs c = Some ch /\
    setz chs c (enqueue (wire_frame b) ch) = Some chs' /\ nic_ok n' chs' /\
    n_skbs n' = <[skb := b']> (n_skbs n) /\ tx_hw_tstamp b' = tx_hw_tstamp b /\
    n_tx_timestamp n' = n_tx_timestamp n.

(** The frame is in place and ends its list: the engine is started. *)
Lemma xmit_idle_obs n chs skb b b' c e l e1 t : nic_ok n chs -> 0 <= c < 2 ->
  n_queue_stopped n = false -> getz (n_h2c n) c = Some e -> getz (n_tx_list n) c = Some l ->
  getz chs c = Some ([], []) -> chan_ok e l [] [] -> ring_ok e1 t -> 0 <= cur l < 1024 ->
  written (cur l) e e1 -> slot e1 (cur l) = Some (wire_frame b) -> tx_hw_tstamp b' = tx_hw_tstamp b ->
  obs (bind (set_stop (cur l) e1) (fun engine =>
         bind (start_list engine) (fun r =>
           bind (put_h2c c (fst r) (set_n_skbs (<[skb := b']> (n_skbs n)) n)) (fun n =>
             put_list c (snd r) n))))
    (fun r _ => handed_over n chs skb c b r).
Proof.
  intros Hn Hc Hq He Hl Hch Hok R1 Hrange W1 S1 Hts. io_step.
  eapply obs_weaken; [| apply (set_stop_step e1 t (cur l) _ R1 Hrange S1)].
  intros r2 l2 (e2 & -> & -> & W2 & H2). cbn beta iota. io_step.
  pose proof (written_ring _ _ _ _ Hrange W2 R1) as R2.
  assert (Hrun2 : e_running e2 = false).
  { destruct W1 as (_ & _ & Q1 & _), W2 as (_ & _ & Q2 & _).
    destruct (ok_idle _ _ _ _ Hok) as (_ & Q & _). congruence. }
  eapply obs_weaken; [| apply (start_list_obs e2 t R2 Hrun2)].
  intros r3 l3 (e3 & -> & M3 & Hrun3 & Et3 & _). cbn beta iota.
  unfold put_h2c, put_list. io_step. cbn [fst snd n_h2c set_n_skbs].
  io_step. rewrite (setz_get _ _ _ _ He). repeat io_step.
  cbn [fst snd n_tx_list set_n_skbs set_n_h2c]. rewrite (setz_get _ _ _ _ Hl). repeat io_step.
  unfold handed_over. match goal with |- exists n' ch chs' b', Ok ?m = _ /\ _ => set (n' := m) end.
  assert (Hc3 : chan_ok e3 (mkTxList 0 ((1 - current_list t) * 512) 0) [wire_frame b] []).
  { apply (chan_first e l (wire_frame b) e1 e2 e3); try done. intros t' Rt'.
    assert (t' = t) as ->; [| done].
    pose proof (ring_transfer _ _ Rt') as Q. rewrite (ring_transfer _ _ R2) in Q. congruence. }
  destruct (nic_update n n' chs c e3 _ _ _ Hn Hc Hc3 eq_refl eq_refl) as (chs' & E' & Hn').
  - cbn. rewrite Hq. done.
  - cbn. rewrite Hq. split; [lia | by intros [? _]].
  - done.
  - exists n', ([], []), chs', b'. by split_and!.
Qed.

(** The frame is in place behind those gathered; a full list stops the queue. *)
Lemma xmit_busy_obs n chs skb b b' c e l e2 run pend : nic_ok n chs -> 0 <= c < 2 ->
  n_queue_stopped n = false -> getz (n_h2c n) c = Some e -> getz (n_tx_list n) c = Some l ->
  getz chs c = Some (run, pend) -> run <> [] -> Z.of_nat (length pend) < 512 ->
  (exists t, ring_ok e t /\ cur l = current_list t * 512 + Z.of_nat (length pend)) ->
  0 <= cur l < 1024 -> cur_pkt_count l = Z.of_nat (length pend) ->
  chan_ok e2 (mkTxList 0 ((cur l + 1) mod 1024) (cur_pkt_count l + 1)) run (pend ++ [wire_frame b]) ->
  tx_hw_tstamp b' = tx_hw_tstamp b ->
  obs (D := D) (let cur_ := u16 (Z.rem (cur l + 1) TX_DESC_NUM) in
       bind (put_h2c c e2 (set_n_skbs (<[skb := b']> (n_skbs n)) n)) (fun n =>
         bind (put_list c (mkTxList 0 cur_ (u32 (cur_pkt_count l + 1))) n) (fun n =>
           if (cur_ =? 0) || (cur_ =? Z.quot TX_DESC_NUM DESC_LIST_NUM) then
             ret (set_n_stop_queue_channel c (set_n_queue_stopped true n))
           else ret n)))
    (fun r _ => handed_over n chs skb c b r).
Proof.
  intros Hn Hc Hq He Hl Hch Hne Hlt (t & R & Hcur) Hrange Hcount Hc2 Hts. cbv zeta.
  assert (Ecur : u16 (Z.rem (cur l + 1) TX_DESC_NUM) = (cur l + 1) mod 1024).
  { unfold TX_DESC_NUM, RX_DESC_NUM. rewrite Z.rem_mod_nonneg by lia. apply u16_small.
    unfold is_u16. pose proof (Z.mod_pos_bound (cur l + 1) 1024). lia. }
  rewrite Ecur, (u32_small (cur_pkt_count l + 1)) by (unfold is_u32; lia).
  unfold put_h2c, put_list. io_step. cbn [n_h2c set_n_skbs]. io_step.
  rewrite (setz_get _ _ _ _ He). repeat io_step. cbn [n_tx_list set_n_skbs set_n_h2c].
  rewrite (setz_get _ _ _ _ Hl). repeat io_step.
  change (Z.quot TX_DESC_NUM DESC_LIST_NUM) with 512.
  assert (Hstop : ((cur l + 1) mod 1024 =? 0) || ((cur l + 1) mod 1024 =? 512) =
                  (Z.of_nat (length (pend ++ [wire_frame b])) =? 512)).
  { assert (Em : (cur l + 1) mod 1024 = if cur l + 1 =? 1024 then 0 else cur l + 1).
    { destruct (Z.eqb_spec (cur l + 1) 1024) as [-> |]; [done | apply Z.mod_small; lia]. }
    rewrite Em, length_app. cbn [length]. pose proof (ring_current _ _ R).
    apply eq_true_iff_eq. rewrite orb_true_iff, !Z.eqb_eq. destruct (Z.eqb_spec (cur l + 1) 1024); lia. }
  rewrite Hstop. destruct (Z.eqb_spec (Z.of_nat (length (pend ++ [wire_frame b]))) 512) as [Ef | Ef];
    repeat io_step; unfold handed_over;
    match goal with |- exists n' ch chs' b', Ok ?m = _ /\ _ => set (n' := m) end;
    destruct (nic_update n n' chs c e2 _ _ _ Hn Hc Hc2 eq_refl eq_refl) as (chs' & E' & Hn');
    cbn; rewrite ?Hq; try done; try lia;
    try (exists n', (run, pend), chs', b'; split_and!; try done; by destruct run).
Qed.

(** Handing over a frame under the lock. *)
Lemma xmit_locked_obs n chs skb b c : nic_ok n chs -> 0 <= c < 2 -> n_queue_stopped n = false ->
  n_skbs n !! skb = Some b -> skb_ok b ->
  obs (xmit_locked skb c n) (fun r _ => handed_over n chs skb c b r).
Proof.
  intros Hn Hc Hq Hb Hskb.
  destruct (nic_chan n chs c Hn Hc) as (e & l & run & pend & He & Hl & Hch & Hok & Hfull).
  assert (Hlt : Z.of_nat (length pend) < 512).
  { pose proof (ok_pend _ _ _ _ Hok). destruct (decide (Z.of_nat (length pend) = 512)) as [E |]; [| lia].
    apply Hfull in E as [E _]. congruence. }
  destruct (pad_frame_ok b Hskb) as (b' & Epad & Ewire & Hfits & Hts).
  destruct (chan_cur _ _ _ _ Hok Hlt) as (t & R & Hcur & Hrange).
  unfold xmit_locked, get_list, get_h2c. io_step. rewrite Hl. repeat io_step. rewrite He.
  repeat io_step. rewrite (ring_transfer _ _ R). io_step. io_step. rewrite Hb. io_step. io_step.
  rewrite Epad. io_step.
  eapply obs_weaken; [| apply (fill_entry_step e t (cur l) b' R Hrange Hfits)].
  intros r1 l1 (e1 & -> & -> & W1 & S1). cbn beta iota. rewrite Ewire in S1.
  pose proof (written_ring _ _ _ _ Hrange W1 R) as R1.
  destruct (decide (run = [])) as [-> | Hne].
  - destruct (ok_idle _ _ _ _ Hok) as (Hidle & Hrun & ->). rewrite Hidle.
    by apply (xmit_idle_obs n chs skb b b' c e l e1 t).
  - assert (Hidle : idle l = 0) by (pose proof (ok_idle _ _ _ _ Hok); destruct run; [done | tauto]).
    rewrite Hidle. cbn [Z.eqb].
    destruct (control_step e1 t (cur l) DESC_MAGIC R1 Hrange)
      as (desc & d & Ed & Hd & Hset & W2 & Hslot & desc' & d' & Ed' & Hd' & Hctl).
    io_step. io_step. rewrite Ed. io_step. io_step. rewrite Hd. io_step. io_step. rewrite Hset.
    assert (H2 : holds (set_e_desc (Some (<[Z.to_nat (cur l) := set_control DESC_MAGIC d]> desc)) e1)
                   (cur l) false (wire_frame b)).
    { split; [by rewrite Hslot |]. exists desc', d'. split_and!; try done.
      unfold goes_on. rewrite Hctl. by split; vm_compute. }
    pose proof (chan_more e l _ e1 _ run pend Hok Hne Hlt W1 W2 H2) as Hc2.
    rewrite Hidle in Hc2. cbn [app].
    eapply (xmit_busy_obs n chs skb b b' c e l _ run pend); try done.
    + by exists t.
    + by rewrite (ok_count _ _ _ _ Hok).
Qed.

(** A step between stopping and restarting the engine that leaves the channels
    alone. *)
Definition leaves_channels (between : nic -> io D nic) : Prop :=
  forall n, obs (between n) (fun r _ => exists n', r = Ok n' /\ n_h2c n' = n_h2c n /\
    n_tx_list n' = n_tx_list n /\ n_queue_stopped n' = n_queue_stopped n /\
    n_stop_queue_channel n' = n_stop_queue_channel n).

Lemma engine_status_obs (e : xdma_engine) :
  obs (engine_status_read e) (fun r _ => exists v, r = Ok (set_e_status v e, v)).
Proof. unfold engine_status_read. repeat io_step. by eexists. Qed.

(** What completing a list achieves: what was gathered is running. *)
Definition completed n chs c (r : outcome nic) : Prop :=
  exists n' run pend chs', r = Ok n' /\ getz chs c = Some (run, pend) /\
    setz chs c (pend, []) = Some chs' /\ nic_ok (h2c_wake c n') chs' /\
    (n_queue_stopped n' = n_queue_stopped n /\ n_stop_queue_channel n' = n_stop_queue_channel n).

Lemma wake_update n n1 n' chs c e l run : nic_ok n chs -> 0 <= c < 2 -> chan_ok e l run [] ->
  n_queue_stopped n1 = n_queue_stopped n -> n_stop_queue_channel n1 = n_stop_queue_channel n ->
  n_h2c n' = <[Z.to_nat c := e]> (n_h2c n) -> n_tx_list n' = <[Z.to_nat c := l]> (n_tx_list n) ->
  n_queue_stopped n' = n_queue_stopped n1 -> n_stop_queue_channel n' = n_stop_queue_channel n1 ->
  exists chs', setz chs c (run, []) = Some chs' /\ nic_ok (h2c_wake c n') chs'.
Proof.
  intros Hn Hc Hok Q1 Q2 He Hl Q3 Q4. rewrite Q1 in Q3. rewrite Q2 in Q4.
  pose proof Hn as (_ & Hrange & _).
  apply (nic_update n _ chs c e l run []); try done; unfold h2c_wake; rewrite Q4;
    destruct (Z.eqb_spec (n_stop_queue_channel n) c) as [E | E]; cbn; rewrite ?Q3, ?Q4; try done.
  - split; [lia | by intros [? ?]].
  - split; [lia | by intros [? ?]].
  - intros c' Hne. rewrite E. split; [by intros [? ?] | intros [_ ?]; congruence].
Qed.

Lemma h2c_complete_obs between n chs c : nic_ok n chs -> 0 <= c < 2 -> leaves_channels between ->
  obs (h2c_complete between c n) (fun r _ => completed n chs c r).
Proof.
  intros Hn Hc Hb. destruct (nic_chan n chs c Hn Hc) as (e & l & run & pend & He & Hl & Hch & Hok & Hfull).
  destruct (ok_ring _ _ _ _ Hok) as (t & R & Hcur & Hp & Hr).
  unfold h2c_complete, get_h2c, get_list. io_step. io_step. rewrite He. repeat io_step.
  rewrite (ring_transfer _ _ R). io_step. io_step. rewrite Hl. io_step.
  eapply obs_weaken; [| apply engine_status_obs]. intros r1 l1 (v & ->). cbn beta iota. io_step.
  eapply obs_weaken; [| apply engine_stop_obs]. intros r2 l2 (-> & _). cbn beta iota.
  unfold put_h2c. io_step. io_step. rewrite (setz_get _ _ _ _ He). repeat io_step.
  set (e1 := set_e_running false (set_e_status v e)).
  set (n1 := set_n_h2c (<[Z.to_nat c := e1]> (n_h2c n)) n).
  eapply obs_weaken; [| apply (Hb n1)]. intros r3 l3 (n2 & -> & B1 & B2 & B3 & B4). cbn beta iota.
  assert (M1 : same_memory e e1) by done.
  assert (R1 : ring_ok e1 t) by (destruct R; by split).
  assert (G2 : getz (n_h2c n2) c = Some e1).
  { rewrite B1. cbn. rewrite (getz_insert _ _ _ _ _ He) by lia. by rewrite decide_True. }
  assert (L2 : getz (n_tx_list n2) c = Some l) by (by rewrite B2).
  pose proof (ok_count _ _ _ _ Hok) as Hcount. pose proof (ok_pend _ _ _ _ Hok) as Hpl.
  pose proof (ring_current _ _ R) as Hk. unfold completed.
  destruct (decide (pend = [])) as [-> | Hne].
  - change (Z.of_nat (length [])) with 0 in Hcount. rewrite Hcount. cbn [Z.eqb negb].
    unfold put_list. io_step. io_step.
    rewrite (setz_get _ _ _ _ L2). repeat io_step.
    pose proof (chan_drain e e1 l run Hok M1 eq_refl eq_refl) as Hok1. rewrite Hcount in Hok1.
    destruct (wake_update n n2 (set_n_tx_list (<[Z.to_nat c := mkTxList 1 (cur l) 0]> (n_tx_list n2)) n2)
      chs c e1 _ [] Hn Hc Hok1 B3 B4) as (chs' & E' & Hn'); cbn.
    + done.
    + by rewrite B2.
    + done.
    + done.
    + eexists _, run, [], chs'. split; [reflexivity |]. split; [done |]. split; [done |].
      split; [exact Hn' | done].
  - assert (Hpos : (0 < length pend)%nat) by (destruct pend; [done | simpl; lia]).
    rewrite (proj2 (Z.eqb_neq (cur_pkt_count l) 0)) by lia. cbn [negb].
    set (i := current_list t * 512 + Z.of_nat (length pend) - 1).
    assert (Hi : (if cur l =? 0 then RX_DESC_NUM - 1 else cur l - 1) = i).
    { unfold RX_DESC_NUM. rewrite Hcount in Hcur. unfold i.
      destruct (decide (current_list t * 512 + Z.of_nat (length pend) = 1024)) as [E | E].
      - replace (cur l) with 0 by (by rewrite Hcur, E). cbn [Z.eqb]. lia.
      - rewrite Z.mod_small in Hcur by lia. rewrite (proj2 (Z.eqb_neq (cur l) 0)) by lia. lia. }
    rewrite Hi. assert (Hir : 0 <= i < 1024) by (unfold i; lia). io_step.
    destruct (lookup_lt_is_Some_2 pend (length pend - 1)) as [f Hf]; [lia |].
    assert (S1 : slot e1 i = Some f).
    { destruct (same_holds _ _ _ _ _ M1 (Hp _ _ Hf)) as [S1 _].
      replace (current_list t * 512 + Z.of_nat (length pend - 1)) with i in S1 by (unfold i; lia). done. }
    eapply obs_weaken; [| apply (set_stop_step e1 t i f R1 Hir S1)].
    intros r4 l4 (e2 & -> & -> & W2 & H2). cbn beta iota. io_step.
    pose proof (written_ring _ _ _ _ Hir W2 R1) as R2.
    assert (Hrun2 : e_running e2 = false) by (by destruct W2 as (_ & _ & -> & _)).
    eapply obs_weaken; [| apply (start_list_obs e2 t R2 Hrun2)].
    intros r5 l5 (e3 & -> & M3 & Hrun3 & Et3 & _). cbn beta iota. cbn [fst snd].
    io_step. io_step. rewrite (setz_get _ _ _ _ G2). repeat io_step. unfold put_list. io_step.
    cbn [n_tx_list set_n_h2c]. rewrite (setz_get _ _ _ _ L2). repeat io_step.
    assert (Hok3 : chan_ok e3 (mkTxList 0 ((1 - current_list t) * 512) 0) pend []).
    { apply (chan_swap e e1 l e2 e3 run pend t); try done.
      intros g Hg. rewrite Hf in Hg. injection Hg as <-. exact H2. }
    match goal with |- exists n' run pend chs', Ok ?m = _ /\ _ => set (n' := m) end.
    destruct (wake_update n n2 n' chs c e3 _ pend Hn Hc Hok3 B3 B4) as (chs' & E' & Hn'); cbn.
    + rewrite B1. cbn. by rewrite list_insert_insert_eq.
    + by rewrite B2.
    + done.
    + done.
    + exists n', run, pend, chs'. by split_and!.
Qed.

(** Whether a channel's interrupt is requested in the word read. *)
Definition requested n (e : xdma_engine) (v : Z) : bool :=
  negb (Z.land (e_irq_bitmask (e_config e)) (Z.land v (n_mask_irq_h2c n)) =? 0) &&
  (e_magic (e_config e) =? MAGIC_ENGINE).

Lemma h2c_irq_obs between n chs c e : nic_ok n chs -> 0 <= c < 2 -> leaves_channels between ->
  getz (n_h2c n) c = Some e ->
  obs (h2c_irq between c n) (fun r l => exists v l' n',
    l = RD (n_int_ctrl n + INT_CHANNEL_REQUEST) v :: l' /\ r = Ok n' /\
    if requested n e v
    then exists run pend chs', getz chs c = Some (run, pend) /\ setz chs c (pend, []) = Some chs' /\
           nic_ok n' chs' /\ (n_queue_stopped n = true -> n_stop_queue_channel n = c ->
                                 n_queue_stopped n' = false)
    else n' = n).
Proof.
  intros Hn Hc Hb He. unfold h2c_irq, get_h2c, requested. io_step. io_step. rewrite He.
  repeat io_step. cbn [app]. destruct (Z.eqb_spec (Z.land v (n_mask_irq_h2c n)) 0) as [E | E].
  - io_step. eexists v, _, _. split; [reflexivity |]. split; [reflexivity |].
    by rewrite E, Z.land_0_r.
  - io_step. io_step. io_step. io_step. io_step.
    destruct (negb (Z.land (e_irq_bitmask (e_config e)) (Z.land v (n_mask_irq_h2c n)) =? 0) &&
              (e_magic (e_config e) =? MAGIC_ENGINE)) eqn:Er.
    + io_step. eapply obs_weaken; [| apply (h2c_complete_obs between n chs c Hn Hc Hb)].
      intros r1 l1 (n' & run & pend & chs' & -> & H1 & H2 & H3 & Q1 & Q2). cbn beta iota.
      repeat io_step. cbn [app]. eexists v, _, _. split; [reflexivity |]. split; [reflexivity |].
      rewrite Er. exists run, pend, chs'. split_and!; try done. intros S1 S2. unfold h2c_wake.
      by rewrite Q2, S2, Z.eqb_refl.
    + repeat io_step. cbn [app]. eexists v, _, _. split; [reflexivity |]. split; [reflexivity |].
      by rewrite Er.
Qed.

(** Handing a buffer to the driver, freed or kept for its timestamp. *)
Lemma start_xmit_obs n chs p b : nic_ok n chs -> n_queue_stopped n = false ->
  n_skbs n !! p = Some b -> skb_ok b ->
  let c := if tx_hw_tstamp b then 1 else 0 in
  obs (ax_net_start_xmit p n) (fun r _ => exists n' ch chs', r = Ok n' /\ getz chs c = Some ch /\
    setz chs c (enqueue (wire_frame b) ch) = Some chs' /\ nic_ok n' chs' /\
    n_tx_timestamp n' = n_tx_timestamp n ++ (if tx_hw_tstamp b then [p] else []) /\
    (n_skbs n' !! p = None <-> tx_hw_tstamp b = false)).
Proof.
  intros Hn Hq Hb Hskb c. unfold ax_net_start_xmit. io_step. io_step. rewrite Hb. io_step.
  set (n1 := if tx_hw_tstamp b then _ else n).
  assert (H1 : nic_ok n1 chs) by (unfold n1; by destruct (tx_hw_tstamp b)).
  assert (Q1 : n_queue_stopped n1 = false) by (unfold n1; by destruct (tx_hw_tstamp b)).
  assert (B1 : n_skbs n1 !! p = Some b) by (unfold n1; by destruct (tx_hw_tstamp b)).
  assert (Hc : 0 <= c < 2) by (unfold c; destruct (tx_hw_tstamp b); lia). fold c.
  eapply obs_weaken; [| apply (xmit_locked_obs n1 chs p b c H1 Hc Q1 B1 Hskb)].
  intros r l (n' & ch & chs' & b' & -> & Hch & Hset & Hn' & Hs & Hts & Ht). cbn beta iota.
  io_step. io_step. rewrite Hs, lookup_insert_eq. rewrite Hts.
  destruct (tx_hw_tstamp b) eqn:Eb; repeat io_step; eexists _, ch, chs'; (split; [reflexivity |]);
    (split; [done |]); (split; [done |]).
  - split; [done |]. split; [done |]. rewrite Hs, lookup_insert_eq. done.
  - split; [by destruct Hn' as (? & ? & ?) |]. cbn. rewrite Ht, app_nil_r. split; [done |].
    by rewrite lookup_delete_eq.
Qed.

End Nic.

(** ** Every history of transmissions and interrupts *)

Inductive tx_event :=
| EvXmit (p : Z) (b : tx_skb)          (* the stack hands over buffer [b] at [p] *)
| EvIrq                                (* the interrupt of channel 0 *)
| EvPtpIrq.                            (* the interrupt of channel 1 *)

(** The network stack hands no buffer to a stopped queue. *)
Definition tx_step {D} `{Device D} (ev : tx_event) (n : nic) : io D (nic * bool) :=
  match ev with
  | EvXmit p b =>
      if n_queue_stopped n then ret (n, false)
      else bind (ax_net_start_xmit p (set_n_skbs (<[p := b]> (n_skbs n)) n)) (fun n => ret (n, true))
  | EvIrq => bind (xdma_channel_H2C_irq n) (fun n => ret (n, false))
  | EvPtpIrq => bind (xdma_channel_H2C_PTP_irq n) (fun n => ret (n, false))
  end.

(** The final state, and for each event whether a frame was taken. *)
Fixpoint tx_run {D} `{Device D} (evs : list tx_event) (n : nic) : io D (nic * list bool) :=
  match evs with
  | [] => ret (n, [])
  | ev :: evs => bind (tx_step ev n) (fun r =>
      bind (tx_run evs (fst r)) (fun r' => ret (fst r', snd r :: snd r')))
  end.

(** *** The specification: three queues per channel *)

Record chan := mkChan { c_sent : list frame; c_running : list frame; c_waiting : list frame }.

Definition view (ch : chan) : list frame * list frame := (c_running ch, c_waiting ch).

Definition channel_of (b : tx_skb) : Z := if tx_hw_tstamp b then 1 else 0.

(** A frame goes straight out on an idle channel and waits otherwise; it is
    refused only while some channel has 512 waiting; an interrupt tells that the
    running frames are sent, and starts those waiting. *)
Inductive spec_step : tx_event -> list chan -> bool -> list chan -> Prop :=
| spec_accept p b chs chs' ch :
    getz chs (channel_of b) = Some ch ->
    setz chs (channel_of b)
      (let q := enqueue (wire_frame b) (view ch) in mkChan (c_sent ch) (fst q) (snd q)) = Some chs' ->
    spec_step (EvXmit p b) chs true chs'
| spec_refuse p b chs c ch :
    getz chs c = Some ch -> length (c_waiting ch) = 512%nat -> spec_step (EvXmit p b) chs false chs
| spec_irq ev c chs chs' ch :
    (ev = EvIrq /\ c = 0) \/ (ev = EvPtpIrq /\ c = 1) ->
    getz chs c = Some ch ->
    setz chs c (mkChan (c_sent ch ++ c_running ch) (c_waiting ch) []) = Some chs' ->
    spec_step ev chs false chs'
| spec_spurious ev chs : ev = EvIrq \/ ev = EvPtpIrq -> spec_step ev chs false chs.

Inductive spec_run : list tx_event -> list chan -> list bool -> list chan -> Prop :=
| spec_nil chs : spec_run [] chs [] chs
| spec_cons ev evs chs ok chs1 oks chs2 :
    spec_step ev chs ok chs1 -> spec_run evs chs1 oks chs2 ->
    spec_run (ev :: evs) chs (ok :: oks) chs2.

(** The frames taken on channel [c]. *)
Fixpoint accepted (c : Z) (evs : list tx_event) (oks : list bool) : list frame :=
  match evs, oks with
  | EvXmit _ b :: evs, true :: oks =>
      if channel_of b =? c then wire_frame b :: accepted c evs oks else accepted c evs oks
  | _ :: evs, _ :: oks => accepted c evs oks
  | _, _ => []
  end.

Definition all_frames (ch : chan) : list frame := c_sent ch ++ c_running ch ++ c_waiting ch.

Definition event_ok (ev : tx_event) : Prop :=
  match ev with EvXmit _ b => skb_ok b | _ => True end.

Definition chan_wf (ch : chan) : Prop := c_running ch = [] -> c_waiting ch = [].

Lemma enqueue_fifo f ch : chan_wf ch ->
  let q := enqueue f (view ch) in
  chan_wf (mkChan (c_sent ch) (fst q) (snd q)) /\
  all_frames (mkChan (c_sent ch) (fst q) (snd q)) = all_frames ch ++ [f].
Proof.
  intros Hwf. unfold enqueue, view, chan_wf, all_frames in *. cbn [fst snd].
  destruct (c_running ch) as [| g run] eqn:E; cbn [fst snd c_sent c_running c_waiting].
  - rewrite (Hwf eq_refl). split; [done |]. by rewrite !app_nil_r.
  - split; [done |]. by rewrite <- !app_assoc.
Qed.

(** What one step does to every channel. *)
Definition step_effect (ev : tx_event) (ok : bool) (chs chs' : list chan) : Prop :=
  forall c ch', getz chs' c = Some ch' -> exists ch, getz chs c = Some ch /\
    (chan_wf ch -> chan_wf ch' /\ all_frames ch' = all_frames ch ++ accepted c [ev] [ok]).

Lemma effect_set ev ok chs chs' c new ch :
  getz chs c = Some ch -> setz chs c new = Some chs' ->
  (chan_wf ch -> chan_wf new /\ all_frames new = all_frames ch ++ accepted c [ev] [ok]) ->
  (forall c', c' <> c -> accepted c' [ev] [ok] = []) ->
  step_effect ev ok chs chs'.
Proof.
  intros Hch Hset Hnew Hother c' ch' G'. destruct (decide (c' = c)) as [-> | Hne].
  - rewrite (getz_setz_eq _ _ _ _ Hset) in G'. injection G' as <-. by exists ch.
  - rewrite (getz_setz_ne _ _ _ _ _ Hset) in G' by done. exists ch'. split; [done |].
    rewrite Hother by done. by rewrite app_nil_r.
Qed.

Lemma spec_step_effect ev chs ok chs' : spec_step ev chs ok chs' -> step_effect ev ok chs chs'.
Proof.
  assert (Hsame : forall ev chs, (forall c, accepted c [ev] [false] = []) -> step_effect ev false chs chs).
  { intros ev0 chs0 Ha c ch G. exists ch. rewrite Ha, app_nil_r. done. }
  destruct 1 as [p b chs chs' ch G S | p b chs c ch G L | ev c chs chs' ch Hev G S | ev chs Hev].
  - apply (effect_set _ _ _ _ (channel_of b) _ ch G S).
    + intros Hwf. cbn [accepted]. rewrite Z.eqb_refl. by apply enqueue_fifo.
    + intros c' Hne. cbn [accepted]. by rewrite (proj2 (Z.eqb_neq (channel_of b) c')).
  - by apply Hsame.
  - apply (effect_set _ _ _ _ c _ ch G S).
    + intros Hwf. split; [by destruct Hev as [[-> _] | [-> _]] |].
      unfold all_frames. cbn [c_sent c_running c_waiting].
      destruct Hev as [[-> _] | [-> _]]; cbn [accepted]; by rewrite !app_nil_r, <- app_assoc.
    + by destruct Hev as [[-> _] | [-> _]].
  - apply Hsame. by destruct Hev as [-> | ->].
Qed.

Lemma accepted_cons c ev evs ok oks :
  accepted c (ev :: evs) (ok :: oks) = accepted c [ev] [ok] ++ accepted c evs oks.
Proof. destruct ev as [p b | |], ok; cbn [accepted]; try done. by destruct (_ =? _). Qed.

(** Nothing is lost, duplicated or reordered in the specification. *)
Lemma spec_run_fifo evs chs oks chs' : spec_run evs chs oks chs' ->
  forall c ch', getz chs' c = Some ch' -> exists ch, getz chs c = Some ch /\
    (chan_wf ch -> all_frames ch' = all_frames ch ++ accepted c evs oks).
Proof.
  induction 1 as [chs | ev evs chs ok chs1 oks chs2 Hs Hr IH]; intros c ch' G.
  - exists ch'. by rewrite app_nil_r.
  - destruct (IH c ch' G) as (ch1 & G1 & E1).
    destruct (spec_step_effect _ _ _ _ Hs c ch1 G1) as (ch & G0 & E0).
    exists ch. split; [done |]. intros Hwf. destruct (E0 Hwf) as [Hwf1 E].
    by rewrite accepted_cons, (E1 Hwf1), E, <- app_assoc.
Qed.

Lemma setz_fmap {A B} (f : A -> B) l i x l' : setz (f <$> l) i (f x) = Some l' ->
  exists l1, setz l i x = Some l1 /\ l' = f <$> l1.
Proof.
  unfold setz. rewrite length_fmap. case_decide; [| done]. intros [= <-].
  exists (<[Z.to_nat i := x]> l). split; [done |]. by rewrite list_fmap_insert.
Qed.

Lemma getz_fmap {A B} (f : A -> B) l i : getz (f <$> l) i = f <$> getz l i.
Proof. unfold getz. case_decide; [apply list_lookup_fmap | done]. Qed.

Section Refine.
Context {D : Type} `{Device D}.

(** An interrupt is a step of the specification. *)
Lemma irq_refines ev c between n chs : (ev = EvIrq /\ c = 0) \/ (ev = EvPtpIrq /\ c = 1) ->
  leaves_channels between -> nic_ok n (view <$> chs) ->
  obs (bind (h2c_irq between c n) (fun n => ret (n, false))) (fun r _ => exists n' ok chs',
    r = Ok (n', ok) /\ spec_step ev chs ok chs' /\ nic_ok n' (view <$> chs')).
Proof.
  intros Hev Hb Hn. assert (Hc : 0 <= c < 2) by (destruct Hev as [[_ ->] | [_ ->]]; lia).
  apply obs_bind. destruct (nic_chan n _ c Hn Hc) as (e & l & run & pend & He & _ & _ & _ & _).
  eapply obs_weaken; [| by apply (h2c_irq_obs between n (view <$> chs) c e)].
  intros r l1 (v & l' & n' & _ & -> & Hcase). cbn beta iota. apply obs_ret.
  destruct (requested n e v).
  - destruct Hcase as (run' & pend' & chs' & G & S & Hn' & _). rewrite getz_fmap in G.
    destruct (getz chs c) as [ch |] eqn:Ech; [| done]. injection G as G1 G2.
    assert (En : (pend', []) = view (mkChan (c_sent ch ++ c_running ch) (c_waiting ch) [])).
    { unfold view. cbn [c_running c_waiting]. by rewrite G2. }
    rewrite En in S. apply setz_fmap in S as (chs1 & S1 & ->).
    exists n', false, chs1. split; [done |]. split; [| done]. by apply (spec_irq _ c _ _ ch).
  - subst n'. exists n, false, chs. split; [done |]. split; [| done]. apply spec_spurious.
    destruct Hev as [[-> _] | [-> _]]; [by left | by right].
Qed.

(** One event of the driver is a step of the specification. *)
Lemma tx_step_refines ev n chs : nic_ok n (view <$> chs) -> event_ok ev ->
  obs (tx_step ev n) (fun r _ => exists n' ok chs', r = Ok (n', ok) /\
    spec_step ev chs ok chs' /\ nic_ok n' (view <$> chs')).
Proof.
  intros Hn Hev. destruct ev as [p b | |]; cbn [tx_step event_ok] in *.
  - destruct (n_queue_stopped n) eqn:Hq.
    + apply obs_ret. exists n, false, chs. split; [done |]. split; [| done].
      pose proof Hn as (_ & Hr & _). specialize (Hr Hq).
      destruct (nic_chan n _ _ Hn Hr) as (e & l & run & pend & _ & _ & G & _ & [_ Hfull]).
      rewrite getz_fmap in G. destruct (getz chs _) as [ch |] eqn:Ech; [| done].
      injection G as _ E. apply (spec_refuse _ _ _ _ ch Ech). rewrite E.
      assert (Z.of_nat (length pend) = 512) by (by apply Hfull). lia.
    + apply obs_bind. set (n1 := set_n_skbs _ n).
      assert (B1 : n_skbs n1 !! p = Some b) by (cbn; by rewrite lookup_insert_eq).
      eapply obs_weaken; [| by apply (start_xmit_obs n1 (view <$> chs) p b)].
      intros r l (n' & v & chs' & -> & G & S & Hn' & _). cbn beta iota. apply obs_ret.
      rewrite getz_fmap in G. fold (channel_of b) in *.
      destruct (getz chs (channel_of b)) as [ch |] eqn:Ech; [| done]. injection G as <-.
      set (new := mkChan (c_sent ch) (fst (enqueue (wire_frame b) (view ch)))
                    (snd (enqueue (wire_frame b) (view ch)))).
      change (enqueue (wire_frame b) (view ch)) with (let q := enqueue (wire_frame b) (view ch) in q) in S.
      assert (En : enqueue (wire_frame b) (view ch) = view new).
      { unfold new, view. cbn [c_running c_waiting]. by destruct (enqueue _ _). }
      cbv zeta in S. rewrite En in S. apply setz_fmap in S as (chs1 & S1 & ->).
      exists n', true, chs1. split; [done |]. split; [| done]. by apply (spec_accept _ _ _ _ ch).
  - apply irq_refines; [by left | | done]. intros n0. apply obs_ret. by exists n0.
  - apply irq_refines; [by right | | done]. intros n0. apply obs_ret. by eexists.
Qed.

Lemma tx_run_refines evs : forall n chs, nic_ok n (view <$> chs) -> Forall event_ok evs ->
  obs (tx_run evs n) (fun r _ => exists n' oks chs', r = Ok (n', oks) /\
    spec_run evs chs oks chs' /\ nic_ok n' (view <$> chs')).
Proof.
  induction evs as [| ev evs IH]; intros n chs Hn Hev; cbn [tx_run].
  - apply obs_ret. exists n, [], chs. split; [done |]. split; [constructor | done].
  - apply Forall_cons in Hev as [He Hevs]. apply obs_bind.
    eapply obs_weaken; [| by apply (tx_step_refines ev n chs)].
    intros r l (n1 & ok & chs1 & -> & S1 & H1). cbn beta iota. cbn [fst snd]. apply obs_bind.
    eapply obs_weaken; [| by apply (IH n1 chs1)].
    intros r2 l2 (n2 & oks & chs2 & -> & S2 & H2). cbn beta iota. apply obs_ret.
    exists n2, (ok :: oks), chs2. split; [done |]. split; [by econstructor | done].
Qed.

(** The memory of the driver shows exactly these frames: those the device
    fetches on each channel, and those gathered for it. *)
Definition shows (n : nic) (chs : list chan) : Prop :=
  forall c, 0 <= c < 2 -> exists e l ch, getz (n_h2c n) c = Some e /\ getz (n_tx_list n) c = Some l /\
    getz chs c = Some ch /\ running_frames e = Some (c_running ch) /\
    waiting_frames e l = Some (c_waiting ch).

Lemma nic_shows n chs : nic_ok n (view <$> chs) -> shows n chs.
Proof.
  intros Hn c Hc. destruct (nic_chan n _ c Hn Hc) as (e & l & run & pend & He & Hl & G & Hok & _).
  rewrite getz_fmap in G. destruct (getz chs c) as [ch |]; [| done]. injection G as G1 G2.
  destruct (chan_frames _ _ _ _ Hok) as [F1 F2]. exists e, l, ch. by subst.
Qed.

Lemma nic_wf n chs c ch : nic_ok n (view <$> chs) -> 0 <= c < 2 -> getz chs c = Some ch -> chan_wf ch.
Proof.
  intros Hn Hc G. destruct (nic_chan n _ c Hn Hc) as (e & l & run & pend & _ & _ & G' & Hok & _).
  rewrite getz_fmap, G in G'. injection G' as G1 G2. unfold chan_wf. rewrite G1, G2. intros ->.
  apply (ok_idle _ _ _ _ Hok).
Qed.


(** The handler of a channel's interrupt. *)
Definition h2c_handler (c : Z) : nic -> io D nic :=
  if c =? 0 then xdma_channel_H2C_irq else xdma_channel_H2C_PTP_irq.

Lemma h2c_handler_irq c : 0 <= c < 2 ->
  exists between, leaves_channels between /\ h2c_handler c = h2c_irq between c.
Proof.
  intros Hc. assert (c = 0 \/ c = 1) as [-> | ->] by lia.
  - exists ret. split; [| done]. intros n. apply obs_ret. by exists n.
  - eexists. split; [| reflexivity]. intros n. apply obs_ret. by eexists.
Qed.


End Refine.

(** ** The ring of an opened interface *)

Lemma init_tx_ring_ok n : forall i bus desc, 0 <= i -> i + Z.of_nat n <= Z.of_nat (length desc) ->
  0 <= bus -> bus + DMA_PACKET_SIZE * Z.of_nat n < 2 ^ 64 ->
  exists desc', init_tx_ring n i bus desc = Some desc' /\ length desc' = length desc /\
    forall j d, 0 <= j -> getz desc j = Some d -> exists d', getz desc' j = Some d' /\
      next_lo d' = next_lo d /\ next_hi d' = next_hi d /\ (j < i -> d' = d) /\
      (i <= j < i + Z.of_nat n ->
         src_addr_hi d' * 2 ^ 32 + src_addr_lo d' = bus + DMA_PACKET_SIZE * (j - i)).
Proof.
  induction n as [| n IH]; intros i bus desc Hi Hl Hb He; cbn [init_tx_ring].
  - exists desc. split; [done |]. split; [done |]. intros j d Hj Hd. exists d. split_and!; try done. lia.
  - destruct (getz_in desc i) as [d0 Hd0]; [lia |]. rewrite Hd0. cbn [mbind option_bind].
    rewrite (setz_get _ _ _ _ Hd0). cbn [mbind option_bind].
    unfold DMA_PACKET_SIZE in *. rewrite (u64_small (bus + 2048)) by (unfold is_u64; lia).
    destruct (dma_halves bus) as (Hlo & Hhi & Hsum); [unfold is_u64; lia |].
    rewrite (u32_small _ Hlo), (u32_small _ Hhi).
    set (d1 := mkDesc _ _ _ _ _ _ _ _).
    destruct (IH (i + 1) (bus + 2048) (<[Z.to_nat i := d1]> desc)) as (desc' & E & L & Hd');
      [lia | rewrite length_insert; lia | lia | lia |].
    exists desc'. split; [done |]. split; [by rewrite L, length_insert |]. intros j d Hj Hd.
    destruct (decide (j = i)) as [-> | Hne].
    + rewrite Hd0 in Hd. injection Hd as <-.
      destruct (Hd' i d1) as (d' & G & _ & _ & Hkeep & _); [lia | |].
      { rewrite (getz_insert _ _ _ _ _ Hd0) by lia. by rewrite decide_True. }
      rewrite (Hkeep ltac:(lia)) in G. exists d1. split_and!; try done; [lia |].
      intros _. cbn [src_addr_hi src_addr_lo d1]. rewrite Hsum. lia.
    + destruct (Hd' j d Hj) as (d' & G & N1 & N2 & Hkeep & Hsrc).
      { rewrite (getz_insert _ _ _ _ _ Hd0) by lia. by rewrite decide_False. }
      exists d'. split_and!; try done; [intros; apply Hkeep; lia |].
      intros Hr. rewrite Hsrc by lia. lia.
Qed.

(** The memory [engine_alloc_resource] gives a transmit engine, at rest. *)
Definition tx_allocated (e : xdma_engine) : Prop :=
  exists desc bufs, e_desc e = Some desc /\ tx_buff e = Some bufs /\
    1024 <= Z.of_nat (length desc) /\ 1024 <= Z.of_nat (length bufs) /\
    Forall (fun b => Z.of_nat (length b) = DMA_PACKET_SIZE) bufs /\
    e_dir (e_config e) = DMA_TO_DEVICE /\ e_running e = false /\
    Z.land (e_shutdown e) ENGINE_SHUTDOWN_REQUEST = 0 /\
    0 <= e_desc_bus (e_config e) /\ e_desc_bus (e_config e) + SIZEOF_XDMA_DESC * 1024 < 2 ^ 64 /\
    0 <= tx_buff_bus (e_config e) /\ tx_buff_bus (e_config e) + DMA_PACKET_SIZE * 1024 < 2 ^ 64.

(** Setting up the descriptors of a transmit engine and its ring, as
    [ax_net_open] does. *)
Definition open_tx_engine (kzalloc : bool) (dma_alloc : Z -> option (list xdma_desc * Z)) (flag : Z)
    (e : xdma_engine) : option xdma_engine :=
  e ← xdma_desc_setup false kzalloc dma_alloc e flag; init_tx_engine e.

Lemma tx_open_ok e flag kzalloc dma_alloc : tx_allocated e -> transfer_ready e flag kzalloc ->
  exists e', open_tx_engine kzalloc dma_alloc flag e = Some e' /\ e_config e' = e_config e /\
    chan_ok e' (mkTxList 1 0 0) [] [].
Proof.
  intros Ha Ht. pose proof Ha as (desc & bufs & Ed & Eb & Hd & Hbl & Hbufs & _ & Hr & Hs & B0 & B1 & B2 & B3).
  destruct (xdma_desc_setup_ok e flag kzalloc dma_alloc desc) as
    (t & desc1 & E & E6 & E7 & E8 & E9 & E10); [by unfold desc_allocated | done |].
  unfold open_tx_engine. rewrite E. cbn [mbind option_bind]. unfold init_tx_engine.
  cbn [e_desc set_e_transfer set_e_desc e_config mbind option_bind].
  destruct (init_tx_ring_ok (Z.to_nat TX_DESC_NUM) 0 (tx_buff_bus (e_config e)) desc1)
    as (desc2 & R1 & R2 & R3); [lia | unfold TX_DESC_NUM, RX_DESC_NUM; lia | done
                               | unfold TX_DESC_NUM, RX_DESC_NUM; lia |].
  rewrite R1. cbn [mbind option_bind]. eexists. split; [reflexivity |]. split; [done |].
  split; cbn [idle cur cur_pkt_count length]; try done; try lia.
  exists t. split_and!; try done; [| by rewrite E8]. split; try done.
  - by rewrite E7.
  - by left.
  - exists desc2, bufs. split; [done |]. split; [done |]. intros i Hi.
    destruct (E10 i Hi) as (d & Hdi & Hlink). destruct (R3 i d ltac:(lia) Hdi) as (d' & G & N1 & N2 & _ & N3).
    destruct (getz_in bufs i) as [b Hb]; [lia |]. exists d', b. split_and!; try done.
    split; [| split].
    + rewrite Forall_lookup in Hbufs. rewrite getz_nonneg in Hb by lia. by eapply Hbufs.
    + cbn. rewrite N3 by (unfold TX_DESC_NUM, RX_DESC_NUM; lia). f_equal. lia.
    + intros N511 N1023. rewrite (proj2 (Z.eqb_neq i 511)), (proj2 (Z.eqb_neq i 1023)) in Hlink by done.
      cbn [orb] in Hlink. destruct Hlink as [_ Hlink]. unfold linked in *. by rewrite N1, N2.
Qed.

(** Opening the interface makes a ring that is ready to transmit: whatever
    the descriptor memory held before, after [xdma_desc_setup] and the ring
    set-up of [ax_net_open] the channel, with its list reset, is idle and empty
    and satisfies the transmission invariant. *)
Theorem tx_open_ready e flag kzalloc dma_alloc : tx_allocated e -> transfer_ready e flag kzalloc ->
  exists e', open_tx_engine kzalloc dma_alloc flag e = Some e' /\ e_config e' = e_config e /\
    chan_ok e' (mkTxList 1 0 0) [] [].
Proof. apply tx_open_ok. Qed.

(** ** A concrete interface *)

Definition demo_config : engine_config :=
  mkConfig MAGIC_ENGINE 0 1 0x0 0x4000 DMA_TO_DEVICE true 1 1 64 0xF83E1E 0x10000 0 0 0x100000.

Definition demo_engine : xdma_engine :=
  mkEngine demo_config 0 false 0 0 None (Some (replicate (Z.to_nat 1024) (mkDesc 0 0 0 0 0 0 0 0)))
    None None (Some (replicate (Z.to_nat 1024) (replicate (Z.to_nat 2048) 0))).

Definition opened : xdma_engine :=
  default demo_engine (open_tx_engine true (fun _ => None) 0 demo_engine).

Definition demo_nic : nic :=
  mkNic [opened; opened] [mkTxList 1 0 0; mkTxList 1 0 0] 0 false ∅ [] false 0x2000 3.

Definition empty_chan : chan := mkChan [] [] [].

Lemma demo_allocated : tx_allocated demo_engine.
Proof.
  exists (replicate (Z.to_nat 1024) (mkDesc 0 0 0 0 0 0 0 0)), (replicate (Z.to_nat 1024) (replicate (Z.to_nat 2048) 0)).
  rewrite !length_replicate. split_and!; try done. by apply Forall_replicate.
Qed.

Lemma opened_ok : chan_ok opened (mkTxList 1 0 0) [] [].
Proof.
  unfold opened.
  destruct (tx_open_ok demo_engine 0 true (fun _ => None) demo_allocated (or_introl (conj eq_refl eq_refl)))
    as (e' & -> & _ & Hok). exact Hok.
Qed.

Lemma demo_nic_ok : nic_ok demo_nic (view <$> [empty_chan; empty_chan]).
Proof.
  split; [done |]. split; [done |]. intros c Hc. exists opened, (mkTxList 1 0 0), [], [].
  assert (c = 0 \/ c = 1) as [-> | ->] by lia;
    (do 3 (split; [reflexivity |])); (split; [exact opened_ok |]); (split; [done | by intros [? _]]).
Qed.

(** A frame of 70 bytes and a short one that is padded. *)
Definition demo_skb (short : bool) (x : Z) : tx_skb :=
  if short then mkTxSkb (replicate 14 x) (replicate 64 0) false else mkTxSkb (replicate 70 x) [] false.

Lemma demo_skb_ok short x : is_u8 x -> skb_ok (demo_skb short x).
Proof.
  intros Hx. unfold skb_ok, demo_skb, tx_len, SIZEOF_NIC_TX_HEADER, DMA_PACKET_SIZE.
  destruct short; cbn [tx_data tx_tailroom]; rewrite ?length_replicate; split_and!;
    try lia; try (apply Forall_replicate; unfold is_u8 in *; lia); try done.
Qed.

Lemma tx_open_ready_witness : exists e', open_tx_engine true (fun _ => None) 0 demo_engine = Some e' /\
  chan_ok e' (mkTxList 1 0 0) [] [].
Proof.
  destruct (tx_open_ready demo_engine 0 true (fun _ => None) demo_allocated
    (or_introl (conj eq_refl eq_refl))) as (e' & E & _ & Hok).
  exists e'. split; [exact E | exact Hok].
Defined.

Definition demo_events : list tx_event :=
  [EvXmit 7 (demo_skb false 1); EvXmit 8 (demo_skb true 2); EvIrq].


(** 513 frames with no interrupt: one is running, 512 wait, the queue stops. *)
Definition burst : list tx_event := replicate 513 (EvXmit 7 (demo_skb false 1)).
Definition final_nic (r : outcome (nic * list bool)) : nic :=
  match r with Ok (n, _) => n | _ => demo_nic end.
Definition stopped_nic : nic := final_nic (fst (fst (tx_run burst demo_nic ([] : regfile)))).

(** While a frame runs and no interrupt comes, frames wait. *)
Lemma spec_burst p b m : tx_hw_tstamp b = false -> forall ch ch1 oks chs',
  spec_run (replicate m (EvXmit p b)) [ch; ch1] oks chs' -> c_running ch <> [] ->
  c_waiting ch1 = [] -> (length (c_waiting ch) + m <= 512)%nat ->
  exists ch', chs' = [ch'; ch1] /\ length (c_waiting ch') = (length (c_waiting ch) + m)%nat.
Proof.
  intros Hb. induction m as [| m IH]; intros ch ch1 oks chs' Hr Hrun Hw Hlen.
  - inversion Hr; subst. exists ch. split; [done | lia].
  - cbn [replicate] in Hr. inversion Hr as [| ev evs chs ok chs1 oks1 chs2 Hs Hr']; subst.
    inversion Hs as [? ? ? ? ch0 Hg Hset | ? ? ? c ch0 Hg Hl | ? ? ? ? ? [[? _] | [? _]] | ? ? [? | ?]];
      subst; try done; unfold channel_of in *; try rewrite Hb in *.
    + injection Hg as <-. injection Hset as <-. unfold enqueue, view in Hr'. cbn [fst snd] in Hr'.
      destruct (c_running ch) as [| f run] eqn:E; [done |].
      destruct (IH _ _ _ _ Hr') as (ch' & -> & Hl); [done | done | |].
      * cbn [c_waiting snd]. rewrite length_app. cbn. lia.
      * exists ch'. split; [done |]. rewrite Hl. cbn [c_waiting snd]. rewrite length_app. cbn. lia.
    + exfalso. pose proof (getz_Some_range _ _ _ Hg) as Hc; cbn in Hc.
      assert (c = 0 \/ c = 1) as [-> | ->] by lia; injection Hg as <-; [lia |]. by rewrite Hw in Hl.
Qed.

(** A burst on idle channels: one frame runs, the others wait. *)
Lemma spec_burst_idle p b m oks chs' : tx_hw_tstamp b = false -> (m <= 512)%nat ->
  spec_run (replicate (S m) (EvXmit p b)) [empty_chan; empty_chan] oks chs' ->
  exists ch ch1, chs' = [ch; ch1] /\ length (c_waiting ch) = m.
Proof.
  intros Hb Hm Hr. cbn [replicate] in Hr.
  inversion Hr as [| ev evs chs ok chs1 oks1 chs2 Hs Hr']; subst.
  inversion Hs as [? ? ? ? ch0 Hg Hset | ? ? ? c ch0 Hg Hl | ? ? ? ? ? [[? _] | [? _]] | ? ? [? | ?]];
    subst; try done; unfold channel_of in *; try rewrite Hb in *.
  - injection Hg as <-. injection Hset as <-.
    destruct (spec_burst p b m Hb _ _ _ _ Hr') as (ch' & -> & Hl); [done | done | done |].
    exists ch', empty_chan. by split.
  - exfalso. pose proof (getz_Some_range _ _ _ Hg) as Hc. cbn in Hc.
    assert (c = 0 \/ c = 1) as [-> | ->] by lia; by injection Hg as <-.
Qed.

Lemma stopped_nic_ok : exists chs, nic_ok stopped_nic chs /\
  n_queue_stopped stopped_nic = true /\ n_stop_queue_channel stopped_nic = 0.
Proof.
  assert (Hev : Forall event_ok burst).
  { apply Forall_replicate. apply (demo_skb_ok false 1). unfold is_u8. lia. }
  destruct (tx_run_refines burst demo_nic [empty_chan; empty_chan] demo_nic_ok Hev ([] : regfile))
    as (n' & oks & chs' & E & Hs & Hn). exists (view <$> chs').
  assert (En : stopped_nic = n') by (unfold stopped_nic; by rewrite E). rewrite En.
  split; [exact Hn |].
  destruct (spec_burst_idle 7 (demo_skb false 1) 512 oks chs' eq_refl (le_n _) Hs) as (ch & ch1 & -> & Hl).
  destruct Hn as (_ & _ & Hn). destruct (Hn 0) as (e & l & run & pend & _ & _ & Hg & _ & Hiff); [lia |].
  injection Hg as _ <-. apply Hiff. rewrite Hl. reflexivity.
Qed.

