(* ===== verification/NicRx.v ===== *)
(** * Reception (libxdma.c, xdma_mod.c)

    The device writes each received frame into the next of 1024 buffers and a
    write-back record with its length into the same entry of the result array;
    the driver polls the records, copies the frames out and clears the
    records.  As in transmission the descriptors form two lists: the engine
    stops at the end of a list and the interrupt starts the other one. *)

From Stdlib Require Import ZArith Lia Bool.
From S2P Require Import Prelude.
From S2P Require Import Mmio.
From S2P Require Import TsQueue.
From S2P Require Import TsCapture.
From S2P Require Import SdsaTag.
From S2P Require Import XdmaEngine.
From S2P Require Import NicTx.

Definition C2H_WB : Z := 0x52B40000.
Definition ETH_P_802_3 : Z := 0x0001.
Definition ETH_P_802_2 : Z := 0x0004.

Inductive packet_type :=
| PACKET_HOST
| PACKET_BROADCAST
| PACKET_MULTICAST
| PACKET_OTHERHOST.

(** The kernel's helpers on Ethernet headers: their documented meaning. *)
Class EthApi := {
  ether_addr_equal_64bits : list Z -> list Z -> bool;
  is_multicast_ether_addr_64bits : list Z -> bool;
  eth_proto_is_802_3 : Z -> bool;           (* type in host order *)
  ether_addr_equal_iff a b : length a = 6%nat -> length b = 6%nat ->
    ether_addr_equal_64bits a b = true <-> a = b;
  is_multicast_iff a o : a !! 0%nat = Some o ->
    is_multicast_ether_addr_64bits a = Z.odd o;
  eth_proto_iff p : is_u16 p -> eth_proto_is_802_3 p = (0x600 <=? p);
}.

(** What the network device tells: its address, the broadcast address, and
    whether a DSA tree uses it. *)
Record net_cfg := mkNetCfg {
  dev_addr : list Z;
  dev_broadcast : list Z;
  netdev_uses_dsa : bool;
}.

(** A buffer handed to the network stack, from [skb->data] on. *)
Record rx_skb := mkRxSkb {
  rx_data : list Z;
  rx_protocol : Z;                    (* host order *)
  rx_pkt_type : packet_type;
  rx_stamp : option Z;
}.

(** The fields of [ax_private] and [xdma_dev] that reception uses, the buffers
    handed up, and the answers of the allocator to come (none: success). *)
Record rx_nic := mkRx {
  x_c2h : xdma_engine;                (* engine_c2h[0] *)
  x_switch : ax_switch;
  x_cur_rx : Z;                       (* u16 *)
  x_cur_rx_pkt_count : Z;             (* u32 *)
  x_rx_bytes : Z;
  x_rx_packets : Z;
  x_napi : bool;                      (* polling is scheduled *)
  x_up : list rx_skb;
  x_allocs : list bool;
  x_int_ctrl : Z;                     (* address of the interrupt_regs *)
  x_mask_irq_c2h : Z;
}.

Definition set_x_c2h (e : xdma_engine) (x : rx_nic) : rx_nic :=
  mkRx e (x_switch x) (x_cur_rx x) (x_cur_rx_pkt_count x) (x_rx_bytes x) (x_rx_packets x)
    (x_napi x) (x_up x) (x_allocs x) (x_int_ctrl x) (x_mask_irq_c2h x).
Definition set_x_cur_rx (c : Z) (x : rx_nic) : rx_nic :=
  mkRx (x_c2h x) (x_switch x) c (x_cur_rx_pkt_count x) (x_rx_bytes x) (x_rx_packets x)
    (x_napi x) (x_up x) (x_allocs x) (x_int_ctrl x) (x_mask_irq_c2h x).
Definition set_x_napi (b : bool) (x : rx_nic) : rx_nic :=
  mkRx (x_c2h x) (x_switch x) (x_cur_rx x) (x_cur_rx_pkt_count x) (x_rx_bytes x) (x_rx_packets x)
    b (x_up x) (x_allocs x) (x_int_ctrl x) (x_mask_irq_c2h x).
Definition set_x_allocs (l : list bool) (x : rx_nic) : rx_nic :=
  mkRx (x_c2h x) (x_switch x) (x_cur_rx x) (x_cur_rx_pkt_count x) (x_rx_bytes x) (x_rx_packets x)
    (x_napi x) (x_up x) l (x_int_ctrl x) (x_mask_irq_c2h x).

(** The switch after the timestamp check, the buffer and the counters. *)
Definition handed_up (s : ax_switch) (b : rx_skb) (len : Z) (x : rx_nic) : rx_nic :=
  mkRx (x_c2h x) s (x_cur_rx x) (u32 (x_cur_rx_pkt_count x + 1)) (u64 (x_rx_bytes x + len))
    (u64 (x_rx_packets x + 1)) (x_napi x) (x_up x ++ [b]) (x_allocs x) (x_int_ctrl x)
    (x_mask_irq_c2h x).

Definition napi_alloc_skb (x : rx_nic) : bool * rx_nic :=
  match x_allocs x with [] => (true, x) | b :: l => (b, set_x_allocs l x) end.

Section Classify.
Context `{EthApi}.

(** [ax_eth_type_trans] on the bytes of a frame: packet type, protocol, and the
    bytes after the header; [None] is a load past the frame. *)
Definition ax_eth_type_trans (cfg : net_cfg) (data : list Z) : option (packet_type * Z * list Z) :=
  let h_dest := take 6 data in
  h_proto ← be16 data 12;
  let rest := drop (Z.to_nat ETH_HLEN) data in
  let pkt_type :=
    if negb (ether_addr_equal_64bits h_dest (dev_addr cfg)) then
      if is_multicast_ether_addr_64bits h_dest then
        if ether_addr_equal_64bits h_dest (dev_broadcast cfg) then PACKET_BROADCAST
        else PACKET_MULTICAST
      else PACKET_OTHERHOST
    else PACKET_HOST in
  if netdev_uses_dsa cfg && (h_proto =? 0xDCDC) then Some (pkt_type, ETH_P_XDSA, rest)
  else if eth_proto_is_802_3 h_proto then Some (pkt_type, h_proto, rest)
  else
    match be16 rest 0 with
    | Some sap => Some (pkt_type, if sap =? 0xFFFF then ETH_P_802_3 else ETH_P_802_2, rest)
    | None => Some (pkt_type, ETH_P_802_2, rest)
    end.

End Classify.

Section Rx.
Context {D : Type} `{Device D} `{EthApi}.
Context (cfg : net_cfg).
(** Fuel of the FIFO loop, and the two uninitialised local records. *)
Context (fuel : nat) (ts junk : CAPTURE_DATA).
Local Open Scope io_scope.

(** One frame: the entry's bytes become a buffer, classified, stamped, handed up. *)
Definition rx_one (entry length_ : Z) (x : rx_nic) : io D rx_nic :=
  let! bufs := lift_opt (rx_buff (x_c2h x)) in
  let! buf := lift_opt (getz bufs entry) in
  let! data := lift_opt (skb_copy buf 0 (Z.to_nat length_)) in
  let! c := lift_opt (ax_eth_type_trans cfg data) in
  let '(pkt_type, protocol, rest) := c in
  let! h_proto := lift_opt (be16 data 12) in
  let! r := ax_rx_check_timestamp fuel ts junk (x_switch x) protocol h_proto rest in
  let x := handed_up (fst r) (mkRxSkb rest protocol pkt_type (snd r)) length_ x in
  let! result := lift_opt (cyclic_result (x_c2h x)) in
  let! result := lift_opt (setz result entry (mkResult 0 0)) in
  ret (set_x_c2h (set_cyclic_result (Some result) (x_c2h x)) x).

(** The loop of [ax_net_rx] from [entry]. *)
Fixpoint net_rx_loop (n : nat) (entry work_done budget : Z) (x : rx_nic) : io D (rx_nic * Z) :=
  match n with
  | O => fun d => (NoFuel, d, [])
  | S n =>
      let! result := lift_opt (cyclic_result (x_c2h x)) in
      let! r := lift_opt (getz result entry) in
      if (Z.land (r_status r) 0xFFFF0000 =? C2H_WB) && negb (budget =? 0) then
        if budget <=? work_done then ret (set_x_cur_rx (u16 entry) x, work_done)
        else
          let '(ok, x) := napi_alloc_skb x in
          if negb ok then ret (set_x_cur_rx (u16 entry) x, work_done)
          else
            let! x := rx_one entry (r_length r) x in
            net_rx_loop n (u32 (Z.rem (entry + 1) RX_DESC_NUM)) (work_done + 1) budget x
      else ret (set_x_cur_rx (u16 entry) x, work_done)
  end.

(** The loop ends within [budget] turns and one. *)
Definition ax_net_rx (budget : Z) (x : rx_nic) : io D (rx_nic * Z) :=
  net_rx_loop (S (Z.to_nat budget)) (x_cur_rx x) 0 budget x.

Definition ax_net_poll (budget : Z) (x : rx_nic) : io D (rx_nic * Z) :=
  let! r := ax_net_rx budget x in
  let '(x, work_done) := r in
  if work_done <? budget then
    do! writel (x_int_ctrl x + INT_CHANNEL_ENABLE_W1S) (e_irq_bitmask (e_config (x_c2h x))) in
    ret (set_x_napi false x, work_done)
  else ret (x, work_done).

(** Stop the engine and start it on its other list. *)
Definition c2h_restart (engine : xdma_engine) : io D xdma_engine :=
  let! engine := xdma_engine_stop engine in
  let! engine := next_list engine in
  engine_start engine.

Definition xdma_channel_C2H_irq (x : rx_nic) : io D rx_nic :=
  let engine := x_c2h x in
  let! ch_irq := readl (x_int_ctrl x + INT_CHANNEL_REQUEST) in
  let mask := Z.land ch_irq (x_mask_irq_c2h x) in
  if mask =? 0 then ret x
  else
    do! writel (reg engine ENG_INT_MASK_W1C) (e_interrupt_enable_mask_value (e_config engine)) in
    do! readl (x_int_ctrl x + INT_CHANNEL_PENDING) in
    let! x :=
      (if negb (Z.land (e_irq_bitmask (e_config engine)) mask =? 0) &&
          (e_magic (e_config engine) =? MAGIC_ENGINE)
       then
         let! r := engine_status_read engine in
         let '(engine, isr) := r in
         let! engine_desc := readl (reg engine ENG_COMPLETED_DESC_COUNT) in
         let! engine :=
           (if negb (Z.land isr XDMA_STAT_DESC_STOPPED =? 0) ||
               (Z.quot RX_DESC_NUM DESC_LIST_NUM =? engine_desc)
            then c2h_restart engine else ret engine) in
         ret (set_x_napi true (set_x_c2h engine x))
       else ret x) in
    do! writel (reg engine ENG_INT_MASK_W1S) (e_interrupt_enable_mask_value (e_config engine)) in
    ret x.

(** The receive part of the handler for legacy and MSI interrupts: one channel. *)
Definition xdma_isr_c2h (ch_irq : Z) (x : rx_nic) : io D rx_nic :=
  let mask := Z.land ch_irq (x_mask_irq_c2h x) in
  if mask =? 0 then ret x
  else
    let engine := x_c2h x in
    if negb (Z.land (e_irq_bitmask (e_config engine)) mask =? 0) &&
       (e_magic (e_config engine) =? MAGIC_ENGINE)
    then
      let! r := engine_status_read engine in
      let '(engine, isr) := r in
      let! engine :=
        (if negb (Z.land isr XDMA_STAT_DESC_STOPPED =? 0) then c2h_restart engine
         else ret engine) in
      ret (set_x_napi true (set_x_c2h engine x))
    else ret x.

End Rx.

(** ** Opening *)

(** The addresses of a receive ring: a descriptor's destination is its buffer, its
    source the entry of the result array. *)
Fixpoint init_rx_ring (n : nat) (i rx_buff_bus result_bus : Z) (desc : list xdma_desc)
    : option (list xdma_desc) :=
  match n with
  | O => Some desc
  | S n =>
      d ← getz desc i;
      desc ← setz desc i (mkDesc (control d) PKT_BUF_LEN
        (u32 (PCI_DMA_L result_bus)) (u32 (PCI_DMA_H result_bus))
        (u32 (PCI_DMA_L rx_buff_bus)) (u32 (PCI_DMA_H rx_buff_bus)) (next_lo d) (next_hi d));
      init_rx_ring n (i + 1) (u64 (rx_buff_bus + DMA_PACKET_SIZE))
        (u64 (result_bus + SIZEOF_XDMA_RESULT)) desc
  end.

(** [ax_net_init_ring] on the receive engine. *)
Definition init_rx_engine (e : xdma_engine) : option xdma_engine :=
  desc ← e_desc e;
  desc ← init_rx_ring (Z.to_nat RX_DESC_NUM) 0 (rx_buff_bus (e_config e))
           (cyclic_result_bus (e_config e)) desc;
  Some (set_e_desc (Some desc) e).

(** ** One frame and its timestamp *)

(** What a frame becomes for the network stack, its timestamp aside. *)
Definition up_of `{EthApi} (cfg : net_cfg) (f : frame) (b : rx_skb) : Prop :=
  ax_eth_type_trans cfg f = Some (rx_pkt_type b, rx_protocol b, rx_data b).

(** Whether a frame holds the bytes the timestamp check reads. *)
Definition rx_fits `{EthApi} (cfg : net_cfg) (junk : CAPTURE_DATA) (f : frame) : Prop :=
  exists c h_proto, ax_eth_type_trans cfg f = Some c /\ be16 f 12 = Some h_proto /\
    match rx_action (snd (fst c)) h_proto (snd c) with
    | None => False
    | Some (TsStamp m) => is_Some (ptp_key junk m)
    | Some _ => True
    end.

Definition is_frame (f : frame) : Prop := Forall is_u8 f /\ Z.of_nat (length f) <= DMA_PACKET_SIZE.

Lemma be16_in l i : (i + 2 <= length l)%nat -> exists w, be16 l i = Some w.
Proof.
  intros Hi. unfold be16.
  destruct (lookup_lt_is_Some_2 l i) as [h ->]; [lia |].
  destruct (lookup_lt_is_Some_2 l (S i)) as [b ->]; [lia |]. cbn [mbind option_bind]. by eexists.
Qed.

Lemma ptp_key_in junk m : (ptp_msg_offset m + PTP_HDR_SIZE <= length (skb_data m))%nat ->
  is_Some (ptp_key junk m).
Proof.
  intros Hl. unfold ptp_key, skb_copy. rewrite decide_True by done. cbn [mbind option_bind].
  set (hdr := take _ _).
  assert (Hh : length hdr = 34%nat).
  { unfold hdr. rewrite length_take, length_drop. unfold PTP_HDR_SIZE in *. lia. }
  destruct (lookup_lt_is_Some_2 hdr PTP_MSG_TYPE_OFFSET) as [a ->]; [rewrite Hh; vm_compute; lia |].
  destruct (be16_in hdr PTP_SEQ_ID_OFFSET) as [w ->]; [rewrite Hh; vm_compute; lia |].
  destruct (lookup_lt_is_Some_2 hdr PTP_SUBDOMAIN_OFFSET) as [c ->]; [rewrite Hh; vm_compute; lia |].
  by eexists.
Qed.

(** Arithmetic on the constant offsets of header fields. *)
Ltac offset_lia :=
  repeat match goal with |- context [Z.to_nat ?e] =>
    let n := eval vm_compute in (Z.to_nat e) in change (Z.to_nat e) with n end; lia.

Section Fits.
Context `{EthApi}.

Lemma eth_type_trans_long cfg f : (14 <= length f)%nat ->
  exists t p, ax_eth_type_trans cfg f = Some (t, p, drop 14 f).
Proof.
  intros Hl. unfold ax_eth_type_trans. destruct (be16_in f 12) as [w ->]; [lia |].
  cbn [mbind option_bind]. set (pt := if negb _ then _ else _).
  destruct (netdev_uses_dsa cfg && _); [by do 2 eexists |].
  destruct (eth_proto_is_802_3 w); [by do 2 eexists |].
  destruct (be16 _ 0); by do 2 eexists.
Qed.

(** Frames of 84 bytes and more hold everything the check may read. *)
Lemma rx_fits_long cfg junk f : (84 <= length f)%nat -> rx_fits cfg junk f.
Proof.
  intros Hl. destruct (eth_type_trans_long cfg f) as (t & p & E); [lia |].
  destruct (be16_in f 12) as [w Ew]; [lia |]. exists (t, p, drop 14 f), w.
  split; [done |]. split; [done |]. cbn [fst snd]. unfold rx_action.
  assert (Hd : (70 <= length (drop 14 f))%nat) by (rewrite length_drop; lia).
  destruct (p =? ETH_P_XDSA); [| done]. destruct (w =? AX_SDSA); [| done].
  destruct (be16_in (drop 14 f) (Z.to_nat (AX_RX_PTPHDR_OFFSET_L2 + 2))) as [tg ->]; [offset_lia |].
  cbn [mbind option_bind].
  destruct (be16_in (drop 14 f) (Z.to_nat (AX_RX_PTPHDR_OFFSET_L2 + AX_SDSA_TAG_LENGTH_RX))) as [et ->];
    [offset_lia |]. cbn [mbind option_bind].
  destruct (et =? ETH_P_1588).
  - destruct (lookup_lt_is_Some_2 (drop 14 f)
      (Z.to_nat (AX_RX_PTPHDR_OFFSET_L2 + AX_SDSA_TAG_LENGTH_RX + 2))) as [mt ->]; [offset_lia |].
    cbn [mbind option_bind]. destruct (_ <=? _); [| done]. apply ptp_key_in.
    cbn [ptp_msg_offset skb_data]. unfold PTP_HDR_SIZE. offset_lia.
  - destruct (et =? ETH_P_NET_LATENCY); [done |]. destruct (et =? ETH_P_IP); [| done].
    destruct (lookup_lt_is_Some_2 (drop 14 f)
      (Z.to_nat (AX_IP_PROTO_OFFSET + AX_SDSA_TAG_LENGTH_RX + 2))) as [tp ->]; [offset_lia |].
    cbn [mbind option_bind]. destruct (tp =? IPPROTO_UDP); [| done].
    destruct (be16_in (drop 14 f) (Z.to_nat (AX_UDP_PORT_OFFSET + AX_SDSA_TAG_LENGTH_RX + 2))) as [dp ->];
      [offset_lia |]. cbn [mbind option_bind].
    destruct (dp =? AX_PTP_EVENT_PORT_NUM); [| done]. apply ptp_key_in.
    cbn [ptp_msg_offset skb_data]. unfold PTP_HDR_SIZE. offset_lia.
Qed.

End Fits.

(** The switch state a receive path needs and keeps. *)
Definition switch_ready (s : ax_switch) : Prop :=
  switch_ok s /\ Forall ts_ok (tsq_contents (rx_queue s)).

Section Check.
Context {D : Type} `{CaptureHw D} `{EthApi}.
Context (cfg : net_cfg) (fuel : nat) (ts junk : CAPTURE_DATA).
Context (Hts : ts_sized ts).
(** Loading the latency counters leaves the capture FIFOs alone. *)
Context (Hlat : forall a d x, a = 0x110 \/ a = 0x114 -> fifo x (snd (dev_read a d)) = fifo x d).

Lemma rx_check_runs f c h_proto s d :
  ax_eth_type_trans cfg f = Some c -> be16 f 12 = Some h_proto -> rx_fits cfg junk f ->
  switch_ready s -> (length (fifo Rx d) < fuel)%nat ->
  exists s' st d', runs (ax_rx_check_timestamp fuel ts junk s (snd (fst c)) h_proto (snd c)) d (s', st) d' /\
    switch_ready s' /\ (length (fifo Rx d') < fuel)%nat.
Proof using Hts Hlat.
  intros Ec Eh (c' & h' & Ec' & Eh' & Hfit) [Hok Hts'] Hd.
  rewrite Ec in Ec'. rewrite Eh in Eh'. injection Ec' as <-. injection Eh' as <-.
  unfold ax_rx_check_timestamp. destruct (rx_action _ _ _) as [[| m |] |] eqn:Ea; [| | | done].
  - exists s, None, d. split; [| done]. eapply runs_bind; [by apply runs_lift | apply runs_ret].
  - destruct Hfit as [key Hk].
    destruct (retrieve_rx_runs fuel ts s d) as (d' & R & E1 & _); try done.
    destruct (drain_fold Rx (fifo Rx d) (ts, s)) as (Hinv & Hm & Hc & Ho & Hpm); [done |].
    set (s' := snd (foldl (drain_step Rx) (ts, s) (fifo Rx d))) in *.
    assert (Hready : switch_ready s').
    { split; [apply Hinv |]. apply (received_ok Rx (fifo Rx d) s s'); [by split | done]. }
    destruct (spec_find_status (tsq_contents (rx_queue s')) key) as (Est & _ & Ecc).
    assert (Hst : exists st, ax_tsn_rx_hwtstamp junk s' m = Some st).
    { unfold ax_tsn_rx_hwtstamp. rewrite Hk. cbn [mbind option_bind].
      rewrite (tsq_find_contents _ key (dir_queue_wf Rx s' (proj1 Hready) : tsq_wf (rx_queue s'))). cbn [mbind option_bind].
      destruct (fst _ <? 0) eqn:E; [by eexists |].
      rewrite Est in E. destruct (List.find _ _) as [cap |] eqn:Ef.
      - rewrite (Ecc cap eq_refl), mode_stamp_ns; [by eexists |].
        apply List.find_some in Ef as [Hin _].
        exact (proj1 (List.Forall_forall _ _) (proj2 Hready) cap Hin).
      - rewrite bool_decide_false in E by (by intros []). done. }
    destruct Hst as [st Est']. exists s', st, d'. split_and!; [| done |].
    + eapply runs_bind; [by apply runs_lift |]. eapply runs_bind; [exact R |].
      eapply runs_bind; [by apply runs_lift |]. apply runs_ret.
    + rewrite E1. simpl. lia.
  - destruct (dev_read 0x114 d) as [v1 d1] eqn:E1. destruct (dev_read 0x110 d1) as [v2 d2] eqn:E2.
    eexists s, _, d2. split; [| split; [done |]].
    + eapply runs_bind; [by apply runs_lift |]. eapply runs_bind; [by apply runs_readl |].
      eapply runs_bind; [by apply runs_readl |]. apply runs_ret.
    + pose proof (Hlat 0x114 d Rx (or_intror eq_refl)) as F1. rewrite E1 in F1.
      pose proof (Hlat 0x110 d1 Rx (or_introl eq_refl)) as F2. rewrite E2 in F2.
      cbn [snd] in F1, F2. by rewrite F2, F1.
Qed.

End Check.

(** ** The ring *)

Definition res_valid (r : xdma_result) : bool := Z.land (r_status r) 0xFFFF0000 =? C2H_WB.

Definition entry (c i : Z) : Z := (c + i) mod 1024.

Definition entry_holds (result : list xdma_result) (bufs : list (list Z)) (j : Z) (f : frame) : Prop :=
  exists r b, getz result j = Some r /\ res_valid r = true /\ r_length r = Z.of_nat (length f) /\
    getz bufs j = Some b /\ take (length f) b = f.

(** From entry [c] on the ring holds the frames [q], and nothing else. *)
Definition memory_holds (result : list xdma_result) (bufs : list (list Z)) (c : Z) (q : list frame) : Prop :=
  Z.of_nat (length result) = 1024 /\ Z.of_nat (length bufs) = 1024 /\
  Forall (fun b => Z.of_nat (length b) = DMA_PACKET_SIZE) bufs /\
  Z.of_nat (length q) <= 1024 /\ 0 <= c < 1024 /\
  (forall i f, 0 <= i -> getz q i = Some f -> entry_holds result bufs (entry c i) f) /\
  (forall i, Z.of_nat (length q) <= i < 1024 ->
     exists r, getz result (entry c i) = Some r /\ res_valid r = false).

Definition ring_holds (e : xdma_engine) (c : Z) (q : list frame) : Prop :=
  exists result bufs, cyclic_result e = Some result /\ rx_buff e = Some bufs /\
    memory_holds result bufs c q.

Lemma entry_0 c : 0 <= c < 1024 -> entry c 0 = c.
Proof. intros Hc. unfold entry. rewrite Z.add_0_r. by apply Z.mod_small. Qed.
Lemma entry_range c i : 0 <= entry c i < 1024.
Proof. apply Z.mod_pos_bound. lia. Qed.
Lemma entry_entry c i j : entry (entry c i) j = entry c (i + j).
Proof. unfold entry. rewrite Zplus_mod_idemp_l. f_equal. lia. Qed.
Lemma entry_inj c i j : 0 <= i < 1024 -> 0 <= j < 1024 -> entry c i = entry c j -> i = j.
Proof. unfold entry. intros Hi Hj E. Z.div_mod_to_equations. lia. Qed.
Lemma entry_surj c j : 0 <= j < 1024 -> exists i, 0 <= i < 1024 /\ entry c i = j.
Proof.
  intros Hj. exists ((j - c) mod 1024). split; [apply Z.mod_pos_bound; lia |].
  unfold entry. rewrite Zplus_mod_idemp_r. rewrite <- (Z.mod_small j 1024) at 2 by done.
  f_equal. lia.
Qed.

(** The driver consumes the first entry. *)
Lemma memory_pop result bufs c f q result' : memory_holds result bufs c (f :: q) ->
  setz result c (mkResult 0 0) = Some result' -> memory_holds result' bufs (entry c 1) q.
Proof.
  intros (Hr & Hb & Hbs & Hq & Hc & Hin & Hout) Hset. cbn [length] in Hq, Hout.
  split_and!; try done.
  - rewrite <- Hr. f_equal. by eapply setz_length.
  - lia.
  - apply entry_range.
  - apply entry_range.
  - intros i g Hi Hg. rewrite entry_entry.
    pose proof (getz_Some_range _ _ _ Hg) as Hlt.
    destruct (Hin (1 + i) g) as (r & b & R1 & R2 & R3 & R4); [lia | |].
    { rewrite getz_nonneg by lia. replace (Z.to_nat (1 + i)) with (S (Z.to_nat i)) by lia.
      rewrite <- Hg, getz_nonneg by lia. done. }
    exists r, b. split_and!; try done; try by apply R4.
    rewrite (getz_setz_ne _ _ _ _ _ Hset); [done |]. intros E.
    rewrite <- (entry_0 c) in E at 1 by done. apply entry_inj in E; lia.
  - intros i Hi. rewrite entry_entry. destruct (decide (1 + i = 1024)) as [E | Hne].
    + exists (mkResult 0 0). split; [| done]. rewrite E.
      assert (E' : entry c 1024 = c).
      { unfold entry. replace (c + 1024) with (c + 1 * 1024) by lia. rewrite Z_mod_plus_full.
        by apply Z.mod_small. }
      rewrite E'. by eapply getz_setz_eq.
    + destruct (Hout (1 + i)) as (r & R1 & R2); [lia |]. exists r. split; [| done].
      rewrite (getz_setz_ne _ _ _ _ _ Hset); [done |]. intros E.
      rewrite <- (entry_0 c) in E at 1 by done. apply entry_inj in E; lia.
Qed.

(** The device fills the entry after the last. *)
Lemma memory_push result bufs c q f r b result' bufs' : memory_holds result bufs c q ->
  Z.of_nat (length q) < 1024 -> res_valid r = true -> r_length r = Z.of_nat (length f) ->
  take (length f) b = f -> Z.of_nat (length b) = DMA_PACKET_SIZE ->
  setz result (entry c (Z.of_nat (length q))) r = Some result' ->
  setz bufs (entry c (Z.of_nat (length q))) b = Some bufs' ->
  memory_holds result' bufs' c (q ++ [f]).
Proof.
  intros (Hr & Hb & Hbs & Hq & Hc & Hin & Hout) Hlt Hv Hl Ht Hbl Hset Hsetb.
  split_and!; try done.
  - rewrite <- Hr. f_equal. by eapply setz_length.
  - rewrite <- Hb. f_equal. by eapply setz_length.
  - unfold setz in Hsetb. case_decide; [| done]. injection Hsetb as <-. by apply Forall_insert.
  - rewrite length_app. cbn. lia.
  - apply Hc.
  - apply Hc.
  - intros i g Hi Hg. pose proof (getz_Some_range _ _ _ Hg) as Hrange.
    rewrite length_app in Hrange. cbn [length] in Hrange. rewrite getz_nonneg in Hg by lia.
    destruct (decide (i = Z.of_nat (length q))) as [-> | Hne].
    + rewrite Nat2Z.id, lookup_app_r, Nat.sub_diag in Hg by lia. injection Hg as <-.
      exists r, b. split_and!; try done; by eapply getz_setz_eq.
    + rewrite lookup_app_l in Hg by lia.
      destruct (Hin i g Hi) as (r1 & b1 & R1 & R2 & R3 & R4 & R5); [by rewrite getz_nonneg by lia |].
      exists r1, b1. split_and!; try done.
      * rewrite (getz_setz_ne _ _ _ _ _ Hset); [done |]. intros E. apply entry_inj in E; lia.
      * rewrite (getz_setz_ne _ _ _ _ _ Hsetb); [done |]. intros E. apply entry_inj in E; lia.
  - intros i Hi. rewrite length_app in Hi. cbn [length] in Hi.
    destruct (Hout i) as (r1 & R1 & R2); [lia |]. exists r1. split; [| done].
    rewrite (getz_setz_ne _ _ _ _ _ Hset); [done |]. intros E. apply entry_inj in E; lia.
Qed.

(** ** Polling *)

(** How many of the waiting frames a poll takes: at most its budget, and none
    from the first failing allocation on. *)
Fixpoint serve (n : nat) (allocs : list bool) (q : list frame) : nat :=
  match q, n with
  | _ :: q, S n =>
      match allocs with
      | [] => S (serve n [] q)
      | true :: allocs => S (serve n allocs q)
      | false :: _ => O
      end
  | _, _ => O
  end.

Lemma serve_all n q : serve n [] q = Nat.min n (length q).
Proof.
  revert n. induction q as [| f q IH]; intros [| n]; try done. cbn [serve length]. by rewrite IH.
Qed.

Lemma serve_le n al q : (serve n al q <= n)%nat /\ (serve n al q <= length q)%nat.
Proof.
  revert n al. induction q as [| f q IH]; intros [| n] al; cbn [serve length]; try lia.
  destruct al as [| [] al]; [pose proof (IH n []) | pose proof (IH n al) |]; lia.
Qed.

Definition frames_bytes (l : list frame) : Z := Z.of_nat (length (concat l)).

(** [x'] is [x] after the frames [l] went up as the buffers [bs]. *)
Definition delivered_to (x x' : rx_nic) (l : list frame) (bs : list rx_skb) : Prop :=
  (exists result, x_c2h x' = set_cyclic_result (Some result) (x_c2h x)) /\
  x_up x' = x_up x ++ bs /\
  u64 (x_rx_packets x') = u64 (x_rx_packets x + Z.of_nat (length l)) /\
  u64 (x_rx_bytes x') = u64 (x_rx_bytes x + frames_bytes l) /\
  x_napi x' = x_napi x /\ x_int_ctrl x' = x_int_ctrl x /\ x_mask_irq_c2h x' = x_mask_irq_c2h x.

Section Poll.
Context {D : Type} `{CaptureHw D} `{EthApi}.
Context (cfg : net_cfg) (fuel : nat) (ts junk : CAPTURE_DATA).
Context (Hts : ts_sized ts).
Context (Hlat : forall a d x, a = 0x110 \/ a = 0x114 -> fifo x (snd (dev_read a d)) = fifo x d).

Lemma rx_one_runs x c f q d :
  ring_holds (x_c2h x) c (f :: q) -> switch_ready (x_switch x) ->
  rx_fits cfg junk f -> (length (fifo Rx d) < fuel)%nat ->
  exists s' b result d', let x' := set_x_c2h (set_cyclic_result (Some result) (x_c2h x))
                              (handed_up s' b (Z.of_nat (length f)) x) in
    runs (rx_one cfg fuel ts junk c (Z.of_nat (length f)) x) d x' d' /\
    up_of cfg f b /\ ring_holds (x_c2h x') (entry c 1) q /\ switch_ready s' /\
    (length (fifo Rx d') < fuel)%nat.
Proof using Hts Hlat.
  intros (result & bufs & Er & Eb & Hm) Hs Hfit Hd.
  pose proof Hm as (Hr & _ & _ & _ & Hc & Hin & _).
  destruct (Hin 0 f) as (r & b & _ & _ & _ & R4 & R5); [lia | by rewrite getz_nonneg |].
  rewrite entry_0 in R4 by done.
  assert (Hcopy : skb_copy b 0 (Z.to_nat (Z.of_nat (length f))) = Some f).
  { rewrite Nat2Z.id. unfold skb_copy. rewrite decide_True.
    - by rewrite drop_0, R5.
    - rewrite <- R5 at 1. rewrite length_take. lia. }
  pose proof Hfit as ([[t p] rest] & w & Ec & Ew & _).
  destruct (rx_check_runs cfg fuel ts junk Hts Hlat f _ w (x_switch x) d Ec Ew Hfit Hs Hd)
    as (s' & st & d' & R & Hs' & Hd'). cbn [fst snd] in R.
  destruct (setz result c (mkResult 0 0)) as [result' |] eqn:Hset;
    [| unfold setz in Hset; rewrite decide_True in Hset by lia; done].
  exists s', (mkRxSkb rest p t st), result', d'. cbn beta zeta. split_and!; try done.
  - unfold rx_one. do 4 (eapply runs_bind; [apply runs_lift; eassumption |]). cbn beta iota.
    eapply runs_bind; [apply runs_lift; eassumption |]. eapply runs_bind; [exact R |].
    do 2 (eapply runs_bind; [apply runs_lift; cbn; eassumption |]). apply runs_ret.
  - exists result', bufs. cbn. split; [done |]. split; [done |]. by eapply memory_pop.
Qed.

Definition rx_state_ok (x : rx_nic) (q : list frame) : Prop :=
  ring_holds (x_c2h x) (x_cur_rx x) q /\ switch_ready (x_switch x) /\ Forall (rx_fits cfg junk) q.

Lemma delivered_cons x x1 x' f l b bs s' result :
  x1 = set_x_c2h (set_cyclic_result (Some result) (x_c2h x)) (handed_up s' b (Z.of_nat (length f)) x) ->
  delivered_to x1 x' l bs -> delivered_to x x' (f :: l) (b :: bs).
Proof.
  intros -> ((result' & Er) & Eu & Ep & Eby & En & Ei & Em). cbn in *. split_and!; try done.
  - by exists result'.
  - by rewrite Eu, <- app_assoc.
  - rewrite Ep. unfold u64. rewrite Zplus_mod_idemp_l. f_equal. cbn [length]. lia.
  - rewrite Eby. unfold u64. rewrite Zplus_mod_idemp_l. f_equal. unfold frames_bytes. cbn [concat].
    rewrite length_app. lia.
Qed.

Lemma rx_stop x al c q : ring_holds (x_c2h x) c q -> switch_ready (x_switch x) ->
  Forall (rx_fits cfg junk) q ->
  let x' := set_x_cur_rx (u16 c) (set_x_allocs al x) in
  delivered_to x x' [] [] /\ x_cur_rx x' = entry c 0 /\ rx_state_ok x' q.
Proof.
  intros Hring Hs Hq x'. pose proof Hring as (result & bufs & Er & Eb & Hm).
  pose proof Hm as (_ & _ & _ & _ & Hc & _).
  assert (E : x_cur_rx x' = c) by (cbn; apply u16_small; unfold is_u16; lia).
  split; [| split; [by rewrite E, entry_0 | split; [by rewrite E | done]]].
  unfold delivered_to, frames_bytes. cbn. rewrite !Z.add_0_r, app_nil_r. split_and!; try done.
  exists result. destruct (x_c2h x). cbn in *. by rewrite Er.
Qed.

Lemma set_x_allocs_same x : set_x_allocs (x_allocs x) x = x.
Proof. by destruct x. Qed.

(** A turn that finds a frame within the budget. *)
Lemma net_rx_loop_turn n c wd budget x result r d v d' :
  cyclic_result (x_c2h x) = Some result -> getz result c = Some r -> res_valid r = true ->
  0 <= wd < budget ->
  runs (let '(ok, x) := napi_alloc_skb x in
        if negb ok then ret (set_x_cur_rx (u16 c) x, wd)
        else bind (rx_one cfg fuel ts junk c (r_length r) x)
               (fun x => net_rx_loop cfg fuel ts junk n (u32 (Z.rem (c + 1) RX_DESC_NUM)) (wd + 1) budget x))
    d v d' ->
  runs (net_rx_loop cfg fuel ts junk (S n) c wd budget x) d v d'.
Proof.
  intros Er Hg Hv Hwd R. cbn [net_rx_loop]. eapply runs_bind; [by apply runs_lift |].
  eapply runs_bind; [by apply runs_lift |]. unfold res_valid in Hv.
  rewrite Hv, (proj2 (Z.eqb_neq budget 0)), (proj2 (Z.leb_gt budget wd)) by lia. exact R.
Qed.

Lemma net_rx_loop_runs n : forall x q c wd budget d,
  Z.of_nat n = budget - wd -> 0 <= wd -> ring_holds (x_c2h x) c q ->
  switch_ready (x_switch x) -> Forall (rx_fits cfg junk) q -> (length (fifo Rx d) < fuel)%nat ->
  let k := serve n (x_allocs x) q in
  exists x' bs d', runs (net_rx_loop cfg fuel ts junk (S n) c wd budget x) d (x', wd + Z.of_nat k) d' /\
    delivered_to x x' (take k q) bs /\ Forall2 (up_of cfg) (take k q) bs /\
    x_cur_rx x' = entry c (Z.of_nat k) /\ rx_state_ok x' (drop k q) /\
    (length (fifo Rx d') < fuel)%nat.
Proof using Hts Hlat.
  induction n as [| n IH]; intros x q c wd budget d Hn Hwd Hring Hs Hq Hd.
  all: pose proof Hring as (result & bufs & Er & Eb & Hm);
       pose proof Hm as (Hr & _ & _ & Hlen & Hc & Hin & Hout);
       destruct (getz_in result c) as [r Hget]; [lia |].
  all: assert (Hstop : forall al k, k = 0%nat -> exists x' bs d',
         runs (ret (D := D) (set_x_cur_rx (u16 c) (set_x_allocs al x), wd)) d (x', wd + Z.of_nat k) d' /\
         delivered_to x x' (take k q) bs /\ Forall2 (up_of cfg) (take k q) bs /\
         x_cur_rx x' = entry c (Z.of_nat k) /\ rx_state_ok x' (drop k q) /\
         (length (fifo Rx d') < fuel)%nat)
       by (intros al k ->; destruct (rx_stop x al c q Hring Hs Hq) as (I1 & I2 & I3);
           eexists _, [], d; rewrite Z.add_0_r; split; [apply runs_ret | by split_and!]).
  all: pose proof (Hstop (x_allocs x)) as Hnone; rewrite set_x_allocs_same in Hnone.
  - assert (Hk : serve 0 (x_allocs x) q = 0%nat) by (by destruct q).
    destruct (Hnone _ Hk) as (x' & bs & d' & R & Hrest). exists x', bs, d'. split; [| exact Hrest].
    cbn [net_rx_loop]. eapply runs_bind; [by apply runs_lift |]. eapply runs_bind; [by apply runs_lift |].
    destruct (_ && _); [| exact R]. rewrite (proj2 (Z.leb_le budget wd)) by lia. exact R.
  - destruct q as [| f q].
    + destruct (Hout 0) as (r0 & G & Hv); [cbn; lia |]. rewrite entry_0 in G by done.
      rewrite G in Hget. injection Hget as <-.
      destruct (Hnone (serve (S n) (x_allocs x) []) eq_refl) as (x' & bs & d' & R & Hrest).
      exists x', bs, d'. split; [| exact Hrest]. unfold res_valid in Hv.
      cbn [net_rx_loop]. eapply runs_bind; [by apply runs_lift |].
      eapply runs_bind; [by apply runs_lift |]. by rewrite Hv.
    + destruct (Hin 0 f) as (r0 & b & G & Hv & Hl & _); [lia | by rewrite getz_nonneg |].
      rewrite entry_0 in G by done. rewrite G in Hget. injection Hget as <-. unfold res_valid in Hv.
      apply Forall_cons in Hq as [Hf Hq].
      assert (Hturn : forall al, exists x' bs d',
        runs (bind (rx_one cfg fuel ts junk c (Z.of_nat (length f)) (set_x_allocs al x))
               (fun x1 => net_rx_loop cfg fuel ts junk (S n) (u32 (Z.rem (c + 1) RX_DESC_NUM)) (wd + 1) budget x1))
          d (x', wd + Z.of_nat (S (serve n al q))) d' /\
        delivered_to x x' (f :: take (serve n al q) q) bs /\
        Forall2 (up_of cfg) (f :: take (serve n al q) q) bs /\
        x_cur_rx x' = entry c (Z.of_nat (S (serve n al q))) /\
        rx_state_ok x' (drop (serve n al q) q) /\ (length (fifo Rx d') < fuel)%nat).
      { intros al. destruct (rx_one_runs (set_x_allocs al x) c f q d) as
          (s' & b1 & result1 & d1 & R1 & Hup & Hring1 & Hs' & Hd1); try done. cbn beta zeta in *.
        set (x1 := set_x_c2h _ _) in *.
        assert (Ec : u32 (Z.rem (c + 1) RX_DESC_NUM) = entry c 1).
        { unfold RX_DESC_NUM. rewrite Z.rem_mod_nonneg by lia. apply u32_small.
          pose proof (entry_range c 1). unfold is_u32, entry in *. lia. }
        destruct (IH x1 q (entry c 1) (wd + 1) budget d1) as
          (x' & bs & d' & R & Hdel & Hbs & Hcur & Hok & Hd'); try done; [lia | lia |].
        change (x_allocs x1) with al in *. exists x', (b1 :: bs), d'.
        split; [| split; [| split; [by constructor | split; [| done]]]].
        - rewrite Ec. replace (wd + Z.of_nat (S (serve n al q)))
            with (wd + 1 + Z.of_nat (serve n al q)) by lia.
          eapply runs_bind; [exact R1 | exact R].
        - eapply (delivered_cons (set_x_allocs al x)) in Hdel; [exact Hdel | reflexivity].
        - rewrite Hcur, entry_entry. f_equal. lia. }
      cbn [serve]. unfold napi_alloc_skb in *.
      destruct (x_allocs x) as [| [] al] eqn:Ea.
      * destruct (Hturn []) as (x' & bs & d' & R & Hrest). exists x', bs, d'. split; [| exact Hrest].
        eapply net_rx_loop_turn; try done; [lia |]. rewrite Hl. unfold napi_alloc_skb. rewrite Ea.
        rewrite <- Ea, set_x_allocs_same in R at 1. exact R.
      * destruct (Hturn al) as (x' & bs & d' & R & Hrest). exists x', bs, d'. split; [| exact Hrest].
        eapply net_rx_loop_turn; try done; [lia |]. rewrite Hl. unfold napi_alloc_skb. rewrite Ea. exact R.
      * destruct (Hstop al 0%nat eq_refl) as (x' & bs & d' & R & Hrest). exists x', bs, d'.
        split; [| exact Hrest].
        eapply net_rx_loop_turn; try done; [lia |]. rewrite Hl. unfold napi_alloc_skb. rewrite Ea. exact R.
Qed.

End Poll.

(** ** The interrupt *)

Definition c2h_requested (x : rx_nic) (v : Z) : bool :=
  negb (Z.land (e_irq_bitmask (e_config (x_c2h x))) (Z.land v (x_mask_irq_c2h x)) =? 0) &&
  (e_magic (e_config (x_c2h x)) =? MAGIC_ENGINE).

(** The status or the count of completed descriptors tells that a list has ended. *)
Definition list_ended (isr count : Z) : bool :=
  negb (Z.land isr XDMA_STAT_DESC_STOPPED =? 0) || (512 =? count).

Definition other_list (t : xdma_transfer) : Z := 1 - current_list t.

(** The engine switched over to its other list. *)
Definition switched (e : xdma_engine) (t : xdma_transfer) (isr : Z) : xdma_engine :=
  started (set_e_transfer (Some (set_current_list (other_list t) t))
    (set_e_running false (set_e_status isr e))).

(** The registers of receive channel 0 and of the interrupt block. *)
Definition rx_layout (x : rx_nic) : Prop :=
  e_sgdma_regs (e_config (x_c2h x)) = e_regs (e_config (x_c2h x)) + 0x4000 /\
  x_int_ctrl x = e_regs (e_config (x_c2h x)) + 0x1000 /\
  is_u32 (e_interrupt_enable_mask_value (e_config (x_c2h x))).

Definition two_lists (e : xdma_engine) (t : xdma_transfer) (h0 h1 : Z) : Prop :=
  e_transfer e = Some t /\ list_desc t = [h0; h1] /\ (current_list t = 0 \/ current_list t = 1) /\
  is_u64 h0 /\ is_u64 h1.

Section Irq.
Context {D : Type} `{Device D}.

Lemma c2h_restart_obs e t h0 h1 isr : two_lists e t h0 h1 ->
  obs (c2h_restart (set_e_status isr e)) (fun r l => r = Ok (switched e t isr) /\
    stores l = (reg e ENG_CONTROL, 0xF83E1E) ::
      start_stores e (if other_list t =? 0 then h0 else h1)).
Proof.
  intros (Et & Hl & Hc & H0 & H1). unfold c2h_restart, xdma_engine_stop, next_list.
  io_step. io_step. io_step. io_step. io_step. io_step. cbn [e_transfer set_e_running set_e_status].
  rewrite Et. repeat io_step.
  assert (Eo : u8 (Z.rem (current_list t + 1) DESC_LIST_NUM) = other_list t)
    by (unfold other_list; by destruct Hc as [-> | ->]).
  rewrite Eo. eapply obs_weaken; [| apply (engine_start_obs _ (set_current_list (other_list t) t)
    (if other_list t =? 0 then h0 else h1)); try done].
  - intros r l [-> El]. cbn beta iota. split; [done |].
    cbn [app stores]. rewrite El. done.
  - cbn [list_desc set_current_list current_list]. rewrite Hl. unfold other_list.
    by destruct Hc as [-> | ->].
  - by destruct (other_list t =? 0).
Qed.

(** What the handler does, from the words it reads. *)
Definition c2h_reaction (x : rx_nic) (t : xdma_transfer) (h0 h1 : Z) (r : outcome rx_nic)
    (l : list access) : Prop :=
  let e := x_c2h x in
  let mask := e_interrupt_enable_mask_value (e_config e) in
  exists v l', l = RD (x_int_ctrl x + INT_CHANNEL_REQUEST) v :: l' /\
    if c2h_requested x v then
      exists isr count, head (loads_of (reg e ENG_STATUS) l) = Some isr /\
        head (loads_of (reg e ENG_COMPLETED_DESC_COUNT) l) = Some count /\
        if list_ended isr count then
          r = Ok (set_x_napi true (set_x_c2h (switched e t isr) x)) /\
          stores l = [(reg e ENG_INT_MASK_W1C, mask); (reg e ENG_STATUS, isr); (reg e ENG_CONTROL, 0xF83E1E)]
            ++ start_stores e (if other_list t =? 0 then h0 else h1) ++ [(reg e ENG_INT_MASK_W1S, mask)]
        else
          r = Ok (set_x_napi true (set_x_c2h (set_e_status isr e) x)) /\
          stores l = [(reg e ENG_INT_MASK_W1C, mask); (reg e ENG_STATUS, isr); (reg e ENG_INT_MASK_W1S, mask)]
    else r = Ok x /\ loads_of (reg e ENG_STATUS) l = [] /\
      (stores l = [] \/ stores l = [(reg e ENG_INT_MASK_W1C, mask); (reg e ENG_INT_MASK_W1S, mask)]).

Lemma c2h_irq_obs x t h0 h1 : rx_layout x -> two_lists (x_c2h x) t h0 h1 ->
  obs (xdma_channel_C2H_irq x) (c2h_reaction x t h0 h1).
Proof.
  intros (Ls & Li & Lm) Ht. unfold xdma_channel_C2H_irq.
  assert (A1 : (x_int_ctrl x + INT_CHANNEL_REQUEST =? reg (x_c2h x) ENG_STATUS) = false)
    by (unfold reg, INT_CHANNEL_REQUEST, ENG_STATUS; lia).
  assert (A2 : (x_int_ctrl x + INT_CHANNEL_PENDING =? reg (x_c2h x) ENG_STATUS) = false)
    by (unfold reg, INT_CHANNEL_PENDING, ENG_STATUS; lia).
  assert (A3 : (x_int_ctrl x + INT_CHANNEL_REQUEST =? reg (x_c2h x) ENG_COMPLETED_DESC_COUNT) = false)
    by (unfold reg, INT_CHANNEL_REQUEST, ENG_COMPLETED_DESC_COUNT; lia).
  assert (A4 : (x_int_ctrl x + INT_CHANNEL_PENDING =? reg (x_c2h x) ENG_COMPLETED_DESC_COUNT) = false)
    by (unfold reg, INT_CHANNEL_PENDING, ENG_COMPLETED_DESC_COUNT; lia).
  assert (A5 : (reg (x_c2h x) ENG_STATUS =? reg (x_c2h x) ENG_COMPLETED_DESC_COUNT) = false)
    by (unfold reg, ENG_STATUS, ENG_COMPLETED_DESC_COUNT; lia).
  io_step. io_step. unfold c2h_reaction.
  destruct (Z.eqb_spec (Z.land v (x_mask_irq_c2h x)) 0) as [E | E].
  - io_step. exists v, []. split; [done |]. unfold c2h_requested. rewrite E, Z.land_0_r.
    cbn [Z.eqb negb andb app]. cbn [loads_of stores]. rewrite A1. by split; [| split; [| left]].
  - io_step. io_step. io_step. io_step. io_step.
    fold (c2h_requested x v). destruct (c2h_requested x v) eqn:Er.
    + unfold engine_status_read. io_step. io_step. io_step. io_step. io_step. io_step. io_step. io_step.
      change (negb (Z.land v1 XDMA_STAT_DESC_STOPPED =? 0) || (Z.quot RX_DESC_NUM DESC_LIST_NUM =? v2))
        with (list_ended v1 v2).
      apply obs_bind. destruct (list_ended v1 v2) eqn:El.
      * eapply obs_weaken; [| by apply (c2h_restart_obs _ t h0 h1)]. intros r l [-> El']. cbn beta iota.
        repeat io_step. eexists v, _. split; [reflexivity |]. rewrite Er.
        exists v1, v2. cbn [app loads_of]. rewrite A1, A2, A3, A4, A5, Z.eqb_refl.
        cbn [loads_of]. unfold reg, set_e_status. cbn [e_config]. rewrite Z.eqb_refl.
        split; [done |]. split; [done |]. rewrite El. split; [done |].
        rewrite app_nil_r. cbn [stores]. rewrite stores_app, El'. cbn [stores app].
        by rewrite !(u32_small (e_interrupt_enable_mask_value _)), (u32_small v1) by done.
      * repeat io_step. eexists v, _. split; [reflexivity |]. rewrite Er.
        exists v1, v2. cbn [app loads_of]. rewrite A1, A2, A3, A4, A5, Z.eqb_refl.
        cbn [loads_of]. unfold reg, set_e_status. cbn [e_config]. rewrite Z.eqb_refl.
        split; [done |]. split; [done |]. rewrite El. split; [done |].
        cbn [stores app].
        by rewrite !(u32_small (e_interrupt_enable_mask_value _)), (u32_small v1) by done.
    + repeat io_step. eexists v, _. split; [reflexivity |]. rewrite Er. split; [done |].
      cbn [app loads_of]. rewrite A1, A2. split; [done |]. right. cbn [stores].
      by rewrite !(u32_small (e_interrupt_enable_mask_value _)) by done.
Qed.
End Irq.

(** ** The driver and the device together *)

(** The device side of a receive engine: the first-descriptor registers, the
    descriptor to fill next, and whether it runs. *)
Record rx_hw := mkRxHw { h_first : Z; h_next : Z; h_run : bool }.

(** How a store moves it: the run bit starts it at the first descriptor. *)
Definition hw_store (e : xdma_engine) (bus : Z) (h : rx_hw) (s : Z * Z) : rx_hw :=
  let '(a, v) := s in
  if a =? sgdma_reg e SG_FIRST_DESC_LO then
    mkRxHw (h_first h / 2 ^ 32 * 2 ^ 32 + v) (h_next h) (h_run h)
  else if a =? sgdma_reg e SG_FIRST_DESC_HI then
    mkRxHw (v * 2 ^ 32 + h_first h mod 2 ^ 32) (h_next h) (h_run h)
  else if a =? reg e ENG_CONTROL then
    if Z.testbit v 0 then
      if h_run h then h else mkRxHw (h_first h) ((h_first h - bus) / SIZEOF_XDMA_DESC) true
    else mkRxHw (h_first h) (h_next h) false
  else h.

Definition hw_stores (e : xdma_engine) (bus : Z) (l : list access) (h : rx_hw) : rx_hw :=
  fold_left (hw_store e bus) (stores l) h.

(** It stops after a descriptor with the stop bit and else follows the link. *)
Definition hw_advance (bus : Z) (d : xdma_desc) (h : rx_hw) : rx_hw :=
  if Z.testbit (control d) 0 then mkRxHw (h_first h) (h_next h) false
  else mkRxHw (h_first h) ((next_hi d * 2 ^ 32 + next_lo d - bus) / SIZEOF_XDMA_DESC) (h_run h).

(** The driver, the device, and the frames received so far. *)
Record rx_sys := mkRxSys { y_nic : rx_nic; y_hw : rx_hw; y_received : list frame }.

Inductive rx_label :=
| LFrame                              (* the device receives a frame *)
| LIrq                                (* the interrupt of the channel *)
| LPoll (budget : Z).

Section System.
Context {D : Type} `{CaptureHw D} `{EthApi}.
Context (cfg : net_cfg) (fuel : nat) (ts junk : CAPTURE_DATA).

(** A transition and its outcome, which may be a fault.  A frame comes only while
    the engine runs and its entry has been consumed: the device does not look,
    and would overwrite an entry still waiting.  The status the interrupt handler
    reads tells whether the engine has stopped.  Between transitions the device
    may change in any way that leaves the capture FIFO below the fuel. *)
Inductive rx_step : rx_sys -> rx_label -> outcome rx_sys -> Prop :=
| rx_step_frame y result bufs descs t d r r' b result' bufs' f :
    cyclic_result (x_c2h (y_nic y)) = Some result -> rx_buff (x_c2h (y_nic y)) = Some bufs ->
    e_desc (x_c2h (y_nic y)) = Some descs -> e_transfer (x_c2h (y_nic y)) = Some t ->
    h_run (y_hw y) = true ->
    getz descs (h_next (y_hw y)) = Some d ->
    getz result (h_next (y_hw y)) = Some r -> res_valid r = false ->
    rx_fits cfg junk f ->
    res_valid r' = true -> r_length r' = Z.of_nat (length f) ->
    take (length f) b = f -> Z.of_nat (length b) = DMA_PACKET_SIZE ->
    setz result (h_next (y_hw y)) r' = Some result' -> setz bufs (h_next (y_hw y)) b = Some bufs' ->
    rx_step y LFrame (Ok (mkRxSys
      (set_x_c2h (mkEngine (e_config (x_c2h (y_nic y))) (e_shutdown (x_c2h (y_nic y)))
         (e_running (x_c2h (y_nic y))) (e_desc_dequeued (x_c2h (y_nic y))) (e_status (x_c2h (y_nic y)))
         (e_transfer (x_c2h (y_nic y))) (e_desc (x_c2h (y_nic y))) (Some result') (Some bufs')
         (tx_buff (x_c2h (y_nic y)))) (y_nic y))
      (hw_advance (t_desc_bus t) d (y_hw y)) (y_received y ++ [f])))
| rx_step_irq y t d r d' l :
    e_transfer (x_c2h (y_nic y)) = Some t ->
    xdma_channel_C2H_irq (y_nic y) d = (r, d', l) ->
    (forall isr count, head (loads_of (reg (x_c2h (y_nic y)) ENG_STATUS) l) = Some isr ->
       head (loads_of (reg (x_c2h (y_nic y)) ENG_COMPLETED_DESC_COUNT) l) = Some count ->
       list_ended isr count = negb (h_run (y_hw y))) ->
    rx_step y LIrq match r with
                   | Ok x => Ok (mkRxSys x (hw_stores (x_c2h (y_nic y)) (t_desc_bus t) l (y_hw y)) (y_received y))
                   | Trap => Trap
                   | NoFuel => NoFuel
                   end
| rx_step_poll y budget d r d' l :
    (length (fifo Rx d) < fuel)%nat -> 0 <= budget ->
    ax_net_poll cfg fuel ts junk budget (y_nic y) d = (r, d', l) ->
    rx_step y (LPoll budget) match r with
                             | Ok (x, _) => Ok (mkRxSys x (y_hw y) (y_received y))
                             | Trap => Trap
                             | NoFuel => NoFuel
                             end.

Inductive rx_reach (y0 : rx_sys) : rx_sys -> Prop :=
| rx_reach_start : rx_reach y0 y0
| rx_reach_step y lab y' : rx_reach y0 y -> rx_step y lab (Ok y') -> rx_reach y0 y'.

(** *** The invariant *)

(** The engine and its descriptors; [w] is the entry the device fills next. *)
Definition rx_engine_ok (x : rx_nic) (h : rx_hw) (w : Z) : Prop :=
  let e := x_c2h x in
  rx_layout x /\
  exists t descs, two_lists e t (t_desc_bus t) (desc_addr (t_desc_bus t) 512) /\ e_desc e = Some descs /\
    (forall i, 0 <= i < 1024 -> exists d, getz descs i = Some d /\
       if (i =? 511) || (i =? 1023) then stops d else goes_on d /\ linked (t_desc_bus t) i d) /\
    if h_run h then h_next h = w /\ w / 512 = current_list t
    else w = 512 * other_list t.

Definition rx_inv (y : rx_sys) (served waiting : list frame) : Prop :=
  y_received y = served ++ waiting /\
  rx_state_ok cfg junk (y_nic y) waiting /\
  Forall2 (up_of cfg) served (x_up (y_nic y)) /\
  rx_engine_ok (y_nic y) (y_hw y) (entry (x_cur_rx (y_nic y)) (Z.of_nat (length waiting))).

End System.

Section PollSpec.
Context {D : Type} `{CaptureHw D} `{EthApi}.
Context (cfg : net_cfg) (fuel : nat) (ts junk : CAPTURE_DATA).
Context (Hts : ts_sized ts).
Context (Hlat : forall a d x, a = 0x110 \/ a = 0x114 -> fifo x (snd (dev_read a d)) = fifo x d).

Lemma ax_net_poll_runs x q budget d : 0 <= budget -> rx_state_ok cfg junk x q ->
  (length (fifo Rx d) < fuel)%nat ->
  let k := serve (Z.to_nat budget) (x_allocs x) q in
  exists x' bs d1 d', runs (ax_net_poll cfg fuel ts junk budget x) d (x', Z.of_nat k) d' /\
    Forall2 (up_of cfg) (take k q) bs /\
    delivered_to (if Z.of_nat k <? budget then set_x_napi false x else x) x' (take k q) bs /\
    x_cur_rx x' = entry (x_cur_rx x) (Z.of_nat k) /\ rx_state_ok cfg junk x' (drop k q) /\
    d' = (if Z.of_nat k <? budget
          then dev_write (x_int_ctrl x + INT_CHANNEL_ENABLE_W1S) (u32 (e_irq_bitmask (e_config (x_c2h x)))) d1
          else d1).
Proof using Hts Hlat.
  intros Hb (Hring & Hs & Hq) Hd k.
  destruct (net_rx_loop_runs cfg fuel ts junk Hts Hlat (Z.to_nat budget) x q (x_cur_rx x) 0 budget d ltac:(lia) ltac:(lia) Hring Hs Hq Hd)
    as (x1 & bs & d1 & R & Hdel & Hbs & Hcur & Hok & _). fold k in R, Hdel, Hbs, Hcur, Hok.
  rewrite Z.add_0_l in R. unfold ax_net_poll, ax_net_rx.
  pose proof Hdel as ((result & Ee) & E2 & E3 & E4 & E5 & E6 & E7).
  destruct (Z.of_nat k <? budget) eqn:Ek.
  - exists (set_x_napi false x1), bs, d1. eexists. split_and!; [| done | | done | done | reflexivity].
    + eapply runs_bind; [exact R |]. cbn beta iota. rewrite Ek.
      eapply runs_bind; [| apply runs_ret]. rewrite E6, Ee. apply runs_writel.
    + split_and!; cbn; try done. by exists result.
  - exists x1, bs, d1, d1. split_and!; try done. eapply runs_bind; [exact R |]. cbn beta iota. rewrite Ek. apply runs_ret.
Qed.

End PollSpec.

Section SystemProofs.
Context {D : Type} `{CaptureHw D} `{EthApi}.
Context (cfg : net_cfg) (fuel : nat) (ts junk : CAPTURE_DATA).
Context (Hts : ts_sized ts).
Context (Hlat : forall a d x, a = 0x110 \/ a = 0x114 -> fifo x (snd (dev_read a d)) = fifo x d).

(** The engine keeps what the invariant needs of it. *)
Lemma rx_engine_ok_same x x' h w result : rx_engine_ok x h w ->
  x_c2h x' = set_cyclic_result result (x_c2h x) -> x_int_ctrl x' = x_int_ctrl x ->
  rx_engine_ok x' h w.
Proof. unfold rx_engine_ok, rx_layout, two_lists. by intros Hx -> ->. Qed.

Lemma poll_keeps y served waiting budget d : rx_inv cfg junk y served waiting -> 0 <= budget ->
  (length (fifo Rx d) < fuel)%nat ->
  exists x' n d' l served' waiting', ax_net_poll cfg fuel ts junk budget (y_nic y) d = (Ok (x', n), d', l) /\
    rx_inv cfg junk (mkRxSys x' (y_hw y) (y_received y)) served' waiting'.
Proof using Hts Hlat.
  intros (Hr & Hok & Hup & He) Hb Hd.
  destruct (ax_net_poll_runs cfg fuel ts junk Hts Hlat (y_nic y) waiting budget d Hb Hok Hd)
    as (x' & bs & d1 & d' & [l R] & Hbs & Hdel & Hcur & Hok' & _).
  set (k := serve _ _ _) in *.
  assert (Hk : (k <= length waiting)%nat) by apply serve_le.
  exists x', (Z.of_nat k), d', l, (served ++ take k waiting), (drop k waiting). split; [done |].
  destruct Hdel as ((result & Ee) & Eup & _ & _ & _ & Eint & _).
  split; [| split; [done | split]]; cbn [y_nic y_hw y_received].
  - by rewrite Hr, <- app_assoc, take_drop.
  - rewrite Eup. apply Forall2_app; [| done]. by destruct (_ <? _).
  - rewrite Hcur, entry_entry, length_drop.
    replace (Z.of_nat k + Z.of_nat (length waiting - k)) with (Z.of_nat (length waiting)) by lia.
    eapply rx_engine_ok_same; [exact He | |].
    + rewrite Ee. by destruct (_ <? _).
    + rewrite Eint. by destruct (_ <? _).
Qed.

(** Where a running engine goes after the entry it fills. *)
Lemma hw_advance_ok x h w t descs d : rx_engine_ok x h w -> h_run h = true -> 0 <= w < 1024 ->
  e_transfer (x_c2h x) = Some t -> e_desc (x_c2h x) = Some descs -> getz descs (h_next h) = Some d ->
  rx_engine_ok x (hw_advance (t_desc_bus t) d h) (entry w 1).
Proof.
  intros (Hl & t0 & descs0 & Hlists & Ed & Hall & Hrun) Hr Hw Et Ed' Hg.
  rewrite Ed in Ed'. injection Ed' as <-.
  assert (t0 = t) as -> by (destruct Hlists as [Et' _]; congruence).
  rewrite Hr in Hrun. destruct Hrun as [<- Hcl].
  destruct (Hall _ Hw) as (d0 & Hd0 & Hkind). rewrite Hg in Hd0. injection Hd0 as <-.
  split; [done |]. exists t, descs0. split; [done |]. split; [done |]. split; [done |].
  unfold hw_advance, entry.
  destruct ((h_next h =? 511) || (h_next h =? 1023)) eqn:E.
  - destruct Hkind as [_ ->]. cbn [h_run]. unfold other_list.
    apply orb_prop in E as [E%Z.eqb_eq | E%Z.eqb_eq]; rewrite E in *;
      [change (511 / 512) with 0 in Hcl | change (1023 / 512) with 1 in Hcl]; by rewrite <- Hcl.
  - destruct Hkind as [[_ ->] Hlink]. apply orb_false_iff in E as [E1%Z.eqb_neq E2%Z.eqb_neq].
    cbn [h_run h_next]. rewrite Hr, Hlink. destruct (desc_addr_index (t_desc_bus t) (h_next h + 1)) as [_ ->].
    rewrite Z.mod_small by lia. split; [done |]. rewrite <- Hcl. Z.div_mod_to_equations. lia.
Qed.

(** Decide the comparisons of register addresses. *)
Ltac hw_eqb :=
  repeat match goal with |- context [?x =? ?y] =>
    first [rewrite (proj2 (Z.eqb_eq x y)) by lia | rewrite (proj2 (Z.eqb_neq x y)) by lia] end.

(** The registers whose stores move the device. *)
Definition hw_reg (e : xdma_engine) (a : Z) : Prop :=
  a = sgdma_reg e SG_FIRST_DESC_LO \/ a = sgdma_reg e SG_FIRST_DESC_HI \/ a = reg e ENG_CONTROL.

Lemma hw_store_other e bus h a v : ~ hw_reg e a -> hw_store e bus h (a, v) = h.
Proof. unfold hw_reg. intros Ha. unfold hw_store. by hw_eqb. Qed.

Lemma hw_reg_offset e o : e_sgdma_regs (e_config e) = e_regs (e_config e) + 0x4000 ->
  o <> 0x4080 -> o <> 0x4084 -> o <> 0x04 -> ~ hw_reg e (reg e o).
Proof.
  unfold hw_reg, sgdma_reg, reg, ENG_CONTROL, SG_FIRST_DESC_LO, SG_FIRST_DESC_HI. intros ->. lia.
Qed.

(** The stores of a start, on a stopped device. *)
Lemma hw_started e bus h a : e_sgdma_regs (e_config e) = e_regs (e_config e) + 0x4000 ->
  is_u64 a -> h_run h = false ->
  fold_left (hw_store e bus) (start_stores e a) h = mkRxHw a ((a - bus) / SIZEOF_XDMA_DESC) true.
Proof.
  intros Hlay Ha Hr. unfold start_stores. cbn [fold_left].
  assert (Hlo : forall h0 v, hw_store e bus h0 (sgdma_reg e SG_FIRST_DESC_LO, v) =
            mkRxHw (h_first h0 / 2 ^ 32 * 2 ^ 32 + v) (h_next h0) (h_run h0)).
  { intros h0 v. unfold hw_store. by rewrite Z.eqb_refl. }
  assert (Hhi : forall h0 v, hw_store e bus h0 (sgdma_reg e SG_FIRST_DESC_HI, v) =
            mkRxHw (v * 2 ^ 32 + h_first h0 mod 2 ^ 32) (h_next h0) (h_run h0)).
  { intros h0 v. unfold hw_store, sgdma_reg, SG_FIRST_DESC_LO, SG_FIRST_DESC_HI. by hw_eqb. }
  rewrite Hlo, Hhi. rewrite (hw_store_other _ _ _ (sgdma_reg e SG_FIRST_DESC_ADJACENT)).
  2: { replace (sgdma_reg e SG_FIRST_DESC_ADJACENT) with (reg e 0x4088); [by apply hw_reg_offset |].
       unfold reg, sgdma_reg, SG_FIRST_DESC_ADJACENT. lia. }
  rewrite (hw_store_other _ _ _ (reg e ENG_INT_MASK)) by (by apply hw_reg_offset).
  unfold hw_store, sgdma_reg, reg. rewrite Hlay. unfold SG_FIRST_DESC_LO, SG_FIRST_DESC_HI, ENG_CONTROL.
  hw_eqb. change (Z.testbit 0xF83E0F 0) with true. cbn [h_run h_first h_next]. rewrite Hr.
  destruct (dma_halves a Ha) as (Ul & Uh & E).
  assert (Ef : PCI_DMA_H a * 2 ^ 32 + (h_first h / 2 ^ 32 * 2 ^ 32 + PCI_DMA_L a) mod 2 ^ 32 = a).
  { rewrite (Z.add_comm (_ * _) (PCI_DMA_L a)), Z_mod_plus_full, Z.mod_small by done. lia. }
  by rewrite Ef.
Qed.

Lemma hw_stopped e bus h v : e_sgdma_regs (e_config e) = e_regs (e_config e) + 0x4000 ->
  Z.testbit v 0 = false -> hw_store e bus h (reg e ENG_CONTROL, v) = mkRxHw (h_first h) (h_next h) false.
Proof.
  intros Hlay Hv. unfold hw_store, sgdma_reg, reg. rewrite Hlay.
  unfold SG_FIRST_DESC_LO, SG_FIRST_DESC_HI, ENG_CONTROL. hw_eqb. by rewrite Hv.
Qed.

Lemma hw_restarts e bus l h a isr : e_sgdma_regs (e_config e) = e_regs (e_config e) + 0x4000 ->
  is_u64 a ->
  stores l = [(reg e ENG_INT_MASK_W1C, e_interrupt_enable_mask_value (e_config e));
     (reg e ENG_STATUS, isr); (reg e ENG_CONTROL, 0xF83E1E)] ++ start_stores e a ++
     [(reg e ENG_INT_MASK_W1S, e_interrupt_enable_mask_value (e_config e))] ->
  hw_stores e bus l h = mkRxHw a ((a - bus) / SIZEOF_XDMA_DESC) true.
Proof.
  intros Hlay Ha El. unfold hw_stores. rewrite El, !fold_left_app. cbn [fold_left].
  rewrite !(hw_store_other _ _ _ (reg e _)) by (by apply hw_reg_offset).
  rewrite hw_stopped by done. by rewrite hw_started.
Qed.

Lemma hw_stores_other e bus l h : e_sgdma_regs (e_config e) = e_regs (e_config e) + 0x4000 ->
  Forall (fun s => exists o, fst s = reg e o /\ 0x04 < o < 0x4080) (stores l) -> hw_stores e bus l h = h.
Proof.
  intros Hlay. unfold hw_stores. generalize (stores l). intros ss. revert h.
  induction ss as [| [a v] ss IH]; intros h Hall; cbn [fold_left]; [done |].
  apply Forall_cons in Hall as [(o & Ha & Ho) Hall]. cbn [fst] in Ha. subst a.
  rewrite hw_store_other; [by apply IH |]. apply hw_reg_offset; [done | lia ..].
Qed.

Lemma irq_keeps y served waiting t d r d' l : rx_inv cfg junk y served waiting ->
  e_transfer (x_c2h (y_nic y)) = Some t ->
  xdma_channel_C2H_irq (y_nic y) d = (r, d', l) ->
  (forall isr count, head (loads_of (reg (x_c2h (y_nic y)) ENG_STATUS) l) = Some isr ->
     head (loads_of (reg (x_c2h (y_nic y)) ENG_COMPLETED_DESC_COUNT) l) = Some count ->
     list_ended isr count = negb (h_run (y_hw y))) ->
  exists x', r = Ok x' /\ rx_inv cfg junk (mkRxSys x'
    (hw_stores (x_c2h (y_nic y)) (t_desc_bus t) l (y_hw y)) (y_received y)) served waiting.
Proof.
  intros (Hr & Hok & Hup & He) Et Eirq Htrue.
  pose proof He as (Hlay & t0 & descs & Hlists & Ed & Hall & Hrun).
  assert (t0 = t) as -> by (destruct Hlists as [Et' _]; congruence).
  pose proof (c2h_irq_obs _ _ _ _ Hlay Hlists d) as Hobs. rewrite Eirq in Hobs. cbn [fst snd] in Hobs.
  destruct Hobs as (v & l' & _ & Hreact). pose proof Hlay as (L1 & L2 & L3).
  assert (Hsame : forall x', x_c2h x' = x_c2h (y_nic y) \/ (exists isr, x_c2h x' = set_e_status isr (x_c2h (y_nic y))) ->
    x_int_ctrl x' = x_int_ctrl (y_nic y) -> x_cur_rx x' = x_cur_rx (y_nic y) -> x_switch x' = x_switch (y_nic y) ->
    x_up x' = x_up (y_nic y) -> Forall (fun s => exists o, fst s = reg (x_c2h (y_nic y)) o /\ 0x04 < o < 0x4080) (stores l) ->
    rx_inv cfg junk (mkRxSys x' (hw_stores (x_c2h (y_nic y)) (t_desc_bus t) l (y_hw y)) (y_received y)) served waiting).
  { intros x' Ec Ei Ecur Esw Eup Hst. rewrite hw_stores_other by done.
    split; [done |]. split; [| split]; cbn [y_nic y_hw].
    - destruct Hok as (H1' & H2' & H3'). unfold rx_state_ok, ring_holds.
      rewrite Ecur, Esw. by destruct Ec as [-> | [isr ->]].
    - by rewrite Eup.
    - rewrite Ecur. revert He. unfold rx_engine_ok, rx_layout, two_lists. rewrite Ei.
      by destruct Ec as [-> | [isr ->]]. }
  destruct (c2h_requested (y_nic y) v).
  - destruct Hreact as (isr & count & F1 & F2 & Hreact). specialize (Htrue isr count F1 F2).
    destruct (list_ended isr count).
    + destruct Hreact as [-> Est]. eexists. split; [reflexivity |].
      destruct (h_run (y_hw y)); [done |].
      assert (Ha : is_u64 (if other_list t =? 0 then t_desc_bus t else desc_addr (t_desc_bus t) 512)).
      { destruct Hlists as (_ & _ & _ & U0 & U1). by destruct (other_list t =? 0). }
      rewrite (hw_restarts _ _ _ _ _ isr L1 Ha Est).
      split; [done |]. split; [exact Hok |]. split; [exact Hup |].
      split; [exact Hlay |]. exists (set_current_list (other_list t) t), descs.
      cbn [y_nic y_hw h_run h_next]. destruct Hlists as (T1 & T2 & T3 & T4 & T5).
      assert (Ho : other_list t = 0 \/ other_list t = 1) by (unfold other_list; lia).
      split; [by split_and! |]. split; [done |]. split; [done |].
      change (x_cur_rx (set_x_napi true _)) with (x_cur_rx (y_nic y)). rewrite Hrun.
      cbn [current_list set_current_list t_desc_bus].
      destruct Ho as [-> | ->]; cbn [Z.eqb].
      * split; [| done]. rewrite Z.sub_diag. done.
      * split; [| done]. by destruct (desc_addr_index (t_desc_bus t) 512) as [_ ->].
    + destruct Hreact as [-> Est]. eexists. split; [reflexivity |].
      apply Hsame; try done; [by right; exists isr |]. rewrite Est.
      repeat constructor; cbn [fst]; eexists; (split; [reflexivity |]);
        unfold ENG_INT_MASK_W1C, ENG_STATUS, ENG_INT_MASK_W1S; lia.
  - destruct Hreact as (-> & _ & Est). eexists. split; [reflexivity |].
    apply Hsame; try done; [by left |]. destruct Est as [-> | ->]; [done |].
    repeat constructor; cbn [fst]; eexists; (split; [reflexivity |]);
      unfold ENG_INT_MASK_W1C, ENG_STATUS, ENG_INT_MASK_W1S; lia.
Qed.
Lemma frame_keeps y served waiting y' : rx_inv cfg junk y served waiting ->
  rx_step cfg fuel ts junk y LFrame (Ok y') -> exists f, rx_inv cfg junk y' served (waiting ++ [f]).
Proof.
  intros (Hr & (Hring & Hsw & Hfits) & Hup & He) Hstep.
  inversion Hstep as [y0 result bufs descs t d r r' b result' bufs' f Er Eb Ed Et Hrun Hd Hres Hinv Hfit
    Hv' Hl' Htake Hbl Hset Hsetb E0 | |]; subst. clear Hstep. exists f.
  destruct Hring as (result0 & bufs0 & Er' & Eb' & Hm).
  rewrite Er in Er'. injection Er' as <-. rewrite Eb in Eb'. injection Eb' as <-.
  set (c := x_cur_rx (y_nic y)) in *. set (w := entry c (Z.of_nat (length waiting))) in *.
  assert (Hw : h_next (y_hw y) = w).
  { destruct He as (_ & t0 & descs0 & _ & _ & _ & Hpos). rewrite Hrun in Hpos. apply Hpos. }
  rewrite Hw in *.
  assert (Hlt : Z.of_nat (length waiting) < 1024).
  { pose proof Hm as (_ & _ & _ & Hlen & Hc & Hin & _).
    destruct (decide (Z.of_nat (length waiting) = 1024)) as [Efull | Hne]; [| lia].
    destruct waiting as [| g waiting]; [done |].
    destruct (Hin 0 g) as (r0 & b0 & G & V & _); [lia | by rewrite getz_nonneg |].
    rewrite entry_0 in G by done. unfold w in Hres. rewrite Efull in Hres.
    assert (Ec : entry c 1024 = c).
    { unfold entry. replace (c + 1024) with (c + 1 * 1024) by lia. rewrite Z_mod_plus_full.
      by apply Z.mod_small. }
    rewrite Ec, G in Hres. injection Hres as <-. by rewrite V in Hinv. }
  split; [| split; [split; [| split] | split]]; cbn [y_received y_nic y_hw].
  - by rewrite Hr, app_assoc.
  - exists result', bufs'. split; [done |]. split; [done |]. by eapply memory_push.
  - done.
  - apply Forall_app. split; [done |]. by constructor.
  - done.
  - change (x_cur_rx (set_x_c2h _ _)) with c. rewrite length_app. cbn [length].
    replace (entry c (Z.of_nat (length waiting + 1))) with (entry w 1)
      by (unfold w; rewrite entry_entry; f_equal; lia).
    assert (Hadv : rx_engine_ok (y_nic y) (hw_advance (t_desc_bus t) d (y_hw y)) (entry w 1)).
    { eapply hw_advance_ok; [exact He | done | apply entry_range | done | done | by rewrite Hw]. }
    revert Hadv. by unfold rx_engine_ok, rx_layout, two_lists.
Qed.

Lemma rx_reach_inv y0 y : rx_inv cfg junk y0 [] [] -> rx_reach cfg fuel ts junk y0 y ->
  exists served waiting, rx_inv cfg junk y served waiting.
Proof using Hts Hlat.
  intros H0' Hr. induction Hr as [| y lab y' Hr (served & waiting & IH) Hstep]; [by exists [], [] |].
  destruct lab as [| | budget].
  - destruct (frame_keeps _ _ _ _ IH Hstep) as [f Hf]. by do 2 eexists.
  - inversion Hstep as [| y0' t d r d' l Et Eirq Htrue E1 E2 E3 |]; subst.
    destruct (irq_keeps _ _ _ _ _ _ _ _ IH Et Eirq Htrue) as (x' & -> & Hx).
    injection E3 as <-. by do 2 eexists.
  - inversion Hstep as [| | y0' b d r d' l Hf Hb Epoll E1 E2 E3]; subst.
    destruct (poll_keeps _ _ _ _ _ IH Hb Hf) as (x' & n & d2 & l2 & served' & waiting' & Ep & Hx).
    rewrite Epoll in Ep. injection Ep as -> -> ->. injection E3 as <-. by do 2 eexists.
Qed.


End SystemProofs.

(** ** Opening for reception *)

Definition GLOBAL_MAC_CONFIG : Z := 0x18.
Definition AX_PLINK : Z := Z.shiftl 1 0.

Section Open.
Context {D : Type} `{Device D}.
Local Open Scope io_scope.

(** The receive part of [ax_net_open]; [bar0] is the address of BAR 0. *)
Definition rx_open (kzalloc : bool) (dma_alloc : Z -> option (list xdma_desc * Z)) (flag bar0 : Z)
    (x : rx_nic) : io D rx_nic :=
  let! e := lift_opt (xdma_desc_setup false kzalloc dma_alloc (x_c2h x) flag) in
  let! e := lift_opt (init_rx_engine e) in
  let x := mkRx e (x_switch x) 0 0 (x_rx_bytes x) (x_rx_packets x) (x_napi x) (x_up x) (x_allocs x)
             (x_int_ctrl x) (x_mask_irq_c2h x) in
  do! writel (bar0 + GLOBAL_MAC_CONFIG) AX_PLINK in
  let! e := engine_start (x_c2h x) in
  ret (set_x_c2h e x).

End Open.

Lemma init_rx_ring_ok n : forall i bus rbus desc, 0 <= i -> i + Z.of_nat n <= Z.of_nat (length desc) ->
  exists desc', init_rx_ring n i bus rbus desc = Some desc' /\ length desc' = length desc /\
    forall j d, 0 <= j -> getz desc j = Some d -> exists d', getz desc' j = Some d' /\
      control d' = control d /\ next_lo d' = next_lo d /\ next_hi d' = next_hi d.
Proof.
  induction n as [| n IH]; intros i bus rbus desc Hi Hl; cbn [init_rx_ring].
  - exists desc. split; [done |]. split; [done |]. intros j d Hj Hd. by exists d.
  - destruct (getz_in desc i) as [d0 Hd0]; [lia |]. rewrite Hd0. cbn [mbind option_bind].
    rewrite (setz_get _ _ _ _ Hd0). cbn [mbind option_bind]. set (d1 := mkDesc _ _ _ _ _ _ _ _).
    destruct (IH (i + 1) (u64 (bus + DMA_PACKET_SIZE)) (u64 (rbus + SIZEOF_XDMA_RESULT))
      (<[Z.to_nat i := d1]> desc)) as (desc' & E & L & Hd'); [lia | rewrite length_insert; lia |].
    exists desc'. split; [done |]. split; [by rewrite L, length_insert |]. intros j d Hj Hd.
    destruct (decide (j = i)) as [-> | Hne].
    + rewrite Hd0 in Hd. injection Hd as <-.
      destruct (Hd' i d1) as (d' & G & C & N1 & N2); [lia | |].
      { rewrite (getz_insert _ _ _ _ _ Hd0) by lia. by rewrite decide_True. }
      by exists d'.
    + destruct (Hd' j d Hj) as (d' & G & C & N1 & N2).
      { rewrite (getz_insert _ _ _ _ _ Hd0) by lia. by rewrite decide_False. }
      by exists d'.
Qed.

(** The memory [engine_alloc_resource] gives the receive engine, at rest. *)
Definition rx_allocated (e : xdma_engine) (desc : list xdma_desc) (result : list xdma_result)
    (bufs : list (list Z)) : Prop :=
  desc_allocated e desc /\ cyclic_result e = Some result /\ rx_buff e = Some bufs /\
  Z.of_nat (length result) = 1024 /\ Z.of_nat (length bufs) = 1024 /\
  Forall (fun b => Z.of_nat (length b) = DMA_PACKET_SIZE) bufs.

Lemma memory_empty result bufs : Z.of_nat (length result) = 1024 -> Z.of_nat (length bufs) = 1024 ->
  Forall (fun b => Z.of_nat (length b) = DMA_PACKET_SIZE) bufs ->
  memory_holds result bufs 0 [] <-> Forall (fun r => res_valid r = false) result.
Proof.
  intros Hr Hb Hbs. split.
  - intros (_ & _ & _ & _ & _ & _ & Hout). apply Forall_lookup. intros j r Hj.
    assert (Hlt := lookup_lt_Some _ _ _ Hj).
    destruct (Hout (Z.of_nat j)) as (r' & G & V); [cbn [length]; lia |].
    unfold entry in G. rewrite Z.add_0_l, Z.mod_small, getz_nonneg, Nat2Z.id in G by lia.
    congruence.
  - intros Hall. split_and!; try done.
    + intros i f Hi Hg. rewrite getz_nonneg in Hg by done. done.
    + intros i Hi. pose proof (entry_range 0 i) as Hj. destruct (getz_in result (entry 0 i)) as [r Hr']; [lia |].
      exists r. split; [done |]. rewrite getz_nonneg in Hr' by lia.
      rewrite Forall_lookup in Hall. by eapply Hall.
Qed.

Lemma chains_kept bus desc desc' : two_chains bus desc ->
  (forall j d, 0 <= j -> getz desc j = Some d -> exists d', getz desc' j = Some d' /\
     control d' = control d /\ next_lo d' = next_lo d /\ next_hi d' = next_hi d) ->
  two_chains bus desc'.
Proof.
  intros Hc Hk i Hi. destruct (Hc i Hi) as (d & Hd & Hkind).
  destruct (Hk i d) as (d' & Hd' & C & N1 & N2); [lia | done |]. exists d'. split; [done |].
  unfold stops, goes_on, linked in *. by rewrite C, N1, N2.
Qed.

Section OpenSpec.
Context {D : Type} `{CaptureHw D} `{EthApi}.
Context (cfg : net_cfg) (junk : CAPTURE_DATA).

Lemma rx_open_obs kzalloc dma_alloc flag bar0 x desc result bufs :
  rx_allocated (x_c2h x) desc result bufs -> transfer_ready (x_c2h x) flag kzalloc ->
  rx_layout x -> switch_ready (x_switch x) -> x_up x = [] ->
  ~ hw_reg (x_c2h x) (bar0 + GLOBAL_MAC_CONFIG) ->
  obs (rx_open (D := D) kzalloc dma_alloc flag bar0 x) (fun r l => exists x', r = Ok x' /\
    forall h, h_run h = false ->
      rx_inv cfg junk (mkRxSys x' (hw_stores (x_c2h x) (e_desc_bus (e_config (x_c2h x))) l h) []) [] [] <->
      Forall (fun r => res_valid r = false) result).
Proof.
  intros (Ha & Er & Eb & Lr & Lb & Hbs) Ht Hlay Hsw Hup Hbar.
  pose proof Ha as (_ & Hd & Hrun & Hshut & B0 & B1).
  destruct (xdma_desc_setup_ok _ _ _ dma_alloc desc Ha Ht) as (t & desc1 & E & L1 & Eb1 & Ec & El & Hch).
  destruct (init_rx_ring_ok (Z.to_nat RX_DESC_NUM) 0 (rx_buff_bus (e_config (x_c2h x)))
    (cyclic_result_bus (e_config (x_c2h x))) desc1) as (desc2 & R1 & R2 & R3);
    [lia | unfold RX_DESC_NUM; lia |].
  unfold rx_open. io_step. io_step. rewrite E. io_step. io_step. unfold init_rx_engine.
  cbn [e_desc e_config set_e_transfer set_e_desc mbind option_bind]. rewrite R1.
  cbn [mbind option_bind]. io_step. io_step. io_step. cbn [x_c2h].
  assert (Hu0 : is_u64 (t_desc_bus t)) by (unfold is_u64, SIZEOF_XDMA_DESC in *; lia).
  assert (Hu1 : is_u64 (desc_addr (t_desc_bus t) 512)) by (unfold is_u64, desc_addr, SIZEOF_XDMA_DESC in *; lia).
  eapply obs_weaken; [| apply (engine_start_obs _ t (t_desc_bus t)); cbn; try done].
  2: by rewrite El, Ec.
  intros r l [-> Est]. cbn beta iota. io_step. eexists. split; [reflexivity |].
  intros h Hh.
  assert (Ehw : hw_stores (x_c2h x) (e_desc_bus (e_config (x_c2h x)))
            ([] ++ [] ++ [WR (bar0 + GLOBAL_MAC_CONFIG) (u32 AX_PLINK)] ++ l ++ []) h =
          mkRxHw (t_desc_bus t) 0 true).
  { unfold hw_stores. cbn [app stores fold_left]. rewrite app_nil_r, Est.
    rewrite hw_store_other by done.
    change (start_stores _ (t_desc_bus t)) with (start_stores (x_c2h x) (t_desc_bus t)).
    destruct Hlay as (L & _). rewrite hw_started by done. by rewrite Eb1, Z.sub_diag. }
  rewrite Ehw. unfold rx_inv, rx_state_ok. cbn [y_nic y_hw y_received x_cur_rx set_x_c2h x_switch x_up length].
  rewrite <- (memory_empty result bufs Lr Lb Hbs). unfold ring_holds. cbn.
  split.
  - intros (_ & ((result' & bufs' & E1 & E2 & Hm) & _) & _). rewrite Er in E1. rewrite Eb in E2.
    injection E1 as <-. by injection E2 as <-.
  - intros Hm. split; [done |]. split; [split; [by exists result, bufs | done] |].
    split; [by rewrite Hup |]. split; [exact Hlay |]. exists t, desc2. cbn.
    split; [| split; [done |]]; [split_and!; try done; by left |].
    split; [by eapply chains_kept |]. rewrite Ec. done.
Qed.

(** Opening the interface starts the receive engine on its first list with the
    reception invariant established, whatever the descriptor memory held,
    exactly when no result record is left valid: the records are not cleared,
    so frames unread when the interface was closed break reception after it is
    opened again. *)
Theorem rx_open_ready kzalloc dma_alloc flag bar0 x desc result bufs :
  rx_allocated (x_c2h x) desc result bufs -> transfer_ready (x_c2h x) flag kzalloc ->
  rx_layout x -> switch_ready (x_switch x) -> x_up x = [] ->
  ~ hw_reg (x_c2h x) (bar0 + GLOBAL_MAC_CONFIG) ->
  obs (rx_open (D := D) kzalloc dma_alloc flag bar0 x) (fun r l => exists x', r = Ok x' /\
    forall h, h_run h = false ->
      rx_inv cfg junk (mkRxSys x' (hw_stores (x_c2h x) (e_desc_bus (e_config (x_c2h x))) l h) []) [] [] <->
      Forall (fun r => res_valid r = false) result).
Proof. apply rx_open_obs. Qed.

End OpenSpec.

(** ** Classification *)

Section ClassifySpec.
Context `{EthApi}.

(** A frame is for the host exactly when it is sent to the device's address,
    and else broadcast, multicast or for another host by its destination; a
    frame with the switch's tag goes to the tagger, another one keeps its type
    when that is a protocol, and 802.2 and raw 802.3 frames are told apart; the
    bytes after the header are unchanged. *)
Theorem eth_type_trans_spec cfg f w : (16 <= length f)%nat -> Forall is_u8 f ->
  length (dev_addr cfg) = 6%nat -> length (dev_broadcast cfg) = 6%nat -> be16 f 12 = Some w ->
  exists t p, ax_eth_type_trans cfg f = Some (t, p, drop 14 f) /\
    (t = PACKET_HOST <-> take 6 f = dev_addr cfg) /\
    (t = PACKET_BROADCAST -> take 6 f = dev_broadcast cfg) /\
    (t = PACKET_BROADCAST \/ t = PACKET_MULTICAST <->
       take 6 f <> dev_addr cfg /\ Z.odd (default 0 (f !! 0%nat)) = true) /\
    (if netdev_uses_dsa cfg && (w =? AX_SDSA) then p = ETH_P_XDSA
     else if 0x600 <=? w then p = w
     else p = (if bool_decide (be16 f 14 = Some 0xFFFF) then ETH_P_802_3 else ETH_P_802_2)).
Proof.
  intros Hl Hu Ha Hb Hw. unfold ax_eth_type_trans. rewrite Hw. cbn [mbind option_bind].
  set (dst := take 6 f).
  assert (Hd : length dst = 6%nat) by (unfold dst; rewrite length_take; lia).
  destruct (lookup_lt_is_Some_2 f 0) as [o Ho]; [lia |]. rewrite Ho. cbn [default].
  assert (Hdo : dst !! 0%nat = Some o) by (unfold dst; by rewrite lookup_take_lt by lia).
  set (pt := if negb _ then _ else _).
  assert (Hpt : (pt = PACKET_HOST <-> dst = dev_addr cfg) /\
    (pt = PACKET_BROADCAST -> dst = dev_broadcast cfg) /\
    (pt = PACKET_BROADCAST \/ pt = PACKET_MULTICAST <-> dst <> dev_addr cfg /\ Z.odd o = true)).
  { unfold pt. rewrite (is_multicast_iff _ _ Hdo).
    pose proof (ether_addr_equal_iff dst (dev_addr cfg) Hd Ha) as E1.
    pose proof (ether_addr_equal_iff dst (dev_broadcast cfg) Hd Hb) as E2.
    destruct (ether_addr_equal_64bits dst (dev_addr cfg)); cbn [negb];
      [| destruct (Z.odd o); [destruct (ether_addr_equal_64bits dst (dev_broadcast cfg)) |]];
      intuition congruence. }
  assert (Huw : is_u16 w).
  { unfold be16 in Hw. destruct (f !! 12%nat) as [h |] eqn:E1; [| done].
    destruct (f !! 13%nat) as [b |] eqn:E2; [| done]. cbn in Hw. injection Hw as <-.
    rewrite Forall_lookup in Hu. pose proof (Hu _ _ E1). pose proof (Hu _ _ E2).
    unfold is_u8, is_u16 in *. lia. }
  rewrite (eth_proto_iff _ Huw). destruct Hpt as (P1 & P2 & P3).
  assert (Hsap : be16 (drop (Z.to_nat ETH_HLEN) f) 0 = be16 f 14)
    by (unfold be16; by rewrite !lookup_drop).
  rewrite Hsap. destruct (be16_in f 14) as [sap Es]; [lia |]. rewrite Es.
  change 0xDCDC with AX_SDSA. exists pt.
  destruct (netdev_uses_dsa cfg && (w =? AX_SDSA)); [by eexists |].
  destruct (0x600 <=? w); [by eexists |]. eexists. split; [reflexivity |]. split_and!; try done.
  destruct (Z.eqb_spec sap 0xFFFF) as [-> | Hne]; [done |].
  rewrite bool_decide_false; [done |]. congruence.
Qed.

End ClassifySpec.

(** ** A concrete receiver *)

Module RxDemo.
Import CaptureSim.

#[export, refine] Instance demo_eth : EthApi := {
  ether_addr_equal_64bits a b := bool_decide (a = b);
  is_multicast_ether_addr_64bits a := match a with o :: _ => Z.odd o | [] => false end;
  eth_proto_is_802_3 p := 0x600 <=? p;
}.
Proof.
  - intros a b _ _. apply bool_decide_eq_true.
  - intros [| x a] o E; [done |]. by injection E as ->.
  - done.
Defined.

Definition demo_cfg : net_cfg := mkNetCfg [0; 0x0e; 0xc6; 1; 2; 3] (replicate 6 0xff) true.

Definition rx_config : engine_config :=
  mkConfig MAGIC_ENGINE 0 4 0x1000 0x5000 DMA_FROM_DEVICE true 1 1 64 0xF83E1E 0x10000 0x20000 0x100000 0.

Definition clear_results : list xdma_result := replicate (Z.to_nat 1024) (mkResult 0 0).
Definition clear_bufs : list (list Z) := replicate (Z.to_nat 1024) (replicate (Z.to_nat 2048) 0).
Definition clear_desc : list xdma_desc := replicate (Z.to_nat 1024) (mkDesc 0 0 0 0 0 0 0 0).

Definition rx_engine : xdma_engine :=
  mkEngine rx_config 0 false 0 0 None (Some clear_desc) (Some clear_results) (Some clear_bufs) None.

Definition rx_closed : rx_nic := mkRx rx_engine (switch 0) 0 0 0 0 false [] [] 0x2000 4.
Definition idle_hw : rx_hw := mkRxHw 0 0 false.

Lemma rx_engine_allocated : rx_allocated rx_engine clear_desc clear_results clear_bufs.
Proof.
  unfold rx_allocated, desc_allocated, clear_desc, clear_results, clear_bufs.
  rewrite !length_replicate. split_and!; try done. by apply Forall_replicate.
Qed.

Lemma switch_is_ready mode : switch_ready (switch mode).
Proof. split; [apply switch_is_ok |]. apply Forall_nil_2. Qed.

Lemma rx_closed_layout : rx_layout rx_closed.
Proof. by split_and!. Qed.

Lemma bar_apart : ~ hw_reg rx_engine (0x100000 + GLOBAL_MAC_CONFIG).
Proof. unfold hw_reg. vm_compute. intros [E | [E | E]]; discriminate E. Qed.

Lemma clear_results_clear : Forall (fun r => res_valid r = false) clear_results.
Proof. by apply Forall_replicate. Qed.

(** With the records clear, opening gives a receiver that satisfies the invariant. *)
Lemma rx_open_ready_witness : exists x' d' l,
  rx_open (D := sim) true (fun _ => None) 0 0x100000 rx_closed (mkSim [] []) = (Ok x', d', l) /\
  rx_inv demo_cfg junk (mkRxSys x' (hw_stores rx_engine 0x10000 l idle_hw) []) [] [].
Proof.
  pose proof (rx_open_ready (D := sim) demo_cfg junk true (fun _ => None) 0 0x100000 rx_closed
    clear_desc clear_results clear_bufs rx_engine_allocated (or_introl (conj eq_refl eq_refl))
    rx_closed_layout (switch_is_ready 0) eq_refl bar_apart (mkSim [] [])) as Hobs.
  destruct (rx_open true (fun _ => None) 0 0x100000 rx_closed (mkSim [] [])) as [[r d'] l].
  destruct Hobs as (x' & E & Hinv). cbn [fst snd] in E, Hinv. exists x', d', l.
  split; [by rewrite E |]. exact (proj2 (Hinv idle_hw eq_refl) clear_results_clear).
Defined.

(** The memory of the opened receiver, and its invariant. *)
Definition rx_transfer : xdma_transfer :=
  mkTransfer 1024 DMA_FROM_DEVICE TRANSFER_STATE_SUBMITTED 1 0x10000 [0x10000; 0x14000] 0.

Definition rx_opened : rx_nic :=
  mkRx (mkEngine rx_config 0 true 0 0
          (Some rx_transfer)
          (Some (imap (fun j d => init_desc 0x10000 512 (Z.of_nat j) d) clear_desc))
          (Some clear_results) (Some clear_bufs) None)
    (switch 0) 0 0 0 0 false [] [] 0x2000 4.

Lemma rx_opened_inv : rx_inv demo_cfg junk (mkRxSys rx_opened (mkRxHw 0x10000 0 true) []) [] [].
Proof.
  split; [done |]. split; [split; [| split; [apply switch_is_ready | done]] |].
  - exists clear_results, clear_bufs. split; [done |]. split; [done |].
    destruct rx_engine_allocated as (_ & _ & _ & Hr & Hb & Hbs).
    by apply memory_empty; [.. | apply clear_results_clear].
  - split; [done |]. split; [by split_and! |]. eexists _, _. split; [split_and!; try done; by left |].
    split; [reflexivity |]. split; [| done]. intros i Hi.
    destruct (lookup_lt_is_Some_2 clear_desc (Z.to_nat i)) as [d Hd]; [unfold clear_desc; rewrite length_replicate; lia |].
    exists (init_desc 0x10000 512 i d).
    split; [rewrite getz_nonneg, list_lookup_imap, Hd by lia; cbn; by rewrite Z2Nat.id by lia |].
    assert (Hrem : Z.rem i 512 = i mod 512) by (apply Z.rem_mod_nonneg; lia).
    destruct ((i =? 511) || (i =? 1023)) eqn:E.
    + apply init_desc_last. rewrite Hrem. apply orb_prop in E as [E%Z.eqb_eq | E%Z.eqb_eq]; by rewrite E.
    + apply orb_false_iff in E as [E1%Z.eqb_neq E2%Z.eqb_neq].
      apply init_desc_more; [done | lia | unfold SIZEOF_XDMA_DESC in *; lia |].
      rewrite Hrem. Z.div_mod_to_equations. lia.
Qed.

(** A frame with the switch's tag, long enough for any look. *)
Definition tagged_frame : list Z :=
  [0; 0x0e; 0xc6; 1; 2; 3; 9; 9; 9; 9; 9; 9; 0xDC; 0xDC] ++ replicate 70 5.

(** The ring once that frame has come. *)
Definition rx_loaded : rx_nic :=
  set_x_c2h (mkEngine rx_config 0 true 0 0 (e_transfer (x_c2h rx_opened)) (e_desc (x_c2h rx_opened))
    (Some (<[0%nat := mkResult C2H_WB 84]> clear_results))
    (Some (<[0%nat := tagged_frame ++ replicate (Z.to_nat 1964) 0]> clear_bufs)) None) rx_opened.

Definition sys_opened : rx_sys := mkRxSys rx_opened (mkRxHw 0x10000 0 true) [].
Definition sys_loaded : rx_sys := mkRxSys rx_loaded (mkRxHw 0x10000 1 true) [tagged_frame].

Lemma frame_arrives : rx_step demo_cfg 1 junk junk (D := sim) sys_opened LFrame (Ok sys_loaded).
Proof.
  apply (rx_step_frame demo_cfg 1 junk junk sys_opened clear_results clear_bufs
    (imap (fun j d => init_desc 0x10000 512 (Z.of_nat j) d) clear_desc) rx_transfer
    (init_desc 0x10000 512 0 (mkDesc 0 0 0 0 0 0 0 0)) (mkResult 0 0) (mkResult C2H_WB 84)
    (tagged_frame ++ replicate (Z.to_nat 1964) 0) _ _ tagged_frame); try done.
  apply rx_fits_long. vm_compute. lia.
Qed.

(** The latency counters are no part of the FIFOs. *)
Lemma sim_latency a (d : sim) x : a = 0x110 \/ a = 0x114 -> fifo x (snd (dev_read a d)) = fifo x d.
Proof. destruct d as [[| r l] [| r' l']]; by intros [-> | ->]. Qed.


Lemma loaded_ok : rx_state_ok demo_cfg junk rx_loaded [tagged_frame].
Proof.
  destruct (frame_keeps (D := sim) demo_cfg 1 junk junk sys_opened [] [] sys_loaded rx_opened_inv frame_arrives)
    as (f & Er & Hok & _). cbn in Er. injection Er as <-. exact Hok.
Qed.


Lemma eth_type_trans_witness : exists t p,
  ax_eth_type_trans demo_cfg tagged_frame = Some (t, p, replicate 70 5) /\ t = PACKET_HOST /\ p = ETH_P_XDSA.
Proof.
  destruct (eth_type_trans_spec demo_cfg tagged_frame AX_SDSA) as (t & p & E & Hh & _ & _ & Hp);
    [vm_compute; lia | | reflexivity | reflexivity | reflexivity |].
  - unfold tagged_frame. apply Forall_app. split; [| apply Forall_replicate; unfold is_u8; lia].
    repeat constructor; unfold is_u8; lia.
  - exists t, p. split; [exact E |]. split; [by apply Hh | exact Hp].
Defined.

End RxDemo.
