(* ===== verification/XdmaIsr.v ===== *)
(** * Interrupt handlers (libxdma.c)

    The handlers that join the parts: the user interrupts mask, acknowledge and
    serve a request of the switch, the legacy handler serves user and channel
    requests in turn, and the tasklet stamps the frames that transmission left it.
    The channels' own handlers are in NicTx and NicRx, what the user functions do
    is in Qbv and TsCapture.  Addresses count from the switch's memory region, as
    they do there. *)

From Stdlib Require Import ZArith Lia Bool.
From S2P Require Import Prelude.
From S2P Require Import Mmio.
From S2P Require Import TsQueue.
From S2P Require Import TsCapture.
From S2P Require Import Qbv.
From S2P Require Import SdsaTag.
From S2P Require Import XdmaEngine.
From S2P Require Import XdmaDev.
From S2P Require Import NicTx.
From S2P Require Import NicRx.

Definition SWITCH_ISR : Z := 0x0040.
Definition CONFIG_CHANGE_BIT : Z := 0x100.
Definition TIMER_CHANGE_BIT : Z := 0x200.
Definition TIMER_VALUE_CHANGE_BIT : Z := 0x400.

Inductive irqreturn := IRQ_NONE | IRQ_HANDLED.

(** The functions a user interrupt can be given. *)
Inductive user_function :=
| AxMsixTsnIrqConfigChange
| AxMsixTsnIrqTimerChange
| AxMsixTsnIrqTimerValueChange
| AxTsnIrqPtp
| AxTsnIrqConfigChange
| AxTsnIrqTimerChange.

(** What [lp] points to: the [xdma_dev] or the [ax_private]. *)
Inductive user_arg := LpXdev | LpAxLocal.

(** [user_irq[].handler]: sixteen of them with MSI-X, else the first eight. *)
Definition xdma_user_isr_register (msix_capable : bool) (handlers : list (option user_function)) : list (option user_function) :=
  if msix_capable then
    [None; None; None; None; None; None; None; None; Some AxMsixTsnIrqConfigChange; Some AxMsixTsnIrqTimerChange;
     Some AxMsixTsnIrqTimerValueChange; None; None; None; None; None]
  else
    [Some AxTsnIrqPtp; None; None; None; Some AxTsnIrqConfigChange; None; Some AxTsnIrqTimerChange; None] ++ drop 8 handlers.

(** What the handlers read of the device: where BAR 0 and the config BAR are
    mapped, the mask of the user interrupts, their functions and the number of
    transmit channels. *)
Record isr_dev := mkIsrDev {
  u_bar0 : Z;
  u_config_bar : Z;
  u_mask : Z;
  u_handlers : list (option user_function);
  u_h2c_max : nat;
}.

(** The network device they change ([x_switch] is the switch of both), and the
    frames stamped, with the stamp if one was found. *)
Record isr_state := mkIsr {
  i_nic : nic;
  i_rx : rx_nic;
  i_stamps : list (Z * option Z);
}.
Definition set_i_nic (x : nic) (s : isr_state) : isr_state := mkIsr x (i_rx s) (i_stamps s).
Definition set_i_rx (x : rx_nic) (s : isr_state) : isr_state := mkIsr (i_nic s) x (i_stamps s).
Definition set_x_switch (w : ax_switch) (x : rx_nic) : rx_nic :=
  mkRx (x_c2h x) w (x_cur_rx x) (x_cur_rx_pkt_count x) (x_rx_bytes x) (x_rx_packets x)
    (x_napi x) (x_up x) (x_allocs x) (x_int_ctrl x) (x_mask_irq_c2h x).
Definition i_switch (s : isr_state) : ax_switch := x_switch (i_rx s).
Definition set_i_switch (w : ax_switch) (s : isr_state) : isr_state := set_i_rx (set_x_switch w (i_rx s)) s.

Section Isr.
Context {D : Type} `{!Device D}.
(** Busy-waiting, the fuel of the FIFO loops, and an uninitialised record. *)
Context (udelay mdelay : Z -> D -> D) (fuel : nat) (junk : CAPTURE_DATA).
Local Open Scope io_scope.

(** ** Stamping what was transmitted *)

(** [dev_kfree_skb_irq]: a buffer is freed once. *)
Definition free_skb (skb : Z) (n : nic) : io D nic :=
  match n_skbs n !! skb with
  | Some _ => ret (set_n_skbs (delete skb (n_skbs n)) n)
  | None => trap
  end.

Definition stamp_one (skb : Z) (s : isr_state) : io D isr_state :=
  let! b := lift_opt (n_skbs (i_nic s) !! skb) in
  let! r := ax_tx_check_timestamp udelay fuel junk (i_switch s) (tx_hw_tstamp b) (tx_data b) in
  let! n := free_skb skb (i_nic s) in
  ret (mkIsr n (set_x_switch (fst r) (i_rx s)) (i_stamps s ++ [(skb, snd r)])).

(** [while (skb_queue_len(&tx_timestamp) != 0)], in at most [k] turns. *)
Fixpoint stamp_queue (k : nat) (s : isr_state) : io D isr_state :=
  match n_tx_timestamp (i_nic s) with
  | [] => ret s
  | skb :: rest =>
      match k with
      | O => fun d => (NoFuel, d, [])
      | S k =>
          let! s := stamp_one skb (set_i_nic (set_n_tx_timestamp rest (i_nic s)) s) in
          stamp_queue k s
      end
  end.

(** [ax_local_tsk] tells whether the interrupt of channel 1 ever came. *)
Definition tasklet_ptp (ax_local_tsk : bool) (k : nat) (s : isr_state) : io D isr_state :=
  if negb ax_local_tsk then ret s else stamp_queue k s.

(** The three waits for a frame to stamp; none is queued during them, as
    transmission does not run in this interrupt. *)
Fixpoint ptp_waits (n : nat) (s : isr_state) : io D bool :=
  match n with
  | O => ret false
  | S n =>
      match n_tx_timestamp (i_nic s) with
      | [] => do! (fun d => (Ok tt, mdelay 200 d, [])) in ptp_waits n s
      | _ => ret true
      end
  end.

Definition ax_tsn_irq_ptp (k : nat) (s : isr_state) : io D (irqreturn * isr_state) :=
  let! r := ax_retrieve_hw_timestamps fuel junk (i_switch s) in
  let s := set_i_switch (snd r) s in
  if fst r =? 0 then ret (IRQ_HANDLED, s)
  else
    let! some_left := ptp_waits 3 s in
    if some_left then let! s := stamp_queue k s in ret (IRQ_HANDLED, s) else ret (IRQ_HANDLED, s).

(** ** User interrupts *)

(** A handler of MSI-X: serve the request, then let the interrupt in again. *)
Definition msix_function (v : isr_dev) (f : ax_switch -> io D unit) (bit : Z) (s : isr_state) : io D (irqreturn * isr_state) :=
  do! f (i_switch s) in
  do! user_interrupts_enable (u_config_bar v) (Z.land (u_mask v) bit) in
  ret (IRQ_HANDLED, s).
Definition ax_msix_tsn_irq_config_change (v : isr_dev) := msix_function v ax_irq_config_change CONFIG_CHANGE_BIT.
Definition ax_msix_tsn_irq_timer_change (v : isr_dev) := msix_function v ax_irq_timer_change TIMER_CHANGE_BIT.
Definition ax_msix_tsn_irq_timer_value_change (v : isr_dev) := msix_function v ax_irq_timer_value_change TIMER_VALUE_CHANGE_BIT.
Definition ax_tsn_irq_config_change (s : isr_state) : io D (irqreturn * isr_state) :=
  do! ax_irq_config_change (i_switch s) in ret (IRQ_HANDLED, s).
Definition ax_tsn_irq_timer_change (s : isr_state) : io D (irqreturn * isr_state) :=
  do! ax_irq_timer_change (i_switch s) in ret (IRQ_HANDLED, s).

(** The functions take the private data as a [void *]: one given the other
    structure reads what is not there. *)
Definition call_user (lp : user_arg) (v : isr_dev) (k : nat) (f : user_function) (s : isr_state) : io D (irqreturn * isr_state) :=
  match lp, f with
  | LpXdev, AxMsixTsnIrqConfigChange => ax_msix_tsn_irq_config_change v s
  | LpXdev, AxMsixTsnIrqTimerChange => ax_msix_tsn_irq_timer_change v s
  | LpXdev, AxMsixTsnIrqTimerValueChange => ax_msix_tsn_irq_timer_value_change v s
  | LpAxLocal, AxTsnIrqPtp => ax_tsn_irq_ptp k s
  | LpAxLocal, AxTsnIrqConfigChange => ax_tsn_irq_config_change s
  | LpAxLocal, AxTsnIrqTimerChange => ax_tsn_irq_timer_change s
  | _, _ => trap
  end.

(** [user_irq->handler(user_irq->user_idx, user_irq->dev)], through a null
    pointer too. *)
Definition call_handler (v : isr_dev) (k : nat) (idx : Z) (s : isr_state) : io D (irqreturn * isr_state) :=
  let! h := lift_opt (getz (u_handlers v) idx) in
  let! f := lift_opt h in
  call_user LpXdev v k f s.
Definition user_irq_service (v : isr_dev) (k : nat) (idx : Z) (s : isr_state) : io D (irqreturn * isr_state) :=
  let! h := lift_opt (getz (u_handlers v) idx) in
  match h with Some f => call_user LpAxLocal v k f s | None => ret (IRQ_HANDLED, s) end.

Definition isr_bit (idx : Z) : Z := u32 (Z.shiftl 1 (16 + idx)).

(** The three interrupts with a handler of their own: masked, acknowledged, served. *)
Definition user_irq_masked (bit : Z) (v : isr_dev) (k : nat) (idx : Z) (s : isr_state) : io D (irqreturn * isr_state) :=
  let! user_IRQ := readl (u_bar0 v + SWITCH_ISR) in
  if negb (Z.land user_IRQ (isr_bit idx) =? 0) then
    do! user_interrupts_disable (u_config_bar v) (Z.land (u_mask v) bit) in
    do! writel (u_bar0 v + SWITCH_ISR) (isr_bit idx) in
    call_handler v k idx s
  else ret (IRQ_NONE, s).
Definition xdma_user_irq_config_change := user_irq_masked CONFIG_CHANGE_BIT.
Definition xdma_user_irq_timer_change := user_irq_masked TIMER_CHANGE_BIT.
Definition xdma_user_irq_timer_value_change := user_irq_masked TIMER_VALUE_CHANGE_BIT.

(** The others are acknowledged and nothing else, handler or not. *)
Definition msix_user_irq_service (h : option user_function) : irqreturn :=
  match h with Some _ => IRQ_HANDLED | None => IRQ_HANDLED end.
Definition xdma_user_irq (v : isr_dev) (idx : Z) (s : isr_state) : io D (irqreturn * isr_state) :=
  let! user_IRQ := readl (u_bar0 v + SWITCH_ISR) in
  if negb (Z.land user_IRQ (isr_bit idx) =? 0) then
    do! writel (u_bar0 v + SWITCH_ISR) (isr_bit idx) in
    let! h := lift_opt (getz (u_handlers v) idx) in
    ret (msix_user_irq_service h, s)
  else ret (IRQ_NONE, s).

(** ** The legacy handler *)

Definition isr_user (v : isr_dev) (k : nat) (user : Z) (r : Z * isr_state) : io D (Z * isr_state) :=
  let '(user_irq, s) := r in
  let mask := isr_bit user in
  if negb (Z.land user_irq mask =? 0) then
    do! writel (u_bar0 v + SWITCH_ISR) (Z.land user_irq mask) in
    let! r := user_irq_service v k user s in
    ret (Z.ldiff user_irq mask, snd r)
  else ret (user_irq, s).

Definition xdma_isr (v : isr_dev) (k : nat) (s : isr_state) : io D (irqreturn * isr_state) :=
  let! ch_irq := readl (ir (u_config_bar v) IR_CHANNEL_REQUEST) in
  do! (if negb (ch_irq =? 0) then channel_interrupts_disable (u_config_bar v) ch_irq else ret tt) in
  let! user_irq := readl (u_bar0 v + SWITCH_ISR) in
  let! s :=
    (if negb (user_irq =? 0) then
       do! user_interrupts_disable (u_config_bar v) (u_mask v) in
       let! r := for_io 16 0 (isr_user v k) (user_irq, s) in
       do! user_interrupts_enable (u_config_bar v) (u_mask v) in
       ret (snd r)
     else ret s) in
  if (ch_irq =? 0) && (user_irq =? 0) then ret (IRQ_NONE, s)
  else
    let! n := xdma_isr_h2c (u_h2c_max v) ch_irq (i_nic s) in
    let! x := xdma_isr_c2h ch_irq (i_rx s) in
    ret (IRQ_HANDLED, set_i_rx x (set_i_nic n s)).

End Isr.

(** ** Theorems *)

(** The frames at the head of the queue, each with what it is stamped with: the
    stamp of the capture found for its key in the queue of captures then, which
    has received what the hardware held. *)
Inductive stamped {D} `{CaptureHw D} (junk : CAPTURE_DATA) :
    list (Z * tx_skb) -> ax_switch -> list (Z * option Z) -> ax_switch -> Prop :=
| stamped_nil sw : stamped junk [] sw [] sw
| stamped_none skb b fs sw a sts sw' :
    tx_action (tx_hw_tstamp b) (tx_data b) = Some a -> (forall m, a <> TsStamp m) ->
    stamped junk fs sw sts sw' ->
    stamped junk ((skb, b) :: fs) sw ((skb, None) :: sts) sw'
| stamped_some skb b fs sw m key l sw1 sts sw' :
    tx_action (tx_hw_tstamp b) (tx_data b) = Some (TsStamp m) -> ptp_key junk m = Some key ->
    received Tx l sw sw1 -> ptp_mode sw1 = ptp_mode sw ->
    stamped junk fs sw1 sts sw' ->
    stamped junk ((skb, b) :: fs) sw
      ((skb, c ← tx_found key sw1; stamp_ns (ptp_mode sw) c) :: sts) sw'.

(** A frame the stamping code reads no byte past: what is asked for is decided
    from its bytes and a PTP header is there if one is looked at. *)
Definition stampable (junk : CAPTURE_DATA) (b : tx_skb) : Prop :=
  exists a, tx_action (tx_hw_tstamp b) (tx_data b) = Some a /\
    forall m, a = TsStamp m -> is_Some (ptp_key junk m).

Lemma stamped_ids {D} `{CaptureHw D} junk fs sw sts sw' : stamped junk fs sw sts sw' -> sts.*1 = fs.*1.
Proof. induction 1; cbn; congruence. Qed.

Lemma lookup_foldl_delete {A} (q : list Z) : forall (m : gmap Z A) p,
  foldl (fun m p => delete p m) m q !! p = if decide (p ∈ q) then None else m !! p.
Proof.
  induction q as [| x q IH]; intros m p; cbn [foldl]; [by rewrite decide_False by set_solver |].
  rewrite IH. destruct (decide (p ∈ q)); [by rewrite decide_True by set_solver |].
  destruct (decide (x = p)) as [-> |].
  - by rewrite lookup_delete_eq, decide_True by set_solver.
  - by rewrite lookup_delete_ne, decide_False by set_solver.
Qed.

Section Stamping.
Context {D : Type} `{CaptureHw D}.
Context (udelay : Z -> D -> D) (fuel : nat) (junk : CAPTURE_DATA).
Context (Hdepth : forall us d x, (length (fifo x (udelay us d)) < fuel)%nat) (Hjunk : ts_sized junk).

(** What stamping keeps of the switch and of the hardware. *)
Definition stamp_inv (sw : ax_switch) (d : D) : Prop :=
  switch_ok sw /\ Forall ts_ok (tsq_contents (tx_queue sw)) /\
  forall x, (length (fifo x d) < fuel)%nat.

Lemma check_timestamp_runs sw d skb b :
  stamp_inv sw d -> stampable junk b ->
  exists st sw' d', runs (ax_tx_check_timestamp udelay fuel junk sw (tx_hw_tstamp b) (tx_data b)) d (sw', st) d' /\
    stamp_inv sw' d' /\
    forall fs sts sw2, stamped junk fs sw' sts sw2 ->
      stamped junk ((skb, b) :: fs) sw ((skb, st) :: sts) sw2.
Proof.
  intros (Hs & Hok & Hd) (a & Ea & Hk). unfold ax_tx_check_timestamp. destruct a as [| m |] eqn:Eq.
  1, 3: exists None, sw, d; split_and!; [| done | intros; by eapply stamped_none];
    eapply runs_bind; [by apply runs_lift | apply runs_ret].
  destruct (Hk m eq_refl) as [key Ek].
  destruct (tx_retry_runs udelay fuel Hdepth 20 junk key sw d)
    as (st & s' & d' & late & R & H1 & H2 & H3 & H4 & H5); try done.
  exists st, s', d'. split_and!.
  - eapply runs_bind; [by apply runs_lift |]. cbn beta iota.
    eapply runs_bind; [eapply runs_bind; [by apply runs_lift | exact R] | apply runs_ret].
  - split_and!; [done | by eapply (received_ok Tx) | done].
  - intros fs sts sw2 Hst. subst st. by eapply stamped_some.
Qed.

(** The network device after the frames [q] were stamped: each was freed once. *)
Definition unqueued (q : list Z) (n : nic) : nic :=
  set_n_skbs (foldl (fun m p => delete p m) (n_skbs n) q) (set_n_tx_timestamp [] n).

Definition queued (fs : list (Z * tx_skb)) (n : nic) : Prop :=
  n_tx_timestamp n = fs.*1 /\ NoDup fs.*1 /\
  Forall (fun f => n_skbs n !! fst f = Some (snd f) /\ stampable junk (snd f)) fs.

Definition after_frame (f : Z * tx_skb) (fs : list (Z * tx_skb)) (st : option Z) (sw : ax_switch) (s : isr_state) : isr_state :=
  mkIsr (set_n_skbs (delete (fst f) (n_skbs (i_nic s))) (set_n_tx_timestamp fs.*1 (i_nic s)))
    (set_x_switch sw (i_rx s)) (i_stamps s ++ [(fst f, st)]).

(** One turn of the loop: the first frame leaves the queue, is stamped and freed. *)
Lemma stamp_one_runs f fs s d : queued (f :: fs) (i_nic s) -> stamp_inv (i_switch s) d ->
  exists st sw' d', runs (stamp_one udelay fuel junk (fst f) (set_i_nic (set_n_tx_timestamp fs.*1 (i_nic s)) s)) d
      (after_frame f fs st sw' s) d' /\
    stamp_inv sw' d' /\
    forall sts sw2, stamped junk fs sw' sts sw2 -> stamped junk (f :: fs) (i_switch s) ((fst f, st) :: sts) sw2.
Proof.
  intros (_ & _ & [[Hb Hst] _]%Forall_cons) Hi. destruct f as [skb b]; cbn [fst snd] in *.
  destruct (check_timestamp_runs _ d skb b Hi Hst) as (st & sw' & d' & R & Hi' & Hs).
  exists st, sw', d'. split_and!; [| done | by apply Hs].
  eapply runs_bind; [by apply runs_lift |]. eapply runs_bind; [exact R |].
  unfold free_skb. cbn. rewrite Hb. eapply runs_bind; [apply runs_ret |]. apply runs_ret.
Qed.

Lemma queued_next f fs n : queued (f :: fs) n ->
  queued fs (set_n_skbs (delete (fst f) (n_skbs n)) (set_n_tx_timestamp fs.*1 n)).
Proof.
  intros (_ & [Hn Hnd]%NoDup_cons & [_ HF]%Forall_cons). split_and!; [done | done |].
  apply Forall_forall. intros g Hg. eapply Forall_forall in HF as [Hb Hst]; [| done].
  split; [| done]. cbn. rewrite lookup_delete_ne; [done |].
  intros E. apply Hn. rewrite E. by apply list_elem_of_fmap_2.
Qed.

Lemma stamp_queue_runs fs : forall k s d, (length fs <= k)%nat ->
  queued fs (i_nic s) -> stamp_inv (i_switch s) d ->
  exists sts sw' d', runs (stamp_queue udelay fuel junk k s) d
      (mkIsr (unqueued fs.*1 (i_nic s)) (set_x_switch sw' (i_rx s)) (i_stamps s ++ sts)) d' /\
    stamped junk fs (i_switch s) sts sw' /\ stamp_inv sw' d'.
Proof.
  induction fs as [| f fs IH]; intros k s d Hk Hq Hi.
  - exists [], (i_switch s), d. split_and!; [| constructor | done].
    destruct Hq as (Eq & _). destruct k; cbn [stamp_queue]; rewrite Eq, app_nil_r;
      destruct s as [[] [] ?]; cbn in *; subst; apply runs_ret.
  - destruct (stamp_one_runs f fs s d Hq Hi) as (st & sw1 & d1 & R & Hi1 & Hst).
    destruct k as [| k]; [cbn in Hk; lia |]. apply queued_next in Hq as Hq'.
    destruct (IH k (after_frame f fs st sw1 s) d1 ltac:(cbn in Hk; lia) Hq' Hi1)
      as (sts & sw' & d' & R' & Hst' & Hi').
    exists ((fst f, st) :: sts), sw', d'. split_and!; [| by apply Hst | done].
    cbn [stamp_queue]. destruct Hq as (-> & _). cbn [fmap list_fmap].
    eapply runs_bind; [exact R |].
    destruct s as [[] [] ?]; cbn in R' |- *. by rewrite <- app_assoc in R'.
Qed.
End Stamping.

Section Serve.
Context {D : Type} `{CaptureHw D}.

(** C34. The tasklet ends with nothing left to stamp: when the hardware never
    holds as many captures as the fuel and every queued frame is live, once, and
    reads inside its bytes, each is stamped in the order of the queue, from the
    captures the hardware had delivered by then, each is freed exactly once, and
    nothing else of the network device changes but the queues of captures, which
    stay well formed. *)
Theorem tasklet_serves udelay fuel junk k fs s d :
  (forall us d x, (length (fifo x (udelay us d)) < fuel)%nat) -> ts_sized junk ->
  queued junk fs (i_nic s) -> stamp_inv fuel (i_switch s) d -> (length fs <= k)%nat ->
  exists s' d' sts, runs (tasklet_ptp udelay fuel junk true k s) d s' d' /\
    n_tx_timestamp (i_nic s') = [] /\
    (forall p, n_skbs (i_nic s') !! p = if decide (p ∈ fs.*1) then None else n_skbs (i_nic s) !! p) /\
    i_nic s' = set_n_skbs (n_skbs (i_nic s')) (set_n_tx_timestamp [] (i_nic s)) /\
    i_rx s' = set_x_switch (i_switch s') (i_rx s) /\
    i_stamps s' = i_stamps s ++ sts /\ sts.*1 = fs.*1 /\
    stamped junk fs (i_switch s) sts (i_switch s') /\ stamp_inv fuel (i_switch s') d'.
Proof.
  intros Hu Hj Hq Hi Hk.
  destruct (stamp_queue_runs udelay fuel junk Hu Hj fs k s d Hk Hq Hi) as (sts & sw' & d' & R & Hst & Hi').
  exists (mkIsr (unqueued fs.*1 (i_nic s)) (set_x_switch sw' (i_rx s)) (i_stamps s ++ sts)), d', sts.
  split_and!; [exact R | done | | done | done | done | by eapply stamped_ids | done | done].
  intros p. apply lookup_foldl_delete.
Qed.
End Serve.

(** ** User interrupts *)

(** The three requests of the switch that have a handler of their own. *)
Inductive tsn_irq := ConfigChange | TimerChange | TimerValueChange.
Definition irq_idx (q : tsn_irq) : Z :=
  match q with ConfigChange => 8 | TimerChange => 9 | TimerValueChange => 10 end.
Definition irq_bit (q : tsn_irq) : Z :=
  match q with ConfigChange => 0x100 | TimerChange => 0x200 | TimerValueChange => 0x400 end.

Definition irq_function (q : tsn_irq) : user_function :=
  match q with
  | ConfigChange => AxMsixTsnIrqConfigChange
  | TimerChange => AxMsixTsnIrqTimerChange
  | TimerValueChange => AxMsixTsnIrqTimerValueChange
  end.

Section Served.
Context {D : Type} `{Device D}.
Context (udelay mdelay : Z -> D -> D) (fuel : nat) (junk : CAPTURE_DATA).

Definition irq_serve (q : tsn_irq) : ax_switch -> io D unit :=
  match q with
  | ConfigChange => ax_irq_config_change
  | TimerChange => ax_irq_timer_change
  | TimerValueChange => ax_irq_timer_value_change
  end.
Definition irq_handler (q : tsn_irq) :=
  match q with
  | ConfigChange => xdma_user_irq_config_change udelay mdelay fuel junk
  | TimerChange => xdma_user_irq_timer_change udelay mdelay fuel junk
  | TimerValueChange => xdma_user_irq_timer_value_change udelay mdelay fuel junk
  end.

(** [m] can end with [r] and the accesses [l]. *)
Definition ran {A} (m : io D A) (r : outcome A) (l : list access) : Prop :=
  exists d, fst (fst (m d)) = r /\ snd (m d) = l.

Lemma obs_ran {A} (m : io D A) : obs m (ran m).
Proof. intros d. by exists d. Qed.

Lemma msix_function_obs v (f : ax_switch -> io D unit) bit s : is_u32 (Z.land (u_mask v) bit) ->
  obs (msix_function v f bit s) (fun r l => exists g body, ran (f (i_switch s)) g body /\
    l = body ++ match g with
                | Ok _ => [WR (ir (u_config_bar v) IR_USER_ENABLE_W1S) (Z.land (u_mask v) bit)]
                | _ => []
                end /\
    r = match g with Ok _ => Ok (IRQ_HANDLED, s) | Trap => Trap | NoFuel => NoFuel end).
Proof.
  intros Hm. unfold msix_function. io_step. eapply obs_weaken; [| apply obs_ran].
  intros [[] | |] body Hb; cbn beta iota.
  2: by exists Trap, body; rewrite app_nil_r.
  2: by exists NoFuel, body; rewrite app_nil_r.
  unfold user_interrupts_enable. repeat io_step.
  exists (Ok tt), body. rewrite u32_small by done. by split_and!.
Qed.

(** The store of a handler's mask is the mask. *)
Lemma irq_bit_u32 v q : is_u32 (u_mask v) -> is_u32 (Z.land (u_mask v) (irq_bit q)).
Proof.
  intros Hm. rewrite <- (u32_small _ Hm). unfold u32 at 1.
  rewrite <- Z.land_ones, <- Z.land_assoc, (Z.land_comm (Z.ones 32)), Z.land_assoc, Z.land_ones by done.
  apply Z.mod_pos_bound. done.
Qed.

Lemma isr_bit_pow idx : 0 <= idx < 16 -> isr_bit idx = 2 ^ (16 + idx) /\ isr_bit idx = Z.shiftl 1 (16 + idx).
Proof.
  intros Hi. unfold isr_bit. rewrite Z.shiftl_mul_pow2, Z.mul_1_l by lia.
  rewrite u32_small; [done |]. split; [apply Z.pow_nonneg; lia | apply Z.pow_lt_mono_r; lia].
Qed.

(** C35. With the functions registered for MSI-X, an interrupt of the schedule
    handlers reads the request register once. When its bit is not set it is not
    its own and nothing is stored; else, in this order, the interrupt is disabled,
    its request alone is acknowledged, its own function runs on the switch, and
    the interrupt is enabled again - left disabled only if the function faults. *)
Theorem user_interrupt_served v k s q h :
  u_handlers v = xdma_user_isr_register true h -> is_u32 (u_mask v) ->
  obs (irq_handler q v k (irq_idx q) s) (fun r l => exists req,
    if Z.testbit req (16 + irq_idx q) then
      exists f body, ran (irq_serve q (i_switch s)) f body /\
        l = [RD (u_bar0 v + SWITCH_ISR) req;
             WR (ir (u_config_bar v) IR_USER_ENABLE_W1C) (Z.land (u_mask v) (irq_bit q));
             WR (u_bar0 v + SWITCH_ISR) (2 ^ (16 + irq_idx q))] ++ body ++
            match f with
            | Ok _ => [WR (ir (u_config_bar v) IR_USER_ENABLE_W1S) (Z.land (u_mask v) (irq_bit q))]
            | _ => []
            end /\
        r = match f with Ok _ => Ok (IRQ_HANDLED, s) | Trap => Trap | NoFuel => NoFuel end
    else l = [RD (u_bar0 v + SWITCH_ISR) req] /\ r = Ok (IRQ_NONE, s)).
Proof.
  intros Hh Hm. pose proof (irq_bit_u32 v q Hm) as Hb.
  destruct (isr_bit_pow (irq_idx q) ltac:(by destruct q)) as [Ep Es].
  assert (E : forall v k s, irq_handler q v k (irq_idx q) s =
    user_irq_masked udelay mdelay fuel junk (irq_bit q) v k (irq_idx q) s) by (by destruct q).
  assert (Ec : obs (call_handler udelay mdelay fuel junk v k (irq_idx q) s) (fun r l =>
    exists g body, ran (irq_serve q (i_switch s)) g body /\
    l = body ++ match g with
                | Ok _ => [WR (ir (u_config_bar v) IR_USER_ENABLE_W1S) (Z.land (u_mask v) (irq_bit q))]
                | _ => []
                end /\
    r = match g with Ok _ => Ok (IRQ_HANDLED, s) | Trap => Trap | NoFuel => NoFuel end)).
  { unfold call_handler.
    assert (Ef : getz (u_handlers v) (irq_idx q) = Some (Some (irq_function q))) by (rewrite Hh; by destruct q).
    rewrite Ef. repeat io_step. destruct q; by apply msix_function_obs. }
  rewrite E. unfold user_irq_masked. do 2 io_step.
  rewrite Es, land_bit_testbit by (by destruct q). destruct (Z.testbit _ _) eqn:Et.
  - unfold user_interrupts_disable. do 4 io_step. eapply obs_weaken; [| exact Ec].
    intros r l (g & body & Hr & -> & ->). exists v0. rewrite Et. exists g, body.
    split; [done |]. rewrite <- Es, Ep, !u32_small by (done || (rewrite <- Ep; apply u32_range)).
    done.
  - io_step. exists v0. rewrite Et. done.
Qed.
End Served.

(** ** The handlers at work *)

Module IsrDemo.
Import CaptureSim.

(** A Sync message of port 1, number 5, and a frame without a tag. *)
Definition ptp_frame : list Z :=
  repeat 0 12 ++ [0xDC; 0xDC; 0; 0; 0x40; 8; 0; 0; 0x88; 0xF7] ++ repeat 0 30 ++ [0; 5; 0; 0].
Definition frames : list (Z * tx_skb) :=
  [(4, mkTxSkb ptp_frame [] true); (9, mkTxSkb (repeat 0 60) [] true)].
Definition demo_nic : nic := mkNic [] [] 255 false (list_to_map ((7, mkTxSkb [1] [] false) :: frames)) [4; 9] false 0 3.
Definition demo_state : isr_state := mkIsr demo_nic RxDemo.rx_closed [].
Definition demo_dev (msix : bool) : isr_dev :=
  mkIsrDev 0x1000 0x2000 0x700 (xdma_user_isr_register msix (replicate 16 None)) 0.

Definition tasklet_result : isr_state :=
  match tasklet_ptp wait 3 junk true 2 demo_state (mkSim [] []) with (Ok s, _, _) => s | _ => demo_state end.

(** Both are freed; the first with the stamp of the capture that came while the
    tasklet waited, the second without. *)
Lemma tasklet_serves_witness : exists s' d',
  runs (tasklet_ptp wait 3 junk true 2 demo_state) (mkSim [] []) s' d' /\
  i_stamps s' = [(4, Some 7000000020); (9, None)] /\ n_tx_timestamp (i_nic s') = [] /\
  n_skbs (i_nic s') = {[ 7 := mkTxSkb [1] [] false ]}.
Proof.
  destruct (tasklet_serves wait 3 junk 2 frames demo_state (mkSim [] []))
    as (s' & d' & sts & R & E & _).
  - by intros us d []; cbn; lia.
  - done.
  - split_and!; [done | by apply (bool_decide_unpack _); vm_compute |].
    repeat constructor; try done; (eexists; split; [reflexivity | by intros m [= <-]]).
  - split_and!; [apply switch_is_ok | constructor | by intros []; cbn; lia].
  - done.
  - exists s', d'. split; [exact R |]. assert (s' = tasklet_result) as ->.
    { destruct R as [l Hl]. unfold tasklet_result. by rewrite Hl. }
    split_and!; vm_compute; reflexivity.
Defined.

Definition idle (us : Z) (d : regfile) : regfile := d.

(** A schedule-change request: masked, acknowledged, served, let in again. *)
Definition served : outcome (irqreturn * isr_state) * regfile * list access :=
  irq_handler idle idle 3 junk ConfigChange (demo_dev true) 2 8 demo_state ((0x1040, 2 ^ 24) :: demo_regs).
Lemma user_interrupt_witness : exists body,
  snd served = [RD 0x1040 (2 ^ 24); WR 0x400C 0x100; WR 0x1040 (2 ^ 24)] ++ body ++ [WR 0x4008 0x100] /\
  exists d, snd (ax_irq_config_change (D := regfile) (switch 0) d) = body.
Proof.
  destruct (user_interrupt_served (D := regfile) idle idle 3 junk (demo_dev true) 2 demo_state ConfigChange
    (replicate 16 None) eq_refl ltac:(by split) ((0x1040, 2 ^ 24) :: demo_regs)) as (req & E).
  change (irq_handler _ _ _ _ _ _ _ _ _ _) with served in E.
  assert (Hr : fst (fst served) = Ok (IRQ_HANDLED, demo_state)) by (vm_compute; reflexivity).
  assert (Hq : head (snd served) = Some (RD 0x1040 (2 ^ 24))) by (vm_compute; reflexivity).
  destruct (Z.testbit req (16 + irq_idx ConfigChange)); [| by destruct E as [_ E]; rewrite E in Hr].
  destruct E as (f & body & (d & _ & Hb) & El & Er). rewrite Er in Hr. destruct f; [| discriminate Hr ..].
  rewrite El in Hq. injection Hq as ->.
  exists body. split; [exact El | by exists d].
Defined.

(** The legacy handler with two requests and no function: each acknowledged. *)
Example legacy_run :
  stores (snd (xdma_isr (D := regfile) idle idle 3 junk (demo_dev false) 2 demo_state [(0x1040, 2 ^ 17 + 2 ^ 23)])) =
  [(0x400C, 0x700); (0x1040, 2 ^ 17); (0x1040, 2 ^ 23); (0x4008, 0x700)].
Proof. vm_compute. reflexivity. Qed.
End IsrDemo.
