(* ===== verification/NicMdio.v ===== *)
(** * The MDIO bus and the PHYs behind it (xdma_mod.c)

    Management frames go through three registers of the switch's memory region:
    a control register whose bit 20 starts a transfer and clears itself, and a
    data register for each direction.  On top of it the set-up of the four
    PHYs, whose registers above 15 are paged by register 31, and the timer that
    follows their link. *)

From Stdlib Require Import ZArith Lia Bool.
From S2P Require Import Prelude.
From S2P Require Import Mmio.

Definition MDIO_REG_OFFSET : Z := 0x0200.
Definition MDIO_CTRL : Z := MDIO_REG_OFFSET + 0x0000.
Definition MDIO_WRITE_DATA : Z := MDIO_REG_OFFSET + 0x0004.
Definition MDIO_READ_DATA : Z := MDIO_REG_OFFSET + 0x0008.
Definition PHY_ID_SHIFT : Z := 0x01.

(** The registers and bits of clause 22 (linux/mii.h). *)
Definition MII_BMCR : Z := 0x00.
Definition MII_BMSR : Z := 0x01.
Definition MII_ADVERTISE : Z := 0x04.
Definition MII_LPA : Z := 0x05.
Definition MII_CTRL1000 : Z := 0x09.
Definition MII_STAT1000 : Z := 0x0a.
Definition BMCR_ANRESTART : Z := 0x0200.
Definition BMCR_ANENABLE : Z := 0x1000.
Definition BMSR_LSTATUS : Z := 0x0004.
Definition BMSR_ANEGCOMPLETE : Z := 0x0020.
Definition LPA_10FULL : Z := 0x0040.
Definition LPA_100HALF : Z := 0x0080.
Definition LPA_100FULL : Z := 0x0100.
Definition LPA_PAUSE_CAP : Z := 0x0400.
Definition LPA_PAUSE_ASYM : Z := 0x0800.
Definition LPA_1000HALF : Z := 0x0400.
Definition LPA_1000FULL : Z := 0x0800.
Definition SPEED_10 : Z := 10.
Definition SPEED_100 : Z := 100.
Definition SPEED_1000 : Z := 1000.
Definition DUPLEX_HALF : Z := 0x00.
Definition DUPLEX_FULL : Z := 0x01.

Record mdio_transfer := mkMdio {
  phy_id : Z;                          (* int *)
  regnum : Z;                          (* int *)
  mt_val : Z;                          (* u16 *)
  mdio_bus : Z;                        (* u8 *)
}.

Record ax_ethphy_status := mkPhyStatus {
  ps_speed : Z;
  ps_duplex : Z;
  ps_pause : Z;
  ps_asym_pause : Z;
  ps_link : Z;
}.

#[export] Instance ax_ethphy_status_eq_dec : EqDecision ax_ethphy_status.
Proof. solve_decision. Defined.

Definition no_phy_status : ax_ethphy_status := mkPhyStatus 0 0 0 0 0.
Definition set_ps_link (l : Z) (s : ax_ethphy_status) : ax_ethphy_status :=
  mkPhyStatus (ps_speed s) (ps_duplex s) (ps_pause s) (ps_asym_pause s) l.

Definition has_bits (x m : Z) : bool := negb (Z.land x m =? 0).

Section Mdio.
Context {D : Type} `{Device D}.
(** [xdev->bar[2]] and [axswitch.number_of_ports]. *)
Context (bar2 : Z) (number_of_ports : Z).
Local Open Scope io_scope.

(** ** Frames *)

(** At most ten looks at the start bit; the delays between them are not seen by
    the device.  Whether it has cleared. *)
Fixpoint mdio_wait (n : nat) : io D bool :=
  match n with
  | O => ret false
  | S n =>
      let! ctrl := readl (bar2 + MDIO_CTRL) in
      if Z.land ctrl (Z.shiftl 1 20) =? 0 then ret true else mdio_wait n
  end.

Definition ax_mdio_read (data : mdio_transfer) : io D Z :=
  let ctrl := u32 (Z.lor (Z.lor (Z.lor (Z.shiftl (phy_id data) 27) (Z.shiftl (regnum data) 22))
                     (Z.shiftl 1 21)) (Z.land (mdio_bus data) 0x7F)) in
  do! writel (bar2 + MDIO_CTRL) ctrl in
  do! writel (bar2 + MDIO_CTRL) (Z.lor ctrl (Z.shiftl 1 20)) in
  let! ready := mdio_wait 10 in
  if ready then let! value := readl (bar2 + MDIO_READ_DATA) in ret (Z.land value 0xFFFF)
  else ret (Z.land 0 0xFFFF).

Definition ax_mdio_write (data : mdio_transfer) : io D Z :=
  let ctrl := u32 (Z.lor (Z.lor (Z.shiftl (phy_id data) 27) (Z.shiftl (regnum data) 22))
                     (Z.land (mdio_bus data) 0x7F)) in
  do! writel (bar2 + MDIO_WRITE_DATA) (mt_val data) in
  do! writel (bar2 + MDIO_CTRL) ctrl in
  do! writel (bar2 + MDIO_CTRL) (Z.lor ctrl (Z.shiftl 1 20)) in
  do! mdio_wait 10 in
  ret 0.

(** The operations of the registered bus; writes never reach it. *)
Definition ax_mdio_bus_read (phy reg : Z) : io D Z :=
  ax_mdio_read (mkMdio (phy + PHY_ID_SHIFT) reg 0 0).
Definition ax_mdio_bus_write (phy reg val : Z) : io D Z := ret 0.

Definition phy_read (phy reg : Z) : io D Z := ax_mdio_read (mkMdio phy reg 0 0).
Definition phy_write (phy reg val : Z) : io D unit :=
  do! ax_mdio_write (mkMdio phy reg (u16 val) 0) in ret tt.

(** [for (i = 1; i < number_of_ports; i++)]; the counter has eight bits, enough
    for the ports there can be. *)
Definition for_phys (body : Z -> io D unit) : io D unit :=
  for_io (Z.to_nat (number_of_ports - 1)) 1 (fun i _ => body i) tt.

(** ** Settings of the PHYs *)

Definition ax_init_phy_led : io D unit :=
  for_phys (fun i =>
    do! phy_write i 0x1F 0x0D04 in
    do! phy_write i 0x10 0x36B in
    phy_write i 0x1F 0).

Definition ax_phy_greeneth (enable : bool) : io D unit :=
  for_phys (fun i =>
    do! phy_write i 0x1F 0xa43 in
    do! phy_write i 27 0x8011 in
    do! phy_write i 28 (if enable then 0xd73f else 0x573f) in
    phy_write i 0x1F 0).

Definition ax_phy_EEE (enable : bool) : io D unit :=
  for_phys (fun i =>
    do! phy_write i 0x1F 0xa43 in
    let! reg := phy_read i 0x19 in
    do! phy_write i 0x19 (if enable then Z.lor reg (Z.shiftl 1 5)
                          else Z.land reg (Z.lnot (Z.shiftl 1 5))) in
    phy_write i 0x1F 0).

Definition ax_phy_PTP (enable : bool) : io D unit :=
  for_phys (fun i =>
    do! phy_write i 0x1F 0xe40 in
    let! reg := phy_read i 0x10 in
    do! phy_write i 0x10 (if enable then Z.lor reg 0x3F else Z.land reg (Z.lnot 0x3F)) in
    phy_write i 0x1F 0).

Definition ax_phy_serdes (enable : bool) : io D unit :=
  for_phys (fun i =>
    do! phy_write i 0x1F 0 in
    do! phy_write i 0x0 0x9200 in
    do! phy_write i 0x1F 0xA43 in
    let! reg := phy_read i 0x19 in
    do! phy_write i 0x19 (Z.land reg 0xFFFFFFFE) in
    do! phy_write i 0x1F 0 in
    phy_write i 0x0 0x9200).

Definition __ax_restart_autoneg (port : Z) (eth_restart : bool) : io D unit :=
  if eth_restart then
    let! reg := phy_read port MII_BMCR in
    phy_write port MII_BMCR (Z.lor reg BMCR_ANRESTART)
  else ret tt.

Definition ax_restart_autoneg : io D unit := for_phys (fun i => __ax_restart_autoneg i true).

(** ** Waiting for the links *)

Definition LINK_DONE : Z := Z.lor BMSR_LSTATUS BMSR_ANEGCOMPLETE.
Definition link_done (bmsr : Z) : bool := Z.land bmsr LINK_DONE =? LINK_DONE.

(** The loop that samples the status: how often it was good and how often it
    was read, both counted over all ports. *)
Fixpoint rgmii_poll (fuel : nat) (i match_num retry_num : Z) : io D (Z * Z) :=
  match fuel with
  | O => fun d => (NoFuel, d, [])
  | S n =>
      let! bmsr := phy_read i MII_BMSR in
      let match_num := if link_done bmsr then u8 (match_num + 1) else match_num in
      let retry_num := u8 (retry_num + 1) in
      if (3 <=? match_num) || (5 <=? retry_num) then ret (match_num, retry_num)
      else rgmii_poll n i match_num retry_num
  end.

Fixpoint rgmii_tries (fuel : nat) (tries : nat) (i match_num retry_num : Z) : io D (Z * Z) :=
  match tries with
  | O => ret (match_num, retry_num)
  | S j =>
      do! phy_write i MII_BMCR (Z.lor BMCR_ANRESTART BMCR_ANENABLE) in
      let! r := rgmii_poll fuel i match_num retry_num in
      if fst r =? 3 then ret r else rgmii_tries fuel j i (fst r) (snd r)
  end.

(** The ports reported as failed. *)
Definition ax_init_rgmii (fuel : nat) : io D (list Z) :=
  let! r := for_io (Z.to_nat (number_of_ports - 1)) 1 (fun i '(match_num, retry_num, failed) =>
    let! bmsr := phy_read i MII_BMSR in
    if link_done bmsr then ret (match_num, retry_num, failed)
    else
      let! r := rgmii_tries fuel 3 i match_num retry_num in
      let '(match_num, retry_num) := r in
      ret (match_num, retry_num,
           if (5 <=? retry_num) && (match_num <? 3) then failed ++ [i - 1] else failed))
    (0, 0, []) in
  ret (snd r).

(** ** The link timer *)

(** Speed, duplex and pause from what both sides advertise. *)
Definition phy_mode (common_adv_gb common_adv lpa : Z) : ax_ethphy_status :=
  let '(speed, duplex) :=
    if has_bits common_adv_gb (Z.lor LPA_1000FULL LPA_1000HALF) then
      (SPEED_1000, if has_bits common_adv_gb LPA_1000FULL then DUPLEX_FULL else DUPLEX_HALF)
    else if has_bits common_adv (Z.lor LPA_100FULL LPA_100HALF) then
      (SPEED_100, if has_bits common_adv LPA_100FULL then DUPLEX_FULL else DUPLEX_HALF)
    else (SPEED_10, if has_bits common_adv LPA_10FULL then DUPLEX_FULL else DUPLEX_HALF) in
  let pause (bit : Z) : Z := if (duplex =? DUPLEX_FULL) && has_bits lpa bit then 1 else 0 in
  mkPhyStatus speed duplex (pause LPA_PAUSE_CAP) (pause LPA_PAUSE_ASYM) 1.

(** A read that fails leaves the port out of this round; reads here never do. *)
Definition read_or (phy reg : Z) (skip : io D (list ax_ethphy_status))
    (k : Z -> io D (list ax_ethphy_status)) : io D (list ax_ethphy_status) :=
  let! v := phy_read phy reg in if v <? 0 then skip else k v.

(** One port of a round, on the array [phy_status]. *)
Definition phy_timer_port (i : Z) (l : list ax_ethphy_status) : io D (list ax_ethphy_status) :=
  read_or i MII_BMSR (ret l) (fun status =>
    let! old := lift_opt (getz l (i - 1)) in
    if has_bits status 0x4 then
      if ps_link old =? 1 then ret l
      else
        let old := set_ps_link 1 old in
        let! l := lift_opt (setz l (i - 1) old) in
        read_or i MII_STAT1000 (ret l) (fun lpagb =>
        read_or i MII_CTRL1000 (ret l) (fun adv =>
        let common_adv_gb := Z.land lpagb (Z.shiftl adv 2) in
        read_or i MII_LPA (ret l) (fun lpa =>
        read_or i MII_ADVERTISE (ret l) (fun adv =>
        let common_adv := Z.land lpa adv in
        let phy_status := phy_mode common_adv_gb common_adv lpa in
        if decide (phy_status = old) then ret l
        else
          let! l := lift_opt (setz l (i - 1) (set_ps_link 1 phy_status)) in
          do! __ax_restart_autoneg i false in
          ret l))))
    else if ps_link old =? 1 then lift_opt (setz l (i - 1) no_phy_status)
    else ret l).

Definition __ax_phy_timer (l : list ax_ethphy_status) : io D (list ax_ethphy_status) :=
  for_io (Z.to_nat (number_of_ports - 1)) 1 phy_timer_port l.

End Mdio.

(** ** What the accesses amount to on the bus *)

(** The PHYs as a state that reads and writes of their registers go through. *)
Class MdioBus (P : Type) := {
  bus_read : Z -> Z -> P -> Z * P;
  bus_write : Z -> Z -> Z -> P -> P;
  bus_read_u16 phy reg p : is_u16 (fst (bus_read phy reg p));
}.

(** The controller: the PHYs, its two data registers, and how many more looks
    at the start bit find it set. *)
Record mdio_ctl (P : Type) := mkCtl {
  ctl_phys : P;
  ctl_wdata : Z;
  ctl_rdata : Z;
  ctl_busy : nat;
}.
Arguments mkCtl {P}.
Arguments ctl_phys {P}.
Arguments ctl_wdata {P}.
Arguments ctl_rdata {P}.
Arguments ctl_busy {P}.

Definition frame_phy (v : Z) : Z := Z.land (Z.shiftr v 27) 31.
Definition frame_reg (v : Z) : Z := Z.land (Z.shiftr v 22) 31.

Definition ctl_transfer {P} `{MdioBus P} (busy : nat) (v : Z) (c : mdio_ctl P) : mdio_ctl P :=
  if Z.testbit v 21 then
    let '(x, p) := bus_read (frame_phy v) (frame_reg v) (ctl_phys c) in mkCtl p (ctl_wdata c) x busy
  else mkCtl (bus_write (frame_phy v) (frame_reg v) (ctl_wdata c) (ctl_phys c))
         (ctl_wdata c) (ctl_rdata c) busy.

(** How the controller answers, for its bus number zero: a control word with the
    start bit performs a transfer and the bit clears itself within ten looks. *)
Class MdioController (D P : Type) {dev : Device D} {bus : MdioBus P} (bar2 : Z) := {
  ctl : D -> mdio_ctl P;
  ctl_wdata_written v d : ctl (dev_write (bar2 + MDIO_WRITE_DATA) v d) =
    mkCtl (ctl_phys (ctl d)) (u16 v) (ctl_rdata (ctl d)) (ctl_busy (ctl d));
  ctl_loaded v d : Z.testbit v 20 = false -> Z.land v 0x7F = 0 ->
    ctl (dev_write (bar2 + MDIO_CTRL) v d) = ctl d;
  ctl_started v d : Z.testbit v 20 = true -> Z.land v 0x7F = 0 -> exists busy, (busy < 10)%nat /\
    ctl (dev_write (bar2 + MDIO_CTRL) v d) = ctl_transfer busy v (ctl d);
  ctl_polled d : exists v d', dev_read (bar2 + MDIO_CTRL) d = (v, d') /\
    Z.testbit v 20 = negb (Nat.eqb (ctl_busy (ctl d)) 0) /\
    ctl d' = mkCtl (ctl_phys (ctl d)) (ctl_wdata (ctl d)) (ctl_rdata (ctl d)) (pred (ctl_busy (ctl d)));
  ctl_read d : exists v d', dev_read (bar2 + MDIO_READ_DATA) d = (v, d') /\
    u16 v = ctl_rdata (ctl d) /\ ctl d' = ctl d;
}.

Section Bus.
Context {D P : Type} {bar2 : Z} {dev : Device D} {bus : MdioBus P} {mc : MdioController D P bar2}.
Local Open Scope io_scope.

Definition phys (d : D) : P := ctl_phys (ctl d).

(** On every controller whose PHYs are [p], the routine ends normally, and [Q]
    holds of its result and of the PHYs then. *)
Definition does {A} (m : io D A) (p : P) (Q : A -> P -> Prop) : Prop :=
  forall d, phys d = p -> exists a d', runs m d a d' /\ Q a (phys d').

Lemma does_ret {A} (a : A) p (Q : A -> P -> Prop) : Q a p -> does (ret a) p Q.
Proof using. intros HQ d <-. exists a, d. split; [apply runs_ret | done]. Qed.

Lemma does_bind {A B} (m : io D A) (k : A -> io D B) p (Q : B -> P -> Prop) :
  does m p (fun a p' => does (k a) p' Q) -> does (bind m k) p Q.
Proof using.
  intros Hm d Hd. destruct (Hm d Hd) as (a & d1 & R1 & Hk).
  destruct (Hk d1 eq_refl) as (b & d2 & R2 & HQ). exists b, d2. split; [| done].
  by eapply runs_bind.
Qed.

Lemma does_weaken {A} (m : io D A) p (Q Q' : A -> P -> Prop) :
  (forall a p', Q a p' -> Q' a p') -> does m p Q -> does m p Q'.
Proof using.
  intros HQ Hm d Hd. destruct (Hm d Hd) as (a & d' & R & Ha). exists a, d'. split; [done | by apply HQ].
Qed.

Lemma does_lift {A} (o : option A) a p (Q : A -> P -> Prop) :
  o = Some a -> Q a p -> does (lift_opt o) p Q.
Proof using. intros -> HQ. by apply does_ret. Qed.

(** A loop over indices, by an invariant. *)
Lemma does_for {A} (body : Z -> A -> io D A) (I : Z -> A -> P -> Prop) n start a p :
  I start a p ->
  (forall i b p', start <= i < start + Z.of_nat n -> I i b p' ->
     does (body i b) p' (I (i + 1))) ->
  does (for_io n start body a) p (I (start + Z.of_nat n)).
Proof using.
  revert start a p. induction n as [| n IH]; intros start a p H0 Hb; cbn [for_io].
  { apply does_ret. by rewrite Z.add_0_r. }
  apply does_bind. eapply does_weaken; [| apply (Hb start a p); [lia | done]].
  intros b p' Hi. replace (start + Z.of_nat (S n)) with (start + 1 + Z.of_nat n) by lia.
  apply IH; [done |]. intros i c q Hr. apply Hb. lia.
Qed.

(** A control word and its parts, checked for each address. *)
Definition frame (phy reg : Z) (rd : bool) : Z :=
  u32 (Z.lor (Z.lor (Z.shiftl phy 27) (Z.shiftl reg 22)) (if rd then Z.shiftl 1 21 else 0)).

Definition frame_ok (phy reg : Z) (rd : bool) : bool :=
  let v := frame phy reg rd in
  let s := u32 (Z.lor v (Z.shiftl 1 20)) in
  negb (Z.testbit (u32 v) 20) && (Z.land (u32 v) 0x7F =? 0) &&
  Z.testbit s 20 && (Z.land s 0x7F =? 0) && Bool.eqb (Z.testbit s 21) rd &&
  (frame_phy s =? phy) && (frame_reg s =? reg).

Lemma frame_decodes phy reg rd : 0 <= phy < 32 -> 0 <= reg < 32 -> frame_ok phy reg rd = true.
Proof using.
  intros Hp Hr.
  assert (G : forallb (fun p => forallb (fun r => frame_ok p r true && frame_ok p r false) (seqZ 0 32))
                (seqZ 0 32) = true) by (vm_compute; reflexivity).
  pose proof (forall_below 32 _ G phy Hp) as G1. pose proof (forall_below 32 _ G1 reg Hr) as G2.
  cbn beta in G2. apply andb_true_iff in G2 as [? ?]. by destruct rd.
Qed.

Definition start_word (v : Z) : Z := u32 (Z.lor v (Z.shiftl 1 20)).

(** The wait for the start bit to clear. *)
Lemma wait_runs n d : (ctl_busy (ctl d) < n)%nat -> exists d', runs (mdio_wait bar2 n) d true d' /\
  ctl d' = mkCtl (ctl_phys (ctl d)) (ctl_wdata (ctl d)) (ctl_rdata (ctl d)) 0.
Proof using.
  revert d. induction n as [| n IH]; intros d Hn; [lia |]. cbn [mdio_wait].
  destruct (ctl_polled d) as (v & d1 & E & Hb & Hc).
  assert (Ez : (Z.land (u32 v) (Z.shiftl 1 20) =? 0) = Nat.eqb (ctl_busy (ctl d)) 0).
  { pose proof (land_bit_testbit (u32 v) 20 ltac:(lia)) as G. unfold u32 in G.
    rewrite Z.mod_pow2_bits_low, Hb in G by lia. apply (f_equal negb) in G.
    by rewrite !negb_involutive in G. }
  destruct (ctl_busy (ctl d)) as [| b] eqn:Eb.
  - exists d1. split; [| by rewrite Hc]. eapply runs_bind; [by apply runs_readl |].
    rewrite Ez. apply runs_ret.
  - destruct (IH d1) as (d2 & R & Hd2); [rewrite Hc; cbn; lia |].
    exists d2. split; [| by rewrite Hd2, Hc]. eapply runs_bind; [by apply runs_readl |].
    rewrite Ez. exact R.
Qed.

(** A transfer: the two stores of the control word and the wait. *)
Lemma transfer_runs phy reg (rd : bool) d : 0 <= phy < 32 -> 0 <= reg < 32 -> exists d',
  ctl d' = (if rd then
              let '(x, p) := bus_read phy reg (ctl_phys (ctl d)) in mkCtl p (ctl_wdata (ctl d)) x 0
            else mkCtl (bus_write phy reg (ctl_wdata (ctl d)) (ctl_phys (ctl d)))
                   (ctl_wdata (ctl d)) (ctl_rdata (ctl d)) 0) /\
  forall (B : Type) (k : bool -> io D B) b d2, runs (k true) d' b d2 ->
    runs (do! writel (bar2 + MDIO_CTRL) (frame phy reg rd) in
          do! writel (bar2 + MDIO_CTRL) (Z.lor (frame phy reg rd) (Z.shiftl 1 20)) in
          let! ready := mdio_wait bar2 10 in k ready) d b d2.
Proof using.
  intros Hp Hr. pose proof (frame_decodes phy reg rd Hp Hr) as G. unfold frame_ok in G.
  fold (start_word (frame phy reg rd)) in G. rewrite !andb_true_iff, negb_true_iff, !Z.eqb_eq, eqb_true_iff in G.
  destruct G as ((((((B1 & B2) & B3) & B4) & B5) & B6) & B7).
  set (d1 := dev_write (bar2 + MDIO_CTRL) (u32 (frame phy reg rd)) d).
  set (d2 := dev_write (bar2 + MDIO_CTRL) (start_word (frame phy reg rd)) d1).
  assert (E1 : ctl d1 = ctl d) by by apply ctl_loaded.
  destruct (ctl_started (start_word (frame phy reg rd)) d1 B3 B4) as (busy & Hb & E2).
  fold d2 in E2. destruct (wait_runs 10 d2) as (d' & R & E').
  { rewrite E2. unfold ctl_transfer. rewrite B5. destruct rd; [| done]. by destruct (bus_read _ _ _). }
  exists d'. split.
  - rewrite E', E2. unfold ctl_transfer. rewrite B5, B6, B7, E1.
    destruct rd; [| done]. by destruct (bus_read phy reg (ctl_phys (ctl d))).
  - intros B k b d3 Hk. do 2 (eapply runs_bind; [apply runs_writel |]). by eapply runs_bind.
Qed.

Lemma does_read phy reg p (Q : Z -> P -> Prop) : 0 <= phy < 32 -> 0 <= reg < 32 ->
  Q (fst (bus_read phy reg p)) (snd (bus_read phy reg p)) -> does (phy_read bar2 phy reg) p Q.
Proof using.
  intros Hp Hr HQ d <-. destruct (transfer_runs phy reg true d Hp Hr) as (d1 & E1 & R).
  destruct (bus_read phy reg (ctl_phys (ctl d))) as [x p'] eqn:Eb.
  destruct (ctl_read d1) as (v & d2 & Er & Ev & E2). rewrite E1 in Ev. cbn in Ev.
  exists x, d2. split.
  - unfold phy_read, ax_mdio_read. cbn [phy_id regnum mdio_bus mt_val]. rewrite Z.land_0_l, Z.lor_0_r.
    apply R. eapply runs_bind; [apply runs_readl; exact Er |].
    assert (Ex : Z.land (u32 v) 0xFFFF = x).
    { change 0xFFFF with (2 ^ 16 - 1). rewrite land_ones_mod by lia. rewrite <- Ev. zwrap. }
    rewrite Ex. apply runs_ret.
  - unfold phys in *. rewrite E2, E1. rewrite Eb in HQ. exact HQ.
Qed.

Lemma does_write phy reg val p (Q : unit -> P -> Prop) : 0 <= phy < 32 -> 0 <= reg < 32 ->
  Q tt (bus_write phy reg (u16 val) p) -> does (phy_write bar2 phy reg val) p Q.
Proof using.
  intros Hp Hr HQ d <-. set (d0 := dev_write (bar2 + MDIO_WRITE_DATA) (u32 (u16 val)) d).
  destruct (transfer_runs phy reg false d0 Hp Hr) as (d1 & E1 & R).
  assert (E0 : ctl d0 = mkCtl (ctl_phys (ctl d)) (u16 val) (ctl_rdata (ctl d)) (ctl_busy (ctl d))).
  { unfold d0. rewrite ctl_wdata_written. f_equal. zwrap. }
  exists tt, d1. split.
  - unfold phy_write, ax_mdio_write. cbn [phy_id regnum mdio_bus mt_val]. rewrite Z.land_0_l, Z.lor_0_r.
    eapply runs_bind; [| apply runs_ret]. eapply runs_bind; [apply runs_writel |]. fold d0.
    unfold frame in R. rewrite Z.lor_0_r in R. apply R. apply runs_ret.
  - unfold phys in *. rewrite E1, E0. exact HQ.
Qed.

End Bus.

(** ** PHYs with paged registers *)

(** One PHY: register 31 is the page of the registers from 16 to 30. *)
Record phy := mkPhy { phy_page : Z; phy_regs : Z -> Z -> Z }.

Definition phy_key (ph : phy) (r : Z) : Z := if r <? 16 then 0 else phy_page ph.
Definition phy_get (r : Z) (ph : phy) : Z :=
  u16 (if r =? 31 then phy_page ph else phy_regs ph (phy_key ph r) r).
Definition phy_put (r v : Z) (ph : phy) : phy :=
  if r =? 31 then mkPhy v (phy_regs ph)
  else mkPhy (phy_page ph) (fun pg r' =>
         if (pg =? phy_key ph r) && (r' =? r) then v else phy_regs ph pg r').

Definition set_phy (i : Z) (ph : phy) (p : Z -> phy) : Z -> phy := fun j => if j =? i then ph else p j.

#[export] Instance paged_bus : MdioBus (Z -> phy) := {
  bus_read i r p := (phy_get r (p i), p);
  bus_write i r v p := set_phy i (phy_put r v (p i)) p;
  bus_read_u16 i r p := u16_range _;
}.

Section Paged.
Context {D : Type} {bar2 : Z} {dev : Device D} {mc : MdioController D (Z -> phy) bar2}.
Context (number_of_ports : Z) (ports_range : 1 <= number_of_ports <= 32).
Local Open Scope io_scope.
Local Notation "i 'is_phy'" := (1 <= i < number_of_ports) (at level 1).

(** A setting that works on one PHY is made on each of them. *)
Definition sets (m : io D unit) (f : Z -> phy -> phy) : Prop :=
  forall p, does m p (fun _ p' => forall j, p' j = f j (p j)).

Lemma sets_phys body (f : phy -> phy) :
  (forall i, i is_phy -> sets (body i) (fun j ph => if j =? i then f ph else ph)) ->
  sets (for_phys number_of_ports body) (fun j ph => if decide (j is_phy) then f ph else ph).
Proof using ports_range.
  intros Hb p. unfold for_phys. eapply does_weaken;
    [| apply (does_for (mc := mc) (fun i _ => body i) (fun i _ p' => forall j, p' j =
         if decide (1 <= j < i) then f (p j) else p j))].
  - cbn beta. intros u p' Hp' j. rewrite (Hp' j). apply decide_ext. lia.
  - intros j. by rewrite decide_False by lia.
  - intros i [] p' Hi Hp'. eapply does_weaken; [| apply (Hb i); lia].
    intros u2 p2 E2 j. rewrite (E2 j), (Hp' j). destruct (Z.eqb_spec j i) as [-> | Hne].
    + by rewrite decide_False, decide_True by lia.
    + apply decide_ext. lia.
Qed.

Lemma sets_seq (m1 m2 : io D unit) f1 f2 : sets m1 f1 -> sets m2 f2 ->
  sets (do! m1 in m2) (fun j ph => f2 j (f1 j ph)).
Proof using.
  intros H1 H2 p. apply does_bind. eapply does_weaken; [| apply H1]. intros u1 p1 E1.
  eapply does_weaken; [| apply H2]. intros u2 p2 E2 j. by rewrite E2, E1.
Qed.

Lemma set_phy_eq i ph p : set_phy i ph p i = ph.
Proof using. unfold set_phy. by rewrite Z.eqb_refl. Qed.

Lemma does_phy_read i r p (Q : Z -> (Z -> phy) -> Prop) : i is_phy -> 0 <= r < 32 ->
  Q (phy_get r (p i)) p -> does (phy_read bar2 i r) p Q.
Proof using ports_range. intros Hi Hr HQ. apply does_read; [lia | done | exact HQ]. Qed.

Lemma does_phy_write i r v p (Q : unit -> (Z -> phy) -> Prop) : i is_phy -> 0 <= r < 32 ->
  Q tt (set_phy i (phy_put r (u16 v) (p i)) p) -> does (phy_write bar2 i r v) p Q.
Proof using ports_range. intros Hi Hr HQ. apply does_write; [lia | done | exact HQ]. Qed.

(** The updates of one PHY, as a list of registers and values. *)
Definition puts (l : list (Z * Z)) (ph : phy) : phy := foldl (fun ph '(r, v) => phy_put r (u16 v) ph) ph l.

Lemma set_phy_sets i (f : phy -> phy) p0 p' : (forall j, p' j = set_phy i (f (p0 i)) p0 j) ->
  forall j, p' j = if j =? i then f (p0 j) else p0 j.
Proof using. intros E j. rewrite E. unfold set_phy. by destruct (Z.eqb_spec j i) as [-> |]. Qed.

Lemma set_phy_twice i a b p j : set_phy i a (set_phy i b p) j = set_phy i a p j.
Proof using. unfold set_phy. by destruct (j =? i). Qed.

Definition greeneth_phy (enable : bool) (ph : phy) : phy :=
  puts [(0x1F, 0xa43); (27, 0x8011); (28, if enable then 0xd73f else 0x573f); (0x1F, 0)] ph.

(** A bit field of a paged register changed, and the page put back. *)
Definition field_phy (page r : Z) (g : Z -> Z) (ph : phy) : phy :=
  let ph1 := puts [(0x1F, page)] ph in puts [(r, g (phy_get r ph1)); (0x1F, 0)] ph1.

Ltac phy_steps := repeat (first
  [ lazymatch goal with |- does (bind _ _) _ _ => apply does_bind end
  | lazymatch goal with |- does (phy_read _ _ _) _ _ => apply does_phy_read; [done | lia |] end
  | lazymatch goal with |- does (phy_write _ _ _ _) _ _ => apply does_phy_write; [done | lia |] end
  | progress cbv beta ]).

Lemma sets_greeneth enable : sets (ax_phy_greeneth bar2 number_of_ports enable)
  (fun j ph => if decide (j is_phy) then greeneth_phy enable ph else ph).
Proof using ports_range.
  apply sets_phys. intros i Hi p. phy_steps. apply set_phy_sets. intros j.
  rewrite !set_phy_eq, !set_phy_twice. done.
Qed.

Lemma sets_EEE enable : sets (ax_phy_EEE bar2 number_of_ports enable)
  (fun j ph => if decide (j is_phy) then
     field_phy 0xa43 0x19 (fun reg => if enable then Z.lor reg (Z.shiftl 1 5)
                                      else Z.land reg (Z.lnot (Z.shiftl 1 5))) ph else ph).
Proof using ports_range.
  apply sets_phys. intros i Hi p. phy_steps. apply set_phy_sets. intros j.
  rewrite !set_phy_eq, !set_phy_twice. done.
Qed.

Lemma sets_PTP enable : sets (ax_phy_PTP bar2 number_of_ports enable)
  (fun j ph => if decide (j is_phy) then
     field_phy 0xe40 0x10 (fun reg => if enable then Z.lor reg 0x3F else Z.land reg (Z.lnot 0x3F)) ph
   else ph).
Proof using ports_range.
  apply sets_phys. intros i Hi p. phy_steps. apply set_phy_sets. intros j.
  rewrite !set_phy_eq, !set_phy_twice. done.
Qed.

(** What the settings leave in a PHY. *)
Record features_off (ph ph' : phy) : Prop := {
  off_page : phy_page ph' = 0;
  off_green : phy_regs ph' 0xa43 27 = 0x8011 /\ phy_regs ph' 0xa43 28 = 0x573f;
  off_eee : phy_regs ph' 0xa43 0x19 = Z.clearbit (u16 (phy_regs ph 0xa43 0x19)) 5;
  off_ptp : phy_regs ph' 0xe40 0x10 = Z.shiftl (Z.shiftr (u16 (phy_regs ph 0xe40 0x10)) 6) 6;
  off_rest page r : (page, r) <> (0xa43, 27) -> (page, r) <> (0xa43, 28) -> (page, r) <> (0xa43, 0x19) ->
    (page, r) <> (0xe40, 0x10) -> phy_regs ph' page r = phy_regs ph page r;
}.

Lemma put_paged page r v ph : 16 <= r < 31 -> phy_put r v (phy_put 31 page ph) =
  mkPhy page (fun pg r' => if (pg =? page) && (r' =? r) then v else phy_regs ph pg r').
Proof using.
  intros Hr. unfold phy_put, phy_key. cbn [Z.eqb Pos.eqb phy_page phy_regs].
  by rewrite (proj2 (Z.eqb_neq r 31)), (proj2 (Z.ltb_ge r 16)) by lia.
Qed.

Lemma get_paged page r ph : 16 <= r < 31 -> phy_get r (phy_put 31 page ph) = u16 (phy_regs ph page r).
Proof using.
  intros Hr. unfold phy_get, phy_put, phy_key. cbn [Z.eqb Pos.eqb phy_page phy_regs].
  by rewrite (proj2 (Z.eqb_neq r 31)), (proj2 (Z.ltb_ge r 16)) by lia.
Qed.

(** The fields named, and nothing else. *)
Lemma field_phy_eq page r g ph : 16 <= r < 31 -> is_u16 page ->
  field_phy page r g ph =
  mkPhy 0 (fun pg r' => if (pg =? page) && (r' =? r) then u16 (g (u16 (phy_regs ph page r)))
                        else phy_regs ph pg r').
Proof using.
  intros Hr Hp. unfold field_phy, puts. cbn [foldl]. rewrite (u16_small page Hp).
  change 0x1F with 31. by rewrite get_paged, put_paged by done.
Qed.

Lemma land_u16 x m : is_u16 x -> u16 (Z.land x m) = Z.land x m.
Proof using.
  intros Hx. rewrite <- (u16_small x Hx) at 2. unfold u16.
  rewrite <- !(Z.land_ones _ 16) by lia. rewrite <- !Z.land_assoc. f_equal. apply Z.land_comm.
Qed.

Lemma other_key (page r a b : Z) : (page, r) <> (a, b) -> (page =? a) && (r =? b) = false.
Proof using.
  intros Hne. destruct (Z.eqb_spec page a) as [-> |], (Z.eqb_spec r b) as [-> |]; done.
Qed.

(** Whatever the PHYs hold, the settings made when the device is probed
    turn the energy-saving modes and the PTP function of every PHY off: on a
    controller that works as documented the routines end, after each of them
    the page register is back at zero, the fields have the values for "off",
    and no other register of any PHY has changed. *)
Theorem phy_features_off d : exists d',
  runs (do! ax_phy_greeneth bar2 number_of_ports false in
        do! ax_phy_EEE bar2 number_of_ports false in
        ax_phy_PTP bar2 number_of_ports false) d tt d' /\
  forall j, if decide (j is_phy) then features_off (phys d j) (phys d' j) else phys d' j = phys d j.
Proof using ports_range.
  destruct (sets_seq _ _ _ _ (sets_greeneth false)
    (sets_seq _ _ _ _ (sets_EEE false) (sets_PTP false)) (phys d) d eq_refl) as ([] & d' & R & E).
  exists d'. split; [exact R |]. intros j. rewrite (E j). clear E R. cbv beta.
  destruct (decide (j is_phy)) as [Hj |]; [| done]. generalize (phys d j). intros ph.
  rewrite field_phy_eq, field_phy_eq by (unfold is_u16; lia).
  unfold greeneth_phy, puts. cbn [foldl]. rewrite !(u16_small 0xa43), !(u16_small 0x8011), !(u16_small 0x573f) by done.
  change 0x1F with 31. rewrite put_paged by lia. split.
  - done.
  - by split.
  - cbn -[Z.land Z.lnot Z.shiftl]. rewrite land_u16 by apply u16_range. unfold Z.clearbit.
    by rewrite Z.ldiff_land.
  - cbn -[Z.land Z.lnot Z.shiftl Z.shiftr]. rewrite land_u16 by apply u16_range.
    rewrite <- (Z.ldiff_ones_r _ 6) by lia. by rewrite Z.ldiff_land.
  - intros page r N1 N2 N3 N4. cbn -[Z.land Z.lnot Z.shiftl].
    by rewrite !other_key by done.
Qed.

(** ** What the timer finds *)

(** The modes from the best down: speed, duplex, and the bits with which the
    link partner and the PHY itself advertise them. *)
Definition modes : list (Z * Z * (Z * Z) * (Z * Z)) :=
  [(SPEED_1000, DUPLEX_FULL, (MII_STAT1000, 11), (MII_CTRL1000, 9));
   (SPEED_1000, DUPLEX_HALF, (MII_STAT1000, 10), (MII_CTRL1000, 8));
   (SPEED_100, DUPLEX_FULL, (MII_LPA, 8), (MII_ADVERTISE, 8));
   (SPEED_100, DUPLEX_HALF, (MII_LPA, 7), (MII_ADVERTISE, 7));
   (SPEED_10, DUPLEX_FULL, (MII_LPA, 6), (MII_ADVERTISE, 6))].

Definition bit_of (ph : phy) (b : Z * Z) : bool := Z.testbit (phy_get (fst b) ph) (snd b).

(** The best mode both sides advertise, half duplex at 10 Mb/s failing all. *)
Definition best_mode (ph : phy) : Z * Z :=
  match List.find (fun m => bit_of ph (snd (fst m)) && bit_of ph (snd m)) modes with
  | Some m => fst (fst m)
  | None => (SPEED_10, DUPLEX_HALF)
  end.

Definition link_up (ph : phy) : bool := bit_of ph (MII_BMSR, 2).

(** The status of a port after a round, from the one before it. *)
Definition next_status (ph : phy) (old : ax_ethphy_status) : ax_ethphy_status :=
  if link_up ph then
    if ps_link old =? 1 then old
    else
      let '(speed, duplex) := best_mode ph in
      let pause (b : Z) : Z := if (duplex =? DUPLEX_FULL) && bit_of ph (MII_LPA, b) then 1 else 0 in
      mkPhyStatus speed duplex (pause 10) (pause 11) 1
  else if ps_link old =? 1 then no_phy_status else old.

Lemma has_bit x k : 0 <= k -> has_bits x (2 ^ k) = Z.testbit x k.
Proof using. intros Hk. unfold has_bits. rewrite <- Z.shiftl_1_l. by apply land_bit_testbit. Qed.

Lemma has_two x j k : 0 <= j -> 0 <= k -> has_bits x (Z.lor (2 ^ j) (2 ^ k)) = Z.testbit x j || Z.testbit x k.
Proof using.
  intros Hj Hk. unfold has_bits. rewrite Z.land_lor_distr_r.
  rewrite <- (has_bit x j), <- (has_bit x k) by done. unfold has_bits.
  destruct (Z.eqb_spec (Z.land x (2 ^ j)) 0) as [-> | Hj0].
  - by rewrite Z.lor_0_l.
  - cbn [negb orb]. apply negb_true_iff, Z.eqb_neq. intros [E _]%Z.lor_eq_0_iff. done.
Qed.

Lemma phy_mode_best ph :
  phy_mode (Z.land (phy_get MII_STAT1000 ph) (Z.shiftl (phy_get MII_CTRL1000 ph) 2))
    (Z.land (phy_get MII_LPA ph) (phy_get MII_ADVERTISE ph)) (phy_get MII_LPA ph) =
  (let '(speed, duplex) := best_mode ph in
   let pause (b : Z) : Z := if (duplex =? DUPLEX_FULL) && bit_of ph (MII_LPA, b) then 1 else 0 in
   mkPhyStatus speed duplex (pause 10) (pause 11) 1).
Proof using.
  unfold phy_mode. unfold LPA_1000FULL, LPA_1000HALF, LPA_100FULL, LPA_100HALF, LPA_10FULL, LPA_PAUSE_CAP,
    LPA_PAUSE_ASYM.
  change 0x0800 with (2 ^ 11). change 0x0400 with (2 ^ 10). change 0x0100 with (2 ^ 8).
  change 0x0080 with (2 ^ 7). change 0x0040 with (2 ^ 6).
  rewrite !has_two, !has_bit, !Z.land_spec, !Z.shiftl_spec by lia.
  change (11 - 2) with 9. change (10 - 2) with 8.
  unfold best_mode, modes, bit_of. cbn [List.find fst snd].
  destruct (Z.testbit (phy_get MII_STAT1000 ph) 11 && Z.testbit (phy_get MII_CTRL1000 ph) 9); [done |].
  destruct (Z.testbit (phy_get MII_STAT1000 ph) 10 && Z.testbit (phy_get MII_CTRL1000 ph) 8); [done |].
  destruct (Z.testbit (phy_get MII_LPA ph) 8 && Z.testbit (phy_get MII_ADVERTISE ph) 8); [done |].
  destruct (Z.testbit (phy_get MII_LPA ph) 7 && Z.testbit (phy_get MII_ADVERTISE ph) 7); [done |].
  by destruct (Z.testbit (phy_get MII_LPA ph) 6 && Z.testbit (phy_get MII_ADVERTISE ph) 6).
Qed.

Lemma does_read_or i r p skip k (Q : list ax_ethphy_status -> (Z -> phy) -> Prop) :
  i is_phy -> 0 <= r < 32 -> does (k (phy_get r (p i))) p Q -> does (read_or bar2 i r skip k) p Q.
Proof using ports_range.
  intros Hi Hr Hk. apply does_bind, does_phy_read; [done | done |].
  by rewrite (proj2 (Z.ltb_ge _ _)) by apply u16_range.
Qed.

Lemma setz_ok {A} (l : list A) j old x : getz l j = Some old -> exists l', setz l j x = Some l' /\
  length l' = length l /\ getz l' j = Some x /\ forall k, k <> j -> getz l' k = getz l k.
Proof using.
  intros Hold. eexists. split; [apply setz_in; by eapply getz_Some_range |].
  assert (E := setz_in l j x (getz_Some_range _ _ _ Hold)). split_and!.
  - by eapply setz_length.
  - by eapply getz_setz_eq.
  - intros k Hk. by eapply getz_setz_ne.
Qed.

Lemma does_timer_port i l p old : i is_phy -> getz l (i - 1) = Some old ->
  does (phy_timer_port bar2 i l) p (fun l' p' => p' = p /\ length l' = length l /\
    getz l' (i - 1) = Some (next_status (p i) old) /\
    forall j, j <> i - 1 -> getz l' j = getz l j).
Proof using ports_range.
  intros Hi Hold. unfold phy_timer_port.
  apply does_read_or; [done | done |]. apply does_bind. eapply does_lift; [exact Hold |].
  unfold next_status, link_up, bit_of. cbn [fst snd].
  change 0x4 with (2 ^ 2). rewrite has_bit by lia.
  destruct (Z.testbit (phy_get MII_BMSR (p i)) 2); destruct (Z.eqb_spec (ps_link old) 1) as [El | Hl].
  - by apply does_ret.
  - destruct (setz_ok l (i - 1) old (set_ps_link 1 old) Hold) as (l1 & E1 & L1 & G1 & O1).
    apply does_bind. eapply does_lift; [exact E1 |].
    do 4 (apply does_read_or; [done | done |]). rewrite phy_mode_best. cbv zeta.
    destruct (best_mode (p i)) as [speed duplex]. fold (bit_of (p i) (MII_LPA, 10)).
    fold (bit_of (p i) (MII_LPA, 11)). set (st := mkPhyStatus _ _ _ _ _).
    destruct (decide (st = set_ps_link 1 old)) as [Est | _].
    + apply does_ret. rewrite Est. by split_and!.
    + destruct (setz_ok l1 (i - 1) _ (set_ps_link 1 st) G1) as (l2 & E2 & L2 & G2 & O2).
      apply does_bind. eapply does_lift; [exact E2 |]. apply does_bind, does_ret, does_ret.
      split_and!; [done | congruence | done |]. intros j Hj. by rewrite O2, O1.
  - destruct (setz_ok l (i - 1) old no_phy_status Hold) as (l1 & E1 & L1 & G1 & O1).
    eapply does_lift; [exact E1 |]. by split_and!.
  - by apply does_ret.
Qed.

(** The ports below [i] have been looked at. *)
Definition rounds_done (l : list ax_ethphy_status) (p : Z -> phy) (i : Z)
    (l' : list ax_ethphy_status) (p' : Z -> phy) : Prop :=
  p' = p /\ length l' = length l /\
  forall j old, getz l (j - 1) = Some old ->
    getz l' (j - 1) = Some (if decide (1 <= j < i) then next_status (p j) old else old).


Lemma next_status_link ph old : (ps_link old = 0 \/ ps_link old = 1) ->
  ps_link (next_status ph old) = if link_up ph then 1 else 0.
Proof using.
  intros Ho. unfold next_status. destruct (link_up ph); destruct (Z.eqb_spec (ps_link old) 1) as [E | E]; try done.
  - by destruct (best_mode ph).
  - by destruct Ho.
Qed.

End Paged.

(** ** Routines that end whatever the device does *)

Section Ends.
Context {D : Type} {dev : Device D}.
Context (bar2 number_of_ports : Z).
Local Open Scope io_scope.

Definition ends {A} (m : io D A) (R : A -> Prop) : Prop := forall d, exists a d', runs m d a d' /\ R a.

Lemma ends_ret {A} (a : A) (R : A -> Prop) : R a -> ends (ret a) R.
Proof using. intros HR d. exists a, d. split; [apply runs_ret | done]. Qed.

Lemma ends_bind {A B} (m : io D A) (k : A -> io D B) (R : A -> Prop) (R' : B -> Prop) :
  ends m R -> (forall a, R a -> ends (k a) R') -> ends (bind m k) R'.
Proof using.
  intros Hm Hk d. destruct (Hm d) as (a & d1 & R1 & Ha). destruct (Hk a Ha d1) as (b & d2 & R2 & Hb).
  exists b, d2. split; [by eapply runs_bind | done].
Qed.

Lemma ends_weaken {A} (m : io D A) (R R' : A -> Prop) : (forall a, R a -> R' a) -> ends m R -> ends m R'.
Proof using. intros HR Hm d. destruct (Hm d) as (a & d' & Ha & Hr). exists a, d'. split; [done | by apply HR]. Qed.

Lemma ends_readl a : ends (readl a) is_u32.
Proof using.
  intros d. destruct (dev_read a d) as [v d'] eqn:E. exists (u32 v), d'.
  split; [by apply runs_readl | apply u32_range].
Qed.

Lemma ends_writel a v : ends (writel a v) (fun _ => True).
Proof using. intros d. eexists _, _. split; [apply runs_writel | done]. Qed.

Lemma ends_for {A} (body : Z -> A -> io D A) (I : Z -> A -> Prop) n start a : I start a ->
  (forall i b, start <= i < start + Z.of_nat n -> I i b -> ends (body i b) (I (i + 1))) ->
  ends (for_io n start body a) (I (start + Z.of_nat n)).
Proof using.
  revert start a. induction n as [| n IH]; intros start a H0 Hb; cbn [for_io].
  { apply ends_ret. by rewrite Z.add_0_r. }
  eapply ends_bind; [apply (Hb start a); [lia | done] |]. intros b Hi.
  replace (start + Z.of_nat (S n)) with (start + 1 + Z.of_nat n) by lia.
  apply IH; [done |]. intros i c Hr. apply Hb. lia.
Qed.

Lemma ends_wait n : ends (mdio_wait bar2 n) (fun _ => True).
Proof using.
  induction n as [| n IH]; cbn [mdio_wait]; [by apply ends_ret |].
  eapply ends_bind; [apply ends_readl |]. intros c _. destruct (_ =? 0); [by apply ends_ret | exact IH].
Qed.

Lemma land_ffff v : is_u16 (Z.land v 0xFFFF).
Proof using. change 0xFFFF with (2 ^ 16 - 1). rewrite land_ones_mod by lia. apply u16_range. Qed.

Lemma ends_phy_read i r : ends (phy_read bar2 i r) is_u16.
Proof using.
  unfold phy_read, ax_mdio_read. do 2 (eapply ends_bind; [apply ends_writel |]; intros _ _).
  eapply ends_bind; [apply ends_wait |]. intros ready _. destruct ready; [| apply ends_ret, land_ffff].
  eapply ends_bind; [apply ends_readl |]. intros v _. apply ends_ret, land_ffff.
Qed.

Lemma ends_phy_write i r v : ends (phy_write bar2 i r v) (fun _ => True).
Proof using.
  unfold phy_write, ax_mdio_write. eapply ends_bind; [| intros _ _; by apply ends_ret].
  do 3 (eapply ends_bind; [apply ends_writel |]; intros _ _).
  eapply ends_bind; [apply ends_wait |]. intros _ _. by apply (ends_ret 0 (fun _ => True)).
Qed.

(** The sampling loop: it reads at least once and at most until five reads have
    been counted. *)
Lemma ends_poll fuel i m r : 0 <= m <= r -> r < 255 -> 5 - r <= Z.of_nat fuel -> (0 < fuel)%nat ->
  ends (rgmii_poll bar2 fuel i m r) (fun '(m', r') => 0 <= m' <= r' /\ r + 1 <= r' <= Z.max 5 (r + 1)).
Proof using.
  revert m r. induction fuel as [| fuel IH]; intros m r Hm Hr Hf H0; [lia |]. cbn [rgmii_poll].
  eapply ends_bind; [apply ends_phy_read |]. intros bmsr _. cbv zeta.
  rewrite (u8_small (r + 1)) by (unfold is_u8; lia). rewrite (u8_small (m + 1)) by (unfold is_u8; lia).
  set (m' := if link_done bmsr then m + 1 else m).
  assert (Hm' : 0 <= m' <= r + 1) by (unfold m'; destruct (link_done bmsr); lia).
  destruct (Z.leb_spec 3 m') as [H3 | H3]; cbn [orb]; [apply ends_ret; lia |].
  destruct (Z.leb_spec 5 (r + 1)) as [H5 | H5]; [apply ends_ret; lia |].
  eapply ends_weaken; [| apply (IH m' (r + 1)); lia]. intros [m2 r2]. lia.
Qed.

Lemma ends_tries fuel tries i m r : 0 <= m <= r -> Z.max 4 r + Z.of_nat tries < 256 -> (5 <= fuel)%nat ->
  ends (rgmii_tries bar2 fuel tries i m r)
    (fun '(m', r') => 0 <= m' <= r' /\ r' <= Z.max 4 r + Z.of_nat tries).
Proof using.
  revert m r. induction tries as [| tries IH]; intros m r Hm Hr Hf; cbn [rgmii_tries].
  { apply ends_ret. lia. }
  eapply ends_bind; [apply ends_phy_write |]. intros _ _.
  eapply ends_bind; [apply (ends_poll fuel i m r); lia |]. intros [m2 r2] [H1 H2]. cbn [fst snd].
  destruct (m2 =? 3); [apply ends_ret; lia |].
  eapply ends_weaken; [| apply (IH m2 r2); lia]. intros [m3 r3]. lia.
Qed.

(** The wait for the links at probe time ends on every device, even one
    whose links never come up or whose MDIO controller never answers, for any
    number of ports up to 84: the status of a port is sampled at most five times
    in a row before the wait gives up, so that fuel five per wait suffices and
    the eight-bit retry counter does not wrap.  What is reported as failed is
    the number of a port. *)
Theorem init_rgmii_ends d : 1 <= number_of_ports <= 84 -> exists failed d',
  runs (ax_init_rgmii bar2 number_of_ports 5) d failed d' /\
  Forall (fun j => 0 <= j < number_of_ports - 1) failed.
Proof using.
  intros Hn.
  pose (I := fun (i : Z) (s : Z * Z * list Z) => let '(m, r, failed) := s in
    0 <= m <= r /\ r <= 4 + 3 * (i - 1) /\ Forall (fun j => 0 <= j < number_of_ports - 1) failed).
  assert (G : ends (ax_init_rgmii bar2 number_of_ports 5)
                (Forall (fun j => 0 <= j < number_of_ports - 1))); [| exact (G d)].
  unfold ax_init_rgmii. eapply ends_bind; [apply (ends_for _ I) |].
  - split_and!; [lia | lia | lia | constructor].
  - intros i [[m r] failed] Hi (H1 & H2 & H3).
    eapply ends_bind; [apply ends_phy_read |]. intros bmsr _. destruct (link_done bmsr).
    { apply ends_ret. split_and!; [lia | lia | lia | done]. }
    eapply ends_bind; [apply (ends_tries 5 3 i m r); lia |]. intros [m2 r2] [H4 H5].
    apply ends_ret. split_and!; [lia | lia | lia |]. destruct (_ && _); [| done].
    apply Forall_app. split; [done |]. constructor; [lia | constructor].
  - intros [[m r] failed] (_ & _ & H3). by apply ends_ret.
Qed.

End Ends.

(** ** A simulated controller *)

Module MdioDemo.
Local Open Scope io_scope.

(** Every transfer takes three looks. *)
Record sim := mkSim { sim_ctl : mdio_ctl (Z -> phy) }.

#[export] Instance sim_device : Device sim := {
  dev_read a d := let c := sim_ctl d in
    if a =? MDIO_CTRL then
      (if Nat.eqb (ctl_busy c) 0 then 0 else 2 ^ 20,
       mkSim (mkCtl (ctl_phys c) (ctl_wdata c) (ctl_rdata c) (pred (ctl_busy c))))
    else if a =? MDIO_READ_DATA then (u16 (ctl_rdata c), d)
    else (0, d);
  dev_write a v d := let c := sim_ctl d in
    if a =? MDIO_CTRL then
      if Z.testbit v 20 then mkSim (ctl_transfer 3 v c) else d
    else if a =? MDIO_WRITE_DATA then
      mkSim (mkCtl (ctl_phys c) (u16 v) (ctl_rdata c) (ctl_busy c))
    else d;
}.

(** The result register holds sixteen bits. *)
Definition sim_view (d : sim) : mdio_ctl (Z -> phy) :=
  mkCtl (ctl_phys (sim_ctl d)) (ctl_wdata (sim_ctl d)) (u16 (ctl_rdata (sim_ctl d))) (ctl_busy (sim_ctl d)).

#[export] Instance sim_controller : MdioController sim (Z -> phy) 0.
Proof.
  refine {| ctl := sim_view |}.
  - done.
  - intros v d Hv _. unfold dev_write, sim_device. cbn -[Z.testbit]. by rewrite Hv.
  - intros v d Hv _. exists 3%nat. split; [lia |]. unfold dev_write, sim_device. cbn -[Z.testbit]. rewrite Hv.
    unfold sim_view, ctl_transfer. cbn -[Z.testbit]. destruct (Z.testbit v 21); [| done].
    cbn. f_equal. apply u16_small, u16_range.
  - intros d. eexists _, _. split; [reflexivity |]. cbn. by destruct (ctl_busy (sim_ctl d)).
  - intros d. eexists _, _. split; [reflexivity |]. split; [| done]. apply u16_small, u16_range.
Defined.

(** PHYs 1 and 2 at a gigabit and at 100 Mb/s half duplex, the others down. *)
Definition demo_phys (i : Z) : phy := mkPhy 0 (fun page r =>
  if r =? 25 then 0xffff else
  if i =? 1 then (if r =? 1 then 0x24 else if r =? 9 then 0x200 else if r =? 10 then 0x800
                  else if r =? 5 then 0x400 else 0)
  else if i =? 2 then (if r =? 1 then 0x24 else if (r =? 4) || (r =? 5) then 0x80 else 0)
  else 0).

Definition demo_dev : sim := mkSim (mkCtl demo_phys 0 0 0).

Lemma phy_features_off_witness : exists d',
  runs (do! ax_phy_greeneth 0 5 false in do! ax_phy_EEE 0 5 false in ax_phy_PTP 0 5 false) demo_dev tt d' /\
  phy_regs (phys d' 4) 0xa43 25 = 0xffdf /\ phys d' 5 = demo_phys 5.
Proof.
  destruct (phy_features_off (bar2 := 0) 5 ltac:(lia) demo_dev) as (d' & R & E). exists d'.
  split; [exact R |]. split.
  - pose proof (E 4) as E4. rewrite decide_True in E4 by lia. destruct E4 as [_ _ E4 _ _]. rewrite E4. reflexivity.
  - pose proof (E 5) as E5. by rewrite decide_False in E5 by lia.
Defined.


Lemma init_rgmii_witness : exists failed d',
  runs (ax_init_rgmii 0 5 5) demo_dev failed d' /\ Forall (fun j => 0 <= j < 4) failed.
Proof. apply (init_rgmii_ends 0 5 demo_dev). lia. Defined.

(** A device that answers every read of the data register from a script. *)
#[local] Instance scripted : Device (list Z) := {
  dev_read a d := if a =? MDIO_READ_DATA then
                    match d with v :: l => (v, l) | [] => (0, []) end else (0, d);
  dev_write _ _ d := d;
}.

(** The counters are not reset between ports.  The link of port 0 comes up after
    its negotiation is restarted; that of port 1 never does, and is not
    reported, while alone it is. *)
Lemma rgmii_counters_shared :
  (exists d l, ax_init_rgmii 0 3 5 [0; 0x24; 0x24; 0x24; 0; 0; 0; 0; 0; 0; 0; 0] = (Ok [], d, l)) /\
  (exists d l, ax_init_rgmii 0 2 5 [0; 0; 0; 0; 0; 0; 0; 0] = (Ok [0], d, l)).
Proof. split; eexists _, _; vm_compute; reflexivity. Qed.

End MdioDemo.
