(* ===== verification/NicCtl.v ===== *)
(** * Control of the network device (xdma_mod.c)

    The MAC address from the EEPROM and in the registers, the multicast filter,
    and the ioctls: raw register access and its dispatch table, time stamping
    configuration, and the time stamps of synchronisation messages. *)

From Stdlib Require Import ZArith Lia Bool.
From S2P Require Import Prelude.
From S2P Require Import Mmio.
From S2P Require Import TsQueue.
From S2P Require Import TsCapture.
From S2P Require Import NicMdio.

Definition I2C_REG_OFFSET : Z := 0x0300.
Definition I2C_MASTER_CTRL : Z := I2C_REG_OFFSET + 0x0000.
Definition I2C_READ_DATA_LO : Z := I2C_REG_OFFSET + 0x000C.
Definition I2C_READ_DATA_HI : Z := I2C_REG_OFFSET + 0x0010.
Definition DSA_OFFSET : Z := 0x0C00.
Definition RX_CTRL : Z := 0x0004.
Definition NODE_ID_0 : Z := 0x0008.
Definition NODE_ID_1 : Z := 0x000C.
Definition MULTI_FILTER_ARR_0 : Z := 0x0010.
Definition MULTI_FILTER_ARR_1 : Z := 0x0014.
Definition AX_RX_CTL_PRO : Z := Z.shiftl 1 0.
Definition AX_RX_CTL_AB : Z := Z.shiftl 1 1.
Definition AX_RX_CTL_AM : Z := Z.shiftl 1 2.
Definition AX_RX_CTL_AMALL : Z := Z.shiftl 1 3.
Definition AX_MCAST_FILTER_SIZE : Z := 8.
Definition AX_MAX_MCAST : Z := 64.
Definition VENDOR_OUI_0 : Z := 0x00.
Definition VENDOR_OUI_1 : Z := 0x0e.
Definition VENDOR_OUI_2 : Z := 0xc6.
Definition CHECK_MAC_COUNT : Z := 2.
Definition IFF_PROMISC : Z := 0x100.
Definition IFF_ALLMULTI : Z := 0x200.

(** The kernel's helpers on addresses. *)
Class AddrApi := {
  eth_random_addr : list Z;                     (* six bytes *)
  is_valid_ether_addr : list Z -> bool;
  ether_crc : list Z -> Z;                      (* u32 *)
  random_length : length eth_random_addr = 6%nat /\ Forall is_u8 eth_random_addr;
  is_valid_iff a : length a = 6%nat -> Forall is_u8 a ->
    is_valid_ether_addr a = true <->
    (exists o, head a = Some o /\ Z.odd o = false) /\ a <> replicate 6 0;
  ether_crc_u32 a : is_u32 (ether_crc a);
}.

(** The four bytes of a 32-bit word in memory. *)
Definition le_bytes (v : Z) : list Z :=
  [u8 v; u8 (Z.shiftr v 8); u8 (Z.shiftr v 16); u8 (Z.shiftr v 24)].
Definition le_word (b0 b1 b2 b3 : Z) : Z := b0 + b1 * 2 ^ 8 + b2 * 2 ^ 16 + b3 * 2 ^ 24.

(** ** Ioctl data *)

(** [IOCTL] with its union: the members of [AX_MEM_REG].  [AX_BAR_BASE] is its
    first eight bytes and the next four, the low half of [value]. *)
Record IOCTL := mkIoctl {
  Gid : list Z;
  Opcode : Z;                                   (* u64 *)
  Status : Z;
  i_offset : Z;                                 (* u64 *)
  i_value : Z;                                  (* u64 *)
  i_bar : Z;                                    (* u32 *)
}.

Definition set_Gid (g : list Z) (c : IOCTL) : IOCTL :=
  mkIoctl g (Opcode c) (Status c) (i_offset c) (i_value c) (i_bar c).
Definition set_Status (s : Z) (c : IOCTL) : IOCTL :=
  mkIoctl (Gid c) (Opcode c) s (i_offset c) (i_value c) (i_bar c).
Definition set_value (v : Z) (c : IOCTL) : IOCTL :=
  mkIoctl (Gid c) (Opcode c) (Status c) (i_offset c) v (i_bar c).
Definition base_bar (c : IOCTL) : Z := u32 (i_value c).
Definition set_bar_base_addr (a : Z) (c : IOCTL) : IOCTL :=
  mkIoctl (Gid c) (Opcode c) (Status c) (u64 a) (i_value c) (i_bar c).

Definition ASIX_GID : list Z := [0x41; 0x53; 0x49; 0x58; 0x58; 0x49; 0x53; 0x41].
Definition AX_STATUS_FAILURE : Z := -1.
Definition AX_STATUS_NOT_SUPPORT : Z := -2.

(** The state the handlers touch: [axswitch], the table of domain numbers, the
    addresses of the ports. *)
Record ax_ctl := mkAxCtl {
  axswitch : ax_switch;
  domain_number_map : list Z;                   (* int [MAX_NUM_DOMAINS + 1] *)
  dsa_mac : list (list Z);                      (* unsigned char [4][8] *)
}.

Definition set_dsa_mac (m : list (list Z)) (a : ax_ctl) : ax_ctl :=
  mkAxCtl (axswitch a) (domain_number_map a) m.
Definition set_domain_number_map (t : list Z) (a : ax_ctl) : ax_ctl :=
  mkAxCtl (axswitch a) t (dsa_mac a).
Definition set_ptp_mode (m : Z) (a : ax_ctl) : ax_ctl :=
  let s := axswitch a in
  mkAxCtl (mkSwitch (rx_queue s) (tx_queue s) (number_of_ports s) (number_of_domains s) m)
    (domain_number_map a) (dsa_mac a).

Record ioctl_timestamp_data := mkTsData {
  td_port_id : Z;                               (* u8 *)
  td_msg_type : Z;                              (* u8 *)
  td_seq_id : Z;                                (* u16 *)
  td_domain_number : Z;                         (* u8 *)
  td_timestamp : Z;                             (* u64 *)
}.

Record hwtstamp_config := mkHwtstamp { hc_flags : Z; hc_tx_type : Z; hc_rx_filter : Z }.
Definition HWTSTAMP_TX_OFF : Z := 0.
Definition HWTSTAMP_TX_ON : Z := 1.
Definition HWTSTAMP_FILTER_NONE : Z := 0.
Definition HWTSTAMP_FILTER_ALL : Z := 1.
Definition HWTSTAMP_FILTER_SOME : Z := 2.
Definition HWTSTAMP_FILTER_PTP_V2_DELAY_REQ : Z := 14.

Section Ctl.
Context {D : Type} `{Device D} `{AddrApi}.
(** [xdev->bar] and [xdev->phy_bar]. *)
Context (bar phy_bar : Z -> Z).
Local Open Scope io_scope.

(** ** The MAC address *)

(** [_ax_i2c_read]: the eight bytes of the result. *)
Definition _ax_i2c_read (length_ i2c_bus dev_addr buf_addr : Z) : io D (list Z) :=
  do! writel (bar 2 + I2C_MASTER_CTRL) buf_addr in
  let value := u32 (Z.lor (Z.lor (Z.shiftl 1 12) (Z.shiftl i2c_bus 8)) (Z.shiftl dev_addr 1)) in
  do! writel (bar 2 + I2C_MASTER_CTRL) value in
  do! writel (bar 2 + I2C_MASTER_CTRL) (Z.lor value (Z.shiftl 1 0)) in
  let value := u32 (Z.lor (Z.lor (Z.lor (Z.shiftl 1 20) (Z.shiftl length_ 12)) (Z.shiftl i2c_bus 8))
                      (Z.shiftl dev_addr 1)) in
  do! writel (bar 2 + I2C_MASTER_CTRL) value in
  do! writel (bar 2 + I2C_MASTER_CTRL) (Z.lor value (Z.shiftl 1 0)) in
  let! lo := readl (bar 2 + I2C_READ_DATA_LO) in
  let! hi := readl (bar 2 + I2C_READ_DATA_HI) in
  ret (le_bytes lo ++ le_bytes hi).

Definition vendor_oui (buf : list Z) : bool :=
  bool_decide (take 3 buf = [VENDOR_OUI_0; VENDOR_OUI_1; VENDOR_OUI_2]).

(** The bytes that end up in [buf], an array of [length_] bytes. *)
Fixpoint i2c_read_loop (fuel : nat) (i length_ b_addr : Z) : io D (list Z) :=
  match fuel with
  | O => fun d => (NoFuel, d, [])
  | S n =>
      let! buf := _ax_i2c_read (Z.land length_ 0x1F) 0 0x50 (Z.land b_addr 0xFF) in
      if vendor_oui buf then
        if length_ <=? 8 then ret (take (Z.to_nat length_) buf) else trap
      else if CHECK_MAC_COUNT <=? i then
        ret ([VENDOR_OUI_0; VENDOR_OUI_1; VENDOR_OUI_2] ++ drop 3 eth_random_addr)
      else i2c_read_loop n (i + 1) length_ b_addr
  end.
Definition ax_i2c_read (fuel : nat) (length_ b_addr : Z) : io D (list Z) := i2c_read_loop fuel 0 length_ b_addr.

Definition ax_set_mac_reg (addr : list Z) : io D unit :=
  let! a0 := lift_opt (getz addr 0) in let! a1 := lift_opt (getz addr 1) in
  do! writel (bar 0 + NODE_ID_1)
        (Z.lor (Z.shiftl (Z.land a0 0xFF) 8) (Z.land a1 0xFF)) in
  let! a2 := lift_opt (getz addr 2) in let! a3 := lift_opt (getz addr 3) in
  let! a4 := lift_opt (getz addr 4) in let! a5 := lift_opt (getz addr 5) in
  writel (bar 0 + NODE_ID_0)
    (Z.lor (Z.lor (Z.lor (u32 (Z.shiftl (Z.land a2 0xFF) 24)) (Z.shiftl (Z.land a3 0xFF) 16))
              (Z.shiftl (Z.land a4 0xFF) 8)) (Z.land a5 0xFF)).

(** Eight registers into four addresses: the odd ones have the last four bytes. *)
Definition ax_get_dsa_mac (a : ax_ctl) : io D ax_ctl :=
  let! m := for_io 8 0 (fun i m =>
    let! value := readl (bar 2 + DSA_OFFSET + i * 4) in
    let temp := u8 (Z.quot i 2) in
    let! row := lift_opt (getz m temp) in
    let! row := lift_opt (
      if Z.rem i 2 =? 0 then
        row ← setz row 1 (Z.land value 0xFF); setz row 0 (Z.land (Z.shiftr value 8) 0xFF)
      else
        row ← setz row 5 (Z.land value 0xFF); row ← setz row 4 (Z.land (Z.shiftr value 8) 0xFF);
        row ← setz row 3 (Z.land (Z.shiftr value 16) 0xFF); setz row 2 (Z.land (Z.shiftr value 24) 0xFF)) in
    lift_opt (setz m temp row)) (dsa_mac a) in
  ret (set_dsa_mac m a).

(** [running] is [netif_running(dev)]; the address stored, if any. *)
Definition ax_net_set_mac_addr (running : bool) (sa_data : list Z) : io D (Z * option (list Z)) :=
  if running then ret (- EBUSY, None)
  else if negb (is_valid_ether_addr sa_data) then ret (- EADDRNOTAVAIL, None)
  else do! ax_set_mac_reg sa_data in ret (0, Some sa_data).

Definition ax_net_change_mtu (new_mtu : Z) : Z :=
  if (new_mtu <=? 0) || (1500 <? new_mtu) then - EINVAL else 0.

(** ** The multicast filter *)

Definition mcast_hash (addr : list Z) : Z := Z.shiftr (ether_crc addr) 26.

(** [multi_filter[crc_bits >> 3] |= 1 << (crc_bits & 7)] for each address. *)
Fixpoint build_filter (addrs : list (list Z)) (f : list Z) : option (list Z) :=
  match addrs with
  | [] => Some f
  | addr :: addrs =>
      let crc_bits := mcast_hash addr in
      b ← getz f (Z.shiftr crc_bits 3);
      f ← setz f (Z.shiftr crc_bits 3) (u8 (Z.lor b (Z.shiftl 1 (Z.land crc_bits 7))));
      build_filter addrs f
  end.

(** The 32-bit word at byte [i] of the filter. *)
Definition filter_word (f : list Z) (i : Z) : option Z :=
  b0 ← getz f i; b1 ← getz f (i + 1); b2 ← getz f (i + 2); b3 ← getz f (i + 3);
  Some (le_word b0 b1 b2 b3).

Definition ax_net_set_multicast (flags : Z) (mc : list (list Z)) : io D unit :=
  let mc_count := Z.of_nat (length mc) in
  let! rx_ctl :=
    if has_bits flags IFF_PROMISC then ret (Z.lor AX_RX_CTL_AB AX_RX_CTL_PRO)
    else if has_bits flags IFF_ALLMULTI || (AX_MAX_MCAST <? mc_count) then
      ret (Z.lor AX_RX_CTL_AB AX_RX_CTL_AMALL)
    else if mc_count =? 0 then ret AX_RX_CTL_AB
    else
      let! f := lift_opt (build_filter mc (replicate (Z.to_nat AX_MCAST_FILTER_SIZE) 0)) in
      let! w0 := lift_opt (filter_word f 0) in
      do! writel (bar 0 + MULTI_FILTER_ARR_0) w0 in
      let! w1 := lift_opt (filter_word f 4) in
      do! writel (bar 0 + MULTI_FILTER_ARR_1) w1 in
      ret (Z.lor AX_RX_CTL_AB AX_RX_CTL_AM) in
  writel (bar 0 + RX_CTRL) rx_ctl.

(** ** Raw register access *)

(** A handler of the table: the private data and the command, changed. *)
Definition handler : Type := ax_ctl -> IOCTL -> io D (ax_ctl * IOCTL).

Definition ioctl_signature : handler := fun a c =>
  ret (a, set_Status AX_STATUS_SUCCESS (set_Gid ASIX_GID c)).

Definition known_bar (b : Z) : bool := (b =? 0) || (b =? 1) || (b =? 2).

Definition ioctl_read_reg : handler := fun a c =>
  let c := set_Status AX_STATUS_SUCCESS c in
  if known_bar (i_bar c) then
    let! v := readl (u64 (bar (i_bar c) + i_offset c)) in ret (a, set_value v c)
  else ret (a, set_Status AX_STATUS_FAILURE c).

Definition ioctl_write_reg : handler := fun a c =>
  let c := set_Status AX_STATUS_SUCCESS c in
  if known_bar (i_bar c) then
    do! writel (u64 (bar (i_bar c) + i_offset c)) (u32 (i_value c)) in
    if (i_bar c =? 2) && (Z.land (i_offset c) 0x0F00 =? DSA_OFFSET) then
      let! a := ax_get_dsa_mac a in ret (a, c)
    else ret (a, c)
  else ret (a, set_Status AX_STATUS_FAILURE c).

Definition ioctl_get_bar_base_addr : handler := fun a c =>
  let b := base_bar c in
  let c := set_bar_base_addr 0xFFFFFFFF (set_Status AX_STATUS_SUCCESS c) in
  if known_bar b then ret (a, set_bar_base_addr (phy_bar b) c)
  else ret (a, set_Status AX_STATUS_FAILURE c).

Definition ioctl_clean_FIFO (fuel : nat) : handler := fun a c =>
  do! while_io fuel (fun _ => let! v := readl (bar 2 + PTP_TIMESTAMP_CTRL) in ret (negb (Z.land v 0x1 =? 0)))
        (fun _ => do! readl (bar 2 + PTP_RX_MESSAGE_INFO) in ret tt) tt in
  ret (a, set_Status AX_STATUS_SUCCESS c).

Definition ioctl_fun_table (fuel : nat) : list handler :=
  [ioctl_signature; ioctl_read_reg; ioctl_write_reg; ioctl_get_bar_base_addr; ioctl_clean_FIFO fuel].

(** The dispatch: an entry past the table is read and called. *)
Definition ioctl_dispatch (fuel : nat) : handler := fun a c =>
  if Z.of_nat (length (ioctl_fun_table fuel)) <? Opcode c then
    ret (a, set_Status AX_STATUS_NOT_SUPPORT c)
  else let! h := lift_opt (getz (ioctl_fun_table fuel) (Opcode c)) in h a c.

(** ** Time stamps on request *)

(** The place of a domain number in the table, counted from one; the loop looks at
    as many entries as there are domains. *)
Fixpoint domain_loop (fuel : nat) (i : Z) (domain : Z) (map : list Z) : option (option Z) :=
  match fuel with
  | O => Some None
  | S n => x ← getz map i; if domain =? x then Some (Some (i + 1)) else domain_loop n (i + 1) domain map
  end.

(** [ax_get_sync_rx_timestamp] and [ax_get_sync_tx_timestamp] on their queue:
    [user] is what [copy_from_user] got, [written] whether [copy_to_user] works;
    the result and what the user gets. *)
Definition ax_get_sync_timestamp (queue : ax_switch -> TS_QUEUE) (junk : CAPTURE_DATA) (a : ax_ctl)
    (user : option ioctl_timestamp_data) (written : bool) : option (Z * option ioctl_timestamp_data) :=
  match user with
  | None => Some (-1, None)
  | Some t =>
      let key := mkCapture (td_port_id t) (timestamp_l junk) (timestamp_h junk) (td_msg_type t)
                   (td_seq_id t) (td_domain_number t) in
      '(r, ts_d) ← ax_tsq_find_item_1 (queue (axswitch a)) key;
      if r <? 0 then Some (-1, None)
      else
        o ← domain_loop (Z.to_nat (number_of_domains (axswitch a))) 0 (domain_number ts_d)
              (domain_number_map a);
        match o with
        | None => Some (-1, None)
        | Some domain_index =>
            h ← getz (timestamp_h ts_d) domain_index;
            l ← getz (timestamp_l ts_d) domain_index;
            let t := mkTsData (td_port_id t) (td_msg_type t) (td_seq_id t) (td_domain_number t)
                       (u64 (h * NS_PER_SEC + l)) in
            if negb written then Some (-1, None) else Some (0, Some t)
        end
  end.

Definition ax_get_sync_tx_timestamp := ax_get_sync_timestamp tx_queue.
Definition ax_get_sync_rx_timestamp := ax_get_sync_timestamp rx_queue.

Definition ax_set_hwtstamp_config (user : option hwtstamp_config) (written : bool)
    : Z * option hwtstamp_config :=
  match user with
  | None => (- EFAULT, None)
  | Some c =>
      if negb (hc_flags c =? 0) then (- EINVAL, None)
      else if negb (hc_tx_type c =? HWTSTAMP_TX_OFF) && negb (hc_tx_type c =? HWTSTAMP_TX_ON)
      then (- ERANGE, None)
      else
        let filter :=
          if hc_rx_filter c =? HWTSTAMP_FILTER_NONE then Some HWTSTAMP_FILTER_NONE
          else if (hc_rx_filter c =? HWTSTAMP_FILTER_ALL) ||
                  ((HWTSTAMP_FILTER_SOME <? hc_rx_filter c) &&
                   (hc_rx_filter c <=? HWTSTAMP_FILTER_PTP_V2_DELAY_REQ))
          then Some HWTSTAMP_FILTER_ALL
          else None in
        match filter with
        | None => (- ERANGE, None)
        | Some f => if written then (0, Some (mkHwtstamp (hc_flags c) HWTSTAMP_TX_ON f)) else (- EFAULT, None)
        end
  end.

Definition ax_get_hwtstamp_config : Z := - EOPNOTSUPP.

(** ** The two entry points *)

Inductive ioctl_cmd := SIOCSHWTSTAMP | SIOCGHWTSTAMP | OTHER_IOCTL.

Definition ax_net_ioctl (cmd : ioctl_cmd) (user : option hwtstamp_config) (written : bool)
    : Z * option hwtstamp_config :=
  match cmd with
  | SIOCSHWTSTAMP => ax_set_hwtstamp_config user written
  | SIOCGHWTSTAMP => (ax_get_hwtstamp_config, None)
  | OTHER_IOCTL => (-1, None)
  end.

(** A private request with what the user passed, [None] when it cannot be read. *)
Inductive priv_cmd :=
| IOCTL_SEND_CMD (user : option IOCTL)
| IOCTL_SET_DOMAIN_NUMBER_TABLE (user : option (list Z))
| IOCTL_GET_SYNC_TX_TIMESTAMP (user : option ioctl_timestamp_data)
| IOCTL_GET_SYNC_RX_TIMESTAMP (user : option ioctl_timestamp_data)
| IOCTL_GPTP_SET_PTP_MODE (user : option Z)
| OTHER_PRIV.

Inductive priv_reply :=
| ReplyNone
| ReplyCmd (c : IOCTL)
| ReplyStamp (t : ioctl_timestamp_data).

Definition reply_stamp (r : Z * option ioctl_timestamp_data) : Z * priv_reply :=
  (fst r, match snd r with Some t => ReplyStamp t | None => ReplyNone end).

Definition ax_net_privioctl (fuel : nat) (junk : CAPTURE_DATA) (running : bool) (cmd : priv_cmd)
    (written : bool) (a : ax_ctl) : io D (ax_ctl * (Z * priv_reply)) :=
  if negb running then ret (a, (- EINVAL, ReplyNone))
  else match cmd with
  | IOCTL_SEND_CMD None => ret (a, (- EFAULT, ReplyNone))
  | IOCTL_SEND_CMD (Some c) =>
      let! r := ioctl_dispatch fuel a c in
      if written then ret (fst r, (0, ReplyCmd (snd r))) else ret (fst r, (- EFAULT, ReplyNone))
  | IOCTL_SET_DOMAIN_NUMBER_TABLE None => ret (a, (-1, ReplyNone))
  | IOCTL_SET_DOMAIN_NUMBER_TABLE (Some t) => ret (set_domain_number_map t a, (0, ReplyNone))
  | IOCTL_GET_SYNC_TX_TIMESTAMP user =>
      let! r := lift_opt (ax_get_sync_tx_timestamp junk a user written) in ret (a, reply_stamp r)
  | IOCTL_GET_SYNC_RX_TIMESTAMP user =>
      let! r := lift_opt (ax_get_sync_rx_timestamp junk a user written) in ret (a, reply_stamp r)
  | IOCTL_GPTP_SET_PTP_MODE None => ret (a, (-1, ReplyNone))
  | IOCTL_GPTP_SET_PTP_MODE (Some m) => ret (set_ptp_mode m a, (0, ReplyNone))
  | OTHER_PRIV => ret (a, (-1, ReplyNone))
  end.

End Ctl.

(** ** The address the device gets *)

Section Mac.
Context {D : Type} {dev : Device D} `{AddrApi}.
Context (bar : Z -> Z).
Local Open Scope io_scope.

Lemma le_bytes_u8 v : Forall is_u8 (le_bytes v).
Proof using. repeat constructor; apply u8_range. Qed.

Lemma ends_i2c len bus_ a b : ends (_ax_i2c_read bar len bus_ a b)
  (fun buf => length buf = 8%nat /\ Forall is_u8 buf).
Proof using.
  unfold _ax_i2c_read. do 5 (eapply ends_bind; [apply ends_writel |]; intros _ _; cbv zeta).
  eapply ends_bind; [apply ends_readl |]. intros lo _. eapply ends_bind; [apply ends_readl |]. intros hi _.
  apply ends_ret. split; [done |]. apply Forall_app. split; apply le_bytes_u8.
Qed.

Lemma oui_u8 : Forall is_u8 [VENDOR_OUI_0; VENDOR_OUI_1; VENDOR_OUI_2].
Proof using. rewrite !Forall_cons, Forall_nil. unfold is_u8, VENDOR_OUI_0, VENDOR_OUI_1, VENDOR_OUI_2. lia. Qed.

Definition oui_address (buf : list Z) : Prop :=
  length buf = 6%nat /\ Forall is_u8 buf /\ take 3 buf = [VENDOR_OUI_0; VENDOR_OUI_1; VENDOR_OUI_2].

Lemma oui_valid buf : oui_address buf -> is_valid_ether_addr buf = true.
Proof using.
  intros (Hl & Hf & Ho). apply (is_valid_iff buf Hl Hf).
  destruct buf as [| b0 [| b1 [| b2 buf]]]; try discriminate Ho. injection Ho as -> -> ->.
  split; [by exists 0 | done].
Qed.

Lemma ends_i2c_loop n i len b : len = 6 -> 0 <= i -> CHECK_MAC_COUNT + 1 - i <= Z.of_nat n -> (0 < n)%nat ->
  ends (i2c_read_loop bar n i len b) oui_address.
Proof using.
  intros ->. revert i. induction n as [| n IH]; intros i Hi Hn H0; [lia |]. cbn [i2c_read_loop].
  eapply ends_bind; [apply ends_i2c |]. intros buf [Hl Hf].
  unfold vendor_oui. case_bool_decide as Ho.
  - apply ends_ret. split_and!.
    + rewrite length_take. change (Z.to_nat 6) with 6%nat. lia.
    + by apply Forall_take.
    + change (Z.to_nat 6) with 6%nat. by rewrite take_take.
  - destruct (Z.leb_spec CHECK_MAC_COUNT i) as [Hc | Hc].
    + apply ends_ret. destruct random_length as [Hr Hr8]. split_and!; [| | done].
      * rewrite length_app, length_drop, Hr. done.
      * apply Forall_app. split; [apply oui_u8 | by apply Forall_drop].
    + apply IH; unfold CHECK_MAC_COUNT in *; lia.
Qed.

(** The first try, where the EEPROM holds an address with the prefix. *)
Lemma i2c_first_try d b_addr lo hi : is_u32 lo -> is_u32 hi ->
  (forall d0, dev_read (bar 2 + I2C_READ_DATA_LO) d0 = (lo, d0)) ->
  (forall d0, dev_read (bar 2 + I2C_READ_DATA_HI) d0 = (hi, d0)) ->
  vendor_oui (le_bytes lo) = true ->
  exists d', runs (ax_i2c_read bar 3 6 b_addr) d (take 6 (le_bytes lo ++ le_bytes hi)) d'.
Proof using.
  intros Hlo Hhi Elo Ehi Ho. eexists. unfold ax_i2c_read. cbn [i2c_read_loop]. eapply runs_bind.
  - unfold _ax_i2c_read. do 5 (eapply runs_bind; [apply runs_writel |]).
    eapply runs_bind; [apply runs_readl, Elo |]. eapply runs_bind; [apply runs_readl, Ehi |].
    rewrite (u32_small lo), (u32_small hi) by done. apply runs_ret.
  - assert (E : vendor_oui (le_bytes lo ++ le_bytes hi) = vendor_oui (le_bytes lo)) by done.
    rewrite E, Ho. apply runs_ret.
Qed.

(** C37. The address given to the device at probe time: on every device the read
    of the EEPROM ends after at most three tries, and what it yields is six
    bytes with the vendor's prefix, whatever the EEPROM or the random generator
    answered; such an address is always valid, so that the check made on it
    never fails.  Where the EEPROM holds an address with the prefix, that is
    the one. *)
Theorem i2c_mac_valid d b_addr : exists buf d',
  runs (ax_i2c_read bar 3 6 b_addr) d buf d' /\ oui_address buf /\ is_valid_ether_addr buf = true /\
  (forall lo hi, is_u32 lo -> is_u32 hi ->
     (forall d0, dev_read (bar 2 + I2C_READ_DATA_LO) d0 = (lo, d0)) ->
     (forall d0, dev_read (bar 2 + I2C_READ_DATA_HI) d0 = (hi, d0)) ->
     vendor_oui (le_bytes lo) = true -> buf = take 6 (le_bytes lo ++ le_bytes hi)).
Proof using.
  destruct (ends_i2c_loop 3 0 6 b_addr eq_refl ltac:(lia) ltac:(unfold CHECK_MAC_COUNT; lia) ltac:(lia) d)
    as (buf & d' & R & Ho).
  exists buf, d'. split_and!; [exact R | exact Ho | by apply oui_valid |].
  intros lo hi Hlo Hhi Elo Ehi Hv. destruct (i2c_first_try d b_addr lo hi Hlo Hhi Elo Ehi Hv) as [d2 R2].
  by destruct (runs_det _ _ _ _ _ _ R R2).
Qed.

(** ** The registers of the addresses *)

(** The two words an address is stored as. *)
Definition mac_hi (a : list Z) : Z := match a with a0 :: a1 :: _ => a0 * 2 ^ 8 + a1 | _ => 0 end.
Definition mac_lo (a : list Z) : Z :=
  match a with _ :: _ :: a2 :: a3 :: a4 :: a5 :: _ => le_word a5 a4 a3 a2 | _ => 0 end.

Definition six_bytes (a : list Z) : Prop := length a = 6%nat /\ Forall is_u8 a.

Lemma six_bytes_inv a : six_bytes a -> exists a0 a1 a2 a3 a4 a5, a = [a0; a1; a2; a3; a4; a5] /\
  is_u8 a0 /\ is_u8 a1 /\ is_u8 a2 /\ is_u8 a3 /\ is_u8 a4 /\ is_u8 a5.
Proof using.
  intros [Hl Hf]. destruct a as [| a0 [| a1 [| a2 [| a3 [| a4 [| a5 [|]]]]]]]; try discriminate Hl.
  rewrite !Forall_cons in Hf. exists a0, a1, a2, a3, a4, a5. destruct_and! Hf. by split_and!.
Qed.

Lemma land_255 x : is_u8 x -> Z.land x 0xFF = x.
Proof using. intros Hx. change 0xFF with (2 ^ 8 - 1). rewrite land_ones_mod by lia. by apply u8_small. Qed.

(** What [ax_set_mac_reg] stores. *)
Lemma set_mac_reg_stores a d : six_bytes a ->
  exists d' l, ax_set_mac_reg bar a d = (Ok tt, d', l) /\
    stores l = [(bar 0 + NODE_ID_1, mac_hi a); (bar 0 + NODE_ID_0, mac_lo a)].
Proof using.
  intros (a0 & a1 & a2 & a3 & a4 & a5 & -> & H0 & H1 & H2 & H3 & H4 & H5)%six_bytes_inv.
  unfold ax_set_mac_reg.
  change (getz [a0; a1; a2; a3; a4; a5] 0) with (Some a0). change (getz [a0; a1; a2; a3; a4; a5] 1) with (Some a1).
  change (getz [a0; a1; a2; a3; a4; a5] 2) with (Some a2). change (getz [a0; a1; a2; a3; a4; a5] 3) with (Some a3).
  change (getz [a0; a1; a2; a3; a4; a5] 4) with (Some a4). change (getz [a0; a1; a2; a3; a4; a5] 5) with (Some a5).
  cbv [bind lift_opt ret writel]. rewrite !land_255 by done. unfold is_u8 in *.
  assert (E1 : u32 (Z.lor (Z.shiftl a0 8) a1) = mac_hi [a0; a1; a2; a3; a4; a5]).
  { rewrite Z.shiftl_mul_pow2 by lia. rewrite (lor_add_low _ a1 8) by (lia || by rewrite Z.mod_mul by lia).
    unfold mac_hi. apply u32_small. unfold is_u32. lia. }
  assert (E0 : u32 (Z.lor (Z.lor (Z.lor (u32 (Z.shiftl a2 24)) (Z.shiftl a3 16)) (Z.shiftl a4 8)) a5) =
               mac_lo [a0; a1; a2; a3; a4; a5]).
  { rewrite !Z.shiftl_mul_pow2 by lia. rewrite (u32_small (a2 * 2 ^ 24)) by (unfold is_u32; lia).
    rewrite (lor_add_low (a2 * 2 ^ 24) (a3 * 2 ^ 16) 24) by (lia || by rewrite Z.mod_mul by lia).
    rewrite (lor_add_low _ (a4 * 2 ^ 8) 16), (lor_add_low _ a5 8); try lia.
    - unfold mac_lo, le_word. rewrite u32_small by (unfold is_u32; lia). lia.
    - replace (a2 * 2 ^ 24 + a3 * 2 ^ 16 + a4 * 2 ^ 8) with ((a2 * 2 ^ 16 + a3 * 2 ^ 8 + a4) * 2 ^ 8) by lia.
      by rewrite Z.mod_mul by lia.
    - replace (a2 * 2 ^ 24 + a3 * 2 ^ 16) with ((a2 * 2 ^ 8 + a3) * 2 ^ 16) by lia.
      by rewrite Z.mod_mul by lia. }
  eexists _, _. split; [reflexivity |]. cbn [stores app]. by rewrite E1, E0.
Qed.

Definition hi_row (v : Z) (row : list Z) : option (list Z) :=
  row ← setz row 1 (Z.land v 0xFF); setz row 0 (Z.land (Z.shiftr v 8) 0xFF).
Definition lo_row (v : Z) (row : list Z) : option (list Z) :=
  row ← setz row 5 (Z.land v 0xFF); row ← setz row 4 (Z.land (Z.shiftr v 8) 0xFF);
  row ← setz row 3 (Z.land (Z.shiftr v 16) 0xFF); setz row 2 (Z.land (Z.shiftr v 24) 0xFF).

(** The rows are eight bytes long, an address six. *)
Lemma row_set a row : six_bytes a -> length row = 8%nat ->
  hi_row (u32 (mac_hi a)) row = Some (take 2 a ++ drop 2 row) /\
  lo_row (u32 (mac_lo a)) (take 2 a ++ drop 2 row) = Some (a ++ drop 6 row).
Proof using.
  clear bar.
  intros (a0 & a1 & a2 & a3 & a4 & a5 & -> & H0 & H1 & H2 & H3 & H4 & H5)%six_bytes_inv Hr.
  destruct row as [| r0 [| r1 [| r2 [| r3 [| r4 [| r5 [| r6 [| r7 [|]]]]]]]]]; try discriminate Hr.
  unfold is_u8 in *. unfold mac_hi, mac_lo, le_word.
  rewrite !u32_small by (unfold is_u32; lia). unfold hi_row, lo_row.
  change 0xFF with (2 ^ 8 - 1). rewrite !land_ones_mod, !Z.shiftr_div_pow2 by lia.
  set (lo := a5 + a4 * 2 ^ 8 + a3 * 2 ^ 16 + a2 * 2 ^ 24).
  assert (E1 : (a0 * 2 ^ 8 + a1) mod 2 ^ 8 = a1) by zwrap.
  assert (E2 : ((a0 * 2 ^ 8 + a1) / 2 ^ 8) mod 2 ^ 8 = a0) by zwrap.
  assert (E3 : lo mod 2 ^ 8 = a5) by (unfold lo; zwrap).
  assert (E4 : (lo / 2 ^ 8) mod 2 ^ 8 = a4) by (unfold lo; zwrap).
  assert (E5 : (lo / 2 ^ 16) mod 2 ^ 8 = a3) by (unfold lo; zwrap).
  assert (E6 : (lo / 2 ^ 24) mod 2 ^ 8 = a2) by (unfold lo; zwrap).
  rewrite E1, E2, E3, E4, E5, E6. done.
Qed.

(** The two words an address is stored in by [ax_set_mac_reg] are read back by
    [ax_get_dsa_mac] as the same six bytes: if the registers of the ports hold
    the words stored for four addresses, exactly these addresses are read,
    whatever was in the table before, and nothing else of it changes. *)
Theorem dsa_mac_roundtrip (a : ax_ctl) (addrs : list (list Z)) d :
  length addrs = 4%nat -> Forall six_bytes addrs ->
  length (dsa_mac a) = 4%nat -> Forall (fun row => length row = 8%nat) (dsa_mac a) ->
  (forall k addr, addrs !! k = Some addr ->
     map snd (stores (snd (ax_set_mac_reg bar addr d))) =
       [fst (dev_read (bar 2 + DSA_OFFSET + Z.of_nat (2 * k) * 4) d);
        fst (dev_read (bar 2 + DSA_OFFSET + Z.of_nat (2 * k + 1) * 4) d)]) ->
  (forall r, snd (dev_read r d) = d) ->
  exists d', runs (ax_get_dsa_mac bar a) d
    (set_dsa_mac (zip_with (fun addr row => addr ++ drop 6 row) addrs (dsa_mac a)) a) d'.
Proof using.
  intros La Fa Lm Fm Hreg Hd.
  assert (Hw : forall k addr, addrs !! k = Some addr ->
    dev_read (bar 2 + DSA_OFFSET + Z.of_nat (2 * k) * 4) d = (mac_hi addr, d) /\
    dev_read (bar 2 + DSA_OFFSET + Z.of_nat (2 * k + 1) * 4) d = (mac_lo addr, d)).
  { intros k addr Hk. pose proof (proj1 (Forall_lookup _ _) Fa k addr Hk) as Hs.
    destruct (set_mac_reg_stores addr d Hs) as (d0 & l & El & Es).
    specialize (Hreg k addr Hk). rewrite El in Hreg. cbn [snd] in Hreg. rewrite Es in Hreg.
    cbn [map snd] in Hreg. apply cons_eq_inj in Hreg as [E1 [E2 _]%cons_eq_inj]. rewrite (surjective_pairing (dev_read _ d)), <- E1, Hd.
    by rewrite (surjective_pairing (dev_read (bar 2 + DSA_OFFSET + Z.of_nat (2 * k + 1) * 4) d)), <- E2, Hd. }
  destruct a as [sw dn m]. cbn in Lm, Fm.
  destruct addrs as [| b0 [| b1 [| b2 [| b3 [|]]]]]; try discriminate La.
  destruct m as [| r0 [| r1 [| r2 [| r3 [|]]]]]; try discriminate Lm.
  rewrite !Forall_cons in Fa, Fm. destruct Fa as (A0 & A1 & A2 & A3 & _). destruct Fm as (R0 & R1 & R2 & R3 & _).
  destruct (Hw 0%nat b0 eq_refl) as [W0 W1], (Hw 1%nat b1 eq_refl) as [W2 W3],
    (Hw 2%nat b2 eq_refl) as [W4 W5], (Hw 3%nat b3 eq_refl) as [W6 W7].
  destruct (row_set b0 r0 A0 R0) as [H0 L0], (row_set b1 r1 A1 R1) as [H1 L1],
    (row_set b2 r2 A2 R2) as [H2 L2], (row_set b3 r3 A3 R3) as [H3 L3].
  exists d. unfold ax_get_dsa_mac. cbn [dsa_mac]. eapply runs_bind; [| apply runs_ret]. cbn [for_io].
  repeat (eapply runs_bind; [eapply runs_bind; [apply runs_readl; eassumption |];
    eapply runs_bind; [apply runs_lift; reflexivity |];
    eapply runs_bind; [apply runs_lift; eassumption |]; apply runs_lift; reflexivity |]).
  apply runs_ret.
Qed.

End Mac.

(** ** The multicast filter *)

Section Mcast.
Context `{AddrApi}.
Local Open Scope io_scope.

(** Bit [h] of a filter of eight bytes. *)
Definition filter_bit (f : list Z) (h : Z) : bool := Z.testbit (default 0 (getz f (h / 8))) (h mod 8).

Lemma hash_range a : 0 <= mcast_hash a < 64.
Proof using.
  unfold mcast_hash. rewrite Z.shiftr_div_pow2 by lia. pose proof (ether_crc_u32 a) as Hc.
  unfold is_u32 in Hc. split; [apply Z.div_pos; lia |]. apply Z.div_lt_upper_bound; lia.
Qed.

Lemma build_filter_bits mc f : length f = 8%nat -> Forall is_u8 f -> exists f',
  build_filter mc f = Some f' /\ length f' = 8%nat /\ Forall is_u8 f' /\
  forall h, 0 <= h < 64 ->
    filter_bit f' h = filter_bit f h || existsb (fun a => mcast_hash a =? h) mc.
Proof using.
  revert f. induction mc as [| a mc IH]; intros f Hl Hf.
  { exists f. split_and!; [done | done | done |]. intros h _. by rewrite orb_false_r. }
  cbn [build_filter]. set (c := mcast_hash a). pose proof (hash_range a) as Hc. fold c in Hc.
  rewrite (Z.shiftr_div_pow2 c 3) by lia. change 7 with (2 ^ 3 - 1). rewrite (land_ones_mod c 3) by lia.
  change (2 ^ 3) with 8.
  destruct (getz_in f (c / 8)) as [b Hb]; [rewrite Hl; zwrap |]. rewrite Hb. cbn [mbind option_bind].
  set (b' := u8 (Z.lor b (Z.shiftl 1 (c mod 8)))).
  assert (Hc8 : 0 <= c / 8 < Z.of_nat (length f)) by (rewrite Hl; zwrap).
  set (f1 := <[Z.to_nat (c / 8) := b']> f).
  assert (E1 : setz f (c / 8) b' = Some f1) by by apply setz_in.
  rewrite E1. cbn [mbind option_bind].
  destruct (IH f1) as (f' & E & L & F & Hbits).
  { unfold f1. by rewrite length_insert. }
  { unfold f1. apply Forall_insert; [done | apply u8_range]. }
  exists f'. split_and!; try done. intros h Hh. rewrite Hbits by done. cbn [existsb]. fold c.
  rewrite orb_assoc. f_equal. unfold filter_bit. destruct (decide (h / 8 = c / 8)) as [E8 | E8].
  - rewrite E8, (getz_setz_eq _ _ _ _ E1), Hb. cbn [default]. unfold id, b', u8.
    assert (0 <= h mod 8 < 8) by (apply Z.mod_pos_bound; lia).
    rewrite Z.mod_pow2_bits_low, Z.lor_spec, Z.shiftl_1_l by lia. f_equal.
    rewrite Z.pow2_bits_eqb by (apply Z.mod_pos_bound; lia).
    apply eq_true_iff_eq. rewrite !Z.eqb_eq. zwrap.
  - rewrite (getz_setz_ne _ _ _ _ _ E1) by done. symmetry.
    rewrite (proj2 (Z.eqb_neq c h)) by (intros ->; done). apply orb_false_r.
Qed.

(** The filter as the two words written. *)
Lemma filter_words f : length f = 8%nat -> Forall is_u8 f -> exists w0 w1,
  filter_word f 0 = Some w0 /\ filter_word f 4 = Some w1 /\ is_u32 w0 /\ is_u32 w1 /\
  forall h, 0 <= h < 64 -> Z.testbit (w0 + w1 * 2 ^ 32) h = filter_bit f h.
Proof using.
  intros Hl Hf.
  destruct f as [| b0 [| b1 [| b2 [| b3 [| b4 [| b5 [| b6 [| b7 [|]]]]]]]]]; try discriminate Hl.
  rewrite !Forall_cons in Hf. destruct Hf as (B0 & B1 & B2 & B3 & B4 & B5 & B6 & B7 & _).
  exists (le_word b0 b1 b2 b3), (le_word b4 b5 b6 b7).
  unfold le_word, is_u8, is_u32 in *. split_and!; try done; try lia.
  intros h Hh. set (w := b0 + _ + _ + _ + _).
  assert (Hb : forall j b, 0 <= j < 8 -> getz [b0; b1; b2; b3; b4; b5; b6; b7] j = Some b ->
            (w / 2 ^ (8 * j)) mod 2 ^ 8 = b).
  { intros j b Hj Eb. assert (j = 0 \/ j = 1 \/ j = 2 \/ j = 3 \/ j = 4 \/ j = 5 \/ j = 6 \/ j = 7) as Hc by lia.
    destruct Hc as [-> | [-> | [-> | [-> | [-> | [-> | [-> | ->]]]]]]]; injection Eb as <-;
      unfold w; zwrap. }
  assert (H8 : 0 <= h / 8 < 8) by zwrap. assert (Hm : 0 <= h mod 8 < 8) by (apply Z.mod_pos_bound; lia).
  destruct (getz_in [b0; b1; b2; b3; b4; b5; b6; b7] (h / 8)) as [b Eb]; [done |].
  unfold filter_bit. rewrite Eb. cbn [default]. unfold id. rewrite <- (Hb (h / 8) b H8 Eb).
  rewrite Z.mod_pow2_bits_low, Z.div_pow2_bits by lia. f_equal. zwrap.
Qed.

Definition promisc (flags : Z) : bool := has_bits flags IFF_PROMISC.
Definition all_multi (flags : Z) (mc : list (list Z)) : bool :=
  negb (promisc flags) && (has_bits flags IFF_ALLMULTI || (AX_MAX_MCAST <? Z.of_nat (length mc))).
Definition hashing (flags : Z) (mc : list (list Z)) : bool :=
  negb (promisc flags) && negb (all_multi flags mc) && negb (Z.of_nat (length mc) =? 0).

(** What the registers let through, of the multicast addresses. *)
Definition lets_through (rx filter : Z) (addr : list Z) : bool :=
  has_bits rx AX_RX_CTL_PRO || has_bits rx AX_RX_CTL_AMALL ||
  (has_bits rx AX_RX_CTL_AM && Z.testbit filter (mcast_hash addr)).

Context {D : Type} {dev : Device D} (bar : Z -> Z).

(** C38. The receive filter lets every address of the list through: in promiscuous
    mode everything, past 64 addresses or on request every multicast frame, and
    otherwise exactly the frames whose hash is the hash of a listed address;
    with an empty list no multicast frame at all.  Broadcast is always let
    through, the mode bits are exclusive, and the hash registers are only
    written when they are used. *)
Theorem multicast_filter_exact flags mc d : exists d' l rx filter,
  ax_net_set_multicast bar flags mc d = (Ok tt, d', l) /\
  stores l = (if hashing flags mc then [(bar 0 + MULTI_FILTER_ARR_0, filter mod 2 ^ 32);
                                        (bar 0 + MULTI_FILTER_ARR_1, filter / 2 ^ 32)] else []) ++
             [(bar 0 + RX_CTRL, rx)] /\
  has_bits rx AX_RX_CTL_AB = true /\ has_bits rx AX_RX_CTL_PRO = promisc flags /\
  has_bits rx AX_RX_CTL_AMALL = all_multi flags mc /\ has_bits rx AX_RX_CTL_AM = hashing flags mc /\
  (forall addr, addr ∈ mc -> lets_through rx filter addr = true) /\
  (forall addr, promisc flags = false -> all_multi flags mc = false ->
     lets_through rx filter addr = existsb (fun a => mcast_hash a =? mcast_hash addr) mc).
Proof using.
  destruct (build_filter_bits mc (replicate 8 0)) as (f & Ef & Lf & Ff & Hbits); [done | |].
  { repeat constructor; unfold is_u8; lia. }
  destruct (filter_words f Lf Ff) as (w0 & w1 & E0 & E1 & R0 & R1 & Hw).
  assert (Hhash : forall addr, Z.testbit (w0 + w1 * 2 ^ 32) (mcast_hash addr) =
            existsb (fun a => mcast_hash a =? mcast_hash addr) mc).
  { intros addr. pose proof (hash_range addr) as Hr. rewrite Hw, Hbits by done.
    assert (Ez : filter_bit (replicate 8 0) (mcast_hash addr) = false); [| by rewrite Ez].
    unfold filter_bit. assert (Hd : 0 <= mcast_hash addr / 8 < 8) by zwrap.
    rewrite getz_nonneg, lookup_replicate_2 by lia. apply Z.bits_0. }
  assert (Hin : forall addr, addr ∈ mc -> existsb (fun a => mcast_hash a =? mcast_hash addr) mc = true).
  { intros addr Ha. apply existsb_exists. exists addr. split; [by apply list_elem_of_In | apply Z.eqb_refl]. }
  unfold ax_net_set_multicast, hashing, all_multi, promisc. destruct (has_bits flags IFF_PROMISC); cbn [negb andb].
  { eexists _, _, _, 0. split; [reflexivity |]. split_and!; try done. }
  destruct (has_bits flags IFF_ALLMULTI || (AX_MAX_MCAST <? Z.of_nat (length mc))); cbn [negb andb].
  { eexists _, _, _, 0. split; [reflexivity |]. split_and!; try done. }
  destruct (Z.eqb_spec (Z.of_nat (length mc)) 0) as [Hz | Hnz]; cbn [negb].
  { eexists _, _, _, 0. split; [reflexivity |]. destruct mc; [| done].
    split_and!; try done. all: by intros addr ?%not_elem_of_nil. }
  exists (dev_write (bar 0 + RX_CTRL) (u32 (Z.lor AX_RX_CTL_AB AX_RX_CTL_AM))
            (dev_write (bar 0 + MULTI_FILTER_ARR_1) (u32 w1) (dev_write (bar 0 + MULTI_FILTER_ARR_0) (u32 w0) d))).
  eexists _, (Z.lor AX_RX_CTL_AB AX_RX_CTL_AM), (w0 + w1 * 2 ^ 32).
  change (Z.to_nat AX_MCAST_FILTER_SIZE) with 8%nat. cbv [bind lift_opt ret writel]. rewrite Ef, E0, E1.
  split; [reflexivity |]. unfold is_u32 in *. split_and!; try done.
  - cbn [stores app]. rewrite (u32_small w0), (u32_small w1) by (unfold is_u32; lia).
    assert ((w0 + w1 * 2 ^ 32) mod 2 ^ 32 = w0) as -> by zwrap.
    by assert ((w0 + w1 * 2 ^ 32) / 2 ^ 32 = w1) as -> by zwrap.
  - intros addr Ha. unfold lets_through. rewrite Hhash, (Hin addr Ha). done.
  - intros addr _ _. unfold lets_through. rewrite Hhash. by destruct (existsb _ mc).
Qed.

End Mcast.


(** ** Requests *)

Section Requests.
Context (junk : CAPTURE_DATA).
Local Open Scope io_scope.

(** The captures of the message a request names. *)
Definition same_message (t : ioctl_timestamp_data) (c : CAPTURE_DATA) : bool :=
  (port_id c =? td_port_id t) && (msg_type c =? td_msg_type t) &&
  (sequence_id c =? td_seq_id t) && (domain_number c =? td_domain_number t).

(** The timer of a domain: its place among the first [n] of the table, plus one. *)
Definition domain_timer (n : nat) (map : list Z) (domain : Z) : option nat :=
  (fun p => S (fst p)) <$> list_find (fun x => domain = x) (take n map).

(** The stamp of timer [i] in nanoseconds. *)
Definition capture_ns (c : CAPTURE_DATA) (i : nat) : Z :=
  default 0 (timestamp_h c !! i) * 10 ^ 9 + default 0 (timestamp_l c !! i).

Definition sync_reply (h : list CAPTURE_DATA) (map : list Z) (t : ioctl_timestamp_data)
    : Z * option ioctl_timestamp_data :=
  match List.find (same_message t) h with
  | None => (-1, None)
  | Some c =>
      match domain_timer (Z.to_nat NUM_OF_DOMAIN) map (domain_number c) with
      | None => (-1, None)
      | Some i => (0, Some (mkTsData (td_port_id t) (td_msg_type t) (td_seq_id t) (td_domain_number t)
                              (capture_ns c i)))
      end
  end.

Record queue_ok (q : TS_QUEUE) : Prop := {
  qo_wf : tsq_wf q;
  qo_ts : Forall ts_ok (tsq_contents q);
}.

(** What the requests rely on, and keep. *)
Record ctl_ok (a : ax_ctl) : Prop := {
  co_rx : queue_ok (rx_queue (axswitch a));
  co_tx : queue_ok (tx_queue (axswitch a));
  co_domains : number_of_domains (axswitch a) = NUM_OF_DOMAIN;
  co_map : length (domain_number_map a) = 3%nat;
  co_mac : length (dsa_mac a) = 4%nat /\ Forall (fun row => length row = 8%nat) (dsa_mac a);
}.

Lemma domain_loop_spec n i domain map : 0 <= i -> (Z.to_nat i + n <= length map)%nat ->
  domain_loop n i domain map =
  Some ((fun k => i + Z.of_nat k) <$> domain_timer n (drop (Z.to_nat i) map) domain).
Proof using.
  revert i. induction n as [| n IH]; intros i Hi Hl; [done |]. cbn [domain_loop].
  rewrite getz_nonneg by done.
  destruct (lookup_lt_is_Some_2 map (Z.to_nat i)) as [x Hx]; [lia |]. rewrite Hx.
  rewrite (drop_S _ _ _ Hx). unfold domain_timer. cbn [take list_find mbind option_bind].
  destruct (decide (domain = x)) as [-> | Hne].
  - rewrite Z.eqb_refl. cbn. repeat f_equal; lia.
  - rewrite (proj2 (Z.eqb_neq _ _) Hne), IH by lia.
    replace (Z.to_nat (i + 1)) with (S (Z.to_nat i)) by lia. f_equal.
    unfold domain_timer. destruct (list_find _ _) as [[k y] |]; [| done]. cbn. f_equal. lia.
Qed.

Lemma domain_timer_le n map domain i : domain_timer n map domain = Some i -> (1 <= i <= n)%nat.
Proof using.
  unfold domain_timer. intros ([k y] & Hf & ->)%fmap_Some. apply list_find_Some in Hf as (Hk & _ & _).
  cbn [fst]. apply lookup_lt_Some in Hk. rewrite length_take in Hk. lia.
Qed.

Lemma capture_stamp c i : ts_ok c -> (i < 3)%nat -> exists h l,
  getz (timestamp_h c) (Z.of_nat i) = Some h /\ getz (timestamp_l c) (Z.of_nat i) = Some l /\
  u64 (h * NS_PER_SEC + l) = capture_ns c i.
Proof using.
  intros ([Hl Hh] & Fl & Fh) Hi.
  destruct (lookup_lt_is_Some_2 (timestamp_h c) i) as [h Eh]; [lia |].
  destruct (lookup_lt_is_Some_2 (timestamp_l c) i) as [l El]; [lia |].
  exists h, l. rewrite !getz_nonneg, !Nat2Z.id by lia. split_and!; [done | done |].
  unfold capture_ns. rewrite Eh, El. cbn [default from_option]. unfold id, NS_PER_SEC.
  pose proof (proj1 (Forall_lookup _ _) Fh _ _ Eh). pose proof (proj1 (Forall_lookup _ _) Fl _ _ El).
  apply u64_small. zwrap.
Qed.

Lemma sync_timestamp_run queue a t written :
  queue_ok (queue (axswitch a)) -> number_of_domains (axswitch a) = NUM_OF_DOMAIN ->
  length (domain_number_map a) = 3%nat ->
  ax_get_sync_timestamp queue junk a (Some t) written =
  Some (if written then sync_reply (tsq_contents (queue (axswitch a))) (domain_number_map a) t
        else (-1, None)).
Proof using.
  intros [Hwf Hts] Hd Hm. unfold ax_get_sync_timestamp, sync_reply. rewrite tsq_find_contents by done.
  cbn [mbind option_bind]. unfold spec_find.
  set (key := mkCapture _ _ _ _ _ _).
  assert (Ek : forall h, List.find (fun d => _ax_tsq_check_item_1 d key) h = List.find (same_message t) h).
  { induction h as [| c h IH]; [done |]. cbn [List.find]. by rewrite IH. }
  destruct (tsq_contents (queue (axswitch a))) as [| c0 h] eqn:Ec; [by destruct written |].
  rewrite Ek. destruct (List.find (same_message t) (c0 :: h)) as [c |] eqn:Ef; [| by destruct written].
  assert (Hc : ts_ok c).
  { apply List.find_some in Ef as [Hin _]. rewrite Forall_forall in Hts. by apply Hts, list_elem_of_In. }
  change (AX_STATUS_SUCCESS <? 0) with false. cbv iota.
  rewrite Hd, domain_loop_spec by (rewrite ?Hm; unfold NUM_OF_DOMAIN; lia).
  change (Z.to_nat 0) with 0%nat. rewrite drop_0. cbn [mbind option_bind].
  destruct (domain_timer _ _ _) as [i |] eqn:Et; [| by destruct written]. cbn [fmap option_fmap option_map].
  apply domain_timer_le in Et. change (Z.to_nat NUM_OF_DOMAIN) with 2%nat in Et.
  destruct (capture_stamp c i Hc) as (hi & lo & Eh & El & Es); [lia |]. rewrite Z.add_0_l, Eh, El.
  cbn [mbind option_bind]. rewrite Es. by destruct written.
Qed.

Context {D : Type} `{CaptureHw D} `{AddrApi} (bar phy_bar : Z -> Z).
Context (bar2_0 : bar 2 = 0) (fuel : nat).

Lemma ends_dsa_mac a : ctl_ok a -> ends (ax_get_dsa_mac bar a) ctl_ok.
Proof using.
  intros [Hr Ht Hd Hm [Hl Hf]]. unfold ax_get_dsa_mac. eapply ends_bind.
  - apply (ends_for _ (fun _ m => length m = 4%nat /\ Forall (fun row => length row = 8%nat) m)); [done |].
    intros i m Hi [Hml Hmf]. eapply ends_bind; [apply ends_readl |]. intros v _.
    assert (Hi2 : 0 <= Z.quot i 2 < 4).
    { split; [apply Z.quot_pos; lia |]. apply Z.quot_lt_upper_bound; lia. }
    rewrite u8_small by (unfold is_u8; lia).
    destruct (getz_in m (Z.quot i 2)) as [row Hrow]; [lia |]. rewrite Hrow.
    assert (Hr8 : length row = 8%nat).
    { rewrite getz_nonneg in Hrow by lia. exact (proj1 (Forall_lookup _ _) Hmf _ _ Hrow). }
    assert (exists row', (if Z.rem i 2 =? 0 then hi_row v row else lo_row v row) = Some row' /\
              length row' = 8%nat) as (row' & Er & El).
    { destruct row as [| r0 [| r1 [| r2 [| r3 [| r4 [| r5 [| r6 [| r7 [|]]]]]]]]]; try discriminate Hr8.
      destruct (Z.rem i 2 =? 0); eexists; split; reflexivity. }
    unfold hi_row, lo_row in Er. cbn [lift_opt].
    eapply ends_bind; [by apply ends_ret with (R := eq row) |]. intros _ <-. rewrite Er. cbn [lift_opt].
    eapply ends_bind; [by apply ends_ret with (R := eq row') |]. intros _ <-.
    rewrite setz_in by lia. apply ends_ret. split; [by rewrite length_insert |]. by apply Forall_insert.
  - intros m Hml. apply ends_ret. by split.
Qed.

(** A request of the kind the C types allow; the raw requests are those whose
    handler exists or is refused. *)
Definition priv_ok (cmd : priv_cmd) : Prop :=
  match cmd with
  | IOCTL_SEND_CMD (Some c) => 0 <= Opcode c /\ Opcode c <> 5
  | IOCTL_SET_DOMAIN_NUMBER_TABLE (Some t) => length t = 3%nat
  | _ => True
  end.

Lemma clean_fifo_runs a c d : (length (fifo Rx d) < fuel)%nat ->
  exists d', runs (ioctl_clean_FIFO bar fuel a c) d (a, set_Status AX_STATUS_SUCCESS c) d' /\ fifo Rx d' = [].
Proof using bar2_0.
  intros Hf. unfold ioctl_clean_FIFO. rewrite bar2_0.
  destruct (runs_while_drain (fifo Rx) (fun _ _ => True) (fun (_ : unit) (_ : hw_capture) => tt)
    (fun _ => let! v := readl (0 + PTP_TIMESTAMP_CTRL) in ret (negb (Z.land v 0x1 =? 0)))
    (fun _ => do! readl (0 + PTP_RX_MESSAGE_INFO) in ret tt)) with (fuel := fuel) (a := tt) (d := d)
    as (d' & R & E & _); [| | done | done |].
  - intros [] d1 _. destruct (fifo_nonempty_runs Rx d1) as (d2 & R & F). exists d2. by split_and!.
  - intros [] d1 e l _ El. destruct (hw_info Rx d1 e l El) as (d2 & E & F & _). exists d2. split_and!; [| done..].
    eapply runs_bind; [by apply runs_readl |]. apply runs_ret.
  - exists d'. split; [| done]. eapply runs_bind; [exact R |]. apply runs_ret.
Qed.

Lemma ends_read_reg a c : ctl_ok a -> ends (ioctl_read_reg bar a c) (fun r => ctl_ok (fst r)).
Proof using.
  intros Ha. unfold ioctl_read_reg. destruct (known_bar _); [| by apply ends_ret].
  eapply ends_bind; [apply ends_readl |]. intros v _. by apply ends_ret.
Qed.

Lemma ends_write_reg a c : ctl_ok a -> ends (ioctl_write_reg bar a c) (fun r => ctl_ok (fst r)).
Proof using.
  intros Ha. unfold ioctl_write_reg. destruct (known_bar _); [| by apply ends_ret].
  eapply ends_bind; [apply ends_writel |]. intros _ _. destruct (_ && _); [| by apply ends_ret].
  eapply ends_bind; [by apply ends_dsa_mac |]. intros a' Ha'. by apply ends_ret.
Qed.

Lemma dispatch_ok a c d : ctl_ok a -> 0 <= Opcode c -> Opcode c <> 5 -> (length (fifo Rx d) < fuel)%nat ->
  exists r d', runs (ioctl_dispatch bar phy_bar fuel a c) d r d' /\ ctl_ok (fst r).
Proof using bar2_0.
  intros Ha Hop H5 Hf. unfold ioctl_dispatch. change (Z.of_nat (length _)) with 5.
  destruct (Z.ltb_spec 5 (Opcode c)) as [Hc | Hc]; [eexists _, _; split; [apply runs_ret | done] |].
  assert (Opcode c = 0 \/ Opcode c = 1 \/ Opcode c = 2 \/ Opcode c = 3 \/ Opcode c = 4) as Hcases by lia.
  assert (Hstep : forall h, getz (ioctl_fun_table bar phy_bar fuel) (Opcode c) = Some h ->
    (exists r d', runs (h a c) d r d' /\ ctl_ok (fst r)) ->
    exists r d', runs (let! h := lift_opt (getz (ioctl_fun_table bar phy_bar fuel) (Opcode c)) in h a c) d r d' /\
      ctl_ok (fst r)).
  { intros h Eh (r & d' & R & Hr). exists r, d'. split; [| done]. rewrite Eh.
    eapply runs_bind; [by apply runs_lift | exact R]. }
  destruct Hcases as [E | [E | [E | [E | E]]]]; rewrite E; rewrite E in Hstep; (eapply Hstep; [reflexivity |]).
  - eexists _, _. split; [apply runs_ret | done].
  - apply (ends_read_reg a c Ha d).
  - apply (ends_write_reg a c Ha d).
  - unfold ioctl_get_bar_base_addr.
    destruct (known_bar _); eexists _, _; (split; [apply runs_ret | done]).
  - destruct (clean_fifo_runs a c d Hf) as (d' & R & _). eexists _, d'. by split.
Qed.

Definition sync_of (a : ax_ctl) (q : TS_QUEUE) (user : option ioctl_timestamp_data) (written : bool)
    : Z * option ioctl_timestamp_data :=
  match user with
  | Some t => if written then sync_reply (tsq_contents q) (domain_number_map a) t else (-1, None)
  | None => (-1, None)
  end.

Lemma sync_of_run queue a user written : queue_ok (queue (axswitch a)) ->
  number_of_domains (axswitch a) = NUM_OF_DOMAIN -> length (domain_number_map a) = 3%nat ->
  ax_get_sync_timestamp queue junk a user written = Some (sync_of a (queue (axswitch a)) user written).
Proof using. intros Hq Hd Hm. destruct user as [t |]; [| done]. by apply sync_timestamp_run. Qed.


End Requests.

(** ** On concrete inputs *)

Module CtlDemo.
Import CaptureSim.

#[export, refine] Instance demo_addr : AddrApi := {
  eth_random_addr := [2; 11; 22; 33; 44; 55];
  is_valid_ether_addr a :=
    match a with [] => false | o :: _ => negb (Z.odd o) && negb (bool_decide (a = replicate 6 0)) end;
  ether_crc a := u32 (foldl (fun h b => h * 0x04c11db7 + b * 2 ^ 26) 0xFFFFFFFF a);
}.
Proof.
  - split; [done |]. repeat constructor; unfold is_u8; lia.
  - intros a Hl _. destruct a as [| o a]; [done |]. rewrite andb_true_iff, !negb_true_iff, bool_decide_eq_false.
    split; [intros [Ho Hz]; split; [by exists o | done] | intros [(o' & [= <-] & Ho) Hz]; done].
  - intros a. apply u32_range.
Defined.

Definition demo_bar (i : Z) : Z := if i =? 2 then 0 else 0x100000 * (i + 1).

(** The queue holds a capture of message 5 on port 1, at 7 s and 21 ns on the
    timer of domain 0. *)
Definition demo_ctl : ax_ctl :=
  mkAxCtl (mkSwitch (mkQueue (TsLive [decode (cap 1 5 20); junk]) 1 1 2) (queue 18) 5 2 0)
    [0; 1; 0] (replicate 4 (replicate 8 0)).

Lemma demo_ctl_ok : ctl_ok demo_ctl.
Proof.
  split; try done.
  - split; [split_and!; simpl; try lia; by eexists |]. repeat constructor; apply u32_range.
  - split; [| by constructor]. split_and!; simpl; try lia. by eexists.
  - split; [done |]. by repeat constructor.
Qed.

Lemma i2c_mac_witness : exists buf d',
  runs (ax_i2c_read demo_bar 3 6 0) ([] : regfile) buf d' /\ buf = [0; 0x0e; 0xc6; 33; 44; 55] /\
  is_valid_ether_addr buf = true.
Proof.
  destruct (i2c_mac_valid demo_bar ([] : regfile) 0) as (buf & d' & R & _ & V & _).
  exists buf, d'. split_and!; [exact R | | exact V].
  eassert (R2 : runs (ax_i2c_read demo_bar 3 6 0) ([] : regfile) [0; 0x0e; 0xc6; 33; 44; 55] _)
    by (eexists; vm_compute; reflexivity).
  exact (proj1 (runs_det _ _ _ _ _ _ R R2)).
Defined.

Definition demo_addrs : list (list Z) :=
  [[0; 14; 198; 1; 2; 3]; [0; 14; 198; 1; 2; 4]; [0; 14; 198; 1; 2; 5]; [0; 14; 198; 1; 2; 6]].
Definition demo_regs : regfile :=
  flat_map (fun '(k, a) => [(DSA_OFFSET + Z.of_nat (2 * k) * 4, mac_hi a);
                            (DSA_OFFSET + Z.of_nat (2 * k + 1) * 4, mac_lo a)])
    (imap (fun k a => (k, a)) demo_addrs).

Lemma dsa_mac_witness : exists d',
  runs (ax_get_dsa_mac demo_bar demo_ctl) demo_regs
    (set_dsa_mac ((fun a => a ++ [0; 0]) <$> demo_addrs) demo_ctl) d'.
Proof.
  destruct (dsa_mac_roundtrip demo_bar demo_ctl demo_addrs demo_regs) as [d' R].
  - reflexivity.
  - repeat constructor; unfold is_u8; lia.
  - reflexivity.
  - repeat constructor.
  - intros k addr Hk. destruct k as [| [| [| [| k]]]]; [injection Hk as <-; vm_compute; reflexivity ..|].
    discriminate Hk.
  - reflexivity.
  - exists d'. exact R.
Defined.

Lemma multicast_filter_witness : exists d' l rx filter,
  ax_net_set_multicast demo_bar 0 [[1; 0; 0x5e; 0; 0; 1]] ([] : regfile) = (Ok tt, d', l) /\
  lets_through rx filter [1; 0; 0x5e; 0; 0; 1] = true /\ lets_through rx filter [1; 0; 0x5e; 0; 0; 2] = false.
Proof.
  destruct (multicast_filter_exact demo_bar 0 [[1; 0; 0x5e; 0; 0; 1]] ([] : regfile))
    as (d' & l & rx & filter & E & _ & _ & _ & _ & _ & Hin & Hout).
  exists d', l, rx, filter. split_and!; [exact E | apply Hin; by left |].
  rewrite Hout; vm_compute; reflexivity.
Defined.

Definition raw (op : Z) : IOCTL := mkIoctl (replicate 8 0) op 0 0 0 0.


End CtlDemo.
