(* ===== verification/NicProbe.v ===== *)
(** * Binding the driver to a card (xdma_mod.c)

    The probe of the PCI driver opens the endpoint, makes the network device and
    sets up what hangs on it: the queues of captures, the MDIO bus, the clocks,
    the PHYs, the link timer, the switch driver and the entries in /proc; its
    removal undoes that.  What is taken from the kernel besides the resources of
    [XdmaDev] is counted the same way. *)

From Stdlib Require Import ZArith Lia Bool.
From S2P Require Import Prelude.
From S2P Require Import Mmio.
From S2P Require Import TsQueue.
From S2P Require Import TsCapture.
From S2P Require Import PtpClock.
From S2P Require Import Kernel.
From S2P Require Import NicMdio.
From S2P Require Import NicCtl.
From S2P Require Import XdmaEngine.
From S2P Require Import XdmaDev.
From S2P Require Import XdmaBars.
From S2P Require Import XdmaLife.
From S2P Require Import XdmaIsr.

Definition DRIVER_VERSION : Z := 0x0000.
Definition CORE_VERSION : Z := 0x0000.

Inductive proc_entry := IfnameOld | IfnameNew | CoreVersion.
#[export] Instance proc_entry_eq_dec : EqDecision proc_entry.
Proof. solve_decision. Defined.

(** What is taken from the kernel for the network device, and given back. *)
Inductive net_resource :=
| PciDev                          (* kmalloc, kfree of the xdma_pci_dev *)
| NetDevice                       (* alloc_etherdev, free_netdev *)
| CaptureArray (d : capture_dir)  (* kmalloc of the array of a queue *)
| NapiContext                     (* netif_napi_add, netif_napi_del *)
| NetRegistered                   (* register_netdev, unregister_netdev *)
| MiiBus                          (* mdiobus_alloc, mdiobus_free *)
| MiiRegistered                   (* mdiobus_register, mdiobus_unregister *)
| MdioDevice                      (* mdio_device_create, mdio_device_free *)
| MdioDeviceRegistered            (* mdio_device_register *)
| PtpClock (i : Z)                (* ptp_clock_register, ptp_clock_unregister *)
| PhyTimer                        (* mod_timer, del_timer_sync *)
| MdioDriver                      (* mdio_driver_register, mdio_driver_unregister *)
| ProcDir                         (* proc_mkdir, remove_proc_entry *)
| ProcEntry (e : proc_entry).     (* proc_create_data, proc_remove *)
#[export] Instance capture_dir_eq_dec : EqDecision capture_dir.
Proof. solve_decision. Defined.
#[export] Instance net_resource_eq_dec : EqDecision net_resource.
Proof. solve_decision. Defined.

Class NetApi (N : Type) := {
  net_acquire : net_resource -> N -> Z * N;
  net_release : net_resource -> N -> N;
  net_held : N -> net_resource -> Z;
  net_held_nonneg n r : 0 <= net_held n r;
  net_acquire_neg r n : fst (net_acquire r n) <= 0;
  net_acquire_held r n x : net_held (snd (net_acquire r n)) x =
    net_held n x + (if decide (fst (net_acquire r n) = 0 /\ r = x) then 1 else 0);
  net_release_held r n x : 1 <= net_held n r -> net_held (net_release r n) x = net_held n x - (if decide (r = x) then 1 else 0);
  (* these cannot fail *)
  napi_added n : fst (net_acquire NapiContext n) = 0;
  timer_set n : fst (net_acquire PhyTimer n) = 0;

  capture_memory : Z -> list CAPTURE_DATA;     (* what kmalloc finds in an array *)
  ptp_clock_index : option Z -> option Z;      (* of a clock; a null pointer may fault *)
  capture_memory_length n : 0 <= n -> Z.of_nat (length (capture_memory n)) = n;
  ptp_clock_index_some c : is_Some (ptp_clock_index (Some c));
}.

(** A pointer to an object of which there is one. *)
Inductive ptr (A : Type) := PNull | PLive (a : A) | PFreed.
#[global] Arguments PNull {A}.
#[global] Arguments PLive {A}.
#[global] Arguments PFreed {A}.

(** The [xdma_pci_dev]; [pd_xdev] is not initialised by its allocation, and [pd_ax]
    tells whether [ax_netdev_priv] is set. *)
Record xdma_pci_dev := mkPciDev {
  pd_xdev : option Z;
  pd_user_max : Z;
  pd_h2c_max : Z;
  pd_c2h_max : Z;
  pd_ax : bool;
}.
Definition set_pd_xdev x p := mkPciDev x (pd_user_max p) (pd_h2c_max p) (pd_c2h_max p) (pd_ax p).
Definition set_pd_maxima u h c p := mkPciDev (pd_xdev p) u h c (pd_ax p).
Definition set_pd_ax x p := mkPciDev (pd_xdev p) (pd_user_max p) (pd_h2c_max p) (pd_c2h_max p) x.

(** What the probe sets in the [ax_private], zeroed with its network device.  The
    pointers are given as whether they are set. *)
Record ax_private := mkAxPriv {
  ap_dev : bool;
  ap_mdio : bool;
  ap_mdiodev : bool;
  ap_switch : ax_switch;
  ap_clocks : list (ax_ptp_clock_data Z);
  ap_mac : list Z;                    (* dev_addr of the network device *)
  ap_proc_dir : bool;
  ap_proc : proc_entry -> bool;
}.
Definition set_ap_dev x a := mkAxPriv x (ap_mdio a) (ap_mdiodev a) (ap_switch a) (ap_clocks a) (ap_mac a) (ap_proc_dir a) (ap_proc a).
Definition set_ap_mdio x a := mkAxPriv (ap_dev a) x (ap_mdiodev a) (ap_switch a) (ap_clocks a) (ap_mac a) (ap_proc_dir a) (ap_proc a).
Definition set_ap_mdiodev x a := mkAxPriv (ap_dev a) (ap_mdio a) x (ap_switch a) (ap_clocks a) (ap_mac a) (ap_proc_dir a) (ap_proc a).
Definition set_ap_switch x a := mkAxPriv (ap_dev a) (ap_mdio a) (ap_mdiodev a) x (ap_clocks a) (ap_mac a) (ap_proc_dir a) (ap_proc a).
Definition set_ap_clocks x a := mkAxPriv (ap_dev a) (ap_mdio a) (ap_mdiodev a) (ap_switch a) x (ap_mac a) (ap_proc_dir a) (ap_proc a).
Definition set_ap_mac x a := mkAxPriv (ap_dev a) (ap_mdio a) (ap_mdiodev a) (ap_switch a) (ap_clocks a) x (ap_proc_dir a) (ap_proc a).
Definition set_ap_proc_dir x a := mkAxPriv (ap_dev a) (ap_mdio a) (ap_mdiodev a) (ap_switch a) (ap_clocks a) (ap_mac a) x (ap_proc a).
Definition set_ap_proc e a := mkAxPriv (ap_dev a) (ap_mdio a) (ap_mdiodev a) (ap_switch a) (ap_clocks a) (ap_mac a) (ap_proc_dir a)
  (fun e' => if decide (e = e') then true else ap_proc a e').

Definition empty_queue : TS_QUEUE := mkQueue TsNull 0 0 0.
Definition zero_ax : ax_private :=
  mkAxPriv false false false (mkSwitch empty_queue empty_queue 0 0 0) [] (replicate 6 0) false (fun _ => false).

(** The endpoint, the kernel, the two objects, whether the driver data of the
    PCI device is set, the global [xdma_desc_flag], and the functions of the user
    interrupts. *)
Record binding (K N : Type) := mkBinding {
  bd_x : xs K;
  bd_net : N;
  bd_pci : ptr xdma_pci_dev;
  bd_ax : ptr ax_private;
  bd_drvdata : bool;
  bd_desc_flag : Z;
  bd_handlers : list (option user_function);
}.
#[global] Arguments mkBinding {K N}.
#[global] Arguments bd_x {K N}.
#[global] Arguments bd_net {K N}.
#[global] Arguments bd_pci {K N}.
#[global] Arguments bd_ax {K N}.
#[global] Arguments bd_drvdata {K N}.
#[global] Arguments bd_desc_flag {K N}.
#[global] Arguments bd_handlers {K N}.
Definition set_bd_x {K N} (x : xs K) (s : binding K N) := mkBinding x (bd_net s) (bd_pci s) (bd_ax s) (bd_drvdata s) (bd_desc_flag s) (bd_handlers s).
Definition set_bd_net {K N} (x : N) (s : binding K N) := mkBinding (bd_x s) x (bd_pci s) (bd_ax s) (bd_drvdata s) (bd_desc_flag s) (bd_handlers s).
Definition set_bd_pci {K N} x (s : binding K N) := mkBinding (bd_x s) (bd_net s) x (bd_ax s) (bd_drvdata s) (bd_desc_flag s) (bd_handlers s).
Definition set_bd_ax {K N} x (s : binding K N) := mkBinding (bd_x s) (bd_net s) (bd_pci s) x (bd_drvdata s) (bd_desc_flag s) (bd_handlers s).
Definition set_bd_drvdata {K N} x (s : binding K N) := mkBinding (bd_x s) (bd_net s) (bd_pci s) (bd_ax s) x (bd_desc_flag s) (bd_handlers s).
Definition set_bd_desc_flag {K N} x (s : binding K N) := mkBinding (bd_x s) (bd_net s) (bd_pci s) (bd_ax s) (bd_drvdata s) x (bd_handlers s).
Definition set_bd_handlers {K N} x (s : binding K N) := mkBinding (bd_x s) (bd_net s) (bd_pci s) (bd_ax s) (bd_drvdata s) (bd_desc_flag s) x.

Section Probe.
Context {K N : Type} `{!Device K} `{!PciApi K} `{!NetApi N} {addr : AddrApi}.
Notation B := (st (binding K N)).

(** ** Access to the state *)

Definition on_x {A} (m : st (xs K) A) : B A := fun s =>
  match m (bd_x s) with Some (a, x) => Some (a, set_bd_x x s) | None => None end.
Definition on_io {A} (m : io K A) : B A := on_x (io_st m).
Definition ntake (r : net_resource) : B Z := fun s =>
  let '(rv, n) := net_acquire r (bd_net s) in Some (rv, set_bd_net n s).
Definition nadd (r : net_resource) : B unit := _ ← ntake r; mret tt.
(** Giving back what is not held is a fault; [nstop] is for what may be given
    back twice. *)
Definition ndrop (r : net_resource) : B unit := fun s =>
  if 1 <=? net_held (bd_net s) r then Some (tt, set_bd_net (net_release r (bd_net s)) s) else None.
Definition nstop (r : net_resource) : B bool := fun s =>
  if 1 <=? net_held (bd_net s) r then Some (true, set_bd_net (net_release r (bd_net s)) s) else Some (false, s).

Definition live {A} (p : ptr A) : B A := match p with PLive a => mret a | _ => fault end.
Definition get_pci : B xdma_pci_dev := s ← get_st; live (bd_pci s).
Definition get_ax : B ax_private := s ← get_st; live (bd_ax s).
Definition upd_pci (f : xdma_pci_dev -> xdma_pci_dev) : B unit :=
  p ← get_pci; modify (set_bd_pci (PLive (f p))).
Definition upd_ax (f : ax_private -> ax_private) : B unit :=
  a ← get_ax; modify (set_bd_ax (PLive (f a))).
Definition bar (i : Z) : B Z := on_x (bar_at i).

(** ** Parts *)

Definition pcidev_alloc : B bool :=
  rv ← ntake PciDev;
  if negb (rv =? 0) then mret false
  else _ ← modify (set_bd_pci (PLive (mkPciDev None MAX_USER_IRQ XDMA_CHANNEL_NUM_MAX 1 false))); mret true.

(** A handle that is null is not closed. *)
Definition xpdev_free (pdev : Z) : B unit :=
  p ← get_pci;
  _ ← upd_pci (set_pd_xdev None);
  _ ← (match pd_xdev p with Some x => on_x (xdma_device_close pdev x) | None => mret tt end);
  _ ← ndrop PciDev;
  modify (set_bd_pci PFreed).

(** The private data goes with the device; a registered one must not be freed, and
    its NAPI contexts go first. *)
Definition free_netdev : B unit :=
  s ← get_st;
  if 1 <=? net_held (bd_net s) NetRegistered then fault
  else _ ← nstop NapiContext; _ ← ndrop NetDevice; modify (set_bd_ax PFreed).

(** [ax_tsn_init_switch] on the zeroed switch: the second array is asked for only
    if the first was had, and the first queue is emptied when it was not. *)
Definition init_switch : B Z :=
  rx ← ntake (CaptureArray Rx);
  tx ← (if rx =? 0 then ntake (CaptureArray Tx) else mret (-1));
  a ← get_ax;
  let answer rv n := if rv =? 0 then Some (capture_memory n) else None in
  let r := ax_tsn_init_switch (answer rx) (answer tx) (Some (ap_switch a)) in
  _ ← (match snd r with Some w => upd_ax (set_ap_switch w) | None => mret tt end);
  mret (fst r).

Definition ax_init_mdio : B Z :=
  rv ← ntake MiiBus;
  if negb (rv =? 0) then mret (- ENOMEM)
  else
    _ ← upd_ax (set_ap_mdio true);
    ret ← ntake MiiRegistered;
    if negb (ret =? 0) then _ ← ndrop MiiBus; _ ← upd_ax (set_ap_mdio false); mret ret
    else mret 0.

(** The bus is read for the name of the device. *)
Definition ax_create_mdio_dev : B Z :=
  a ← get_ax;
  if negb (ap_mdio a) then fault
  else
    rv ← ntake MdioDevice;
    if negb (rv =? 0) then mret (- ENOMEM)
    else
      ret ← ntake MdioDeviceRegistered;
      if negb (ret =? 0) then _ ← ndrop MdioDevice; mret ret
      else _ ← upd_ax (set_ap_mdiodev true); mret ret.

(** [mdiobus_unregister] removes the devices registered on the bus. *)
Definition mdiobus_unregister : B unit :=
  some_device ← nstop MdioDeviceRegistered;
  _ ← (if (some_device : bool) then ndrop MdioDevice else mret tt);
  ndrop MiiRegistered.
Definition ax_remove_mdio : B unit :=
  a ← get_ax;
  if negb (ap_mdio a) then fault
  else _ ← mdiobus_unregister; ndrop MiiBus.

(** The registers of the switch, addressed from [pMemBase]. *)
Definition switch_regs (base : Z) : Device K := {|
  dev_read a k := dev_read (base + a) k;
  dev_write a v k := dev_write (base + a) v k;
|}.
Definition init_clocks : B unit :=
  base ← bar 2;
  r0 ← ntake (PtpClock 0);
  r1 ← ntake (PtpClock 1);
  let register i := if (if i =? 0 then r0 else r1) =? 0 then Some i else None in
  clocks ← on_io (@ax_ptp_init K (switch_regs base) Z register ptp_clock_index);
  upd_ax (set_ap_clocks clocks).
Fixpoint unregister_clocks (l : list Z) : B unit :=
  match l with [] => mret tt | i :: l => _ ← ndrop (PtpClock i); unregister_clocks l end.
Definition remove_clocks : B unit := a ← get_ax; unregister_clocks (ax_ptp_remove (ap_clocks a)).

Definition ax_phy_timer_init : B unit := nadd PhyTimer.

(** The PHYs, with the number of ports of the switch. *)
Definition setup_phys : B unit :=
  b2 ← bar 2;
  a ← get_ax;
  let n := number_of_ports (ap_switch a) in
  _ ← on_io (ax_init_rgmii b2 n 5);
  _ ← on_io (ax_init_phy_led b2 n);
  _ ← on_io (ax_phy_greeneth b2 n false);
  _ ← on_io (ax_phy_EEE b2 n false);
  _ ← on_io (ax_phy_PTP b2 n false);
  _ ← on_io (ax_phy_serdes b2 n false);
  on_io (ax_restart_autoneg b2 n).

(** ** Errors *)

Definition remove_proc (e : proc_entry) : B unit :=
  a ← get_ax; if ap_proc a e then ndrop (ProcEntry e) else mret tt.

Definition remove_proc_dir : B unit :=
  a ← get_ax; if ap_proc_dir a then ndrop ProcDir else mret tt.

(** [err_out]: the regions and the device are given back before the close, which
    gives them back too. *)
Definition err_out (pdev rv : Z) : B Z :=
  p ← get_pci;
  _ ← deref (pd_xdev p);
  d ← on_x get_dev;
  _ ← (if xd_got_regions d then on_x (give Regions) else mret tt);
  _ ← (if negb (xd_regions_in_use d) then on_x (give PciDevice) else mret tt);
  _ ← xpdev_free pdev;
  a ← get_ax;
  _ ← (if ap_dev a then free_netdev else mret tt);
  _ ← remove_proc_dir;
  _ ← remove_proc IfnameNew;
  _ ← remove_proc IfnameOld;
  _ ← remove_proc CoreVersion;
  mret rv.
Definition err_out1 (pdev rv : Z) : B Z := _ ← ndrop NapiContext; err_out pdev rv.

(** ** The probe *)

(** From [proc_create_data] on, one entry after the other. *)
Fixpoint create_procs (pdev : Z) (l : list proc_entry) (k : B Z) : B Z :=
  match l with
  | [] => k
  | e :: l =>
      rv ← ntake (ProcEntry e);
      if negb (rv =? 0) then err_out1 pdev (- EINVAL)
      else _ ← upd_ax (set_ap_proc e); create_procs pdev l k
  end.
Definition probe_procs (pdev : Z) : B Z :=
  rv ← ntake ProcDir;
  if negb (rv =? 0) then err_out1 pdev (- ENODEV)
  else
    _ ← upd_ax (set_ap_proc_dir true);
    create_procs pdev [IfnameOld; IfnameNew; CoreVersion]
      (b0 ← bar 0; _ ← on_io (readl (b0 + DRIVER_VERSION));
       b2 ← bar 2; _ ← on_io (readl (b2 + CORE_VERSION));
       mret 0).

(** From [ax_init_mdio] on; none of these results is looked at. *)
Definition probe_services : B unit :=
  _ ← ax_init_mdio;
  _ ← ax_create_mdio_dev;
  _ ← init_clocks;
  _ ← modify (fun s => set_bd_handlers (xdma_user_isr_register (msi_msix_capable PCI_CAP_ID_MSIX) (bd_handlers s)) s);
  _ ← on_x (xdma_user_isr_enable 0xFE);
  _ ← setup_phys;
  _ ← ax_phy_timer_init;
  nadd MdioDriver.

(** From [ax_tsn_init_switch] on. *)
Definition probe_netdev (pdev : Z) : B Z :=
  r ← init_switch;
  if negb (r =? 0) then err_out pdev 0
  else
    _ ← upd_ax (set_ap_dev true);
    _ ← upd_pci (set_pd_ax true);
    b2 ← bar 2;
    dev_addr ← on_io (ax_i2c_read (fun _ => b2) 3 6 0);
    _ ← nadd NapiContext;
    _ ← upd_ax (set_ap_mac dev_addr);
    if negb (is_valid_ether_addr dev_addr) then err_out pdev 0
    else
      b0 ← bar 0;
      _ ← on_io (ax_set_mac_reg (fun _ => b0) dev_addr);
      rv ← ntake NetRegistered;
      if negb (rv =? 0) then err_out1 pdev 0
      else _ ← probe_services; probe_procs pdev.

(** From [pcidev->xdev = hndl] on. *)
Definition probe_device (pdev xdev : Z) : B Z :=
  _ ← upd_pci (set_pd_xdev (Some xdev));
  _ ← modify (set_bd_desc_flag 0);
  rv ← ntake NetDevice;
  if negb (rv =? 0) then err_out pdev 0
  else
    _ ← modify (set_bd_ax (PLive zero_ax));
    _ ← modify (set_bd_drvdata true);
    probe_netdev pdev.

(** [xdev] is the address of the new [xdma_dev]; the mask of the user interrupts
    leaves out the first, which the tasklet replaces. *)
Definition axm57104_probe (pdev xdev : Z) : B Z :=
  ok ← pcidev_alloc;
  if negb ok then mret (- ENOMEM)
  else
    hndl ← on_x (xdma_device_open xdev pdev MAX_USER_IRQ XDMA_CHANNEL_NUM_MAX 1);
    match hndl with
    | None => mret (- EINVAL)
    | Some (user_max, h2c, c2h) =>
        _ ← upd_pci (set_pd_maxima user_max h2c c2h);
        if (h2c =? 0) && (c2h =? 0) then mret (- EINVAL)
        else
          _ ← (if negb (user_max =? 0) then
                 on_x (xdma_user_isr_enable (Z.land (u32 (Z.shiftl 1 (user_max + 1) - 1)) 0xFFFE))
               else mret tt);
          found ← on_x (xdev_find_by_pdev pdev);
          match found with
          | None => mret (- EINVAL)
          | Some x => if negb (x =? xdev) then fault else probe_device pdev xdev
          end
    end.

(** ** The removal *)

Definition axm57104_remove (pdev : Z) : B unit :=
  s ← get_st;
  if negb (bd_drvdata s) then mret tt
  else
    p ← get_pci;
    if negb (pd_ax p) then fault
    else
      _ ← nstop PhyTimer;
      _ ← remove_proc IfnameNew;
      _ ← remove_proc IfnameOld;
      _ ← remove_proc CoreVersion;
      _ ← remove_proc_dir;
      _ ← ndrop NapiContext;
      _ ← on_x (xdma_user_isr_disable 0xFE);
      _ ← remove_clocks;
      _ ← nstop MdioDriver;
      _ ← ax_remove_mdio;
      _ ← ndrop NetRegistered;
      _ ← free_netdev;
      _ ← xpdev_free pdev;
      modify (set_bd_drvdata false).

(** *** Errors of the bus *)

Inductive pci_channel_state := IoNormal | IoFrozen | IoPermFailure.
Inductive pci_ers_result := ErsCanRecover | ErsNeedReset | ErsDisconnect | ErsRecovered.

Definition pci_xdev : B Z := p ← get_pci; deref (pd_xdev p).
Definition axpci_error_detected (pdev : Z) (state : pci_channel_state) : B pci_ers_result :=
  match state with
  | IoNormal => mret ErsCanRecover
  | IoFrozen =>
      x ← pci_xdev;
      _ ← on_x (xdma_device_offline pdev x);
      _ ← on_x (give PciDevice);
      mret ErsNeedReset
  | IoPermFailure => mret ErsDisconnect
  end.
Definition axpci_slot_reset (pdev : Z) : B pci_ers_result :=
  rv ← on_x (take PciDevice);
  if negb (rv =? 0) then mret ErsDisconnect
  else
    _ ← on_x (hw pci_set_master);
    x ← pci_xdev;
    _ ← on_x (xdma_device_online pdev x);
    mret ErsRecovered.

End Probe.

(** ** Theorems *)

(** *** Programs of registers leave what is held alone *)

Section Keeps.
Context {K : Type} `{!Device K} `{!PciApi K} {addr : AddrApi}.

Definition stays {A} (m : io K A) : Prop := forall k x, pci_held (snd (fst (m k))) x = pci_held k x.

Lemma stays_ret {A} (a : A) : stays (ret a).
Proof. done. Qed.
Lemma stays_trap {A} : stays (trap (A := A)).
Proof. done. Qed.
Lemma stays_nofuel {A} : stays (fun k => (NoFuel (A := A), k, [])).
Proof. done. Qed.
Lemma stays_lift {A} (o : option A) : stays (lift_opt o).
Proof. by destruct o. Qed.
Lemma stays_readl a : stays (readl a).
Proof. intros k x. pose proof (quiet_read a k x) as Hq. unfold readl. by destruct (dev_read a k). Qed.
Lemma stays_writel a v : stays (writel a v).
Proof. intros k x. apply quiet_write. Qed.
Lemma stays_readl_at b a : stays (@readl K (switch_regs b) a).
Proof. intros k x. pose proof (quiet_read (b + a) k x) as Hq. unfold readl. cbn. by destruct (dev_read (b + a) k). Qed.
Lemma stays_writel_at b a v : stays (@writel K (switch_regs b) a v).
Proof. intros k x. apply (quiet_write (b + a) (u32 v) k x). Qed.
Lemma stays_bind {A B} (m : io K A) (f : A -> io K B) : stays m -> (forall a, stays (f a)) -> stays (bind m f).
Proof.
  intros Hm Hf k x. specialize (Hm k x). unfold bind. destruct (m k) as [[[a | |] k1] l1]; cbn in *; [| done ..].
  specialize (Hf a k1 x). destruct (f a k1) as [[r k2] l2]. cbn in *. congruence.
Qed.
Lemma stays_for {A} (body : Z -> A -> io K A) n : forall i a, (forall i a, stays (body i a)) -> stays (for_io n i body a).
Proof. induction n as [| n IH]; intros i a Hb; cbn [for_io]; [done |]. apply stays_bind; [done |]. intros b. by apply IH. Qed.

Lemma quiet_ends {A} (m : io K A) R : ends m R -> stays m -> quiet m R.
Proof.
  intros He Hk k. destruct (He k) as (a & k' & [l E] & Ha). exists a, k', l. split_and!; [done .. |].
  intros x. specialize (Hk k x). by rewrite E in Hk.
Qed.

End Keeps.

Ltac stays := repeat first
  [ apply stays_bind; [| intros ?] | apply stays_readl | apply stays_writel | apply stays_readl_at | apply stays_writel_at | apply stays_ret | apply stays_lift
  | apply stays_trap | apply stays_nofuel | apply stays_for; intros ? ? | case_match | done ].

Section Quiet.
Context {K : Type} `{!Device K} `{!PciApi K} {addr : AddrApi}.
Implicit Types (b n i : Z).

Lemma stays_wait b k : stays (K := K) (mdio_wait b k).
Proof. induction k as [| k IH]; cbn [mdio_wait]; stays. Qed.
Lemma stays_phy_read b i r : stays (K := K) (phy_read b i r).
Proof. unfold phy_read, ax_mdio_read. repeat first [apply stays_wait | progress stays]. Qed.
Lemma stays_phy_write b i r v : stays (K := K) (phy_write b i r v).
Proof. unfold phy_write, ax_mdio_write. repeat first [apply stays_wait | progress stays]. Qed.
Lemma stays_poll b fuel : forall i m r, stays (K := K) (rgmii_poll b fuel i m r).
Proof.
  induction fuel as [| fuel IH]; intros i m r; cbn [rgmii_poll]; [stays |].
  apply stays_bind; [apply stays_phy_read |]. intros v. cbv zeta. destruct (_ || _); [stays | apply IH].
Qed.
Lemma stays_tries b fuel tries : forall i m r, stays (K := K) (rgmii_tries b fuel tries i m r).
Proof.
  induction tries as [| tries IH]; intros i m r; cbn [rgmii_tries]; [stays |].
  apply stays_bind; [apply stays_phy_write |]. intros _. apply stays_bind; [apply stays_poll |]. intros p.
  destruct (_ =? 3); [stays | apply IH].
Qed.
Lemma stays_i2c_loop (b : Z -> Z) fuel : forall i len a, stays (K := K) (i2c_read_loop b fuel i len a).
Proof.
  induction fuel as [| fuel IH]; intros i len a; cbn [i2c_read_loop]; [stays |].
  apply stays_bind; [unfold _ax_i2c_read; stays |]. intros buf.
  destruct (vendor_oui buf); [destruct (_ <=? 8); stays |]. destruct (_ <=? i); [stays | apply IH].
Qed.

(** *** The programs of the probe end *)

Lemma quiet_mac (b : Z -> Z) a : quiet (K := K) (ax_i2c_read b 3 6 a) oui_address.
Proof. apply quiet_ends; [apply ends_i2c_loop; unfold CHECK_MAC_COUNT; lia | apply stays_i2c_loop]. Qed.

Lemma quiet_set_mac (b : Z -> Z) buf : oui_address buf -> quiet (K := K) (ax_set_mac_reg b buf) (fun _ => True).
Proof.
  intros (Hl & _ & _). apply quiet_ends; [| unfold ax_set_mac_reg; stays].
  destruct buf as [| b0 [| b1 [| b2 [| b3 [| b4 [| b5 [|]]]]]]]; try discriminate Hl.
  unfold ax_set_mac_reg. intros d. eexists tt, _. split; [| done].
  do 2 (eapply runs_bind; [by apply runs_lift |]). eapply runs_bind; [apply runs_writel |].
  do 4 (eapply runs_bind; [by apply runs_lift |]). apply runs_writel.
Qed.

Lemma ends_phys n (body : Z -> io K unit) : (forall i, ends (body i) (fun _ => True)) -> ends (for_phys n body) (fun _ => True).
Proof. intros Hb. apply (ends_for _ (fun _ _ => True)); [done |]. intros i u _ _. apply Hb. Qed.
Lemma stays_phys n (body : Z -> io K unit) : (forall i, stays (body i)) -> stays (for_phys n body).
Proof. intros Hb. by apply stays_for. Qed.

Lemma quiet_phys n (body : Z -> io K unit) : (forall i, ends (body i) (fun _ => True)) -> (forall i, stays (body i)) ->
  quiet (for_phys n body) (fun _ => True).
Proof. intros. apply quiet_ends; [by apply ends_phys | by apply stays_phys]. Qed.

Lemma quiet_rgmii b n : 1 <= n <= 84 -> quiet (K := K) (ax_init_rgmii b n 5) (fun _ => True).
Proof.
  intros Hn. apply quiet_ends.
  - intros d. destruct (init_rgmii_ends b n d Hn) as (f & d' & R & _). by exists f, d'.
  - unfold ax_init_rgmii. apply stays_bind; [| stays]. apply stays_for. intros i [[m r] f].
    apply stays_bind; [apply stays_phy_read |]. intros v. destruct (link_done v); [stays |].
    apply stays_bind; [apply stays_tries |]. intros [m' r']. stays.
Qed.
End Quiet.

(** One access to a PHY. *)
Ltac phy_ends := first
  [ eapply ends_bind; [apply ends_phy_write |]; intros _ _ | eapply ends_bind; [apply ends_phy_read |]; intros ? _
  | apply ends_phy_write ].
Ltac phy_stays := first
  [ apply stays_bind; [apply stays_phy_write |]; intros _ | apply stays_bind; [apply stays_phy_read |]; intros ?
  | apply stays_phy_write ].

Section Phys.
Context {K : Type} `{!Device K} `{!PciApi K}.
Implicit Types (b n : Z).

Lemma quiet_led b n : quiet (K := K) (ax_init_phy_led b n) (fun _ => True).
Proof. apply quiet_phys; intros i; repeat first [phy_ends | phy_stays]. Qed.
Lemma quiet_greeneth b n e : quiet (K := K) (ax_phy_greeneth b n e) (fun _ => True).
Proof. apply quiet_phys; intros i; repeat first [phy_ends | phy_stays]. Qed.
Lemma quiet_eee b n e : quiet (K := K) (ax_phy_EEE b n e) (fun _ => True).
Proof. apply quiet_phys; intros i; repeat first [phy_ends | phy_stays]. Qed.
Lemma quiet_phy_ptp b n e : quiet (K := K) (ax_phy_PTP b n e) (fun _ => True).
Proof. apply quiet_phys; intros i; repeat first [phy_ends | phy_stays]. Qed.
Lemma quiet_serdes b n e : quiet (K := K) (ax_phy_serdes b n e) (fun _ => True).
Proof. apply quiet_phys; intros i; repeat first [phy_ends | phy_stays]. Qed.
Lemma quiet_autoneg b n : quiet (K := K) (ax_restart_autoneg b n) (fun _ => True).
Proof. apply quiet_phys; intros i; unfold __ax_restart_autoneg; repeat first [phy_ends | phy_stays]. Qed.

Lemma quiet_clocks base (reg : Z -> option Z) (idx : option Z -> option Z) p0 p1 :
  reg 0 = Some p0 -> reg 1 = Some p1 -> (forall p, is_Some (idx (Some p))) ->
  quiet (@ax_ptp_init K (switch_regs base) Z reg idx) (fun l => ax_ptp_remove l = [p0; p1]).
Proof.
  intros E0 E1 Hs. apply quiet_ends; [| unfold ax_ptp_init; stays].
  destruct (Hs p0) as [i0 I0], (Hs p1) as [i1 I1]. unfold ax_ptp_init. change (Z.to_nat PTP_DOMAIN_NUM) with 2%nat. cbn [for_io].
  change (0 + 1) with 1. rewrite E0, E1, I0, I1.
  eapply (ends_bind _ _ (fun l => ax_ptp_remove l = [p0])).
  - eapply ends_bind; [apply ends_writel |]. intros _ _. eapply ends_bind; [apply ends_readl |]. intros v _.
    eapply ends_bind; [by apply (ends_ret i0 (fun _ => True)) |]. intros i _. by apply ends_ret.
  - intros l El. eapply ends_bind; [| intros l2 H2; apply ends_ret, H2].
    eapply ends_bind; [apply ends_writel |]. intros _ _. eapply ends_bind; [apply ends_readl |]. intros v _.
    eapply ends_bind; [by apply (ends_ret i1 (fun _ => True)) |]. intros i _. apply ends_ret.
    unfold ax_ptp_remove in *. rewrite omap_app, El. done.
Qed.
End Phys.

(** *** What is held *)

Definition none (r x : net_resource) : Z := if decide (r = x) then 1 else 0.

(** What the probe takes for a device that works, and what may be missing: the
    device on the MDIO bus and its driver. *)
Definition held_bound (dev drv : bool) (x : net_resource) : Z :=
  none PciDev x + none NetDevice x + none (CaptureArray Rx) x + none (CaptureArray Tx) x + none NapiContext x +
  none NetRegistered x + none MiiBus x + none MiiRegistered x + (if dev then none MdioDevice x + none MdioDeviceRegistered x else 0) +
  none (PtpClock 0) x + none (PtpClock 1) x + none PhyTimer x + (if drv then none MdioDriver x else 0) + none ProcDir x +
  none (ProcEntry IfnameOld) x + none (ProcEntry IfnameNew) x + none (ProcEntry CoreVersion) x.

Section Bind.
Context {K N : Type} `{!Device K} `{!PciApi K} `{!NetApi N} {addr : AddrApi}.
Implicit Types (s : binding K N) (f : net_resource -> Z).

(** What the probe cannot do without: when one of these fails, its error path
    frees what is in use or reads what was freed. *)
Definition needed : list net_resource :=
  [NetDevice; CaptureArray Rx; CaptureArray Tx; NetRegistered; MiiBus; MiiRegistered; PtpClock 0; PtpClock 1;
   ProcDir; ProcEntry IfnameOld; ProcEntry IfnameNew; ProcEntry CoreVersion].
Context (Hneeded : forall r (n : N), r ∈ needed -> fst (net_acquire r n) = 0).
(** The two regions the network device uses are there. *)
Context (Hbar0 : u64 (pci_resource_len 0) <> 0) (Hbar2 : u64 (pci_resource_len 2) <> 0).
(** What was held before. *)
Context (b : pci_resource -> Z) (n0 : net_resource -> Z) (Hn0 : forall x, 0 <= n0 x)
  (Hnew : forall x, (forall d, x <> CaptureArray d) -> x <> PciDev -> n0 x = 0) (L : list xdev_entry).

(** An open device with these objects; [f] is what is held of the network. *)
Record at_ f (p : xdma_pci_dev) s : Prop := {
  at_open : exists e, opened b e (bd_x s);
  at_list : xs_list (bd_x s) = L;
  at_net : forall x, net_held (bd_net s) x = n0 x + f x;
  at_pci : bd_pci s = PLive p;
}.
Record with_ax f p (a : ax_private) s : Prop := {
  wa_at : at_ f p s;
  wa_ax : bd_ax s = PLive a;
  wa_drv : bd_drvdata s = true;
}.

Lemma total_on_x {A} (m : st (xs K) A) s (Q : A -> binding K N -> Prop) :
  total m (bd_x s) (fun a x => Q a (set_bd_x x s)) -> total (on_x m) s Q.
Proof. unfold total, on_x. by destruct (m (bd_x s)) as [[a x] |]. Qed.

Lemma total_ntake r s (Q : Z -> binding K N -> Prop) :
  (forall rv n, rv = fst (net_acquire r (bd_net s)) -> rv <= 0 ->
     (forall x, net_held n x = net_held (bd_net s) x + (if rv =? 0 then none r x else 0)) -> Q rv (set_bd_net n s)) ->
  total (ntake r) s Q.
Proof.
  intros HQ. unfold total, ntake. pose proof (net_acquire_neg r (bd_net s)) as Hneg. pose proof (net_acquire_held r (bd_net s)) as Hh.
  destruct (net_acquire r (bd_net s)) as [rv n]. cbn in *. apply HQ; [done .. |]. intros x. rewrite Hh. unfold none.
  destruct (rv =? 0) eqn:E; repeat case_decide; try lia; exfalso; naive_solver lia.
Qed.

Lemma total_ndrop r s (Q : unit -> binding K N -> Prop) : 1 <= net_held (bd_net s) r ->
  (forall n, (forall x, net_held n x = net_held (bd_net s) x - none r x) -> Q tt (set_bd_net n s)) -> total (ndrop r) s Q.
Proof.
  intros H HQ. unfold total, ndrop. rewrite (proj2 (Z.leb_le _ _)) by done. apply HQ. intros x. by apply net_release_held.
Qed.

Lemma total_nstop r s (Q : bool -> binding K N -> Prop) :
  (forall n (h : bool), h = (1 <=? net_held (bd_net s) r) ->
     (forall x, net_held n x = net_held (bd_net s) x - (if h then none r x else 0)) -> Q h (set_bd_net n s)) -> total (nstop r) s Q.
Proof.
  intros HQ. unfold total, nstop. destruct (1 <=? net_held (bd_net s) r) eqn:E.
  - apply HQ; [done |]. intros x. apply net_release_held. lia.
  - specialize (HQ (bd_net s) false). replace (set_bd_net (bd_net s) s) with s in HQ by (by destruct s). apply HQ; [done |]. intros x. lia.
Qed.

(** *** Steps on an open device *)

Lemma at_x f p s x : at_ f p s -> xs_list x = L -> (exists e, opened b e x) -> at_ f p (set_bd_x x s).
Proof. intros [H1 H2 H3 H4] El Ho. by constructor. Qed.

Lemma with_x f p a s x : with_ax f p a s -> xs_list x = L -> (exists e, opened b e x) -> with_ax f p a (set_bd_x x s).
Proof. intros [H1 H2 H3] El Ho. constructor; [by apply at_x | done | done]. Qed.

Lemma with_net f f' p a s n : with_ax f p a s -> (forall x, net_held n x = n0 x + f' x) -> with_ax f' p a (set_bd_net n s).
Proof. intros [[H1 H2 H3 H4] H5 H6] Hn. by constructor. Qed.

Lemma step_io {A} (m : io K A) P f p a s : quiet m P -> with_ax f p a s ->
  total (on_io m) s (fun r s' => P r /\ with_ax f p a s').
Proof.
  intros Hm Hs. pose proof Hs as [[(e & Ho) Hl _ _] _ _]. apply total_on_x. eapply total_io; [exact Hm | apply Ho |].
  intros r k Hr Hk. split; [done |]. apply with_x; [done | done |]. exists e. by apply opened_hw.
Qed.

Lemma step_bar i f p a s : i = 0 \/ i = 2 -> with_ax f p a s ->
  total (bar i) s (fun _ s' => with_ax f p a s').
Proof.
  intros Hi Hs. pose proof Hs as [[(e & _ & _ & (_ & _ & [_ Hb] & _) & _) Hl _ _] _ _]. apply total_on_x.
  eapply total_bar_at; [apply Hb; destruct Hi as [-> | ->]; done |]. by destruct s.
Qed.

Lemma step_isr (enable : bool) mask f p a s : with_ax f p a s ->
  total (on_x (if enable then xdma_user_isr_enable mask else xdma_user_isr_disable mask)) s (fun _ s' => with_ax f p a s').
Proof.
  intros Hs. pose proof Hs as [[(e & Ho) Hl _ _] _ _]. apply total_on_x. eapply total_weaken; [| by apply (isr_ok b e)].
  intros [] x [Hx Hx']. apply with_x; [done | congruence | done].
Qed.

Lemma step_take r f p a s : with_ax f p a s ->
  total (ntake r) s (fun rv s' => rv <= 0 /\ rv = fst (net_acquire r (bd_net s)) /\
    with_ax (fun x => f x + (if rv =? 0 then none r x else 0)) p a s').
Proof.
  intros Hs. apply total_ntake. intros rv n Er Hrv Hx. split; [done |]. split; [done |]. eapply with_net; [done |].
  intros x. rewrite Hx. pose proof (at_net _ _ _ (wa_at _ _ _ _ Hs) x). lia.
Qed.

Lemma step_need r f p a s : r ∈ needed -> with_ax f p a s ->
  total (ntake r) s (fun rv s' => rv = 0 /\ with_ax (fun x => f x + none r x) p a s').
Proof.
  intros Hr Hs. eapply total_weaken; [| by apply step_take]. intros rv s' (_ & -> & H'). rewrite Hneeded in H' |- * by done. by split.
Qed.

Lemma step_add r f p a s : with_ax f p a s -> (forall n, fst (net_acquire r n) = 0) ->
  total (nadd r) s (fun _ s' => with_ax (fun x => f x + none r x) p a s').
Proof.
  intros Hs Hr. mstep (by apply step_take). intros rv s' (_ & -> & H').
  rewrite Hr in H'. by apply total_ret.
Qed.

Lemma step_drop r f p a s : 1 <= f r -> with_ax f p a s ->
  total (ndrop r) s (fun _ s' => with_ax (fun x => f x - none r x) p a s').
Proof.
  intros Hr Hs. pose proof (at_net _ _ _ (wa_at _ _ _ _ Hs)) as Hn. pose proof (Hn0 r).
  apply total_ndrop; [rewrite Hn; lia |]. intros n Hx. eapply with_net; [done |]. intros x. rewrite Hx, Hn. lia.
Qed.

Lemma step_ax g f p a s : with_ax f p a s -> total (upd_ax g) s (fun _ s' => with_ax f p (g a) s').
Proof.
  intros [[H1 H2 H3 H4] H5 H6]. apply total_bind, total_bind, total_get. rewrite H5. apply total_ret, total_modify. by constructor.
Qed.
Lemma step_get g f p a s (Q : ax_private -> binding K N -> Prop) : with_ax f p a s -> g = a -> Q a s -> total get_ax s Q.
Proof. intros [_ H5 _] -> HQ. apply total_bind, total_get. by rewrite H5. Qed.

(** A step that ends in some state of the same kind, which takes the place of the state before it. *)
Tactic Notation "mnext" tactic3(t) :=
  match goal with |- total _ ?s _ => match goal with Hs : context [s] |- _ =>
    mstep t; [clear Hs; clear s; intros ? s Hs; cbv beta in Hs | ..] end end.

(** *** The parts *)

Lemma step_need_bind {A} r f p a s (k : Z -> st (binding K N) A) Q : r ∈ needed -> with_ax f p a s ->
  (forall s', with_ax (fun x => f x + none r x) p a s' -> total (k 0) s' Q) -> total (rv ← ntake r; k rv) s Q.
Proof. intros Hr Hs Hk. mstep (by apply step_need). intros rv s' [-> H']. by apply Hk. Qed.

Lemma init_switch_ok f p a s : with_ax f p a s -> total init_switch s (fun rv s' => rv = 0 /\
  exists w, number_of_ports w = 5 /\ with_ax (fun x => f x + none (CaptureArray Rx) x + none (CaptureArray Tx) x) p (set_ap_switch w a) s').
Proof.
  intros Hs. apply (step_need_bind _ f p a); [set_solver | done |]. clear s Hs. intros s Hs. cbn [Z.eqb].
  eapply step_need_bind; [set_solver | exact Hs |]. clear s Hs. intros s Hs. apply total_bind.
  eapply step_get; [exact Hs | done |]. cbv zeta. cbn [Z.eqb ax_tsn_init_switch]. unfold _tsn_tsq_init. cbn.
  mstep (by apply step_ax). intros [] s' H'. apply total_ret. split; [done |].
  by eexists (mkSwitch _ _ _ _ _).
Qed.

Lemma init_mdio_ok f p a s : with_ax f p a s -> total ax_init_mdio s (fun _ s' =>
  with_ax (fun x => f x + none MiiBus x + none MiiRegistered x) p (set_ap_mdio true a) s').
Proof.
  intros Hs. apply (step_need_bind _ f p a); [set_solver | done |]. clear s Hs. intros s Hs. cbn [Z.eqb negb].
  mstep (by apply step_ax). clear s Hs. intros ? s Hs.
  eapply step_need_bind; [set_solver | exact Hs |]. clear s Hs. intros s Hs. by apply total_ret.
Qed.

Lemma with_ext f f' p a s : (forall x, f x = f' x) -> with_ax f p a s -> with_ax f' p a s.
Proof. intros E [[H1 H2 H3 H4] H5 H6]. constructor; [constructor; try done; intros x; rewrite <- E; apply H3 | done | done]. Qed.

Lemma create_mdio_ok f p a s : (forall x, 0 <= f x) -> with_ax f p a s -> ap_mdio a = true -> total ax_create_mdio_dev s (fun _ s' =>
  exists (dev : bool) a', (a' = a \/ a' = set_ap_mdiodev true a) /\
    with_ax (fun x => f x + (if dev then none MdioDevice x + none MdioDeviceRegistered x else 0)) p a' s').
Proof.
  intros Hf Hs Ha. apply total_bind. eapply step_get; [exact Hs | done |]. rewrite Ha. cbn [negb].
  mstep (by apply step_take). intros rv s1 (_ & _ & Hs1). revert Hs1. destruct (rv =? 0); intros Hs1; cbn [negb].
  2: { apply total_ret. exists false, a. split; [by left | done]. }
  mstep (by eapply step_take). intros rv2 s2 (_ & _ & Hs2). revert Hs2. destruct (rv2 =? 0); intros Hs2; cbn [negb].
  - mstep (by apply step_ax). intros [] s' H'. apply total_ret. exists true, (set_ap_mdiodev true a).
    split; [by right |]. eapply with_ext; [| exact H']. intros x. cbn. lia.
  - apply total_bind. eapply total_weaken; [| apply step_drop; [| exact Hs2]]; [| pose proof (Hf MdioDevice); unfold none; rewrite decide_True by done; lia].
    intros [] s' H'. apply total_ret. exists false, a. split; [by left |]. eapply with_ext; [| exact H']. intros x. cbn. lia.
Qed.

Lemma init_clocks_ok f p a s : with_ax f p a s -> total init_clocks s (fun _ s' =>
  exists cs, ax_ptp_remove cs = [0; 1] /\ with_ax (fun x => f x + none (PtpClock 0) x + none (PtpClock 1) x) p (set_ap_clocks cs a) s').
Proof.
  intros Hs. mstep (apply (step_bar 2 f p a); [by right | done]). clear s Hs. intros base s Hs.
  eapply step_need_bind; [set_solver | exact Hs |]. clear s Hs. intros s Hs.
  eapply step_need_bind; [set_solver | exact Hs |]. clear s Hs. intros s Hs. cbv zeta.
  mstep (eapply step_io; [| exact Hs]).
  2: { apply (quiet_clocks base _ _ 0 1); [done | done | apply ptp_clock_index_some]. }
  clear s Hs. intros cs s [Hc Hs]. eapply total_weaken; [| by apply step_ax]. intros [] s' H'. by exists cs.
Qed.

Lemma setup_phys_ok f p a s : number_of_ports (ap_switch a) = 5 -> with_ax f p a s ->
  total setup_phys s (fun _ s' => with_ax f p a s').
Proof.
  intros H5 Hs. mstep (apply (step_bar 2 f p a); [by right | done]). clear s Hs. intros b2 s Hs.
  apply total_bind. eapply step_get; [exact Hs | done |]. cbv zeta. rewrite H5.
  assert (Hio : forall (m : io K unit) s, quiet m (fun _ => True) -> with_ax f p a s -> total (on_io m) s (fun _ s' => with_ax f p a s')).
  { intros m s' Hm Hs'. eapply total_weaken; [| by eapply step_io]. by intros [] s'' [_ H'']. }
  mstep (eapply step_io; [by apply quiet_rgmii | exact Hs]). clear s Hs. intros _ s [_ Hs].
  mnext (apply Hio; [apply quiet_led | exact Hs]).
  mnext (apply Hio; [apply quiet_greeneth | exact Hs]).
  mnext (apply Hio; [apply quiet_eee | exact Hs]).
  mnext (apply Hio; [apply quiet_phy_ptp | exact Hs]).
  mnext (apply Hio; [apply quiet_serdes | exact Hs]).
  apply Hio; [apply quiet_autoneg | done].
Qed.

(** *** The probe *)

(** The private data of a device that is set up. *)
Definition ax_ready a : Prop := ap_dev a = true /\ ap_mdio a = true /\ ax_ptp_remove (ap_clocks a) = [0; 1].
Definition held_services (dev drv : bool) f (x : net_resource) : Z :=
  f x + none MiiBus x + none MiiRegistered x + (if dev then none MdioDevice x + none MdioDeviceRegistered x else 0) +
  none (PtpClock 0) x + none (PtpClock 1) x + none PhyTimer x + (if drv then none MdioDriver x else 0).

Lemma none_nonneg r x : 0 <= none r x.
Proof. unfold none. case_decide; lia. Qed.

Lemma with_handlers f p a s h : with_ax f p a s -> with_ax f p a (set_bd_handlers h s).
Proof. intros [[H1 H2 H3 H4] H5 H6]. by constructor. Qed.

Lemma probe_services_ok f p a s : (forall x, 0 <= f x) -> ap_dev a = true -> number_of_ports (ap_switch a) = 5 ->
  with_ax f p a s -> total probe_services s (fun _ s' => exists dev drv a', ax_ready a' /\
    ap_proc_dir a' = ap_proc_dir a /\ ap_proc a' = ap_proc a /\ with_ax (held_services dev drv f) p a' s').
Proof.
  intros Hf Hd H5 Hs. mnext (by apply (init_mdio_ok f p a)).
  mstep (eapply create_mdio_ok; [| exact Hs | done]).
  2: { intros x. pose proof (Hf x). pose proof (none_nonneg MiiBus x). pose proof (none_nonneg MiiRegistered x). lia. }
  clear s Hs. intros ? s (dev & a1 & Ha1 & Hs).
  assert (E1 : ap_dev a1 = true /\ ap_mdio a1 = true /\ number_of_ports (ap_switch a1) = 5 /\
    ap_proc_dir a1 = ap_proc_dir a /\ ap_proc a1 = ap_proc a) by (by destruct Ha1 as [-> | ->]). clear Ha1. destruct E1 as (D1 & M1 & N1 & P1 & P2).
  mstep (by eapply init_clocks_ok). clear s Hs. intros ? s (cs & Hcs & Hs).
  apply total_bind, total_modify. set (s1 := set_bd_handlers _ s).
  apply (with_handlers _ _ _ _ (bd_handlers s1)) in Hs. assert (Hs1 : with_ax _ p (set_ap_clocks cs a1) s1) by exact Hs.
  clearbody s1. mstep (apply (step_isr true 0xFE), Hs1). clear s s1 Hs Hs1. intros ? s Hs.
  mnext (eapply setup_phys_ok; [| exact Hs]; exact N1).
  mnext (eapply step_add; [exact Hs | apply timer_set]).
  mstep (eapply step_take, Hs). intros rv s1 (_ & _ & Hs1). apply total_ret.
  exists dev, (rv =? 0), (set_ap_clocks cs a1). split_and!; [by split | done | done |].
  eapply with_ext; [| exact Hs1]. intros x. unfold held_services. cbn. lia.
Qed.

Lemma create_procs_ok pdev l k : forall f p a s (Q : Z -> binding K N -> Prop),
  (forall e, e ∈ l -> ProcEntry e ∈ needed) -> with_ax f p a s ->
  (forall s', with_ax (fun x => f x + foldr (fun e z => none (ProcEntry e) x + z) 0 l) p (foldl (fun a e => set_ap_proc e a) a l) s' ->
     total k s' Q) ->
  total (create_procs pdev l k) s Q.
Proof.
  induction l as [| e l IH]; intros f p a s Q Hl Hs Hk; cbn [create_procs].
  { apply Hk. eapply with_ext; [| exact Hs]. intros x. cbn. lia. }
  eapply step_need_bind; [apply Hl; set_solver | exact Hs |]. clear s Hs. intros s Hs. cbn [Z.eqb negb].
  mnext (by apply step_ax).
  eapply IH; [intros; apply Hl; set_solver | exact Hs |]. intros s' Hs'. apply Hk. eapply with_ext; [| exact Hs']. intros x. cbn. lia.
Qed.

Lemma read_ok i off f p a s {A} (k : st (binding K N) A) Q : i = 0 \/ i = 2 -> with_ax f p a s ->
  (forall s', with_ax f p a s' -> total k s' Q) -> total (b0 ← bar i; _ ← on_io (readl (b0 + off)); k) s Q.
Proof.
  intros Hi Hs Hk. mstep (apply (step_bar i f p a); done). clear s Hs. intros b0 s Hs.
  mstep (apply (step_io _ (fun _ => True) f p a); [by apply quiet_readl | done]).
  intros v s' [_ Hs']. by apply Hk.
Qed.

Lemma probe_procs_ok pdev f p a s : with_ax f p a s -> total (probe_procs pdev) s (fun rv s' => rv = 0 /\
  exists a', with_ax (fun x => f x + none ProcDir x + none (ProcEntry IfnameOld) x + none (ProcEntry IfnameNew) x +
      none (ProcEntry CoreVersion) x) p a' s' /\
    ap_dev a' = ap_dev a /\ ap_mdio a' = ap_mdio a /\ ap_clocks a' = ap_clocks a /\ ap_proc_dir a' = true /\ forall e, ap_proc a' e = true).
Proof.
  intros Hs. eapply step_need_bind; [set_solver | exact Hs |]. clear s Hs. intros s Hs. cbn [Z.eqb negb].
  mnext (by apply step_ax).
  eapply create_procs_ok; [intros []; set_solver | exact Hs |]. clear s Hs. intros s Hs.
  eapply read_ok; [by left | exact Hs |]. clear s Hs. intros s Hs. eapply read_ok; [by right | exact Hs |]. clear s Hs. intros s Hs.
  apply total_ret. split; [done |]. eexists. split; [eapply with_ext; [| exact Hs]; intros x; cbn; lia |]. by split_and!; [.. | intros []].
Qed.

(** A bound device. *)
Definition bound (pdev xdev : Z) s : Prop := exists dev drv p a, with_ax (held_bound dev drv) p a s /\
  pd_xdev p = Some xdev /\ pd_ax p = true /\ ax_ready a /\ ap_proc_dir a = true /\ forall e, ap_proc a e = true.

Lemma step_pci g f p a s : with_ax f p a s -> total (upd_pci g) s (fun _ s' => with_ax f (g p) a s').
Proof.
  intros [[H1 H2 H3 H4] H5 H6]. apply total_bind, total_bind, total_get. rewrite H4. apply total_ret, total_modify.
  constructor; [by constructor | done | done].
Qed.

Lemma probe_netdev_ok pdev xdev p s : pd_xdev p = Some xdev ->
  with_ax (fun x => none PciDev x + none NetDevice x) p zero_ax s ->
  total (probe_netdev pdev) s (fun rv s' => rv = 0 /\ bound pdev xdev s').
Proof.
  intros Hp Hs. mstep (eapply init_switch_ok, Hs). clear s Hs. intros r s (-> & w & Hw & Hs).
  cbn [Z.eqb negb]. mnext (eapply step_ax, Hs).
  mnext (eapply step_pci, Hs).
  mstep (eapply (step_bar 2); [by right | exact Hs]). clear s Hs. intros b2 s Hs.
  mstep (eapply step_io; [apply (quiet_mac (fun _ => b2) 0) | exact Hs]). clear s Hs. intros mac s [Hm Hs].
  mnext (eapply step_add; [exact Hs | apply napi_added]).
  mnext (eapply step_ax, Hs). rewrite (oui_valid mac Hm). cbn [negb].
  mstep (eapply (step_bar 0); [by left | exact Hs]). clear s Hs. intros b0 s Hs.
  mstep (eapply step_io; [by apply quiet_set_mac | exact Hs]). clear s Hs. intros ? s [_ Hs].
  eapply step_need_bind; [set_solver | exact Hs |]. clear s Hs. intros s Hs. cbn [Z.eqb negb].
  mstep (eapply probe_services_ok; [| | | exact Hs]; [| done | done]).
  2: { intros x. repeat (apply Z.add_nonneg_nonneg; [| apply none_nonneg]). apply none_nonneg. }
  clear s Hs. intros ? s (dev & drv & ax & (R1 & R2 & R3) & _ & _ & Hs).
  eapply total_weaken; [| eapply probe_procs_ok, Hs]. clear s Hs. intros rv s (-> & a' & Hs & E1 & E2 & E3 & E4 & E5).
  split; [done |]. exists dev, drv, (set_pd_ax true p), a'. split_and!; [| done | done | | done | done].
  - eapply with_ext; [| exact Hs]. intros x. unfold held_bound, held_services. lia.
  - split_and!; congruence.
Qed.

Lemma probe_device_ok pdev xdev p s : at_ (none PciDev) p s -> total (probe_device pdev xdev) s (fun rv s' => rv = 0 /\ bound pdev xdev s').
Proof.
  intros [H1 H2 H3 H4]. apply total_bind, total_bind, total_bind, total_get. rewrite H4. apply total_ret, total_modify.
  apply total_bind, total_modify, total_bind, total_ntake. intros rv n -> _ Hn. rewrite Hneeded in Hn |- * by set_solver.
  cbn [Z.eqb negb]. apply total_bind, total_modify, total_bind, total_modify.
  apply (probe_netdev_ok pdev xdev (set_pd_xdev (Some xdev) p)); [done |].
  constructor; [constructor | |]; try done. intros x. cbn in *. rewrite Hn, H3. cbn. lia.
Qed.

(** *** The removal *)

Definition unbound (xdev : Z) s : Prop := bd_drvdata s = false /\
  xs_list (bd_x s) = delete_first (fun x => xl_addr x =? xdev) L /\
  (forall x, x <> Tasklet -> pci_held (xs_hw (bd_x s)) x = b x) /\
  forall x, net_held (bd_net s) x = n0 x + none (CaptureArray Rx) x + none (CaptureArray Tx) x.

Lemma step_proc e f p a s : 1 <= f (ProcEntry e) -> ap_proc a e = true -> with_ax f p a s ->
  total (remove_proc e) s (fun _ s' => with_ax (fun x => f x - none (ProcEntry e) x) p a s').
Proof. intros Hf Ha Hs. apply total_bind. eapply step_get; [exact Hs | done |]. rewrite Ha. by apply step_drop. Qed.

Lemma step_stop r (h : bool) f p a s : n0 r = 0 -> f r = (if h then 1 else 0) -> with_ax f p a s ->
  total (nstop r) s (fun h' s' => h' = h /\ with_ax (fun x => f x - (if h then none r x else 0)) p a s').
Proof.
  intros H0 Hr Hs. pose proof (at_net _ _ _ (wa_at _ _ _ _ Hs)) as Hn. apply total_nstop. intros n h' Hh Hx.
  assert (E : h' = h) by (rewrite Hh, Hn, H0, Hr; by destruct h). subst h'. split; [done |]. eapply with_net; [done |].
  intros x. rewrite Hx, Hn, E. lia.
Qed.

(** Every resource of the network is counted by its indicator. *)
Ltac held := unfold held_bound, none; repeat first [rewrite decide_True by done | rewrite decide_False by done]; try lia.

Lemma remove_mdio_ok (dev : bool) f p a s : ap_mdio a = true -> f MdioDeviceRegistered = (if dev then 1 else 0) ->
  f MdioDevice = (if dev then 1 else 0) -> f MiiRegistered = 1 -> f MiiBus = 1 -> with_ax f p a s ->
  total ax_remove_mdio s (fun _ s' => with_ax (fun x => f x - (if dev then none MdioDevice x + none MdioDeviceRegistered x else 0) -
    none MiiRegistered x - none MiiBus x) p a s').
Proof.
  intros Ha Hd Hd' Hr Hb Hs. apply total_bind. eapply step_get; [exact Hs | done |]. rewrite Ha. cbn [negb].
  apply total_bind, total_bind. eapply total_weaken; [| eapply (step_stop _ dev); [by apply Hnew | exact Hd | exact Hs]].
  clear s Hs. intros h s [-> Hs]. apply total_bind.
  apply (total_weaken _ _ (fun _ s' => with_ax (fun x => f x - (if dev then none MdioDevice x + none MdioDeviceRegistered x else 0)) p a s')).
  - clear s Hs. intros ? s Hs. eapply total_weaken; [| eapply step_drop; [| exact Hs]]; [| destruct dev; held].
    clear s Hs. intros ? s Hs. eapply total_weaken; [| eapply step_drop; [| exact Hs]]; [| destruct dev; held].
    intros [] s' H'. eapply with_ext; [| exact H']. intros x. cbn. lia.
  - destruct dev; [| apply total_ret; eapply with_ext; [| exact Hs]; intros x; cbn; lia].
    eapply total_weaken; [| eapply step_drop; [| exact Hs]]; [| held].
    intros [] s' H'. eapply with_ext; [| exact H']. intros x. cbn. lia.
Qed.

(** The network device and the endpoint go last. *)
Lemma free_ok pdev xdev f p a s : fresh b -> found pdev xdev L -> pd_xdev p = Some xdev ->
  (forall x, f x = none PciDev x + none NetDevice x + none (CaptureArray Rx) x + none (CaptureArray Tx) x) -> with_ax f p a s ->
  total (_ ← free_netdev; _ ← xpdev_free pdev; modify (set_bd_drvdata false)) s (fun _ => unbound xdev).
Proof.
  intros Hf Hfd Ep Ef Hs. apply total_bind, total_bind, total_get.
  rewrite (at_net _ _ _ (wa_at _ _ _ _ Hs)), Ef, (Hnew NetRegistered) by done.
  replace (1 <=? _) with false by (unfold none; repeat rewrite decide_False by done; done).
  mstep (eapply (step_stop _ false); [by apply Hnew | rewrite Ef; held | exact Hs]).
  clear s Hs. intros ? s [_ Hs].
  apply (with_ext _ (fun x => none PciDev x + none NetDevice x + none (CaptureArray Rx) x + none (CaptureArray Tx) x)) in Hs;
    [| intros x; rewrite Ef; lia].
  mnext (eapply step_drop; [| exact Hs]; held).
  apply total_modify. destruct Hs as [[Ho Hl Hn Hp] _ _]. set (s1 := set_bd_ax PFreed s).
  assert (H1 : (exists e, opened b e (bd_x s1)) /\ xs_list (bd_x s1) = L /\ bd_pci s1 = PLive p) by done.
  assert (Hn1 : forall x, net_held (bd_net s1) x = n0 x + (none PciDev x + none (CaptureArray Rx) x + none (CaptureArray Tx) x))
    by (intros x; unfold s1; cbn; rewrite Hn; lia).
  clearbody s1. clear s Ho Hl Hn Hp. destruct H1 as ((e & Ho) & Hl & Hp).
  apply total_bind, total_bind, total_bind, total_get. rewrite Hp. apply total_ret.
  apply total_bind, total_bind, total_bind, total_get. rewrite Hp. apply total_ret, total_modify. rewrite Ep.
  apply total_bind, total_on_x. eapply total_weaken; [| apply (close_ok b e); [done | exact Ho | cbn; by rewrite Hl]].
  intros [] x [Hx1 Hx2]. apply total_bind, total_ndrop.
  { cbn. rewrite Hn1. pose proof (Hn0 PciDev). held. }
  intros n Hnx. apply total_modify, total_modify. split_and!; [done | cbn in *; by rewrite Hx1, Hl | |].
  - intros y Hy. cbn in *. rewrite Hx2 by done. destruct Ho as (_ & _ & _ & ->). lia.
  - intros y. cbn in *. rewrite Hnx, Hn1. lia.
Qed.

Lemma remove_ok pdev xdev s : fresh b -> found pdev xdev L -> bound pdev xdev s ->
  total (axm57104_remove pdev) s (fun _ => unbound xdev).
Proof.
  intros Hf Hfd (dev & drv & p & a & Hs & Ep & Ex & (A1 & A2 & A3) & A4 & A5).
  apply total_bind, total_get. rewrite (wa_drv _ _ _ _ Hs). cbn [negb].
  apply total_bind, total_bind, total_get. rewrite (at_pci _ _ _ (wa_at _ _ _ _ Hs)). apply total_ret. rewrite Ex. cbn [negb].
  mstep (eapply (step_stop _ true); [by apply Hnew | | exact Hs]; destruct dev, drv; held).
  clear s Hs. intros ? s [_ Hs].
  do 3 (mstep (eapply step_proc; [| apply A5 | exact Hs]; destruct dev, drv; held);
    clear s Hs; intros ? s Hs).
  apply total_bind, total_bind. eapply step_get; [exact Hs | done |]. rewrite A4.
  eapply total_weaken; [| eapply step_drop; [| exact Hs]; destruct dev, drv; held]. clear s Hs. intros ? s Hs.
  mnext (eapply step_drop; [| exact Hs]; destruct dev, drv; held).
  mnext (eapply (step_isr false), Hs).
  apply total_bind, total_bind. eapply step_get; [exact Hs | done |]. rewrite A3. cbn [unregister_clocks].
  mnext (eapply step_drop; [| exact Hs]; destruct dev, drv; held).
  mnext (eapply step_drop; [| exact Hs]; destruct dev, drv; held).
  apply total_ret, total_bind. eapply total_weaken; [| eapply (step_stop _ drv); [by apply Hnew | | exact Hs]; destruct dev, drv; held].
  clear s Hs. intros ? s [_ Hs].
  mstep (eapply (remove_mdio_ok dev); [done | | | | | exact Hs]; destruct dev, drv; held).
  clear s Hs. intros ? s Hs.
  mnext (eapply step_drop; [| exact Hs]; destruct dev, drv; held).
  eapply free_ok; [done | done | done | | exact Hs]. intros x. destruct dev, drv; unfold held_bound; lia.
Qed.

(** *** Around them *)

Lemma probe_found_ok pdev xdev u p s : found pdev xdev L -> at_ (none PciDev) p s ->
  total (_ ← (if negb (u =? 0) then on_x (xdma_user_isr_enable (Z.land (u32 (Z.shiftl 1 (u + 1) - 1)) 0xFFFE)) else mret tt);
         found ← on_x (xdev_find_by_pdev pdev);
         match found with
         | None => mret (- EINVAL)
         | Some x => if negb (x =? xdev) then fault else probe_device pdev xdev
         end) s (fun rv s' => rv = 0 /\ bound pdev xdev s').
Proof.
  intros Hfd Hs. apply total_bind. apply (total_weaken _ _ (fun _ s' => at_ (none PciDev) p s')).
  - clear s Hs. intros ? s Hs. apply total_bind, total_on_x, total_bind, total_get, total_ret. destruct Hfd as (x & Ex & Hx).
    rewrite (at_list _ _ _ Hs), Ex. cbn [fmap option_fmap option_map]. rewrite Hx, Z.eqb_refl. cbn [negb].
    apply (probe_device_ok pdev xdev p). destruct s. exact Hs.
  - destruct (negb _); [| by apply total_ret]. pose proof Hs as [(e & Ho) Hl _ _]. apply total_on_x.
    eapply total_weaken; [| by apply (isr_ok b e _ true)]. intros [] x [Hx Hx']. apply at_x; [done | congruence | done].
Qed.

Lemma bound_session pdev xdev ops s : (forall k : K, fst (pci_acquire Tasklet k) = 0) -> found pdev xdev L -> bound pdev xdev s ->
  total (on_x (run_session pdev xdev ops)) s (fun _ s' => bound pdev xdev s').
Proof.
  intros Hz Hfd (dev & drv & p & a & Hs & Hrest). pose proof Hs as [[(e & Ho) Hl _ _] _ _]. apply total_on_x.
  eapply total_weaken; [| apply (run_session_ok b pdev xdev ops Hz e _ Ho); by rewrite Hl]. intros [] x [Hx Hx'].
  exists dev, drv, p, a. split; [apply with_x; [done | congruence | done] | done].
Qed.
End Bind.

(** *** The life of a binding *)

Section BindLife.
Context {K N : Type} `{!Device K} `{!PciApi K} `{!NetApi N} {addr : AddrApi}.
Implicit Types (s : binding K N).

(** Probe; then, if that worked, changes of the interrupt masks and resets, and
    the removal. *)
Definition bind_run (pdev xdev : Z) (ops : list session_op) : st (binding K N) Z :=
  rv ← axm57104_probe pdev xdev;
  _ ← (if rv =? 0 then _ ← on_x (run_session pdev xdev ops); axm57104_remove pdev else mret tt);
  mret rv.

(** Nothing is held of the network but what earlier bindings left. *)
Definition net_fresh s : Prop := forall x, (forall d, x <> CaptureArray d) -> x <> PciDev -> net_held (bd_net s) x = 0.

(** How a binding ends, by what the probe returns. *)
Definition ended (rv : Z) s s' : Prop :=
  let b := pci_held (xs_hw (bd_x s)) in
  (rv = 0 /\ bd_drvdata s' = false /\ xs_list (bd_x s') = xs_list (bd_x s) /\
   (forall x, x <> Tasklet -> pci_held (xs_hw (bd_x s')) x = b x) /\
   forall x, net_held (bd_net s') x = net_held (bd_net s) x + none (CaptureArray Rx) x + none (CaptureArray Tx) x) \/
  (rv = - ENOMEM /\ bd_x s' = bd_x s /\ forall x, net_held (bd_net s') x = net_held (bd_net s) x) \/
  (rv = - EINVAL /\ (forall x, net_held (bd_net s') x = net_held (bd_net s) x + none PciDev x) /\
   (unchanged b (bd_x s) (bd_x s') \/ exists e, opened b e (bd_x s'))).

End BindLife.

(** ** A card to bind *)

Module ProbeDemo.
Import LifeDemo CtlDemo.

(** How often each resource is held; those in [refused] are not to be had, unless
    the kernel always has what the probe cannot do without. *)
Record net (sound : bool) := mkNet { n_counts : net_resource -> nat; n_refused : list net_resource }.
#[global] Arguments mkNet {sound}.
#[global] Arguments n_counts {sound}.
#[global] Arguments n_refused {sound}.

Definition sure (sound : bool) (r : net_resource) : bool :=
  match r with NapiContext | PhyTimer => true | _ => sound && bool_decide (r ∈ needed) end.
Definition net_take {sound} (r : net_resource) (n : net sound) : Z * net sound :=
  if bool_decide (sure sound r = false /\ r ∈ n_refused n) then (- ENOMEM, n)
  else (0, mkNet (fun x => if decide (r = x) then S (n_counts n x) else n_counts n x) (n_refused n)).

#[export] Instance net_api sound : NetApi (net sound).
Proof.
  refine {|
    net_acquire := net_take;
    net_release r n := mkNet (fun x => if decide (r = x) then pred (n_counts n x) else n_counts n x) (n_refused n);
    net_held n r := Z.of_nat (n_counts n r);
    capture_memory n := replicate (Z.to_nat n) (mkCapture 0 [0; 0; 0] [0; 0; 0] 0 0 0);
    ptp_clock_index c := c |}.
  - lia.
  - intros r n. unfold net_take. by case_bool_decide.
  - intros r n x. unfold net_take, ENOMEM. case_bool_decide; cbn [fst snd n_counts]; repeat case_decide; destruct_and?; lia || tauto || done.
  - intros r n x H. cbn. case_decide; subst; lia.
  - intros n. unfold net_take. by rewrite bool_decide_false by (by intros [? _]).
  - intros n. unfold net_take. by rewrite bool_decide_false by (by intros [? _]).
  - intros n Hn. rewrite length_replicate. lia.
  - intros c. by eexists.
Defined.

(** A card on which these are not to be had. *)
Definition card {sound} (refused : list net_resource) : binding pci (net sound) :=
  mkBinding (start []) (mkNet (fun _ => O) refused) PNull PNull false 0 (replicate 16 None).
Definition kept {sound} (s : binding pci (net sound)) : list net_resource :=
  filter (fun r => net_held (bd_net s) r <> 0) (needed ++ [PciDev; NapiContext; MdioDevice; MdioDeviceRegistered; PhyTimer; MdioDriver]).

Definition outcome_of {sound} (r : option (Z * binding pci (net sound))) : option (Z * list net_resource * Z) :=
  match r with Some (rv, s) => Some (rv, kept s, pci_held (xs_hw (bd_x s)) DevMemory) | None => None end.
Definition probe_card (refused : list net_resource) := outcome_of (axm57104_probe 7 0x5000 (card (sound := false) refused)).

(** With a switch driver or not. *)
Example binds : probe_card [MdioDriver; MdioDevice] =
  Some (0, filter (fun r => r <> MdioDevice /\ r <> MdioDeviceRegistered /\ r <> MdioDriver)
    (needed ++ [PciDev; NapiContext; MdioDevice; MdioDeviceRegistered; PhyTimer; MdioDriver]), 1).
Proof. vm_compute. reflexivity. Qed.

(** Without memory for a queue of captures the probe returns zero: the card counts
    as bound, its endpoint is closed and its network device lost. *)
Example bound_and_closed : probe_card [CaptureArray Rx] = Some (0, [NetDevice], 0).
Proof. vm_compute. reflexivity. Qed.

(** A failed registration, or a missing entry in /proc, is the end. *)
Example not_survived : Forall (fun r => probe_card [r] = None) [NetDevice; NetRegistered; MiiBus; MiiRegistered; PtpClock 0; ProcDir; ProcEntry CoreVersion].
Proof. repeat constructor; vm_compute; reflexivity. Qed.

Definition sound_card : binding pci (net true) := card [MdioDriver].
Definition demo_ops : list session_op := [SReset; SIsrDisable 2].

End ProbeDemo.
